(* ===== verification/_CoqProject ===== *)
-Q . S2P
Prelude.v
Float.v
Json.v
DeviceStates.v
DataModel.v
World.v
SensorData.v
Netserver.v
DbData.v
RobotSchedule.v
System.v
Behaviour.v
CleanLoop.v
Settings.v
WheelTimer.v
WheelPlacement.v
WheelSpec.v
WheelRefine.v
MsgQueue.v
Crc16.v
Serialize.v
Navigate.v
NavigateTheorems.v
PathPackets.v
Connect.v
Pausing.v
HeapTimer.v
HeapOrder.v
HeapTheorems.v
RingBuffer.v
Watchdog.v
MemBuffer.v
Base64.v
Base64Theorems.v
PacketFrames.v
PacketSocket.v
DpMessage.v
DpBroker.v
DpRouting.v
DpClient.v
DpCalls.v
DpSystem.v
KvdbCheck.v
Kvdb.v
KvdbTheorems.v
JsonText.v
TimeUtil.v
Mldb.v
DbBase.v
DbNetwork.v
DbPeripheral.v
DbServer.v
SqlTexts.v
MldbRef.v
DbTheorems.v
DbAnswers.v
DbMaps.v
DbTimings.v
DbStart.v
SettingsPath.v
Smartp.v
SmartpTheorems.v
SmartpEvents.v
SmartpSystem.v
SmartpMaps.v
Rpc.v
NetProcess.v
Pid.v
Motors.v
Wheels.v
Keys.v
Sensors.v
Protect.v
PerServer.v
WheelDrive.v
PerReach.v
PerSystem.v
