(* ===== verification/Prelude.v ===== *)
(** * h3robot: a verification library for the cleaning robot

    The program.  src/lib_app/robot_schedule is the process that decides what
    the cleaning robot does.  It is a set of singletons with a few threads: the
    scheduler CRobotSchedule with its cleaning loop, the data model CDataModel
    and the job queue CRobotjobEvent they all share, SensorData for the keys
    and the sensors (its client for faults never listens), NetserverInstruct for the commands of the app
    and the trail of poses, DbdataBase for settings, maps and reservations.
    They talk to other processes by DP messages with JSON bodies, and to the
    navigation process over four UNIX sockets (socket/navigate.cpp).  Timers
    come from two interchangeable implementations, a timing wheel and a heap.

    The settings are kept by another process, the database server
    (src/lib_app/db_server), in an SQL database.  A third one, the network process
    (src/lib_app/net_server), carries the commands of the phone's app and of a debug
    client on a PC to them and what they broadcast back.  A fourth one, the
    peripherals server (src/lib_app/peripherals_server), drives the motors on their
    requests and broadcasts what the keys, the switches and the sensors measure.

    Below every process is src/lib_bsp: the event service with the buffers and
    sockets that carry DP messages, the DP server that passes them on and the
    client library, the watchdog all processes feed, and the key-value store.

    Files and what they model (paths below src/lib_app/robot_schedule, from
    RingBuffer on below src/lib_bsp, from JsonText on below
    src/lib_app/db_server, from Smartp on below src/lib_app/net_server, from Pid on
    below src/lib_app/peripherals_server):
    - Prelude: undefined behaviour as a value [res], the state monad [ST],
      triples and invariants of computations with the tactic [solve_pres],
      machine integers;
    - Float, Json: the doubles of the poses; the values of jsoncpp as the
      handlers read them (src/third_part/json), with its failure macro that
      does nothing;
    - DeviceStates, DataModel: schedule/DeviceStates.h, schedule/DateModel.cpp
      and CRobotjobEvent of schedule/RobotSchedule.cpp;
    - World: the fields of all singletons in one record, the calls that leave
      the process as a trace [out], what a handler sees of the outside as a
      class [Env], clean/control_interface.cpp, the requests to peripherals;
    - SensorData, Netserver, DbData, RobotSchedule: schedule/SensorData.cpp,
      NetserverInstruct.cpp, DbdataBase.cpp, RobotSchedule.cpp, one definition
      per handler, query, timer callback and part of the cleaning loop;
    - System: every entry point as a [label], [handler], [step], [reachable],
      and the invariant [Inv] that all handlers preserve;
    - Behaviour, CleanLoop, Settings: the theorems on them;
    - WheelTimer, WheelPlacement, WheelSpec, WheelRefine: schedule/
      wheel_timer.cpp, the arithmetic of its slots, an abstract timer service
      (a map of timers) with the invariant of the wheels, and the theorems;
    - HeapTimer, HeapOrder, HeapTheorems: schedule/heap_timer.cpp, the heap
      order and what the two loops do to it, and the theorems;
    - MsgQueue: socket/msgqueue.cpp in a heap of nodes, one memory access per
      step, so that enqueue and dequeue can interleave;
    - Crc16, Serialize, Navigate: the checksum, socket/serialize.cpp with the
      class [Wire] of structures that survive the way over a socket, and the
      packets, buffers and receiver threads of socket/navigate.cpp;
    - NavigateTheorems, PathPackets: the theorems on them;
    - Connect: the connections of socket/navigate.cpp and the descriptor table;
    - Pausing: socket/thread_pool.cpp, the calls that pause and resume a socket
      thread, interleaved with it at the steps of the pthread library;
    - RingBuffer: eventservice/mem/ring_buffer.cpp, with the bounds of its
      memory;
    - Watchdog: watchdog/watchdog.cpp, the table all processes share, its
      configuration file and the text of its report;
    - MemBuffer: eventservice/mem/membuffer.cpp, buffers as lists of pointers
      to blocks in a heap, since appending shares blocks;
    - Base64, Base64Theorems: eventservice/util/base64.cpp, every encoder with the
      memory it reads, the decoder, and the theorems;
    - PacketFrames: the packet format of eventservice/net/asyncpacketsocket.h
      and byteorder.h, with a reference parser of byte streams;
    - PacketSocket: reading and writing of a stream socket
      (eventservice/net/networkservice.cpp, networktinterfaceimpl.cpp) and the
      packets on it (asyncpacketsocket.cpp), for any answers of the kernel;
    - DpMessage, DpBroker: the packet of a DP message and the server of
      eventservice/dp (dpagent.cpp, dpserver.cpp), one definition per handler;
    - DpRouting: an abstract view of the server's maps and the theorems on it;
    - DpClient, DpCalls: dp/dpclient.cpp, its calls split where they wait, and
      the theorems on calls that interleave;
    - DpSystem: two clients and the server in one system, and a call from one
      to the other, end to end;
    - KvdbCheck, Kvdb, KvdbTheorems: kvdb/kvdb/kvdbparamcheck.cpp and
      kvdboperatefile.cpp over files that a write may leave cut, and the
      theorems on them;
    - JsonText: writing into JSON values, sprintf into a buffer, std::stoi and
      std::stof; the parser and the printer of texts are the class [JsonText];
    - TimeUtil: src/lib_bsp/eventservice/util/time_util.cpp over the calendar of the
      C library, and the theorems;
    - Mldb: the SQL library, which is not in the repository, as a class of
      operations on texts ([Mldb]) and its laws for the statements the server
      prints ([MldbSpec]); MldbRef is an instance of them in memory;
    - DbBase, DbNetwork, DbPeripheral, DbServer: base/common.c and
      parseyaml/yamlparse.cpp, db_net/db_network.cpp, db_peripheral/
      db_peripheral.cpp, main/db_manager.cpp, one definition per handler, with
      the texts of the statements as the code prints them;
    - SqlTexts: printed numbers and texts are read back;
    - DbTheorems, DbAnswers, DbMaps, DbTimings, DbStart: the settings, the form
      of the answers, the saved maps, the week and the zones, and the start;
    - SettingsPath: the database server and the scheduler together;
    - Smartp: smartp/smartp_manager.cpp, the connection of the app, one definition
      per command, broadcast, timer and answer; the protocol library, files and
      other servers are the class [Outside];
    - SmartpTheorems, SmartpEvents: its messages, and the events it can see as
      a step relation with an invariant;
    - SmartpSystem, SmartpMaps: the app's module with the database server and the
      scheduler behind it; the settings, the jobs, the saved maps end to end;
    - Rpc: rpc/rpc_manager.cpp, the connection of the debug client;
    - NetProcess: main/net_server.cpp, what the scheduler broadcasts until it
      reaches the app and the debug client, and the debug client's commands;
    - Pid, Motors, Wheels: utils/wheel_pid/pid.cpp with the motors of base/comhead.h,
      controls/motor_manager.cpp and wheel_manager.cpp, with what the drivers are
      told as a list;
    - Keys, Sensors: controls/gpio_manager.cpp and ir_sensor.cpp, the samples of
      adc/adc_manager.cpp and imu/imu_sensor.cpp;
    - Protect: ProtectCheck of adc/adc_manager.cpp;
    - PerServer: main/device_manager.cpp, the dispatch to these modules, and the
      broadcast of all readings; the distance sensors are the class
      [DistanceSensors];
    - WheelDrive, PerReach: what the wheels are given and when they fail to start;
      the whole server as a step relation, with the duties of all motors;
    - PerSystem: the peripherals server with the scheduler, the app's module, the
      debug client and the database server.

    What the theorems show.
    - The state machine: exactly eight device states can be reached, since no
      fault message arrives; which entry points can go wrong, and how: by the
      values a message carries, in the cleaning loop where house_clean and
      room_clean have no return statement, in the timer of the settings and where
      the coordinate of a pose is negated; pausing, continuing and keys change the
      state as a table says; a reservation never starts a cleaning.  Handlers
      that nothing calls (OnDpFault_Message, listenState, sendmapdata, the direct
      queries) are definitions with lemmas of their own, no entry points.
    - The cleaning loop: a command is carried out once; the iteration that
      carries out a whole cleaning, for a build in which the missing return of
      house_clean gives a value and as undefined behaviour otherwise; the log
      and the maps that are sent; the threads a stopped cleaning leaks.
    - Settings: forbidden zones reach the algorithm library vertex for vertex,
      four vertices at most; what the trail query of the app misses; what the
      do-not-disturb window is compared with.
    - Timers: the wheel refines the map of timers tick by tick and its
      detection ends; the heap timer calls exactly what is due, in order, and
      stays a heap; for both, registering and unregistering change one timer.
      The uses that end in undefined behaviour or do not end are theorems too.
    - Communication: what is sent is received, a packet with two damaged
      neighbouring bytes is dropped, the length fields that break the
      receiver's buffers are characterised exactly, the queue is a FIFO when
      its calls do not overlap and breaks when they do; pausing and resuming a
      thread loses no wake-up and ends after a bounded number of steps; sockets with their flag
      set are open as long as nobody closes the low socket twice.
    - The event service: what a packet socket delivers is a prefix of the
      packets the other end wrote, whole and in order, however the kernel cuts
      the stream; its parser is equivalent to the reference parser, and the
      headers on which it does not end are known.  Block buffers read back the
      bytes written.  The ring buffer is a bounded queue of bytes when all
      transfers have one size that divides its own, and goes out of bounds
      otherwise.
    - DP: the maps of the server agree with the listeners in every reachable
      state; a broadcast reaches exactly who listens to it, a request its one
      listener and the reply the client that asked, as long as the 16 bits the
      server keeps of a client's number do not wrap; a call over the server
      returns the answer of the other process; a call gets its own answer or
      none, as long as each message is answered once and no reply comes in the
      moment the wait ends; what happens otherwise is a theorem too.
    - The key-value store: what is written is read; a write cut after its
      header of nine bytes leaves the value of the second file or the new one in
      safe mode, one damaged byte of the checksum or the value is always found
      and the second file read (a damaged length need not be found); the cases in
      which neither holds are theorems too, a full disk that is not reported
      among them.  A value the check accepts
      lies within the bounds of its description.
    - The database server: a setting, a week or a zone that is set is answered
      when it is asked for, and nothing else changes; the requests on maps
      implement a list of maps, of which a query gives the part before the
      first hole; every answer has its form; a start resets the settings, maps,
      zones and the switch of the reservations, but not the days of the week and
      the activation, whose tables it does not drop; what is set reaches the scheduler,
      by the broadcast and by its own query, with the same result.
    - The network process: a setting, a job and a saved map go from the app to the
      server concerned and back unchanged, a map in numbered packets whose texts
      decode to the compressed cells; a change of state reaches the app as its
      number and the debug client as its name; which commands and broadcasts are
      lost; at most one update of the battery level is pending, and when its timer
      fires it reports the last level that was read.
    - The peripherals server: as long as no request makes it read behind a table of
      speeds, every duty of a motor lies within its limits, but for the 1 a wheel
      gets that is to start too fast; after a request to stop nothing is
      given to a wheel; the levels the scheduler requests for a cleaning type are
      carried out, the levels that read behind the tables are known; a long press of
      the key switches the power off through the scheduler; of the readings, the
      distance of the wall and the bumpers go to the algorithm library, the angle,
      the accelerations and the speeds to the navigation process, the battery to
      the app's module; the level of the battery is a percentage that
      grows with the voltage; the calibration that is lost, the mop that is
      switched off late, the turn to the wrong side.
    - Base64 and dates: the strict decoder accepts exactly what the encoder makes;
      a printed date is read back in one time zone.
    - The watchdog: a check reports exactly the modules whose time is up, a
      module that stops feeding is reported, the report fits its buffer.

    Conventions.  Undefined behaviour of C++ is [Ub] with a reason and ends a
    computation.  Where control falls off the end of a function that should return
    a value, [falls_off] of the class [Env] says what the build makes of it: a
    value, or undefined behaviour; the theorems that depend on it say for which.
    [Z] with [uwrap]/[swrap] stands for machine integers.
    What a program reads from outside (the clock, the replies of servers, the
    algorithm library, the bytes of a socket, the kernel's descriptors, the
    contents of uninitialised locals) is an argument or part of the state.
    Sizes are those of LP64: int has 32 bits, long and size_t have 64.
    Floating point is IEEE arithmetic in the types of the code, each operation
    rounded by itself.
    One handler runs at a time: DP messages of a process are dispatched by
    event threads, and the interleaving of handlers is modelled at the
    granularity of whole handlers, except in MsgQueue, in Pausing, in DpCalls, where the
    calls of a client are interleaved at their waits, and in the example of
    the late reply there, at the granularity of its locks.

    Fuel.  WheelTimer.detect_loop runs for one tick per millisecond passed,
    which DetectTimers_total proves to be enough; HeapTimer.collect for the
    size of the heap, as an entry expires once per detection; up_loop and
    down_loop for the index or the size; rearm for the milliseconds passed,
    enough for any interval but 0.  In PacketSocket analysis_loop has the number
    of received bytes, enough unless a header announces a packet of no bytes,
    and write_loop the number of blocks; write_new and chunks in MemBuffer have
    the length of what is written.  Kvdb.read_loop has the length of the file;
    ReadFile has the depth of its calls of itself, for which two are enough
    unless a file of the old format cannot be rewritten.  The fuel of the database
    server is for the loop of Query_Map; one more than there are maps is enough.
    Base64.decode_loop has one more than the characters, since each round takes one
    at least; Smartp.stream_ints one more than the characters of the file;
    Smartp.search_log asks for the log as often as its fuel, which nothing bounds in
    the code: an Outside whose log ends needs as many rounds as it has pages.

    Not modelled: process start, logging, the algorithm library below the
    wrappers, of which there are headers only, JSON parsing and printing (a
    parameter), the SQL library and yaml-cpp (interfaces), the drivers of the two
    distance sensors and the voices of the peripherals server, the modules of the
    network process that synchronise the clock, upload over HTTP or are not
    created (wifi, UDP, MQTT, radio), of the event service the threads, timers,
    connecting and listening, of the DP client the timers that connect it again. *)

From stdpp Require Export base tactics list gmap strings.
From Stdlib Require Export ZArith Lia.
From Stdlib Require Export Bool.

#[global] Open Scope Z_scope.

(** ** Undefined behaviour as a value

    The C++ code has operations with a precondition that nothing checks
    (front of an empty std::queue, an index past a fixed array, a pointer to
    an erased map node).  They return [Ub] with the reason; everything else
    returns [Ok]. *)
Inductive ub :=
| UB_EmptyQueue       (* front/back/pop of an empty std::queue *)
| UB_OutOfBounds      (* array access outside its extent *)
| UB_UseAfterFree     (* a pointer whose object was destroyed *)
| UB_NullDeref        (* a null pointer is followed *)
| UB_BadJson          (* a Json::Value read as a container it is not *)
| UB_BadConversion    (* a floating value converted to an integer that cannot hold it *)
| UB_NoReturn         (* control reaches the end of a non-void function *)
| UB_ForeignIterator  (* list::erase with an iterator of another list *)
| UB_SignedOverflow   (* a signed integer runs out of its range *)
| UB_Uncaught         (* an exception nobody catches ends the process *)
| UB_Diverges.        (* the loop does not finish within its fuel *)

#[export] Instance ub_eq_dec : EqDecision ub.
Proof. solve_decision. Defined.

Inductive res (A : Type) :=
| Ok (a : A)
| Ub (u : ub).
Arguments Ok {A} _.
Arguments Ub {A} _.

#[export] Instance res_ret : MRet res := λ A a, Ok a.
#[export] Instance res_bind : MBind res := λ A B k m,
  match m with Ok a => k a | Ub u => Ub u end.
#[export] Instance res_fmap : FMap res := λ A B f m,
  match m with Ok a => Ok (f a) | Ub u => Ub u end.

(** A state monad over [res], used by the handlers that thread the program's
    state and may run into undefined behaviour. *)
Definition ST (S A : Type) : Type := S → res (A * S).

#[export] Instance st_ret {S} : MRet (ST S) := λ A a s, Ok (a, s).
#[export] Instance st_bind {S} : MBind (ST S) := λ A B k m s,
  match m s with Ok (a, s') => k a s' | Ub u => Ub u end.

Definition get {S} : ST S S := λ s, Ok (s, s).
Definition gets {S A} (f : S → A) : ST S A := λ s, Ok (f s, s).
Definition modify {S} (f : S → S) : ST S unit := λ s, Ok (tt, f s).
Definition undefined {S A} (u : ub) : ST S A := λ _, Ub u.
Definition lift {S A} (m : res A) : ST S A := λ s,
  match m with Ok a => Ok (a, s) | Ub u => Ub u end.
(** [when b m]: an if statement without else. *)
Definition when {S} (b : bool) (m : ST S unit) : ST S unit := if b then m else mret tt.

Fixpoint iterM {S A} (f : A → ST S unit) (l : list A) : ST S unit :=
  match l with
  | [] => mret tt
  | x :: l' => f x;; iterM f l'
  end.

(** ** Triples

    [triple U P m Q]: from a state in [P] the computation either ends with a
    value and state in [Q], or runs into undefined behaviour of a kind in [U].
    With [U := no_ub] it is total correctness.  [pres U I m] is the special
    case of an invariant. *)
Definition no_ub (u : ub) : Prop := False.
Definition triple {S A} (U : ub → Prop) (P : S → Prop) (m : ST S A) (Q : A → S → Prop) : Prop :=
  ∀ s, P s → match m s with Ok (a, s') => Q a s' | Ub u => U u end.
Definition pres {S A} (U : ub → Prop) (I : S → Prop) (m : ST S A) : Prop :=
  triple U I m (λ _, I).

(** A computation without state whose undefined behaviour is of a kind in [U]. *)
Definition res_in {A} (U : ub → Prop) (r : res A) : Prop :=
  match r with Ok _ => True | Ub u => U u end.

Lemma res_in_ok {A} U (a : A) : res_in U (Ok a).
Proof. done. Qed.
Lemma res_in_ret {A} U (a : A) : res_in U (mret a).
Proof. done. Qed.
Lemma res_in_bind {A B} U (m : res A) (k : A → res B) :
  res_in U m → (∀ a, res_in U (k a)) → res_in U (m ≫= k).
Proof. destruct m; simpl; auto. Qed.

Lemma res_bind_ok {A B} (r : res A) (k : A → res B) b : r ≫= k = Ok b → ∃ a, r = Ok a ∧ k a = Ok b.
Proof. destruct r; [|done]. by eexists. Qed.

Section triple_rules.
Context {S : Type}.
Implicit Types P : S → Prop.

Lemma triple_ret {A} U P (a : A) : triple U P (mret a) (λ x s, x = a ∧ P s).
Proof. by intros s Hs. Qed.

Lemma triple_bind {A B} U P (m : ST S A) Q (k : A → ST S B) R :
  triple U P m Q → (∀ a, triple U (Q a) (k a) R) → triple U P (m ≫= k) R.
Proof.
  intros Hm Hk s Hs. unfold mbind, st_bind. specialize (Hm s Hs).
  destruct (m s) as [[a s']|]; [|done]. by apply Hk.
Qed.

Lemma triple_conseq {A} (U U' : ub → Prop) P P' (m : ST S A) Q Q' :
  triple U' P' m Q' → (∀ u, U' u → U u) → (∀ s, P s → P' s) →
  (∀ a s, Q' a s → Q a s) → triple U P m Q.
Proof.
  intros Hm HU HP HQ s Hs. specialize (Hm s (HP s Hs)).
  destruct (m s) as [[a s']|]; auto.
Qed.

(** A read: its value is a function of the state, which does not change. *)
Lemma triple_gets_bind {A B} U P (f : S → A) (k : A → ST S B) R :
  (∀ a, triple U (λ s, P s ∧ f s = a) (k a) R) → triple U P (gets f ≫= k) R.
Proof. intros Hk s Hs. by apply (Hk (f s)). Qed.

Lemma triple_get_bind {B} U P (k : S → ST S B) R :
  (∀ s0, triple U (λ s, P s ∧ s = s0) (k s0) R) → triple U P (get ≫= k) R.
Proof. intros Hk s Hs. by apply (Hk s). Qed.

Lemma triple_lift_bind {A B} U P (r : res A) a (k : A → ST S B) R :
  r = Ok a → triple U P (k a) R → triple U P (lift r ≫= k) R.
Proof. intros -> Hk s Hs. by apply Hk. Qed.

Lemma triple_when U P (b : bool) (m : ST S unit) Q :
  (b = true → triple U P m Q) → (b = false → ∀ s, P s → Q tt s) → triple U P (when b m) Q.
Proof. intros Ht Hf s Hs. destruct b; simpl; [by apply Ht|by apply Hf]. Qed.

Lemma triple_modify U P (f : S → S) (Q : unit → S → Prop) :
  (∀ s, P s → Q tt (f s)) → triple U P (modify f) Q.
Proof. intros H s Hs. by apply H. Qed.

Lemma pres_ret {A} U I (a : A) : pres U I (mret a : ST S A).
Proof. by intros s Hs. Qed.
Lemma pres_get U I : pres U I (get (S:=S)).
Proof. by intros s Hs. Qed.
Lemma pres_gets {A} U I (f : S → A) : pres U I (gets f).
Proof. by intros s Hs. Qed.
Lemma pres_lift {A} U I (r : res A) : res_in U r → pres U I (lift r : ST S A).
Proof. intros Hr s Hs. unfold lift. by destruct r. Qed.
Lemma pres_modify U I (f : S → S) : (∀ s, I s → I (f s)) → pres U I (modify f).
Proof. intros H s Hs. by apply H. Qed.
Lemma pres_bind {A B} U I (m : ST S A) (k : A → ST S B) :
  pres U I m → (∀ a, pres U I (k a)) → pres U I (m ≫= k).
Proof. intros Hm Hk. eapply triple_bind; [exact Hm|exact Hk]. Qed.
Lemma pres_undefined {A} U I u : U u → pres U I (undefined u : ST S A).
Proof. by intros Hu s _. Qed.
Lemma pres_when U I b (m : ST S unit) : pres U I m → pres U I (when b m).
Proof. intros Hm. destruct b; [exact Hm|apply pres_ret]. Qed.
Lemma pres_if {A} U I (b : bool) (m n : ST S A) :
  pres U I m → pres U I n → pres U I (if b then m else n).
Proof. intros Hm Hn. by destruct b. Qed.
Lemma pres_iterM {A} U I (f : A → ST S unit) l :
  (∀ a, pres U I (f a)) → pres U I (iterM f l).
Proof. intros Hf. induction l; simpl; [by apply pres_ret|by apply pres_bind]. Qed.
Lemma pres_weaken {A} (U U' : ub → Prop) I (m : ST S A) :
  (∀ u, U' u → U u) → pres U' I m → pres U I m.
Proof. intros HU Hm. by eapply triple_conseq. Qed.

(** The state after a run that preserves an invariant. *)
Lemma pres_run {A} U I (m : ST S A) s a s' : pres U I m → I s → m s = Ok (a, s') → I s'.
Proof. intros Hm Hs Hr. specialize (Hm s Hs). by rewrite Hr in Hm. Qed.
Lemma pres_ub {A} U I (m : ST S A) s u : pres U I m → I s → m s = Ub u → U u.
Proof. intros Hm Hs Hr. specialize (Hm s Hs). by rewrite Hr in Hm. Qed.
Lemma pres_total {A} I (m : ST S A) s :
  pres no_ub I m → I s → ∃ a s', m s = Ok (a, s') ∧ I s'.
Proof. intros Hm Hs. specialize (Hm s Hs). destruct (m s) as [[a s']|u]; [by exists a, s'|done]. Qed.
End triple_rules.

(** The lemmas that decompose a handler into its calls, and the tactic that
    applies them, splitting on the matches of the handler on the way. *)
Create HintDb pres discriminated.
#[export] Hint Resolve res_in_ok res_in_ret res_in_bind : pres.
#[export] Hint Resolve pres_ret pres_get pres_gets pres_lift pres_when pres_iterM : pres.

Ltac pres_step :=
  lazymatch goal with
  | |- pres _ _ (_ ≫= _) => apply pres_bind; [|intros ?]
  | |- pres _ _ (when _ _) => apply pres_when
  | |- pres _ _ (lift _) => apply pres_lift
  | |- pres _ _ (iterM _ _) => apply pres_iterM; intros ?; cbv beta
  | |- pres _ _ (match _ with _ => _ end) => case_match
  | |- res_in _ (_ ≫= _) => apply res_in_bind; [|intros ?]
  | |- res_in _ (match _ with _ => _ end) => case_match
  end.
Ltac solve_pres := repeat (eauto 3 with pres; try pres_step); eauto with pres.

(** ** Running a computation step by step *)
Lemma run_bind {S A B} (m : ST S A) (k : A → ST S B) s :
  (m ≫= k) s = match m s with Ok (a, s') => k a s' | Ub u => Ub u end.
Proof. done. Qed.
Lemma run_ret {S A} (a : A) (s : S) : (mret a : ST S A) s = Ok (a, s).
Proof. done. Qed.
Lemma run_get {S} (s : S) : get s = Ok (s, s).
Proof. done. Qed.
Lemma run_gets {S A} (f : S → A) s : gets f s = Ok (f s, s).
Proof. done. Qed.
Lemma run_modify {S} (f : S → S) s : modify f s = Ok (tt, f s).
Proof. done. Qed.
Lemma run_lift {S A} (r : res A) a (s : S) : r = Ok a → lift r s = Ok (a, s).
Proof. by intros ->. Qed.
Lemma run_when_true {S} b (m : ST S unit) s : b = true → when b m s = m s.
Proof. by intros ->. Qed.
Lemma run_when_false {S} b (m : ST S unit) s : b = false → when b m s = Ok (tt, s).
Proof. by intros ->. Qed.
(** A sequence of calls, each of whose results is known. *)
Lemma run_seq {S A B} (m : ST S A) (k : A → ST S B) s a s' r :
  m s = Ok (a, s') → k a s' = r → (m ≫= k) s = r.
Proof. intros Hm <-. by rewrite run_bind, Hm. Qed.

(** ** Machine integers

    A [w]-bit unsigned value is a [Z] in [0, 2^w); a signed one a [Z] in
    [-2^(w-1), 2^(w-1)).  Conversions wrap around (two's complement). *)
Definition uwrap (w : Z) (z : Z) : Z := z mod 2 ^ w.
Definition swrap (w : Z) (z : Z) : Z := (z + 2 ^ (w - 1)) mod 2 ^ w - 2 ^ (w - 1).
Abbreviation u8 := (uwrap 8).
Abbreviation u16 := (uwrap 16).
Abbreviation u32 := (uwrap 32).
Abbreviation u64 := (uwrap 64).
Abbreviation s16 := (swrap 16).
Abbreviation s32 := (swrap 32).
Abbreviation s64 := (swrap 64).

Definition in_u (w : Z) (z : Z) : Prop := 0 ≤ z < 2 ^ w.
Definition in_s (w : Z) (z : Z) : Prop := - 2 ^ (w - 1) ≤ z < 2 ^ (w - 1).

Lemma pow2_pos w : 0 ≤ w → 0 < 2 ^ w.
Proof. intros. by apply Z.pow_pos_nonneg. Qed.

Lemma pow2_half w : 0 < w → 2 ^ w = 2 * 2 ^ (w - 1).
Proof. intros. rewrite <-Z.pow_succ_r by lia. f_equal. lia. Qed.

Lemma uwrap_range w z : 0 ≤ w → in_u w (uwrap w z).
Proof. intros. by apply Z.mod_pos_bound, pow2_pos. Qed.

Lemma uwrap_id w z : in_u w z → uwrap w z = z.
Proof. intros. by apply Z.mod_small. Qed.

Lemma swrap_range w z : 0 < w → in_s w (swrap w z).
Proof.
  intros Hw. unfold in_s, swrap. pose proof (pow2_half w Hw).
  pose proof (Z.mod_pos_bound (z + 2 ^ (w - 1)) (2 ^ w) (pow2_pos w ltac:(lia))). lia.
Qed.

Lemma swrap_id w z : 0 < w → in_s w z → swrap w z = z.
Proof.
  unfold in_s, swrap. intros Hw H. pose proof (pow2_half w Hw).
  rewrite Z.mod_small; lia.
Qed.

Lemma swrap_mod w z : 0 < w → (swrap w z) mod 2 ^ w = z mod 2 ^ w.
Proof.
  intros Hw. unfold swrap. pose proof (pow2_pos w ltac:(lia)).
  rewrite Zminus_mod_idemp_l. f_equal. lia.
Qed.

(** Two signed values that agree modulo 2^w are equal. *)
Lemma in_s_mod_inj w a b :
  0 < w → in_s w a → in_s w b → a mod 2 ^ w = b mod 2 ^ w → a = b.
Proof.
  intros Hw Ha Hb Hm.
  rewrite <-(swrap_id w a), <-(swrap_id w b) by done. unfold swrap.
  by rewrite <-(Zplus_mod_idemp_l a), <-(Zplus_mod_idemp_l b), Hm.
Qed.

(** Disjoint bits: or is addition. *)
Lemma lor_shift a b k : 0 ≤ k → 0 ≤ b < 2 ^ k → Z.lor (Z.shiftl a k) b = a * 2 ^ k + b.
Proof.
  intros Hk Hb. pose proof (Z.add_lor_land (Z.shiftl a k) b) as Ha.
  assert (Z.land (Z.shiftl a k) b = 0) as Hz.
  { apply Z.bits_inj'. intros i Hi. rewrite Z.land_spec, Z.bits_0.
    destruct (Z.ltb_spec i k); [by rewrite Z.shiftl_spec_low|].
    rewrite <-(Z.mod_small b (2 ^ k)) by lia. rewrite Z.mod_pow2_bits_high by lia. apply andb_false_r. }
  rewrite Z.shiftl_mul_pow2 in * by lia. lia.
Qed.

(** ** The length of a list as an integer *)
Definition zlen {A} (l : list A) : Z := Z.of_nat (length l).
Lemma zlen_nonneg {A} (l : list A) : 0 ≤ zlen l.
Proof. unfold zlen. lia. Qed.
Lemma zlen_app {A} (l k : list A) : zlen (l ++ k) = zlen l + zlen k.
Proof. unfold zlen. rewrite length_app. lia. Qed.
Lemma zlen_drop {A} (l : list A) n : 0 ≤ n ≤ zlen l → zlen (drop (Z.to_nat n) l) = zlen l - n.
Proof. unfold zlen. rewrite length_drop. lia. Qed.
Lemma zlen_take {A} (l : list A) n : 0 ≤ n ≤ zlen l → zlen (take (Z.to_nat n) l) = n.
Proof. unfold zlen. rewrite length_take. lia. Qed.
Lemma zlen_0 {A} (l : list A) : zlen l = 0 → l = [].
Proof. unfold zlen. destruct l; [done|]. simpl. lia. Qed.

(** ** Strings *)
Lemma sapp_nil (s : string) : s +:+ "" = s.
Proof. induction s as [|a s IH]; [done|]. change (String a (s +:+ "") = String a s). by rewrite IH. Qed.
Lemma sapp_assoc (s r t : string) : (s +:+ r) +:+ t = s +:+ (r +:+ t).
Proof. induction s as [|a s IH]; [done|]. change (String a ((s +:+ r) +:+ t) = String a (s +:+ (r +:+ t))). by rewrite IH. Qed.
Lemma slength_app (s r : string) : String.length (s +:+ r) = (String.length s + String.length r)%nat.
Proof. induction s as [|a s IH]; [done|]. change (String a s +:+ r) with (String a (s +:+ r)). cbn [String.length]. by rewrite IH. Qed.
