(* ===== verification/Float.v ===== *)
(** * IEEE-754 arithmetic of the C++ types float and double

    A thin layer over the Standard Library's executable SpecFloat model:
    [f32] and [f64] are its values at the binary32 and binary64 formats.  The
    operations round to nearest, as the target does. *)

From S2P Require Import Prelude.
From Corelib Require Import SpecFloat.
From Stdlib Require Import QArith_base.
#[local] Open Scope Z_scope.

(** A format: precision and maximal exponent. *)
Record format := Format { prec : Z; emax : Z }.
Definition binary32 : format := Format 24 128.
Definition binary64 : format := Format 53 1024.

Section ops.
Variable fmt : format.
(** The conversion from an integer type. *)
Definition f_of_Z (z : Z) : spec_float := binary_normalize (prec fmt) (emax fmt) z 0 false.
Definition f_add (x y : spec_float) : spec_float := SFadd (prec fmt) (emax fmt) x y.
Definition f_sub (x y : spec_float) : spec_float := SFsub (prec fmt) (emax fmt) x y.
Definition f_mul (x y : spec_float) : spec_float := SFmul (prec fmt) (emax fmt) x y.
Definition f_div (x y : spec_float) : spec_float := SFdiv (prec fmt) (emax fmt) x y.
(** A decimal literal n / d, correctly rounded. *)
Definition f_lit (n : Z) (d : positive) : spec_float := f_div (f_of_Z n) (f_of_Z (Zpos d)).
End ops.

(** The conversion of a finite value to an integer truncates toward zero;
    infinities and NaN have no integer value. *)
Definition f_trunc (x : spec_float) : option Z :=
  match x with
  | S754_zero _ => Some 0
  | S754_finite s m e =>
      let a := Z.shiftl (Zpos m) e in Some (if s then - a else a)
  | _ => None
  end.

(** Conversion to int: undefined when the truncated value does not fit. *)
Definition f_to_int (x : spec_float) : res Z :=
  match f_trunc x with
  | Some z => if decide (- 2 ^ 31 ≤ z < 2 ^ 31) then Ok z else Ub UB_BadConversion
  | None => Ub UB_BadConversion
  end.

(** The exact rational value of a finite float (0 for the others, which the
    messages never carry). *)
Definition f_to_Q (x : spec_float) : Q :=
  match x with
  | S754_finite s m e =>
      let n := if s then Zneg m else Zpos m in
      if 0 <=? e then Qmake (Z.shiftl n e) 1 else Qmake n (Z.to_pos (2 ^ (- e)))
  | _ => Qmake 0 1
  end.

Definition f_eq0 (x : spec_float) : bool :=
  match x with S754_zero _ => true | _ => false end.
Definition f_abs (x : spec_float) : spec_float := SFabs x.
Definition f_lt (x y : spec_float) : bool := SFltb x y.

Lemma f_to_int_range x z : f_to_int x = Ok z → in_s 32 z.
Proof.
  unfold f_to_int, in_s. destruct (f_trunc x); [|done].
  case_decide; [|done]. naive_solver.
Qed.

Example f32_mul : f_to_int (f_mul binary32 (f_lit binary32 4002 10) (f_of_Z binary32 7)) = Ok 2801.
Proof. vm_compute. reflexivity. Qed.
