(* ===== verification/Json.v ===== *)
(** * Json values as the handlers read them

    The part of jsoncpp (src/third_part/json) the message handlers rely on: a
    value type, member and element access, the integer tests and conversions,
    and the JV_TO_INT / JV_TO_UINT macros.  In this copy of jsoncpp
    JSON_FAIL_MESSAGE expands to nothing, so reading a non-container as a
    container follows a garbage pointer: [Ub UB_BadJson]. *)

From S2P Require Import Prelude Float.
From Stdlib Require Import QArith_base.
From stdpp Require Import pretty.
#[local] Open Scope Z_scope.

(** [JInt] stands for both intValue and uintValue; a [JReal] holds the exact
    (rational) value of a finite double. *)
Inductive json :=
| JNull
| JBool (b : bool)
| JInt (z : Z)
| JReal (q : Q)
| JStr (s : string)
| JArr (l : list json)
| JObj (l : list (string * json)).

(** How the library prints a double is not needed by any property. *)
Class RealFormat := real_to_string : Q → string.

Fixpoint jfind (k : string) (l : list (string * json)) : option json :=
  match l with
  | [] => None
  | (k', v) :: l' => if decide (k = k') then Some v else jfind k l'
  end.

(** v[key]: a missing member reads as null. *)
Definition jkey (v : json) (k : string) : res json :=
  match v with
  | JNull => Ok JNull
  | JObj l => Ok (default JNull (jfind k l))
  | _ => Ub UB_BadJson
  end.

(** v[i]: an index past the end reads as null. *)
Definition jidx (v : json) (i : nat) : res json :=
  match v with
  | JNull => Ok JNull
  | JArr l => Ok (default JNull (l !! i))
  | _ => Ub UB_BadJson
  end.

Definition isMember (v : json) (k : string) : res bool :=
  match v with
  | JNull => Ok false
  | JObj l => Ok (bool_decide (is_Some (jfind k l)))
  | _ => Ub UB_BadJson
  end.

Definition isArray (v : json) : bool :=
  match v with JArr _ => true | _ => false end.

Definition jsize (v : json) : nat :=
  match v with JArr l => length l | JObj l => length l | _ => 0%nat end.

Definition q_integral (q : Q) : bool := Qnum q mod Zpos (Qden q) =? 0.
(** value.real_ between the two bounds, and the truncation of Int(value). *)
Definition q_between (lo hi : Z) (q : Q) : bool :=
  (lo * Zpos (Qden q) <=? Qnum q) && (Qnum q <=? hi * Zpos (Qden q)).
Definition q_trunc (q : Q) : Z := Z.quot (Qnum q) (Zpos (Qden q)).

Definition minInt : Z := - 2 ^ 31.
Definition maxInt : Z := 2 ^ 31 - 1.
Definition maxUInt : Z := 2 ^ 32 - 1.

Definition isInt (v : json) : bool :=
  match v with
  | JInt z => (minInt <=? z) && (z <=? maxInt)
  | JReal q => q_between minInt maxInt q && q_integral q
  | _ => false
  end.

Definition isUInt (v : json) : bool :=
  match v with
  | JInt z => (0 <=? z) && (z <=? maxUInt)
  | JReal q => q_between 0 maxUInt q && q_integral q
  | _ => false
  end.

(** The range assertions are compiled out: an integer out of range is
    truncated, a double out of range is an undefined conversion. *)
Definition asInt (v : json) : res Z :=
  match v with
  | JInt z => Ok (s32 z)
  | JReal q => if q_between minInt maxInt q then Ok (q_trunc q) else Ub UB_BadConversion
  | JBool b => Ok (if b then 1 else 0)
  | _ => Ok 0
  end.

Definition asUInt (v : json) : res Z :=
  match v with
  | JInt z => Ok (u32 z)
  | JReal q => if q_between 0 maxUInt q then Ok (q_trunc q) else Ub UB_BadConversion
  | JBool b => Ok (if b then 1 else 0)
  | _ => Ok 0
  end.

Definition asString `{RealFormat} (v : json) : string :=
  match v with
  | JStr s => s
  | JBool b => if b then "true" else "false"
  | JInt z => pretty z
  | JReal q => real_to_string q
  | _ => ""
  end.

(** JV_TO_INT(json, key, value, default) *)
Definition JV_TO_INT (v : json) (k : string) (d : Z) : res Z :=
  m ← isMember v k;
  if m : bool then x ← jkey v k; (if isInt x then asInt x else Ok d) else Ok d.

Definition JV_TO_UINT (v : json) (k : string) (d : Z) : res Z :=
  m ← isMember v k;
  if m : bool then x ← jkey v k; (if isUInt x then asUInt x else Ok d) else Ok d.

(** A double, as the rational it denotes; a large integer is rounded first. *)
Definition asDouble (v : json) : Q :=
  match v with
  | JInt z => f_to_Q (f_of_Z binary64 z)
  | JReal q => q
  | JBool true => Qmake 1 1
  | _ => Qmake 0 1
  end.

Definition isDouble (v : json) : bool :=
  match v with JInt _ | JReal _ => true | _ => false end.

Definition JV_TO_DOUBLE (v : json) (k : string) (d : Q) : res Q :=
  m ← isMember v k;
  if m : bool then x ← jkey v k; Ok (if isDouble x then asDouble x else d) else Ok d.

(** ** Reading lemmas *)

Lemma jkey_cons k v l : jkey (JObj ((k, v) :: l)) k = Ok v.
Proof. simpl. by rewrite decide_True. Qed.

Lemma JV_TO_INT_int k z l d :
  in_s 32 z → JV_TO_INT (JObj ((k, JInt z) :: l)) k d = Ok z.
Proof.
  intros Hz. unfold JV_TO_INT. simpl. rewrite decide_True by done. cbn.
  replace ((minInt <=? z) && (z <=? maxInt)) with true.
  - by rewrite swrap_id.
  - unfold in_s, minInt, maxInt in *. symmetry. apply andb_true_intro.
    split; apply Z.leb_le; lia.
Qed.

Lemma JV_TO_UINT_int k z l d :
  in_u 32 z → JV_TO_UINT (JObj ((k, JInt z) :: l)) k d = Ok z.
Proof.
  intros Hz. unfold JV_TO_UINT. simpl. rewrite decide_True by done. cbn.
  replace ((0 <=? z) && (z <=? maxUInt)) with true.
  - by rewrite uwrap_id.
  - unfold in_u, maxUInt in *. symmetry. apply andb_true_intro.
    split; apply Z.leb_le; lia.
Qed.

(** The value a JV_TO_INT read delivers is an int. *)
Lemma JV_TO_INT_range v k d z : in_s 32 d → JV_TO_INT v k d = Ok z → in_s 32 z.
Proof.
  intros Hd. unfold JV_TO_INT, mbind, res_bind.
  destruct (isMember v k) as [[]|]; [|naive_solver..].
  destruct (jkey v k) as [x|]; [|done].
  destruct (isInt x) eqn:Hx; [|naive_solver].
  destruct x as [|b|n|q|str|l|l]; simpl in *; try done; intros Hz.
  - simplify_eq. by apply swrap_range.
  - apply andb_true_iff in Hx as [Hq _]. rewrite Hq in Hz. simplify_eq.
    unfold q_between, minInt, maxInt in Hq. apply andb_true_iff in Hq as [H1 H2].
    apply Z.leb_le in H1, H2. unfold q_trunc, in_s.
    pose proof (Z.quot_rem (Qnum q) (Zpos (Qden q)) ltac:(lia)).
    pose proof (Z.rem_bound_abs (Qnum q) (Zpos (Qden q)) ltac:(lia)). nia.
Qed.

#[global] Arguments JV_TO_INT : simpl never.
#[global] Arguments JV_TO_UINT : simpl never.
