(* ===== verification/DeviceStates.v ===== *)
(** * Device, cleaning and job enumerations

    The enums of src/lib_app/robot_schedule/schedule/DeviceStates.h, with the
    numeric values the messages carry. *)

From S2P Require Import Prelude.

Inductive E_MASTER_STATE :=
| ESTATE_INIT | ESTATE_IDLE | ESTATE_CLEAN | ESTATE_PAUSE_CLEAN | ESTATE_BACK_CHARGE
| ESTATE_BACK_WASH | ESTATE_OTA | ESTATE_CHAGRE | ESTATE_CHAGRE_END | ESTATE_SHELF_CLEAN
| ESTATE_SHELF_CLEAN_END | ESTATE_DORMANCY | ESTATE_ERROR | ESTATE_CHAGRE_PAUSE
| ESTATE_WASH_PAUSE | ESTATE_DUMP | ESTATE_DUMP_END | ESTATE_SHUTDOWM
| ESTATE_FACTORY_TEST | ESTATE_FAST_BUILD_MAP | ESTATE_PAUSE_FAST_BUILD_MAP
| ESTATE_FAST_BUILD_MAP_END | ESTATE_BACK_CHARGE_ERROR | ESTATE_BACK_WASH_ERROR
| ESTATE_LOCATE_ERROR | ESTATE_DEVICE_TRAPPED.

#[export] Instance master_eq_dec : EqDecision E_MASTER_STATE.
Proof. solve_decision. Defined.

Definition all_master : list E_MASTER_STATE :=
  [ESTATE_INIT; ESTATE_IDLE; ESTATE_CLEAN; ESTATE_PAUSE_CLEAN; ESTATE_BACK_CHARGE;
   ESTATE_BACK_WASH; ESTATE_OTA; ESTATE_CHAGRE; ESTATE_CHAGRE_END; ESTATE_SHELF_CLEAN;
   ESTATE_SHELF_CLEAN_END; ESTATE_DORMANCY; ESTATE_ERROR; ESTATE_CHAGRE_PAUSE;
   ESTATE_WASH_PAUSE; ESTATE_DUMP; ESTATE_DUMP_END; ESTATE_SHUTDOWM;
   ESTATE_FACTORY_TEST; ESTATE_FAST_BUILD_MAP; ESTATE_PAUSE_FAST_BUILD_MAP;
   ESTATE_FAST_BUILD_MAP_END; ESTATE_BACK_CHARGE_ERROR; ESTATE_BACK_WASH_ERROR;
   ESTATE_LOCATE_ERROR; ESTATE_DEVICE_TRAPPED].

(** The enumerators are numbered from 0 in order. *)
Definition master_code (m : E_MASTER_STATE) : Z :=
  match m with
  | ESTATE_INIT => 0 | ESTATE_IDLE => 1 | ESTATE_CLEAN => 2 | ESTATE_PAUSE_CLEAN => 3
  | ESTATE_BACK_CHARGE => 4 | ESTATE_BACK_WASH => 5 | ESTATE_OTA => 6
  | ESTATE_CHAGRE => 7 | ESTATE_CHAGRE_END => 8 | ESTATE_SHELF_CLEAN => 9
  | ESTATE_SHELF_CLEAN_END => 10 | ESTATE_DORMANCY => 11 | ESTATE_ERROR => 12
  | ESTATE_CHAGRE_PAUSE => 13 | ESTATE_WASH_PAUSE => 14 | ESTATE_DUMP => 15
  | ESTATE_DUMP_END => 16 | ESTATE_SHUTDOWM => 17 | ESTATE_FACTORY_TEST => 18
  | ESTATE_FAST_BUILD_MAP => 19 | ESTATE_PAUSE_FAST_BUILD_MAP => 20
  | ESTATE_FAST_BUILD_MAP_END => 21 | ESTATE_BACK_CHARGE_ERROR => 22
  | ESTATE_BACK_WASH_ERROR => 23 | ESTATE_LOCATE_ERROR => 24
  | ESTATE_DEVICE_TRAPPED => 25
  end.

Inductive CLEAN_STATE :=
| CLEAN_STATE_NULL | CLEAN_STATE_AUTO | CLEAN_STATE_RECT | CLEAN_STATE_LOCATION
| CLEAN_STATE_SITU | CLEAN_STATE_RESERVATION.

#[export] Instance clean_eq_dec : EqDecision CLEAN_STATE.
Proof. solve_decision. Defined.

Definition clean_code (c : CLEAN_STATE) : Z :=
  match c with
  | CLEAN_STATE_NULL => 0 | CLEAN_STATE_AUTO => 1 | CLEAN_STATE_RECT => 2
  | CLEAN_STATE_LOCATION => 3 | CLEAN_STATE_SITU => 4 | CLEAN_STATE_RESERVATION => 5
  end.

Inductive EJobCommand :=
| EJOB_NONE | EJOB_GLOBAL_CLEAN | EJOB_LOCAL_CLEAN | EJOB_ZONE_CLEAN | EJOB_POINT_CLEAN
| EJOB_RESERVE_CLEAN | EJOB_BACK_CHARGE | EJOB_BACK_WASH | EJOB_STOP_CLEAN
| EJOB_PHOTO_PATH | EJOB_OTA_START | EJOB_BACK_DUMP | EJOB_FAST_BUILD_MAP
| EJOB_VLOW_BACK_CHARGE | EJOB_SHUTDOWM | EJOB_RESUME_CLEAN | EJOB_PAUSE_CLEAN
| EJOB_NULL.

#[export] Instance job_eq_dec : EqDecision EJobCommand.
Proof. solve_decision. Defined.

Definition job_code (j : EJobCommand) : Z :=
  match j with
  | EJOB_NONE => 0 | EJOB_GLOBAL_CLEAN => 1 | EJOB_LOCAL_CLEAN => 2
  | EJOB_ZONE_CLEAN => 3 | EJOB_POINT_CLEAN => 4 | EJOB_RESERVE_CLEAN => 5
  | EJOB_BACK_CHARGE => 6 | EJOB_BACK_WASH => 7 | EJOB_STOP_CLEAN => 8
  | EJOB_PHOTO_PATH => 9 | EJOB_OTA_START => 10 | EJOB_BACK_DUMP => 11
  | EJOB_FAST_BUILD_MAP => 12 | EJOB_VLOW_BACK_CHARGE => 13 | EJOB_SHUTDOWM => 14
  | EJOB_RESUME_CLEAN => 15 | EJOB_PAUSE_CLEAN => 16 | EJOB_NULL => 17
  end.

(** Distinct enumerators travel as distinct integers. *)
#[export] Instance master_code_inj : Inj (=) (=) master_code.
Proof. by intros [] []. Qed.
#[export] Instance clean_code_inj : Inj (=) (=) clean_code.
Proof. by intros [] []. Qed.
#[export] Instance job_code_inj : Inj (=) (=) job_code.
Proof. by intros [] []. Qed.

Lemma all_master_complete m : m ∈ all_master.
Proof. destruct m; unfold all_master; set_solver. Qed.
