(* ===== verification/DataModel.v ===== *)
(** * CDataModel and CRobotjobEvent: bounded state histories

    src/lib_app/robot_schedule/schedule/DateModel.cpp keeps the device state,
    the cleaning state and the fault code; the first two also as a std::queue
    of at most two entries, the older one being the state the device came
    from.  CRobotjobEvent (RobotSchedule.cpp) keeps the pending job command
    the same way.  One generic [History] carries the three. *)

From S2P Require Import Prelude DeviceStates.

(** ** A value with the queue of its last values *)
Module History.
Section history.
Context {A : Type} `{!EqDecision A}.

Record t := mk { cur : A; queue : list A }.

(** if (cur == v) return; cur = v; q.push(v); if (q.size() > 2) q.pop(); *)
Definition push2 (h : t) (v : A) : t :=
  if decide (cur h = v) then h
  else let q := queue h ++ [v] in
       mk v (if decide (2 < Z.of_nat (length q)) then tail q else q).

(** q.empty() ? cur : q.back() *)
Definition latest (h : t) : A := default (cur h) (last (queue h)).

Definition front (h : t) : res A :=
  match queue h with [] => Ub UB_EmptyQueue | v :: _ => Ok v end.
Definition back (h : t) : res A :=
  match last (queue h) with None => Ub UB_EmptyQueue | Some v => Ok v end.
Definition pop (h : t) : res t :=
  match queue h with [] => Ub UB_EmptyQueue | _ :: q => Ok (mk (cur h) q) end.

(** At most two entries, distinct, the last one being the current value. *)
Definition wf (h : t) : Prop :=
  match queue h with
  | [] => True
  | [v] => v = cur h
  | [u; v] => v = cur h ∧ u ≠ v
  | _ => False
  end.

#[global] Instance wf_dec h : Decision (wf h).
Proof. unfold wf. repeat case_match; apply _. Defined.

Lemma wf_fresh v : wf (mk v []).
Proof. done. Qed.

Lemma push2_wf h v : wf h → wf (push2 h v).
Proof.
  unfold wf, push2. destruct h as [c [|u [|w [|]]]]; simpl;
    intros Hwf; case_decide; simpl; naive_solver.
Qed.

Lemma push2_same h : push2 h (cur h) = h.
Proof. unfold push2. by rewrite decide_True. Qed.

Lemma cur_push2 h v : cur (push2 h v) = v.
Proof. unfold push2. by case_decide. Qed.

Lemma latest_cur h : wf h → latest h = cur h.
Proof. unfold wf, latest. destruct h as [c [|u [|w [|]]]]; simpl; naive_solver. Qed.

Lemma latest_push2 h v : wf h → latest (push2 h v) = v.
Proof. intros. rewrite latest_cur by by apply push2_wf. apply cur_push2. Qed.

(** After two changes the front of the queue is the state before the last one. *)
Lemma front_push2 h v :
  wf h → queue h ≠ [] → v ≠ cur h → front (push2 h v) = Ok (cur h).
Proof.
  unfold wf, push2, front. destruct h as [c [|u [|w [|]]]]; simpl;
    intros Hwf Hne Hv; try done; rewrite decide_False by congruence; simpl; naive_solver.
Qed.

Lemma queue_push2 h v : v ≠ cur h → queue (push2 h v) ≠ [].
Proof.
  unfold push2. intros Hv. rewrite decide_False by congruence. simpl.
  destruct (queue h) as [|? [|? []]]; simpl; try case_decide; simpl; done.
Qed.

Lemma length_queue h : wf h → (length (queue h) ≤ 2)%nat.
Proof. unfold wf. destruct (queue h) as [|? [|? [|]]]; simpl; (done || lia). Qed.

Lemma pop_wf h h' : wf h → pop h = Ok h' → wf h' ∧ cur h' = cur h.
Proof.
  unfold wf, pop. destruct h as [c [|u [|w [|]]]]; simpl; naive_solver.
Qed.
End history.
Arguments t : clear implicits.
End History.

Abbreviation history := History.t.

(** ** CDataModel *)
Record CDataModel := mkDataModel {
  MState : history E_MASTER_STATE;   (* m_state, MstateData *)
  CState : history CLEAN_STATE;      (* clean_state, CstateData *)
  fault_state : Z;
  FstateData : list Z }.

Definition initDataModel : CDataModel :=
  mkDataModel (History.mk ESTATE_IDLE []) (History.mk CLEAN_STATE_NULL []) 0 [].

Definition getMState (d : CDataModel) : E_MASTER_STATE := History.latest (MState d).
Definition setMState (m : E_MASTER_STATE) (d : CDataModel) : CDataModel :=
  mkDataModel (History.push2 (MState d) m) (CState d) (fault_state d) (FstateData d).
Definition getCleanState (d : CDataModel) : CLEAN_STATE := History.latest (CState d).
Definition setCleanState (c : CLEAN_STATE) (d : CDataModel) : CDataModel :=
  mkDataModel (MState d) (History.push2 (CState d) c) (fault_state d) (FstateData d).

Definition getMQueueSize (d : CDataModel) : Z := Z.of_nat (length (History.queue (MState d))).
Definition getMQueueFort (d : CDataModel) : res E_MASTER_STATE := History.front (MState d).
Definition getMQueueBack (d : CDataModel) : res E_MASTER_STATE := History.back (MState d).
Definition getCQueueSize (d : CDataModel) : Z := Z.of_nat (length (History.queue (CState d))).
Definition getCQueueFort (d : CDataModel) : res CLEAN_STATE := History.front (CState d).
Definition getCQueueBack (d : CDataModel) : res CLEAN_STATE := History.back (CState d).
Definition deletMQueue (d : CDataModel) : res CDataModel :=
  (λ h, mkDataModel h (CState d) (fault_state d) (FstateData d)) <$> History.pop (MState d).
Definition deletCQueue (d : CDataModel) : res CDataModel :=
  (λ h, mkDataModel (MState d) h (fault_state d) (FstateData d)) <$> History.pop (CState d).

Definition getFaultVector (d : CDataModel) : list Z := FstateData d.
Definition setFState (f : Z) (d : CDataModel) : CDataModel :=
  if fault_state d =? f then d
  else mkDataModel (MState d) (CState d) f (FstateData d ++ [f]).

(** ** CRobotjobEvent *)
Abbreviation CRobotjobEvent := (history EJobCommand).

Definition initJobEvent : CRobotjobEvent := History.mk EJOB_NONE [].
Definition setJobCommand (c : EJobCommand) (j : CRobotjobEvent) : CRobotjobEvent :=
  History.push2 j c.
Definition getJobCommand (j : CRobotjobEvent) : EJobCommand := History.latest j.

(** ** The data-model invariant *)
Definition dm_wf (d : CDataModel) : Prop :=
  History.wf (MState d) ∧ History.wf (CState d).

#[export] Instance dm_wf_dec d : Decision (dm_wf d).
Proof. unfold dm_wf. apply _. Defined.

Create HintDb dmodel discriminated.

Lemma initDataModel_wf : dm_wf initDataModel.
Proof. done. Qed.
Lemma setMState_wf m d : dm_wf d → dm_wf (setMState m d).
Proof. intros [? ?]. split; [by apply History.push2_wf|done]. Qed.
Lemma setCleanState_wf c d : dm_wf d → dm_wf (setCleanState c d).
Proof. intros [? ?]. split; [done|by apply History.push2_wf]. Qed.
Lemma deletCQueue_wf d d' : dm_wf d → deletCQueue d = Ok d' → dm_wf d'.
Proof.
  intros [? Hc]. unfold deletCQueue, fmap, res_fmap.
  destruct (History.pop (CState d)) as [h|] eqn:Hp; [|done].
  intros [= <-]. split; [done|]. by eapply History.pop_wf.
Qed.
Lemma getMState_setMState m d : dm_wf d → getMState (setMState m d) = m.
Proof. intros [? _]. by apply History.latest_push2. Qed.
(** The queue is empty only while the initial state lasts. *)
Lemma setMState_fresh m d s0 :
  dm_wf d → (History.queue (MState d) = [] → getMState d = s0) →
  History.queue (MState (setMState m d)) = [] → getMState (setMState m d) = s0.
Proof.
  intros Hwf H0. destruct (decide (m = History.cur (MState d))) as [->|Hne].
  - unfold setMState, getMState. simpl. by rewrite History.push2_same.
  - intros Hq. by apply History.queue_push2 in Hq.
Qed.
Lemma getMState_setCleanState c d : getMState (setCleanState c d) = getMState d.
Proof. done. Qed.
Lemma getCleanState_setCleanState c d : dm_wf d → getCleanState (setCleanState c d) = c.
Proof. intros [_ ?]. by apply History.latest_push2. Qed.

#[export] Hint Resolve initDataModel_wf setMState_wf setCleanState_wf deletCQueue_wf : dmodel.
#[export] Hint Rewrite getMState_setMState getMState_setCleanState
  getCleanState_setCleanState using (by eauto with dmodel) : dmodel.

#[global] Arguments getMState : simpl never.
#[global] Arguments setMState : simpl never.
#[global] Arguments getCleanState : simpl never.
#[global] Arguments setCleanState : simpl never.
#[global] Arguments getJobCommand : simpl never.
#[global] Arguments setJobCommand : simpl never.
