(* ===== verification/World.v ===== *)
(** * The state of the robot_schedule process

    The singletons of src/lib_app/robot_schedule/schedule with the fields
    their handlers read and write, the calls that leave the process as a
    trace of events, and the environment a handler can observe.  The handlers
    of the other files are computations of the monad [M]. *)

From S2P Require Import Prelude Json DeviceStates DataModel.
From Corelib Require Import SpecFloat.
From Stdlib Require Import QArith_base.
#[local] Open Scope Z_scope.

(** ** Calls that leave the process *)
Inductive event :=
| EvDp (method : string) (msg : json)        (* DpClient::SendDpMessage *)
| EvMLPause (n : Z)                          (* set_ML_pause *)
| EvMLClean (n : Z)                          (* set_ML_clean *)
| EvMLInitState (n : Z)                      (* set_ML_init_state *)
| EvMLLoadMap (n : Z)                        (* set_ML_load_map_id *)
| EvMLContinue (n : Z)                       (* set_ML_continue_clean *)
| EvMLRoom (n : Z)                           (* set_ML_room *)
| EvControlThread                            (* control_thread *)
| EvForbidden (lb lt rb rt : Z * Z)          (* generate_forrbiden_map *)
| EvImpact (la rb ra lb : Z)                 (* set_impact_ir_data, by parameter name *)
| EvFollowWall (d : Z)                       (* set_followwall_ir_data *)
| EvImu (ax ay az gx gy gz : Q)              (* imu_callback *)
| EvOdom (l r : Z)                           (* odom_callback *)
| EvSpawnSlam                                (* new std::thread(startSlam) *)
| EvSystem (cmd : string).                   (* system() *)

(** ** The singletons *)
Inductive E_SLAM_STATE := SLAM_IDLE | SLAM_RUN | SLAM_PAUSE | SLAM_ERROR.
#[export] Instance slam_eq_dec : EqDecision E_SLAM_STATE.
Proof. solve_decision. Defined.

Record CRobotSchedule := mkSchedule {
  m_slamState : E_SLAM_STATE;
  SIG_VALUE_SCHEDULE : bool;
  clean_return_value : Z;
  clean_type : Z;
  clean_result : Z }.

Record SensorData := mkSensor { key_value : Z; network_value : Z }.

Record robot_pose := mkPose { pose_x : spec_float; pose_y : spec_float; pose_yam : Z }.

Record Clean_value := mkCleanValue { day : Z; cv_enable : Z; start_time : Z }.

Record DbdataBase := mkDb {
  clean_mode : Z;
  disturb_start_time : Z;
  disturb_end_time : Z;
  reservation_value : Z;
  donot_disturb_value : Z;
  time_clean : list Clean_value }.

Record World := mkWorld {
  dm : CDataModel;
  jobs : CRobotjobEvent;
  sched : CRobotSchedule;
  sensor : SensorData;
  pose_vector : list robot_pose;     (* NetserverInstruct *)
  db : DbdataBase;
  out : list event }.

Abbreviation M := (ST World).

(** The struct of DayTime.h; the handlers declare one and never fill it (the
    object getCurrentTime fills is another one). *)
Record DayTime := mkDayTime {
  time_min : Z; time_hour : Z; time_mon : Z; time_year : Z; time_wday : Z }.

(** A room outline as control_interface.hpp stores it: four vertices. *)
Record Room := mkRoom {
  vertexs_value : list (Z * Z); bedroom_name : string; room_id : Z }.

(** What a handler reads from outside: the area and time of the algorithm
    library's cleaning run, the files that exist, the reply of the database
    server to a request (None: not parsed as JSON), and the contents of the
    local objects nobody initialises.

    Four functions of the process have a result and a path without a return
    statement.  C++ leaves undefined what happens when control gets there;
    [falls_off f] is what the build at hand makes of it: None, undefined
    behaviour, or Some v, a return to the caller with v as the result. *)
Class Env := {
  falls_off : string → option Z;
  get_clean_area : Q;
  get_clean_time : Z;
  map_exists : Z → bool;
  db_reply : string → option json;
  garbage_time : DayTime;
  garbage_vertex : nat → Z * Z;
  garbage_id : Z }.

(** ** Field updates *)
Definition with_dm (f : CDataModel → CDataModel) (w : World) : World :=
  mkWorld (f (dm w)) (jobs w) (sched w) (sensor w) (pose_vector w) (db w) (out w).
Definition with_jobs (f : CRobotjobEvent → CRobotjobEvent) (w : World) : World :=
  mkWorld (dm w) (f (jobs w)) (sched w) (sensor w) (pose_vector w) (db w) (out w).
Definition with_sched (f : CRobotSchedule → CRobotSchedule) (w : World) : World :=
  mkWorld (dm w) (jobs w) (f (sched w)) (sensor w) (pose_vector w) (db w) (out w).
Definition with_sensor (f : SensorData → SensorData) (w : World) : World :=
  mkWorld (dm w) (jobs w) (sched w) (f (sensor w)) (pose_vector w) (db w) (out w).
Definition with_poses (f : list robot_pose → list robot_pose) (w : World) : World :=
  mkWorld (dm w) (jobs w) (sched w) (sensor w) (f (pose_vector w)) (db w) (out w).
Definition with_db (f : DbdataBase → DbdataBase) (w : World) : World :=
  mkWorld (dm w) (jobs w) (sched w) (sensor w) (pose_vector w) (f (db w)) (out w).
Definition with_out (e : event) (w : World) : World :=
  mkWorld (dm w) (jobs w) (sched w) (sensor w) (pose_vector w) (db w) (out w ++ [e]).

Definition emit (e : event) : M unit := modify (with_out e).

(** json_req[JKEY_TYPE] = ty; json_req[JKEY_BODY] is set only when there is
    something in it. *)
Definition request (ty : string) (body : list (string * json)) : json :=
  JObj (("type", JStr ty) :: match body with [] => [] | _ => [("body", JObj body)] end).

(** The data model and the job queue, from inside a handler. *)
Definition do_setMState (m : E_MASTER_STATE) : M unit := modify (with_dm (setMState m)).
Definition do_setCleanState (c : CLEAN_STATE) : M unit := modify (with_dm (setCleanState c)).
Definition do_setJobCommand (c : EJobCommand) : M unit := modify (with_jobs (setJobCommand c)).
Definition ask_MState : M E_MASTER_STATE := gets (λ w, getMState (dm w)).
Definition ask_CleanState : M CLEAN_STATE := gets (λ w, getCleanState (dm w)).

(** ** The algorithm library's wrappers (clean/control_interface.cpp) *)
Definition interrupt_work : M unit := emit (EvMLPause 2).
Definition pause_work : M unit := emit (EvMLPause 1).
Definition resume_work : M unit := emit (EvMLPause 0).

(** Control reaches the end of function [f] without a return statement. *)
Definition fall_off `{Env} (f : string) : M Z :=
  match falls_off f with Some v => mret v | None => undefined UB_NoReturn end.

(** house_clean has no return statement, although its caller stores its result. *)
Definition house_clean `{Env} (from_base map_id cotinue_clean : Z) : M Z :=
  emit (EvMLClean 1);; emit (EvMLInitState from_base);; emit (EvMLLoadMap map_id);;
  emit (EvMLContinue cotinue_clean);; emit EvControlThread;;
  r ← fall_off "house_clean"; mret (u8 r).

Inductive ROOM_NAME := BATH_ROOM | LIVING_ROOM | DINNING_ROOM.
Definition room_code (r : ROOM_NAME) : Z :=
  match r with BATH_ROOM => 0 | LIVING_ROOM => 1 | DINNING_ROOM => 2 end.

(** No return statement either; the caller drops the result. *)
Definition room_clean `{Env} (room : ROOM_NAME) (from_base : Z) : M Z :=
  emit (EvMLClean 2);; emit (EvMLRoom (room_code room));; emit (EvMLInitState from_base);;
  r ← fall_off "room_clean"; mret (u8 r).

(** ** CRobotSchedule::sendState *)
Definition sendState : M unit :=
  device_state ← ask_MState;
  clean_state ← ask_CleanState;
  emit (EvDp "DP_SCHEDULE_BROADCAST"
    (request "robot_device_state"
       [("device_state", JInt (master_code device_state));
        ("clean_state", JInt (clean_code clean_state))])).

(** ** SensorData's requests to the peripherals server *)
Definition peripheral_request (ty key : string) (v : json) : M unit :=
  emit (EvDp "DP_PERIPHERALS_REQUEST" (request ty [(key, v)])).
Definition set_fan_level (l : Z) : M unit := peripheral_request "set_fan_level" "level" (JInt l).
Definition set_mid_level (l : Z) : M unit := peripheral_request "set_mid_level" "level" (JInt l).
Definition set_side_level (l : Z) : M unit := peripheral_request "set_side_level" "level" (JInt l).
Definition set_mop_ctrl (c : Z) : M unit := peripheral_request "set_mop_ctrl" "ctrl" (JInt c).
Definition set_voice_play (v : string) : M unit := peripheral_request "set_voice" "voice_tts" (JStr v).
