(* ===== verification/SensorData.v ===== *)
(** * SensorData: messages of the peripherals server

    src/lib_app/robot_schedule/schedule/SensorData.cpp: sensor samples are
    handed to the algorithm library, key presses and faults drive the device
    state. *)

From S2P Require Import Prelude Float Json DeviceStates DataModel World.
From Stdlib Require Import QArith_base.
#[local] Open Scope Z_scope.

Definition getnetWorkValue : M Z := gets (λ w, network_value (sensor w)).
Definition setnetWorkValue (net_value : Z) : M unit :=
  modify (with_sensor (λ s, mkSensor (key_value s) net_value)).
Definition set_key_value (v : Z) : M unit :=
  modify (with_sensor (λ s, mkSensor v (network_value s))).
Definition get_key_value : M Z := gets (λ w, key_value (sensor w)).

(** One of the four wheel-bump readings. *)
Definition read_collision (body : json) (k : string) : res Z :=
  c ← jkey body "collision"; JV_TO_INT c k 0.

Definition read_imu (body : json) (k : string) : res Q :=
  c ← jkey body "imu"; JV_TO_DOUBLE c k (Qmake 0 1).

Definition res_periphe_sensor (sentype : string) (sjreq : json) : M unit :=
  when (bool_decide (sentype = "sensor_data")) (
    body ← lift (jkey sjreq "body");
    vl6180 ← lift (jkey body "vl6180");
    dis ← lift (JV_TO_INT vl6180 "dis" 0);
    emit (EvFollowWall dis);;
    x_accel ← lift (read_imu body "x_accel");
    y_accel ← lift (read_imu body "y_accel");
    z_accel ← lift (read_imu body "z_accel");
    _ ← lift (read_imu body "x_gyro");
    _ ← lift (read_imu body "y_gyro");
    _ ← lift (read_imu body "z_gyro");
    course_angle ← lift (read_imu body "course_angle");
    emit (EvImu course_angle (Qmake 0 1) (Qmake 0 1) x_accel y_accel z_accel);;
    odm ← lift (jkey body "odm");
    odm_left ← lift (JV_TO_INT odm "odm_left" 0);
    odm_right ← lift (JV_TO_INT odm "odm_right" 0);
    emit (EvOdom odm_left odm_right);;
    collision_lf ← lift (read_collision body "collision_lf");
    collision_lb ← lift (read_collision body "collision_lb");
    collision_rf ← lift (read_collision body "collision_rf");
    collision_rb ← lift (read_collision body "collision_rb");
    emit (EvImpact (u8 collision_lf) (u8 collision_lb) (u8 collision_rf) (u8 collision_rb));;
    c ← lift (jkey sjreq "collision");
    cc ← lift (jkey c "collision");
    _ ← lift (JV_TO_UINT cc "collision_lf" (-1));
    mret tt).

(** The reaction to key_value in the device state read before it. *)
Definition key_in_state (mainState : E_MASTER_STATE) : M unit :=
  k ← get_key_value;
  when (bool_decide (k = 1 ∧ mainState = ESTATE_IDLE)) (
    do_setJobCommand EJOB_GLOBAL_CLEAN;; set_key_value 0);;
  k ← get_key_value;
  when (bool_decide (k = 1 ∧ mainState = ESTATE_CLEAN)) (
    do_setJobCommand EJOB_PAUSE_CLEAN;; do_setMState ESTATE_PAUSE_CLEAN;;
    set_voice_play "Q007";; pause_work;; set_key_value 0;; sendState);;
  k ← get_key_value;
  when (bool_decide (k = 1 ∧ mainState = ESTATE_PAUSE_CLEAN)) (
    do_setJobCommand EJOB_RESUME_CLEAN;; do_setMState ESTATE_CLEAN;;
    set_voice_play "Q008";; resume_work;; set_key_value 0;; sendState).

Definition res_periphe_key (ksentype : string) (ksjreq : json) : M unit :=
  when (bool_decide (ksentype = "trigger_data")) (
    body ← lift (jkey ksjreq "body");
    buttons_value ← lift (JV_TO_UINT body "buttons" 0);
    set_key_value (u8 buttons_value));;
  mainState ← ask_MState;
  n ← getnetWorkValue;
  when (bool_decide (n ≠ -1)) (key_in_state mainState);;
  k ← get_key_value;
  when (bool_decide (k = 2)) (
    set_mop_ctrl 0;; do_setJobCommand EJOB_SHUTDOWM;; do_setMState ESTATE_SHUTDOWM;;
    set_voice_play "Q022";; set_key_value 0;; sendState);;
  k ← get_key_value;
  when (bool_decide (k = 4)) (
    pause_work;; set_key_value 0;; setnetWorkValue (-1)).

(** int fault_state = JV_TO_UINT(fsjreq[JKEY_BODY], "fault_state", .., 0) *)
Definition read_fault (fsjreq : json) : M Z :=
  body ← lift (jkey fsjreq "body");
  f ← lift (JV_TO_UINT body "fault_state" 0);
  mret (s32 f).

(** Where a cleared fault leaves the device, by the state before the fault. *)
Definition resume_target (first_state : E_MASTER_STATE) : option E_MASTER_STATE :=
  match first_state with
  | ESTATE_CLEAN => Some ESTATE_PAUSE_CLEAN
  | ESTATE_FAST_BUILD_MAP => Some ESTATE_PAUSE_FAST_BUILD_MAP
  | ESTATE_BACK_CHARGE => Some ESTATE_CHAGRE_PAUSE
  | _ => None
  end.

(** A new fault: outside the error state, a nonzero word enters it. *)
Definition fault_raise (fsjreq : json) : M unit :=
  m ← ask_MState;
  when (bool_decide (m ≠ ESTATE_ERROR)) (
    fault_state ← read_fault fsjreq;
    when (bool_decide (fault_state ≠ 0)) (
      do_setMState ESTATE_ERROR;; pause_work;; sendState)).

(** A cleared fault: in the error state, a zero word leaves it, by the state
    the device came from. *)
Definition fault_clear (fsjreq : json) : M unit :=
  m ← ask_MState;
  when (bool_decide (m = ESTATE_ERROR)) (
    d ← gets dm;
    first_state ← lift (getMQueueFort d);
    fault_state ← read_fault fsjreq;
    when (bool_decide (fault_state = 0)) (
      match resume_target first_state with
      | Some s => do_setMState s;; sendState
      | None => mret tt
      end)).

Definition res_periphe_fault (faulttype : string) (fsjreq : json) : M unit :=
  when (bool_decide (faulttype = "fault_state")) (fault_raise fsjreq;; fault_clear fsjreq).

(** ** Message entry points *)

(** The DP clients of the process that init creates for the peripherals server. *)
Inductive sensor_client := dp_sensor_client_ | dp_key_client_ | dp_fault_client_.

(** The clients for which init calls ListenMessage, without which the DP server
    sends them no broadcast: the call for dp_fault_client_ is commented out. *)
Definition listens (c : sensor_client) : bool :=
  match c with dp_sensor_client_ | dp_key_client_ => true | dp_fault_client_ => false end.

Section messages.
Context `{RealFormat}.

(** if (method == "DP_PERIPHERALS_BROADCAST") { parse; dispatch on type } *)
Definition on_broadcast (handler : string → json → M unit)
    (method : string) (req_buffer : option json) : M unit :=
  when (bool_decide (method = "DP_PERIPHERALS_BROADCAST")) (
    match req_buffer with
    | None => mret tt
    | Some jreq => t ← lift (jkey jreq "type"); handler (asString t) jreq
    end).

Definition OnDpSensor_Message := on_broadcast res_periphe_sensor.
Definition OnDpKey_Message := on_broadcast res_periphe_key.
Definition OnDpFault_Message := on_broadcast res_periphe_fault.

(** The handler init connects to each client, run for the broadcasts that the
    server delivers to it. *)
Definition SignalDpMessage (c : sensor_client) : string → option json → M unit :=
  match c with
  | dp_sensor_client_ => OnDpSensor_Message
  | dp_key_client_ => OnDpKey_Message
  | dp_fault_client_ => OnDpFault_Message
  end.
Definition peripherals_broadcast (c : sensor_client) (method : string) (req_buffer : option json) : M unit :=
  when (listens c) (SignalDpMessage c method req_buffer).
End messages.
