(* ===== verification/Netserver.v ===== *)
(** * NetserverInstruct: requests of the network server

    src/lib_app/robot_schedule/schedule/NetserverInstruct.cpp: cleaning
    commands, state queries and the pose history of the robot. *)

From S2P Require Import Prelude Float Json DeviceStates DataModel World SensorData.
From Corelib Require Import SpecFloat.
From stdpp Require Import pretty.
From Stdlib Require Import QArith_base.
#[local] Open Scope Z_scope.

Definition broadcast (ty : string) (body : list (string * json)) : M unit :=
  emit (EvDp "DP_SCHEDULE_BROADCAST" (request ty body)).
Definition jdouble (x : spec_float) : json := JReal (f_to_Q x).

(** ** The pose history *)

(** double(v)/50 *)
Definition div50 (v : Z) : spec_float := f_div binary64 (f_of_Z binary64 v) (f_of_Z binary64 50).

Definition push_pose (p : robot_pose) (v : list robot_pose) : list robot_pose :=
  (if decide (10000 < Z.of_nat (length v)) then tail v else v) ++ [p].

(** The negation of the smallest int overflows. *)
Definition pose_down_net (x y yam : Z) : M unit :=
  when (bool_decide (x = minInt)) (undefined UB_SignedOverflow);;
  modify (with_poses (push_pose (mkPose (div50 y) (div50 (- x)) (Z.quot yam 1000)))).

Definition pose_pair (p : robot_pose) : json := JArr [jdouble (pose_x p); jdouble (pose_y p)].
Definition pose_triple (p : robot_pose) : json :=
  JArr [jdouble (pose_x p); jdouble (pose_y p); JInt (pose_yam p)].

Definition send_robot_pose : M unit :=
  v ← gets pose_vector;
  match last v with
  | None => mret tt
  | Some p => broadcast "robot_device_pose"
      [("clean_robot_pos", pose_triple p); ("charge_base_pos", JArr [JInt 0; JInt 0])]
  end.

Section netserver.
Context `{Env}.

Definition send_clean_area : M unit :=
  m ← ask_MState;
  when (bool_decide (m = ESTATE_CLEAN)) (
    broadcast "update_clean_area_cfg"
      [("area", JReal get_clean_area); ("time", JInt get_clean_time)]).

(** "%d-%d-%d %d:%d" of a DayTime object that was never filled, into 24 bytes. *)
Definition log_start_time (t : DayTime) : string :=
  String.substring 0 23
    (pretty (time_year t) +:+ "-" +:+ pretty (time_mon t) +:+ "-" +:+ pretty (time_wday t)
     +:+ " " +:+ pretty (time_hour t) +:+ ":" +:+ pretty (time_min t)).

(** The members of the "log" object. *)
Definition clean_log_body (v : list robot_pose) (s : CRobotSchedule) : list (string * json) :=
  (if decide (v = []) then [] else [("clean_trail", JArr (pose_pair <$> v))]) ++
  [("map_id", JInt 1);
   ("clean_start_time", JStr (log_start_time garbage_time));
   ("map_info_path", JStr "/userdata/map/housemap_info.txt");
   ("map_data_path", JStr "/userdata/map/housemap.txt");
   ("clean_area", JReal get_clean_area);
   ("clean_time", JInt get_clean_time);
   ("clean_type", JInt (clean_type s));
   ("clean_result", JInt (clean_result s))].

Definition send_clean_log : M unit :=
  v ← gets pose_vector;
  s ← gets sched;
  broadcast "clean_log" [("log", JObj (clean_log_body v s))].
End netserver.

(** ** Commands *)

Definition netserverIntergrationHandle (job_cmd : EJobCommand) (m_state : E_MASTER_STATE)
    (play_voice : string) : M unit :=
  do_setJobCommand job_cmd;; do_setMState m_state;; set_voice_play play_voice;; sendState.

(** pause_clean and continue_clean, by device state. *)
Definition pause_target (m : E_MASTER_STATE) : option E_MASTER_STATE :=
  match m with
  | ESTATE_CLEAN => Some ESTATE_PAUSE_CLEAN
  | ESTATE_FAST_BUILD_MAP => Some ESTATE_PAUSE_FAST_BUILD_MAP
  | ESTATE_BACK_CHARGE => Some ESTATE_CHAGRE_PAUSE
  | ESTATE_BACK_WASH => Some ESTATE_WASH_PAUSE
  | _ => None
  end.
Definition continue_target (m : E_MASTER_STATE) : option E_MASTER_STATE :=
  match m with
  | ESTATE_PAUSE_CLEAN => Some ESTATE_CLEAN
  | ESTATE_PAUSE_FAST_BUILD_MAP => Some ESTATE_FAST_BUILD_MAP
  | ESTATE_CHAGRE_PAUSE => Some ESTATE_BACK_CHARGE
  | ESTATE_WASH_PAUSE => Some ESTATE_BACK_WASH
  | _ => None
  end.

Definition pause_clean : M unit :=
  m ← ask_MState;
  match pause_target m with
  | Some s => pause_work;; netserverIntergrationHandle EJOB_PAUSE_CLEAN s "Q007"
  | None => mret tt
  end.

Definition continue_clean : M unit :=
  m ← ask_MState;
  match continue_target m with
  | Some s => resume_work;; netserverIntergrationHandle EJOB_RESUME_CLEAN s "Q008"
  | None => mret tt
  end.

Definition stop_clean : M unit :=
  interrupt_work;; do_setJobCommand EJOB_STOP_CLEAN;; do_setMState ESTATE_IDLE;; sendState.

Definition zoning_clean (jreq : json) : M unit :=
  body ← lift (jkey jreq "body");
  areas ← lift (jkey body "extra_areas");
  mode ← lift (JV_TO_INT areas "mode" 0);
  match mode with
  | 1 => do_setJobCommand EJOB_LOCAL_CLEAN
  | 2 => do_setJobCommand EJOB_ZONE_CLEAN
  | 3 => do_setJobCommand EJOB_POINT_CLEAN
  | _ => mret tt
  end.

Definition body_int (jreq : json) (k : string) : M Z :=
  body ← lift (jkey jreq "body"); lift (JV_TO_INT body k 0).

Definition set_wifi_state (jreq : json) : M unit :=
  wifi_state ← body_int jreq "wifi_state";
  when (bool_decide (wifi_state = 1 ∨ wifi_state = 0)) (setnetWorkValue wifi_state).

(** The ifs on the request type, in source order; clear_robot_traj with an
    empty history is the early return. *)
Definition work_handle (netype : string) (jreq : json) : M bool :=
  when (bool_decide (netype = "fast_build_map")) (do_setJobCommand EJOB_FAST_BUILD_MAP);;
  when (bool_decide (netype = "recharge")) (do_setJobCommand EJOB_BACK_CHARGE);;
  when (bool_decide (netype = "start_clean")) (do_setJobCommand EJOB_GLOBAL_CLEAN);;
  when (bool_decide (netype = "zoning_clean")) (zoning_clean jreq);;
  when (bool_decide (netype = "pause_clean")) pause_clean;;
  when (bool_decide (netype = "continue_clean")) continue_clean;;
  when (bool_decide (netype = "stop_clean")) stop_clean;;
  (* select_map only fills a local structure *)
  when (bool_decide (netype = "select_map")) (_ ← body_int jreq "map_id"; mret tt);;
  v ← gets pose_vector;
  if bool_decide (netype = "clear_robot_traj" ∧ v = []) then mret false
  else
    when (bool_decide (netype = "clear_robot_traj")) (modify (with_poses (λ _, [])));;
    when (bool_decide (netype = "set_wifi_state")) (set_wifi_state jreq);;
    mret true.

(** ** Queries: the members workstate_handle stores in its jres argument *)

(** for (; start_pos < pose_vector.size(); start_pos++): the comparison is
    unsigned, so a negative start selects nothing. *)
Definition trail_from (start_pos : Z) (v : list robot_pose) : list robot_pose :=
  if start_pos <? 0 then [] else drop (Z.to_nat start_pos) v.

Definition all_state (m : E_MASTER_STATE) (c : CLEAN_STATE) (v : list robot_pose)
    : list (string * json) :=
  [("current_map_id", JInt 1);
   ("device_state", JInt (master_code m));
   ("clean_state", JInt (clean_code c));
   ("clean_area", JInt 122);
   ("clean_time", JInt 21);
   ("self_clean_progress", JInt 0);
   ("clean_robot_pos", match last v with
                       | None => JArr [JInt 1; JInt 2; JInt 3]
                       | Some p => pose_triple p
                       end);
   ("charge_base_pos", JArr [JInt 0; JInt 1])].

(** jres stays null when the type is none of these. *)
Definition workstate_handle (state_type : string) (jreq : json) : M json :=
  v ← gets pose_vector;
  m ← ask_MState;
  c ← ask_CleanState;
  if bool_decide (state_type = "read_current_map") then
    mret (JObj [("map_id", JInt 1);
                ("map_info_path", JStr "/userdata/map/housemap_info.txt");
                ("map_data_path", JStr "/userdata/map/housemap.txt")])
  else if bool_decide (state_type = "get_all_state") then mret (JObj (all_state m c v))
  else if bool_decide (state_type = "get_robot_traj") then
    mret (if decide (v = []) then JNull
          else JObj [("robot_traj", JArr (pose_triple <$> v))])
  else if bool_decide (state_type = "update_clean_trail") then
    start_pos ← body_int jreq "start_pos";
    mret (JObj [("start_pos", JInt start_pos);
                ("clean_trail", JArr (pose_pair <$> trail_from start_pos v))])
  else mret JNull.

(** The reply is sent when the message is a request; a request that does not
    parse is dropped without one. *)
Definition OnDpNet_Message `{RealFormat} (method : string) (is_request : bool)
    (req_buffer : option json) : M (option json) :=
  if bool_decide (method = "DP_SCHEDULE_REQUEST") then
    match req_buffer with
    | None => mret None
    | Some jreq =>
        t ← lift (jkey jreq "type");
        _ ← work_handle (asString t) jreq;
        jres ← workstate_handle (asString t) jreq;
        mret (if is_request then Some (JObj [("body", jres); ("type", JStr (asString t))])
              else None)
    end
  else mret (if is_request then Some (JObj [("type", JStr "")]) else None).
