(* ===== verification/DbData.v ===== *)
(** * DbdataBase: settings and maps kept by the database server

    src/lib_app/robot_schedule/schedule/DbdataBase.cpp: broadcasts of changed
    settings, queries for them, the do-not-disturb and reservation timer, and
    the registration of the maps found on disk. *)

From S2P Require Import Prelude Json DeviceStates DataModel World.
#[local] Open Scope Z_scope.

Definition db_request (ty : string) (body : list (string * json)) : M unit :=
  emit (EvDp "DP_DB_REQUEST" (request ty body)).

Definition set_reservation (v : Z) : M unit :=
  modify (with_db (λ d, mkDb (clean_mode d) (disturb_start_time d) (disturb_end_time d)
                             v (donot_disturb_value d) (time_clean d))).
Definition set_donot_disturb (v : Z) : M unit :=
  modify (with_db (λ d, mkDb (clean_mode d) (disturb_start_time d) (disturb_end_time d)
                             (reservation_value d) v (time_clean d))).
Definition set_clean_mode (v : Z) : M unit :=
  modify (with_db (λ d, mkDb v (disturb_start_time d) (disturb_end_time d)
                             (reservation_value d) (donot_disturb_value d) (time_clean d))).
Definition set_disturb_times (s e : Z) : M unit :=
  modify (with_db (λ d, mkDb (clean_mode d) s e
                             (reservation_value d) (donot_disturb_value d) (time_clean d))).
Definition set_time_clean (f : list Clean_value → list Clean_value) : M unit :=
  modify (with_db (λ d, mkDb (clean_mode d) (disturb_start_time d) (disturb_end_time d)
                             (reservation_value d) (donot_disturb_value d) (f (time_clean d)))).

(** ** Broadcast handlers *)

(** The brush and mop levels of a cleaning type: (mid, mop, side). *)
Definition type_levels (model : Z) : option (Z * Z * Z) :=
  match model with
  | 1 => Some (1, 0, 2)     (* sweep only *)
  | 2 => Some (0, 1, 0)     (* mop only *)
  | 3 => Some (1, 1, 2)     (* sweep and mop *)
  | _ => None
  end.

Definition Clean_type (jreq : json) : M unit :=
  model ← lift (JV_TO_INT jreq "mode" 0);
  match type_levels model with
  | Some (mid_level, mop_ctrl, side_level) =>
      set_mid_level mid_level;; set_mop_ctrl mop_ctrl;; set_side_level side_level
  | None => mret tt
  end.

(** The custom strength is read and dropped. *)
Definition Clean_strength (jreq : json) : M unit :=
  model ← lift (JV_TO_INT jreq "mode" 0);
  when (model =? 3) (
    _ ← lift (JV_TO_INT jreq "suction" 0);
    _ ← lift (JV_TO_INT jreq "water_yield" 0);
    _ ← lift (JV_TO_INT jreq "speed" 0);
    _ ← lift (JV_TO_INT jreq "area" 0);
    mret tt).

Definition Time_clean (jreq : json) : M unit :=
  enable ← lift (JV_TO_INT jreq "enable" 0);
  match enable with
  | 0 => set_reservation 0
  | 1 => set_reservation 1
  | _ => mret tt
  end.

Definition Donot_disturb (jreq : json) : M unit :=
  enable ← lift (JV_TO_INT jreq "enable" 0);
  when (enable =? 1) (set_donot_disturb 1).

Definition Self_clean (jreq : json) : M unit :=
  _ ← lift (JV_TO_INT jreq "enable" 0); mret tt.

Definition Delete_map (jreq : json) : M unit :=
  map_id ← lift (JV_TO_INT jreq "map_id" 0);
  match map_id with
  | 1 => emit (EvSystem "rm /userdata/map1/* -rf")
  | 2 => emit (EvSystem "rm /userdata/map2/* -rf")
  | 3 => emit (EvSystem "rm /userdata/map3/* -rf")
  | _ => mret tt
  end.

(** ** Zones *)

Definition vertex (r : Room) (i : nat) : Z * Z := default (0, 0) (vertexs_value r !! i).

(** set_forbidden_zone: vertices 0..3 are the corners lb, lt, rb, rt. *)
Definition set_forbidden_zone (forbidden_info : list Room) : M unit :=
  iterM (λ r, emit (EvForbidden (vertex r 0) (vertex r 1) (vertex r 2) (vertex r 3)))
        forbidden_info.

(** One iteration of the vertex loop; vertexs_value is int[4][2]. *)
Definition read_vertex (vs : json) (j : nat) (r : Room) : res Room :=
  v ← jidx vs j;
  x ← jidx v 0 ≫= asInt;
  y ← jidx v 1 ≫= asInt;
  if decide (j < 4)%nat
  then Ok (mkRoom (<[j := (x, y)]> (vertexs_value r)) (bedroom_name r) (room_id r))
  else Ub UB_OutOfBounds.

Fixpoint read_vertexs (vs : json) (j n : nat) (r : Room) : res Room :=
  match n with
  | O => Ok r
  | S n' => r' ← read_vertex vs j r; read_vertexs vs (S j) n' r'
  end.

Section zones.
Context `{Env} `{RealFormat}.

(** The loop body for element i; [zone_cfg] is declared outside the loops,
    so a member the element lacks keeps the previous element's value. *)
Definition read_zone (arr : json) (i : nat) (zone_cfg : Room) : res Room :=
  e ← jidx arr i;
  name ← jkey e "name";
  id ← jkey e "id" ≫= asInt;
  vs ← jkey e "vertexs";
  let r := mkRoom (vertexs_value zone_cfg) (asString name) id in
  if isArray vs then read_vertexs vs 0 (jsize vs) r else Ok r.

Fixpoint read_zones (arr : json) (i n : nat) (zone_cfg : Room)
    : res (list Room * Room) :=
  match n with
  | O => Ok ([], zone_cfg)
  | S n' =>
      r ← read_zone arr i zone_cfg;
      '(l, last) ← read_zones arr (S i) n' r;
      Ok (r :: l, last)
  end.

(** One section of a zone message: the elements of member [key], as many as
    member [size_key] has. *)
Definition zone_section (body : json) (key size_key : string) (zone_cfg : Room) : M Room :=
  arr ← lift (jkey body key);
  if isArray arr then
    sz ← lift (jkey body size_key);
    '(rooms, last) ← lift (read_zones arr 0 (jsize sz) zone_cfg);
    set_forbidden_zone rooms;;
    mret last
  else mret zone_cfg.

Definition garbage_room : Room :=
  mkRoom (garbage_vertex <$> seq 0 4) "" garbage_id.

Definition Zone_cfg (jreq : json) : M unit :=
  _ ← lift (JV_TO_INT jreq "map_id" 0);
  r ← zone_section jreq "room" "room" garbage_room;
  r ← zone_section jreq "virtual_wall" "virtual_wall" r;
  r ← zone_section jreq "virtual_forbidden_zone" "virtual_forbidden_zone" r;
  _ ← zone_section jreq "virtual_threshold" "virtual_threshold" r;
  mret tt.

(** ** Dispatch of DP_DB_BROADCAST messages *)
Definition g_dpmsg_table : list (string * (json → M unit)) :=
  [("set_clean_type", Clean_type);
   ("set_clean_strength", Clean_strength);
   ("set_timing_clean_cfg", Time_clean);
   ("set_donot_disturb_cfg", Donot_disturb);
   ("set_self_clean_cfg", Self_clean);
   ("set_zone_cfg", Zone_cfg);
   ("delete_map", Delete_map)].

Fixpoint dispatch (table : list (string * (json → M unit))) (stype : string) (body : json)
    : M unit :=
  match table with
  | [] => mret tt
  | (ty, handler) :: table' =>
      if bool_decide (stype = ty) then handler body else dispatch table' stype body
  end.

Definition OnDpDb_Message (method : string) (req_buffer : option json) : M unit :=
  when (bool_decide (method = "DP_DB_BROADCAST")) (
    match req_buffer with
    | None => mret tt
    | Some jreq =>
        t ← lift (jkey jreq "type");
        body ← lift (jkey jreq "body");
        dispatch g_dpmsg_table (asString t) body
    end).

(** ** Queries *)

(** String2Json(str_res, json_res) && json_res["body"][k].isInt() *)
Definition reply_int (ty k : string) : M (option (json * Z)) :=
  match db_reply ty with
  | None => mret None
  | Some json_res =>
      body ← lift (jkey json_res "body");
      v ← lift (jkey body k);
      if isInt v then x ← lift (asInt v); mret (Some (json_res, x)) else mret None
  end.

Definition body_as_int (json_res : json) (k : string) : M Z :=
  lift (body ← jkey json_res "body"; jkey body k ≫= asInt).

Definition get_clean_type : M Z :=
  db_request "get_clean_type" [];;
  r ← reply_int "get_clean_type" "mode";
  match r with
  | Some (_, mode) => set_clean_mode mode;; mret mode
  | None => mret 0
  end.

Definition work_clean_type : M unit :=
  clean_type ← get_clean_type;
  match type_levels clean_type with
  | Some (mid_level, mop_ctrl, side_level) =>
      set_side_level side_level;; set_mid_level mid_level;; set_mop_ctrl mop_ctrl
  | None => mret tt
  end.

(** The custom strength is looked up beside "body", not inside it. *)
Definition work_clean_strength : M unit :=
  db_request "get_clean_strength" [];;
  r ← reply_int "get_clean_strength" "mode";
  match r with
  | Some (json_res, 1) => set_mid_level 1;; set_side_level 1
  | Some (json_res, 2) => set_mid_level 3;; set_side_level 3
  | Some (json_res, 3) =>
      suction ← lift (JV_TO_INT json_res "suction" 0);
      _ ← lift (JV_TO_INT json_res "water_yield" 0);
      _ ← lift (JV_TO_INT json_res "speed" 0);
      _ ← lift (JV_TO_INT json_res "area" 0);
      set_fan_level suction
  | _ => mret tt
  end.

Definition get_donot_disturb_cfg : M Z :=
  db_request "get_donot_disturb_cfg" [];;
  r ← reply_int "get_donot_disturb_cfg" "enable";
  match r with
  | Some (json_res, enable) =>
      s ← body_as_int json_res "start_time";
      e ← body_as_int json_res "end_time";
      set_disturb_times s e;;
      mret enable
  | None => mret (-1)
  end.

Definition read_clean_value (arr : json) (i : nat) : res Clean_value :=
  e ← jidx arr i;
  d ← jkey e "day" ≫= asInt;
  en ← jkey e "enable" ≫= asInt;
  st ← jkey e "start_time" ≫= asInt;
  Ok (mkCleanValue d en st).

Definition append_clean_value (arr : json) (i : nat) : M unit :=
  v ← lift (read_clean_value arr i);
  when (cv_enable v =? 1) (set_time_clean (λ l, l ++ [v])).

(** Two of its paths have a return statement; when the reply cannot be read or
    its enable is neither 0 nor 1, control reaches the end. *)
Definition get_timing_clean_cfg : M Z :=
  db_request "get_timing_clean_cfg" [];;
  r ← reply_int "get_timing_clean_cfg" "enable";
  match r with
  | Some (_, 0) => mret 0
  | Some (json_res, 1) =>
      body ← lift (jkey json_res "body");
      days ← lift (jkey body "days");
      when (isArray days) (iterM (append_clean_value days) (seq 0 (jsize days)));;
      mret 1
  | _ => fall_off "get_timing_clean_cfg"
  end.

(** virtual_forbidden_zone is read with the number of rooms. *)
Definition get_zone_cfg : M unit :=
  db_request "get_zone_cfg" [("map_id", JInt 1)];;
  r ← reply_int "get_zone_cfg" "map_id";
  match r with
  | Some (json_res, _) =>
      body ← lift (jkey json_res "body");
      r ← zone_section body "room" "room" garbage_room;
      r ← zone_section body "virtual_wall" "virtual_wall" r;
      r ← zone_section body "virtual_forbidden_zone" "room" r;
      _ ← zone_section body "virtual_threshold" "virtual_threshold" r;
      mret tt
  | None => mret tt
  end.

(** ** Maps on disk *)

Definition map_paths (map_id : Z) : list (string * json) :=
  match map_id with
  | 1 => [("map_info_path", JStr "/userdata/map/housemap_info.txt");
          ("map_data_path", JStr "/userdata/map/housemap.txt")]
  | 2 => [("map_info_path", JStr "/userdata/map2/housemap_info.txt");
          ("map_data_path", JStr "/userdata/map2/housemap.txt")]
  | 3 => [("map_info_path", JStr "/userdata/map3/housemap_info.txt");
          ("map_data_path", JStr "/userdata/map3/housemap.txt")]
  | _ => []
  end.

Definition save_db_map (map_id : Z) : M unit :=
  db_request "save_map" (("map_id", JInt map_id) :: map_paths map_id).

(** None: the switch has no case for the sum, and control reaches the end. *)
Definition get_map_number : option Z :=
  let map1_number := if map_exists 1 then 2 else -1 in
  let map2_number := if map_exists 2 then 3 else -1 in
  let map3_number := if map_exists 3 then 4 else -1 in
  match map1_number + map2_number + map3_number with
  | -3 => Some 0
  | 0 => Some 2
  | 1 => Some 3
  | 2 => Some 4
  | 4 => Some 5
  | 5 => Some 6
  | 6 => Some 7
  | 9 => Some 9
  | _ => None
  end.

(** The ids saveAllmaponDb derives from the number. *)
Definition saved_ids (map_number : Z) : list Z :=
  match map_number with
  | 2 | 3 | 4 => [map_number - 1]
  | 5 => [map_number - 4; map_number - 3]
  | 6 => [map_number - 5; map_number - 3]
  | 7 => [map_number - 5; map_number - 4]
  | 9 => [map_number - 8; map_number - 7; map_number - 6]
  | _ => []
  end.

Definition saveAllmaponDb : M unit :=
  match get_map_number with
  | Some n => iterM save_db_map (saved_ids n)
  | None => n ← fall_off "get_map_number"; iterM save_db_map (saved_ids n)
  end.

(** ** The ten-second settings timer *)

(** start < now < end, as C++ parses it. *)
Definition in_disturb_window (s now e : Z) : bool := (if s <? now then 1 else 0) <? e.

(** time_hour*60 + time_min, in int. *)
Definition minutes (t : DayTime) : res Z :=
  let h := time_hour t * 60 in
  if bool_decide (in_s 32 h ∧ in_s 32 (h + time_min t)) then Ok (h + time_min t)
  else Ub UB_SignedOverflow.

Definition disturb_check : M unit :=
  d ← gets (λ w, donot_disturb_value (db w));
  when (d =? 1) (
    set_donot_disturb 0;;
    enable ← get_donot_disturb_cfg;
    when (enable =? 1) (
      s ← gets (λ w, disturb_start_time (db w));
      e ← gets (λ w, disturb_end_time (db w));
      now ← lift (minutes garbage_time);
      when (in_disturb_window s now e) (
        m ← ask_MState;
        when (bool_decide (m ≠ ESTATE_IDLE)) interrupt_work))).

Definition reserve_one (v : Clean_value) : M unit :=
  now ← lift (minutes garbage_time);
  when ((time_wday garbage_time =? day v) && (now =? start_time v)) (
    m ← ask_MState;
    when (bool_decide (m = ESTATE_CHAGRE ∨ m = ESTATE_CHAGRE_END))
      (do_setJobCommand EJOB_GLOBAL_CLEAN)).

Definition reservation_check : M unit :=
  r ← gets (λ w, reservation_value (db w));
  when (negb (r =? 0)) (
    set_reservation 0;;
    _ ← get_timing_clean_cfg;
    l ← gets (λ w, time_clean (db w));
    iterM reserve_one l;;
    set_time_clean (λ _, [])).

Definition dbCfgwork : M unit := disturb_check;; reservation_check.
End zones.
