(* ===== verification/RobotSchedule.v ===== *)
(** * CRobotSchedule: the cleaning loop

    src/lib_app/robot_schedule/schedule/RobotSchedule.cpp: the thread that
    consumes job commands, runs the algorithm library and reports, and the
    one-second listener. *)

From S2P Require Import Prelude Json DeviceStates DataModel World Netserver DbData.
#[local] Open Scope Z_scope.

Definition with_slam (f : E_SLAM_STATE → E_SLAM_STATE) : M unit :=
  modify (with_sched (λ s, mkSchedule (f (m_slamState s)) (SIG_VALUE_SCHEDULE s)
                             (clean_return_value s) (clean_type s) (clean_result s))).
Definition set_clean_return_value (v : Z) : M unit :=
  modify (with_sched (λ s, mkSchedule (m_slamState s) (SIG_VALUE_SCHEDULE s)
                             v (clean_type s) (clean_result s))).
Definition set_clean_type (v : Z) : M unit :=
  modify (with_sched (λ s, mkSchedule (m_slamState s) (SIG_VALUE_SCHEDULE s)
                             (clean_return_value s) v (clean_result s))).
Definition set_clean_result (v : Z) : M unit :=
  modify (with_sched (λ s, mkSchedule (m_slamState s) (SIG_VALUE_SCHEDULE s)
                             (clean_return_value s) (clean_type s) v)).
Definition setCRobotdata (b : bool) : M unit :=
  modify (with_sched (λ s, mkSchedule (m_slamState s) b
                             (clean_return_value s) (clean_type s) (clean_result s))).
Definition getCRobotdata : M bool := gets (λ w, SIG_VALUE_SCHEDULE (sched w)).

(** m_slamState = getSlamStartState() reads the field it assigns; the thread
    object replaces the previous pointer. *)
Definition startSlamModule : M unit :=
  with_slam (λ s, s);;
  s ← gets (λ w, m_slamState (sched w));
  when (bool_decide (s = SLAM_IDLE)) (emit EvSpawnSlam).
Definition startWorkSchedule : M unit := startSlamModule.

(** The first argument is not used by the body. *)
Definition allWorkInterface (e_Cmd : EJobCommand) (e_Mstate : E_MASTER_STATE)
    (e_Cstate : CLEAN_STATE) (play_voice : string) : M unit :=
  do_setMState e_Mstate;;
  do_setCleanState e_Cstate;;
  set_voice_play play_voice;;
  sendState;;
  do_setJobCommand EJOB_NULL.

Definition cleanCommand (cmd : EJobCommand) : M unit :=
  startWorkSchedule;;
  match cmd with
  | EJOB_GLOBAL_CLEAN =>
      allWorkInterface EJOB_GLOBAL_CLEAN ESTATE_CLEAN CLEAN_STATE_AUTO "Q006";;
      set_clean_type 1
  | EJOB_LOCAL_CLEAN =>
      allWorkInterface EJOB_LOCAL_CLEAN ESTATE_CLEAN CLEAN_STATE_RECT "Q044";;
      set_clean_type 2
  | EJOB_ZONE_CLEAN =>
      allWorkInterface EJOB_ZONE_CLEAN ESTATE_CLEAN CLEAN_STATE_LOCATION "Q009";;
      set_clean_type 3
  | EJOB_POINT_CLEAN =>
      allWorkInterface EJOB_POINT_CLEAN ESTATE_CLEAN CLEAN_STATE_SITU "Q006";;
      set_clean_type 4
  | EJOB_FAST_BUILD_MAP =>
      allWorkInterface EJOB_FAST_BUILD_MAP ESTATE_FAST_BUILD_MAP CLEAN_STATE_NULL "Q006"
  | EJOB_BACK_CHARGE =>
      allWorkInterface EJOB_BACK_CHARGE ESTATE_BACK_CHARGE CLEAN_STATE_NULL "Q006"
  | _ => mret tt
  end.

(** EJOB_GLOBAL_CLEAN <= job && job <= EJOB_VLOW_BACK_CHARGE *)
Definition is_new_command (j : EJobCommand) : bool :=
  (job_code EJOB_GLOBAL_CLEAN <=? job_code j) && (job_code j <=? job_code EJOB_VLOW_BACK_CHARGE).

Definition newCommandHandle : M unit :=
  jobcommand ← gets (λ w, getJobCommand (jobs w));
  when (is_new_command jobcommand) (cleanCommand jobcommand).

Section schedule.
Context `{Env}.

Definition cleanWorkHandle : M unit :=
  mainState_a ← ask_MState;
  cleanState_a ← ask_CleanState;
  when (bool_decide (mainState_a = ESTATE_CLEAN)) (
    match cleanState_a with
    | CLEAN_STATE_AUTO =>
        r ← house_clean 0 1 0; set_clean_return_value r;; saveAllmaponDb
    | CLEAN_STATE_LOCATION => _ ← room_clean LIVING_ROOM 0; mret tt
    | _ => mret tt
    end).

(** The switch on clean_return_value after the work of an iteration. *)
Definition finish_clean : M unit :=
  r ← gets (λ w, clean_return_value (sched w));
  match r with
  | 0 => send_clean_log;; set_clean_result 1
  | 1 => send_clean_log;; set_voice_play "Q010";; do_setMState ESTATE_BACK_CHARGE;;
         sendState;; set_clean_result 2;; set_clean_return_value 2
  | _ => mret tt
  end.

(** One iteration of cleanSchedule's loop; false is the break. *)
Definition clean_iteration : M bool :=
  newCommandHandle;; cleanWorkHandle;; finish_clean;; getCRobotdata.

(** At most [n] iterations of the loop. *)
Fixpoint cleanSchedule_loop (n : nat) : M unit :=
  match n with
  | O => mret tt
  | S n' => go ← clean_iteration; if go : bool then cleanSchedule_loop n' else mret tt
  end.
Definition cleanSchedule (n : nat) : M unit := sendState;; cleanSchedule_loop n.
End schedule.

(** The listener the init function registers with the one-second timer: a
    changed cleaning state interrupts the run and is consumed, a move from
    cleaning to charging or washing interrupts it. *)
Definition listen_clean : M unit :=
  w ← get;
  when (getCQueueSize (dm w) =? 2) (
    f ← lift (getCQueueFort (dm w));
    b ← lift (getCQueueBack (dm w));
    when (bool_decide (f ≠ b)) (
      interrupt_work;;
      d ← lift (deletCQueue (dm w));
      modify (with_dm (λ _, d)))).

Definition listen_device : M unit :=
  w ← get;
  when (getMQueueSize (dm w) =? 2) (
    back_data ← lift (getMQueueBack (dm w));
    f ← lift (getMQueueFort (dm w));
    when (bool_decide (f = ESTATE_CLEAN)) (
      match back_data with
      | ESTATE_BACK_CHARGE => interrupt_work
      | ESTATE_BACK_WASH => interrupt_work
      | _ => mret tt
      end)).

Definition listenState : M unit := listen_clean;; listen_device.

(** sendmapdata: the local map_update keeps its default id 1. *)
Definition sendmapdata : M unit :=
  m ← ask_MState;
  when (bool_decide (m = ESTATE_CLEAN)) (
    broadcast "update_current_map"
      [("map_id", JInt 1);
       ("map_info_path", JStr "/userdata/map/housemap_info.txt");
       ("map_data_path", JStr "/userdata/map/housemap.txt")]).
