(* ===== verification/System.v ===== *)
(** * The robot_schedule process as a transition system

    Every entry point of the process (a DP message, a timer callback, a pose
    from the navigation socket, an iteration of the cleaning loop, the stop
    signal) is a label; a step runs one entry point to completion in some
    environment.  The theorems are proved by rule induction on reachability.

    Operations that nothing calls are no entry points: the listener and the map
    timer of RobotSchedule.cpp, whose thread is commented out, the query for the
    zones, whose call in main is, and work_clean_type and work_clean_strength. *)

From S2P Require Import Prelude Json DeviceStates DataModel World SensorData Netserver DbData RobotSchedule.
#[local] Open Scope Z_scope.

Inductive label :=
| LPeripherals (c : sensor_client) (method : string) (msg : option json)
| LNet (method : string) (is_request : bool) (msg : option json)
| LDb (method : string) (msg : option json)
| LIteration | LSettingsTimer | LPoseTimer | LAreaTimer
| LPose (x y yam : Z)
| LStop.

Definition ignore {A} (m : M A) : M unit := m;; mret tt.

Definition handler `{Env} `{RealFormat} (l : label) : M unit :=
  match l with
  | LPeripherals c m msg => peripherals_broadcast c m msg
  | LNet m r msg => ignore (OnDpNet_Message m r msg)
  | LDb m msg => OnDpDb_Message m msg
  | LIteration => ignore clean_iteration
  | LSettingsTimer => dbCfgwork
  | LPoseTimer => send_robot_pose
  | LAreaTimer => send_clean_area
  | LPose x y yam => pose_down_net x y yam
  | LStop => setCRobotdata false;; interrupt_work
  end.

(** The state after the constructors; key_value and the two disturb times are
    not initialised by them. *)
Definition init_world (key dst det : Z) : World :=
  mkWorld initDataModel initJobEvent
    (mkSchedule SLAM_IDLE true 2 0 0) (mkSensor (u8 key) (-2)) []
    (mkDb 0 dst det 1 1 []) [].

Inductive step : World → World → Prop :=
| step_run (E : Env) (F : RealFormat) l w w' :
    handler l w = Ok (tt, w') → step w w'.

Inductive reachable : World → Prop :=
| reach_init key dst det : reachable (init_world key dst det)
| reach_step w w' : reachable w → step w w' → reachable w'.

(** Device states some run can show. *)
Definition device_states : list E_MASTER_STATE :=
  [ESTATE_IDLE; ESTATE_CLEAN; ESTATE_PAUSE_CLEAN; ESTATE_BACK_CHARGE; ESTATE_CHAGRE_PAUSE;
   ESTATE_FAST_BUILD_MAP; ESTATE_PAUSE_FAST_BUILD_MAP; ESTATE_SHUTDOWM].
Definition clean_states : list CLEAN_STATE :=
  [CLEAN_STATE_NULL; CLEAN_STATE_AUTO; CLEAN_STATE_RECT; CLEAN_STATE_LOCATION;
   CLEAN_STATE_SITU].

(** ** The invariant *)
Record Inv (w : World) : Prop := {
  inv_dm : dm_wf (dm w);
  inv_jobs : History.wf (jobs w);
  inv_master : getMState (dm w) ∈ device_states;
  inv_clean : getCleanState (dm w) ∈ clean_states;
  inv_fresh : History.queue (MState (dm w)) = [] → getMState (dm w) = ESTATE_IDLE;
  inv_slam : m_slamState (sched w) = SLAM_IDLE;
  inv_poses : Z.of_nat (length (pose_vector w)) ≤ 10001 }.

Lemma init_world_inv key dst det : Inv (init_world key dst det).
Proof. split; try done; vm_compute; repeat constructor. Qed.

(** *** What goes wrong while a message is read *)

(** A value is read as a container it is not. *)
Lemma res_jkey U v k : U UB_BadJson → res_in U (jkey v k).
Proof. by destruct v. Qed.
Lemma res_jidx U v i : U UB_BadJson → res_in U (jidx v i).
Proof. by destruct v. Qed.
Lemma res_isMember U v k : U UB_BadJson → res_in U (isMember v k).
Proof. by destruct v. Qed.
(** A double is converted that no integer holds. *)
Lemma res_asInt U v : U UB_BadConversion → res_in U (asInt v).
Proof. destruct v; simpl; try case_match; done. Qed.
#[export] Hint Resolve res_jkey res_jidx res_isMember res_asInt : pres.

(** The macros look at the type before they convert. *)
Lemma res_isInt_asInt U v : isInt v = true → res_in U (asInt v).
Proof. destruct v; simpl; try done. by intros [-> _]%andb_prop. Qed.
Lemma res_isUInt_asUInt U v : isUInt v = true → res_in U (asUInt v).
Proof. destruct v; simpl; try done. by intros [-> _]%andb_prop. Qed.

Lemma res_JV_TO_INT U v k d : U UB_BadJson → res_in U (JV_TO_INT v k d).
Proof.
  intros HU. unfold JV_TO_INT. apply res_in_bind; [auto with pres|]. intros [|]; [|done].
  apply res_in_bind; [auto with pres|]. intros x. destruct (isInt x) eqn:Hx; [by apply res_isInt_asInt|done].
Qed.
Lemma res_JV_TO_UINT U v k d : U UB_BadJson → res_in U (JV_TO_UINT v k d).
Proof.
  intros HU. unfold JV_TO_UINT. apply res_in_bind; [auto with pres|]. intros [|]; [|done].
  apply res_in_bind; [auto with pres|]. intros x. destruct (isUInt x) eqn:Hx; [by apply res_isUInt_asUInt|done].
Qed.
Lemma res_JV_TO_DOUBLE U v k d : U UB_BadJson → res_in U (JV_TO_DOUBLE v k d).
Proof. intros HU. unfold JV_TO_DOUBLE. solve_pres. Qed.
#[export] Hint Resolve res_JV_TO_INT res_JV_TO_UINT res_JV_TO_DOUBLE : pres.

(** *** Elementary updates *)
Section updates.
Variable U : ub → Prop.

Lemma pres_emit e : pres U Inv (emit e).
Proof. apply pres_modify. by intros w []. Qed.
Lemma pres_with_sensor f : pres U Inv (modify (with_sensor f)).
Proof. apply pres_modify. by intros w []. Qed.
Lemma pres_with_sched f :
  (∀ s, m_slamState (f s) = m_slamState s) → pres U Inv (modify (with_sched f)).
Proof. intros Hf. apply pres_modify. intros w []. split; try done. simpl. by rewrite Hf. Qed.
Lemma pres_with_db f : pres U Inv (modify (with_db f)).
Proof. apply pres_modify. by intros w []. Qed.
Lemma pres_with_poses f :
  (∀ v, Z.of_nat (length v) ≤ 10001 → Z.of_nat (length (f v)) ≤ 10001) →
  pres U Inv (modify (with_poses f)).
Proof. intros Hf. apply pres_modify. intros w []. split; try done. by apply Hf. Qed.

Lemma pres_setJobCommand c : pres U Inv (do_setJobCommand c).
Proof. apply pres_modify. intros w []. split; try done. by apply History.push2_wf. Qed.

Lemma pres_setMState m : m ∈ device_states → pres U Inv (do_setMState m).
Proof.
  intros Hm. apply pres_modify. intros w []. split; try done; simpl.
  - by apply setMState_wf.
  - by rewrite getMState_setMState.
  - by apply setMState_fresh.
Qed.

Lemma pres_setCleanState c : c ∈ clean_states → pres U Inv (do_setCleanState c).
Proof.
  intros Hc. apply pres_modify. intros w []. split; try done; simpl.
  - by apply setCleanState_wf.
  - by rewrite getCleanState_setCleanState.
Qed.
End updates.
#[export] Hint Resolve pres_emit pres_with_sensor pres_with_db
  pres_setJobCommand : pres.

(** A device or cleaning state written as a literal. *)
Ltac in_states := vm_compute; repeat constructor.
#[export] Hint Extern 2 (pres _ _ (modify (with_sched _))) =>
  apply pres_with_sched; reflexivity : pres.
Lemma push_pose_bound p v :
  Z.of_nat (length v) ≤ 10001 → Z.of_nat (length (push_pose p v)) ≤ 10001.
Proof.
  intros Hv. unfold push_pose. rewrite length_app. simpl.
  case_decide; [|lia]. destruct v; simpl in *; lia.
Qed.

#[export] Hint Extern 2 (pres _ _ (modify (with_poses _))) =>
  apply pres_with_poses; intros ? ?; first [by apply push_pose_bound | simpl; lia] : pres.
#[export] Hint Extern 2 (pres _ _ (do_setMState _)) => apply pres_setMState; in_states : pres.
#[export] Hint Extern 2 (pres _ _ (do_setCleanState _)) => apply pres_setCleanState; in_states : pres.

(** A state read inside a handler is one of the reachable ones. *)
Lemma pres_ask_MState {A} U (k : E_MASTER_STATE → M A) :
  (∀ m, m ∈ device_states → pres U Inv (k m)) → pres U Inv (ask_MState ≫= k).
Proof. intros Hk w Hw. apply (Hk (getMState (dm w))); [apply Hw|done]. Qed.

Lemma pres_sendState U : pres U Inv sendState.
Proof. unfold sendState, ask_MState, ask_CleanState. solve_pres. Qed.
#[export] Hint Resolve pres_sendState : pres.

(** *** The handlers *)
Ltac pres_unfold :=
  unfold ask_MState, ask_CleanState, getnetWorkValue, get_key_value, set_key_value,
    setnetWorkValue, set_voice_play, set_mop_ctrl, set_mid_level, set_side_level,
    set_fan_level, peripheral_request, pause_work, resume_work, interrupt_work, broadcast,
    read_fault, body_int, db_request, set_reservation, set_donot_disturb, set_clean_mode,
    set_disturb_times, set_time_clean, with_slam, set_clean_return_value, set_clean_type,
    set_clean_result, setCRobotdata, getCRobotdata, body_as_int in *.

(** [U] is what may go wrong: every lemma asks for the kinds its handler needs. *)
Section handlers.
Context `{Env} `{RealFormat} (U : ub → Prop).
Abbreviation pinv := (pres U Inv).

(** The end of a function without a return statement: it may be what goes wrong,
    or the build returns to the caller. *)
Lemma pres_fall_off f : U UB_NoReturn → pinv (fall_off f).
Proof. intros HN. unfold fall_off. destruct (falls_off f); [apply pres_ret|by apply pres_undefined]. Qed.
Lemma pres_fall_off_some f : is_Some (falls_off f) → pinv (fall_off f).
Proof. intros [v Hv]. unfold fall_off. rewrite Hv. apply pres_ret. Qed.

Section messages.
Hypothesis HJ : U UB_BadJson.

Lemma pres_voice v : pinv (set_voice_play v).
Proof. pres_unfold. solve_pres. Qed.
Lemma pres_read_collision b k : res_in U (read_collision b k).
Proof. unfold read_collision. solve_pres. Qed.
Lemma pres_read_imu b k : res_in U (read_imu b k).
Proof. unfold read_imu. solve_pres. Qed.
#[local] Hint Resolve pres_voice pres_read_collision pres_read_imu : pres.

Lemma pres_sensor_msg t j : pinv (res_periphe_sensor t j).
Proof. unfold res_periphe_sensor. solve_pres. Qed.

Lemma pres_key_in_state m : pinv (key_in_state m).
Proof. unfold key_in_state. pres_unfold. solve_pres. Qed.
#[local] Hint Resolve pres_key_in_state : pres.

Lemma pres_key_msg t j : pinv (res_periphe_key t j).
Proof. unfold res_periphe_key. pres_unfold. solve_pres. Qed.

(** *** Requests of the network server *)
Lemma pause_target_reachable m m' :
  m ∈ device_states → pause_target m = Some m' → m' ∈ device_states.
Proof.
  intros Hm Hp. unfold device_states in Hm. set_unfold in Hm.
  destruct_or?; subst; simpl in Hp; simplify_eq; in_states.
Qed.
Lemma continue_target_reachable m m' :
  m ∈ device_states → continue_target m = Some m' → m' ∈ device_states.
Proof.
  intros Hm Hp. unfold device_states in Hm. set_unfold in Hm.
  destruct_or?; subst; simpl in Hp; simplify_eq; in_states.
Qed.

Lemma pres_integration c m v :
  m ∈ device_states → pinv (netserverIntergrationHandle c m v).
Proof.
  intros Hm. unfold netserverIntergrationHandle.
  pose proof (pres_setMState U m Hm). solve_pres.
Qed.

Lemma pres_pause_clean : pinv pause_clean.
Proof.
  apply pres_ask_MState. intros m Hm. destruct (pause_target m) eqn:Hp.
  - pose proof (pres_integration EJOB_PAUSE_CLEAN _ "Q007"
      (pause_target_reachable _ _ Hm Hp)). pres_unfold. solve_pres.
  - apply pres_ret.
Qed.
Lemma pres_continue_clean : pinv continue_clean.
Proof.
  apply pres_ask_MState. intros m Hm. destruct (continue_target m) eqn:Hp.
  - pose proof (pres_integration EJOB_RESUME_CLEAN _ "Q008"
      (continue_target_reachable _ _ Hm Hp)). pres_unfold. solve_pres.
  - apply pres_ret.
Qed.
Lemma pres_stop_clean : pinv stop_clean.
Proof. unfold stop_clean. pres_unfold. solve_pres. Qed.
Lemma pres_zoning_clean j : pinv (zoning_clean j).
Proof. unfold zoning_clean. solve_pres. Qed.
Lemma pres_set_wifi_state j : pinv (set_wifi_state j).
Proof. unfold set_wifi_state. pres_unfold. solve_pres. Qed.
#[local] Hint Resolve pres_pause_clean pres_continue_clean pres_stop_clean
  pres_zoning_clean pres_set_wifi_state : pres.

Lemma pres_work_handle t j : pinv (work_handle t j).
Proof. unfold work_handle. pres_unfold. solve_pres. Qed.
Lemma pres_workstate_handle t j : pinv (workstate_handle t j).
Proof. unfold workstate_handle. pres_unfold. solve_pres. Qed.
#[local] Hint Resolve pres_work_handle pres_workstate_handle : pres.

Lemma pres_net_msg m r j : pinv (OnDpNet_Message m r j).
Proof. unfold OnDpNet_Message. solve_pres. Qed.
End messages.

(** *** Settings and maps *)
Section settings.
Hypothesis (HJ : U UB_BadJson) (HC : U UB_BadConversion).

Section zones.
Hypothesis HB : U UB_OutOfBounds.

Lemma res_read_vertexs vs n : ∀ j r, res_in U (read_vertexs vs j n r).
Proof.
  induction n; intros j r; simpl; [done|]. apply res_in_bind; [|auto].
  unfold read_vertex. solve_pres.
Qed.
#[local] Hint Resolve res_read_vertexs : pres.

Lemma res_read_zones arr n : ∀ i r, res_in U (read_zones arr i n r).
Proof.
  induction n; intros i r; simpl; [done|]. unfold read_zone. solve_pres.
Qed.
#[local] Hint Resolve res_read_zones : pres.

Lemma pres_zone_section b k sz r : pinv (zone_section b k sz r).
Proof. unfold zone_section, set_forbidden_zone. solve_pres. Qed.
#[local] Hint Resolve pres_zone_section : pres.

Lemma pres_dispatch t b : pinv (dispatch g_dpmsg_table t b).
Proof.
  unfold dispatch, g_dpmsg_table, Clean_type, Clean_strength, Time_clean, Donot_disturb,
    Self_clean, Zone_cfg, Delete_map. pres_unfold. solve_pres.
Qed.
#[local] Hint Resolve pres_dispatch : pres.

Lemma pres_db_msg m j : pinv (OnDpDb_Message m j).
Proof. unfold OnDpDb_Message. solve_pres. Qed.
End zones.

Lemma pres_reply_int t k : pinv (reply_int t k).
Proof. unfold reply_int. solve_pres. Qed.
#[local] Hint Resolve pres_reply_int : pres.

Section timer.
Hypothesis (HF : ∀ f, pinv (fall_off f)) (HO : U UB_SignedOverflow).

Lemma res_minutes t : res_in U (minutes t).
Proof. unfold minutes. by case_bool_decide. Qed.
#[local] Hint Resolve res_minutes : pres.

Lemma pres_timing : pinv get_timing_clean_cfg.
Proof.
  unfold get_timing_clean_cfg, append_clean_value, read_clean_value. pres_unfold. solve_pres.
Qed.
#[local] Hint Resolve pres_timing : pres.
Lemma pres_reserve_one v : pinv (reserve_one v).
Proof. unfold reserve_one. pres_unfold. solve_pres. Qed.
#[local] Hint Resolve pres_reserve_one : pres.
Lemma pres_dbCfgwork : pinv dbCfgwork.
Proof.
  unfold dbCfgwork, disturb_check, reservation_check, get_donot_disturb_cfg.
  pres_unfold. solve_pres.
Qed.
End timer.
End settings.

(** *** The cleaning loop and the timers *)
(** Every combination of map files has a case in the switch. *)
Lemma get_map_number_total : is_Some get_map_number.
Proof. unfold get_map_number. by destruct (map_exists 1), (map_exists 2), (map_exists 3). Qed.

Section loop.
Hypothesis HF : ∀ f, pinv (fall_off f).

Lemma pres_saveAllmaponDb : pinv saveAllmaponDb.
Proof.
  unfold saveAllmaponDb. destruct get_map_number_total as [n ->].
  unfold save_db_map. pres_unfold. solve_pres.
Qed.
#[local] Hint Resolve pres_saveAllmaponDb : pres.

Lemma pres_cleanCommand c : pinv (cleanCommand c).
Proof.
  unfold cleanCommand, startWorkSchedule, startSlamModule, allWorkInterface.
  pres_unfold. solve_pres.
Qed.
#[local] Hint Resolve pres_cleanCommand : pres.

Lemma pres_cleanWorkHandle : pinv cleanWorkHandle.
Proof. unfold cleanWorkHandle, house_clean, room_clean. pres_unfold. solve_pres. Qed.
Lemma pres_finish_clean : pinv finish_clean.
Proof. unfold finish_clean, send_clean_log. pres_unfold. solve_pres. Qed.
#[local] Hint Resolve pres_cleanWorkHandle pres_finish_clean : pres.

Lemma pres_iteration : pinv clean_iteration.
Proof. unfold clean_iteration, newCommandHandle. pres_unfold. solve_pres. Qed.

End loop.

Lemma pres_timers :
  pinv sendmapdata ∧ pinv send_robot_pose ∧ pinv send_clean_area.
Proof.
  unfold sendmapdata, send_robot_pose, send_clean_area. pres_unfold.
  split_and!; solve_pres.
Qed.
Lemma pres_pose_down x y yam : U UB_SignedOverflow → pinv (pose_down_net x y yam).
Proof. intros HO. pose proof (pres_undefined (A:=unit) U Inv UB_SignedOverflow HO). unfold pose_down_net. solve_pres. Qed.
End handlers.

(** *** The one-second listener *)
Lemma back_ok {A} `{!EqDecision A} (h : history A) :
  History.queue h ≠ [] → ∃ v, History.back h = Ok v.
Proof.
  intros Hq. unfold History.back. destruct (last (History.queue h)) eqn:Hl; [by eexists|].
  by apply last_None in Hl.
Qed.

Lemma front_back_ok {A} `{!EqDecision A} (h : history A) :
  Z.of_nat (length (History.queue h)) = 2 →
  (∃ f, History.front h = Ok f) ∧ (∃ b, History.back h = Ok b) ∧ (∃ h', History.pop h = Ok h').
Proof.
  intros Hs. destruct (back_ok h) as [b Hb]; [by destruct (History.queue h)|].
  unfold History.front, History.pop. destruct (History.queue h) eqn:Hq; [done|].
  split_and!; by eexists.
Qed.

Lemma deletCQueue_inv w d' : Inv w → deletCQueue (dm w) = Ok d' → Inv (with_dm (λ _, d') w).
Proof.
  intros [Hd Hj Hm Hc Hf Hs Hps] Hp. pose proof Hp as Hp'.
  unfold deletCQueue, fmap, res_fmap in Hp.
  destruct (History.pop (CState (dm w))) as [h|] eqn:Hh; [|done]. simplify_eq.
  split; try done; simpl; [by eapply deletCQueue_wf|].
  unfold getCleanState in *. simpl. destruct Hd as [_ Hcw].
  destruct (History.pop_wf _ _ Hcw Hh) as [Hw' He].
  by rewrite History.latest_cur, He, <-History.latest_cur by done.
Qed.

(** The two halves of listenState; the queues are read when they hold two entries. *)
Lemma pres_listen_clean : pres no_ub Inv listen_clean.
Proof.
  apply triple_get_bind. intros w. apply triple_when; [|naive_solver].
  intros Hs%Z.eqb_eq. destruct (front_back_ok _ Hs) as ([f Hf] & [b Hb] & [h' Hh']).
  eapply triple_lift_bind; [exact Hf|]. eapply triple_lift_bind; [exact Hb|].
  apply triple_when; [|naive_solver]. intros _.
  assert (deletCQueue (dm w) = Ok (mkDataModel (MState (dm w)) h' (fault_state (dm w))
    (FstateData (dm w)))) as Hd by (unfold deletCQueue; by rewrite Hh').
  eapply triple_bind with (Q := λ _ s, Inv s ∧ dm s = dm w).
  { apply triple_modify. intros s [Hw ->]. split; [by destruct Hw|done]. }
  intros _. eapply triple_lift_bind; [exact Hd|]. apply triple_modify.
  intros s [Hw Hds]. apply deletCQueue_inv; [done|by rewrite Hds].
Qed.

Lemma pres_listen_device : pres no_ub Inv listen_device.
Proof.
  apply triple_get_bind. intros w. apply triple_when; [|naive_solver].
  intros Hs%Z.eqb_eq. destruct (front_back_ok _ Hs) as ([f Hf] & [b Hb] & _).
  eapply triple_lift_bind; [exact Hb|]. eapply triple_lift_bind; [exact Hf|].
  apply triple_when; [|naive_solver]. intros _.
  assert (pres no_ub Inv interrupt_work) as Hi by (pres_unfold; solve_pres).
  destruct b; intros s [Hw _]; first [by apply Hi|done].
Qed.

Lemma pres_listenState : pres no_ub Inv listenState.
Proof. unfold listenState. apply pres_bind; [apply pres_listen_clean|intros _; apply pres_listen_device]. Qed.

(** ** Every entry point preserves the invariant *)

(** The kinds of entry points. *)
Inductive entry :=
| EPeripherals | ENet | EDb | EIteration | ESettingsTimer | EPoseTimer | EAreaTimer | EPose | EStop.
Definition entry_of (l : label) : entry :=
  match l with
  | LPeripherals _ _ _ => EPeripherals | LNet _ _ _ => ENet | LDb _ _ => EDb
  | LIteration => EIteration | LSettingsTimer => ESettingsTimer | LPoseTimer => EPoseTimer
  | LAreaTimer => EAreaTimer | LPose _ _ _ => EPose | LStop => EStop
  end.

(** What can go wrong in each of them: values of a message or of an answer that are
    read as something else, a double no integer holds, a fifth vertex of a zone, a
    path without a return statement, an overflow of the uninitialised clock or of
    the negated coordinate. *)
Definition goes_wrong (e : entry) : list ub :=
  match e with
  | EPeripherals | ENet => [UB_BadJson]
  | EDb => [UB_BadJson; UB_BadConversion; UB_OutOfBounds]
  | EIteration => [UB_NoReturn]
  | ESettingsTimer => [UB_BadJson; UB_BadConversion; UB_NoReturn; UB_SignedOverflow]
  | EPose => [UB_SignedOverflow]
  | EPoseTimer | EAreaTimer | EStop => []
  end.

Lemma handler_inv `{Env} `{RealFormat} l : pres (λ u, u ∈ goes_wrong (entry_of l)) Inv (handler l).
Proof.
  set (U := λ u, u ∈ goes_wrong (entry_of l)).
  destruct l; simpl; unfold ignore; try (pres_unfold; solve_pres).
  - assert (U UB_BadJson) by by left.
    pose proof (pres_sensor_msg U). pose proof (pres_key_msg U).
    unfold peripherals_broadcast. destruct c; simpl; unfold OnDpSensor_Message, OnDpKey_Message, on_broadcast; solve_pres.
  - pose proof (pres_net_msg U ltac:(by left)). solve_pres.
  - apply pres_db_msg; unfold U; set_solver.
  - assert (∀ f, pres U Inv (fall_off f)) as HF by (intros f; apply pres_fall_off; by left).
    pose proof (pres_iteration U HF). solve_pres.
  - apply pres_dbCfgwork; [| |intros f; apply pres_fall_off|]; unfold U; set_solver.
  - apply pres_timers.
  - apply pres_timers.
  - apply pres_pose_down. by left.
Qed.

Lemma reachable_inv w : reachable w → Inv w.
Proof.
  induction 1 as [|w w' _ IH Hs]; [apply init_world_inv|].
  destruct Hs as [E F l w w' Hr].
  eapply pres_run; [apply (handler_inv l)|exact IH|exact Hr].
Qed.
