(* ===== verification/Behaviour.v ===== *)
(** * What the device does: theorems about the robot_schedule process

    Reachable states and safety of the whole process, and the functional
    behaviour of keys, faults, network commands and the cleaning loop. *)

From S2P Require Import Prelude Json DeviceStates DataModel World SensorData Netserver DbData RobotSchedule System.
#[local] Open Scope Z_scope.

(** ** Concrete runs *)
Section runs.
Context `{Env} `{RealFormat}.

Fixpoint run (ls : list label) (w : World) : res World :=
  match ls with
  | [] => Ok w
  | l :: ls' => match handler l w with Ok (_, w') => run ls' w' | Ub u => Ub u end
  end.

Lemma run_reachable ls : ∀ w w', reachable w → run ls w = Ok w' → reachable w'.
Proof.
  induction ls as [|l ls IH]; intros w w' Hw; simpl; [by intros [= <-]|].
  destruct (handler l w) as [[[] w1]|] eqn:Hl; [|done].
  apply IH. eapply reach_step; [exact Hw|]. by eapply step_run.
Qed.
End runs.

(** An environment for concrete runs: no maps, no database, nothing cleaned;
    [ret] is what a missing return statement leaves. *)
Definition env0 (ret : option Z) : Env :=
  Build_Env (λ _, ret) (QArith_base.Qmake 0 1) 0 (λ _, false) (λ _, None)
    (mkDayTime 0 0 0 0 0) (λ _, (0, 0)) 0.
Definition fmt0 : RealFormat := λ _, "".

Definition msg (ty : string) (body : list (string * json)) : option json :=
  Some (JObj [("type", JStr ty); ("body", JObj body)]).
Definition net_msg (ty : string) : label := LNet "DP_SCHEDULE_REQUEST" true (msg ty []).
Definition key_msg (k : Z) : label :=
  LPeripherals dp_key_client_ "DP_PERIPHERALS_BROADCAST" (msg "trigger_data" [("buttons", JInt k)]).
(** zoning_clean with the mode of an area. *)
Definition area_msg : label :=
  LNet "DP_SCHEDULE_REQUEST" true (msg "zoning_clean" [("extra_areas", JObj [("mode", JInt 1)])]).

(** A run to every device state, on which no function lacks a return statement. *)
Definition run_to (m : E_MASTER_STATE) : list label :=
  match m with
  | ESTATE_CLEAN => [area_msg; LIteration]
  | ESTATE_PAUSE_CLEAN => [area_msg; LIteration; net_msg "pause_clean"]
  | ESTATE_BACK_CHARGE => [net_msg "recharge"; LIteration]
  | ESTATE_CHAGRE_PAUSE => [net_msg "recharge"; LIteration; net_msg "pause_clean"]
  | ESTATE_FAST_BUILD_MAP => [net_msg "fast_build_map"; LIteration]
  | ESTATE_PAUSE_FAST_BUILD_MAP =>
      [net_msg "fast_build_map"; LIteration; net_msg "pause_clean"]
  | ESTATE_SHUTDOWM => [key_msg 2]
  | _ => []
  end.

(** The world at the end of a run. *)
Definition world_after (ls : list label) : World :=
  match run (H:=env0 None) (H0:=fmt0) ls (init_world 0 0 0) with
  | Ok w => w
  | Ub _ => init_world 0 0 0
  end.
Definition world_at (m : E_MASTER_STATE) : World := world_after (run_to m).

(** Closes a decidable goal by evaluating it. *)
Ltac by_eval := apply (bool_decide_unpack _); vm_compute; exact I.

Lemma run_to_ok m : m ∈ device_states →
  ∃ w, run (H:=env0 None) (H0:=fmt0) (run_to m) (init_world 0 0 0) = Ok w ∧ getMState (dm w) = m.
Proof.
  intros Hm. unfold device_states in Hm. set_unfold in Hm.
  destruct_or?; subst; (eexists; split; [vm_compute; reflexivity|reflexivity]).
Qed.

Lemma world_after_reachable ls : reachable (world_after ls).
Proof.
  unfold world_after. destruct (run ls (init_world 0 0 0)) as [w|] eqn:Hr.
  - eapply run_reachable; [apply reach_init|exact Hr].
  - apply reach_init.
Qed.
Lemma world_at_reachable m : reachable (world_at m).
Proof. apply world_after_reachable. Qed.

(** C1. The device states the process can ever show are exactly eight: idle,
    cleaning, driving to the charger and fast mapping, the paused forms of these
    three, and shutdown.  The error state is not among them, since the client for
    the faults never listens; charging, washing, OTA, dumping, trapped and the
    other declared states are never entered either. *)
Theorem device_states_exact s :
  (∃ w, reachable w ∧ getMState (dm w) = s) ↔ s ∈ device_states.
Proof.
  split.
  - intros (w & Hw & <-). apply (inv_master w), reachable_inv, Hw.
  - intros (w & Hr & Hs)%run_to_ok. exists w. split; [|done].
    eapply run_reachable; [apply reach_init|exact Hr].
Qed.

(** Messages and environments on which an entry point goes wrong. *)
Definition wrong_env : Env :=
  Build_Env (λ _, None) (QArith_base.Qmake 0 1) 0 (λ _, false)
    (λ ty, if decide (ty = "get_donot_disturb_cfg")
           then Some (JObj [("body", JObj [("enable", JInt 1)])]) else None)
    (mkDayTime 0 (2 ^ 30) 0 0 0) (λ _, (0, 0)) 0.
Definition answer_env (reply : json) : Env :=
  Build_Env (λ _, None) (QArith_base.Qmake 0 1) 0 (λ _, false) (λ _, Some reply)
    (mkDayTime 0 0 0 0 0) (λ _, (0, 0)) 0.
Definition no_int : json := JReal (QArith_base.Qmake (2 ^ 40) 1).
Definition zone_msg (id : json) (vs : nat) : option json :=
  msg "set_zone_cfg" [("room", JArr [JObj [("id", id);
    ("vertexs", JArr (replicate vs (JArr [JInt 0; JInt 0])))]])].
Definition db_label (m : option json) : label := LDb "DP_DB_BROADCAST" m.

(** A run after which entry point [e] goes wrong as [u]: the labels before it,
    the environment and the last label. *)
Definition wrong_run (e : entry) (u : ub) : option (list label * Env * label) :=
  match e, u with
  | EPeripherals, UB_BadJson =>
      Some ([], wrong_env, LPeripherals dp_key_client_ "DP_PERIPHERALS_BROADCAST" (Some (JInt 1)))
  | ENet, UB_BadJson => Some ([], wrong_env, LNet "DP_SCHEDULE_REQUEST" true (Some (JInt 1)))
  | EDb, UB_BadJson => Some ([], wrong_env, db_label (Some (JInt 1)))
  | EDb, UB_BadConversion => Some ([], wrong_env, db_label (zone_msg no_int 0))
  | EDb, UB_OutOfBounds => Some ([], wrong_env, db_label (zone_msg (JInt 1) 5))
  | EIteration, UB_NoReturn => Some ([net_msg "start_clean"], wrong_env, LIteration)
  | ESettingsTimer, UB_BadJson => Some ([], answer_env (JInt 1), LSettingsTimer)
  | ESettingsTimer, UB_BadConversion =>
      Some ([], answer_env (JObj [("body", JObj [("enable", JInt 1); ("start_time", no_int)])]), LSettingsTimer)
  | ESettingsTimer, UB_NoReturn => Some ([], env0 None, LSettingsTimer)
  | ESettingsTimer, UB_SignedOverflow => Some ([], wrong_env, LSettingsTimer)
  | EPose, UB_SignedOverflow => Some ([], wrong_env, LPose minInt 0 0)
  | _, _ => None
  end.

Lemma wrong_run_ok e u : u ∈ goes_wrong e → ∃ ls E l w,
  wrong_run e u = Some (ls, E, l) ∧ entry_of l = e ∧
  run (H:=env0 None) (H0:=fmt0) ls (init_world 0 0 0) = Ok w ∧ handler (H:=E) (H0:=fmt0) l w = Ub u.
Proof.
  destruct e; simpl; intros Hu; set_unfold in Hu; destruct_or?; subst; try done;
    (do 4 eexists; split_and!; [reflexivity|reflexivity|vm_compute; reflexivity|vm_compute; reflexivity]).
Qed.

(** C2. What can go wrong at an entry point of the process, in any reachable
    state, any environment and for any message, is exactly what [goes_wrong]
    lists for it.  The messages of the peripherals server and of the network
    server can only be read as a container they are not; those of the database
    server also hold a double no integer holds or a zone with a fifth vertex.
    The cleaning loop and the settings timer reach the end of a function that has
    no return statement, the timer also misreads an answer or overflows the clock
    nobody set; a pose can overflow when its coordinate is negated; the timers of
    the pose and the area and the stop never go wrong.  No entry point pops or
    reads an empty queue, and each of the things listed happens in some run. *)
Theorem entry_points_go_wrong e u :
  (∃ E F w l, reachable w ∧ entry_of l = e ∧ @handler E F l w = Ub u) ↔ u ∈ goes_wrong e.
Proof.
  split.
  - intros (E & F & w & l & Hw & <- & Hr). exact (pres_ub _ Inv _ w u (handler_inv l) (reachable_inv w Hw) Hr).
  - intros (ls & E & l & w & _ & He & Hr & Hub)%wrong_run_ok. exists E, fmt0, w, l.
    split_and!; [|done|done].
    exact (@run_reachable (env0 None) fmt0 ls _ w (reach_init 0 0 0) Hr).
Qed.

(** The operations that read no message run to completion from every reachable
    state, an iteration of the loop in a build that returns to the caller where
    a return statement is missing, and leave both histories well formed: at most
    two entries, distinct, the last one current.  The listener and the map timer
    would, too, if they ran. *)
Definition no_message `{Env} : list (M unit) :=
  [ignore clean_iteration; send_robot_pose; send_clean_area; listenState; sendmapdata].
Theorem loop_and_timers_total `{Env} w m :
  (∀ f, is_Some (falls_off f)) → reachable w → m ∈ no_message →
  ∃ w', m w = Ok (tt, w') ∧ dm_wf (dm w') ∧
        (length (History.queue (MState (dm w'))) ≤ 2)%nat ∧
        (length (History.queue (CState (dm w'))) ≤ 2)%nat.
Proof.
  intros Hf Hw Hl.
  assert (pres no_ub Inv m) as Hp.
  { unfold no_message in Hl. set_unfold in Hl. destruct_or?; subst.
    - pose proof (pres_iteration no_ub (λ f, pres_fall_off_some no_ub f (Hf f))). unfold ignore. solve_pres.
    - apply pres_timers.
    - apply pres_timers.
    - apply pres_listenState.
    - apply pres_timers. }
  destruct (pres_total Inv _ w Hp (reachable_inv w Hw)) as ([] & w' & Hr & Hw').
  exists w'. pose proof (inv_dm _ Hw') as [Hm Hc].
  split_and!; try done; by apply History.length_queue.
Qed.

Lemma loop_and_timers_total_witness :
  ∃ w', ignore (@clean_iteration (env0 (Some 1))) (world_at ESTATE_CLEAN) = Ok (tt, w') ∧
        dm_wf (dm w') ∧
        (length (History.queue (MState (dm w'))) ≤ 2)%nat ∧
        (length (History.queue (CState (dm w'))) ≤ 2)%nat.
Proof.
  apply (@loop_and_timers_total (env0 (Some 1)) (world_at ESTATE_CLEAN)); [by eexists|apply world_at_reachable|left].
Defined.

(** ** Scheduled cleaning *)

(** The settings timer touches neither the device state nor the job queue
    unless the device is charging. *)
Definition same_core (w0 w : World) : Prop := dm w = dm w0 ∧ jobs w = jobs w0.

Section same_core.
Context `{Env} `{RealFormat} (w0 : World).
Variable U : ub → Prop.

Lemma same_emit e : pres U (same_core w0) (emit e).
Proof. apply pres_modify. by intros w []. Qed.
Lemma same_with_db f : pres U (same_core w0) (modify (with_db f)).
Proof. apply pres_modify. by intros w []. Qed.
#[local] Hint Resolve same_emit same_with_db : pres.

Hypothesis (HJ : U UB_BadJson) (HC : U UB_BadConversion) (HO : U UB_SignedOverflow) (HN : U UB_NoReturn).

Lemma same_fall_off f : pres U (same_core w0) (fall_off f).
Proof. unfold fall_off. destruct (falls_off f); [apply pres_ret|by apply pres_undefined]. Qed.
Lemma same_minutes t : res_in U (minutes t).
Proof. unfold minutes. by case_bool_decide. Qed.
#[local] Hint Resolve same_fall_off same_minutes : pres.

Lemma same_reply_int t k : pres U (same_core w0) (reply_int t k).
Proof. unfold reply_int. solve_pres. Qed.
#[local] Hint Resolve same_reply_int : pres.

Lemma same_timing : pres U (same_core w0) get_timing_clean_cfg.
Proof.
  unfold get_timing_clean_cfg, append_clean_value, read_clean_value. pres_unfold. solve_pres.
Qed.
Lemma same_disturb : pres U (same_core w0) disturb_check.
Proof. unfold disturb_check, get_donot_disturb_cfg. pres_unfold. solve_pres. Qed.
#[local] Hint Resolve same_timing same_disturb : pres.

Lemma same_reserve_one v :
  getMState (dm w0) ≠ ESTATE_CHAGRE → getMState (dm w0) ≠ ESTATE_CHAGRE_END →
  pres U (same_core w0) (reserve_one v).
Proof.
  intros H1 H2. unfold reserve_one, ask_MState. apply pres_bind; [auto with pres|intros now].
  apply pres_when. apply triple_gets_bind.
  intros m w [[Hd Hj] Hm]. rewrite Hd in Hm. rewrite bool_decide_false; [done|].
  intros [->| ->]; congruence.
Qed.

Lemma same_dbCfgwork :
  getMState (dm w0) ≠ ESTATE_CHAGRE → getMState (dm w0) ≠ ESTATE_CHAGRE_END →
  pres U (same_core w0) dbCfgwork.
Proof.
  intros H1 H2. pose proof (λ v, same_reserve_one v H1 H2).
  unfold dbCfgwork, reservation_check. pres_unfold. solve_pres.
Qed.
End same_core.

(** Reservations never start a cleaning: the timer only issues the command
    in the states CHAGRE and CHAGRE_END, which no run enters, so whatever
    schedule the database holds and whatever the clock shows, a completed run
    of the settings timer leaves the job queue and the device state alone. *)
Theorem reservation_never_starts `{Env} `{RealFormat} w w' :
  reachable w → handler LSettingsTimer w = Ok (tt, w') →
  jobs w' = jobs w ∧ dm w' = dm w.
Proof.
  intros Hw Hr. pose proof (inv_master _ (reachable_inv _ Hw)) as Hm.
  assert (same_core w w') as [? ?]; [|done].
  eapply (pres_run (λ _, True)); [apply same_dbCfgwork; try exact I| |exact Hr]; [..|done];
    intros He; rewrite He in Hm; unfold device_states in Hm; set_solver.
Qed.

Lemma reservation_never_starts_witness :
  ∃ w', handler (H:=env0 (Some 2)) (H0:=fmt0) LSettingsTimer (world_at ESTATE_CLEAN) = Ok (tt, w') ∧
        jobs w' = jobs (world_at ESTATE_CLEAN) ∧ dm w' = dm (world_at ESTATE_CLEAN).
Proof.
  eexists. split; [vm_compute; reflexivity|].
  apply (@reservation_never_starts (env0 (Some 2)) fmt0);
    [apply world_at_reachable|vm_compute; reflexivity].
Defined.

(** ** Keys and network commands *)

Definition state_event (m : E_MASTER_STATE) (c : CLEAN_STATE) : event :=
  EvDp "DP_SCHEDULE_BROADCAST"
    (request "robot_device_state"
       [("device_state", JInt (master_code m)); ("clean_state", JInt (clean_code c))]).
Definition state_msg (w : World) : event := state_event (getMState (dm w)) (getCleanState (dm w)).
Definition voice_msg (v : string) : event :=
  EvDp "DP_PERIPHERALS_REQUEST" (request "set_voice" [("voice_tts", JStr v)]).

(** A device state set, a job stored and a voice played, and the new state
    announced: the effect of netserverIntergrationHandle. *)
Definition announce (pre : list event) (job : EJobCommand) (m : E_MASTER_STATE) (v : string)
    (w : World) : World :=
  let w1 := mkWorld (setMState m (dm w)) (setJobCommand job (jobs w)) (sched w) (sensor w)
                    (pose_vector w) (db w) (out w) in
  mkWorld (dm w1) (jobs w1) (sched w) (sensor w) (pose_vector w) (db w)
    (out w ++ pre ++ [voice_msg v; state_msg w1]).

Ltac run_simpl :=
  cbv [mbind st_bind mret st_ret modify gets get lift emit with_out with_dm with_jobs
       with_sensor with_sched with_db with_poses]; simpl.
Ltac world_eq := unfold announce; simpl; rewrite <-?(assoc_L (++)); done.

Lemma sendState_run w : sendState w = Ok (tt, with_out (state_msg w) w).
Proof. done. Qed.
Lemma set_voice_play_run v w : set_voice_play v w = Ok (tt, with_out (voice_msg v) w).
Proof. done. Qed.

Lemma pause_clean_run m w :
  pause_target (getMState (dm w)) = Some m →
  pause_clean w = Ok (tt, announce [EvMLPause 1] EJOB_PAUSE_CLEAN m "Q007" w).
Proof.
  intros Hp. unfold pause_clean, ask_MState. rewrite run_bind, run_gets. simpl. rewrite Hp.
  unfold netserverIntergrationHandle, sendState, do_setJobCommand, do_setMState, ask_MState,
    ask_CleanState. pres_unfold. run_simpl. world_eq.
Qed.

Lemma continue_clean_run m w :
  continue_target (getMState (dm w)) = Some m →
  continue_clean w = Ok (tt, announce [EvMLPause 0] EJOB_RESUME_CLEAN m "Q008" w).
Proof.
  intros Hp. unfold continue_clean, ask_MState. rewrite run_bind, run_gets. simpl. rewrite Hp.
  unfold netserverIntergrationHandle, sendState, do_setJobCommand, do_setMState, ask_MState,
    ask_CleanState. pres_unfold. run_simpl. world_eq.
Qed.

Lemma continue_pause m m' : pause_target m = Some m' → continue_target m' = Some m.
Proof. destruct m; simpl; naive_solver. Qed.

Lemma announce_state pre j m v w : dm_wf (dm w) → getMState (dm (announce pre j m v w)) = m.
Proof. intros. unfold announce. simpl. by apply getMState_setMState. Qed.
Lemma announce_wf pre j m v w : dm_wf (dm w) → dm_wf (dm (announce pre j m v w)).
Proof. intros. by apply setMState_wf. Qed.

(** The states that can be paused, each with its paused form. *)
Definition paused_forms : list (E_MASTER_STATE * E_MASTER_STATE) :=
  [(ESTATE_CLEAN, ESTATE_PAUSE_CLEAN); (ESTATE_FAST_BUILD_MAP, ESTATE_PAUSE_FAST_BUILD_MAP);
   (ESTATE_BACK_CHARGE, ESTATE_CHAGRE_PAUSE); (ESTATE_BACK_WASH, ESTATE_WASH_PAUSE)].
Lemma paused_forms_target m m' : (m, m') ∈ paused_forms → pause_target m = Some m'.
Proof. unfold paused_forms. set_unfold. naive_solver. Qed.

(** C24. pause_clean then continue_clean restores the device state in each of
    the four states that can be paused, leaving the cleaning state, the poses
    and the settings alone.  What leaves the process is, in this order: the pause
    of the algorithm library, its voice prompt, the broadcast of the paused device
    state with the cleaning state as it is, the resumption, its voice prompt and the
    broadcast of the device state as it was. *)
Theorem pause_continue_roundtrip w m :
  dm_wf (dm w) → (getMState (dm w), m) ∈ paused_forms →
  ∃ w', (pause_clean;; continue_clean) w = Ok (tt, w') ∧
    getMState (dm w') = getMState (dm w) ∧ CState (dm w') = CState (dm w) ∧
    sensor w' = sensor w ∧ pose_vector w' = pose_vector w ∧ db w' = db w ∧
    out w' = out w ++ [EvMLPause 1; voice_msg "Q007"; state_event m (getCleanState (dm w));
                       EvMLPause 0; voice_msg "Q008"; state_event (getMState (dm w)) (getCleanState (dm w))].
Proof.
  intros Hwf Hp%paused_forms_target. pose proof (continue_pause _ _ Hp) as Hc.
  pose proof (announce_state [EvMLPause 1] EJOB_PAUSE_CLEAN m "Q007" w Hwf) as Hm.
  rewrite run_bind, (pause_clean_run m) by done.
  erewrite continue_clean_run by (rewrite Hm; exact Hc).
  eexists. split; [done|]. split_and!; try done.
  - apply announce_state. by apply announce_wf.
  - unfold announce, state_msg. simpl. rewrite !getMState_setMState by (try done; by apply setMState_wf).
    by rewrite <-?(assoc_L (++)).
Qed.

Lemma pause_continue_roundtrip_witness :
  ∃ w', (pause_clean;; continue_clean) (world_at ESTATE_CLEAN) = Ok (tt, w') ∧
    getMState (dm w') = getMState (dm (world_at ESTATE_CLEAN)) ∧
    CState (dm w') = CState (dm (world_at ESTATE_CLEAN)) ∧
    sensor w' = sensor (world_at ESTATE_CLEAN) ∧
    pose_vector w' = pose_vector (world_at ESTATE_CLEAN) ∧ db w' = db (world_at ESTATE_CLEAN) ∧
    out w' = out (world_at ESTATE_CLEAN) ++
      [EvMLPause 1; voice_msg "Q007"; state_event ESTATE_PAUSE_CLEAN CLEAN_STATE_RECT;
       EvMLPause 0; voice_msg "Q008"; state_event ESTATE_CLEAN CLEAN_STATE_RECT].
Proof.
  apply (pause_continue_roundtrip (world_at ESTATE_CLEAN)); [by_eval|left].
Defined.

(** The start key, by device state: the next state and whether the press is
    consumed. *)
Definition start_key_next (m : E_MASTER_STATE) : E_MASTER_STATE :=
  match m with ESTATE_CLEAN => ESTATE_PAUSE_CLEAN | ESTATE_PAUSE_CLEAN => ESTATE_CLEAN | m => m end.
Definition start_key_used (m : E_MASTER_STATE) : bool :=
  match m with ESTATE_IDLE | ESTATE_CLEAN | ESTATE_PAUSE_CLEAN => true | _ => false end.
Definition start_key_job (m : E_MASTER_STATE) (j : CRobotjobEvent) : CRobotjobEvent :=
  match m with
  | ESTATE_IDLE => setJobCommand EJOB_GLOBAL_CLEAN j
  | ESTATE_CLEAN => setJobCommand EJOB_PAUSE_CLEAN j
  | ESTATE_PAUSE_CLEAN => setJobCommand EJOB_RESUME_CLEAN j
  | _ => j
  end.

Definition buttons (k : Z) : json := JObj [("type", JStr "trigger_data"); ("body", JObj [("buttons", JInt k)])].

(** The key handler once the button is known. *)
Definition after_button : M unit :=
  mainState ← ask_MState;
  n ← getnetWorkValue;
  when (bool_decide (n ≠ -1)) (key_in_state mainState);;
  k ← get_key_value;
  when (bool_decide (k = 2)) (
    set_mop_ctrl 0;; do_setJobCommand EJOB_SHUTDOWM;; do_setMState ESTATE_SHUTDOWM;;
    set_voice_play "Q022";; set_key_value 0;; sendState);;
  k ← get_key_value;
  when (bool_decide (k = 4)) (pause_work;; set_key_value 0;; setnetWorkValue (-1)).

Definition press (k : Z) (w : World) : World :=
  with_sensor (λ s, mkSensor k (network_value s)) w.

Lemma key_msg_run k w : in_u 8 k →
  res_periphe_key "trigger_data" (buttons k) w = after_button (press k w).
Proof.
  intros Hk. unfold res_periphe_key, buttons. rewrite run_bind, run_when_true by done.
  cbv [mbind st_bind lift]. simpl. rewrite JV_TO_UINT_int by (unfold in_u in *; lia).
  unfold set_key_value. rewrite run_modify, uwrap_id by done. done.
Qed.

Lemma other_msg_run t j w : t ≠ "trigger_data" → res_periphe_key t j w = after_button w.
Proof.
  intros Ht. unfold res_periphe_key, after_button. by rewrite run_bind, run_when_false
    by by apply bool_decide_false.
Qed.

(** The states in which the start key means something, and the others. *)
Lemma start_key_cases m :
  m = ESTATE_IDLE ∨ m = ESTATE_CLEAN ∨ m = ESTATE_PAUSE_CLEAN ∨
  ((m ≠ ESTATE_IDLE ∧ m ≠ ESTATE_CLEAN ∧ m ≠ ESTATE_PAUSE_CLEAN) ∧
   start_key_next m = m ∧ start_key_used m = false ∧ ∀ j, start_key_job m j = j).
Proof. destruct m; naive_solver. Qed.

Lemma setMState_same d : dm_wf d → setMState (getMState d) d = d.
Proof.
  intros [Hm _]. unfold setMState, getMState. rewrite History.latest_cur by done.
  rewrite History.push2_same. by destruct d.
Qed.

Lemma key_in_state_other m w :
  m ≠ ESTATE_IDLE ∧ m ≠ ESTATE_CLEAN ∧ m ≠ ESTATE_PAUSE_CLEAN → key_in_state m w = Ok (tt, w).
Proof.
  intros (? & ? & ?). unfold key_in_state, get_key_value.
  do 2 (rewrite run_bind, run_gets, run_bind, run_when_false by (apply bool_decide_false; naive_solver)).
  by rewrite run_bind, run_gets, run_when_false by (apply bool_decide_false; naive_solver).
Qed.

(** Key 1 while the network is not being provisioned. *)
Lemma after_start_key w :
  dm_wf (dm w) → network_value (sensor w) ≠ -1 → key_value (sensor w) = 1 →
  ∃ w', after_button w = Ok (tt, w') ∧
    getMState (dm w') = start_key_next (getMState (dm w)) ∧
    jobs w' = start_key_job (getMState (dm w)) (jobs w) ∧
    key_value (sensor w') = (if start_key_used (getMState (dm w)) then 0 else 1) ∧
    network_value (sensor w') = network_value (sensor w) ∧
    dm w' = setMState (start_key_next (getMState (dm w))) (dm w).
Proof.
  intros Hwf Hn Hk. pose proof (setMState_same _ Hwf) as Hsame.
  unfold after_button, ask_MState, getnetWorkValue. rewrite run_bind, run_gets, run_bind, run_gets.
  rewrite run_bind, run_when_true by by apply bool_decide_true.
  destruct (start_key_cases (getMState (dm w))) as [Hm|[Hm|[Hm|[Hm (Hx & Hu & Hj)]]]].
  - rewrite Hm. rewrite Hm in Hsame. destruct w as [d j sc [k n] ps db0 o]. simpl in *. subst k.
    eexists. split; [reflexivity|]. simpl. by rewrite Hsame.
  - rewrite Hm. destruct w as [d j sc [k n] ps db0 o]. simpl in *. subst k.
    eexists. split; [reflexivity|]. simpl. by rewrite getMState_setMState.
  - rewrite Hm. destruct w as [d j sc [k n] ps db0 o]. simpl in *. subst k.
    eexists. split; [reflexivity|]. simpl. by rewrite getMState_setMState.
  - rewrite key_in_state_other, Hx, Hu, Hj by done.
    destruct w as [d j sc [k n] ps db0 o]. simpl in *. subst k.
    eexists. split; [reflexivity|]. done.
Qed.

(** The start key: from idle it requests a full cleaning, while cleaning it
    pauses, while paused it resumes, and the press is consumed; in any other
    device state nothing changes and the press stays latched in key_value. *)
Theorem start_key_spec w :
  dm_wf (dm w) → network_value (sensor w) ≠ -1 →
  ∃ w', res_periphe_key "trigger_data" (buttons 1) w = Ok (tt, w') ∧
    getMState (dm w') = start_key_next (getMState (dm w)) ∧
    jobs w' = start_key_job (getMState (dm w)) (jobs w) ∧
    key_value (sensor w') = (if start_key_used (getMState (dm w)) then 0 else 1).
Proof.
  intros Hwf Hn. rewrite key_msg_run by done.
  destruct (after_start_key (press 1 w)) as (w' & ? & ? & ? & ? & _); try done.
  by exists w'.
Qed.

Lemma start_key_spec_witness :
  ∃ w', res_periphe_key "trigger_data" (buttons 1) (world_at ESTATE_CLEAN) = Ok (tt, w') ∧
    getMState (dm w') = start_key_next (getMState (dm (world_at ESTATE_CLEAN))) ∧
    jobs w' = start_key_job (getMState (dm (world_at ESTATE_CLEAN))) (jobs (world_at ESTATE_CLEAN)) ∧
    key_value (sensor w') =
      (if start_key_used (getMState (dm (world_at ESTATE_CLEAN))) then 0 else 1).
Proof. apply (start_key_spec (world_at ESTATE_CLEAN)); [by_eval|vm_compute; discriminate]. Defined.

(** A latched press fires later: pressed where it has no meaning, the start
    key is carried out by the next message of any other type that arrives when
    the device is idle, although no key was pressed then. *)
Theorem latched_key_starts_later w ty j :
  dm_wf (dm w) → network_value (sensor w) ≠ -1 → start_key_used (getMState (dm w)) = false →
  ty ≠ "trigger_data" →
  ∃ w1 w2 w3,
    res_periphe_key "trigger_data" (buttons 1) w = Ok (tt, w1) ∧
    stop_clean w1 = Ok (tt, w2) ∧ getMState (dm w2) = ESTATE_IDLE ∧
    res_periphe_key ty j w2 = Ok (tt, w3) ∧
    jobs w3 = setJobCommand EJOB_GLOBAL_CLEAN (jobs w2).
Proof.
  intros Hwf Hn Hu Hty. rewrite key_msg_run by done.
  destruct (after_start_key (press 1 w)) as (w1 & Hr & Hm1 & Hj1 & Hk1 & Hn1 & HC1); try done.
  simpl in *. rewrite Hu in Hk1.
  assert (dm_wf (dm w1)) as Hwf1 by (rewrite HC1; by apply setMState_wf).
  exists w1. eexists. unfold stop_clean, sendState, do_setJobCommand, do_setMState, ask_MState,
    ask_CleanState. pres_unfold. run_simpl.
  set (w2 := mkWorld _ _ _ _ _ _ _).
  assert (getMState (dm w2) = ESTATE_IDLE) as Hm2 by by apply getMState_setMState.
  destruct (after_start_key w2) as (w3 & Hr3 & _ & Hj3 & _).
  { by apply setMState_wf. } { by simpl; rewrite Hn1. } { done. }
  exists w3. rewrite other_msg_run by done. split_and!; try done.
  by rewrite Hj3, Hm2.
Qed.

Lemma latched_key_starts_later_witness :
  ∃ w1 w2 w3,
    res_periphe_key "trigger_data" (buttons 1) (world_at ESTATE_BACK_CHARGE) = Ok (tt, w1) ∧
    stop_clean w1 = Ok (tt, w2) ∧ getMState (dm w2) = ESTATE_IDLE ∧
    res_periphe_key "fault_state" JNull w2 = Ok (tt, w3) ∧
    jobs w3 = setJobCommand EJOB_GLOBAL_CLEAN (jobs w2).
Proof.
  apply (latched_key_starts_later (world_at ESTATE_BACK_CHARGE) "fault_state" JNull);
    [by_eval|vm_compute; discriminate|vm_compute; reflexivity|discriminate].
Defined.

(** While the network is being provisioned (network_value is -1) the start
    key changes neither the device state nor the pending job. *)
Theorem provisioning_blocks_start_key w :
  network_value (sensor w) = -1 →
  ∃ w', res_periphe_key "trigger_data" (buttons 1) w = Ok (tt, w') ∧
    dm w' = dm w ∧ jobs w' = jobs w ∧ out w' = out w.
Proof.
  intros Hn. rewrite key_msg_run by done. destruct w as [d j sc [k n] ps db0 o].
  simpl in Hn. subst n. eexists. split; [reflexivity|done].
Qed.

Lemma provisioning_blocks_start_key_witness :
  ∃ w', res_periphe_key "trigger_data" (buttons 1)
          (with_sensor (λ s, mkSensor 0 (-1)) (init_world 0 0 0)) = Ok (tt, w') ∧
    dm w' = initDataModel ∧ jobs w' = initJobEvent ∧ out w' = [].
Proof.
  apply (provisioning_blocks_start_key (with_sensor (λ s, mkSensor 0 (-1)) (init_world 0 0 0))).
  reflexivity.
Defined.

(** ** Faults *)
Definition fault_json (f : Z) : json :=
  JObj [("type", JStr "fault_state"); ("body", JObj [("fault_state", JInt f)])].

Lemma read_fault_run f w : in_u 31 f → read_fault (fault_json f) w = Ok (f, w).
Proof.
  intros Hf. unfold read_fault, fault_json. cbv [mbind st_bind lift]. simpl.
  rewrite JV_TO_UINT_int by (unfold in_u in *; lia). cbv [mret st_ret].
  by rewrite swrap_id by (unfold in_u, in_s in *; lia).
Qed.


(** The state a fault was raised in is still at the front when it clears. *)
Lemma front_after_fault w :
  Inv w → getMState (dm w) ≠ ESTATE_ERROR →
  ∃ s, getMQueueFort (setMState ESTATE_ERROR (dm w)) = Ok s ∧
       resume_target s = resume_target (getMState (dm w)).
Proof.
  intros [[Hm _] _ _ _ Hf _ _] He. unfold getMState in *. rewrite History.latest_cur in * by done.
  unfold getMQueueFort, setMState. simpl.
  destruct (History.queue (MState (dm w))) as [|s q] eqn:Hq.
  - exists ESTATE_ERROR. unfold History.push2, History.front. rewrite decide_False, Hq by done.
    simpl. split; [done|]. by rewrite Hf.
  - exists (History.cur (MState (dm w))). split; [|done].
    apply History.front_push2; [done|by rewrite Hq|done].
Qed.

Definition error_world (w : World) : World :=
  with_out (state_msg (with_dm (setMState ESTATE_ERROR) w))
    (with_out (EvMLPause 1) (with_dm (setMState ESTATE_ERROR) w)).

Lemma fault_raise_run w f :
  getMState (dm w) ≠ ESTATE_ERROR → in_u 31 f → f ≠ 0 →
  fault_raise (fault_json f) w = Ok (tt, error_world w).
Proof.
  intros He Hf Hz. unfold fault_raise, ask_MState. rewrite run_bind, run_gets.
  rewrite run_when_true by by apply bool_decide_true.
  rewrite run_bind, read_fault_run by done.
  rewrite run_when_true by by apply bool_decide_true. done.
Qed.

Lemma fault_raise_error w j : getMState (dm w) = ESTATE_ERROR → fault_raise j w = Ok (tt, w).
Proof.
  intros He. unfold fault_raise, ask_MState. rewrite run_bind, run_gets.
  by rewrite run_when_false by (apply bool_decide_false; naive_solver).
Qed.

(** In the error state, with [s] at the front of the history. *)
Lemma fault_clear_run w f s :
  getMState (dm w) = ESTATE_ERROR → getMQueueFort (dm w) = Ok s → in_u 31 f →
  fault_clear (fault_json f) w =
  Ok (tt, match (if decide (f = 0) then resume_target s else None) with
          | Some m => with_out (state_msg (with_dm (setMState m) w)) (with_dm (setMState m) w)
          | None => w
          end).
Proof.
  intros He Hs Hf. unfold fault_clear, ask_MState. rewrite run_bind, run_gets.
  rewrite run_when_true by by apply bool_decide_true.
  rewrite run_bind, run_gets, run_bind, (run_lift _ _ _ Hs), run_bind, read_fault_run by done.
  case_decide as Hz.
  - rewrite run_when_true by by apply bool_decide_true. by destruct (resume_target s).
  - by rewrite run_when_false by by apply bool_decide_false.
Qed.

Lemma fault_msg_run w j w1 :
  fault_raise j w = Ok (tt, w1) → res_periphe_fault "fault_state" j w = fault_clear j w1.
Proof. intros Hr. unfold res_periphe_fault. by rewrite run_when_true, run_bind, Hr. Qed.

(** A fault raised and then cleared: whatever the device did, the nonzero
    word brings it into ERROR and pauses the algorithm; the zero word then
    leads from a cleaning, a fast mapping or a drive back to the matching
    paused state, and from any other state the device stays in ERROR. *)
Theorem fault_roundtrip w f :
  reachable w → getMState (dm w) ≠ ESTATE_ERROR → in_u 31 f → f ≠ 0 →
  ∃ w1 w2,
    res_periphe_fault "fault_state" (fault_json f) w = Ok (tt, w1) ∧
    getMState (dm w1) = ESTATE_ERROR ∧ EvMLPause 1 ∈ drop (length (out w)) (out w1) ∧
    res_periphe_fault "fault_state" (fault_json 0) w1 = Ok (tt, w2) ∧
    getMState (dm w2) = default ESTATE_ERROR (resume_target (getMState (dm w))) ∧
    jobs w2 = jobs w.
Proof.
  intros Hw He Hf Hz. pose proof (reachable_inv _ Hw) as HI. pose proof (inv_dm _ HI) as Hwf.
  destruct (front_after_fault w HI He) as (s & Hs & Ht).
  assert (getMState (dm (error_world w)) = ESTATE_ERROR) as He1 by by apply getMState_setMState.
  exists (error_world w). eexists. split_and!.
  - rewrite (fault_msg_run _ _ _ (fault_raise_run w f He Hf Hz)), (fault_clear_run _ _ s) by done.
    by rewrite decide_False.
  - done.
  - simpl. rewrite <-(assoc_L (++)), drop_app_length. set_solver.
  - rewrite (fault_msg_run _ _ _ (fault_raise_error _ _ He1)), (fault_clear_run _ _ s) by done.
    by rewrite decide_True.
  - rewrite <-Ht. destruct (resume_target s); simpl; [|done].
    apply getMState_setMState. by apply setMState_wf.
  - by destruct (resume_target s).
Qed.

Lemma fault_roundtrip_witness :
  ∃ w1 w2,
    res_periphe_fault "fault_state" (fault_json 4) (world_at ESTATE_CLEAN) = Ok (tt, w1) ∧
    getMState (dm w1) = ESTATE_ERROR ∧
    EvMLPause 1 ∈ drop (length (out (world_at ESTATE_CLEAN))) (out w1) ∧
    res_periphe_fault "fault_state" (fault_json 0) w1 = Ok (tt, w2) ∧
    getMState (dm w2) =
      default ESTATE_ERROR (resume_target (getMState (dm (world_at ESTATE_CLEAN)))) ∧
    jobs w2 = jobs (world_at ESTATE_CLEAN).
Proof.
  apply (fault_roundtrip (world_at ESTATE_CLEAN) 4);
    [apply world_at_reachable|vm_compute; discriminate|split; [lia|reflexivity]|lia].
Defined.
