(* ===== verification/CleanLoop.v ===== *)
(** * The cleaning loop: theorems

    What one iteration of CRobotSchedule::cleanSchedule does with a pending
    command, with a cleaning that runs, and with the result of the algorithm
    library; and what it does over many iterations. *)

From S2P Require Import Prelude Json DeviceStates DataModel World SensorData Netserver DbData RobotSchedule System Behaviour.
#[local] Open Scope Z_scope.

(** ** Reference definitions *)

(** What a start command asks for: device state, cleaning state, voice prompt
    and the clean_type of the log. *)
Definition command_target (c : EJobCommand)
    : option (E_MASTER_STATE * CLEAN_STATE * string * option Z) :=
  match c with
  | EJOB_GLOBAL_CLEAN => Some (ESTATE_CLEAN, CLEAN_STATE_AUTO, "Q006", Some 1)
  | EJOB_LOCAL_CLEAN => Some (ESTATE_CLEAN, CLEAN_STATE_RECT, "Q044", Some 2)
  | EJOB_ZONE_CLEAN => Some (ESTATE_CLEAN, CLEAN_STATE_LOCATION, "Q009", Some 3)
  | EJOB_POINT_CLEAN => Some (ESTATE_CLEAN, CLEAN_STATE_SITU, "Q006", Some 4)
  | EJOB_FAST_BUILD_MAP => Some (ESTATE_FAST_BUILD_MAP, CLEAN_STATE_NULL, "Q006", None)
  | EJOB_BACK_CHARGE => Some (ESTATE_BACK_CHARGE, CLEAN_STATE_NULL, "Q006", None)
  | _ => None
  end.

Definition set_type (ty : option Z) (s : CRobotSchedule) : CRobotSchedule :=
  mkSchedule (m_slamState s) (SIG_VALUE_SCHEDULE s) (clean_return_value s)
    (default (clean_type s) ty) (clean_result s).

(** The world after a start command was carried out. *)
Definition started (m : E_MASTER_STATE) (cs : CLEAN_STATE) (v : string) (ty : option Z)
    (w : World) : World :=
  let d := setCleanState cs (setMState m (dm w)) in
  let w1 := mkWorld d (jobs w) (sched w) (sensor w) (pose_vector w) (db w) (out w) in
  mkWorld d (setJobCommand EJOB_NULL (jobs w)) (set_type ty (sched w)) (sensor w)
    (pose_vector w) (db w) (out w ++ [EvSpawnSlam; voice_msg v; state_msg w1]).

Definition is_spawn (e : event) : bool := match e with EvSpawnSlam => true | _ => false end.
(** How many SLAM threads were started so far. *)
Definition spawned (w : World) : nat := length (filter is_spawn (out w)).

(** The message that registers map [i]. *)
Definition save_msg (i : Z) : event :=
  EvDp "DP_DB_REQUEST" (request "save_map" (("map_id", JInt i) :: map_paths i)).

(** ** Commands *)

Lemma command_target_new c t : command_target c = Some t → is_new_command c = true.
Proof. by destruct c. Qed.

(** cleanCommand follows the table. *)
Lemma cleanCommand_start c m cs v ty :
  command_target c = Some (m, cs, v, ty) →
  cleanCommand c = (startWorkSchedule;; allWorkInterface c m cs v;;
                    match ty with Some t => set_clean_type t | None => mret tt end).
Proof. destruct c; intros [= <- <- <- <-]; done. Qed.

Lemma started_run w c m cs v ty :
  m_slamState (sched w) = SLAM_IDLE → getJobCommand (jobs w) = c →
  command_target c = Some (m, cs, v, ty) →
  newCommandHandle w = Ok (tt, started m cs v ty w).
Proof.
  intros Hs Hj Ht. unfold newCommandHandle. rewrite run_bind, run_gets, Hj.
  rewrite run_when_true by by eapply command_target_new.
  destruct w as [d j [sl sg rv ct cr] se ps db0 o]. simpl in Hs. subst sl.
  rewrite (cleanCommand_start c m cs v ty Ht). unfold allWorkInterface, sendState,
    ask_MState, ask_CleanState, do_setMState, do_setCleanState, do_setJobCommand,
    startWorkSchedule, startSlamModule, with_slam, set_voice_play, peripheral_request,
    set_clean_type, started, voice_msg, state_msg.
  destruct ty; run_simpl; rewrite <-?(assoc_L (++)); done.
Qed.

(** A pending start command is carried out once, in full: the device and
    cleaning states it asks for, its voice prompt, the clean_type of the log,
    one SLAM thread and one state report; the job is then EJOB_NULL, and the
    handler does nothing on its next run. *)
Theorem command_carried_out_once w c m cs v ty :
  reachable w → getJobCommand (jobs w) = c → command_target c = Some (m, cs, v, ty) →
  ∃ w', newCommandHandle w = Ok (tt, w') ∧
    getMState (dm w') = m ∧ getCleanState (dm w') = cs ∧
    clean_type (sched w') = default (clean_type (sched w)) ty ∧
    out w' = out w ++ [EvSpawnSlam; voice_msg v; state_msg w'] ∧
    newCommandHandle w' = Ok (tt, w').
Proof.
  intros Hw Hj Ht. destruct (reachable_inv _ Hw) as [Hd Hjw _ _ _ Hs _].
  exists (started m cs v ty w). split; [by eapply started_run|].
  assert (getMState (dm (started m cs v ty w)) = m) as Hm by by apply getMState_setMState.
  split_and!; try done.
  - by apply getCleanState_setCleanState, setMState_wf.
  - unfold newCommandHandle. rewrite run_bind, run_gets.
    change (jobs (started m cs v ty w)) with (setJobCommand EJOB_NULL (jobs w)).
    replace (getJobCommand _) with EJOB_NULL; [done|].
    symmetry. by apply History.latest_push2.
Qed.

Lemma command_carried_out_once_witness :
  ∃ w', newCommandHandle (world_after [net_msg "recharge"]) = Ok (tt, w') ∧
    getMState (dm w') = ESTATE_BACK_CHARGE ∧ getCleanState (dm w') = CLEAN_STATE_NULL ∧
    clean_type (sched w') = 0 ∧
    out w' = out (world_after [net_msg "recharge"])
             ++ [EvSpawnSlam; voice_msg "Q006"; state_msg w'] ∧
    newCommandHandle w' = Ok (tt, w').
Proof.
  apply (command_carried_out_once (world_after [net_msg "recharge"]) EJOB_BACK_CHARGE
    ESTATE_BACK_CHARGE CLEAN_STATE_NULL "Q006" None);
    [apply world_after_reachable|vm_compute; reflexivity|reflexivity].
Defined.

(** ** The map registration *)

Lemma filter_maps (f : Z → bool) :
  filter f [1; 2; 3] =
  (if f 1 then [1] else []) ++ (if f 2 then [2] else []) ++ (if f 3 then [3] else []).
Proof.
  rewrite !filter_cons. destruct (f 1), (f 2), (f 3); simpl; done.
Qed.

Lemma saveAllmaponDb_run `{Env} w :
  saveAllmaponDb w = Ok (tt, mkWorld (dm w) (jobs w) (sched w) (sensor w) (pose_vector w) (db w)
    (out w ++ (save_msg <$> filter map_exists [1; 2; 3]))).
Proof.
  destruct w. unfold saveAllmaponDb, get_map_number, save_db_map, db_request.
  rewrite filter_maps.
  destruct (map_exists 1), (map_exists 2), (map_exists 3); simpl; run_simpl;
    rewrite ?app_nil_r, <-?(assoc_L (++)); reflexivity.
Qed.

(** saveAllmaponDb registers exactly the maps whose files exist, in order
    of their id, each with the paths of its own directory. *)
Theorem saveAllmaponDb_exact `{Env} w :
  ∃ w', saveAllmaponDb w = Ok (tt, w') ∧
    out w' = out w ++ (save_msg <$> filter map_exists [1; 2; 3]) ∧
    dm w' = dm w ∧ jobs w' = jobs w ∧ sched w' = sched w.
Proof. rewrite saveAllmaponDb_run. by eexists. Qed.

(** ** The end of a cleaning *)

(** The log message of a cleaning, as the state has it. *)
Definition log_event `{Env} (v : list robot_pose) (s : CRobotSchedule) : event :=
  EvDp "DP_SCHEDULE_BROADCAST" (request "clean_log" [("log", JObj (clean_log_body v s))]).
Definition log_msg `{Env} (w : World) : event := log_event (pose_vector w) (sched w).
Definition with_result (r : Z) (s : CRobotSchedule) : CRobotSchedule :=
  mkSchedule (m_slamState s) (SIG_VALUE_SCHEDULE s) (clean_return_value s) (clean_type s) r.
Definition with_return (v : Z) (s : CRobotSchedule) : CRobotSchedule :=
  mkSchedule (m_slamState s) (SIG_VALUE_SCHEDULE s) v (clean_type s) (clean_result s).

Section finish.
Context `{Env}.

(** The world after a successful cleaning was reported. *)
Definition finished (w : World) : World :=
  let d := setMState ESTATE_BACK_CHARGE (dm w) in
  let w1 := mkWorld d (jobs w) (sched w) (sensor w) (pose_vector w) (db w) (out w) in
  mkWorld d (jobs w) (with_return 2 (with_result 2 (sched w))) (sensor w) (pose_vector w) (db w)
    (out w ++ [log_msg w; voice_msg "Q010"; state_msg w1]).

(** The world after an unfinished cleaning was reported. *)
Definition logged (w : World) : World :=
  mkWorld (dm w) (jobs w) (with_result 1 (sched w)) (sensor w) (pose_vector w) (db w)
    (out w ++ [log_msg w]).

Lemma send_clean_log_run w : send_clean_log w = Ok (tt, with_out (log_msg w) w).
Proof. done. Qed.

Lemma finish_success_run w : clean_return_value (sched w) = 1 → finish_clean w = Ok (tt, finished w).
Proof.
  intros Hr. unfold finish_clean, finished. rewrite run_bind, run_gets, Hr, run_bind.
  rewrite send_clean_log_run, run_bind, set_voice_play_run, run_bind.
  unfold do_setMState. rewrite run_modify, run_bind, sendState_run, run_bind.
  unfold set_clean_result, set_clean_return_value. rewrite run_modify, run_modify.
  unfold with_out, with_dm, with_sched. simpl. by rewrite <-?(assoc_L (++)).
Qed.

Lemma finish_failure_run w : clean_return_value (sched w) = 0 → finish_clean w = Ok (tt, logged w).
Proof.
  intros Hr. unfold finish_clean, logged. rewrite run_bind, run_gets, Hr, run_bind.
  rewrite send_clean_log_run. generalize (log_msg w). by intros e.
Qed.

Lemma finish_other_run w :
  clean_return_value (sched w) ≠ 0 → clean_return_value (sched w) ≠ 1 →
  finish_clean w = Ok (tt, w).
Proof.
  intros H0 H1. unfold finish_clean. rewrite run_bind, run_gets.
  by destruct (clean_return_value (sched w)) as [|[]|].
Qed.
End finish.

(** A cleaning the algorithm library reports as done is announced once: the
    log with the result stored so far, the voice Q010, the drive to the base
    and its state report; the next iterations report nothing more. *)
Theorem finish_success `{Env} w :
  dm_wf (dm w) → clean_return_value (sched w) = 1 →
  ∃ w', finish_clean w = Ok (tt, w') ∧ getMState (dm w') = ESTATE_BACK_CHARGE ∧
    clean_result (sched w') = 2 ∧
    out w' = out w ++ [log_msg w; voice_msg "Q010"; state_msg w'] ∧
    finish_clean w' = Ok (tt, w').
Proof.
  intros Hwf Hr. exists (finished w). rewrite finish_success_run by done.
  split_and!; try done. by apply getMState_setMState.
Qed.

Lemma finish_success_witness :
  ∃ w', @finish_clean (env0 (Some 1)) (with_sched (with_return 1) (world_at ESTATE_CLEAN)) = Ok (tt, w') ∧
    getMState (dm w') = ESTATE_BACK_CHARGE ∧ clean_result (sched w') = 2 ∧
    out w' = out (world_at ESTATE_CLEAN) ++
      [@log_msg (env0 (Some 1)) (with_sched (with_return 1) (world_at ESTATE_CLEAN));
       voice_msg "Q010"; state_msg w'] ∧
    @finish_clean (env0 (Some 1)) w' = Ok (tt, w').
Proof.
  apply (@finish_success (env0 (Some 1)) (with_sched (with_return 1) (world_at ESTATE_CLEAN)));
    [by_eval|reflexivity].
Defined.

(** ** Many iterations *)

(** No command, no cleaning: only the stored return value is looked at. *)
Definition quiet (w : World) : Prop :=
  is_new_command (getJobCommand (jobs w)) = false ∧ getMState (dm w) ≠ ESTATE_CLEAN ∧
  SIG_VALUE_SCHEDULE (sched w) = true.

Lemma cleanWorkHandle_idle `{Env} w :
  getMState (dm w) ≠ ESTATE_CLEAN → cleanWorkHandle w = Ok (tt, w).
Proof.
  intros Hm. unfold cleanWorkHandle, ask_MState, ask_CleanState.
  by rewrite run_bind, run_gets, run_bind, run_gets, run_when_false by by apply bool_decide_false.
Qed.

Lemma newCommandHandle_none w :
  is_new_command (getJobCommand (jobs w)) = false → newCommandHandle w = Ok (tt, w).
Proof.
  intros Hj. unfold newCommandHandle. by rewrite run_bind, run_gets, run_when_false.
Qed.

Lemma quiet_iteration `{Env} w w' :
  quiet w → finish_clean w = Ok (tt, w') →
  clean_iteration w = Ok (SIG_VALUE_SCHEDULE (sched w'), w').
Proof.
  intros (Hj & Hm & _) Hf. unfold clean_iteration.
  by rewrite run_bind, newCommandHandle_none, run_bind, cleanWorkHandle_idle, run_bind, Hf.
Qed.

(** The result of an unfinished cleaning is never acknowledged: while the
    stored return value is 0, every iteration sends the log again, n logs in n
    iterations, all but the first with clean_result 1. *)
Theorem unfinished_log_repeats `{Env} n : ∀ w,
  quiet w → clean_return_value (sched w) = 0 →
  ∃ w', cleanSchedule_loop (S n) w = Ok (tt, w') ∧
    out w' = out w ++ log_msg w :: replicate n (log_msg (logged w)).
Proof.
  induction n as [|n IH]; intros w Hq Hr.
  - exists (logged w). split; [|done]. simpl.
    rewrite run_bind, (quiet_iteration _ (logged w)) by by try apply finish_failure_run.
    by destruct (SIG_VALUE_SCHEDULE _).
  - destruct (IH (logged w)) as (w' & Hl & Ho); [done..|].
    exists w'. split.
    + simpl in Hl |- *.
      rewrite run_bind, (quiet_iteration _ (logged w)) by by try apply finish_failure_run.
      destruct Hq as (_ & _ & Hs). simpl. rewrite Hs. done.
    + rewrite Ho. simpl. by rewrite <-(assoc_L (++)).
Qed.

Lemma unfinished_log_repeats_witness :
  ∃ w', @cleanSchedule_loop (env0 (Some 0)) 3 (with_sched (with_return 0) (init_world 0 0 0)) = Ok (tt, w') ∧
    out w' = @log_msg (env0 (Some 0)) (with_sched (with_return 0) (init_world 0 0 0)) ::
      replicate 2 (@log_msg (env0 (Some 0)) (@logged (env0 (Some 0)) (with_sched (with_return 0) (init_world 0 0 0)))).
Proof.
  apply (@unfinished_log_repeats (env0 (Some 0)) 2 (with_sched (with_return 0) (init_world 0 0 0)));
    [split_and!; [reflexivity|vm_compute; discriminate|reflexivity]|reflexivity].
Defined.

(** ** One cleaning from command to report *)

(** What house_clean sends to the algorithm library. *)
Definition house_events : list event :=
  [EvMLClean 1; EvMLInitState 0; EvMLLoadMap 1; EvMLContinue 0; EvControlThread].

(** The world when house_clean has come back with [r], and when the maps are
    registered. *)
Definition house_done `{Env} (r : Z) (w : World) : World :=
  mkWorld (dm w) (jobs w) (with_return (u8 r) (sched w)) (sensor w) (pose_vector w) (db w)
    (out w ++ house_events ++ (save_msg <$> filter map_exists [1; 2; 3])).

Lemma cleanWorkHandle_auto `{Env} w :
  getMState (dm w) = ESTATE_CLEAN → getCleanState (dm w) = CLEAN_STATE_AUTO →
  cleanWorkHandle w = match falls_off "house_clean" with
                      | Some r => Ok (tt, house_done r w)
                      | None => Ub UB_NoReturn
                      end.
Proof.
  intros Hm Hc. unfold cleanWorkHandle, ask_MState, ask_CleanState.
  rewrite run_bind, run_gets, run_bind, run_gets, Hm, Hc, run_when_true by done.
  unfold house_clean, fall_off, house_done. rewrite run_bind. unfold set_clean_return_value.
  run_simpl. destruct (falls_off "house_clean") as [r|]; [|done]. run_simpl.
  rewrite saveAllmaponDb_run. destruct w. simpl. unfold house_events.
  by rewrite <-?(assoc_L (++)).
Qed.

(** What follows the work of an iteration, by the value house_clean left:
    the log alone, the log and the drive to the base, or nothing. *)
Definition report `{Env} (r : Z) (w : World) : list event :=
  let log := log_event (pose_vector w) (with_return (u8 r) (set_type (Some 1) (sched w))) in
  match u8 r with
  | 0 => [log]
  | 1 => [log; voice_msg "Q010"; state_event ESTATE_BACK_CHARGE CLEAN_STATE_AUTO]
  | _ => []
  end.

Lemma finish_house_done `{Env} r w w1 :
  dm_wf (dm w1) → getMState (dm w1) = ESTATE_CLEAN → getCleanState (dm w1) = CLEAN_STATE_AUTO →
  sched w1 = set_type (Some 1) (sched w) → pose_vector w1 = pose_vector w → ∃ w',
  finish_clean (house_done r w1) = Ok (tt, w') ∧
  getMState (dm w') = (if u8 r =? 1 then ESTATE_BACK_CHARGE else ESTATE_CLEAN) ∧
  getCleanState (dm w') = CLEAN_STATE_AUTO ∧ jobs w' = jobs w1 ∧
  SIG_VALUE_SCHEDULE (sched w') = SIG_VALUE_SCHEDULE (sched w) ∧ clean_type (sched w') = 1 ∧
  clean_result (sched w') = (match u8 r with 0 => 1 | 1 => 2 | _ => clean_result (sched w) end) ∧
  out w' = out w1 ++ house_events ++ (save_msg <$> filter map_exists [1; 2; 3]) ++ report r w.
Proof.
  intros Hwf Hm Hc Hs Hp.
  assert (log_msg (house_done r w1) = log_event (pose_vector w) (with_return (u8 r) (set_type (Some 1) (sched w)))) as Hlog.
  { unfold log_msg, house_done. cbn [pose_vector sched]. by rewrite Hs, Hp. }
  unfold report. rewrite <-Hlog. clear Hlog. cbv zeta.
  destruct (decide (u8 r = 0)) as [H0|H0]; [|destruct (decide (u8 r = 1)) as [H1|H1]].
  - eexists. rewrite finish_failure_run by done. split; [done|]. rewrite H0. simpl. rewrite Hs.
    split_and!; try done. by rewrite <-!(assoc_L (++)).
  - eexists. rewrite finish_success_run by done. split; [done|]. rewrite H1. unfold finished.
    split_and!; try done; simpl; rewrite ?Hs; try done; [by apply getMState_setMState|].
    unfold state_msg. simpl. rewrite getMState_setMState by done.
    change (getCleanState (setMState ESTATE_BACK_CHARGE (dm w1))) with (getCleanState (dm w1)). rewrite Hc.
    by rewrite <-!(assoc_L (++)).
  - exists (house_done r w1). rewrite finish_other_run by done. split; [done|].
    rewrite (proj2 (Z.eqb_neq _ _) H1). simpl. rewrite Hs.
    destruct (u8 r) as [|[]|]; try done; split_and!; try done; by rewrite app_nil_r.
Qed.

(** C21. One iteration with a pending command to clean everything, in every
    build.  house_clean has no return statement.  Where the build makes undefined
    behaviour of that, the iteration is undefined.  Where it returns to the caller
    with some r in the result register, the iteration starts the SLAM thread,
    plays the voice and reports the state, makes the five calls into the
    library, registers the maps whose files exist and then, by the last eight bits
    of r: for 1 it sends the log, plays the voice for the end and drives to the
    base, reporting it; for 0 it sends the log and goes on cleaning; for any other
    value it sends nothing and goes on cleaning.  The job is consumed. *)
Theorem full_clean_iteration `{Env} w :
  reachable w → getJobCommand (jobs w) = EJOB_GLOBAL_CLEAN →
  match falls_off "house_clean" with
  | None => clean_iteration w = Ub UB_NoReturn
  | Some r => ∃ w', clean_iteration w = Ok (SIG_VALUE_SCHEDULE (sched w), w') ∧
      getMState (dm w') = (if u8 r =? 1 then ESTATE_BACK_CHARGE else ESTATE_CLEAN) ∧
      getCleanState (dm w') = CLEAN_STATE_AUTO ∧ getJobCommand (jobs w') = EJOB_NULL ∧
      clean_type (sched w') = 1 ∧
      clean_result (sched w') = (match u8 r with 0 => 1 | 1 => 2 | _ => clean_result (sched w) end) ∧
      out w' = out w
        ++ [EvSpawnSlam; voice_msg "Q006"; state_event ESTATE_CLEAN CLEAN_STATE_AUTO]
        ++ house_events ++ (save_msg <$> filter map_exists [1; 2; 3]) ++ report r w
  end.
Proof.
  intros Hw Hj. destruct (reachable_inv _ Hw) as [Hd Hjw _ _ _ Hs _].
  unfold clean_iteration. rewrite run_bind, (started_run w _ _ _ _ _ Hs Hj eq_refl), run_bind.
  set (w1 := started _ _ _ _ _).
  assert (dm_wf (setMState ESTATE_CLEAN (dm w))) as Hd1 by by apply setMState_wf.
  assert (getMState (dm w1) = ESTATE_CLEAN) as Hm1 by by apply getMState_setMState.
  assert (getCleanState (dm w1) = CLEAN_STATE_AUTO) as Hc1 by by apply getCleanState_setCleanState.
  rewrite cleanWorkHandle_auto by done. destruct (falls_off "house_clean") as [r|]; [|done].
  destruct (finish_house_done r w w1) as (w' & Hr & Hm & Hc & Hjb & Hsig & Ht & Hres & Ho);
    [by apply setCleanState_wf|done..|].
  exists w'. rewrite run_bind, Hr. unfold getCRobotdata. rewrite run_gets, Hsig. split_and!; try done.
  - rewrite Hjb. by apply History.latest_push2.
  - assert (state_msg w1 = state_event ESTATE_CLEAN CLEAN_STATE_AUTO) as <- by (unfold state_msg; by rewrite Hm1, Hc1).
    rewrite Ho. change (out w1) with (out w ++ [EvSpawnSlam; voice_msg "Q006"; state_msg w1]).
    by rewrite <-!(assoc_L (++)).
Qed.

(** A build that returns 1. *)
Lemma full_clean_iteration_witness :
  ∃ w', @clean_iteration (env0 (Some 1)) (world_after [net_msg "start_clean"]) = Ok (true, w') ∧
    getMState (dm w') = ESTATE_BACK_CHARGE ∧ getCleanState (dm w') = CLEAN_STATE_AUTO ∧
    getJobCommand (jobs w') = EJOB_NULL ∧
    clean_type (sched w') = 1 ∧ clean_result (sched w') = 2 ∧
    out w' = []
      ++ [EvSpawnSlam; voice_msg "Q006"; state_event ESTATE_CLEAN CLEAN_STATE_AUTO]
      ++ house_events ++ []
      ++ [@log_event (env0 (Some 1)) [] (with_return 1 (set_type (Some 1) (sched (init_world 0 0 0))));
          voice_msg "Q010"; state_event ESTATE_BACK_CHARGE CLEAN_STATE_AUTO].
Proof.
  apply (@full_clean_iteration (env0 (Some 1)) (world_after [net_msg "start_clean"]));
    [apply world_after_reachable|vm_compute; reflexivity].
Defined.

(** ** Threads left behind *)

(** A stopped device whose job nobody consumes. *)
Definition stopped (w : World) : Prop :=
  getJobCommand (jobs w) = EJOB_STOP_CLEAN ∧ m_slamState (sched w) = SLAM_IDLE ∧
  getMState (dm w) ≠ ESTATE_CLEAN ∧ SIG_VALUE_SCHEDULE (sched w) = true ∧ dm_wf (dm w).

Lemma spawned_app w w' l :
  out w' = out w ++ l → spawned w' = (spawned w + length (filter is_spawn l))%nat.
Proof. intros Ho. unfold spawned. by rewrite Ho, filter_app, length_app. Qed.

Lemma finish_stopped `{Env} w :
  stopped w → ∃ w', finish_clean w = Ok (tt, w') ∧ stopped w' ∧ spawned w' = spawned w.
Proof.
  intros Hst. pose proof Hst as (Hj & Hs & Hm & Hg & Hwf).
  destruct (decide (clean_return_value (sched w) = 0)) as [H0|H0];
    [|destruct (decide (clean_return_value (sched w) = 1)) as [H1|H1]].
  - exists (logged w). rewrite finish_failure_run by done. split; [done|]. split; [done|].
    rewrite (spawned_app w _ [log_msg w]) by done. simpl. lia.
  - exists (finished w). rewrite finish_success_run by done. split; [done|]. split.
    + split_and!; try done; [|by apply setMState_wf].
      change (getMState _) with (getMState (setMState ESTATE_BACK_CHARGE (dm w))).
      by rewrite getMState_setMState.
    + erewrite (spawned_app w (finished w)) by (simpl; reflexivity). simpl. lia.
  - exists w. by rewrite finish_other_run.
Qed.

Lemma stopped_iteration `{Env} w :
  stopped w → ∃ w', clean_iteration w = Ok (true, w') ∧ stopped w' ∧ spawned w' = S (spawned w).
Proof.
  intros Hst. pose proof Hst as (Hj & Hs & Hm & Hg & Hwf).
  set (w1 := with_out EvSpawnSlam w).
  assert (newCommandHandle w = Ok (tt, w1)) as Hn.
  { unfold newCommandHandle. rewrite run_bind, run_gets, Hj.
    destruct w as [d j [sl sg rv ct cr] se ps db0 o]. simpl in Hs. by subst sl. }
  destruct (finish_stopped w1) as (w' & Hf & Hst' & Hsp); [done|].
  exists w'. split; [|split; [done|]].
  - unfold clean_iteration. rewrite run_bind, Hn, run_bind, cleanWorkHandle_idle, run_bind, Hf by done.
    unfold getCRobotdata. rewrite run_gets. f_equal. f_equal. apply Hst'.
  - rewrite Hsp, (spawned_app w w1 [EvSpawnSlam]) by done. simpl. lia.
Qed.

Lemma stopped_loop `{Env} n : ∀ w,
  stopped w → ∃ w', cleanSchedule_loop n w = Ok (tt, w') ∧ spawned w' = (n + spawned w)%nat.
Proof.
  induction n as [|n IH]; intros w Hst; [by exists w|].
  destruct (stopped_iteration w Hst) as (w1 & Hi & Hst1 & Hsp).
  destruct (IH w1 Hst1) as (w' & Hl & Hsp'). exists w'. split; [|lia].
  simpl. by rewrite run_bind, Hi.
Qed.

(** A stop request is never consumed: the job stays EJOB_STOP_CLEAN, which
    the loop takes for a new command, so n iterations after a stop start n more
    SLAM threads, each replacing the pointer to the previous one. *)
Theorem stop_leaks_threads `{Env} n w :
  reachable w → SIG_VALUE_SCHEDULE (sched w) = true →
  ∃ w1 w2, stop_clean w = Ok (tt, w1) ∧ cleanSchedule_loop n w1 = Ok (tt, w2) ∧
    spawned w1 = spawned w ∧ spawned w2 = (n + spawned w)%nat.
Proof.
  intros Hw Hg. destruct (reachable_inv _ Hw) as [Hd Hjw _ _ _ Hs _].
  assert (∃ w1, stop_clean w = Ok (tt, w1) ∧ stopped w1 ∧ spawned w1 = spawned w)
    as (w1 & Hr & Hst & Hsp).
  { eexists. unfold stop_clean, interrupt_work, do_setJobCommand, do_setMState.
    split; [reflexivity|]. split.
    - split_and!; try done; [by apply History.latest_push2| |by apply setMState_wf].
      change (getMState _) with (getMState (setMState ESTATE_IDLE (dm w))).
      by rewrite getMState_setMState.
    - erewrite spawned_app; [|simpl; by rewrite <-(assoc_L (++))]. simpl. lia. }
  destruct (stopped_loop n w1 Hst) as (w2 & Hl & Hsp2).
  exists w1, w2. split_and!; try done. lia.
Qed.

Lemma stop_leaks_threads_witness :
  ∃ w1 w2, stop_clean (world_at ESTATE_CLEAN) = Ok (tt, w1) ∧
    @cleanSchedule_loop (env0 (Some 2)) 5 w1 = Ok (tt, w2) ∧
    spawned w1 = spawned (world_at ESTATE_CLEAN) ∧
    spawned w2 = (5 + spawned (world_at ESTATE_CLEAN))%nat.
Proof.
  apply (@stop_leaks_threads (env0 (Some 2)) 5 (world_at ESTATE_CLEAN));
    [apply world_at_reachable|vm_compute; reflexivity].
Defined.
