(* ===== verification/Settings.v ===== *)
(** * Settings, zones and the pose history: theorems

    What the handlers of DbdataBase and NetserverInstruct make of well-formed
    messages: the zones of a map, the do-not-disturb window, and the
    incremental trail the network server fetches. *)

From S2P Require Import Prelude Json DeviceStates DataModel World SensorData Netserver DbData RobotSchedule System Behaviour.
#[local] Open Scope Z_scope.

(** ** Zones *)

Definition vertex_json (v : Z * Z) : json := JArr [JInt v.1; JInt v.2].
(** A zone as the database server writes it. *)
Definition room_json (r : Room) : json :=
  JObj [("name", JStr (bedroom_name r)); ("id", JInt (room_id r));
        ("vertexs", JArr (vertex_json <$> vertexs_value r))].

Definition vertex_ok (v : Z * Z) : Prop := in_s 32 v.1 ∧ in_s 32 v.2.
(** A zone the handlers can hold: ints, four vertices. *)
Definition room_ok (r : Room) : Prop :=
  in_s 32 (room_id r) ∧ Forall vertex_ok (vertexs_value r) ∧ length (vertexs_value r) = 4%nat.

#[export] Instance in_s_dec w z : Decision (in_s w z).
Proof. unfold in_s. apply _. Defined.
#[export] Instance vertex_ok_dec v : Decision (vertex_ok v).
Proof. unfold vertex_ok. apply _. Defined.
#[export] Instance room_ok_dec r : Decision (room_ok r).
Proof. unfold room_ok. apply _. Defined.

(** The call that marks zone [r] as forbidden. *)
Definition forbid (r : Room) : event :=
  EvForbidden (vertex r 0) (vertex r 1) (vertex r 2) (vertex r 3).

Lemma read_vertex_json all (j : nat) v vs nm id :
  all !! j = Some (vertex_json v) → vertex_ok v →
  read_vertex (JArr all) j (mkRoom vs nm id) =
  if decide (j < 4)%nat then Ok (mkRoom (<[j := v]> vs) nm id) else Ub UB_OutOfBounds.
Proof.
  intros Hj [Hx Hy]. unfold read_vertex. simpl. rewrite Hj. destruct v as [x y]. simpl in *.
  by rewrite !swrap_id.
Qed.

(** Reading the vertices [l] from index [j] on. *)
Lemma read_vertexs_list all nm id l : ∀ j vs,
  drop j all = vertex_json <$> l → Forall vertex_ok l → length vs = 4%nat → (j ≤ 4)%nat →
  read_vertexs (JArr all) j (length l) (mkRoom vs nm id) =
  if decide (j + length l ≤ 4)%nat
  then Ok (mkRoom (take j vs ++ l ++ drop (j + length l) vs) nm id) else Ub UB_OutOfBounds.
Proof.
  induction l as [|v l IH]; intros j vs Hd Hok Hvs Hj; simpl.
  { rewrite decide_True by lia. by rewrite Nat.add_0_r, take_drop. }
  apply Forall_cons in Hok as [Hv Hok].
  assert (all !! j = Some (vertex_json v)) as Hl.
  { by rewrite <-(Nat.add_0_r j), <-lookup_drop, Hd. }
  rewrite (read_vertex_json _ _ v) by done.
  case_decide as Hj4; simpl; [|by rewrite decide_False by lia].
  rewrite IH; [|by rewrite <-Nat.add_1_r, <-drop_drop, Hd|done|by rewrite length_insert|lia].
  replace (S j + length l)%nat with (j + S (length l))%nat by lia.
  case_decide; [|done]. do 2 f_equal.
  rewrite (take_S_r _ _ v) by (apply list_lookup_insert_eq; lia).
  rewrite take_insert_ge, drop_insert_lt by lia. by rewrite <-(assoc_L (++)).
Qed.

(** A zone holds four vertices and nothing checks the message: up to four
    vertices are stored in order over the previous ones, a fifth is written
    past the array. *)
Theorem vertexs_bound l vs nm id :
  Forall vertex_ok l → length vs = 4%nat →
  read_vertexs (JArr (vertex_json <$> l)) 0 (length l) (mkRoom vs nm id) =
  if decide (length l ≤ 4)%nat then Ok (mkRoom (l ++ drop (length l) vs) nm id)
  else Ub UB_OutOfBounds.
Proof. intros Hok Hvs. rewrite (read_vertexs_list _ _ _ l 0 vs) by (done || lia). done. Qed.

Lemma vertexs_bound_witness :
  read_vertexs (JArr (vertex_json <$> [(1, 2); (3, 4); (5, 6); (7, 8); (9, 10)])) 0 5
    (mkRoom (replicate 4 (0, 0)) "hall" 3) = Ub UB_OutOfBounds.
Proof.
  apply (vertexs_bound [(1, 2); (3, 4); (5, 6); (7, 8); (9, 10)]); [by_eval|reflexivity].
Defined.

Section zones.
Context `{Env} `{RealFormat}.

Lemma read_zone_json rooms (i : nat) r z :
  rooms !! i = Some r → room_ok r → length (vertexs_value z) = 4%nat →
  read_zone (JArr (room_json <$> rooms)) i z = Ok r.
Proof.
  intros Hi (Hid & Hv & Hl) Hz. unfold read_zone, room_json. simpl.
  rewrite list_lookup_fmap, Hi. simpl. rewrite swrap_id, length_fmap by done.
  rewrite (read_vertexs_list _ _ _ (vertexs_value r) 0) by (done || lia).
  rewrite decide_True by lia. simpl. rewrite Hl. simpl.
  rewrite drop_ge, app_nil_r by lia. by destruct r.
Qed.

(** Past the end of the array a zone is read from null: no name, id 0, and the
    vertices of the zone before it. *)
Definition null_zone (z : Room) : Room := mkRoom (vertexs_value z) "" 0.

Lemma read_zone_null rooms (i : nat) z :
  (length rooms ≤ i)%nat → read_zone (JArr (room_json <$> rooms)) i z = Ok (null_zone z).
Proof.
  intros Hi. unfold read_zone. simpl. rewrite lookup_ge_None_2 by by rewrite length_fmap. done.
Qed.

Lemma read_zones_null rooms k : ∀ i z,
  (length rooms ≤ i)%nat →
  read_zones (JArr (room_json <$> rooms)) i k z =
  Ok (replicate k (null_zone z), if decide (k = 0)%nat then z else null_zone z).
Proof.
  induction k as [|k IH]; intros i z Hi; [done|].
  simpl. rewrite read_zone_null by done. simpl. rewrite IH by lia. simpl.
  by destruct k.
Qed.

(** Reading [n] zones from index [i]: the zones there are, then null zones. *)
Lemma read_zones_list rooms n : ∀ i z,
  Forall room_ok rooms → length (vertexs_value z) = 4%nat → (i + n ≤ length rooms)%nat →
  read_zones (JArr (room_json <$> rooms)) i n z =
  Ok (take n (drop i rooms), default z (last (take n (drop i rooms)))).
Proof.
  induction n as [|n IH]; intros i z Hok Hz Hi; [done|].
  destruct (lookup_lt_is_Some_2 rooms i) as [r Hr]; [lia|].
  assert (room_ok r) as Hro by by eapply Forall_lookup_1.
  simpl. rewrite (read_zone_json _ _ r) by done. simpl.
  rewrite IH by (done || apply Hro || lia). rewrite (drop_S _ _ _ Hr), firstn_cons, last_cons.
  simpl. do 2 f_equal. by destruct (last _).
Qed.

Lemma read_zones_app arr b a : ∀ i z,
  read_zones arr i (a + b) z =
  ('(l1, z1) ← read_zones arr i a z;
   '(l2, z2) ← read_zones arr (i + a) b z1;
   Ok (l1 ++ l2, z2)).
Proof.
  induction a as [|a IH]; intros i z; simpl.
  { rewrite Nat.add_0_r. by destruct (read_zones arr i b z) as [[]|]. }
  destruct (read_zone arr i z) as [r|]; simpl; [|done]. rewrite IH.
  rewrite <-Nat.add_succ_comm.
  destruct (read_zones arr (S i) a r) as [[l1 z1]|]; simpl; [|done].
  by destruct (read_zones arr _ b z1) as [[]|].
Qed.

(** Reading [n] zones from an array: what there is, then the last zone again
    without its name. *)
Definition zones_counted (rooms : list Room) (n : nat) (z : Room) : list Room :=
  take n rooms ++ replicate (n - length rooms) (null_zone (default z (last rooms))).

Lemma read_zones_counted rooms n z :
  Forall room_ok rooms → length (vertexs_value z) = 4%nat →
  ∃ z', read_zones (JArr (room_json <$> rooms)) 0 n z = Ok (zones_counted rooms n z, z') ∧
        length (vertexs_value z') = 4%nat.
Proof.
  intros Hok Hz. unfold zones_counted.
  assert (length (vertexs_value (default z (last rooms))) = 4%nat) as Hl.
  { destruct (last rooms) as [r|] eqn:Hr; [|done]. simpl.
    apply last_Some_elem_of in Hr. rewrite Forall_forall in Hok. by apply Hok. }
  destruct (decide (n ≤ length rooms)%nat) as [Hn|Hn].
  - rewrite read_zones_list by (done || lia). rewrite drop_0.
    replace (n - length rooms)%nat with 0%nat by lia. simpl. rewrite app_nil_r.
    eexists. split; [done|].
    destruct (last (take n rooms)) as [r|] eqn:Hr; [|done]. simpl.
    apply last_Some_elem_of, elem_of_take in Hr as (i & Hr & _).
    apply list_elem_of_lookup_2 in Hr. rewrite Forall_forall in Hok. by apply Hok.
  - assert (∀ arr, read_zones arr 0 n z = read_zones arr 0 (length rooms + (n - length rooms)) z)
      as -> by (intros; f_equal; lia).
    rewrite read_zones_app, read_zones_list by (done || lia). simpl.
    rewrite read_zones_null by lia. simpl. rewrite drop_0, firstn_all, !take_ge by lia.
    eexists. split; [done|]. by case_decide.
Qed.

Lemma iterM_emit {A} (f : A → event) l w :
  iterM (λ a, emit (f a)) l w = Ok (tt, mkWorld (dm w) (jobs w) (sched w) (sensor w)
    (pose_vector w) (db w) (out w ++ (f <$> l))).
Proof.
  revert w. induction l as [|a l IH]; intros w; simpl.
  - rewrite app_nil_r. by destruct w.
  - rewrite run_bind. unfold emit at 1. rewrite run_modify, IH. simpl.
    by rewrite <-(assoc_L (++)).
Qed.

(** A section whose array and counting member are given. *)
Lemma zone_section_run body key size_key arr sz z rooms last w :
  jkey body key = Ok (JArr arr) → jkey body size_key = Ok sz →
  read_zones (JArr arr) 0 (jsize sz) z = Ok (rooms, last) →
  zone_section body key size_key z w = Ok (last, mkWorld (dm w) (jobs w) (sched w) (sensor w)
    (pose_vector w) (db w) (out w ++ (forbid <$> rooms))).
Proof.
  intros Hk Hs Hr. unfold zone_section, set_forbidden_zone.
  rewrite run_bind, (run_lift _ _ _ Hk). simpl.
  rewrite run_bind, (run_lift _ _ _ Hs), run_bind, (run_lift _ _ _ Hr), run_bind.
  by rewrite iterM_emit.
Qed.

(** A zone message: the four lists of a map. *)
Definition zone_message (rooms walls zones thresholds : list Room) : json :=
  JObj [("map_id", JInt 1); ("room", JArr (room_json <$> rooms));
        ("virtual_wall", JArr (room_json <$> walls));
        ("virtual_forbidden_zone", JArr (room_json <$> zones));
        ("virtual_threshold", JArr (room_json <$> thresholds))].

Definition with_forbidden (l : list Room) (w : World) : World :=
  mkWorld (dm w) (jobs w) (sched w) (sensor w) (pose_vector w) (db w) (out w ++ (forbid <$> l)).

Lemma with_forbidden_app l l' w :
  with_forbidden l' (with_forbidden l w) = with_forbidden (l ++ l') w.
Proof. unfold with_forbidden. simpl. by rewrite fmap_app, (assoc_L (++)). Qed.

(** One section of a message, read with the size of array [sz]. *)
Lemma zone_section_counted body key size_key rooms sz z w :
  jkey body key = Ok (JArr (room_json <$> rooms)) → jkey body size_key = Ok (JArr sz) →
  Forall room_ok rooms → length (vertexs_value z) = 4%nat →
  ∃ z', zone_section body key size_key z w =
        Ok (z', with_forbidden (zones_counted rooms (length sz) z) w) ∧
        length (vertexs_value z') = 4%nat.
Proof.
  intros Hk Hs Hok Hz. destruct (read_zones_counted rooms (length sz) z Hok Hz) as (z' & Hr & Hl).
  exists z'. split; [|done]. by erewrite zone_section_run.
Qed.

Lemma zones_counted_all rooms z : zones_counted rooms (length rooms) z = rooms.
Proof. unfold zones_counted. by rewrite firstn_all, Nat.sub_diag, app_nil_r. Qed.

Lemma zone_section_all body key rooms z w :
  jkey body key = Ok (JArr (room_json <$> rooms)) →
  Forall room_ok rooms → length (vertexs_value z) = 4%nat →
  ∃ z', zone_section body key key z w = Ok (z', with_forbidden rooms w) ∧
        length (vertexs_value z') = 4%nat.
Proof.
  intros Hk Hok Hz.
  destruct (zone_section_counted body key key rooms _ z w Hk Hk Hok Hz) as (z' & Hr & Hl).
  exists z'. by rewrite Hr, length_fmap, zones_counted_all.
Qed.
End zones.

(** Zones for concrete runs. *)
Definition square (n : string) (i x y : Z) : Room :=
  mkRoom [(x, y); (x, y + 10); (x + 10, y + 10); (x + 10, y)] n i.
(** A zone message is obeyed completely and in order: every outline of its
    four lists reaches the algorithm library as a forbidden area with its own
    four corners (the rooms too), and nothing else of the state changes. *)
Theorem Zone_cfg_forbids_all `{Env} `{RealFormat} rooms walls zones thresholds w :
  Forall room_ok (rooms ++ walls ++ zones ++ thresholds) →
  Zone_cfg (zone_message rooms walls zones thresholds) w =
  Ok (tt, with_forbidden (rooms ++ walls ++ zones ++ thresholds) w).
Proof.
  rewrite !Forall_app. intros (Hr & Hw & Hz & Ht). unfold Zone_cfg.
  set (body := zone_message rooms walls zones thresholds).
  rewrite run_bind, (run_lift _ 1) by done.
  destruct (zone_section_all body "room" rooms garbage_room w)
    as (z1 & R1 & Hl1); [done..|].
  destruct (zone_section_all body "virtual_wall" walls z1 (with_forbidden rooms w))
    as (z2 & R2 & Hl2); [done..|].
  destruct (zone_section_all body "virtual_forbidden_zone" zones z2
    (with_forbidden (rooms ++ walls) w)) as (z3 & R3 & Hl3); [done..|].
  destruct (zone_section_all body "virtual_threshold" thresholds z3
    (with_forbidden (rooms ++ walls ++ zones) w)) as (z4 & R4 & Hl4); [done..|].
  rewrite run_bind, R1, run_bind, R2, with_forbidden_app, run_bind, R3, with_forbidden_app.
  rewrite <-(assoc_L (++)), run_bind, R4, with_forbidden_app.
  by rewrite <-!(assoc_L (++)).
Qed.

Lemma Zone_cfg_forbids_all_witness :
  @Zone_cfg (env0 (Some 2)) fmt0 (zone_message [square "hall" 1 0 0] [] [square "rug" 2 50 50] [])
    (init_world 0 0 0) =
  Ok (tt, with_forbidden [square "hall" 1 0 0; square "rug" 2 50 50] (init_world 0 0 0)).
Proof.
  apply (@Zone_cfg_forbids_all (env0 (Some 2)) fmt0 [square "hall" 1 0 0] [] [square "rug" 2 50 50] []).
  by_eval.
Defined.

(** The query at start-up counts the forbidden zones by the rooms: of m
    forbidden zones and n rooms it obeys the first n when n <= m, and
    otherwise repeats the last one n - m times. *)
Theorem get_zone_cfg_miscounts `{Env} `{RealFormat} rooms walls zones thresholds w :
  db_reply "get_zone_cfg" = Some (JObj [("body", zone_message rooms walls zones thresholds)]) →
  Forall room_ok (rooms ++ walls ++ zones ++ thresholds) →
  ∃ w' z, get_zone_cfg w = Ok (tt, w') ∧
    out w' = out w ++ [EvDp "DP_DB_REQUEST" (request "get_zone_cfg" [("map_id", JInt 1)])]
      ++ (forbid <$> rooms ++ walls ++ zones_counted zones (length rooms) z ++ thresholds).
Proof.
  intros Hdb. rewrite !Forall_app. intros (Hr & Hw & Hz & Ht). unfold get_zone_cfg, reply_int.
  set (body := zone_message rooms walls zones thresholds) in *.
  rewrite run_bind. unfold db_request, emit. rewrite run_modify, Hdb, run_bind.
  set (w0 := with_out _ w). change (jkey (JObj [("body", body)]) "body") with (Ok body).
  rewrite run_bind, (run_lift (Ok body) _ w0 eq_refl), run_bind.
  rewrite (run_lift (jkey body "map_id") (JInt 1) w0 eq_refl). simpl.
  rewrite run_bind, (run_lift (Ok body) _ w0 eq_refl).
  destruct (zone_section_all body "room" rooms garbage_room w0)
    as (z1 & R1 & Hl1); [done..|].
  destruct (zone_section_all body "virtual_wall" walls z1 (with_forbidden rooms w0))
    as (z2 & R2 & Hl2); [done..|].
  destruct (zone_section_counted body "virtual_forbidden_zone" "room" zones (room_json <$> rooms)
    z2 (with_forbidden (rooms ++ walls) w0)) as (z3 & R3 & Hl3); [done..|].
  rewrite length_fmap in R3. set (zs := zones_counted zones (length rooms) z2) in *.
  destruct (zone_section_all body "virtual_threshold" thresholds z3
    (with_forbidden (rooms ++ walls ++ zs) w0)) as (z4 & R4 & Hl4); [done..|].
  exists (with_forbidden (rooms ++ walls ++ zs ++ thresholds) w0), z2. split.
  - rewrite run_bind, R1, run_bind, R2, with_forbidden_app, run_bind, R3, with_forbidden_app.
    rewrite <-(assoc_L (++)), run_bind, R4, with_forbidden_app.
    by rewrite <-!(assoc_L (++)).
  - unfold with_forbidden, w0. simpl. by rewrite <-!(assoc_L (++)).
Qed.

Lemma get_zone_cfg_miscounts_witness :
  let rooms := [square "hall" 1 0 0; square "bath" 2 20 20] in
  let zones := [square "rug" 3 50 50] in
  ∃ w' z, @get_zone_cfg (answer_env (JObj [("body", zone_message rooms [] zones [])])) fmt0
            (init_world 0 0 0) = Ok (tt, w') ∧
    out w' = [] ++ [EvDp "DP_DB_REQUEST" (request "get_zone_cfg" [("map_id", JInt 1)])]
      ++ (forbid <$> rooms ++ [] ++ zones_counted zones (length rooms) z ++ []).
Proof.
  intros rooms zones.
  apply (@get_zone_cfg_miscounts (answer_env (JObj [("body", zone_message rooms [] zones [])]))
    fmt0 rooms [] zones [] (init_world 0 0 0)); [reflexivity|by_eval].
Defined.

(** ** Do not disturb *)

Definition disturb_reply (s e : Z) : json :=
  JObj [("body", JObj [("enable", JInt 1); ("start_time", JInt s); ("end_time", JInt e)])].
Definition disturb_request : event := EvDp "DP_DB_REQUEST" (request "get_donot_disturb_cfg" []).

(** start < now < end compares the truth value of the first comparison with
    the end, so the clock does not matter once the end is past minute 1. *)
Lemma in_disturb_window_always s now e : 1 < e → in_disturb_window s now e = true.
Proof. intros He. unfold in_disturb_window. destruct (s <? now); apply Z.ltb_lt; lia. Qed.

Lemma get_donot_disturb_run `{Env} w s e :
  db_reply "get_donot_disturb_cfg" = Some (disturb_reply s e) → in_s 32 s → in_s 32 e →
  get_donot_disturb_cfg w =
  Ok (1, with_db (λ d, mkDb (clean_mode d) s e (reservation_value d) (donot_disturb_value d)
                        (time_clean d)) (with_out disturb_request w)).
Proof.
  intros Hdb Hs He. unfold get_donot_disturb_cfg, reply_int, db_request, emit.
  rewrite run_bind, run_modify, Hdb. unfold disturb_reply.
  cbv [mbind st_bind lift body_as_int]. simpl. by rewrite !swrap_id.
Qed.

(** Do-not-disturb ignores the clock: with the setting just changed and a
    window that ends after the first minute of the day, a device that is not
    idle is interrupted at whatever time the timer fires. *)
Theorem disturb_ignores_clock `{Env} w s e now : minutes garbage_time = Ok now →
  db_reply "get_donot_disturb_cfg" = Some (disturb_reply s e) → in_s 32 s → in_s 32 e →
  1 < e → donot_disturb_value (db w) = 1 → getMState (dm w) ≠ ESTATE_IDLE →
  ∃ w', disturb_check w = Ok (tt, w') ∧ donot_disturb_value (db w') = 0 ∧
    out w' = out w ++ [disturb_request; EvMLPause 2].
Proof.
  intros Hnow Hdb Hs He H1 Hd Hm. unfold disturb_check.
  rewrite run_bind, run_gets, run_when_true by by apply Z.eqb_eq.
  unfold set_donot_disturb. rewrite run_bind, run_modify, run_bind.
  rewrite (get_donot_disturb_run _ s e) by done.
  rewrite run_when_true, run_bind, run_gets, run_bind, run_gets, run_bind, (run_lift _ _ _ Hnow) by done.
  rewrite run_when_true by by apply in_disturb_window_always.
  unfold ask_MState. rewrite run_bind, run_gets, run_when_true by by apply bool_decide_true.
  eexists. split; [done|]. split; [done|]. simpl. by rewrite <-(assoc_L (++)).
Qed.

Lemma disturb_ignores_clock_witness :
  ∃ w', @disturb_check (answer_env (disturb_reply 1320 480)) (world_at ESTATE_CLEAN) = Ok (tt, w') ∧
    donot_disturb_value (db w') = 0 ∧
    out w' = out (world_at ESTATE_CLEAN) ++ [disturb_request; EvMLPause 2].
Proof.
  apply (@disturb_ignores_clock (answer_env (disturb_reply 1320 480)) (world_at ESTATE_CLEAN) 1320 480 0);
    [reflexivity|reflexivity|by_eval|by_eval|lia|vm_compute; reflexivity|vm_compute; discriminate].
Defined.

(** ** The pose history *)

Definition pose_of (p : Z * Z * Z) : robot_pose :=
  let '(x, y, yam) := p in mkPose (div50 y) (div50 (- x)) (Z.quot yam 1000).
Definition poses_in (l : list (Z * Z * Z)) : list label := (λ '(x, y, yam), LPose x y yam) <$> l.

(** The size of a full history. *)
Definition max_poses : nat := Z.to_nat 10001.
Lemma max_poses_Z : Z.of_nat max_poses = 10001.
Proof. unfold max_poses. by rewrite Z2Nat.id. Qed.
#[local] Opaque max_poses.

(** The history is a window on the poses received. *)
Lemma push_pose_window p v :
  (length v ≤ max_poses)%nat → push_pose p v = drop (S (length v) - max_poses) (v ++ [p]).
Proof.
  intros Hv. pose proof max_poses_Z. unfold push_pose. case_decide as Hl.
  - replace (S (length v) - max_poses)%nat with 1%nat by lia.
    destruct v as [|q v]; [|done]. simpl in Hl. lia.
  - replace (S (length v) - max_poses)%nat with 0%nat by lia. done.
Qed.

(** A pose whose first coordinate can be negated. *)
Definition pose_ok (p : Z * Z * Z) : Prop := p.1.1 ≠ minInt.

Lemma run_poses `{Env} `{RealFormat} l : ∀ w, Forall pose_ok l →
  (length (pose_vector w) ≤ max_poses)%nat →
  run (poses_in l) w = Ok (with_poses (λ v,
    drop (length v + length l - max_poses) (v ++ (pose_of <$> l))) w).
Proof.
  pose proof max_poses_Z as HM. induction l as [|[[x y] yam] l IH]; intros w Hok Hw.
  { simpl. replace (length (pose_vector w) + 0 - max_poses)%nat with 0%nat by lia.
    destruct w. unfold with_poses. simpl in *.
    replace (length pose_vector + 0 - max_poses)%nat with 0%nat by lia. by rewrite app_nil_r. }
  change (run (poses_in ((x, y, yam) :: l)) w) with
    (match pose_down_net x y yam w with Ok (_, w') => run (poses_in l) w' | Ub u => Ub u end).
  apply Forall_cons in Hok as [Hx Hok]. unfold pose_ok in Hx. simpl in Hx.
  unfold pose_down_net. rewrite run_bind, run_when_false by by apply bool_decide_false.
  rewrite run_modify, IH; [|done|].
  - unfold with_poses. simpl. do 2 f_equal. rewrite push_pose_window by done.
    set (p := mkPose _ _ _). rewrite length_drop, length_app. simpl.
    set (v := pose_vector w) in *. set (ps := pose_of <$> l).
    destruct (decide (length v < max_poses)%nat).
    + replace (S (length v) - max_poses)%nat with 0%nat by lia. rewrite drop_0, <-(assoc_L (++)).
      simpl. f_equal. lia.
    + replace (S (length v) - max_poses)%nat with 1%nat by lia.
      destruct v as [|q v']; [simpl in *; lia|]. simpl length in *.
      change (drop 1 ((q :: v') ++ [p])) with (v' ++ [p]). rewrite <-(assoc_L (++)).
      replace (S (length v') + S (length l) - max_poses)%nat with (S (length l)) by lia.
      simpl. f_equal. lia.
  - simpl. pose proof (push_pose_bound (mkPose (div50 y) (div50 (- x)) (Z.quot yam 1000))
      (pose_vector w)). lia.
Qed.

(** The request of the trail from pose [n] on. *)
Definition trail_request (n : Z) : json :=
  JObj [("type", JStr "update_clean_trail"); ("body", JObj [("start_pos", JInt n)])].

(** Fetching the trail in increments: a client that holds the n poses of
    the history and asks for the rest after k more arrived gets exactly the new
    ones, in order, as long as n + k <= 10001; beyond that the window has slid
    under its index and the first n + k - max_poses new poses are lost. *)
Theorem incremental_trail `{Env} `{RealFormat} w l :
  reachable w → Forall pose_ok l →
  ∃ w', run (poses_in l) w = Ok w' ∧
    workstate_handle "update_clean_trail" (trail_request (Z.of_nat (length (pose_vector w)))) w' =
    Ok (JObj [("start_pos", JInt (Z.of_nat (length (pose_vector w))));
              ("clean_trail", JArr (pose_pair <$>
                 drop (length (pose_vector w) + length l - max_poses) (pose_of <$> l)))], w').
Proof.
  intros Hw Hok. pose proof max_poses_Z as HM. pose proof (inv_poses _ (reachable_inv _ Hw)) as Hp.
  rewrite run_poses by (done || lia). eexists. split; [done|].
  unfold workstate_handle, ask_MState, ask_CleanState, body_int.
  rewrite run_bind, run_gets, run_bind, run_gets, run_bind, run_gets.
  rewrite !bool_decide_false by done. rewrite bool_decide_true by done.
  unfold trail_request. set (n := Z.of_nat (length (pose_vector w))) in *.
  rewrite run_bind, run_bind, (run_lift _ (JObj [("start_pos", JInt n)])) by done.
  rewrite (run_lift _ n)
    by (apply JV_TO_INT_int; unfold in_s; change (2 ^ (32 - 1)) with 2147483648; lia).
  rewrite run_ret. do 5 f_equal. unfold trail_from.
  replace (n <? 0) with false by (symmetry; apply Z.ltb_ge; lia).
  unfold n. rewrite Nat2Z.id. simpl. rewrite drop_drop, skipn_app.
  by rewrite (drop_ge (pose_vector w)), Nat.add_sub by lia.
Qed.

Lemma incremental_trail_witness :
  ∃ w', run (H:=env0 (Some 2)) (H0:=fmt0) (poses_in [(50, 100, 3000); (0, 0, 0)]) (init_world 0 0 0) = Ok w' ∧
    workstate_handle "update_clean_trail" (trail_request 0) w' =
    Ok (JObj [("start_pos", JInt 0);
              ("clean_trail", JArr (pose_pair <$>
                 drop (0 + 2 - max_poses) (pose_of <$> [(50, 100, 3000); (0, 0, 0)])))], w').
Proof. apply (@incremental_trail (env0 (Some 2)) fmt0 (init_world 0 0 0)); [apply reach_init|repeat constructor; done]. Defined.
