(* ===== verification/WheelTimer.v ===== *)
(** * WheelTimer: the hierarchical timing wheel

    src/lib_app/robot_schedule/schedule/wheel_timer.cpp: timers in five wheels
    of 256 + 4 * 64 slots, found by their expiry time; a tick of the smallest
    wheel fires one slot and, every 256 ticks, moves the entries of a slot of
    the larger wheels down. *)

From S2P Require Import Prelude.
#[local] Open Scope Z_scope.

(** ** Slots *)

Definition TVR_SIZE : Z := 256.
Definition TVN_SIZE : Z := 64.
Definition OFFSET (n : Z) : Z := TVR_SIZE + n * TVN_SIZE.
Definition INDEX (v n : Z) : Z := Z.land (Z.shiftr v (8 + n * 6)) 63.

(** The slot AddEntryToWheel chooses; unsigned long long arithmetic. *)
Definition wheel_slot (checkTime expires : Z) : Z :=
  let idx := u64 (expires - checkTime) in
  if idx <? TVR_SIZE then Z.land expires 255
  else if idx <? 2 ^ 14 then OFFSET 0 + INDEX expires 0
  else if idx <? 2 ^ 20 then OFFSET 1 + INDEX expires 1
  else if idx <? 2 ^ 26 then OFFSET 2 + INDEX expires 2
  else if s64 idx <? 0 then Z.land checkTime 255
  else let expires := if 2 ^ 32 - 1 <? idx then u64 (2 ^ 32 - 1 + checkTime) else expires in
       OFFSET 3 + INDEX expires 3.

Section wheel.
(** The callbacks: what a function object does when it is called with the
    time of the check; it may use the timer it belongs to. *)
Context {F : Type}.

Inductive top :=
| Register (f : F) (interval delay expired_times : Z)
| Unregister (id : Z)
| Elapse (ms : N).           (* the callback takes time *)

Context (exec : F → Z → list top).

Record WheelEntry := mkEntry {
  e_id : Z;                  (* timerId_ *)
  interval_ : Z;
  expires_ : Z;
  repeat_ : Z;
  func_ptr : F;
  wheelIndex_ : Z }.

(** The entries live in the map, so a pointer to one is its key; [clock] is
    what GetCurrentMillisecs reads, [fired] records the calls as (timer, tick). *)
Record WheelTimer := mkWheel {
  timers : gmap Z WheelEntry;
  wheels_ : list (list Z);
  checkTime_ : Z;
  timerId_ : Z;
  clock : Z;
  fired : list (Z * Z) }.

Definition with_timers (f : gmap Z WheelEntry → gmap Z WheelEntry) (s : WheelTimer) : WheelTimer :=
  mkWheel (f (timers s)) (wheels_ s) (checkTime_ s) (timerId_ s) (clock s) (fired s).
Definition with_wheels (f : list (list Z) → list (list Z)) (s : WheelTimer) : WheelTimer :=
  mkWheel (timers s) (f (wheels_ s)) (checkTime_ s) (timerId_ s) (clock s) (fired s).

Definition set_wheelIndex (k : Z) (e : WheelEntry) : WheelEntry :=
  mkEntry (e_id e) (interval_ e) (expires_ e) (repeat_ e) (func_ptr e) k.

(** WheelTimer::WheelTimer, at time [now]. *)
Definition new_wheel (now : Z) : WheelTimer :=
  mkWheel ∅ (replicate 512 []) now 0 now [].

(** Following a pointer to an entry. *)
Definition deref (id : Z) : ST WheelTimer WheelEntry := λ s,
  match timers s !! id with Some e => Ok (e, s) | None => Ub UB_UseAfterFree end.
(** wheels_[k] *)
Definition wheel_at (k : Z) : ST WheelTimer (list Z) := λ s,
  match wheels_ s !! Z.to_nat k with Some l => Ok (l, s) | None => Ub UB_OutOfBounds end.
Definition set_wheel (k : Z) (l : list Z) : ST WheelTimer unit :=
  modify (with_wheels (λ ws, <[Z.to_nat k := l]> ws)).
Definition set_entry (id : Z) (e : WheelEntry) : ST WheelTimer unit :=
  modify (with_timers (λ m, <[id := e]> m)).

Definition AddEntryToWheel (id : Z) : ST WheelTimer unit :=
  e ← deref id;
  c ← gets checkTime_;
  let k := wheel_slot c (expires_ e) in
  set_entry id (set_wheelIndex k e);;
  tlist ← wheel_at k;
  set_wheel k (tlist ++ [id]).

Definition Cascade (offset index : Z) : ST WheelTimer Z :=
  temp ← wheel_at (offset + index);
  set_wheel (offset + index) [];;
  iterM AddEntryToWheel temp;;
  mret index.

(** The unsigned parameters convert their arguments. *)
Definition register_timer (f : F) (interval delay expired_times : Z) : ST WheelTimer Z :=
  n ← gets timerId_;
  if bool_decide (n = 2 ^ 31 - 1) then undefined UB_SignedOverflow else
  let cur_id := n + 1 in
  modify (λ s, mkWheel (timers s) (wheels_ s) (checkTime_ s) cur_id (clock s) (fired s));;
  now ← gets clock;
  let interval := u32 interval in
  let delay := if u32 delay =? 0 then interval else u32 delay in
  set_entry cur_id (mkEntry cur_id interval (u64 (delay + now)) expired_times f (-1));;
  AddEntryToWheel cur_id;;
  mret cur_id.

Definition unregister_timer (id : Z) : ST WheelTimer unit :=
  m ← gets timers;
  match m !! id with
  | None => mret tt
  | Some e =>
      (if bool_decide (wheelIndex_ e ≠ -1) then
         tlist ← wheel_at (wheelIndex_ e);
         if decide (id ∈ tlist)
         then set_wheel (wheelIndex_ e) (filter (λ x, x ≠ id) tlist)
         else undefined UB_ForeignIterator
       else mret tt);;
      modify (with_timers (delete id))
  end.

Definition run_op (o : top) : ST WheelTimer unit :=
  match o with
  | Register f i d n => register_timer f i d n;; mret tt
  | Unregister id => unregister_timer id
  | Elapse ms => modify (λ s, mkWheel (timers s) (wheels_ s) (checkTime_ s) (timerId_ s)
                                (clock s + Z.of_N ms) (fired s))
  end.

(** The body of the loop over the spliced slot. *)
Definition fire (now tick : Z) (id : Z) : ST WheelTimer unit :=
  e ← deref id;
  set_entry id (set_wheelIndex (-1) e);;
  modify (λ s, mkWheel (timers s) (wheels_ s) (checkTime_ s) (timerId_ s) (clock s)
                 (fired s ++ [(id, tick)]));;
  iterM run_op (exec (func_ptr e) now);;
  e ← deref id;
  if bool_decide (repeat_ e = 1) then modify (with_timers (delete id))
  else
    let r := if 0 <? repeat_ e then repeat_ e - 1 else repeat_ e in
    set_entry id (mkEntry (e_id e) (interval_ e) (u64 (expires_ e + interval_ e)) r
                    (func_ptr e) (wheelIndex_ e));;
    AddEntryToWheel id.

(** The && chain of cascades when the smallest wheel starts again. *)
Definition cascades (c : Z) : ST WheelTimer unit :=
  when (Z.land c 255 =? 0) (
    i0 ← Cascade (OFFSET 0) (INDEX c 0);
    when (i0 =? 0) (
      i1 ← Cascade (OFFSET 1) (INDEX c 1);
      when (i1 =? 0) (
        i2 ← Cascade (OFFSET 2) (INDEX c 2);
        when (i2 =? 0) (Cascade (OFFSET 3) (INDEX c 3);; mret tt)))).

(** One iteration of DetectTimers' loop. *)
Definition tick (now : Z) : ST WheelTimer unit :=
  c ← gets checkTime_;
  let index := Z.land c 255 in
  cascades c;;
  modify (λ s, mkWheel (timers s) (wheels_ s) (u64 (checkTime_ s + 1)) (timerId_ s) (clock s) (fired s));;
  temp ← wheel_at index;
  set_wheel index [];;
  iterM (fire now c) temp.

Fixpoint detect_loop (fuel : nat) (now : Z) : ST WheelTimer unit :=
  c ← gets checkTime_;
  if c <=? now then
    match fuel with
    | O => undefined UB_Diverges
    | S fuel => tick now;; detect_loop fuel now
    end
  else mret tt.

(** One iteration per millisecond since the last check. *)
Definition DetectTimers : ST WheelTimer unit :=
  now ← gets clock;
  c ← gets checkTime_;
  detect_loop (Z.to_nat (now + 1 - c)) now.
End wheel.
Arguments top : clear implicits.
Arguments WheelEntry : clear implicits.
Arguments WheelTimer : clear implicits.
