(* ===== verification/WheelPlacement.v ===== *)
(** * Where the timing wheel puts an entry

    The arithmetic of the slots: an entry placed by AddEntryToWheel is in the
    slot that will be fired at its expiry time, or in a slot of a larger wheel
    that will be moved down in time. *)

From S2P Require Import Prelude WheelTimer.
#[local] Open Scope Z_scope.

(** The width of the counter below wheel [n] (n = 0..3 for the larger wheels). *)
Definition lvl_bits (n : Z) : Z := 8 + n * 6.
(** When the slot of wheel [n] that holds expiry [x] is moved down. *)
Definition lvl_start (n x : Z) : Z := x / 2 ^ lvl_bits n * 2 ^ lvl_bits n.
Definition lvl_slot (n x : Z) : Z := OFFSET n + x / 2 ^ lvl_bits n mod 64.

(** [placed low c e k]: at check time [c], slot [k] is right for an entry that
    expires at [e]; entries of the larger wheels are moved down at [low] or
    later. *)
Definition placed (low c e k : Z) : Prop :=
  (c ≤ e < c + 256 ∧ k = e mod 256) ∨
  (e < c ∧ k = c mod 256) ∨
  (∃ n x, 0 ≤ n ≤ 3 ∧ k = lvl_slot n x ∧ low ≤ lvl_start n x ∧
          x < c + 2 ^ (lvl_bits n + 6) ∧ x ≤ e).
(** Nothing has to be moved down at [c] any more. *)
Abbreviation fresh c := (placed (c + 1) c).

Lemma land_255 v : Z.land v 255 = v mod 256.
Proof. apply (Z.land_ones v 8). lia. Qed.
Lemma INDEX_mod v n : 0 ≤ n → INDEX v n = v / 2 ^ lvl_bits n mod 64.
Proof.
  intros Hn. unfold INDEX, lvl_bits. rewrite (Z.land_ones _ 6) by lia.
  by rewrite Z.shiftr_div_pow2 by lia.
Qed.
Lemma OFFSET_INDEX v n : 0 ≤ n → OFFSET n + INDEX v n = lvl_slot n v.
Proof. intros. unfold lvl_slot. by rewrite INDEX_mod. Qed.

Lemma lvl_pow n : 0 ≤ n → 0 < 2 ^ lvl_bits n.
Proof. intros. apply pow2_pos. unfold lvl_bits. lia. Qed.

(** [x] lies in the block that starts at [lvl_start n x]. *)
Lemma lvl_start_bounds n x : 0 ≤ n → lvl_start n x ≤ x < lvl_start n x + 2 ^ lvl_bits n.
Proof.
  intros Hn. unfold lvl_start. pose proof (lvl_pow n Hn).
  pose proof (Z.mul_div_le x (2 ^ lvl_bits n) ltac:(lia)).
  pose proof (Z.mul_succ_div_gt x (2 ^ lvl_bits n) ltac:(lia)). lia.
Qed.

Lemma lvl_slot_range n x : 0 ≤ n ≤ 3 → 256 ≤ lvl_slot n x < 512.
Proof.
  intros Hn. unfold lvl_slot, OFFSET, TVR_SIZE, TVN_SIZE.
  pose proof (Z.mod_pos_bound (x / 2 ^ lvl_bits n) 64 ltac:(lia)). lia.
Qed.

Lemma placed_range low c e k : placed low c e k → 0 ≤ k < 512.
Proof.
  intros [[_ ->]|[[_ ->]|(n & x & Hn & -> & _)]].
  - pose proof (Z.mod_pos_bound e 256 ltac:(lia)). lia.
  - pose proof (Z.mod_pos_bound c 256 ltac:(lia)). lia.
  - pose proof (lvl_slot_range n x Hn). lia.
Qed.

Lemma placed_low low low' c e k : low' ≤ low → placed low c e k → placed low' c e k.
Proof.
  intros Hl [?|[?|(n & x & ? & ? & ? & ? & ?)]]; [by left|by right; left|].
  right. right. exists n, x. repeat split; (done || lia).
Qed.

(** Once nothing has to be moved down, the slot of [c] holds what is due at [c]. *)
Lemma fresh_due c e k : fresh c e k → (e ≤ c ↔ k = c mod 256).
Proof.
  intros [[He ->]|[[He ->]|(n & x & Hn & -> & Hs & Hx & Hxe)]].
  - split; intros Hc.
    + f_equal. lia.
    + pose proof (Z.div_mod e 256 ltac:(lia)). pose proof (Z.div_mod c 256 ltac:(lia)). lia.
  - split; [done|lia].
  - pose proof (lvl_slot_range n x Hn). pose proof (lvl_start_bounds n x ltac:(lia)).
    pose proof (Z.mod_pos_bound c 256 ltac:(lia)). lia.
Qed.

(** ... and what is in another slot is placed for the next tick. *)
Lemma fresh_next c e k : fresh c e k → k ≠ c mod 256 → placed (c + 1) (c + 1) e k.
Proof.
  intros [[He ->]|[[He ->]|(n & x & Hn & -> & Hs & Hx & Hxe)]] Hk; [|done|].
  - left. split; [|done]. assert (e ≠ c) by congruence. lia.
  - right. right. exists n, x. repeat split; (done || lia).
Qed.

(** An entry that is placed but must be moved down now is in the slot of its
    wheel that the cascade of [c] takes. *)
Lemma placed_cascade c e k :
  placed c c e k →
  fresh c e k ∨ ∃ n, 0 ≤ n ≤ 3 ∧ c mod 2 ^ lvl_bits n = 0 ∧ k = lvl_slot n c.
Proof.
  intros [?|[?|(n & x & Hn & -> & Hs & Hx & Hxe)]]; [by left; left|by left; right; left|].
  destruct (decide (lvl_start n x = c)) as [Hc|Hc].
  - right. exists n. split; [done|]. pose proof (lvl_pow n ltac:(lia)).
    unfold lvl_slot. rewrite <-Hc. unfold lvl_start.
    rewrite Z_mod_mult, Z_div_mult by lia. done.
  - left. right. right. exists n, x. repeat split; (done || lia).
Qed.

(** The levels below a level that restarts restart too. *)
Lemma restart_below c m n :
  0 ≤ m ≤ n → c mod 2 ^ lvl_bits n = 0 → c mod 2 ^ lvl_bits m = 0.
Proof.
  intros Hm Hc. unfold lvl_bits in *.
  apply Z.mod_divide in Hc; [|apply Z.pow_nonzero; lia].
  apply Z.mod_divide; [apply Z.pow_nonzero; lia|].
  etransitivity; [|exact Hc]. exists (2 ^ ((n - m) * 6)).
  rewrite <-Z.pow_add_r by lia. f_equal. lia.
Qed.

(** A level restarts with the level below when its own index is zero. *)
Lemma restart_step c n :
  0 ≤ n → c mod 2 ^ lvl_bits n = 0 → (INDEX c n = 0 ↔ c mod 2 ^ lvl_bits (n + 1) = 0).
Proof.
  intros Hn Hc. rewrite INDEX_mod by done. pose proof (lvl_pow n Hn) as Hp.
  replace (2 ^ lvl_bits (n + 1)) with (2 ^ lvl_bits n * 64)
    by (unfold lvl_bits; rewrite (Z.pow_add_r 2 8 (n * 6)), (Z.pow_add_r 2 8 ((n + 1) * 6)) by lia;
        replace ((n + 1) * 6) with (n * 6 + 6) by lia; rewrite Z.pow_add_r by lia; lia).
  rewrite Z.rem_mul_r, Hc by lia. nia.
Qed.

(** ** The slot AddEntryToWheel chooses is right *)
Lemma lvl_placed n c e x :
  0 ≤ n ≤ 3 → c + 2 ^ lvl_bits n ≤ x → x < c + 2 ^ (lvl_bits n + 6) → x ≤ e →
  fresh c e (lvl_slot n x).
Proof.
  intros Hn Hlo Hhi He. right. right. exists n, x.
  pose proof (lvl_start_bounds n x ltac:(lia)). repeat split; (done || lia).
Qed.

Lemma wheel_slot_past c e : 0 ≤ e < c → c ≤ 2 ^ 62 → wheel_slot c e = c mod 256.
Proof.
  intros He Hc. unfold wheel_slot, TVR_SIZE.
  assert (u64 (e - c) = e - c + 2 ^ 64) as ->.
  { unfold uwrap. rewrite <-(Z_mod_plus_full _ 1 (2 ^ 64)). apply Z.mod_small. lia. }
  rewrite !(proj2 (Z.ltb_ge _ _)) by lia.
  assert (s64 (e - c + 2 ^ 64) = e - c) as ->.
  { unfold swrap. replace (e - c + 2 ^ 64 + 2 ^ (64 - 1)) with (e - c + 2 ^ (64 - 1) + 1 * 2 ^ 64) by lia.
    rewrite Z_mod_plus_full, Z.mod_small by lia. lia. }
  rewrite (proj2 (Z.ltb_lt _ _)) by lia. apply land_255.
Qed.

Lemma wheel_slot_fresh c e :
  0 ≤ c ≤ 2 ^ 62 → 0 ≤ e < 2 ^ 63 → fresh c e (wheel_slot c e).
Proof.
  intros Hc He. destruct (decide (e < c)) as [Hp|Hp].
  { rewrite wheel_slot_past by lia. right. by left. }
  unfold wheel_slot, TVR_SIZE.
  assert (u64 (e - c) = e - c) as -> by (apply uwrap_id; unfold in_u; lia).
  assert (s64 (e - c) = e - c) as -> by (apply swrap_id; unfold in_s; lia).
  rewrite (proj2 (Z.ltb_ge (e - c) 0)) by lia.
  rewrite land_255, !OFFSET_INDEX by lia.
  repeat match goal with |- context [if ?a <? ?b then _ else _] => destruct (Z.ltb_spec a b) end.
  - left. split; [lia|done].
  - apply (lvl_placed 0); unfold lvl_bits; lia.
  - apply (lvl_placed 1); unfold lvl_bits; lia.
  - apply (lvl_placed 2); unfold lvl_bits; lia.
  - rewrite uwrap_id by (unfold in_u; lia). apply (lvl_placed 3); unfold lvl_bits; lia.
  - apply (lvl_placed 3); unfold lvl_bits; lia.
Qed.

(** Whatever the times are, the slot exists. *)
Lemma wheel_slot_range c e : 0 ≤ wheel_slot c e < 512.
Proof.
  unfold wheel_slot, TVR_SIZE. rewrite !land_255, !OFFSET_INDEX by lia.
  repeat match goal with |- context [if ?a <? ?b then _ else _] => destruct (Z.ltb_spec a b) end;
    try (pose proof (Z.mod_pos_bound e 256 ltac:(lia)); lia);
    try (pose proof (Z.mod_pos_bound c 256 ltac:(lia)); lia);
    (eapply Z.le_trans with (m := 256); [lia|]; eapply lvl_slot_range; lia) ||
    match goal with |- context [lvl_slot ?n ?x] => pose proof (lvl_slot_range n x ltac:(lia)); lia end.
Qed.
