(* ===== verification/WheelSpec.v ===== *)
(** * The timing wheel implements a map of timers

    The abstract timer service is a finite map from ids to timers: a tick at
    time c fires the timers with expiry at most c.  The invariant of the wheels
    and the simulation of every operation; the theorems are in WheelTheorems. *)

From S2P Require Import Prelude WheelTimer WheelPlacement.
#[local] Open Scope Z_scope.

Section spec.
Context {F : Type} (exec : F → Z → list (top F)).

(** ** The abstract service *)
Record timer := mkTimer { t_interval : Z; t_expires : Z; t_repeat : Z; t_func : F }.
Record service := mkService {
  s_timers : gmap Z timer;
  s_check : Z;
  s_id : Z;
  s_clock : Z;
  s_fired : list (Z * Z) }.

Definition s_register (f : F) (interval delay times : Z) (s : service) : service :=
  let delay := if u32 delay =? 0 then u32 interval else u32 delay in
  mkService (<[s_id s + 1 := mkTimer (u32 interval) (delay + s_clock s) times f]> (s_timers s))
    (s_check s) (s_id s + 1) (s_clock s) (s_fired s).
Definition s_unregister (id : Z) (s : service) : service :=
  mkService (delete id (s_timers s)) (s_check s) (s_id s) (s_clock s) (s_fired s).
Definition s_op (s : service) (o : top F) : service :=
  match o with
  | Register f i d n => s_register f i d n s
  | Unregister id => s_unregister id s
  | Elapse ms => mkService (s_timers s) (s_check s) (s_id s) (s_clock s + Z.of_N ms) (s_fired s)
  end.

(** A timer whose callback returned: removed after its last time, otherwise
    due again one interval later. *)
Definition s_rearm (t : timer) : option timer :=
  if bool_decide (t_repeat t = 1) then None
  else Some (mkTimer (t_interval t) (t_expires t + t_interval t)
               (if 0 <? t_repeat t then t_repeat t - 1 else t_repeat t) (t_func t)).

Definition s_fire (now c : Z) (s : service) (id : Z) : service :=
  match s_timers s !! id with
  | None => s
  | Some t =>
      let s1 := mkService (s_timers s) (s_check s) (s_id s) (s_clock s) (s_fired s ++ [(id, c)]) in
      let s2 := foldl s_op s1 (exec (t_func t) now) in
      mkService (partial_alter (λ o, o ≫= s_rearm) id (s_timers s2))
        (s_check s2) (s_id s2) (s_clock s2) (s_fired s2)
  end.

(** What is due at the check time. *)
Definition due (s : service) (l : list Z) : Prop :=
  NoDup l ∧ ∀ id, id ∈ l ↔ ∃ t, s_timers s !! id = Some t ∧ t_expires t ≤ s_check s.

(** A tick that fires the timers [l] in this order. *)
Definition s_tick (now : Z) (l : list Z) (s : service) : service :=
  foldl (s_fire now (s_check s))
    (mkService (s_timers s) (s_check s + 1) (s_id s) (s_clock s) (s_fired s)) l.

(** All ticks up to [now], each firing exactly what is due. *)
Inductive s_detect (now : Z) : service → service → Prop :=
| detect_done s : now < s_check s → s_detect now s s
| detect_tick s l s' :
    s_check s ≤ now → due s l → s_detect now (s_tick now l s) s' → s_detect now s s'.

(** ** Abstraction and invariant *)
Definition abs_entry (e : WheelEntry F) : timer :=
  mkTimer (interval_ e) (expires_ e) (repeat_ e) (func_ptr e).
Definition abs (s : WheelTimer F) : service :=
  mkService (abs_entry <$> timers s) (checkTime_ s) (timerId_ s) (clock s) (fired s).

(** Timer [id] is in the list of slot [k]. *)
Definition in_wheel (ws : list (list Z)) (k : nat) (id : Z) : Prop :=
  ∃ l, ws !! k = Some l ∧ id ∈ l.

(** [B]: the ids out of the wheels (spliced into a local list); [P]: where an
    entry with an expiry may be. *)
Record wheel_ok (B : list Z) (P : Z → Z → Prop) (s : WheelTimer F) : Prop := {
  wo_len : length (wheels_ s) = 512%nat;
  wo_nodup : ∀ k l, wheels_ s !! k = Some l → NoDup l;
  wo_in : ∀ k id, in_wheel (wheels_ s) k id →
    id ∉ B ∧ ∃ e : WheelEntry F, timers s !! id = Some e ∧ Z.to_nat (wheelIndex_ e) = k;
  wo_placed : ∀ id (e : WheelEntry F), timers s !! id = Some e → id ∉ B →
    P (expires_ e) (wheelIndex_ e) ∧ 0 ≤ wheelIndex_ e < 512 ∧
    in_wheel (wheels_ s) (Z.to_nat (wheelIndex_ e)) id;
  wo_busy : NoDup B ∧ ∀ id, id ∈ B → id ≤ timerId_ s;
  wo_entry : ∀ id (e : WheelEntry F), timers s !! id = Some e →
    id ≤ timerId_ s ∧ 0 ≤ expires_ e < 2 ^ 62 + 2 ^ 33 ∧ 0 ≤ interval_ e < 2 ^ 32;
  wo_time : 0 ≤ checkTime_ s ∧ 0 ≤ clock s }.

Lemma wheel_ok_mono B P P' s :
  (∀ e k, P e k → P' e k) → wheel_ok B P s → wheel_ok B P' s.
Proof.
  intros HP []. split; try done. intros id e He HB.
  destruct (wo_placed0 id e He HB) as (? & ? & ?). auto.
Qed.

Lemma wheel_ok_wheel B P s k :
  wheel_ok B P s → 0 ≤ k < 512 → ∃ l, wheels_ s !! Z.to_nat k = Some l.
Proof. intros Hok Hk. apply lookup_lt_is_Some_2. rewrite (wo_len _ _ _ Hok). lia. Qed.

(** Replacing the list of a slot. *)
Lemma in_wheel_insert ws k l k' id :
  (k < length ws)%nat →
  in_wheel (<[k := l]> ws) k' id ↔ (k' = k ∧ id ∈ l) ∨ (k' ≠ k ∧ in_wheel ws k' id).
Proof.
  intros Hk. unfold in_wheel. destruct (decide (k' = k)) as [->|Hne].
  - rewrite list_lookup_insert_eq by done. naive_solver.
  - rewrite list_lookup_insert_ne by done. naive_solver.
Qed.

Lemma nodup_insert (ws : list (list Z)) k l :
  (∀ k' l', ws !! k' = Some l' → NoDup l') → NoDup l →
  ∀ k' l', <[k := l]> ws !! k' = Some l' → NoDup l'.
Proof.
  intros Hws Hl k' l' Hk'. apply list_lookup_insert_Some in Hk' as [(_ & <- & _)|[_ Hk']]; [done|].
  by eapply Hws.
Qed.

Lemma abs_eq s s' :
  abs_entry <$> timers s' = abs_entry <$> timers s → checkTime_ s' = checkTime_ s →
  timerId_ s' = timerId_ s → clock s' = clock s → fired s' = fired s → abs s' = abs s.
Proof. unfold abs. congruence. Qed.

(** ** AddEntryToWheel *)
Lemma add_run id (e : WheelEntry F) l s :
  timers s !! id = Some e →
  wheels_ s !! Z.to_nat (wheel_slot (checkTime_ s) (expires_ e)) = Some l →
  AddEntryToWheel id s =
  Ok (tt, let k := wheel_slot (checkTime_ s) (expires_ e) in
      with_wheels (λ ws, <[Z.to_nat k := l ++ [id]]> ws)
        (with_timers (λ m, <[id := set_wheelIndex k e]> m) s)).
Proof.
  intros He Hl. unfold AddEntryToWheel, deref. rewrite run_bind, He, run_bind, run_gets.
  unfold set_entry. rewrite run_bind, run_modify, run_bind. unfold wheel_at. simpl.
  by rewrite Hl.
Qed.

Lemma add_ok id B P s :
  wheel_ok (id :: B) P s → checkTime_ s ≤ 2 ^ 62 → is_Some (timers s !! id) →
  (∀ e k, fresh (checkTime_ s) e k → P e k) →
  ∃ s', AddEntryToWheel id s = Ok (tt, s') ∧ wheel_ok B P s' ∧ abs s' = abs s.
Proof.
  intros Hok Hc [e He] HP. pose proof (wo_entry _ _ _ Hok _ _ He) as (Hid & Hexp & Hint).
  destruct (wo_time _ _ _ Hok) as [Hc0 Hk0].
  pose proof (wheel_slot_fresh (checkTime_ s) (expires_ e) ltac:(lia) ltac:(lia)) as Hf.
  pose proof (placed_range _ _ _ _ Hf) as Hr. set (k := wheel_slot _ _) in *.
  destruct (wheel_ok_wheel _ _ _ k Hok Hr) as [l Hl].
  pose proof (add_run id e l s He Hl) as Hrun. rewrite Hrun. eexists. split; [done|].
  split; [|apply abs_eq; try done; simpl; rewrite fmap_insert; apply insert_id;
           by rewrite lookup_fmap, He].
  destruct Hok as [Hlen Hnd Hin Hpl [Hbn Hb] Hen Ht]. apply NoDup_cons in Hbn as [HidB HB].
  assert (Z.to_nat k < length (wheels_ s))%nat as Hk by lia.
  split; simpl; fold k.
  - by rewrite length_insert.
  - apply nodup_insert; [done|]. apply NoDup_app. split_and!; [by eapply Hnd| |apply NoDup_singleton].
    intros x Hx ->%list_elem_of_singleton. destruct (Hin (Z.to_nat k) id) as [Hy _]; [by exists l|].
    by apply Hy, list_elem_of_here.
  - intros k' id' [[-> Hx]|[Hne Hx]]%in_wheel_insert; [..|done].
    + apply elem_of_app in Hx as [Hx| ->%list_elem_of_singleton].
      * destruct (Hin (Z.to_nat k) id') as [[Hne HnB]%not_elem_of_cons Hy]; [by exists l|].
        by rewrite lookup_insert_ne.
      * split; [done|]. rewrite lookup_insert_eq. by eexists.
    + destruct (Hin _ _ Hx) as [[Hid' HnB]%not_elem_of_cons Hy]. by rewrite lookup_insert_ne.
  - intros id' e' He' HnB. apply lookup_insert_Some in He' as [[<- <-]|[Hne He']]; simpl.
    + split; [by apply HP|]. split; [done|]. apply in_wheel_insert; [done|]. left.
      split; [done|]. apply elem_of_app. right. by apply list_elem_of_singleton.
    + destruct (Hpl _ _ He') as (? & ? & Hx); [by apply not_elem_of_cons|].
      split; [done|]. split; [done|]. apply in_wheel_insert; [done|].
      destruct (decide (Z.to_nat (wheelIndex_ e') = Z.to_nat k)) as [Heq|]; [|by right].
      left. split; [done|]. rewrite Heq in Hx. destruct Hx as (l' & Hl' & Hx). simplify_eq.
      apply elem_of_app. by left.
  - split; [done|]. intros x Hx. by apply Hb, list_elem_of_further.
  - intros id' e' He'. apply lookup_insert_Some in He' as [[<- <-]|[Hne He']]; [|by eapply Hen].
    by apply (Hen id e).
  - done.
Qed.

(** A change of the state that keeps the timers and the clocks. *)
Lemma abs_timer s s' id : abs s' = abs s → is_Some (timers s !! id) → is_Some (timers s' !! id).
Proof.
  intros Ha [e He]. assert (abs_entry <$> timers s' = abs_entry <$> timers s) as Ht
    by (unfold abs in Ha; congruence).
  assert ((abs_entry <$> timers s') !! id = Some (abs_entry e)) as Hx by by rewrite Ht, lookup_fmap, He.
  rewrite lookup_fmap in Hx. destruct (timers s' !! id); [by eexists|done].
Qed.
Lemma abs_check s s' : abs s' = abs s → checkTime_ s' = checkTime_ s.
Proof. unfold abs. congruence. Qed.

Lemma adds_ok l : ∀ B P s,
  wheel_ok (l ++ B) P s → checkTime_ s ≤ 2 ^ 62 → (∀ id, id ∈ l → is_Some (timers s !! id)) →
  (∀ e k, fresh (checkTime_ s) e k → P e k) →
  ∃ s', iterM AddEntryToWheel l s = Ok (tt, s') ∧ wheel_ok B P s' ∧ abs s' = abs s.
Proof.
  induction l as [|id l IH]; intros B P s Hok Hc Hl HP; simpl; [by exists s|].
  destruct (add_ok id (l ++ B) P s) as (s1 & H1 & Hok1 & Ha1); [done..|apply Hl; left|done|].
  pose proof (abs_check _ _ Ha1) as Hc1.
  destruct (IH B P s1) as (s' & H' & Hok' & Ha'); [done|by rewrite Hc1| |by rewrite Hc1|].
  { intros x Hx. apply (abs_timer s); [done|]. apply Hl. by right. }
  exists s'. rewrite run_bind, H1. split; [done|]. split; [done|]. congruence.
Qed.

(** Taking the list of a slot out of the wheels. *)
Lemma take_ok B P s k l :
  wheel_ok B P s → (k < 512)%nat → wheels_ s !! k = Some l →
  wheel_ok (l ++ B) (λ e i, P e i ∧ Z.to_nat i ≠ k)
    (with_wheels (λ ws, <[k := []]> ws) s) ∧
  ∀ id, id ∈ l → is_Some (timers s !! id).
Proof.
  intros [Hlen Hnd Hin Hpl [Hbn Hb] Hen Ht] Hk Hl.
  assert (∀ id, id ∈ l → id ∉ B ∧ ∃ e, timers s !! id = Some e ∧ Z.to_nat (wheelIndex_ e) = k) as Hl'.
  { intros id Hid. apply Hin. by exists l. }
  split; [|intros id Hid; destruct (Hl' id Hid) as (_ & e & He & _); by exists e].
  split; simpl; try done.
  - by rewrite length_insert.
  - apply nodup_insert; [done|constructor].
  - intros k' id [[_ []%elem_of_nil]|[Hne Hx]]%in_wheel_insert; [|lia].
    destruct (Hin _ _ Hx) as (HnB & e & He & Hi). split; [|by exists e].
    intros [Hxl|]%elem_of_app; [|done]. destruct (Hl' id Hxl) as (_ & e' & He' & Hi'). congruence.
  - intros id e He HnB. apply not_elem_of_app in HnB as [Hnl HnB].
    destruct (Hpl _ _ He HnB) as (HP & Hr & Hx).
    assert (Z.to_nat (wheelIndex_ e) ≠ k) as Hne.
    { intros <-. destruct Hx as (l' & Hl2 & Hx). by simplify_eq. }
    split; [done|]. split; [done|]. apply in_wheel_insert; [lia|]. by right.
  - split.
    + apply NoDup_app. split_and!; [by eapply Hnd| |done]. intros x Hx. by apply Hl'.
    + intros x [Hx|Hx]%elem_of_app; [|by apply Hb].
      destruct (Hl' x Hx) as (_ & e & He & _). by eapply Hen.
Qed.

Lemma wheel_at_run k l (s : WheelTimer F) : wheels_ s !! Z.to_nat k = Some l → wheel_at k s = Ok (l, s).
Proof. intros Hl. unfold wheel_at. by rewrite Hl. Qed.

(** ** Cascade: the entries of a slot are placed anew *)
Lemma Cascade_ok n B P P' s :
  0 ≤ n ≤ 3 → wheel_ok B P s → checkTime_ s ≤ 2 ^ 62 →
  (∀ e k, P e k → k ≠ lvl_slot n (checkTime_ s) → P' e k) →
  (∀ e k, fresh (checkTime_ s) e k → P' e k) →
  ∃ s', Cascade (OFFSET n) (INDEX (checkTime_ s) n) s = Ok (INDEX (checkTime_ s) n, s') ∧
        wheel_ok B P' s' ∧ abs s' = abs s.
Proof.
  intros Hn Hok Hc HP HP'. pose proof (lvl_slot_range n (checkTime_ s) Hn) as Hr.
  set (k := lvl_slot n (checkTime_ s)) in *.
  destruct (wheel_ok_wheel B P s k Hok) as [l Hl]; [lia|].
  destruct (take_ok B P s (Z.to_nat k) l Hok ltac:(lia) Hl) as [Hok1 Hl1].
  set (s1 := with_wheels _ s) in *.
  assert (wheel_ok (l ++ B) P' s1) as Hok2.
  { eapply wheel_ok_mono; [|exact Hok1]. intros e i [He Hi]. apply HP; [done|]. by intros ->. }
  destruct (adds_ok l B P' s1 Hok2) as (s' & Hs' & Hok' & Ha'); [done..|].
  exists s'. split; [|done].
  unfold Cascade. rewrite OFFSET_INDEX by lia. fold k.
  rewrite run_bind, (wheel_at_run k l s Hl), run_bind. unfold set_wheel. rewrite run_modify.
  rewrite run_bind. fold s1. by rewrite Hs'.
Qed.

(** Entries of the levels from [j] on still have to be moved. *)
Definition pending (c j e k : Z) : Prop :=
  fresh c e k ∨ ∃ n, j ≤ n ≤ 3 ∧ c mod 2 ^ lvl_bits n = 0 ∧ k = lvl_slot n c.

Lemma Cascade_level j B s :
  0 ≤ j ≤ 3 → wheel_ok B (pending (checkTime_ s) j) s → checkTime_ s ≤ 2 ^ 62 →
  ∃ s', Cascade (OFFSET j) (INDEX (checkTime_ s) j) s = Ok (INDEX (checkTime_ s) j, s') ∧
        wheel_ok B (pending (checkTime_ s) (j + 1)) s' ∧ abs s' = abs s.
Proof.
  intros Hj Hok Hc. eapply Cascade_ok; [done|exact Hok|done| |by left].
  intros e k [Hf|(n & Hn & Hm & ->)] Hk; [by left|]. right. exists n.
  split; [|done]. assert (n ≠ j) by congruence. lia.
Qed.

(** When level [j] does not restart, nothing is left to move. *)
Lemma pending_done c j : c mod 2 ^ lvl_bits j ≠ 0 ∧ 0 ≤ j ∨ 3 < j → ∀ e k, pending c j e k → fresh c e k.
Proof.
  intros Hj e k [Hf|(n & Hn & Hm & ->)]; [done|].
  destruct Hj as [[Hj H0]|]; [|lia]. destruct Hj. eapply restart_below; [|exact Hm]. lia.
Qed.

(** One link of the && chain: cascade level [j], and go on with [m] only if
    its index is zero. *)
Lemma cascade_chain c j B s (m : ST (WheelTimer F) unit) :
  checkTime_ s = c → 0 ≤ j ≤ 3 → c ≤ 2 ^ 62 → c mod 2 ^ lvl_bits j = 0 → wheel_ok B (pending c j) s →
  (∀ s1, wheel_ok B (pending c (j + 1)) s1 → c mod 2 ^ lvl_bits (j + 1) = 0 → abs s1 = abs s →
     ∃ s', m s1 = Ok (tt, s') ∧ wheel_ok B (fresh c) s' ∧ abs s' = abs s) →
  ∃ s', (i ← Cascade (OFFSET j) (INDEX c j); when (i =? 0) m) s = Ok (tt, s') ∧
        wheel_ok B (fresh c) s' ∧ abs s' = abs s.
Proof.
  intros <- Hj Hc Hm Hok Hk. set (c := checkTime_ s) in *. destruct (Cascade_level j B s Hj Hok Hc) as (s1 & H1 & Hok1 & Ha1).
  rewrite run_bind. fold c in H1, Hok1. rewrite H1.
  pose proof (restart_step c j ltac:(lia) Hm) as Hr. destruct (Z.eqb_spec (INDEX c j) 0) as [Hi|Hi].
  - apply Hk; [done|tauto|done].
  - exists s1. split; [done|]. split; [|done]. eapply wheel_ok_mono; [|exact Hok1].
    apply pending_done. left. split; [tauto|lia].
Qed.

Lemma cascades_ok B s :
  wheel_ok B (placed (checkTime_ s) (checkTime_ s)) s → checkTime_ s ≤ 2 ^ 62 →
  ∃ s', cascades (checkTime_ s) s = Ok (tt, s') ∧ wheel_ok B (fresh (checkTime_ s)) s' ∧
        abs s' = abs s.
Proof.
  intros Hok Hc. set (c := checkTime_ s) in *. unfold cascades. rewrite land_255.
  assert (wheel_ok B (pending c 0) s) as Hp.
  { eapply wheel_ok_mono; [|exact Hok]. intros e k Hpl.
    destruct (placed_cascade _ _ _ Hpl) as [|(n & ? & ?)]; [by left|]. right. by exists n. }
  destruct (Z.eqb_spec (c mod 256) 0) as [H0|H0]; simpl.
  2: { exists s. split; [done|]. split; [|done]. eapply wheel_ok_mono; [|exact Hp].
       apply pending_done. left. split; [exact H0|lia]. }
  assert (∀ s1, abs s1 = abs s → checkTime_ s1 = c) as Hck by (intros; by apply abs_check).
  apply (cascade_chain c 0); [done|lia|done|exact H0|done|]. intros s1 Hp1 Hm1 Ha1.
  rewrite <-Ha1. apply (cascade_chain c 1); [by apply Hck|lia|done|exact Hm1|done|].
  intros s2 Hp2 Hm2 Ha2. rewrite Ha1 in Ha2. rewrite Ha1, <-Ha2.
  apply (cascade_chain c 2); [by apply Hck|lia|done|exact Hm2|done|].
  intros s3 Hp3 Hm3 Ha3. rewrite Ha2 in Ha3. rewrite Ha2, <-Ha3.
  pose proof (Hck s3 Ha3) as Hc3. rewrite <-Hc3 in Hp3, Hc |- *.
  destruct (Cascade_level 3 B s3 ltac:(lia) Hp3 Hc) as (s4 & H4 & Hok4 & Ha4).
  exists s4. rewrite run_bind, H4. split; [done|]. split; [|done].
  eapply wheel_ok_mono; [|exact Hok4]. apply pending_done. right. lia.
Qed.

(** ** The clocks *)
Definition any_ub (u : ub) : Prop := True.

Lemma res_any {A} (r : res A) : res_in any_ub r.
Proof. by destruct r. Qed.

(** The clock does not go back, and the check time stays during a tick. *)
Definition clocks (k c : Z) (s : WheelTimer F) : Prop := k ≤ clock s ∧ checkTime_ s = c.

Section clocks.
Variables k c : Z.
Abbreviation cpres := (pres any_ub (clocks k c)).

Lemma clocks_deref id : cpres (deref id).
Proof. intros s Hs. unfold deref. by destruct (timers s !! id). Qed.
Lemma clocks_wheel_at i : cpres (wheel_at i).
Proof. intros s Hs. unfold wheel_at. by destruct (wheels_ s !! Z.to_nat i). Qed.
Lemma clocks_undefined A u : cpres (undefined u : ST _ A).
Proof. by intros s Hs. Qed.
Lemma clocks_modify (f : WheelTimer F → WheelTimer F) :
  (∀ s, clock s ≤ clock (f s)) → (∀ s, checkTime_ (f s) = checkTime_ s) → cpres (modify f).
Proof.
  intros Hk Hc. apply pres_modify. intros s [? ?]. split; [|by rewrite Hc].
  specialize (Hk s). lia.
Qed.
#[local] Hint Resolve clocks_deref clocks_wheel_at clocks_undefined : pres.
#[local] Hint Extern 2 (pres _ (clocks _ _) (modify _)) =>
  apply clocks_modify; intros ?; simpl; (done || lia) : pres.

Lemma clocks_add id : cpres (AddEntryToWheel id).
Proof. unfold AddEntryToWheel, set_entry, set_wheel. solve_pres. Qed.
#[local] Hint Resolve clocks_add : pres.

Lemma clocks_op o : cpres (run_op o).
Proof.
  unfold run_op, register_timer, unregister_timer, set_entry, set_wheel. solve_pres.
Qed.
#[local] Hint Resolve clocks_op : pres.

Lemma clocks_ops l : cpres (iterM run_op l).
Proof. solve_pres. Qed.
Lemma clocks_fire now tk id : cpres (fire exec now tk id).
Proof. unfold fire, set_entry. solve_pres. Qed.
End clocks.

Lemma clocks_run {A} (m : ST (WheelTimer F) A) s a s' :
  (∀ k c, pres any_ub (clocks k c) m) → m s = Ok (a, s') →
  clock s ≤ clock s' ∧ checkTime_ s' = checkTime_ s.
Proof. intros Hm Hr. eapply (pres_run _ _ _ _ _ _ (Hm (clock s) (checkTime_ s))); done. Qed.

(** ** Registering and unregistering *)

Lemma new_entry_ok B P s e :
  wheel_ok B P s → 0 ≤ expires_ e < 2 ^ 62 + 2 ^ 33 → 0 ≤ interval_ e < 2 ^ 32 →
  wheel_ok (timerId_ s + 1 :: B) P
    (mkWheel (<[timerId_ s + 1 := e]> (timers s)) (wheels_ s) (checkTime_ s) (timerId_ s + 1)
       (clock s) (fired s)) ∧ timers s !! (timerId_ s + 1) = None.
Proof.
  intros [Hlen Hnd Hin Hpl [Hbn Hb] Hen Ht] He Hi. set (id := timerId_ s + 1).
  assert (timers s !! id = None) as Hn.
  { destruct (timers s !! id) as [e'|] eqn:Hx; [|done]. destruct (Hen _ _ Hx). unfold id in *. lia. }
  assert (id ∉ B) as HB by (intros Hx%Hb; unfold id in *; lia).
  split; [|done]. split; simpl; try done.
  - intros k id' Hx. destruct (Hin _ _ Hx) as (HnB & e' & He' & Hk).
    assert (id ≠ id') by congruence. rewrite lookup_insert_ne by done.
    split; [by apply not_elem_of_cons|by exists e'].
  - intros id' e' He' [Hne HnB]%not_elem_of_cons. rewrite lookup_insert_ne in He' by done. by apply Hpl.
  - split; [by apply NoDup_cons|]. intros x [->|Hx]%elem_of_cons; [unfold id; lia|].
    specialize (Hb x Hx). unfold id. lia.
  - intros id' e' [[<- <-]|[Hne He']]%lookup_insert_Some; [unfold id; split; [lia|done]|].
    destruct (Hen _ _ He') as (? & ?). unfold id. split; [lia|done].
Qed.

Lemma expires_wrap delay k : 0 ≤ delay < 2 ^ 32 → 0 ≤ k ≤ 2 ^ 62 → u64 (delay + k) = delay + k.
Proof. intros. apply uwrap_id. unfold in_u. lia. Qed.

Lemma u32_range z : 0 ≤ u32 z < 2 ^ 32.
Proof. by apply (uwrap_range 32). Qed.

Lemma register_ok B s f interval delay times id s' :
  let Q := placed (checkTime_ s) (checkTime_ s) in
  wheel_ok B Q s → checkTime_ s ≤ 2 ^ 62 → clock s ≤ 2 ^ 62 →
  register_timer f interval delay times s = Ok (id, s') →
  wheel_ok B Q s' ∧ abs s' = s_register f interval delay times (abs s) ∧ id = timerId_ s + 1.
Proof.
  intros Q Hok Hc Hk Hr. unfold register_timer in Hr. rewrite run_bind, run_gets in Hr.
  case_bool_decide; [done|]. rewrite run_bind, run_modify, run_bind, run_gets in Hr.
  simpl in Hr. set (d := if u32 delay =? 0 then u32 interval else u32 delay) in Hr.
  pose proof (u32_range interval) as Hi. destruct (wo_time _ _ _ Hok) as [_ Hk0].
  assert (0 ≤ d < 2 ^ 32) as Hd by (unfold d; destruct (u32 delay =? 0); [done|apply u32_range]).
  rewrite expires_wrap in Hr by lia.
  set (e := mkEntry _ _ _ _ _ _) in Hr.
  destruct (new_entry_ok B Q s e Hok) as [Hok1 Hn]; [simpl; lia|simpl; lia|].
  set (s1 := mkWheel _ _ _ _ _ _) in Hok1.
  unfold set_entry in Hr. rewrite run_bind, run_modify in Hr.
  change (with_timers _ _) with s1 in Hr.
  destruct (add_ok (timerId_ s + 1) B Q s1) as (s2 & H2 & Hok2 & Ha2); [done..| | |].
  { simpl. rewrite lookup_insert_eq. by eexists. }
  { intros x k. apply placed_low. simpl. lia. }
  rewrite run_bind, H2 in Hr. injection Hr as <- <-. split_and!; try done.
  rewrite Ha2. unfold abs, s_register. simpl. fold d. by rewrite fmap_insert.
Qed.

(** Erasing an entry that is in no wheel. *)
Lemma delete_ok B P s id :
  wheel_ok B P s → (∀ k, ¬ in_wheel (wheels_ s) k id) → wheel_ok B P (with_timers (delete id) s).
Proof.
  intros [Hlen Hnd Hin Hpl Hb Hen Ht] Hno. split; simpl; try done.
  - intros k id' Hx. destruct (Hin _ _ Hx) as (HnB & e' & He' & Hk).
    assert (id ≠ id') by (intros <-; by eapply Hno). rewrite lookup_delete_ne by done. eauto.
  - intros id' e' [_ He']%lookup_delete_Some. by apply Hpl.
  - intros id' e' [_ He']%lookup_delete_Some. by apply Hen.
Qed.

(** Taking a timer out of its slot. *)
Lemma unlink_ok B P s id e l :
  wheel_ok B P s → timers s !! id = Some e →
  wheels_ s !! Z.to_nat (wheelIndex_ e) = Some l → id ∈ l →
  let s1 := with_wheels (λ ws, <[Z.to_nat (wheelIndex_ e) := filter (λ x, x ≠ id) l]> ws) s in
  wheel_ok (id :: B) P s1 ∧ ∀ k, ¬ in_wheel (wheels_ s1) k id.
Proof.
  intros [Hlen Hnd Hin Hpl [Hbn Hb] Hen Ht] He Hl Hid s1. set (k := Z.to_nat (wheelIndex_ e)) in *.
  assert (k < length (wheels_ s))%nat as Hk by by eapply lookup_lt_Some.
  assert (id ∉ B) as HidB by (by destruct (Hin k id) as [? _]; [exists l|]).
  assert (∀ k', ¬ in_wheel (wheels_ s1) k' id) as Hno.
  { intros k' [[-> Hx]|[Hne Hx]]%in_wheel_insert; [|by destruct (Hin _ _ Hx) as (_ & e' & He' & Hk');
      simplify_eq|done]. by apply list_elem_of_filter in Hx as [? _]. }
  split; [|done]. split; simpl; try done.
  - by rewrite length_insert.
  - apply nodup_insert; [done|]. by eapply NoDup_filter, Hnd.
  - intros k' id' Hx. assert (id' ≠ id) by (intros ->; by eapply Hno).
    apply in_wheel_insert in Hx as [[-> Hx]|[Hne Hx]]; [| |done].
    + apply list_elem_of_filter in Hx as [_ Hx]. destruct (Hin k id') as [HnB Hy]; [by exists l|].
      split; [by apply not_elem_of_cons|done].
    + destruct (Hin _ _ Hx) as [HnB Hy]. split; [by apply not_elem_of_cons|done].
  - intros id' e' He' [Hne HnB]%not_elem_of_cons. destruct (Hpl _ _ He' HnB) as (? & ? & Hx).
    split; [done|]. split; [done|]. apply in_wheel_insert; [done|].
    destruct (decide (Z.to_nat (wheelIndex_ e') = k)) as [Heq|]; [|by right]. left. split; [done|].
    rewrite Heq in Hx. destruct Hx as (l' & Hl' & Hx). simplify_eq. by apply list_elem_of_filter.
  - split; [by apply NoDup_cons|]. intros x [->|Hx]%elem_of_cons; [by eapply Hen|by apply Hb].
Qed.

(** A busy id without an entry can be forgotten. *)
Lemma forget_ok B P s id : wheel_ok (id :: B) P s → timers s !! id = None → wheel_ok B P s.
Proof.
  intros [Hlen Hnd Hin Hpl [Hbn Hb] Hen Ht] Hn. split; try done.
  - intros k id' Hx. destruct (Hin _ _ Hx) as [[_ HnB]%not_elem_of_cons Hy]. done.
  - intros id' e' He' HnB. apply Hpl; [done|]. apply not_elem_of_cons. split; [congruence|done].
  - apply NoDup_cons in Hbn as [_ HB]. split; [done|]. intros x Hx. apply Hb. by right.
Qed.

Lemma unregister_ok B P s id s' :
  wheel_ok B P s → unregister_timer id s = Ok (tt, s') →
  wheel_ok B P s' ∧ abs s' = s_unregister id (abs s).
Proof.
  intros Hok Hr. unfold unregister_timer in Hr. rewrite run_bind, run_gets in Hr.
  assert (∀ s1, abs s1 = abs s → abs (with_timers (delete id) s1) = s_unregister id (abs s)) as Habs.
  { intros s1 <-. unfold abs, s_unregister. simpl. by rewrite fmap_delete. }
  destruct (timers s !! id) as [e|] eqn:He.
  2: { injection Hr as <-. split; [done|]. unfold s_unregister, abs. simpl.
       rewrite delete_id; [done|]. by rewrite lookup_fmap, He. }
  case_bool_decide as Hw.
  - rewrite run_bind in Hr. unfold mbind, st_bind in Hr. unfold wheel_at in Hr.
    destruct (wheels_ s !! Z.to_nat (wheelIndex_ e)) as [l|] eqn:Hl; [|done].
    case_decide as Hid; [|done]. unfold set_wheel in Hr. rewrite run_modify in Hr.
    injection Hr as <-. destruct (unlink_ok B P s id e l Hok He Hl Hid) as [Hok1 Hno].
    split; [|by apply Habs]. eapply forget_ok; [by apply delete_ok|].
    simpl. apply lookup_delete_eq.
  - injection Hr as <-. split; [|by apply Habs]. apply delete_ok; [done|].
    intros k Hx. destruct (wo_in _ _ _ Hok _ _ Hx) as (HnB & e' & He' & Hk).
    destruct (wo_placed _ _ _ Hok _ _ He HnB) as (_ & Hr & _).
    destruct (decide (wheelIndex_ e = -1)); [lia|done].
Qed.
End spec.
