(* ===== verification/WheelRefine.v ===== *)
(** * The timing wheel simulates the timer service

    Callbacks, ticks and DetectTimers against the abstract service of
    WheelSpec, and the theorems about the wheel. *)

From S2P Require Import Prelude WheelTimer WheelPlacement WheelSpec.
#[local] Open Scope Z_scope.

Section refine.
Context {F : Type} (exec : F → Z → list (top F)).
Implicit Types (s : WheelTimer F) (e : WheelEntry F).

Abbreviation at_check s := (placed (checkTime_ s) (checkTime_ s)).

(** ** Callbacks *)

(** Callbacks that only take time; for them the clock need not be bounded. *)
Definition only_elapse (o : top F) : Prop := ∃ ms, o = Elapse ms.
Definition quiet_callbacks : Prop := ∀ f now, Forall only_elapse (exec f now).

Lemma op_ok B s o s' :
  wheel_ok B (at_check s) s → checkTime_ s ≤ 2 ^ 62 → clock s' ≤ 2 ^ 62 ∨ only_elapse o →
  run_op o s = Ok (tt, s') →
  wheel_ok B (at_check s') s' ∧ abs s' = s_op (abs s) o.
Proof.
  intros Hok Hc Hk Hr. destruct (clocks_run _ _ _ _ (λ k c, clocks_op k c o) Hr) as [Hm Hcs].
  rewrite Hcs. destruct o as [f i d n|id|ms]; simpl in Hr.
  - rewrite run_bind in Hr. destruct (register_timer f i d n s) as [[id s1]|] eqn:H1; [|done].
    injection Hr as ->. destruct (register_ok B s f i d n id s') as (? & ? & _); [done..| |done|done].
    destruct Hk as [|[? [=]]]. lia.
  - by eapply unregister_ok.
  - injection Hr as <-. split; [|done]. destruct Hok. split; try done. simpl. lia.
Qed.

(** The ids that are out of the wheels are due. *)
Definition busy_due (B : list Z) (c : Z) s : Prop :=
  ∀ id e, id ∈ B → timers s !! id = Some e → expires_ e ≤ c.

Lemma abs_lookup s id : s_timers (abs s) !! id = abs_entry <$> timers s !! id.
Proof. unfold abs. simpl. by rewrite lookup_fmap. Qed.

Lemma busy_due_op B c s o s' :
  wheel_ok B (at_check s) s → abs s' = s_op (abs s) o → busy_due B c s → busy_due B c s'.
Proof.
  intros Hok Ha Hb id e' Hid He'.
  assert (s_timers (s_op (abs s) o) !! id = Some (abs_entry e')) as Hx
    by by rewrite <-Ha, abs_lookup, He'.
  assert (∀ m : gmap Z timer, m !! id = Some (abs_entry e') → m = s_timers (abs s) →
    expires_ e' ≤ c) as Hold.
  { intros m Hm ->. rewrite abs_lookup in Hm. destruct (timers s !! id) as [e|] eqn:He; [|done].
    injection Hm as Hm. specialize (Hb id e Hid He). unfold abs_entry in Hm. congruence. }
  destruct o as [f i d n|id0|ms]; simpl in Hx.
  - apply lookup_insert_Some in Hx as [[<- _]|[_ Hx]]; [|by eapply Hold].
    apply (wo_busy _ _ _ Hok) in Hid. lia.
  - apply lookup_delete_Some in Hx as [_ Hx]. by eapply Hold.
  - by eapply Hold.
Qed.

Lemma ops_ok B c l : ∀ s s',
  wheel_ok B (at_check s) s → busy_due B c s → checkTime_ s ≤ 2 ^ 62 →
  clock s' ≤ 2 ^ 62 ∨ Forall only_elapse l →
  iterM run_op l s = Ok (tt, s') →
  wheel_ok B (at_check s') s' ∧ busy_due B c s' ∧ abs s' = foldl s_op (abs s) l.
Proof.
  induction l as [|o l IH]; intros s s' Hok Hb Hc Hk Hr; simpl in Hr; [by injection Hr as <-|].
  rewrite run_bind in Hr. destruct (run_op o s) as [[[] s1]|] eqn:H1; [|done].
  destruct (clocks_run _ _ _ _ (λ k c, clocks_ops k c l) Hr) as [Hk1 _].
  destruct (clocks_run _ _ _ _ (λ k c, clocks_op k c o) H1) as [_ Hc1].
  assert (clock s1 ≤ 2 ^ 62 ∨ only_elapse o) as Hk2
    by (destruct Hk as [|[? _]%Forall_cons]; [left; lia|by right]).
  assert (clock s' ≤ 2 ^ 62 ∨ Forall only_elapse l) as Hk3
    by (destruct Hk as [|[_ ?]%Forall_cons]; [by left|by right]).
  destruct (op_ok B s o s1) as [Hok1 Ha1]; [done..|].
  destruct (IH s1 s') as (? & ? & Ha); [done|exact (busy_due_op B c s o s1 Hok Ha1 Hb)|by rewrite Hc1|done|done|].
  split; [done|]. split; [done|]. simpl. by rewrite <-Ha1.
Qed.

(** ** Firing one timer *)

(** Rewriting a busy entry. *)
Lemma set_busy_ok B P s id e e' :
  wheel_ok B P s → id ∈ B → timers s !! id = Some e →
  0 ≤ expires_ e' < 2 ^ 62 + 2 ^ 33 → 0 ≤ interval_ e' < 2 ^ 32 →
  wheel_ok B P (with_timers (λ m, <[id := e']> m) s).
Proof.
  intros [Hlen Hnd Hin Hpl Hb Hen Ht] Hid He Hx Hi. split; simpl; try done.
  - intros k id' Hy. destruct (Hin _ _ Hy) as (HnB & e1 & He1 & Hk).
    assert (id ≠ id') by (by intros <-). rewrite lookup_insert_ne by done. eauto.
  - intros id' e1 [[<- <-]|[Hne He1]]%lookup_insert_Some HnB; [done|by apply Hpl].
  - intros id' e1 [[<- <-]|[Hne He1]]%lookup_insert_Some; [|by eapply Hen].
    destruct (Hen _ _ He) as (? & ? & ?). done.
Qed.

(** A timer that is out of the wheels: not in any slot. *)
Lemma busy_nowhere B P s id : wheel_ok B P s → id ∈ B → ∀ k, ¬ in_wheel (wheels_ s) k id.
Proof. intros Hok Hid k Hx. by destruct (wo_in _ _ _ Hok _ _ Hx) as [? _]. Qed.

(** What happens to the entry after its callback. *)
Definition rearm (id : Z) e : ST (WheelTimer F) unit :=
  if bool_decide (repeat_ e = 1) then modify (with_timers (delete id))
  else
    let r := if 0 <? repeat_ e then repeat_ e - 1 else repeat_ e in
    set_entry id (mkEntry (e_id e) (interval_ e) (u64 (expires_ e + interval_ e)) r
                    (func_ptr e) (wheelIndex_ e));;
    AddEntryToWheel id.

Lemma s_rearm_last e : repeat_ e = 1 → s_rearm (abs_entry e) = None.
Proof. intros Hr. unfold s_rearm. by rewrite bool_decide_true. Qed.
Lemma s_rearm_more e : repeat_ e ≠ 1 →
  s_rearm (abs_entry e) = Some (mkTimer (interval_ e) (expires_ e + interval_ e)
    (if 0 <? repeat_ e then repeat_ e - 1 else repeat_ e) (func_ptr e)).
Proof. intros Hr. unfold s_rearm. by rewrite bool_decide_false. Qed.

Lemma rearm_ok B s id e :
  wheel_ok (id :: B) (at_check s) s → timers s !! id = Some e →
  checkTime_ s ≤ 2 ^ 62 → expires_ e ≤ 2 ^ 62 →
  ∃ s', rearm id e s = Ok (tt, s') ∧ wheel_ok B (at_check s) s' ∧
    abs s' = mkService (partial_alter (λ o, o ≫= s_rearm) id (s_timers (abs s)))
      (checkTime_ s) (timerId_ s) (clock s) (fired s).
Proof.
  intros Hok He Hc Hx. destruct (wo_entry _ _ _ Hok _ _ He) as (_ & Hx' & Hi).
  assert ((abs_entry <$> timers s) !! id = Some (abs_entry e)) as Hae by by rewrite lookup_fmap, He.
  unfold rearm. case_bool_decide as Hr1.
  - eexists. split; [done|]. split.
    + eapply forget_ok; [|apply lookup_delete_eq]. apply delete_ok; [done|].
      eapply busy_nowhere; [done|left].
    + unfold abs. simpl. f_equal. rewrite fmap_delete. apply map_eq. intros j.
      destruct (decide (id = j)) as [<-|Hj].
      * rewrite lookup_delete_eq, lookup_partial_alter_eq, Hae. simpl. by rewrite s_rearm_last.
      * by rewrite lookup_delete_ne, lookup_partial_alter_ne.
  - cbv zeta. unfold set_entry. rewrite run_bind, run_modify. set (e1 := mkEntry _ _ _ _ _ _).
    assert (expires_ e1 = expires_ e + interval_ e) as Hx1
      by (simpl; apply uwrap_id; unfold in_u; lia).
    pose proof (set_busy_ok _ _ s id e e1 Hok ltac:(left) He ltac:(lia) Hi) as Hok1.
    set (s1 := with_timers _ s) in *.
    destruct (add_ok id B (at_check s) s1) as (s2 & H2 & Hok2 & Ha2); [done..| | |].
    { simpl. rewrite lookup_insert_eq. by eexists. }
    { intros x k. apply placed_low. simpl. lia. }
    exists s2. split; [done|]. split; [done|]. rewrite Ha2. unfold abs. simpl. f_equal.
    rewrite fmap_insert. apply map_eq. intros j. destruct (decide (id = j)) as [<-|Hj].
    + rewrite lookup_insert_eq, lookup_partial_alter_eq, Hae. simpl. rewrite s_rearm_more by done.
      unfold abs_entry. by rewrite Hx1.
    + by rewrite lookup_insert_ne, lookup_partial_alter_ne.
Qed.

(** The clock stays below 2^62 ms, or the callbacks leave the timer alone. *)
Definition in_time s' : Prop := clock s' ≤ 2 ^ 62 ∨ quiet_callbacks.
Lemma in_time_le s1 s2 : clock s1 ≤ clock s2 → in_time s2 → in_time s1.
Proof. intros Hk [?|?]; [left; lia|by right]. Qed.

Definition log_fired (id tk : Z) s : WheelTimer F :=
  mkWheel (timers s) (wheels_ s) (checkTime_ s) (timerId_ s) (clock s) (fired s ++ [(id, tk)]).

Lemma fire_run now tk id s :
  fire exec now tk id s =
  match timers s !! id with
  | None => Ub UB_UseAfterFree
  | Some e =>
      match iterM run_op (exec (func_ptr e) now)
              (log_fired id tk (with_timers (λ m, <[id := set_wheelIndex (-1) e]> m) s)) with
      | Ub u => Ub u
      | Ok (_, s2) =>
          match timers s2 !! id with
          | None => Ub UB_UseAfterFree
          | Some e' => rearm id e' s2
          end
      end
  end.
Proof.
  unfold fire, deref. rewrite run_bind. destruct (timers s !! id) as [e|]; [|done].
  unfold set_entry. rewrite run_bind, run_modify, run_bind, run_modify, run_bind.
  fold (log_fired id tk (with_timers (λ m, <[id := set_wheelIndex (-1) e]> m) s)).
  destruct (iterM _ _ _) as [[[] s2]|u]; [|done].
  rewrite run_bind. by destruct (timers s2 !! id).
Qed.

Lemma busy_due_sub B B' c s : (∀ id, id ∈ B → id ∈ B') → busy_due B' c s → busy_due B c s.
Proof. unfold busy_due. naive_solver. Qed.

Lemma fire_ok B now tk id s s' :
  wheel_ok (id :: B) (at_check s) s → busy_due (id :: B) tk s → tk ≤ 2 ^ 62 →
  checkTime_ s ≤ 2 ^ 62 → fire exec now tk id s = Ok (tt, s') → in_time s' →
  wheel_ok B (at_check s') s' ∧ busy_due B tk s' ∧ abs s' = s_fire exec now tk (abs s) id.
Proof.
  intros Hok Hb Htk Hc Hr Hk. rewrite fire_run in Hr.
  destruct (timers s !! id) as [e|] eqn:He; [|done].
  set (s1 := log_fired id tk _) in Hr.
  destruct (iterM run_op _ s1) as [[[] s2]|] eqn:Hops; [|done].
  destruct (timers s2 !! id) as [e'|] eqn:He'; [|done].
  destruct (wo_entry _ _ _ Hok _ _ He) as (_ & Hx & Hi).
  assert (wheel_ok (id :: B) (at_check s1) s1) as Hok1.
  { pose proof (set_busy_ok _ _ s id e (set_wheelIndex (-1) e) Hok ltac:(left) He Hx Hi) as [].
    split; done. }
  assert (abs s1 = mkService (s_timers (abs s)) (checkTime_ s) (timerId_ s) (clock s)
            (fired s ++ [(id, tk)])) as Ha1.
  { unfold abs. simpl. f_equal. rewrite fmap_insert. apply insert_id. by rewrite lookup_fmap, He. }
  assert (busy_due (id :: B) tk s1) as Hb1.
  { intros j e1 Hj He1. unfold s1 in He1. simpl in He1.
    apply lookup_insert_Some in He1 as [[<- <-]|[Hne He1]]; [by apply (Hb id e)|by apply (Hb j)]. }
  destruct (clocks_run _ _ _ _ (λ k c, clocks_ops k c _) Hops) as [_ Hc2].
  assert (clock s2 ≤ clock s') as Hk2.
  { revert Hr. unfold rearm. case_bool_decide; [by intros [= <-]|]. cbv zeta. intros Hr.
    unfold set_entry in Hr. rewrite run_bind, run_modify in Hr.
    by destruct (clocks_run _ _ _ _ (λ k c, clocks_add k c id) Hr) as [? _]. }
  destruct (ops_ok (id :: B) tk (exec (func_ptr e) now) s1 s2 Hok1 Hb1)
    as (Hok2 & Hb2 & Ha2); [done|destruct Hk as [|Hq]; [left; lia|right; apply Hq]|done|].
  assert (expires_ e' ≤ 2 ^ 62) as Hx' by (specialize (Hb2 id e' ltac:(left) He'); lia).
  destruct (rearm_ok B s2 id e' Hok2 He') as (s3 & H3 & Hok3 & Ha3);
    [by rewrite Hc2|done|]. rewrite H3 in Hr. injection Hr as ->.
  assert (checkTime_ s' = checkTime_ s2) as Hc3 by (unfold abs in Ha3; congruence).
  split; [by rewrite Hc3|]. split.
  - intros j e1 Hj He1. assert (j ≠ id).
    { intros ->. destruct (wo_busy _ _ _ Hok) as [[]%NoDup_cons _]. done. }
    assert (s_timers (abs s') !! j = s_timers (abs s2) !! j) as Hj2
      by (rewrite Ha3; simpl; by rewrite lookup_partial_alter_ne).
    rewrite !abs_lookup, He1 in Hj2. destruct (timers s2 !! j) as [e2|] eqn:He2; [|done].
    injection Hj2 as Hj2. specialize (Hb2 j e2 ltac:(by right) He2).
    unfold abs_entry in Hj2. congruence.
  - rewrite Ha3. unfold s_fire. rewrite abs_lookup, He. simpl. change (s_timers (abs s)) with
      (abs_entry <$> timers s) in Ha1. simpl in Ha1. rewrite <-Ha1. by rewrite <-Ha2.
Qed.

Lemma fires_ok now tk l : ∀ s s',
  wheel_ok l (at_check s) s → busy_due l tk s → tk ≤ 2 ^ 62 →
  checkTime_ s ≤ 2 ^ 62 → iterM (fire exec now tk) l s = Ok (tt, s') → in_time s' →
  wheel_ok [] (at_check s') s' ∧ abs s' = foldl (s_fire exec now tk) (abs s) l.
Proof.
  induction l as [|id l IH]; intros s s' Hok Hb Htk Hc Hr Hk; simpl in Hr; [by injection Hr as <-|].
  rewrite run_bind in Hr. destruct (fire exec now tk id s) as [[[] s1]|] eqn:H1; [|done].
  assert (clock s1 ≤ clock s') as Hk1.
  { apply (clocks_run (iterM (fire exec now tk) l)) with (2 := Hr). intros k c.
    apply pres_iterM. intros. apply clocks_fire. }
  destruct (clocks_run _ _ _ _ (λ k c, clocks_fire exec k c now tk id) H1) as [_ Hc1].
  destruct (fire_ok l now tk id s s1 Hok Hb) as (Hok1 & Hb1 & Ha1);
    [done..|by eapply in_time_le|].
  destruct (IH s1 s') as [? Ha]; [done..|by rewrite Hc1|done|done|].
  split; [done|]. simpl. by rewrite <-Ha1.
Qed.

(** ** Ticks *)

(** The list of the current slot, once nothing is left to move, is what is due. *)
Lemma slot_due s l :
  wheel_ok [] (fresh (checkTime_ s)) s →
  wheels_ s !! Z.to_nat (checkTime_ s mod 256) = Some l → due (abs s) l.
Proof.
  intros Hok Hl. split; [by eapply wo_nodup|]. intros id. rewrite abs_lookup.
  pose proof (Z.mod_pos_bound (checkTime_ s) 256 ltac:(lia)) as Hm. split.
  - intros Hid. destruct (wo_in _ _ _ Hok (Z.to_nat (checkTime_ s mod 256)) id) as (_ & e & He & Hk);
      [by exists l|]. exists (abs_entry e). rewrite He. split; [done|].
    destruct (wo_placed _ _ _ Hok _ _ He) as (Hp & Hr & _); [by apply not_elem_of_nil|].
    apply (fresh_due _ _ _ Hp). lia.
  - intros (t & Ht & Hx). destruct (timers s !! id) as [e|] eqn:He; [|done].
    injection Ht as <-. simpl in Hx.
    destruct (wo_placed _ _ _ Hok _ _ He) as (Hp & Hr & l' & Hl' & Hid); [by apply not_elem_of_nil|].
    apply (fresh_due _ _ _ Hp) in Hx. rewrite Hx in Hl'. by simplify_eq.
Qed.

(** A tick up to the loop over the due timers. *)
Lemma tick_run now s :
  wheel_ok [] (at_check s) s → checkTime_ s < 2 ^ 62 →
  ∃ l s3, tick exec now s = iterM (fire exec now (checkTime_ s)) l s3 ∧ due (abs s) l ∧
    wheel_ok l (at_check s3) s3 ∧ busy_due l (checkTime_ s) s3 ∧
    (∀ id, id ∈ l → is_Some (timers s3 !! id)) ∧
    abs s3 = mkService (s_timers (abs s)) (checkTime_ s + 1) (timerId_ s) (clock s) (fired s).
Proof.
  intros Hok Hc. set (c := checkTime_ s) in *.
  destruct (cascades_ok [] s Hok ltac:(lia)) as (s1 & H1 & Hok1 & Ha1). fold c in Hok1, H1.
  pose proof (abs_check _ _ Ha1) as Hc1. fold c in Hc1.
  pose proof (Z.mod_pos_bound c 256 ltac:(lia)) as Hm.
  destruct (wo_time _ _ _ Hok) as [Hc0 _]. fold c in Hc0.
  assert (u64 (c + 1) = c + 1) as Hcc by (apply uwrap_id; unfold in_u; lia).
  destruct (wheel_ok_wheel [] _ s1 (c mod 256) Hok1 ltac:(lia)) as [l Hl].
  destruct (take_ok [] _ s1 (Z.to_nat (c mod 256)) l Hok1 ltac:(lia) Hl) as [Hok3 Hin].
  rewrite app_nil_r in Hok3.
  set (s2 := mkWheel (timers s1) (wheels_ s1) (c + 1) (timerId_ s1) (clock s1) (fired s1)).
  set (s3 := with_wheels (λ ws, <[Z.to_nat (c mod 256) := []]> ws) s2).
  assert (due (abs s) l) as Hdue by (rewrite <-Ha1; apply slot_due; rewrite Hc1; done).
  exists l, s3. split_and!; try done.
  - unfold tick. rewrite run_bind, run_gets. cbv zeta. fold c.
    rewrite run_bind, H1, run_bind, run_modify, land_255, Hc1, Hcc. fold s2.
    rewrite run_bind, (wheel_at_run _ l s2 Hl), run_bind. unfold set_wheel. by rewrite run_modify.
  - apply (wheel_ok_mono _ _ (placed (c + 1) (c + 1))) in Hok3.
    + pose proof (wo_time _ _ _ Hok1) as [_ Hk1]. destruct Hok3. split; try done.
      simpl. split; [lia|done].
    + intros x k [Hf Hne]. apply fresh_next; [done|]. by intros ->.
  - intros id e Hid He. destruct Hdue as [_ Hd]. apply Hd in Hid as (t & Ht & Hx).
    rewrite <-Ha1, abs_lookup in Ht. simpl in He. rewrite He in Ht. by injection Ht as <-.
  - rewrite <-Ha1. change (timerId_ s) with (s_id (abs s)). change (clock s) with (s_clock (abs s)).
    change (fired s) with (s_fired (abs s)). by rewrite <-Ha1.
Qed.

Lemma tick_ok now s s' :
  wheel_ok [] (at_check s) s → checkTime_ s < 2 ^ 62 →
  tick exec now s = Ok (tt, s') → in_time s' →
  ∃ l, due (abs s) l ∧ abs s' = s_tick exec now l (abs s) ∧ wheel_ok [] (at_check s') s'.
Proof.
  intros Hok Hc Hr Hk. destruct (tick_run now s Hok Hc) as (l & s3 & Ht & Hd & Hok3 & Hb & _ & Ha3).
  rewrite Ht in Hr. assert (checkTime_ s3 = checkTime_ s + 1) as Hc3 by (unfold abs in Ha3; congruence).
  destruct (fires_ok now (checkTime_ s) l s3 s') as [Hok' Ha']; [done..|lia|lia|done|done|].
  exists l. split; [done|]. split; [|done]. rewrite Ha', Ha3. done.
Qed.

Lemma clocks_tick now s s' : tick exec now s = Ok (tt, s') → clock s ≤ clock s'.
Proof.
  intros Hr. unfold tick in Hr. rewrite run_bind, run_gets in Hr. cbv zeta in Hr.
  rewrite run_bind in Hr. destruct (cascades _ s) as [[[] s1]|] eqn:H1; [|done].
  assert (clock s ≤ clock s1) as Hk1.
  { apply (clocks_run (cascades (checkTime_ s))) with (2 := H1). intros k c.
    unfold cascades, Cascade, set_wheel. solve_pres; try apply clocks_wheel_at;
      try apply clocks_add; apply clocks_modify; intros; simpl; (done || lia). }
  rewrite run_bind, run_modify in Hr. set (s2 := mkWheel _ _ _ _ _ _) in Hr.
  assert (clock s2 ≤ clock s'); [|simpl in *; lia].
  revert Hr. match goal with |- ?m s2 = _ → _ => intros Hr; apply (clocks_run m) with (2 := Hr) end.
  intros k c. unfold set_wheel. solve_pres; try apply clocks_wheel_at;
    try apply clocks_fire; apply clocks_modify; intros; simpl; (done || lia).
Qed.

Lemma detect_loop_ok fuel now : ∀ s s',
  wheel_ok [] (at_check s) s → now < 2 ^ 62 →
  detect_loop exec fuel now s = Ok (tt, s') → in_time s' →
  s_detect exec now (abs s) (abs s') ∧ wheel_ok [] (at_check s') s' ∧ now < checkTime_ s'.
Proof.
  induction fuel as [|fuel IH]; intros s s' Hok Hnow Hr Hk; simpl in Hr;
    rewrite run_bind, run_gets in Hr; destruct (Z.leb_spec (checkTime_ s) now) as [Hle|Hgt];
    try done; try by (injection Hr as <-; split; [by apply detect_done|]).
  rewrite run_bind in Hr. destruct (tick exec now s) as [[[] s1]|] eqn:H1; [|done].
  assert (clock s1 ≤ clock s') as Hk1.
  { clear -Hr. revert s1 Hr. induction fuel as [|fuel IH]; intros s1 Hr; simpl in Hr;
      rewrite run_bind, run_gets in Hr; destruct (_ <=? _); try done; try by injection Hr as <-.
    rewrite run_bind in Hr. destruct (tick exec now s1) as [[[] s2]|] eqn:H2; [|done].
    pose proof (clocks_tick _ _ _ H2). pose proof (IH s2 Hr). lia. }
  destruct (tick_ok now s s1) as (l & Hd & Ha1 & Hok1);
    [done|lia|done|by eapply in_time_le|].
  destruct (IH s1 s' Hok1 Hnow Hr Hk) as (Hs & Hok' & Hc').
  split; [|done]. eapply detect_tick; [done|exact Hd|]. by rewrite <-Ha1.
Qed.

(** ** Termination *)

Lemma quiet_ops l : Forall only_elapse l → ∀ s,
  ∃ k, iterM run_op l s =
       Ok (tt, mkWheel (timers s) (wheels_ s) (checkTime_ s) (timerId_ s) k (fired s)).
Proof.
  induction 1 as [|o l [ms ->] _ IH]; intros s; simpl.
  - exists (clock s). by destruct s.
  - rewrite run_bind. unfold run_op at 1. rewrite run_modify.
    destruct (IH (mkWheel (timers s) (wheels_ s) (checkTime_ s) (timerId_ s)
                   (clock s + Z.of_N ms) (fired s))) as [k Hk]. by exists k.
Qed.

(** An entry that is added again: AddEntryToWheel always finds its slot. *)
Lemma rearm_total s id e :
  length (wheels_ s) = 512%nat → 0 ≤ checkTime_ s ≤ 2 ^ 62 →
  ∃ s', rearm id e s = Ok (tt, s').
Proof.
  intros Hlen Hc. unfold rearm. case_bool_decide; [by eexists|]. cbv zeta. unfold set_entry.
  rewrite run_bind, run_modify. set (e1 := mkEntry _ _ _ _ _ _). set (s1 := with_timers _ s).
  assert (timers s1 !! id = Some e1) as He by apply lookup_insert_eq.
  pose proof (wheel_slot_range (checkTime_ s1) (expires_ e1)) as Hr.
  destruct (lookup_lt_is_Some_2 (wheels_ s1) (Z.to_nat (wheel_slot (checkTime_ s1) (expires_ e1))))
    as [l Hl]; [change (wheels_ s1) with (wheels_ s); lia|].
  eexists. by apply (add_run id e1 l s1).
Qed.

Lemma quiet_timers l : Forall only_elapse l → ∀ a, s_timers (foldl s_op a l) = s_timers a.
Proof. induction 1 as [|o l [ms ->] _ IH]; intros a; simpl; [done|]. by rewrite IH. Qed.

Lemma quiet_fire B now tk id s :
  quiet_callbacks → wheel_ok (id :: B) (at_check s) s → busy_due (id :: B) tk s →
  is_Some (timers s !! id) → tk ≤ 2 ^ 62 → checkTime_ s ≤ 2 ^ 62 →
  ∃ s', fire exec now tk id s = Ok (tt, s') ∧
    ∀ j, j ∈ B → is_Some (timers s !! j) → is_Some (timers s' !! j).
Proof.
  intros Hq Hok Hb [e He] Htk Hc.
  assert (∃ s', fire exec now tk id s = Ok (tt, s')) as [s' Hr].
  { rewrite fire_run, He. set (s1 := log_fired id tk _).
    destruct (quiet_ops _ (Hq (func_ptr e) now) s1) as [k ->]. simpl. rewrite lookup_insert_eq.
    apply rearm_total; [apply (wo_len _ _ _ Hok)|]. pose proof (wo_time _ _ _ Hok). simpl. lia. }
  exists s'. split; [done|]. intros j Hj [e1 He1].
  destruct (fire_ok B now tk id s s') as (_ & _ & Ha); [done..|by right|].
  assert (s_timers (abs s') !! j = Some (abs_entry e1)) as Hx.
  { rewrite Ha. unfold s_fire. rewrite abs_lookup, He. simpl.
    rewrite lookup_partial_alter_ne.
    - rewrite quiet_timers by apply Hq. simpl. by rewrite lookup_fmap, He1.
    - intros ->. by destruct (wo_busy _ _ _ Hok) as [[Hn _]%NoDup_cons _]. }
  rewrite abs_lookup in Hx. destruct (timers s' !! j); [by eexists|done].
Qed.

Lemma quiet_fires now tk l : ∀ s,
  quiet_callbacks → wheel_ok l (at_check s) s → busy_due l tk s →
  (∀ id, id ∈ l → is_Some (timers s !! id)) → tk ≤ 2 ^ 62 → checkTime_ s ≤ 2 ^ 62 →
  ∃ s', iterM (fire exec now tk) l s = Ok (tt, s').
Proof.
  induction l as [|id l IH]; intros s Hq Hok Hb Hl Htk Hc; simpl; [by eexists|].
  destruct (quiet_fire l now tk id s) as (s1 & H1 & Hp); [done..|apply Hl; left|done|done|].
  destruct (fire_ok l now tk id s s1) as (Hok1 & Hb1 & _); [done..|by right|].
  destruct (clocks_run _ _ _ _ (λ k c, clocks_fire exec k c now tk id) H1) as [_ Hc1].
  destruct (IH s1) as [s' Hs']; [done..| |done|by rewrite Hc1|].
  { intros j Hj. apply Hp; [done|]. apply Hl. by right. }
  exists s'. by rewrite run_bind, H1.
Qed.

Lemma tick_total now s :
  quiet_callbacks → wheel_ok [] (at_check s) s → checkTime_ s < 2 ^ 62 →
  ∃ s', tick exec now s = Ok (tt, s') ∧ wheel_ok [] (at_check s') s' ∧
        checkTime_ s' = checkTime_ s + 1.
Proof.
  intros Hq Hok Hc. destruct (tick_run now s Hok Hc) as (l & s3 & Ht & Hd & Hok3 & Hb & Hp & Ha3).
  assert (checkTime_ s3 = checkTime_ s + 1) as Hc3 by (unfold abs in Ha3; congruence).
  destruct (quiet_fires now (checkTime_ s) l s3) as [s' Hs']; [done..|lia|lia|].
  destruct (fires_ok now (checkTime_ s) l s3 s') as [Hok' _]; [done..|lia|lia|done|by right|].
  exists s'. rewrite Ht. split; [done|]. split; [done|]. rewrite <-Hc3.
  apply (clocks_run (iterM (fire exec now (checkTime_ s)) l) s3 tt s'); [|done]. intros k c.
  apply pres_iterM. intros. apply clocks_fire.
Qed.

Lemma detect_loop_total now n : ∀ s,
  quiet_callbacks → wheel_ok [] (at_check s) s → now < 2 ^ 62 →
  n = Z.to_nat (now + 1 - checkTime_ s) →
  ∃ s', detect_loop exec n now s = Ok (tt, s').
Proof.
  induction n as [|n IH]; intros s Hq Hok Hnow Hn; simpl; rewrite run_bind, run_gets;
    destruct (Z.leb_spec (checkTime_ s) now) as [Hle|]; try (by eexists); try lia.
  destruct (tick_total now s) as (s1 & H1 & Hok1 & Hc1); [done..|lia|].
  destruct (IH s1) as [s' Hs']; [done..|lia|]. exists s'. by rewrite run_bind, H1.
Qed.
End refine.

(** ** The theorems *)

(** A wheel whose slots are right: the invariant between calls. *)
Definition wheel_inv {F} (s : WheelTimer F) : Prop :=
  wheel_ok [] (placed (checkTime_ s) (checkTime_ s)) s.

Lemma new_wheel_inv {F} now : 0 ≤ now → wheel_inv (new_wheel (F:=F) now).
Proof.
  intros Hn. split.
  - reflexivity.
  - intros k l Hl. apply lookup_replicate in Hl as [-> _]. constructor.
  - intros k id (l & Hl & Hid). apply lookup_replicate in Hl as [-> _]. by apply elem_of_nil in Hid.
  - done.
  - split; [constructor|]. by intros id Hid%elem_of_nil.
  - done.
  - done.
Qed.

(** Wheels for concrete runs: the operations [l] on a wheel started at 0. *)
Definition no_callback : unit → Z → list (top unit) := λ _ _, [].
Definition wheel_after (l : list (top unit)) : WheelTimer unit :=
  match iterM run_op l (new_wheel 0) with Ok (_, s) => s | Ub _ => new_wheel 0 end.

Lemma wheel_after_inv l : clock (wheel_after l) ≤ 2 ^ 62 → wheel_inv (wheel_after l).
Proof.
  unfold wheel_after. destruct (iterM run_op l (new_wheel 0)) as [[[] s]|] eqn:Hr; intros Hk.
  - assert (busy_due [] 0 (new_wheel (F:=unit) 0)) as Hb by (intros id e Hid; by apply elem_of_nil in Hid).
    destruct (ops_ok [] 0 l (new_wheel 0) s (new_wheel_inv 0 ltac:(lia)) Hb) as [Hok _];
      [done|by left|done|exact Hok].
  - by apply new_wheel_inv.
Qed.

(** A timer of period 10 that fires three times, 35 ms after its registration. *)
Definition demo : WheelTimer unit := wheel_after [Register tt 10 0 3; Elapse 35].

Example demo_fired :
  (λ r, fired r.2) <$> DetectTimers no_callback demo = Ok [(1, 10); (1, 20); (1, 30)].
Proof. vm_compute. reflexivity. Qed.

(** A tick of the hierarchical wheel is a tick of the plain timer map: it
    fires, once each, exactly the timers whose expiry is at most the check
    time, never one early and none late, whatever the callbacks do with the
    timer, as long as they do not run into undefined behaviour; all slots are
    right again afterwards. *)
Theorem tick_refines {F} (exec : F → Z → list (top F)) now s s' :
  wheel_inv s → checkTime_ s < 2 ^ 62 → clock s' ≤ 2 ^ 62 →
  tick exec now s = Ok (tt, s') →
  ∃ l, due (abs s) l ∧ abs s' = s_tick exec now l (abs s) ∧ wheel_inv s'.
Proof. intros Hi Hc Hk Hr. by apply (tick_ok exec now s s' Hi Hc Hr); left. Qed.

Lemma tick_refines_witness :
  ∃ s' l, tick no_callback 35 demo = Ok (tt, s') ∧ due (abs demo) l ∧
    abs s' = s_tick no_callback 35 l (abs demo) ∧ wheel_inv s'.
Proof.
  destruct (tick no_callback 35 demo) as [[[] s']|] eqn:Hr; [|vm_compute in Hr; discriminate Hr].
  exists s'. destruct (tick_refines no_callback 35 demo s') as (l & Hl).
  - apply wheel_after_inv. vm_compute. discriminate.
  - vm_compute. reflexivity.
  - vm_compute in Hr. injection Hr as <-. vm_compute. discriminate.
  - exact Hr.
  - exists l. split; [reflexivity|exact Hl].
Defined.

(** C3. DetectTimers, run with the time that passed as its fuel, simulates the
    service: tick by tick up to the current time it fires exactly what is due,
    and it stops with the check time past the current time. *)
Theorem DetectTimers_refines {F} (exec : F → Z → list (top F)) s s' :
  wheel_inv s → clock s < 2 ^ 62 → clock s' ≤ 2 ^ 62 →
  DetectTimers exec s = Ok (tt, s') →
  s_detect exec (clock s) (abs s) (abs s') ∧ wheel_inv s' ∧ clock s < checkTime_ s'.
Proof.
  intros Hi Hc Hk Hr. unfold DetectTimers in Hr. rewrite run_bind, run_gets, run_bind, run_gets in Hr.
  by apply (detect_loop_ok exec _ _ _ _ Hi Hc Hr); left.
Qed.

Lemma DetectTimers_refines_witness :
  ∃ s', DetectTimers no_callback demo = Ok (tt, s') ∧
    s_detect no_callback 35 (abs demo) (abs s') ∧ wheel_inv s' ∧ 35 < checkTime_ s'.
Proof.
  destruct (DetectTimers no_callback demo) as [[[] s']|] eqn:Hr; [|vm_compute in Hr; discriminate Hr].
  exists s'. split; [reflexivity|].
  apply (DetectTimers_refines no_callback demo s').
  - apply wheel_after_inv. vm_compute. discriminate.
  - vm_compute. reflexivity.
  - vm_compute in Hr. injection Hr as <-. vm_compute. discriminate.
  - exact Hr.
Defined.

(** C22. DetectTimers always comes back: with callbacks that leave the timer
    alone it runs no undefined operation and its loop ends after one iteration
    for each millisecond since the last check. *)
Theorem DetectTimers_total {F} (exec : F → Z → list (top F)) s :
  quiet_callbacks exec → wheel_inv s → clock s < 2 ^ 62 →
  ∃ s', DetectTimers exec s = Ok (tt, s') ∧ wheel_inv s' ∧ clock s < checkTime_ s' ∧
        s_detect exec (clock s) (abs s) (abs s').
Proof.
  intros Hq Hi Hc. unfold DetectTimers. rewrite run_bind, run_gets, run_bind, run_gets.
  destruct (detect_loop_total exec (clock s) _ s Hq Hi Hc eq_refl) as [s' Hr].
  exists s'. destruct (detect_loop_ok exec _ _ _ _ Hi Hc Hr) as (? & ? & ?); [by right|done].
Qed.

Lemma DetectTimers_total_witness :
  ∃ s', DetectTimers no_callback demo = Ok (tt, s') ∧ wheel_inv s' ∧ clock demo < checkTime_ s' ∧
        s_detect no_callback (clock demo) (abs demo) (abs s').
Proof.
  apply (DetectTimers_total no_callback demo).
  - intros f now. constructor.
  - apply wheel_after_inv. vm_compute. discriminate.
  - vm_compute. reflexivity.
Defined.

(** Outside a tick, unregistering is always defined and removes exactly
    the given timer, which never fires again. *)
Theorem unregister_removes {F} (s : WheelTimer F) id :
  wheel_inv s →
  ∃ s', unregister_timer id s = Ok (tt, s') ∧ wheel_inv s' ∧
        abs s' = s_unregister id (abs s) ∧ ∀ l, due (abs s') l → id ∉ l.
Proof.
  intros Hi. assert (∃ s', unregister_timer id s = Ok (tt, s')) as [s' Hr].
  { unfold unregister_timer. rewrite run_bind, run_gets.
    destruct (timers s !! id) as [e|] eqn:He; [|by eexists].
    destruct (wo_placed _ _ _ Hi id e He) as (_ & Hr & l & Hl & Hid); [by apply not_elem_of_nil|].
    rewrite bool_decide_true by lia. rewrite run_bind, run_bind, (wheel_at_run _ l s Hl).
    rewrite decide_True by done. by eexists. }
  destruct (unregister_ok _ _ _ _ _ Hi Hr) as [Hok Ha]. exists s'. split; [done|].
  assert (wheel_inv s') as Hi'.
  { unfold wheel_inv. change (checkTime_ s') with (s_check (abs s')). by rewrite Ha. }
  split; [done|]. split; [done|]. intros l [_ Hl] Hid. apply Hl in Hid as (t & Ht & _).
  rewrite Ha in Ht. simpl in Ht. by rewrite lookup_delete_eq in Ht.
Qed.

Lemma unregister_removes_witness :
  ∃ s', unregister_timer 1 demo = Ok (tt, s') ∧ wheel_inv s' ∧
        abs s' = s_unregister 1 (abs demo) ∧ ∀ l, due (abs s') l → 1 ∉ l.
Proof. apply (unregister_removes demo 1), wheel_after_inv. vm_compute. discriminate. Defined.

(** Registering a timer adds exactly that timer, under a new id, due after
    the delay (the interval when the delay is zero), until the ids run out. *)
Theorem register_adds {F} (s : WheelTimer F) f interval delay times :
  wheel_inv s → checkTime_ s ≤ 2 ^ 62 → clock s ≤ 2 ^ 62 → timerId_ s ≠ 2 ^ 31 - 1 →
  ∃ s', register_timer f interval delay times s = Ok (timerId_ s + 1, s') ∧ wheel_inv s' ∧
        timers s !! (timerId_ s + 1) = None ∧
        abs s' = s_register f interval delay times (abs s).
Proof.
  intros Hi Hc Hk Hid.
  assert (∃ id s', register_timer f interval delay times s = Ok (id, s')) as (id & s' & Hr).
  { unfold register_timer. rewrite run_bind, run_gets, bool_decide_false by done.
    rewrite run_bind, run_modify, run_bind, run_gets. cbv zeta. unfold set_entry.
    rewrite run_bind, run_modify, run_bind. set (e := mkEntry _ _ _ _ _ _). set (s1 := with_timers _ _).
    pose proof (wheel_slot_range (checkTime_ s1) (expires_ e)) as Hr.
    destruct (lookup_lt_is_Some_2 (wheels_ s1) (Z.to_nat (wheel_slot (checkTime_ s1) (expires_ e))))
      as [l Hl]; [change (wheels_ s1) with (wheels_ s); rewrite (wo_len _ _ _ Hi); lia|].
    rewrite (add_run _ e l s1); [by eexists _, _|apply lookup_insert_eq|exact Hl]. }
  destruct (register_ok [] s f interval delay times id s' Hi Hc Hk Hr) as (Hok & Ha & ->).
  exists s'. split; [done|]. split_and!; [|by eapply (new_entry_ok [] _ s (mkEntry 0 0 0 0 f 0)); [exact Hi|simpl; lia..]|done].
  unfold wheel_inv. change (checkTime_ s') with (s_check (abs s')). by rewrite Ha.
Qed.

Lemma register_adds_witness :
  ∃ s', register_timer tt 100 5 0 demo = Ok (2, s') ∧ wheel_inv s' ∧ timers demo !! 2 = None ∧
        abs s' = s_register tt 100 5 0 (abs demo).
Proof.
  apply (register_adds demo tt 100 5 0).
  - apply wheel_after_inv. vm_compute. discriminate.
  - vm_compute. discriminate.
  - vm_compute. discriminate.
  - vm_compute. discriminate.
Defined.

(** A timer must not cancel itself from its callback: unregister_timer
    erases the entry the loop still holds a pointer to, and the next access is
    to freed memory. *)
Theorem self_cancel_use_after_free {F} (exec : F → Z → list (top F)) now s id e :
  wheel_inv s → checkTime_ s < 2 ^ 62 → due (abs s) [id] → timers s !! id = Some e →
  exec (func_ptr e) now = [Unregister id] →
  tick exec now s = Ub UB_UseAfterFree.
Proof.
  intros Hi Hc Hd He Hx. destruct (tick_run exec now s Hi Hc) as (l & s3 & Ht & Hd3 & _ & _ & _ & Ha3).
  assert (l = [id]) as ->.
  { apply Permutation_singleton_r. destruct Hd as [_ Hd], Hd3 as [Hn3 Hd3].
    apply NoDup_Permutation; [done|apply NoDup_singleton|]. intros x. by rewrite Hd, Hd3. }
  rewrite Ht. simpl. rewrite run_bind, fire_run.
  assert (abs_entry <$> timers s3 !! id = Some (abs_entry e)) as He3.
  { rewrite <-abs_lookup, Ha3. simpl. by rewrite lookup_fmap, He. }
  destruct (timers s3 !! id) as [e3|] eqn:He3'; [|done]. injection He3 as He3.
  assert (func_ptr e3 = func_ptr e) as -> by (unfold abs_entry in He3; congruence).
  rewrite Hx. simpl. rewrite run_bind. unfold unregister_timer. rewrite run_bind, run_gets. simpl.
  rewrite lookup_insert_eq. simpl. by rewrite lookup_delete_eq.
Qed.

Lemma self_cancel_use_after_free_witness :
  tick (λ _ _, [Unregister 1]) 0 (wheel_after [Register tt 0 0 1]) = Ub UB_UseAfterFree.
Proof.
  apply (self_cancel_use_after_free (λ _ _, [Unregister 1]) 0 (wheel_after [Register tt 0 0 1]) 1
    (mkEntry 1 0 0 1 tt 0)).
  - apply wheel_after_inv. vm_compute. discriminate.
  - vm_compute. reflexivity.
  - split; [apply NoDup_singleton|]. intros id. rewrite list_elem_of_singleton.
    change (s_timers _) with ({[1 := mkTimer 0 0 1 tt]} : gmap Z (timer (F:=unit))). split.
    + intros ->. exists (mkTimer 0 0 1 tt). split; [apply lookup_singleton_eq|vm_compute; discriminate].
    + intros (t & Ht & _). by apply lookup_singleton_Some in Ht as [<- _].
  - reflexivity.
  - reflexivity.
Defined.
