(* ===== verification/MsgQueue.v ===== *)
(** * The message queue of the navigation client

    src/lib_app/robot_schedule/socket/msgqueue.cpp: a singly linked queue with
    a front and a rear pointer.  enqueue and dequeue each take a lock of their
    own, so they are given as sequences of atomic steps that two threads can
    interleave; run alone they are the operations of a list. *)

From S2P Require Import Prelude.
#[local] Open Scope Z_scope.

Record MSG_STRUCT := mkMsg { msg_id : Z; msg_type : Z; msg_data : list Z }.
Definition NULL_TYPE : Z := 6.

Abbreviation ptr := positive (only parsing).
Record QUEUE_NODE := mkNode { node : MSG_STRUCT; next : option ptr }.

(** The queue and the allocator's heap; nodes are never freed. *)
Record MSGQUEUE := mkQueue {
  nodes : gmap ptr QUEUE_NODE;
  front : option ptr;
  rear : option ptr;
  brk : ptr }.

Definition init_queue (q : MSGQUEUE) : MSGQUEUE := mkQueue (nodes q) None None (brk q).
Definition queue_empty (q : MSGQUEUE) : bool :=
  bool_decide (front q = None) && bool_decide (rear q = None).

(** p->next = v *)
Definition set_next (p : option ptr) (v : option ptr) (q : MSGQUEUE) : res MSGQUEUE :=
  match p with
  | None => Ub UB_NullDeref
  | Some a =>
      match nodes q !! a with
      | None => Ub UB_UseAfterFree
      | Some n => Ok (mkQueue (<[a := mkNode (node n) v]> (nodes q)) (front q) (rear q) (brk q))
      end
  end.
Definition load (p : option ptr) (q : MSGQUEUE) : res QUEUE_NODE :=
  match p with
  | None => Ub UB_NullDeref
  | Some a => match nodes q !! a with None => Ub UB_UseAfterFree | Some n => Ok n end
  end.
Definition with_front (f : option ptr) (q : MSGQUEUE) : MSGQUEUE := mkQueue (nodes q) f (rear q) (brk q).
Definition with_rear (r : option ptr) (q : MSGQUEUE) : MSGQUEUE := mkQueue (nodes q) (front q) r (brk q).

(** ** enqueue, step by step; [malloc_ok] is what malloc says *)
Inductive epc :=
| E_alloc (m : MSG_STRUCT)
| E_test (new : ptr)
| E_front (new : ptr)
| E_read_rear (new : ptr)
| E_set_rear (new : ptr) (rearold : option ptr)
| E_link (rearold : option ptr)
| E_end
| E_done.

Definition estep (malloc_ok : bool) (pc : epc) (q : MSGQUEUE) : res (epc * MSGQUEUE) :=
  match pc with
  | E_alloc m =>
      if malloc_ok then
        Ok (E_test (brk q), mkQueue (<[brk q := mkNode m None]> (nodes q)) (front q) (rear q)
                              (Pos.succ (brk q)))
      else Ok (E_done, q)
  | E_test new => Ok (if queue_empty q then E_front new else E_read_rear new, q)
  | E_front new => Ok (E_end, mkQueue (nodes q) (Some new) (Some new) (brk q))
  | E_read_rear new => Ok (E_set_rear new (rear q), q)
  | E_set_rear new rearold => Ok (E_link rearold, with_rear (Some new) q)
  | E_link rearold => q' ← set_next rearold (rear q) q; Ok (E_end, q')
  | E_end => q' ← set_next (rear q) None q; Ok (E_done, q')
  | E_done => Ok (E_done, q)
  end.

(** ** dequeue, step by step *)
Inductive dpc :=
| D_test
| D_single                                  (* front == rear ? *)
| D_take_last
| D_clear (out : MSG_STRUCT)
| D_take
| D_second (out : MSG_STRUCT)
| D_again (out : MSG_STRUCT) (second : option ptr)
| D_set_front (out : MSG_STRUCT) (second : option ptr)
| D_fix_next (out : MSG_STRUCT) (second : option ptr)
| D_done (out : option MSG_STRUCT).         (* None: only the type, NULL_TYPE, is set *)

Definition dstep (pc : dpc) (q : MSGQUEUE) : res (dpc * MSGQUEUE) :=
  match pc with
  | D_test => Ok (if queue_empty q then D_done None else D_single, q)
  | D_single => Ok (if bool_decide (front q = rear q) then D_take_last else D_take, q)
  | D_take_last => n ← load (front q) q; Ok (D_clear (node n), q)
  | D_clear out => Ok (D_done (Some out), mkQueue (nodes q) None None (brk q))
  | D_take => n ← load (front q) q; Ok (D_second (node n), q)
  | D_second out => n ← load (front q) q; Ok (D_again out (next n), q)
  | D_again out second =>
      (* the test of a queue with two nodes compares the same pointers again *)
      if bool_decide (front q = rear q) then Ok (D_done (Some out), with_front (rear q) q)
      else Ok (D_set_front out second, q)
  | D_set_front out second => Ok (D_fix_next out second, with_front second q)
  | D_fix_next out second =>
      n ← load second q;
      q' ← set_next (front q) (next n) q;
      Ok (D_done (Some out), q')
  | D_done out => Ok (D_done out, q)
  end.

Fixpoint esteps (malloc_ok : bool) (n : nat) (pc : epc) (q : MSGQUEUE) : res (epc * MSGQUEUE) :=
  match n with
  | O => Ok (pc, q)
  | S n' => '(pc', q') ← estep malloc_ok pc q; esteps malloc_ok n' pc' q'
  end.
Fixpoint dsteps (n : nat) (pc : dpc) (q : MSGQUEUE) : res (dpc * MSGQUEUE) :=
  match n with
  | O => Ok (pc, q)
  | S n' => '(pc', q') ← dstep pc q; dsteps n' pc' q'
  end.

Lemma esteps_step b n pc q pc' q' :
  estep b pc q = Ok (pc', q') → esteps b (S n) pc q = esteps b n pc' q'.
Proof. simpl. by intros ->. Qed.
Lemma dsteps_step n pc q pc' q' :
  dstep pc q = Ok (pc', q') → dsteps (S n) pc q = dsteps n pc' q'.
Proof. simpl. by intros ->. Qed.

(** The operations run alone: no path is longer than six, or seven, steps. *)
Definition enqueue (malloc_ok : bool) (m : MSG_STRUCT) (q : MSGQUEUE) : res MSGQUEUE :=
  '(_, q') ← esteps malloc_ok 6 (E_alloc m) q; Ok q'.
Definition dequeue (q : MSGQUEUE) : res (option MSG_STRUCT * MSGQUEUE) :=
  '(pc, q') ← dsteps 7 D_test q;
  match pc with D_done out => Ok (out, q') | _ => Ub UB_Diverges end.

(** ** The list a queue stands for *)

(** The nodes from [f] to [r], in order. *)
Fixpoint chain (h : gmap ptr QUEUE_NODE) (f : option ptr) (l : list (ptr * MSG_STRUCT)) : Prop :=
  match l with
  | [] => f = None
  | (a, m) :: l' => f = Some a ∧ ∃ nx, h !! a = Some (mkNode m nx) ∧ chain h nx l'
  end.

Definition queue_rep (l : list MSG_STRUCT) (q : MSGQUEUE) : Prop :=
  ∃ pl, pl.*2 = l ∧ chain (nodes q) (front q) pl ∧ rear q = fst <$> last pl ∧ NoDup pl.*1 ∧
        ∀ a, a ∈ pl.*1 → (a < brk q)%positive.

Lemma chain_insert_other h a n l : ∀ f,
  a ∉ l.*1 → chain h f l → chain (<[a := n]> h) f l.
Proof.
  induction l as [|[b m] l IH]; intros f Ha; simpl; [done|].
  apply not_elem_of_cons in Ha as [Hab Ha]. intros (-> & nx & Hb & Hc). split; [done|].
  exists nx. rewrite lookup_insert_ne by done. split; [done|]. by apply IH.
Qed.

(** Linking a fresh node behind the last one. *)
Lemma chain_append h a m b mb l : ∀ f,
  chain h f (l ++ [(b, mb)]) → NoDup (l ++ [(b, mb)]).*1 → a ∉ (l ++ [(b, mb)]).*1 →
  chain (<[b := mkNode mb (Some a)]> (<[a := mkNode m None]> h)) f (l ++ [(b, mb); (a, m)]).
Proof.
  induction l as [|[c mc] l IH]; intros f; simpl.
  - intros (-> & nx & Hb & ->) _ Ha%not_elem_of_cons. split; [done|]. destruct Ha as [Ha _].
    exists (Some a). rewrite lookup_insert_eq. split; [done|]. split; [done|].
    exists None. by rewrite lookup_insert_ne, lookup_insert_eq by done.
  - intros (-> & nx & Hc & Hl) [Hnc Hnd]%NoDup_cons [Hac Ha]%not_elem_of_cons. split; [done|].
    exists nx. assert (b ≠ c).
    { intros ->. apply Hnc. rewrite fmap_app. apply elem_of_app. right. by left. }
    rewrite !lookup_insert_ne by done. split; [done|]. by apply IH.
Qed.

Lemma queue_rep_empty l q : queue_rep l q → queue_empty q = bool_decide (l = []).
Proof.
  intros (pl & <- & Hc & Hr & _). unfold queue_empty. rewrite Hr.
  destruct pl as [|[a m] pl]; simpl in Hc; [by rewrite Hc|].
  destruct Hc as [-> _]. done.
Qed.

Lemma set_next_ok a n v q :
  nodes q !! a = Some n →
  set_next (Some a) v q = Ok (mkQueue (<[a := mkNode (node n) v]> (nodes q)) (front q) (rear q) (brk q)).
Proof. intros Ha. unfold set_next. by rewrite Ha. Qed.

Lemma enqueue_empty_run m q :
  queue_rep [] q →
  enqueue true m q =
  Ok (mkQueue (<[brk q := mkNode m None]> (nodes q)) (Some (brk q)) (Some (brk q)) (Pos.succ (brk q))).
Proof.
  intros Hq. pose proof (queue_rep_empty _ _ Hq) as He. unfold enqueue, esteps, estep.
  cbn [mbind res_bind]. unfold queue_empty in *. cbn [front rear] in *. rewrite He. simpl.
  rewrite lookup_insert_eq. simpl. by rewrite insert_insert_eq.
Qed.

Lemma enqueue_rep l m q :
  queue_rep l q → ∃ q', enqueue true m q = Ok q' ∧ queue_rep (l ++ [m]) q'.
Proof.
  intros Hq. pose proof (queue_rep_empty _ _ Hq) as He. destruct (decide (l = [])) as [->|Hl].
  { rewrite enqueue_empty_run by done. eexists. split; [done|]. exists [(brk q, m)].
    split_and!; try done; [|apply NoDup_singleton|].
    - simpl. split; [done|]. exists None. by rewrite lookup_insert_eq.
    - intros a ->%list_elem_of_singleton. simpl. lia. }
  destruct Hq as (pl & <- & Hc & Hr & Hnd & Hfr).
  destruct pl as [|[b mb] pl _] using rev_ind; [done|].
  rewrite last_snoc in Hr. simpl in Hr.
  assert (brk q ∉ (pl ++ [(b, mb)]).*1) as Hnew by (intros Hx%Hfr; lia).
  assert (b ≠ brk q) as Hbn.
  { intros ->. apply Hnew. rewrite fmap_app. apply elem_of_app. right. by left. }
  assert (∃ nx, nodes q !! b = Some (mkNode mb nx)) as [nx Hb].
  { clear -Hc. revert Hc. generalize (front q). induction pl as [|[c mc] pl IH]; intros f; simpl.
    - intros (_ & nx & Hb & _). by exists nx.
    - intros (_ & nx & _ & Hl). by eapply IH. }
  eexists. split.
  { unfold enqueue. erewrite esteps_step by reflexivity.
    erewrite esteps_step; [|simpl; unfold queue_empty in *; simpl;
      by rewrite He, bool_decide_false].
    erewrite esteps_step by (simpl; by rewrite Hr). erewrite esteps_step by reflexivity.
    erewrite esteps_step by (simpl; by rewrite lookup_insert_ne, Hb).
    erewrite esteps_step by (simpl; by rewrite lookup_insert_ne, lookup_insert_eq).
    simpl. reflexivity. }
  exists (pl ++ [(b, mb); (brk q, m)]). rewrite insert_id
    by by rewrite lookup_insert_ne, lookup_insert_eq.
  split_and!; simpl.
  - by rewrite !fmap_app, <-(assoc_L (++)).
  - by apply chain_append.
  - change [(b, mb); (brk q, m)] with ([(b, mb)] ++ [(brk q, m)]).
    by rewrite (assoc_L (++)), last_snoc.
  - change [(b, mb); (brk q, m)] with ([(b, mb)] ++ [(brk q, m)]).
    rewrite (assoc_L (++)), fmap_app. apply NoDup_app.
    split_and!; [done| |apply NoDup_singleton]. intros x Hx ->%list_elem_of_singleton. done.
  - intros a. change [(b, mb); (brk q, m)] with ([(b, mb)] ++ [(brk q, m)]).
    rewrite (assoc_L (++)), fmap_app.
    intros [Hx%Hfr| ->%list_elem_of_singleton]%elem_of_app; simpl; lia.
Qed.

Lemma dequeue_empty q : queue_rep [] q → dequeue q = Ok (None, q).
Proof.
  intros Hq. pose proof (queue_rep_empty _ _ Hq) as He. unfold dequeue, dsteps, dstep.
  cbn [mbind res_bind]. by rewrite He.
Qed.

Lemma dequeue_rep l m q :
  queue_rep (m :: l) q → ∃ q', dequeue q = Ok (Some m, q') ∧ queue_rep l q'.
Proof.
  intros Hq. pose proof (queue_rep_empty _ _ Hq) as He.
  destruct Hq as (pl & Hpl & Hc & Hr & Hnd & Hfr).
  destruct pl as [|[a m'] pl]; [done|]. injection Hpl as -> Hpl.
  destruct Hc as (Hf & nx & Ha & Hc). destruct pl as [|[b mb] pl].
  - exists (mkQueue (nodes q) None None (brk q)). split.
    + unfold dequeue. erewrite dsteps_step; [|simpl; by rewrite He, bool_decide_false].
      erewrite dsteps_step; [|simpl; by rewrite Hf, Hr, bool_decide_true].
      by erewrite dsteps_step; [|simpl; by rewrite Hf; simpl; rewrite Ha].
    + subst l. exists []. split_and!; try done; [constructor|]. by intros x Hx%elem_of_nil.
  - destruct Hc as (-> & nb & Hb & Hc). simpl in Hnd, Hfr. rewrite last_cons_cons in Hr.
    apply NoDup_cons in Hnd as [Hna Hnd].
    assert (rear q ≠ Some a) as Hra.
    { rewrite Hr. destruct (last ((b, mb) :: pl)) as [[c mc]|] eqn:Hlast.
      - intros [= ->]. apply Hna.
        apply last_Some_elem_of in Hlast. change (a ∈ ((b, mb) :: pl).*1).
        apply list_elem_of_fmap. by exists (a, mc).
      - by apply last_None in Hlast. }
    exists (with_front (Some b) q). split.
    + unfold dequeue. erewrite dsteps_step; [|simpl; by rewrite He, bool_decide_false].
      erewrite dsteps_step; [|simpl; by rewrite Hf, bool_decide_false].
      erewrite dsteps_step; [|simpl; by rewrite Hf; simpl; rewrite Ha].
      erewrite dsteps_step; [|simpl; by rewrite Hf; simpl; rewrite Ha].
      erewrite dsteps_step; [|simpl; by rewrite Hf, bool_decide_false].
      erewrite dsteps_step; [|reflexivity].
      erewrite dsteps_step; [|simpl; rewrite Hb; simpl; by rewrite insert_id].
      reflexivity.
    + exists ((b, mb) :: pl). split_and!; try done.
      * simpl. split; [done|]. by exists nb.
      * intros x Hx. apply Hfr. by right.
Qed.

(** ** First in, first out *)
Inductive qop := Enq (m : MSG_STRUCT) | Deq.

Fixpoint run_queue (ops : list qop) (q : MSGQUEUE) : res (list (option MSG_STRUCT) * MSGQUEUE) :=
  match ops with
  | [] => Ok ([], q)
  | Enq m :: ops' => q' ← enqueue true m q; run_queue ops' q'
  | Deq :: ops' =>
      '(o, q') ← dequeue q;
      '(os, q'') ← run_queue ops' q';
      Ok (o :: os, q'')
  end.

Fixpoint run_list (ops : list qop) (l : list MSG_STRUCT) : list (option MSG_STRUCT) * list MSG_STRUCT :=
  match ops with
  | [] => ([], l)
  | Enq m :: ops' => run_list ops' (l ++ [m])
  | Deq :: ops' => let '(os, l') := run_list ops' (tail l) in (head l :: os, l')
  end.

(** C23. Used by one thread the queue is first in, first out: every sequence of
    enqueues and dequeues returns what it returns on a list (nothing but
    NULL_TYPE from an empty one), follows no bad pointer, and ends in a queue
    that stands for the list. *)
Theorem queue_fifo ops : ∀ l q,
  queue_rep l q →
  ∃ q', run_queue ops q = Ok ((run_list ops l).1, q') ∧ queue_rep (run_list ops l).2 q'.
Proof.
  induction ops as [|[m|] ops IH]; intros l q Hq; simpl; [by exists q| |].
  - destruct (enqueue_rep l m q Hq) as (q1 & -> & Hq1). simpl. by apply IH.
  - assert (∃ q1, dequeue q = Ok (head l, q1) ∧ queue_rep (tail l) q1) as (q1 & -> & Hq1).
    { destruct l as [|m l]; [exists q; by rewrite dequeue_empty|by apply dequeue_rep]. }
    simpl. destruct (IH (tail l) q1 Hq1) as (q' & -> & Hq'). simpl.
    destruct (run_list ops (tail l)) as [os l']. by exists q'.
Qed.

(** ** Two threads *)
Inductive qstep : epc * dpc * MSGQUEUE → epc * dpc * MSGQUEUE → Prop :=
| q_enqueue e d q e' q' : estep true e q = Ok (e', q') → qstep (e, d, q) (e', d, q')
| q_dequeue e d q d' q' : dstep d q = Ok (d', q') → qstep (e, d, q) (e, d', q').

(** The two locks do not protect the queue: with one message in it, a
    dequeue between enqueue's reads and writes lets both calls return normally
    and leaves a queue with a rear and no front; the next dequeue follows the
    null pointer. *)
Theorem queue_race q m1 m2 :
  queue_rep [m1] q →
  ∃ q', rtc qstep (E_alloc m2, D_test, q) (E_done, D_done (Some m1), q') ∧
        queue_empty q' = false ∧ dequeue q' = Ub UB_NullDeref.
Proof.
  intros Hq. pose proof (queue_rep_empty _ _ Hq) as He.
  destruct Hq as ([|[a m] [|]] & Hpl & Hc & Hr & Hnd & Hfr); try done.
  injection Hpl as ->. destruct Hc as (Hf & nx & Ha & ->). simpl in Hr.
  assert (a ≠ brk q) as Hab by (assert (a < brk q)%positive by (apply Hfr; left); lia).
  eexists. split.
  { eapply rtc_l; [by apply q_enqueue|].
    eapply (rtc_l _ _ (E_read_rear (brk q), D_test, _)).
    { apply q_enqueue. simpl. unfold queue_empty. simpl. by rewrite Hf. }
    eapply rtc_l; [by apply q_enqueue|]. simpl. rewrite Hr.
    eapply (rtc_l _ _ (E_set_rear (brk q) (Some a), D_single, _)).
    { by apply q_dequeue. }
    eapply (rtc_l _ _ (E_set_rear (brk q) (Some a), D_take_last, _)).
    { apply q_dequeue. simpl. by rewrite bool_decide_true. }
    eapply (rtc_l _ _ (E_set_rear (brk q) (Some a), D_clear m1, _)).
    { apply q_dequeue. simpl. by rewrite lookup_insert_ne, Ha. }
    eapply rtc_l; [by apply q_dequeue|].
    eapply rtc_l; [by apply q_enqueue|].
    eapply rtc_l; [apply q_enqueue; simpl; by rewrite lookup_insert_ne, Ha|].
    eapply rtc_l; [|apply rtc_refl].
    apply q_enqueue. simpl. by rewrite lookup_insert_ne, lookup_insert_eq. }
  done.
Qed.

Definition empty_queue : MSGQUEUE := mkQueue ∅ None None 1.
Lemma empty_queue_rep : queue_rep [] empty_queue.
Proof. exists []. split_and!; try done; [constructor|]. by intros a Ha%elem_of_nil. Qed.

Lemma queue_fifo_witness :
  let ops := [Enq (mkMsg 1 3 []); Enq (mkMsg 2 4 []); Deq; Deq; Deq] in
  ∃ q', run_queue ops empty_queue = Ok ((run_list ops []).1, q') ∧
        queue_rep (run_list ops []).2 q'.
Proof. intros ops. apply (queue_fifo ops [] empty_queue). apply empty_queue_rep. Defined.

Lemma queue_race_witness :
  ∃ q q', rtc qstep (E_alloc (mkMsg 2 4 []), D_test, q) (E_done, D_done (Some (mkMsg 1 3 [])), q') ∧
        queue_empty q' = false ∧ dequeue q' = Ub UB_NullDeref.
Proof.
  destruct (enqueue_rep [] (mkMsg 1 3 []) empty_queue empty_queue_rep) as (q & _ & Hq).
  exists q. apply (queue_race q (mkMsg 1 3 []) (mkMsg 2 4 [])). exact Hq.
Defined.
