(* ===== verification/Crc16.v ===== *)
(** * The packet checksum

    crc16check and crc16check8 of
    src/lib_app/robot_schedule/socket/navigate.cpp: CRC-16 with the polynomial
    0xa001, over chars and over unsigned chars. *)

From S2P Require Import Prelude.
#[local] Open Scope Z_scope.

(** One round of the inner loop. *)
Definition crc_bit (crc : Z) : Z :=
  if Z.land crc 1 =? 1 then Z.lxor (Z.shiftr crc 1) 0xa001 else Z.shiftr crc 1.
Definition crc_byte (crc b : Z) : Z := Nat.iter 8 crc_bit (Z.lxor crc b).

Definition crc16check8 (data : list Z) : Z := foldl crc_byte 0xffff data.

(** A char read from memory: its value depends on the signedness of char. *)
Definition char_value (char_signed : bool) (b : Z) : Z :=
  if char_signed then swrap 8 b else b.
(** (U16)(data[i]) of a char *)
Definition crc16check (char_signed : bool) (data : list Z) : Z :=
  foldl (λ crc b, crc_byte crc (u16 (char_value char_signed b))) 0xffff data.

(** ** Bits *)
Definition is_byte (b : Z) : Prop := 0 ≤ b < 256.
#[export] Instance is_byte_dec b : Decision (is_byte b).
Proof. unfold is_byte. apply _. Defined.

Lemma lxor_range w a b : 0 ≤ w → in_u w a → in_u w b → in_u w (Z.lxor a b).
Proof.
  unfold in_u. intros Hw Ha Hb.
  assert (Z.lxor a b = Z.lxor a b mod 2 ^ w) as ->; [|by apply Z.mod_pos_bound, pow2_pos].
  apply Z.bits_inj'. intros i Hi. destruct (Z.ltb_spec i w).
  - by rewrite Z.mod_pow2_bits_low.
  - rewrite Z.mod_pow2_bits_high, Z.lxor_spec by lia.
    assert (∀ x, 0 ≤ x < 2 ^ w → Z.testbit x i = false) as Hx; [|by rewrite !Hx].
    intros x Hx. rewrite <-(Z.mod_small x (2 ^ w)) by done. by apply Z.mod_pow2_bits_high.
Qed.

Lemma crc_bit_odd c : crc_bit c = Z.lxor (Z.shiftr c 1) (if Z.odd c then 0xa001 else 0).
Proof.
  unfold crc_bit. rewrite <-Z.bit0_odd.
  assert (Z.land c 1 = Z.b2z (Z.testbit c 0)) as ->.
  { change (Z.land c 1) with (Z.land c (Z.ones 1)). rewrite Z.land_ones by lia.
    by rewrite Z.bit0_mod. }
  destruct (Z.testbit c 0); simpl; [done|]. by rewrite Z.lxor_0_r.
Qed.

Lemma crc_bit_lxor a b : crc_bit (Z.lxor a b) = Z.lxor (crc_bit a) (crc_bit b).
Proof.
  rewrite !crc_bit_odd, Z.shiftr_lxor.
  assert (Z.odd (Z.lxor a b) = xorb (Z.odd a) (Z.odd b)) as ->
    by by rewrite <-!Z.bit0_odd, Z.lxor_spec.
  set (x := Z.shiftr a 1). set (y := Z.shiftr b 1).
  destruct (Z.odd a), (Z.odd b); simpl; rewrite ?Z.lxor_0_r; try done.
  - rewrite <-(Z.lxor_assoc _ y), (Z.lxor_comm (Z.lxor x 40961) y), !Z.lxor_assoc.
    rewrite <-(Z.lxor_assoc y x), (Z.lxor_comm y x), Z.lxor_assoc. f_equal.
    by rewrite Z.lxor_nilpotent, Z.lxor_0_r.
  - by rewrite !Z.lxor_assoc, (Z.lxor_comm y).
  - by rewrite !Z.lxor_assoc.
Qed.

Lemma crc_bit_range c : in_u 16 c → in_u 16 (crc_bit c).
Proof.
  intros Hc. rewrite crc_bit_odd. apply lxor_range; [lia| |].
  - unfold in_u in *. rewrite Z.shiftr_div_pow2 by lia. split; [apply Z.div_pos; lia|].
    apply Z.div_lt_upper_bound; lia.
  - destruct (Z.odd c); unfold in_u; lia.
Qed.

(** A register that becomes zero was zero. *)
Lemma crc_bit_zero c : in_u 16 c → crc_bit c = 0 → c = 0.
Proof.
  unfold in_u. intros Hc. rewrite crc_bit_odd, Z.lxor_eq_0_iff, Z.shiftr_div_pow2 by lia.
  pose proof (Z.div_mod c 2 ltac:(lia)) as Hd. rewrite Zmod_odd in Hd.
  change (2 ^ 1) with 2 in *. destruct (Z.odd c); lia.
Qed.

Abbreviation crc_bits n := (Nat.iter n crc_bit).

Lemma crc_bits_lxor n a b : crc_bits n (Z.lxor a b) = Z.lxor (crc_bits n a) (crc_bits n b).
Proof. induction n as [|n IH]; simpl; [done|]. by rewrite IH, crc_bit_lxor. Qed.
Lemma crc_bits_range n c : in_u 16 c → in_u 16 (crc_bits n c).
Proof. intros Hc. induction n; simpl; [done|]. by apply crc_bit_range. Qed.
Lemma crc_bits_zero n c : in_u 16 c → crc_bits n c = 0 → c = 0.
Proof.
  intros Hc. induction n as [|n IH]; simpl; [done|]. intros H%crc_bit_zero; [by apply IH|].
  by apply crc_bits_range.
Qed.
(** The rounds lose no information. *)
Lemma crc_bits_inj n a b : in_u 16 a → in_u 16 b → crc_bits n a = crc_bits n b → a = b.
Proof.
  intros Ha Hb H. apply Z.lxor_eq, (crc_bits_zero n); [by apply lxor_range|].
  by rewrite crc_bits_lxor, H, Z.lxor_nilpotent.
Qed.

Lemma byte_u16 b : is_byte b → in_u 16 b.
Proof. unfold is_byte, in_u. lia. Qed.

Lemma crc_byte_range c b : in_u 16 c → in_u 16 b → in_u 16 (crc_byte c b).
Proof. intros Hc Hb. by apply crc_bits_range, lxor_range. Qed.

Lemma crc_fold_range l : ∀ c, in_u 16 c → Forall is_byte l → in_u 16 (foldl crc_byte c l).
Proof.
  induction l as [|b l IH]; intros c Hc Hl; simpl; [done|].
  apply Forall_cons in Hl as [Hb Hl]. apply IH; [|done].
  by apply crc_byte_range, byte_u16.
Qed.

Lemma crc8_range l : Forall is_byte l → in_u 16 (crc16check8 l).
Proof. intros Hl. by apply crc_fold_range. Qed.

(** Different registers stay different whatever follows. *)
Lemma crc_fold_inj l : ∀ a b,
  in_u 16 a → in_u 16 b → Forall is_byte l → foldl crc_byte a l = foldl crc_byte b l → a = b.
Proof.
  induction l as [|x l IH]; intros a b Ha Hb Hl; simpl; [done|].
  apply Forall_cons in Hl as [Hx Hl]. intros H%IH; [|by apply crc_byte_range, byte_u16..|done].
  apply crc_bits_inj in H; [|by apply lxor_range; [..|apply byte_u16]..].
  apply (f_equal (λ z, Z.lxor z x)) in H.
  by rewrite !Z.lxor_assoc, Z.lxor_nilpotent, !Z.lxor_0_r in H.
Qed.

(** Two bytes are one 16-bit word, low byte first. *)
Lemma crc_shift8 y : is_byte y → crc_bits 8 (Z.shiftl y 8) = y.
Proof.
  intros Hy. assert (∀ n, (n < 256)%nat → crc_bits 8 (Z.shiftl (Z.of_nat n) 8) = Z.of_nat n) as H.
  { assert (forallb (λ n, crc_bits 8 (Z.shiftl (Z.of_nat n) 8) =? Z.of_nat n) (seq 0 256) = true)
      as Hall by (vm_compute; reflexivity).
    rewrite forallb_forall in Hall. intros n Hn. apply Z.eqb_eq, Hall, in_seq. lia. }
  unfold is_byte in Hy. rewrite <-(Z2Nat.id y) by lia. apply H. lia.
Qed.

Lemma crc_two_bytes c x y :
  is_byte y → crc_byte (crc_byte c x) y = crc_bits 16 (Z.lxor c (Z.lxor x (Z.shiftl y 8))).
Proof.
  intros Hy. unfold crc_byte. rewrite <-(crc_shift8 y Hy) at 1.
  rewrite <-crc_bits_lxor, <-Nat.iter_add. by rewrite Z.lxor_assoc.
Qed.

Lemma word_inj x y x' y' :
  is_byte x → is_byte y → is_byte x' → is_byte y' →
  Z.lxor x (Z.shiftl y 8) = Z.lxor x' (Z.shiftl y' 8) → x = x' ∧ y = y'.
Proof.
  intros Hx Hy Hx' Hy' H.
  assert (∀ a b, is_byte a → Z.lxor a (Z.shiftl b 8) = a + b * 256) as Hw.
  { intros a b Ha. rewrite <-Z.add_nocarry_lxor.
    - by rewrite Z.shiftl_mul_pow2.
    - apply Z.bits_inj'. intros i Hi. rewrite Z.land_spec, Z.shiftl_spec, Z.bits_0 by done.
      destruct (Z.ltb_spec i 8).
      + rewrite (Z.testbit_neg_r b) by lia. by rewrite andb_false_r.
      + unfold is_byte in Ha. rewrite <-(Z.mod_small a (2 ^ 8)) by lia.
        by rewrite Z.mod_pow2_bits_high by lia. }
  rewrite !Hw in H by done. unfold is_byte in *. lia.
Qed.

Lemma word_range x y : is_byte x → is_byte y → in_u 16 (Z.lxor x (Z.shiftl y 8)).
Proof.
  intros Hx Hy. apply lxor_range; [lia|by apply byte_u16|].
  unfold is_byte, in_u in *. rewrite Z.shiftl_mul_pow2 by lia. lia.
Qed.

(** The checksum catches every error confined to two adjacent bytes (so
    every burst of up to nine bits and every single wrong byte): replacing
    them by different ones always changes the CRC. *)
Lemma crc_detects_two_bytes pre x y x' y' post :
  Forall is_byte pre → Forall is_byte post →
  is_byte x → is_byte y → is_byte x' → is_byte y' → (x, y) ≠ (x', y') →
  crc16check8 (pre ++ x :: y :: post) ≠ crc16check8 (pre ++ x' :: y' :: post).
Proof.
  intros Hpre Hpost Hx Hy Hx' Hy' Hne H. unfold crc16check8 in H.
  rewrite !foldl_app in H. simpl in H. pose proof (crc8_range pre Hpre) as Hc.
  fold (crc16check8 pre) in H. set (c := crc16check8 pre) in *. clearbody c.
  apply crc_fold_inj in H;
    [|repeat apply crc_byte_range; first [done|by apply byte_u16]..|done].
  rewrite !crc_two_bytes in H by done.
  apply crc_bits_inj in H; [|by apply lxor_range; [..|apply word_range]..].
  apply (f_equal (Z.lxor c)) in H. rewrite <-!Z.lxor_assoc, Z.lxor_nilpotent, !Z.lxor_0_l in H.
  apply word_inj in H as [-> ->]; done.
Qed.

(** The checks of the two sides agree where char is unsigned, and for bytes
    below 128 everywhere. *)
Lemma char_value_u16 char_signed b :
  is_byte b → char_signed = false ∨ b < 128 → u16 (char_value char_signed b) = b.
Proof.
  intros Hb Hs. assert (char_value char_signed b = b) as ->.
  { destruct char_signed; simpl; [|done]. apply swrap_id; [lia|].
    unfold is_byte, in_s in *. destruct Hs; [done|]. lia. }
  apply uwrap_id. by apply byte_u16.
Qed.

Lemma crc16check_agrees char_signed data :
  Forall is_byte data → char_signed = false ∨ Forall (λ b, b < 128) data →
  crc16check char_signed data = crc16check8 data.
Proof.
  intros Hb Hs. unfold crc16check, crc16check8. generalize 0xffff.
  induction data as [|b data IH]; intros c; simpl; [done|].
  apply Forall_cons in Hb as [Hb Hd]. rewrite char_value_u16; [|done|].
  - apply IH; [done|]. destruct Hs as [|[_ ?]%Forall_cons]; auto.
  - destruct Hs as [|[? _]%Forall_cons]; auto.
Qed.

(** A signed char moves the register by 0xff00. *)
Lemma char_value_signed b : is_byte b → 128 ≤ b → u16 (char_value true b) = Z.lxor b 0xff00.
Proof.
  intros Hb H128. unfold is_byte in Hb.
  assert (forallb (λ n, u16 (char_value true (Z.of_nat n)) =? Z.lxor (Z.of_nat n) 0xff00)
            (seq 128 128) = true) as Hall by (vm_compute; reflexivity).
  rewrite forallb_forall in Hall. rewrite <-(Z2Nat.id b) by lia.
  apply Z.eqb_eq, Hall, in_seq. lia.
Qed.
