(* ===== verification/Serialize.v ===== *)
(** * Wire format of the navigation sockets

    src/lib_app/robot_schedule/socket/serialize.cpp, and the packed structs of
    clean/apptypes.hpp as the receivers read them back out of a buffer.  A
    buffer is the list of the bytes written so far. *)

From S2P Require Import Prelude Crc16.
#[local] Open Scope Z_scope.

(** ** Little-endian integers *)

Definition serialize_short (data : Z) : list Z :=
  [Z.land data 255; Z.land (Z.shiftr data 8) 255].
Definition serialize_int (data : Z) : list Z :=
  [Z.land data 255; Z.land (Z.shiftr data 8) 255;
   Z.land (Z.shiftr data 16) 255; Z.land (Z.shiftr data 24) 255].

(** memcpy of an n-byte integer, or of the 8 bytes of a double given by its
    bit pattern, on a little-endian machine. *)
Fixpoint memcpy_le (n : nat) (z : Z) : list Z :=
  match n with
  | O => []
  | S n' => z mod 256 :: memcpy_le n' (z / 256)
  end.
(** The value of the first bytes of a buffer read through a pointer cast. *)
Fixpoint load_le (l : list Z) : Z :=
  match l with
  | [] => 0
  | b :: l' => b + 256 * load_le l'
  end.
Definition load_int (l : list Z) : Z := swrap 32 (load_le (take 4 l)).

Lemma memcpy_le_length n : ∀ z, length (memcpy_le n z) = n.
Proof. induction n; intros z; simpl; auto. Qed.
Lemma memcpy_le_bytes n : ∀ z, Forall is_byte (memcpy_le n z).
Proof.
  induction n; intros z; simpl; constructor; auto.
  apply Z.mod_pos_bound. lia.
Qed.
Lemma load_memcpy n : ∀ z, load_le (memcpy_le n z) = z mod 2 ^ (8 * Z.of_nat n).
Proof.
  induction n as [|n IH]; intros z; simpl memcpy_le; simpl load_le; [by rewrite Z.mod_1_r|].
  rewrite IH. replace (8 * Z.of_nat (S n)) with (8 + 8 * Z.of_nat n) by lia.
  rewrite Z.pow_add_r by lia. change (2 ^ 8) with 256.
  rewrite Z.rem_mul_r; [done|lia|]. apply Z.pow_pos_nonneg; lia.
Qed.

Lemma serialize_short_memcpy z : serialize_short z = memcpy_le 2 z.
Proof.
  unfold serialize_short. simpl. change 255 with (Z.ones 8).
  by rewrite !Z.land_ones, Z.shiftr_div_pow2 by lia.
Qed.
Lemma serialize_int_memcpy z : serialize_int z = memcpy_le 4 z.
Proof.
  unfold serialize_int. simpl. change 255 with (Z.ones 8).
  rewrite !Z.land_ones, !Z.shiftr_div_pow2 by lia.
  rewrite !Zdiv_Zdiv by lia. done.
Qed.

(** An int written as the bytes of its unsigned image and read back. *)
Lemma load_int_memcpy z rest : in_s 32 z → load_int (memcpy_le 4 z ++ rest) = z.
Proof.
  intros Hz. unfold load_int. rewrite take_app_length' by by rewrite memcpy_le_length.
  rewrite load_memcpy. change (8 * Z.of_nat 4) with 32.
  rewrite <-(swrap_id 32 z) at 2 by done. unfold swrap.
  by rewrite Zplus_mod_idemp_l.
Qed.

(** ** Structures *)
Record Point := mkPoint { px : Z; py : Z }.
Record BLOCK_DATA := mkBlock { b_point : Point; b_type : Z }.
Record ROBOT_POSE := mkRobotPose { rp_point : Point; rp_yaw : Z; rp_device : Point; rp_angle : Z }.
Record ZONE_POSE := mkZonePose { zp_point : Point; zp_yaw : Z }.
Record IMU_DATA := mkImu {
  vel_angle_x : Z; vel_angle_y : Z; vel_angle_z : Z; acc_x : Z; acc_y : Z; acc_z : Z }.
Record ODOM_DATA := mkOdom { speed_left : Z; speed_right : Z }.

Definition sizeof_BLOCK_DATA : Z := 9.
Definition sizeof_ROBOT_POSE : Z := 24.

Definition serialize_point_data (p : Point) : list Z :=
  serialize_int (u32 (px p)) ++ serialize_int (u32 (py p)).
Definition serialize_block_data (b : BLOCK_DATA) : list Z :=
  serialize_point_data (b_point b) ++ [b_type b].
Definition serialize_blocks_data (l : list BLOCK_DATA) : list Z :=
  concat (serialize_block_data <$> l).
Definition serialize_pose_data (p : ROBOT_POSE) : list Z :=
  serialize_point_data (rp_point p) ++ memcpy_le 4 (rp_yaw p).
Definition serialize_imu_data (d : IMU_DATA) : list Z :=
  memcpy_le 8 (vel_angle_x d) ++ memcpy_le 8 (vel_angle_y d) ++ memcpy_le 8 (vel_angle_z d) ++
  memcpy_le 8 (acc_x d) ++ memcpy_le 8 (acc_y d) ++ memcpy_le 8 (acc_z d).
Definition serialize_odom_data (d : ODOM_DATA) : list Z :=
  memcpy_le 4 (speed_left d) ++ memcpy_le 4 (speed_right d).
Definition serialize_zone_data (p : ROBOT_POSE) (r0 r1 : Point) : list Z :=
  serialize_pose_data p ++ serialize_point_data r0 ++ serialize_point_data r1.

(** Packets whose head and check are given with the data. *)
Definition serialize_socket_map_data (head length : Z) (data : list BLOCK_DATA) (check : Z)
    : res (list Z) :=
  (* int / size_t *)
  let blockcnt := s32 (u64 length / sizeof_BLOCK_DATA) in
  if decide (blockcnt ≤ Z.of_nat (List.length data)) then
    Ok (serialize_short head ++ serialize_int (u32 length) ++
        serialize_blocks_data (take (Z.to_nat blockcnt) data) ++ serialize_short check)
  else Ub UB_OutOfBounds.
Definition serialize_socket_pose_data (head : Z) (p : ROBOT_POSE) (check : Z) : list Z :=
  serialize_short head ++ serialize_pose_data p ++ serialize_short check.
Definition serialize_socket_zone_data (head : Z) (p : ROBOT_POSE) (r0 r1 : Point) (check : Z) : list Z :=
  serialize_short head ++ serialize_pose_data p ++ serialize_point_data r0 ++
  serialize_point_data r1 ++ serialize_short check.
Definition serialize_socket_imu_data (head : Z) (d : IMU_DATA) (check : Z) : list Z :=
  serialize_short head ++ serialize_imu_data d ++ serialize_short check.
Definition serialize_socket_odom_data (head : Z) (d : ODOM_DATA) (check : Z) : list Z :=
  serialize_short head ++ serialize_odom_data d ++ serialize_short check.

(** ** Reading through pointer casts *)

(** A structure of the wire: its size, its image and what a cast reads. *)
Class Wire (A : Type) := {
  wire_size : nat;
  wire_ok : A → Prop;
  wire_write : A → list Z;
  wire_read : list Z → A;
  wire_length : ∀ a, wire_ok a → length (wire_write a) = wire_size;
  wire_bytes : ∀ a, wire_ok a → Forall is_byte (wire_write a);
  wire_back : ∀ a rest, wire_ok a → wire_read (wire_write a ++ rest) = a }.

Definition point_ok (p : Point) : Prop := in_s 32 (px p) ∧ in_s 32 (py p).
Definition read_point (l : list Z) : Point := mkPoint (load_int l) (load_int (drop 4 l)).
Definition read_block (l : list Z) : BLOCK_DATA := mkBlock (read_point l) (default 0 (l !! 8%nat)).
Definition read_zone_pose (l : list Z) : ZONE_POSE := mkZonePose (read_point l) (load_int (drop 8 l)).
Definition read_robot_pose (l : list Z) : ROBOT_POSE :=
  mkRobotPose (read_point l) (load_int (drop 8 l)) (read_point (drop 12 l)) (load_int (drop 20 l)).

Lemma memcpy_u32 z : memcpy_le 4 (u32 z) = memcpy_le 4 z.
Proof.
  assert (∀ n z', memcpy_le n (z' mod 2 ^ (8 * Z.of_nat n)) = memcpy_le n z') as H.
  { induction n as [|n IH]; intros z'; simpl memcpy_le; [done|].
    replace (8 * Z.of_nat (S n)) with (8 + 8 * Z.of_nat n) by lia.
    rewrite Z.pow_add_r by lia. change (2 ^ 8) with 256.
    pose proof (Z.pow_pos_nonneg 2 (8 * Z.of_nat n) ltac:(lia) ltac:(lia)).
    rewrite Z.rem_mul_r by lia. f_equal.
    - rewrite Z.mul_comm, Z_mod_plus_full. apply Zmod_mod.
    - rewrite Z.mul_comm, Z_div_plus_full, Zdiv_small by (try apply Z.mod_pos_bound; lia).
      apply IH. }
  apply (H 4%nat).
Qed.

Lemma serialize_point_memcpy p :
  serialize_point_data p = memcpy_le 4 (px p) ++ memcpy_le 4 (py p).
Proof. unfold serialize_point_data. by rewrite !serialize_int_memcpy, !memcpy_u32. Qed.

Lemma read_point_back p rest :
  point_ok p → read_point (memcpy_le 4 (px p) ++ memcpy_le 4 (py p) ++ rest) = p.
Proof.
  intros [Hx Hy]. unfold read_point. rewrite load_int_memcpy by done.
  rewrite (drop_app_length' (memcpy_le 4 (px p))) by by rewrite memcpy_le_length.
  rewrite load_int_memcpy by done. by destruct p.
Qed.

#[export] Instance wire_Point : Wire Point.
Proof.
  refine {| wire_size := 8; wire_ok := point_ok; wire_write := serialize_point_data;
            wire_read := read_point |}.
  - intros p _. by rewrite serialize_point_memcpy, length_app, !memcpy_le_length.
  - intros p _. rewrite serialize_point_memcpy. apply Forall_app; split; apply memcpy_le_bytes.
  - intros p rest Hp. rewrite serialize_point_memcpy, <-(assoc_L (++)). by apply read_point_back.
Defined.

Definition block_ok (b : BLOCK_DATA) : Prop := point_ok (b_point b) ∧ is_byte (b_type b).
#[export] Instance wire_BLOCK_DATA : Wire BLOCK_DATA.
Proof.
  refine {| wire_size := 9; wire_ok := block_ok; wire_write := serialize_block_data;
            wire_read := read_block |}.
  - intros b _. unfold serialize_block_data.
    by rewrite serialize_point_memcpy, !length_app, !memcpy_le_length.
  - intros b [_ Hb]. unfold serialize_block_data. rewrite serialize_point_memcpy.
    repeat (apply Forall_app; split); try apply memcpy_le_bytes. by constructor.
  - intros b rest [Hp _]. unfold serialize_block_data, read_block.
    rewrite serialize_point_memcpy, <-!(assoc_L (++)). rewrite read_point_back by done.
    rewrite !lookup_app_r by (rewrite memcpy_le_length; lia). rewrite !memcpy_le_length. simpl.
    by destruct b.
Defined.

(** The pose the receivers read is the structure of 24 bytes. *)
Definition write_robot_pose (p : ROBOT_POSE) : list Z :=
  memcpy_le 4 (px (rp_point p)) ++ memcpy_le 4 (py (rp_point p)) ++ memcpy_le 4 (rp_yaw p) ++
  memcpy_le 4 (px (rp_device p)) ++ memcpy_le 4 (py (rp_device p)) ++ memcpy_le 4 (rp_angle p).
Definition robot_pose_ok (p : ROBOT_POSE) : Prop :=
  point_ok (rp_point p) ∧ in_s 32 (rp_yaw p) ∧ point_ok (rp_device p) ∧ in_s 32 (rp_angle p).

#[export] Instance point_ok_dec p : Decision (point_ok p).
Proof. unfold point_ok, in_s. apply _. Defined.
#[export] Instance block_ok_dec b : Decision (block_ok b).
Proof. unfold block_ok. apply _. Defined.
#[export] Instance robot_pose_ok_dec p : Decision (robot_pose_ok p).
Proof. unfold robot_pose_ok, in_s. apply _. Defined.

Lemma drop_memcpy n z rest : drop n (memcpy_le n z ++ rest) = rest.
Proof. by rewrite drop_app_length' by by rewrite memcpy_le_length. Qed.

#[export] Instance wire_ROBOT_POSE : Wire ROBOT_POSE.
Proof.
  refine {| wire_size := 24; wire_ok := robot_pose_ok; wire_write := write_robot_pose;
            wire_read := read_robot_pose |}.
  - intros p _. unfold write_robot_pose. by rewrite !length_app, !memcpy_le_length.
  - intros p _. unfold write_robot_pose. repeat (apply Forall_app; split); apply memcpy_le_bytes.
  - intros p rest (Hp & Hy & Hd & Ha). unfold write_robot_pose, read_robot_pose.
    rewrite <-!(assoc_L (++)). rewrite read_point_back by done.
    rewrite <-(drop_drop _ 4 4), <-(drop_drop _ 4 8), <-(drop_drop _ 4 16).
    rewrite <-(drop_drop _ 4 4), <-(drop_drop _ 4 12), <-(drop_drop _ 4 8), <-(drop_drop _ 4 4).
    rewrite !drop_memcpy.
    rewrite load_int_memcpy, read_point_back, load_int_memcpy by done. by destruct p.
Defined.

(** An array of structures: element [i] is read at offset i * size. *)
Lemma wire_array {A} `{Wire A} (l : list A) : ∀ i a rest,
  Forall wire_ok l → l !! i = Some a →
  wire_read (drop (i * wire_size (A:=A)) (concat (wire_write <$> l) ++ rest)) = a.
Proof.
  induction l as [|x l IH]; intros i a rest Hl Hi; [done|].
  apply Forall_cons in Hl as [Hx Hl]. destruct i as [|i]; simpl in Hi |- *.
  - simplify_eq. rewrite <-(assoc_L (++)). by apply wire_back.
  - rewrite <-drop_drop, <-(assoc_L (++)). rewrite (drop_app_length' (wire_write x))
      by by rewrite wire_length. by apply IH.
Qed.

Lemma wire_array_length {A} `{Wire A} (l : list A) :
  Forall wire_ok l → length (concat (wire_write <$> l)) = (length l * wire_size (A:=A))%nat.
Proof.
  induction 1 as [|x l Hx _ IH]; [done|]. rewrite fmap_cons. simpl concat.
  by rewrite length_app, wire_length, IH.
Qed.
Lemma wire_array_bytes {A} `{Wire A} (l : list A) :
  Forall wire_ok l → Forall is_byte (concat (wire_write <$> l)).
Proof.
  induction 1 as [|x l Hx _ IH]; simpl; [constructor|]. apply Forall_app. split; [|done].
  by apply wire_bytes.
Qed.
