(* ===== verification/Navigate.v ===== *)
(** * The navigation client

    src/lib_app/robot_schedule/socket/navigate.cpp: the packets sent to the
    navigation process, the two receiver threads, one iteration of their loops
    at a time, and the connections. *)

From S2P Require Import Prelude Crc16 Serialize.
#[local] Open Scope Z_scope.

(** U16 of two bytes, high byte first. *)
Definition u8_to_u16 (front behind : Z) : Z := Z.lor (u16 (Z.shiftl front 8)) behind.

(** ** Sending *)
Section send.
Variable char_signed : bool.

(** Head, contents, and the checksum of both. *)
Definition packet (char1 char2 : Z) (contents : list Z) : list Z :=
  let buffer := serialize_short (u8_to_u16 char2 char1) ++ contents in
  buffer ++ serialize_short (crc16check char_signed buffer).

(** char buffer[50000] *)
Definition followwall_maps_upload (data : list BLOCK_DATA) : res (list Z) :=
  let blength := sizeof_BLOCK_DATA * Z.of_nat (length data) in
  if decide (2 + 4 + blength + 2 ≤ 50000) then
    Ok (packet 0xaa 0xbb (serialize_int (u32 blength) ++ serialize_blocks_data data))
  else Ub UB_OutOfBounds.

Definition get_route (start end_ : Point) : list Z :=
  packet 0x9b 0xac (serialize_point_data start ++ serialize_point_data end_).
Definition imu_callback (imu : IMU_DATA) (timestamp : Z) : list Z :=
  packet 0xab 0xcd (serialize_imu_data imu ++ memcpy_le 8 timestamp).
Definition odom_callback (odom : ODOM_DATA) (timestamp : Z) : list Z :=
  packet 0xbc 0xde (serialize_odom_data odom ++ memcpy_le 8 timestamp).
Definition send_cmd (cmd : Z) : list Z := packet 0x12 0x34 [cmd].
End send.

(** ** Receiving *)

(** What read finds: a byte, a place where it returns with what it has, the
    end of the stream, an error. *)
Inductive item := Byte (b : Z) | Gap | Eof | Err.

Inductive action :=
| ActPose (x y yaw : Z)                          (* pose_download *)
| ActPoseNet (x y yaw : Z)                       (* NetserverInstruct::pose_down_net *)
| ActZone (x y yaw : Z) (p0 p1 : Point)          (* followwall_zone_download *)
| ActPath (path : list Point)                    (* path_download *)
| ActAstar (path : list Point)                   (* the astar_plan message *)
| ActCmd (cmd : Z).                              (* cmd_publish *)

(** The locals of a receiver thread and the connection flags. *)
Record Rx := mkRx {
  input : list item;
  pose_conn : bool;
  low_conn : bool;
  readBuf : Z;
  contBuf : list Z;
  mapBuf : list Z;
  mapbBuf : list Z;
  pathBuf : list Z;
  pathbBuf : list Z;
  map_receive_finish : bool;
  robot_X : Z;
  robot_Y : Z;
  acts : list action }.

Definition zeros (n : Z) : list Z := replicate (Z.to_nat n) 0.
Definition init_rx (input : list item) : Rx :=
  mkRx input true true 0 (zeros 50) (zeros 40000) (zeros 40000) (zeros 10000) (zeros 10000)
    false (-1) (-1) [].

Definition set_input (l : list item) (r : Rx) : Rx :=
  mkRx l (pose_conn r) (low_conn r) (readBuf r) (contBuf r) (mapBuf r) (mapbBuf r) (pathBuf r)
    (pathbBuf r) (map_receive_finish r) (robot_X r) (robot_Y r) (acts r).
Definition client_low_close (r : Rx) : Rx :=
  mkRx (input r) (pose_conn r) false (readBuf r) (contBuf r) (mapBuf r) (mapbBuf r) (pathBuf r)
    (pathbBuf r) (map_receive_finish r) (robot_X r) (robot_Y r) (acts r).
Definition set_readBuf (b : Z) (r : Rx) : Rx :=
  mkRx (input r) (pose_conn r) (low_conn r) b (contBuf r) (mapBuf r) (mapbBuf r) (pathBuf r)
    (pathbBuf r) (map_receive_finish r) (robot_X r) (robot_Y r) (acts r).
Definition set_contBuf (l : list Z) (r : Rx) : Rx :=
  mkRx (input r) (pose_conn r) (low_conn r) (readBuf r) l (mapBuf r) (mapbBuf r) (pathBuf r)
    (pathbBuf r) (map_receive_finish r) (robot_X r) (robot_Y r) (acts r).
Definition set_mapBuf (l : list Z) (r : Rx) : Rx :=
  mkRx (input r) (pose_conn r) (low_conn r) (readBuf r) (contBuf r) l (mapbBuf r) (pathBuf r)
    (pathbBuf r) (map_receive_finish r) (robot_X r) (robot_Y r) (acts r).
Definition set_mapbBuf (l : list Z) (r : Rx) : Rx :=
  mkRx (input r) (pose_conn r) (low_conn r) (readBuf r) (contBuf r) (mapBuf r) l (pathBuf r)
    (pathbBuf r) (map_receive_finish r) (robot_X r) (robot_Y r) (acts r).
Definition set_pathBuf (l : list Z) (r : Rx) : Rx :=
  mkRx (input r) (pose_conn r) (low_conn r) (readBuf r) (contBuf r) (mapBuf r) (mapbBuf r) l
    (pathbBuf r) (map_receive_finish r) (robot_X r) (robot_Y r) (acts r).
Definition set_pathbBuf (l : list Z) (r : Rx) : Rx :=
  mkRx (input r) (pose_conn r) (low_conn r) (readBuf r) (contBuf r) (mapBuf r) (mapbBuf r)
    (pathBuf r) l (map_receive_finish r) (robot_X r) (robot_Y r) (acts r).
Definition set_finish (b : bool) (r : Rx) : Rx :=
  mkRx (input r) (pose_conn r) (low_conn r) (readBuf r) (contBuf r) (mapBuf r) (mapbBuf r)
    (pathBuf r) (pathbBuf r) b (robot_X r) (robot_Y r) (acts r).
Definition set_robot (x y : Z) (r : Rx) : Rx :=
  mkRx (input r) (pose_conn r) (low_conn r) (readBuf r) (contBuf r) (mapBuf r) (mapbBuf r)
    (pathBuf r) (pathbBuf r) (map_receive_finish r) x y (acts r).
Definition add_act (a : action) (r : Rx) : Rx :=
  mkRx (input r) (pose_conn r) (low_conn r) (readBuf r) (contBuf r) (mapBuf r) (mapbBuf r)
    (pathBuf r) (pathbBuf r) (map_receive_finish r) (robot_X r) (robot_Y r) (acts r ++ [a]).
Definition act (a : action) : ST Rx unit := modify (add_act a).

(** Up to [n] bytes that are there. *)
Fixpoint take_bytes (n : nat) (l : list item) : list Z * list item :=
  match n, l with
  | S n', Byte b :: l' => let '(bs, rest) := take_bytes n' l' in (b :: bs, rest)
  | _, _ => ([], l)
  end.
(** read: None is an error, an empty list the end of the stream. *)
Fixpoint read (n : nat) (l : list item) : option (list Z) * list item :=
  match l with
  | [] => (Some [], [])
  | Gap :: l' => read n l'
  | Eof :: l' => (Some [], l')
  | Err :: l' => (None, l')
  | Byte _ :: _ => let '(bs, rest) := take_bytes n l in (Some bs, rest)
  end.

(** nread: the bytes it stored.  Any result but 0 returns at once, so the error
    branch is dead; 0 closes the low socket, whichever socket was read. *)
Definition nread (n : nat) : ST Rx (list Z) :=
  r ← get;
  let '(res, rest) := read n (input r) in
  modify (set_input rest);;
  match res with
  | Some [] => modify client_low_close;; mret []
  | Some bs => mret bs
  | None => mret []
  end.

(** nread(fd, readBuf, 1) *)
Definition nread_byte : ST Rx unit :=
  bs ← nread 1;
  match bs with b :: _ => modify (set_readBuf b) | [] => mret tt end.

(** nread(fd, &buf[i], 1): an index past the buffer is undefined. *)
Definition store (buf : list Z) (i : nat) (bs : list Z) : res (list Z) :=
  if decide (i < length buf)%nat then
    Ok (match bs with b :: _ => <[i := b]> buf | [] => buf end)
  else Ub UB_OutOfBounds.
Section fill.
Variables (buf : Rx → list Z) (set_buf : list Z → Rx → Rx).
Fixpoint nread_loop (i n : nat) : ST Rx unit :=
  match n with
  | O => mret tt
  | S n' =>
      bs ← nread 1;
      r ← get;
      b ← lift (store (buf r) i bs);
      modify (set_buf b);;
      nread_loop (S i) n'
  end.
End fill.

(** memcpy(&dst[off], src, n) *)
Definition memcpy (dst : list Z) (off : nat) (src : list Z) (n : Z) : res (list Z) :=
  if decide (0 ≤ n ∧ Z.of_nat off + n ≤ Z.of_nat (length dst) ∧ n ≤ Z.of_nat (length src)) then
    let k := Z.to_nat n in Ok (take off dst ++ take k src ++ drop (off + k) dst)
  else Ub UB_OutOfBounds.

Definition at_index (l : list Z) (i : Z) : res Z :=
  if decide (0 ≤ i) then
    match l !! Z.to_nat i with Some b => Ok b | None => Ub UB_OutOfBounds end
  else Ub UB_OutOfBounds.

(** The checksum at the end of the first [len] bytes of a buffer. *)
Definition check_packet (buf : list Z) (len : Z) : res bool :=
  pack_code1 ← at_index buf (len - 2);
  pack_code2 ← at_index buf (len - 1);
  Ok (bool_decide (u8_to_u16 pack_code2 pack_code1 = crc16check8 (take (Z.to_nat (len - 2)) buf))).

(** After the second head byte of a packet of fixed length: read the rest into
    contBuf, copy it to msgBuf, check it. *)
Definition fixed_packet (char1 char2 : Z) (len : Z) (handle : list Z → ST Rx unit) : ST Rx unit :=
  nread_loop contBuf set_contBuf 0 (Z.to_nat (len - 2));;
  r ← get;
  let msgBuf := [char1; char2] ++ take (Z.to_nat (len - 2)) (contBuf r) in
  good ← lift (check_packet msgBuf len);
  when good (handle msgBuf).

(** A block of the loop: when readBuf holds the first head byte, the next byte
    decides; true is the continue after a packet. *)
Definition on_head (char1 char2 : Z) (body : ST Rx unit) : ST Rx bool :=
  r ← get;
  if bool_decide (readBuf r = char1) then
    nread_byte;;
    r ← get;
    if bool_decide (readBuf r = char2) then body;; mret true else mret false
  else mret false.

(** *** The pose thread *)

(** abs(a - b) >= 4 in int *)
Definition moved (a b : Z) : res bool :=
  if decide (in_s 32 (a - b) ∧ a - b ≠ - 2 ^ 31) then Ok (4 <=? Z.abs (a - b))
  else Ub UB_SignedOverflow.

Definition handle_pose (msgBuf : list Z) : ST Rx unit :=
  let pose := read_robot_pose (drop 2 msgBuf) in
  let x := px (rp_point pose) in
  let y := py (rp_point pose) in
  act (ActPose x y (rp_yaw pose));;
  r ← get;
  mx ← lift (moved x (robot_X r));
  my ← (if mx : bool then mret true else lift (moved y (robot_Y r)));
  when my (act (ActPoseNet x y (rp_yaw pose));; modify (set_robot x y)).

Inductive ctl := Continue | Break.

Definition pose_iteration (timeout : bool) : ST Rx ctl :=
  r ← get;
  if negb (pose_conn r) || timeout then mret Continue
  else
    nread_byte;;
    r ← get;
    if bool_decide (readBuf r = 0xcc) then
      on_head 0xcc 0xdd (fixed_packet 0xcc 0xdd 28 handle_pose);; mret Continue
    else if negb (pose_conn r) then mret Break
    else mret Continue.

(** *** The low-frequency thread *)

(** int arithmetic on the length field of a packet *)
Definition packet_lengths (data_length : Z) : res (Z * Z) :=
  if decide (data_length + 2 + 6 < 2 ^ 31)
  then Ok (data_length + 2, 2 + 4 + (data_length + 2)) else Ub UB_SignedOverflow.

(** nread(fd, &data_length, 4): the bytes that came, over an int 0. *)
Definition nread_length : ST Rx Z :=
  bs ← nread 4;
  mret (swrap 32 (load_le bs)).

(** A map or path packet, of the length its header gives. *)
Section long.
Variables (char1 char2 : Z) (buf bbuf : Rx → list Z) (set_buf set_bbuf : list Z → Rx → Rx).
Variable handle : Z → ST Rx unit.

(** From the length on: data and checksum into the second buffer, then behind
    the header in the first. *)
Definition long_body (data_length : Z) : ST Rx unit :=
  '(dc_len, total_len) ← lift (packet_lengths data_length);
  nread_loop bbuf set_bbuf 0 (Z.to_nat dc_len);;
  r ← get;
  b ← lift (memcpy (buf r) 6 (bbuf r) dc_len);
  modify (set_buf b);;
  good ← lift (check_packet b total_len);
  when good (handle data_length);;
  modify (set_mapBuf (zeros 40000)).

Definition long_packet : ST Rx unit :=
  r ← get;
  b ← lift (memcpy (buf r) 0 [char1; char2] 2);
  modify (set_buf b);;
  data_length ← nread_length;
  r ← get;
  b ← lift (memcpy (buf r) 2 (serialize_int (u32 data_length)) 4);
  modify (set_buf b);;
  long_body data_length.
End long.

(** The blocks of the map are read and not used. *)
Definition handle_map (data_length : Z) : ST Rx unit :=
  modify (set_finish false);; modify (set_finish true).

Definition handle_zone (msgBuf : list Z) : ST Rx unit :=
  let pose := read_zone_pose (drop 2 msgBuf) in
  act (ActZone (px (zp_point pose)) (py (zp_point pose)) (zp_yaw pose)
         (read_point (drop 14 msgBuf)) (read_point (drop 22 msgBuf))).

(** The loop over the coordinates; path[] and Astart_point[][] hold
    data_length / 8 points. *)
Fixpoint read_path (buf : list Z) (n j : nat) (path : list Point) : res (list Point) :=
  match n with
  | O => Ok path
  | S n' =>
      if decide (6 + 4 * j + 4 ≤ length buf)%nat then
        let coord := load_int (drop (6 + 4 * j) buf) in
        match path !! (j / 2)%nat with
        | None => Ub UB_OutOfBounds
        | Some p =>
            let p' := if Nat.even j then mkPoint coord (py p) else mkPoint (px p) coord in
            read_path buf n' (S j) (<[(j / 2)%nat := p']> path)
        end
      else Ub UB_OutOfBounds
  end.

Definition handle_path (data_length : Z) : ST Rx unit :=
  r ← get;
  let path_count := Z.quot data_length 8 in
  let n := Z.to_nat ((data_length + 3) / 4) in
  path ← lift (read_path (pathBuf r) n 0 (replicate (Z.to_nat path_count) (mkPoint 0 0)));
  act (ActPath path);;
  act (ActAstar path).

Definition handle_cmd (msgBuf : list Z) : ST Rx unit :=
  cmd ← lift (at_index msgBuf 2);
  act (ActCmd cmd).

(** Checked, and then not used. *)
Definition handle_none (msgBuf : list Z) : ST Rx unit := mret tt.

Definition map_block : ST Rx bool :=
  on_head 0xaa 0xbb (long_packet 0xaa 0xbb mapBuf mapbBuf set_mapBuf set_mapbBuf handle_map).
Definition zone_block : ST Rx bool := on_head 0xee 0xff (fixed_packet 0xee 0xff 32 handle_zone).
Definition line_block : ST Rx bool := on_head 0x56 0x78 (fixed_packet 0x56 0x78 8 handle_none).
Definition path_block : ST Rx bool :=
  on_head 0x9b 0xac (long_packet 0x9b 0xac pathBuf pathbBuf set_pathBuf set_pathbBuf handle_path).
Definition cmd_block : ST Rx bool := on_head 0x12 0x34 (fixed_packet 0x12 0x34 5 handle_cmd).
Definition dist_block : ST Rx bool := on_head 0x9a 0xbc (fixed_packet 0x9a 0xbc 8 handle_none).
Definition tof_block : ST Rx bool := on_head 0x3a 0x3b (fixed_packet 0x3a 0x3b 5 handle_none).

(** The blocks in source order: a head whose second byte is wrong falls
    through, with that byte, to the blocks after it. *)
Fixpoint blocks (l : list (ST Rx bool)) : ST Rx bool :=
  match l with
  | [] => mret false
  | b :: l' => c ← b; if c : bool then mret true else blocks l'
  end.

Definition low_iteration (timeout : bool) : ST Rx ctl :=
  r ← get;
  if negb (low_conn r) || timeout then mret Continue
  else
    nread_byte;;
    c ← blocks [map_block; zone_block; line_block; path_block; cmd_block; dist_block];
    if c : bool then mret Continue
    else
      r ← get;
      if bool_decide (readBuf r = 0x3a) then tof_block;; mret Continue
      else if negb (low_conn r) then mret Break else mret Continue.
