(* ===== verification/NavigateTheorems.v ===== *)
(** * The navigation client: theorems

    Packets that were sent arrive, damaged ones are dropped, and what the
    unchecked length field and the end of a stream do. *)

From S2P Require Import Prelude Crc16 Serialize Navigate.
#[local] Open Scope Z_scope.

(** ** Heads and checksums *)


Lemma lor_bytes hi lo : is_byte hi → is_byte lo → u8_to_u16 hi lo = hi * 256 + lo.
Proof.
  intros Hh Hl. unfold u8_to_u16, is_byte in *. rewrite Z.shiftl_mul_pow2 by lia.
  rewrite uwrap_id by (unfold in_u; change (2 ^ 8) with 256; lia).
  change 256 with (2 ^ 8). apply Z.bits_inj'. intros i Hi. rewrite Z.lor_spec.
  destruct (Z.ltb_spec i 8) as [H8|H8].
  - rewrite Z.mul_pow2_bits_low by lia. simpl.
    rewrite <-(Z.mod_pow2_bits_low (hi * 2 ^ 8 + lo) 8 i) by lia.
    rewrite Z.add_comm, Z_mod_plus_full, Z.mod_small by lia. done.
  - assert (Z.testbit lo i = false) as ->.
    { rewrite <-(Z.mod_small lo (2 ^ 8)) by lia. by apply Z.mod_pow2_bits_high. }
    rewrite orb_false_r, Z.mul_pow2_bits by lia.
    assert ((hi * 2 ^ 8 + lo) / 2 ^ 8 = hi) as Hd by (rewrite Z.div_add_l, Z.div_small by lia; lia).
    rewrite <-Hd at 1. rewrite Z.div_pow2_bits by lia. f_equal. lia.
Qed.

Lemma serialize_short_bytes c : serialize_short c = [c mod 256; c / 256 mod 256].
Proof. by rewrite serialize_short_memcpy. Qed.

Lemma head_bytes c1 c2 : is_byte c1 → is_byte c2 → serialize_short (u8_to_u16 c2 c1) = [c1; c2].
Proof.
  intros H1 H2. rewrite lor_bytes, serialize_short_bytes by done. unfold is_byte in *.
  rewrite Z.add_comm, Z_mod_plus_full, Z_div_plus_full, Zdiv_small, !Z.mod_small by lia. done.
Qed.

Lemma code_bytes c : in_u 16 c → u8_to_u16 (c / 256 mod 256) (c mod 256) = c.
Proof.
  unfold in_u. intros Hc. assert (0 ≤ c / 256 < 256) as Hd.
  { split; [apply Z.div_pos; lia|apply Z.div_lt_upper_bound; lia]. }
  rewrite lor_bytes; [|apply Z.mod_pos_bound; lia|apply Z.mod_pos_bound; lia].
  rewrite (Z.mod_small (c / 256)) by done. pose proof (Z.div_mod c 256 ltac:(lia)). lia.
Qed.

Lemma packet_bytes s c1 c2 body :
  is_byte c1 → is_byte c2 →
  packet s c1 c2 body =
  c1 :: c2 :: body ++ serialize_short (crc16check s (c1 :: c2 :: body)).
Proof. intros H1 H2. unfold packet. by rewrite head_bytes. Qed.

(** Whether the two last bytes of a message are the checksum of the others. *)
Definition crc_good (msg : list Z) (lo hi : Z) : bool :=
  bool_decide (u8_to_u16 hi lo = crc16check8 msg).

Lemma crc_good_own msg :
  Forall is_byte msg → crc_good msg (crc16check8 msg mod 256) (crc16check8 msg / 256 mod 256) = true.
Proof. intros Hm. apply bool_decide_true. by apply code_bytes, crc8_range. Qed.

Lemma check_packet_run msg lo hi rest :
  check_packet (msg ++ [lo; hi] ++ rest) (Z.of_nat (length msg) + 2) = Ok (crc_good msg lo hi).
Proof.
  unfold check_packet, at_index.
  replace (Z.of_nat (length msg) + 2 - 2) with (Z.of_nat (length msg)) by lia.
  replace (Z.of_nat (length msg) + 2 - 1) with (Z.of_nat (length msg + 1)) by lia.
  rewrite !decide_True by lia. rewrite !Nat2Z.id.
  rewrite (lookup_app_r msg _ (length msg)), (lookup_app_r msg _ (length msg + 1)) by lia.
  replace (length msg - length msg)%nat with 0%nat by lia.
  replace (length msg + 1 - length msg)%nat with 1%nat by lia. simpl.
  by rewrite take_app_length.
Qed.

(** ** Reading *)

Definition to_items (l : list Z) : list item := Byte <$> l.

Lemma nread_byte_run b rest r :
  input r = Byte b :: rest → nread_byte r = Ok (tt, set_readBuf b (set_input rest r)).
Proof. intros Hi. unfold nread_byte, nread. rewrite !run_bind, run_get, Hi. done. Qed.

Lemma nread_byte_eof rest r :
  input r = Eof :: rest → nread_byte r = Ok (tt, client_low_close (set_input rest r)).
Proof. intros Hi. unfold nread_byte, nread. rewrite !run_bind, run_get, Hi. done. Qed.

Lemma take_bytes_all bs rest : take_bytes (length bs) (to_items bs ++ rest) = (bs, rest).
Proof. induction bs as [|b bs IH]; simpl; [done|]. by rewrite IH. Qed.

Lemma nread_run bs rest r :
  bs ≠ [] → input r = to_items bs ++ rest → nread (length bs) r = Ok (bs, set_input rest r).
Proof.
  intros Hne Hi. unfold nread. rewrite run_bind, run_get, Hi.
  destruct bs as [|b bs]; [done|].
  assert (read (length (b :: bs)) (to_items (b :: bs) ++ rest) = (Some (b :: bs), rest)) as ->.
  { pose proof (take_bytes_all (b :: bs) rest) as H. simpl in H |- *. by rewrite H. }
  done.
Qed.

Section fill.
Variables (buf : Rx → list Z) (set_buf : list Z → Rx → Rx).
Hypothesis buf_set : ∀ l r, buf (set_buf l r) = l.
Hypothesis input_set : ∀ l r, input (set_buf l r) = input r.
Hypothesis set_set : ∀ l l' r, set_buf l (set_buf l' r) = set_buf l r.
Hypothesis set_own : ∀ r, set_buf (buf r) r = r.
Hypothesis set_set_input : ∀ l x r, set_buf l (set_input x r) = set_input x (set_buf l r).
Hypothesis buf_set_input : ∀ x r, buf (set_input x r) = buf r.

Lemma store_run l (i : nat) b : (i < length l)%nat → store l i [b] = Ok (<[i := b]> l).
Proof. intros Hi. unfold store. by rewrite decide_True. Qed.

(** Filling a buffer from index [i] with bytes that are there. *)
Lemma nread_loop_run bs : ∀ i rest r,
  input r = to_items bs ++ rest → (i + length bs ≤ length (buf r))%nat →
  nread_loop buf set_buf i (length bs) r =
  Ok (tt, set_input rest (set_buf (take i (buf r) ++ bs ++ drop (i + length bs) (buf r)) r)).
Proof.
  induction bs as [|b bs IH]; intros i rest r Hi Hl; simpl.
  - rewrite Nat.add_0_r, take_drop, set_own. simpl in Hi. subst rest. by destruct r.
  - rewrite run_bind, (nread_run [b] (to_items bs ++ rest)) by done.
    rewrite run_bind, run_get, run_bind, buf_set_input. simpl in Hl.
    rewrite (run_lift _ (<[i := b]> (buf r))) by (apply store_run; lia).
    rewrite run_bind, run_modify, set_set_input, (IH (S i) rest).
    + f_equal. f_equal. rewrite buf_set_input, buf_set, set_set_input, set_set.
      assert (∀ x y r, set_input x (set_input y r) = set_input x r) as -> by done.
      f_equal. f_equal. rewrite (take_S_r _ _ b) by (apply list_lookup_insert_eq; lia).
      rewrite take_insert_ge, drop_insert_lt by lia. rewrite <-(assoc_L (++)). simpl.
      by rewrite Nat.add_succ_r.
    + done.
    + rewrite buf_set_input, buf_set, length_insert. lia.
Qed.
End fill.

(** ** Packets of a fixed length *)

Lemma fill_contBuf bs rest r :
  input r = to_items bs ++ rest → (length bs ≤ length (contBuf r))%nat →
  nread_loop contBuf set_contBuf 0 (length bs) r =
  Ok (tt, set_input rest (set_contBuf (bs ++ drop (length bs) (contBuf r)) r)).
Proof.
  intros Hi Hl. rewrite (nread_loop_run contBuf set_contBuf) with (rest := rest); try done.
  by intros [].
Qed.

(** The state after the packet [cont] was read into contBuf. *)
Definition after_cont (cont : list Z) (rest : list item) (r : Rx) : Rx :=
  set_input rest (set_contBuf (cont ++ drop (length cont) (contBuf r)) r).

Lemma fixed_packet_run c1 c2 body lo hi rest handle r :
  let cont := body ++ [lo; hi] in
  input r = to_items cont ++ rest → (length cont ≤ length (contBuf r))%nat →
  fixed_packet c1 c2 (Z.of_nat (length cont) + 2) handle r =
  when (crc_good (c1 :: c2 :: body) lo hi) (handle (c1 :: c2 :: cont)) (after_cont cont rest r).
Proof.
  intros cont Hi Hl. unfold fixed_packet.
  replace (Z.to_nat (Z.of_nat (length cont) + 2 - 2)) with (length cont) by lia.
  rewrite run_bind, (fill_contBuf cont rest) by done.
  rewrite run_bind, run_get. fold (after_cont cont rest r). cbv zeta.
  assert (take (length cont) (contBuf (after_cont cont rest r)) = cont) as ->.
  { simpl. by rewrite take_app_length. }
  rewrite run_bind.
  pose proof (check_packet_run (c1 :: c2 :: body) lo hi []) as Hc. simpl length in Hc.
  assert ([c1; c2] ++ cont = (c1 :: c2 :: body) ++ [lo; hi] ++ []) as -> by by rewrite app_nil_r.
  assert (Z.of_nat (length cont) + 2 = Z.of_nat (S (S (length body))) + 2) as ->
    by (unfold cont; rewrite length_app; simpl; lia).
  rewrite (run_lift _ _ _ Hc). rewrite app_nil_r. done.
Qed.

(** One block of the loop on a packet that starts with its head. *)
Lemma on_head_hit c1 c2 body rest r r' :
  readBuf r = c1 → input r = Byte c2 :: rest →
  body (set_readBuf c2 (set_input rest r)) = Ok (tt, r') →
  on_head c1 c2 body r = Ok (true, r').
Proof.
  intros H1 Hi Hb. unfold on_head. rewrite run_bind, run_get, bool_decide_true by done.
  rewrite run_bind, (nread_byte_run c2 rest) by done. rewrite run_bind, run_get.
  rewrite bool_decide_true by done. by rewrite run_bind, Hb.
Qed.
Lemma on_head_miss c1 c2 body r : readBuf r ≠ c1 → on_head c1 c2 body r = Ok (false, r).
Proof. intros H1. unfold on_head. by rewrite run_bind, run_get, bool_decide_false. Qed.

Lemma blocks_hit b l r r' : b r = Ok (true, r') → blocks (b :: l) r = Ok (true, r').
Proof. intros Hb. simpl. by rewrite run_bind, Hb. Qed.
Lemma blocks_miss b l r r' : b r = Ok (false, r') → blocks (b :: l) r = blocks l r'.
Proof. intros Hb. simpl. by rewrite run_bind, Hb. Qed.

(** An iteration of the low-frequency thread whose first byte heads a block. *)
Lemma low_iteration_run b rest r r' :
  low_conn r = true → input r = Byte b :: rest →
  blocks [map_block; zone_block; line_block; path_block; cmd_block; dist_block]
    (set_readBuf b (set_input rest r)) = Ok (true, r') →
  low_iteration false r = Ok (Continue, r').
Proof.
  intros Hc Hi Hb. unfold low_iteration. rewrite run_bind, run_get, Hc.
  cbv beta iota delta [negb orb]. by rewrite run_bind, (nread_byte_run b rest), run_bind, Hb.
Qed.

Ltac miss := rewrite blocks_miss with (r' := _) by (apply on_head_miss; discriminate).

(** Bytes written out in a list. *)
Ltac bytes := repeat first [apply Forall_nil_2 | apply Forall_cons_2; [first [done|unfold is_byte; lia]|]
                           | done | unfold is_byte; lia ].

(** A command that was sent arrives: the bytes of send_cmd, read by one
    iteration of the low-frequency thread, publish exactly that command and are
    consumed exactly, where char is unsigned or the command is below 128. *)
Theorem send_cmd_received s cmd rest r :
  is_byte cmd → s = false ∨ cmd < 128 →
  low_conn r = true → length (contBuf r) = 50%nat → input r = to_items (send_cmd s cmd) ++ rest →
  ∃ r', low_iteration false r = Ok (Continue, r') ∧ input r' = rest ∧
        acts r' = acts r ++ [ActCmd cmd].
Proof.
  intros Hcmd Hs Hc Hl Hi. unfold send_cmd in Hi.
  rewrite packet_bytes, crc16check_agrees, serialize_short_bytes in Hi; [|bytes..].
  2: { destruct Hs as [|]; [by left|right]. bytes. }
  assert (crc_good [18; 52; cmd] (crc16check8 [18; 52; cmd] mod 256)
    (crc16check8 [18; 52; cmd] / 256 mod 256) = true) as Hg by (apply crc_good_own; bytes).
  set (lo := _ mod 256) in Hg, Hi. set (hi := _ / 256 mod 256) in Hg, Hi. clearbody lo hi.
  eexists. split; [|split].
  - eapply low_iteration_run; [done|exact Hi|]. do 4 miss. apply blocks_hit.
    eapply on_head_hit; [done|done|].
    set (r1 := set_readBuf _ _).
    assert (fixed_packet 0x12 0x34 5 handle_cmd r1 =
      when (crc_good [18; 52; cmd] lo hi) (handle_cmd [18; 52; cmd; lo; hi])
        (after_cont [cmd; lo; hi] rest r1)) as ->.
    { apply (fixed_packet_run 18 52 [cmd] lo hi rest handle_cmd r1); [done|].
      change (contBuf r1) with (contBuf r). rewrite Hl. simpl. lia. }
    rewrite Hg. reflexivity.
  - done.
  - done.
Qed.

(** ** Damage *)

(** A damaged packet is dropped: whatever a fixed-length packet contains,
    if two adjacent bytes of its contents arrive changed (or one byte, or a
    burst of up to nine bits) the handler is not called; the packet is consumed
    and nothing else of the receiver's state changes. *)
Theorem damaged_packet_dropped c1 c2 b1 x y b2 x' y' rest handle r :
  let msg := c1 :: c2 :: b1 ++ x :: y :: b2 in
  let lo := crc16check8 msg mod 256 in
  let hi := crc16check8 msg / 256 mod 256 in
  let cont := (b1 ++ x' :: y' :: b2) ++ [lo; hi] in
  is_byte c1 → is_byte c2 → Forall is_byte b1 → Forall is_byte b2 →
  is_byte x → is_byte y → is_byte x' → is_byte y' → (x, y) ≠ (x', y') →
  (length cont ≤ length (contBuf r))%nat → input r = to_items cont ++ rest →
  fixed_packet c1 c2 (Z.of_nat (length cont) + 2) handle r = Ok (tt, after_cont cont rest r).
Proof.
  intros msg lo hi cont H1 H2 Hb1 Hb2 Hx Hy Hx' Hy' Hne Hl Hi. unfold cont.
  rewrite (fixed_packet_run c1 c2 _ lo hi rest) by done.
  assert (crc_good (c1 :: c2 :: b1 ++ x' :: y' :: b2) lo hi = false) as ->; [|done].
  apply bool_decide_false. unfold lo, hi. rewrite code_bytes.
  - apply (crc_detects_two_bytes (c1 :: c2 :: b1) x y x' y' b2); try done. by repeat (apply Forall_cons_2; [done|]).
  - apply crc8_range. repeat (apply Forall_cons_2; [done|]). apply Forall_app. split; [done|].
    by repeat (apply Forall_cons_2; [done|]).
Qed.

(** ** Poses *)

(** Far enough from the last pose that was passed on. *)
Definition far (r : Rx) (p : Point) : bool :=
  (4 <=? Z.abs (px p - robot_X r)) || (4 <=? Z.abs (py p - robot_Y r)).
(** The differences that abs() can take. *)
Definition near_int (r : Rx) (p : Point) : Prop :=
  Z.abs (px p - robot_X r) < 2 ^ 31 ∧ Z.abs (py p - robot_Y r) < 2 ^ 31.

Lemma moved_run a b : Z.abs (a - b) < 2 ^ 31 → moved a b = Ok (4 <=? Z.abs (a - b)).
Proof. intros H. unfold moved. rewrite decide_True; [done|]. unfold in_s. lia. Qed.

Lemma handle_pose_run p tl r :
  robot_pose_ok p → near_int r (rp_point p) →
  let x := px (rp_point p) in let y := py (rp_point p) in
  ∃ r', handle_pose (0xcc :: 0xdd :: write_robot_pose p ++ tl) r = Ok (tt, r') ∧
    input r' = input r ∧
    acts r' = acts r ++ ActPose x y (rp_yaw p) ::
      (if far r (rp_point p) then [ActPoseNet x y (rp_yaw p)] else []) ∧
    (robot_X r', robot_Y r') = (if far r (rp_point p) then (x, y) else (robot_X r, robot_Y r)).
Proof.
  intros Hp [Hx Hy] x y. unfold handle_pose.
  change (drop 2 (0xcc :: 0xdd :: write_robot_pose p ++ tl)) with (write_robot_pose p ++ tl).
  rewrite (@wire_back _ wire_ROBOT_POSE p tl Hp : read_robot_pose (write_robot_pose p ++ tl) = p).
  fold x y. cbv zeta. unfold far. fold x y in Hx, Hy |- *.
  unfold act. rewrite run_bind, run_modify, run_bind, run_get. simpl robot_X. simpl robot_Y.
  rewrite run_bind, (run_lift _ _ _ (moved_run _ _ Hx)).
  destruct (4 <=? Z.abs (x - robot_X r)); simpl.
  - eexists. split; [reflexivity|]. simpl. by rewrite <-(assoc_L (++)).
  - rewrite run_bind, (run_lift _ _ _ (moved_run _ _ Hy)).
    destruct (4 <=? Z.abs (y - robot_Y r)); simpl; (eexists; split; [reflexivity|]); simpl;
      by rewrite <-?(assoc_L (++)).
Qed.

(** The bytes of a pose packet. *)
Definition pose_packet (p : ROBOT_POSE) : list Z :=
  let msg := 0xcc :: 0xdd :: write_robot_pose p in msg ++ serialize_short (crc16check8 msg).

(** A pose that arrives undamaged is delivered with its own coordinates,
    and passed on to the network server exactly when it is at least 4 away, in
    x or in y, from the last one passed on, which it then replaces. *)
Theorem pose_received p rest r :
  robot_pose_ok p → near_int r (rp_point p) → pose_conn r = true → length (contBuf r) = 50%nat →
  input r = to_items (pose_packet p) ++ rest →
  ∃ r', pose_iteration false r = Ok (Continue, r') ∧ input r' = rest ∧
    acts r' = acts r ++ ActPose (px (rp_point p)) (py (rp_point p)) (rp_yaw p) ::
      (if far r (rp_point p)
       then [ActPoseNet (px (rp_point p)) (py (rp_point p)) (rp_yaw p)] else []) ∧
    (robot_X r', robot_Y r') =
      (if far r (rp_point p) then (px (rp_point p), py (rp_point p)) else (robot_X r, robot_Y r)).
Proof.
  intros Hp Hn Hc Hl Hi. unfold pose_packet in Hi. rewrite serialize_short_bytes in Hi.
  assert (Forall is_byte (0xcc :: 0xdd :: write_robot_pose p)) as Hb
    by (repeat (constructor; [unfold is_byte; lia|]); apply (@wire_bytes _ wire_ROBOT_POSE p Hp)).
  pose proof (crc_good_own _ Hb) as Hg.
  set (lo := _ mod 256) in Hg, Hi. set (hi := _ / 256 mod 256) in Hg, Hi. clearbody lo hi.
  set (cont := write_robot_pose p ++ [lo; hi]).
  assert (length cont = 26%nat) as Hcl
    by (unfold cont; rewrite length_app; rewrite (@wire_length _ wire_ROBOT_POSE p Hp : length (write_robot_pose p) = 24%nat); done).
  set (r1 := set_readBuf 0xdd (set_input (to_items cont ++ rest)
               (set_readBuf 0xcc (set_input (Byte 0xdd :: to_items cont ++ rest) r)))).
  destruct (handle_pose_run p [lo; hi] (after_cont cont rest r1) Hp Hn) as (r' & Hr' & Hrest).
  exists r'. split; [|exact Hrest]. unfold pose_iteration. rewrite run_bind, run_get, Hc.
  cbv beta iota delta [negb orb].
  rewrite run_bind, (nread_byte_run 0xcc (Byte 0xdd :: to_items cont ++ rest))
    by (rewrite Hi; done). rewrite run_bind, run_get, bool_decide_true by done.
  rewrite run_bind. erewrite on_head_hit; [reflexivity|done|done|]. fold r1.
  assert (fixed_packet 0xcc 0xdd 28 handle_pose r1 =
    when (crc_good (0xcc :: 0xdd :: write_robot_pose p) lo hi)
      (handle_pose (0xcc :: 0xdd :: cont)) (after_cont cont rest r1)) as ->.
  { pose proof (fixed_packet_run 0xcc 0xdd (write_robot_pose p) lo hi rest handle_pose r1) as Hf.
    cbv zeta in Hf. fold cont in Hf. rewrite Hcl in Hf. apply Hf; [done|].
    change (contBuf r1) with (contBuf r). rewrite Hl. lia. }
  by rewrite Hg.
Qed.

(** The end of the pose stream closes the wrong socket: nread on the pose
    socket closes the low-frequency one, the pose connection stays marked as
    connected (so nobody reconnects it) and the thread goes on with the byte it
    read last. *)
Theorem pose_eof_closes_low rest r :
  pose_conn r = true → readBuf r ≠ 0xcc → input r = Eof :: rest →
  ∃ r', pose_iteration false r = Ok (Continue, r') ∧
    pose_conn r' = true ∧ low_conn r' = false ∧ readBuf r' = readBuf r ∧ acts r' = acts r.
Proof.
  intros Hc Hb Hi. unfold pose_iteration. rewrite run_bind, run_get, Hc.
  cbv beta iota delta [negb orb]. rewrite run_bind, (nread_byte_eof rest) by done.
  rewrite run_bind, run_get, bool_decide_false by done.
  change (pose_conn (client_low_close _)) with (pose_conn r). rewrite Hc. by eexists.
Qed.

(** ** Packets of a length the sender chooses *)

(** The buffers have the sizes they were declared with. *)
Record wf_rx (r : Rx) : Prop := {
  wf_cont : Z.of_nat (length (contBuf r)) = 50;
  wf_map : Z.of_nat (length (mapBuf r)) = 40000;
  wf_mapb : Z.of_nat (length (mapbBuf r)) = 40000;
  wf_path : Z.of_nat (length (pathBuf r)) = 10000;
  wf_pathb : Z.of_nat (length (pathbBuf r)) = 10000 }.

Lemma zeros_length n : 0 ≤ n → Z.of_nat (length (zeros n)) = n.
Proof. intros Hn. unfold zeros. rewrite length_replicate. lia. Qed.

Lemma init_rx_wf l : wf_rx (init_rx l).
Proof. split; apply zeros_length; lia. Qed.

Lemma memcpy_run dst off src n :
  0 ≤ n → Z.of_nat off + n ≤ Z.of_nat (length dst) → n ≤ Z.of_nat (length src) →
  ∃ b, memcpy dst off src n = Ok b ∧ length b = length dst.
Proof.
  intros H1 H2 H3. unfold memcpy. rewrite decide_True by lia. eexists. split; [done|].
  rewrite !length_app, !length_take, length_drop. lia.
Qed.

Lemma memcpy_exact dst off src n b :
  memcpy dst off src n = Ok b → 0 ≤ n →
  b = take off dst ++ take (Z.to_nat n) src ++ drop (off + Z.to_nat n) dst ∧
  (off ≤ length dst)%nat ∧ (Z.to_nat n ≤ length src)%nat.
Proof. unfold memcpy. case_decide; [|done]. intros [= <-] Hn. split; [done|]. lia. Qed.

(** Two pieces written one behind the other. *)
Lemma memcpy_head dst b1 b2 s1 s2 n :
  memcpy dst 0 s1 n = Ok b1 → memcpy b1 (Z.to_nat n) s2 4 = Ok b2 →
  Z.of_nat (length s1) = n → length s2 = 4%nat →
  take (Z.to_nat n + 4) b2 = s1 ++ s2.
Proof.
  intros H1 H2 Hn Hs. apply memcpy_exact in H1 as (-> & _ & _); [|lia].
  apply memcpy_exact in H2 as (-> & Hl & _); [|lia].
  rewrite <-Hn, Nat2Z.id in *. change (Z.to_nat 4) with 4%nat. rewrite <-Hs, !firstn_all. simpl.
  rewrite take_app_length, (assoc_L (++) s1 s2), <-length_app. by rewrite take_app_length.
Qed.

Lemma pres_nread U n : pres U wf_rx (nread n).
Proof.
  intros r Hr. unfold nread. rewrite run_bind, run_get.
  destruct (read n (input r)) as [[[|b bs]|] rest]; simpl; by destruct Hr.
Qed.

(** The loop of map bytes stays in the buffer exactly when its bound does. *)
Lemma map_loop_in n : ∀ i,
  Z.of_nat (i + n) ≤ 40000 → pres no_ub wf_rx (nread_loop mapbBuf set_mapbBuf i n).
Proof.
  induction n as [|n IH]; intros i Hn; simpl; [apply pres_ret|].
  apply pres_bind; [apply pres_nread|]. intros bs. apply triple_get_bind. intros r.
  intros r0 [Hr ->]. pose proof (wf_mapb _ Hr) as Hb. unfold store.
  rewrite run_bind, decide_True by lia. rewrite (run_lift _ _ _ eq_refl), run_bind, run_modify.
  apply (IH (S i)); [lia|]. destruct Hr. split; try done. simpl.
  destruct bs; [done|]. by rewrite length_insert.
Qed.

Lemma map_loop_out n : ∀ i r,
  wf_rx r → 40000 < Z.of_nat (i + n) → Z.of_nat i ≤ 40000 →
  nread_loop mapbBuf set_mapbBuf i n r = Ub UB_OutOfBounds.
Proof.
  induction n as [|n IH]; intros i r Hr Hn Hi; simpl; [lia|].
  pose proof (pres_nread no_ub 1 r Hr) as H1.
  rewrite run_bind. destruct (nread 1 r) as [[bs r1]|]; [|done].
  rewrite run_bind, run_get, run_bind. pose proof (wf_mapb _ H1) as Hb. unfold store.
  case_decide as Hd; [|done]. rewrite (run_lift _ _ _ eq_refl), run_bind, run_modify.
  apply IH; [|lia|lia]. destruct H1. split; try done. simpl.
  destruct bs; [done|]. by rewrite length_insert.
Qed.

Abbreviation map_body := (long_body mapBuf mapbBuf set_mapBuf set_mapbBuf handle_map).

Lemma check_packet_total b n :
  2 ≤ n → n ≤ Z.of_nat (length b) → ∃ g, check_packet b n = Ok g.
Proof.
  intros H2 Hn. unfold check_packet, at_index. rewrite !decide_True by lia.
  destruct (lookup_lt_is_Some_2 b (Z.to_nat (n - 2))) as [x ->]; [lia|].
  destruct (lookup_lt_is_Some_2 b (Z.to_nat (n - 1))) as [y ->]; [lia|]. by eexists.
Qed.

Lemma map_body_in L : -2 ≤ L ≤ 39992 → pres no_ub wf_rx (map_body L).
Proof.
  intros HL. unfold long_body, packet_lengths. rewrite decide_True by lia.
  intros r Hr. rewrite run_bind, (run_lift _ _ _ eq_refl). cbv beta iota.
  revert r Hr. apply pres_bind; [apply map_loop_in; lia|]. intros _. apply triple_get_bind.
  intros r r0 [Hr ->]. pose proof (wf_map _ Hr) as Hm. pose proof (wf_mapb _ Hr) as Hb.
  destruct (memcpy_run (mapBuf r) 6 (mapbBuf r) (L + 2)) as (b & Hc & Hl); [lia..|].
  rewrite run_bind, (run_lift _ _ _ Hc), run_bind, run_modify.
  destruct (check_packet_total b (2 + 4 + (L + 2))) as [g Hg]; [lia..|].
  rewrite run_bind, (run_lift _ _ _ Hg), run_bind. unfold handle_map.
  pose proof (zeros_length 40000 ltac:(lia)) as Hz.
  destruct g; simpl; destruct Hr; split; done.
Qed.

Lemma map_body_out L r :
  in_s 32 L → L < -2 ∨ 39992 < L → wf_rx r → ∃ u, map_body L r = Ub u.
Proof.
  unfold in_s. intros HL Hout Hr. unfold long_body, packet_lengths.
  case_decide as Hd; [|by eexists]. rewrite run_bind, (run_lift _ _ _ eq_refl). cbv beta iota.
  destruct (decide (39998 < L)) as [Hbig|Hbig].
  { rewrite run_bind, map_loop_out by (done || lia). by eexists. }
  rewrite run_bind. pose proof (map_loop_in (Z.to_nat (L + 2)) 0 ltac:(lia) r Hr) as H1.
  destruct (nread_loop _ _ _ _ _) as [[[] r1]|]; [|done].
  rewrite run_bind, run_get, run_bind. unfold memcpy.
  pose proof (wf_map _ H1). pose proof (wf_mapb _ H1).
  rewrite decide_False by (intros Hx; lia). by eexists.
Qed.

(** The head and the length of a map packet. *)
Lemma map_header_run L rest r :
  wf_rx r → low_conn r = true → in_s 32 L →
  input r = to_items (0xaa :: 0xbb :: memcpy_le 4 L) ++ rest →
  ∃ r2, wf_rx r2 ∧ input r2 = rest ∧ acts r2 = acts r ∧
    take 6 (mapBuf r2) = 0xaa :: 0xbb :: memcpy_le 4 L ∧
    low_iteration false r = match map_body L r2 with Ok (_, r') => Ok (Continue, r') | Ub u => Ub u end.
Proof.
  intros Hr Hc HL Hi. pose proof (wf_map _ Hr) as Hm.
  set (r1 := set_readBuf 0xbb (set_input (to_items (memcpy_le 4 L) ++ rest)
               (set_readBuf 0xaa (set_input (Byte 0xbb :: to_items (memcpy_le 4 L) ++ rest) r)))).
  destruct (memcpy_run (mapBuf r1) 0 [0xaa; 0xbb] 2) as (b1 & Hb1 & Hl1); [lia|simpl; lia|simpl; lia|].
  destruct (memcpy_run b1 2 (serialize_int (u32 L)) 4) as (b2 & Hb2 & Hl2);
    [lia|rewrite Hl1; simpl; lia|simpl; lia|].
  exists (set_mapBuf b2 (set_input rest (set_mapBuf b1 r1))). split.
  { destruct Hr. split; try done. simpl. rewrite Hl2, Hl1. done. }
  split; [done|]. split; [done|]. split.
  { apply (memcpy_head (mapBuf r1) b1 b2 [0xaa; 0xbb] (serialize_int (u32 L)) 2) in Hb1;
      [|exact Hb2|done|done]. rewrite serialize_int_memcpy, memcpy_u32 in Hb1. exact Hb1. }
  unfold low_iteration. rewrite run_bind, run_get, Hc. cbv beta iota delta [negb orb].
  rewrite run_bind, (nread_byte_run 0xaa (Byte 0xbb :: to_items (memcpy_le 4 L) ++ rest))
    by (rewrite Hi; done).
  unfold blocks at 1. rewrite run_bind, run_bind. unfold map_block at 1. unfold on_head at 1.
  rewrite run_bind, run_get, bool_decide_true by done.
  rewrite run_bind, (nread_byte_run 0xbb (to_items (memcpy_le 4 L) ++ rest)) by done. fold r1.
  rewrite run_bind, run_get, bool_decide_true by done. rewrite run_bind. unfold long_packet.
  rewrite run_bind, run_get, run_bind, (run_lift _ _ _ Hb1), run_bind, run_modify, run_bind.
  unfold nread_length at 1. rewrite run_bind.
  assert (nread 4 (set_mapBuf b1 r1) = Ok (memcpy_le 4 L, set_input rest (set_mapBuf b1 r1))) as ->.
  { by apply (nread_run (memcpy_le 4 L) rest (set_mapBuf b1 r1)). }
  rewrite run_ret. assert (swrap 32 (load_le (memcpy_le 4 L)) = L) as ->.
  { pose proof (load_int_memcpy L [] HL) as Hx. unfold load_int in Hx. by rewrite app_nil_r in Hx. }
  rewrite run_bind, run_get, run_bind, (run_lift _ _ _ Hb2), run_bind, run_modify.
  by destruct (map_body L _) as [[[] r']|].
Qed.

(** Nobody checks the length field of a map packet before the bytes are
    stored: the iteration runs out of its buffers exactly when the length is
    below -2 or above 39992, whatever follows, the checksum included. *)
Theorem map_length_unchecked L rest r :
  wf_rx r → low_conn r = true → in_s 32 L →
  input r = to_items (0xaa :: 0xbb :: memcpy_le 4 L) ++ rest →
  (∃ u, low_iteration false r = Ub u) ↔ L < -2 ∨ 39992 < L.
Proof.
  intros Hr Hc HL Hi. destruct (map_header_run L rest r Hr Hc HL Hi) as (r2 & Hr2 & _ & _ & _ & ->). split.
  - intros [u Hu]. destruct (decide (-2 ≤ L ≤ 39992)) as [Hin|]; [|lia].
    pose proof (map_body_in L Hin r2 Hr2) as Hp. by destruct (map_body L r2) as [[]|].
  - intros Hout. destruct (map_body_out L r2 HL Hout Hr2) as [u ->]. by exists u.
Qed.

Lemma fill_mapbBuf bs rest r :
  input r = to_items bs ++ rest → (length bs ≤ length (mapbBuf r))%nat →
  nread_loop mapbBuf set_mapbBuf 0 (length bs) r =
  Ok (tt, set_input rest (set_mapbBuf (bs ++ drop (length bs) (mapbBuf r)) r)).
Proof.
  intros Hi Hl. rewrite (nread_loop_run mapbBuf set_mapbBuf) with (rest := rest); try done.
  by intros [].
Qed.

Lemma map_body_good data lo hi rest r :
  let L := Z.of_nat (length data) in
  let msg := 0xaa :: 0xbb :: memcpy_le 4 L ++ data in
  wf_rx r → L ≤ 39992 → take 6 (mapBuf r) = 0xaa :: 0xbb :: memcpy_le 4 L →
  input r = to_items (data ++ [lo; hi]) ++ rest → crc_good msg lo hi = true →
  ∃ r', map_body L r = Ok (tt, r') ∧ input r' = rest ∧ acts r' = acts r ∧
        map_receive_finish r' = true.
Proof.
  intros L msg Hr HL Hh Hi Hg. unfold long_body, packet_lengths. rewrite decide_True by lia.
  rewrite run_bind, (run_lift _ _ _ eq_refl). cbv beta iota. rewrite run_bind.
  pose proof (wf_mapb _ Hr) as Hmb. pose proof (wf_map _ Hr) as Hm.
  assert (Z.to_nat (L + 2) = length (data ++ [lo; hi])) as Hn
    by (rewrite length_app; simpl; unfold L; lia).
  rewrite Hn, (fill_mapbBuf (data ++ [lo; hi]) rest) by (done || (rewrite <-Hn; lia)).
  rewrite run_bind, run_get. set (r1 := set_input rest _).
  destruct (memcpy_run (mapBuf r1) 6 (mapbBuf r1) (L + 2)) as (b & Hb & Hl).
  { lia. } { simpl. lia. } { simpl. rewrite length_app, <-Hn. lia. }
  rewrite run_bind, (run_lift _ _ _ Hb), run_bind, run_modify.
  apply memcpy_exact in Hb as (Hb & _ & _); [|lia].
  rewrite Hn in Hb. simpl in Hb. rewrite Hh, take_app_length in Hb.
  assert (b = msg ++ [lo; hi] ++ drop (6 + length (data ++ [lo; hi])) (mapBuf r)) as Hb'.
  { rewrite Hb. unfold msg. simpl. by rewrite <-!(assoc_L (++)). }
  assert (check_packet b (2 + 4 + (L + 2)) = Ok (crc_good msg lo hi)) as Hc.
  { rewrite Hb'. replace (2 + 4 + (L + 2)) with (Z.of_nat (length msg) + 2).
    - apply check_packet_run.
    - assert (length msg = 6 + length data)%nat as -> by done. unfold L. lia. }
  rewrite run_bind, (run_lift _ _ _ Hc), Hg, run_bind. unfold handle_map. simpl.
  by eexists.
Qed.

(** What followwall_maps_upload writes: the head, the length, the blocks, the
    checksum over all of them. *)
Definition map_bytes (blocks : list BLOCK_DATA) : list Z :=
  let msg := 0xaa :: 0xbb :: memcpy_le 4 (9 * Z.of_nat (length blocks)) ++ serialize_blocks_data blocks in
  msg ++ [crc16check8 msg mod 256; crc16check8 msg / 256 mod 256].

Lemma map_message_bytes blocks : Forall block_ok blocks →
  Forall is_byte (0xaa :: 0xbb :: memcpy_le 4 (9 * Z.of_nat (length blocks)) ++ serialize_blocks_data blocks).
Proof.
  intros Hb. repeat (apply Forall_cons_2; [unfold is_byte; lia|]). apply Forall_app.
  split; [apply memcpy_le_bytes|apply (@wire_array_bytes _ wire_BLOCK_DATA blocks Hb)].
Qed.

Lemma map_upload_run blocks : Forall block_ok blocks →
  followwall_maps_upload false blocks =
  if decide (Z.of_nat (length blocks) ≤ 5554) then Ok (map_bytes blocks) else Ub UB_OutOfBounds.
Proof.
  intros Hb. unfold followwall_maps_upload, sizeof_BLOCK_DATA, map_bytes. pose proof (map_message_bytes blocks Hb) as Hbytes.
  case_decide as H1; case_decide as H2; [|lia|lia|done].
  rewrite packet_bytes, serialize_int_memcpy, memcpy_u32, crc16check_agrees, serialize_short_bytes;
    [|done|by left|unfold is_byte; lia..]. f_equal.
Qed.

(** The blocks stand behind each other in the packet. *)
Lemma map_bytes_blocks blocks i b : Forall block_ok blocks → blocks !! i = Some b → read_block (drop (6 + i * 9) (map_bytes blocks)) = b.
Proof.
  intros Hb Hi. unfold map_bytes. rewrite <-drop_drop. cbn [app].
  change (drop 6 (170 :: 187 :: ?x)) with (drop 4 x).
  rewrite <-(assoc_L (++)), drop_memcpy. exact (@wire_array _ wire_BLOCK_DATA blocks i b _ Hb Hi).
Qed.

(** C20. The map that followwall_maps_upload writes (char being unsigned) and what
    the low-frequency thread makes of it.  More than 5554 blocks do not fit the
    sender's buffer of 50000 bytes.  Up to there the packet is written, and each
    block can be read back at its place in it.  The thread accepts it for up to
    4443 blocks: the checksum is right, exactly the packet is consumed, and the
    flag says that a map was received.  With 4444 to 5554 blocks, which the sender
    lets through, the thread runs out of its own buffers. *)
Theorem map_upload_received blocks :
  Forall block_ok blocks → let n := Z.of_nat (length blocks) in
  (5554 < n → followwall_maps_upload false blocks = Ub UB_OutOfBounds) ∧
  (n ≤ 5554 → ∃ bytes, followwall_maps_upload false blocks = Ok bytes ∧
    (∀ i b, blocks !! i = Some b → read_block (drop (6 + i * 9) bytes) = b) ∧
    ∀ rest r, wf_rx r → low_conn r = true → input r = to_items bytes ++ rest →
    (n ≤ 4443 → ∃ r', low_iteration false r = Ok (Continue, r') ∧ input r' = rest ∧ acts r' = acts r ∧
                      map_receive_finish r' = true) ∧
    (4443 < n → ∃ u, low_iteration false r = Ub u)).
Proof.
  intros Hb n. rewrite (map_upload_run blocks Hb). fold n. split; [intros; by rewrite decide_False by lia|].
  intros Hn. rewrite decide_True by done. exists (map_bytes blocks). split; [done|].
  split; [by intros; apply map_bytes_blocks|]. intros rest r Hr Hc Hi.
  pose proof (crc_good_own _ (map_message_bytes blocks Hb)) as Hg. unfold map_bytes in Hi. fold n in Hg, Hi.
  set (L := 9 * n) in *. set (data := serialize_blocks_data blocks) in *.
  assert (L = Z.of_nat (length data)) as HL.
  { assert (length data = (length blocks * 9)%nat) as -> by apply (@wire_array_length _ wire_BLOCK_DATA blocks Hb). unfold L, n. lia. }
  set (lo := _ mod 256) in Hg, Hi. set (hi := _ / 256 mod 256) in Hg, Hi. clearbody lo hi.
  destruct (map_header_run L (to_items (data ++ [lo; hi]) ++ rest) r)
    as (r2 & Hr2 & Hi2 & Ha2 & Hh2 & ->); [done|done|unfold in_s; lia| |].
  { rewrite Hi, (assoc_L (++)). unfold to_items. rewrite <-fmap_app. cbn [app]. by rewrite <-(assoc_L (++)). }
  rewrite HL in Hg, Hh2 |- *. split; intros H4.
  - destruct (map_body_good data lo hi rest r2) as (r' & -> & Hi' & Ha' & Hf'); try done; [lia|].
    exists r'. split; [done|]. split; [done|]. split; [congruence|done].
  - destruct (map_body_out (Z.of_nat (length data)) r2) as [u ->]; [unfold in_s; lia|lia|done|by exists u].
Qed.

(** ** The theorems at concrete inputs *)

Lemma send_cmd_received_witness :
  let r := init_rx (to_items (send_cmd false 7) ++ [Eof]) in
  ∃ r', low_iteration false r = Ok (Continue, r') ∧ input r' = [Eof] ∧
        acts r' = acts r ++ [ActCmd 7].
Proof.
  intros r. apply (send_cmd_received false 7 [Eof] r);
    [unfold is_byte; lia|by left|reflexivity|reflexivity|reflexivity].
Defined.

(** A distance packet whose third and fourth byte were changed. *)
Lemma damaged_packet_dropped_witness :
  let lo := crc16check8 [0x9a; 0xbc; 1; 2; 3; 4] mod 256 in
  let hi := crc16check8 [0x9a; 0xbc; 1; 2; 3; 4] / 256 mod 256 in
  let cont := [1; 9; 8; 4; lo; hi] in
  let r := init_rx (to_items cont) in
  fixed_packet 0x9a 0xbc 8 handle_cmd r = Ok (tt, after_cont cont [] r).
Proof.
  intros lo hi cont r.
  apply (damaged_packet_dropped 0x9a 0xbc [1] 2 3 [4] 9 8 [] handle_cmd r);
    try (unfold is_byte; lia); try (repeat constructor; unfold is_byte; lia); try done.
Defined.

Lemma pose_received_witness :
  let p := mkRobotPose (mkPoint 100 (-20)) 90 (mkPoint 0 0) 45 in
  let r := init_rx (to_items (pose_packet p) ++ [Gap]) in
  ∃ r', pose_iteration false r = Ok (Continue, r') ∧ input r' = [Gap] ∧
    acts r' = [] ++ [ActPose 100 (-20) 90; ActPoseNet 100 (-20) 90] ∧
    (robot_X r', robot_Y r') = (100, -20).
Proof.
  intros p r. apply (pose_received p [Gap] r).
  - by apply (bool_decide_unpack (robot_pose_ok p)).
  - unfold near_int, in_s. simpl. lia.
  - reflexivity.
  - reflexivity.
  - reflexivity.
Defined.

Lemma pose_eof_closes_low_witness :
  let r := init_rx [Eof; Byte 1] in
  ∃ r', pose_iteration false r = Ok (Continue, r') ∧
    pose_conn r' = true ∧ low_conn r' = false ∧ readBuf r' = readBuf r ∧ acts r' = acts r.
Proof. intros r. apply (pose_eof_closes_low [Byte 1] r); [reflexivity|done|reflexivity]. Defined.

Lemma map_length_unchecked_witness :
  let r := init_rx (to_items (0xaa :: 0xbb :: memcpy_le 4 39993)) in
  (∃ u, low_iteration false r = Ub u) ↔ 39993 < -2 ∨ 39992 < 39993.
Proof.
  intros r. apply (map_length_unchecked 39993 [] r);
    [apply init_rx_wf|reflexivity|unfold in_s; lia|by rewrite app_nil_r].
Defined.

Lemma map_upload_received_witness :
  let bs := [mkBlock (mkPoint 3 (-4)) 1; mkBlock (mkPoint 5 6) 0] in
  ∃ bytes, followwall_maps_upload false bs = Ok bytes ∧
    read_block (drop 15 bytes) = mkBlock (mkPoint 5 6) 0 ∧
    ∃ r', low_iteration false (init_rx (to_items bytes)) = Ok (Continue, r') ∧ input r' = [] ∧
          acts r' = [] ∧ map_receive_finish r' = true.
Proof.
  intros bs.
  destruct (map_upload_received bs) as [_ H]; [by apply (bool_decide_unpack (Forall block_ok bs))|].
  destruct H as (bytes & Hb & Hback & Hrun); [simpl; lia|].
  exists bytes. split; [exact Hb|]. split; [exact (Hback 1%nat _ eq_refl)|].
  apply (Hrun [] (init_rx (to_items bytes))); [apply init_rx_wf|reflexivity|by rewrite app_nil_r|simpl; lia].
Defined.
