(* ===== verification/PathPackets.v ===== *)
(** * The path packets of the navigation client

    src/lib_app/robot_schedule/socket/navigate.cpp, the path branch of
    client_low_read: the coordinates are read into two arrays of
    data_length / 8 points, by a loop that counts to data_length in steps
    of four. *)

From S2P Require Import Prelude Crc16 Serialize Navigate.
#[local] Open Scope Z_scope.

Definition origin : Point := mkPoint 0 0.

(** Two turns of the loop read a point. *)
Lemma read_path_two buf n i path p rest :
  drop (6 + 8 * i) buf = serialize_point_data p ++ rest → point_ok p → (i < length path)%nat →
  read_path buf (S (S n)) (2 * i) path = read_path buf n (2 * S i) (<[i := p]> path).
Proof.
  intros Hd [Hx Hy] Hi. rewrite serialize_point_memcpy in Hd.
  assert (length (drop (6 + 8 * i) buf) = 8 + length rest)%nat as Hl
    by (rewrite Hd, !length_app, !memcpy_le_length; lia).
  rewrite length_drop in Hl.
  assert (load_int (drop (6 + 4 * (2 * i)) buf) = px p) as Hpx.
  { replace (6 + 4 * (2 * i))%nat with (6 + 8 * i)%nat by lia.
    rewrite Hd, <-(assoc_L (++)). by apply load_int_memcpy. }
  assert (load_int (drop (6 + 4 * S (2 * i)) buf) = py p) as Hpy.
  { replace (6 + 4 * S (2 * i))%nat with ((6 + 8 * i) + 4)%nat by lia.
    rewrite <-drop_drop, Hd, <-(assoc_L (++)), drop_memcpy. by apply load_int_memcpy. }
  destruct (lookup_lt_is_Some_2 path i Hi) as [q Hq].
  cbn [read_path]. rewrite decide_True by lia. rewrite Hpx.
  replace (2 * i / 2)%nat with i by (by rewrite Nat.mul_comm, Nat.div_mul).
  rewrite Hq. rewrite (proj2 (Nat.even_spec (2 * i)) (ex_intro _ i eq_refl)).
  rewrite decide_True by lia. rewrite Hpy.
  replace (S (2 * i) / 2)%nat with i.
  2: { replace (S (2 * i)) with (1 + i * 2)%nat by lia. by rewrite Nat.div_add. }
  rewrite list_lookup_insert_eq by done.
  assert (Nat.even (S (2 * i)) = false) as ->.
  { rewrite Nat.even_succ, <-Nat.negb_even. by rewrite (proj2 (Nat.even_spec (2 * i)) (ex_intro _ i eq_refl)). }
  rewrite list_insert_insert_eq. replace (S (S (2 * i))) with (2 * S i)%nat by lia. by destruct p.
Qed.

Lemma read_path_points buf pts : ∀ i pre rest,
  drop (6 + 8 * i) buf = concat (serialize_point_data <$> pts) ++ rest →
  Forall point_ok pts → length pre = i →
  read_path buf (2 * length pts) (2 * i) (pre ++ replicate (length pts) origin) = Ok (pre ++ pts).
Proof.
  induction pts as [|p pts IH]; intros i pre rest Hd Hok Hi; [done|].
  apply Forall_cons in Hok as [Hp Hok].
  change (concat (serialize_point_data <$> p :: pts)) with
    (serialize_point_data p ++ concat (serialize_point_data <$> pts)) in Hd.
  rewrite <-(assoc_L (++)) in Hd.
  replace (2 * length (p :: pts))%nat with (S (S (2 * length pts))) by (simpl; lia).
  rewrite (read_path_two _ _ _ _ p _ Hd Hp) by (rewrite length_app, length_replicate; simpl; lia).
  simpl replicate. rewrite insert_app_r_alt, Hi, Nat.sub_diag by lia. simpl.
  rewrite !(cons_middle p), !(assoc_L (++)). change (S (i + S (i + 0)))%nat with (2 * S i)%nat at 1.
  replace (S (i + S (i + 0)))%nat with (2 * S i)%nat by lia.
  apply (IH (S i) (pre ++ [p]) rest); [|done|rewrite length_app; simpl; lia].
  replace (6 + 8 * S i)%nat with ((6 + 8 * i) + 8)%nat by lia.
  rewrite <-drop_drop, Hd. apply drop_app_length'.
  by rewrite serialize_point_memcpy, length_app, !memcpy_le_length.
Qed.

(** The loop within and beyond the arrays. *)
Lemma read_path_in buf n : ∀ j path,
  (6 + 4 * (j + n) ≤ length buf)%nat → (j + n ≤ 2 * length path)%nat →
  ∃ path', read_path buf n j path = Ok path'.
Proof.
  induction n as [|n IH]; intros j path Hb Hp; [by eexists|]. cbn [read_path].
  rewrite decide_True by lia.
  destruct (lookup_lt_is_Some_2 path (j / 2)) as [q ->]; [apply Nat.div_lt_upper_bound; lia|].
  apply IH; [lia|rewrite length_insert; lia].
Qed.

Lemma read_path_out buf n : ∀ j path,
  (2 * length path < j + n)%nat → (j ≤ 2 * length path)%nat →
  read_path buf n j path = Ub UB_OutOfBounds.
Proof.
  induction n as [|n IH]; intros j path Hn Hj; [lia|]. cbn [read_path]. case_decide; [|done].
  destruct (path !! (j / 2)%nat) as [q|] eqn:Hq; [|done].
  apply lookup_lt_Some in Hq. apply IH; rewrite length_insert; [lia|].
  assert (j ≠ 2 * length path)%nat as Hne; [|lia]. intros ->.
  rewrite Nat.mul_comm, Nat.div_mul in Hq; lia.
Qed.

(** A path packet of whole points is handed over point for point, to
    path_download and in the astar_plan message. *)
Theorem path_received header pts rest r :
  length header = 6%nat → Forall point_ok pts →
  pathBuf r = header ++ concat (serialize_point_data <$> pts) ++ rest →
  ∃ r', handle_path (8 * Z.of_nat (length pts)) r = Ok (tt, r') ∧
        acts r' = acts r ++ [ActPath pts; ActAstar pts].
Proof.
  intros Hh Hok Hb. unfold handle_path. rewrite run_bind, run_get.
  replace (Z.to_nat ((8 * Z.of_nat (length pts) + 3) / 4)) with (2 * length pts)%nat.
  2: { replace (8 * Z.of_nat (length pts) + 3) with (3 + (2 * Z.of_nat (length pts)) * 4) by lia.
       rewrite Z.div_add by lia. change (3 / 4) with 0. lia. }
  rewrite (Z.mul_comm 8), Z.quot_mul, Nat2Z.id by lia.
  assert (read_path (pathBuf r) (2 * length pts) 0 (replicate (length pts) (mkPoint 0 0)) = Ok pts) as Hr.
  { apply (read_path_points (pathBuf r) pts 0 [] rest); [|done|done].
    rewrite Hb. by apply drop_app_length'. }
  rewrite run_bind, (run_lift _ _ _ Hr). eexists. split; [done|]. simpl.
  by rewrite <-(assoc_L (++)).
Qed.

(** The loop of the path branch leaves its arrays exactly when the length
    of the packet is not a multiple of eight. *)
Theorem path_length_misaligned L r :
  0 ≤ L ≤ 9992 → Z.of_nat (length (pathBuf r)) = 10000 →
  (∃ u, handle_path L r = Ub u) ↔ L mod 8 ≠ 0.
Proof.
  intros HL Hb. unfold handle_path. rewrite run_bind, run_get.
  rewrite Z.quot_div_nonneg by lia. split.
  - intros [u Hu] Hm. apply Z.mod_divide in Hm as [k ->]; [|lia].
    destruct (read_path_in (pathBuf r) (Z.to_nat ((k * 8 + 3) / 4)) 0
      (replicate (Z.to_nat (k * 8 / 8)) (mkPoint 0 0))) as [p Hp].
    + replace ((k * 8 + 3) / 4) with (2 * k) by (apply Z.div_unique with 3; lia). lia.
    + replace ((k * 8 + 3) / 4) with (2 * k) by (apply Z.div_unique with 3; lia).
      rewrite Z.div_mul, length_replicate by lia. lia.
    + by rewrite run_bind, (run_lift _ _ _ Hp) in Hu.
  - intros Hm. rewrite run_bind. unfold lift. rewrite read_path_out; [by eexists|..].
    + rewrite length_replicate.
      pose proof (Z.div_mod L 8 ltac:(lia)). pose proof (Z.mod_pos_bound L 8 ltac:(lia)).
      pose proof (Z.div_mod (L + 3) 4 ltac:(lia)). pose proof (Z.mod_pos_bound (L + 3) 4 ltac:(lia)).
      lia.
    + lia.
Qed.

(** *** At concrete inputs *)
Lemma path_received_witness :
  let pts := [mkPoint 100 (-20); mkPoint 3 4] in
  let r := set_pathBuf ([0x9b; 0xac; 16; 0; 0; 0] ++ concat (serialize_point_data <$> pts) ++ zeros 9978)
             (init_rx []) in
  ∃ r', handle_path 16 r = Ok (tt, r') ∧ acts r' = [] ++ [ActPath pts; ActAstar pts].
Proof.
  intros pts r. apply (path_received [0x9b; 0xac; 16; 0; 0; 0] pts (zeros 9978) r).
  - reflexivity.
  - by apply (bool_decide_unpack (Forall point_ok pts)).
  - reflexivity.
Defined.

Lemma path_length_misaligned_witness :
  (∃ u, handle_path 12 (init_rx []) = Ub u) ↔ 12 mod 8 ≠ 0.
Proof. apply (path_length_misaligned 12 (init_rx [])); [lia|by vm_compute]. Defined.
