(* ===== verification/Connect.v ===== *)
(** * The connections to the navigation process

    src/lib_app/robot_schedule/socket/navigate.cpp: the socket numbers, the
    connection flags, client_*_connect, client_*_close and the loop of
    check_connect.  The five copies of connect and of close differ in the
    variables they use only.  What the kernel answers to a connect is an
    argument; the descriptor table of the process is part of the state. *)

From stdpp Require Import functions.
From S2P Require Import Prelude.
#[local] Open Scope Z_scope.

Inductive chan := IMU | ODOM | POSE | LOW | DIST.
#[export] Instance chan_eq_dec : EqDecision chan.
Proof. solve_decision. Defined.

Record Conns := mkConns {
  socket_id : chan → Z;          (* socket_imu_id, ... *)
  socket_conn : chan → Z;        (* socket_imu_conn, ... *)
  fds : gmap Z chan }.           (* open descriptors and who opened them *)

Definition init_conns : Conns := mkConns (λ _, -1) (λ _, 0) ∅.

(** socket() gives a descriptor or fails; setsockopt() and connect() succeed or
    fail. *)
Record answer := mkAnswer { a_socket : option Z; a_setsockopt : bool; a_connect : bool }.
(** A descriptor that socket() gives is not negative and not open. *)
Definition answer_ok (a : answer) (s : Conns) : Prop :=
  match a_socket a with Some fd => 0 ≤ fd ∧ fds s !! fd = None | None => True end.

Definition set_id (c : chan) (fd : Z) (s : Conns) : Conns :=
  mkConns (<[c := fd]> (socket_id s)) (socket_conn s) (fds s).
Definition set_conn (c : chan) (b : Z) (s : Conns) : Conns :=
  mkConns (socket_id s) (<[c := b]> (socket_conn s)) (fds s).
Definition open_fd (c : chan) (fd : Z) (s : Conns) : Conns :=
  mkConns (socket_id s) (socket_conn s) (<[fd := c]> (fds s)).
(** close() of a number that is not open does nothing. *)
Definition close_fd (fd : Z) (s : Conns) : Conns :=
  mkConns (socket_id s) (socket_conn s) (delete fd (fds s)).

(** client_imu_close, ... *)
Definition client_close (c : chan) (s : Conns) : Conns :=
  set_conn c 0 (close_fd (socket_id s c) s).

(** client_imu_connect, ...: what it returns, and the state. *)
Definition client_connect (c : chan) (a : answer) (s : Conns) : Z * Conns :=
  match a_socket a with
  | None => (-2, set_conn c 0 (set_id c (-1) s))
  | Some fd =>
      let s := set_id c fd (open_fd c fd s) in
      if a_setsockopt a then
        if a_connect a then (1, set_conn c 1 s) else (-4, set_conn c 0 s)
      else (-3, client_close c (set_conn c 0 s))
  end.

(** if(!socket_imu_conn) client_imu_connect(); also the body of
    check_imu_connect, ..., which no thread runs. *)
Definition check_one (c : chan) (a : answer) (s : Conns) : Conns :=
  if decide (socket_conn s c = 0) then (client_connect c a s).2 else s.

(** The channels check_connect looks after, in its order. *)
Definition checked : list chan := [IMU; ODOM; POSE; LOW].

(** One round of check_connect; the kernel's answer depends on the state. *)
Definition check_round (os : chan → Conns → answer) (s : Conns) : Conns :=
  foldl (λ s c, check_one c (os c s) s) s checked.

(** The condition on which navigateloop stops waiting. *)
Definition all_connected (s : Conns) : bool :=
  forallb (λ c, bool_decide (socket_conn s c ≠ 0)) checked.

(** The threads: check_connect, and nread, which closes the low socket at the
    end of either receiver's stream.  With [guarded], only while that socket is
    connected. *)
Inductive conn_step (guarded : bool) : Conns → Conns → Prop :=
| cs_check c a s : c ∈ checked → answer_ok a s → conn_step guarded s (check_one c a s)
| cs_nread_eof s :
    (guarded = true → socket_conn s LOW ≠ 0) → conn_step guarded s (client_close LOW s).

(** ** One connect *)

#[local] Ltac upd := repeat (rewrite fn_lookup_insert || rewrite fn_lookup_insert_ne by done).

(** What a connect returns tells the flag, on every branch: 1 and only 1
    sets it.  The descriptor is closed again when setsockopt fails, and is left
    open when connect fails. *)
Theorem client_connect_spec c a s :
  answer_ok a s →
  let '(iret, s') := client_connect c a s in
  socket_conn s' c = (if decide (iret = 1) then 1 else 0) ∧
  (∀ d, d ≠ c → socket_conn s' d = socket_conn s d ∧ socket_id s' d = socket_id s d) ∧
  match a_socket a, a_setsockopt a, a_connect a with
  | None, _, _ => iret = -2 ∧ socket_id s' c = -1 ∧ fds s' = fds s
  | Some fd, false, _ => iret = -3 ∧ socket_id s' c = fd ∧ fds s' = fds s
  | Some fd, true, false => iret = -4 ∧ socket_id s' c = fd ∧ fds s' = <[fd := c]> (fds s)
  | Some fd, true, true => iret = 1 ∧ socket_id s' c = fd ∧ fds s' = <[fd := c]> (fds s)
  end.
Proof.
  destruct s as [ids conns f]. unfold answer_ok, client_connect.
  destruct a as [[fd|] [] []]; simpl; intros Ha; upd; split_and!; try done;
    try (intros d Hd; by upd).
  all: destruct Ha as [_ Ha]; by rewrite delete_insert_id.
Qed.

Lemma client_connect_spec_witness :
  let a := mkAnswer (Some 3) true false in
  answer_ok a init_conns ∧ client_connect POSE a init_conns = (-4, (client_connect POSE a init_conns).2) ∧
  socket_conn (client_connect POSE a init_conns).2 POSE = 0 ∧
  fds (client_connect POSE a init_conns).2 = <[3 := POSE]> ∅.
Proof.
  intros a. assert (answer_ok a init_conns) as Ha by (split; [lia|done]).
  destruct (client_connect_spec POSE a init_conns Ha) as (Hc & _ & _ & _ & Hf).
  split; [exact Ha|]. split; [reflexivity|]. split; [exact Hc|exact Hf].
Defined.

(** ** Rounds *)

Lemma check_one_idle c a s : socket_conn s c ≠ 0 → check_one c a s = s.
Proof. intros H. unfold check_one. by rewrite decide_False. Qed.

Lemma check_one_other c d a s :
  d ≠ c → socket_conn (check_one c a s) d = socket_conn s d ∧
          socket_id (check_one c a s) d = socket_id s d.
Proof.
  intros Hd. unfold check_one, client_connect. case_decide; [|done].
  destruct a as [[fd|] [] []]; simpl; by upd.
Qed.

(** An accepting server. *)
Definition accepts (a : answer) : Prop :=
  is_Some (a_socket a) ∧ a_setsockopt a = true ∧ a_connect a = true.

Lemma check_one_accepts c a s : accepts a → socket_conn (check_one c a s) c ≠ 0.
Proof.
  destruct a as [? ? ?]. intros ([fd Hfd] & Ht & Hc). simpl in *. subst.
  unfold check_one, client_connect. case_decide; [|done]. simpl. by upd.
Qed.

(** When the server accepts, one round of check_connect connects the four
    sockets, whatever their state was, and navigateloop goes on. *)
Theorem round_connects os s :
  (∀ c s', accepts (os c s')) → all_connected (check_round os s) = true.
Proof.
  intros Hos. unfold check_round. simpl.
  set (s1 := check_one IMU _ s). set (s2 := check_one ODOM _ s1).
  set (s3 := check_one POSE _ s2). set (s4 := check_one LOW _ s3).
  unfold all_connected. apply forallb_forall. intros c Hc%list_elem_of_In.
  apply bool_decide_true.
  assert (∀ d, d ≠ LOW → socket_conn s4 d = socket_conn s3 d) as H4 by (intros; by apply check_one_other).
  assert (∀ d, d ≠ POSE → socket_conn s3 d = socket_conn s2 d) as H3 by (intros; by apply check_one_other).
  assert (∀ d, d ≠ ODOM → socket_conn s2 d = socket_conn s1 d) as H2 by (intros; by apply check_one_other).
  destruct c; [| | | |set_solver].
  - rewrite H4, H3, H2 by done. by apply check_one_accepts.
  - rewrite H4, H3 by done. by apply check_one_accepts.
  - rewrite H4 by done. by apply check_one_accepts.
  - by apply check_one_accepts.
Qed.

Lemma round_connects_witness :
  let os := λ c (_ : Conns), mkAnswer (Some (match c with IMU => 3 | ODOM => 4 | POSE => 5 | _ => 6 end))
                               true true in
  all_connected (check_round os init_conns) = true.
Proof. intros os. apply (round_connects os init_conns). intros c s'. split; [by eexists|done]. Defined.

(** *** A server that is not there *)
Section refuse.
(** The descriptor the kernel would give next. *)
Context (alloc : gmap Z chan → Z) (alloc_fresh : ∀ f, 0 ≤ alloc f ∧ f !! alloc f = None).

Definition refuse (c : chan) (s : Conns) : answer := mkAnswer (Some (alloc (fds s))) true false.

Lemma check_one_refuse c s :
  socket_conn s c = 0 →
  size (fds (check_one c (refuse c s) s)) = S (size (fds s)) ∧
  ∀ d, socket_conn (check_one c (refuse c s) s) d = socket_conn s d.
Proof using alloc_fresh.
  intros Hc. unfold check_one. rewrite decide_True by done. simpl. split.
  - apply map_size_insert_None, alloc_fresh.
  - intros d. destruct (decide (d = c)) as [->|]; by upd.
Qed.

Lemma check_list_refuse l s :
  (∀ c, c ∈ l → socket_conn s c = 0) →
  let s' := foldl (λ s c, check_one c (refuse c s) s) s l in
  size (fds s') = (size (fds s) + length l)%nat ∧ ∀ d, socket_conn s' d = socket_conn s d.
Proof using alloc_fresh.
  revert s. induction l as [|c l IH]; intros s Hl; simpl; [split; [lia|done]|].
  destruct (check_one_refuse c s) as [Hs Hd]; [apply Hl; by left|].
  destruct (IH (check_one c (refuse c s) s)) as [Hs' Hd'].
  { intros d Hin. rewrite Hd. apply Hl. by right. }
  rewrite Hs', Hs. split; [lia|]. intros d. by rewrite Hd', Hd.
Qed.

(** Every round of check_connect leaves four more descriptors open while
    nobody listens at the other end: a connect that fails does not close its
    socket, and the next round opens another. *)
Theorem refused_rounds_leak n s :
  (∀ c, c ∈ checked → socket_conn s c = 0) →
  let s' := Nat.iter n (check_round refuse) s in
  size (fds s') = (size (fds s) + 4 * n)%nat ∧ all_connected s' = false.
Proof using alloc_fresh.
  intros Hs.
  assert (size (fds (Nat.iter n (check_round refuse) s)) = (size (fds s) + 4 * n)%nat ∧
          ∀ d, socket_conn (Nat.iter n (check_round refuse) s) d = socket_conn s d) as [Hn Hd].
  { induction n as [|n [IHs IHd]]; simpl Nat.iter; [split; [lia|done]|].
    destruct (check_list_refuse checked (Nat.iter n (check_round refuse) s)) as [H1 H2].
    { intros c Hc. rewrite IHd. by apply Hs. }
    unfold check_round at 1 3. rewrite H1, IHs. split; [simpl; lia|].
    intros d. by rewrite H2. }
  intros s'. split; [done|]. unfold all_connected. simpl.
  unfold s'. rewrite Hd, (Hs IMU) by set_solver. done.
Qed.
End refuse.

(** A kernel: some number that is not in use. *)
Definition some_fd (f : gmap Z chan) : Z := Z.of_N (fresh (set_map Z.to_N (dom f) : gset N)).
Lemma some_fd_fresh f : 0 ≤ some_fd f ∧ f !! some_fd f = None.
Proof.
  split; [unfold some_fd; lia|]. apply not_elem_of_dom. intros Hin.
  apply (is_fresh (set_map Z.to_N (dom f) : gset N)). apply elem_of_map.
  exists (some_fd f). split; [|done]. unfold some_fd. by rewrite N2Z.id.
Qed.

Lemma refused_rounds_leak_witness :
  size (fds (Nat.iter 256 (check_round (refuse some_fd)) init_conns)) = 1024%nat ∧
  all_connected (Nat.iter 256 (check_round (refuse some_fd)) init_conns) = false.
Proof. apply (refused_rounds_leak some_fd some_fd_fresh 256 init_conns). reflexivity. Defined.

(** ** Descriptors of the connected sockets *)

(** A socket whose flag is set has a number that is open and its own. *)
Definition conn_live (s : Conns) : Prop :=
  ∀ c, socket_conn s c ≠ 0 → fds s !! socket_id s c = Some c.

Lemma check_one_live c a s : answer_ok a s → conn_live s → conn_live (check_one c a s).
Proof.
  intros Ha Hs. unfold check_one. case_decide as Hc; [|done].
  assert (∀ d fd, d ≠ c → fds s !! fd = None → socket_conn s d ≠ 0 →
            <[fd := c]> (fds s) !! socket_id s d = Some d) as Hother.
  { intros d fd Hd Hfd Hconn. rewrite lookup_insert_ne; [by apply Hs|].
    intros ->. rewrite Hs in Hfd by done. done. }
  unfold client_connect. unfold answer_ok in Ha.
  destruct a as [[fd|] [] []]; simpl in *; intros d; destruct (decide (d = c)) as [->|Hd];
    simpl; upd; intros Hconn; try done; try (by apply Hs); destruct Ha as [Hpos Hfd].
  1: by rewrite lookup_insert_eq.
  1: by apply Hother.
  1: by apply Hother.
  all: rewrite delete_insert_id by done; by apply Hs.
Qed.

Lemma close_low_live s : socket_conn s LOW ≠ 0 → conn_live s → conn_live (client_close LOW s).
Proof.
  intros Hl Hs c. simpl. destruct (decide (c = LOW)) as [->|Hd]; upd; intros Hc; [done|].
  rewrite lookup_delete_ne; [by apply Hs|]. intros He.
  pose proof (Hs _ Hl) as H1. rewrite He, (Hs _ Hc) in H1. by injection H1.
Qed.

(** If the low socket were closed only while it is connected, every socket
    with its flag set would have an open descriptor of its own. *)
Theorem connected_open s :
  rtc (conn_step true) init_conns s → ∀ c, socket_conn s c ≠ 0 → fds s !! socket_id s c = Some c.
Proof.
  intros Hr. change (conn_live s).
  assert (conn_live init_conns) as H0 by (intros c Hc; by destruct Hc). revert H0.
  induction Hr as [|s1 s2 s3 Hst _ IH]; [done|]. intros H1. apply IH.
  destruct Hst; [by apply check_one_live|by apply close_low_live; auto].
Qed.

(** Nothing takes a connected socket other than the low one back. *)
Lemma connected_stays g c s s' :
  rtc (conn_step g) s s' → c ≠ LOW → socket_conn s c ≠ 0 →
  socket_conn s' c = socket_conn s c ∧ socket_id s' c = socket_id s c.
Proof.
  intros Hr Hc. induction Hr as [|s1 s2 s3 Hst _ IH]; [done|]. intros Hconn.
  assert (socket_conn s2 c = socket_conn s1 c ∧ socket_id s2 c = socket_id s1 c) as [H1 H2].
  { destruct Hst as [d a s _ _|s _]; [|simpl; by upd].
    destruct (decide (c = d)) as [->|]; [by rewrite check_one_idle|by apply check_one_other]. }
  destruct IH as [H3 H4]; [by rewrite H1|]. by rewrite H3, H4.
Qed.

(** The steps that lose the pose socket: the low socket has number 3, its peer
    closes, the pose socket is opened with the number 3, and a receiver that
    finds the end of its stream closes the number of the low socket again. *)
Definition accept (fd : Z) : answer := mkAnswer (Some fd) true true.
Definition lost_pose : Conns :=
  client_close LOW (check_one POSE (accept 3) (client_close LOW (check_one LOW (accept 3) init_conns))).

Lemma lost_pose_reached : rtc (conn_step false) init_conns lost_pose.
Proof.
  eapply rtc_l; [apply (cs_check _ LOW (accept 3)); [set_solver|split; [lia|by vm_compute]]|].
  eapply rtc_l; [by apply cs_nread_eof|].
  eapply rtc_l; [apply (cs_check _ POSE (accept 3)); [set_solver|split; [lia|by vm_compute]]|].
  eapply rtc_l; [by apply cs_nread_eof|]. apply rtc_refl.
Qed.

(** Once its descriptor is gone, a connected socket does not get it back. *)
Lemma lost_stays g c s s' :
  rtc (conn_step g) s s' → c ≠ LOW → socket_conn s c ≠ 0 →
  fds s !! socket_id s c ≠ Some c → fds s' !! socket_id s' c ≠ Some c.
Proof.
  intros Hr Hc Hconn. induction Hr as [|s1 s2 s3 Hst _ IH]; [done|]. intros Hf.
  destruct (connected_stays g c s1 s2) as [H1 H2]; [by apply rtc_once|done|done|].
  apply IH; [by rewrite H1|]. rewrite H2.
  destruct Hst as [d a s _ _|s _].
  - destruct (decide (c = d)) as [->|Hd]; [by rewrite check_one_idle|].
    unfold check_one, client_connect. case_decide; [|done].
    destruct a as [[fd|] [] []]; simpl; rewrite ?lookup_delete_Some, ?lookup_insert_Some; try done;
      upd; naive_solver.
  - simpl. rewrite lookup_delete_Some. naive_solver.
Qed.

(** nread closes the low socket's number at the end of any stream, whether
    or not that socket is open.  So a number that was given to another socket
    meanwhile is closed under it: the pose socket ends with its flag set and no
    descriptor, and from then on no step of these threads reconnects it. *)
Theorem stale_close_loses_pose :
  ∃ s, rtc (conn_step false) init_conns s ∧
    ∀ s', rtc (conn_step false) s s' →
      socket_conn s' POSE = 1 ∧ fds s' !! socket_id s' POSE ≠ Some POSE.
Proof.
  exists lost_pose. split; [apply lost_pose_reached|]. intros s' Hr.
  destruct (connected_stays _ POSE _ _ Hr) as [H1 _]; [done|by vm_compute|].
  split; [by rewrite H1|]. by apply (lost_stays _ POSE _ _ Hr).
Qed.

Lemma connected_open_witness :
  let s := check_one IMU (accept 4) (client_close LOW (check_one LOW (accept 3) init_conns)) in
  socket_conn s IMU = 1 ∧ fds s !! socket_id s IMU = Some IMU.
Proof.
  intros s. split; [reflexivity|].
  apply (connected_open s); [|by vm_compute].
  eapply rtc_l; [apply (cs_check _ LOW (accept 3)); [set_solver|split; [lia|by vm_compute]]|].
  eapply rtc_l; [apply cs_nread_eof; by vm_compute|].
  eapply rtc_l; [apply (cs_check _ IMU (accept 4)); [set_solver|split; [lia|by vm_compute]]|].
  apply rtc_refl.
Defined.
