(* ===== verification/Pausing.v ===== *)
(** * Pausing of the socket threads

    src/lib_app/robot_schedule/socket/thread_pool.cpp and the loops at the start of
    each round of check_connect and client_pose_read in socket/navigate.cpp.  A thread
    that can be paused has a status, a mutex and a condition variable; one step is one
    call of the pthread library or one access to the status, so that any number of
    calls of thread_pause and thread_resume interleave with the thread. *)

From S2P Require Import Prelude.
#[local] Open Scope Z_scope.

Inductive thread_status := STOP | RUN.
#[export] Instance thread_status_eq : EqDecision thread_status.
Proof. solve_decision. Defined.

(** Where a call is that sets the status to [v]: [RUN] for thread_resume, [STOP] for
    thread_pause.  The first test is made without the lock. *)
Inductive call_at :=
| Test (v : thread_status)
| Lock (v : thread_status)
| Assign (v : thread_status)
| Signal
| Unlock
| Done.
(** Where the thread is: in front of the lock, in the condition of its loop, blocked
    in pthread_cond_wait, woken up and in front of the lock there, behind the loop, in
    the rest of its round. *)
Inductive thread_at := T_lock | T_test | T_wait | T_relock | T_unlock | T_body.
Inductive agent := Thread | Caller (i : nat).
#[export] Instance agent_eq : EqDecision agent.
Proof. solve_decision. Defined.

Record Gate := mkGate { status : thread_status; mutex : option agent; thread : thread_at; calls : list call_at }.
Definition set_call (i : nat) (c : call_at) (g : Gate) : Gate := mkGate (status g) (mutex g) (thread g) (<[i := c]> (calls g)).
Definition set_status (v : thread_status) (g : Gate) : Gate := mkGate v (mutex g) (thread g) (calls g).
Definition set_mutex (a : option agent) (g : Gate) : Gate := mkGate (status g) a (thread g) (calls g).
Definition set_thread (t : thread_at) (g : Gate) : Gate := mkGate (status g) (mutex g) t (calls g).
Definition init_gate : Gate := mkGate RUN None T_lock [].

(** pthread_mutex_lock: not possible while somebody has the mutex *)
Definition lock (a : agent) (g : Gate) : option Gate := match mutex g with None => Some (set_mutex (Some a) g) | Some _ => None end.
(** pthread_cond_signal: wakes the thread if it waits *)
Definition cond_signal (g : Gate) : Gate := match thread g with T_wait => set_thread T_relock g | _ => g end.

(** One step of the i-th call *)
Definition call_step (i : nat) (g : Gate) : option Gate :=
  match calls g !! i with
  | Some (Test v) => Some (if decide (status g = v) then set_call i Done g else set_call i (Lock v) g)
  | Some (Lock v) => set_call i (Assign v) <$> lock (Caller i) g
  | Some (Assign v) => Some (set_call i (match v with RUN => Signal | STOP => Unlock end) (set_status v g))
  | Some Signal => Some (set_call i Unlock (cond_signal g))
  | Some Unlock => Some (set_call i Done (set_mutex None g))
  | Some Done | None => None
  end.
(** One step of the thread *)
Definition thread_step (g : Gate) : option Gate :=
  match thread g with
  | T_lock | T_relock => set_thread T_test <$> lock Thread g
  | T_test => Some (match status g with
                    | STOP => set_thread T_wait (set_mutex None g)
                    | RUN => set_thread T_unlock g
                    end)
  | T_wait => None
  | T_unlock => Some (set_thread T_body (set_mutex None g))
  | T_body => Some (set_thread T_lock g)
  end.
Definition begin (v : thread_status) (g : Gate) : Gate := mkGate (status g) (mutex g) (thread g) (calls g ++ [Test v]).

(** The five threads; a call for another number does nothing.  The threads 1 and 2
    have the loop; 3 to 5 have a status only, which a loop like theirs could use. *)
Definition Pool := gmap Z Gate.
Definition init_pool : Pool := list_to_map ((λ id, (id, init_gate)) <$> [1; 2; 3; 4; 5]).
Definition thread_resume (id : Z) (p : Pool) : Pool := alter (begin RUN) id p.
Definition thread_pause (id : Z) (p : Pool) : Pool := alter (begin STOP) id p.

Inductive gate_step (g : Gate) : Gate → Prop :=
| gs_call i g' : call_step i g = Some g' → gate_step g g'
| gs_thread g' : thread_step g = Some g' → gate_step g g'
| gs_spurious : thread g = T_wait → gate_step g (set_thread T_relock g)
| gs_begin v : gate_step g (begin v g).
Inductive pool_step (p : Pool) : Pool → Prop :=
| ps_gate id g g' : p !! id = Some g → gate_step g g' → pool_step p (<[id := g']> p)
| ps_resume id : pool_step p (thread_resume id p)
| ps_pause id : pool_step p (thread_pause id p).
Definition pool_reachable : Pool → Prop := rtc pool_step init_pool.

(** ** The invariant *)
Definition holds (c : call_at) : bool := match c with Assign _ | Signal | Unlock => true | _ => false end.
Definition thread_holds (t : thread_at) : bool := match t with T_test | T_unlock => true | _ => false end.
Record gate_ok (g : Gate) : Prop := {
  gk_thread : thread_holds (thread g) = true ↔ mutex g = Some Thread;
  gk_call i : (∃ c, calls g !! i = Some c ∧ holds c = true) ↔ mutex g = Some (Caller i);
  gk_wait : thread g = T_wait → status g = RUN → ∃ i, calls g !! i = Some Signal }.
Lemma init_ok : gate_ok init_gate.
Proof. split; [split; done|intros i; split; [intros (c & Hc & _); done|done]|done]. Qed.


Lemma holder_insert (l : list call_at) (i : nat) c c' (j : nat) : l !! i = Some c →
  (∃ d, <[i := c']> l !! j = Some d ∧ holds d = true) ↔ (j = i ∧ holds c' = true) ∨ (j ≠ i ∧ ∃ d, l !! j = Some d ∧ holds d = true).
Proof.
  intros Hi. apply lookup_lt_Some in Hi. setoid_rewrite list_lookup_insert_Some. split.
  - intros (d & [(-> & -> & _)|[Hne Hd]] & Hh); [by left|right; split; [done|by exists d]].
  - intros [[-> Hh]|(Hne & d & Hd & Hh)]; [exists c'; split; [by left|done]|exists d; split; [by right|done]].
Qed.
Lemma holder_at g (i : nat) c : gate_ok g → calls g !! i = Some c → mutex g = Some (Caller i) ↔ holds c = true.
Proof. intros [_ Hc _] Hi. rewrite <-Hc. split; [intros (d & Hd & Hh); congruence|intros Hh; by exists c]. Qed.
Lemma wait_insert g (i : nat) c c' : gate_ok g → calls g !! i = Some c → c ≠ Signal → thread g = T_wait → status g = RUN → ∃ j, <[i := c']> (calls g) !! j = Some Signal.
Proof.
  intros [_ _ Hw] Hi Hc Ht Hs. destruct (Hw Ht Hs) as [j Hj]. exists j. apply list_lookup_insert_Some. right. split; [|done]. intros ->. congruence.
Qed.
(** A call goes on without taking or giving back the mutex. *)
Lemma set_call_ok g (i : nat) c c' : gate_ok g → calls g !! i = Some c → holds c = holds c' → (thread g = T_wait → status g = RUN → ∃ j, <[i := c']> (calls g) !! j = Some Signal) →
  gate_ok (set_call i c' g).
Proof.
  intros Hg Hi Hh Hw. split; [apply Hg| |exact Hw]. intros j. cbn [set_call calls mutex]. rewrite (holder_insert _ _ c) by done.
  destruct (decide (j = i)) as [->|Hne].
  - rewrite (holder_at g i c) by done. rewrite Hh. naive_solver.
  - rewrite <-(gk_call g Hg j). naive_solver.
Qed.
Lemma call_step_ok g (i : nat) g' : gate_ok g → call_step i g = Some g' → gate_ok g'.
Proof.
  intros Hg. unfold call_step. destruct (calls g !! i) as [c|] eqn:Hi; [|done]. pose proof (holder_at g i c Hg Hi) as Hm.
  destruct c as [v|v|v| | |]; try done.
  - intros [= <-]. case_decide; (eapply set_call_ok; [done..|]); intros; by eapply wait_insert.
  - unfold lock. destruct (mutex g) as [a|] eqn:Hmu; [done|]. intros [= <-]. split; cbn [thread mutex status calls set_call set_mutex].
    + rewrite (gk_thread g Hg), Hmu. naive_solver.
    + intros j. rewrite (holder_insert _ _ (Lock v)) by done. rewrite (gk_call g Hg j), Hmu. cbn [holds].
      split; [intros [[-> _]|[_ ?]]; done|intros [= ->]; by left].
    + intros. by eapply wait_insert.
  - intros [= <-]. assert (gate_ok (set_call i (match v with RUN => Signal | STOP => Unlock end) g)) as Hg'.
    { eapply set_call_ok; [done..|by destruct v|]. intros. by eapply wait_insert. }
    split; [apply Hg'|apply Hg'|]. cbn [thread status calls set_call set_status]. intros _ ->. exists i.
    apply list_lookup_insert_Some. left. split_and!; [done..|by eapply lookup_lt_Some].
  - intros [= <-]. assert (mutex g = Some (Caller i)) as Hmu by by apply Hm.
    assert (thread (cond_signal g) ≠ T_wait ∧ (thread_holds (thread (cond_signal g)) = true ↔ mutex (cond_signal g) = Some Thread) ∧
            mutex (cond_signal g) = mutex g ∧ calls (cond_signal g) = calls g) as (Hw & Ht & Hm' & Hc').
    { unfold cond_signal. pose proof (gk_thread g Hg) as H. destruct (thread g) eqn:Htt; cbn [set_thread thread mutex calls]; rewrite ?Htt; naive_solver. }
    split; cbn [set_call thread mutex calls]; [exact Ht| |intros ?; done]. intros j. rewrite Hc', (holder_insert _ _ Signal), Hm' by done.
    destruct (decide (j = i)) as [->|Hne]; [naive_solver|]. rewrite <-(gk_call g Hg j). naive_solver.
  - intros [= <-]. assert (mutex g = Some (Caller i)) as Hmu by by apply Hm. split; cbn [set_call set_mutex thread mutex calls status].
    + rewrite (gk_thread g Hg), Hmu. naive_solver.
    + intros j. rewrite (holder_insert _ _ Unlock) by done. rewrite (gk_call g Hg j), Hmu. cbn [holds]. naive_solver.
    + intros. by eapply wait_insert.
Qed.
Lemma thread_step_ok g g' : gate_ok g → thread_step g = Some g' → gate_ok g'.
Proof.
  intros Hg. unfold thread_step, lock. pose proof (gk_thread g Hg) as Ht. pose proof (gk_call g Hg) as Hc.
  destruct (thread g) eqn:Htt; try done; try (destruct (mutex g) as [a|] eqn:Hmu; [done|]).
  1, 3: intros [= <-]; split; cbn [set_thread set_mutex thread mutex calls]; [done|intros j; rewrite (Hc j); done|done].
  all: cbn [thread_holds] in Ht.
  - assert (mutex g = Some Thread) as Hmu by by apply Ht. intros [= <-]. destruct (status g) eqn:Hs; split; cbn [set_thread set_mutex thread mutex calls status thread_holds].
    + naive_solver.
    + intros j. rewrite (Hc j), Hmu. naive_solver.
    + congruence.
    + naive_solver.
    + intros j. rewrite (Hc j), Hmu. naive_solver.
    + done.
  - assert (mutex g = Some Thread) as Hmu by by apply Ht. intros [= <-]. split; cbn [set_thread set_mutex thread mutex calls status thread_holds]; [done| |done].
    intros j. rewrite (Hc j), Hmu. naive_solver.
  - intros [= <-]. split; cbn [set_thread thread mutex calls thread_holds]; [exact Ht|exact Hc|done].
Qed.
Lemma begin_ok g v : gate_ok g → gate_ok (begin v g).
Proof.
  intros Hg. split; cbn [begin thread mutex status calls]; [apply Hg| |].
  - intros j. rewrite <-(gk_call g Hg j). split; [|intros (c & Hc & Hh); exists c; split; [by apply lookup_app_l_Some|done]].
    intros (c & Hc & Hh). exists c. split; [|done]. apply lookup_app_Some in Hc as [Hc|[_ Hc]]; [done|].
    apply list_lookup_singleton_Some in Hc as [_ <-]. done.
  - intros Ht Hs. destruct (gk_wait g Hg Ht Hs) as [i Hi]. exists i. by apply lookup_app_l_Some.
Qed.
Lemma gate_step_ok g g' : gate_ok g → gate_step g g' → gate_ok g'.
Proof.
  intros Hg [i g1 H|g1 H|Ht|v]; [by eapply call_step_ok|by eapply thread_step_ok| |by apply begin_ok].
  pose proof (gk_thread g Hg) as H. rewrite Ht in H. split; [exact H|apply Hg|done].
Qed.
Lemma begin_pool_ok (id : Z) v (p : Pool) : map_Forall (λ _, gate_ok) p → map_Forall (λ _, gate_ok) (alter (begin v) id p).
Proof. intros H j g Hj. apply lookup_alter_Some in Hj as [(-> & g0 & Hg & ->)|[_ Hg]]; [apply begin_ok|]; by eapply H. Qed.
Lemma pool_ok (p : Pool) : pool_reachable p → map_Forall (λ _, gate_ok) p.
Proof.
  apply (rtc_ind_r (map_Forall (λ _, gate_ok))).
  - intros id g Hg. assert (g = init_gate) as ->; [|apply init_ok]. apply elem_of_list_to_map_2, list_elem_of_fmap in Hg as (z & [= _ ->] & _). done.
  - intros p1 p2 _ Hs H. destruct Hs as [id g g' Hg Hs|id|id]; [|by apply begin_pool_ok..].
    apply map_Forall_insert_2; [|done]. eapply gate_step_ok; [|exact Hs]. by eapply H.
Qed.

(** ** What a call leads to *)
(** A step of a call, or of the thread unless it is about to start another round *)
Definition go (a : agent) (g : Gate) : option Gate :=
  match a with
  | Caller i => call_step i g
  | Thread => match thread g with T_body => None | _ => thread_step g end
  end.
Fixpoint run_gate (l : list agent) (g : Gate) : option Gate :=
  match l with [] => Some g | a :: l' => g' ← go a g; run_gate l' g' end.
Definition call_work (c : call_at) : nat :=
  match c with Test _ => 8 | Lock _ => 7 | Assign _ => 6 | Signal => 5 | Unlock => 1 | Done => 0 end.
Definition thread_work (t : thread_at) : nat :=
  match t with T_lock | T_relock => 4 | T_test => 3 | T_unlock => 2 | T_wait => 1 | T_body => 0 end.
Definition work (g : Gate) : nat := thread_work (thread g) + sum_list_with call_work (calls g).

Lemma sum_insert (l : list call_at) i c c' : l !! i = Some c →
  (sum_list_with call_work (<[i := c']> l) + call_work c = sum_list_with call_work l + call_work c')%nat.
Proof.
  revert i. induction l as [|d l IH]; intros i Hi; [done|]. destruct i as [|i]; [injection Hi as ->; cbn; lia|].
  specialize (IH i Hi). change (<[S i := c']> (d :: l)) with (d :: <[i := c']> l). cbn [sum_list_with]. lia.
Qed.
Lemma go_works a g g' : go a g = Some g' → (work g' < work g)%nat.
Proof.
  unfold work. destruct a as [|i]; cbn [go].
  - unfold thread_step, lock. destruct (thread g), (mutex g), (status g); try done; intros [= <-]; cbn; lia.
  - unfold call_step. destruct (calls g !! i) as [c|] eqn:Hi; [|done]. pose proof (sum_insert (calls g) i c) as Hs.
    destruct c as [v|v|v| | |]; try done; unfold lock.
    + intros [= <-]. case_decide; cbn [set_call thread calls]; [specialize (Hs Done Hi)|specialize (Hs (Lock v) Hi)]; cbn [call_work] in Hs; lia.
    + destruct (mutex g); [done|]. intros [= <-]. cbn [set_call set_mutex thread calls]. specialize (Hs (Assign v) Hi). cbn [call_work] in Hs. lia.
    + intros [= <-]. destruct v; cbn [set_call set_status thread calls]; [specialize (Hs Unlock Hi)|specialize (Hs Signal Hi)]; cbn [call_work] in Hs; lia.
    + intros [= <-]. specialize (Hs Unlock Hi). cbn [call_work] in Hs. unfold cond_signal. destruct (thread g) eqn:Ht; cbn [set_call set_thread thread calls]; rewrite ?Ht; cbn [thread_work]; lia.
    + intros [= <-]. cbn [set_call set_mutex thread calls]. specialize (Hs Done Hi). cbn [call_work] in Hs. lia.
Qed.
Lemma go_step a g g' : go a g = Some g' → gate_step g g'.
Proof. destruct a as [|i]; cbn [go]; [|by apply gs_call]. intros H. apply gs_thread. by destruct (thread g). Qed.
Lemma run_ok l : ∀ g g', gate_ok g → run_gate l g = Some g' → gate_ok g' ∧ (length l + work g' ≤ work g)%nat.
Proof.
  induction l as [|a l IH]; intros g g' Hg; cbn [run_gate]; [intros [= <-]; split; [done|cbn; lia]|].
  intros H. apply bind_Some in H as (g1 & H1 & H). pose proof (go_works _ _ _ H1). apply go_step in H1.
  destruct (IH g1 g' ltac:(by eapply gate_step_ok) H) as [Hg' Hl]. split; [done|cbn [length]; lia].
Qed.
(** Nobody can go on. *)
Lemma stuck_done g : gate_ok g → (∀ a, go a g = None) → Forall (eq Done) (calls g) ∧ (thread g = T_body ∨ thread g = T_wait ∧ status g = STOP).
Proof.
  intros Hg Hs.
  assert (mutex g = None) as Hm.
  { destruct (mutex g) as [[|i]|] eqn:Hm; [..|done].
    - pose proof (proj2 (gk_thread g Hg) Hm) as Ht. specialize (Hs Thread). cbn [go] in Hs. unfold thread_step in Hs. by destruct (thread g).
    - destruct (proj2 (gk_call g Hg i) Hm) as (c & Hc & Hh). specialize (Hs (Caller i)). cbn [go] in Hs. unfold call_step in Hs. rewrite Hc in Hs. by destruct c. }
  assert (∀ i c, calls g !! i = Some c → c = Done) as Hc.
  { intros i c Hc. specialize (Hs (Caller i)). cbn [go] in Hs. unfold call_step, lock in Hs. rewrite Hc, Hm in Hs. by destruct c. }
  split; [apply Forall_lookup; intros i c H; symmetry; by eapply Hc|]. specialize (Hs Thread). cbn [go] in Hs. unfold thread_step, lock in Hs. rewrite Hm in Hs.
  destruct (thread g) eqn:Ht; try done; [|by left]. right. split; [done|]. destruct (status g) eqn:Hst; [done|].
  destruct (gk_wait g Hg Ht Hst) as [i Hi]. by apply Hc in Hi.
Qed.
(** C30. However the calls of thread_pause and thread_resume interleave with each other,
    with the thread and with wake-ups without a signal: when no further call comes,
    everything that is going on ends after a bounded number of steps, in any order,
    and then every call has returned and the thread is in its round, or waits because
    the status is STOP.  No wake-up is lost. *)
Theorem pause_settles p id g : pool_reachable p → p !! id = Some g → ∀ l g', run_gate l g = Some g' →
  (length l ≤ work g)%nat ∧
  ((∀ a, go a g' = None) → Forall (eq Done) (calls g') ∧ (thread g' = T_body ∨ thread g' = T_wait ∧ status g' = STOP)).
Proof.
  intros Hp Hg l g' Hr. destruct (run_ok l g g' ltac:(by eapply pool_ok) Hr) as [Hg' Hl]. split; [lia|by apply stuck_done].
Qed.

(** The thread with one status and every interleaving of its own steps with wake-ups
    without a signal *)
Inductive alone (g : Gate) : Gate → Prop :=
| al_step g' : thread_step g = Some g' → alone g g'
| al_spurious : thread g = T_wait → alone g (set_thread T_relock g).
(** A thread whose pause is complete does not come out of its loop before another
    call, whatever wakes it. *)
Theorem paused_stays g g' : status g = STOP → thread g = T_wait → rtc alone g g' → status g' = STOP ∧ thread g' ∈ [T_wait; T_relock; T_test].
Proof.
  intros Hs Ht Hr. apply (rtc_ind_r (R:=alone) (λ g', status g' = STOP ∧ thread g' ∈ [T_wait; T_relock; T_test]) g); [| |exact Hr].
  - split; [done|]. rewrite Ht. by left.
  - intros g1 g2 _ [g3 H|Hw] [Hs1 Ht1]; [|split; [done|right; left]].
    unfold thread_step, lock in H. rewrite !elem_of_cons, elem_of_nil in Ht1. destruct Ht1 as [Ht1|[Ht1|[Ht1|[]]]]; rewrite Ht1 in H; [done|..].
    + destruct (mutex g1); [done|]. injection H as <-. split; [done|]. right; right; left.
    + rewrite Hs1 in H. injection H as <-. split; [done|by left].
Qed.

(** A pause is carried out, the thread comes to its loop and waits, and a resume wakes
    it up. *)
Definition ref_calls : list agent :=
  [Caller 0; Caller 0; Caller 0; Caller 0; Thread; Thread; Caller 1; Caller 1; Caller 1; Caller 1; Caller 1; Thread; Thread; Thread].
Definition ref_paused : Gate := begin RUN (begin STOP init_gate).
Lemma pause_settles_witness : ∃ g', run_gate ref_calls ref_paused = Some g' ∧ (length ref_calls ≤ work ref_paused)%nat ∧
  Forall (eq Done) (calls g') ∧ (thread g' = T_body ∨ thread g' = T_wait ∧ status g' = STOP).
Proof.
  eexists. split; [vm_compute; reflexivity|].
  assert (pool_reachable (thread_resume 2 (thread_pause 2 init_pool))) as Hp.
  { eapply rtc_r; [eapply rtc_r; [apply rtc_refl|apply (ps_pause init_pool 2)]|apply ps_resume]. }
  destruct (pause_settles _ 2 ref_paused Hp ltac:(reflexivity) ref_calls _ ltac:(vm_compute; reflexivity)) as [Hl Hs]. split; [exact Hl|].
  apply Hs. intros [|[|[|i]]]; reflexivity.
Defined.
Lemma paused_stays_witness : thread (mkGate STOP None T_relock []) ∈ [T_wait; T_relock; T_test].
Proof.
  apply (paused_stays (mkGate STOP None T_wait []) (mkGate STOP None T_relock [])); [done|done|]. apply rtc_once. by apply (al_spurious (mkGate STOP None T_wait [])).
Defined.
