(* ===== verification/HeapTimer.v ===== *)
(** * HeapTimer: timers in a binary heap

    src/lib_app/robot_schedule/schedule/heap_timer.cpp: the entries live in a
    map by id, a vector of pointers to them is a heap by expiry time, and each
    entry knows its place in it. *)

From S2P Require Import Prelude.
From S2P Require WheelTimer.
#[local] Open Scope Z_scope.

Section heap.
(** What a callback does with the timer, as for the wheel. *)
Context {F : Type}.
Notation top := (WheelTimer.top F).
Context (exec : F → Z → list top).

Record HeapEntry := mkEntry {
  func_ptr : F;
  e_id : Z;                  (* timerId_ *)
  interval_ : Z;
  expires_ : Z;
  repeat_ : Z;
  heapIndex_ : Z }.

(** A pointer to an entry is its key in the map; [clock] is what
    GetCurrentMillisecs reads and [fired] records the calls. *)
Record HeapTimer := mkHeap {
  timers : gmap Z HeapEntry;
  heap_ : list Z;
  timerId_ : Z;
  clock : Z;
  fired : list Z }.

Definition new_heap (now : Z) : HeapTimer := mkHeap ∅ [] 0 now [].

Definition with_timers (f : gmap Z HeapEntry → gmap Z HeapEntry) (s : HeapTimer) : HeapTimer :=
  mkHeap (f (timers s)) (heap_ s) (timerId_ s) (clock s) (fired s).
Definition with_heap (f : list Z → list Z) (s : HeapTimer) : HeapTimer :=
  mkHeap (timers s) (f (heap_ s)) (timerId_ s) (clock s) (fired s).
Definition set_heapIndex (k : Z) (e : HeapEntry) : HeapEntry :=
  mkEntry (func_ptr e) (e_id e) (interval_ e) (expires_ e) (repeat_ e) k.

Definition deref (id : Z) : ST HeapTimer HeapEntry := λ s,
  match timers s !! id with Some e => Ok (e, s) | None => Ub UB_UseAfterFree end.
(** heap_[k], for a size_t k *)
Definition heap_at (k : Z) : ST HeapTimer Z := λ s,
  if decide (0 ≤ k < Z.of_nat (length (heap_ s))) then
    match heap_ s !! Z.to_nat k with Some id => Ok (id, s) | None => Ub UB_OutOfBounds end
  else Ub UB_OutOfBounds.
Definition set_heap (k : Z) (id : Z) : ST HeapTimer unit :=
  modify (with_heap (λ h, <[Z.to_nat k := id]> h)).
Definition set_entry (id : Z) (e : HeapEntry) : ST HeapTimer unit :=
  modify (with_timers (λ m, <[id := e]> m)).
Definition pop_back : ST HeapTimer unit :=
  h ← gets heap_;
  if bool_decide (h = []) then undefined UB_OutOfBounds else modify (with_heap (λ h, take (length h - 1) h)).

Definition put_index (id k : Z) : ST HeapTimer unit :=
  e ← deref id; set_entry id (set_heapIndex k e).

Definition SwapHeap (index1 index2 : Z) : ST HeapTimer unit :=
  tmp ← heap_at index1;
  other ← heap_at index2;
  set_heap index1 other;;
  set_heap index2 tmp;;
  id1 ← heap_at index1; put_index id1 index1;;
  id2 ← heap_at index2; put_index id2 index2.

(** heap_[i]->expires_ *)
Definition expires_at (k : Z) : ST HeapTimer Z :=
  id ← heap_at k; e ← deref id; mret (expires_ e).

(** The loops; the parent of 0 is not looked at. *)
Fixpoint up_loop (fuel : nat) (index : Z) : ST HeapTimer unit :=
  match fuel with
  | O => undefined UB_Diverges
  | S fuel =>
      if 0 <? index then
        let parent := (index - 1) / 2 in
        a ← expires_at index;
        b ← expires_at parent;
        if a <? b then SwapHeap index parent;; up_loop fuel parent else mret tt
      else mret tt
  end.
Definition UpHeap (index : Z) : ST HeapTimer unit := up_loop (S (Z.to_nat index)) index.

Fixpoint down_loop (fuel : nat) (index : Z) : ST HeapTimer unit :=
  match fuel with
  | O => undefined UB_Diverges
  | S fuel =>
      h ← gets heap_;
      let size := Z.of_nat (length h) in
      let child := index * 2 + 1 in
      if child <? size then
        left ← (if child + 1 =? size then mret true
                else a ← expires_at child; b ← expires_at (child + 1); mret (a <? b));
        let minChild := if left : bool then child else child + 1 in
        a ← expires_at index;
        b ← expires_at minChild;
        if a <? b then mret tt else SwapHeap index minChild;; down_loop fuel minChild
      else mret tt
  end.
Definition DownHeap (index : Z) : ST HeapTimer unit :=
  h ← gets heap_; down_loop (S (length h)) index.

Definition register_timer (f : F) (interval delay expired_times : Z) : ST HeapTimer Z :=
  n ← gets timerId_;
  if bool_decide (n = 2 ^ 31 - 1) then undefined UB_SignedOverflow else
  let interval := u32 interval in
  let delay := if u32 delay =? 0 then interval else u32 delay in
  h ← gets heap_;
  let curHeapIndex := Z.of_nat (length h) in
  let cur_id := n + 1 in
  modify (λ s, mkHeap (timers s) (heap_ s) cur_id (clock s) (fired s));;
  now ← gets clock;
  set_entry cur_id (mkEntry f cur_id interval (u64 (delay + now)) expired_times curHeapIndex);;
  modify (with_heap (λ h, h ++ [cur_id]));;
  UpHeap curHeapIndex;;
  mret cur_id.

(** An index of -1 becomes the largest size_t, as does the last index of an
    empty heap. *)
Definition unregister_timer (timerId : Z) : ST HeapTimer unit :=
  m ← gets timers;
  match m !! timerId with
  | None => mret tt
  | Some entry =>
      h ← gets heap_;
      let curIndex := u64 (heapIndex_ entry) in
      let lastIndex := u64 (Z.of_nat (length h) - 1) in
      if curIndex =? lastIndex then
        pop_back;; modify (with_timers (delete timerId))
      else
        SwapHeap curIndex lastIndex;;
        pop_back;;
        modify (with_timers (delete timerId));;
        up ← (if 0 <? curIndex then
                a ← expires_at curIndex; b ← expires_at ((curIndex - 1) / 2); mret (a <? b)
              else mret false);
        if up : bool then UpHeap curIndex else DownHeap curIndex
  end.

(** do expires_ += interval_ while (expires_ <= now) *)
Fixpoint rearm (fuel : nat) (now interval expires : Z) : res Z :=
  match fuel with
  | O => Ub UB_Diverges
  | S fuel =>
      let expires := u64 (expires + interval) in
      if expires <=? now then rearm fuel now interval expires else Ok expires
  end.

(** One turn of the while loop, for the entry on top. *)
Definition expire_top (now : Z) (entry : Z) : ST HeapTimer unit :=
  e ← deref entry;
  if bool_decide (repeat_ e = 1) then
    h ← gets heap_;
    let lastIndex := Z.of_nat (length h) - 1 in
    if lastIndex =? 0 then put_index entry (-1);; pop_back
    else
      SwapHeap 0 lastIndex;;
      put_index entry (-1);;
      pop_back;;
      DownHeap 0
  else
    let r := if 0 <? repeat_ e then repeat_ e - 1 else repeat_ e in
    x ← lift (rearm (Z.to_nat (now + 1 - expires_ e)) now (interval_ e) (expires_ e));
    set_entry entry (mkEntry (func_ptr e) (e_id e) (interval_ e) x r (heapIndex_ e));;
    DownHeap 0.

Fixpoint collect (fuel : nat) (now : Z) (expired_timers : list Z) : ST HeapTimer (list Z) :=
  h ← gets heap_;
  match h with
  | [] => mret expired_timers
  | entry :: _ =>
      e ← deref entry;
      if expires_ e <=? now then
        match fuel with
        | O => undefined UB_Diverges
        | S fuel => expire_top now entry;; collect fuel now (expired_timers ++ [e_id e])
        end
      else mret expired_timers
  end.

Definition run_op (o : top) : ST HeapTimer unit :=
  match o with
  | WheelTimer.Register f i d n => register_timer f i d n;; mret tt
  | WheelTimer.Unregister id => unregister_timer id
  | WheelTimer.Elapse ms => modify (λ s, mkHeap (timers s) (heap_ s) (timerId_ s)
                                      (clock s + Z.of_N ms) (fired s))
  end.

(** The body of the loop over the expired timers. *)
Definition call (now : Z) (timerId : Z) : ST HeapTimer unit :=
  m ← gets timers;
  match m !! timerId with
  | None => mret tt
  | Some entry =>
      when (bool_decide (heapIndex_ entry = -1)) (modify (with_timers (delete timerId)));;
      modify (λ s, mkHeap (timers s) (heap_ s) (timerId_ s) (clock s) (fired s ++ [timerId]));;
      iterM run_op (exec (func_ptr entry) now)
  end.

(** An entry comes to the top, expired, once. *)
Definition DetectTimers : ST HeapTimer unit :=
  now ← gets clock;
  h ← gets heap_;
  expired_timers ← collect (length h) now [];
  iterM (call now) expired_timers.
End heap.
Arguments HeapEntry : clear implicits.
Arguments HeapTimer : clear implicits.
