(* ===== verification/HeapOrder.v ===== *)
(** * HeapTimer: the heap operations

    The order of the heap by index, the links between the entries and the
    vector, and what the swaps and the two loops do to both. *)

From S2P Require Import Prelude.
From S2P Require Import HeapTimer.
#[local] Open Scope Z_scope.

(** ** Order, on the keys by index *)
Definition parent (i : nat) : nat := ((i - 1) / 2)%nat.
Lemma parent_spec i : (0 < i)%nat → i = (2 * parent i + 1)%nat ∨ i = (2 * parent i + 2)%nat.
Proof.
  intros Hi. unfold parent. pose proof (Nat.div_mod (i - 1) 2 ltac:(lia)).
  pose proof (Nat.mod_upper_bound (i - 1) 2 ltac:(lia)). lia.
Qed.
Lemma parent_child i c : c = (2 * i + 1)%nat ∨ c = (2 * i + 2)%nat → parent c = i.
Proof. intros Hc. pose proof (parent_spec c ltac:(lia)). lia. Qed.

Definition ordered (g : nat → Z) (n : nat) : Prop :=
  ∀ i, (0 < i < n)%nat → g (parent i) ≤ g i.
(** Ordered but for [i] against its parent. *)
Definition up_inv (g : nat → Z) (n i : nat) : Prop :=
  (∀ j, (0 < j < n)%nat → j ≠ i → g (parent j) ≤ g j) ∧
  (∀ j, (0 < j < n)%nat → parent j = i → (0 < i)%nat → g (parent i) ≤ g j).
(** Ordered but for [i] against its children. *)
Definition down_inv (g : nat → Z) (n i : nat) : Prop :=
  (∀ j, (0 < j < n)%nat → parent j ≠ i → g (parent j) ≤ g j) ∧
  (∀ j, (0 < j < n)%nat → parent j = i → (0 < i)%nat → g (parent i) ≤ g j).

(** The permutation of a swap. *)
Definition sw (i j k : nat) : nat := if decide (k = i) then j else if decide (k = j) then i else k.

Lemma ordered_root g n i : ordered g n → (i < n)%nat → g 0%nat ≤ g i.
Proof.
  intros Ho. induction i as [i IH] using lt_wf_ind. intros Hi.
  destruct (decide (i = 0%nat)) as [->|Hne]; [lia|].
  pose proof (parent_spec i ltac:(lia)). pose proof (Ho i ltac:(lia)).
  pose proof (IH (parent i) ltac:(lia) ltac:(lia)). lia.
Qed.

Lemma up_swap g n i :
  up_inv g n i → (0 < i < n)%nat → g i < g (parent i) →
  up_inv (λ k, g (sw i (parent i) k)) n (parent i).
Proof.
  intros [H1 H2] Hi Hlt. pose proof (parent_spec i ltac:(lia)) as Hp. split.
  - intros j Hj Hne. pose proof (parent_spec j ltac:(lia)) as Hpj. unfold sw.
    rewrite (decide_False (P := j = parent i)) by done.
    destruct (decide (j = i)) as [->|Hji].
    + rewrite (decide_False (P := parent i = i)) by lia. rewrite decide_True by done. lia.
    + destruct (decide (parent j = i)) as [He|He]; [by apply (H2 j Hj He); lia|].
      pose proof (H1 j Hj Hji). destruct (decide (parent j = parent i)) as [He'|He']; [|done].
      rewrite He' in *. lia.
  - intros j Hj He Hpos. pose proof (parent_spec (parent i) Hpos). unfold sw.
    rewrite (decide_False (P := parent (parent i) = i)) by lia.
    rewrite (decide_False (P := parent (parent i) = parent i)) by lia.
    pose proof (H1 (parent i) ltac:(lia) ltac:(lia)).
    destruct (decide (j = i)) as [->|Hji]; [done|].
    rewrite decide_False by (pose proof (parent_spec j ltac:(lia)); lia).
    pose proof (H1 j Hj Hji). rewrite He in *. lia.
Qed.

Lemma up_done g n i :
  up_inv g n i → (i = 0%nat ∨ g (parent i) ≤ g i) → ordered g n.
Proof.
  intros [H1 _] Hi j Hj. destruct (decide (j = i)) as [->|Hne]; [|by apply H1].
  destruct Hi; [lia|done].
Qed.

Lemma down_swap g n i c :
  down_inv g n i → (c < n)%nat → parent c = i → (0 < c)%nat → g c ≤ g i →
  (∀ d, (0 < d < n)%nat → parent d = i → g c ≤ g d) →
  down_inv (λ k, g (sw i c k)) n c.
Proof.
  intros [H1 H2] Hc Hp Hpos Hle Hmin. pose proof (parent_spec c Hpos) as Hpc. split.
  - intros j Hj Hne. pose proof (parent_spec j ltac:(lia)) as Hpj. unfold sw.
    destruct (decide (j = i)) as [->|Hji].
    + rewrite (decide_False (P := parent i = i)), (decide_False (P := parent i = c)) by lia.
      by apply H2; lia.
    + rewrite (decide_False (P := parent j = c)) by done.
      destruct (decide (parent j = i)) as [He|He].
      * destruct (decide (j = c)) as [->|Hjc]; [done|by apply Hmin].
      * rewrite decide_False by (intros ->; lia). by apply H1.
  - intros j Hj He _. pose proof (parent_spec j ltac:(lia)) as Hpj. unfold sw.
    rewrite Hp, decide_True by done. rewrite (decide_False (P := j = i)) by lia.
    rewrite (decide_False (P := j = c)) by lia. rewrite <-He. apply H1; lia.
Qed.

Lemma down_done g n i :
  down_inv g n i → (∀ c, (0 < c < n)%nat → parent c = i → g i ≤ g c) → ordered g n.
Proof.
  intros [H1 _] Hi j Hj. destruct (decide (parent j = i)) as [He|Hne]; [|by apply H1].
  rewrite He. by apply Hi.
Qed.

Lemma ordered_up g n i : ordered g n → up_inv g n i.
Proof.
  intros Ho. split; [by intros; apply Ho|]. intros j Hj He Hi.
  pose proof (Ho j Hj). rewrite He in *. pose proof (parent_spec j ltac:(lia)).
  pose proof (Ho i ltac:(lia)). lia.
Qed.

(** A new key at [i] of an ordered heap: one of the two loops mends it. *)
Lemma put_key g g' n i :
  ordered g n → (∀ k, (k < n)%nat → k ≠ i → g' k = g k) → (i < n)%nat →
  (((0 < i)%nat ∧ g' i < g' (parent i)) → up_inv g' n i) ∧
  ((i = 0%nat ∨ g' (parent i) ≤ g' i) → down_inv g' n i).
Proof.
  intros Ho Hg Hi. destruct (ordered_up g n i Ho) as [_ H2]. split.
  - intros [Hpos Hlt]. pose proof (parent_spec i Hpos) as Hpi. split.
    + intros j Hj Hne. pose proof (parent_spec j ltac:(lia)). rewrite (Hg j) by lia.
      destruct (decide (parent j = i)) as [He|He].
      * pose proof (H2 j Hj He Hpos). rewrite He. rewrite (Hg (parent i)) in Hlt by lia. lia.
      * rewrite Hg by lia. by apply Ho.
    + intros j Hj He _. pose proof (parent_spec j ltac:(lia)).
      rewrite (Hg j), Hg by lia. by apply H2.
  - intros Hle. split.
    + intros j Hj Hne. pose proof (parent_spec j ltac:(lia)). rewrite (Hg (parent j)) by lia.
      destruct (decide (j = i)) as [->|Hji].
      * rewrite <-(Hg (parent i)) by lia. destruct Hle; [lia|done].
      * rewrite Hg by lia. by apply Ho.
    + intros j Hj He Hpos. pose proof (parent_spec j ltac:(lia)). pose proof (parent_spec i Hpos).
      rewrite (Hg j), Hg by lia. by apply H2.
Qed.

(** The last key is dropped. *)
Lemma ordered_shrink g n : ordered g (S n) → ordered g n.
Proof. intros Ho i Hi. apply Ho. lia. Qed.

(** ** Links *)
Section state.
Context {F : Type}.
Implicit Types (s : HeapTimer F) (e : HeapEntry F).

(** The vector points to entries that know their place; an entry that is not
    in it has the index -1. *)
Definition linked s : Prop :=
  (∀ i id, heap_ s !! i = Some id → ∃ e, timers s !! id = Some e ∧ heapIndex_ e = Z.of_nat i) ∧
  (∀ id e, timers s !! id = Some e → heapIndex_ e = -1 ∨ ∃ i, heap_ s !! i = Some id).

(** An entry without its place, but for whether it has one. *)
Definition attached e : bool := bool_decide (heapIndex_ e ≠ -1).
Definition bare e : HeapEntry F := set_heapIndex (if attached e then 0 else -1) e.
Definition abs s : gmap Z (HeapEntry F) := bare <$> timers s.

Definition key s (id : Z) : Z := default 0 (expires_ <$> timers s !! id).
Definition gkey s (i : nat) : Z := default 0 (key s <$> heap_ s !! i).

(** What the heap operations leave alone. *)
Definition same s s' : Prop :=
  abs s' = abs s ∧ length (heap_ s') = length (heap_ s) ∧ timerId_ s' = timerId_ s ∧
  clock s' = clock s ∧ fired s' = fired s.

Lemma same_refl s : same s s.
Proof. done. Qed.
Lemma same_trans s1 s2 s3 : same s1 s2 → same s2 s3 → same s1 s3.
Proof. unfold same. intros (? & ? & ? & ? & ?) (? & ? & ? & ? & ?). split_and!; congruence. Qed.

Lemma linked_inj s i j id : linked s → heap_ s !! i = Some id → heap_ s !! j = Some id → i = j.
Proof.
  intros [Hl _] Hi Hj. destruct (Hl _ _ Hi) as (e & He & Hei), (Hl _ _ Hj) as (e' & He' & Hej).
  rewrite He in He'. injection He' as <-. lia.
Qed.

Lemma linked_attached s id e :
  linked s → timers s !! id = Some e → attached e = true ↔ heap_ s !! Z.to_nat (heapIndex_ e) = Some id ∧ 0 ≤ heapIndex_ e.
Proof.
  intros [H1 H2] He. unfold attached. rewrite bool_decide_eq_true. split; [|lia].
  intros Ha. destruct (H2 id e He) as [|[i Hi]]; [done|].
  destruct (H1 i id Hi) as (e' & He' & Hx). rewrite He in He'. injection He' as <-.
  rewrite Hx, Nat2Z.id. split; [done|lia].
Qed.

(** Keys are determined by the bare entries. *)
Lemma key_abs s s' id : abs s' = abs s → key s' id = key s id.
Proof.
  intros Ha. unfold key.
  assert (expires_ <$> (bare <$> timers s' !! id) = expires_ <$> (bare <$> timers s !! id)) as Hx.
  { rewrite <-!lookup_fmap. change (bare <$> timers s') with (abs s'). by rewrite Ha. }
  destruct (timers s' !! id), (timers s !! id); simpl in *; by inversion Hx.
Qed.

Lemma heap_at_run s i id : heap_ s !! i = Some id → heap_at (Z.of_nat i) s = Ok (id, s).
Proof.
  intros Hi. unfold heap_at. pose proof (lookup_lt_Some _ _ _ Hi).
  rewrite decide_True by lia. by rewrite Nat2Z.id, Hi.
Qed.

Lemma expires_at_run s i : linked s → (i < length (heap_ s))%nat →
  expires_at (Z.of_nat i) s = Ok (gkey s i, s).
Proof.
  intros [Hl _] Hi. destruct (lookup_lt_is_Some_2 _ _ Hi) as [id Hid].
  destruct (Hl _ _ Hid) as (e & He & _). unfold expires_at.
  rewrite run_bind, (heap_at_run _ _ _ Hid), run_bind. unfold deref. rewrite He.
  unfold gkey, key. by rewrite Hid, run_ret; simpl; rewrite He.
Qed.

Lemma bare_set k e : k ≠ -1 → bare (set_heapIndex k e) = set_heapIndex 0 e.
Proof. intros Hk. unfold bare, attached. simpl. by rewrite bool_decide_true. Qed.

(** The entries [idi] and [idj] of the places [i] and [j] change places. *)
Lemma SwapHeap_run s i j :
  linked s → (i < length (heap_ s))%nat → (j < length (heap_ s))%nat → i ≠ j →
  ∃ s', SwapHeap (Z.of_nat i) (Z.of_nat j) s = Ok (tt, s') ∧ linked s' ∧ same s s' ∧
        (∀ k, heap_ s' !! k = heap_ s !! sw i j k) ∧ (∀ k, gkey s' k = gkey s (sw i j k)).
Proof.
  intros Hl Hi Hj Hne.
  destruct (lookup_lt_is_Some_2 _ _ Hi) as [x Hx], (lookup_lt_is_Some_2 _ _ Hj) as [y Hy].
  assert (x ≠ y) as Hxy by (intros ->; by apply Hne, (linked_inj s i j y)).
  destruct (proj1 Hl _ _ Hx) as (ex & Hex & Hix), (proj1 Hl _ _ Hy) as (ey & Hey & Hiy).
  set (h := <[j := x]> (<[i := y]> (heap_ s))).
  assert (∀ k, h !! k = heap_ s !! sw i j k) as Hsw.
  { intros k. unfold h, sw. destruct (decide (k = i)) as [->|Hki].
    - by rewrite list_lookup_insert_ne, list_lookup_insert_eq.
    - destruct (decide (k = j)) as [->|Hkj].
      + by rewrite list_lookup_insert_eq by by rewrite length_insert.
      + by rewrite !list_lookup_insert_ne. }
  set (m := <[x := set_heapIndex (Z.of_nat j) ex]> (<[y := set_heapIndex (Z.of_nat i) ey]> (timers s))).
  exists (mkHeap m h (timerId_ s) (clock s) (fired s)).
  assert (same s (mkHeap m h (timerId_ s) (clock s) (fired s))) as Hsame.
  { split_and!; try done; [|unfold h; simpl; by rewrite !length_insert].
    unfold abs, m. simpl. apply map_eq. intros id. rewrite !lookup_fmap.
    destruct (decide (id = x)) as [->|Hx']; [|rewrite lookup_insert_ne by done; destruct (decide (id = y)) as [->|Hy']].
    - rewrite lookup_insert_eq, Hex. simpl. rewrite bare_set by lia. unfold bare, attached.
      by rewrite bool_decide_true by lia.
    - rewrite lookup_insert_eq, Hey. simpl. rewrite bare_set by lia. unfold bare, attached.
      by rewrite bool_decide_true by lia.
    - by rewrite lookup_insert_ne. }
  split; [|split; [|split; [done|split; [done|]]]].
  - unfold SwapHeap. rewrite run_bind, (heap_at_run _ _ _ Hx), run_bind, (heap_at_run _ _ _ Hy).
    unfold set_heap. rewrite run_bind, run_modify, run_bind, run_modify, !Nat2Z.id.
    set (s1 := with_heap _ _). assert (heap_ s1 = h) as Hs1 by done.
    rewrite run_bind, (heap_at_run s1 i y).
    2: { rewrite Hs1, Hsw. unfold sw. by rewrite decide_True. }
    unfold put_index, deref, set_entry. rewrite run_bind, run_bind. cbn [timers s1 with_heap].
    rewrite Hey, run_modify. set (s2 := with_timers _ _). assert (heap_ s2 = h) as Hs2 by done.
    rewrite run_bind, (heap_at_run s2 j x).
    2: { rewrite Hs2, Hsw. unfold sw. by rewrite decide_False, decide_True. }
    rewrite run_bind. unfold s2. simpl. by rewrite lookup_insert_ne, Hex.
  - split; simpl.
    + intros k id. rewrite Hsw. unfold sw. destruct (decide (k = i)) as [->|Hki]; [|destruct (decide (k = j)) as [->|Hkj]].
      * rewrite Hy. intros [= <-]. exists (set_heapIndex (Z.of_nat i) ey). unfold m.
        by rewrite lookup_insert_ne, lookup_insert_eq.
      * rewrite Hx. intros [= <-]. exists (set_heapIndex (Z.of_nat j) ex). unfold m.
        by rewrite lookup_insert_eq.
      * intros Hk. destruct (proj1 Hl _ _ Hk) as (e & He & Hie). exists e. split; [|done]. unfold m.
        rewrite !lookup_insert_ne; [done|..]; intros <-; [by apply Hkj, (linked_inj s k j y)|by apply Hki, (linked_inj s k i x)].
    + intros id e. unfold m. rewrite lookup_insert_Some, lookup_insert_Some.
      intros [[<- _]|(_ & [[<- _]|(_ & He)])].
      * right. exists j. rewrite Hsw. unfold sw. by rewrite decide_False, decide_True.
      * right. exists i. rewrite Hsw. unfold sw. by rewrite decide_True.
      * destruct (proj2 Hl id e He) as [|[k Hk]]; [by left|right]. exists (sw i j k). rewrite Hsw.
        unfold sw. repeat case_decide; subst; try done; congruence.
  - intros k. unfold gkey. simpl. rewrite Hsw. destruct (heap_ s !! sw i j k); simpl; [|done].
    apply key_abs, Hsame.
Qed.

(** ** The loops *)
Lemma UpHeap_loop fuel : ∀ s i,
  linked s → (i < length (heap_ s))%nat → up_inv (gkey s) (length (heap_ s)) i → (i < fuel)%nat →
  ∃ s', up_loop fuel (Z.of_nat i) s = Ok (tt, s') ∧ linked s' ∧ same s s' ∧
        ordered (gkey s') (length (heap_ s')).
Proof.
  induction fuel as [|fuel IH]; intros s i Hl Hi Hu Hf; [lia|]. cbn [up_loop].
  destruct (decide (i = 0%nat)) as [->|Hpos].
  { exists s. split; [done|]. split_and!; try done. apply (up_done _ _ 0); [done|by left]. }
  pose proof (parent_spec i ltac:(lia)) as Hp.
  rewrite (proj2 (Z.ltb_lt 0 (Z.of_nat i))) by lia.
  replace ((Z.of_nat i - 1) / 2) with (Z.of_nat (parent i)).
  2: { unfold parent. rewrite Nat2Z.inj_div. f_equal. lia. }
  rewrite run_bind, expires_at_run by done. rewrite run_bind, expires_at_run by (done || lia).
  destruct (Z.ltb_spec (gkey s i) (gkey s (parent i))) as [Hlt|Hge].
  - destruct (SwapHeap_run s i (parent i)) as (s1 & Hr & Hl1 & Hs1 & _ & Hk1); [done|lia..|].
    rewrite run_bind, Hr. pose proof Hs1 as (_ & Hlen & _).
    destruct (IH s1 (parent i)) as (s2 & Hr2 & Hl2 & Hs2 & Ho2); [done|lia| |lia|].
    + rewrite Hlen. destruct (up_swap (gkey s) (length (heap_ s)) i Hu) as [U1 U2]; [lia|done|].
      split; intros; rewrite !Hk1; [by apply U1|by apply U2].
    + exists s2. split_and!; try done. by eapply same_trans.
  - exists s. split; [done|]. split_and!; try done. apply (up_done _ _ i); [done|by right].
Qed.

(** The smaller child the loop chooses. *)
Lemma min_child g n i :
  (2 * i + 1 < n)%nat →
  let c := if (2 * i + 2 =? n)%nat || (g (2 * i + 1)%nat <? g (2 * i + 2)%nat)
           then (2 * i + 1)%nat else (2 * i + 2)%nat in
  (c < n)%nat ∧ (0 < c)%nat ∧ parent c = i ∧ (∀ d, (0 < d < n)%nat → parent d = i → g c ≤ g d).
Proof.
  intros Hn c.
  assert ((c = (2 * i + 1)%nat ∧ ((2 * i + 2)%nat = n ∨ g (2 * i + 1)%nat < g (2 * i + 2)%nat)) ∨
          (c = (2 * i + 2)%nat ∧ (2 * i + 2)%nat ≠ n ∧ g (2 * i + 2)%nat ≤ g (2 * i + 1)%nat)) as Hc.
  { unfold c. destruct (Nat.eqb_spec (2 * i + 2) n); cbn [orb]; [by left; split; [|left]|].
    destruct (Z.ltb_spec (g (2 * i + 1)%nat) (g (2 * i + 2)%nat)); [left; auto|right; by split_and!]. }
  clearbody c. split_and!; [lia|lia|apply parent_child; lia|].
  intros d Hd Hp. pose proof (parent_spec d ltac:(lia)) as Hpd. rewrite Hp in Hpd.
  destruct Hc as [(-> & Hc)|(-> & Hne & Hc)], Hpd as [->| ->]; try lia.
Qed.

Lemma DownHeap_loop fuel : ∀ s i,
  linked s → down_inv (gkey s) (length (heap_ s)) i → (length (heap_ s) ≤ fuel + i)%nat →
  (i < length (heap_ s) ∨ 0 < fuel)%nat →
  ∃ s', down_loop fuel (Z.of_nat i) s = Ok (tt, s') ∧ linked s' ∧ same s s' ∧
        ordered (gkey s') (length (heap_ s')).
Proof.
  induction fuel as [|fuel IH]; intros s i Hl Hd Hf Hpos; [lia|]. cbn [down_loop].
  rewrite run_bind, run_gets. set (n := length (heap_ s)) in *.
  destruct (Z.ltb_spec (Z.of_nat i * 2 + 1) (Z.of_nat n)) as [Hc|Hc].
  2: { exists s. split; [done|]. split_and!; try done. apply (down_done _ _ i); [done|].
       intros c Hcn Hp. pose proof (parent_spec c ltac:(lia)). fold n in Hcn. lia. }
  pose proof (min_child (gkey s) n i ltac:(lia)) as Hmin.
  set (c := if _ || _ then _ else _) in Hmin. destruct Hmin as (Hcn & Hc0 & Hcp & Hmin).
  rewrite run_bind.
  replace (Z.of_nat i * 2 + 1) with (Z.of_nat (2 * i + 1)) by lia.
  replace (Z.of_nat (2 * i + 1) + 1) with (Z.of_nat (2 * i + 2)) by lia.
  assert ((if Z.of_nat (2 * i + 2) =? Z.of_nat n then mret true
           else a ← expires_at (Z.of_nat (2 * i + 1)); b ← expires_at (Z.of_nat (2 * i + 2)); mret (a <? b)) s
          = Ok ((2 * i + 2 =? n)%nat || (gkey s (2 * i + 1) <? gkey s (2 * i + 2)), s)) as ->.
  { destruct (Nat.eqb_spec (2 * i + 2) n) as [He|He].
    - rewrite He, Z.eqb_refl. done.
    - rewrite (proj2 (Z.eqb_neq _ _)) by lia.
      rewrite run_bind, expires_at_run by (done || lia). rewrite run_bind, expires_at_run by (done || lia). done. }
  match goal with |- context [expires_at (if ?b then _ else _)] =>
    replace (if b then Z.of_nat (2 * i + 1) else Z.of_nat (2 * i + 2)) with (Z.of_nat c)
      by (unfold c; by destruct b) end.
  rewrite run_bind, expires_at_run by (done || lia).
  rewrite run_bind, expires_at_run by (done || lia).
  destruct (Z.ltb_spec (gkey s i) (gkey s c)) as [Hlt|Hge].
  - exists s. split; [done|]. split_and!; try done. apply (down_done _ _ i); [done|].
    intros d Hdn Hp. pose proof (Hmin d Hdn Hp). lia.
  - pose proof (parent_spec c Hc0) as Hpc.
    destruct (SwapHeap_run s i c) as (s1 & Hr & Hl1 & Hs1 & _ & Hk1); [done|lia..|].
    rewrite run_bind, Hr. pose proof Hs1 as (_ & Hlen & _).
    destruct (IH s1 c) as (s2 & Hr2 & Hl2 & Hs2 & Ho2); [done| |lia|lia|].
    + rewrite Hlen. destruct (down_swap (gkey s) n i c Hd) as [U1 U2]; try done.
      split; intros; rewrite !Hk1; [by apply U1|by apply U2].
    + exists s2. split_and!; try done. by eapply same_trans.
Qed.

Lemma UpHeap_run s i :
  linked s → (i < length (heap_ s))%nat → up_inv (gkey s) (length (heap_ s)) i →
  ∃ s', UpHeap (Z.of_nat i) s = Ok (tt, s') ∧ linked s' ∧ same s s' ∧
        ordered (gkey s') (length (heap_ s')).
Proof. intros. unfold UpHeap. apply UpHeap_loop; try done. lia. Qed.

Lemma DownHeap_run s i :
  linked s → down_inv (gkey s) (length (heap_ s)) i →
  ∃ s', DownHeap (Z.of_nat i) s = Ok (tt, s') ∧ linked s' ∧ same s s' ∧
        ordered (gkey s') (length (heap_ s')).
Proof. intros. unfold DownHeap. rewrite run_bind, run_gets. apply DownHeap_loop; try done; lia. Qed.
End state.
