(* ===== verification/HeapTheorems.v ===== *)
(** * HeapTimer: theorems

    The invariant of the heap, what registering, unregistering and a detection
    do to the map of timers, and the uses that run into undefined behaviour. *)

From stdpp Require Import sorting.
From S2P Require Import Prelude.
From S2P Require WheelTimer.
From S2P Require Import HeapTimer HeapOrder.
#[local] Open Scope Z_scope.

(** The next expiry in the future, on the grid of the interval. *)
Definition next_expiry (now interval expires : Z) : Z :=
  expires + ((now - expires) / interval + 1) * interval.

Lemma rearm_run fuel now interval : ∀ expires,
  1 ≤ interval < 2 ^ 32 → 0 ≤ expires ≤ now → now < 2 ^ 62 → now + 1 - expires ≤ Z.of_nat fuel →
  rearm fuel now interval expires = Ok (next_expiry now interval expires).
Proof.
  induction fuel as [|fuel IH]; intros x Hi Hx Hn Hf; [lia|]. cbn [rearm].
  rewrite (uwrap_id 64) by (unfold in_u; lia).
  destruct (Z.leb_spec (x + interval) now) as [Hle|Hgt].
  - rewrite IH by lia. unfold next_expiry. f_equal.
    replace (now - x) with ((now - (x + interval)) + 1 * interval) by lia.
    rewrite Z.div_add by lia. lia.
  - unfold next_expiry. rewrite Z.div_small by lia. f_equal. lia.
Qed.

Lemma next_expiry_future now interval expires :
  1 ≤ interval → expires ≤ now →
  now < next_expiry now interval expires ≤ now + interval.
Proof.
  intros Hi Hx. unfold next_expiry.
  pose proof (Z.div_mod (now - expires) interval ltac:(lia)).
  pose proof (Z.mod_pos_bound (now - expires) interval ltac:(lia)). nia.
Qed.

Section heap.
Context {F : Type}.
Implicit Types (s : HeapTimer F) (e : HeapEntry F).

(** ** The invariant *)
Definition entry_ok (n id : Z) e : Prop :=
  e_id e = id ∧ id ≤ n ∧ 0 ≤ expires_ e ∧ interval_ e < 2 ^ 32 ∧ 0 ≤ interval_ e ∧
  (repeat_ e ≠ 1 → 1 ≤ interval_ e).

Record heap_ok s : Prop := {
  ho_linked : linked s;
  ho_ordered : ordered (gkey s) (length (heap_ s));
  ho_entries : map_Forall (entry_ok (timerId_ s)) (abs s);
  ho_size : Z.of_nat (length (heap_ s)) ≤ timerId_ s < 2 ^ 31;
  ho_time : 0 ≤ clock s }.

(** Between two calls every timer is in the heap. *)
Definition heap_idle s : Prop := heap_ok s ∧ map_Forall (λ _ e, attached e = true) (abs s).

Lemma heap_ok_same s s' :
  heap_ok s → same s s' → linked s' → ordered (gkey s') (length (heap_ s')) → heap_ok s'.
Proof.
  intros [] (Ha & Hl & Hi & Hc & _) Hl' Ho'. split; try done; rewrite ?Ha, ?Hl, ?Hi, ?Hc; done.
Qed.

Lemma new_heap_ok now : 0 ≤ now → heap_idle (new_heap (F:=F) now).
Proof.
  intros Hn. split; [|by intros id e He].
  by split.
Qed.

Lemma abs_entry_lookup s id e : abs s !! id = Some e ↔ ∃ e', timers s !! id = Some e' ∧ e = bare e'.
Proof. unfold abs. rewrite lookup_fmap, fmap_Some. done. Qed.

Lemma attached_bare e : attached (bare e) = attached e.
Proof. unfold bare, attached at 1. simpl. by destruct (attached e). Qed.

Lemma abs_attached s id e : linked s → abs s !! id = Some e →
  attached e = true ↔ ∃ i, heap_ s !! i = Some id.
Proof.
  intros Hl (e' & He & ->)%abs_entry_lookup. rewrite attached_bare.
  rewrite (linked_attached s id e' Hl He). split; [intros [H _]; eauto|].
  intros [i Hi]. destruct (proj1 Hl _ _ Hi) as (e'' & He' & Hx). rewrite He in He'.
  injection He' as <-. rewrite Hx, Nat2Z.id. split; [done|lia].
Qed.

Lemma heap_nodup s : linked s → NoDup (heap_ s).
Proof. intros Hl. apply NoDup_alt. intros i j x Hi Hj. by apply (linked_inj s i j x). Qed.

(** ** Taking the last place off *)
Lemma drop_last s n x m' :
  linked s → length (heap_ s) = S n → heap_ s !! n = Some x →
  (∀ id, id ≠ x → m' !! id = timers s !! id) →
  (∀ e, m' !! x = Some e → heapIndex_ e = -1) →
  let s' := mkHeap m' (take n (heap_ s)) (timerId_ s) (clock s) (fired s) in
  linked s' ∧ (∀ k, (k < n)%nat → gkey s' k = gkey s k) ∧ length (heap_ s') = n.
Proof.
  intros Hl Hn Hx Hm Hmx s'.
  assert (∀ k id, take n (heap_ s) !! k = Some id → heap_ s !! k = Some id ∧ id ≠ x) as Ht.
  { intros k id Hk. apply lookup_take_Some in Hk as [Hk Hlt]. split; [done|]. intros ->.
    pose proof (linked_inj s k n x Hl Hk Hx). lia. }
  split; [split; simpl|split; simpl].
  - intros k id Hk. destruct (Ht k id Hk) as [Hk' Hne]. rewrite Hm by done. by apply Hl.
  - intros id e He. destruct (decide (id = x)) as [->|Hne]; [left; by apply Hmx|].
    rewrite Hm in He by done. destruct (proj2 Hl id e He) as [|[k Hk]]; [by left|right].
    exists k. rewrite lookup_take_lt; [done|]. apply lookup_lt_Some in Hk as Hlt.
    assert (k ≠ n) by (intros ->; congruence). lia.
  - intros k Hk. unfold gkey. simpl. rewrite lookup_take_lt by done.
    destruct (heap_ s !! k) as [id|] eqn:Hid; [|done]. simpl. unfold key. simpl. rewrite Hm; [done|].
    apply (Ht k). by rewrite lookup_take_lt.
  - rewrite length_take. lia.
Qed.

(** ** Registering *)
Definition s_register (f : F) (interval delay times now : Z) (id : Z) : HeapEntry F :=
  mkEntry f id (u32 interval) (u64 ((if u32 delay =? 0 then u32 interval else u32 delay) + now)) times 0.

Lemma abs_fresh s id : heap_ok s → timerId_ s < id → timers s !! id = None.
Proof.
  intros Hok Hid. destruct (timers s !! id) as [e|] eqn:He; [|done].
  destruct (ho_entries _ Hok id (bare e)) as (_ & Hle & _); [|lia]. apply abs_entry_lookup. eauto.
Qed.

Lemma register_run s f interval delay times :
  heap_ok s → timerId_ s < 2 ^ 31 - 1 → (times ≠ 1 → 1 ≤ u32 interval) →
  ∃ s', register_timer f interval delay times s = Ok (timerId_ s + 1, s') ∧ heap_ok s' ∧
    abs s' = <[timerId_ s + 1 := s_register f interval delay times (clock s) (timerId_ s + 1)]> (abs s) ∧
    timerId_ s' = timerId_ s + 1 ∧ clock s' = clock s ∧ fired s' = fired s.
Proof.
  intros Hok Hid Hi. pose proof (ho_linked _ Hok) as Hl. set (n := timerId_ s + 1).
  assert (timers s !! n = None) as Hnew by (apply abs_fresh; [done|lia]).
  unfold register_timer. rewrite run_bind, run_gets, bool_decide_false by lia.
  cbv zeta. rewrite run_bind, run_gets, run_bind, run_modify, run_bind, run_gets.
  unfold set_entry. rewrite run_bind, run_modify, run_bind, run_modify. fold n.
  set (e := mkEntry f n _ _ _ _). set (s1 := with_heap _ _).
  assert (timers s1 = <[n := e]> (timers s)) as Ht by done.
  assert (heap_ s1 = heap_ s ++ [n]) as Hh by done.
  assert (∀ k, (k < length (heap_ s))%nat → gkey s1 k = gkey s k) as Hg.
  { intros k Hk. unfold gkey. rewrite Hh, lookup_app_l by done.
    destruct (lookup_lt_is_Some_2 _ _ Hk) as [id Hk']. rewrite Hk'. simpl. unfold key. rewrite Ht.
    rewrite lookup_insert_ne; [done|]. intros <-. destruct (proj1 Hl _ _ Hk') as (? & ? & _). congruence. }
  assert (linked s1) as Hl1.
  { split.
    - intros k id. rewrite Hh, Ht, lookup_app_Some. intros [Hk|[Hk Hk']].
      + destruct (proj1 Hl _ _ Hk) as (e' & He' & Hx). exists e'. split; [|done].
        rewrite lookup_insert_ne; [done|]. intros <-. congruence.
      + apply list_lookup_singleton_Some in Hk' as [Hk' <-]. exists e. rewrite lookup_insert_eq.
        split; [done|]. simpl. lia.
    - intros id e'. rewrite Ht, Hh, lookup_insert_Some. intros [[<- _]|[Hne He]].
      + right. exists (length (heap_ s)). by rewrite lookup_app_r, Nat.sub_diag by lia.
      + destruct (proj2 Hl id e' He) as [|[k Hk]]; [by left|right]. exists k.
        rewrite lookup_app_l; [done|]. by eapply lookup_lt_Some. }
  assert (length (heap_ s1) = S (length (heap_ s))) as Hlen by (rewrite Hh, length_app; simpl; lia).
  destruct (UpHeap_run s1 (length (heap_ s))) as (s2 & Hr & Hl2 & Hs2 & Ho2); [done|lia| |].
  { rewrite Hlen. split.
    - intros j Hj Hne. pose proof (parent_spec j ltac:(lia)). rewrite !Hg by lia.
      apply (ho_ordered _ Hok). lia.
    - intros j Hj He Hpos. pose proof (parent_spec j ltac:(lia)). lia. }
  rewrite run_bind, Hr. exists s2. split; [done|].
  pose proof Hs2 as (Ha & Hlen2 & Hid2 & Hc2 & Hf2).
  assert (abs s1 = <[n := s_register f interval delay times (clock s) n]> (abs s)) as Ha1.
  { unfold abs. rewrite Ht, fmap_insert. f_equal. unfold s_register, bare, attached. simpl.
    by rewrite bool_decide_true by lia. }
  split; [|by rewrite Ha]. split; [done|done| | |].
  - rewrite Ha, Ha1, Hid2. apply map_Forall_insert_2.
    + pose proof (uwrap_range 32 interval ltac:(lia)) as Hu. unfold in_u in Hu.
      split_and!; simpl; try done; try lia. apply uwrap_range. lia.
    + intros id e' He'. destruct (ho_entries _ Hok id e' He') as (? & ? & ?). split; [done|].
      split; [simpl; lia|done].
  - rewrite Hlen2, Hlen, Hid2. pose proof (ho_size _ Hok). simpl. lia.
  - rewrite Hc2. apply (ho_time _ Hok).
Qed.

(** ** Unregistering *)
Lemma ordered_ext g g' n : (∀ k, (k < n)%nat → g' k = g k) → ordered g n → ordered g' n.
Proof.
  intros Hg Ho i Hi. pose proof (parent_spec i ltac:(lia)). rewrite !Hg by lia. by apply Ho.
Qed.

Lemma parent_Z i : (0 < i)%nat → (Z.of_nat i - 1) / 2 = Z.of_nat (parent i).
Proof. intros Hi. unfold parent. rewrite Nat2Z.inj_div. f_equal. lia. Qed.

Lemma pop_back_run s n :
  length (heap_ s) = S n →
  pop_back s = Ok (tt, mkHeap (timers s) (take n (heap_ s)) (timerId_ s) (clock s) (fired s)).
Proof.
  intros Hn. unfold pop_back. rewrite run_bind, run_gets, bool_decide_false by (intros H; by rewrite H in Hn).
  rewrite run_modify. unfold with_heap. by rewrite Hn, Nat.sub_succ, Nat.sub_0_r.
Qed.

(** The heap without the place [n], after the place [i] took its entry. *)
Lemma swap_drop s s1 i n :
  heap_ok s → length (heap_ s) = S n → (i < n)%nat → same s s1 → linked s1 →
  (∀ k, heap_ s1 !! k = heap_ s !! sw i n k) → (∀ k, gkey s1 k = gkey s (sw i n k)) →
  ∀ x m', heap_ s !! i = Some x → (∀ id, id ≠ x → m' !! id = timers s1 !! id) →
  (∀ e, m' !! x = Some e → heapIndex_ e = -1) →
  let s2 := mkHeap m' (take n (heap_ s1)) (timerId_ s1) (clock s1) (fired s1) in
  linked s2 ∧ length (heap_ s2) = n ∧
  (((0 < i)%nat ∧ gkey s2 i < gkey s2 (parent i)) → up_inv (gkey s2) n i) ∧
  ((i = 0%nat ∨ gkey s2 (parent i) ≤ gkey s2 i) → down_inv (gkey s2) n i).
Proof.
  intros Hok Hn Hi Hs Hl1 Hh1 Hg1 x m' Hx Hm Hmx s2.
  destruct Hs as (Ha & Hlen & Hid & Hc & Hf).
  destruct (drop_last s1 n x m') as (Hl2 & Hg2 & Hlen2); try done.
  - by rewrite Hlen.
  - rewrite Hh1. unfold sw. by rewrite decide_False, decide_True by lia.
  - split; [done|]. split; [done|]. apply (put_key (gkey s)).
    + apply ordered_shrink. rewrite <-Hn. apply (ho_ordered _ Hok).
    + intros k Hk Hki. unfold s2. rewrite Hg2, Hg1 by done. unfold sw. by rewrite !decide_False by lia.
    + done.
Qed.

Lemma heap_ok_less s s' n :
  heap_ok s → linked s' → ordered (gkey s') (length (heap_ s')) →
  map_Forall (entry_ok (timerId_ s)) (abs s') → (n ≤ length (heap_ s))%nat → length (heap_ s') = n →
  timerId_ s' = timerId_ s → clock s' = clock s → heap_ok s'.
Proof.
  intros Hok Hl Ho He Hn Hlen Hid Hc. split; [done|done|by rewrite Hid| |rewrite Hc; apply (ho_time _ Hok)].
  rewrite Hlen, Hid. pose proof (ho_size _ Hok). lia.
Qed.

Lemma unregister_run s id e :
  heap_ok s → timers s !! id = Some e → attached e = true →
  ∃ s', unregister_timer id s = Ok (tt, s') ∧ heap_ok s' ∧ abs s' = delete id (abs s) ∧
        timerId_ s' = timerId_ s ∧ clock s' = clock s ∧ fired s' = fired s.
Proof.
  intros Hok He Ha. pose proof (ho_linked _ Hok) as Hl. pose proof (ho_size _ Hok) as Hsz.
  apply (linked_attached s id e Hl He) in Ha as [Hi Hpos].
  set (i := Z.to_nat (heapIndex_ e)) in *.
  assert (heapIndex_ e = Z.of_nat i) as Hie by lia.
  pose proof (lookup_lt_Some _ _ _ Hi) as Hlt.
  destruct (length (heap_ s)) as [|n] eqn:Hn; [lia|].
  unfold unregister_timer. rewrite run_bind, run_gets, He, run_bind, run_gets, Hn. cbv zeta.
  rewrite Hie, !uwrap_id by (unfold in_u; lia).
  replace (Z.of_nat (S n) - 1) with (Z.of_nat n) by lia.
  assert (map_Forall (entry_ok (timerId_ s)) (delete id (abs s))) as Hent
    by (apply map_Forall_delete, (ho_entries _ Hok)).
  destruct (Z.eqb_spec (Z.of_nat i) (Z.of_nat n)) as [Hin|Hin].
  - assert (i = n) as -> by lia. rewrite run_bind, (pop_back_run _ n Hn), run_modify.
    set (s2 := mkHeap (delete id (timers s)) (take n (heap_ s)) (timerId_ s) (clock s) (fired s)).
    exists s2. split; [done|].
    destruct (drop_last s n id (delete id (timers s))) as (Hl2 & Hg2 & Hlen2); try done.
    { intros id' Hne. by rewrite lookup_delete_ne. }
    { intros e' He'. by rewrite lookup_delete_eq in He'. }
    fold s2 in Hl2, Hg2, Hlen2.
    assert (abs s2 = delete id (abs s)) as Habs by (unfold abs; cbn [timers s2]; by rewrite fmap_delete).
    split; [|done]. apply (heap_ok_less s _ n); try done; [|by rewrite Habs|lia].
    rewrite Hlen2. apply (ordered_ext (gkey s)); [done|]. apply ordered_shrink. rewrite <-Hn.
    apply (ho_ordered _ Hok).
  - destruct (SwapHeap_run s i n) as (s1 & Hr1 & Hl1 & Hs1 & Hh1 & Hg1); [done|lia..|].
    rewrite run_bind, Hr1. pose proof Hs1 as (Ha1 & Hlen1 & Hid1 & Hc1 & Hf1).
    rewrite run_bind, (pop_back_run s1 n) by lia. rewrite run_bind, run_modify.
    destruct (swap_drop s s1 i n Hok Hn ltac:(lia) Hs1 Hl1 Hh1 Hg1 id (delete id (timers s1)) Hi)
      as (Hl2 & Hlen2 & Hup & Hdown).
    { intros id' Hne. by rewrite lookup_delete_ne. }
    { intros e' He'. by rewrite lookup_delete_eq in He'. }
    set (s2 := mkHeap _ _ _ _ _) in Hl2, Hlen2, Hup, Hdown.
    change (with_timers (delete id) _) with s2.
    assert (abs s2 = delete id (abs s)) as Habs.
    { unfold abs. change (timers s2) with (delete id (timers s1)). rewrite fmap_delete. f_equal. apply Ha1. }
    assert (∀ s3, linked s3 → same s2 s3 → ordered (gkey s3) (length (heap_ s3)) →
      heap_ok s3 ∧ abs s3 = delete id (abs s) ∧ timerId_ s3 = timerId_ s ∧ clock s3 = clock s ∧
      fired s3 = fired s) as Hend.
    { intros s3 Hl3 (Ha3 & Hlen3 & Hid3 & Hc3 & Hf3) Ho3.
      split_and!; [|by rewrite Ha3, Habs|by rewrite Hid3, <-Hid1|by rewrite Hc3, <-Hc1|by rewrite Hf3, <-Hf1].
      apply (heap_ok_less s _ n); try done; [by rewrite Ha3, Habs|lia|by rewrite Hlen3|by rewrite Hid3, <-Hid1|by rewrite Hc3, <-Hc1]. }
    assert ((if 0 <? Z.of_nat i then a ← expires_at (Z.of_nat i); b ← expires_at ((Z.of_nat i - 1) / 2);
              mret (a <? b) else mret false) s2
            = Ok ((0 <? i)%nat && (gkey s2 i <? gkey s2 (parent i)), s2)) as Hread.
    { destruct (decide (i = 0%nat)) as [->|Hi0]; [done|].
      rewrite (proj2 (Z.ltb_lt _ _)) by lia. rewrite (proj2 (Nat.ltb_lt _ _)) by lia.
      pose proof (parent_spec i ltac:(lia)).
      rewrite parent_Z, run_bind, expires_at_run by (done || lia).
      by rewrite run_bind, expires_at_run by (done || lia). }
    rewrite run_bind, Hread. rewrite <-Hlen2 in Hup, Hdown.
    destruct (Nat.ltb_spec 0 i) as [Hi0|Hi0]; cbn [andb].
    + destruct (Z.ltb_spec (gkey s2 i) (gkey s2 (parent i))) as [Hlt2|Hge2].
      * destruct (UpHeap_run s2 i) as (s3 & Hr3 & Hl3 & Hs3 & Ho3); [done|lia|by apply Hup|].
        exists s3. split; [done|by apply Hend].
      * destruct (DownHeap_run s2 i) as (s3 & Hr3 & Hl3 & Hs3 & Ho3); [done|apply Hdown; by right|].
        exists s3. split; [done|by apply Hend].
    + destruct (DownHeap_run s2 i) as (s3 & Hr3 & Hl3 & Hs3 & Ho3); [done|apply Hdown; left; lia|].
      exists s3. split; [done|by apply Hend].
Qed.

(** ** One expired entry *)

(** After its last time an entry leaves the heap; otherwise it is due again. *)
Definition expire (now : Z) e : HeapEntry F :=
  if bool_decide (repeat_ e = 1) then set_heapIndex (-1) e
  else mkEntry (func_ptr e) (e_id e) (interval_ e) (next_expiry now (interval_ e) (expires_ e))
         (if 0 <? repeat_ e then repeat_ e - 1 else repeat_ e) (heapIndex_ e).
Definition is_due (now : Z) e : bool := attached e && (expires_ e <=? now).
Definition settle (now : Z) e : HeapEntry F := if is_due now e then expire now e else e.

Lemma put_index_run s id k e :
  timers s !! id = Some e → put_index id k s = Ok (tt, with_timers (<[id := set_heapIndex k e]>) s).
Proof. intros He. unfold put_index, deref. by rewrite run_bind, He. Qed.

Lemma abs_insert s id e :
  abs (with_timers (<[id := e]>) s) = <[id := bare e]> (abs s).
Proof. unfold abs. cbn [timers with_timers]. by rewrite fmap_insert. Qed.

Lemma bare_detach k e : bare (set_heapIndex (-1) (set_heapIndex k e)) = set_heapIndex (-1) (bare e).
Proof. done. Qed.

Lemma entry_ok_expire now n id e :
  entry_ok n id e → expires_ e ≤ now → entry_ok n id (expire now e).
Proof.
  intros (H1 & H2 & H3 & H4 & H5 & H6) Hx. unfold expire. case_bool_decide as Hr; [done|].
  pose proof (next_expiry_future now (interval_ e) (expires_ e) (H6 Hr) Hx).
  split_and!; simpl; try done; [lia|]. intros _. by apply H6.
Qed.

Lemma expire_last_run s now x e :
  heap_ok s → heap_ s !! 0%nat = Some x → timers s !! x = Some e → repeat_ e = 1 → expires_ e ≤ now →
  ∃ s', expire_top now x s = Ok (tt, s') ∧ heap_ok s' ∧
        abs s' = <[x := expire now (bare e)]> (abs s) ∧
        timerId_ s' = timerId_ s ∧ clock s' = clock s ∧ fired s' = fired s.
Proof.
  intros Hok Hx He Hrep Hexp. pose proof (ho_linked _ Hok) as Hl. pose proof (ho_size _ Hok) as Hsz.
  destruct (proj1 Hl _ _ Hx) as (e0 & He0 & Hie). rewrite He in He0. injection He0 as <-.
  assert (abs s !! x = Some (bare e)) as Hax by (apply abs_entry_lookup; eauto).
  assert (map_Forall (entry_ok (timerId_ s)) (<[x := expire now (bare e)]> (abs s))) as Hent.
  { apply map_Forall_insert_2; [|apply (ho_entries _ Hok)]. apply entry_ok_expire; [|done].
    by apply (ho_entries _ Hok x). }
  assert (expire now (bare e) = set_heapIndex (-1) (bare e)) as Hexpire
    by (unfold expire; by rewrite bool_decide_true).
  unfold expire_top, deref. rewrite run_bind, He. rewrite bool_decide_true by done.
  rewrite run_bind, run_gets. destruct (length (heap_ s)) as [|n] eqn:Hn.
  { apply lookup_lt_Some in Hx. lia. }
  replace (Z.of_nat (S n) - 1) with (Z.of_nat n) by lia. cbv zeta.
  destruct (Z.eqb_spec (Z.of_nat n) 0) as [Hz|Hz].
  - assert (n = 0%nat) as -> by lia.
    rewrite run_bind, (put_index_run _ _ _ _ He), (pop_back_run _ 0) by done.
    set (s2 := mkHeap _ _ _ _ _). exists s2. split; [done|].
    assert (abs s2 = <[x := expire now (bare e)]> (abs s)) as Ha.
    { rewrite Hexpire. apply (abs_insert s x (set_heapIndex (-1) e)). }
    split; [|done]. apply (heap_ok_less s s2 0); try done; [|by rewrite Ha|lia].
    destruct (drop_last s 0 x (<[x := set_heapIndex (-1) e]> (timers s))) as (Hl2 & _); try done.
    + intros id Hne. by rewrite lookup_insert_ne.
    + intros e'. rewrite lookup_insert_eq. by intros [= <-].
  - destruct (SwapHeap_run s 0 n) as (s1 & Hr1 & Hl1 & Hs1 & Hh1 & Hg1); [done|lia..|].
    change (Z.of_nat 0) with 0 in Hr1.
    rewrite run_bind, Hr1. pose proof Hs1 as (Ha1 & Hlen1 & Hid1 & Hc1 & Hf1).
    assert (abs s1 !! x = Some (bare e)) as (e1 & He1 & Hbe)%abs_entry_lookup by by rewrite Ha1.
    rewrite run_bind, (put_index_run _ _ _ _ He1), run_bind, (pop_back_run _ n) by (simpl; lia).
    set (s2 := mkHeap _ _ _ _ _).
    destruct (swap_drop s s1 0 n Hok Hn ltac:(lia) Hs1 Hl1 Hh1 Hg1 x
                (<[x := set_heapIndex (-1) e1]> (timers s1)) Hx) as (Hl2 & Hlen2 & _ & Hdown).
    { intros id' Hne. by rewrite lookup_insert_ne. }
    { intros e'. rewrite lookup_insert_eq. by intros [= <-]. }
    change (linked s2) in Hl2. change (length (heap_ s2) = n) in Hlen2.
    assert (abs s2 = <[x := expire now (bare e)]> (abs s)) as Ha2.
    { change (abs s2) with (abs (with_timers (<[x := set_heapIndex (-1) e1]>) s1)).
      rewrite abs_insert, Ha1, Hexpire. f_equal. rewrite Hbe. done. }
    destruct (DownHeap_run s2 0) as (s3 & Hr3 & Hl3 & (Ha3 & Hlen3 & Hid3 & Hc3 & Hf3) & Ho3);
      [done|rewrite Hlen2; apply Hdown; by left|].
    exists s3. split; [done|]. rewrite Hid3, Hc3, Hf3, Ha3, Ha2. split; [|done].
    apply (heap_ok_less s s3 n); try done; [by rewrite Ha3, Ha2|lia|by rewrite Hlen3|by rewrite Hid3|by rewrite Hc3].
Qed.

Lemma expire_again_run s now x e :
  heap_ok s → heap_ s !! 0%nat = Some x → timers s !! x = Some e → repeat_ e ≠ 1 →
  expires_ e ≤ now → now < 2 ^ 62 →
  ∃ s', expire_top now x s = Ok (tt, s') ∧ heap_ok s' ∧
        abs s' = <[x := expire now (bare e)]> (abs s) ∧
        timerId_ s' = timerId_ s ∧ clock s' = clock s ∧ fired s' = fired s.
Proof.
  intros Hok Hx He Hrep Hexp Hnow. pose proof (ho_linked _ Hok) as Hl.
  destruct (proj1 Hl _ _ Hx) as (e0 & He0 & Hie). rewrite He in He0. injection He0 as <-.
  assert (abs s !! x = Some (bare e)) as Hax by (apply abs_entry_lookup; eauto).
  pose proof (ho_entries _ Hok x _ Hax) as Hee. pose proof Hee as (_ & _ & H3 & H4 & _ & H6).
  simpl in H3, H4, H6. specialize (H6 Hrep).
  unfold expire_top, deref. rewrite run_bind, He. rewrite bool_decide_false by done. cbv zeta.
  rewrite run_bind, (run_lift _ (next_expiry now (interval_ e) (expires_ e))) by (apply rearm_run; lia).
  unfold set_entry. rewrite run_bind, run_modify. set (e' := mkEntry _ _ _ _ _ _).
  set (s1 := with_timers _ s).
  assert (bare e' = expire now (bare e)) as Hbe.
  { unfold expire. rewrite bool_decide_false by done. done. }
  assert (abs s1 = <[x := expire now (bare e)]> (abs s)) as Ha1.
  { unfold s1. by rewrite abs_insert, Hbe. }
  assert (linked s1) as Hl1.
  { split; simpl.
    - intros i id Hi. destruct (proj1 Hl i id Hi) as (ei & Hei & Hxi).
      destruct (decide (id = x)) as [->|Hne]; [|exists ei; by rewrite lookup_insert_ne].
      exists e'. rewrite lookup_insert_eq. split; [done|]. by rewrite (linked_inj s i 0 x Hl Hi Hx).
    - intros id ei. rewrite lookup_insert_Some. intros [[<- _]|[_ Hei]]; [right; by exists 0%nat|].
      by apply (proj2 Hl id ei). }
  destruct (DownHeap_run s1 0) as (s2 & Hr2 & Hl2 & (Ha2 & Hlen2 & Hid2 & Hc2 & Hf2) & Ho2); [done| |].
  { apply (put_key (gkey s)); [apply (ho_ordered _ Hok)| |by eapply lookup_lt_Some|by left].
    intros k Hk Hk0. unfold gkey. simpl. destruct (heap_ s !! k) as [id|] eqn:Hid; [|done]. simpl.
    unfold key. simpl. rewrite lookup_insert_ne; [done|]. intros <-. by apply Hk0, (linked_inj s k 0 x). }
  change (Z.of_nat 0) with 0 in Hr2. exists s2. split; [done|]. rewrite Ha2, Hid2, Hc2, Hf2. split; [|done].
  apply (heap_ok_less s s2 (length (heap_ s))); try done.
  rewrite Ha2, Ha1. apply map_Forall_insert_2; [|apply (ho_entries _ Hok)]. by apply entry_ok_expire.
Qed.

Lemma expire_top_run s now x e :
  heap_ok s → heap_ s !! 0%nat = Some x → timers s !! x = Some e → expires_ e ≤ now → now < 2 ^ 62 →
  ∃ s', expire_top now x s = Ok (tt, s') ∧ heap_ok s' ∧
        abs s' = <[x := expire now (bare e)]> (abs s) ∧
        timerId_ s' = timerId_ s ∧ clock s' = clock s ∧ fired s' = fired s.
Proof.
  intros. destruct (decide (repeat_ e = 1)); [by apply expire_last_run|by apply expire_again_run].
Qed.

(** ** The first loop: collecting *)
Definition due_map (now : Z) s : gmap Z (HeapEntry F) := filter (λ p, is_due now p.2 = true) (abs s).

Lemma is_due_expire now e n id :
  entry_ok n id e → expires_ e ≤ now → is_due now (expire now e) = false.
Proof.
  intros (_ & _ & _ & _ & _ & Hi) Hx. unfold is_due, expire. case_bool_decide as Hr; [done|].
  pose proof (next_expiry_future now (interval_ e) (expires_ e) (Hi Hr) Hx). simpl.
  apply andb_false_iff. right. lia.
Qed.

(** The top has the least key. *)
Lemma top_least s x id e :
  heap_ok s → heap_ s !! 0%nat = Some x → abs s !! id = Some e → attached e = true →
  key s x ≤ expires_ e.
Proof.
  intros Hok Hx He Ha. pose proof (ho_linked _ Hok) as Hl.
  apply (abs_attached s id e Hl He) in Ha as [i Hi]. apply lookup_lt_Some in Hi as Hlt.
  pose proof (ordered_root _ _ i (ho_ordered _ Hok) Hlt) as Hle. unfold gkey in Hle.
  rewrite Hx, Hi in Hle. simpl in Hle. unfold key at 2 in Hle.
  apply abs_entry_lookup in He as (e' & He & ->). by rewrite He in Hle.
Qed.

Lemma due_map_expire now s s' x e :
  abs s !! x = Some e → is_due now (expire now e) = false →
  abs s' = <[x := expire now e]> (abs s) → due_map now s' = delete x (due_map now s).
Proof.
  intros He Hd Ha. unfold due_map. rewrite Ha, map_filter_insert_False by (simpl; by rewrite Hd).
  by rewrite map_filter_delete.
Qed.

Lemma sorted_ext (R R' : relation Z) l :
  (∀ a b, a ∈ l → b ∈ l → R a b → R' a b) → StronglySorted R l → StronglySorted R' l.
Proof.
  intros HR. induction 1 as [|x l Hs IH Hx]; constructor.
  - apply IH. intros a b Ha Hb. apply HR; by right.
  - rewrite Forall_forall in Hx |- *. intros y Hy. apply HR; [by left|by right|by apply Hx].
Qed.

Definition by_key s : relation Z := λ a b, key s a ≤ key s b.

(** What [l] and [s'] are when the loop is done with [s]. *)
Record collected (now : Z) s (l : list Z) s' : Prop := {
  co_ok : heap_ok s';
  co_abs : abs s' = settle now <$> abs s;
  co_same : timerId_ s' = timerId_ s ∧ clock s' = clock s ∧ fired s' = fired s;
  co_nodup : NoDup l;
  co_due : ∀ id, id ∈ l ↔ is_Some (due_map now s !! id);
  co_sorted : StronglySorted (by_key s) l }.

Lemma collected_nil now s : heap_ok s → due_map now s = ∅ → collected now s [] s.
Proof.
  intros Hok Hd. split; try done.
  - apply map_eq. intros id. rewrite lookup_fmap.
    destruct (abs s !! id) as [e|] eqn:He; [|done]. simpl. f_equal. unfold settle.
    destruct (is_due now e) eqn:Hx; [|done].
    assert (due_map now s !! id = Some e) as H by (by apply map_lookup_filter_Some). by rewrite Hd in H.
  - apply NoDup_nil_2.
  - intros id. rewrite Hd, lookup_empty. split; [by intros ?%elem_of_nil|by intros [? ?]].
  - constructor.
Qed.

Lemma collected_cons now s x e s1 l s' :
  heap_ok s → heap_ s !! 0%nat = Some x → abs s !! x = Some e → is_due now e = true →
  abs s1 = <[x := expire now e]> (abs s) →
  timerId_ s1 = timerId_ s → clock s1 = clock s → fired s1 = fired s →
  collected now s1 l s' → collected now s (x :: l) s'.
Proof.
  intros Hok Hx He Hd Ha1 Hi1 Hc1 Hf1 [Hok' Ha' (Hi' & Hc' & Hf') Hn Hdue Hs].
  pose proof Hd as Hdue_e. unfold is_due in Hdue_e. apply andb_true_iff in Hdue_e as [Hatt Hexp].
  assert (is_due now (expire now e) = false) as Hnd.
  { eapply is_due_expire; [apply (ho_entries _ Hok), He|lia]. }
  pose proof (due_map_expire now s s1 x e He Hnd Ha1) as Hdm.
  assert (x ∉ l) as Hxl.
  { intros Hin. apply Hdue in Hin as [e' He']. by rewrite Hdm, lookup_delete_eq in He'. }
  assert (∀ id, id ≠ x → key s1 id = key s id) as Hkey.
  { intros id Hne. unfold key.
    assert (expires_ <$> abs s1 !! id = expires_ <$> abs s !! id) as Hk by (by rewrite Ha1, lookup_insert_ne).
    unfold abs in Hk. rewrite !lookup_fmap in Hk.
    destruct (timers s1 !! id), (timers s !! id); simpl in *; by inversion Hk. }
  split; [done| |split_and!; congruence| | |].
  - rewrite Ha', Ha1. apply map_eq. intros id. rewrite !lookup_fmap.
    destruct (decide (id = x)) as [->|Hne]; [|by rewrite lookup_insert_ne].
    rewrite lookup_insert_eq, He. simpl. f_equal. unfold settle. by rewrite Hnd, Hd.
  - by apply NoDup_cons.
  - intros id. rewrite elem_of_cons, Hdue, Hdm.
    assert (due_map now s !! x = Some e) as Hxe by (by apply map_lookup_filter_Some).
    destruct (decide (id = x)) as [->|Hne]; [|rewrite lookup_delete_ne by done; naive_solver].
    rewrite Hxe. split; [by eexists|by left].
  - constructor.
    + apply (sorted_ext (by_key s1)); [|done]. intros a b Hal Hbl. unfold by_key.
      by rewrite !Hkey by (intros ->; done).
    + apply Forall_forall. intros id Hid. apply Hdue in Hid as [e' He'].
      rewrite Hdm in He'. apply lookup_delete_Some in He' as [Hne He'].
      apply map_lookup_filter_Some in He' as [He' Hd']. unfold is_due in Hd'. simpl in Hd'.
      apply andb_true_iff in Hd' as [Ha'' _].
      unfold by_key. pose proof (top_least s x id e' Hok Hx He' Ha'') as Hle.
      apply abs_entry_lookup in He' as (e'' & He'' & ->). unfold key at 2. rewrite He''. done.
Qed.

Lemma due_map_top now s :
  heap_ok s → (∀ x e, heap_ s !! 0%nat = Some x → timers s !! x = Some e → now < expires_ e) →
  due_map now s = ∅.
Proof.
  intros Hok Htop. apply map_empty. intros id. apply eq_None_not_Some. intros [e [He Hd]%map_lookup_filter_Some]. simpl in Hd.
  unfold is_due in Hd. apply andb_true_iff in Hd as [Ha Hx]. apply Z.leb_le in Hx.
  pose proof Ha as [i Hi]%(abs_attached s id e (ho_linked _ Hok) He).
  destruct (heap_ s) as [|x h] eqn:Hh; [by rewrite lookup_nil in Hi|].
  assert (heap_ s !! 0%nat = Some x) as Hx0 by by rewrite Hh.
  destruct (proj1 (ho_linked _ Hok) _ _ Hx0) as (ex & Hex & _).
  pose proof (top_least s x id e Hok Hx0 He Ha) as Hle. unfold key in Hle. rewrite Hex in Hle. simpl in Hle.
  specialize (Htop x ex eq_refl Hex). lia.
Qed.

Lemma collect_run now fuel : ∀ s acc,
  heap_ok s → (size (due_map now s) ≤ fuel)%nat → now < 2 ^ 62 →
  ∃ l s', collect fuel now acc s = Ok (acc ++ l, s') ∧ collected now s l s'.
Proof.
  induction fuel as [|fuel IH]; intros s acc Hok Hf Hnow; cbn [collect]; rewrite run_bind, run_gets;
    destruct (heap_ s) as [|x h] eqn:Hh.
  1, 3: exists [], s; rewrite app_nil_r; split; [done|]; apply collected_nil, due_map_top; try done; by rewrite Hh.
  all: assert (heap_ s !! 0%nat = Some x) as Hx by by rewrite Hh.
  all: destruct (proj1 (ho_linked _ Hok) _ _ Hx) as (e & He & Hie).
  all: unfold deref; rewrite run_bind, He.
  all: assert (abs s !! x = Some (bare e)) as Hax by (apply abs_entry_lookup; eauto).
  all: destruct (Z.leb_spec (expires_ e) now) as [Hle|Hgt];
    [|exists [], s; rewrite app_nil_r; split; [done|]; apply collected_nil, due_map_top; try done;
      intros y ey Hy Hey; rewrite Hx in Hy; injection Hy as <-; congruence].
  all: assert (is_due now (bare e) = true) as Hd
    by (unfold is_due; rewrite attached_bare; simpl; unfold attached;
        rewrite bool_decide_true by lia; simpl; lia).
  all: assert (due_map now s !! x = Some (bare e)) as Hdm by (by apply map_lookup_filter_Some).
  { apply Nat.le_0_r, map_size_empty_iff in Hf. by rewrite Hf in Hdm. }
  destruct (expire_top_run s now x e Hok Hx He Hle Hnow) as (s1 & Hr1 & Hok1 & Ha1 & Hi1 & Hc1 & Hf1).
  rewrite run_bind, Hr1.
  pose proof (ho_entries _ Hok x _ Hax) as Hent. pose proof Hent as (Hid & _). simpl in Hid. rewrite Hid.
  assert (is_due now (expire now (bare e)) = false) as Hnd by (by eapply is_due_expire).
  destruct (IH s1 (acc ++ [x])) as (l & s' & Hr & Hco); [done| |done|].
  { rewrite (due_map_expire now s s1 x (bare e) Hax Hnd Ha1), map_size_delete_Some by (rewrite Hdm; by eexists). lia. }
  exists (x :: l), s'. rewrite Hr. split; [by rewrite <-(assoc_L (++))|]. by eapply collected_cons.
Qed.

Lemma due_map_size now s : heap_ok s → (size (due_map now s) ≤ length (heap_ s))%nat.
Proof.
  intros Hok. pose proof (heap_nodup _ (ho_linked _ Hok)) as Hn.
  rewrite <-(size_list_to_set (C:=gset Z) (heap_ s) Hn), <-size_dom.
  apply subseteq_size. intros id [e He]%elem_of_dom. apply map_lookup_filter_Some in He as [He Hd].
  unfold is_due in Hd. simpl in Hd. apply andb_true_iff in Hd as [Ha _].
  apply (abs_attached s id e (ho_linked _ Hok) He) in Ha as [i Hi].
  apply elem_of_list_to_set. by eapply list_elem_of_lookup_2.
Qed.

(** ** The second loop: calling *)

(** Callbacks that leave the timer alone; time may pass. *)
Definition quiet (exec : F → Z → list (WheelTimer.top F)) : Prop :=
  ∀ f now, Forall (λ o, match o with WheelTimer.Elapse _ => True | _ => False end) (exec f now).

Lemma elapse_run ops : ∀ s,
  Forall (λ o : WheelTimer.top F, match o with WheelTimer.Elapse _ => True | _ => False end) ops →
  ∃ c, iterM run_op ops s = Ok (tt, mkHeap (timers s) (heap_ s) (timerId_ s) c (fired s)) ∧ clock s ≤ c.
Proof.
  induction ops as [|o ops IH]; intros s Hq; simpl.
  { exists (clock s). split; [by destruct s|lia]. }
  apply Forall_cons in Hq as [Ho Hq]. destruct o as [| |ms]; try done. simpl. rewrite run_bind, run_modify.
  destruct (IH (mkHeap (timers s) (heap_ s) (timerId_ s) (clock s + Z.of_N ms) (fired s)) Hq) as (c & -> & Hc).
  simpl in Hc. exists c. split; [done|lia].
Qed.

(** The map after the timer [id] was called. *)
Definition keep (l : list Z) (id : Z) e : option (HeapEntry F) :=
  if bool_decide (id ∈ l) && negb (attached e) then None else Some e.

Lemma call_run exec now s id e :
  quiet exec → heap_ok s → timers s !! id = Some e →
  ∃ s', call exec now id s = Ok (tt, s') ∧ heap_ok s' ∧ fired s' = fired s ++ [id] ∧
        clock s ≤ clock s' ∧ timerId_ s' = timerId_ s ∧
        (∀ j, abs s' !! j = abs s !! j ≫= keep [id] j).
Proof.
  intros Hq Hok He. unfold call. rewrite run_bind, run_gets, He.
  set (m := if attached e then timers s else delete id (timers s)).
  rewrite run_bind.
  assert (when (bool_decide (heapIndex_ e = -1)) (modify (with_timers (delete id))) s =
          Ok (tt, with_timers (λ _, m) s)) as ->.
  { unfold m, attached. case_bool_decide as Hx; simpl.
    - by rewrite bool_decide_false by (by intros []).
    - rewrite bool_decide_true by done. by destruct s. }
  rewrite run_bind, run_modify. simpl.
  destruct (elapse_run (exec (func_ptr e) now)
    (mkHeap m (heap_ s) (timerId_ s) (clock s) (fired s ++ [id])) (Hq _ _)) as (c & Hr & Hc).
  rewrite Hr. simpl in *. set (s' := mkHeap _ _ _ _ _). exists s'. split; [done|].
  assert (∀ j, abs s' !! j = abs s !! j ≫= keep [id] j) as Habs.
  { intros j. unfold abs. cbn [timers s']. unfold m. rewrite !lookup_fmap.
    destruct (attached e) eqn:Hatt; [|destruct (decide (j = id)) as [->|Hne]].
    - destruct (timers s !! j) as [ej|] eqn:Hj; [|done]. simpl. unfold keep. rewrite attached_bare.
      case_bool_decide as Hin; [|done]. apply list_elem_of_singleton in Hin as ->. rewrite He in Hj.
      injection Hj as <-. by rewrite Hatt.
    - rewrite lookup_delete_eq, He. simpl. unfold keep. rewrite attached_bare, Hatt.
      by rewrite bool_decide_true by (by apply list_elem_of_singleton).
    - rewrite lookup_delete_ne by done. destruct (timers s !! j); [|done]. simpl. unfold keep.
      by rewrite bool_decide_false by (by rewrite list_elem_of_singleton). }
  split; [|split_and!; done].
  assert (∀ j ej, m !! j = Some ej → timers s !! j = Some ej) as Hsub.
  { intros j ej. unfold m. destruct (attached e); [done|]. by intros [_ H]%lookup_delete_Some. }
  pose proof (ho_linked _ Hok) as [Hl1 Hl2].
  assert (∀ i j, heap_ s !! i = Some j → m !! j = timers s !! j) as Hkeep.
  { intros i j Hi. unfold m. destruct (attached e) eqn:Hatt; [done|]. apply lookup_delete_ne. intros <-.
    destruct (Hl1 _ _ Hi) as (e' & He' & Hx). rewrite He in He'. injection He' as <-.
    unfold attached in Hatt. apply bool_decide_eq_false in Hatt. apply Hatt. lia. }
  split.
  - split; simpl.
    + intros i j Hi. rewrite (Hkeep i j Hi). by apply Hl1.
    + intros j ej Hj. apply (Hl2 j ej). by apply Hsub.
  - eapply ordered_ext; [|apply (ho_ordered _ Hok)]. intros k Hk. unfold gkey. simpl.
    destruct (heap_ s !! k) as [j|] eqn:Hj; [|done]. simpl. unfold key. simpl. by rewrite (Hkeep k j Hj).
  - intros j ej Hj. apply abs_entry_lookup in Hj as (e' & Hj & ->). apply (ho_entries _ Hok j).
    apply abs_entry_lookup. exists e'. split; [by apply Hsub|done].
  - apply (ho_size _ Hok).
  - pose proof (ho_time _ Hok). simpl. lia.
Qed.

Lemma calls_run exec now l : ∀ s,
  quiet exec → heap_ok s → NoDup l → (∀ id, id ∈ l → is_Some (timers s !! id)) →
  ∃ s', iterM (call exec now) l s = Ok (tt, s') ∧ heap_ok s' ∧ fired s' = fired s ++ l ∧
        clock s ≤ clock s' ∧ timerId_ s' = timerId_ s ∧
        (∀ j, abs s' !! j = abs s !! j ≫= keep l j).
Proof.
  induction l as [|id l IH]; intros s Hq Hok Hn Hl; simpl.
  { exists s. rewrite app_nil_r. split_and!; try done. intros j. by destruct (abs s !! j). }
  apply NoDup_cons in Hn as [Hid Hn]. destruct (Hl id) as [e He]; [by left|].
  destruct (call_run exec now s id e Hq Hok He) as (s1 & Hr1 & Hok1 & Hf1 & Hc1 & Hi1 & Ha1).
  rewrite run_bind, Hr1.
  destruct (IH s1 Hq Hok1 Hn) as (s2 & Hr2 & Hok2 & Hf2 & Hc2 & Hi2 & Ha2).
  { intros j Hj. assert (j ≠ id) as Hne by (by intros ->). destruct (Hl j) as [ej Hej]; [by right|].
    assert (abs s1 !! j = Some (bare ej)) as Hx.
    { rewrite Ha1. assert (abs s !! j = Some (bare ej)) as -> by (apply abs_entry_lookup; eauto). simpl.
      unfold keep. by rewrite bool_decide_false by (by rewrite list_elem_of_singleton). }
    apply abs_entry_lookup in Hx as (e' & -> & _). by eexists. }
  exists s2. rewrite Hr2. split_and!; [done|done|by rewrite Hf2, Hf1, <-(assoc_L (++))|lia|congruence|].
  intros j. rewrite Ha2, Ha1. destruct (abs s !! j) as [ej|]; [|done]. simpl. unfold keep at 2.
  case_bool_decide as Hj.
  - apply list_elem_of_singleton in Hj as ->. unfold keep.
    rewrite (bool_decide_true (id ∈ id :: l)) by by left.
    destruct (attached ej) eqn:Ha; cbn; [|done]. by rewrite Ha, andb_false_r.
  - simpl. unfold keep. rewrite list_elem_of_singleton in Hj.
    rewrite (bool_decide_ext (j ∈ id :: l) (j ∈ l)); [done|]. rewrite elem_of_cons. naive_solver.
Qed.

(** ** A detection *)
Definition rearmed (now : Z) e : option (HeapEntry F) :=
  if is_due now e then if bool_decide (repeat_ e = 1) then None else Some (expire now e) else Some e.

Lemma keep_settle now l j e :
  attached e = true → (is_due now e = true → j ∈ l) → keep l j (settle now e) = rearmed now e.
Proof.
  intros Ha Hd. unfold settle, rearmed. destruct (is_due now e) eqn:Hdue.
  - unfold keep, expire. rewrite bool_decide_true by by apply Hd. case_bool_decide; [done|].
    change (attached (mkEntry _ _ _ _ _ _)) with (attached e). by rewrite Ha.
  - unfold keep. by rewrite Ha, andb_false_r.
Qed.

Lemma rearmed_attached now e e' : attached e = true → rearmed now e = Some e' → attached e' = true.
Proof.
  intros Ha. unfold rearmed, expire. destruct (is_due now e); [|by intros [= <-]].
  case_bool_decide; [done|]. by intros [= <-].
Qed.

(** The first loop on an idle heap. *)
Lemma collect_idle s :
  heap_idle s → clock s < 2 ^ 62 →
  ∃ l s1, collect (length (heap_ s)) (clock s) [] s = Ok (l, s1) ∧ collected (clock s) s l s1 ∧
    (∀ id, id ∈ l ↔ ∃ e, timers s !! id = Some e ∧ expires_ e ≤ clock s) ∧
    (∀ id, id ∈ l → is_Some (timers s1 !! id)).
Proof.
  intros [Hok Hidle] Hc.
  destruct (collect_run (clock s) (length (heap_ s)) s [] Hok (due_map_size _ _ Hok) Hc) as (l & s1 & Hr & Hco).
  exists l, s1. split; [done|]. split; [done|]. split; intros id.
  - rewrite (co_due _ _ _ _ Hco). split.
    + intros [e He]. apply map_lookup_filter_Some in He as [He Hd].
      apply abs_entry_lookup in He as (e' & He & ->). exists e'. split; [done|].
      unfold is_due in Hd. apply andb_true_iff in Hd as [_ Hd]. simpl in Hd. lia.
    + intros (e & He & Hx). exists (bare e).
      assert (abs s !! id = Some (bare e)) as Ha by (apply abs_entry_lookup; eauto).
      apply map_lookup_filter_Some. split; [done|]. unfold is_due. simpl. rewrite (Hidle _ _ Ha). simpl. lia.
  - intros Hid. apply (co_due _ _ _ _ Hco) in Hid as [e He]. apply map_lookup_filter_Some in He as [He _].
    assert (abs s1 !! id = Some (settle (clock s) e)) as Hx.
    { by rewrite (co_abs _ _ _ _ Hco), lookup_fmap, He. }
    apply abs_entry_lookup in Hx as (e' & -> & _). by eexists.
Qed.
End heap.

(** C19. A detection of the heap timer between two calls, when every timer that
    repeats has an interval of at least 1 millisecond (a part of heap_idle, see
    entry_ok), the callbacks leave the timer alone and the clock is below 2^62,
    is total: it calls exactly the
    timers that are due, once each and in the order of their expiry; a timer on
    its last time is removed, any other one is due again at the next point of
    its grid after now; the heap is in order again, with the same bound on the
    intervals.  Register accepts the interval 0 with another delay, for which
    the detection does not end: zero_interval_diverges. *)
Theorem heap_DetectTimers {F} exec (s : HeapTimer F) :
  quiet exec → heap_idle s → clock s < 2 ^ 62 →
  ∃ l s', DetectTimers exec s = Ok (tt, s') ∧ heap_idle s' ∧ fired s' = fired s ++ l ∧ NoDup l ∧
    (∀ id, id ∈ l ↔ ∃ e, timers s !! id = Some e ∧ expires_ e ≤ clock s) ∧
    StronglySorted (by_key s) l ∧
    (∀ id, abs s' !! id = abs s !! id ≫= rearmed (clock s)).
Proof.
  intros Hq [Hok Hidle] Hc. destruct (collect_idle s (conj Hok Hidle) Hc) as (l & s1 & Hr & Hco & Hl & Hin).
  pose proof Hco as [Hok1 Ha1 (Hi1 & Hc1 & Hf1) Hn Hd Hs].
  destruct (calls_run exec (clock s) l s1 Hq Hok1 Hn Hin) as (s2 & Hr2 & Hok2 & Hf2 & _ & _ & Ha2).
  exists l, s2. unfold DetectTimers. rewrite run_bind, run_gets, run_bind, run_gets, run_bind, Hr.
  assert (∀ id, abs s2 !! id = abs s !! id ≫= rearmed (clock s)) as Habs.
  { intros id. rewrite Ha2, Ha1, lookup_fmap. destruct (abs s !! id) as [e|] eqn:He; [|done]. simpl.
    apply keep_settle; [by apply (Hidle id)|]. intros Hdue. apply Hd. exists e.
    by apply map_lookup_filter_Some. }
  split; [exact Hr2|]. split; [split; [done|]|split_and!; try done; by rewrite Hf2, Hf1].
  intros id e'. rewrite Habs. destruct (abs s !! id) as [e|] eqn:He; [|done]. simpl.
  apply rearmed_attached. by apply (Hidle id).
Qed.

Lemma register_idle {F} (s : HeapTimer F) f interval delay times :
  heap_idle s → timerId_ s < 2 ^ 31 - 1 → (times ≠ 1 → 1 ≤ u32 interval) →
  ∃ s', register_timer f interval delay times s = Ok (timerId_ s + 1, s') ∧ heap_idle s' ∧
    timerId_ s' = timerId_ s + 1 ∧
    abs s' = <[timerId_ s + 1 := s_register f interval delay times (clock s) (timerId_ s + 1)]> (abs s).
Proof.
  intros [Hok Hidle] Hid Hi.
  destruct (register_run s f interval delay times Hok Hid Hi) as (s' & Hr & Hok' & Ha & Hn & _).
  exists s'. split; [done|]. split; [|done]. split; [done|]. rewrite Ha. by apply map_Forall_insert_2.
Qed.

(** Registering adds exactly the new timer, under a new id, and keeps the
    heap in order. *)
Theorem heap_register {F} (s : HeapTimer F) f interval delay times :
  heap_idle s → timerId_ s < 2 ^ 31 - 1 → (times ≠ 1 → 1 ≤ u32 interval) →
  ∃ s', register_timer f interval delay times s = Ok (timerId_ s + 1, s') ∧ heap_idle s' ∧
    abs s !! (timerId_ s + 1) = None ∧
    abs s' = <[timerId_ s + 1 := s_register f interval delay times (clock s) (timerId_ s + 1)]> (abs s).
Proof.
  intros Hs Hid Hi. destruct (register_idle s f interval delay times Hs Hid Hi) as (s' & ? & ? & _ & ?).
  exists s'. split; [done|]. split; [done|]. split; [|done].
  unfold abs. rewrite lookup_fmap, (abs_fresh s); [done|apply Hs|lia].
Qed.

(** Between detections, unregistering removes exactly the timer with the
    given id, wherever it is in the heap, and keeps the heap in order. *)
Theorem heap_unregister {F} (s : HeapTimer F) id :
  heap_idle s → ∃ s', unregister_timer id s = Ok (tt, s') ∧ heap_idle s' ∧ abs s' = delete id (abs s).
Proof.
  intros [Hok Hidle]. destruct (timers s !! id) as [e|] eqn:He.
  - assert (attached e = true) as Ha.
    { rewrite <-attached_bare. apply (Hidle id). apply abs_entry_lookup. eauto. }
    destruct (unregister_run s id e Hok He Ha) as (s' & Hr & Hok' & Hab & _).
    exists s'. split; [done|]. split; [|done]. split; [done|]. rewrite Hab. by apply map_Forall_delete.
  - exists s. unfold unregister_timer. rewrite run_bind, run_gets, He. split; [done|]. split; [done|].
    rewrite delete_id; [done|]. unfold abs. by rewrite lookup_fmap, He.
Qed.

(** The index of an entry that left the heap is no index. *)
Lemma unregister_detached {F} (s : HeapTimer F) id e :
  timers s !! id = Some e → heapIndex_ e = -1 → Z.of_nat (length (heap_ s)) < 2 ^ 63 →
  unregister_timer id s = Ub UB_OutOfBounds.
Proof.
  intros He Hi Hn. unfold unregister_timer. rewrite run_bind, run_gets, He, run_bind, run_gets, Hi. cbv zeta.
  change (u64 (-1)) with (2 ^ 64 - 1). destruct (heap_ s) as [|h0 h] eqn:Hh.
  - change (u64 (Z.of_nat (length []) - 1)) with (2 ^ 64 - 1). rewrite Z.eqb_refl, run_bind.
    unfold pop_back. by rewrite run_bind, run_gets, Hh.
  - rewrite uwrap_id by (unfold in_u; simpl length in *; lia).
    rewrite (proj2 (Z.eqb_neq _ _)) by (simpl length in *; lia).
    unfold SwapHeap. rewrite run_bind, run_bind. unfold heap_at. rewrite decide_False; [done|].
    rewrite Hh. lia.
Qed.

(** The timer that expires first is the first to be called. *)
Lemma earliest_first {F} (s : HeapTimer F) l a ea :
  StronglySorted (by_key s) l → NoDup l → a ∈ l → timers s !! a = Some ea →
  (∀ id, id ∈ l → is_Some (timers s !! id)) →
  (∀ id e, timers s !! id = Some e → id ≠ a → expires_ ea < expires_ e) →
  ∃ l', l = a :: l'.
Proof.
  intros Hs Hn Hal Ha Hl Hfirst. destruct l as [|x l']; [by apply elem_of_nil in Hal|].
  exists l'. f_equal. apply elem_of_cons in Hal as [->|Hal]; [done|]. exfalso.
  apply StronglySorted_inv in Hs as [_ Hs]. rewrite Forall_forall in Hs.
  specialize (Hs a Hal). unfold by_key, key in Hs. rewrite Ha in Hs.
  destruct (Hl x) as [ex Hex]; [by left|]. rewrite Hex in Hs. simpl in Hs.
  apply NoDup_cons in Hn as [Hx _]. specialize (Hfirst x ex Hex ltac:(by intros ->)). lia.
Qed.

(** A due entry after the first loop: its callback is the same, and on its last
    time it is out of the heap. *)
Lemma collected_entry {F} (s : HeapTimer F) l s1 id e :
  heap_idle s → collected (clock s) s l s1 → timers s !! id = Some e → expires_ e ≤ clock s →
  ∃ e', timers s1 !! id = Some e' ∧ func_ptr e' = func_ptr e ∧ (repeat_ e = 1 → heapIndex_ e' = -1).
Proof.
  intros [_ Hidle] Hco He Hx.
  assert (abs s !! id = Some (bare e)) as Ha by (apply abs_entry_lookup; eauto).
  assert (is_due (clock s) (bare e) = true) as Hdue.
  { unfold is_due. rewrite (Hidle _ _ Ha). simpl. lia. }
  assert (abs s1 !! id = Some (expire (clock s) (bare e))) as Hx1.
  { rewrite (co_abs _ _ _ _ Hco), lookup_fmap, Ha. simpl. unfold settle. by rewrite Hdue. }
  apply abs_entry_lookup in Hx1 as (e' & He' & Hx1). exists e'. split; [done|]. split.
  - change (func_ptr e') with (func_ptr (bare e')). rewrite <-Hx1. unfold expire. by case_bool_decide.
  - intros H1. unfold expire in Hx1. simpl in Hx1. rewrite bool_decide_true in Hx1 by done.
    assert (attached e' = false) as Hat by by rewrite <-attached_bare, <-Hx1.
    unfold attached in Hat. apply bool_decide_eq_false in Hat. lia.
Qed.

(** A callback must not cancel a one-shot timer that expired in the same
    detection: that entry is out of the heap already, its index -1 becomes the
    largest size_t, and the heap is accessed out of bounds. *)
Theorem cancel_expired_out_of_bounds {F} exec (s : HeapTimer F) a ea b eb ops :
  heap_idle s → clock s < 2 ^ 62 →
  timers s !! a = Some ea → timers s !! b = Some eb → a ≠ b →
  (∀ id e, timers s !! id = Some e → id ≠ a → expires_ ea < expires_ e) →
  expires_ eb ≤ clock s → repeat_ eb = 1 →
  exec (func_ptr ea) (clock s) = WheelTimer.Unregister b :: ops →
  DetectTimers exec s = Ub UB_OutOfBounds.
Proof.
  intros Hi Hc Ha Hb Hne Hfirst Hbx Hb1 Hexec. pose proof (Hfirst b eb Hb ltac:(done)) as Hlt.
  destruct (collect_idle s Hi Hc) as (l & s1 & Hr & Hco & Hl & _).
  destruct (collected_entry s l s1 a ea) as (ea' & Ha' & Hf & _); try done; [lia|].
  destruct (collected_entry s l s1 b eb) as (eb' & Hb' & _ & Hd); try done.
  destruct (earliest_first s l a ea) as [l' ->]; try done.
  { exact (co_sorted _ _ _ _ Hco). }
  { exact (co_nodup _ _ _ _ Hco). }
  { apply Hl. exists ea. split; [done|lia]. }
  { intros id (e & -> & _)%Hl. by eexists. }
  pose proof (ho_size _ (co_ok _ _ _ _ Hco)) as Hsz.
  unfold DetectTimers. rewrite run_bind, run_gets, run_bind, run_gets, run_bind, Hr. simpl iterM.
  rewrite run_bind. unfold call. rewrite run_bind, run_gets, Ha', run_bind.
  assert (∃ s2, when (bool_decide (heapIndex_ ea' = -1)) (modify (with_timers (delete a))) s1 = Ok (tt, s2) ∧
    timers s2 !! b = Some eb' ∧ heap_ s2 = heap_ s1) as (s2 & -> & Hb2 & Hh2).
  { case_bool_decide; eexists; (split; [done|]); split; try done. simpl. by rewrite lookup_delete_ne. }
  rewrite run_bind, run_modify, Hf, Hexec. simpl iterM. rewrite run_bind.
  by rewrite (unregister_detached _ b eb') by (simpl; auto; rewrite Hh2; lia).
Qed.

Lemma deref_run {F} (s : HeapTimer F) id e : timers s !! id = Some e → deref id s = Ok (e, s).
Proof. intros He. unfold deref. by rewrite He. Qed.

Lemma rearm_zero fuel now : ∀ x, 0 ≤ x ≤ now → now < 2 ^ 62 → rearm fuel now 0 x = Ub UB_Diverges.
Proof.
  induction fuel as [|fuel IH]; intros x Hx Hn; [done|]. cbn [rearm].
  rewrite Z.add_0_r, uwrap_id by (unfold in_u; lia). rewrite (proj2 (Z.leb_le _ _)) by lia. by apply IH.
Qed.

(** A repeating timer must not have the interval 0, which a delay other
    than 0 makes possible: once it expired, the loop that looks for its next
    expiry does not end, for any amount of fuel. *)
Theorem zero_interval_diverges {F} exec (f : F) delay times t now :
  0 < delay < 2 ^ 32 → times ≠ 1 → 0 ≤ t → t + delay ≤ now < 2 ^ 62 →
  ∃ s, register_timer f 0 delay times (new_heap t) = Ok (1, s) ∧
    DetectTimers exec (mkHeap (timers s) (heap_ s) (timerId_ s) now (fired s)) = Ub UB_Diverges ∧
    ∀ fuel, rearm fuel now 0 (t + delay) = Ub UB_Diverges.
Proof.
  intros Hd Ht Ht0 Hn.
  exists (mkHeap {[1 := mkEntry f 1 0 (t + delay) times 0]} [1] 1 t []). split; [|split].
  - unfold register_timer. rewrite run_bind, run_gets, bool_decide_false by done. cbv zeta.
    rewrite (uwrap_id 32 delay) by (unfold in_u; lia). rewrite (proj2 (Z.eqb_neq delay 0)) by lia.
    rewrite run_bind, run_gets, run_bind, run_modify, run_bind, run_gets.
    rewrite (uwrap_id 64) by (unfold in_u; simpl; lia). rewrite (Z.add_comm delay). done.
  - unfold DetectTimers. rewrite run_bind, run_gets, run_bind, run_gets, run_bind.
    cbn [collect length heap_]. rewrite run_bind, run_gets. cbn [heap_].
    cbn [clock]. set (s := mkHeap _ _ _ now _).
    rewrite run_bind, (deref_run s 1 _ (lookup_singleton_eq _ _)). cbn [expires_].
    rewrite (proj2 (Z.leb_le _ _)) by lia. unfold expire_top.
    rewrite run_bind, run_bind, (deref_run s 1 _ (lookup_singleton_eq _ _)). cbn [repeat_]. rewrite bool_decide_false by done.
    rewrite run_bind. unfold lift. cbn [interval_ expires_]. by rewrite rearm_zero by lia.
  - intros fuel. apply rearm_zero; lia.
Qed.

(** ** The theorems at concrete inputs *)
Fixpoint register_all {F} (l : list (F * Z * Z * Z)) (s : HeapTimer F) : HeapTimer F :=
  match l with
  | [] => s
  | (f, i, d, n) :: l' =>
      match register_timer f i d n s with Ok (_, s') => register_all l' s' | Ub _ => s end
  end.
Definition at_time {F} (now : Z) (s : HeapTimer F) : HeapTimer F :=
  mkHeap (timers s) (heap_ s) (timerId_ s) now (fired s).

Lemma register_all_idle {F} (l : list (F * Z * Z * Z)) : ∀ s,
  heap_idle s → Forall (λ '(_, i, _, n), n ≠ 1 → 1 ≤ u32 i) l →
  timerId_ s + Z.of_nat (length l) < 2 ^ 31 → heap_idle (register_all l s).
Proof.
  induction l as [|[[[f i] d] n] l IH]; intros s Hs Hl Hn; [done|].
  apply Forall_cons in Hl as [Hi Hl]. simpl length in Hn.
  destruct (register_idle s f i d n Hs ltac:(lia) Hi) as (s' & Hr & Hs' & Hid & _).
  simpl. rewrite Hr. apply IH; [done|done|lia].
Qed.

Lemma at_time_idle {F} now (s : HeapTimer F) : 0 ≤ now → heap_idle s → heap_idle (at_time now s).
Proof. intros Hn [[] ?]. by split; [split|]. Qed.

(** Three timers at time 0: every 10 ms, once after 5 ms, every 7 ms; 21 ms later. *)
Definition three : HeapTimer Z :=
  at_time 21 (register_all [(0, 10, 0, 0); (1, 0, 5, 1); (2, 7, 0, 3)] (new_heap 0)).
Lemma three_idle : heap_idle three.
Proof.
  apply at_time_idle; [lia|]. apply register_all_idle; [by apply new_heap_ok| |by vm_compute].
  repeat constructor; vm_compute; intros; congruence.
Qed.

Example three_fired :
  (λ r, (fired r.2, heap_ r.2)) <$> DetectTimers (λ _ _, []) three = Ok ([2; 3; 1], [3; 1]).
Proof. vm_compute. reflexivity. Qed.

Lemma heap_DetectTimers_witness :
  ∃ l s', DetectTimers (λ _ _, []) three = Ok (tt, s') ∧ heap_idle s' ∧ fired s' = fired three ++ l ∧
    NoDup l ∧ (∀ id, id ∈ l ↔ ∃ e, timers three !! id = Some e ∧ expires_ e ≤ clock three) ∧
    StronglySorted (by_key three) l ∧ (∀ id, abs s' !! id = abs three !! id ≫= rearmed (clock three)).
Proof.
  apply (heap_DetectTimers (λ _ _, []) three);
    [intros f now; constructor|apply three_idle|vm_compute; reflexivity].
Defined.

Lemma heap_register_witness :
  ∃ s', register_timer 7 100 0 0 three = Ok (4, s') ∧ heap_idle s' ∧ abs three !! 4 = None ∧
    abs s' = <[4 := s_register 7 100 0 0 (clock three) 4]> (abs three).
Proof.
  apply (heap_register three 7 100 0 0); [apply three_idle|vm_compute; reflexivity|].
  intros _. vm_compute. discriminate.
Defined.

Lemma heap_unregister_witness :
  ∃ s', unregister_timer 2 three = Ok (tt, s') ∧ heap_idle s' ∧ abs s' = delete 2 (abs three).
Proof. apply (heap_unregister three 2), three_idle. Defined.

(** The first timer cancels the second, when both have expired. *)
Definition two : HeapTimer Z := at_time 9 (register_all [(0, 0, 5, 1); (1, 0, 8, 1)] (new_heap 0)).
Definition canceller (f : Z) (now : Z) : list (WheelTimer.top Z) :=
  if f =? 0 then [WheelTimer.Unregister 2] else [].

Lemma cancel_expired_out_of_bounds_witness : DetectTimers canceller two = Ub UB_OutOfBounds.
Proof.
  apply (cancel_expired_out_of_bounds canceller two 1 (mkEntry 0 1 0 5 1 0) 2 (mkEntry 1 2 0 8 1 1) []).
  - apply at_time_idle; [lia|]. apply register_all_idle; [by apply new_heap_ok| |by vm_compute].
    repeat constructor; vm_compute; intros; congruence.
  - vm_compute. reflexivity.
  - vm_compute. reflexivity.
  - vm_compute. reflexivity.
  - done.
  - intros id e He Hne.
    assert (map_Forall (λ id e, id ≠ 1 → 5 < expires_ e) (timers two)) as Hall.
    { apply (bool_decide_unpack _). vm_compute. exact I. }
    by apply (Hall id e).
  - vm_compute. discriminate.
  - reflexivity.
  - reflexivity.
Defined.

Lemma zero_interval_diverges_witness :
  ∃ s, register_timer 0 0 5 0 (new_heap 100) = Ok (1, s) ∧
    DetectTimers (λ _ _, []) (mkHeap (timers s) (heap_ s) (timerId_ s) 105 (fired s)) = Ub UB_Diverges ∧
    ∀ fuel, rearm fuel 105 0 (100 + 5) = Ub UB_Diverges.
Proof. apply (zero_interval_diverges (λ _ _, []) 0 5 0 100 105); lia. Defined.
