(* ===== verification/RingBuffer.v ===== *)
(** * The ring buffer of the event service

    src/lib_bsp/eventservice/mem/ring_buffer.cpp: a byte buffer with a write
    position [rb_in] and a read position [rb_out] that run freely and are
    masked on access.  The offsets into the memory and into the caller's
    buffer are computed on uint32_t pointers, that is in units of four bytes,
    while the lengths count bytes. *)

From S2P Require Import Prelude.
#[local] Open Scope Z_scope.

(** ** memcpy

    [memcpy dst doff src soff n] copies n bytes between two arrays; touching a
    byte outside one of them is undefined.  A copy of no bytes touches none. *)
Definition memcpy (dst : list Z) (doff : Z) (src : list Z) (soff n : Z) : res (list Z) :=
  if n =? 0 then Ok dst
  else if (soff + n <=? Z.of_nat (length src)) && (doff + n <=? Z.of_nat (length dst)) then
    Ok (take (Z.to_nat doff) dst ++ take (Z.to_nat n) (drop (Z.to_nat soff) src) ++
        drop (Z.to_nat (doff + n)) dst)
  else Ub UB_OutOfBounds.

(** ** Powers of two *)

(** The macro is_power_of_2 *)
Definition is_power_of_2 (x : Z) : bool := negb (x =? 0) && (Z.land x (u32 (x - 1)) =? 0).

(** One test of fls: when the bits of the mask are all clear, shift them out. *)
Definition fls_step (mask s : Z) (p : Z * Z) : Z * Z :=
  let '(x, r) := p in
  if Z.land x mask =? 0 then (u32 (Z.shiftl x s), r - s) else (x, r).
Definition fls (x : Z) : Z :=
  if x =? 0 then 0
  else
    snd (fls_step 0x80000000 1 (fls_step 0xc0000000 2 (fls_step 0xf0000000 4
      (fls_step 0xff000000 8 (fls_step 0xffff0000 16 (x, 32)))))).
Definition fls64 (x : Z) : Z :=
  let h := u32 (Z.shiftr x 32) in
  if negb (h =? 0) then fls h + 32 else fls (u32 x).
(** unsigned long has eight bytes. *)
Definition roundup_pow_of_two (x : Z) : Z := u64 (Z.shiftl 1 (fls64 (u64 (x - 1)))).

(** ** The buffer *)
Record ring_buffer := mkRing {
  rb_mem : list Z;    (* the bytes *buffer points to *)
  rb_size : Z;
  rb_in : Z;
  rb_out : Z }.

(** The fresh memory has arbitrary contents; a null result is [None]. *)
Definition ring_buffer_init (mem : list Z) (size : Z) : option ring_buffer :=
  if negb (is_power_of_2 size) then None else Some (mkRing mem size 0 0).

(** [junk] is the contents malloc leaves in a block of the given size. *)
Definition ring_buffer_alloc (junk : Z → list Z) (size : Z) : option ring_buffer :=
  let size := if negb (Z.land size (u32 (size - 1)) =? 0) then u32 (roundup_pow_of_two size) else size in
  ring_buffer_init (junk size) size.

Definition ring_buffer_len (rb : ring_buffer) : Z := u32 (rb_in rb - rb_out rb).

(** __ring_buffer_get fills the caller's buffer [buf]. *)
Definition ring_get_bytes (rb : ring_buffer) (buf : list Z) (size : Z)
    : res (Z * list Z * ring_buffer) :=
  let size := Z.min size (u32 (rb_in rb - rb_out rb)) in
  let pos := Z.land (rb_out rb) (rb_size rb - 1) in
  let len := Z.min size (u32 (rb_size rb - pos)) in
  buf ← memcpy buf 0 (rb_mem rb) (4 * pos) len;
  buf ← memcpy buf (4 * len) (rb_mem rb) 0 (size - len);
  Ok (size, buf, mkRing (rb_mem rb) (rb_size rb) (rb_in rb) (u32 (rb_out rb + size))).

(** __ring_buffer_put *)
Definition ring_put_bytes (rb : ring_buffer) (buf : list Z) (size : Z) : res (Z * ring_buffer) :=
  let size := Z.min size (u32 (rb_size rb - rb_in rb + rb_out rb)) in
  let pos := Z.land (rb_in rb) (rb_size rb - 1) in
  let len := Z.min size (u32 (rb_size rb - pos)) in
  mem ← memcpy (rb_mem rb) (4 * pos) buf 0 len;
  mem ← memcpy mem 0 buf (4 * len) (size - len);
  Ok (size, mkRing mem (rb_size rb) (u32 (rb_in rb + size)) (rb_out rb)).

Definition ring_buffer_get (rb : ring_buffer) (buf : list Z) (size : Z)
    : res (Z * list Z * ring_buffer) :=
  '(ret, buf, rb) ← ring_get_bytes rb buf size;
  let rb := if rb_in rb =? rb_out rb then mkRing (rb_mem rb) (rb_size rb) 0 0 else rb in
  Ok (ret, buf, rb).
Definition ring_buffer_put (rb : ring_buffer) (buf : list Z) (size : Z) : res (Z * ring_buffer) :=
  ring_put_bytes rb buf size.

(** ** memcpy lemmas *)
Lemma memcpy_none dst doff src soff : memcpy dst doff src soff 0 = Ok dst.
Proof. done. Qed.

Lemma memcpy_length dst doff src soff n d :
  0 ≤ doff → 0 ≤ soff → 0 ≤ n →
  memcpy dst doff src soff n = Ok d → length d = length dst.
Proof.
  intros Hd Hs Hn. unfold memcpy. destruct (Z.eqb_spec n 0) as [->|]; [by intros [= ->]|].
  destruct (Z.leb_spec (soff + n) (Z.of_nat (length src))); [|done].
  destruct (Z.leb_spec (doff + n) (Z.of_nat (length dst))); [|done]. simpl.
  intros [= <-]. rewrite !length_app, !length_take, !length_drop. lia.
Qed.

Lemma memcpy_cases dst doff src soff n :
  0 ≤ doff → 0 ≤ soff → 0 ≤ n →
  (n = 0 ∧ memcpy dst doff src soff n = Ok dst) ∨
  (0 < n ∧ soff + n ≤ Z.of_nat (length src) ∧ doff + n ≤ Z.of_nat (length dst) ∧
   ∃ d, memcpy dst doff src soff n = Ok d ∧ length d = length dst) ∨
  (0 < n ∧ (Z.of_nat (length src) < soff + n ∨ Z.of_nat (length dst) < doff + n) ∧
   memcpy dst doff src soff n = Ub UB_OutOfBounds).
Proof.
  intros Hd Hs Hn. destruct (memcpy dst doff src soff n) as [d|u] eqn:E.
  - pose proof (memcpy_length _ _ _ _ _ _ Hd Hs Hn E). unfold memcpy in E.
    destruct (Z.eqb_spec n 0); [left; naive_solver|right; left].
    destruct (Z.leb_spec (soff + n) (Z.of_nat (length src)));
      destruct (Z.leb_spec (doff + n) (Z.of_nat (length dst))); simpl in E; try done.
    split_and!; eauto; lia.
  - right; right. unfold memcpy in E. destruct (Z.eqb_spec n 0); [done|].
    destruct (Z.leb_spec (soff + n) (Z.of_nat (length src)));
      destruct (Z.leb_spec (doff + n) (Z.of_nat (length dst))); simpl in E; simplify_eq;
      split_and!; try done; lia.
Qed.

Lemma memcpy_ok dst doff src soff n :
  0 < n → soff + n ≤ Z.of_nat (length src) → doff + n ≤ Z.of_nat (length dst) →
  memcpy dst doff src soff n =
    Ok (take (Z.to_nat doff) dst ++ take (Z.to_nat n) (drop (Z.to_nat soff) src) ++
        drop (Z.to_nat (doff + n)) dst).
Proof.
  intros Hn H1 H2. unfold memcpy.
  by rewrite (proj2 (Z.eqb_neq n 0)), !(proj2 (Z.leb_le _ _)) by lia.
Qed.

(** A copy into the front of an array. *)
Lemma memcpy_front dst src n :
  0 ≤ n → n ≤ Z.of_nat (length src) → n ≤ Z.of_nat (length dst) →
  memcpy dst 0 src 0 n = Ok (take (Z.to_nat n) src ++ drop (Z.to_nat n) dst).
Proof.
  intros Hn Hs Hd. unfold memcpy. destruct (Z.eqb_spec n 0) as [->|]; [done|].
  rewrite !(proj2 (Z.leb_le _ _)) by lia. done.
Qed.

(** ** fls and the rounding *)

(** A mask of the bits from k on is clear exactly for small numbers. *)
Lemma land_high_mask x k :
  0 ≤ k ≤ 32 → in_u 32 x → (Z.land x (2 ^ 32 - 2 ^ k) =? 0) = (x <? 2 ^ k).
Proof.
  intros Hk [Hx0 Hx].
  assert (2 ^ 32 - 2 ^ k = Z.shiftl (Z.ones (32 - k)) k) as ->.
  { rewrite Z.shiftl_mul_pow2, Z.ones_equiv by lia. unfold Z.pred.
    rewrite Z.mul_add_distr_r, <-Z.pow_add_r by lia. replace (32 - k + k) with 32 by lia. lia. }
  assert (Z.land x (Z.shiftl (Z.ones (32 - k)) k) = Z.shiftl (Z.shiftr x k) k) as ->.
  { apply Z.bits_inj'. intros i Hi. rewrite Z.land_spec.
    destruct (Z.ltb_spec i k) as [|Hik].
    - rewrite !Z.shiftl_spec_low by lia. by rewrite andb_false_r.
    - rewrite !Z.shiftl_spec, Z.shiftr_spec by lia. replace (i - k + k) with i by lia.
      destruct (Z.ltb_spec i 32).
      + rewrite Z.ones_spec_low by lia. by rewrite andb_true_r.
      + rewrite Z.ones_spec_high, andb_false_r by lia.
        rewrite <-(Z.mod_small x (2 ^ 32)) by lia. by rewrite Z.mod_pow2_bits_high by lia. }
  rewrite Z.shiftl_mul_pow2, Z.shiftr_div_pow2 by lia.
  pose proof (pow2_pos k ltac:(lia)).
  destruct (Z.ltb_spec x (2 ^ k)).
  - by rewrite Z.div_small.
  - apply Z.eqb_neq. pose proof (Z.div_le_mono (2 ^ k) x (2 ^ k) ltac:(lia) ltac:(lia)).
    rewrite Z.div_same in * by lia. nia.
Qed.

(** The state of fls between two tests: the bits shifted out are accounted for
    and x has reached 2^k. *)
Definition fls_inv (x0 k : Z) (p : Z * Z) : Prop :=
  let '(x, r) := p in 2 ^ k ≤ x < 2 ^ 32 ∧ Z.log2 x + r = Z.log2 x0 + 32.

Lemma fls_step_inv x0 s p :
  0 < s ≤ 16 → fls_inv x0 (32 - 2 * s) p →
  fls_inv x0 (32 - s) (fls_step (2 ^ 32 - 2 ^ (32 - s)) s p).
Proof.
  destruct p as [x r]. intros Hs [[Hx1 Hx2] Hl]. unfold fls_step.
  pose proof (pow2_pos (32 - 2 * s) ltac:(lia)). pose proof (pow2_pos s ltac:(lia)).
  assert (2 ^ (32 - s) * 2 ^ s = 2 ^ 32) as E1 by (rewrite <-Z.pow_add_r by lia; f_equal; lia).
  assert (2 ^ (32 - 2 * s) * 2 ^ s = 2 ^ (32 - s)) as E2
    by (rewrite <-Z.pow_add_r by lia; f_equal; lia).
  rewrite land_high_mask by (unfold in_u; lia).
  destruct (Z.ltb_spec x (2 ^ (32 - s))) as [Hlt|Hge]; simpl; [|lia].
  rewrite Z.shiftl_mul_pow2 by lia. rewrite uwrap_id by (unfold in_u; nia).
  assert (0 < x) as Hx0 by nia. rewrite (Z.log2_mul_pow2 x s Hx0) by lia. nia.
Qed.

Theorem fls_spec x : in_u 32 x → fls x = if x =? 0 then 0 else Z.log2 x + 1.
Proof.
  intros [Hx0 Hx]. unfold fls. destruct (Z.eqb_spec x 0) as [->|Hne]; [done|].
  assert (fls_inv x (32 - 2 * 16) (x, 32)) as H by (simpl; lia).
  apply (fls_step_inv x 16), (fls_step_inv x 8), (fls_step_inv x 4), (fls_step_inv x 2),
    (fls_step_inv x 1) in H; try lia.
  change (2 ^ 32 - 2 ^ (32 - 16)) with 0xffff0000 in H.
  change (2 ^ 32 - 2 ^ (32 - 8)) with 0xff000000 in H.
  change (2 ^ 32 - 2 ^ (32 - 4)) with 0xf0000000 in H.
  change (2 ^ 32 - 2 ^ (32 - 2)) with 0xc0000000 in H.
  change (2 ^ 32 - 2 ^ (32 - 1)) with 0x80000000 in H.
  destruct (fls_step 0x80000000 1 _) as [y r]. simpl. destruct H as [[Hy1 Hy2] Hl].
  assert (Z.log2 y = 31) as Hy; [|lia]. apply Z.log2_unique; [lia|].
  simpl in Hy1. lia.
Qed.

(** is_power_of_2 means what it says. *)
Lemma is_power_of_2_spec x :
  in_u 32 x → is_power_of_2 x = true ↔ ∃ k, 0 ≤ k < 32 ∧ x = 2 ^ k.
Proof.
  intros [Hx0 Hx]. unfold is_power_of_2. destruct (Z.eqb_spec x 0) as [->|Hne]; simpl.
  { split; [done|]. intros (k & Hk & H). pose proof (pow2_pos k ltac:(lia)). lia. }
  rewrite uwrap_id by (unfold in_u; lia).
  pose proof (Z.log2_spec x ltac:(lia)) as [Hl1 Hl2]. pose proof (Z.log2_nonneg x).
  assert (Z.log2 x < 32) as Hl by (apply Z.log2_lt_pow2; lia).
  rewrite Z.eqb_eq. split.
  - intros H0. exists (Z.log2 x). split; [lia|].
    destruct (decide (x = 2 ^ Z.log2 x)) as [|Hneq]; [done|exfalso].
    (* the top bit survives in x and in x - 1 *)
    assert (Z.testbit (Z.land x (x - 1)) (Z.log2 x) = true) as Hb.
    { rewrite Z.land_spec, Z.bit_log2 by lia.
      replace (Z.log2 x) with (Z.log2 (x - 1)); [by rewrite Z.bit_log2 by lia|].
      apply Z.log2_unique; lia. }
    rewrite H0, Z.bits_0 in Hb. done.
  - intros (k & Hk & ->). apply Z.bits_inj'. intros i Hi.
    rewrite Z.land_spec, Z.bits_0, Z.pow2_bits_eqb by lia.
    destruct (Z.eqb_spec k i) as [->|]; [|done]. simpl.
    rewrite Z.sub_1_r, <-Z.ones_equiv. by rewrite Z.ones_spec_high by lia.
Qed.

(** Allocation rounds the size up to the least power of two that holds it, and
    yields no buffer exactly for the size 0 and above 2^31, where the rounded
    size does not fit an unsigned int. *)
Theorem alloc_least_power junk size :
  in_u 32 size →
  match ring_buffer_alloc junk size with
  | Some rb => ∃ k, 0 ≤ k < 32 ∧ rb = mkRing (junk (2 ^ k)) (2 ^ k) 0 0 ∧ size ≤ 2 ^ k ∧
                 ∀ j, 0 ≤ j → size ≤ 2 ^ j → 2 ^ k ≤ 2 ^ j
  | None => size = 0 ∨ 2 ^ 31 < size
  end.
Proof.
  intros Hs. pose proof Hs as [Hs0 Hs1]. unfold ring_buffer_alloc.
  destruct (decide (size = 0)) as [->|Hne]; [by left|].
  destruct (Z.land size (u32 (size - 1)) =? 0) eqn:Hp; cbn [negb]; unfold ring_buffer_init.
  - assert (is_power_of_2 size = true) as Hp2.
    { unfold is_power_of_2. rewrite Hp. by rewrite (proj2 (Z.eqb_neq size 0)). }
    rewrite Hp2. apply is_power_of_2_spec in Hp2 as (k & Hk & ->); [|done].
    by exists k.
  - assert (size ≠ 1) as H1 by (intros ->; discriminate Hp).
    assert (roundup_pow_of_two size = 2 ^ (Z.log2 (size - 1) + 1)) as ->.
    { unfold roundup_pow_of_two, fls64. rewrite (uwrap_id 64 (size - 1)) by (unfold in_u; lia).
      rewrite Z.shiftr_div_pow2, Z.div_small by lia. change (negb (u32 0 =? 0)) with false.
      cbv iota. rewrite fls_spec.
      - rewrite (uwrap_id 32 (size - 1)), (proj2 (Z.eqb_neq (size - 1) 0)) by (unfold in_u; lia).
        assert (Z.log2 (size - 1) < 32) by (apply Z.log2_lt_pow2; lia).
        pose proof (Z.log2_nonneg (size - 1)).
        rewrite Z.shiftl_1_l, uwrap_id; [done|]. split; [by apply Z.pow_nonneg|].
        apply Z.pow_lt_mono_r; lia.
      - by apply uwrap_range. }
    set (k := Z.log2 (size - 1) + 1). pose proof (Z.log2_nonneg (size - 1)).
    pose proof (Z.log2_spec (size - 1) ltac:(lia)) as [Hl1 Hl2].
    destruct (decide (k < 32)) as [Hk|Hk].
    + rewrite uwrap_id by (split; [by apply Z.pow_nonneg|apply Z.pow_lt_mono_r; lia]).
      assert (is_power_of_2 (2 ^ k) = true) as ->.
      { apply is_power_of_2_spec; [split; [by apply Z.pow_nonneg|apply Z.pow_lt_mono_r; lia]|].
        exists k. lia. }
      exists k. split_and!; [lia|lia|done|unfold k; lia|].
      intros j Hj Hsj. apply Z.pow_le_mono_r; [lia|].
      destruct (decide (k ≤ j)) as [|Hkj]; [done|exfalso].
      assert (2 ^ j ≤ 2 ^ (Z.log2 (size - 1))) by (apply Z.pow_le_mono_r; lia). lia.
    + assert (Z.log2 (size - 1) = 31) as E31.
      { assert (Z.log2 (size - 1) < 32) by (apply Z.log2_lt_pow2; lia). unfold k in Hk. lia. }
      unfold k. rewrite E31 in *. right. lia.
Qed.

(** ** Accounting *)
Record ring_wf (rb : ring_buffer) : Prop := {
  rw_size : ∃ k, 0 ≤ k < 32 ∧ rb_size rb = 2 ^ k;
  rw_mem : Z.of_nat (length (rb_mem rb)) = rb_size rb;
  rw_in : in_u 32 (rb_in rb);
  rw_out : in_u 32 (rb_out rb);
  rw_len : ring_buffer_len rb ≤ rb_size rb }.

Lemma ring_size_range rb : ring_wf rb → 0 < rb_size rb < 2 ^ 32.
Proof.
  intros [(k & Hk & ->) _ _ _ _]. split; [apply pow2_pos; lia|]. apply Z.pow_lt_mono_r; lia.
Qed.

(** The position in the memory is the remainder. *)
Lemma ring_pos rb x : ring_wf rb → Z.land x (rb_size rb - 1) = x mod rb_size rb.
Proof.
  intros [(k & Hk & ->) _ _ _ _]. rewrite Z.sub_1_r, <-Z.ones_equiv. by rewrite Z.land_ones by lia.
Qed.
Lemma ring_pos_range rb x : ring_wf rb → 0 ≤ x mod rb_size rb < rb_size rb.
Proof. intros Hw. apply Z.mod_pos_bound. by apply ring_size_range. Qed.

(** The free space put computes is the size less the length. *)
Lemma ring_free rb :
  ring_wf rb → u32 (rb_size rb - rb_in rb + rb_out rb) = rb_size rb - ring_buffer_len rb.
Proof.
  intros Hw. pose proof (ring_size_range rb Hw). destruct Hw as [_ _ _ _ Hl].
  unfold ring_buffer_len in *. pose proof (uwrap_range 32 (rb_in rb - rb_out rb) ltac:(lia)) as [Hr _].
  rewrite <-(uwrap_id 32 (_ - u32 _)) by (unfold in_u; lia). unfold uwrap.
  rewrite Zminus_mod_idemp_r. f_equal. lia.
Qed.

Lemma ring_len_in rb d :
  u32 (u32 (rb_in rb + d) - rb_out rb) = u32 (ring_buffer_len rb + d).
Proof.
  unfold ring_buffer_len, uwrap. rewrite Zminus_mod_idemp_l, Zplus_mod_idemp_l. f_equal. lia.
Qed.
Lemma ring_len_out rb d :
  u32 (rb_in rb - u32 (rb_out rb + d)) = u32 (ring_buffer_len rb - d).
Proof.
  unfold ring_buffer_len, uwrap. rewrite Zminus_mod_idemp_r, Zminus_mod_idemp_l. f_equal. lia.
Qed.

(** What put and get return, and that the buffer never holds more than its
    size: the counters stay in step even where the bytes are misplaced. *)
Theorem ring_accounting rb buf n :
  ring_wf rb → in_u 32 n →
  (∀ ret rb', ring_buffer_put rb buf n = Ok (ret, rb') →
     ring_wf rb' ∧ ret = Z.min n (rb_size rb - ring_buffer_len rb) ∧
     ring_buffer_len rb' = ring_buffer_len rb + ret) ∧
  (∀ ret buf' rb', ring_buffer_get rb buf n = Ok (ret, buf', rb') →
     ring_wf rb' ∧ ret = Z.min n (ring_buffer_len rb) ∧ length buf' = length buf ∧
     ring_buffer_len rb' = ring_buffer_len rb - ret).
Proof.
  intros Hw [Hn0 Hn]. pose proof (ring_size_range rb Hw) as Hs.
  assert (0 ≤ ring_buffer_len rb) as Hl0 by apply (uwrap_range 32 _ ltac:(lia)).
  pose proof Hw as [Hk Hm Hin Hout Hl]. split.
  - intros ret rb'. unfold ring_buffer_put, ring_put_bytes. rewrite ring_free, ring_pos by done.
    set (r := Z.min n _). set (pos := rb_in rb mod rb_size rb). set (len := Z.min r _).
    pose proof (ring_pos_range rb (rb_in rb) Hw) as Hpos.
    assert (0 ≤ len ≤ r) as Hlen.
    { unfold len. rewrite uwrap_id by (unfold in_u; lia). lia. }
    destruct (memcpy _ _ _ _ len) as [m1|] eqn:E1; [|done]. simpl.
    destruct (memcpy m1 _ _ _ _) as [m2|] eqn:E2; [|done]. simpl. intros [= <- <-].
    apply memcpy_length in E1, E2; [|lia..].
    assert (ring_buffer_len (mkRing m2 (rb_size rb) (u32 (rb_in rb + r)) (rb_out rb)) =
            ring_buffer_len rb + r) as Hr.
    { unfold ring_buffer_len at 1. simpl. rewrite ring_len_in. apply uwrap_id. unfold in_u. lia. }
    split_and!; [|done|done]. split; simpl; try done; [lia|by apply uwrap_range|]. rewrite Hr. lia.
  - intros ret buf' rb'. unfold ring_buffer_get, ring_get_bytes. fold (ring_buffer_len rb).
    rewrite ring_pos by done.
    set (r := Z.min n _). set (pos := rb_out rb mod rb_size rb). set (len := Z.min r _).
    pose proof (ring_pos_range rb (rb_out rb) Hw) as Hpos.
    assert (0 ≤ len ≤ r) as Hlen.
    { unfold len. rewrite uwrap_id by (unfold in_u; lia). lia. }
    destruct (memcpy _ _ _ _ len) as [b1|] eqn:E1; [|done]. simpl.
    destruct (memcpy b1 _ _ _ _) as [b2|] eqn:E2; [|done]. simpl. intros [= <- <- <-].
    apply memcpy_length in E1, E2; [|lia..].
    assert (u32 (rb_in rb - u32 (rb_out rb + r)) = ring_buffer_len rb - r) as Hr.
    { rewrite ring_len_out. apply uwrap_id. unfold in_u. lia. }
    split_and!; [|done|lia|].
    + destruct (_ =? _).
      * split; simpl; try done. change (ring_buffer_len _) with 0. lia.
      * split; simpl; try done; [by apply uwrap_range|].
        unfold ring_buffer_len at 1. simpl. rewrite Hr. lia.
    + destruct (Z.eqb_spec (rb_in rb) (u32 (rb_out rb + r))) as [He|]; [|done].
      rewrite <-Hr, <-He, Z.sub_diag. done.
Qed.

(** ** The misplaced bytes *)

(** A put is undefined exactly when one of its two copies leaves an array: the
    first starts at four times the position, the second reads the caller's
    buffer at four times the length of the first. *)
Theorem put_out_of_bounds rb buf n :
  ring_wf rb → in_u 32 n →
  let r := Z.min n (rb_size rb - ring_buffer_len rb) in
  let pos := rb_in rb mod rb_size rb in
  let len := Z.min r (rb_size rb - pos) in
  ring_buffer_put rb buf n = Ub UB_OutOfBounds ↔
    (0 < r ∧ (Z.of_nat (length buf) < len ∨ rb_size rb < 4 * pos + len)) ∨
    (len < r ∧ (Z.of_nat (length buf) < 3 * len + r ∨ rb_size rb < r - len)).
Proof.
  intros Hw [Hn0 Hn] r pos len. pose proof (ring_size_range rb Hw) as Hs.
  pose proof (ring_pos_range rb (rb_in rb) Hw) as Hpos. pose proof Hw as [_ Hm _ _ Hl].
  assert (0 ≤ ring_buffer_len rb) as Hl0 by apply (uwrap_range 32 _ ltac:(lia)).
  unfold ring_buffer_put, ring_put_bytes. rewrite ring_free, ring_pos by done.
  fold r pos. rewrite (uwrap_id 32 (rb_size rb - pos)) by (unfold in_u; lia). fold len.
  assert (0 ≤ len ≤ r) as Hlen by lia. assert (0 < r → 0 < len) as Hrl by lia.
  destruct (memcpy_cases (rb_mem rb) (4 * pos) buf 0 len)
    as [[Hz ->]|[(H0 & H1 & H2 & m1 & -> & Hm1)|(H0 & H1 & ->)]]; [lia..| | |]; cbn [mbind res_bind].
  - replace (r - len) with 0 by lia. rewrite memcpy_none. split; [done|]. intros; exfalso; lia.
  - destruct (memcpy_cases m1 0 buf (4 * len) (r - len))
      as [[Hz ->]|[(H3 & H4 & H5 & m2 & -> & _)|(H3 & H4 & ->)]]; [lia..| | |];
      (split; [try done; intros _; lia|try done; intros; exfalso; lia]).
  - split; [intros _; lia|done].
Qed.
Lemma put_out_of_bounds_witness :
  ring_wf (mkRing (replicate 8 0) 8 2 0) ∧
  ring_buffer_put (mkRing (replicate 8 0) 8 2 0) [1] 1 = Ub UB_OutOfBounds.
Proof.
  assert (ring_wf (mkRing (replicate 8 0) 8 2 0)) as Hw.
  { by split; [exists 3|..]. }
  split; [done|]. apply put_out_of_bounds; [done|done|]. left. vm_compute. split; [done|by right].
Defined.

(** ** Where it is a queue

    While no position passes a quarter of the size, the stretched offsets stay
    inside the memory: the message put at position o lies at 4 o.  [stored]
    says that the messages [q] lie there between two positions. *)
Fixpoint stored (mem : list Z) (off : Z) (q : list (list Z)) (last : Z) : Prop :=
  match q with
  | [] => off = last
  | m :: q' =>
      (0 < length m)%nat ∧ take (length m) (drop (Z.to_nat (4 * off)) mem) = m ∧
      stored mem (off + Z.of_nat (length m)) q' last
  end.

Record ring_holds (rb : ring_buffer) (q : list (list Z)) : Prop := {
  rh_wf : ring_wf rb;
  rh_order : rb_out rb ≤ rb_in rb;
  rh_quarter : 4 * rb_in rb ≤ rb_size rb;
  rh_stored : stored (rb_mem rb) (rb_out rb) q (rb_in rb) }.

Lemma stored_le mem q : ∀ off last, stored mem off q last → off ≤ last.
Proof. induction q as [|m q IH]; simpl; intros off last H; [lia|].
  destruct H as (_ & _ & H%IH). lia. Qed.

(** Bytes behind the last position do not matter. *)
Lemma stored_change mem mem' q : ∀ off last,
  0 ≤ off →
  take (Z.to_nat (4 * last)) mem' = take (Z.to_nat (4 * last)) mem →
  stored mem off q last → stored mem' off q last.
Proof.
  induction q as [|m q IH]; simpl; intros off last Hoff He H; [done|].
  destruct H as (Hm & Ht & Hq). pose proof (stored_le _ _ _ _ Hq) as Hle.
  split_and!; [done| |by apply IH; [lia|..]].
  assert (∀ l : list Z, take (length m) (drop (Z.to_nat (4 * off)) l) =
    take (length m) (drop (Z.to_nat (4 * off)) (take (Z.to_nat (4 * last)) l))) as Hc.
  { intros l. rewrite !take_drop_commute, take_take. do 2 f_equal. lia. }
  by rewrite Hc, He, <-Hc.
Qed.

Lemma stored_snoc mem q m : ∀ off last,
  0 ≤ off → stored mem off q last → (0 < length m)%nat →
  take (length m) (drop (Z.to_nat (4 * last)) mem) = m →
  stored mem off (q ++ [m]) (last + Z.of_nat (length m)).
Proof.
  induction q as [|x q IH]; simpl; intros off last Hoff H Hm Ht.
  - by subst off.
  - destruct H as (Hx & Hxt & Hq). split_and!; [done..|]. apply IH; [lia|done..].
Qed.

Lemma ring_holds_len rb q : ring_holds rb q → ring_buffer_len rb = rb_in rb - rb_out rb.
Proof.
  intros [Hw Ho Hq _]. pose proof (ring_size_range rb Hw). destruct Hw as [_ _ [? ?] [? ?] _].
  apply uwrap_id. unfold in_u. lia.
Qed.

(** Putting whole messages and getting them back one by one with their own
    lengths, the ring buffer is a queue of messages as long as a quarter of
    its size bounds the bytes that pass before it runs empty. *)
Theorem matched_ring_is_queue rb q m :
  ring_holds rb q → (0 < length m)%nat →
  (4 * (rb_in rb + Z.of_nat (length m)) ≤ rb_size rb →
   ∃ rb', ring_buffer_put rb m (Z.of_nat (length m)) = Ok (Z.of_nat (length m), rb') ∧
     ring_holds rb' (q ++ [m]) ∧
     (rb_in rb', rb_out rb') = (rb_in rb + Z.of_nat (length m), rb_out rb)) ∧
  (∀ q' buf, q = m :: q' → length buf = length m →
   ∃ rb', ring_buffer_get rb buf (Z.of_nat (length m)) = Ok (Z.of_nat (length m), m, rb') ∧
     ring_holds rb' q').
Proof.
  intros Hh Hm0. pose proof (ring_holds_len _ _ Hh) as Hlen. destruct Hh as [Hw Ho Hq4 Hst].
  pose proof (ring_size_range rb Hw) as Hs. pose proof Hw as [Hk Hm [Hi0 Hi] [Ho0 Ho1] Hl].
  set (n := Z.of_nat (length m)) in *. assert (0 < n) by lia. split.
  - intros Hn. unfold ring_buffer_put, ring_put_bytes. rewrite ring_free, ring_pos by done.
    rewrite (Z.min_l n) by lia. rewrite (Z.mod_small (rb_in rb)) by lia.
    rewrite (uwrap_id 32 (rb_size rb - _)) by (unfold in_u; lia). rewrite Z.min_l by lia.
    rewrite Z.sub_diag, memcpy_ok by lia. cbn [mbind res_bind]. rewrite memcpy_none. cbn [mbind res_bind].
    eexists. split_and!; [done| |by rewrite uwrap_id by (unfold in_u; lia)].
    rewrite uwrap_id by (unfold in_u; lia). simpl (drop (Z.to_nat 0) m).
    rewrite (take_ge m) by lia.
    set (mem := _ ++ _). assert (length mem = length (rb_mem rb)) as Hmem.
    { unfold mem. rewrite !length_app, length_take, length_drop. lia. }
    split; simpl; [|lia|lia|].
    + split; simpl; [done|by rewrite Hmem|unfold in_u; lia|done|].
      unfold ring_buffer_len. simpl. rewrite uwrap_id by (unfold in_u; lia). lia.
    + apply stored_snoc; [lia| |done|].
      * eapply stored_change; [lia| |exact Hst]. unfold mem.
        rewrite take_app_le by (rewrite length_take; lia). by rewrite take_take, Nat.min_id.
      * unfold mem. rewrite drop_app_ge by (rewrite length_take; lia).
        rewrite length_take, Nat.min_l, Nat.sub_diag by lia. by apply take_app_length.
  - intros q' buf -> Hbuf. destruct Hst as (_ & Ht & Hst).
    pose proof (stored_le _ _ _ _ Hst) as Hle. fold n in Hle, Hst.
    unfold ring_buffer_get, ring_get_bytes. fold (ring_buffer_len rb).
    rewrite ring_pos, Hlen by done. rewrite (Z.min_l n) by lia.
    rewrite (Z.mod_small (rb_out rb)) by lia.
    rewrite (uwrap_id 32 (rb_size rb - _)) by (unfold in_u; lia). rewrite Z.min_l by lia.
    rewrite Z.sub_diag, memcpy_ok by lia. cbn [mbind res_bind]. rewrite memcpy_none. cbn [mbind res_bind].
    rewrite uwrap_id by (unfold in_u; lia). simpl (take (Z.to_nat 0) buf).
    unfold n at 2. rewrite Nat2Z.id, Ht. rewrite drop_ge, app_nil_r by lia. simpl.
    eexists. split; [done|].
    destruct (Z.eqb_spec (rb_in rb) (rb_out rb + n)) as [He|He].
    + destruct q' as [|x q']; [|by destruct Hst as (? & _ & ?%stored_le); lia].
      split; simpl; try done; [|lia]. split; simpl; try done. change (ring_buffer_len _) with 0. lia.
    + split; simpl; try done. split; simpl; try done; [unfold in_u; lia|].
      unfold ring_buffer_len. simpl. rewrite uwrap_id by (unfold in_u; lia). lia.
Qed.
Lemma matched_ring_is_queue_witness :
  ring_holds (mkRing (replicate 8 0) 8 0 0) [] ∧
  ∃ rb, ring_buffer_put (mkRing (replicate 8 0) 8 0 0) [5; 6] 2 = Ok (2, rb) ∧ ring_holds rb [[5; 6]].
Proof.
  assert (ring_holds (mkRing (replicate 8 0) 8 0 0) []) as Hh.
  { split; try done. by split; [exists 3|..]. }
  split; [done|].
  destruct (matched_ring_is_queue _ _ [5; 6] Hh ltac:(simpl; lia)) as [Hput _].
  destruct (Hput ltac:(simpl; lia)) as (rb & H1 & H2 & _). by exists rb.
Defined.

(** Two puts read by one get lose the second: the get delivers the first
    message and then the bytes the memory held before, since the second one was
    stored four times further. *)
Theorem two_puts_one_get rb a b buf :
  ring_holds rb [] → rb_in rb = 0 → rb_out rb = 0 →
  let na := Z.of_nat (length a) in let nb := Z.of_nat (length b) in
  0 < na → 0 < nb ≤ 3 * na → 4 * (na + nb) ≤ rb_size rb → Z.of_nat (length buf) = na + nb →
  ∃ rb1 rb2 rb3,
    ring_buffer_put rb a na = Ok (na, rb1) ∧ ring_buffer_put rb1 b nb = Ok (nb, rb2) ∧
    ring_buffer_get rb2 buf (na + nb) =
      Ok (na + nb, a ++ take (length b) (drop (length a) (rb_mem rb)), rb3).
Proof.
  intros Hh Hi Ho na nb Ha Hb Hs Hbuf. pose proof (rh_wf _ _ Hh) as Hw.
  pose proof (ring_size_range rb Hw) as Hsz. pose proof (rw_mem rb Hw) as Hmem.
  destruct (rw_size rb Hw) as (k & Hk & Ek).
  destruct rb as [mem size i o]. simpl in *. subst i o.
  assert (∀ p, 0 ≤ p < size → Z.land p (size - 1) = p) as Hpos.
  { intros p Hp. rewrite (ring_pos (mkRing mem size 0 0)) by done. by apply Z.mod_small. }
  unfold ring_buffer_put, ring_put_bytes, ring_buffer_get, ring_get_bytes. simpl.
  do 3 eexists. split_and!.
  - rewrite (uwrap_id 32 (size - 0 + 0)) by (unfold in_u; lia). rewrite Z.min_l by lia.
    rewrite (Hpos 0) by lia. rewrite (uwrap_id 32 (size - 0)) by (unfold in_u; lia).
    rewrite Z.min_l, Z.sub_diag by lia.
    rewrite memcpy_front by lia. simpl.
    rewrite (uwrap_id 32) by (unfold in_u; lia). done.
  - simpl. rewrite Z.add_0_l, (uwrap_id 32 (size - na + 0)) by (unfold in_u; lia). rewrite Z.min_l by lia.
    rewrite Hpos by lia. rewrite (uwrap_id 32 (size - na)) by (unfold in_u; lia).
    rewrite Z.min_l, Z.sub_diag by lia.
    rewrite memcpy_ok; [simpl|lia|lia|rewrite length_app, length_take, length_drop; lia].
    rewrite (uwrap_id 32) by (unfold in_u; lia). done.
  - simpl. rewrite Z.sub_0_r, (uwrap_id 32 (na + nb)) by (unfold in_u; lia). rewrite Z.min_id.
    rewrite (Hpos 0) by lia. rewrite (uwrap_id 32 (size - 0)) by (unfold in_u; lia).
    rewrite Z.min_l, Z.sub_diag by lia.
    rewrite memcpy_front; [|lia| |lia].
    2: { rewrite !length_app, !length_take, !length_drop, length_app, length_take, length_drop. lia. }
    simpl. do 2 f_equal.
    rewrite (drop_ge buf), app_nil_r by lia. rewrite take_app_le.
    2: { rewrite length_take, length_app, length_take, length_drop. lia. }
    rewrite take_take, Nat.min_l by lia. rewrite (take_ge a) by lia.
    rewrite take_app_ge by lia. f_equal.
    replace (Z.to_nat (na + nb) - length a)%nat with (length b) by lia.
    by replace (Z.to_nat na) with (length a) by lia.
Qed.
Lemma two_puts_one_get_witness :
  ∃ rb1 rb2 rb3,
    ring_buffer_put (mkRing [10; 11; 12; 13; 14; 15; 16; 17] 8 0 0) [1] 1 = Ok (1, rb1) ∧
    ring_buffer_put rb1 [2] 1 = Ok (1, rb2) ∧
    ring_buffer_get rb2 [0; 0] 2 = Ok (2, [1; 11], rb3).
Proof.
  apply (two_puts_one_get (mkRing [10; 11; 12; 13; 14; 15; 16; 17] 8 0 0) [1] [2] [0; 0]); try done.
  split; try done. by split; [exists 3|..].
Defined.

(** Filling an empty buffer and draining it returns the bytes, at any length
    up to the size. *)
Theorem fill_drain rb a buf n m :
  ring_wf rb → rb_in rb = 0 → rb_out rb = 0 →
  0 < n ≤ rb_size rb → n ≤ m < 2 ^ 32 → n ≤ Z.of_nat (length a) → n ≤ Z.of_nat (length buf) →
  ∃ rb1 rb2, ring_buffer_put rb a n = Ok (n, rb1) ∧
    ring_buffer_get rb1 buf m = Ok (n, take (Z.to_nat n) a ++ drop (Z.to_nat n) buf, rb2) ∧
    ring_holds rb2 [].
Proof.
  intros Hw Hi Ho Hn Hm Ha Hb. pose proof (ring_size_range rb Hw) as Hs.
  pose proof Hw as [Hk Hmem _ _ _]. destruct rb as [mem size i o]. simpl in *. subst i o.
  assert (Z.land 0 (size - 1) = 0) as Hpos by done.
  unfold ring_buffer_put, ring_put_bytes, ring_buffer_get, ring_get_bytes. simpl.
  do 2 eexists. split_and!.
  - rewrite (uwrap_id 32 (size - 0 + 0)) by (unfold in_u; lia). rewrite Z.min_l by lia.
    rewrite Hpos, (uwrap_id 32 (size - 0)) by (unfold in_u; lia).
    rewrite Z.min_l, Z.sub_diag, memcpy_front by lia. done.
  - simpl. rewrite !Hpos, !Z.add_0_l, !Z.sub_0_r. rewrite !(uwrap_id 32 n) by (unfold in_u; lia).
    rewrite Z.min_r by lia. rewrite (uwrap_id 32 size) by (unfold in_u; lia).
    rewrite Z.min_l, Z.sub_diag by lia.
    rewrite memcpy_front; [|lia| |lia]. 2: { rewrite length_app, length_take, length_drop. lia. }
    simpl. rewrite (uwrap_id 32 n), Z.eqb_refl by (unfold in_u; lia).
    rewrite take_app_le by (rewrite length_take; lia). by rewrite take_take, Nat.min_id.
  - split; simpl; try done; [|lia]. split; simpl; try done.
    2: { change (ring_buffer_len _) with 0. lia. }
    rewrite length_app, length_take, length_drop. lia.
Qed.
