(* ===== verification/Watchdog.v ===== *)
(** * The software watchdog

    src/lib_bsp/watchdog/watchdog.cpp: a table of 64 modules in shared memory.
    A process registers under a name, feeds its entry, and the server checks
    that every registered module was fed within its timeout.  compare,
    safe_memcpy and to_int of eventservice/util/string_util.cpp and read_line
    of util/file_opera.cpp are modelled as far as the watchdog uses them.
    Characters are byte values; the shared memory mutex makes each operation
    one step. *)

From S2P Require Import Prelude Crc16 Serialize.
#[local] Open Scope Z_scope.

Definition WDG_MODULE_NAME_LEN : nat := 32.
Definition WDG_MODULE_MAX_NUM : nat := 64.
Definition WDG_DEF_TIMEOUT : Z := 20.
Definition WDG_MIN_TIMEOUT : Z := 4.

(** ** Strings *)

(** The C string at the start of some bytes. *)
Fixpoint c_str (l : list Z) : list Z :=
  match l with
  | [] => []
  | c :: l' => if c =? 0 then [] else c :: c_str l'
  end.

(** XStrUtil::compare without a length, on the characters before the
    terminators; chars may be signed. *)
Fixpoint compare (char_signed : bool) (l r : list Z) : Z :=
  let ch := char_value char_signed in
  match l, r with
  | x :: l', y :: r' => if ch x - ch y =? 0 then compare char_signed l' r' else ch x - ch y
  | x :: _, [] => ch x
  | [], y :: _ => - ch y
  | [], [] => 0
  end.

(** safe_memcpy into a destination of the given contents. *)
Definition safe_memcpy (dst src : list Z) : list Z :=
  let n := if (length src <? length dst)%nat then length src else length dst in
  take n src ++ drop n dst.

(** ** The shared memory *)
Record TAG_MODULE := mkModule {
  name : list Z;          (* char[32] *)
  registered : Z;
  timeout : Z;
  last_feed_time : Z }.
Record TAG_WATCHDOG := mkWatchdog { enable : bool; modules : list TAG_MODULE }.

Definition zero_module : TAG_MODULE := mkModule (replicate WDG_MODULE_NAME_LEN 0) 0 0 0.

(** std::string(modules[i].name): a name of 32 characters has no terminator of
    its own, so the string runs on into the field behind it.  That field is 0
    or 1 and contains a zero byte. *)
Definition module_string (m : TAG_MODULE) : list Z := c_str (name m ++ memcpy_le 4 (registered m)).

Definition same_name (cs : bool) (mod_name : list Z) (m : TAG_MODULE) : bool :=
  compare cs (c_str mod_name) (module_string m) =? 0.

Fixpoint find_index (p : TAG_MODULE → bool) (l : list TAG_MODULE) : option nat :=
  match l with
  | [] => None
  | m :: l' => if p m then Some 0%nat else S <$> find_index p l'
  end.

Definition default_timeout (t : Z) : Z := if t <? WDG_MIN_TIMEOUT then WDG_DEF_TIMEOUT else t.

(** The operations of an attached process; [None] is the null pointer of a
    process whose Init failed.  [now] is ClockSecond(), a uint32_t. *)
Definition Register (cs : bool) (w : option TAG_WATCHDOG) (mod_name : list Z) (mod_timeout now : Z)
    : Z * option TAG_WATCHDOG :=
  match w with
  | None => (-1, None)
  | Some wd =>
      let mod_timeout := default_timeout mod_timeout in
      match find_index (same_name cs mod_name) (modules wd) with
      | Some i => (Z.of_nat i, w)
      | None =>
          match find_index (λ m, negb (registered m =? 1)) (modules wd) with
          | Some i =>
              let m := mkModule (safe_memcpy (name zero_module) mod_name) 1 mod_timeout now in
              (Z.of_nat i, Some (mkWatchdog (enable wd) (<[i := m]> (modules wd))))
          | None => (-1, w)
          end
      end
  end.

Definition bad_key (key : Z) : bool := (key <? 0) || (Z.of_nat WDG_MODULE_MAX_NUM <=? key).

Definition set_module_timeout (t : Z) (m : TAG_MODULE) : TAG_MODULE :=
  mkModule (name m) (registered m) t (last_feed_time m).
Definition feed_module (now : Z) (m : TAG_MODULE) : TAG_MODULE :=
  mkModule (name m) (registered m) (timeout m) now.

Definition SetTimeout (w : option TAG_WATCHDOG) (key mod_timeout : Z) : Z * option TAG_WATCHDOG :=
  match w with
  | None => (-1, None)
  | Some wd =>
      if bad_key key then (-1, w)
      else
        let i := Z.to_nat key in
        match modules wd !! i with
        | Some m =>
            if registered m =? 0 then (-1, w)
            else (0, Some (mkWatchdog (enable wd)
                             (<[i := set_module_timeout (default_timeout mod_timeout) m]> (modules wd))))
        | None => (-1, w)
        end
  end.

(** Feeding an entry that is not registered only logs a warning. *)
Definition Feeddog (w : option TAG_WATCHDOG) (mod_num now : Z) : Z * option TAG_WATCHDOG :=
  match w with
  | None => (-1, None)
  | Some wd =>
      if bad_key mod_num then (-1, w)
      else (0, Some (mkWatchdog (enable wd) (alter (feed_module now) (Z.to_nat mod_num) (modules wd))))
  end.

Definition Enable (w : option TAG_WATCHDOG) (e : Z) : Z * option TAG_WATCHDOG :=
  match w with
  | None => (-1, None)
  | Some wd => (0, Some (mkWatchdog (negb (e =? 0)) (modules wd)))
  end.

(** A module that is registered and was not fed in time. *)
Definition timed_out (now : Z) (m : TAG_MODULE) : bool :=
  negb (registered m =? 0) && (timeout m <? u32 (now - last_feed_time m)).

(** ** The report of a timeout *)

(** snprintf's %d of an int *)
Fixpoint digits (fuel : nat) (n : Z) : list Z :=
  match fuel with
  | O => []
  | S f => if n <? 10 then [48 + n] else digits f (n / 10) ++ [48 + n mod 10]
  end.
Definition print_int (z : Z) : list Z :=
  if z <? 0 then 45 :: digits 10 (- z) else digits 10 z.

(** "%.*s[%d,%d],": five characters of the name, the timeout and the time that
    passed, both printed as int. *)
Definition report_entry (now : Z) (m : TAG_MODULE) : list Z :=
  take 5 (module_string m) ++ [91] ++ print_int (s32 (timeout m)) ++ [44] ++
  print_int (s32 (u32 (now - last_feed_time m))) ++ [93; 44].

(** A text buffer of 2048 bytes: the characters printed so far, the offset and
    the limit the code keeps.  snprintf gets the limit as a size_t and returns
    the length of the whole text; writing past the buffer is undefined. *)
Definition MAX_LOG_LEN : Z := 2048.
Record logbuf := mkLog { log_text : list Z; log_offset : Z; log_limit : Z }.
Definition log_snprintf (text : list Z) (b : logbuf) : res logbuf :=
  let n := Z.of_nat (length text) in
  let limit := u64 (log_limit b) in
  let written := if limit =? 0 then 0 else Z.min n (limit - 1) + 1 in
  if log_offset b + written <=? MAX_LOG_LEN then
    Ok (mkLog (take (Z.to_nat (log_offset b)) (log_text b) ++ take (Z.to_nat (written - 1)) text)
         (log_offset b + n) (log_limit b - n))
  else Ub UB_OutOfBounds.

(** The two texts: modules that timed out and modules that did not. *)
Definition report_step (now : Z) (p : res (logbuf * logbuf)) (m : TAG_MODULE) : res (logbuf * logbuf) :=
  '(nor, out) ← p;
  if registered m =? 0 then Ok (nor, out)
  else if timeout m <? u32 (now - last_feed_time m) then
    out ← log_snprintf (report_entry now m) out; Ok (nor, out)
  else
    nor ← log_snprintf (report_entry now m) nor; Ok (nor, out).

Definition text_out : list Z := [119; 100; 103; 32; 116; 105; 109; 101; 111; 117; 116; 32; 109; 111; 100; 58].
Definition text_nor : list Z := [119; 100; 103; 32; 110; 111; 114; 109; 97; 108; 32; 109; 111; 100; 58].

Definition OnTimeouted (w : TAG_WATCHDOG) (now : Z) : res (list Z * list Z) :=
  let start := mkLog [] 0 (MAX_LOG_LEN - 1) in
  out ← log_snprintf text_out start;
  nor ← log_snprintf text_nor start;
  '(nor, out) ← foldl (report_step now) (Ok (nor, out)) (modules w);
  (* data[offset] = '\0' *)
  if (log_offset out <? MAX_LOG_LEN) && (log_offset nor <? MAX_LOG_LEN) then
    Ok (log_text out, log_text nor)
  else Ub UB_OutOfBounds.

(** The verdict of a check, and the texts it logs when there is a timeout. *)
Definition OnCheckModule (w : option TAG_WATCHDOG) (now : Z) : res (bool * option (list Z * list Z)) :=
  match w with
  | Some wd =>
      if enable wd then
        if existsb (timed_out now) (modules wd) then
          texts ← OnTimeouted wd now; Ok (true, Some texts)
        else Ok (false, None)
      else Ok (false, None)
  | None => Ok (false, None)
  end.

(** ** The configuration file *)

(** XFile::read_line: up to the end of the line, without it; a zero byte is
    appended as an empty string. *)
Fixpoint read_line (line bytes : list Z) : list Z * list Z :=
  match bytes with
  | [] => (line, [])
  | c :: rest =>
      let line := if c =? 0 then line else line ++ [c] in
      if c =? 10 then
        let body := take (length line - 1) line in
        ((if bool_decide (last body = Some 13) then take (length body - 1) body else body), rest)
      else read_line line rest
  end.

Definition is_blank (c : Z) : bool := (c =? 32) || ((9 <=? c) && (c <=? 13)).
Fixpoint strtol_digits (acc : Z) (l : list Z) : Z :=
  match l with
  | c :: l' => if (48 <=? c) && (c <=? 57) then strtol_digits (10 * acc + (c - 48)) l' else acc
  | [] => acc
  end.
Fixpoint skip_blanks (l : list Z) : list Z :=
  match l with
  | c :: l' => if is_blank c then skip_blanks l' else l
  | [] => []
  end.
(** strtol with base 10, clamped to the range of long. *)
Definition strtol (l : list Z) : Z :=
  let v :=
    match skip_blanks l with
    | 45 :: l' => - strtol_digits 0 l'
    | 43 :: l' => strtol_digits 0 l'
    | l' => strtol_digits 0 l'
    end in
  Z.max (- 2 ^ 63) (Z.min v (2 ^ 63 - 1)).

(** to_int stores strtol's value even when it reports a failure; chopping the
    blanks at both ends does not change it, an empty rest leaves the 0. *)
Definition to_int (l : list Z) : Z := s32 (strtol l).

Fixpoint split_semicolon (l : list Z) : option (list Z * list Z) :=
  match l with
  | [] => None
  | c :: l' => if c =? 59 then Some ([], l') else prod_map (cons c) id <$> split_semicolon l'
  end.

(** The entry of one line, if it has one. *)
Definition config_entry (line : list Z) : option (list Z * Z) :=
  if bool_decide (line = []) || bool_decide (head line = Some 35) then None
  else
    match split_semicolon line with
    | None => None
    | Some (mod_name, rest) =>
        let ntimeout := to_int rest in
        if (length mod_name <? WDG_MODULE_NAME_LEN)%nat && (0 <? ntimeout) then
          Some (mod_name, ntimeout)
        else None
    end.

(** OnDefaultConfig: nothing bounds the number of entries. *)
Fixpoint config_loop (fuel : nat) (now : Z) (bytes : list Z) (mods : list TAG_MODULE) (num : nat)
    : res (list TAG_MODULE) :=
  match fuel with
  | O => Ub UB_Diverges
  | S fuel' =>
      let '(line, rest) := read_line [] bytes in
      '(mods, num) ←
        match config_entry line with
        | Some (mod_name, ntimeout) =>
            match mods !! num with
            | Some m =>
                Ok (<[num := mkModule (safe_memcpy (name m) mod_name) 1 (u32 ntimeout) now]> mods, S num)
            | None => Ub UB_OutOfBounds
            end
        | None => Ok (mods, num)
        end;
      if bool_decide (rest = []) then Ok mods else config_loop fuel' now rest mods num
  end.

(** Init(true): everything is cleared, then the configuration is read; a file
    that cannot be opened leaves the table empty. *)
Definition fresh_modules : list TAG_MODULE :=
  replicate WDG_MODULE_MAX_NUM (mkModule (replicate WDG_MODULE_NAME_LEN 0) 0 WDG_DEF_TIMEOUT 0).
Definition Init (config : option (list Z)) (now : Z) : res TAG_WATCHDOG :=
  match config with
  | None => Ok (mkWatchdog true fresh_modules)
  | Some bytes =>
      mods ← config_loop (S (length bytes)) now bytes fresh_modules 0;
      Ok (mkWatchdog true mods)
  end.

(** ** Names *)
Lemma char_value_inj cs a b : is_byte a → is_byte b → char_value cs a = char_value cs b → a = b.
Proof.
  unfold is_byte, char_value. destruct cs; [|done]. intros Ha Hb He.
  rewrite <-(Z.mod_small a (2 ^ 8)), <-(Z.mod_small b (2 ^ 8)) by lia.
  by rewrite <-(swrap_mod 8 a), <-(swrap_mod 8 b), He by lia.
Qed.
Lemma char_value_0 cs : char_value cs 0 = 0.
Proof. by destruct cs. Qed.

Definition is_char (c : Z) : Prop := is_byte c ∧ c ≠ 0.
Lemma c_str_chars l : Forall is_byte l → Forall is_char (c_str l).
Proof.
  induction 1 as [|x l Hx _ IH]; simpl; [constructor|].
  destruct (Z.eqb_spec x 0); [constructor|by constructor].
Qed.
Lemma c_str_id l : Forall is_char l → c_str l = l.
Proof.
  induction 1 as [|x l [_ Hx] _ IH]; simpl; [done|].
  destruct (Z.eqb_spec x 0); [done|by rewrite IH].
Qed.
Lemma c_str_app l r : Forall is_char l → c_str (l ++ r) = l ++ c_str r.
Proof.
  induction 1 as [|x l [_ Hx] _ IH]; simpl; [done|].
  destruct (Z.eqb_spec x 0); [done|by rewrite IH].
Qed.

Lemma char_nonzero cs x : is_char x → char_value cs x ≠ 0.
Proof. intros [Hx Hne] E. apply Hne, (char_value_inj cs); [done|done|by rewrite char_value_0]. Qed.

(** compare returns 0 exactly for equal C strings. *)
Lemma compare_eq cs l : ∀ r,
  Forall is_char l → Forall is_char r → (compare cs l r =? 0) = bool_decide (l = r).
Proof.
  induction l as [|x l IH]; intros [|y r] Hl Hr; simpl; [done| | |].
  - apply Forall_cons in Hr as [Hy Hr]. pose proof (char_nonzero cs y Hy).
    destruct (Z.eqb_spec (- char_value cs y) 0); [lia|done].
  - apply Forall_cons in Hl as [Hx Hl]. pose proof (char_nonzero cs x Hx).
    by destruct (Z.eqb_spec (char_value cs x) 0).
  - apply Forall_cons in Hl as [[Hx _] Hl]. apply Forall_cons in Hr as [[Hy _] Hr].
    destruct (Z.eqb_spec (char_value cs x - char_value cs y) 0) as [He|He].
    + assert (x = y) as -> by (apply (char_value_inj cs); [done..|lia]).
      rewrite IH by done. by repeat case_bool_decide; simplify_eq.
    + rewrite bool_decide_eq_false_2 by (intros [= -> _]; lia).
      destruct (Z.eqb_spec (char_value cs x - char_value cs y) 0); [lia|done].
Qed.

Lemma find_index_Some p l i :
  find_index p l = Some i ↔
  (∃ m, l !! i = Some m ∧ p m = true) ∧ ∀ j m, (j < i)%nat → l !! j = Some m → p m = false.
Proof.
  revert i. induction l as [|m l IH]; intros i; simpl.
  { split; [done|]. by intros [(m & Hm & _) _]. }
  destruct (p m) eqn:Hp.
  - split.
    + intros [= <-]. split; [by exists m|]. intros; lia.
    + intros [(m' & Hm' & Hp') Hlt]. destruct i as [|i]; [done|].
      specialize (Hlt 0%nat m ltac:(lia) eq_refl). congruence.
  - destruct i as [|i]; simpl.
    { split; [by destruct (find_index p l)|]. intros [(m' & [= <-] & Hp') _]. congruence. }
    rewrite fmap_Some. setoid_rewrite IH. split.
    + intros (i' & [Hex Hlt] & [= ->]). split; [done|].
      intros [|j] m' Hj Hm'; simpl in Hm'; [congruence|]. apply (Hlt j); [lia|done].
    + intros [Hex Hlt]. exists i. split; [|done]. split; [done|].
      intros j m' Hj Hm'. apply (Hlt (S j)); [lia|done].
Qed.
Lemma find_index_None p l : find_index p l = None ↔ ∀ i m, l !! i = Some m → p m = false.
Proof.
  induction l as [|m l IH]; simpl; [done|]. destruct (p m) eqn:Hp.
  - split; [done|]. intros H. specialize (H 0%nat m eq_refl). congruence.
  - rewrite fmap_None, IH. split.
    + intros H [|i] m' Hm'; simpl in Hm'; [congruence|by eapply H].
    + intros H i m' Hm'. by apply (H (S i) m').
Qed.
Lemma find_index_replicate p m l k :
  p m = false → find_index p (replicate k m ++ l) = (λ i, k + i)%nat <$> find_index p l.
Proof.
  intros Hp. induction k as [|k IH]; simpl.
  - by destruct (find_index p l).
  - rewrite Hp, IH. by destruct (find_index p l).
Qed.

(** ** The invariant of a run

    A run of the system: the shared memory, the clock in seconds (which does
    not wrap, ClockSecond() being its low 32 bits) and, as history, when each
    entry was last fed or registered. *)
Record run := mkRun { r_wd : TAG_WATCHDOG; r_clock : Z; r_fed : nat → Z }.
Definition r_now (s : run) : Z := u32 (r_clock s).

Inductive wlabel :=
| L_Tick (d : Z)
| L_Register (mod_name : list Z) (t : Z)
| L_SetTimeout (key t : Z)
| L_Feed (key : Z)
| L_Enable (e : Z).

(** The arguments a caller can pass. *)
Definition label_ok (l : wlabel) : Prop :=
  match l with
  | L_Tick d => 0 ≤ d
  | L_Register n t => Forall is_byte n ∧ in_u 32 t
  | L_SetTimeout _ t => in_u 32 t
  | L_Feed _ | L_Enable _ => True
  end.

Definition fed_at (f : nat → Z) (i : nat) (t : Z) (j : nat) : Z :=
  if decide (j = i) then t else f j.
Definition with_wd (s : run) (r : Z * option TAG_WATCHDOG) : run :=
  mkRun (default (r_wd s) (r.2)) (r_clock s) (r_fed s).

Definition wstep (cs : bool) (s : run) (l : wlabel) : run :=
  match l with
  | L_Tick d => mkRun (r_wd s) (r_clock s + d) (r_fed s)
  | L_Register n t =>
      let s' := with_wd s (Register cs (Some (r_wd s)) n t (r_now s)) in
      match find_index (same_name cs n) (modules (r_wd s)) with
      | Some _ => s'
      | None =>
          match find_index (λ m, negb (registered m =? 1)) (modules (r_wd s)) with
          | Some i => mkRun (r_wd s') (r_clock s') (fed_at (r_fed s) i (r_clock s))
          | None => s'
          end
      end
  | L_SetTimeout key t => with_wd s (SetTimeout (Some (r_wd s)) key t)
  | L_Feed key =>
      let s' := with_wd s (Feeddog (Some (r_wd s)) key (r_now s)) in
      if bad_key key then s' else mkRun (r_wd s') (r_clock s') (fed_at (r_fed s) (Z.to_nat key) (r_clock s))
  | L_Enable e => with_wd s (Enable (Some (r_wd s)) e)
  end.
Definition wrun (cs : bool) (s : run) (ls : list wlabel) : run := foldl (wstep cs) s ls.

Record module_ok (clock fed : Z) (m : TAG_MODULE) : Prop := {
  mo_name : length (name m) = WDG_MODULE_NAME_LEN ∧ Forall is_byte (name m);
  mo_reg : registered m = 0 ∨ registered m = 1;
  mo_timeout : in_u 32 (timeout m);
  mo_fed : registered m = 1 → last_feed_time m = u32 fed ∧ fed ≤ clock }.
Record WInv (s : run) : Prop := {
  wi_len : length (modules (r_wd s)) = WDG_MODULE_MAX_NUM;
  wi_mod : ∀ i m, modules (r_wd s) !! i = Some m → module_ok (r_clock s) (r_fed s i) m }.

Lemma default_timeout_ok t : in_u 32 t → in_u 32 (default_timeout t).
Proof. unfold in_u, default_timeout, WDG_DEF_TIMEOUT. by destruct (_ <? _). Qed.
Lemma safe_memcpy_name n :
  Forall is_byte n →
  length (safe_memcpy (name zero_module) n) = WDG_MODULE_NAME_LEN ∧
  Forall is_byte (safe_memcpy (name zero_module) n).
Proof.
  intros Hn. unfold safe_memcpy.
  change (name zero_module) with (replicate WDG_MODULE_NAME_LEN 0).
  rewrite length_replicate. split.
  - rewrite length_app, length_take, length_drop, length_replicate.
    destruct (Nat.ltb_spec (length n) WDG_MODULE_NAME_LEN); lia.
  - apply Forall_app. split; [by apply Forall_take|]. by apply Forall_drop, Forall_replicate.
Qed.

Lemma module_ok_later clock clock' fed m : clock ≤ clock' → module_ok clock fed m → module_ok clock' fed m.
Proof. intros Hc [? ? ? Hf]. split; try done. intros Hr. destruct (Hf Hr). split; [done|lia]. Qed.

(** Replacing one entry keeps the invariant. *)
Lemma winv_update s i (m : TAG_MODULE) e fed :
  WInv s → (∀ j, j ≠ i → fed j = r_fed s j) → module_ok (r_clock s) (fed i) m →
  WInv (mkRun (mkWatchdog e (<[i := m]> (modules (r_wd s)))) (r_clock s) fed).
Proof.
  intros [Hl Hm] Hfed Hok. split; simpl; [by rewrite length_insert|].
  intros j m' Hj. destruct (decide (j = i)) as [->|Hne].
  - apply list_lookup_insert_Some in Hj as [(_ & <- & _)|(? & ?)]; [done|done].
  - rewrite list_lookup_insert_ne in Hj by done. rewrite Hfed by done. by apply Hm.
Qed.

Lemma wstep_inv cs s l : WInv s → label_ok l → WInv (wstep cs s l).
Proof.
  intros Hw Hl. pose proof Hw as [Hlen Hmod].
  destruct l as [d|n t|key t|key|e]; simpl in *.
  - split; simpl; [done|]. intros i m Hm. eapply module_ok_later; [|by apply Hmod]. lia.
  - destruct Hl as [Hn Ht]. unfold with_wd, Register.
    destruct (find_index (same_name cs n) _) as [i|] eqn:Ef; simpl; [by destruct s|].
    destruct (find_index (λ m, negb _) _) as [i|] eqn:Ei; simpl; [|by destruct s].
    apply winv_update; [done|intros j Hj; unfold fed_at; by rewrite decide_False|].
    split; simpl; [by apply safe_memcpy_name|by right|by apply default_timeout_ok|].
    intros _. unfold fed_at. rewrite decide_True by done. split; [done|lia].
  - unfold with_wd, SetTimeout. destruct (bad_key key); simpl; [by destruct s|].
    destruct (modules (r_wd s) !! Z.to_nat key) as [m|] eqn:Em; simpl; [|by destruct s].
    destruct (Z.eqb_spec (registered m) 0); simpl; [by destruct s|].
    apply winv_update; [done|done|]. destruct (Hmod _ _ Em).
    split; simpl; try done. by apply default_timeout_ok.
  - unfold with_wd, Feeddog. destruct (bad_key key); simpl; [by destruct s|].
    destruct (modules (r_wd s) !! Z.to_nat key) as [m|] eqn:Em.
    + assert (alter (feed_module (r_now s)) (Z.to_nat key) (modules (r_wd s)) =
        <[Z.to_nat key := feed_module (r_now s) m]> (modules (r_wd s))) as ->.
      { apply list_eq. intros j. destruct (decide (j = Z.to_nat key)) as [->|Hj].
        - rewrite list_lookup_alter_eq, Em, list_lookup_insert_eq; [done|]. by eapply lookup_lt_Some.
        - by rewrite list_lookup_alter_ne, list_lookup_insert_ne by done. }
      apply winv_update; [done|intros j Hj; unfold fed_at; by rewrite decide_False|].
      destruct (Hmod _ _ Em). split; simpl; try done. intros _. unfold fed_at.
      rewrite decide_True by done. split; [done|lia].
    + apply lookup_ge_None in Em. split; simpl; [by rewrite length_alter|]. intros j m Hj.
      assert (j ≠ Z.to_nat key) as Hne.
      { intros ->. rewrite list_lookup_alter_eq in Hj. rewrite lookup_ge_None_2 in Hj by done. done. }
      rewrite list_lookup_alter_ne in Hj by done. unfold fed_at. rewrite decide_False by done. by apply Hmod.
  - by split.
Qed.
Lemma wrun_inv cs ls : ∀ s, WInv s → Forall label_ok ls → WInv (wrun cs s ls).
Proof.
  induction ls as [|l ls IH]; intros s Hw Hls; simpl; [done|].
  apply Forall_cons in Hls as [Hl Hls]. apply IH; [by apply wstep_inv|done].
Qed.

(** ** The texts of a report fit *)
Lemma digits_length f n : (length (digits f n) ≤ f)%nat.
Proof.
  revert n. induction f as [|f IH]; intros n; simpl; [done|].
  destruct (n <? 10); simpl; [lia|]. rewrite length_app. simpl. specialize (IH (n / 10)). lia.
Qed.
Lemma print_int_length z : (length (print_int z) ≤ 11)%nat.
Proof.
  unfold print_int. destruct (z <? 0); cbn [length].
  - pose proof (digits_length 10 (- z)). lia.
  - pose proof (digits_length 10 z). lia.
Qed.
(** print_int prints an int: the digits are those of its value. *)
Fixpoint digits_value (acc : Z) (l : list Z) : Z :=
  match l with
  | [] => acc
  | c :: l' => digits_value (10 * acc + (c - 48)) l'
  end.
Lemma digits_value_app acc l r : digits_value acc (l ++ r) = digits_value (digits_value acc l) r.
Proof. revert acc. induction l; simpl; auto. Qed.
Lemma digits_spec f : ∀ n, 0 ≤ n < 10 ^ Z.of_nat f → digits_value 0 (digits f n) = n.
Proof.
  induction f as [|f IH]; intros n Hn; simpl digits; [simpl in *; lia|].
  destruct (Z.ltb_spec n 10); [cbn [digits_value]; lia|].
  rewrite digits_value_app, IH; [cbn [digits_value]; pose proof (Z.div_mod n 10 ltac:(lia)); lia|].
  rewrite Nat2Z.inj_succ, Z.pow_succ_r in Hn by lia.
  split; [apply Z.div_pos; lia|apply Z.div_lt_upper_bound; lia].
Qed.

Lemma report_entry_length now m : (length (report_entry now m) ≤ 31)%nat.
Proof.
  unfold report_entry. rewrite !length_app, length_take.
  pose proof (print_int_length (s32 (timeout m))).
  pose proof (print_int_length (s32 (u32 (now - last_feed_time m)))). cbn [length]. lia.
Qed.

(** A buffer that has room for k more entries. *)
Definition log_room (k : nat) (b : logbuf) : Prop :=
  log_offset b + log_limit b = MAX_LOG_LEN - 1 ∧ 0 ≤ log_offset b ∧
  Z.of_nat (length (log_text b)) = log_offset b ∧ 31 * Z.of_nat k < log_limit b.

Lemma log_snprintf_room k text b :
  (length text ≤ 31)%nat → log_room (S k) b →
  ∃ b', log_snprintf text b = Ok b' ∧ log_room k b' ∧ log_text b' = log_text b ++ text.
Proof.
  intros Ht (Ho & Ho0 & Hlen & Hr). unfold MAX_LOG_LEN in *. unfold log_snprintf.
  rewrite (uwrap_id 64 (log_limit b)) by (unfold in_u; lia).
  rewrite (proj2 (Z.eqb_neq (log_limit b) 0)) by lia.
  rewrite Z.min_l by lia.
  rewrite (proj2 (Z.leb_le _ _)) by (unfold MAX_LOG_LEN; lia).
  eexists. split; [done|]. unfold log_room; simpl.
  rewrite !take_ge by lia. rewrite length_app. unfold MAX_LOG_LEN. split_and!; lia || done.
Qed.
Lemma log_room_mono k k' b : (k' ≤ k)%nat → log_room k b → log_room k' b.
Proof. unfold log_room. intros Hk (? & ? & ? & ?). split_and!; [done..|lia]. Qed.

(** The entries of the modules in one of the two texts. *)
Definition report_text (now : Z) (late : bool) (l : list TAG_MODULE) : list Z :=
  concat ((λ m, report_entry now m) <$>
    filter (λ m, registered m ≠ 0 ∧ (timeout m <? u32 (now - last_feed_time m)) = late) l).

Lemma report_text_cons now late m l :
  report_text now late (m :: l) =
  (if negb (registered m =? 0) && eqb (timeout m <? u32 (now - last_feed_time m)) late
   then report_entry now m else []) ++ report_text now late l.
Proof.
  unfold report_text. rewrite filter_cons. case_decide as Hd.
  - destruct Hd as [Hr ->]. rewrite (proj2 (Z.eqb_neq _ 0)) by done. by destruct late.
  - destruct (Z.eqb_spec (registered m) 0); [done|]. simpl.
    destruct (eqb _ late) eqn:He; [|done]. apply eqb_prop in He. by destruct Hd.
Qed.

Lemma report_fold now l : ∀ nor out,
  log_room (length l) nor → log_room (length l) out →
  ∃ nor' out', foldl (report_step now) (Ok (nor, out)) l = Ok (nor', out') ∧
    log_room 0 nor' ∧ log_room 0 out' ∧
    log_text nor' = log_text nor ++ report_text now false l ∧
    log_text out' = log_text out ++ report_text now true l.
Proof.
  induction l as [|m l IH]; intros nor out Hn Ho; cbn [foldl length] in *.
  { exists nor, out. split_and!; try done; by rewrite app_nil_r. }
  unfold report_step at 2. cbn [mbind res_bind]. rewrite !report_text_cons.
  destruct (Z.eqb_spec (registered m) 0) as [Hr|Hr]; cbn [negb andb].
  {
    apply IH; (eapply log_room_mono; [|eassumption]; lia). }
  destruct (timeout m <? _) eqn:Hl.
  - destruct (log_snprintf_room (length l) (report_entry now m) out) as (out' & -> & Hr' & Ht);
      [apply report_entry_length|done|]. simpl.
    destruct (IH nor out') as (n' & o' & -> & ? & ? & ? & Hot); [by eapply log_room_mono; [|done]; lia|done|].
    exists n', o'.
    split_and!; try done. rewrite Hot, Ht. simpl. by rewrite app_assoc.
  - destruct (log_snprintf_room (length l) (report_entry now m) nor) as (nor' & -> & Hr' & Ht);
      [apply report_entry_length|done|]. simpl.
    destruct (IH nor' out) as (n' & o' & -> & ? & ? & Hnt & ?); [done|by eapply log_room_mono; [|done]; lia|].
    exists n', o'.
    split_and!; try done. rewrite Hnt, Ht. simpl. by rewrite app_assoc.
Qed.

(** The 2048 bytes are enough for any table of 64 modules: the report never
    writes past its buffers, and lists every registered module in the text its
    state belongs to, untruncated. *)
Theorem report_fits w now :
  length (modules w) = WDG_MODULE_MAX_NUM →
  OnTimeouted w now =
    Ok (text_out ++ report_text now true (modules w), text_nor ++ report_text now false (modules w)).
Proof.
  intros Hlen. unfold OnTimeouted.
  assert (log_room 65 (mkLog [] 0 (MAX_LOG_LEN - 1))) as Hstart by (unfold log_room, MAX_LOG_LEN; simpl; lia).
  destruct (log_snprintf_room 64 text_out _ ltac:(unfold text_out; simpl; lia) Hstart) as (out & -> & Ho & Hot).
  destruct (log_snprintf_room 64 text_nor _ ltac:(unfold text_nor; simpl; lia) Hstart) as (nor & -> & Hn & Hnt).
  simpl. destruct (report_fold now (modules w) nor out)
    as (nor' & out' & -> & (? & ? & ? & ?) & (? & ? & ? & ?) & Hnt' & Hot'); [by rewrite Hlen..|].
  simpl. unfold MAX_LOG_LEN in *. rewrite !(proj2 (Z.ltb_lt _ _)) by lia. simpl.
  by rewrite Hnt', Hot', Hnt, Hot.
Qed.

(** ** What a check says *)

(** A registered module is late when more than its timeout passed since it was
    last fed, in true time. *)
Definition late (s : run) (i : nat) (m : TAG_MODULE) : Prop :=
  registered m = 1 ∧ timeout m < r_clock s - r_fed s i.
Definition no_wrap (s : run) : Prop :=
  ∀ i m, modules (r_wd s) !! i = Some m → registered m = 1 → r_clock s - r_fed s i < 2 ^ 32.

Lemma timed_out_late s i m :
  WInv s → no_wrap s → modules (r_wd s) !! i = Some m → timed_out (r_now s) m = true ↔ late s i m.
Proof.
  intros [_ Hmod] Hnw Hm. destruct (Hmod _ _ Hm) as [_ Hreg _ Hfed]. specialize (Hnw _ _ Hm).
  unfold timed_out, late. destruct Hreg as [Hr|Hr]; rewrite Hr in *; [by split; [|intros []]|].
  simpl. destruct (Hfed eq_refl) as [-> Hle]. specialize (Hnw eq_refl).
  assert (u32 (r_now s - u32 (r_fed s i)) = r_clock s - r_fed s i) as ->.
  { unfold r_now, uwrap. rewrite Zminus_mod_idemp_l, Zminus_mod_idemp_r. apply Z.mod_small. lia. }
  rewrite Z.ltb_lt. naive_solver.
Qed.

Lemma OnCheckModule_spec s :
  WInv s → no_wrap s →
  ∃ b texts, OnCheckModule (Some (r_wd s)) (r_now s) = Ok (b, texts) ∧
    (b = true ↔ enable (r_wd s) = true ∧
       ∃ i m, modules (r_wd s) !! i = Some m ∧ late s i m) ∧
    (b = false → texts = None).
Proof.
  intros Hw Hnw. unfold OnCheckModule. destruct (enable (r_wd s)); [|by do 2 eexists; naive_solver].
  destruct (existsb (timed_out (r_now s)) (modules (r_wd s))) eqn:He.
  - rewrite report_fits by apply Hw. do 2 eexists. split_and!; [done| |done]. split; [|done].
    intros _. split; [done|]. apply existsb_exists in He as (m & Hin & Ht).
    apply list_elem_of_In, list_elem_of_lookup in Hin as [i Hi].
    exists i, m. split; [done|]. by apply (timed_out_late s).
  - do 2 eexists. split_and!; [done| |done]. split; [done|]. intros (_ & i & m & Hm & Hl).
    assert (existsb (timed_out (r_now s)) (modules (r_wd s)) = true); [|congruence].
    apply existsb_exists. exists m. split; [|by apply (timed_out_late s _ _ Hw Hnw Hm)].
    apply list_elem_of_In, list_elem_of_lookup. by exists i.
Qed.

(** The verdict of a check is exact in every state of a run: it is positive
    exactly when the watchdog is enabled and some registered module was not fed
    within its timeout, also when the 32-bit clock wrapped in between; and the
    report never goes wrong. *)
Theorem check_exact s :
  WInv s → no_wrap s →
  ∃ b texts, OnCheckModule (Some (r_wd s)) (r_now s) = Ok (b, texts) ∧
    (b = true ↔ enable (r_wd s) = true ∧
       ∃ i m, modules (r_wd s) !! i = Some m ∧ late s i m) ∧
    (b = false → texts = None).
Proof. apply OnCheckModule_spec. Qed.

(** ** A module that stops feeding is reported *)

(** A label that leaves entry i alone and the watchdog enabled. *)
Definition leaves (i : nat) (l : wlabel) : Prop :=
  match l with
  | L_SetTimeout key _ | L_Feed key => key ≠ Z.of_nat i
  | L_Enable e => e ≠ 0
  | _ => True
  end.
Definition elapsed (ls : list wlabel) : Z :=
  foldr (λ l acc, match l with L_Tick d => d + acc | _ => acc end) 0 ls.

Lemma bad_key_false key : bad_key key = false → 0 ≤ key.
Proof. unfold bad_key. rewrite orb_false_iff, Z.ltb_ge. by intros []. Qed.

Lemma wstep_leaves cs s l i m :
  WInv s → label_ok l → leaves i l → modules (r_wd s) !! i = Some m → registered m = 1 →
  enable (r_wd s) = true →
  modules (r_wd (wstep cs s l)) !! i = Some m ∧ r_fed (wstep cs s l) i = r_fed s i ∧
  enable (r_wd (wstep cs s l)) = true ∧ r_clock (wstep cs s l) = r_clock s + elapsed [l].
Proof.
  intros Hw Hok Hl Hm Hr He. destruct l as [d|n t|key t|key|e]; simpl in *.
  - split_and!; [done..|lia].
  - unfold with_wd, Register. rewrite Z.add_0_r.
    destruct (find_index (same_name cs n) _) as [j|]; simpl; [done|].
    destruct (find_index (λ m, negb _) _) as [j|] eqn:Ej; simpl; [|done].
    apply find_index_Some in Ej as [(m' & Hm' & Hr') _].
    assert (j ≠ i) as Hji. { intros ->. simplify_eq. by rewrite Hr in Hr'. }
    unfold fed_at. rewrite decide_False by done. by rewrite list_lookup_insert_ne by done.
  - rewrite Z.add_0_r. unfold with_wd, SetTimeout.
    destruct (bad_key key) eqn:Hb; simpl; [done|]. apply bad_key_false in Hb.
    destruct (modules (r_wd s) !! Z.to_nat key); simpl; [|done].
    destruct (registered _ =? 0); simpl; [done|].
    by rewrite list_lookup_insert_ne by lia.
  - rewrite Z.add_0_r. unfold with_wd, Feeddog.
    destruct (bad_key key) eqn:Hb; simpl; [done|]. apply bad_key_false in Hb.
    unfold fed_at. rewrite decide_False by lia. by rewrite list_lookup_alter_ne by lia.
  - rewrite Z.add_0_r. split_and!; try done. by destruct (Z.eqb_spec e 0).
Qed.

Lemma wrun_leaves cs ls : ∀ s i m,
  WInv s → Forall label_ok ls → Forall (leaves i) ls → modules (r_wd s) !! i = Some m →
  registered m = 1 → enable (r_wd s) = true →
  modules (r_wd (wrun cs s ls)) !! i = Some m ∧ r_fed (wrun cs s ls) i = r_fed s i ∧
  enable (r_wd (wrun cs s ls)) = true ∧ r_clock (wrun cs s ls) = r_clock s + elapsed ls.
Proof.
  induction ls as [|l ls IH]; intros s i m Hw Hok Hls Hm Hr He.
  { simpl. split_and!; [done..|lia]. }
  apply Forall_cons in Hok as [Ho Hok]. apply Forall_cons in Hls as [Hl Hls].
  destruct (wstep_leaves cs s l i m Hw Ho Hl Hm Hr He) as (Hm' & Hf & He' & Hc).
  destruct (IH _ _ _ (wstep_inv cs s l Hw Ho) Hok Hls Hm' Hr He') as (H1 & H2 & H3 & H4).
  cbn [wrun foldl]. fold (wrun cs (wstep cs s l) ls). split_and!; [done|congruence|done|].
  rewrite H4, Hc. simpl. destruct l; simpl; lia.
Qed.

(** A module that hangs is found out: whatever the other processes do, once
    more than its timeout passed since its last feeding the next check is
    positive. *)
Theorem starved_module_reported cs s ls i m :
  WInv s → Forall label_ok ls → Forall (leaves i) ls →
  enable (r_wd s) = true → modules (r_wd s) !! i = Some m → registered m = 1 →
  no_wrap (wrun cs s ls) → timeout m < r_clock s + elapsed ls - r_fed s i →
  ∃ texts, OnCheckModule (Some (r_wd (wrun cs s ls))) (r_now (wrun cs s ls)) = Ok (true, texts).
Proof.
  intros Hw Hok Hls He Hm Hr Hnw Ht.
  destruct (wrun_leaves cs ls s i m Hw Hok Hls Hm Hr He) as (Hm' & Hf & He' & Hc).
  destruct (OnCheckModule_spec (wrun cs s ls)) as (b & texts & Hcheck & Hb & _); [by apply wrun_inv|done|].
  exists texts. rewrite Hcheck. do 2 f_equal. apply Hb. split; [done|].
  exists i, m. split; [done|]. split; [done|]. by rewrite Hf, Hc.
Qed.

(** ** Registration *)
Lemma module_string_chars m : Forall is_byte (name m) → Forall is_char (module_string m).
Proof.
  intros Hn. apply c_str_chars, Forall_app. split; [done|apply memcpy_le_bytes].
Qed.
Lemma same_name_spec cs n m :
  Forall is_byte n → Forall is_byte (name m) →
  same_name cs n m = bool_decide (c_str n = module_string m).
Proof. intros Hn Hm. unfold same_name. apply compare_eq; [by apply c_str_chars|by apply module_string_chars]. Qed.

(** The entry a registration writes. *)
Definition new_module (n : list Z) (t now : Z) : TAG_MODULE :=
  mkModule (safe_memcpy (name zero_module) n) 1 (default_timeout t) now.

Lemma new_module_short n t now :
  (length n < 32)%nat → Forall is_char n → module_string (new_module n t now) = n.
Proof.
  intros Hl Hn. unfold module_string, new_module, safe_memcpy. cbn [name registered].
  change (name zero_module) with (replicate WDG_MODULE_NAME_LEN 0).
  change (length (replicate WDG_MODULE_NAME_LEN 0)) with 32%nat. rewrite (proj2 (Nat.ltb_lt _ _)) by done.
  rewrite firstn_all, <-app_assoc, c_str_app by done.
  rewrite drop_replicate. unfold WDG_MODULE_NAME_LEN.
  destruct (32 - length n)%nat as [|k] eqn:Ek; [lia|]. simpl. by rewrite app_nil_r.
Qed.
Lemma new_module_long n t now :
  (32 ≤ length n)%nat → Forall is_char n → module_string (new_module n t now) = take 32 n ++ [1].
Proof.
  intros Hl Hn. unfold module_string, new_module, safe_memcpy. cbn [name registered].
  change (name zero_module) with (replicate WDG_MODULE_NAME_LEN 0).
  change (length (replicate WDG_MODULE_NAME_LEN 0)) with 32%nat.
  rewrite (proj2 (Nat.ltb_ge _ _)) by done.
  rewrite (drop_ge (replicate _ _)) by (by rewrite length_replicate). rewrite app_nil_r.
  rewrite c_str_app by by apply Forall_take. done.
Qed.

(** What Register does: a name that is already there yields its key and changes
    nothing, a new one takes the first free entry, and a full table refuses. *)
Theorem register_spec cs s n t :
  WInv s → Forall is_byte n →
  let w := r_wd s in let now := r_now s in
  (∃ i m, modules w !! i = Some m ∧ module_string m = c_str n ∧
     (∀ j m', (j < i)%nat → modules w !! j = Some m' → module_string m' ≠ c_str n) ∧
     Register cs (Some w) n t now = (Z.of_nat i, Some w)) ∨
  ((∀ j m', modules w !! j = Some m' → module_string m' ≠ c_str n) ∧
   ((∃ i m, modules w !! i = Some m ∧ registered m = 0 ∧
       (∀ j m', (j < i)%nat → modules w !! j = Some m' → registered m' = 1) ∧
       Register cs (Some w) n t now =
         (Z.of_nat i, Some (mkWatchdog (enable w) (<[i := new_module n t now]> (modules w))))) ∨
    ((∀ j m', modules w !! j = Some m' → registered m' = 1) ∧
     Register cs (Some w) n t now = (-1, Some w)))).
Proof.
  intros [_ Hmod] Hn w now.
  assert (∀ i m, modules w !! i = Some m →
    same_name cs n m = true ↔ module_string m = c_str n) as Hsame.
  { intros i m Hm. destruct (Hmod _ _ Hm) as [[_ Hb] _ _ _].
    rewrite same_name_spec, bool_decide_eq_true by done. done. }
  assert (∀ i m, modules w !! i = Some m → same_name cs n m = false ↔ module_string m ≠ c_str n) as Hdiff.
  { intros i m Hm. specialize (Hsame i m Hm). destruct (same_name cs n m); naive_solver. }
  unfold Register. destruct (find_index (same_name cs n) (modules w)) as [i|] eqn:Ei.
  - left. apply find_index_Some in Ei as [(m & Hm & Hs) Hlt]. exists i, m.
    split_and!; [done|by eapply Hsame| |done]. intros j m' Hj Hm'. by eapply Hdiff, Hlt.
  - right. rewrite find_index_None in Ei. split; [intros j m' Hm'; by eapply Hdiff, Ei|].
    destruct (find_index (λ m, negb (registered m =? 1)) (modules w)) as [i|] eqn:Ej.
    + left. apply find_index_Some in Ej as [(m & Hm & Hr) Hlt]. exists i, m. split_and!; [done| | |done].
      * destruct (Hmod _ _ Hm) as [_ [|H1] _ _]; [done|]. by rewrite H1 in Hr.
      * intros j m' Hj Hm'. specialize (Hlt _ _ Hj Hm'). simpl in Hlt.
        destruct (Z.eqb_spec (registered m') 1); done.
    + right. rewrite find_index_None in Ej. split; [|done]. intros j m' Hm'.
      specialize (Ej _ _ Hm'). simpl in Ej. by destruct (Z.eqb_spec (registered m') 1).
Qed.

(** Registering again under a name of 1 to 31 characters returns the same key
    and leaves the entry, its timeout included, as the first call made it. *)
Theorem register_idempotent cs s n t t' key w' now' :
  WInv s → Forall is_char n → (0 < length n < 32)%nat →
  Register cs (Some (r_wd s)) n t (r_now s) = (key, Some w') → 0 ≤ key →
  Register cs (Some w') n t' now' = (key, Some w').
Proof.
  intros Hw Hn Hl Hr Hk.
  assert (Forall is_byte n) as Hnb by (eapply Forall_impl; [done|by intros ? []]).
  destruct (register_spec cs s n t Hw Hnb) as [(i & m & Hm & Hs & Hlt & E)|[Hno [(i & m & Hm & Hreg & Hlt & E)|[_ E]]]];
    rewrite Hr in E; simplify_eq; [| |lia].
  - destruct Hw as [_ Hmod]. unfold Register.
    assert (find_index (same_name cs n) (modules (r_wd s)) = Some i) as ->; [|done].
    apply find_index_Some. split.
    + exists m. split; [done|]. destruct (Hmod _ _ Hm) as [[_ Hb] _ _ _].
      rewrite same_name_spec by done. by apply bool_decide_eq_true.
    + intros j m' Hj Hm'. destruct (Hmod _ _ Hm') as [[_ Hb] _ _ _].
      rewrite same_name_spec by done. apply bool_decide_eq_false. intros ?. by eapply Hlt.
  - pose proof (lookup_lt_Some _ _ _ Hm) as Hi. destruct Hw as [_ Hmod]. unfold Register. simpl.
    assert (find_index (same_name cs n) (<[i:=new_module n t (r_now s)]> (modules (r_wd s))) = Some i) as ->; [|done].
    apply find_index_Some. split.
    + exists (new_module n t (r_now s)). rewrite list_lookup_insert_eq by done. split; [done|].
      rewrite same_name_spec; [|done|by apply safe_memcpy_name].
      rewrite new_module_short by (done || lia). apply bool_decide_eq_true. by apply c_str_id.
    + intros j m' Hj Hm'. rewrite list_lookup_insert_ne in Hm' by lia.
      destruct (Hmod _ _ Hm') as [[_ Hb] _ _ _]. rewrite same_name_spec by done.
      apply bool_decide_eq_false. intros ?. by eapply Hno.
Qed.

Lemma insert_replicate_front {A} (x y : A) n k :
  (k < n)%nat →
  <[k := x]> (replicate k x ++ replicate (n - k) y) = replicate (S k) x ++ replicate (n - S k) y.
Proof.
  intros Hk. rewrite insert_app_r_alt by (rewrite length_replicate; lia).
  rewrite length_replicate, Nat.sub_diag. replace (n - k)%nat with (S (n - S k)) by lia. simpl.
  by rewrite app_comm_cons, replicate_cons_app, <-app_assoc.
Qed.

(** A name that fills its field is never found again: its string runs on into
    the registration mark.  Registering it 64 times takes the whole table. *)
Definition long_table (n : list Z) (t now : Z) (k : nat) : TAG_WATCHDOG :=
  mkWatchdog true (replicate k (new_module n t now) ++
    replicate (64 - k) (mkModule (replicate 32 0) 0 WDG_DEF_TIMEOUT 0)).

Theorem long_name_fills_table cs n t now :
  Forall is_char n → (32 ≤ length n)%nat → n ≠ take 32 n ++ [1] →
  (∀ k, (k < 64)%nat →
     Register cs (Some (long_table n t now k)) n t now = (Z.of_nat k, Some (long_table n t now (S k)))) ∧
  Register cs (Some (long_table n t now 64)) n t now = (-1, Some (long_table n t now 64)).
Proof.
  intros Hn Hl Hne.
  assert (Forall is_byte n) as Hnb by (eapply Forall_impl; [done|by intros ? []]).
  assert (same_name cs n (new_module n t now) = false) as Hs1.
  { rewrite same_name_spec; [|done|by apply safe_memcpy_name]. apply bool_decide_eq_false.
    rewrite new_module_long, c_str_id by done. done. }
  assert (same_name cs n (mkModule (replicate 32 0) 0 WDG_DEF_TIMEOUT 0) = false) as Hs0.
  { rewrite same_name_spec; [|done|by apply Forall_replicate]. apply bool_decide_eq_false.
    rewrite c_str_id by done. intros ->. simpl in Hl. lia. }
  assert (∀ k, find_index (same_name cs n) (modules (long_table n t now k)) = None) as Hnone.
  { intros k. unfold long_table; cbn [modules enable]. rewrite find_index_replicate by done.
    rewrite <-(app_nil_r (replicate (64 - k) _)), find_index_replicate by done. done. }
  split.
  - intros k Hk. unfold Register. rewrite Hnone. unfold long_table; cbn [modules enable].
    rewrite find_index_replicate by done.
    destruct (64 - k)%nat as [|r] eqn:Er; [lia|]. cbn [replicate find_index registered negb fmap option_fmap option_map].
    cbn. rewrite Nat.add_0_r. do 3 f_equal. change (?x :: replicate r ?y) with (replicate (S r) y).
    rewrite <-Er. by apply insert_replicate_front.
  - unfold Register. rewrite Hnone. unfold long_table; cbn [modules enable].
    rewrite find_index_replicate by done. done.
Qed.

(** ** The configuration file *)
Lemma read_line_rest bytes : ∀ line, (length (read_line line bytes).2 ≤ length bytes - 1)%nat.
Proof.
  induction bytes as [|c rest IH]; intros line; simpl; [done|].
  destruct (c =? 10); simpl; [lia|]. specialize (IH (if c =? 0 then line else line ++ [c])). lia.
Qed.

(** The lines of a file; each takes a byte at least. *)
Fixpoint config_lines (fuel : nat) (bytes : list Z) : list (list Z) :=
  match fuel with
  | O => []
  | S fuel' =>
      let '(line, rest) := read_line [] bytes in
      line :: (if bool_decide (rest = []) then [] else config_lines fuel' rest)
  end.
Definition config_entries (bytes : list Z) : list (list Z * Z) :=
  omap config_entry (config_lines (S (length bytes)) bytes).

Definition configured (now : Z) (e : list Z * Z) : TAG_MODULE :=
  mkModule (safe_memcpy (replicate WDG_MODULE_NAME_LEN 0) e.1) 1 (u32 e.2) now.
Definition fresh_module : TAG_MODULE := mkModule (replicate WDG_MODULE_NAME_LEN 0) 0 WDG_DEF_TIMEOUT 0.
Definition config_table (now : Z) (es : list (list Z * Z)) : list TAG_MODULE :=
  (configured now <$> es) ++ replicate (WDG_MODULE_MAX_NUM - length es) fresh_module.

(** Writing the next entry of a table. *)
Lemma config_table_snoc now es e :
  (length es < WDG_MODULE_MAX_NUM)%nat →
  config_table now es !! length es = Some fresh_module ∧
  <[length es := configured now e]> (config_table now es) = config_table now (es ++ [e]).
Proof.
  intros Hl. unfold config_table.
  destruct (WDG_MODULE_MAX_NUM - length es)%nat as [|r] eqn:Er; [lia|].
  split.
  - by rewrite lookup_app_r, length_fmap, Nat.sub_diag by (by rewrite length_fmap).
  - rewrite insert_app_r_alt by (by rewrite length_fmap). rewrite length_fmap, Nat.sub_diag.
    rewrite fmap_app, length_app, <-app_assoc. do 2 f_equal. simpl. f_equal. f_equal. lia.
Qed.
Lemma config_table_full now es :
  (length es = WDG_MODULE_MAX_NUM)%nat → config_table now es !! length es = None.
Proof.
  intros Hl. unfold config_table. rewrite Hl, Nat.sub_diag, app_nil_r, list_lookup_fmap.
  rewrite lookup_ge_None_2; [done|lia].
Qed.

Lemma config_loop_spec now fuel : ∀ bytes done,
  (length bytes < fuel)%nat → (length done ≤ WDG_MODULE_MAX_NUM)%nat →
  let es := done ++ omap config_entry (config_lines fuel bytes) in
  config_loop fuel now bytes (config_table now done) (length done) =
    if (length es <=? WDG_MODULE_MAX_NUM)%nat then Ok (config_table now es) else Ub UB_OutOfBounds.
Proof.
  induction fuel as [|fuel IH]; intros bytes done Hb Hd; [lia|]. cbn [config_loop config_lines].
  pose proof (read_line_rest bytes []) as Hrest.
  destruct (read_line [] bytes) as [line rest]. cbn [snd] in Hrest. cbn [omap list_omap].
  assert (∀ done', (length done' ≤ WDG_MODULE_MAX_NUM)%nat →
    (if bool_decide (rest = []) then Ok (config_table now done')
     else config_loop fuel now rest (config_table now done') (length done')) =
    (let es := done' ++ omap config_entry (if bool_decide (rest = []) then [] else config_lines fuel rest) in
     if (length es <=? WDG_MODULE_MAX_NUM)%nat then Ok (config_table now es) else Ub UB_OutOfBounds)) as Hgo.
  { intros done' Hd'. case_bool_decide as Hr; cbv zeta.
    - simpl. rewrite app_nil_r. by rewrite (proj2 (Nat.leb_le _ _)).
    - apply IH; [|done]. destruct rest; [done|]. cbn [length] in *. lia. }
  destruct (config_entry line) as [[n t]|]; [|by apply Hgo].
  destruct (decide (length done = WDG_MODULE_MAX_NUM)) as [Hfull|Hfull].
  - rewrite config_table_full by done. cbn [mbind res_bind].
    rewrite (proj2 (Nat.leb_gt _ _)); [done|]. rewrite length_app, Hfull. cbn [length]. lia.
  - destruct (config_table_snoc now done (n, t)) as [-> Hins]; [lia|]. cbn [mbind res_bind].
    change (mkModule _ 1 (u32 t) now) with (configured now (n, t)). rewrite Hins.
    replace (S (length done)) with (length (done ++ [(n, t)])) by (rewrite length_app; simpl; lia).
    rewrite Hgo by (rewrite length_app; simpl; lia). by rewrite <-app_assoc.
Qed.

Lemma Init_spec bytes now :
  Init (Some bytes) now =
    if (length (config_entries bytes) <=? WDG_MODULE_MAX_NUM)%nat
    then Ok (mkWatchdog true (config_table now (config_entries bytes)))
    else Ub UB_OutOfBounds.
Proof.
  unfold Init, config_entries. change fresh_modules with (config_table now []).
  rewrite (config_loop_spec now _ bytes []) by (simpl; unfold WDG_MODULE_MAX_NUM; lia). cbv zeta.
  rewrite app_nil_l. by destruct (_ <=? _)%nat.
Qed.

(** Starting the watchdog registers exactly the modules of the configuration
    file, in its order, as long as there are at most 64 of them; with more it
    writes behind the table. *)
Theorem config_registers bytes now :
  Init (Some bytes) now =
    if (length (config_entries bytes) <=? WDG_MODULE_MAX_NUM)%nat
    then Ok (mkWatchdog true (config_table now (config_entries bytes)))
    else Ub UB_OutOfBounds.
Proof. apply Init_spec. Qed.

(** "net;20\n#x\nbad\nimu;8\n" *)
Example config_two :
  config_entries [110; 101; 116; 59; 50; 48; 10; 35; 120; 10; 98; 97; 100; 10; 105; 109; 117; 59; 56; 13; 10]
  = [([110; 101; 116], 20); ([105; 109; 117], 8)].
Proof. reflexivity. Qed.

(** ** Runs start in the invariant *)
Lemma read_line_bytes bytes : ∀ line,
  Forall is_byte line → Forall is_byte bytes →
  Forall is_byte (read_line line bytes).1 ∧ Forall is_byte (read_line line bytes).2.
Proof.
  induction bytes as [|c rest IH]; intros line Hl Hb; cbn [read_line]; [done|].
  apply Forall_cons in Hb as [Hc Hb].
  assert (Forall is_byte (if c =? 0 then line else line ++ [c])) as Hl'.
  { destruct (c =? 0); [done|]. by apply Forall_app_2; [|constructor]. }
  destruct (c =? 10); [|by apply IH]. split; [|done]. simpl.
  case_bool_decide; repeat apply Forall_take; done.
Qed.
Lemma split_semicolon_bytes l n r : split_semicolon l = Some (n, r) → Forall is_byte l → Forall is_byte n.
Proof.
  revert n. induction l as [|c l IH]; simpl; intros n He Hl; [done|]. apply Forall_cons in Hl as [Hc Hl].
  destruct (c =? 59); simplify_eq; [constructor|].
  destruct (split_semicolon l) as [[n' r']|]; simplify_eq/=. constructor; [done|by apply IH].
Qed.
Lemma config_lines_bytes fuel : ∀ bytes, Forall is_byte bytes → Forall (Forall is_byte) (config_lines fuel bytes).
Proof.
  induction fuel as [|fuel IH]; intros bytes Hb; cbn [config_lines]; [constructor|].
  pose proof (read_line_bytes bytes [] (Forall_nil_2 _) Hb) as [H1 H2].
  destruct (read_line [] bytes) as [line rest]. constructor; [done|].
  case_bool_decide; [constructor|by apply IH].
Qed.
Lemma config_entries_bytes bytes :
  Forall is_byte bytes → Forall (λ e, Forall is_byte e.1) (config_entries bytes).
Proof.
  intros Hb. apply Forall_forall. intros [n t] He.
  apply list_elem_of_omap in He as (line & Hin & He).
  eapply Forall_forall in Hin; [|by apply config_lines_bytes]. simpl.
  unfold config_entry in He. destruct (_ || _); [done|].
  destruct (split_semicolon line) as [[n' r]|] eqn:Es; [|done].
  destruct (_ && _); simplify_eq. by eapply split_semicolon_bytes.
Qed.

(** The clock at which the server starts counts as everybody's feeding. *)
Definition started (w : TAG_WATCHDOG) (clock : Z) : run := mkRun w clock (λ _, clock).

Theorem init_inv bytes clock w :
  Forall is_byte bytes → Init (Some bytes) (u32 clock) = Ok w → WInv (started w clock).
Proof.
  intros Hb Hi. rewrite Init_spec in Hi.
  destruct (Nat.leb_spec (length (config_entries bytes)) WDG_MODULE_MAX_NUM) as [Hlen|]; [|done].
  simplify_eq. pose proof (config_entries_bytes bytes Hb) as Hes.
  set (es := config_entries bytes) in *. clearbody es. split; simpl.
  - unfold config_table. rewrite length_app, length_fmap, length_replicate. lia.
  - intros i m Hm. unfold config_table in Hm. apply lookup_app_Some in Hm as [Hm|[_ Hm]].
    + apply list_lookup_fmap_Some in Hm as ([n t] & -> & Hin). eapply Forall_lookup_1 in Hin; [|done].
      split; simpl; [by apply safe_memcpy_name|by right|by apply uwrap_range|].
      intros _. split; [done|lia].
    + apply lookup_replicate in Hm as [-> _].
      split; [split; [done|by apply (Forall_replicate _ WDG_MODULE_NAME_LEN)]|by left|done|done].
Qed.

(** Two modules, one of them fed at 110. *)
Definition demo_config : list Z := [110; 101; 116; 59; 50; 48; 10; 105; 109; 117; 59; 56; 10].
Definition demo_run : run :=
  match Init (Some demo_config) 100 with Ok w => started w 100 | Ub _ => mkRun (mkWatchdog false []) 0 (λ _, 0) end.
Lemma demo_inv : WInv demo_run.
Proof.
  apply (init_inv demo_config 100); [|by vm_compute].
  repeat (constructor; [by split|]). constructor.
Qed.
Lemma demo_no_wrap cs ls : Forall (λ l, l = L_Tick 9) ls → (length ls ≤ 10)%nat → no_wrap (wrun cs demo_run ls).
Proof.
  intros Hls Hl i m _ _.
  assert (∀ s, r_fed (wrun cs s ls) = r_fed s ∧ r_clock (wrun cs s ls) = r_clock s + 9 * Z.of_nat (length ls)) as Hs.
  { clear Hl. induction Hls as [|l ls -> _ IH]; intros s; [by split; [|simpl; lia]|].
    destruct (IH (wstep cs s (L_Tick 9))) as [E1 E2].
    change (wrun cs s (L_Tick 9 :: ls)) with (wrun cs (wstep cs s (L_Tick 9)) ls).
    rewrite E1, E2. cbn [wstep r_fed r_clock length]. split; [done|lia]. }
  destruct (Hs demo_run) as [-> ->].
  assert (r_fed demo_run = λ _, 100) as -> by done. assert (r_clock demo_run = 100) as -> by done. lia.
Qed.

Lemma check_exact_witness :
  ∃ b texts, OnCheckModule (Some (r_wd demo_run)) (r_now demo_run) = Ok (b, texts) ∧ (b = false → texts = None).
Proof.
  destruct (check_exact demo_run demo_inv) as (b & texts & H1 & _ & H3).
  - apply (demo_no_wrap true []); [constructor|simpl; lia].
  - by exists b, texts.
Defined.
Lemma starved_module_reported_witness :
  ∃ texts, OnCheckModule (Some (r_wd (wrun true demo_run [L_Tick 9]))) (r_now (wrun true demo_run [L_Tick 9]))
    = Ok (true, texts).
Proof.
  apply (starved_module_reported true demo_run [L_Tick 9] 1
           (mkModule (safe_memcpy (replicate 32 0) [105; 109; 117]) 1 8 100) demo_inv).
  - by repeat constructor.
  - by repeat constructor.
  - by vm_compute.
  - by vm_compute.
  - done.
  - apply demo_no_wrap; [by repeat constructor|simpl; lia].
  - by vm_compute.
Defined.
Lemma register_idempotent_witness :
  ∃ w', Register true (Some (r_wd demo_run)) [97; 98] 5 100 = (2, Some w') ∧
        Register true (Some w') [97; 98] 30 107 = (2, Some w').
Proof.
  eexists. split; [vm_compute; reflexivity|].
  eapply (register_idempotent true demo_run [97; 98] 5 30 2 _ 107 demo_inv).
  - by repeat constructor.
  - simpl. lia.
  - vm_compute. reflexivity.
  - lia.
Defined.
Lemma long_name_fills_table_witness :
  let n := replicate 32 97 in
  Register true (Some (long_table n 5 0 64)) n 5 0 = (-1, Some (long_table n 5 0 64)).
Proof.
  apply (long_name_fills_table true (replicate 32 97) 5 0).
  - by apply Forall_replicate.
  - simpl. lia.
  - done.
Defined.
Lemma report_fits_witness :
  OnTimeouted (r_wd demo_run) 200 =
    Ok (text_out ++ report_text 200 true (modules (r_wd demo_run)),
        text_nor ++ report_text 200 false (modules (r_wd demo_run))).
Proof. apply (report_fits (r_wd demo_run) 200). by vm_compute. Defined.
