(* ===== verification/MemBuffer.v ===== *)
(** * Block buffers

    src/lib_bsp/eventservice/mem/membuffer.cpp: a byte buffer as a list of
    blocks of at most 4608 bytes.  Blocks are shared pointers, and appending
    one buffer to another shares its blocks, so they live in a heap and a
    buffer is a size and a list of pointers.  The global counters of blocks and
    the reference counts of big allocations are not modelled: no operation
    reads them. *)

From S2P Require Import Prelude.
#[local] Open Scope Z_scope.

Definition DEFAULT_BLOCK_SIZE : Z := 4608.
(** Above this length a write takes one allocation for all its blocks. *)
Definition BIG_WRITE : Z := 32 * 1024.

(** ** Blocks *)

(** The first buffer_size bytes of the array; the others are never read. *)
Record Block := mkBlk { blk_data : list Z; blk_encode_flag : bool }.
Definition buffer_size (b : Block) : Z := zlen (blk_data b).
Definition empty_block : Block := mkBlk [] false.

Record heap := mkHeap { blks : gmap nat Block; fresh_ptr : nat }.
Abbreviation H := (ST heap).

Definition load (p : nat) : H Block := λ h,
  match blks h !! p with Some b => Ok (b, h) | None => Ub UB_UseAfterFree end.
Definition store (p : nat) (b : Block) : H unit :=
  modify (λ h, mkHeap (<[p := b]> (blks h)) (fresh_ptr h)).
(** Block::TakeBlock: a block off the heap or out of the cache, empty. *)
Definition TakeBlock : H nat := λ h,
  Ok (fresh_ptr h, mkHeap (<[fresh_ptr h := empty_block]> (blks h)) (S (fresh_ptr h))).

Definition Block_RemainSize (b : Block) : Z := DEFAULT_BLOCK_SIZE - buffer_size b.

(** Each returns how many bytes it moved, or the bytes themselves. *)
Definition Block_WriteBytes (p : nat) (val : list Z) : H Z :=
  b ← load p;
  if (DEFAULT_BLOCK_SIZE =? buffer_size b) || (zlen val =? 0) then mret 0
  else
    let remain_size := DEFAULT_BLOCK_SIZE - buffer_size b in
    let write_size := if zlen val <? remain_size then zlen val else remain_size in
    store p (mkBlk (blk_data b ++ take (Z.to_nat write_size) val) (blk_encode_flag b));;
    mret write_size.

(** ReadBytes and ReadString *)
Definition Block_ReadBytes (p : nat) (len : Z) : H (list Z) :=
  b ← load p;
  if (0 =? buffer_size b) || (len =? 0) then mret []
  else if DEFAULT_BLOCK_SIZE <? buffer_size b then mret []
  else
    let read_size := if len <? buffer_size b then len else buffer_size b in
    store p (mkBlk (drop (Z.to_nat read_size) (blk_data b)) (blk_encode_flag b));;
    mret (take (Z.to_nat read_size) (blk_data b)).

(** CopyBytes and CopyString *)
Definition Block_CopyBytes (p : nat) (pos len : Z) : H (list Z) :=
  b ← load p;
  if (buffer_size b <? pos) || (len =? 0) then mret []
  else
    let remain_size := buffer_size b - pos in
    let copy_size := if len <? remain_size then len else remain_size in
    mret (take (Z.to_nat copy_size) (drop (Z.to_nat pos) (blk_data b))).

(** ** Buffers *)
Record MemBuffer := mkMem { size_ : Z; blocks_ : list nat }.
Definition CreateMemBuffer : MemBuffer := mkMem 0 [].

Definition AppendBuffer (mb buffer : MemBuffer) : MemBuffer :=
  mkMem (size_ mb + size_ buffer) (blocks_ mb ++ blocks_ buffer).
Definition AppendBlock (mb : MemBuffer) (p : nat) : H MemBuffer :=
  b ← load p;
  mret (mkMem (size_ mb + buffer_size b) (blocks_ mb ++ [p])).
Definition Clear (mb : MemBuffer) : MemBuffer := CreateMemBuffer.
Definition ReduceSize (mb : MemBuffer) (n : Z) : MemBuffer := mkMem (size_ mb - n) (blocks_ mb).

(** The chunks one allocation is filled with. *)
Fixpoint chunks (fuel : nat) (val : list Z) : list (list Z) :=
  match fuel with
  | O => []
  | S fuel' =>
      if zlen val =? 0 then []
      else if DEFAULT_BLOCK_SIZE <=? zlen val then
        take (Z.to_nat DEFAULT_BLOCK_SIZE) val :: chunks fuel' (drop (Z.to_nat DEFAULT_BLOCK_SIZE) val)
      else [val]
  end.
Fixpoint big_blocks (l : list (list Z)) : H (list nat) :=
  match l with
  | [] => mret []
  | c :: l' => p ← TakeBlock; _ ← Block_WriteBytes p c; ps ← big_blocks l'; mret (p :: ps)
  end.
Definition WriteBigBytes (mb : MemBuffer) (val : list Z) : H MemBuffer :=
  ps ← big_blocks (chunks (S (length val)) val);
  mret (mkMem (size_ mb + zlen val) (blocks_ mb ++ ps)).

(** The loop of WriteNewBytes: a new block each time, until all is written. *)
Fixpoint write_new (fuel : nat) (mb : MemBuffer) (val : list Z) : H MemBuffer :=
  match fuel with
  | O => undefined UB_Diverges
  | S fuel' =>
      p ← TakeBlock;
      ws ← Block_WriteBytes p val;
      let mb := mkMem (size_ mb + ws) (blocks_ mb ++ [p]) in
      let val := drop (Z.to_nat ws) val in
      if zlen val =? 0 then mret mb else write_new fuel' mb val
  end.
Definition WriteNewBytes (mb : MemBuffer) (val : list Z) : H MemBuffer :=
  if BIG_WRITE <? zlen val then WriteBigBytes mb val else write_new (S (length val)) mb val.

Definition WriteBytes (mb : MemBuffer) (val : list Z) : H MemBuffer :=
  if BIG_WRITE <? zlen val then WriteBigBytes mb val
  else
    match last (blocks_ mb) with
    | None => WriteNewBytes mb val
    | Some p =>
        b ← load p;
        '(ws, mb) ←
          (if negb (Block_RemainSize b =? 0) then
             ws ← Block_WriteBytes p val; mret (ws, mkMem (size_ mb + ws) (blocks_ mb))
           else mret (0, mb));
        if ws <? zlen val then WriteNewBytes mb (drop (Z.to_nat ws) val) else mret mb
    end.

(** The loop of ReadBytes and ReadString: [need] bytes are still to be read;
    the result is what was read and the blocks that are left. *)
Fixpoint read_blocks (ps : list nat) (need : Z) : H (list Z * list nat) :=
  match ps with
  | [] => mret ([], [])
  | p :: ps' =>
      rs ← Block_ReadBytes p need;
      b ← load p;
      let keep := if buffer_size b =? 0 then [] else [p] in
      if zlen rs =? need then mret (rs, keep ++ ps')
      else '(rest, ps2) ← read_blocks ps' (need - zlen rs); mret (rs ++ rest, keep ++ ps2)
  end.
Definition ReadBytes (mb : MemBuffer) (len : Z) : H (option (list Z) * MemBuffer) :=
  if size_ mb <? len then mret (None, mb)
  else '(rs, ps) ← read_blocks (blocks_ mb) len; mret (Some rs, mkMem (size_ mb - len) ps).

(** The loop of ReadBuffer moves whole blocks and copies the last part. *)
Fixpoint move_blocks (ps : list nat) (buffer : MemBuffer) (need : Z) : H (list nat * MemBuffer) :=
  match ps with
  | [] => mret ([], buffer)
  | p :: ps' =>
      b ← load p;
      '(rs, keep, buffer) ←
        (if buffer_size b <=? need then
           buffer ← AppendBlock buffer p; mret (buffer_size b, [], buffer)
         else
           buffer ← WriteBytes buffer (take (Z.to_nat need) (blk_data b));
           _ ← Block_ReadBytes p need;
           mret (need, [p], buffer));
      if rs =? need then mret (keep ++ ps', buffer)
      else '(ps2, buffer) ← move_blocks ps' buffer (need - rs); mret (keep ++ ps2, buffer)
  end.
Definition ReadBuffer (mb buffer : MemBuffer) (len : Z) : H (bool * MemBuffer * MemBuffer) :=
  if size_ mb <? len then mret (false, mb, buffer)
  else
    '(ps, buffer) ← move_blocks (blocks_ mb) buffer len;
    mret (true, mkMem (size_ mb - len) ps, buffer).

(** CopyBuffer: the loop that copies from the front. *)
Fixpoint copy_blocks (ps : list nat) (buffer : MemBuffer) (need : Z) : H MemBuffer :=
  match ps with
  | [] => mret buffer
  | p :: ps' =>
      b ← load p;
      let rs := Z.min need (buffer_size b) in
      buffer ← WriteBytes buffer (take (Z.to_nat rs) (blk_data b));
      if rs =? need then mret buffer else copy_blocks ps' buffer (need - rs)
  end.
Definition CopyBuffer (mb buffer : MemBuffer) (len : Z) : H (bool * MemBuffer) :=
  if size_ mb <? len then mret (false, buffer)
  else buffer ← copy_blocks (blocks_ mb) buffer len; mret (true, buffer).

(** GetPostion: the blocks from the one that holds a position on, and the
    position in it. *)
Fixpoint seek (ps : list nat) (remain_pos : Z) : H (list nat * Z) :=
  match ps with
  | [] => mret ([], 0)
  | p :: ps' =>
      b ← load p;
      if 0 <? s32 (u64 (buffer_size b - remain_pos)) then mret (ps, remain_pos)
      else seek ps' (u64 (remain_pos - buffer_size b))
  end.
Definition GetPostion (mb : MemBuffer) (pos : Z) : H (list nat * Z) :=
  if size_ mb <=? pos then mret ([], 0) else seek (blocks_ mb) pos.

(** The loop of CopyBytes and CopyString. *)
Fixpoint copy_from (ps : list nat) (block_pos need : Z) : H (list Z) :=
  match ps with
  | [] => mret []
  | p :: ps' =>
      cs ← Block_CopyBytes p block_pos need;
      if zlen cs =? need then mret cs
      else rest ← copy_from ps' 0 (need - zlen cs); mret (cs ++ rest)
  end.
(** CopyBytes(val, pos, len) copies what there is. *)
Definition CopyBytes_avail (mb : MemBuffer) (pos len : Z) : H (list Z) :=
  if size_ mb <=? pos then mret []
  else
    let act_len := if size_ mb <? u64 (pos + len) then size_ mb - pos else len in
    '(ps, block_pos) ← GetPostion mb pos;
    copy_from ps block_pos act_len.
(** CopyBytes(pos, val, len) fails when there is too little. *)
Definition CopyBytes (mb : MemBuffer) (pos len : Z) : H (option (list Z)) :=
  if u64 (size_ mb - pos) <? len then mret None
  else cs ← CopyBytes_avail mb pos len; mret (Some cs).

Fixpoint set_encode (ps : list nat) (e : bool) : H unit :=
  match ps with
  | [] => mret tt
  | p :: ps' => b ← load p; store p (mkBlk (blk_data b) e);; set_encode ps' e
  end.
Definition EnableEncode (mb : MemBuffer) (e : bool) : H bool :=
  match blocks_ mb with
  | [] => mret false
  | ps => set_encode ps e;; mret true
  end.

(** ToString, the encoder of a block being an argument. *)
Fixpoint to_string (encode : list Z → list Z) (ps : list nat) : H (list Z) :=
  match ps with
  | [] => mret []
  | p :: ps' =>
      b ← load p;
      rest ← to_string encode ps';
      mret ((if blk_encode_flag b then encode (blk_data b) else blk_data b) ++ rest)
  end.
Definition ToString (encode : list Z → list Z) (mb : MemBuffer) : H (list Z) :=
  to_string encode (blocks_ mb).

(** ** What a buffer holds

    [view]: the bytes of a list of blocks, in order.  [owns]: the blocks exist,
    are within their size, not marked for encoding, and occur once, and the size the buffer keeps is that
    of its bytes.  [ext ps h h']: an operation that writes to no other old
    block than those of [ps]. *)
Definition data_of (h : heap) (p : nat) : list Z := default [] (blk_data <$> blks h !! p).
Definition view (h : heap) (ps : list nat) : list Z := concat (data_of h <$> ps).

Definition block_ok (h : heap) (p : nat) : Prop :=
  ∃ b, blks h !! p = Some b ∧ buffer_size b ≤ DEFAULT_BLOCK_SIZE ∧ blk_encode_flag b = false.
Definition heap_ok (h : heap) : Prop := ∀ p, is_Some (blks h !! p) → (p < fresh_ptr h)%nat.
Record owns (h : heap) (mb : MemBuffer) : Prop := {
  ow_blocks : Forall (block_ok h) (blocks_ mb);
  ow_nodup : NoDup (blocks_ mb);
  ow_size : size_ mb = zlen (view h (blocks_ mb)) }.
Record ext (ps : list nat) (h h' : heap) : Prop := {
  ext_ok : heap_ok h';
  ext_fresh : (fresh_ptr h ≤ fresh_ptr h')%nat;
  ext_frame : ∀ p, p ∉ ps → (p < fresh_ptr h)%nat → blks h' !! p = blks h !! p }.

Lemma view_cons h p ps : view h (p :: ps) = data_of h p ++ view h ps.
Proof. done. Qed.
Lemma view_app h ps qs : view h (ps ++ qs) = view h ps ++ view h qs.
Proof. unfold view. by rewrite fmap_app, concat_app. Qed.
Lemma view_agree h h' ps : (∀ p, p ∈ ps → blks h' !! p = blks h !! p) → view h' ps = view h ps.
Proof.
  intros Ha. unfold view. f_equal. apply list_fmap_ext. intros i p Hi. unfold data_of.
  rewrite Ha; [done|]. by eapply list_elem_of_lookup_2.
Qed.
Lemma block_ok_fresh h p : heap_ok h → block_ok h p → (p < fresh_ptr h)%nat.
Proof. intros Hh (b & Hb & _ & _). by apply Hh. Qed.
Lemma blocks_fresh h ps p : heap_ok h → Forall (block_ok h) ps → p ∈ ps → (p < fresh_ptr h)%nat.
Proof. intros Hh Hf Hp. eapply block_ok_fresh; [done|]. by eapply Forall_forall in Hf. Qed.

Lemma ext_refl ps h : heap_ok h → ext ps h h.
Proof. by split. Qed.
Lemma ext_weaken ps qs h h' : ps ⊆ qs → ext ps h h' → ext qs h h'.
Proof. intros Hs [? ? Hf]. split; [done..|]. intros p Hp. apply Hf. set_solver. Qed.
Lemma ext_trans ps h1 h2 h3 : ext ps h1 h2 → ext ps h2 h3 → ext ps h1 h3.
Proof.
  intros [_ Hf1 Ha1] [Hok Hf2 Ha2]. split; [done|lia|].
  intros p Hp Hlt. rewrite Ha2 by (done || lia). by apply Ha1.
Qed.
(** Blocks that only came into being in between may change as well. *)
Lemma ext_trans_new ps qs h1 h2 h3 :
  ext ps h1 h2 → ext qs h2 h3 → (∀ p, p ∈ qs → p ∈ ps ∨ (fresh_ptr h1 ≤ p)%nat) → ext ps h1 h3.
Proof.
  intros [_ Hf1 Ha1] [Hok Hf2 Ha2] Hq. split; [done|lia|].
  intros p Hp Hlt. rewrite Ha2; [by apply Ha1| |lia]. intros Hpq. destruct (Hq p Hpq); [done|lia].
Qed.
Lemma ext_view ps h h' qs :
  ext ps h h' → heap_ok h → Forall (block_ok h) qs → (∀ p, p ∈ qs → p ∉ ps) →
  view h' qs = view h qs ∧ Forall (block_ok h') qs.
Proof.
  intros [_ _ Ha] Hh Hok Hd.
  assert (∀ p, p ∈ qs → blks h' !! p = blks h !! p) as Hag.
  { intros p Hp. apply Ha; [by apply Hd|]. by eapply blocks_fresh. }
  split; [by apply view_agree|]. apply Forall_forall. intros p Hp.
  eapply Forall_forall in Hok; [|done]. destruct Hok as (b & Hb & Hs & Hfl). exists b. by rewrite Hag.
Qed.
(** A buffer none of whose blocks an operation writes keeps its bytes. *)
Lemma ext_owns ps h h' mb :
  ext ps h h' → heap_ok h → owns h mb → (∀ p, p ∈ blocks_ mb → p ∉ ps) →
  owns h' mb ∧ view h' (blocks_ mb) = view h (blocks_ mb).
Proof.
  intros He Hh [Hb Hn Hs] Hd. destruct (ext_view _ _ _ _ He Hh Hb Hd) as [Hv Hok].
  split; [|done]. split; [done..|]. by rewrite Hv.
Qed.

(** ** Blocks *)
Lemma data_of_load h p b : blks h !! p = Some b → data_of h p = blk_data b.
Proof. unfold data_of. by intros ->. Qed.

Definition set_data (h : heap) (p : nat) (d : list Z) (e : bool) : heap :=
  mkHeap (<[p := mkBlk d e]> (blks h)) (fresh_ptr h).
Lemma set_data_ext h p d e : heap_ok h → block_ok h p → ext [p] h (set_data h p d e).
Proof.
  intros Hh Hp. split; simpl; [|done|].
  - intros q Hq. simpl. destruct (decide (q = p)) as [->|Hne]; [by apply block_ok_fresh|].
    simpl in Hq. rewrite lookup_insert_ne in Hq by done. by apply Hh.
  - intros q Hq _. rewrite lookup_insert_ne; [done|]. set_solver.
Qed.
Lemma set_data_of h p d e : data_of (set_data h p d e) p = d.
Proof. unfold data_of, set_data. simpl. by rewrite lookup_insert_eq. Qed.

Lemma Block_WriteBytes_spec h p val :
  heap_ok h → block_ok h p →
  ∃ h', let n := Z.min (zlen val) (DEFAULT_BLOCK_SIZE - zlen (data_of h p)) in
    Block_WriteBytes p val h = Ok (n, h') ∧ ext [p] h h' ∧ block_ok h' p ∧
    data_of h' p = data_of h p ++ take (Z.to_nat n) val.
Proof.
  intros Hh Hp. pose proof Hp as (b & Hb & Hs & Hfl). unfold buffer_size in Hs.
  rewrite (data_of_load h p b Hb). set (n := Z.min _ _). cbv zeta.
  unfold Block_WriteBytes. rewrite run_bind. unfold load. rewrite Hb.
  pose proof (zlen_nonneg val). pose proof (zlen_nonneg (blk_data b)).
  destruct ((DEFAULT_BLOCK_SIZE =? buffer_size b) || (zlen val =? 0)) eqn:E.
  - assert (n = 0) as -> by (apply orb_true_iff in E; rewrite !Z.eqb_eq in E; unfold buffer_size in E; lia).
    exists h. split_and!; [done|by apply ext_refl|done|]. by rewrite (data_of_load h p b Hb), app_nil_r.
  - assert ((if zlen val <? DEFAULT_BLOCK_SIZE - buffer_size b then zlen val
             else DEFAULT_BLOCK_SIZE - buffer_size b) = n) as ->.
    { unfold n, buffer_size. destruct (Z.ltb_spec (zlen val) (DEFAULT_BLOCK_SIZE - zlen (blk_data b))); lia. }
    eexists. split_and!; [done| | |apply set_data_of].
    + by apply (set_data_ext h p _ (blk_encode_flag b)).
    + eexists. split_and!; [apply lookup_insert_eq| |done]. unfold buffer_size; simpl.
      rewrite zlen_app, zlen_take by lia. lia.
Qed.

Lemma Block_ReadBytes_spec h p len :
  heap_ok h → block_ok h p → 0 ≤ len →
  ∃ h', Block_ReadBytes p len h = Ok (take (Z.to_nat len) (data_of h p), h') ∧ ext [p] h h' ∧
    block_ok h' p ∧ data_of h' p = drop (Z.to_nat len) (data_of h p).
Proof.
  intros Hh Hp Hl. pose proof Hp as (b & Hb & Hs & Hfl).
  rewrite (data_of_load h p b Hb). unfold Block_ReadBytes. rewrite run_bind. unfold load. rewrite Hb.
  destruct ((0 =? buffer_size b) || (len =? 0)) eqn:E.
  - assert (take (Z.to_nat len) (blk_data b) = [] ∧ drop (Z.to_nat len) (blk_data b) = blk_data b) as [-> ->].
    { apply orb_true_iff in E. rewrite !Z.eqb_eq in E. destruct E as [E| ->]; [|done].
      unfold buffer_size in E. rewrite (zlen_0 (blk_data b)) by done. by rewrite take_nil, drop_nil. }
    exists h. split_and!; [done|by apply ext_refl|done|by apply data_of_load].
  - rewrite (proj2 (Z.ltb_ge _ _)) by done.
    set (n := if len <? _ then _ else _).
    assert (take (Z.to_nat n) (blk_data b) = take (Z.to_nat len) (blk_data b) ∧
            drop (Z.to_nat n) (blk_data b) = drop (Z.to_nat len) (blk_data b)) as [E1 E2].
    { unfold n. destruct (Z.ltb_spec len (buffer_size b)) as [|Hge]; [done|].
      unfold buffer_size, zlen in *. by rewrite !take_ge, !drop_ge by lia. }
    rewrite <-E1, <-E2.
    eexists. split_and!; [done| | |apply set_data_of].
    + by apply (set_data_ext h p _ (blk_encode_flag b)).
    + eexists. split_and!; [apply lookup_insert_eq| |done]. unfold buffer_size, zlen in *; simpl.
      rewrite length_drop. lia.
Qed.

Lemma TakeBlock_spec h :
  heap_ok h → ∃ h', TakeBlock h = Ok (fresh_ptr h, h') ∧ ext [] h h' ∧ block_ok h' (fresh_ptr h) ∧
    data_of h' (fresh_ptr h) = [] ∧ fresh_ptr h' = S (fresh_ptr h).
Proof.
  intros Hh. eexists. split; [done|]. split_and!; [split; simpl; [|lia|]| | |done].
  - intros q Hq. simpl in Hq. destruct (decide (q = fresh_ptr h)) as [->|]; simpl; [lia|].
    rewrite lookup_insert_ne in Hq by done. specialize (Hh _ Hq). lia.
  - intros q _ Hq. rewrite lookup_insert_ne by lia. done.
  - eexists. split; [apply lookup_insert_eq|done].
  - unfold data_of. simpl. by rewrite lookup_insert_eq.
Qed.

(** ** Writing *)

(** The outcome of a write that adds [val] at the end: of the old blocks only
    those of [ps] are written, and the new ones are fresh. *)
Record wrote (ps : list nat) (h : heap) (mb : MemBuffer) (val : list Z) (h' : heap) (mb' : MemBuffer) : Prop := {
  wr_ext : ext ps h h';
  wr_owns : owns h' mb';
  wr_view : view h' (blocks_ mb') = view h (blocks_ mb) ++ val;
  wr_blocks : ∃ new, blocks_ mb' = blocks_ mb ++ new ∧ Forall (λ p, fresh_ptr h ≤ p)%nat new }.

Lemma wrote_in ps h mb val h' mb' p :
  wrote ps h mb val h' mb' → p ∈ blocks_ mb' → p ∈ blocks_ mb ∨ (fresh_ptr h ≤ p)%nat.
Proof.
  intros [_ _ _ (new & -> & Hn)] [Hp|Hp]%elem_of_app; [by left|right].
  by eapply Forall_forall in Hn.
Qed.

Lemma wrote_nil h mb : heap_ok h → owns h mb → wrote [] h mb [] h mb.
Proof. split; [by apply ext_refl|done|by rewrite app_nil_r|]. exists []. by rewrite app_nil_r. Qed.

(** One write after another. *)
Lemma wrote_trans ps h mb v h1 mb1 w h2 mb2 :
  heap_ok h → wrote ps h mb v h1 mb1 → wrote [] h1 mb1 w h2 mb2 → wrote ps h mb (v ++ w) h2 mb2.
Proof.
  intros Hh [He Ho Hv (new & Hb & Hn)] [He2 Ho2 Hv2 (new2 & Hb2 & Hn2)]. split.
  - eapply ext_trans; [done|]. eapply ext_weaken; [|done]. set_solver.
  - done.
  - by rewrite Hv2, Hv, app_assoc.
  - exists (new ++ new2). rewrite Hb2, Hb, app_assoc. split; [done|]. apply Forall_app. split; [done|].
    eapply Forall_impl; [done|]. intros p Hp. simpl in *. destruct He as [_ Hf _]. lia.
Qed.

(** A fresh block at the end. *)
Lemma wrote_block h mb h' d :
  heap_ok h → owns h mb → ext [] h h' → (fresh_ptr h < fresh_ptr h')%nat →
  block_ok h' (fresh_ptr h) → data_of h' (fresh_ptr h) = d →
  wrote [] h mb d h' (mkMem (size_ mb + zlen d) (blocks_ mb ++ [fresh_ptr h])).
Proof.
  intros Hh Ho He Hf Hb Hd.
  destruct (ext_owns _ _ _ _ He Hh Ho ltac:(set_solver)) as [[Hob Hon Hos] Hv].
  split; simpl; [done| |by rewrite view_app, Hv; simpl; rewrite view_cons, Hd; simpl; rewrite app_nil_r|].
  - split; simpl.
    + apply Forall_app. split; [done|]. by constructor.
    + apply NoDup_app. split_and!; [done| |apply NoDup_singleton].
      intros p Hp Hp'. apply list_elem_of_singleton in Hp'. subst p. destruct Ho as [Hob' _ _].
      pose proof (blocks_fresh _ _ _ Hh Hob' Hp). lia.
    + rewrite view_app, zlen_app, view_cons, Hd. simpl. by rewrite app_nil_r, Hos.
  - exists [fresh_ptr h]. split; [done|]. by constructor.
Qed.

(** Taking a block and writing into it. *)
Lemma take_write h val :
  heap_ok h →
  ∃ h1 h2, let n := Z.min (zlen val) DEFAULT_BLOCK_SIZE in
    TakeBlock h = Ok (fresh_ptr h, h1) ∧ Block_WriteBytes (fresh_ptr h) val h1 = Ok (n, h2) ∧
    ext [] h h2 ∧ (fresh_ptr h < fresh_ptr h2)%nat ∧ block_ok h2 (fresh_ptr h) ∧
    data_of h2 (fresh_ptr h) = take (Z.to_nat n) val.
Proof.
  intros Hh. destruct (TakeBlock_spec h Hh) as (h1 & Ht & He & Hb & Hd & Hf).
  destruct (Block_WriteBytes_spec h1 (fresh_ptr h) val (ext_ok _ _ _ He) Hb) as (h2 & Hw & He2 & Hb2 & Hd2).
  rewrite Hd in Hw, Hd2. change (zlen []) with 0 in *. rewrite Z.sub_0_r in *. cbv zeta.
  exists h1, h2. split_and!; [done|done| | |done|done].
  - eapply ext_trans_new; [done|done|]. intros p Hp. right. set_solver.
  - destruct He2 as [_ Hf2 _]. lia.
Qed.

Lemma write_new_spec fuel : ∀ h mb val,
  heap_ok h → owns h mb → (length val < fuel)%nat →
  ∃ mb' h', write_new fuel mb val h = Ok (mb', h') ∧ wrote [] h mb val h' mb'.
Proof.
  induction fuel as [|fuel IH]; intros h mb val Hh Ho Hl; [lia|].
  destruct (take_write h val Hh) as (h1 & h2 & Ht & Hw & He & Hf & Hb & Hd).
  cbv zeta in *. set (n := Z.min _ _) in *. pose proof (zlen_nonneg val).
  assert (0 ≤ n ≤ zlen val) as Hn by (unfold n, DEFAULT_BLOCK_SIZE; lia).
  pose proof (wrote_block h mb h2 _ Hh Ho He Hf Hb Hd) as Hwr.
  rewrite zlen_take in Hwr by done.
  cbn [write_new]. rewrite run_bind, Ht. cbn beta iota. rewrite run_bind, Hw. cbn beta iota zeta.
  rewrite zlen_drop by done. destruct (Z.eqb_spec (zlen val - n) 0) as [Hz|Hz].
  - do 2 eexists. split; [done|]. rewrite take_ge in Hwr by (unfold zlen in *; lia). done.
  - destruct (IH h2 (mkMem (size_ mb + n) (blocks_ mb ++ [fresh_ptr h])) (drop (Z.to_nat n) val))
      as (mb' & h' & Hrun & Hwr').
    + apply He.
    + apply Hwr.
    + rewrite length_drop. unfold n, DEFAULT_BLOCK_SIZE, zlen in *. lia.
    + exists mb', h'. split; [done|].
      rewrite <-(take_drop (Z.to_nat n) val). by eapply wrote_trans.
Qed.

(** ** Big writes *)
Lemma chunks_spec fuel : ∀ val,
  (length val < fuel)%nat →
  concat (chunks fuel val) = val ∧ Forall (λ c, zlen c ≤ DEFAULT_BLOCK_SIZE) (chunks fuel val).
Proof.
  induction fuel as [|fuel IH]; intros val Hl; [lia|]. cbn [chunks]. pose proof (zlen_nonneg val).
  destruct (Z.eqb_spec (zlen val) 0) as [Hz|Hz]; [by rewrite (zlen_0 val)|].
  destruct (Z.leb_spec DEFAULT_BLOCK_SIZE (zlen val)) as [Hge|Hlt].
  - destruct (IH (drop (Z.to_nat DEFAULT_BLOCK_SIZE) val)) as [Hc Hf].
    { rewrite length_drop. unfold zlen, DEFAULT_BLOCK_SIZE in *. lia. }
    cbn [concat]. rewrite Hc, take_drop. split; [done|]. constructor; [|done].
    rewrite zlen_take; unfold DEFAULT_BLOCK_SIZE in *; lia.
  - simpl. rewrite app_nil_r. split; [done|]. repeat constructor. lia.
Qed.

Lemma big_blocks_spec l : ∀ h mb,
  heap_ok h → owns h mb → Forall (λ c, zlen c ≤ DEFAULT_BLOCK_SIZE) l →
  ∃ ps h', big_blocks l h = Ok (ps, h') ∧
    wrote [] h mb (concat l) h' (mkMem (size_ mb + zlen (concat l)) (blocks_ mb ++ ps)).
Proof.
  induction l as [|c l IH]; intros h mb Hh Ho Hl.
  { exists [], h. split; [done|]. rewrite app_nil_r. simpl. change (zlen []) with 0.
    rewrite Z.add_0_r. destruct mb. by apply wrote_nil. }
  apply Forall_cons in Hl as [Hc Hl].
  destruct (take_write h c Hh) as (h1 & h2 & Ht & Hw & He & Hf & Hb & Hd). cbv zeta in *.
  rewrite Z.min_l in Hw, Hd by done. rewrite take_ge in Hd by (unfold zlen; lia).
  pose proof (wrote_block h mb h2 c Hh Ho He Hf Hb Hd) as Hwr.
  destruct (IH h2 _ (ext_ok _ _ _ He) (wr_owns _ _ _ _ _ _ Hwr) Hl) as (ps & h' & Hrun & Hwr').
  exists (fresh_ptr h :: ps), h'. split.
  - cbn [big_blocks]. rewrite run_bind, Ht. cbn beta iota. rewrite run_bind, Hw. cbn beta iota.
    by rewrite run_bind, Hrun.
  - cbn [concat]. pose proof (wrote_trans _ _ _ _ _ _ _ _ _ Hh Hwr Hwr') as Hall. simpl in Hall.
    rewrite zlen_app, Z.add_assoc. by rewrite <-app_assoc in Hall.
Qed.

Lemma WriteBigBytes_spec h mb val :
  heap_ok h → owns h mb →
  ∃ mb' h', WriteBigBytes mb val h = Ok (mb', h') ∧ wrote [] h mb val h' mb'.
Proof.
  intros Hh Ho. destruct (chunks_spec (S (length val)) val ltac:(lia)) as [Hc Hf].
  destruct (big_blocks_spec _ h mb Hh Ho Hf) as (ps & h' & Hrun & Hwr). rewrite Hc in Hwr.
  do 2 eexists. split; [|exact Hwr]. unfold WriteBigBytes. by rewrite run_bind, Hrun.
Qed.
Lemma WriteNewBytes_spec h mb val :
  heap_ok h → owns h mb →
  ∃ mb' h', WriteNewBytes mb val h = Ok (mb', h') ∧ wrote [] h mb val h' mb'.
Proof.
  intros Hh Ho. unfold WriteNewBytes. destruct (_ <? _); [by apply WriteBigBytes_spec|].
  apply write_new_spec; [done|done|lia].
Qed.

(** Writing into the last block. *)
Lemma wrote_last h ps p sz h' v :
  heap_ok h → owns h (mkMem sz (ps ++ [p])) → ext [p] h h' → block_ok h' p →
  data_of h' p = data_of h p ++ v →
  wrote (ps ++ [p]) h (mkMem sz (ps ++ [p])) v h' (mkMem (sz + zlen v) (ps ++ [p])).
Proof.
  intros Hh [Hob Hon Hos] He Hb Hd. simpl in *. apply Forall_app in Hob as [Hob1 Hob2].
  apply NoDup_app in Hon as Hon'. destruct Hon' as (_ & Hdis & _).
  destruct (ext_view _ _ _ ps He Hh Hob1 Hdis) as [Hv Hok].
  assert (view h' (ps ++ [p]) = view h (ps ++ [p]) ++ v) as Hview.
  { rewrite !view_app, Hv, !view_cons, Hd. simpl. by rewrite !app_nil_r, app_assoc. }
  split; simpl; [|split; simpl|done|].
  - eapply ext_weaken; [|done]. set_solver.
  - apply Forall_app. split; [done|]. by constructor.
  - done.
  - by rewrite Hview, zlen_app, Hos.
  - exists []. by rewrite app_nil_r.
Qed.

Lemma WriteBytes_spec h mb val :
  heap_ok h → owns h mb →
  ∃ mb' h', WriteBytes mb val h = Ok (mb', h') ∧ wrote (blocks_ mb) h mb val h' mb'.
Proof.
  intros Hh Ho. unfold WriteBytes.
  assert (∀ v mb' h', wrote [] h mb v h' mb' → wrote (blocks_ mb) h mb v h' mb') as Hweak.
  { intros v mb' h' [He ? ? ?]. split; [|done..]. eapply ext_weaken; [|done]. set_solver. }
  destruct (BIG_WRITE <? zlen val).
  { destruct (WriteBigBytes_spec h mb val Hh Ho) as (mb' & h' & ? & ?). eauto. }
  destruct mb as [sz bl]. simpl in *. destruct bl as [|p ps _] using rev_ind; simpl.
  { destruct (WriteNewBytes_spec h (mkMem sz []) val Hh Ho) as (mb' & h' & ? & ?). eauto. }
  rewrite last_snoc. pose proof Ho as [Hob _ _]. simpl in Hob. apply Forall_app in Hob as [_ Hob].
  apply (proj1 (Forall_singleton _ _)) in Hob. pose proof Hob as (b & Hb & Hsz & Hfl).
  unfold load at 1. rewrite run_bind, Hb. cbn beta iota.
  pose proof (zlen_nonneg val). rewrite run_bind.
  destruct (Z.eqb_spec (Block_RemainSize b) 0) as [Hr|Hr]; cbn [negb].
  - rewrite run_ret. cbn beta iota.
    destruct (Z.ltb_spec 0 (zlen val)) as [Hv|Hv].
    + destruct (WriteNewBytes_spec h (mkMem sz (ps ++ [p])) val Hh Ho) as (mb' & h' & Hrun & Hwr). eauto.
    + rewrite (zlen_0 val) by lia. do 2 eexists. split; [done|]. apply Hweak. by apply wrote_nil.
  - destruct (Block_WriteBytes_spec h p val Hh Hob) as (h1 & Hw & He & Hb1 & Hd). cbv zeta in *.
    rewrite (data_of_load h p b Hb) in Hw, Hd. set (n := Z.min _ _) in *.
    assert (0 ≤ n ≤ zlen val) as Hn by (unfold n; unfold buffer_size, Block_RemainSize in *; lia).
    rewrite run_bind, Hw. cbn beta iota. rewrite run_ret. cbn beta iota.
    assert (wrote (ps ++ [p]) h (mkMem sz (ps ++ [p])) (take (Z.to_nat n) val) h1 (mkMem (sz + n) (ps ++ [p]))) as Hwr.
    { rewrite <-(zlen_take val n) at 2 by done. apply wrote_last; [done..|].
      by rewrite (data_of_load h p b Hb). }
    destruct (Z.ltb_spec n (zlen val)) as [Hv|Hv].
    + destruct (WriteNewBytes_spec h1 (mkMem (sz + n) (ps ++ [p])) (drop (Z.to_nat n) val))
        as (mb' & h' & Hrun & Hwr'); [apply He|apply Hwr|].
      do 2 eexists. split; [exact Hrun|]. rewrite <-(take_drop (Z.to_nat n) val).
      by eapply wrote_trans.
    + do 2 eexists. split; [done|]. rewrite take_ge in Hwr by (unfold zlen in *; lia). done.
Qed.

(** ** Reading *)
Lemma run_load h p b : blks h !! p = Some b → load p h = Ok (b, h).
Proof. unfold load. by intros ->. Qed.

Lemma read_blocks_spec ps : ∀ h need,
  heap_ok h → Forall (block_ok h) ps → NoDup ps → 0 ≤ need ≤ zlen (view h ps) →
  ∃ ps' h', read_blocks ps need h = Ok ((take (Z.to_nat need) (view h ps), ps'), h') ∧
    ext ps h h' ∧ Forall (block_ok h') ps' ∧ ps' `sublist_of` ps ∧
    view h' ps' = drop (Z.to_nat need) (view h ps).
Proof.
  induction ps as [|p ps IH]; intros h need Hh Hob Hnd Hn.
  { exists [], h. unfold view in *. simpl in *. change (zlen []) with 0 in Hn.
    rewrite take_nil, drop_nil. by split_and!. }
  apply Forall_cons in Hob as [Hp Hob]. apply NoDup_cons in Hnd as [Hpn Hnd].
  rewrite !view_cons in *. rewrite zlen_app in Hn.
  destruct (Block_ReadBytes_spec h p need Hh Hp ltac:(lia)) as (h1 & Hr & He & Hb1 & Hd).
  destruct (ext_view _ _ _ ps He Hh Hob) as [Hv Hob1]; [set_solver|].
  pose proof Hb1 as (b & Hb & Hs & Hfl). pose proof (data_of_load _ _ _ Hb) as Hdb. rewrite Hd in Hdb.
  cbn [read_blocks]. rewrite run_bind, Hr. cbn beta iota. rewrite run_bind, (run_load _ _ _ Hb). cbn beta iota zeta.
  set (rs := take (Z.to_nat need) (data_of h p)).
  set (keep := if buffer_size b =? 0 then [] else [p]).
  assert (∀ qs, view h1 (keep ++ qs) = drop (Z.to_nat need) (data_of h p) ++ view h1 qs) as Hkeep.
  { intros qs. unfold keep, buffer_size. rewrite <-Hdb.
    destruct (Z.eqb_spec (zlen (drop (Z.to_nat need) (data_of h p))) 0) as [Hz|_].
    - by rewrite (zlen_0 _ Hz).
    - simpl. by rewrite view_cons, Hd. }
  assert (∀ h2 qs, ext ps h1 h2 → Forall (block_ok h2) qs → Forall (block_ok h2) (keep ++ qs)) as Hkok.
  { intros h2 qs He2 Hqs. apply Forall_app. split; [|done]. unfold keep.
    destruct (_ =? 0); constructor; [|done]. exists b. split; [|done]. rewrite <-Hb.
    apply He2; [done|]. by eapply block_ok_fresh; [apply He|]. }
  destruct (Z.eqb_spec (zlen rs) need) as [Hz|Hz].
  - unfold rs, zlen in Hz. rewrite length_take in Hz.
    exists (keep ++ ps), h1. split_and!.
    + rewrite run_ret. unfold rs. rewrite take_app_le by (unfold zlen in *; lia). done.
    + eapply ext_weaken; [|done]. set_solver.
    + apply (Hkok h1); [apply ext_refl, He|done].
    + unfold keep. destruct (_ =? 0); simpl; [by constructor|done].
    + rewrite Hkeep, Hv. rewrite drop_app_le by lia. done.
  - assert (zlen (data_of h p) < need) as Hlt.
    { unfold rs, zlen in *. rewrite length_take in Hz. lia. }
    assert (rs = data_of h p) as Hrs by (apply take_ge; unfold zlen in *; lia).
    assert (drop (Z.to_nat need) (data_of h p) = []) as Hdn by (apply drop_ge; unfold zlen in *; lia).
    destruct (IH h1 (need - zlen rs) (ext_ok _ _ _ He) Hob1 Hnd) as (ps' & h' & Hrun & He2 & Hok' & Hsub & Hv').
    { rewrite Hrs, Hv. lia. }
    rewrite run_bind, Hrun. cbn beta iota. rewrite run_ret.
    exists (keep ++ ps'), h'. split_and!.
    + rewrite Hv, Hrs. do 3 f_equal. rewrite take_app_ge by (unfold zlen in *; lia). do 2 f_equal.
      unfold zlen in *. lia.
    + eapply ext_trans; [eapply ext_weaken; [|exact He]|eapply ext_weaken; [|exact He2]]; set_solver.
    + by apply Hkok.
    + unfold keep. destruct (_ =? 0); simpl; by constructor.
    + rewrite view_app, Hv', Hv, Hrs.
      assert (view h' keep = []) as ->.
      { assert (view h1 keep = []) as Hk1 by (specialize (Hkeep []); rewrite app_nil_r in Hkeep; by rewrite Hkeep, Hdn).
        rewrite (view_agree h1); [done|]. intros q Hq. apply He2.
        - unfold keep in Hq. destruct (_ =? 0); [by apply not_elem_of_nil in Hq|]. by apply list_elem_of_singleton in Hq as ->.
        - unfold keep in Hq. destruct (_ =? 0); [by apply not_elem_of_nil in Hq|]. apply list_elem_of_singleton in Hq as ->.
          by eapply block_ok_fresh; [apply He|]. }
      simpl. rewrite drop_app_ge by (unfold zlen in *; lia). f_equal. unfold zlen in *. lia.
Qed.

Lemma sublist_elem (ps qs : list nat) p : ps `sublist_of` qs → p ∈ ps → p ∈ qs.
Proof. intros Hs. by apply (sublist_subseteq _ _ Hs). Qed.

(** ReadBytes takes the first bytes out of the buffer, or nothing. *)
Theorem ReadBytes_spec h mb len :
  heap_ok h → owns h mb → 0 ≤ len →
  (size_ mb < len ∧ ReadBytes mb len h = Ok ((None, mb), h)) ∨
  (len ≤ size_ mb ∧
   ∃ mb' h', ReadBytes mb len h = Ok ((Some (take (Z.to_nat len) (view h (blocks_ mb))), mb'), h') ∧
     ext (blocks_ mb) h h' ∧ owns h' mb' ∧ blocks_ mb' `sublist_of` blocks_ mb ∧
     view h' (blocks_ mb') = drop (Z.to_nat len) (view h (blocks_ mb))).
Proof.
  intros Hh [Hob Hnd Hs] Hl. unfold ReadBytes.
  destruct (Z.ltb_spec (size_ mb) len) as [Hlt|Hge]; [by left|right]. split; [done|].
  destruct (read_blocks_spec (blocks_ mb) h len Hh Hob Hnd ltac:(lia)) as (ps & h' & Hr & He & Hok & Hsub & Hv).
  rewrite run_bind, Hr. do 2 eexists. split; [done|]. split_and!; [done| |done|done].
  split; simpl; [done|by eapply sublist_NoDup|]. rewrite Hv, Hs. by rewrite zlen_drop by lia.
Qed.

(** Two buffers in the same heap that share no block. *)
Definition apart (a b : MemBuffer) : Prop := ∀ p, p ∈ blocks_ a → p ∉ blocks_ b.

Lemma AppendBlock_spec h mb p :
  heap_ok h → owns h mb → block_ok h p → p ∉ blocks_ mb →
  ∃ mb', AppendBlock mb p h = Ok (mb', h) ∧ owns h mb' ∧ blocks_ mb' = blocks_ mb ++ [p] ∧
    view h (blocks_ mb') = view h (blocks_ mb) ++ data_of h p.
Proof.
  intros Hh [Hob Hnd Hs] (b & Hb & Hsz & Hfl) Hp. unfold AppendBlock. rewrite run_bind, (run_load _ _ _ Hb).
  cbn beta iota. rewrite run_ret. eexists. split; [done|]. simpl.
  assert (view h (blocks_ mb ++ [p]) = view h (blocks_ mb) ++ data_of h p) as Hv
    by (rewrite view_app, view_cons; simpl; by rewrite app_nil_r).
  split_and!; [split; simpl|done|done].
  - apply Forall_app. split; [done|]. constructor; [by exists b|done].
  - apply NoDup_app. split_and!; [done| |apply NoDup_singleton].
    intros q Hq Hq'. apply list_elem_of_singleton in Hq' as ->. done.
  - rewrite Hv, zlen_app, (data_of_load _ _ _ Hb), Hs. done.
Qed.

(** Moving the first bytes into another buffer. *)
Lemma move_blocks_spec ps : ∀ h buffer need,
  heap_ok h → Forall (block_ok h) ps → NoDup ps → owns h buffer →
  (∀ p, p ∈ ps → p ∉ blocks_ buffer) → 0 ≤ need ≤ zlen (view h ps) →
  ∃ ps' buffer' h', move_blocks ps buffer need h = Ok ((ps', buffer'), h') ∧
    ext (blocks_ buffer ++ ps) h h' ∧ Forall (block_ok h') ps' ∧ ps' `sublist_of` ps ∧
    owns h' buffer' ∧ (∀ p, p ∈ ps' → p ∉ blocks_ buffer') ∧
    (∀ p, p ∈ blocks_ buffer' → p ∈ blocks_ buffer ∨ p ∈ ps ∨ (fresh_ptr h ≤ p)%nat) ∧
    view h' ps' = drop (Z.to_nat need) (view h ps) ∧
    view h' (blocks_ buffer') = view h (blocks_ buffer) ++ take (Z.to_nat need) (view h ps).
Proof.
  induction ps as [|p ps IH]; intros h buffer need Hh Hob Hnd Hobuf Hdis Hn.
  { exists [], buffer, h. change (zlen (view h [])) with 0 in Hn.
    replace need with 0 by lia. simpl. rewrite !app_nil_r.
    split_and!; try done. by left. }
  apply Forall_cons in Hob as [Hp Hob]. apply NoDup_cons in Hnd as [Hpn Hnd].
  rewrite !view_cons in *. rewrite zlen_app in Hn.
  pose proof Hp as (b & Hb & Hs & Hfl). pose proof (data_of_load _ _ _ Hb) as Hdb.
  cbn [move_blocks]. rewrite run_bind, (run_load _ _ _ Hb). cbn beta iota. rewrite run_bind.
  destruct (Z.leb_spec (buffer_size b) need) as [Hle|Hgt].
  - destruct (AppendBlock_spec h buffer p Hh Hobuf Hp) as (buf1 & Ha & Ho1 & Hbl1 & Hv1); [set_solver|].
    rewrite run_bind, Ha. cbn beta iota. rewrite run_ret. cbn beta iota.
    assert (buffer_size b = zlen (data_of h p)) as Hsz by (by rewrite Hdb).
    rewrite Hsz in *.
    destruct (Z.eqb_spec (zlen (data_of h p)) need) as [Heq|Hne].
    + exists ps, buf1, h. rewrite <-Heq.
      assert (Z.to_nat (zlen (data_of h p)) = length (data_of h p)) as -> by (unfold zlen; lia).
      rewrite take_app_length, drop_app_length.
      split_and!; [done|by apply ext_refl|done|by constructor|done| | |done|done].
      * rewrite Hbl1. intros q Hq. rewrite elem_of_app, list_elem_of_singleton.
        intros [Hq'| ->]; [|done]. by apply (Hdis q); [right|].
      * rewrite Hbl1. set_solver.
    + destruct (IH h buf1 (need - zlen (data_of h p)) Hh Hob Hnd Ho1)
        as (ps' & buf' & h' & Hrun & He & Hok & Hsub & Ho' & Hd' & Hin & Hv' & Hvb').
      { rewrite Hbl1. intros q Hq. rewrite elem_of_app, list_elem_of_singleton.
        intros [Hq'| ->]; [|done]. by apply (Hdis q); [right|]. }
      { lia. }
      rewrite run_bind, Hrun. cbn beta iota. rewrite run_ret.
      exists ps', buf', h'. rewrite Hv1 in Hvb'.
      assert ((Z.to_nat need - length (data_of h p))%nat = Z.to_nat (need - zlen (data_of h p))) as Hsub' by (unfold zlen; lia).
      split_and!; [done| |done|by constructor|done|done| | |].
      * eapply ext_weaken; [|exact He]. rewrite Hbl1. set_solver.
      * intros q Hq. destruct (Hin q Hq) as [Hq'|[?|?]]; [|set_solver|by right; right].
        rewrite Hbl1 in Hq'. set_solver.
      * rewrite Hv'. rewrite drop_app_ge by (unfold zlen in *; lia). by rewrite Hsub'.
      * rewrite Hvb'. rewrite take_app_ge by (unfold zlen in *; lia). by rewrite Hsub', app_assoc.
  - assert (need < zlen (data_of h p)) as Hlt by (by rewrite Hdb).
    destruct (WriteBytes_spec h buffer (take (Z.to_nat need) (blk_data b)) Hh Hobuf) as (buf1 & h1 & Hw & Hwr).
    rewrite run_bind, Hw. cbn beta iota.
    pose proof (wr_ext _ _ _ _ _ _ Hwr) as He1.
    destruct (ext_view _ _ _ (p :: ps) He1 Hh (Forall_cons_2 _ _ _ Hp Hob)) as [Hv1 Hok1].
    { intros q Hq. by apply Hdis. }
    apply Forall_cons in Hok1 as [Hp1 Hok1]. rewrite !view_cons in Hv1.
    assert (data_of h1 p = data_of h p) as Hd1.
    { unfold data_of. destruct He1 as [_ _ ->]; [done|set_solver|by eapply block_ok_fresh]. }
    destruct (Block_ReadBytes_spec h1 p need (ext_ok _ _ _ He1) Hp1 ltac:(lia)) as (h2 & Hr & He2 & Hb2 & Hd2).
    rewrite run_bind, Hr. cbn beta iota. rewrite run_ret. cbn beta iota. rewrite Z.eqb_refl, run_ret.
    assert (∀ q, q ∈ blocks_ buf1 → q ∉ [p]) as Hbp.
    { intros q Hq Hqp. apply list_elem_of_singleton in Hqp as ->.
      destruct (wrote_in _ _ _ _ _ _ _ Hwr Hq) as [Hq'|Hq'].
      - by apply (Hdis p); [left|].
      - pose proof (block_ok_fresh _ _ Hh Hp). lia. }
    destruct (ext_owns _ _ _ _ He2 (ext_ok _ _ _ He1) (wr_owns _ _ _ _ _ _ Hwr) Hbp) as [Ho2 Hv2].
    destruct (ext_view _ _ _ ps He2 (ext_ok _ _ _ He1) Hok1) as [Hv3 Hok2]; [set_solver|].
    exists (p :: ps), buf1, h2. split_and!; [done| | |done|done| | | |].
    + eapply ext_trans_new; [eapply ext_weaken; [|exact He1]; set_solver|exact He2|]. set_solver.
    + by constructor.
    + intros q Hq Hq'. destruct (wrote_in _ _ _ _ _ _ _ Hwr Hq') as [Hq2|Hq2]; [by apply (Hdis q)|].
      pose proof (blocks_fresh h (p :: ps) q Hh (Forall_cons_2 _ _ _ Hp Hob) Hq). lia.
    + intros q Hq. destruct (wrote_in _ _ _ _ _ _ _ Hwr Hq) as [?|?]; [by left|by right; right].
    + rewrite view_cons, Hd2, Hd1, Hv3. rewrite drop_app_le by (unfold zlen in *; lia). f_equal.
      rewrite Hd1 in Hv1. by apply app_inv_head in Hv1.
    + rewrite Hv2, (wr_view _ _ _ _ _ _ Hwr). f_equal. rewrite take_app_le by (unfold zlen in *; lia). by rewrite Hdb.
Qed.

(** ReadBuffer moves the first bytes from one buffer to another. *)
Theorem ReadBuffer_spec h mb buffer len :
  heap_ok h → owns h mb → owns h buffer → apart mb buffer → 0 ≤ len ≤ size_ mb →
  ∃ mb' buffer' h', ReadBuffer mb buffer len h = Ok ((true, mb', buffer'), h') ∧
    ext (blocks_ buffer ++ blocks_ mb) h h' ∧ owns h' mb' ∧ owns h' buffer' ∧ apart mb' buffer' ∧
    blocks_ mb' `sublist_of` blocks_ mb ∧
    (∀ p, p ∈ blocks_ buffer' → p ∈ blocks_ buffer ∨ p ∈ blocks_ mb ∨ (fresh_ptr h ≤ p)%nat) ∧
    view h' (blocks_ mb') = drop (Z.to_nat len) (view h (blocks_ mb)) ∧
    view h' (blocks_ buffer') = view h (blocks_ buffer) ++ take (Z.to_nat len) (view h (blocks_ mb)).
Proof.
  intros Hh [Hob Hnd Hs] Hobuf Hap Hl. unfold ReadBuffer. rewrite (proj2 (Z.ltb_ge _ _)) by lia.
  destruct (move_blocks_spec (blocks_ mb) h buffer len Hh Hob Hnd Hobuf Hap ltac:(lia))
    as (ps & buf' & h' & Hrun & He & Hok & Hsub & Ho' & Hd & Hin & Hv & Hvb).
  rewrite run_bind, Hrun. cbn beta iota. rewrite run_ret.
  exists (mkMem (size_ mb - len) ps), buf', h'. split_and!; try done.
  split; simpl; [done|by eapply sublist_NoDup|]. rewrite Hv, Hs. by rewrite zlen_drop by lia.
Qed.

(** ** Copying and appending *)
Lemma seek_spec ps : ∀ h remain,
  Forall (block_ok h) ps → 0 ≤ remain < zlen (view h ps) → zlen (view h ps) < 2 ^ 31 →
  ∃ p rest bp, seek ps remain h = Ok ((p :: rest, bp), h) ∧ Forall (block_ok h) (p :: rest) ∧
    0 ≤ bp ≤ zlen (data_of h p) ∧
    drop (Z.to_nat remain) (view h ps) = drop (Z.to_nat bp) (view h (p :: rest)).
Proof.
  induction ps as [|p ps IH]; intros h remain Hob Hr Hsz; [by unfold zlen, view in Hr; simpl in Hr; lia|].
  apply Forall_cons in Hob as [Hp Hob]. pose proof Hp as (b & Hb & Hs & Hfl).
  pose proof (data_of_load _ _ _ Hb) as Hd. rewrite view_cons in *. rewrite zlen_app in *.
  cbn [seek]. rewrite run_bind, (run_load _ _ _ Hb). cbn beta iota.
  assert (buffer_size b = zlen (data_of h p)) as Hbs by (by rewrite Hd). rewrite Hbs in *.
  pose proof (zlen_nonneg (data_of h p)). pose proof (zlen_nonneg (view h ps)).
  assert (s32 (u64 (zlen (data_of h p) - remain)) = zlen (data_of h p) - remain) as ->.
  { apply (in_s_mod_inj 32); [lia|by apply swrap_range|unfold in_s; change (32 - 1) with 31; lia|].
    rewrite swrap_mod by lia. unfold uwrap. rewrite <-Znumtheory.Zmod_div_mod; try lia.
    by exists (2 ^ 32). }
  destruct (Z.ltb_spec 0 (zlen (data_of h p) - remain)) as [Hlt|Hge].
  - exists p, ps, remain. rewrite run_ret. rewrite view_cons. split_and!; try done; [by constructor|lia|lia].
  - rewrite uwrap_id by (unfold in_u; lia).
    destruct (IH h (remain - zlen (data_of h p)) Hob) as (q & rest & bp & Hrun & Hok & Hbp & Hv); [lia|lia|].
    exists q, rest, bp. split_and!; try done; [lia|lia|]. rewrite <-Hv.
    rewrite drop_app_ge by (unfold zlen in *; lia). f_equal. unfold zlen. lia.
Qed.

Lemma copy_from_spec ps : ∀ h bp need,
  Forall (block_ok h) ps →
  0 ≤ need ≤ zlen (drop (Z.to_nat bp) (view h ps)) →
  match ps with [] => True | p :: _ => 0 ≤ bp ≤ zlen (data_of h p) end →
  copy_from ps bp need h = Ok (take (Z.to_nat need) (drop (Z.to_nat bp) (view h ps)), h).
Proof.
  induction ps as [|p ps IH]; intros h bp need Hob Hn Hbp.
  { simpl. unfold view. simpl. by rewrite drop_nil, take_nil. }
  apply Forall_cons in Hob as [Hp Hob]. pose proof Hp as (b & Hb & Hs & Hfl).
  pose proof (data_of_load _ _ _ Hb) as Hd. rewrite view_cons in *.
  assert (buffer_size b = zlen (data_of h p)) as Hbs by (by rewrite Hd).
  rewrite (drop_app_le (data_of h p)) in * by (unfold zlen in *; lia).
  set (d := drop (Z.to_nat bp) (data_of h p)) in *.
  assert (zlen d = zlen (data_of h p) - bp) as Hzd by (unfold d; by rewrite zlen_drop).
  assert (Block_CopyBytes p bp need h = Ok (take (Z.to_nat need) d, h)) as Hc.
  { unfold Block_CopyBytes. rewrite run_bind, (run_load _ _ _ Hb). cbn beta iota. rewrite Hbs, <-Hd. fold d.
    rewrite (proj2 (Z.ltb_ge _ _)) by lia. simpl. destruct (Z.eqb_spec need 0) as [->|]; [done|].
    rewrite run_ret. do 2 f_equal. destruct (Z.ltb_spec need (zlen (data_of h p) - bp)); [done|].
    rewrite !take_ge by (unfold zlen in *; lia). done. }
  cbn [copy_from]. rewrite run_bind, Hc. cbn beta iota. rewrite zlen_app in Hn.
  destruct (Z.eqb_spec (zlen (take (Z.to_nat need) d)) need) as [Hz|Hz].
  - rewrite run_ret. rewrite take_app_le; [done|]. unfold zlen in *. rewrite length_take in Hz. lia.
  - assert (zlen d < need) as Hlt by (unfold zlen in *; rewrite length_take in Hz; lia).
    rewrite (take_ge d) by (unfold zlen in *; lia).
    rewrite run_bind, (IH h 0 (need - zlen d) Hob).
    + cbn beta iota. rewrite run_ret. simpl. do 2 f_equal. rewrite take_app_ge by (unfold zlen in *; lia).
      do 2 f_equal. unfold zlen in *. lia.
    + change (Z.to_nat 0) with 0%nat. rewrite drop_0. lia.
    + destruct ps; [done|]. split; [lia|apply zlen_nonneg].
Qed.

(** CopyBytes reads the bytes at a position without changing anything, and
    fails when there are too few, for buffers below 2^31 bytes. *)
Theorem CopyBytes_spec h mb pos len :
  owns h mb → 0 ≤ pos ≤ size_ mb → 0 < len → pos + len < 2 ^ 64 → size_ mb < 2 ^ 31 →
  CopyBytes mb pos len h =
    Ok (if pos + len <=? size_ mb
        then Some (take (Z.to_nat len) (drop (Z.to_nat pos) (view h (blocks_ mb)))) else None, h).
Proof.
  intros [Hob Hnd Hs] Hpos Hl Hov Hsz. unfold CopyBytes. rewrite uwrap_id by (unfold in_u; lia).
  destruct (Z.leb_spec (pos + len) (size_ mb)) as [Hle|Hgt].
  - rewrite (proj2 (Z.ltb_ge _ _)) by lia. unfold CopyBytes_avail.
    rewrite (proj2 (Z.leb_gt _ _)) by lia. rewrite uwrap_id by (unfold in_u; lia).
    rewrite (proj2 (Z.ltb_ge _ _)) by lia. rewrite !run_bind. unfold GetPostion.
    rewrite (proj2 (Z.leb_gt _ _)) by lia.
    destruct (seek_spec (blocks_ mb) h pos Hob) as (p & rest & bp & -> & Hok & Hbp & Hv); [lia|lia|].
    cbn beta iota. rewrite Hv, (copy_from_spec (p :: rest) h bp len Hok); [done| |done].
    rewrite <-Hv, zlen_drop by lia. lia.
  - rewrite (proj2 (Z.ltb_lt _ _)) by lia. done.
Qed.

Lemma to_string_spec enc h ps : Forall (block_ok h) ps → to_string enc ps h = Ok (view h ps, h).
Proof.
  induction 1 as [|p ps (b & Hb & Hs & Hfl) Hob IH]; cbn [to_string]; [done|].
  rewrite run_bind, (run_load _ _ _ Hb). cbn beta iota. rewrite run_bind, IH. cbn beta iota.
  by rewrite Hfl, view_cons, (data_of_load _ _ _ Hb).
Qed.
Lemma ToString_spec enc h mb : owns h mb → ToString enc mb h = Ok (view h (blocks_ mb), h).
Proof. intros [Hob _ _]. by apply to_string_spec. Qed.

Lemma AppendBuffer_spec h a b :
  owns h a → owns h b → apart a b →
  owns h (AppendBuffer a b) ∧
  view h (blocks_ (AppendBuffer a b)) = view h (blocks_ a) ++ view h (blocks_ b).
Proof.
  intros [Ha1 Ha2 Ha3] [Hb1 Hb2 Hb3] Hap. simpl. split; [|by rewrite view_app]. split; simpl.
  - by apply Forall_app.
  - by apply NoDup_app.
  - by rewrite view_app, zlen_app, Ha3, Hb3.
Qed.

Lemma owns_create h : owns h CreateMemBuffer.
Proof. split; simpl; constructor. Qed.

(** Appending shares the blocks: bytes written to the sum afterwards may end up
    in the last block of the buffer that was appended, whose size does not
    know about them. *)
Theorem append_aliases h a b v :
  heap_ok h → owns h a → owns h b → apart a b →
  (0 < zlen v ≤ DEFAULT_BLOCK_SIZE - zlen (data_of h (default 0%nat (last (blocks_ b))))) → blocks_ b ≠ [] →
  ∃ mb' h', WriteBytes (AppendBuffer a b) v h = Ok (mb', h') ∧
    view h' (blocks_ b) = view h (blocks_ b) ++ v ∧ ¬ owns h' b.
Proof.
  intros Hh Ha Hb Hap Hv Hne. destruct b as [sz bl]. simpl in *.
  destruct bl as [|p ps _] using rev_ind; [done|]. clear Hne. rewrite last_snoc in Hv. simpl in Hv.
  pose proof Hb as [Hob Hnd Hs]. simpl in *. apply Forall_app in Hob as [Hob1 Hob2].
  apply (proj1 (Forall_singleton _ _)) in Hob2. pose proof Hob2 as (bb & Hbb & Hsz & _).
  rewrite (data_of_load _ _ _ Hbb) in Hv. pose proof (zlen_nonneg (blk_data bb)).
  destruct (Block_WriteBytes_spec h p v Hh Hob2) as (h1 & Hw & He & Hb1 & Hd).
  rewrite (data_of_load _ _ _ Hbb) in Hw, Hd. cbv zeta in *. rewrite Z.min_l in Hw, Hd by lia.
  rewrite take_ge in Hd by (unfold zlen; lia).
  assert (∀ q, q ∈ ps → q ∉ [p]) as Hdis by (apply NoDup_app in Hnd; naive_solver).
  assert (view h1 (ps ++ [p]) = view h (ps ++ [p]) ++ v) as Hview.
  { destruct (ext_view _ _ _ ps He Hh Hob1 Hdis) as [Hvw _].
    rewrite !view_app, Hvw, !view_cons, Hd, (data_of_load _ _ _ Hbb). simpl. by rewrite !app_nil_r, app_assoc. }
  exists (mkMem (size_ a + sz + zlen v) (blocks_ a ++ ps ++ [p])), h1. split_and!; [|done|].
  - unfold WriteBytes. cbn [AppendBuffer size_ blocks_].
    rewrite (proj2 (Z.ltb_ge _ _)) by (unfold BIG_WRITE, DEFAULT_BLOCK_SIZE in *; lia).
    rewrite app_assoc, last_snoc, run_bind, (run_load _ _ _ Hbb). cbn beta iota. rewrite run_bind.
    unfold Block_RemainSize, buffer_size. rewrite (proj2 (Z.eqb_neq _ 0)) by lia. cbn [negb].
    rewrite run_bind, Hw. cbn beta iota. rewrite run_ret. cbn beta iota.
    by rewrite (proj2 (Z.ltb_ge _ _)) by lia.
  - intros [_ _ Hs']. simpl in Hs'. rewrite Hview, zlen_app in Hs'. lia.
Qed.
