(* ===== verification/Base64.v ===== *)
(** * Base64

    src/lib_bsp/eventservice/util/base64.cpp: the encoders for arrays and for
    block buffers, and the decoder.  Bytes and characters are numbers below 256.
    What a block holds behind its bytes is an argument, because one encoder
    reads it. *)

From S2P Require Import Prelude MemBuffer.
From Stdlib Require Import Ascii.
#[local] Open Scope Z_scope.

Definition kPad : Z := 61.
Definition pd : Z := 253.
Definition sp : Z := 254.
Definition il : Z := 255.
Definition codes (s : string) : list Z := (λ a, Z.of_N (N_of_ascii a)) <$> String.list_ascii_of_string s.
Definition Base64Table : list Z := Eval vm_compute in
  codes "ABCDEFGHIJKLMNOPQRSTUVWXYZabcdefghijklmnopqrstuvwxyz0123456789+/".
Definition DecodeTable : list Z := Eval vm_compute in
  replicate 9 il ++ replicate 5 sp ++ replicate 18 il ++ [sp] ++ replicate 10 il ++ [62] ++ replicate 3 il ++ [63]
  ++ seqZ 52 10 ++ replicate 3 il ++ [pd] ++ replicate 3 il ++ seqZ 0 26 ++ replicate 6 il ++ seqZ 26 26
  ++ replicate 133 il.
Definition letter (c : Z) : Z := default 0 (Base64Table !! Z.to_nat c).
Definition decode_char (ch : Z) : Z := default 0 (DecodeTable !! Z.to_nat ch).

Definition IsBase64Char (ch : Z) : bool :=
  ((65 <=? ch) && (ch <=? 90)) || ((97 <=? ch) && (ch <=? 122)) || ((48 <=? ch) && (ch <=? 57))
  || (ch =? 43) || (ch =? 47) || (ch =? 61).
Definition IsBase64Encoded (str : list Z) : bool := forallb IsBase64Char str.
(** strchr finds the end of the table for the character 0, and the one after it
    is read. *)
Fixpoint strchr (l : list Z) (ch : Z) : option (list Z) :=
  match l with
  | [] => if ch =? 0 then Some [] else None
  | c :: l' => if ch =? c then Some l else strchr l' ch
  end.
Definition GetNextBase64Char (ch : Z) : res (option Z) :=
  match strchr Base64Table ch with
  | None => Ok None
  | Some [] => Ub UB_OutOfBounds
  | Some [_] => Ok (Some (letter 0))
  | Some (_ :: c :: _) => Ok (Some c)
  end.

Definition CalcDstSize (src_data_size : Z) : Z := u32 (u32 (src_data_size + 2) / 3 * 4).
Definition CalcSrcSize (dst_data_size : Z) : Z :=
  let src_size := u32 (dst_data_size * 3) / 4 in src_size - src_size mod 3.

(** ** Encoding *)

(** One round of the loop all encoders have: up to three bytes from [i] on, the
    later ones if they are below [lim]. *)
Definition quantum (byte : nat → res Z) (lim i : nat) : res (nat * list Z) :=
  b0 ← byte i;
  let c1 := Z.land (Z.shiftr b0 2) 63 in
  let c2 := Z.land (Z.shiftl b0 4) 63 in
  let i := S i in
  c2 ← (if (i <? lim)%nat then b1 ← byte i; Ok (Z.lor c2 (Z.land (Z.shiftr b1 4) 15)) else Ok c2);
  '(i, o3) ← (if (i <? lim)%nat then
                b1 ← byte i;
                let c3 := Z.land (Z.shiftl b1 2) 63 in
                let i := S i in
                c3 ← (if (i <? lim)%nat then b2 ← byte i; Ok (Z.lor c3 (Z.land (Z.shiftr b2 6) 3)) else Ok c3);
                Ok (i, letter c3)
              else Ok (i, kPad));
  '(i, o4) ← (if (i <? lim)%nat then b2 ← byte i; Ok (S i, letter (Z.land b2 63)) else Ok (i, kPad));
  Ok (i, [letter c1; letter c2; o3; o4]).

(** What was written so far is [out], and [cap] characters have room. *)
Definition put (cap : Z) (out cs : list Z) : res (list Z) :=
  if zlen out + zlen cs <=? cap then Ok (out ++ cs) else Ub UB_OutOfBounds.
Fixpoint encode_loop (fuel : nat) (byte : nat → res Z) (stop lim : nat) (cap : Z) (i : nat) (out : list Z) : res (list Z) :=
  match fuel with
  | O => Ub UB_Diverges
  | S fuel' =>
      if (i <? stop)%nat then
        '(i, cs) ← quantum byte lim i; out ← put cap out cs; encode_loop fuel' byte stop lim cap i out
      else Ok out
  end.
Definition array_byte (data : list Z) (i : nat) : res Z :=
  match data !! i with Some b => Ok b | None => Ub UB_OutOfBounds end.
Definition encoded_size (len : nat) : Z := (Z.of_nat len + 2) / 3 * 4.

(** Into a buffer of [buf_size] characters; [data] is None for a null pointer.
    What is returned, and what was written. *)
Definition EncodeFromArray (data : option (list Z)) (len : nat) (buf_size : Z) : res (Z * list Z) :=
  match data with
  | None => Ok (-1, [])
  | Some bytes =>
      if (len =? 0)%nat || (u64 buf_size <? encoded_size len) then Ok (-1, [])
      else
        out ← encode_loop (S len) (array_byte bytes) len len (u64 buf_size) 0 [];
        Ok (s32 (encoded_size len), out)
  end.

Definition resize (n : nat) (s : list Z) : list Z := take n s ++ replicate (n - length s) 0.
Definition EncodeFromArray_string (data : option (list Z)) (len : nat) : res (list Z) :=
  let buf_size := s32 (encoded_size len) in
  if buf_size <? 0 then Ub UB_Uncaught
  else
    '(_, out) ← EncodeFromArray data len buf_size;
    Ok (out ++ drop (length out) (resize (Z.to_nat buf_size) [])).

(** Base64::Encode *)
Definition Encode (data : list Z) : res (list Z) := EncodeFromArray_string (Some data) (length data).

Section blocks.
(** The bytes of a block behind those it holds. *)
Context (stale : nat → nat → Z).

Definition block_byte (p : nat) (b : Block) (j : nat) : res Z :=
  match blk_data b !! j with
  | Some x => Ok x
  | None => if Z.of_nat j <? DEFAULT_BLOCK_SIZE then Ok (stale p j) else Ub UB_OutOfBounds
  end.
(** A block buffer, into a text from [offset] on; the position in a block is
    compared with the size of the whole buffer. *)
Fixpoint encode_blocks (ps : list nat) (i nData : nat) (cap : Z) (out : list Z) : H (list Z) :=
  match ps with
  | [] => mret out
  | p :: ps' =>
      if (i <? nData)%nat then
        b ← load p;
        let n := length (blk_data b) in
        out ← lift (encode_loop (S n) (block_byte p b) n nData cap 0 out);
        encode_blocks ps' (i + n)%nat nData cap out
      else mret out
  end.
Definition EncodeFromArray_mem (data : MemBuffer) (result : list Z) (offset : nat) : H (list Z) :=
  let nData := Z.to_nat (size_ data) in
  let result := resize (offset + Z.to_nat (encoded_size nData)) result in
  out ← encode_blocks (blocks_ data) 0 nData (encoded_size nData) [];
  mret (take offset result ++ out ++ drop (offset + length out) result).

(** The blocks from [start_block] to [end_block]. *)
Fixpoint encode_range (ps : list nat) (count start_block end_block : Z) (src_total_size cap : Z) (out : list Z) : H (Z * list Z) :=
  match ps with
  | [] => mret (src_total_size, out)
  | p :: ps' =>
      if (count <? start_block) || (end_block <? count) then mret (src_total_size, out)
      else
        b ← load p;
        let n := length (blk_data b) in
        out ← lift (encode_loop (S n) (array_byte (blk_data b)) n n cap 0 out);
        encode_range ps' (u32 (count + 1)) start_block end_block (u32 (src_total_size + buffer_size b)) cap out
  end.
Definition EncodeFromArray_range (data : MemBuffer) (start_block end_block : Z) : H (list Z) :=
  let blocks_len := u32 ((end_block - start_block + 1) * DEFAULT_BLOCK_SIZE) in
  let result := resize (Z.to_nat (CalcDstSize blocks_len)) [] in
  '(src_total_size, out) ← encode_range (blocks_ data) 0 start_block end_block 0 (zlen result) [];
  mret (resize (Z.to_nat (CalcDstSize src_total_size)) (out ++ drop (length out) result)).
End blocks.

(** An array into a block buffer, a segment per block; the position is moved on
    by i segments before segment i. *)
Definition max_seg_len : Z := DEFAULT_BLOCK_SIZE / 4 * 3.
Definition offset_byte (data : list Z) (pos : Z) (j : nat) : res Z := array_byte data (Z.to_nat pos + j).
Fixpoint encode_segments (n : nat) (data : list Z) (i pos left_len : Z) (result : MemBuffer) : H MemBuffer :=
  match n with
  | O => mret result
  | S n' =>
      p ← TakeBlock;
      let pos := pos + u32 (i * max_seg_len) in
      let left_len := u32 (left_len - u32 (i * max_seg_len)) in
      let curr_seg_len := Z.to_nat (if max_seg_len <? left_len then max_seg_len else left_len) in
      out ← lift (encode_loop (S curr_seg_len) (offset_byte data pos) curr_seg_len curr_seg_len DEFAULT_BLOCK_SIZE 0 []);
      store p (mkBlk out false);;
      result ← AppendBlock result p;
      encode_segments n' data (i + 1) pos left_len result
  end.
Definition EncodeFromArray_blocks (data : list Z) (result : MemBuffer) : H MemBuffer :=
  let len := zlen data in
  let seg_num := if negb (len mod max_seg_len =? 0) then u32 (len / max_seg_len + 1) else u32 (len / max_seg_len) in
  encode_segments (Z.to_nat seg_num) data 0 0 (u32 len) result.

(** ** Decoding *)
Definition DO_PARSE_STRICT : Z := 1.
Definition DO_PARSE_WHITE : Z := 2.
Definition DO_PARSE_ANY : Z := 3.
Definition DO_PARSE_MASK : Z := 3.
Definition DO_PAD_YES : Z := 4.
Definition DO_PAD_ANY : Z := 8.
Definition DO_PAD_NO : Z := 12.
Definition DO_PAD_MASK : Z := 12.
Definition DO_TERM_BUFFER : Z := 16.
Definition DO_TERM_CHAR : Z := 32.
Definition DO_TERM_ANY : Z := 48.
Definition DO_TERM_MASK : Z := 48.
Definition DO_STRICT : Z := Z.lor (Z.lor DO_PARSE_STRICT DO_PAD_YES) DO_TERM_BUFFER.
Definition DO_LAX : Z := Z.lor (Z.lor DO_PARSE_ANY DO_PAD_ANY) DO_TERM_CHAR.

(** The state of GetNextQuantum: the values in qbuf, the pads, where they start,
    the position. *)
Record Quantum := mkQuantum { qbuf : list Z; pad_len : nat; pad_start : nat; dpos : nat }.
Definition byte_len (q : Quantum) : nat := length (qbuf q).
Definition skip_char (q : Quantum) : Quantum := mkQuantum (qbuf q) (pad_len q) (pad_start q) (S (dpos q)).
(** One round of its loop; None is the break. *)
Definition take_char (parse_flags : Z) (illegal_pads : bool) (ch : Z) (q : Quantum) : option Quantum :=
  let v := decode_char ch in
  let ignore_or_break := if parse_flags =? DO_PARSE_ANY then Some (skip_char q) else None in
  if (v =? il) || (illegal_pads && (v =? pd)) then ignore_or_break
  else if v =? sp then if parse_flags =? DO_PARSE_STRICT then None else Some (skip_char q)
  else if v =? pd then
    if (byte_len q <? 2)%nat then ignore_or_break
    else if (4 <=? byte_len q + pad_len q)%nat then ignore_or_break
    else Some (mkQuantum (qbuf q) (S (pad_len q)) (if (pad_len q =? 0)%nat then dpos q else pad_start q) (S (dpos q)))
  else if (0 <? pad_len q)%nat && negb (parse_flags =? DO_PARSE_ANY) then None
  else Some (mkQuantum (qbuf q ++ [v]) 0 (pad_start q) (S (dpos q))).
(** [rest]: the characters from the position on *)
Fixpoint quantum_loop (parse_flags : Z) (illegal_pads : bool) (rest : list Z) (q : Quantum) : Quantum :=
  match rest with
  | [] => q
  | ch :: rest' =>
      if (byte_len q <? 4)%nat then
        match take_char parse_flags illegal_pads ch q with
        | Some q' => quantum_loop parse_flags illegal_pads rest' q'
        | None => q
        end
      else q
  end.
(** The number of values, the four entries of qbuf, whether the quantum is
    complete with its pads, and the position. *)
Definition GetNextQuantum (parse_flags : Z) (illegal_pads : bool) (data : list Z) (pos : nat) : nat * (Z * Z * Z * Z) * bool * nat :=
  let q := quantum_loop parse_flags illegal_pads (drop pos data) (mkQuantum [] 0 0 pos) in
  let at_ i := default 0 (qbuf q !! i) in
  let padded := (4 =? byte_len q + pad_len q)%nat in
  (byte_len q, (at_ 0%nat, at_ 1%nat, at_ 2%nat, at_ 3%nat), padded,
   if negb padded && (0 <? pad_len q)%nat then pad_start q else dpos q).

(** The bytes of a quantum, and the bits that are left in c. *)
Definition quantum_bytes (qlen : nat) (q : Z * Z * Z * Z) : list Z * Z :=
  let '(q0, q1, q2, q3) := q in
  let c0 := u8 (Z.lor (Z.shiftl q0 2) (Z.land (Z.shiftr q1 4) 3)) in
  if (2 <=? qlen)%nat then
    let c1 := u8 (Z.lor (Z.land (Z.shiftl q1 4) 240) (Z.land (Z.shiftr q2 2) 15)) in
    if (3 <=? qlen)%nat then
      let c2 := u8 (Z.lor (Z.land (Z.shiftl q2 6) 192) q3) in
      if (4 <=? qlen)%nat then ([c0; c1; c2], 0) else ([c0; c1], c2)
    else ([c0], c1)
  else ([], c0).

(** The success, the bytes and the position. *)
Fixpoint decode_loop (fuel : nat) (parse_flags pad_flags term_flags : Z) (data : list Z) (pos : nat) (result : list Z) : res (bool * list Z * nat) :=
  match fuel with
  | O => Ub UB_Diverges
  | S fuel' =>
      if (pos <? length data)%nat then
        let '(qlen, q, padded, pos) := GetNextQuantum parse_flags (pad_flags =? DO_PAD_NO) data pos in
        let '(bytes, c) := quantum_bytes qlen q in
        let result := result ++ bytes in
        if (qlen <? 4)%nat then
          Ok (negb (negb (term_flags =? DO_TERM_ANY) && negb (c =? 0))
              && negb ((pad_flags =? DO_PAD_YES) && negb padded), result, pos)
        else decode_loop fuel' parse_flags pad_flags term_flags data pos result
      else Ok (true, result, pos)
  end.
Definition DecodeFromArray (data : list Z) (flags : Z) : res (bool * list Z * nat) :=
  let term_flags := Z.land flags DO_TERM_MASK in
  '(success, result, pos) ←
    decode_loop (S (length data)) (Z.land flags DO_PARSE_MASK) (Z.land flags DO_PAD_MASK) term_flags data 0 [];
  Ok (success && negb ((term_flags =? DO_TERM_BUFFER) && negb (pos =? length data)%nat), result, pos).
(** Base64::Decode, without the success *)
Definition Decode (data : list Z) (flags : Z) : res (list Z) :=
  '(_, result, _) ← DecodeFromArray data flags; Ok result.

Example encode_man : Encode (codes "Many hands") = Ok (codes "TWFueSBoYW5kcw==").
Proof. vm_compute. reflexivity. Qed.
Example decode_man : DecodeFromArray (codes "TWFueSBoYW5kcw==") DO_STRICT = Ok (true, codes "Many hands", 16%nat).
Proof. vm_compute. reflexivity. Qed.
