(* ===== verification/Base64Theorems.v ===== *)
(** * Encoding and decoding are inverse

    A reference encoder that takes three bytes at a time, the equivalence of the
    loops of Base64.v with it, and the texts the strict decoder accepts. *)

From S2P Require Import Prelude MemBuffer Base64.
#[local] Open Scope Z_scope.

Abbreviation byte := (in_u 8).
Abbreviation sextet := (in_u 6).

(** The encoding of three bytes is their number in base 64. *)
Fixpoint b64 (l : list Z) : list Z :=
  match l with
  | [] => []
  | [a] => [letter (a / 4); letter (a mod 4 * 16); kPad; kPad]
  | [a; b] => [letter (a / 4); letter (a mod 4 * 16 + b / 16); letter (b mod 16 * 4); kPad]
  | a :: b :: c :: l' =>
      letter (a / 4) :: letter (a mod 4 * 16 + b / 16) :: letter (b mod 16 * 4 + c / 64) :: letter (c mod 64) :: b64 l'
  end.

(** Induction by threes. *)
Lemma list_ind3 {A} (P : list A → Prop) :
  P [] → (∀ a, P [a]) → (∀ a b, P [a; b]) → (∀ a b c l, P l → P (a :: b :: c :: l)) → ∀ l, P l.
Proof.
  intros H0 H1 H2 H3 l. remember (length l) as n eqn:Hn. revert l Hn. induction (lt_wf n) as [n _ IH]. intros [|a [|b [|c l]]] ->; auto.
  apply H3. eapply IH; [|done]. simpl. lia.
Qed.

(** ** Finite checks *)
Lemma below1 m (P : Z → bool) : forallb P (seqZ 0 m) = true → ∀ a, 0 ≤ a < m → P a = true.
Proof. rewrite forallb_forall. intros H a Ha. apply H, list_elem_of_In, elem_of_seqZ. lia. Qed.
Lemma below2 m n (P : Z → Z → bool) :
  forallb (λ a, forallb (P a) (seqZ 0 n)) (seqZ 0 m) = true → ∀ a b, 0 ≤ a < m → 0 ≤ b < n → P a b = true.
Proof. intros H a b Ha Hb. by apply (below1 n (P a)); [apply (below1 m (λ a, forallb (P a) (seqZ 0 n)))|]. Qed.

(** What one round does with its bytes, as arithmetic. *)
Lemma first_bits a : byte a → Z.land (Z.shiftr a 2) 63 = a / 4.
Proof. intros Ha. apply Z.eqb_eq. revert a Ha. apply (below1 256). vm_compute. reflexivity. Qed.
Lemma second_bits a : byte a → Z.land (Z.shiftl a 4) 63 = a mod 4 * 16.
Proof. intros Ha. apply Z.eqb_eq. revert a Ha. apply (below1 256). vm_compute. reflexivity. Qed.
Lemma second_bits_or a b : byte a → byte b → Z.lor (Z.land (Z.shiftl a 4) 63) (Z.land (Z.shiftr b 4) 15) = a mod 4 * 16 + b / 16.
Proof. intros Ha Hb. apply Z.eqb_eq. revert a b Ha Hb. apply (below2 256 256). vm_compute. reflexivity. Qed.
Lemma third_bits a : byte a → Z.land (Z.shiftl a 2) 63 = a mod 16 * 4.
Proof. intros Ha. apply Z.eqb_eq. revert a Ha. apply (below1 256). vm_compute. reflexivity. Qed.
Lemma third_bits_or a b : byte a → byte b → Z.lor (Z.land (Z.shiftl a 2) 63) (Z.land (Z.shiftr b 6) 3) = a mod 16 * 4 + b / 64.
Proof. intros Ha Hb. apply Z.eqb_eq. revert a b Ha Hb. apply (below2 256 256). vm_compute. reflexivity. Qed.
Lemma fourth_bits a : byte a → Z.land a 63 = a mod 64.
Proof. intros _. by apply (Z.land_ones a 6). Qed.

(** What the decoder makes of its values. *)
Lemma first_byte a b : sextet a → sextet b → u8 (Z.lor (Z.shiftl a 2) (Z.land (Z.shiftr b 4) 3)) = a * 4 + b / 16.
Proof. intros Ha Hb. apply Z.eqb_eq. revert a b Ha Hb. apply (below2 64 64). vm_compute. reflexivity. Qed.
Lemma second_byte a b : sextet a → sextet b →
  u8 (Z.lor (Z.land (Z.shiftl a 4) 240) (Z.land (Z.shiftr b 2) 15)) = a mod 16 * 16 + b / 4.
Proof. intros Ha Hb. apply Z.eqb_eq. revert a b Ha Hb. apply (below2 64 64). vm_compute. reflexivity. Qed.
Lemma third_byte a b : sextet a → sextet b → u8 (Z.lor (Z.land (Z.shiftl a 6) 192) b) = a mod 4 * 64 + b.
Proof. intros Ha Hb. apply Z.eqb_eq. revert a b Ha Hb. apply (below2 64 64). vm_compute. reflexivity. Qed.

(** The tables *)
Lemma decode_letter c : sextet c → decode_char (letter c) = c.
Proof. intros Hc. apply Z.eqb_eq. revert c Hc. apply (below1 64). vm_compute. reflexivity. Qed.
Lemma letter_decode ch : byte ch →
  decode_char ch = il ∨ decode_char ch = sp ∨ (decode_char ch = pd ∧ ch = kPad) ∨
  (sextet (decode_char ch) ∧ letter (decode_char ch) = ch).
Proof.
  intros Hc. assert ((decode_char ch =? il) || (decode_char ch =? sp) || ((decode_char ch =? pd) && (ch =? kPad))
    || ((0 <=? decode_char ch) && (decode_char ch <? 64) && (letter (decode_char ch) =? ch)) = true) as H.
  { revert ch Hc. apply (below1 256). vm_compute. reflexivity. }
  unfold in_u. rewrite !orb_true_iff, !andb_true_iff, !Z.eqb_eq, Z.leb_le, Z.ltb_lt in H. change (2 ^ 6) with 64. tauto.
Qed.
Lemma letter_byte c : sextet c → byte (letter c).
Proof.
  intros Hc. assert ((0 <=? letter c) && (letter c <? 256) = true) as H.
  { revert c Hc. apply (below1 64). vm_compute. reflexivity. }
  apply andb_true_iff in H as [H1%Z.leb_le H2%Z.ltb_lt]. by split.
Qed.

Ltac bits := unfold in_u in *; change (2 ^ 8) with 256 in *; change (2 ^ 6) with 64 in *; Z.div_mod_to_equations; lia.

Ltac sextets := repeat (apply Forall_cons_2; [bits|]); by apply Forall_nil_2.

(** ** The encoders *)
Lemma zlen_b64 l : zlen (b64 l) = encoded_size (length l).
Proof.
  unfold encoded_size. induction l as [|a|a b|a b c l IH] using list_ind3; try done.
  unfold zlen in *. cbn [b64 length]. rewrite !Nat2Z.inj_succ, IH. Z.div_mod_to_equations. lia.
Qed.
Lemma b64_app x y : (length x mod 3 = 0)%nat → b64 (x ++ y) = b64 x ++ b64 y.
Proof.
  induction x as [|a|a b|a b c x IH] using list_ind3; try done. intros H. cbn [app b64]. rewrite IH; [done|].
  change (length (a :: b :: c :: x)) with (3 + length x)%nat in H. by rewrite Nat.add_mod, Nat.Div0.add_mod_idemp_r in H by done.
Qed.

Lemma put_run cap out cs : zlen out + zlen cs ≤ cap → put cap out cs = Ok (out ++ cs).
Proof. intros H. unfold put. rewrite (proj2 (Z.leb_le _ _)); done. Qed.

(** A round with three bytes, two, and one. *)
Lemma quantum_3 bt lim i a b c : byte a → byte b → byte c → bt i = Ok a → bt (S i) = Ok b → bt (S (S i)) = Ok c → (S (S i) < lim)%nat →
  quantum bt lim i = Ok (S (S (S i)), b64 [a; b; c]).
Proof.
  intros Ha Hb Hc H0 H1 H2 Hl. unfold quantum. rewrite H0. cbn [mbind res_bind]. rewrite (proj2 (Nat.ltb_lt (S i) _)) by lia. rewrite H1. cbn [mbind res_bind].
  rewrite (proj2 (Nat.ltb_lt (S (S i)) _)) by lia. rewrite H2. cbn [mbind res_bind]. rewrite (proj2 (Nat.ltb_lt (S (S i)) _)) by lia. rewrite H2. cbn [mbind res_bind].
  by rewrite first_bits, second_bits_or, third_bits_or, fourth_bits.
Qed.
Lemma quantum_2 bt i a b : byte a → byte b → bt i = Ok a → bt (S i) = Ok b →
  quantum bt (S (S i)) i = Ok (S (S i), b64 [a; b]).
Proof.
  intros Ha Hb H0 H1. unfold quantum. rewrite H0. cbn [mbind res_bind]. rewrite (proj2 (Nat.ltb_lt (S i) _)) by lia. rewrite H1. cbn [mbind res_bind].
  rewrite Nat.ltb_irrefl. cbn [mbind res_bind]. rewrite Nat.ltb_irrefl. cbn [mbind res_bind]. by rewrite first_bits, second_bits_or, third_bits.
Qed.
Lemma quantum_1 bt i a : byte a → bt i = Ok a → quantum bt (S i) i = Ok (S i, b64 [a]).
Proof.
  intros Ha H0. unfold quantum. rewrite H0. cbn [mbind res_bind]. rewrite Nat.ltb_irrefl. cbn [mbind res_bind]. rewrite Nat.ltb_irrefl. cbn [mbind res_bind].
  by rewrite first_bits, second_bits.
Qed.

(** The loop, when the bytes from [i] on are those of [rest]. *)
Definition covers (stop lim i n : nat) : Prop :=
  (lim = stop ∧ stop = i + n)%nat ∨ (n mod 3 = 0 ∧ stop ≤ i + n < stop + 3 ∧ i + n ≤ lim)%nat.
Lemma loop_run fuel bt stop lim cap i out rest :
  Forall byte rest → (∀ j x, rest !! j = Some x → bt (i + j)%nat = Ok x) → covers stop lim i (length rest) →
  zlen out + zlen (b64 rest) ≤ cap → (length rest + 3 <= 3 * fuel)%nat →
  encode_loop fuel bt stop lim cap i out = Ok (out ++ b64 rest).
Proof.
  intros Hb Hj. revert fuel i out Hb Hj. induction rest as [|a|a b|a b c rest IH] using list_ind3; intros [|fuel] i out Hb Hj Hs Hc Hf; try (simpl in Hf; lia).
  - cbn [encode_loop b64]. rewrite (proj2 (Nat.ltb_ge _ _)) by (unfold covers in Hs; simpl in Hs; lia). by rewrite app_nil_r.
  - destruct Hs as [[-> ->]|[? _]]; [|done]. cbn [length] in *. rewrite (Nat.add_1_r i). cbn [encode_loop]. rewrite (proj2 (Nat.ltb_lt _ _)) by lia.
    apply Forall_cons in Hb as [Ha _]. rewrite (quantum_1 _ _ a); [|done|by rewrite <-(Hj 0%nat a), Nat.add_0_r]. cbn [mbind res_bind].
    rewrite put_run by done. cbn [mbind res_bind]. destruct fuel; [lia|]. cbn [encode_loop]. by rewrite Nat.ltb_irrefl.
  - destruct Hs as [[-> ->]|[? _]]; [|done]. cbn [length] in *. replace (i + 2)%nat with (S (S i)) by lia. cbn [encode_loop]. rewrite (proj2 (Nat.ltb_lt _ _)) by lia.
    do 2 (apply Forall_cons in Hb as [? Hb]). rewrite (quantum_2 _ _ a b); [|done..|by rewrite <-(Hj 0%nat a), Nat.add_0_r|by rewrite <-(Hj 1%nat b), Nat.add_1_r]. cbn [mbind res_bind].
    rewrite put_run by done. cbn [mbind res_bind]. destruct fuel; [lia|]. cbn [encode_loop]. by rewrite Nat.ltb_irrefl.
  - cbn [length] in *. assert (i < stop ∧ S (S i) < lim)%nat as [Hi Hl] by (unfold covers in Hs; lia). cbn [encode_loop]. rewrite (proj2 (Nat.ltb_lt _ _)) by lia.
    do 3 (apply Forall_cons in Hb as [? Hb]). rewrite (quantum_3 _ _ _ a b c); [|done..| | | |done].
    2: { by rewrite <-(Hj 0%nat a), Nat.add_0_r. } 2: { by rewrite <-(Hj 1%nat b), Nat.add_1_r. } 2: { rewrite <-(Hj 2%nat c) by done. f_equal. lia. }
    cbn [mbind res_bind]. unfold zlen in Hc. change (b64 (a :: b :: c :: rest)) with (b64 [a; b; c] ++ b64 rest) in *. rewrite length_app in Hc.
    rewrite put_run by (unfold zlen; lia). cbn [mbind res_bind]. rewrite IH, <-app_assoc; [done|done| | |unfold zlen; rewrite length_app; lia|lia].
    + intros j x Hx. rewrite <-(Hj (3 + j)%nat x) by done. f_equal. lia.
    + unfold covers in *. destruct Hs as [?|(Hm & ? & ?)]; [left; lia|right].
      change (S (S (S (length rest)))) with (3 + length rest)%nat in Hm. rewrite Nat.add_mod, Nat.Div0.add_mod_idemp_r in Hm by done. simpl (3 mod 3 + _)%nat in Hm. lia.
Qed.
Lemma covers_all n : covers n n 0 n.
Proof. left. lia. Qed.

Lemma string_run data len : Forall byte data → (len <= length data)%nat → encoded_size len < 2 ^ 31 →
  EncodeFromArray_string (Some data) len = Ok (b64 (take len data)).
Proof.
  intros Hb Hl Hs. set (l := take len data). assert (length l = len) as Hlen by by apply length_take_le.
  unfold EncodeFromArray_string, EncodeFromArray. pose proof (zlen_b64 l) as Hz. rewrite Hlen in Hz. pose proof (zlen_nonneg (b64 l)) as Hn.
  rewrite (swrap_id 32) by (unfold in_s; lia). rewrite (proj2 (Z.ltb_ge _ _)) by lia. rewrite (uwrap_id 64) by (unfold in_u; lia).
  rewrite Z.ltb_irrefl, orb_false_r. destruct (Nat.eqb_spec len 0) as [->|Hne]; [by unfold l|]. cbn [mbind res_bind].
  rewrite (loop_run _ _ _ _ _ _ [] l); [|by apply Forall_take| |rewrite Hlen; apply covers_all|rewrite Hz; unfold zlen; simpl; lia|lia].
  2: { intros j y Hy. unfold array_byte. apply lookup_take_Some in Hy as [Hy _]. simpl. by rewrite Hy. }
  cbn [mbind res_bind app]. rewrite drop_ge; [by rewrite app_nil_r|]. unfold resize. rewrite take_nil. cbn [app length]. rewrite length_replicate.
  unfold zlen in Hz. lia.
Qed.
Lemma encode_run (data : list Z) : Forall byte data → encoded_size (length data) < 2 ^ 31 → Encode data = Ok (b64 data).
Proof. intros Hb Hs. unfold Encode. rewrite string_run, take_ge by done. done. Qed.
Lemma b64_bytes l : Forall byte l → Forall byte (b64 l).
Proof.
  intros Hb. induction l as [|a|a b|a b c l IH] using list_ind3; [done|..]; repeat (apply Forall_cons in Hb as [? Hb]); cbn [b64];
    repeat (apply Forall_cons_2; [first [done|apply letter_byte; bits]|]); auto.
Qed.

(** ** The decoder *)

(** A value is taken when no pad came before it. *)
Lemma take_letter pf ip c q s d : sextet c → take_char pf ip (letter c) (mkQuantum q 0 s d) = Some (mkQuantum (q ++ [c]) 0 s (S d)).
Proof.
  intros Hc. unfold take_char. rewrite decode_letter by done. unfold in_u, il, pd, sp in *. change (2 ^ 6) with 64 in Hc.
  rewrite (proj2 (Z.eqb_neq c 255)), (proj2 (Z.eqb_neq c 253)), (proj2 (Z.eqb_neq c 254)) by lia. by rewrite andb_false_r.
Qed.
Lemma take_pad pf q k s d : (2 ≤ length q)%nat → (length q + k < 4)%nat →
  take_char pf false kPad (mkQuantum q k s d) = Some (mkQuantum q (S k) (if (k =? 0)%nat then d else s) (S d)).
Proof.
  intros H2 H4. unfold take_char, byte_len. cbn [Base64.qbuf Base64.pad_len pad_start dpos]. change (decode_char kPad) with pd.
  change (pd =? il) with false. change (pd =? sp) with false. change (pd =? pd) with true. cbn [orb andb].
  rewrite (proj2 (Nat.ltb_ge _ _)) by lia. by rewrite (proj2 (Nat.leb_gt _ _)) by lia.
Qed.
Lemma loop_full pf ip q k s d rest : length q = 4%nat → quantum_loop pf ip rest (mkQuantum q k s d) = mkQuantum q k s d.
Proof. intros H. destruct rest; [done|]. cbn [quantum_loop]. unfold byte_len. cbn [Base64.qbuf]. by rewrite H. Qed.
(** The values and then the pads of one quantum. *)
Lemma loop_letters pf ip vs q s d rest : Forall sextet vs → (length q + length vs <= 4)%nat →
  quantum_loop pf ip ((letter <$> vs) ++ rest) (mkQuantum q 0 s d) = quantum_loop pf ip rest (mkQuantum (q ++ vs) 0 s (d + length vs)).
Proof.
  revert q d. induction vs as [|v vs IH]; intros q d Hv Hl; [by rewrite app_nil_r, Nat.add_0_r|]. apply Forall_cons in Hv as [Hv Hvs]. simpl in Hl.
  cbn [fmap list_fmap app quantum_loop]. unfold byte_len. cbn [Base64.qbuf]. rewrite (proj2 (Nat.ltb_lt _ _)) by lia. rewrite take_letter by done.
  rewrite IH; [|done|rewrite length_app; simpl; lia]. rewrite <-app_assoc. cbn [app length]. f_equal. f_equal. lia.
Qed.
Lemma next_full pf ip data pos c1 c2 c3 c4 rest : Forall sextet [c1; c2; c3; c4] → drop pos data = (letter <$> [c1; c2; c3; c4]) ++ rest →
  GetNextQuantum pf ip data pos = (4%nat, (c1, c2, c3, c4), true, (pos + 4)%nat).
Proof. intros Hc Hd. unfold GetNextQuantum. rewrite Hd, loop_letters, loop_full by done. done. Qed.
Lemma next_padded pf data pos vs k : Forall sextet vs → (2 <= length vs)%nat → (0 < k)%nat → (length vs + k = 4)%nat →
  drop pos data = (letter <$> vs) ++ replicate k kPad →
  GetNextQuantum pf false data pos =
    (length vs, (default 0 (vs !! 0%nat), default 0 (vs !! 1%nat), default 0 (vs !! 2%nat), default 0 (vs !! 3%nat)), true, (pos + 4)%nat).
Proof.
  intros Hv H2 Hk H4 Hd. unfold GetNextQuantum. rewrite Hd, loop_letters by (done || simpl; lia). rewrite app_nil_l.
  assert (∃ s', quantum_loop pf false (replicate k kPad) (mkQuantum vs 0 0 (pos + length vs)) = mkQuantum vs k s' (pos + 4)) as [s' ->].
  { destruct k as [|[|[|]]]; try lia; cbn [replicate quantum_loop]; unfold byte_len; cbn [Base64.qbuf]; rewrite (proj2 (Nat.ltb_lt _ _)) by lia;
      rewrite take_pad by lia; cbn [quantum_loop]; unfold byte_len; cbn [Base64.qbuf]; [eexists; f_equal; lia|].
    rewrite (proj2 (Nat.ltb_lt _ _)) by lia. rewrite take_pad by lia. eexists. f_equal. lia. }
  unfold byte_len. cbn [Base64.qbuf Base64.pad_len dpos]. by rewrite H4.
Qed.

Lemma bytes_4 a b c : byte a → byte b → byte c →
  quantum_bytes 4 (a / 4, a mod 4 * 16 + b / 16, b mod 16 * 4 + c / 64, c mod 64) = ([a; b; c], 0).
Proof.
  intros Ha Hb Hc. cbn [quantum_bytes Nat.leb]. rewrite first_byte, second_byte, third_byte by bits. repeat f_equal; bits.
Qed.
Lemma bytes_3 a b : byte a → byte b → quantum_bytes 3 (a / 4, a mod 4 * 16 + b / 16, b mod 16 * 4, 0) = ([a; b], 0).
Proof. intros Ha Hb. cbn [quantum_bytes Nat.leb]. rewrite first_byte, second_byte, third_byte by bits. repeat f_equal; bits. Qed.
Lemma bytes_2 a : byte a → quantum_bytes 2 (a / 4, a mod 4 * 16, 0, 0) = ([a], 0).
Proof. intros Ha. cbn [quantum_bytes Nat.leb]. rewrite first_byte, second_byte by bits. repeat f_equal; bits. Qed.

Lemma decode_run pf padf tf data l : padf ≠ DO_PAD_NO → Forall byte l → ∀ fuel pos result,
  drop pos data = b64 l → (pos <= length data)%nat → (length data - pos < fuel)%nat →
  decode_loop fuel pf padf tf data pos result = Ok (true, result ++ l, length data).
Proof.
  intros Hp Hb. induction l as [|a|a b|a b c l IH] using list_ind3; intros [|fuel] pos result Hd Hl Hf; try lia;
    assert (length (drop pos data) = (length data - pos)%nat) as Hlen by apply length_drop; rewrite Hd in Hlen; cbn [b64 length] in Hlen;
    cbn [decode_loop].
  - rewrite (proj2 (Nat.ltb_ge _ _)) by lia. rewrite app_nil_r. do 2 f_equal. lia.
  - rewrite (proj2 (Nat.ltb_lt _ _)) by lia. rewrite (proj2 (Z.eqb_neq _ _) Hp). apply Forall_cons in Hb as [Ha _].
    rewrite (next_padded pf data pos [a / 4; a mod 4 * 16] 2); [|sextets|simpl; lia|lia|done|done]. cbn [from_option id lookup list_lookup length].
    rewrite bytes_2 by done. cbn. rewrite andb_false_r. cbn. rewrite andb_false_r. do 2 f_equal. lia.
  - rewrite (proj2 (Nat.ltb_lt _ _)) by lia. rewrite (proj2 (Z.eqb_neq _ _) Hp). do 2 (apply Forall_cons in Hb as [? Hb]).
    rewrite (next_padded pf data pos [a / 4; a mod 4 * 16 + b / 16; b mod 16 * 4] 1); [|sextets|simpl; lia|lia|done|done]. cbn [from_option id lookup list_lookup length].
    rewrite bytes_3 by done. cbn. rewrite andb_false_r. cbn. rewrite andb_false_r. do 2 f_equal. lia.
  - rewrite (proj2 (Nat.ltb_lt _ _)) by lia. do 3 (apply Forall_cons in Hb as [? Hb]).
    rewrite (next_full _ _ data pos (a / 4) (a mod 4 * 16 + b / 16) (b mod 16 * 4 + c / 64) (c mod 64) (b64 l));
      [|sextets|done].
    rewrite bytes_4 by done. change (4 <? 4)%nat with false. cbv iota. rewrite IH; [by rewrite <-app_assoc|done| |lia|lia].
    by rewrite <-drop_drop, Hd.
Qed.

(** ** What the strict decoder reads *)
Lemma take_strict ch q q' : byte ch → take_char DO_PARSE_STRICT false ch q = Some q' →
  (pad_len q = 0%nat ∧ sextet (decode_char ch) ∧ letter (decode_char ch) = ch ∧
    q' = mkQuantum (qbuf q ++ [decode_char ch]) 0 (pad_start q) (S (dpos q))) ∨
  (ch = kPad ∧ (2 <= byte_len q)%nat ∧ (byte_len q + pad_len q < 4)%nat ∧
    q' = mkQuantum (qbuf q) (S (pad_len q)) (if (pad_len q =? 0)%nat then dpos q else pad_start q) (S (dpos q))).
Proof.
  intros Hb. unfold take_char. rewrite orb_false_r. change (DO_PARSE_STRICT =? DO_PARSE_ANY) with false. change (DO_PARSE_STRICT =? DO_PARSE_STRICT) with true.
  destruct (letter_decode ch Hb) as [->|[->|[[-> ->]|[Hs Hl]]]]; [done|done| |].
  - change (pd =? il) with false. change (pd =? sp) with false. change (pd =? pd) with true. cbv iota.
    destruct (Nat.ltb_spec (byte_len q) 2); [done|]. destruct (Nat.leb_spec 4 (byte_len q + pad_len q)); [done|]. intros [= <-]. right. done.
  - unfold in_u, il, pd, sp in *. change (2 ^ 6) with 64 in Hs. rewrite (proj2 (Z.eqb_neq _ 255)), (proj2 (Z.eqb_neq _ 253)), (proj2 (Z.eqb_neq _ 254)) by lia.
    destruct (Nat.ltb_spec 0 (pad_len q)); [done|]. cbn [andb]. intros [= <-]. left. split_and!; [lia|lia..|done|done].
Qed.
(** The loop takes values and then pads. *)
Lemma loop_strict rest q : Forall byte rest → (byte_len q + pad_len q <= 4)%nat → ∃ vs k rest',
  let q' := quantum_loop DO_PARSE_STRICT false rest q in
  rest = (letter <$> vs) ++ replicate k kPad ++ rest' ∧ Forall sextet vs ∧ (0 < pad_len q → vs = [])%nat ∧
  qbuf q' = qbuf q ++ vs ∧ pad_len q' = (pad_len q + k)%nat ∧ dpos q' = (dpos q + length vs + k)%nat ∧
  (0 < k → 2 <= byte_len q')%nat ∧ (byte_len q' + pad_len q' <= 4)%nat.
Proof.
  revert q. induction rest as [|ch rest IH]; intros q Hb H4; cbn [quantum_loop].
  { exists [], 0%nat, []. cbn. rewrite app_nil_r. split_and!; try done; lia. }
  apply Forall_cons in Hb as [Hc Hb]. assert (∃ vs k rest', ch :: rest = (letter <$> vs) ++ replicate k kPad ++ rest' ∧ Forall sextet vs ∧
    (0 < pad_len q → vs = [])%nat ∧ qbuf q = qbuf q ++ vs ∧ pad_len q = (pad_len q + k)%nat ∧ dpos q = (dpos q + length vs + k)%nat ∧
    (0 < k → 2 <= byte_len q)%nat ∧ (byte_len q + pad_len q <= 4)%nat) as Hstop.
  { exists [], 0%nat, (ch :: rest). rewrite app_nil_r. split_and!; try done; simpl; lia. }
  destruct (Nat.ltb_spec (byte_len q) 4); [|done]. destruct (take_char _ _ ch q) as [q1|] eqn:Ht; [|done].
  destruct (take_strict _ _ _ Hc Ht) as [(Hp & Hs & Hl & ->)|(-> & H2 & Hlt & ->)].
  - destruct (IH (mkQuantum (qbuf q ++ [decode_char ch]) 0 (pad_start q) (S (dpos q))) Hb) as (vs & k & rest' & Hr & Hvs & _ & Hq & Hk & Hd & H2 & H4').
    { unfold byte_len in *. cbn. rewrite length_app. simpl. lia. }
    set (q' := quantum_loop _ _ rest _) in *. clearbody q'. exists (decode_char ch :: vs), k, rest'. cbn [fmap list_fmap app length]. rewrite Hl, Hr. cbn [Base64.qbuf Base64.pad_len dpos] in *.
    split_and!; [done|by apply Forall_cons_2|lia|by rewrite Hq, <-app_assoc|lia|lia|done|done].
  - destruct (IH (mkQuantum (qbuf q) (S (pad_len q)) (if (pad_len q =? 0)%nat then dpos q else pad_start q) (S (dpos q))) Hb) as (vs & k & rest' & Hr & Hvs & Hnil & Hq & Hk & Hd & Hk2 & H4').
    { unfold byte_len in *. cbn. lia. }
    set (q' := quantum_loop _ _ rest _) in *. clearbody q'. cbn [Base64.qbuf Base64.pad_len dpos] in *. specialize (Hnil ltac:(lia)). subst vs. exists [], (S k), rest'. cbn [fmap list_fmap app replicate]. rewrite Hr at 1. cbn [fmap list_fmap app].
    unfold byte_len in *. rewrite Hq, app_nil_r in *. split_and!; try done; simpl in *; lia.
Qed.

Lemma next_strict data pos qlen q padded pos' : Forall byte data → GetNextQuantum DO_PARSE_STRICT false data pos = (qlen, q, padded, pos') →
  ∃ vs k rest', drop pos data = (letter <$> vs) ++ replicate k kPad ++ rest' ∧ Forall sextet vs ∧ qlen = length vs ∧ (0 < k → 2 <= qlen)%nat ∧
  q = (default 0 (vs !! 0%nat), default 0 (vs !! 1%nat), default 0 (vs !! 2%nat), default 0 (vs !! 3%nat)) ∧ (qlen + k <= 4)%nat ∧
  padded = (4 =? qlen + k)%nat ∧ (padded = true → pos' = pos + qlen + k)%nat.
Proof.
  intros Hb H. unfold GetNextQuantum in H. destruct (loop_strict (drop pos data) (mkQuantum [] 0 0 pos)) as (vs & k & rest' & Hr & Hvs & _ & Hq & Hk & Hd & H2 & H4);
    [by apply Forall_drop|simpl; lia|]. set (q1 := quantum_loop _ _ _ _) in *. unfold byte_len in *. cbn [Base64.qbuf Base64.pad_len dpos app] in *.
  rewrite Hq, Hk in *. cbn [Nat.add] in *. injection H as <- <- <- <-. exists vs, k, rest'. split_and!; try done. intros Hp. by rewrite Hp.
Qed.

Lemma seq4 (vs : list Z) : length vs = 4%nat → ∃ a b c d, vs = [a; b; c; d].
Proof. destruct vs as [|a [|b [|c [|d [|]]]]]; try done. by exists a, b, c, d. Qed.

Lemma strict_run data : Forall byte data → ∀ fuel pos result r, (pos <= length data)%nat →
  decode_loop fuel DO_PARSE_STRICT DO_PAD_YES DO_TERM_BUFFER data pos result = Ok (true, r, length data) →
  ∃ l, Forall byte l ∧ r = result ++ l ∧ drop pos data = b64 l.
Proof.
  intros Hb. induction fuel as [|fuel IH]; intros pos result r Hp H; [done|]. cbn [decode_loop] in H.
  destruct (Nat.ltb_spec pos (length data)) as [Hlt|Hge].
  2: { injection H as <- _. exists []. split_and!; [done|by rewrite app_nil_r|]. apply drop_ge. lia. }
  change (DO_PAD_YES =? DO_PAD_NO) with false in H. change (DO_TERM_BUFFER =? DO_TERM_ANY) with false in H. change (DO_PAD_YES =? DO_PAD_YES) with true in H.
  destruct (GetNextQuantum DO_PARSE_STRICT false data pos) as [[[qlen q] padded] pos'] eqn:Hn.
  destruct (next_strict _ _ _ _ _ _ Hb Hn) as (vs & k & rest' & Hd & Hvs & -> & H2 & -> & H4 & Hpad & Hpos).
  assert (length data - pos = length vs + k + length rest')%nat as Hlen by (rewrite <-length_drop, Hd, !length_app, length_fmap, length_replicate; lia).
  destruct (Nat.ltb_spec (length vs) 4) as [Hv|Hv].
  - destruct (quantum_bytes (length vs) _) as [bs c] eqn:Hqb. cbn [negb andb] in H. injection H as Hok <- Hl.
    rewrite !negb_involutive in Hok. apply andb_true_iff in Hok as [Hc%Z.eqb_eq Hpt]. specialize (Hpos Hpt). rewrite Hpt in Hpad. symmetry in Hpad. apply Nat.eqb_eq in Hpad.
    assert (rest' = []) as -> by (destruct rest'; [done|simpl in Hlen; lia]). rewrite app_nil_r in Hd. specialize (H2 ltac:(lia)).
    destruct vs as [|v0 [|v1 [|v2 [|v3 vs]]]]; simpl in Hpad, H2, Hv; try lia.
    + assert (k = 2%nat) as -> by lia. do 2 (apply Forall_cons in Hvs as [? Hvs]). cbn [quantum_bytes Nat.leb length from_option id lookup list_lookup] in Hqb.
      rewrite first_byte, second_byte in Hqb by bits. injection Hqb as <- <-. exists [v0 * 4 + v1 / 16]. split_and!; [apply Forall_cons_2; [bits|done]|done|].
      rewrite Hd. cbn. f_equal; [f_equal; bits|]. f_equal. f_equal. bits.
    + assert (k = 1%nat) as -> by lia. do 3 (apply Forall_cons in Hvs as [? Hvs]). cbn [quantum_bytes Nat.leb length from_option id lookup list_lookup] in Hqb.
      rewrite first_byte, second_byte, third_byte in Hqb by bits. injection Hqb as <- <-. exists [v0 * 4 + v1 / 16; v1 mod 16 * 16 + v2 / 4].
      split_and!; [do 2 (apply Forall_cons_2; [bits|]); done|done|]. rewrite Hd. cbn. f_equal; [f_equal; bits|]. f_equal; [f_equal; bits|]. f_equal. f_equal. bits.
  - destruct (seq4 vs ltac:(lia)) as (v0 & v1 & v2 & v3 & ->). assert (k = 0%nat) as -> by (simpl in H4; lia). subst padded. specialize (Hpos eq_refl). subst pos'.
    do 4 (apply Forall_cons in Hvs as [? Hvs]). cbn [quantum_bytes Nat.leb length from_option id lookup list_lookup] in H.
    rewrite first_byte, second_byte, third_byte in H by done. apply IH in H as (l & Hl & -> & Hdl); [|simpl in Hlen; lia].
    exists (v0 * 4 + v1 / 16 :: v1 mod 16 * 16 + v2 / 4 :: v2 mod 4 * 64 + v3 :: l). split_and!; [do 3 (apply Forall_cons_2; [bits|]); done|by rewrite <-app_assoc|].
    assert (rest' = b64 l) as -> by (rewrite <-Hdl, Nat.add_0_r, <-drop_drop, Hd; done).
    rewrite Hd. cbn. repeat f_equal; bits.
Qed.

(** Decoding never runs out of fuel: a round that goes on has taken four values. *)
Lemma take_moves pf ip ch q q' : take_char pf ip ch q = Some q' →
  (dpos q' = S (dpos q) ∧ byte_len q <= byte_len q' <= S (byte_len q) ∧ (byte_len q' = 4 → byte_len q < 4 → pad_len q' = 0))%nat.
Proof.
  unfold take_char, byte_len, skip_char. intros H. repeat case_match; simplify_eq; cbn [Base64.qbuf Base64.pad_len dpos];
    rewrite ?length_app; cbn [length]; split_and!; try lia; done.
Qed.
Lemma loop_moves pf ip rest q : (byte_len q < 4)%nat → let q' := quantum_loop pf ip rest q in
  (dpos q + byte_len q' <= dpos q' + byte_len q ∧ byte_len q' <= 4 ∧ (byte_len q' = 4 → pad_len q' = 0))%nat.
Proof.
  revert q. induction rest as [|ch rest IH]; intros q Hq; cbn [quantum_loop]; [cbv zeta; lia|]. rewrite (proj2 (Nat.ltb_lt _ _) Hq).
  destruct (take_char pf ip ch q) as [q1|] eqn:Ht; [|cbv zeta; lia]. destruct (take_moves _ _ _ _ _ Ht) as (H1 & H2 & H3).
  destruct (decide (byte_len q1 = 4%nat)) as [H4|H4].
  - destruct q1 as [b k s d]. unfold byte_len in *. cbn [Base64.qbuf Base64.pad_len dpos] in *. rewrite loop_full by done. cbn. lia.
  - specialize (IH q1 ltac:(lia)). cbv zeta in *. lia.
Qed.
Lemma decode_ends pf padf tf data : ∀ fuel pos result, (length data - pos < fuel)%nat →
  ∃ r, decode_loop fuel pf padf tf data pos result = Ok r.
Proof.
  induction fuel as [|fuel IH]; intros pos result Hf; [lia|]. cbn [decode_loop]. destruct (Nat.ltb_spec pos (length data)); [|by eexists].
  unfold GetNextQuantum. pose proof (loop_moves pf (padf =? DO_PAD_NO) (drop pos data) (mkQuantum [] 0 0 pos) ltac:(unfold byte_len; simpl; lia)) as (H1 & H2 & H3).
  set (q := quantum_loop _ _ _ _) in *. destruct (quantum_bytes _ _) as [bs c]. destruct (Nat.ltb_spec (byte_len q) 4); [by eexists|].
  rewrite H3 by lia. rewrite andb_false_r. apply IH. cbn [dpos] in H1. unfold byte_len in H1 at 2. simpl in H1. lia.
Qed.

(** ** Block buffers *)
Lemma put_over cap out cs : cap < zlen out + zlen cs → put cap out cs = Ub UB_OutOfBounds.
Proof. intros H. unfold put. by rewrite (proj2 (Z.leb_gt _ _)). Qed.
Lemma u32_mod z : u32 z = z mod 4294967296.
Proof. done. Qed.

Lemma u32_small z : 0 ≤ z < 4294967296 → u32 z = z.
Proof. by apply (uwrap_id 32). Qed.

Lemma seg_num_eq n k : 0 < k < 4 → (k - 1) * 3456 < n ≤ k * 3456 →
  (if negb (n mod 3456 =? 0) then u32 (n / 3456 + 1) else u32 (n / 3456)) = k.
Proof.
  intros Hk Hn. pose proof (Z.div_mod n 3456 ltac:(lia)). pose proof (Z.mod_pos_bound n 3456 ltac:(lia)).
  destruct (Z.eqb_spec (n mod 3456) 0); cbn [negb]; rewrite u32_small by lia; lia.
Qed.

Lemma segment_step n data i pos left_len mb h out :
  let pos' := pos + u32 (i * max_seg_len) in
  let left' := u32 (left_len - u32 (i * max_seg_len)) in
  let curr := Z.to_nat (if max_seg_len <? left' then max_seg_len else left') in
  encode_loop (S curr) (offset_byte data pos') curr curr DEFAULT_BLOCK_SIZE 0 [] = Ok out → zlen out ≤ DEFAULT_BLOCK_SIZE →
  heap_ok h → owns h mb → ∃ mb' h',
  encode_segments (S n) data i pos left_len mb h = encode_segments n data (i + 1) pos' left' mb' h' ∧ wrote [] h mb out h' mb' ∧ heap_ok h'.
Proof.
  intros pos' left' curr He Ho Hh Hm. destruct (TakeBlock_spec h Hh) as (h1 & Ht & Hx1 & Hok1 & _ & Hf1).
  set (h2 := set_data h1 (fresh_ptr h) out false). assert (ext [] h h2) as Hx2.
  { eapply ext_trans_new; [done|apply set_data_ext; [apply Hx1|done]|]. intros p ->%list_elem_of_singleton. by right. }
  assert (blks h2 !! fresh_ptr h = Some (mkBlk out false)) as Hl by apply lookup_insert_eq.
  exists (mkMem (size_ mb + zlen out) (blocks_ mb ++ [fresh_ptr h])), h2. split_and!; [| |apply Hx2].
  - cbn [encode_segments]. rewrite run_bind, Ht. cbn beta iota. fold pos' left' curr. rewrite run_bind, (run_lift _ _ _ He). cbn beta iota.
    rewrite run_bind. unfold store. rewrite run_modify. cbn beta iota. fold h2. change (mkHeap _ _) with h2. rewrite run_bind. unfold AppendBlock. rewrite run_bind, (run_load _ _ _ Hl). done.
  - apply wrote_block; [done|done|done|simpl; lia| |by rewrite (data_of_load _ _ _ Hl)]. by exists (mkBlk out false).
Qed.

Lemma segment_loop data pos curr : Forall byte data → 0 ≤ pos → (curr <= Z.to_nat max_seg_len)%nat → (Z.to_nat pos + curr <= length data)%nat →
  let seg := take curr (drop (Z.to_nat pos) data) in
  encode_loop (S curr) (offset_byte data pos) curr curr DEFAULT_BLOCK_SIZE 0 [] = Ok (b64 seg) ∧ zlen (b64 seg) ≤ DEFAULT_BLOCK_SIZE.
Proof.
  intros Hb Hp Hc Hl seg. change (Z.to_nat max_seg_len) with 3456%nat in Hc. assert (length seg = curr) as Hs by (unfold seg; rewrite length_take, length_drop; lia).
  assert (zlen (b64 seg) ≤ DEFAULT_BLOCK_SIZE) as Hz.
  { rewrite zlen_b64, Hs. unfold encoded_size, DEFAULT_BLOCK_SIZE. Z.div_mod_to_equations. lia. }
  split; [|done]. rewrite (loop_run _ _ _ _ _ _ [] seg); [done|by apply Forall_take, Forall_drop| |rewrite Hs; apply covers_all|done|lia].
  intros j x Hx. unfold offset_byte, array_byte. apply lookup_take_Some in Hx as [Hx _]. rewrite lookup_drop in Hx. simpl. by rewrite Hx.
Qed.

(** Only the value of the length of a segment is used. *)
Lemma seg_len : max_seg_len = 3456.
Proof. done. Qed.
#[local] Opaque max_seg_len.
Lemma curr_min left_len : Z.to_nat (if max_seg_len <? left_len then max_seg_len else left_len) = Z.to_nat (Z.min max_seg_len left_len).
Proof. destruct (Z.ltb_spec max_seg_len left_len); f_equal; lia. Qed.
Lemma seg_offsets : u32 (0 * max_seg_len) = 0 ∧ u32 (1 * max_seg_len) = max_seg_len ∧ u32 (2 * max_seg_len) = 2 * max_seg_len.
Proof. by rewrite seg_len. Qed.
(** The first segment, and the second. *)
Lemma segment_first n data mb h : Forall byte data → 0 < zlen data < 2 ^ 31 → heap_ok h → owns h mb → ∃ mb' h',
  encode_segments (S n) data 0 0 (zlen data) mb h = encode_segments n data 1 0 (zlen data) mb' h' ∧
  wrote [] h mb (b64 (take (Z.to_nat (Z.min max_seg_len (zlen data))) data)) h' mb' ∧ heap_ok h'.
Proof.
  intros Hb Hl Hh Ho. pose proof seg_len as Hm. destruct seg_offsets as (H0 & _ & _).
  destruct (segment_loop data 0 (Z.to_nat (Z.min max_seg_len (zlen data))) Hb) as [He Hz]; [lia|lia|unfold zlen in *; lia|].
  destruct (segment_step n data 0 0 (zlen data) mb h _ ltac:(rewrite H0, Z.sub_0_r, (u32_small (zlen data)), curr_min by lia; exact He) Hz Hh Ho) as (mb1 & h1 & Hr & Hw & Hh1).
  exists mb1, h1. rewrite H0, Z.sub_0_r, (u32_small (zlen data)) in Hr by lia. by split_and!.
Qed.
Lemma segment_second n data mb h : Forall byte data → max_seg_len < zlen data < 2 ^ 31 → heap_ok h → owns h mb → ∃ mb' h',
  encode_segments (S n) data 1 0 (zlen data) mb h = encode_segments n data 2 max_seg_len (zlen data - max_seg_len) mb' h' ∧
  wrote [] h mb (b64 (take (Z.to_nat (Z.min max_seg_len (zlen data - max_seg_len))) (drop (Z.to_nat max_seg_len) data))) h' mb' ∧ heap_ok h'.
Proof.
  intros Hb Hl Hh Ho. pose proof seg_len as Hm. destruct seg_offsets as (_ & H1 & _).
  destruct (segment_loop data max_seg_len (Z.to_nat (Z.min max_seg_len (zlen data - max_seg_len))) Hb) as [He Hz]; [lia|lia|unfold zlen in *; lia|].
  destruct (segment_step n data 1 0 (zlen data) mb h _ ltac:(rewrite H1, (u32_small (zlen data - _)), curr_min by lia; exact He) Hz Hh Ho) as (mb1 & h1 & Hr & Hw & Hh1).
  exists mb1, h1. rewrite H1, (u32_small (zlen data - _)) in Hr by lia. by split_and!.
Qed.

(** Two segments come out right; the third one starts three segments on. *)
Lemma blocks_run data mb h : Forall byte data → zlen data ≤ 2 * max_seg_len → heap_ok h → owns h mb →
  ∃ mb' h', EncodeFromArray_blocks data mb h = Ok (mb', h') ∧ wrote [] h mb (b64 data) h' mb'.
Proof.
  intros Hb Hl Hh Ho. pose proof seg_len as Hm. pose proof (zlen_nonneg data). unfold EncodeFromArray_blocks. rewrite (u32_small (zlen data)) by lia.
  assert (zlen data = 0 ∨ 0 < zlen data ≤ max_seg_len ∨ max_seg_len < zlen data) as [Hn|[Hn|Hn]] by lia.
  - exists mb, h. assert (data = []) as -> by by apply zlen_0. split; [by rewrite Hm|by apply wrote_nil].
  - rewrite Hm. rewrite (seg_num_eq _ 1) by lia. destruct (segment_first 0 data mb h Hb) as (mb' & h' & Hr & Hw & _); [lia|done|done|].
    rewrite Z.min_r, take_ge in Hw by (unfold zlen in *; lia). by exists mb', h'.
  - rewrite Hm. rewrite (seg_num_eq _ 2) by lia. destruct (segment_first 1 data mb h Hb) as (mb1 & h1 & Hr & Hw & Hh1); [lia|done|done|].
    destruct (segment_second 0 data mb1 h1 Hb) as (mb2 & h2 & Hr2 & Hw2 & _); [lia|done|apply Hw|]. exists mb2, h2. change (Z.to_nat 2) with 2%nat. rewrite Hr, Hr2.
    split; [done|]. rewrite Z.min_l in Hw by lia. rewrite Z.min_r, take_ge in Hw2 by (rewrite ?length_drop; unfold zlen in *; lia).
    rewrite <-(take_drop (Z.to_nat max_seg_len) data), b64_app; [by eapply wrote_trans|].
    rewrite length_take_le by (unfold zlen in *; lia). apply Nat2Z.inj. rewrite Nat2Z.inj_mod, Z2Nat.id by lia. by rewrite Hm.
Qed.
Lemma loop_ub fuel bt n cap u : (0 < n)%nat → bt 0%nat = Ub u → encode_loop (S fuel) bt n n cap 0 [] = Ub u.
Proof. intros Hn Hb. cbn [encode_loop]. rewrite (proj2 (Nat.ltb_lt _ _) Hn). unfold quantum. by rewrite Hb. Qed.
Lemma blocks_over data mb h : Forall byte data → 2 * max_seg_len < zlen data < 3 * max_seg_len → heap_ok h → owns h mb →
  EncodeFromArray_blocks data mb h = Ub UB_OutOfBounds.
Proof.
  intros Hb Hl Hh Ho. pose proof seg_len as Hm. destruct seg_offsets as (_ & _ & H2). unfold EncodeFromArray_blocks. rewrite (u32_small (zlen data)) by lia.
  rewrite Hm. rewrite (seg_num_eq _ 3) by lia. change (Z.to_nat 3) with 3%nat.
  destruct (segment_first 2 data mb h Hb) as (mb1 & h1 & -> & Hw & _); [lia|done|done|].
  destruct (segment_second 1 data mb1 h1 Hb) as (mb2 & h2 & -> & _); [lia|apply Hw|apply Hw|].
  cbn [encode_segments]. rewrite run_bind. unfold TakeBlock at 1. cbn beta iota. rewrite H2, run_bind, u32_mod, curr_min.
  replace ((zlen data - max_seg_len - 2 * max_seg_len) mod 4294967296) with (zlen data - 3 * max_seg_len + 4294967296).
  2: { rewrite <-(Z_mod_plus_full _ 1), Z.mod_small; lia. }
  rewrite Z.min_l by lia. unfold lift. rewrite (loop_ub _ _ _ _ UB_OutOfBounds); [done|lia|].
  unfold offset_byte, array_byte. rewrite lookup_ge_None_2; [done|]. unfold zlen in *. lia.
Qed.

(** *** A block buffer, into a text *)
Section texts.
Context (stale : nat → nat → Z).

(** A block as the encoder sees it: behind the last of several blocks it reads on
    to the end of the quantum. *)
Definition pads (n : nat) : nat := (3 - n mod 3) mod 3.
Definition read_on (p n : nat) : list Z := stale p <$> seq n (pads n).
Lemma pads_mod n : ((n + pads n) mod 3 = 0)%nat.
Proof.
  unfold pads. rewrite Nat.Div0.add_mod. pose proof (Nat.mod_upper_bound n 3 ltac:(lia)).
  assert (n mod 3 = 0 ∨ n mod 3 = 1 ∨ n mod 3 = 2)%nat as [Hr|[Hr|Hr]] by lia; by rewrite Hr.
Qed.
Lemma pads_lt n : (pads n < 3)%nat.
Proof. apply Nat.mod_upper_bound. lia. Qed.
Lemma length_read_on p n : length (read_on p n) = pads n.
Proof. unfold read_on. by rewrite length_fmap, length_seq. Qed.

Lemma encode_blocks_app ps qs i nData cap out h : Forall (block_ok h) ps → (i + length (view h ps) < nData)%nat →
  Forall (λ p, length (data_of h p) mod 3 = 0)%nat ps → Forall byte (view h ps) → zlen out + zlen (b64 (view h ps)) ≤ cap →
  encode_blocks stale (ps ++ qs) i nData cap out h = encode_blocks stale qs (i + length (view h ps)) nData cap (out ++ b64 (view h ps)) h.
Proof.
  revert i out. induction ps as [|p ps IH]; intros i out Hok Hn Hm Hb Hc; [by rewrite Nat.add_0_r, app_nil_r|].
  apply Forall_cons in Hok as [(b & Hp & _) Hok]. apply Forall_cons in Hm as [Hm Hms]. rewrite view_cons, length_app in *.
  apply Forall_app in Hb as [Hb Hbs]. rewrite b64_app, zlen_app in Hc by done. rewrite (data_of_load _ _ _ Hp) in *.
  cbn [app encode_blocks]. rewrite (proj2 (Nat.ltb_lt _ _)) by lia. rewrite run_bind, (run_load _ _ _ Hp). cbn beta iota. pose proof (zlen_nonneg (b64 (view h ps))).
  rewrite run_bind, (run_lift _ (out ++ b64 (blk_data b))).
  2: { apply loop_run; [done| |right; split; [done|lia]|lia|lia]. intros j x Hx. unfold block_byte. simpl. by rewrite Hx. }
  cbn beta iota. rewrite IH, b64_app, <-app_assoc by (done || lia || (rewrite zlen_app; lia)). f_equal. lia.
Qed.

(** Full blocks, whose lengths are multiples of three, and a last one: after the
    only block the text is padded, after the last of several it goes on with what
    the block holds behind its bytes. *)
Lemma mem_run h mb ps p result offset : heap_ok h → owns h mb → blocks_ mb = ps ++ [p] →
  Forall (λ q, length (data_of h q) mod 3 = 0)%nat ps → Forall byte (view h (blocks_ mb)) → (∀ q j, byte (stale q j)) →
  (offset <= length result)%nat → data_of h p ≠ [] →
  EncodeFromArray_mem stale mb result offset h =
    Ok (take offset result ++ b64 (view h (blocks_ mb) ++ if decide (view h ps = []) then [] else read_on p (length (data_of h p))), h).
Proof.
  intros Hh [Hok Hnd Hs] Hbl Hm Hb Hst Ho Hne. unfold EncodeFromArray_mem. rewrite Hs, Hbl in *. unfold zlen. rewrite Nat2Z.id.
  rewrite view_app in *. change (view h [p]) with (data_of h p ++ []) in *. rewrite app_nil_r in *.
  apply Forall_app in Hok as [Hok [(b & Hp & Hsz & _) _]%Forall_cons]. rewrite (data_of_load _ _ _ Hp) in *. apply Forall_app in Hb as [Hb1 Hb2].
  set (d := blk_data b) in *. set (N := length (view h ps ++ d)). set (ex := if decide (view h ps = []) then [] else read_on p (length d)).
  assert (0 < length d)%nat as Hd by (destruct d; [done|simpl; lia]). rewrite run_bind.
  assert (length (view h ps) mod 3 = 0)%nat as Hpm.
  { clear -Hm. induction Hm as [|q qs Hq Hqs IH]; [done|]. rewrite view_cons, length_app, Nat.add_mod, Hq, IH by done. done. }
  assert (zlen (b64 (view h ps)) + zlen (b64 (d ++ ex)) = encoded_size N) as Hsize.
  { rewrite <-zlen_app, <-b64_app, zlen_b64 by done. unfold N, ex. case_decide; [by rewrite app_nil_r|].
    rewrite !length_app, length_read_on. unfold encoded_size. pose proof (pads_lt (length d)) as Hlt. clear -Hpm Hlt.
    apply Nat.Div0.mod_divides in Hpm as [k ->]. destruct (proj1 (Nat.Div0.mod_divides _ 3) (pads_mod (length d))) as [m Hm]. f_equal.
    rewrite Hm, !Nat2Z.inj_add, !Nat2Z.inj_mul. Z.to_euclidean_division_equations. lia. }
  assert (encode_blocks stale (ps ++ [p]) 0 N (encoded_size N) [] h = Ok (b64 (view h ps) ++ b64 (d ++ ex), h)) as Hr.
  { pose proof (zlen_nonneg (b64 (d ++ ex))). rewrite encode_blocks_app; [|done|unfold N; rewrite length_app; lia|done|done|unfold zlen in *; simpl; lia].
    cbn [app Nat.add encode_blocks]. rewrite (proj2 (Nat.ltb_lt _ _)) by (unfold N; rewrite length_app; lia). rewrite run_bind, (run_load _ _ _ Hp). cbn beta iota. fold d.
    assert (length (d ++ ex) < length d + 3)%nat by (rewrite length_app; unfold ex; case_decide; [simpl; lia|rewrite length_read_on; pose proof (pads_lt (length d)); lia]).
    rewrite run_bind, (run_lift _ (b64 (view h ps) ++ b64 (d ++ ex))); [done|]. apply loop_run; [| | |unfold zlen in *; lia|lia].
    - apply Forall_app. split; [done|]. unfold ex. case_decide; [done|]. unfold read_on. apply Forall_fmap, Forall_true. intros j. apply Hst.
    - intros j x Hx. unfold block_byte. fold d. simpl. apply lookup_app_Some in Hx as [->|[Hj Hx]]; [done|]. rewrite lookup_ge_None_2 by lia.
      unfold ex in Hx. case_decide; [done|]. unfold read_on in Hx. apply list_lookup_fmap_Some in Hx as (k & -> & Hk). apply lookup_seq in Hk as [-> Hk].
      assert (length d + pads (length d) <= 4608)%nat as Hbd.
      { unfold buffer_size, zlen, DEFAULT_BLOCK_SIZE in Hsz. fold d in Hsz. pose proof (pads_lt (length d)). destruct (proj1 (Nat.Div0.mod_divides _ 3) (pads_mod (length d))) as [m Hm']. lia. }
      rewrite (proj2 (Z.ltb_lt _ _)) by (unfold DEFAULT_BLOCK_SIZE; lia). do 2 f_equal. lia.
    - unfold ex. case_decide as Hv; [left; unfold N; rewrite Hv, app_nil_r; simpl; lia|right]. rewrite length_app, length_read_on.
      pose proof (pads_mod (length d)). pose proof (pads_lt (length d)). assert (length (view h ps) ≠ 0)%nat by (by destruct (view h ps)).
      assert (3 <= length (view h ps))%nat by (apply Nat.Div0.mod_divides in Hpm as [k Hk]; lia). unfold N. rewrite length_app. lia. }
  rewrite Hr. cbn beta iota. rewrite run_ret, <-b64_app by done. do 2 f_equal. rewrite <-(app_assoc (view h ps)).
  assert (length (resize (offset + Z.to_nat (encoded_size N)) result) = offset + Z.to_nat (encoded_size N))%nat as Hrl.
  { unfold resize. rewrite length_app, length_take, length_replicate. lia. }
  assert (length (b64 (view h ps ++ d ++ ex)) = Z.to_nat (encoded_size N)) as Hel.
  { rewrite b64_app, length_app by done. unfold zlen in Hsize. lia. }
  rewrite drop_ge, app_nil_r by lia. f_equal. unfold resize. rewrite take_app_le by (rewrite length_take; lia). rewrite take_take. f_equal. lia.
Qed.
End texts.

(** ** The theorems *)

(** C11. The strict decoder accepts exactly the texts that Encode makes, and gives
    back the bytes that were encoded: encoding and decoding are inverse, and no two
    texts stand for the same bytes. *)
Theorem strict_canonical str r : Forall byte str → zlen str < 2 ^ 31 → zlen r < 2 ^ 30 →
  (∃ n, DecodeFromArray str DO_STRICT = Ok (true, r, n)) ↔ (Forall byte r ∧ Encode r = Ok str).
Proof.
  intros Hb Hl Hr. unfold DecodeFromArray. change (Z.land DO_STRICT DO_PARSE_MASK) with DO_PARSE_STRICT. change (Z.land DO_STRICT DO_PAD_MASK) with DO_PAD_YES.
  change (Z.land DO_STRICT DO_TERM_MASK) with DO_TERM_BUFFER. change (DO_TERM_BUFFER =? DO_TERM_BUFFER) with true. split.
  - intros [n H]. destruct (decode_loop _ _ _ _ _ _ _) as [[[s r'] pos]|] eqn:Hd; [|done]. cbn [mbind res_bind] in H. injection H as Hs -> ->.
    apply andb_true_iff in Hs as [-> Hn]. rewrite negb_involutive in Hn. apply Nat.eqb_eq in Hn. subst n.
    apply strict_run in Hd as (l & Hbl & -> & Hd); [|done|lia]. rewrite drop_0 in Hd. subst str. split; [done|]. apply encode_run; [done|]. by rewrite <-zlen_b64.
  - intros [Hbr He]. rewrite encode_run in He; [|done|unfold encoded_size; fold (zlen r); Z.to_euclidean_division_equations; lia].
    injection He as <-. exists (length (b64 r)).
    rewrite (decode_run DO_PARSE_STRICT DO_PAD_YES DO_TERM_BUFFER (b64 r) r) by (done || lia). cbn [mbind res_bind]. by rewrite Nat.eqb_refl.
Qed.
Lemma strict_canonical_witness : Encode (codes "robot") = Ok (codes "cm9ib3Q=") ∧
  ¬ ∃ n, DecodeFromArray (codes "cm9ib3R=") DO_STRICT = Ok (true, codes "robot", n).
Proof.
  split.
  - apply (strict_canonical (codes "cm9ib3Q=") (codes "robot")); [apply (bool_decide_unpack _); vm_compute; exact I|done|done|]. eexists. vm_compute. reflexivity.
  - rewrite strict_canonical; [|apply (bool_decide_unpack _); vm_compute; exact I|done|done]. intros [_ H]. vm_compute in H. discriminate.
Defined.

(** An array that is encoded into a block buffer: up to two segments the buffer
    gets the encoding, in new blocks; with more than two and less than three the
    array is read behind its end. *)
Theorem segments_encoded data mb h : Forall byte data → heap_ok h → owns h mb →
  (zlen data ≤ 2 * max_seg_len → ∃ mb' h', EncodeFromArray_blocks data mb h = Ok (mb', h') ∧ wrote [] h mb (b64 data) h' mb') ∧
  (2 * max_seg_len < zlen data < 3 * max_seg_len → EncodeFromArray_blocks data mb h = Ub UB_OutOfBounds).
Proof. intros Hb Hh Ho. split; intros Hl; [by apply blocks_run|by apply blocks_over]. Qed.
Lemma segments_encoded_witness : ∃ mb' h', EncodeFromArray_blocks [104; 51] CreateMemBuffer (mkHeap ∅ 0) = Ok (mb', h') ∧
  view h' (blocks_ mb') = codes "aDM=".
Proof.
  destruct (segments_encoded [104; 51] CreateMemBuffer (mkHeap ∅ 0)) as [H _]; [apply (bool_decide_unpack _); vm_compute; exact I| |apply owns_create|].
  - intros p [b Hp]. simpl in Hp. by rewrite lookup_empty in Hp.
  - destruct H as (mb' & h' & Hr & Hw); [done|]. exists mb', h'. split; [exact Hr|]. rewrite (wr_view _ _ _ _ _ _ Hw). vm_compute. reflexivity.
Defined.

(** The encoding of a block buffer into a text, when all blocks but the last
    are full: with one block it is the encoding of its bytes; with several the
    text goes on behind the last byte up to a multiple of three, with what the
    block holds there, and has no pads. *)
Theorem buffer_text stale h mb ps p result offset : heap_ok h → owns h mb → blocks_ mb = ps ++ [p] →
  Forall (λ q, length (data_of h q) = Z.to_nat DEFAULT_BLOCK_SIZE) ps → Forall byte (view h (blocks_ mb)) → (∀ q j, byte (stale q j)) →
  (offset <= length result)%nat → data_of h p ≠ [] →
  EncodeFromArray_mem stale mb result offset h =
    Ok (take offset result ++ b64 (view h (blocks_ mb) ++ if decide (ps = []) then [] else read_on stale p (length (data_of h p))), h).
Proof.
  intros Hh Ho Hbl Hf Hb Hst Hoff Hne. rewrite (mem_run stale h mb ps p result offset) by first [done|by eapply Forall_impl; [exact Hf|]; intros q Hq; cbv beta in Hq; rewrite Hq].
  do 4 f_equal. destruct ps as [|q ps]; [done|]. rewrite (decide_False (P := q :: ps = [])) by done. rewrite decide_False; [done|].
  apply Forall_cons in Hf as [Hf _]. rewrite view_cons. intros [Hq _]%app_nil. rewrite Hq in Hf. done.
Qed.
Definition full_block : Block := mkBlk (replicate (Z.to_nat DEFAULT_BLOCK_SIZE) 0) false.
Definition two_blocks : heap := mkHeap {[0%nat := full_block; 1%nat := mkBlk [1] false]} 2.
Lemma buffer_text_witness : EncodeFromArray_mem (λ _ _, 7) (mkMem 4609 [0; 1]%nat) [] 0 two_blocks =
  Ok (b64 (blk_data full_block ++ [1; 7; 7]), two_blocks).
Proof.
  rewrite (buffer_text (λ _ _, 7) two_blocks (mkMem 4609 [0; 1]%nat) [0%nat] 1 [] 0).
  - reflexivity.
  - intros q [b Hq]. simpl in Hq. apply lookup_insert_Some in Hq as [[<- _]|[_ Hq]]; [simpl; lia|]. apply lookup_singleton_Some in Hq as [<- _]. simpl. lia.
  - split; [|apply (bool_decide_unpack _); vm_compute; exact I|vm_compute; reflexivity].
    apply Forall_cons_2; [|apply Forall_cons_2; [|done]]; eexists; (split; [reflexivity|split; [apply Z.leb_le; vm_compute; reflexivity|done]]).
  - reflexivity.
  - apply Forall_cons_2; [vm_compute; reflexivity|done].
  - apply (bool_decide_unpack _). vm_compute. exact I.
  - intros q j. done.
  - simpl. lia.
  - vm_compute. discriminate.
Defined.

(** Decoding ends, whatever the text and the flags are. *)
Theorem decode_total data flags : ∃ success result used, DecodeFromArray data flags = Ok (success, result, used).
Proof.
  unfold DecodeFromArray. destruct (decode_ends (Z.land flags DO_PARSE_MASK) (Z.land flags DO_PAD_MASK) (Z.land flags DO_TERM_MASK) data (S (length data)) 0 [])
    as [[[s r] pos] ->]; [lia|]. by do 3 eexists.
Qed.

(** The encoder of a range of blocks stops at once when the range does not begin
    with the first block. *)
Lemma range_start mb s e h : 0 < s → EncodeFromArray_range mb s e h = Ok ([], h).
Proof.
  intros Hs. unfold EncodeFromArray_range. assert (∀ cap, encode_range (blocks_ mb) 0 s e 0 cap [] h = Ok ((0, []), h)) as Hr.
  { intros cap. destruct (blocks_ mb); [done|]. cbn [encode_range]. by rewrite (proj2 (Z.ltb_lt 0 s)). }
  by rewrite run_bind, Hr.
Qed.
