(* ===== verification/PacketFrames.v ===== *)
(** * Packets on a byte stream

    src/lib_bsp/eventservice/net/asyncpacketsocket.h: the header of a packet,
    with the byte order functions of eventservice/base/byteorder.h.  [frames]
    is the reference definition of what AnalysisPacket does to a byte stream,
    and its theorems are facts of the format; PacketSocket.v shows that the
    socket code implements it. *)

From S2P Require Import Prelude Crc16 MemBuffer.
#[local] Open Scope Z_scope.

(** ** Byte order (base/byteorder.h) *)
Definition Get8 (memory : list Z) (offset : nat) : Z := default 0 (memory !! offset).

Definition SetBE16 (v : Z) : list Z := [u8 (Z.shiftr v 8); u8 (Z.shiftr v 0)].
Definition SetBE32 (v : Z) : list Z :=
  [u8 (Z.shiftr v 24); u8 (Z.shiftr v 16); u8 (Z.shiftr v 8); u8 (Z.shiftr v 0)].
Definition GetBE16 (memory : list Z) : Z :=
  u16 (Z.lor (Z.shiftl (Get8 memory 0) 8) (Z.shiftl (Get8 memory 1) 0)).
Definition GetBE32 (memory : list Z) : Z :=
  Z.lor (Z.lor (Z.lor (u32 (Z.shiftl (Get8 memory 0) 24)) (u32 (Z.shiftl (Get8 memory 1) 16)))
               (u32 (Z.shiftl (Get8 memory 2) 8)))
        (u32 (Z.shiftl (Get8 memory 3) 0)).

Lemma byte_split v : v = v / 256 * 256 + v mod 256.
Proof. pose proof (Z.div_mod v 256). lia. Qed.

Lemma GetBE16_SetBE16 v rest : in_u 16 v → GetBE16 (SetBE16 v ++ rest) = v.
Proof.
  intros Hv. unfold GetBE16, SetBE16, Get8, in_u in *. cbn [lookup list_lookup app default].
  unfold id. rewrite Z.shiftr_0_r, Z.shiftl_0_r, Z.shiftr_div_pow2 by lia. unfold uwrap.
  change (2 ^ 8) with 256 in *. change (2 ^ 16) with 65536 in *.
  rewrite lor_shift; [|lia|change (2 ^ 8) with 256; apply Z.mod_pos_bound; lia].
  change (2 ^ 8) with 256. rewrite (Z.mod_small (v / 256)).
  - rewrite <-byte_split. by apply Z.mod_small.
  - split; [apply Z.div_pos; lia|apply Z.div_lt_upper_bound; lia].
Qed.

Lemma GetBE32_bytes a b c d rest :
  is_byte a → is_byte b → is_byte c → is_byte d →
  GetBE32 (a :: b :: c :: d :: rest) = a * 2 ^ 24 + (b * 2 ^ 16 + (c * 2 ^ 8 + d)).
Proof.
  unfold is_byte. intros Ha Hb Hc Hd. unfold GetBE32, Get8. cbn [lookup list_lookup app default].
  unfold id. rewrite Z.shiftl_0_r. rewrite !(uwrap_id 32); try (unfold in_u; lia);
    try (unfold in_u; rewrite Z.shiftl_mul_pow2 by lia; lia).
  rewrite <-!Z.lor_assoc. rewrite (lor_shift c d) by lia.
  rewrite (lor_shift b) by lia. rewrite (lor_shift a) by lia. lia.
Qed.

Lemma GetBE32_SetBE32 v rest : in_u 32 v → GetBE32 (SetBE32 v ++ rest) = v.
Proof.
  intros Hv. unfold SetBE32. cbn [app].
  rewrite GetBE32_bytes by (unfold uwrap, is_byte; change (2 ^ 8) with 256; apply Z.mod_pos_bound; lia).
  unfold uwrap, in_u in *. rewrite Z.shiftr_0_r, !Z.shiftr_div_pow2 by lia.
  change (2 ^ 24) with (256 * (256 * 256)). change (2 ^ 16) with (256 * 256). change (2 ^ 8) with 256.
  change (2 ^ 32) with 4294967296 in Hv.
  rewrite <-!Z.div_div by lia.
  pose proof (byte_split v). pose proof (byte_split (v / 256)). pose proof (byte_split (v / 256 / 256)).
  rewrite (Z.mod_small (v / 256 / 256 / 256)); [lia|].
  rewrite !Z.div_div by lia. split; [apply Z.div_pos; lia|apply Z.div_lt_upper_bound; lia].
Qed.

(** ** Headers *)
Definition HEADER_SIZE : Z := 8.
(** PacketHeader(flag, size), as its bytes. *)
Definition PacketHeader (flag size : Z) : list Z := [77; 76] ++ SetBE16 flag ++ SetBE32 size.
Definition is_valid (h : list Z) : bool := (Get8 h 0 =? 77) && (Get8 h 1 =? 76).
Definition Flag (h : list Z) : Z := GetBE16 (drop 2 h).
Definition DataSize (h : list Z) : Z := GetBE32 (drop 4 h).
(** The bytes of a packet on the wire. *)
Definition packet_bytes (p : list Z * Z) : list Z := PacketHeader p.2 (zlen p.1) ++ p.1.

Lemma PacketHeader_length f s : zlen (PacketHeader f s) = 8.
Proof. done. Qed.

Lemma PacketHeader_fields f s rest : in_u 16 f → in_u 32 s →
  is_valid (PacketHeader f s ++ rest) = true ∧ Flag (PacketHeader f s ++ rest) = f ∧
  DataSize (PacketHeader f s ++ rest) = s.
Proof.
  intros Hf Hs. split; [done|]. split.
  - unfold Flag. change (drop 2 _) with (SetBE16 f ++ (SetBE32 s ++ rest)). by apply GetBE16_SetBE16.
  - unfold DataSize. change (drop 4 _) with (SetBE32 s ++ rest). by apply GetBE32_SetBE32.
Qed.

(** ** The reference parser

    On the received bytes: whether the stream is still good, the packets, each
    with its flag, and the bytes that are left.  [None]: it does not end. *)
Definition payload (p : list Z) : list Z := if zlen p <? HEADER_SIZE then p else drop 8 p.

Fixpoint parse (fuel : nat) (l : list Z) : option (bool * list (list Z * Z) * list Z) :=
  match fuel with
  | O => None
  | S fuel' =>
      if zlen l <? HEADER_SIZE then Some (true, [], l)
      else
        let h := take 8 l in
        if negb (is_valid h) then Some (false, [], l)
        else
          let n := u32 (DataSize h + HEADER_SIZE) in
          if zlen l <? n then Some (true, [], l)
          else
            '(ok, evs, rest) ← parse fuel' (drop (Z.to_nat n) l);
            Some (ok, (payload (take (Z.to_nat n) l), Flag h) :: evs, rest)
  end.
Definition frames (l : list Z) : option (bool * list (list Z * Z) * list Z) := parse (S (length l)) l.

#[global] Arguments frames : simpl never.

Definition header_of (l : list Z) : option Z :=
  if zlen l <? HEADER_SIZE then None
  else if negb (is_valid (take 8 l)) then None else Some (u32 (DataSize (take 8 l) + HEADER_SIZE)).

(** A packet whose size wraps to 0 is never consumed. *)
Lemma parse_zero fuel : ∀ l, header_of l = Some 0 → parse fuel l = None.
Proof.
  induction fuel as [|fuel IH]; intros l Hh; [done|]. cbn [parse]. unfold header_of in Hh.
  destruct (zlen l <? HEADER_SIZE) eqn:E; [done|]. destruct (negb _) eqn:Ev; [done|].
  injection Hh as Hh. cbv zeta. rewrite Hh. rewrite (proj2 (Z.ltb_ge _ _)) by apply zlen_nonneg.
  change (drop (Z.to_nat 0) l) with l. rewrite IH; [done|].
  unfold header_of. by rewrite E, Ev, Hh.
Qed.

Lemma parse_enough n : ∀ l f, (length l < n)%nat → (length l < f)%nat → parse f l = parse n l.
Proof.
  induction n as [|n IH]; intros l f Hn Hf; [lia|]. destruct f as [|f]; [lia|]. cbn [parse].
  destruct (zlen l <? HEADER_SIZE) eqn:E; [done|]. destruct (negb _) eqn:Ev; [done|]. cbv zeta.
  destruct (zlen l <? u32 _) eqn:El; [done|].
  destruct (decide (u32 (DataSize (take 8 l) + HEADER_SIZE) = 0)) as [Hz|Hz].
  - rewrite Hz. change (drop (Z.to_nat 0) l) with l.
    rewrite !parse_zero; [done|unfold header_of; by rewrite E, Ev, Hz..].
  - pose proof (uwrap_range 32 (DataSize (take 8 l) + HEADER_SIZE) ltac:(lia)) as Hr. unfold in_u in Hr.
    apply Z.ltb_ge in E. unfold HEADER_SIZE, zlen in *.
    rewrite (IH (drop _ l) f); [done|rewrite length_drop; lia..].
Qed.

(** The equation of the parser, free of fuel. *)
Lemma frames_eq l :
  frames l = match header_of l with
  | None => Some (zlen l <? HEADER_SIZE, [], l)
  | Some n =>
      if zlen l <? n then Some (true, [], l)
      else if n =? 0 then None
      else
        '(ok, evs, rest) ← frames (drop (Z.to_nat n) l);
        Some (ok, (payload (take (Z.to_nat n) l), Flag (take 8 l)) :: evs, rest)
  end.
Proof.
  unfold frames. cbn [parse]. unfold header_of at 1. destruct (zlen l <? HEADER_SIZE) eqn:E; [done|].
  destruct (negb _) eqn:Ev; [done|]. cbv zeta. destruct (zlen l <? u32 _) eqn:El; [done|].
  set (n := u32 _) in *. apply Z.ltb_ge in El, E. unfold HEADER_SIZE, zlen in E.
  destruct (Z.eqb_spec n 0) as [Hz|Hz].
  - rewrite Hz. change (drop (Z.to_nat 0) l) with l. rewrite parse_zero; [done|].
    unfold header_of. rewrite (proj2 (Z.ltb_ge _ _)), Ev by (unfold HEADER_SIZE, zlen; lia). by f_equal.
  - pose proof (uwrap_range 32 (DataSize (take 8 l) + HEADER_SIZE) ltac:(lia)) as Hr. unfold in_u in Hr.
    fold n in Hr. by rewrite (parse_enough (S (length (drop (Z.to_nat n) l)))) by (rewrite length_drop; lia).
Qed.

Lemma header_app a b : HEADER_SIZE ≤ zlen a → header_of (a ++ b) = header_of a.
Proof.
  unfold header_of, HEADER_SIZE. intros Ha.
  rewrite !(proj2 (Z.ltb_ge _ _)) by (rewrite ?zlen_app; pose proof (zlen_nonneg b); lia).
  by rewrite take_app_le by (unfold zlen in Ha; lia).
Qed.

Lemma header_range l n : header_of l = Some n → HEADER_SIZE ≤ zlen l ∧ 0 ≤ n.
Proof.
  unfold header_of. destruct (Z.ltb_spec (zlen l) HEADER_SIZE); [done|]. destruct (negb _); [done|].
  intros [= <-]. split; [done|]. by apply uwrap_range.
Qed.

(** No fuel is enough where [frames] has no result. *)
Lemma parse_frames_None l : ∀ f, frames l = None → parse f l = None.
Proof.
  intros f. revert l. induction f as [|f IH]; intros l Hf; [done|]. rewrite frames_eq in Hf. cbn [parse].
  unfold header_of in Hf. destruct (zlen l <? HEADER_SIZE) eqn:E; [done|]. destruct (negb _) eqn:Ev; [done|].
  cbv zeta. destruct (zlen l <? u32 _) eqn:El; [done|].
  destruct (Z.eqb_spec (u32 (DataSize (take 8 l) + HEADER_SIZE)) 0) as [Hz|Hz].
  - rewrite Hz. change (drop (Z.to_nat 0) l) with l. rewrite parse_zero; [done|].
    unfold header_of. by rewrite E, Ev, Hz.
  - rewrite IH; [done|]. by destruct (frames (drop _ l)) as [[[??]?]|].
Qed.

(** Parsing may stop anywhere and go on when more has come. *)
Lemma frames_app a b :
  frames (a ++ b) =
    '(ok, evs, rest) ← frames a;
    if ok : bool then '(ok2, evs2, rest2) ← frames (rest ++ b); Some (ok2, evs ++ evs2, rest2)
    else Some (false, evs, rest ++ b).
Proof.
  remember (length a) as k. revert a Heqk. induction (lt_wf k) as [k _ IH]. intros a ->.
  destruct (header_of a) as [n|] eqn:Hh.
  - destruct (header_range a n Hh) as [H8 Hn]. rewrite (frames_eq a), Hh.
    destruct (Z.ltb_spec (zlen a) n) as [Hl|Hl].
    { cbn. destruct (frames (a ++ b)) as [[[??]?]|]; done. }
    rewrite (frames_eq (a ++ b)), header_app, Hh by done.
    rewrite (proj2 (Z.ltb_ge (zlen (a ++ b)) n)) by (rewrite zlen_app; pose proof (zlen_nonneg b); lia).
    destruct (Z.eqb_spec n 0) as [|Hn0]; [done|].
    unfold zlen, HEADER_SIZE in *. rewrite !drop_app_le, !take_app_le by lia.
    rewrite (IH (length (drop (Z.to_nat n) a))); [|rewrite length_drop; lia|done].
    destruct (frames (drop (Z.to_nat n) a)) as [[[ok evs] rest]|]; [|done]. cbn.
    destruct ok; [|done]. by destruct (frames (rest ++ b)) as [[[??]?]|].
  - rewrite (frames_eq a), Hh. destruct (Z.ltb_spec (zlen a) HEADER_SIZE) as [H8|H8]; cbn.
    + destruct (frames (a ++ b)) as [[[??]?]|]; done.
    + rewrite (frames_eq (a ++ b)), header_app, Hh by done.
      by rewrite (proj2 (Z.ltb_ge _ _)) by (rewrite zlen_app; pose proof (zlen_nonneg b); lia).
Qed.

(** A packet that fits the size field is cut off whole. *)
Definition packet_ok (p : list Z * Z) : Prop := in_u 16 p.2 ∧ zlen p.1 < 2 ^ 32 - 8.

Lemma packet_bytes_length p : zlen (packet_bytes p) = 8 + zlen p.1.
Proof. unfold packet_bytes. by rewrite zlen_app. Qed.

Lemma frames_packet p l :
  packet_ok p →
  frames (packet_bytes p ++ l) =
    '(ok, evs, rest) ← frames l; Some (ok, p :: evs, rest).
Proof.
  intros [Hf Hs]. destruct p as [d f]. simpl in Hf, Hs. pose proof (zlen_nonneg d).
  destruct (PacketHeader_fields f (zlen d) (d ++ l) Hf) as (Hv & HF & HD); [unfold in_u; lia|].
  change (packet_bytes (d, f)) with (PacketHeader f (zlen d) ++ d). rewrite <-app_assoc.
  assert (take 8 (PacketHeader f (zlen d) ++ d ++ l) = PacketHeader f (zlen d) ++ []) as Ht by done.
  destruct (PacketHeader_fields f (zlen d) [] Hf) as (Hv' & HF' & HD'); [unfold in_u; lia|].
  assert (header_of (PacketHeader f (zlen d) ++ d ++ l) = Some (8 + zlen d)) as Hh.
  { unfold header_of, HEADER_SIZE. rewrite (proj2 (Z.ltb_ge _ _)).
    - rewrite Ht, Hv', HD'. simpl. f_equal. rewrite uwrap_id; [lia|unfold in_u; lia].
    - rewrite zlen_app, PacketHeader_length, zlen_app. pose proof (zlen_nonneg l). lia. }
  rewrite frames_eq, Hh, (proj2 (Z.ltb_ge _ _)), (proj2 (Z.eqb_neq _ 0)), Ht, HF'; [|lia|].
  - assert (Z.to_nat (8 + zlen d) = length (PacketHeader f (zlen d) ++ d)) as ->.
    { rewrite length_app. unfold zlen. simpl length. lia. }
    rewrite (app_assoc (PacketHeader _ _)), drop_app_length, take_app_length.
    unfold payload. rewrite (proj2 (Z.ltb_ge _ _)); [done|].
    rewrite zlen_app, PacketHeader_length. unfold HEADER_SIZE. lia.
  - rewrite zlen_app, PacketHeader_length, zlen_app. pose proof (zlen_nonneg l). lia.
Qed.

Lemma frames_packets ps :
  Forall packet_ok ps → frames (concat (packet_bytes <$> ps)) = Some (true, ps, []).
Proof.
  induction 1 as [|p ps Hp _ IH]; [done|].
  rewrite fmap_cons. cbn [concat]. by rewrite frames_packet, IH by done.
Qed.

(** What has arrived of a stream of packets is a prefix of the packets. *)
Lemma frames_prefix ps a b :
  Forall packet_ok ps → concat (packet_bytes <$> ps) = a ++ b →
  ∃ got more rest, ps = got ++ more ∧ frames a = Some (true, got, rest).
Proof.
  intros Hps He. pose proof (frames_packets ps Hps) as Hf. rewrite He, frames_app in Hf.
  destruct (frames a) as [[[[] evs] rest]|]; [|done..]. cbn in Hf.
  destruct (frames (rest ++ b)) as [[[ok2 evs2] rest2]|]; [|done]. injection Hf as -> <- ->. eauto.
Qed.

(** What is left over holds no whole packet. *)
Lemma frames_rest l : ∀ evs r, frames l = Some (true, evs, r) → frames r = Some (true, [], r).
Proof.
  remember (length l) as k. revert l Heqk. induction (lt_wf k) as [k _ IH]. intros l -> evs r Hl.
  rewrite frames_eq in Hl. destruct (header_of l) as [n|] eqn:Hh.
  - destruct (header_range _ _ Hh) as [H8 Hn]. destruct (zlen l <? n) eqn:El.
    + injection Hl as <- <-. by rewrite frames_eq, Hh, El.
    + destruct (Z.eqb_spec n 0); [done|].
      destruct (frames (drop (Z.to_nat n) l)) as [[[ok' evs'] r']|] eqn:Hd; [|done]. cbn in Hl.
      injection Hl as -> <- <-. unfold zlen, HEADER_SIZE in *.
      refine (IH (length (drop (Z.to_nat n) l)) _ _ eq_refl evs' r' Hd). rewrite length_drop. lia.
  - injection Hl as Hok <- <-. by rewrite frames_eq, Hh, Hok.
Qed.

Lemma frames_rest_length l : ∀ ok evs r, frames l = Some (ok, evs, r) → zlen r ≤ zlen l.
Proof.
  remember (length l) as k. revert l Heqk. induction (lt_wf k) as [k _ IH]. intros l -> ok evs r Hl.
  rewrite frames_eq in Hl. destruct (header_of l) as [n|] eqn:Hh.
  - destruct (header_range _ _ Hh) as [H8 Hn]. destruct (Z.ltb_spec (zlen l) n).
    + injection Hl as <- <- <-. lia.
    + destruct (Z.eqb_spec n 0); [done|].
      destruct (frames (drop (Z.to_nat n) l)) as [[[ok' evs'] r']|] eqn:Hd; [|done]. cbn in Hl.
      injection Hl as <- <- <-. 
      assert (zlen r' ≤ zlen (drop (Z.to_nat n) l)) as Hle.
      { refine (IH (length (drop (Z.to_nat n) l)) _ _ eq_refl ok' evs' r' Hd).
        unfold zlen, HEADER_SIZE in *. rewrite length_drop. lia. }
      rewrite zlen_drop in Hle; lia.
  - injection Hl as <- <- <-. lia.
Qed.

(** Chunk by chunk, as the socket delivers them, and stopped by an error. *)
Fixpoint feed (ok : bool) (rest : list Z) (chunks : list (list Z)) :
    option (bool * list (list Z * Z) * list Z) :=
  match chunks with
  | [] => Some (ok, [], rest)
  | c :: chunks' =>
      if ok then
        '(ok1, evs1, rest1) ← frames (rest ++ c);
        '(ok2, evs2, rest2) ← feed ok1 rest1 chunks';
        Some (ok2, evs1 ++ evs2, rest2)
      else Some (false, [], rest)
  end.

Lemma feed_false rest chunks : feed false rest chunks = Some (false, [], rest).
Proof. by destruct chunks. Qed.

(** How a stream is cut into chunks does not matter. *)
Lemma feed_frames chunks : ∀ rest,
  frames rest = Some (true, [], rest) →
  match frames (rest ++ concat chunks) with
  | None => feed true rest chunks = None
  | Some (true, evs, more) => feed true rest chunks = Some (true, evs, more)
  | Some (false, evs, more) => ∃ more2, feed true rest chunks = Some (false, evs, more2)
  end.
Proof.
  induction chunks as [|c chunks IH]; intros rest Hr; cbn [feed concat].
  { by rewrite app_nil_r, Hr. }
  rewrite app_assoc, frames_app.
  destruct (frames (rest ++ c)) as [[[ok1 evs1] rest1]|] eqn:E; [|done]. cbn. destruct ok1; cbn.
  - specialize (IH rest1 (frames_rest _ _ _ E)).
    destruct (frames (rest1 ++ concat chunks)) as [[[[] evs2] more]|]; cbn.
    + by rewrite IH.
    + destruct IH as [more2 ->]. by eexists.
    + by rewrite IH.
  - rewrite feed_false. cbn. rewrite app_nil_r. by eexists.
Qed.
