(* ===== verification/PacketSocket.v ===== *)
(** * Packet sockets

    src/lib_bsp/eventservice/net: the stream socket of the event service
    (PhysicalSocket::Send and Recv of networkservice.cpp, AsyncSocketImpl of
    networktinterfaceimpl.cpp) and the packet socket on top of it
    (asyncpacketsocket.cpp).  The kernel is a script: what each sendmsg accepts
    and what each recv returns.  Listeners are the trace of events; they get
    the bytes of the buffer as it is when the signal is raised.  Not modelled:
    block counters, addresses and options, the epoll registration itself, and
    block encoding, which no caller in src/ turns on. *)

From S2P Require Import Prelude Crc16 MemBuffer PacketFrames.
#[local] Open Scope Z_scope.

(** ** The kernel *)
Inductive kernel_send :=
| Accepts (n : nat)      (* takes at most n bytes of what is offered *)
| SendBlocks
| SendFails (e : Z).
Inductive kernel_recv :=
| Received (bytes : list Z)
| RecvEof (e : Z)
| RecvBlocks
| RecvFails (e : Z).

(** ** State *)
Inductive pkt_event :=
| PacketEvent (bytes : list Z) (flag : Z)
| PacketError (error_code : Z)
| PacketWrite.

Record AsyncSocketImpl := mkSk {
  socket_ : bool;
  write_buffers_ : MemBuffer;
  send_buffers_ : MemBuffer;
  socket_writeable_ : bool;
  de_read : bool; de_write : bool; de_close : bool }.
Record AsyncPacketSocket := mkPs {
  async_socket_ : bool;
  signals : bool;
  recv_buff_ : MemBuffer }.
Record io := mkIo {
  mem : heap;
  kout : list kernel_send;
  wire : list Z;
  sk : AsyncSocketImpl;
  ps : AsyncPacketSocket;
  events : list pkt_event }.
Abbreviation IO := (ST io).

Definition set_mem (h : heap) (s : io) : io := mkIo h (kout s) (wire s) (sk s) (ps s) (events s).
Definition set_sk (k : AsyncSocketImpl) (s : io) : io := mkIo (mem s) (kout s) (wire s) k (ps s) (events s).
Definition set_ps (p : AsyncPacketSocket) (s : io) : io := mkIo (mem s) (kout s) (wire s) (sk s) p (events s).
Definition with_buffers (w b : MemBuffer) (k : AsyncSocketImpl) : AsyncSocketImpl :=
  mkSk (socket_ k) w b (socket_writeable_ k) (de_read k) (de_write k) (de_close k).
Definition with_writeable (b : bool) (k : AsyncSocketImpl) : AsyncSocketImpl :=
  mkSk (socket_ k) (write_buffers_ k) (send_buffers_ k) b (de_read k) (de_write k) (de_close k).
Definition with_events (r w c : bool) (k : AsyncSocketImpl) : AsyncSocketImpl :=
  mkSk (socket_ k) (write_buffers_ k) (send_buffers_ k) (socket_writeable_ k) r w c.
Definition on_sk (f : AsyncSocketImpl → AsyncSocketImpl) : IO unit := modify (λ s, set_sk (f (sk s)) s).
Definition set_recv (b : MemBuffer) (s : io) : io :=
  set_ps (mkPs (async_socket_ (ps s)) (signals (ps s)) b) s.
Definition add_event (e : pkt_event) (s : io) : io :=
  mkIo (mem s) (kout s) (wire s) (sk s) (ps s) (events s ++ [e]).

(** A call on the buffers. *)
Definition on_mem {A} (m : H A) : IO A := λ s,
  match m (mem s) with Ok (a, h) => Ok (a, set_mem h s) | Ub u => Ub u end.

(** ** PhysicalSocket *)
Fixpoint gather (l : list nat) : H (list Z) :=
  match l with
  | [] => mret []
  | p :: l' => b ← load p; rest ← gather l'; mret (blk_data b ++ rest)
  end.

(** sendmsg(2) on the scattered blocks: how many bytes went out, or -1, with
    whether the error is one of blocking, and its code. *)
Definition sendmsg (msg : list Z) : IO (Z * bool * Z) := λ s,
  match kout s with
  | [] => Ok ((-1, true, 0), s)
  | Accepts n :: k =>
      Ok ((zlen (take n msg), false, 0),
          mkIo (mem s) k (wire s ++ take n msg) (sk s) (ps s) (events s))
  | SendBlocks :: k => Ok ((-1, true, 0), mkIo (mem s) k (wire s) (sk s) (ps s) (events s))
  | SendFails e :: k => Ok ((-1, false, e), mkIo (mem s) k (wire s) (sk s) (ps s) (events s))
  end.

(** Blocks that went out are dropped; of one that went out in part the rest is
    copied to a new block, so that no block is changed. *)
Fixpoint drop_sent (l : list nat) (it_count : Z) : H (list nat) :=
  match l with
  | [] => mret []
  | p :: l' =>
      b ← load p;
      if buffer_size b <=? it_count then drop_sent l' (it_count - buffer_size b)
      else
        q ← TakeBlock;
        cs ← Block_CopyBytes p it_count (buffer_size b - it_count);
        store q (mkBlk cs false);;
        mret (q :: l')
  end.
Definition PhysicalSocket_Send (buffer : MemBuffer) : IO (Z * bool * Z * MemBuffer) :=
  msg ← on_mem (gather (blocks_ buffer));
  '(sent, blocking, e) ← sendmsg msg;
  if sent =? size_ buffer then mret (sent, blocking, e, Clear buffer)
  else if (0 <? sent) && (sent <? size_ buffer) then
    l ← on_mem (drop_sent (blocks_ buffer) sent);
    mret (sent, blocking, e, ReduceSize (mkMem (size_ buffer) l) sent)
  else mret (sent, blocking, e, buffer).

(** The result of Recv(buffer), with whether the error is one of blocking. *)
Fixpoint PhysicalSocket_Recv (script : list kernel_recv) (buffer : MemBuffer) (size : Z) :
    H (Z * bool * Z * MemBuffer) :=
  match script with
  | [] | RecvBlocks :: _ => mret (if size =? 0 then -1 else size, true, 0, buffer)
  | RecvEof e :: _ => mret (0, false, e, buffer)
  | RecvFails e :: _ => mret (-1, false, e, buffer)
  | Received bytes :: script' =>
      p ← TakeBlock;
      store p (mkBlk bytes false);;
      buffer ← AppendBlock buffer p;
      if zlen bytes =? DEFAULT_BLOCK_SIZE then PhysicalSocket_Recv script' buffer (size + zlen bytes)
      else mret (size + zlen bytes, false, 0, buffer)
  end.

(** ** AsyncSocketImpl: what the upper layer calls *)
Definition IsClose : IO bool := gets (λ s, negb (socket_ (sk s))).
Definition AsyncWrite (buffer : MemBuffer) : IO bool :=
  s ← get;
  if negb (socket_ (sk s)) then mret false
  else on_sk (λ k, with_buffers (AppendBuffer (write_buffers_ k) buffer) (send_buffers_ k) k);; mret true.
Definition AsyncRead : IO bool :=
  s ← get;
  if negb (socket_ (sk s)) then mret false
  else on_sk (λ k, with_events true (de_write k) (de_close k) k);; mret true.
Definition Close : IO unit :=
  on_sk (λ k, mkSk false
    (if size_ (write_buffers_ k) =? 0 then write_buffers_ k else Clear (write_buffers_ k))
    (if size_ (send_buffers_ k) =? 0 then send_buffers_ k else Clear (send_buffers_ k))
    false (de_read k) (de_write k) (de_close k)).

(** ** AsyncPacketSocket *)
Definition emit (e : pkt_event) : IO unit := s ← get; when (signals (ps s)) (modify (add_event e)).

Definition SignalClose (error_code : Z) (is_signal : bool) : IO unit :=
  s ← get;
  when (async_socket_ (ps s)) (Close;; modify (λ s, set_ps (mkPs false (signals (ps s)) (recv_buff_ (ps s))) s));;
  s ← get;
  when (signals (ps s))
    (when is_signal (modify (add_event (PacketError error_code)));;
     modify (λ s, set_ps (mkPs (async_socket_ (ps s)) false (recv_buff_ (ps s))) s)).

(** AsyncWritePacket(data, size, flag), and the one that takes a buffer. *)
Definition AsyncWritePacket (data : list Z) (flag : Z) : IO bool :=
  s ← get; closed ← IsClose;
  if negb (async_socket_ (ps s)) || closed then mret false
  else
    b ← on_mem (WriteBytes CreateMemBuffer (PacketHeader flag (zlen data)));
    b ← (if 0 <? zlen data then on_mem (WriteBytes b data) else mret b);
    _ ← AsyncWrite b; mret true.
Definition AsyncWritePacket_buffer (buffer : MemBuffer) (flag : Z) : IO bool :=
  p ← on_mem TakeBlock;
  _ ← on_mem (Block_WriteBytes p (PacketHeader flag (u32 (size_ buffer))));
  b ← on_mem (AppendBlock CreateMemBuffer p);
  s ← get;
  if async_socket_ (ps s) then AsyncWrite (AppendBuffer b buffer) else mret false.
Definition AsyncPacketSocket_AsyncRead : IO bool :=
  s ← get; closed ← IsClose;
  if negb (async_socket_ (ps s)) || closed then mret false else AsyncRead.

(** The loop of AnalysisPacket. *)
Fixpoint analysis_loop (fuel : nat) : IO bool :=
  match fuel with
  | O => undefined UB_Diverges
  | S fuel' =>
      recv ← gets (λ s, recv_buff_ (ps s));
      let recv_size := u32 (size_ recv) in
      if recv_size <? HEADER_SIZE then mret true
      else
        header ← on_mem (CopyBytes recv 0 HEADER_SIZE);
        match header with
        | None => mret false
        | Some h =>
            if negb (is_valid h) then mret false
            else
              let pack_size := u32 (DataSize h + HEADER_SIZE) in
              if recv_size <? pack_size then mret true
              else
                '(bret, recv, usr) ← on_mem (ReadBuffer recv CreateMemBuffer pack_size);
                modify (set_recv recv);;
                when bret ('(_, usr) ← on_mem (ReadBytes usr HEADER_SIZE);
                           bytes ← on_mem (gather (blocks_ usr));
                           emit (PacketEvent bytes (Flag h)));;
                analysis_loop fuel'
        end
  end.
Definition AnalysisPacket (buffer : MemBuffer) : IO bool :=
  modify (λ s, set_recv (AppendBuffer (recv_buff_ (ps s)) buffer) s);;
  s ← get; analysis_loop (S (Z.to_nat (size_ (recv_buff_ (ps s))))).

Definition OnAsyncSocketReadEvent (data_buffer : MemBuffer) : IO unit :=
  s ← get; closed ← IsClose;
  if negb (async_socket_ (ps s)) || closed then mret tt
  else
    ok ← AnalysisPacket data_buffer;
    if ok : bool then _ ← AsyncPacketSocket_AsyncRead; mret tt else SignalClose 1 true.
Definition OnAsyncSocketErrorEvent (error_code : Z) : IO unit := SignalClose error_code true.
Definition OnAsyncSocketWriteEvent : IO unit := emit PacketWrite.

(** ** AsyncSocketImpl: what the event loop calls

    TryToWriteData is only called with is_emit_close_event true and
    is_sync_call false. *)
Definition SocketErrorEvent (err : Z) : IO unit := OnAsyncSocketErrorEvent err;; Close.
Definition SocketWriteComplete : IO unit := OnAsyncSocketWriteEvent.
Definition WaitToWriteData : IO unit :=
  on_sk (λ k, with_events (de_read k) true (de_close k) (with_writeable false k)).

Definition MAX_SEND_BLOCK_COUNT : nat := 8.
Fixpoint fill_send (count : nat) (w b : MemBuffer) : H (MemBuffer * MemBuffer) :=
  match count with
  | O => mret (w, b)
  | S count' =>
      match blocks_ w with
      | [] => mret (w, b)
      | p :: l' =>
          blk ← load p;
          b ← AppendBlock b p;
          fill_send count' (mkMem (size_ w - buffer_size blk) l') b
      end
  end.

Fixpoint write_loop (fuel : nat) : IO unit :=
  match fuel with
  | O => undefined UB_Diverges
  | S fuel' =>
      k ← gets sk;
      if (size_ (send_buffers_ k) =? 0) && (size_ (write_buffers_ k) =? 0) then SocketWriteComplete
      else
        when (size_ (send_buffers_ k) =? 0)
          ('(w, b) ← on_mem (fill_send MAX_SEND_BLOCK_COUNT (write_buffers_ k) (send_buffers_ k));
           on_sk (with_buffers w b));;
        k ← gets sk;
        let total_len := size_ (send_buffers_ k) in
        '(res, blocking, e, b) ← PhysicalSocket_Send (send_buffers_ k);
        on_sk (with_buffers (write_buffers_ k) b);;
        if res =? total_len then write_loop fuel'
        else if (0 <? res) && (res <? total_len) then WaitToWriteData
        else if res =? 0 then WaitToWriteData
        else if blocking : bool then WaitToWriteData
        else SocketErrorEvent e
  end.
Definition TryToWriteData : IO Z :=
  k ← gets sk;
  if negb (socket_writeable_ k) then mret (-1)
  else if (size_ (write_buffers_ k) =? 0) && (size_ (send_buffers_ k) =? 0) then
    SocketWriteComplete;; mret 0
  else write_loop (S (S (length (blocks_ (write_buffers_ k)))));; mret 0.

(** OnMessage(MSG_ASYNC_SEND_DATA) *)
Definition OnMessage : IO unit := _ ← TryToWriteData; mret tt.
Definition SocketWriteEvent : IO unit := on_sk (with_writeable true);; _ ← TryToWriteData; mret tt.
Definition SocketReadEvent (script : list kernel_recv) : IO unit :=
  k ← gets sk;
  if negb (socket_ k) then mret tt
  else
    '(res, blocking, e, buffer) ← on_mem (PhysicalSocket_Recv script CreateMemBuffer 0);
    if 0 <? res then OnAsyncSocketReadEvent buffer
    else if res =? 0 then SocketErrorEvent e
    else if blocking : bool then mret tt
    else SocketErrorEvent e.
Definition OnSocketEvent (rd wr cl : bool) (err : Z) (script : list kernel_recv) : IO unit :=
  if negb (err =? 0) then SocketErrorEvent err
  else
    k ← gets sk;
    when (socket_ k && wr) (on_sk (λ k, with_events (de_read k) false (de_close k) k);; SocketWriteEvent);;
    k ← gets sk;
    when (socket_ k && rd) (on_sk (λ k, with_events false (de_write k) (de_close k) k);; SocketReadEvent script);;
    k ← gets sk;
    when (socket_ k && cl) (on_sk (λ k, with_events (de_read k) (de_write k) false k);; SocketErrorEvent err).

(** A connection that was just set up, and what happens to it. *)
Definition fresh_socket (kernel : list kernel_send) : io :=
  mkIo (mkHeap ∅ 0) kernel [] (mkSk true CreateMemBuffer CreateMemBuffer true true false true)
    (mkPs true true CreateMemBuffer) [].
Inductive input :=
| DoWritePacket (data : list Z) (flag : Z)
| DoPosted
| DoSocketEvent (rd wr cl : bool) (err : Z) (script : list kernel_recv).
Definition step (i : input) : IO unit :=
  match i with
  | DoWritePacket data flag => _ ← AsyncWritePacket data flag; mret tt
  | DoPosted => OnMessage
  | DoSocketEvent rd wr cl err script => OnSocketEvent rd wr cl err script
  end.
Definition run : list input → IO unit := iterM step.

(** ** Invariant

    The three buffers of a connection are good and share no block; what went
    out is a prefix of the stream [B] of what was written, and while the
    connection is open the rest of [B] waits in the buffers. *)
Definition pending (s : io) : list Z :=
  view (mem s) (blocks_ (send_buffers_ (sk s))) ++ view (mem s) (blocks_ (write_buffers_ (sk s))).

Record SInv (B : list Z) (s : io) : Prop := {
  i_heap : heap_ok (mem s);
  i_write : owns (mem s) (write_buffers_ (sk s));
  i_send : owns (mem s) (send_buffers_ (sk s));
  i_recv : owns (mem s) (recv_buff_ (ps s));
  i_ws : apart (write_buffers_ (sk s)) (send_buffers_ (sk s));
  i_wr : apart (write_buffers_ (sk s)) (recv_buff_ (ps s));
  i_sr : apart (send_buffers_ (sk s)) (recv_buff_ (ps s));
  i_sync : async_socket_ (ps s) = socket_ (sk s) ∧ signals (ps s) = socket_ (sk s);
  i_wire : wire s `prefix_of` B;
  i_open : socket_ (sk s) = true → B = wire s ++ pending s;
  i_closed : socket_ (sk s) = false → socket_writeable_ (sk s) = false }.

(** The packets among the events. *)
Definition packets (l : list pkt_event) : list (list Z * Z) :=
  omap (λ e, match e with PacketEvent b f => Some (b, f) | _ => None end) l.
Lemma packets_app l k : packets (l ++ k) = packets l ++ packets k.
Proof. apply omap_app. Qed.

(** An operation that does not touch what was received. *)
Record quiet (s s' : io) : Prop := {
  q_recv : recv_buff_ (ps s') = recv_buff_ (ps s);
  q_view : view (mem s') (blocks_ (recv_buff_ (ps s))) = view (mem s) (blocks_ (recv_buff_ (ps s)));
  q_packets : packets (events s') = packets (events s);
  q_open : socket_ (sk s') = true → socket_ (sk s) = true }.
Lemma quiet_refl s : quiet s s.
Proof. by split. Qed.
Lemma quiet_trans s1 s2 s3 : quiet s1 s2 → quiet s2 s3 → quiet s1 s3.
Proof.
  intros [H1 H2 H3 H4] [G1 G2 G3 G4]. split; [congruence| |congruence|auto].
  rewrite <-H2. by rewrite <-H1.
Qed.

Lemma run_mem {A} (m : H A) s a h : m (mem s) = Ok (a, h) → on_mem m s = Ok (a, set_mem h s).
Proof. unfold on_mem. by intros ->. Qed.

Lemma ext_nil_owns h h' mb : ext [] h h' → heap_ok h → owns h mb →
  owns h' mb ∧ view h' (blocks_ mb) = view h (blocks_ mb).
Proof. intros He Hh Ho. eapply ext_owns; try done. set_solver. Qed.

Lemma apart_sym a b : apart a b → apart b a.
Proof. intros Ha p Hp Hq. by eapply Ha. Qed.
Lemma apart_create_l b : apart CreateMemBuffer b.
Proof. intros p Hp. by apply elem_of_nil in Hp. Qed.
Lemma owns_fresh h mb p : heap_ok h → owns h mb → p ∈ blocks_ mb → (p < fresh_ptr h)%nat.
Proof. intros Hh [Hb _ _] Hp. by eapply blocks_fresh. Qed.

(** ** Closing *)
Lemma Close_run s : Close s = Ok (tt, set_sk (mkSk false
    (if size_ (write_buffers_ (sk s)) =? 0 then write_buffers_ (sk s) else CreateMemBuffer)
    (if size_ (send_buffers_ (sk s)) =? 0 then send_buffers_ (sk s) else CreateMemBuffer)
    false (de_read (sk s)) (de_write (sk s)) (de_close (sk s))) s).
Proof. done. Qed.

Lemma if_owns h (b : bool) mb : owns h mb → owns h (if b then mb else CreateMemBuffer).
Proof. destruct b; [done|intros _; apply owns_create]. Qed.
Lemma if_blocks (b : bool) mb p : p ∈ blocks_ (if b then mb else CreateMemBuffer) → p ∈ blocks_ mb.
Proof. destruct b; [done|]. intros Hp. by apply elem_of_nil in Hp. Qed.

(** What closing the connection leaves. *)
Record shut (B : list Z) (s s' : io) : Prop := {
  sh_inv : SInv B s';
  sh_quiet : quiet s s';
  sh_mem : mem s' = mem s;
  sh_wire : wire s' = wire s;
  sh_closed : socket_ (sk s') = false }.

Lemma SignalClose_spec B s e b : SInv B s →
  ∃ s', SignalClose e b s = Ok (tt, s') ∧ shut B s s' ∧
    events s' = events s ++ (if socket_ (sk s) && b then [PacketError e] else []).
Proof.
  intros [Hh Hw Hb Hr Hws Hwr Hbr [Hs1 Hs2] Hwi Ho Hc].
  destruct s as [h k wi [so w sb wr r1 r2 r3] [as_ si rb] ev]. simpl in *. subst as_ si.
  destruct so; simpl.
  - assert (∀ l : list pkt_event, packets l = [] → packets (ev ++ l) = packets ev) as Hp.
    { intros l Hl. by rewrite packets_app, Hl, app_nil_r. }
    destruct b; (eexists; split; [done|]; split; [|by rewrite ?app_nil_r]; split; simpl; try done).
    1,3: split; simpl; try done; try (by apply if_owns);
      [intros p Hp1%if_blocks Hp2%if_blocks; by apply (Hws p)
      |intros p Hp1%if_blocks Hp2; by apply (Hwr p)|intros p Hp1%if_blocks Hp2; by apply (Hbr p)].
    all: split; simpl; try done. by apply Hp.
  - eexists. split; [done|]. rewrite app_nil_r. split; [|done]. split; simpl; try done.
Qed.

Lemma SocketErrorEvent_spec B s e : SInv B s →
  ∃ s', SocketErrorEvent e s = Ok (tt, s') ∧ shut B s s'.
Proof.
  intros Hi. unfold SocketErrorEvent, OnAsyncSocketErrorEvent.
  destruct (SignalClose_spec B s e true Hi) as (s1 & Hr & [Hi1 Hq Hm Hw Hc] & _).
  rewrite run_bind, Hr. rewrite Close_run. eexists. split; [done|].
  destruct Hi1 as [Hh1 Hw1 Hb1 Hr1 Hws1 Hwr1 Hbr1 Hs1 Hwi1 Ho1 Hc1]. rewrite Hc in Hs1.
  split; simpl; try done.
  - split; simpl; try done; try (by apply if_owns).
    + intros p Hp%if_blocks Hp2%if_blocks. by eapply Hws1.
    + intros p Hp%if_blocks. by apply Hwr1.
    + intros p Hp%if_blocks. by apply Hbr1.
  - destruct Hq. by split.
Qed.

(** ** Sending *)
Lemma gather_spec h l : Forall (block_ok h) l → gather l h = Ok (view h l, h).
Proof.
  induction 1 as [|p l (b & Hb & _) _ IH]; cbn [gather]; [done|].
  rewrite run_bind, (run_load _ _ _ Hb). cbn beta iota. rewrite run_bind, IH. cbn beta iota.
  by rewrite view_cons, (data_of_load _ _ _ Hb).
Qed.

Lemma drop_sent_spec l : ∀ h it,
  heap_ok h → Forall (block_ok h) l → NoDup l → 0 ≤ it < zlen (view h l) →
  ∃ l' h', drop_sent l it h = Ok (l', h') ∧ ext [] h h' ∧ Forall (block_ok h') l' ∧ NoDup l' ∧
    (∀ p, p ∈ l' → p ∈ l ∨ (fresh_ptr h ≤ p)%nat) ∧ view h' l' = drop (Z.to_nat it) (view h l).
Proof.
  induction l as [|p l IH]; intros h it Hh Hok Hnd Hit; [by unfold view, zlen in Hit; simpl in Hit; lia|].
  apply Forall_cons in Hok as [Hp Hok]. apply NoDup_cons in Hnd as [Hpn Hnd].
  pose proof Hp as (b & Hb & Hs & Hfl). pose proof (data_of_load _ _ _ Hb) as Hd.
  rewrite view_cons, zlen_app in *. cbn [drop_sent]. rewrite run_bind, (run_load _ _ _ Hb). cbn beta iota.
  assert (buffer_size b = zlen (data_of h p)) as Hbs by (by rewrite Hd).
  destruct (Z.leb_spec (buffer_size b) it) as [Hle|Hgt].
  - destruct (IH h (it - buffer_size b) Hh Hok Hnd) as (l' & h' & Hr & He & Ho & Hn & Hin & Hv); [lia|].
    exists l', h'. split_and!; try done.
    + intros q Hq. destruct (Hin q Hq); [left; by right|by right].
    + rewrite Hv, drop_app_ge by (unfold zlen in *; lia). f_equal. unfold zlen in *. lia.
  - rewrite run_bind. destruct (TakeBlock_spec h Hh) as (h1 & Ht & He1 & Hb1 & Hd1).
    rewrite Ht. cbn beta iota.
    assert (blks h1 !! p = Some b) as Hb2.
    { rewrite (ext_frame _ _ _ He1); [done|set_solver|]. by eapply block_ok_fresh. }
    rewrite run_bind. unfold Block_CopyBytes. rewrite run_bind, (run_load _ _ _ Hb2). cbn beta iota.
    rewrite (proj2 (Z.ltb_ge _ _)), (proj2 (Z.eqb_neq _ 0)) by lia. cbn [orb]. cbn zeta.
    rewrite Z.ltb_irrefl, run_ret. cbn beta iota.
    set (d := take (Z.to_nat (buffer_size b - it)) (drop (Z.to_nat it) (blk_data b))).
    assert (d = drop (Z.to_nat it) (blk_data b)) as Hdd.
    { unfold d, buffer_size, zlen. apply take_ge. rewrite length_drop. lia. }
    rewrite run_bind. unfold store. rewrite run_modify. cbn beta iota. rewrite run_ret.
    pose proof (set_data_ext h1 (fresh_ptr h) d false (ext_ok _ _ _ He1) Hb1) as He2.
    exists (fresh_ptr h :: l), (set_data h1 (fresh_ptr h) d false).
    assert (ext [] h (set_data h1 (fresh_ptr h) d false)) as He.
    { eapply ext_trans_new; [exact He1|exact He2|]. intros q Hq.
      apply list_elem_of_singleton in Hq as ->. right. lia. }
    assert (fresh_ptr h ∉ l) as Hfn.
    { intros Hin. pose proof (blocks_fresh _ _ _ Hh Hok Hin). lia. }
    destruct (ext_view _ _ _ l He Hh Hok) as [Hv Hok2]; [set_solver|].
    split_and!; [done|done| |by constructor| |].
    + constructor; [|done]. exists (mkBlk d false). split; [by apply lookup_insert_eq|]. split; [|done].
      unfold buffer_size, zlen in *. simpl. rewrite Hdd, length_drop. lia.
    + intros q [->|Hq]%elem_of_cons; [by right; lia|left; by right].
    + rewrite view_cons, set_data_of, Hv, Hdd, Hd.
      rewrite drop_app_le; [done|]. unfold buffer_size, zlen in *. lia.
Qed.

(** One call of Send: every byte is on the wire or still in the buffer. *)
Lemma Send_spec s b : heap_ok (mem s) → owns (mem s) b →
  ∃ sent blocking e b' s', PhysicalSocket_Send b s = Ok ((sent, blocking, e, b'), s') ∧
    ext [] (mem s) (mem s') ∧ owns (mem s') b' ∧ sk s' = sk s ∧ ps s' = ps s ∧ events s' = events s ∧
    kout s' = tail (kout s) ∧
    (∀ p, p ∈ blocks_ b' → p ∈ blocks_ b ∨ (fresh_ptr (mem s) ≤ p)%nat) ∧
    wire s' ++ view (mem s') (blocks_ b') = wire s ++ view (mem s) (blocks_ b) ∧
    (sent = size_ b → size_ b' = 0) ∧
    (∀ n, head (kout s) = Some (Accepts n) → size_ b ≤ Z.of_nat n → sent = size_ b).
Proof.
  intros Hh [Hok Hnd Hs]. unfold PhysicalSocket_Send. rewrite run_bind.
  rewrite (run_mem _ _ _ _ (gather_spec _ _ Hok)). cbn beta iota.
  pose proof (zlen_nonneg (view (mem s) (blocks_ b))) as Hz. set (v := view (mem s) (blocks_ b)) in *.
  assert (owns (mem s) b) as Hob by done.
  assert (∀ k, mem (mkIo (mem s) k (wire s) (sk s) (ps s) (events s)) = mem s) as _ by done.
  rewrite run_bind. unfold sendmsg. cbn [kout mem set_mem sk ps events wire].
  destruct (kout s) as [|[n| |e] k] eqn:Ek; cbn beta iota.
  2: { destruct (Z.eqb_spec (zlen (take n v)) (size_ b)) as [He|Hne].
    - eexists _, _, _, _, _. split; [done|]. simpl. split_and!; try done.
      + apply owns_create.
      + intros p Hp. by apply elem_of_nil in Hp.
      + unfold view. simpl. rewrite app_nil_r. rewrite take_ge; [done|].
        rewrite Hs in He. unfold zlen in He. rewrite length_take in He. lia.
    - assert (zlen (take n v) < size_ b) as Hlt.
      { rewrite Hs in *. unfold zlen in *. rewrite length_take in *. lia. }
      assert (zlen (take n v) = Z.of_nat n) as Hn.
      { rewrite Hs in *. unfold zlen in *. rewrite length_take in *. lia. }
      destruct (Z.ltb_spec 0 (zlen (take n v))) as [H0|H0].
      + rewrite (proj2 (Z.ltb_lt _ _)) by done. cbn [andb].
        destruct (drop_sent_spec (blocks_ b) (mem s) (Z.of_nat n) Hh Hok Hnd ltac:(fold v; lia))
          as (l' & h' & Hr & He & Ho & Hn' & Hin & Hv). fold v in Hv.
        rewrite run_bind, Hn. rewrite (run_mem _ _ l' h') by exact Hr. cbn beta iota.
        eexists _, _, _, _, _. split; [done|]. simpl. split_and!; try done.
        * split; simpl; [done|done|]. rewrite Hv, Hs. rewrite zlen_drop; [done|]. fold v. lia.
        * rewrite Hv, Nat2Z.id, <-app_assoc. by rewrite take_drop.
        * lia.
        * intros n' [= ->] Hle. lia.
      + cbn [andb]. eexists _, _, _, _, _. split; [done|]. simpl.
        assert (take n v = []) as Ht by (apply zlen_0; pose proof (zlen_nonneg (take n v)); lia).
        split_and!; try done; [by left|by rewrite Ht, app_nil_r|].
        intros n' [= ->] Hle. lia. }
  all: destruct (Z.eqb_spec (-1) (size_ b)); [lia|]; cbn [Z.ltb Z.compare andb];
    eexists _, _, _, _, _; (split; [done|]); simpl; split_and!; try done;
    try by left.
  all: by rewrite Ek.
Qed.

Lemma fill_send_spec n : ∀ h w b,
  heap_ok h → owns h w → owns h b → apart w b →
  ∃ w' b', fill_send n w b h = Ok ((w', b'), h) ∧ owns h w' ∧ owns h b' ∧ apart w' b' ∧
    blocks_ b' ++ blocks_ w' = blocks_ b ++ blocks_ w ∧
    (length (blocks_ w') ≤ length (blocks_ w))%nat ∧
    ((0 < n)%nat → blocks_ w ≠ [] → (length (blocks_ w') < length (blocks_ w))%nat).
Proof.
  induction n as [|n IH]; intros h w b Hh Hw Hb Hap; cbn [fill_send].
  { exists w, b. split_and!; try done. lia. }
  destruct w as [sz [|p l]]; simpl.
  { exists (mkMem sz []), b. split_and!; done. }
  destruct Hw as [Hok Hnd Hs]. simpl in *. apply Forall_cons in Hok as [Hp Hok].
  apply NoDup_cons in Hnd as [Hpn Hnd]. pose proof Hp as (blk & Hblk & Hbs & _).
  rewrite run_bind, (run_load _ _ _ Hblk). cbn beta iota.
  assert (p ∉ blocks_ b) as Hpb by (apply Hap; by left).
  destruct (AppendBlock_spec h b p Hh Hb Hp Hpb) as (b1 & Hr & Ho1 & Hbl & _).
  rewrite run_bind, Hr. cbn beta iota.
  destruct (IH h (mkMem (sz - buffer_size blk) l) b1) as (w' & b' & Hr' & Hw' & Hb' & Hap' & Hbl' & Hlen & _).
  - done.
  - split; simpl; [done|done|]. rewrite view_cons, zlen_app, (data_of_load _ _ _ Hblk) in Hs.
    unfold buffer_size. lia.
  - done.
  - intros q Hq. simpl in Hq. rewrite Hbl. intros [Hq2|Hq2]%elem_of_app; [by apply (Hap q); [right|]|].
    by apply list_elem_of_singleton in Hq2 as ->.
  - exists w', b'. simpl in *. split_and!; try done.
    + by rewrite Hbl', Hbl, <-app_assoc.
    + lia.
    + intros _ _. lia.
Qed.

(** Moving blocks from one buffer to the next. *)
Lemma fill_inv B s : SInv B s →
  ∃ w b, fill_send MAX_SEND_BLOCK_COUNT (write_buffers_ (sk s)) (send_buffers_ (sk s)) (mem s) = Ok ((w, b), mem s) ∧
    SInv B (set_sk (with_buffers w b (sk s)) s) ∧
    pending (set_sk (with_buffers w b (sk s)) s) = pending s ∧
    (length (blocks_ w) ≤ length (blocks_ (write_buffers_ (sk s))))%nat ∧
    (blocks_ (write_buffers_ (sk s)) ≠ [] → (length (blocks_ w) < length (blocks_ (write_buffers_ (sk s))))%nat).
Proof.
  intros [Hh Hw Hb Hr Hws Hwr Hbr Hs Hwi Ho Hc].
  destruct (fill_send_spec MAX_SEND_BLOCK_COUNT _ _ _ Hh Hw Hb Hws)
    as (w & b & Hrun & Hw' & Hb' & Hap & Hbl & Hlen & Hlt).
  assert (∀ p, p ∈ blocks_ w ∨ p ∈ blocks_ b →
    p ∈ blocks_ (write_buffers_ (sk s)) ∨ p ∈ blocks_ (send_buffers_ (sk s))) as Hin.
  { intros p Hp. assert (p ∈ blocks_ b ++ blocks_ w) as Hp' by set_solver. rewrite Hbl in Hp'. set_solver. }
  assert (pending (set_sk (with_buffers w b (sk s)) s) = pending s) as Hpe.
  { unfold pending. simpl. by rewrite <-!view_app, Hbl. }
  exists w, b. split_and!; [done| |done|done|].
  - split; try done.
    + intros p Hp. simpl in Hp. destruct (Hin p); [by left|by apply Hwr|by apply Hbr].
    + intros p Hp. simpl in Hp. destruct (Hin p); [by right|by apply Hwr|by apply Hbr].
    + intros Ho1. rewrite Hpe. by apply Ho.
  - intros Hne. apply Hlt; [unfold MAX_SEND_BLOCK_COUNT; lia|done].
Qed.

(** A call of Send on the buffer being sent. *)
Lemma send_inv B s : SInv B s → socket_ (sk s) = true →
  ∃ sent blocking e b s', PhysicalSocket_Send (send_buffers_ (sk s)) s = Ok ((sent, blocking, e, b), s') ∧
    sk s' = sk s ∧ kout s' = tail (kout s) ∧
    SInv B (set_sk (with_buffers (write_buffers_ (sk s)) b (sk s)) s') ∧
    quiet s (set_sk (with_buffers (write_buffers_ (sk s)) b (sk s)) s') ∧
    (sent = size_ (send_buffers_ (sk s)) → size_ b = 0) ∧
    (∀ n, head (kout s) = Some (Accepts n) → size_ (send_buffers_ (sk s)) ≤ Z.of_nat n →
       sent = size_ (send_buffers_ (sk s))).
Proof.
  intros [Hh Hw Hb Hr Hws Hwr Hbr Hs Hwi Ho Hc] Hopen.
  destruct (Send_spec s _ Hh Hb)
    as (sent & bl & e & b & s' & Hrun & He & Hob & Hsk & Hps & Hev & Hk & Hin & Hwire & Hall & Hacc).
  destruct (ext_nil_owns _ _ _ He Hh Hw) as [Hw' Hvw].
  destruct (ext_nil_owns _ _ _ He Hh Hr) as [Hr' Hvr].
  exists sent, bl, e, b, s'. split_and!; try done.
  - assert (B = wire s' ++ view (mem s') (blocks_ b) ++ view (mem s') (blocks_ (write_buffers_ (sk s)))) as HB.
    { rewrite Hvw, app_assoc, Hwire, <-app_assoc. by apply Ho. }
    split; simpl; rewrite ?Hps; try done.
    + apply (ext_ok _ _ _ He).
    + intros p Hp Hq. destruct (Hin p Hq) as [?|Hfr]; [by apply (Hws p)|].
      pose proof (owns_fresh _ _ _ Hh Hw Hp). lia.
    + intros p Hp Hq. destruct (Hin p Hp) as [?|Hfr]; [by apply (Hbr p)|].
      pose proof (owns_fresh _ _ _ Hh Hr Hq). lia.
    + rewrite HB. by eexists.
  - split; simpl; rewrite ?Hps, ?Hev; done.
Qed.

Lemma SInv_sk B s f :
  (∀ k, socket_ (f k) = socket_ k ∧ write_buffers_ (f k) = write_buffers_ k ∧ send_buffers_ (f k) = send_buffers_ k) →
  (socket_ (sk s) = false → socket_writeable_ (f (sk s)) = false) →
  SInv B s → SInv B (set_sk (f (sk s)) s) ∧ quiet s (set_sk (f (sk s)) s).
Proof.
  intros Hf Hwr [Hh Hw Hb Hr Hws Hwr' Hbr Hs Hwi Ho Hc]. destruct (Hf (sk s)) as (H1 & H2 & H3).
  split; [|split; simpl; rewrite ?H1; done].
  split; unfold pending in *; simpl; rewrite ?H1, ?H2, ?H3; done.
Qed.

Lemma SInv_same B s s' :
  mem s' = mem s → sk s' = sk s → ps s' = ps s → wire s' = wire s → SInv B s → SInv B s'.
Proof.
  intros H1 H2 H3 H4 [Hh Hw Hb Hr Hws Hwr Hbr Hs Hwi Ho Hc].
  split; unfold pending in *; rewrite ?H1, ?H2, ?H3, ?H4; done.
Qed.

Lemma SocketWriteComplete_spec B s : SInv B s →
  ∃ s', SocketWriteComplete s = Ok (tt, s') ∧ SInv B s' ∧ quiet s s' ∧ wire s' = wire s ∧ sk s' = sk s.
Proof.
  intros Hi. unfold SocketWriteComplete, OnAsyncSocketWriteEvent, emit.
  rewrite run_bind, run_get. cbn beta iota. unfold when. destruct (signals (ps s)).
  - rewrite run_modify. eexists. split; [done|]. split_and!; [by apply (SInv_same B s)| |done|done].
    split; try done. simpl. rewrite packets_app. apply app_nil_r.
  - rewrite run_ret. eexists. split; [done|]. split_and!; [done|apply quiet_refl|done|done].
Qed.

Definition measure (s : io) : nat :=
  length (blocks_ (write_buffers_ (sk s))) + (if size_ (send_buffers_ (sk s)) =? 0 then 0 else 1).

Lemma WaitToWriteData_spec B s : SInv B s →
  ∃ s', WaitToWriteData s = Ok (tt, s') ∧ SInv B s' ∧ quiet s s'.
Proof.
  intros Hi. unfold WaitToWriteData, on_sk. rewrite run_modify. eexists. split; [done|].
  by apply (SInv_sk B s (λ k, with_events (de_read k) true (de_close k) (with_writeable false k))).
Qed.

Lemma empty_blocks_size s mb : owns (mem s) mb → size_ mb ≠ 0 → blocks_ mb ≠ [].
Proof. intros [_ _ Hs] Hne Hb. rewrite Hs, Hb in Hne. done. Qed.

(** The part of a round up to the call of Send. *)
Lemma fill_step B s : SInv B s → socket_ (sk s) = true →
  (size_ (send_buffers_ (sk s)) =? 0) && (size_ (write_buffers_ (sk s)) =? 0) = false →
  ∃ s1, (when (size_ (send_buffers_ (sk s)) =? 0)
          ('(w, b) ← on_mem (fill_send MAX_SEND_BLOCK_COUNT (write_buffers_ (sk s)) (send_buffers_ (sk s)));
           on_sk (with_buffers w b))) s = Ok (tt, s1) ∧
    SInv B s1 ∧ quiet s s1 ∧ socket_ (sk s1) = true ∧ pending s1 = pending s ∧ kout s1 = kout s ∧
    wire s1 = wire s ∧ (length (blocks_ (write_buffers_ (sk s1))) < measure s)%nat.
Proof.
  intros Hi Hopen Hne. unfold when, measure. destruct (Z.eqb_spec (size_ (send_buffers_ (sk s))) 0) as [H0|H0].
  - cbn [andb] in Hne. apply Z.eqb_neq in Hne.
    destruct (fill_inv B s Hi) as (w & b & Hr & Hi1 & Hp & _ & Hlt).
    rewrite run_bind, (run_mem _ _ _ _ Hr). cbn beta iota.
    unfold on_sk. rewrite run_modify. eexists. split; [done|].
    replace (set_mem (mem s) s) with s by by destruct s.
    split_and!; try done. specialize (Hlt (empty_blocks_size _ _ (i_write _ _ Hi) Hne)). simpl. lia.
  - rewrite run_ret. eexists. split; [done|]. split_and!; try done. lia.
Qed.

(** The loop ends, and nothing is lost on the way. *)
Lemma write_loop_spec B fuel : ∀ s, SInv B s → socket_ (sk s) = true → (measure s < fuel)%nat →
  ∃ s', write_loop fuel s = Ok (tt, s') ∧ SInv B s' ∧ quiet s s'.
Proof.
  induction fuel as [|fuel IH]; intros s Hi Hopen Hm; [lia|]. cbn [write_loop].
  rewrite run_bind, run_gets. cbn beta iota.
  destruct ((size_ (send_buffers_ (sk s)) =? 0) && (size_ (write_buffers_ (sk s)) =? 0)) eqn:E.
  { destruct (SocketWriteComplete_spec B s Hi) as (s' & -> & ? & ? & _). eauto. }
  destruct (fill_step B s Hi Hopen E) as (s1 & Hr1 & Hi1 & Hq1 & Ho1 & _ & _ & _ & Hm1).
  rewrite run_bind, Hr1. cbn beta iota. rewrite run_bind, run_gets. cbn beta iota.
  destruct (send_inv B s1 Hi1 Ho1) as (sent & bl & e & b & s2 & Hr2 & Hsk & _ & Hi3 & Hq3 & Hall & _).
  rewrite run_bind, Hr2. cbn beta iota. rewrite run_bind. unfold on_sk. rewrite run_modify, Hsk. cbn beta iota.
  set (s3 := set_sk (with_buffers (write_buffers_ (sk s1)) b (sk s1)) s2) in *.
  pose proof (quiet_trans _ _ _ Hq1 Hq3) as Hq.
  destruct (Z.eqb_spec sent (size_ (send_buffers_ (sk s1)))) as [Hse|Hse].
  { destruct (IH s3 Hi3) as (s' & Hr & Hi' & Hq'); [done| |].
    - unfold measure at 1. simpl. rewrite (proj2 (Z.eqb_eq _ _) (Hall Hse)). lia.
    - exists s'. split_and!; [done|done|exact (quiet_trans _ _ _ Hq Hq')]. }
  destruct (WaitToWriteData_spec B s3 Hi3) as (s4 & Hr4 & Hi4 & Hq4).
  destruct (SocketErrorEvent_spec B s3 e Hi3) as (s5 & Hr5 & [Hi5 Hq5 _ _ _]).
  pose proof (quiet_trans _ _ _ Hq Hq4). pose proof (quiet_trans _ _ _ Hq Hq5).
  destruct ((0 <? sent) && (sent <? size_ (send_buffers_ (sk s1)))); [by exists s4|].
  destruct (sent =? 0); [by exists s4|]. destruct bl; [by exists s4|by exists s5].
Qed.

Lemma TryToWriteData_spec B s : SInv B s →
  ∃ r s', TryToWriteData s = Ok (r, s') ∧ SInv B s' ∧ quiet s s'.
Proof.
  intros Hi. unfold TryToWriteData. rewrite run_bind, run_gets. cbn beta iota.
  destruct (socket_writeable_ (sk s)) eqn:Ew; cbn [negb].
  - assert (socket_ (sk s) = true) as Ho.
    { destruct (socket_ (sk s)) eqn:E; [done|]. by rewrite (i_closed _ _ Hi E) in Ew. }
    destruct (_ && _).
    + destruct (SocketWriteComplete_spec B s Hi) as (s' & Hr & ? & ? & _).
      rewrite run_bind, Hr. cbn beta iota. rewrite run_ret. eauto.
    + destruct (write_loop_spec B (S (S (length (blocks_ (write_buffers_ (sk s)))))) s Hi Ho) as (s' & Hr & Hi' & Hq).
      { unfold measure. destruct (_ =? _); lia. }
      rewrite run_bind, Hr. cbn beta iota. rewrite run_ret. eauto.
  - rewrite run_ret. do 2 eexists. split; [done|]. split; [done|apply quiet_refl].
Qed.

(** ** Receiving

    What one call of PhysicalSocket::Recv makes of the kernel's answers: when
    the last of them is an end of file or an error, the bytes read before it
    in the same call are not delivered. *)
Inductive read_outcome := Delivered (chunk : list Z) | NothingRead | Closed.
Fixpoint recv_data (script : list kernel_recv) (acc : list Z) : read_outcome :=
  match script with
  | [] | RecvBlocks :: _ => if zlen acc =? 0 then NothingRead else Delivered acc
  | RecvEof _ :: _ | RecvFails _ :: _ => Closed
  | Received bytes :: script' =>
      if zlen bytes =? DEFAULT_BLOCK_SIZE then recv_data script' (acc ++ bytes) else Delivered (acc ++ bytes)
  end.
(** recv(2) returns at least one byte and at most a block. *)
Definition recv_ok (r : kernel_recv) : Prop :=
  match r with Received bytes => 0 < zlen bytes ≤ DEFAULT_BLOCK_SIZE | _ => True end.
#[export] Instance recv_ok_dec r : Decision (recv_ok r).
Proof. destruct r; simpl; apply _. Defined.

Lemma Recv_spec script : ∀ h buffer,
  heap_ok h → owns h buffer → Forall recv_ok script →
  ∃ size bl e buffer' h',
    PhysicalSocket_Recv script buffer (size_ buffer) h = Ok ((size, bl, e, buffer'), h') ∧
    ext [] h h' ∧ owns h' buffer' ∧
    (∀ p, p ∈ blocks_ buffer' → p ∈ blocks_ buffer ∨ (fresh_ptr h ≤ p)%nat) ∧
    match recv_data script (view h (blocks_ buffer)) with
    | Delivered c => 0 < size ∧ view h' (blocks_ buffer') = c
    | NothingRead => size = -1 ∧ bl = true
    | Closed => size = 0 ∨ size = -1 ∧ bl = false
    end.
Proof.
  induction script as [|r script IH]; intros h buffer Hh Ho Hs; cbn [PhysicalSocket_Recv recv_data].
  { rewrite run_ret. do 5 eexists. split; [done|]. rewrite (ow_size _ _ Ho).
    pose proof (zlen_nonneg (view h (blocks_ buffer))).
    split_and!; [by apply ext_refl|done|by left|]. destruct (Z.eqb_spec (zlen (view h (blocks_ buffer))) 0); [done|].
    split; [lia|done]. }
  apply Forall_cons in Hs as [Hr Hs]. destruct r as [bytes|e| |e].
  2, 3, 4: rewrite run_ret; do 5 eexists; (split; [done|]);
    pose proof (zlen_nonneg (view h (blocks_ buffer)));
    split_and!; [by apply ext_refl|done|by left|]; rewrite ?(ow_size _ _ Ho); auto.
  2: { destruct (Z.eqb_spec (zlen (view h (blocks_ buffer))) 0); [done|]. split; [lia|done]. }
  simpl in Hr. destruct (TakeBlock_spec h Hh) as (h1 & Ht & He1 & Hb1 & Hd1).
  rewrite run_bind, Ht. cbn beta iota. rewrite run_bind. unfold store. rewrite run_modify. cbn beta iota.
  pose proof (set_data_ext h1 (fresh_ptr h) bytes false (ext_ok _ _ _ He1) Hb1) as He2.
  set (h2 := set_data h1 (fresh_ptr h) bytes false) in *.
  assert (ext [] h h2) as He.
  { eapply ext_trans_new; [exact He1|exact He2|]. intros q Hq. apply list_elem_of_singleton in Hq as ->. right. lia. }
  destruct (ext_nil_owns _ _ _ He Hh Ho) as [Ho2 Hv2].
  assert (fresh_ptr h ∉ blocks_ buffer) as Hfn.
  { intros Hin. pose proof (owns_fresh _ _ _ Hh Ho Hin). lia. }
  assert (block_ok h2 (fresh_ptr h)) as Hbk.
  { exists (mkBlk bytes false). split; [by apply lookup_insert_eq|]. split; [|done]. unfold buffer_size. simpl. lia. }
  destruct (AppendBlock_spec h2 buffer (fresh_ptr h) (ext_ok _ _ _ He2) Ho2 Hbk Hfn) as (b2 & Ha & Ho3 & Hbl & Hv3).
  fold (set_data h1 (fresh_ptr h) bytes false). fold h2. rewrite run_bind, Ha. cbn beta iota.
  assert (view h2 (blocks_ b2) = view h (blocks_ buffer) ++ bytes) as Hv.
  { rewrite Hv3, Hv2. f_equal. apply set_data_of. }
  assert (size_ buffer + zlen bytes = size_ b2) as Hsz.
  { rewrite (ow_size _ _ Ho3), Hv, zlen_app. by rewrite (ow_size _ _ Ho). }
  assert (∀ p, p ∈ blocks_ b2 → p ∈ blocks_ buffer ∨ (fresh_ptr h ≤ p)%nat) as Hin.
  { intros p. rewrite Hbl. intros [?|Hp]%elem_of_app; [by left|]. apply list_elem_of_singleton in Hp as ->. by right. }
  destruct (zlen bytes =? DEFAULT_BLOCK_SIZE).
  - rewrite Hsz. destruct (IH h2 b2 (ext_ok _ _ _ He2) Ho3 Hs) as (size & bl & e & b' & h' & Hr' & He' & Ho' & Hin' & Hm).
    rewrite Hv in Hm. exists size, bl, e, b', h'. split_and!; try done.
    + by eapply ext_trans.
    + intros p Hp. destruct (Hin' p Hp) as [Hq|Hq]; [by apply Hin|]. right. pose proof (ext_fresh _ _ _ He). lia.
  - rewrite run_ret. do 5 eexists. split; [done|]. split_and!; try done.
    pose proof (zlen_nonneg (view h (blocks_ buffer))). rewrite (ow_size _ _ Ho). lia.
Qed.

(** The state after a run of the loop. *)
Definition after (h : heap) (recv : MemBuffer) (evs : list (list Z * Z)) (s : io) : io :=
  mkIo h (kout s) (wire s) (sk s) (mkPs (async_socket_ (ps s)) (signals (ps s)) recv)
    (events s ++ ((λ e, PacketEvent e.1 e.2) <$> evs)).

(** The result of the loop, given that of the reference parser. *)
Definition refines (o : option (bool * list (list Z * Z) * list Z)) (s : io) (r : res (bool * io)) : Prop :=
  match o with
  | None => r = Ub UB_Diverges
  | Some (ok, evs, rest) => ∃ h' recv', r = Ok (ok, after h' recv' evs s) ∧
      ext (blocks_ (recv_buff_ (ps s))) (mem s) h' ∧ owns h' recv' ∧
      blocks_ recv' ⊆ blocks_ (recv_buff_ (ps s)) ∧ view h' (blocks_ recv') = rest
  end.

(** AnalysisPacket does to the received bytes what the reference parser does. *)
Lemma analysis_loop_spec fuel : ∀ s,
  heap_ok (mem s) → owns (mem s) (recv_buff_ (ps s)) → signals (ps s) = true →
  size_ (recv_buff_ (ps s)) < 2 ^ 31 →
  refines (parse fuel (view (mem s) (blocks_ (recv_buff_ (ps s))))) s (analysis_loop fuel s).
Proof.
  induction fuel as [|fuel IH]; intros s Hh Ho Hsig Hsz; [done|]. cbn [parse analysis_loop].
  set (recv := recv_buff_ (ps s)) in *. set (l := view (mem s) (blocks_ recv)) in *.
  pose proof (ow_size _ _ Ho) as Hs. fold l in Hs. pose proof (zlen_nonneg l).
  assert (after (mem s) recv [] s = s) as Hafter.
  { unfold after, recv. simpl. rewrite app_nil_r. by destruct s as [? ? ? ? [? ? ?] ?]. }
  rewrite run_bind, run_gets. cbn beta iota. fold recv. rewrite (uwrap_id 32 (size_ recv)) by (unfold in_u; lia).
  rewrite Hs. destruct (Z.ltb_spec (zlen l) HEADER_SIZE) as [Hshort|Hlong].
  { rewrite run_ret. exists (mem s), recv. rewrite Hafter. by split_and!. }
  unfold HEADER_SIZE in *. cbv zeta. rewrite run_bind.
  rewrite (run_mem _ _ _ _ (CopyBytes_spec (mem s) recv 0 8 Ho ltac:(lia) ltac:(lia) ltac:(lia) ltac:(lia))).
  cbn beta iota. rewrite (proj2 (Z.leb_le _ _)) by lia.
  replace (set_mem (mem s) s) with s by by destruct s.
  change (take (Z.to_nat 8) (drop (Z.to_nat 0) (view (mem s) (blocks_ recv)))) with (take 8 l).
  destruct (negb (is_valid (take 8 l))).
  { rewrite run_ret. exists (mem s), recv. rewrite Hafter. by split_and!. }
  set (n := u32 (DataSize (take 8 l) + 8)).
  pose proof (uwrap_range 32 (DataSize (take 8 l) + 8) ltac:(lia)) as Hn. fold n in Hn. unfold in_u in Hn.
  destruct (Z.ltb_spec (zlen l) n) as [Hless|Hge].
  { rewrite run_ret. exists (mem s), recv. rewrite Hafter. by split_and!. }
  destruct (ReadBuffer_spec (mem s) recv CreateMemBuffer n Hh Ho (owns_create _)) as
    (recv1 & usr & h1 & Hr1 & He1 & Ho1 & Hou & Hap & Hsub & Hin & Hv1 & Hvu); [by apply apart_sym, apart_create_l|lia|].
  fold l in Hv1, Hvu. rewrite run_bind, (run_mem _ _ _ _ Hr1). cbn beta iota.
  rewrite run_bind, run_modify. cbn beta iota. rewrite run_bind. unfold when at 1.
  assert (∃ usr' h2 r, ReadBytes usr 8 h1 = Ok ((r, usr'), h2) ∧ ext (blocks_ usr) h1 h2 ∧ owns h2 usr' ∧
    view h2 (blocks_ usr') = payload (take (Z.to_nat n) l)) as (usr' & h2 & r & Hr2 & He2 & Hou2 & Hvu2).
  { simpl in Hvu. unfold payload, HEADER_SIZE. rewrite <-Hvu.
    destruct (ReadBytes_spec h1 usr 8 (ext_ok _ _ _ He1) Hou ltac:(lia))
      as [[Hlt Hr]|(Hle & u' & h2 & Hr & He2 & Ho2 & _ & Hv2)].
    - exists usr, h1, None. split_and!; [done|apply ext_refl, (ext_ok _ _ _ He1)|done|].
      rewrite (proj2 (Z.ltb_lt _ _)); [done|]. by rewrite <-(ow_size _ _ Hou).
    - exists u', h2, (Some (take (Z.to_nat 8) (view h1 (blocks_ usr)))). split_and!; try done.
      rewrite (proj2 (Z.ltb_ge _ _)); [done|]. by rewrite <-(ow_size _ _ Hou). }
  rewrite run_bind, (run_mem (ReadBytes usr 8) _ (r, usr') h2) by done. cbn beta iota.
  rewrite run_bind, (run_mem (gather (blocks_ usr')) _ (view h2 (blocks_ usr')) h2)
    by apply (gather_spec _ _ (ow_blocks _ _ Hou2)). cbn beta iota.
  rewrite Hvu2. unfold emit. rewrite run_bind, run_get. cbn beta iota.
  rewrite run_when_true by done. rewrite run_modify. cbn beta iota.
  set (s1 := add_event _ _).
  destruct (ext_owns _ _ _ _ He2 (ext_ok _ _ _ He1) Ho1 Hap) as [Ho3 Hv3].
  specialize (IH s1 (ext_ok _ _ _ He2) Ho3 Hsig).
  assert (ext (blocks_ recv) (mem s) h2) as He.
  { eapply (ext_trans_new _ (blocks_ usr)); [exact He1|exact He2|]. intros p Hp.
    destruct (Hin p Hp) as [Hq|[?|?]]; [by apply elem_of_nil in Hq|by left|by right]. }
  assert (view (mem s1) (blocks_ (recv_buff_ (ps s1))) = drop (Z.to_nat n) l) as Hvs.
  { change (view h2 (blocks_ recv1) = drop (Z.to_nat n) l). by rewrite Hv3. }
  rewrite Hvs in IH. change (recv_buff_ (ps s1)) with recv1 in IH.
  assert (size_ recv1 < 2 ^ 31) as Hsz1.
  { rewrite (ow_size _ _ Ho1), Hv1, zlen_drop by lia. lia. }
  specialize (IH Hsz1).
  destruct (parse fuel (drop (Z.to_nat n) l)) as [[[ok evs] rest]|]; cbn [mbind option_bind]; [|exact IH].
  destruct IH as (h' & recv' & Hr & He' & Ho' & Hsub' & Hv').
  exists h', recv'. rewrite Hr. split_and!; try done.
  - unfold after, s1. simpl. by rewrite <-app_assoc.
  - eapply ext_trans_new; [exact He|exact He'|]. intros p Hp. left. by eapply sublist_elem.
  - intros p Hp. eapply sublist_elem; [done|]. by apply Hsub'.
Qed.

(** ** The steps of a connection *)
(** The invariant of what was received, [C]: the packets signalled are those of
    a part [a] of it, and while the connection is open of all of it. *)
Definition RInv (C : list Z) (s : io) : Prop :=
  ∃ a b ok rest, C = a ++ b ∧ frames a = Some (ok, packets (events s), rest) ∧
    (socket_ (sk s) = true → b = [] ∧ ok = true ∧ rest = view (mem s) (blocks_ (recv_buff_ (ps s)))).

Lemma quiet_RInv C s s' : quiet s s' → RInv C s → RInv C s'.
Proof.
  intros [H1 H2 H3 H4] (a & b & ok & rest & HC & Hf & Ho). exists a, b, ok, rest.
  rewrite H3. split_and!; [done|done|]. intros Hs. rewrite H1, H2. auto.
Qed.
Lemma closed_RInv C c s : socket_ (sk s) = false → RInv C s → RInv (C ++ c) s.
Proof.
  intros Hc (a & b & ok & rest & -> & Hf & _). exists a, (b ++ c), ok, rest. rewrite app_assoc.
  split_and!; [done|done|]. by rewrite Hc.
Qed.
Lemma SInv_more B x s : socket_ (sk s) = false → SInv B s → SInv (B ++ x) s.
Proof.
  intros Hc [Hh Hw Hb Hr Hws Hwr Hbr Hs Hwi Ho Hcl]. split; try done.
  - by apply prefix_app_r.
  - by rewrite Hc.
Qed.

Definition bytes_of (i : input) : list Z :=
  match i with DoWritePacket data flag => packet_bytes (data, flag) | _ => [] end.
Definition chunk_of (i : input) : list Z :=
  match i with
  | DoSocketEvent true _ _ err script =>
      if err =? 0 then match recv_data script [] with Delivered c => c | _ => [] end else []
  | _ => []
  end.
Definition input_ok (i : input) : Prop :=
  match i with DoSocketEvent _ _ _ _ script => Forall recv_ok script | _ => True end.
#[export] Instance input_ok_dec i : Decision (input_ok i).
Proof. destruct i; simpl; apply _. Defined.

(** The buffer of a packet that is written. *)
Lemma packet_buffer h data flag : heap_ok h →
  ∃ b1 h1 b h', WriteBytes CreateMemBuffer (PacketHeader flag (zlen data)) h = Ok (b1, h1) ∧
    (if 0 <? zlen data then WriteBytes b1 data else mret b1) h1 = Ok (b, h') ∧
    ext [] h h' ∧ owns h' b ∧ Forall (λ p, fresh_ptr h ≤ p)%nat (blocks_ b) ∧
    view h' (blocks_ b) = packet_bytes (data, flag).
Proof.
  intros Hh. destruct (WriteBytes_spec h CreateMemBuffer (PacketHeader flag (zlen data)) Hh (owns_create h))
    as (b1 & h1 & Hr1 & [He1 Ho1 Hv1 (new & Hn1 & Hf1)]).
  exists b1, h1. change (view h (blocks_ CreateMemBuffer)) with (@nil Z) in Hv1. rewrite app_nil_l in Hv1.
  change (blocks_ CreateMemBuffer) with (@nil nat) in *. rewrite app_nil_l in Hn1.
  destruct (Z.ltb_spec 0 (zlen data)) as [Hd|Hd].
  - destruct (WriteBytes_spec h1 b1 data (ext_ok _ _ _ He1) Ho1) as (b & h' & Hr2 & [He2 Ho2 Hv2 (new2 & Hn2 & Hf2)]).
    exists b, h'. split_and!; try done.
    + eapply ext_trans_new; [exact He1|exact He2|]. intros p Hp. right. rewrite Hn1 in Hp. by eapply Forall_forall in Hf1.
    + rewrite Hn2, Hn1. apply Forall_app. split; [done|]. eapply Forall_impl; [exact Hf2|]. intros p Hp.
      pose proof (ext_fresh _ _ _ He1). simpl in *. lia.
    + by rewrite Hv2, Hv1.
  - exists b1, h1. rewrite run_ret. split_and!; try done; [by rewrite Hn1|].
    assert (data = []) as -> by (apply zlen_0; pose proof (zlen_nonneg data); lia).
    rewrite Hv1. unfold packet_bytes. simpl. done.
Qed.

Lemma fresh_apart h mb b : heap_ok h → owns h mb → Forall (λ p, fresh_ptr h ≤ p)%nat (blocks_ b) →
  apart b mb.
Proof.
  intros Hh Ho Hf p Hp Hq. eapply Forall_forall in Hf; [|exact Hp]. pose proof (owns_fresh _ _ _ Hh Ho Hq). lia.
Qed.

Lemma apart_append a b c : apart a c → apart b c → apart (AppendBuffer a b) c.
Proof. intros Ha Hb p [Hp|Hp]%elem_of_app; [by apply Ha|by apply Hb]. Qed.

Lemma write_packet_spec B s data flag : SInv B s →
  ∃ r s', AsyncWritePacket data flag s = Ok (r, s') ∧ SInv (B ++ packet_bytes (data, flag)) s' ∧ quiet s s' ∧
    r = socket_ (sk s) ∧ kout s' = kout s ∧ wire s' = wire s ∧ socket_ (sk s') = socket_ (sk s) ∧
    socket_writeable_ (sk s') = socket_writeable_ (sk s).
Proof.
  intros Hi. pose proof Hi as [Hh Hw Hb Hr Hws Hwr Hbr [Hs1 Hs2] Hwi Ho Hc].
  unfold AsyncWritePacket, IsClose. rewrite run_bind, run_get. cbn beta iota.
  rewrite run_bind, run_gets. cbn beta iota. rewrite Hs1.
  destruct (socket_ (sk s)) eqn:Eo; cbn [negb orb].
  2: { rewrite run_ret. do 2 eexists. split; [done|]. split_and!; try done. by apply SInv_more. }
  destruct (packet_buffer (mem s) data flag Hh) as (b1 & h1 & b & h' & Hr1 & Hr2 & He & Hob & Hf & Hv).
  rewrite run_bind, (run_mem _ _ _ _ Hr1). cbn beta iota. rewrite run_bind.
  assert ((if 0 <? zlen data then on_mem (WriteBytes b1 data) else mret b1) (set_mem h1 s) = Ok (b, set_mem h' s)) as ->.
  { destruct (0 <? zlen data); [exact (run_mem _ (set_mem h1 s) _ _ Hr2)|]. by injection Hr2 as -> ->. }
  cbn beta iota. unfold AsyncWrite. rewrite run_bind, run_bind, run_get. cbn beta iota. cbn [sk set_mem]. rewrite Eo. cbn [negb].
  rewrite run_bind. unfold on_sk. rewrite run_modify. cbn beta iota. rewrite run_ret. cbn beta iota. try rewrite run_ret.
  destruct (ext_nil_owns _ _ _ He Hh Hw) as [Hw' Hvw]. destruct (ext_nil_owns _ _ _ He Hh Hb) as [Hb' Hvb].
  destruct (ext_nil_owns _ _ _ He Hh Hr) as [Hr' Hvr].
  pose proof (fresh_apart _ _ _ Hh Hw Hf). pose proof (fresh_apart _ _ _ Hh Hb Hf). pose proof (fresh_apart _ _ _ Hh Hr Hf).
  destruct (AppendBuffer_spec h' _ b Hw' Hob) as [Hoa Hva]; [by apply apart_sym|].
  do 2 eexists. split; [done|]. split_and!; try done. split; simpl; try done.
  - apply (ext_ok _ _ _ He).
  - by apply apart_append.
  - by apply apart_append.
  - by rewrite Eo.
  - by apply prefix_app_r.
  - intros _. unfold pending. simpl. rewrite (Ho eq_refl). unfold pending.
    change (blocks_ (write_buffers_ (sk s)) ++ blocks_ b)
      with (blocks_ (AppendBuffer (write_buffers_ (sk s)) b)).
    by rewrite Hva, Hvb, Hvw, Hv, <-!app_assoc.
  - by rewrite Eo.
Qed.

(** Read events: the new bytes go through the parser after those left over. *)
Lemma OnAsyncSocketReadEvent_spec B C c s buffer :
  SInv B s → RInv C s → socket_ (sk s) = true →
  owns (mem s) buffer → view (mem s) (blocks_ buffer) = c →
  apart buffer (recv_buff_ (ps s)) → apart buffer (write_buffers_ (sk s)) → apart buffer (send_buffers_ (sk s)) →
  zlen (C ++ c) < 2 ^ 31 →
  match frames (C ++ c) with
  | None => OnAsyncSocketReadEvent buffer s = Ub UB_Diverges
  | Some (ok, _, _) => ∃ s', OnAsyncSocketReadEvent buffer s = Ok (tt, s') ∧ SInv B s' ∧ RInv (C ++ c) s' ∧
      socket_ (sk s') = ok
  end.
Proof.
  intros Hi (a & b & ok & rest & HC & Hf & Ho) Hopen Hob Hv Hap1 Hap2 Hap3 Hlen.
  destruct (Ho Hopen) as (-> & -> & ->). rewrite app_nil_r in HC. subst a. clear Ho.
  pose proof Hi as [Hh Hw Hb Hr Hws Hwr Hbr [Hs1 Hs2] Hwi Hop Hc].
  unfold OnAsyncSocketReadEvent, IsClose. rewrite run_bind, run_get. cbn beta iota.
  rewrite run_bind, run_gets. cbn beta iota. rewrite Hs1, Hopen. cbn [negb orb].
  destruct (AppendBuffer_spec (mem s) _ _ Hr Hob) as [Hoa Hva]; [by apply apart_sym|].
  set (s0 := set_recv (AppendBuffer (recv_buff_ (ps s)) buffer) s).
  assert (zlen (view (mem s) (blocks_ (recv_buff_ (ps s)))) ≤ zlen C) as Hrl.
  { by apply (frames_rest_length _ _ _ _ Hf). }
  assert (size_ (recv_buff_ (ps s0)) < 2 ^ 31) as Hsz.
  { change (size_ (recv_buff_ (ps s0))) with (size_ (AppendBuffer (recv_buff_ (ps s)) buffer)).
    rewrite (ow_size _ _ Hoa), Hva, zlen_app, Hv. rewrite zlen_app in Hlen. lia. }
  pose proof (analysis_loop_spec (S (Z.to_nat (size_ (recv_buff_ (ps s0))))) s0 Hh Hoa ltac:(by rewrite <-Hopen, <-Hs2) Hsz) as Hloop.
  change (view (mem s0) (blocks_ (recv_buff_ (ps s0))))
    with (view (mem s) (blocks_ (AppendBuffer (recv_buff_ (ps s)) buffer))) in Hloop.
  change (size_ (recv_buff_ (ps s0))) with (size_ (AppendBuffer (recv_buff_ (ps s)) buffer)) in Hloop.
  rewrite Hva, Hv in Hloop. set (l := view (mem s) (blocks_ (recv_buff_ (ps s))) ++ c) in *.
  assert (Z.to_nat (size_ (AppendBuffer (recv_buff_ (ps s)) buffer)) = length l) as Hfuel.
  { rewrite (ow_size _ _ Hoa), Hva, Hv. unfold zlen. by rewrite Nat2Z.id. }
  rewrite Hfuel in Hloop. change (parse (S (length l)) l) with (frames l) in Hloop.
  rewrite run_bind. unfold AnalysisPacket. rewrite run_bind, run_modify. cbn beta iota. fold s0.
  rewrite run_bind, run_get. cbn beta iota.
  change (size_ (recv_buff_ (ps s0))) with (size_ (AppendBuffer (recv_buff_ (ps s)) buffer)). rewrite Hfuel.
  pose proof (frames_app C c) as Hfa. rewrite Hf in Hfa. cbn in Hfa. fold l in Hfa.
  destruct (frames l) as [[[ok evs] rest]|]; cbn in Hfa; rewrite Hfa.
  2: { cbn [refines] in Hloop. by rewrite Hloop. }
  destruct Hloop as (h' & recv' & -> & He & Hor & Hsub & Hvr). cbn beta iota.
  change (recv_buff_ (ps s0)) with (AppendBuffer (recv_buff_ (ps s)) buffer) in *.
  set (s1 := after h' recv' evs s0).
  assert (∀ p, p ∈ blocks_ (write_buffers_ (sk s)) → p ∉ blocks_ (AppendBuffer (recv_buff_ (ps s)) buffer)) as Hdw.
  { intros p Hp [Hq|Hq]%elem_of_app; [by apply (Hwr p)|by apply (Hap2 p)]. }
  assert (∀ p, p ∈ blocks_ (send_buffers_ (sk s)) → p ∉ blocks_ (AppendBuffer (recv_buff_ (ps s)) buffer)) as Hdb.
  { intros p Hp [Hq|Hq]%elem_of_app; [by apply (Hbr p)|by apply (Hap3 p)]. }
  destruct (ext_owns _ _ _ _ He Hh Hw Hdw) as [Hw' Hvw]. destruct (ext_owns _ _ _ _ He Hh Hb Hdb) as [Hb' Hvb].
  assert (SInv B s1) as Hi1.
  { split; simpl; try done.
    - apply (ext_ok _ _ _ He).
    - intros p Hp Hq%Hsub. by apply (Hdw p).
    - intros p Hp Hq%Hsub. by apply (Hdb p).
    - intros _. unfold pending. simpl. rewrite Hvw, Hvb. by apply Hop. }
  assert (packets (events s1) = packets (events s) ++ evs) as Hpk.
  { unfold s1, after. simpl. rewrite packets_app. f_equal. clear. unfold packets.
    induction evs as [|[x f] evs IH]; [done|]. cbn. by f_equal. }
  destruct ok; cbn beta iota.
  - unfold AsyncPacketSocket_AsyncRead, IsClose. rewrite run_bind, run_bind, run_get. cbn beta iota.
    rewrite run_bind, run_gets. cbn beta iota. change (async_socket_ (ps s1)) with (async_socket_ (ps s)).
    change (socket_ (sk s1)) with (socket_ (sk s)). rewrite Hs1, Hopen. cbn [negb orb].
    unfold AsyncRead. rewrite run_bind, run_get. cbn beta iota.
    change (socket_ (sk s1)) with (socket_ (sk s)). rewrite Hopen. cbn [negb].
    unfold on_sk. rewrite run_bind, run_modify. cbn beta iota. rewrite run_ret. cbn beta iota. rewrite run_ret.
    eexists. split; [done|].
    destruct (SInv_sk B s1 (λ k, with_events true (de_write k) (de_close k) k)) as [Hi2 _]; [done| |done|].
    { intros E. change (socket_ (sk s1)) with (socket_ (sk s)) in E. congruence. }
    split; [exact Hi2|]. split; [|exact Hopen].
    exists (C ++ c), [], true, rest. rewrite app_nil_r. split_and!; [done| |].
    + by rewrite Hfa, <-Hpk.
    + intros _. split_and!; [done|done|]. by rewrite <-Hvr.
  - destruct (SignalClose_spec B s1 1 true Hi1) as (s2 & Hr2 & [Hi2 [Hq1 Hq2 Hq3 Hq4] _ _ Hcl] & _).
    exists s2. split; [exact Hr2|]. split; [done|]. split; [|done].
    exists (C ++ c), [], false, rest. rewrite app_nil_r. split_and!; [done| |by rewrite Hcl].
    by rewrite Hq3, Hpk.
Qed.

Lemma SocketReadEvent_spec B C script s :
  SInv B s → RInv C s → Forall recv_ok script →
  let c := match recv_data script [] with Delivered c => c | _ => [] end in
  zlen (C ++ c) < 2 ^ 31 → frames (C ++ c) ≠ None →
  ∃ s', SocketReadEvent script s = Ok (tt, s') ∧ SInv B s' ∧ RInv (C ++ c) s' ∧
    (socket_ (sk s) = true → socket_ (sk s') =
       match recv_data script [] with
       | Delivered c => match frames (C ++ c) with Some (ok, _, _) => ok | None => true end
       | NothingRead => true | Closed => false end).
Proof.
  intros Hi HR Hok c Hlen Hfr. unfold SocketReadEvent. rewrite run_bind, run_gets. cbn beta iota.
  destruct (socket_ (sk s)) eqn:Ho; cbn [negb].
  2: { rewrite run_ret. eexists. split; [done|]. split; [done|]. split; [by apply closed_RInv|done]. }
  pose proof Hi as [Hh Hw Hb Hr _ _ _ _ _ Hop _].
  destruct (Recv_spec script (mem s) CreateMemBuffer Hh (owns_create _) Hok)
    as (size & bl & e & buf & h' & Hrun & He & Hob & Hin & Hm).
  change (view (mem s) (blocks_ CreateMemBuffer)) with (@nil Z) in Hm.
  change (size_ CreateMemBuffer) with 0 in Hrun.
  rewrite run_bind, (run_mem _ _ _ _ Hrun). cbn beta iota.
  assert (SInv B (set_mem h' s) ∧ quiet s (set_mem h' s)) as [Hi1 Hq1].
  { destruct Hi as [_ _ _ _ Hws Hwr Hbr Hs Hwi _ Hc].
    destruct (ext_nil_owns _ _ _ He Hh Hw), (ext_nil_owns _ _ _ He Hh Hb) as [? Hvb],
      (ext_nil_owns _ _ _ He Hh Hr) as [? Hvr].
    split; [|by split]. split; try done; [by apply (ext_ok _ _ _ He)|].
    intros Ho1. unfold pending. simpl. rewrite Hvb. destruct (ext_nil_owns _ _ _ He Hh Hw) as [_ ->]. by apply Hop. }
  assert (∀ mb, owns (mem s) mb → apart buf mb) as Hap.
  { intros mb Hmb p Hp Hp'. destruct (Hin p Hp) as [Hq|Hq]; [by apply elem_of_nil in Hq|].
    pose proof (owns_fresh _ _ _ Hh Hmb Hp'). lia. }
  destruct (recv_data script []) as [c'| |] eqn:Ed; subst c.
  - destruct Hm as [Hs Hv]. rewrite (proj2 (Z.ltb_lt _ _)) by done.
    pose proof (OnAsyncSocketReadEvent_spec B C c' (set_mem h' s) buf Hi1 (quiet_RInv _ _ _ Hq1 HR) Ho Hob Hv
      (Hap _ Hr) (Hap _ Hw) (Hap _ Hb) Hlen) as Hmain.
    destruct (frames (C ++ c')) as [[[ok ?] ?]|]; [|done].
    destruct Hmain as (s' & ? & ? & ? & Hok'). by exists s'.
  - destruct Hm as [-> ->]. cbn [Z.ltb Z.compare Z.eqb]. rewrite run_ret. eexists. split; [done|].
    split; [done|]. rewrite app_nil_r. split; [by eapply quiet_RInv|done].
  - destruct (SocketErrorEvent_spec B _ e Hi1) as (s2 & Hr2 & [Hi2 Hq2 _ _ Hcl]). rewrite app_nil_r.
    assert (RInv C s2) by (eapply quiet_RInv; [|exact HR]; by eapply quiet_trans).
    destruct Hm as [-> | [-> ->]]; cbn [Z.ltb Z.compare Z.eqb]; eauto.
Qed.

Lemma step_spec B C i s :
  SInv B s → RInv C s → input_ok i → zlen (C ++ chunk_of i) < 2 ^ 31 → frames (C ++ chunk_of i) ≠ None →
  ∃ s', step i s = Ok (tt, s') ∧ SInv (B ++ bytes_of i) s' ∧ RInv (C ++ chunk_of i) s'.
Proof.
  intros Hi HR Hok Hlen Hfr. destruct i as [data flag| |rd wr cl err script]; cbn [step bytes_of].
  - cbn [chunk_of] in *. rewrite app_nil_r.
    destruct (write_packet_spec B s data flag Hi) as (r & s' & Hr & Hi' & Hq & _).
    rewrite run_bind, Hr. cbn beta iota. rewrite run_ret. eexists. split; [done|]. split; [done|].
    by eapply quiet_RInv.
  - cbn [chunk_of] in *. rewrite !app_nil_r. unfold OnMessage.
    destruct (TryToWriteData_spec B s Hi) as (r & s' & Hr & Hi' & Hq).
    rewrite run_bind, Hr. cbn beta iota. rewrite run_ret. eexists. split; [done|]. split; [done|].
    by eapply quiet_RInv.
  - rewrite app_nil_r. unfold OnSocketEvent. cbn [chunk_of] in *.
    destruct (Z.eqb_spec err 0) as [->|Hne]; cbn [negb].
    2: { destruct (SocketErrorEvent_spec B s err Hi) as (s1 & Hr & [Hi1 Hq _ _ _]). exists s1.
      split; [done|]. split; [done|]. destruct rd; rewrite app_nil_r; by eapply quiet_RInv. }
    rewrite run_bind, run_gets. cbn beta iota. rewrite run_bind.
    assert (∃ s1, when (socket_ (sk s) && wr) (on_sk (λ k, with_events (de_read k) false (de_close k) k);; SocketWriteEvent) s
      = Ok (tt, s1) ∧ SInv B s1 ∧ RInv C s1) as (s1 & -> & Hi1 & HR1).
    { unfold when. destruct (socket_ (sk s)) eqn:Ho; cbn [andb]; [|by eauto]. destruct wr; [|by eauto].
      destruct (SInv_sk B s (λ k, with_events (de_read k) false (de_close k) k)) as [Hi1 Hq1]; [done|by rewrite Ho|done|].
      unfold SocketWriteEvent, on_sk. rewrite run_bind, run_modify. cbn beta iota.
      rewrite run_bind, run_modify. cbn beta iota.
      set (s1 := set_sk (with_events _ _ _ _) s) in *.
      destruct (SInv_sk B s1 (with_writeable true)) as [Hi2 Hq2]; [done|by unfold s1; simpl; rewrite Ho|done|].
      destruct (TryToWriteData_spec B _ Hi2) as (r & s3 & Hr & Hi3 & Hq3).
      rewrite run_bind, Hr. cbn beta iota. rewrite run_ret. eexists. split; [done|]. split; [done|].
      eapply quiet_RInv; [|exact HR]. eapply quiet_trans; [exact Hq1|]. by eapply quiet_trans. }
    cbn beta iota. rewrite run_bind, run_gets. cbn beta iota. rewrite run_bind.
    assert (∃ s2, when (socket_ (sk s1) && rd) (on_sk (λ k, with_events false (de_write k) (de_close k) k);; SocketReadEvent script) s1
      = Ok (tt, s2) ∧ SInv B s2 ∧
        RInv (C ++ (if rd then match recv_data script [] with Delivered c => c | _ => [] end else [])) s2) as (s2 & -> & Hi2 & HR2).
    { unfold when. destruct (socket_ (sk s1)) eqn:Ho; cbn [andb].
      2: { eexists. split; [done|]. split; [done|]. by apply closed_RInv. }
      destruct rd; [|rewrite app_nil_r; by eauto].
      destruct (SInv_sk B s1 (λ k, with_events false (de_write k) (de_close k) k)) as [Hi2 Hq2]; [done|by rewrite Ho|done|].
      unfold on_sk. rewrite run_bind, run_modify. cbn beta iota.
      destruct (SocketReadEvent_spec B C script _ Hi2 (quiet_RInv _ _ _ Hq2 HR1) Hok Hlen Hfr) as (s2 & ? & ? & ? & _).
      by exists s2. }
    cbn beta iota. rewrite run_bind, run_gets. cbn beta iota.
    replace (if rd then if 0 =? 0 then match recv_data script [] with Delivered c => c | _ => [] end else [] else [])
      with (if rd then match recv_data script [] with Delivered c => c | _ => [] end else []) by done.
    unfold when. destruct (socket_ (sk s2)) eqn:Ho; cbn [andb]; [|by eauto]. destruct cl; [|by eauto].
    destruct (SInv_sk B s2 (λ k, with_events (de_read k) (de_write k) false k)) as [Hi3 Hq3]; [done|by rewrite Ho|done|].
    unfold on_sk. rewrite run_bind, run_modify. cbn beta iota.
    destruct (SocketErrorEvent_spec B _ 0 Hi3) as (s4 & Hr4 & [Hi4 Hq4 _ _ _]). exists s4. split; [done|]. split; [done|].
    eapply quiet_RInv; [|exact HR2]. by eapply quiet_trans.
Qed.

(** ** Runs *)
Definition incoming (ins : list input) : list Z := concat (chunk_of <$> ins).
Definition outgoing (ins : list input) : list Z := concat (bytes_of <$> ins).
Definition written (ins : list input) : list (list Z * Z) :=
  omap (λ i, match i with DoWritePacket data flag => Some (data, flag) | _ => None end) ins.

Lemma outgoing_written ins : outgoing ins = concat (packet_bytes <$> written ins).
Proof.
  unfold outgoing, written. induction ins as [|i ins IH]; [done|]. rewrite fmap_cons. cbn [concat].
  rewrite IH. by destruct i.
Qed.

Lemma fresh_inv kernel : SInv [] (fresh_socket kernel) ∧ RInv [] (fresh_socket kernel).
Proof.
  split.
  - split; simpl; try done; try apply owns_create; try apply apart_create_l.
    intros p [b Hb]. exfalso. exact (lookup_empty_Some (M:=gmap nat) p b Hb).
  - by exists [], [], true, [].
Qed.

Lemma run_spec ins : ∀ B C s,
  SInv B s → RInv C s → Forall input_ok ins →
  zlen (C ++ incoming ins) < 2 ^ 31 → frames (C ++ incoming ins) ≠ None →
  ∃ s', run ins s = Ok (tt, s') ∧ SInv (B ++ outgoing ins) s' ∧ RInv (C ++ incoming ins) s'.
Proof.
  induction ins as [|i ins IH]; intros B C s Hi HR Hok Hlen Hfr.
  { exists s. unfold outgoing, incoming. simpl. by rewrite !app_nil_r. }
  apply Forall_cons in Hok as [Hok1 Hok]. unfold run. cbn [iterM]. unfold incoming in Hlen, Hfr.
  rewrite fmap_cons in Hlen, Hfr. cbn [concat] in Hlen, Hfr. rewrite app_assoc in Hlen, Hfr.
  destruct (step_spec B C i s Hi HR Hok1) as (s1 & Hr & Hi1 & HR1).
  - rewrite zlen_app in Hlen. pose proof (zlen_nonneg (concat (chunk_of <$> ins))). lia.
  - intros Hn. apply Hfr. by rewrite frames_app, Hn.
  - rewrite run_bind, Hr. cbn beta iota.
    destruct (IH _ _ s1 Hi1 HR1 Hok Hlen Hfr) as (s' & Hr' & Hi' & HR'). exists s'. split; [exact Hr'|].
    unfold outgoing, incoming in *. rewrite !fmap_cons. cbn [concat]. rewrite !app_assoc. done.
Qed.

(** A connection that is used in both directions, with any answers of the
    kernel: what goes out is the packets in the order they were written, and
    all of it is out or waiting while the connection is open; the packets
    signalled are those the reference parser finds in what came in. *)
Theorem duplex kernel ins :
  Forall input_ok ins → zlen (incoming ins) < 2 ^ 31 → frames (incoming ins) ≠ None →
  ∃ s a b ok rest, run ins (fresh_socket kernel) = Ok (tt, s) ∧
    wire s `prefix_of` concat (packet_bytes <$> written ins) ∧
    incoming ins = a ++ b ∧ frames a = Some (ok, packets (events s), rest) ∧
    (socket_ (sk s) = true →
       wire s ++ pending s = concat (packet_bytes <$> written ins) ∧ b = [] ∧ ok = true ∧
       rest = view (mem s) (blocks_ (recv_buff_ (ps s)))).
Proof.
  intros Hok Hlen Hfr. destruct (fresh_inv kernel) as [Hi HR].
  destruct (run_spec ins [] [] _ Hi HR Hok Hlen Hfr) as (s & Hr & Hi' & (a & b & ok & rest & HC & Hf & Ho)).
  exists s, a, b, ok, rest. rewrite <-outgoing_written. split_and!; [done|apply (i_wire _ _ Hi')|done|done|].
  intros Hs. split; [symmetry; by apply (i_open _ _ Hi')|by apply Ho].
Qed.

(** C35. Two ends: what [B] is told is a prefix of what was written at [A], packet
    by packet, if the bytes [B] reads are a prefix of those [A] sent; and all
    of it once all the bytes have come and [B] is still open. *)
Theorem end_to_end kernelA insA kernelB insB :
  Forall input_ok insA → zlen (incoming insA) < 2 ^ 31 → frames (incoming insA) ≠ None →
  Forall packet_ok (written insA) →
  Forall input_ok insB → zlen (incoming insB) < 2 ^ 31 →
  ∃ sA, run insA (fresh_socket kernelA) = Ok (tt, sA) ∧
    (incoming insB `prefix_of` wire sA →
     ∃ sB, run insB (fresh_socket kernelB) = Ok (tt, sB) ∧
       packets (events sB) `prefix_of` written insA ∧
       (incoming insB = outgoing insA → socket_ (sk sB) = true → packets (events sB) = written insA)).
Proof.
  intros HA1 HA2 HA3 Hpk HB1 HB2. destruct (fresh_inv kernelA) as [Hi HR].
  destruct (run_spec insA [] [] _ Hi HR HA1 HA2 HA3) as (sA & HrA & HiA & _). exists sA. split; [done|].
  intros [x Hpre]. destruct (i_wire _ _ HiA) as [y Hw]. rewrite app_nil_l, outgoing_written, Hpre, <-app_assoc in Hw.
  destruct (frames_prefix _ _ _ Hpk Hw) as (got & more & rest & Hgot & Hf).
  destruct (fresh_inv kernelB) as [Hi2 HR2].
  destruct (run_spec insB [] [] _ Hi2 HR2 HB1 HB2 ltac:(by rewrite app_nil_l, Hf))
    as (sB & HrB & _ & (a & b & ok & r & HC & Hfa & Ho)).
  exists sB. rewrite app_nil_l in HC. split; [done|]. split.
  - rewrite Hgot. apply prefix_app_r. rewrite HC, frames_app, Hfa in Hf. destruct ok; cbn in Hf.
    + destruct (frames (r ++ b)) as [[[??]?]|]; [|done]. injection Hf as _ <- _. by eexists.
    + by injection Hf as _ <- _.
  - intros Hall Hop. destruct (Ho Hop) as (-> & -> & _). rewrite app_nil_r in HC. subst a.
    pose proof (frames_packets _ Hpk) as Hf2. rewrite <-outgoing_written, <-Hall, Hfa in Hf2. by injection Hf2.
Qed.

(** *** Draining *)
Definition generous (B : list Z) (r : kernel_send) : Prop := ∃ n, r = Accepts n ∧ zlen B ≤ Z.of_nat n.

Lemma empty_pending s B : SInv B s → socket_ (sk s) = true →
  size_ (send_buffers_ (sk s)) = 0 → size_ (write_buffers_ (sk s)) = 0 → wire s = B.
Proof.
  intros [Hh Hw Hb Hr _ _ _ _ _ Ho _] Hopen H1 H2. rewrite (Ho Hopen). unfold pending.
  rewrite (ow_size _ _ Hb) in H1. rewrite (ow_size _ _ Hw) in H2.
  by rewrite (zlen_0 _ H1), (zlen_0 _ H2), !app_nil_r.
Qed.

Lemma write_loop_flush B fuel : ∀ s, SInv B s → socket_ (sk s) = true → (measure s < fuel)%nat →
  Forall (generous B) (kout s) → (measure s ≤ length (kout s))%nat →
  ∃ s', write_loop fuel s = Ok (tt, s') ∧ wire s' = B.
Proof.
  induction fuel as [|fuel IH]; intros s Hi Hopen Hm Hg Hk; [lia|]. cbn [write_loop].
  rewrite run_bind, run_gets. cbn beta iota.
  destruct ((size_ (send_buffers_ (sk s)) =? 0) && (size_ (write_buffers_ (sk s)) =? 0)) eqn:E.
  { destruct (SocketWriteComplete_spec B s Hi) as (s' & -> & _ & _ & Hw & _). exists s'. split; [done|].
    apply andb_true_iff in E as [E1%Z.eqb_eq E2%Z.eqb_eq]. rewrite Hw. by eapply empty_pending. }
  destruct (fill_step B s Hi Hopen E) as (s1 & Hr1 & Hi1 & Hq1 & Ho1 & _ & Hk1 & _ & Hm1).
  rewrite run_bind, Hr1. cbn beta iota. rewrite run_bind, run_gets. cbn beta iota.
  destruct (send_inv B s1 Hi1 Ho1) as (sent & bl & e & b & s2 & Hr2 & Hsk & Hk2 & Hi3 & Hq3 & Hall & Hacc).
  rewrite run_bind, Hr2. cbn beta iota. rewrite run_bind. unfold on_sk. rewrite run_modify, Hsk. cbn beta iota.
  set (s3 := set_sk (with_buffers (write_buffers_ (sk s1)) b (sk s1)) s2) in *.
  rewrite Hk1 in *. destruct (kout s) as [|r k]; [simpl in Hk; lia|].
  apply Forall_cons in Hg as [(n & -> & Hn) Hg].
  assert (sent = size_ (send_buffers_ (sk s1))) as Hse.
  { apply (Hacc n); [done|]. pose proof (i_open _ _ Hi1 Ho1) as HB. rewrite HB in Hn. unfold pending in Hn.
    rewrite !zlen_app, <-(ow_size _ _ (i_send _ _ Hi1)) in Hn. pose proof (zlen_nonneg (wire s1)).
    pose proof (zlen_nonneg (view (mem s1) (blocks_ (write_buffers_ (sk s1))))). lia. }
  rewrite (proj2 (Z.eqb_eq _ _) Hse).
  assert (measure s3 < measure s)%nat as Hm3.
  { assert (measure s3 = length (blocks_ (write_buffers_ (sk s1)))) as ->; [|exact Hm1].
    unfold measure. simpl. rewrite (proj2 (Z.eqb_eq _ _) (Hall Hse)). lia. }
  apply (IH s3 Hi3 Ho1); [lia|by unfold s3; simpl; rewrite Hk2|].
  change (kout s3) with (kout s2). rewrite Hk2. simpl in *. lia.
Qed.

Lemma TryToWriteData_drains B s :
  SInv B s → socket_ (sk s) = true → socket_writeable_ (sk s) = true →
  Forall (generous B) (kout s) → (measure s ≤ length (kout s))%nat →
  ∃ s', (_ ← TryToWriteData; mret tt) s = Ok (tt, s') ∧ wire s' = B.
Proof.
  intros Hi Hopen Hw Hg Hk. unfold TryToWriteData.
  rewrite run_bind, run_bind, run_gets. cbn beta iota. rewrite Hw. cbn [negb].
  destruct (_ && _) eqn:E.
  - destruct (SocketWriteComplete_spec B s Hi) as (s' & Hr & _ & _ & Hwi & _). rewrite run_bind, Hr. cbn beta iota.
    rewrite run_ret. cbn beta iota. rewrite run_ret. exists s'. split; [done|].
    apply andb_true_iff in E as [E1%Z.eqb_eq E2%Z.eqb_eq]. rewrite Hwi. by eapply empty_pending.
  - destruct (write_loop_flush B (S (S (length (blocks_ (write_buffers_ (sk s)))))) s Hi Hopen) as (s' & Hr & Hwi); try done.
    { unfold measure. destruct (size_ (send_buffers_ (sk s)) =? 0); lia. }
    rewrite run_bind, Hr. cbn beta iota. rewrite run_ret. cbn beta iota. rewrite run_ret. by exists s'.
Qed.

(** C37. The bytes that wait on an open socket, when the kernel takes every send
    it is offered whole: one pass of the posted send message puts all of them on
    the wire, behind those that are there, if the socket is marked writable; if
    it is not, as a send that was cut short leaves it, the message does nothing
    at all.  The event that the socket can be written again marks it and puts
    all of them on the wire in one pass, whatever the mark was. *)
Theorem posted_send_drains B s :
  SInv B s → socket_ (sk s) = true → Forall (generous B) (kout s) → (measure s ≤ length (kout s))%nat →
  (∃ s', step DoPosted s = Ok (tt, s') ∧ if socket_writeable_ (sk s) then wire s' = B else s' = s) ∧
  (∃ s', SocketWriteEvent s = Ok (tt, s') ∧ wire s' = B).
Proof.
  intros Hi Hopen Hg Hk. split.
  - cbn [step]. unfold OnMessage. destruct (socket_writeable_ (sk s)) eqn:Hw; [by apply TryToWriteData_drains|].
    exists s. unfold TryToWriteData. rewrite run_bind, run_bind, run_gets. cbn beta iota. by rewrite Hw.
  - unfold SocketWriteEvent. rewrite run_bind. unfold on_sk at 1. rewrite run_modify. cbn beta iota.
    apply TryToWriteData_drains; try done.
    destruct (SInv_sk B s (with_writeable true)) as [Hi2 _]; try done. simpl. by rewrite Hopen.
Qed.

(** *** The receiver against the reference parser *)
(** C36. AnalysisPacket takes the buffered and the new bytes through the reference
    parser: same verdict, same packets, same bytes left over. *)
Theorem AnalysisPacket_reference s buffer :
  heap_ok (mem s) → owns (mem s) (recv_buff_ (ps s)) → owns (mem s) buffer →
  apart (recv_buff_ (ps s)) buffer → signals (ps s) = true →
  size_ (recv_buff_ (ps s)) + size_ buffer < 2 ^ 31 →
  refines (frames (view (mem s) (blocks_ (recv_buff_ (ps s))) ++ view (mem s) (blocks_ buffer)))
    (set_recv (AppendBuffer (recv_buff_ (ps s)) buffer) s) (AnalysisPacket buffer s).
Proof.
  intros Hh Hr Hb Hap Hsig Hsz. destruct (AppendBuffer_spec (mem s) _ _ Hr Hb Hap) as [Ho Hv].
  unfold AnalysisPacket. rewrite run_bind, run_modify. cbn beta iota. rewrite run_bind, run_get. cbn beta iota.
  set (s0 := set_recv _ s). rewrite <-Hv. unfold frames.
  replace (length _) with (Z.to_nat (size_ (recv_buff_ (ps s0)))).
  - exact (analysis_loop_spec _ s0 Hh Ho Hsig Hsz).
  - change (recv_buff_ (ps s0)) with (AppendBuffer (recv_buff_ (ps s)) buffer).
    rewrite (ow_size _ _ Ho). unfold zlen. by rewrite Nat2Z.id.
Qed.

(** A header whose size field is 2^32 - 8 makes the packet 0 bytes long: the
    loop signals it for ever. *)
Theorem endless_packet s got flag rest :
  heap_ok (mem s) → owns (mem s) (recv_buff_ (ps s)) → signals (ps s) = true →
  size_ (recv_buff_ (ps s)) < 2 ^ 31 → Forall packet_ok got → in_u 16 flag →
  view (mem s) (blocks_ (recv_buff_ (ps s))) =
    concat (packet_bytes <$> got) ++ PacketHeader flag (2 ^ 32 - 8) ++ rest →
  ∀ fuel, analysis_loop fuel s = Ub UB_Diverges.
Proof.
  intros Hh Ho Hsig Hsz Hgot Hf Hv fuel.
  pose proof (analysis_loop_spec fuel s Hh Ho Hsig Hsz) as Hr. rewrite Hv in Hr.
  assert (∀ f, parse f (concat (packet_bytes <$> got) ++ PacketHeader flag (2 ^ 32 - 8) ++ rest) = None) as Hn;
    [|by rewrite Hn in Hr].
  intros f. apply parse_frames_None. rewrite frames_app, frames_packets by done.
  cbn [mbind option_bind]. rewrite app_nil_l, frames_eq. unfold header_of, HEADER_SIZE. rewrite (proj2 (Z.ltb_ge _ _)).
  2: { rewrite zlen_app, PacketHeader_length. pose proof (zlen_nonneg rest). lia. }
  change (take 8 (PacketHeader flag (2 ^ 32 - 8) ++ rest)) with (PacketHeader flag (2 ^ 32 - 8) ++ []).
  destruct (PacketHeader_fields flag (2 ^ 32 - 8) [] Hf) as (-> & _ & ->); [unfold in_u; lia|]. cbn [negb].
  change (u32 (2 ^ 32 - 8 + 8)) with 0. by rewrite (proj2 (Z.ltb_ge _ _)) by apply zlen_nonneg.
Qed.

(** One event that reads and nothing else. *)
Definition read_input (script : list kernel_recv) : input := DoSocketEvent true false false 0 script.
Lemma read_step B C script s :
  SInv B s → RInv C s → Forall recv_ok script →
  zlen (C ++ chunk_of (read_input script)) < 2 ^ 31 → frames (C ++ chunk_of (read_input script)) ≠ None →
  ∃ s', step (read_input script) s = Ok (tt, s') ∧ SInv B s' ∧ RInv (C ++ chunk_of (read_input script)) s' ∧
    (socket_ (sk s) = true → socket_ (sk s') =
       match recv_data script [] with
       | Delivered c => match frames (C ++ c) with Some (ok, _, _) => ok | None => true end
       | NothingRead => true | Closed => false end).
Proof.
  intros Hi HR Hok Hlen Hfr. cbn [step read_input]. unfold OnSocketEvent. cbn [Z.eqb negb].
  rewrite run_bind, run_gets. cbn beta iota. rewrite andb_false_r.
  rewrite run_bind. rewrite run_when_false by done. cbn beta iota.
  rewrite run_bind, run_gets. cbn beta iota. rewrite andb_true_r, run_bind.
  assert (∃ s2, when (socket_ (sk s)) (on_sk (λ k, with_events false (de_write k) (de_close k) k);; SocketReadEvent script) s
    = Ok (tt, s2) ∧ SInv B s2 ∧ RInv (C ++ chunk_of (read_input script)) s2 ∧
    (socket_ (sk s) = true → socket_ (sk s2) =
       match recv_data script [] with
       | Delivered c => match frames (C ++ c) with Some (ok, _, _) => ok | None => true end
       | NothingRead => true | Closed => false end)) as (s2 & -> & Hi2 & HR2 & Hop).
  { unfold when. destruct (socket_ (sk s)) eqn:Ho.
    2: { eexists. split; [done|]. split; [done|]. split; [by apply closed_RInv|done]. }
    destruct (SInv_sk B s (λ k, with_events false (de_write k) (de_close k) k)) as [Hi2 Hq2]; [done|by rewrite Ho|done|].
    unfold on_sk. rewrite run_bind, run_modify. cbn beta iota.
    destruct (SocketReadEvent_spec B C script _ Hi2 (quiet_RInv _ _ _ Hq2 HR) Hok Hlen Hfr) as (s2 & ? & ? & ? & Hop).
    exists s2. split_and!; try done. intros _. by apply Hop. }
  cbn beta iota. rewrite run_bind, run_gets. cbn beta iota. rewrite andb_false_r, run_when_false by done.
  by exists s2.
Qed.

(** When the peer closes right after a full block was read, what was read in
    the same call is lost: the same bytes are delivered if the end of file
    comes with the next event. *)
Theorem eof_drops_block kernel p e :
  packet_ok p → zlen (packet_bytes p) = DEFAULT_BLOCK_SIZE →
  (∃ s, run [read_input [Received (packet_bytes p); RecvEof e]] (fresh_socket kernel) = Ok (tt, s) ∧
     packets (events s) = [] ∧ socket_ (sk s) = false) ∧
  (∃ s, run [read_input [Received (packet_bytes p); RecvBlocks]] (fresh_socket kernel) = Ok (tt, s) ∧
     packets (events s) = [p] ∧ socket_ (sk s) = true).
Proof.
  intros Hp Hz.
  assert (∀ r, recv_ok r → Forall recv_ok [Received (packet_bytes p); r]) as Hok.
  { intros r Hr. repeat constructor; [..|done]; rewrite Hz; unfold DEFAULT_BLOCK_SIZE; lia. }
  assert (frames (packet_bytes p) = Some (true, [p], [])) as Hf.
  { pose proof (frames_packets [p] ltac:(by constructor)) as Hf. cbn in Hf. by rewrite app_nil_r in Hf. }
  assert (∀ r, chunk_of (read_input [Received (packet_bytes p); r]) =
    match r with RecvBlocks => packet_bytes p | Received b => match recv_data [r] (packet_bytes p) with Delivered c => c | _ => [] end | _ => [] end) as Hc.
  { intros r. cbn [chunk_of read_input recv_data Z.eqb]. rewrite Hz, Z.eqb_refl, app_nil_l.
    destruct r; [done..| |done]. by rewrite Hz. }
  assert (∀ r, recv_data [Received (packet_bytes p); r] [] = recv_data [r] (packet_bytes p)) as Hd.
  { intros r. cbn [recv_data]. by rewrite Hz, Z.eqb_refl, app_nil_l. }
  destruct (fresh_inv kernel) as [Hi HR]. unfold run. cbn [iterM]. split.
  - destruct (read_step [] [] [Received (packet_bytes p); RecvEof e] _ Hi HR (Hok (RecvEof e) I))
      as (s & Hr & _ & (a & b & ok & rest & Hab & Hfa & _) & Hop); rewrite ?Hc; [unfold zlen; simpl; lia|done|].
    rewrite run_bind, Hr. cbn beta iota. rewrite run_ret. exists s. split; [done|].
    rewrite Hc in Hab. symmetry in Hab. apply app_eq_nil in Hab as [-> ->].
    injection Hfa as _ <- _. split; [done|]. rewrite (Hop eq_refl), Hd. done.
  - destruct (read_step [] [] [Received (packet_bytes p); RecvBlocks] _ Hi HR (Hok RecvBlocks I))
      as (s & Hr & _ & (a & b & ok & rest & Hab & Hfa & Ho) & Hop); rewrite ?Hc.
    { rewrite app_nil_l, Hz. unfold DEFAULT_BLOCK_SIZE. lia. }
    { by rewrite app_nil_l, Hf. }
    rewrite Hd in Hop. cbn [recv_data] in Hop. rewrite Hz in Hop.
    change (DEFAULT_BLOCK_SIZE =? 0) with false in Hop. cbn iota in Hop.
    rewrite app_nil_l, Hf in Hop. specialize (Hop eq_refl). cbn iota in Hop.
    rewrite run_bind, Hr. cbn beta iota. rewrite run_ret. exists s. split; [done|].
    destruct (Ho Hop) as (-> & -> & _). rewrite Hc, app_nil_r, app_nil_l in Hab. subst a.
    rewrite Hf in Hfa. injection Hfa as <- _. done.
Qed.

(** A wake-up without data leaves the socket with reading switched off: only
    a read event would switch it on again. *)
Lemma spurious_read_stalls kernel :
  ∃ s, run [read_input []] (fresh_socket kernel) = Ok (tt, s) ∧ de_read (sk s) = false ∧ socket_ (sk s) = true.
Proof. eexists. split; [reflexivity|]. done. Qed.

(** *** The theorems at a concrete connection *)
Definition demo_writes : list input :=
  [DoWritePacket [104; 105] 7; DoPosted; DoWritePacket [] 300; DoSocketEvent false true false 0 []].
Definition demo_kernel : list kernel_send := [Accepts 3; Accepts 100; Accepts 100].
Definition demo_reads : list input :=
  [read_input [Received [77; 76; 0]]; read_input []; read_input [Received [7; 0; 0; 0; 2; 104; 105; 77]];
   read_input [Received [76; 1; 44; 0; 0; 0; 0]]].

Lemma duplex_witness :
  ∃ s, run (demo_writes ++ demo_reads) (fresh_socket demo_kernel) = Ok (tt, s) ∧
    packets (events s) = [([104; 105], 7); ([], 300)].
Proof.
  destruct (duplex demo_kernel (demo_writes ++ demo_reads)) as (s & a & b & ok & rest & Hr & _ & Hab & Hf & Ho).
  - repeat constructor; vm_compute; discriminate.
  - by vm_compute.
  - by vm_compute.
  - exists s. split; [done|]. vm_compute in Hr. injection Hr as <-. reflexivity.
Defined.

Lemma end_to_end_witness :
  ∃ sA sB, run demo_writes (fresh_socket demo_kernel) = Ok (tt, sA) ∧
    run demo_reads (fresh_socket []) = Ok (tt, sB) ∧ packets (events sB) = written demo_writes.
Proof.
  destruct (end_to_end demo_kernel demo_writes [] demo_reads) as (sA & Hr & H).
  - repeat constructor.
  - by vm_compute.
  - by vm_compute.
  - repeat constructor; vm_compute; discriminate.
  - repeat constructor; vm_compute; discriminate.
  - by vm_compute.
  - exists sA. vm_compute in Hr. injection Hr as <-. destruct H as (sB & Hr & Hp & Hall).
    { by exists []. }
    exists sB. split; [by vm_compute|]. split; [done|]. apply Hall; [by vm_compute|].
    vm_compute in Hr. by injection Hr as <-.
Defined.

Lemma posted_send_drains_witness :
  ∃ s s' s2, run [DoWritePacket [104; 105] 7] (fresh_socket [Accepts 40; Accepts 40]) = Ok (tt, s) ∧
    step DoPosted s = Ok (tt, s') ∧ wire s' = [77; 76; 0; 7; 0; 0; 0; 2; 104; 105] ∧
    SocketWriteEvent s = Ok (tt, s2) ∧ wire s2 = [77; 76; 0; 7; 0; 0; 0; 2; 104; 105].
Proof.
  destruct (fresh_inv [Accepts 40; Accepts 40]) as [Hi HR].
  destruct (run_spec [DoWritePacket [104; 105] 7] [] [] _ Hi HR) as (s & Hr & Hi' & _);
    [repeat constructor|by vm_compute|by vm_compute|].
  destruct (posted_send_drains _ s Hi') as [(s' & Hp & Hw) (s2 & Hp2 & Hw2)].
  - vm_compute in Hr. by injection Hr as <-.
  - vm_compute in Hr. injection Hr as <-. repeat constructor; by exists 40%nat.
  - vm_compute in Hr. injection Hr as <-. vm_compute. lia.
  - assert (socket_writeable_ (sk s) = true) as E by (vm_compute in Hr; by injection Hr as <-). rewrite E in Hw.
    exists s, s', s2. split; [done|]. split; [done|]. split; [by rewrite Hw|]. split; [done|]. by rewrite Hw2.
Defined.

Definition one_block (bytes : list Z) : io :=
  mkIo (mkHeap {[0%nat := mkBlk bytes false]} 1) [] [] (sk (fresh_socket []))
    (mkPs true true (mkMem (zlen bytes) [0%nat])) [].
Lemma one_block_ok bytes : zlen bytes ≤ DEFAULT_BLOCK_SIZE →
  heap_ok (mem (one_block bytes)) ∧ owns (mem (one_block bytes)) (mkMem (zlen bytes) [0%nat]) ∧
  view (mem (one_block bytes)) [0%nat] = bytes.
Proof.
  intros Hl. assert (view (mem (one_block bytes)) [0%nat] = bytes) as Hv by (unfold view; apply app_nil_r).
  split_and!; [| |done].
  - intros p [b Hb]. destruct p as [|p]; [simpl; lia|]. exfalso.
    assert (({[0%nat := mkBlk bytes false]} : gmap nat Block) !! S p = None) as Hn by by apply lookup_singleton_ne.
    cbn [mem one_block blks] in Hb. congruence.
  - split; simpl; [|apply NoDup_singleton|by rewrite <-Hv at 1].
    constructor; [|done]. by exists (mkBlk bytes false).
Qed.

Lemma endless_packet_witness :
  ∀ fuel, analysis_loop fuel (one_block [77; 76; 0; 7; 255; 255; 255; 248; 1]) = Ub UB_Diverges.
Proof.
  destruct (one_block_ok [77; 76; 0; 7; 255; 255; 255; 248; 1]) as (Hh & Ho & Hv); [by vm_compute|].
  apply (endless_packet _ [] 7 [1]); [exact Hh|exact Ho|done|by vm_compute|done|by vm_compute|exact Hv].
Defined.

Lemma AnalysisPacket_reference_witness :
  ∃ s, AnalysisPacket CreateMemBuffer (one_block [77; 76; 0; 7; 0; 0; 0; 1; 5; 77]) = Ok (true, s) ∧
    packets (events s) = [([5], 7)].
Proof.
  destruct (one_block_ok [77; 76; 0; 7; 0; 0; 0; 1; 5; 77]) as (Hh & Ho & Hv); [by vm_compute|].
  pose proof (AnalysisPacket_reference (one_block [77; 76; 0; 7; 0; 0; 0; 1; 5; 77]) CreateMemBuffer
    Hh Ho (owns_create _)) as H.
  destruct H as (h' & recv' & -> & _); [|done|by vm_compute|].
  { intros p Hp Hq. by apply elem_of_nil in Hq. }
  by eexists.
Defined.

Lemma eof_drops_block_witness :
  (∃ s, run [read_input [Received (packet_bytes (replicate (Z.to_nat 4600) 1, 5)); RecvEof 0]] (fresh_socket []) = Ok (tt, s) ∧
     packets (events s) = [] ∧ socket_ (sk s) = false) ∧
  (∃ s, run [read_input [Received (packet_bytes (replicate (Z.to_nat 4600) 1, 5)); RecvBlocks]] (fresh_socket []) = Ok (tt, s) ∧
     packets (events s) = [(replicate (Z.to_nat 4600) 1, 5)] ∧ socket_ (sk s) = true).
Proof.
  apply eof_drops_block; [split; by vm_compute|by vm_compute].
Defined.
