(* ===== verification/DpMessage.v ===== *)
(** * DP messages on the wire

    src/lib_bsp/eventservice/dp/dpclient.h: the message types and DpNetMsgHeader,
    24 bytes followed by the method and the data.  Its integers are in the
    byte order of the machine but for data_size.  The handlers point a
    DpNetMsgHeader at the bytes of a packet and trust its two lengths. *)

From S2P Require Import Prelude Crc16 Serialize MemBuffer PacketFrames.
#[local] Open Scope Z_scope.

Definition TYPE_INVALID : Z := -1.
Definition TYPE_MESSAGE : Z := 0.
Definition TYPE_REQUEST : Z := 1.
Definition TYPE_REPLY : Z := 2.
Definition TYPE_SUCCEED : Z := 6.
Definition TYPE_FAILURE : Z := 7.
Definition TYPE_ADD_MESSAGE : Z := 8.
Definition TYPE_REMOVE_MESSAGE : Z := 9.
Definition TYPE_SET_NAME : Z := 11.

(** A DpNetMsgHeader; [body] is what follows it in memory, up to and with the
    zero byte that ends the string of the packet. *)
Record DpNetMsgHeader := mkDp {
  d_type : Z; listen_type : Z; method_size : Z; process_id : Z;
  message_id : Z; session_id : Z; result : Z; data_size : Z;
  body : list Z }.
Definition sizeof_DpNetMsgHeader : Z := 24.

(** The cast of packet.c_str(). *)
Definition as_header (packet : list Z) : DpNetMsgHeader :=
  mkDp (Get8 packet 0) (Get8 packet 1) (load_le (take 2 (drop 2 packet))) (load_le (take 4 (drop 4 packet)))
    (load_le (take 4 (drop 8 packet))) (load_le (take 4 (drop 12 packet))) (load_le (take 4 (drop 16 packet)))
    (GetBE32 (drop 20 packet)) (drop 24 packet ++ [0]).

(** The bytes SendMessage and SendDpMessage write for a message. *)
Definition header_bytes (h : DpNetMsgHeader) : list Z :=
  [d_type h; listen_type h] ++ memcpy_le 2 (method_size h) ++ memcpy_le 4 (process_id h) ++
  memcpy_le 4 (message_id h) ++ memcpy_le 4 (session_id h) ++ memcpy_le 4 (result h) ++ SetBE32 (data_size h).
Definition dp_packet (type ltype pid mid sid res : Z) (method data : list Z) : list Z :=
  header_bytes (mkDp type ltype (u16 (zlen method)) pid mid sid res (zlen data) []) ++ method ++ data.

(** Reading [n] bytes of a message at an offset into its body. *)
Definition read_body (b : list Z) (off n : Z) : res (list Z) :=
  if off + n <=? zlen b then Ok (take (Z.to_nat n) (drop (Z.to_nat off) b)) else Ub UB_OutOfBounds.
Definition method_of (h : DpNetMsgHeader) : res (list Z) := read_body (body h) 0 (method_size h).
Definition data_of_msg (h : DpNetMsgHeader) : res (list Z) := read_body (body h) (method_size h) (data_size h).

Lemma header_bytes_length h : length (header_bytes h) = 24%nat.
Proof. done. Qed.

Lemma load_memcpy_id n z : 0 ≤ z < 2 ^ (8 * Z.of_nat n) → load_le (memcpy_le n z) = z.
Proof. intros Hz. rewrite load_memcpy. by apply Z.mod_small. Qed.

Lemma take_memcpy n z rest : take n (memcpy_le n z ++ rest) = memcpy_le n z.
Proof. apply take_app_length'. by rewrite memcpy_le_length. Qed.

(** What is written is what is read. *)
Lemma as_header_bytes h rest :
  in_u 16 (method_size h) → in_u 32 (process_id h) → in_u 32 (message_id h) → in_u 32 (session_id h) →
  in_u 32 (result h) → in_u 32 (data_size h) →
  as_header (header_bytes h ++ rest) =
    mkDp (d_type h) (listen_type h) (method_size h) (process_id h) (message_id h) (session_id h) (result h)
      (data_size h) (rest ++ [0]).
Proof.
  destruct h as [ty lt ms pid mid sid r ds b]. cbn [d_type listen_type method_size process_id message_id session_id result data_size].
  intros H1 H2 H3 H4 H5 H6. unfold header_bytes, as_header.
  cbn [d_type listen_type method_size process_id message_id session_id result data_size].
  set (tail6 := SetBE32 ds ++ rest). set (tail5 := memcpy_le 4 r ++ tail6). set (tail4 := memcpy_le 4 sid ++ tail5).
  set (tail3 := memcpy_le 4 mid ++ tail4). set (tail2 := memcpy_le 4 pid ++ tail3). set (tail1 := memcpy_le 2 ms ++ tail2).
  assert ((([ty; lt] ++ memcpy_le 2 ms ++ memcpy_le 4 pid ++ memcpy_le 4 mid ++ memcpy_le 4 sid ++ memcpy_le 4 r ++ SetBE32 ds) ++ rest)
    = ty :: lt :: tail1) as -> by (unfold tail1, tail2, tail3, tail4, tail5, tail6; rewrite <-!app_assoc; done).
  change (drop 2 (ty :: lt :: tail1)) with tail1.
  assert (drop 4 (ty :: lt :: tail1) = tail2) as -> by done.
  assert (drop 8 (ty :: lt :: tail1) = tail3) as -> by done.
  assert (drop 12 (ty :: lt :: tail1) = tail4) as -> by done.
  assert (drop 16 (ty :: lt :: tail1) = tail5) as -> by done.
  assert (drop 20 (ty :: lt :: tail1) = tail6) as -> by done.
  assert (drop 24 (ty :: lt :: tail1) = rest) as -> by done.
  unfold tail1, tail2, tail3, tail4, tail5, tail6. rewrite !take_memcpy, !load_memcpy_id by done.
  by rewrite GetBE32_SetBE32.
Qed.

Record msg_ok (pid mid sid res : Z) (method data : list Z) : Prop := {
  mo_pid : in_u 32 pid; mo_mid : in_u 32 mid; mo_sid : in_u 32 sid; mo_res : in_u 32 res;
  mo_method : zlen method < 2 ^ 16; mo_data : zlen data < 2 ^ 32 }.

Lemma as_header_packet type ltype pid mid sid res method data :
  msg_ok pid mid sid res method data →
  let h := as_header (dp_packet type ltype pid mid sid res method data) in
  d_type h = type ∧ listen_type h = ltype ∧ process_id h = pid ∧ message_id h = mid ∧ session_id h = sid ∧
  result h = res ∧ method_size h = zlen method ∧ data_size h = zlen data ∧
  method_of h = Ok method ∧ data_of_msg h = Ok data.
Proof.
  intros [H1 H2 H3 H4 H5 H6]. pose proof (zlen_nonneg method). pose proof (zlen_nonneg data). unfold dp_packet.
  rewrite (uwrap_id 16 (zlen method)) by (unfold in_u; lia).
  rewrite as_header_bytes by (simpl; done || (unfold in_u; lia)).
  cbn [d_type listen_type method_size process_id message_id session_id result data_size]. split_and!; try done.
  - unfold method_of, read_body. cbn [body method_size]. rewrite (proj2 (Z.leb_le _ _)).
    + change (drop (Z.to_nat 0) ((method ++ data) ++ [0])) with ((method ++ data) ++ [0]).
      unfold zlen. rewrite Nat2Z.id, <-app_assoc. by rewrite take_app_length.
    + rewrite !zlen_app. change (zlen [0]) with 1. lia.
  - unfold data_of_msg, read_body. cbn [body method_size data_size]. rewrite (proj2 (Z.leb_le _ _)).
    + unfold zlen. rewrite !Nat2Z.id, <-app_assoc. by rewrite drop_app_length, take_app_length.
    + rewrite !zlen_app. change (zlen [0]) with 1. lia.
Qed.

Lemma dp_packet_length type ltype pid mid sid res method data :
  zlen (dp_packet type ltype pid mid sid res method data) = 24 + (zlen method + zlen data).
Proof. unfold dp_packet. by rewrite !zlen_app. Qed.
