(* ===== verification/DpBroker.v ===== *)
(** * The DP server

    src/lib_bsp/eventservice/dp: DpAgentManager and DpAgent (dpagent.cpp) and
    the accept and error events of DpServer (dpserver.cpp).  Every process has
    a connection to it; the agent of a connection keeps what the client listens
    to, and the manager passes messages on.  Agents live in a heap of objects,
    since the manager's maps share them.  A packet that is written goes to an
    outbox, in order.  The event thread runs one handler at a time. *)

From S2P Require Import Prelude Crc16 Serialize MemBuffer PacketFrames DpMessage.
#[local] Open Scope Z_scope.

Abbreviation method := (list Z).

(** ** State *)
Record DpAgent := mkAgent {
  packet_socket_ : bool;
  agent_id_ : Z;
  remote_pid_ : Z;
  agent_name_ : list Z;
  method_map_ : gmap method Z }.
Record DpAgentManager := mkManager {
  objects : gmap nat DpAgent;                  (* the agents, by address *)
  dp_agents_ : gmap Z nat;
  method_agents_ : gmap method (list nat);
  agent_num_ : Z;
  outbox : list (nat * list Z) }.
Abbreviation DP := (ST DpAgentManager).

Definition agent (p : nat) : DP DpAgent := λ s,
  match objects s !! p with Some a => Ok (a, s) | None => Ub UB_UseAfterFree end.
Definition set_objects (o : gmap nat DpAgent) (s : DpAgentManager) : DpAgentManager :=
  mkManager o (dp_agents_ s) (method_agents_ s) (agent_num_ s) (outbox s).
Definition set_bindings (b : gmap method (list nat)) (s : DpAgentManager) : DpAgentManager :=
  mkManager (objects s) (dp_agents_ s) b (agent_num_ s) (outbox s).
Definition add_out (p : nat) (packet : list Z) (s : DpAgentManager) : DpAgentManager :=
  mkManager (objects s) (dp_agents_ s) (method_agents_ s) (agent_num_ s) (outbox s ++ [(p, packet)]).
Definition update_agent (p : nat) (f : DpAgent → DpAgent) : DP unit :=
  a ← agent p; modify (λ s, set_objects (<[p := f a]> (objects s)) s).

(** ** DpAgentManager *)
Definition AddDpAgent (p : nat) : DP (option Z) :=
  s ← get;
  if bool_decide (p ∈ (map_to_list (dp_agents_ s)).*2) then mret None
  else
    let num := u32 (agent_num_ s + 1) in
    modify (λ s, mkManager (objects s) (<[num := p]> (dp_agents_ s)) (method_agents_ s) num (outbox s));;
    mret (Some num).

(** remove_if on the list of a method. *)
Definition has_id (s : DpAgentManager) (id : Z) (p : nat) : bool :=
  match objects s !! p with Some a => agent_id_ a =? id | None => false end.
Definition without_id (s : DpAgentManager) (id : Z) (l : list nat) : list nat :=
  filter (λ p, has_id s id p = false) l.

Definition RemoveAgent (id : Z) : DP unit :=
  if id <=? 0 then mret tt
  else
    s ← get;
    match dp_agents_ s !! id with
    | None => mret tt
    | Some _ =>
        modify (λ s, mkManager (objects s) (delete id (dp_agents_ s)) (without_id s id <$> method_agents_ s)
          (agent_num_ s) (outbox s))
    end.
Definition GetAgent (id : Z) : DP (option nat) := gets (λ s, dp_agents_ s !! id).

(** DpAgent::CheckMessage and DpAgentManager::CheckMessage *)
Definition agent_accepts (m : method) (type : Z) (a : DpAgent) : bool :=
  match method_map_ a !! m with
  | None => true
  | Some reg_type => if negb (reg_type =? type) then false else negb (TYPE_REQUEST =? type)
  end.
Fixpoint check_agents (l : list nat) (m : method) (type : Z) : DP bool :=
  match l with
  | [] => mret true
  | p :: l' => a ← agent p; if agent_accepts m type a then check_agents l' m type else mret false
  end.
Definition CheckMessage (m : method) (type : Z) : DP bool :=
  s ← get; check_agents (map_to_list (dp_agents_ s)).*2 m type.

Definition AddAgentBindMethod (m : method) (id : Z) : DP bool :=
  s ← get;
  match dp_agents_ s !! id with
  | None => mret false
  | Some p =>
      let a := default [] (method_agents_ s !! m) in
      modify (set_bindings (<[m := if existsb (has_id s id) a then a else a ++ [p]]> (method_agents_ s)));;
      mret true
  end.
Definition RemoveAgentBindMethod (m : method) (id : Z) : DP bool :=
  s ← get;
  match dp_agents_ s !! id with
  | None => mret false
  | Some _ =>
      modify (set_bindings (<[m := without_id s id (default [] (method_agents_ s !! m))]> (method_agents_ s)));;
      mret true
  end.

(** ** DpAgent *)
(** SendMessage; [data] is read only when the socket is there. *)
Definition SendMessage (p : nat) (msg_id type : Z) (m : method) (data : res (list Z)) (session_id result : Z) : DP bool :=
  a ← agent p;
  if negb (packet_socket_ a) then mret false
  else
    data ← lift data;
    modify (add_out p (dp_packet type 0 0 msg_id session_id result m data));; mret true.

(** The agent's id goes into the upper half of the message id. *)
Definition attach_id (agent_id msg_id : Z) : Z :=
  u32 (Z.lor (Z.shiftl (u16 agent_id) 16) (Z.land msg_id 65535)).

(** The data of a message that is passed on: nothing is read if it is empty. *)
Definition passed_data (h : DpNetMsgHeader) : res (list Z) :=
  if 0 <? data_size h then data_of_msg h else Ok [].

Definition with_type (type : Z) (h : DpNetMsgHeader) : DpNetMsgHeader :=
  mkDp type (listen_type h) (method_size h) (process_id h) (message_id h) (session_id h) (result h) (data_size h) (body h).
Definition with_id (mid : Z) (h : DpNetMsgHeader) : DpNetMsgHeader :=
  mkDp (d_type h) (listen_type h) (method_size h) (process_id h) mid (session_id h) (result h) (data_size h) (body h).

Definition HandleDpMessage (dst src : nat) (h : DpNetMsgHeader) : DP (Z * DpNetMsgHeader) :=
  m ← lift (method_of h);
  a ← agent dst;
  match method_map_ a !! m with
  | None => mret (TYPE_INVALID, h)
  | Some t =>
      let type := u8 t in
      src_agent ← agent src;
      let h := if TYPE_REQUEST =? type then with_id (attach_id (agent_id_ src_agent) (message_id h)) h else h in
      _ ← SendMessage dst (message_id h) type m (passed_data h) (session_id h) 0;
      mret (type, with_type type h)
  end.

(** The loop of ProcessDpMessage. *)
Fixpoint process_loop (l : list nat) (src : nat) (h : DpNetMsgHeader) (num reg_type : Z) :
    DP (Z * Z * DpNetMsgHeader) :=
  match l with
  | [] => mret (num, reg_type, h)
  | p :: l' =>
      if decide (p = src) then process_loop l' src h num reg_type
      else
        a ← agent p;
        if remote_pid_ a =? process_id h then process_loop l' src h num reg_type
        else
          '(res, h) ← HandleDpMessage p src h;
          if res =? TYPE_MESSAGE then process_loop l' src h (num + 1) TYPE_MESSAGE
          else if res =? TYPE_REQUEST then mret (1, TYPE_REQUEST, h)
          else process_loop l' src h num reg_type
  end.
Definition ProcessDpMessage (src : nat) (h : DpNetMsgHeader) : DP (Z * Z * DpNetMsgHeader) :=
  m ← lift (method_of h);
  s ← get;
  match method_agents_ s !! m with
  | None => mret (0, TYPE_INVALID, h)
  | Some l => process_loop l src h 0 TYPE_INVALID
  end.

Definition OnRequestMessage (p : nat) (h : DpNetMsgHeader) : DP unit :=
  m ← lift (method_of h);
  '(num, type, h) ← ProcessDpMessage p h;
  when ((num =? 0) || (type =? TYPE_MESSAGE))
    (_ ← SendMessage p (message_id h) TYPE_REPLY m (Ok []) (session_id h) num; mret tt).

Definition OnReplayMessage (h : DpNetMsgHeader) : DP unit :=
  let src_msgid := Z.land (message_id h) 65535 in
  let src_agent_id := Z.shiftr (Z.land (message_id h) 4294901760) 16 in
  src ← GetAgent src_agent_id;
  m ← lift (method_of h);
  match src with
  | Some p => _ ← SendMessage p src_msgid TYPE_REPLY m (passed_data h) (session_id h) 1; mret tt
  | None => mret tt
  end.

Definition OnListenMessage (p : nat) (h : DpNetMsgHeader) : DP unit :=
  m ← lift (method_of h);
  let type := listen_type h in
  res ← (if (zlen m =? 0) || (negb (type =? TYPE_MESSAGE) && negb (type =? TYPE_REQUEST)) then mret false
         else
           ok ← CheckMessage m type;
           if negb ok then mret false
           else
             update_agent p (λ a, mkAgent (packet_socket_ a) (agent_id_ a) (remote_pid_ a) (agent_name_ a)
               (<[m := type]> (method_map_ a)));;
             a ← agent p;
             _ ← AddAgentBindMethod m (agent_id_ a);
             mret true);
  _ ← SendMessage p (message_id h) TYPE_ADD_MESSAGE m (Ok []) (session_id h)
        (if res : bool then TYPE_SUCCEED else TYPE_FAILURE);
  mret tt.

Definition OnRemoveMessage (p : nat) (h : DpNetMsgHeader) : DP unit :=
  m ← lift (method_of h);
  a ← agent p;
  _ ← RemoveAgentBindMethod m (agent_id_ a);
  update_agent p (λ a, mkAgent (packet_socket_ a) (agent_id_ a) (remote_pid_ a) (agent_name_ a)
    (delete m (method_map_ a))).

Definition OnSetClientName (p : nat) (h : DpNetMsgHeader) : DP unit :=
  when (0 <? method_size h)
    (let length := if 32 <? method_size h then 32 else method_size h in
     name ← lift (read_body (body h) 0 length);
     update_agent p (λ a, mkAgent (packet_socket_ a) (agent_id_ a) (process_id h) name (method_map_ a))).

Definition OnSocketReadComplete (p : nat) (packet : list Z) : DP unit :=
  if zlen packet <=? sizeof_DpNetMsgHeader then mret tt
  else
    let h := as_header packet in
    let t := d_type h in
    if t =? TYPE_MESSAGE then OnRequestMessage p h
    else if t =? TYPE_REPLY then OnReplayMessage h
    else if t =? TYPE_ADD_MESSAGE then OnListenMessage p h
    else if t =? TYPE_REMOVE_MESSAGE then OnRemoveMessage p h
    else if t =? TYPE_SET_NAME then OnSetClientName p h
    else mret tt.

Definition agent_close (p : nat) : DP unit :=
  update_agent p (λ a, mkAgent false (agent_id_ a) (remote_pid_ a) (agent_name_ a) (method_map_ a));;
  a ← agent p;
  RemoveAgent (agent_id_ a).
Definition OnSocketErrorEvent (p : nat) : DP unit := agent_close p.

(** ** DpServer: a new connection gets an agent *)
Definition new_agent : DpAgent := mkAgent true 0 (2 ^ 32 - 1) [117; 110; 110; 97; 109; 101; 100] ∅.
Definition OnListenerAcceptEvent (p : nat) : DP unit :=
  modify (λ s, set_objects (<[p := new_agent]> (objects s)) s);;
  id ← AddDpAgent p;
  match id with
  | Some id => update_agent p (λ a, mkAgent (packet_socket_ a) id (remote_pid_ a) (agent_name_ a) (method_map_ a))
  | None => mret tt
  end.

Definition start_server : DpAgentManager := mkManager ∅ ∅ ∅ 0 [].

(** ** Invariant *)
Definition live (s : DpAgentManager) (p : nat) (a : DpAgent) : Prop :=
  objects s !! p = Some a ∧ packet_socket_ a = true.
Definition listeners (s : DpAgentManager) (m : method) : list nat := default [] (method_agents_ s !! m).

(** The maps of the manager agree with the agents: the open agents are those
    in dp_agents_, under their ids, and those in the list of a method are the
    open agents that have it in their map; all of them with one type, and a
    request has one listener. *)
Record BInv (s : DpAgentManager) : Prop := {
  b_ids : ∀ id p, dp_agents_ s !! id = Some p → ∃ a, live s p a ∧ agent_id_ a = id;
  b_live : ∀ p a, live s p a → dp_agents_ s !! agent_id_ a = Some p;
  b_num : ∀ id p, dp_agents_ s !! id = Some p → 0 < id ≤ agent_num_ s;
  b_count : 0 ≤ agent_num_ s < 2 ^ 32;
  b_bind : ∀ m p, p ∈ listeners s m ↔ ∃ a, live s p a ∧ is_Some (method_map_ a !! m);
  b_nodup : ∀ m, NoDup (listeners s m);
  b_type : ∀ p a m t, live s p a → method_map_ a !! m = Some t → t = TYPE_MESSAGE ∨ t = TYPE_REQUEST;
  b_agree : ∀ p q a b m t u, live s p a → live s q b → method_map_ a !! m = Some t → method_map_ b !! m = Some u →
    t = u ∧ (t = TYPE_REQUEST → p = q) }.

Lemma run_agent s p a : objects s !! p = Some a → agent p s = Ok (a, s).
Proof. unfold agent. by intros ->. Qed.
Lemma run_update s p a f : objects s !! p = Some a →
  update_agent p f s = Ok (tt, set_objects (<[p := f a]> (objects s)) s).
Proof. intros Ha. unfold update_agent. by rewrite run_bind, (run_agent _ _ _ Ha). Qed.

Lemma out_inv p packet s : BInv s → BInv (add_out p packet s).
Proof. by intros []. Qed.

(** Sending only adds to the outbox, and only for an open agent. *)
Lemma SendMessage_spec s p a mid type m d sid r :
  objects s !! p = Some a → packet_socket_ a = true →
  SendMessage p mid type m (Ok d) sid r s = Ok (true, add_out p (dp_packet type 0 0 mid sid r m d) s).
Proof.
  intros Ha Ho. unfold SendMessage. rewrite run_bind, (run_agent _ _ _ Ha). cbn beta iota. rewrite Ho. done.
Qed.

(** *** Listening *)
Lemma check_agents_spec s m type l :
  (∀ p, p ∈ l → is_Some (objects s !! p)) →
  ∃ b, check_agents l m type s = Ok (b, s) ∧
    (b = true ↔ ∀ p a, p ∈ l → objects s !! p = Some a → agent_accepts m type a = true).
Proof.
  induction l as [|p l IH]; intros Hl; cbn [check_agents].
  { exists true. split; [done|]. split; [|done]. intros _ p a Hp. by apply elem_of_nil in Hp. }
  destruct (Hl p ltac:(by left)) as [a Ha]. rewrite run_bind, (run_agent _ _ _ Ha). cbn beta iota.
  destruct (agent_accepts m type a) eqn:E.
  - destruct IH as (b & Hr & Hb); [intros q Hq; apply Hl; by right|]. exists b. split; [done|]. rewrite Hb. split.
    + intros H q b' [->|Hq]%elem_of_cons Hb'; [by simplify_eq|by eapply H].
    + intros H q b' Hq. apply H. by right.
  - exists false. split; [done|]. split; [done|]. intros H. specialize (H p a ltac:(by left) Ha). congruence.
Qed.

Lemma CheckMessage_spec s m type : BInv s →
  ∃ b, CheckMessage m type s = Ok (b, s) ∧
    (b = true ↔ ∀ p a, live s p a → agent_accepts m type a = true).
Proof.
  intros Hi. unfold CheckMessage. rewrite run_bind, run_get. cbn beta iota.
  assert (∀ p, p ∈ (map_to_list (dp_agents_ s)).*2 ↔ ∃ id, dp_agents_ s !! id = Some p) as Hin.
  { intros p. rewrite list_elem_of_fmap. split.
    - intros ([id q] & -> & Hq). exists id. by apply elem_of_map_to_list in Hq.
    - intros [id Hp]. exists (id, p). split; [done|]. by apply elem_of_map_to_list. }
  destruct (check_agents_spec s m type (map_to_list (dp_agents_ s)).*2) as (b & Hr & Hb).
  { intros p [id Hp]%Hin. destruct (b_ids _ Hi _ _ Hp) as (a & [Ha _] & _). by exists a. }
  exists b. split; [done|]. rewrite Hb. split.
  - intros H p a Hl. apply (H p a); [|apply Hl]. apply Hin. exists (agent_id_ a). by apply b_live.
  - intros H p a [id Hp]%Hin Ha. destruct (b_ids _ Hi _ _ Hp) as (a' & [Ha' Ho'] & _).
    apply (H p a). split; [done|]. by simplify_eq.
Qed.

Lemma agent_accepts_true m type a :
  agent_accepts m type a = true ↔ ∀ t, method_map_ a !! m = Some t → t = type ∧ type ≠ TYPE_REQUEST.
Proof.
  unfold agent_accepts. destruct (method_map_ a !! m) as [t|]; [|naive_solver].
  destruct (Z.eqb_spec t type) as [->|Hne]; cbn [negb].
  - destruct (Z.eqb_spec TYPE_REQUEST type) as [<-|Hne]; cbn [negb]; [|naive_solver].
    split; [done|]. intros H. destruct (H _ eq_refl). done.
  - split; [done|]. intros H. by destruct (H _ eq_refl).
Qed.

Lemma has_id_spec s id p : has_id s id p = true ↔ ∃ a, objects s !! p = Some a ∧ agent_id_ a = id.
Proof.
  unfold has_id. destruct (objects s !! p) as [a|]; [|naive_solver].
  rewrite Z.eqb_eq. naive_solver.
Qed.

(** Among open agents the id determines the agent. *)
Lemma live_id_inj s p q a b : BInv s → live s p a → live s q b → agent_id_ a = agent_id_ b → p = q.
Proof.
  intros Hi Ha Hb He. apply (b_live _ Hi) in Ha, Hb. rewrite He in Ha. congruence.
Qed.

Lemma listener_has_id s m p a : BInv s → live s p a →
  existsb (has_id s (agent_id_ a)) (listeners s m) = bool_decide (p ∈ listeners s m).
Proof.
  intros Hi Hl. apply eq_bool_prop_intro. rewrite bool_decide_spec, Is_true_true, existsb_exists.
  split.
  - intros (q & Hq%list_elem_of_In & Hid). apply has_id_spec in Hid as (b & Hb & Hbi).
    destruct (proj1 (b_bind _ Hi m q) Hq) as (b' & Hb' & _).
    assert (b' = b) as -> by (destruct Hb'; congruence).
    by rewrite (live_id_inj s p q a b Hi Hl Hb').
  - intros Hp. exists p. split; [by apply list_elem_of_In|]. apply has_id_spec. exists a. by destruct Hl.
Qed.

(** Registering a message for an open agent. *)
Definition set_map (f : gmap method Z → gmap method Z) (a : DpAgent) : DpAgent :=
  mkAgent (packet_socket_ a) (agent_id_ a) (remote_pid_ a) (agent_name_ a) (f (method_map_ a)).
Definition registered (p : nat) (m : method) (type : Z) (a : DpAgent) (s : DpAgentManager) : DpAgentManager :=
  mkManager (<[p := set_map (insert m type) a]> (objects s)) (dp_agents_ s)
    (<[m := if bool_decide (p ∈ listeners s m) then listeners s m else listeners s m ++ [p]]> (method_agents_ s))
    (agent_num_ s) (outbox s).

Lemma listeners_insert (b : gmap method (list nat)) s m m' l :
  method_agents_ s = <[m := l]> b →
  listeners s m' = if decide (m' = m) then l else default [] (b !! m').
Proof.
  intros Hs. unfold listeners. rewrite Hs. case_decide as Hd.
  - subst. by rewrite lookup_insert_eq.
  - by rewrite lookup_insert_ne.
Qed.

(** Changing the map of one agent: the others stay as they are. *)
Lemma live_insert s p a a' q b o' :
  objects s !! p = Some a → packet_socket_ a' = packet_socket_ a → o' = <[p := a']> (objects s) →
  (o' !! q = Some b ∧ packet_socket_ b = true ↔
   (q = p ∧ b = a' ∧ packet_socket_ a = true) ∨ (q ≠ p ∧ live s q b)).
Proof.
  intros Ha Ho ->. destruct (decide (q = p)) as [->|Hne].
  - rewrite lookup_insert_eq. split; [|naive_solver]. intros [[= <-] Hb]. left. by rewrite <-Ho.
  - rewrite lookup_insert_ne by done. unfold live. naive_solver.
Qed.

Lemma registered_inv s p a m type : BInv s → live s p a →
  type = TYPE_MESSAGE ∨ type = TYPE_REQUEST →
  (∀ q b, live s q b → agent_accepts m type b = true) →
  BInv (registered p m type a s).
Proof.
  intros Hi Hl Ht Hacc. pose proof Hl as [Ha Ho].
  pose proof (λ q b, live_insert s p a (set_map (insert m type) a) q b _ Ha eq_refl eq_refl) as Hlive.
  destruct Hi as [H1 H2 H3 H4 H5 H6 H7 H8].
  assert (∀ q b, live (registered p m type a s) q b ↔
    (q = p ∧ b = set_map (insert m type) a) ∨ (q ≠ p ∧ live s q b)) as Hl'.
  { intros q b. unfold live at 1. cbn [objects registered]. rewrite Hlive. naive_solver. }
  assert (∀ m', listeners (registered p m type a s) m' = if decide (m' = m)
      then if bool_decide (p ∈ listeners s m) then listeners s m else listeners s m ++ [p]
      else listeners s m') as Hls by (intros m'; by apply (listeners_insert (method_agents_ s))).
  split; cbn [dp_agents_ agent_num_ registered]; try done.
  - intros id q Hq. destruct (H1 id q Hq) as (b & Hb & Hid). destruct (decide (q = p)) as [->|Hne].
    + exists (set_map (insert m type) a). destruct Hb as [Hb _]. simplify_eq. split; [|done]. apply Hl'. by left.
    + exists b. split; [|done]. apply Hl'. by right.
  - intros q b [[-> ->]|[Hne Hb]]%Hl'; [by apply (H2 p a)|by apply H2].
  - intros m' q. rewrite Hls. split.
    + intros Hq. assert (q ∈ listeners s m' ∨ (q = p ∧ m' = m)) as [Hin|[-> ->]].
      { destruct (decide (m' = m)) as [->|Hd]; [|by left]. case_bool_decide; [by left|].
        apply elem_of_app in Hq as [?|Hq]; [by left|right]. by apply list_elem_of_singleton in Hq. }
      * apply H5 in Hin as (b & Hb & Hm). destruct (decide (q = p)) as [->|Hne].
        -- exists (set_map (insert m type) a). split; [apply Hl'; by left|]. destruct Hb as [Hb _]. simplify_eq. simpl.
           destruct (decide (m' = m)) as [->|]; [rewrite lookup_insert_eq; by eexists|by rewrite lookup_insert_ne].
        -- exists b. split; [apply Hl'; by right|done].
      * exists (set_map (insert m type) a). split; [apply Hl'; by left|]. simpl. rewrite lookup_insert_eq. by eexists.
    + intros (b & [[-> ->]|[Hne Hb]]%Hl' & Hm).
      * simpl in Hm. destruct (decide (m' = m)) as [->|Hd].
        -- case_bool_decide; [done|]. apply elem_of_app. right. by apply list_elem_of_singleton.
        -- rewrite lookup_insert_ne in Hm by done. apply H5. by exists a.
      * assert (q ∈ listeners s m') as Hin by (apply H5; by exists b).
        destruct (decide (m' = m)) as [->|Hd]; [|done]. case_bool_decide; [done|]. apply elem_of_app. by left.
  - intros m'. rewrite Hls. destruct (decide (m' = m)) as [->|Hd]; [|apply H6]. case_bool_decide as Hn; [apply H6|].
    apply NoDup_app. split_and!; [apply H6| |apply NoDup_singleton].
    intros q Hq Hq'. apply list_elem_of_singleton in Hq' as ->. done.
  - intros q b m' t [[-> ->]|[Hne Hb]]%Hl' Hm; [|by eapply H7]. simpl in Hm.
    destruct (decide (m' = m)) as [->|]; [rewrite lookup_insert_eq in Hm; by simplify_eq|].
    rewrite lookup_insert_ne in Hm by done. by eapply (H7 p a).
  - assert (∀ q b t, live s q b → method_map_ b !! m = Some t → t = type ∧ type ≠ TYPE_REQUEST) as Hold.
    { intros q b t Hb Hm. apply (proj1 (agent_accepts_true m type b)); [by eapply Hacc|done]. }
    assert (∀ m' t u q b, m' = m → (set_map (insert m type) a).(method_map_) !! m' = Some t → live s q b →
      method_map_ b !! m' = Some u → t = u ∧ t ≠ TYPE_REQUEST) as Hnew.
    { intros m' t u q b -> Hm Hb Hu. simpl in Hm. rewrite lookup_insert_eq in Hm. simplify_eq.
      destruct (Hold q b u Hb Hu). naive_solver. }
    intros q r b c m' t u [[-> ->]|[Hne Hb]]%Hl' [[-> ->]|[Hne' Hc]]%Hl' Hm Hu.
    + split; [congruence|done].
    + destruct (decide (m' = m)) as [->|Hd].
      * destruct (Hnew m t u r c eq_refl Hm Hc Hu). naive_solver.
      * simpl in Hm. rewrite lookup_insert_ne in Hm by done. by eapply (H8 p r a c).
    + destruct (decide (m' = m)) as [->|Hd].
      * destruct (Hnew m u t q b eq_refl Hu Hb Hm). naive_solver.
      * simpl in Hu. rewrite lookup_insert_ne in Hu by done. by eapply (H8 q p b a).
    + by eapply H8.
Qed.

(** *** Unregistering and closing *)
Lemma without_id_in s p a (l : list nat) : BInv s → live s p a → (∀ q, q ∈ l → ∃ b, live s q b) →
  ∀ (o : gmap nat DpAgent) q, (∀ q, agent_id_ <$> o !! q = agent_id_ <$> objects s !! q) →
    q ∈ filter (λ q, has_id (set_objects o s) (agent_id_ a) q = false) l ↔ q ∈ l ∧ q ≠ p.
Proof.
  intros Hi Hl Hlive o q Hsame. rewrite list_elem_of_filter.
  assert (∀ q, has_id (set_objects o s) (agent_id_ a) q = has_id s (agent_id_ a) q) as Hid.
  { intros r. unfold has_id. simpl. specialize (Hsame r).
    destruct (o !! r), (objects s !! r); simpl in Hsame; try done. by injection Hsame as ->. }
  rewrite Hid. split.
  - intros [Hn Hq]. split; [done|]. intros ->.
    assert (has_id s (agent_id_ a) p = true) by (apply has_id_spec; exists a; by destruct Hl). congruence.
  - intros [Hq Hne]. split; [|done]. apply not_true_iff_false. intros (b & Hb & Hbi)%has_id_spec.
    destruct (Hlive q Hq) as (b' & Hb'). assert (b' = b) as -> by (destruct Hb'; congruence).
    apply Hne. symmetry. by apply (live_id_inj s p q a b).
Qed.

Lemma listeners_live s m q : BInv s → q ∈ listeners s m → ∃ b, live s q b.
Proof. intros Hi Hq. apply (b_bind _ Hi) in Hq as (b & Hb & _). by exists b. Qed.

Definition unregistered (p : nat) (m : method) (a : DpAgent) (s : DpAgentManager) : DpAgentManager :=
  mkManager (<[p := set_map (delete m) a]> (objects s)) (dp_agents_ s)
    (<[m := without_id s (agent_id_ a) (listeners s m)]> (method_agents_ s)) (agent_num_ s) (outbox s).

Lemma unregistered_inv s p a m : BInv s → live s p a → BInv (unregistered p m a s).
Proof.
  intros Hi Hl. pose proof Hl as [Ha Ho].
  pose proof (λ q b, live_insert s p a (set_map (delete m) a) q b _ Ha eq_refl eq_refl) as Hlive.
  assert (∀ q, q ∈ without_id s (agent_id_ a) (listeners s m) ↔ q ∈ listeners s m ∧ q ≠ p) as Hwo.
  { intros q. apply (without_id_in s p a (listeners s m) Hi Hl); [|done]. intros r Hr. by eapply listeners_live. }
  destruct Hi as [H1 H2 H3 H4 H5 H6 H7 H8].
  assert (∀ q b, live (unregistered p m a s) q b ↔ (q = p ∧ b = set_map (delete m) a) ∨ (q ≠ p ∧ live s q b)) as Hl'.
  { intros q b. unfold live at 1. cbn [objects unregistered]. rewrite Hlive. naive_solver. }
  assert (∀ m', listeners (unregistered p m a s) m' = if decide (m' = m)
      then without_id s (agent_id_ a) (listeners s m) else listeners s m') as Hls.
  { intros m'. by apply (listeners_insert (method_agents_ s)). }
  split; cbn [dp_agents_ agent_num_ unregistered]; try done.
  - intros id q Hq. destruct (H1 id q Hq) as (b & Hb & Hid). destruct (decide (q = p)) as [->|Hne].
    + exists (set_map (delete m) a). destruct Hb as [Hb _]. simplify_eq. split; [|done]. apply Hl'. by left.
    + exists b. split; [|done]. apply Hl'. by right.
  - intros q b [[-> ->]|[Hne Hb]]%Hl'; [by apply (H2 p a)|by apply H2].
  - intros m' q. rewrite Hls. split.
    + intros Hq. assert (q ∈ listeners s m' ∧ (m' = m → q ≠ p)) as [Hin Hne].
      { destruct (decide (m' = m)) as [->|Hd]; [apply Hwo in Hq; naive_solver|done]. }
      apply H5 in Hin as (b & Hb & Hm). destruct (decide (q = p)) as [->|Hqp].
      * exists (set_map (delete m) a). split; [apply Hl'; by left|]. destruct Hb as [Hb _]. simplify_eq. simpl.
        destruct (decide (m' = m)) as [->|]; [by destruct Hne|by rewrite lookup_delete_ne].
      * exists b. split; [apply Hl'; by right|done].
    + intros (b & [[-> ->]|[Hne Hb]]%Hl' & Hm).
      * simpl in Hm. destruct (decide (m' = m)) as [->|Hd].
        -- rewrite lookup_delete_eq in Hm. by destruct Hm.
        -- rewrite lookup_delete_ne in Hm by done. apply H5. by exists a.
      * assert (q ∈ listeners s m') as Hin by (apply H5; by exists b).
        destruct (decide (m' = m)) as [->|Hd]; [by apply Hwo|done].
  - intros m'. rewrite Hls. destruct (decide (m' = m)) as [->|Hd]; [|apply H6]. apply NoDup_filter, H6.
  - intros q b m' t [[-> ->]|[Hne Hb]]%Hl' Hm; [|by eapply H7]. simpl in Hm.
    apply lookup_delete_Some in Hm as [_ Hm]. by eapply (H7 p a).
  - intros q r b c m' t u Hb Hc Hm Hu.
    assert (∃ b0, live s q b0 ∧ method_map_ b0 !! m' = Some t) as (b0 & Hb0 & Hm0).
    { apply Hl' in Hb as [[-> ->]|[Hne Hb]]; [|by exists b]. simpl in Hm. apply lookup_delete_Some in Hm as [_ Hm]. by exists a. }
    assert (∃ c0, live s r c0 ∧ method_map_ c0 !! m' = Some u) as (c0 & Hc0 & Hu0).
    { apply Hl' in Hc as [[-> ->]|[Hne Hc]]; [|by exists c]. simpl in Hu. apply lookup_delete_Some in Hu as [_ Hu]. by exists a. }
    by eapply H8.
Qed.

Definition shut_down (a : DpAgent) : DpAgent :=
  mkAgent false (agent_id_ a) (remote_pid_ a) (agent_name_ a) (method_map_ a).
Definition closed (p : nat) (a : DpAgent) (s : DpAgentManager) : DpAgentManager :=
  let o := <[p := shut_down a]> (objects s) in
  mkManager o (delete (agent_id_ a) (dp_agents_ s))
    (without_id (set_objects o s) (agent_id_ a) <$> method_agents_ s) (agent_num_ s) (outbox s).

Lemma closed_inv s p a : BInv s → live s p a → BInv (closed p a s).
Proof.
  intros Hi Hl. pose proof Hl as [Ha Ho].
  assert (∀ q b, live (closed p a s) q b ↔ q ≠ p ∧ live s q b) as Hl'.
  { intros q b. unfold live. cbn [objects closed]. destruct (decide (q = p)) as [->|Hne].
    - rewrite lookup_insert_eq. split; [intros [[= <-] Hb]; done|naive_solver].
    - rewrite lookup_insert_ne by done. naive_solver. }
  assert (∀ m q, q ∈ listeners (closed p a s) m ↔ q ∈ listeners s m ∧ q ≠ p) as Hls.
  { intros m q. unfold listeners. cbn [method_agents_ closed]. rewrite lookup_fmap.
    destruct (method_agents_ s !! m) as [l|] eqn:E; cbn [default fmap option_fmap option_map id].
    2: { split; [by intros Hq%elem_of_nil|]. by intros [Hq%elem_of_nil _]. }
    apply (without_id_in s p a l Hi Hl).
    - intros r Hr. apply (listeners_live s m r Hi). unfold listeners. by rewrite E.
    - intros r. destruct (decide (r = p)) as [->|Hne]; [by rewrite lookup_insert_eq, Ha|by rewrite lookup_insert_ne]. }
  pose proof Hi as [H1 H2 H3 H4 H5 H6 H7 H8]. split; cbn [dp_agents_ agent_num_ closed]; try done.
  - intros id q Hq. apply lookup_delete_Some in Hq as [Hne Hq]. destruct (H1 id q Hq) as (b & Hb & Hid).
    exists b. split; [|done]. apply Hl'. split; [|done]. intros ->. destruct Hb as [Hb _]. by simplify_eq.
  - intros q b [Hne Hb]%Hl'. rewrite lookup_delete_ne; [by apply H2|].
    intros He. apply Hne. symmetry. by apply (live_id_inj s p q a b).
  - intros id q Hq. apply lookup_delete_Some in Hq as [_ Hq]. by eapply H3.
  - intros m q. rewrite Hls, H5. setoid_rewrite Hl'. naive_solver.
  - intros m. specialize (H6 m). unfold listeners in *. cbn [method_agents_ closed]. rewrite lookup_fmap.
    destruct (method_agents_ s !! m); cbn; [by apply NoDup_filter|constructor].
  - intros q b m t [_ Hb]%Hl' Hm. by eapply H7.
  - intros q r b c m t u [_ Hb]%Hl' [_ Hc]%Hl' Hm Hu. by eapply H8.
Qed.

Definition accepted (p : nat) (s : DpAgentManager) : DpAgentManager :=
  mkManager (<[p := mkAgent true (agent_num_ s + 1) (remote_pid_ new_agent) (agent_name_ new_agent) ∅]> (objects s))
    (<[agent_num_ s + 1 := p]> (dp_agents_ s)) (method_agents_ s) (agent_num_ s + 1) (outbox s).

Lemma accepted_inv s p : BInv s → objects s !! p = None → agent_num_ s + 1 < 2 ^ 32 → BInv (accepted p s).
Proof.
  intros Hi Hp Hn. set (a := mkAgent true (agent_num_ s + 1) (remote_pid_ new_agent) (agent_name_ new_agent) ∅).
  assert (∀ q b, live (accepted p s) q b ↔ (q = p ∧ b = a) ∨ (q ≠ p ∧ live s q b)) as Hl'.
  { intros q b. unfold live at 1. cbn [objects accepted]. fold a. destruct (decide (q = p)) as [->|Hne].
    - rewrite lookup_insert_eq. naive_solver.
    - rewrite lookup_insert_ne by done. unfold live. naive_solver. }
  assert (∀ q b, live s q b → q ≠ p) as Hnp by (intros q b [Hq _] ->; congruence).
  pose proof Hi as [H1 H2 H3 H4 H5 H6 H7 H8]. split; cbn [dp_agents_ agent_num_ accepted]; try done.
  - intros id q Hq. apply lookup_insert_Some in Hq as [[<- <-]|[Hne Hq]].
    + exists a. split; [apply Hl'; by left|done].
    + destruct (H1 id q Hq) as (b & Hb & Hid). exists b. split; [|done]. apply Hl'. right. split; [by eapply Hnp|done].
  - intros q b [[-> ->]|[Hne Hb]]%Hl'; [apply lookup_insert_eq|]. rewrite lookup_insert_ne; [by apply H2|].
    pose proof (H3 _ _ (H2 q b Hb)). lia.
  - intros id q Hq. apply lookup_insert_Some in Hq as [[<- <-]|[Hne Hq]]; [lia|]. pose proof (H3 _ _ Hq). lia.
  - lia.
  - intros m q. change (listeners (accepted p s) m) with (listeners s m). rewrite H5. split.
    + intros (b & Hb & Hm). exists b. split; [|done]. apply Hl'. right. split; [by eapply Hnp|done].
    + intros (b & [[-> ->]|[Hne Hb]]%Hl' & Hm); [|by exists b]. simpl in Hm. rewrite lookup_empty in Hm. by destruct Hm.
  - intros q b m t [[-> ->]|[Hne Hb]]%Hl' Hm; [|by eapply H7]. simpl in Hm. by rewrite lookup_empty in Hm.
  - intros q r b c m t u [[-> ->]|[Hne Hb]]%Hl' [[-> ->]|[Hne' Hc]]%Hl' Hm Hu;
      simpl in Hm, Hu; rewrite ?lookup_empty in Hm; rewrite ?lookup_empty in Hu; try done. by eapply H8.
Qed.

Lemma start_inv : BInv start_server.
Proof.
  assert (∀ p a, ¬ live start_server p a) as Hno.
  { intros p a [Hp _]. exact (lookup_empty_Some (M:=gmap nat) p a Hp). }
  assert (∀ m, listeners start_server m = []) as Hls by done.
  split; cbn [dp_agents_ agent_num_ start_server]; try lia; 
    try (intros; exfalso; match goal with Hl : live _ _ _ |- _ => exact (Hno _ _ Hl) end).
  - intros id p Hp. by rewrite lookup_empty in Hp.
  - intros id p Hp. by rewrite lookup_empty in Hp.
  - intros m p. rewrite Hls. split; [by intros Hq%elem_of_nil|]. intros (a & Ha & _). by destruct (Hno p a).
  - intros m. rewrite Hls. constructor.
Qed.

(** *** Handlers *)
Definition send_all (l : list (nat * list Z)) (s : DpAgentManager) : DpAgentManager :=
  mkManager (objects s) (dp_agents_ s) (method_agents_ s) (agent_num_ s) (outbox s ++ l).
Lemma send_all_nil s : send_all [] s = s.
Proof. unfold send_all. rewrite app_nil_r. by destruct s. Qed.
Lemma send_all_app l k s : send_all k (send_all l s) = send_all (l ++ k) s.
Proof. unfold send_all. cbn. by rewrite app_assoc. Qed.
Lemma send_all_inv l s : BInv s → BInv (send_all l s).
Proof. by intros []. Qed.
Lemma add_out_send p packet s : add_out p packet s = send_all [(p, packet)] s.
Proof. done. Qed.

(** Who gets a message: the listeners but the sender and its process. *)
Definition pid_of (s : DpAgentManager) (p : nat) : Z :=
  match objects s !! p with Some a => remote_pid_ a | None => 0 end.
Definition recipients (s : DpAgentManager) (m : method) (src : nat) (pid : Z) : list nat :=
  filter (λ p, p ≠ src ∧ pid_of s p ≠ pid) (listeners s m).

Lemma HandleDpMessage_spec s p a src b h m d t :
  live s p a → live s src b → method_of h = Ok m → passed_data h = Ok d →
  method_map_ a !! m = Some t → t = TYPE_MESSAGE ∨ t = TYPE_REQUEST →
  let h' := if t =? TYPE_REQUEST then with_id (attach_id (agent_id_ b) (message_id h)) h else h in
  HandleDpMessage p src h s =
    Ok ((t, with_type t h'), send_all [(p, dp_packet t 0 0 (message_id h') (session_id h) 0 m d)] s).
Proof.
  intros [Ha Ho] [Hb _] Hm Hd Ht Htt. unfold HandleDpMessage. rewrite Hm.
  rewrite run_bind. cbn [lift]. rewrite run_bind, (run_agent _ _ _ Ha). cbn beta iota. rewrite Ht.
  assert (u8 t = t) as -> by (apply uwrap_id; unfold in_u, TYPE_MESSAGE, TYPE_REQUEST in *; lia).
  rewrite run_bind, (run_agent _ _ _ Hb). cbn beta iota. rewrite (Z.eqb_sym TYPE_REQUEST t).
  assert (passed_data (if t =? TYPE_REQUEST then with_id (attach_id (agent_id_ b) (message_id h)) h else h) = Ok d) as ->
    by (by destruct (t =? TYPE_REQUEST)).
  rewrite run_bind, (SendMessage_spec _ _ _ _ _ _ _ _ _ Ha Ho). cbn beta iota. rewrite run_ret.
  by destruct (t =? TYPE_REQUEST).
Qed.

(** All listeners of a method with one type: a broadcast goes to each. *)
Lemma process_loop_message s src b h m d l : ∀ out num reg,
  live s src b → method_of h = Ok m → passed_data h = Ok d → d_type h = TYPE_MESSAGE →
  (∀ p, p ∈ l → ∃ a, live s p a ∧ method_map_ a !! m = Some TYPE_MESSAGE) →
  let to := filter (λ p, p ≠ src ∧ pid_of s p ≠ process_id h) l in
  process_loop l src h num reg (send_all out s) =
    Ok ((num + zlen to, (if zlen to =? 0 then reg else TYPE_MESSAGE), h),
        send_all (out ++ ((λ p, (p, dp_packet TYPE_MESSAGE 0 0 (message_id h) (session_id h) 0 m d)) <$> to)) s).
Proof.
  induction l as [|p l IH]; intros out num reg Hsrc Hm Hd Hty Hall; cbn [process_loop].
  { rewrite run_ret. cbn. by rewrite Z.add_0_r, app_nil_r. }
  destruct (Hall p ltac:(by left)) as (a & Ha & Hma).
  assert (∀ q, q ∈ l → ∃ a, live s q a ∧ method_map_ a !! m = Some TYPE_MESSAGE) as Hall' by (intros q Hq; apply Hall; by right).
  rewrite filter_cons. destruct (decide (p = src)) as [->|Hne].
  { rewrite decide_False by naive_solver. by apply IH. }
  rewrite run_bind, (run_agent (send_all out s) p a) by apply Ha. cbn beta iota.
  assert (pid_of s p = remote_pid_ a) as Hpid by (unfold pid_of; by rewrite (proj1 Ha)).
  destruct (Z.eqb_spec (remote_pid_ a) (process_id h)) as [He|Hpn].
  { rewrite decide_False by (intros [_ Hn]; congruence). by apply IH. }
  rewrite decide_True by (split; congruence).
  rewrite run_bind. rewrite (HandleDpMessage_spec (send_all out s) p a src b h m d TYPE_MESSAGE) by (done || by left).
  change (TYPE_MESSAGE =? TYPE_REQUEST) with false. cbn beta iota. rewrite Z.eqb_refl, send_all_app.
  assert (with_type TYPE_MESSAGE h = h) as -> by (rewrite <-Hty; by destruct h).
  rewrite (IH _ _ TYPE_MESSAGE) by done. set (to := filter _ l).
  rewrite fmap_cons, <-app_assoc. cbn [app].
  assert (zlen (p :: to) = 1 + zlen to) as -> by (unfold zlen; cbn [length]; lia).
  pose proof (zlen_nonneg to). rewrite (proj2 (Z.eqb_neq (1 + zlen to) 0)) by lia.
  replace (if zlen to =? 0 then TYPE_MESSAGE else TYPE_MESSAGE) with TYPE_MESSAGE by by destruct (_ =? _).
  by rewrite Z.add_assoc.
Qed.

(** A packet with a well-formed message in it. *)
Lemma packet_method type lt pid mid sid r m d : msg_ok pid mid sid r m d →
  let h := as_header (dp_packet type lt pid mid sid r m d) in
  method_of h = Ok m ∧ passed_data h = Ok d.
Proof.
  intros Hok h. destruct (as_header_packet type lt pid mid sid r m d Hok) as (_ & _ & _ & _ & _ & _ & _ & Hds & Hm & Hd).
  split; [done|]. unfold passed_data. fold h in Hds, Hd. rewrite Hds. destruct (Z.ltb_spec 0 (zlen d)); [done|].
  assert (d = []) as -> by (apply zlen_0; pose proof (zlen_nonneg d); lia). done.
Qed.

Lemma listeners_some s m : method_agents_ s !! m = Some (listeners s m) ∨ (method_agents_ s !! m = None ∧ listeners s m = []).
Proof. unfold listeners. destruct (method_agents_ s !! m); [by left|by right]. Qed.

Lemma listener_type s m p a t : BInv s → live s p a → method_map_ a !! m = Some t →
  ∀ q, q ∈ listeners s m → ∃ b, live s q b ∧ method_map_ b !! m = Some t.
Proof.
  intros Hi Ha Ht q Hq. apply (b_bind _ Hi) in Hq as (b & Hb & [u Hu]).
  exists b. split; [done|]. rewrite Hu. f_equal. by eapply (b_agree _ Hi q p).
Qed.

(** ** Steps of the server *)
Inductive blabel := Accept (p : nat) | Packet (p : nat) (packet : list Z) | SocketError (p : nat).
Definition bstep (l : blabel) : DP unit :=
  match l with
  | Accept p => OnListenerAcceptEvent p
  | Packet p packet => OnSocketReadComplete p packet
  | SocketError p => OnSocketErrorEvent p
  end.
(** A new agent has an address of its own; events come from open sockets. *)
Definition blabel_ok (s : DpAgentManager) (l : blabel) : Prop :=
  match l with
  | Accept p => objects s !! p = None ∧ agent_num_ s + 1 < 2 ^ 32
  | Packet p _ | SocketError p => ∃ a, live s p a
  end.
Inductive bsteps : DpAgentManager → DpAgentManager → Prop :=
| bsteps_refl s : bsteps s s
| bsteps_step s l s1 s2 : blabel_ok s l → bstep l s = Ok (tt, s1) → bsteps s1 s2 → bsteps s s2.

Definition renamed (p : nat) (pid : Z) (name : list Z) (a : DpAgent) (s : DpAgentManager) : DpAgentManager :=
  set_objects (<[p := mkAgent (packet_socket_ a) (agent_id_ a) pid name (method_map_ a)]> (objects s)) s.
Definition to_live (s : DpAgentManager) (out : list (nat * list Z)) : Prop :=
  Forall (λ e, ∃ a, live s e.1 a) out.

(** What a step can do to the state. *)
Inductive effect (s : DpAgentManager) : DpAgentManager → Prop :=
| E_send out : to_live s out → effect s (send_all out s)
| E_register p a m t out : live s p a → t = TYPE_MESSAGE ∨ t = TYPE_REQUEST →
    (∀ q b, live s q b → agent_accepts m t b = true) → to_live s out →
    effect s (send_all out (registered p m t a s))
| E_unregister p a m : live s p a → effect s (unregistered p m a s)
| E_rename p a pid name : live s p a → effect s (renamed p pid name a s)
| E_close p a : live s p a → effect s (closed p a s)
| E_accept p : objects s !! p = None → agent_num_ s + 1 < 2 ^ 32 → effect s (accepted p s).

Lemma renamed_inv p pid name a s : BInv s → live s p a → BInv (renamed p pid name a s).
Proof.
  intros Hi Hl. pose proof Hl as [Ha Ho]. set (a' := mkAgent (packet_socket_ a) (agent_id_ a) pid name (method_map_ a)).
  assert (∀ q b, live (renamed p pid name a s) q b ↔ (q = p ∧ b = a') ∨ (q ≠ p ∧ live s q b)) as Hl'.
  { intros q b. unfold live at 1. cbn [objects renamed set_objects]. fold a'.
    rewrite (live_insert s p a a' q b _ Ha eq_refl eq_refl). naive_solver. }
  assert (∀ q b, live (renamed p pid name a s) q b → ∃ b0, live s q b0 ∧ agent_id_ b0 = agent_id_ b ∧ method_map_ b0 = method_map_ b) as Hback.
  { intros q b [[-> ->]|[_ Hb]]%Hl'; [by exists a|by exists b]. }
  destruct Hi as [H1 H2 H3 H4 H5 H6 H7 H8]. split; cbn [dp_agents_ agent_num_ renamed set_objects]; try done.
  - intros id q Hq. destruct (H1 id q Hq) as (b & Hb & Hid). destruct (decide (q = p)) as [->|Hne].
    + exists a'. split; [apply Hl'; by left|]. destruct Hb as [Hb _]. by simplify_eq.
    + exists b. split; [apply Hl'; by right|done].
  - intros q b Hb. destruct (Hback q b Hb) as (b0 & Hb0 & <- & _). by apply H2.
  - intros m q. change (listeners (renamed p pid name a s) m) with (listeners s m). rewrite H5. split.
    + intros (b & Hb & Hm). destruct (decide (q = p)) as [->|Hne].
      * exists a'. split; [apply Hl'; by left|]. destruct Hb as [Hb _]. by simplify_eq.
      * exists b. split; [apply Hl'; by right|done].
    + intros (b & Hb & Hm). destruct (Hback q b Hb) as (b0 & Hb0 & _ & He). exists b0. by rewrite He.
  - intros q b m t Hb Hm. destruct (Hback q b Hb) as (b0 & Hb0 & _ & He). rewrite <-He in Hm. by eapply H7.
  - intros q r b c m t u Hb Hc Hm Hu. destruct (Hback q b Hb) as (b0 & Hb0 & _ & He). destruct (Hback r c Hc) as (c0 & Hc0 & _ & He').
    rewrite <-He in Hm. rewrite <-He' in Hu. by eapply H8.
Qed.

Lemma effect_inv s s' : BInv s → effect s s' → BInv s'.
Proof.
  intros Hi [out Ho|p a m t out Hl Ht Ha Ho|p a m Hl|p a pid name Hl|p a Hl|p Hn Hc].
  - by apply send_all_inv.
  - apply send_all_inv. by apply registered_inv.
  - by apply unregistered_inv.
  - by apply renamed_inv.
  - by apply closed_inv.
  - by apply accepted_inv.
Qed.

(** Agents keep their ids, a closed one stays closed and gets nothing. *)
Record grows (s s' : DpAgentManager) : Prop := {
  g_agents : ∀ p a, objects s !! p = Some a → ∃ a', objects s' !! p = Some a' ∧ agent_id_ a' = agent_id_ a ∧
    (packet_socket_ a = false → packet_socket_ a' = false);
  g_out : ∃ out, outbox s' = outbox s ++ out ∧
    ∀ p a, objects s !! p = Some a → packet_socket_ a = false → p ∉ out.*1 }.

Lemma grows_refl s : grows s s.
Proof. split; [by eauto|]. exists []. split; [by rewrite app_nil_r|]. intros p a _ _. apply not_elem_of_nil. Qed.
Lemma grows_trans s1 s2 s3 : grows s1 s2 → grows s2 s3 → grows s1 s3.
Proof.
  intros [H1 (o1 & H2 & H3)] [G1 (o2 & G2 & G3)]. split.
  - intros p a Ha. destruct (H1 p a Ha) as (a' & Ha' & Hid & Hc). destruct (G1 p a' Ha') as (a2 & Ha2 & Hid2 & Hc2).
    exists a2. split_and!; [done|congruence|auto].
  - exists (o1 ++ o2). split; [by rewrite G2, H2, app_assoc|]. intros p a Ha Hc.
    rewrite fmap_app, not_elem_of_app. split; [by eapply H3|]. destruct (H1 p a Ha) as (a' & Ha' & _ & Hc'). eapply G3; eauto.
Qed.

Lemma to_live_not s out p a : to_live s out → objects s !! p = Some a → packet_socket_ a = false → p ∉ out.*1.
Proof.
  intros Hl Ha Hc (e & -> & He)%list_elem_of_fmap. eapply Forall_forall in Hl as (b & Hb & Hob); [|exact He].
  simplify_eq. congruence.
Qed.

Lemma grows_update s s' p a a' :
  live s p a → objects s' = <[p := a']> (objects s) → agent_id_ a' = agent_id_ a → outbox s' = outbox s → grows s s'.
Proof.
  intros [Ha Ho] He Hid Hout. split.
  - intros q b Hb. rewrite He. destruct (decide (q = p)) as [->|Hne].
    + simplify_eq. rewrite lookup_insert_eq. exists a'. split_and!; [done|done|congruence].
    + rewrite lookup_insert_ne by done. eauto.
  - exists []. rewrite app_nil_r. split; [done|]. intros q b _ _. apply not_elem_of_nil.
Qed.

Lemma grows_send s s' out : grows s s' → to_live s out → grows s (send_all out s').
Proof.
  intros [H1 (o & H2 & H3)] Hl. split; [done|]. exists (o ++ out). cbn [outbox send_all].
  rewrite H2, app_assoc. split; [done|]. intros p a Ha Hc. rewrite fmap_app, not_elem_of_app.
  split; [by eapply H3|by eapply to_live_not].
Qed.

Lemma effect_grows s s' : effect s s' → grows s s'.
Proof.
  intros [out Ho|p a m t out Hl Ht Ha Ho|p a m Hl|p a pid name Hl|p a Hl|p Hn Hc].
  - apply grows_send; [apply grows_refl|done].
  - apply grows_send; [|done]. by eapply grows_update.
  - by eapply grows_update.
  - by eapply grows_update.
  - by eapply grows_update.
  - split.
    + intros q b Hb. cbn [objects accepted]. rewrite lookup_insert_ne by congruence. eauto.
    + exists []. split; [by rewrite app_nil_r|]. intros q b _ _. apply not_elem_of_nil.
Qed.

