(* ===== verification/DpRouting.v ===== *)
(** * Routing in the DP server

    What the handlers of DpBroker.v do, and what the server promises: the
    invariant of its maps, a broadcast to every listener, a request to the one
    that serves it, and the way back of the reply. *)

From S2P Require Import Prelude Crc16 Serialize MemBuffer PacketFrames DpMessage DpBroker.
#[local] Open Scope Z_scope.
Abbreviation method := (list Z).

(** ** Outcomes *)
(** Every handler has one of these effects, or reads past its packet. *)
Definition outcome {A} (s : DpAgentManager) (r : res (A * DpAgentManager)) : Prop :=
  match r with Ok (_, s') => effect s s' | Ub u => u = UB_OutOfBounds end.

Lemma read_body_ub b off n u : read_body b off n = Ub u → u = UB_OutOfBounds.
Proof. unfold read_body. destruct (_ <=? _); [done|by intros [= <-]]. Qed.
Lemma passed_ub h u : passed_data h = Ub u → u = UB_OutOfBounds.
Proof. unfold passed_data. destruct (_ <? _); [apply read_body_ub|done]. Qed.

Lemma SendMessage_any s p a mid type m data sid r :
  objects s !! p = Some a → packet_socket_ a = true → (∀ u, data = Ub u → u = UB_OutOfBounds) →
  (∃ pk, SendMessage p mid type m data sid r s = Ok (true, send_all [(p, pk)] s)) ∨
  SendMessage p mid type m data sid r s = Ub UB_OutOfBounds.
Proof.
  intros Ha Ho Hu. destruct data as [d|u].
  - left. rewrite (SendMessage_spec _ _ _ _ _ _ _ _ _ Ha Ho). by eexists.
  - right. rewrite (Hu u eq_refl). unfold SendMessage. rewrite run_bind, (run_agent _ _ _ Ha). cbn beta iota. by rewrite Ho.
Qed.

Lemma with_method {A} h (k : method → DP A) (P : res (A * DpAgentManager) → Prop) s :
  P (Ub UB_OutOfBounds) → (∀ m, method_of h = Ok m → P (k m s)) → P ((lift (method_of h) ≫= k) s).
Proof.
  intros HU Hk. rewrite run_bind. unfold lift. destruct (method_of h) as [m|u] eqn:E; [by apply Hk|].
  by rewrite (read_body_ub _ _ _ _ E).
Qed.

Lemma to_live_one s p a pk : live s p a → to_live s [(p, pk)].
Proof. intros Ha. constructor; [by exists a|done]. Qed.

Lemma process_loop_any s src b l : ∀ out h num reg,
  live s src b → (∀ p, p ∈ l → ∃ a, live s p a) → to_live s out →
  match process_loop l src h num reg (send_all out s) with
  | Ok (_, s') => ∃ out', s' = send_all out' s ∧ to_live s out'
  | Ub u => u = UB_OutOfBounds
  end.
Proof.
  induction l as [|p l IH]; intros out h num reg Hb Hl Ho; cbn [process_loop].
  { rewrite run_ret. by exists out. }
  destruct (Hl p ltac:(by left)) as [a Ha].
  assert (∀ q, q ∈ l → ∃ a, live s q a) as Hl' by (intros q Hq; apply Hl; by right).
  case_decide; [by apply IH|]. rewrite run_bind, (run_agent (send_all out s) p a) by apply Ha. cbn beta iota.
  destruct (remote_pid_ a =? process_id h); [by apply IH|]. rewrite run_bind. unfold HandleDpMessage.
  rewrite run_bind. unfold lift at 1. destruct (method_of h) as [m|u] eqn:Em; [|by rewrite (read_body_ub _ _ _ _ Em)].
  rewrite run_bind, (run_agent (send_all out s) p a) by apply Ha. cbn beta iota.
  destruct (method_map_ a !! m) as [t|].
  2: { rewrite run_ret. cbn beta iota. change (TYPE_INVALID =? TYPE_MESSAGE) with false.
    change (TYPE_INVALID =? TYPE_REQUEST) with false. cbn iota. by apply IH. }
  rewrite run_bind, (run_agent (send_all out s) src b) by apply Hb. cbn beta iota. rewrite run_bind.
  set (h1 := if TYPE_REQUEST =? u8 t then _ else h).
  destruct (SendMessage_any (send_all out s) p a (message_id h1) (u8 t) m (passed_data h1) (session_id h1) 0
    (proj1 Ha) (proj2 Ha) (passed_ub h1)) as [[pk ->]| ->]; [|done]. cbn beta iota. rewrite run_ret, send_all_app. cbn beta iota.
  assert (to_live s (out ++ [(p, pk)])) as Ho' by (apply Forall_app; split; [done|by eapply to_live_one]).
  destruct (u8 t =? TYPE_MESSAGE); [by apply IH|]. destruct (u8 t =? TYPE_REQUEST); [|by apply IH]. rewrite run_ret. by eexists.
Qed.

Lemma OnRequestMessage_any s p a h : BInv s → live s p a → outcome s (OnRequestMessage p h s).
Proof.
  intros Hi Ha. unfold OnRequestMessage. apply with_method; [done|]. intros m Hm.
  assert (match ProcessDpMessage p h s with
    | Ok (_, s') => ∃ out', s' = send_all out' s ∧ to_live s out' | Ub u => u = UB_OutOfBounds end) as Hp.
  { unfold ProcessDpMessage. rewrite Hm. rewrite run_bind. cbn [lift]. rewrite run_bind, run_get. cbn beta iota.
    destruct (listeners_some s m) as [E|[E _]]; rewrite E.
    - pose proof (process_loop_any s p a (listeners s m) [] h 0 TYPE_INVALID Ha) as Hp. rewrite send_all_nil in Hp.
      apply Hp; [|constructor]. intros q Hq. by eapply listeners_live.
    - rewrite run_ret. exists []. rewrite send_all_nil. split; [done|constructor]. }
  rewrite run_bind. destruct (ProcessDpMessage p h s) as [[[[num ty] h'] s']|u]; [|exact Hp].
  destruct Hp as (out & -> & Ho). unfold when. destruct (_ || _); [|by rewrite run_ret; apply E_send].
  rewrite run_bind. destruct (SendMessage_any (send_all out s) p a (message_id h') TYPE_REPLY m (Ok []) (session_id h') num
    (proj1 Ha) (proj2 Ha) ltac:(done)) as [[pk ->]| ->]; [|done]. cbn beta iota. rewrite run_ret, send_all_app.
  apply E_send, Forall_app. split; [done|by eapply to_live_one].
Qed.

Lemma OnReplayMessage_any s h : BInv s → outcome s (OnReplayMessage h s).
Proof.
  intros Hi. unfold OnReplayMessage, GetAgent. rewrite run_bind, run_gets. cbn beta iota.
  apply with_method; [done|]. intros m Hm. destruct (dp_agents_ s !! _) as [p|] eqn:E.
  - destruct (b_ids _ Hi _ _ E) as (a & Ha & _). rewrite run_bind.
    destruct (SendMessage_any s p a (Z.land (message_id h) 65535) TYPE_REPLY m (passed_data h) (session_id h) 1
      (proj1 Ha) (proj2 Ha) (passed_ub h)) as [[pk ->]| ->]; [|done]. cbn beta iota. rewrite run_ret.
    apply E_send. by eapply to_live_one.
  - rewrite run_ret. cbn [outcome]. pose proof (E_send s []) as He. rewrite send_all_nil in He. apply He. constructor.
Qed.

Lemma existsb_ext {A} (f g : A → bool) l : (∀ x, f x = g x) → existsb f l = existsb g l.
Proof. intros H. induction l as [|x l IH]; [done|]. cbn [existsb]. by rewrite H, IH. Qed.

(** Registering, on every branch: [b] says whether it is granted. *)
Lemma OnListenMessage_spec s p a h m : BInv s → live s p a → method_of h = Ok m →
  let t := listen_type h in
  let reply r := [(p, dp_packet TYPE_ADD_MESSAGE 0 0 (message_id h) (session_id h) r m [])] in
  ∃ b : bool, (b = true ↔ m ≠ [] ∧ (t = TYPE_MESSAGE ∨ t = TYPE_REQUEST) ∧
                 ∀ q c, live s q c → agent_accepts m t c = true) ∧
    OnListenMessage p h s = Ok (tt,
      if b then send_all (reply TYPE_SUCCEED) (registered p m t a s) else send_all (reply TYPE_FAILURE) s).
Proof.
  intros Hi Ha Hm t reply. unfold OnListenMessage. rewrite Hm, run_bind. cbn [lift]. fold t. rewrite run_bind.
  destruct ((zlen m =? 0) || (negb (t =? TYPE_MESSAGE) && negb (t =? TYPE_REQUEST))) eqn:Ev.
  { exists false. split.
    - split; [done|]. intros (Hm0 & Ht & _). assert (zlen m =? 0 = false) as E0.
      { apply Z.eqb_neq. by intros ->%zlen_0. }
      rewrite E0 in Ev. destruct Ht as [-> | ->]; done.
    - rewrite run_ret. cbn beta iota. rewrite run_bind.
      by rewrite (SendMessage_spec _ _ _ _ _ _ _ _ _ (proj1 Ha) (proj2 Ha)). }
  apply orb_false_iff in Ev as [Em%Z.eqb_neq Et%andb_false_iff].
  assert (m ≠ []) as Hm0 by (by intros ->). 
  assert (t = TYPE_MESSAGE ∨ t = TYPE_REQUEST) as Ht.
  { destruct Et as [E|E]; apply negb_false_iff, Z.eqb_eq in E; [by left|by right]. }
  rewrite run_bind. destruct (CheckMessage_spec s m t Hi) as (b & -> & Hb). cbn beta iota.
  exists b. split; [by rewrite Hb; naive_solver|]. destruct b; cbn [negb].
  2: { rewrite run_ret. cbn beta iota. rewrite run_bind.
    by rewrite (SendMessage_spec _ _ _ _ _ _ _ _ _ (proj1 Ha) (proj2 Ha)). }
  rewrite run_bind, (run_update _ _ a) by apply Ha. cbn beta iota.
  set (s1 := set_objects _ s). assert (objects s1 !! p = Some (set_map (insert m t) a)) as Ha1 by apply lookup_insert_eq.
  rewrite run_bind, (run_agent _ _ _ Ha1). cbn beta iota. rewrite run_bind. unfold AddAgentBindMethod.
  rewrite run_bind, run_get. cbn beta iota. cbn [dp_agents_ set_objects s1].
  change (agent_id_ (set_map (insert m t) a)) with (agent_id_ a). rewrite (b_live _ Hi _ _ Ha).
  assert (existsb (has_id s1 (agent_id_ a)) (default [] (method_agents_ s1 !! m)) = bool_decide (p ∈ listeners s m)) as ->.
  { change (default [] (method_agents_ s1 !! m)) with (listeners s m). rewrite <-(listener_has_id s m p a Hi Ha).
    apply existsb_ext. intros q. unfold has_id, s1. cbn [objects set_objects]. destruct (decide (q = p)) as [->|Hne].
    - by rewrite lookup_insert_eq, (proj1 Ha).
    - by rewrite lookup_insert_ne. }
  rewrite run_bind, run_modify. cbn beta iota. rewrite run_ret. cbn beta iota. rewrite run_ret. cbn beta iota.
  rewrite run_bind. erewrite SendMessage_spec; [|exact Ha1|exact (proj2 Ha)]. done.
Qed.

Lemma OnListenMessage_any s p a h : BInv s → live s p a → outcome s (OnListenMessage p h s).
Proof.
  intros Hi Ha. destruct (method_of h) as [m|u] eqn:Hm.
  2: { unfold OnListenMessage. rewrite run_bind, Hm. cbn [lift outcome]. by apply (read_body_ub _ _ _ _ Hm). }
  destruct (OnListenMessage_spec s p a h m Hi Ha Hm) as (b & Hb & ->). cbn [outcome].
  assert (∀ r, to_live s [(p, dp_packet TYPE_ADD_MESSAGE 0 0 (message_id h) (session_id h) r m [])]) as Hl.
  { intros r. by eapply to_live_one. }
  destruct b; [|by apply E_send]. destruct (proj1 Hb eq_refl) as (_ & Ht & Hacc). by apply E_register.
Qed.

Lemma OnRemoveMessage_spec s p a h m : BInv s → live s p a → method_of h = Ok m →
  OnRemoveMessage p h s = Ok (tt, unregistered p m a s).
Proof.
  intros Hi Ha Hm. unfold OnRemoveMessage. rewrite Hm, run_bind. cbn [lift]. rewrite run_bind, (run_agent _ _ _ (proj1 Ha)).
  cbn beta iota. rewrite run_bind. unfold RemoveAgentBindMethod. rewrite run_bind, run_get. cbn beta iota.
  rewrite (b_live _ Hi _ _ Ha), run_bind, run_modify. cbn beta iota. rewrite run_ret. cbn beta iota.
  rewrite (run_update _ p a) by apply Ha. done.
Qed.

Lemma OnSetClientName_spec s p a h : live s p a → 0 < method_size h →
  OnSetClientName p h s =
    match read_body (body h) 0 (Z.min 32 (method_size h)) with
    | Ok name => Ok (tt, renamed p (process_id h) name a s)
    | Ub u => Ub u
    end.
Proof.
  intros Ha Hp. unfold OnSetClientName, when. rewrite (proj2 (Z.ltb_lt 0 _) Hp), run_bind.
  replace (if 32 <? method_size h then 32 else method_size h) with (Z.min 32 (method_size h))
    by (destruct (Z.ltb_spec 32 (method_size h)); lia).
  destruct (read_body _ _ _); [|done]. cbn [lift]. by rewrite (run_update _ p a) by apply Ha.
Qed.

Lemma OnSocketErrorEvent_spec s p a : BInv s → live s p a → OnSocketErrorEvent p s = Ok (tt, closed p a s).
Proof.
  intros Hi Ha. unfold OnSocketErrorEvent, agent_close. rewrite run_bind, (run_update _ p a) by apply Ha. cbn beta iota.
  fold (shut_down a). set (s1 := set_objects _ s). rewrite run_bind, (run_agent s1 p (shut_down a)) by apply lookup_insert_eq.
  cbn beta iota. change (agent_id_ (shut_down a)) with (agent_id_ a). unfold RemoveAgent.
  pose proof (b_live _ Hi _ _ Ha) as Hid. pose proof (b_num _ Hi _ _ Hid). rewrite (proj2 (Z.leb_gt _ _)) by lia.
  rewrite run_bind, run_get. cbn beta iota. cbn [dp_agents_ s1 set_objects]. by rewrite Hid.
Qed.

Lemma OnListenerAcceptEvent_spec s p : BInv s → objects s !! p = None → agent_num_ s + 1 < 2 ^ 32 →
  OnListenerAcceptEvent p s = Ok (tt, accepted p s).
Proof.
  intros Hi Hn Hc. unfold OnListenerAcceptEvent. rewrite run_bind, run_modify. cbn beta iota.
  set (s1 := set_objects _ s). rewrite run_bind. unfold AddDpAgent. rewrite run_bind, run_get. cbn beta iota.
  rewrite bool_decide_false.
  2: { cbn [s1 dp_agents_ set_objects]. intros ([id q] & -> & Hq%elem_of_map_to_list)%list_elem_of_fmap.
    destruct (b_ids _ Hi _ _ Hq) as (a & [Ha _] & _). cbn in Hn, Ha. congruence. }
  pose proof (b_count _ Hi). cbn [s1 agent_num_ set_objects]. rewrite (uwrap_id 32 (agent_num_ s + 1)) by (unfold in_u; lia).
  rewrite run_bind, run_modify. cbn beta iota. rewrite run_ret. cbn beta iota.
  rewrite (run_update _ p new_agent) by apply lookup_insert_eq. unfold set_objects, accepted. cbn.
  by rewrite insert_insert_eq.
Qed.

Lemma bstep_outcome s l : BInv s → blabel_ok s l → outcome s (bstep l s).
Proof.
  intros Hi. destruct l as [p|p packet|p]; cbn [blabel_ok bstep].
  - intros [Hn Hc]. rewrite OnListenerAcceptEvent_spec by done. by apply E_accept.
  - intros [a Ha]. unfold OnSocketReadComplete. 
    assert (outcome s ((mret tt : DP unit) s)) as Hnop.
    { cbn [outcome]. pose proof (E_send s []) as He. rewrite send_all_nil in He. apply He. constructor. }
    repeat case_match; try done.
    + by eapply OnRequestMessage_any.
    + by apply OnReplayMessage_any.
    + by eapply OnListenMessage_any.
    + destruct (method_of (as_header packet)) as [m|u] eqn:Hm.
      * rewrite (OnRemoveMessage_spec s p a _ m) by done. by apply E_unregister.
      * unfold OnRemoveMessage. rewrite run_bind, Hm. cbn. by apply (read_body_ub _ _ _ _ Hm).
    + destruct (Z.ltb_spec 0 (method_size (as_header packet))) as [Hp|Hp].
      * rewrite (OnSetClientName_spec s p a) by done. destruct (read_body _ _ _) eqn:E.
        -- by apply E_rename.
        -- by apply (read_body_ub _ _ _ _ E).
      * unfold OnSetClientName. by rewrite (proj2 (Z.ltb_ge 0 _) Hp).
  - intros [a Ha]. rewrite (OnSocketErrorEvent_spec s p a) by done. by apply E_close.
Qed.

Lemma bstep_effect s l s' : BInv s → blabel_ok s l → bstep l s = Ok (tt, s') → effect s s'.
Proof. intros Hi Hl Hr. pose proof (bstep_outcome s l Hi Hl) as Ho. by rewrite Hr in Ho. Qed.

Lemma bsteps_inv s s' : bsteps s s' → BInv s → BInv s'.
Proof.
  induction 1 as [s|s l s1 s2 Hl Hr _ IH]; [done|]. intros Hi. by eapply IH, effect_inv, bstep_effect.
Qed.
Lemma bsteps_grows s s' : bsteps s s' → BInv s → grows s s'.
Proof.
  induction 1 as [s|s l s1 s2 Hl Hr _ IH]; intros Hi; [apply grows_refl|].
  assert (effect s s1) as He by by eapply bstep_effect. 
  eapply grows_trans; [by apply effect_grows|]. by eapply IH, effect_inv.
Qed.

(** ** Ids are never used twice *)
Record IdsOk (s : DpAgentManager) : Prop := {
  i_range : ∀ p a, objects s !! p = Some a → 0 < agent_id_ a ≤ agent_num_ s;
  i_inj : ∀ p q a b, objects s !! p = Some a → objects s !! q = Some b → agent_id_ a = agent_id_ b → p = q }.

Lemma ids_update s s' p a a' : IdsOk s → objects s !! p = Some a → agent_id_ a' = agent_id_ a →
  objects s' = <[p := a']> (objects s) → agent_num_ s' = agent_num_ s → IdsOk s'.
Proof.
  intros [H1 H2] Ha Hid Ho Hn.
  assert (∀ q b, objects s' !! q = Some b → ∃ b0, objects s !! q = Some b0 ∧ agent_id_ b0 = agent_id_ b) as Hback.
  { intros q b. rewrite Ho. intros [[<- <-]|[_ Hb]]%lookup_insert_Some; by eauto. }
  split.
  - intros q b (b0 & Hb0 & <-)%Hback. rewrite Hn. by eapply H1.
  - intros q r b c (b0 & Hb0 & <-)%Hback (c0 & Hc0 & <-)%Hback. by eapply H2.
Qed.

Lemma effect_ids s s' : BInv s → IdsOk s → effect s s' → IdsOk s'.
Proof.
  intros Hi Hk [out Ho|p a m t out Hl Ht Ha Ho|p a m Hl|p a pid name Hl|p a Hl|p Hn Hc].
  - by destruct Hk.
  - eapply (ids_update s _ p a); [done|apply Hl| |done|done]. done.
  - eapply (ids_update s _ p a); [done|apply Hl| |done|done]. done.
  - eapply (ids_update s _ p a); [done|apply Hl| |done|done]. done.
  - eapply (ids_update s _ p a); [done|apply Hl| |done|done]. done.
  - destruct Hk as [H1 H2]. pose proof (b_count _ Hi). split; cbn [objects agent_num_ accepted].
    + intros q b [[<- <-]|[_ Hb]]%lookup_insert_Some; [simpl; lia|]. pose proof (H1 q b Hb). lia.
    + intros q r b c [[<- <-]|[_ Hb]]%lookup_insert_Some [[<- <-]|[_ Hb']]%lookup_insert_Some; simpl; try done.
      * pose proof (H1 _ _ Hb'). lia.
      * pose proof (H1 _ _ Hb). lia.
      * by apply (H2 q r b c).
Qed.

Lemma start_ids : IdsOk start_server.
Proof.
  split.
  - intros p a Ha. by destruct (lookup_empty_Some (M:=gmap nat) p a).
  - intros p q a b Ha. by destruct (lookup_empty_Some (M:=gmap nat) p a).
Qed.

Lemma bsteps_ids s s' : bsteps s s' → BInv s → IdsOk s → IdsOk s'.
Proof.
  induction 1 as [s|s l s1 s2 Hl Hr _ IH]; intros Hi Hk; [done|].
  assert (effect s s1) as He by by eapply bstep_effect.
  apply IH; [by eapply effect_inv|by eapply effect_ids].
Qed.

(** ** A message that comes in *)
Lemma packet_dispatch s p type lt pid mid sid r m d :
  msg_ok pid mid sid r m d → m ≠ [] →
  let h := as_header (dp_packet type lt pid mid sid r m d) in
  bstep (Packet p (dp_packet type lt pid mid sid r m d)) s =
    (if type =? TYPE_MESSAGE then OnRequestMessage p h
     else if type =? TYPE_REPLY then OnReplayMessage h
     else if type =? TYPE_ADD_MESSAGE then OnListenMessage p h
     else if type =? TYPE_REMOVE_MESSAGE then OnRemoveMessage p h
     else if type =? TYPE_SET_NAME then OnSetClientName p h
     else mret tt) s.
Proof.
  intros Hok Hm h. cbn [bstep]. unfold OnSocketReadComplete. rewrite dp_packet_length. unfold sizeof_DpNetMsgHeader.
  pose proof (zlen_nonneg d). assert (0 < zlen m).
  { pose proof (zlen_nonneg m). assert (zlen m ≠ 0) by (by intros ?%zlen_0). lia. }
  rewrite (proj2 (Z.leb_gt _ _)) by lia. fold h.
  destruct (as_header_packet type lt pid mid sid r m d Hok) as (Hty & _). fold h in Hty. by rewrite Hty.
Qed.

Lemma recipients_in s m src pid q : BInv s →
  q ∈ recipients s m src pid ↔
  q ≠ src ∧ ∃ a, live s q a ∧ is_Some (method_map_ a !! m) ∧ remote_pid_ a ≠ pid.
Proof.
  intros Hi. unfold recipients. rewrite list_elem_of_filter, (b_bind _ Hi). unfold pid_of. split.
  - intros ([Hne Hp] & a & Ha & Hm). split; [done|]. exists a. rewrite (proj1 Ha) in Hp. done.
  - intros (Hne & a & Ha & Hm & Hp). split; [|by exists a]. split; [done|]. by rewrite (proj1 Ha).
Qed.

Definition forwarded (m d : list Z) (type mid sid : Z) (to : list nat) : list (nat * list Z) :=
  (λ q, (q, dp_packet type 0 0 mid sid 0 m d)) <$> to.

Lemma OnRequestMessage_broadcast s p b h m d : BInv s → live s p b →
  method_of h = Ok m → passed_data h = Ok d → d_type h = TYPE_MESSAGE →
  (∀ q a, live s q a → method_map_ a !! m ≠ Some TYPE_REQUEST) →
  let to := recipients s m p (process_id h) in
  OnRequestMessage p h s = Ok (tt, send_all (forwarded m d TYPE_MESSAGE (message_id h) (session_id h) to ++
    [(p, dp_packet TYPE_REPLY 0 0 (message_id h) (session_id h) (zlen to) m [])]) s).
Proof.
  intros Hi Hb Hm Hd Hty Hnr to. unfold OnRequestMessage. rewrite Hm, run_bind. cbn [lift].
  assert (ProcessDpMessage p h s = Ok ((zlen to, (if zlen to =? 0 then TYPE_INVALID else TYPE_MESSAGE), h),
    send_all (forwarded m d TYPE_MESSAGE (message_id h) (session_id h) to) s)) as Hp.
  { unfold ProcessDpMessage. rewrite Hm, run_bind. cbn [lift]. rewrite run_bind, run_get. cbn beta iota.
    destruct (listeners_some s m) as [E|[E El]]; rewrite E.
    - pose proof (process_loop_message s p b h m d (listeners s m) [] 0 TYPE_INVALID Hb Hm Hd Hty) as Hp.
      rewrite send_all_nil in Hp. apply Hp. intros q (a & Ha & [t Ht])%(b_bind _ Hi). exists a. split; [done|].
      rewrite Ht. f_equal. destruct (b_type _ Hi _ _ _ _ Ha Ht) as [E2|E2]; rewrite ?E2 in *; [done|]. by destruct (Hnr q a).
    - unfold to, recipients. rewrite El, run_ret. cbn. by rewrite send_all_nil. }
  rewrite run_bind, Hp. cbn beta iota.
  assert ((zlen to =? 0) || ((if zlen to =? 0 then TYPE_INVALID else TYPE_MESSAGE) =? TYPE_MESSAGE) = true) as ->
    by by destruct (zlen to =? 0).
  cbn [when]. rewrite run_bind, (SendMessage_spec (send_all _ s) p b) by apply Hb. cbn beta iota.
  by rewrite run_ret, add_out_send, send_all_app.
Qed.

Lemma OnRequestMessage_request s p b q a h m d : BInv s → live s p b → live s q a →
  method_of h = Ok m → passed_data h = Ok d → method_map_ a !! m = Some TYPE_REQUEST →
  OnRequestMessage p h s = Ok (tt,
    if decide (q ≠ p ∧ remote_pid_ a ≠ process_id h)
    then send_all [(q, dp_packet TYPE_REQUEST 0 0 (attach_id (agent_id_ b) (message_id h)) (session_id h) 0 m d)] s
    else send_all [(p, dp_packet TYPE_REPLY 0 0 (message_id h) (session_id h) 0 m [])] s).
Proof.
  intros Hi Hb Ha Hm Hd Hq. unfold OnRequestMessage. rewrite Hm, run_bind. cbn [lift].
  assert (listeners s m = [q]) as Hls.
  { assert (∀ r, r ∈ listeners s m ↔ r = q) as Hin.
    { intros r. rewrite (b_bind _ Hi). split.
      - intros (c & Hc & [t Ht]). symmetry. by apply (b_agree _ Hi q r a c m TYPE_REQUEST t).
      - intros ->. exists a. split; [done|by eexists]. }
    pose proof (b_nodup _ Hi m) as Hnd. destruct (listeners s m) as [|x [|y l]].
    - by destruct (proj1 (elem_of_nil q) (proj2 (Hin q) eq_refl)).
    - f_equal. apply Hin. by left.
    - assert (x = q) as -> by (apply Hin; by left). assert (y = q) as -> by (apply Hin; right; by left).
      apply NoDup_cons in Hnd as [[]%not_elem_of_cons _]. done. }
  assert (method_agents_ s !! m = Some [q]) as E.
  { destruct (listeners_some s m) as [E|[_ E]]; [by rewrite E, Hls|congruence]. }
  rewrite run_bind. unfold ProcessDpMessage. rewrite Hm, run_bind. cbn [lift]. rewrite run_bind, run_get. cbn beta iota.
  rewrite E. cbn [process_loop].
  assert (when ((0 =? 0) || (TYPE_INVALID =? TYPE_MESSAGE))
     (_ ← SendMessage p (message_id h) TYPE_REPLY m (Ok []) (session_id h) 0; mret tt) s =
     Ok (tt, send_all [(p, dp_packet TYPE_REPLY 0 0 (message_id h) (session_id h) 0 m [])] s)) as Hrep.
  { change ((0 =? 0) || (TYPE_INVALID =? TYPE_MESSAGE)) with true. cbn [when]. by rewrite run_bind, (SendMessage_spec s p b) by apply Hb. }
  destruct (decide (q = p)) as [->|Hne].
  { rewrite decide_False by naive_solver. rewrite run_ret. cbn beta iota. exact Hrep. }
  rewrite run_bind, (run_agent s q a) by apply Ha. cbn beta iota.
  destruct (Z.eqb_spec (remote_pid_ a) (process_id h)) as [He|Hpn].
  { rewrite decide_False by naive_solver. rewrite run_ret. cbn beta iota. exact Hrep. }
  rewrite decide_True by done. rewrite run_bind.
  rewrite (HandleDpMessage_spec s q a p b h m d TYPE_REQUEST) by (done || by right).
  change (TYPE_REQUEST =? TYPE_REQUEST) with true. cbn beta iota zeta.
  change (TYPE_REQUEST =? TYPE_MESSAGE) with false. change (TYPE_REQUEST =? TYPE_REQUEST) with true. cbn beta iota.
  by rewrite run_ret.
Qed.

(** *** The way back of a reply *)
Definition routed_id (agent_id : Z) : Z := agent_id mod 2 ^ 16.

Lemma attach_id_split i mid : 0 ≤ mid →
  attach_id i mid = routed_id i * 2 ^ 16 + mid mod 2 ^ 16.
Proof.
  intros Hm. unfold attach_id, routed_id. change 65535 with (Z.ones 16). rewrite Z.land_ones by lia.
  change (u16 i) with (i mod 2 ^ 16). rewrite Z.shiftl_mul_pow2 by lia.
  pose proof (Z.mod_pos_bound i (2 ^ 16) ltac:(lia)). pose proof (Z.mod_pos_bound mid (2 ^ 16) ltac:(lia)).
  pose proof (Z.add_lor_land (i mod 2 ^ 16 * 2 ^ 16) (mid mod 2 ^ 16)) as Hadd.
  assert (Z.land (i mod 2 ^ 16 * 2 ^ 16) (mid mod 2 ^ 16) = 0) as E.
  { apply Z.bits_inj'. intros n Hn. rewrite Z.land_spec, Z.bits_0, Z.mul_pow2_bits by lia.
    destruct (Z.ltb_spec n 16); [by rewrite Z.testbit_neg_r by lia|].
    rewrite (Z.mod_pow2_bits_high mid 16) by lia. by rewrite andb_false_r. }
  rewrite uwrap_id; [lia|]. unfold in_u. lia.
Qed.

Lemma attach_id_parts i mid : 0 ≤ mid →
  Z.land (attach_id i mid) 65535 = mid mod 2 ^ 16 ∧
  Z.shiftr (Z.land (attach_id i mid) 4294901760) 16 = routed_id i.
Proof.
  intros Hm. rewrite attach_id_split by done. unfold routed_id.
  pose proof (Z.mod_pos_bound i (2 ^ 16) ltac:(lia)). pose proof (Z.mod_pos_bound mid (2 ^ 16) ltac:(lia)).
  set (x := i mod 2 ^ 16) in *. set (y := mid mod 2 ^ 16) in *. split.
  - change 65535 with (Z.ones 16). rewrite Z.land_ones by lia. rewrite Z.add_comm, Z.mod_add by lia. by apply Z.mod_small.
  - change 4294901760 with (Z.shiftl (Z.ones 16) 16). rewrite Z.shiftr_land.
    change (Z.shiftr (Z.shiftl (Z.ones 16) 16) 16) with (Z.ones 16). rewrite Z.land_ones by lia.
    rewrite Z.shiftr_div_pow2 by lia. rewrite Z.div_add_l by lia. rewrite (Z.div_small y) by lia.
    rewrite Z.add_0_r. by apply Z.mod_small.
Qed.

Lemma OnReplayMessage_routed s h m d i mid : BInv s →
  method_of h = Ok m → passed_data h = Ok d → 0 ≤ mid → message_id h = attach_id i mid →
  OnReplayMessage h s = Ok (tt,
    match dp_agents_ s !! routed_id i with
    | Some p => send_all [(p, dp_packet TYPE_REPLY 0 0 (mid mod 2 ^ 16) (session_id h) 1 m d)] s
    | None => s
    end).
Proof.
  intros Hi Hm Hd Hmid Hid. destruct (attach_id_parts i mid Hmid) as [E1 E2].
  unfold OnReplayMessage, GetAgent. rewrite Hid, E1, E2, run_bind, run_gets. cbn beta iota.
  rewrite run_bind, Hm. cbn [lift]. destruct (dp_agents_ s !! routed_id i) as [p|] eqn:E; [|by rewrite run_ret].
  destruct (b_ids _ Hi _ _ E) as (a & Ha & _). rewrite run_bind, Hd, (SendMessage_spec s p a) by apply Ha. done.
Qed.

(** ** Properties *)
Lemma reach_inv s : bsteps start_server s → BInv s ∧ IdsOk s.
Proof.
  intros Hs. split; [by eapply bsteps_inv, start_inv|]. eapply bsteps_ids; [done|apply start_inv|apply start_ids].
Qed.

Definition is_open (s : DpAgentManager) (p : nat) : bool :=
  match objects s !! p with Some a => packet_socket_ a | None => false end.
Lemma is_open_live s p : is_open s p = true ↔ ∃ a, live s p a.
Proof. unfold is_open, live. destruct (objects s !! p); naive_solver. Qed.

(** An id leads to its agent while that is open, and to nobody afterwards. *)
Lemma id_lookup s p a : BInv s → IdsOk s → objects s !! p = Some a →
  dp_agents_ s !! agent_id_ a = if packet_socket_ a then Some p else None.
Proof.
  intros Hi Hk Ha. destruct (packet_socket_ a) eqn:Ho; [by apply (b_live _ Hi)|].
  destruct (dp_agents_ s !! agent_id_ a) as [q|] eqn:E; [|done].
  destruct (b_ids _ Hi _ _ E) as (c & [Hc Hoc] & Hid). assert (q = p) as -> by (by eapply (i_inj _ Hk q p c a)).
  congruence.
Qed.

(** Running a list of events, each checked to be possible. *)
Definition label_okb (s : DpAgentManager) (l : blabel) : bool :=
  match l with
  | Accept p => bool_decide (objects s !! p = None) && (agent_num_ s + 1 <? 2 ^ 32)
  | Packet p _ | SocketError p => is_open s p
  end.
Fixpoint brun (ls : list blabel) (s : DpAgentManager) : option DpAgentManager :=
  match ls with
  | [] => Some s
  | l :: ls =>
      if label_okb s l then match bstep l s with Ok (_, s1) => brun ls s1 | Ub _ => None end else None
  end.
Lemma label_okb_ok s l : label_okb s l = true → blabel_ok s l.
Proof.
  destruct l as [p|p pk|p]; cbn [label_okb blabel_ok]; [|by apply is_open_live|by apply is_open_live].
  intros [H1%bool_decide_eq_true H2%Z.ltb_lt]%andb_true_iff. done.
Qed.
Lemma brun_bsteps ls : ∀ s s', brun ls s = Some s' → bsteps s s'.
Proof.
  induction ls as [|l ls IH]; intros s s'; cbn [brun]; [intros [= ->]; constructor|].
  destruct (label_okb s l) eqn:E; [|done]. destruct (bstep l s) as [[[] s1]|] eqn:Es; [|done].
  intros Hr. eapply bsteps_step; [by apply label_okb_ok|done|by apply IH].
Qed.
Lemma bsteps_trans s1 s2 s3 : bsteps s1 s2 → bsteps s2 s3 → bsteps s1 s3.
Proof. induction 1; [done|]. intros. by eapply bsteps_step; eauto. Qed.

(** C33. In every state the server can reach, the open agents are those in
    dp_agents_ under their ids, the list of a method holds the open agents
    registered for it, once each and all with one type, a request has one
    listener and no id was given twice; and an event then ends with ids kept,
    closed agents closed and sent nothing, unless it reads past its packet. *)
Theorem server_maps_agree s : bsteps start_server s →
  BInv s ∧ IdsOk s ∧
  ∀ l, blabel_ok s l → match bstep l s with Ok (_, s') => grows s s' | Ub u => u = UB_OutOfBounds end.
Proof.
  intros [Hi Hk]%reach_inv. split_and!; [done|done|]. intros l Hl. pose proof (bstep_outcome s l Hi Hl) as Ho.
  destruct (bstep l s) as [[[] s']|u]; [|done]. by apply effect_grows.
Qed.

(** C34. A message nobody registered as a request goes once to every open
    client registered for it, except the sender and the clients of its own
    process; then the sender gets the number of them. *)
Theorem broadcast_delivery s p b lt pid mid sid r m d :
  bsteps start_server s → live s p b → msg_ok pid mid sid r m d → m ≠ [] →
  (∀ q a, live s q a → method_map_ a !! m ≠ Some TYPE_REQUEST) →
  ∃ to, NoDup to ∧
    (∀ q, q ∈ to ↔ q ≠ p ∧ ∃ a, live s q a ∧ method_map_ a !! m = Some TYPE_MESSAGE ∧ remote_pid_ a ≠ pid) ∧
    bstep (Packet p (dp_packet TYPE_MESSAGE lt pid mid sid r m d)) s =
      Ok (tt, send_all (forwarded m d TYPE_MESSAGE mid sid to ++
        [(p, dp_packet TYPE_REPLY 0 0 mid sid (zlen to) m [])]) s).
Proof.
  intros [Hi _]%reach_inv Hb Hok Hm Hnr. exists (recipients s m p pid). split_and!.
  - apply NoDup_filter, b_nodup, Hi.
  - intros q. rewrite recipients_in by done. split; (intros (Hne & a & Ha & Hma & Hp); split; [done|]; exists a; split; [done|]; split; [|done]).
    + destruct Hma as [t Ht]. rewrite Ht. destruct (b_type _ Hi _ _ _ _ Ha Ht) as [E|E]; rewrite E in *; [done|].
      by destruct (Hnr q a).
    + by eexists.
  - rewrite packet_dispatch by done. rewrite Z.eqb_refl.
    destruct (as_header_packet TYPE_MESSAGE lt pid mid sid r m d Hok) as (Hty & _ & Hp & Hmi & Hsi & _).
    destruct (packet_method TYPE_MESSAGE lt pid mid sid r m d Hok) as [Hme Hda].
    rewrite (OnRequestMessage_broadcast s p b _ m d) by done. by rewrite Hmi, Hsi, Hp.
Qed.

Lemma request_and_reply s1 p b q a lt pid mid sid r m d :
  bsteps start_server s1 → live s1 p b → live s1 q a → method_map_ a !! m = Some TYPE_REQUEST →
  q ≠ p → remote_pid_ a ≠ pid → msg_ok pid mid sid r m d → m ≠ [] → mid < 2 ^ 16 → agent_id_ b < 2 ^ 16 →
  let x := attach_id (agent_id_ b) mid in
  let s2 := send_all [(q, dp_packet TYPE_REQUEST 0 0 x sid 0 m d)] s1 in
  bstep (Packet p (dp_packet TYPE_MESSAGE lt pid mid sid r m d)) s1 = Ok (tt, s2) ∧
  ∀ s3 q' lt' pid' sid' r' m' d', bsteps s2 s3 → msg_ok pid' x sid' r' m' d' → m' ≠ [] →
    bstep (Packet q' (dp_packet TYPE_REPLY lt' pid' x sid' r' m' d')) s3 =
      Ok (tt, if is_open s3 p then send_all [(p, dp_packet TYPE_REPLY 0 0 mid sid' 1 m' d')] s3 else s3).
Proof.
  intros [Hi Hk]%reach_inv Hb Ha Hma Hne Hpn Hok Hm Hmid Hid x s2. split.
  - rewrite packet_dispatch by done. rewrite Z.eqb_refl.
    destruct (as_header_packet TYPE_MESSAGE lt pid mid sid r m d Hok) as (_ & _ & Hp & Hmi & Hsi & _).
    destruct (packet_method TYPE_MESSAGE lt pid mid sid r m d Hok) as [Hme Hda].
    rewrite (OnRequestMessage_request s1 p b q a _ m d) by done. rewrite Hp, Hmi, Hsi.
    by rewrite decide_True by done.
  - intros s3 q' lt' pid' sid' r' m' d' Hs Hok' Hm'. pose proof (send_all_inv [(q, dp_packet TYPE_REQUEST 0 0 x sid 0 m d)] s1 Hi) as Hi2.
    assert (IdsOk s2) as Hk2 by (by destruct Hk).
    pose proof (bsteps_inv _ _ Hs Hi2) as Hi3. pose proof (bsteps_ids _ _ Hs Hi2 Hk2) as Hk3.
    destruct (g_agents _ _ (bsteps_grows _ _ Hs Hi2) p b) as (c & Hc & Hcid & _); [apply Hb|].
    rewrite packet_dispatch by done. change (TYPE_REPLY =? TYPE_MESSAGE) with false. rewrite Z.eqb_refl. cbn beta iota.
    destruct (as_header_packet TYPE_REPLY lt' pid' x sid' r' m' d' Hok') as (_ & _ & _ & Hmi & Hsi & _).
    destruct (packet_method TYPE_REPLY lt' pid' x sid' r' m' d' Hok') as [Hme Hda].
    pose proof (mo_mid _ _ _ _ _ _ Hok) as Hmr. unfold in_u in Hmr. pose proof (i_range _ Hk p b (proj1 Hb)).
    rewrite (OnReplayMessage_routed s3 _ m' d' (agent_id_ b) mid) by (done || lia).
    unfold routed_id. rewrite !(Z.mod_small _ (2 ^ 16)) by lia. rewrite <-Hcid, (id_lookup s3 p c) by done.
    rewrite Hsi. unfold is_open. rewrite Hc. by destruct (packet_socket_ c).
Qed.

(** A request goes to its one listener under an id made of the agent and
    the message, with no reply yet; whatever happens next, a reply with that id
    goes to the client that asked, under its own id, while it is connected,
    and to nobody once it is not. *)
Theorem request_reply_roundtrip s1 p b q a lt pid mid sid r m d :
  bsteps start_server s1 → live s1 p b → live s1 q a → method_map_ a !! m = Some TYPE_REQUEST →
  q ≠ p → remote_pid_ a ≠ pid → msg_ok pid mid sid r m d → m ≠ [] → mid < 2 ^ 16 → agent_id_ b < 2 ^ 16 →
  let x := attach_id (agent_id_ b) mid in
  let s2 := send_all [(q, dp_packet TYPE_REQUEST 0 0 x sid 0 m d)] s1 in
  bstep (Packet p (dp_packet TYPE_MESSAGE lt pid mid sid r m d)) s1 = Ok (tt, s2) ∧
  ∀ s3 q' lt' pid' sid' r' m' d', bsteps s2 s3 → msg_ok pid' x sid' r' m' d' → m' ≠ [] →
    bstep (Packet q' (dp_packet TYPE_REPLY lt' pid' x sid' r' m' d')) s3 =
      Ok (tt, if is_open s3 p then send_all [(p, dp_packet TYPE_REPLY 0 0 mid sid' 1 m' d')] s3 else s3).
Proof. apply request_and_reply. Qed.

(** A client gets a message it asks for exactly if the method is not empty,
    the type is one of the two, and every open client that has the method, the
    asking one too, has it as a broadcast and so asks this one; it is told
    which, and nothing else changes when it is refused. *)
Theorem listen_granted_iff s p a t pid mid sid r m d :
  bsteps start_server s → live s p a → msg_ok pid mid sid r m d → m ≠ [] →
  let answer res := [(p, dp_packet TYPE_ADD_MESSAGE 0 0 mid sid res m [])] in
  ∃ b : bool,
    (b = true ↔ (t = TYPE_MESSAGE ∨ t = TYPE_REQUEST) ∧
       ∀ q c u, live s q c → method_map_ c !! m = Some u → u = t ∧ t = TYPE_MESSAGE) ∧
    bstep (Packet p (dp_packet TYPE_ADD_MESSAGE t pid mid sid r m d)) s = Ok (tt,
      if b then send_all (answer TYPE_SUCCEED) (registered p m t a s) else send_all (answer TYPE_FAILURE) s).
Proof.
  intros [Hi _]%reach_inv Ha Hok Hm answer. rewrite packet_dispatch by done.
  change (TYPE_ADD_MESSAGE =? TYPE_MESSAGE) with false. change (TYPE_ADD_MESSAGE =? TYPE_REPLY) with false.
  rewrite Z.eqb_refl. cbn beta iota.
  destruct (as_header_packet TYPE_ADD_MESSAGE t pid mid sid r m d Hok) as (_ & Hlt & _ & Hmi & Hsi & _).
  destruct (packet_method TYPE_ADD_MESSAGE t pid mid sid r m d Hok) as [Hme _].
  destruct (OnListenMessage_spec s p a _ m Hi Ha Hme) as (b & Hb & ->). rewrite Hlt, Hmi, Hsi in *.
  exists b. split; [|done]. rewrite Hb. split.
  - intros (_ & Ht & Hacc). split; [done|]. intros q c u Hc Hu.
    destruct (proj1 (agent_accepts_true m t c) (Hacc q c Hc) u Hu). split; [done|]. by destruct Ht.
  - intros (Ht & Hall). split_and!; [done|done|]. intros q c Hc. apply agent_accepts_true. intros u Hu.
    destruct (Hall q c u Hc Hu) as [-> ->]. done.
Qed.

(** After the server closed a client nothing is ever sent to it again. *)
Theorem closed_client_silent s s' p a :
  bsteps start_server s → objects s !! p = Some a → packet_socket_ a = false → bsteps s s' →
  is_open s' p = false ∧ filter (λ e, e.1 = p) (outbox s') = filter (λ e, e.1 = p) (outbox s).
Proof.
  intros [Hi _]%reach_inv Ha Hc Hs. destruct (bsteps_grows _ _ Hs Hi) as [Hg (out & Ho & Hn)]. split.
  - destruct (Hg p a Ha) as (a' & Ha' & _ & Hcl). unfold is_open. rewrite Ha'. auto.
  - rewrite Ho, filter_app. assert (filter (λ e, e.1 = p) out = []) as ->; [|by rewrite app_nil_r].
    destruct (filter (λ e, e.1 = p) out) as [|e l] eqn:E; [done|].
    assert (e ∈ filter (λ e, e.1 = p) out) as [<- He]%list_elem_of_filter by (rewrite E; by left).
    destruct (Hn e.1 a Ha Hc). by apply list_elem_of_fmap_2.
Qed.

(** *** Sixteen bits of the id *)
Lemma many_connections n : Z.of_nat n < 2 ^ 32 → ∀ s, bsteps start_server s → agent_num_ s + Z.of_nat n < 2 ^ 32 →
  ∃ s', bsteps s s' ∧ agent_num_ s' = agent_num_ s + Z.of_nat n ∧ (∀ p a, live s p a → live s' p a) ∧
    (∀ id, dp_agents_ s' !! id = dp_agents_ s !! id).
Proof.
  induction n as [|n IH]; intros Hn s Hs Hc.
  { exists s. split_and!; [constructor|lia|done|done]. }
  destruct (reach_inv s Hs) as [Hi Hk]. set (p := fresh (dom (objects s))).
  assert (objects s !! p = None) as Hp by (apply not_elem_of_dom, is_fresh).
  pose proof (OnListenerAcceptEvent_spec s p Hi Hp ltac:(lia)) as Hacc.
  pose proof (accepted_inv s p Hi Hp ltac:(lia)) as Hi1.
  set (a := mkAgent true (agent_num_ s + 1) (remote_pid_ new_agent) (agent_name_ new_agent) ∅).
  assert (live (accepted p s) p a) as Hl by (split; [apply lookup_insert_eq|done]).
  pose proof (OnSocketErrorEvent_spec (accepted p s) p a Hi1 Hl) as Hcl.
  assert (bsteps s (closed p a (accepted p s))) as Hs1.
  { eapply (bsteps_step _ (Accept p)); [by split; [|lia]|done|].
    eapply (bsteps_step _ (SocketError p)); [by exists a|done|constructor]. }
  destruct (IH ltac:(lia) (closed p a (accepted p s))) as (s' & Hs' & Hn' & Hlive & Hids).
  { by eapply bsteps_trans. } { cbn [closed accepted agent_num_]. lia. }
  exists s'. split_and!.
  - by eapply bsteps_trans.
  - rewrite Hn'. cbn [closed accepted agent_num_]. lia.
  - intros q c [Hq Hoq]. apply Hlive. split; [|done]. cbn [closed accepted objects].
    rewrite !lookup_insert_ne by congruence. done.
  - intros id. rewrite Hids. cbn [closed accepted dp_agents_]. unfold a. cbn [agent_id_].
    rewrite delete_insert_id; [done|]. destruct (dp_agents_ s !! (agent_num_ s + 1)) eqn:E; [|done].
    pose proof (b_num _ Hi _ _ E). lia.
Qed.

(** The id of an agent is cut to sixteen bits on the way: after 65536
    connections the reply to the request of a client goes to another client,
    which is connected too, and the client that asked gets none. *)
Theorem reply_misrouted m d : m ≠ [] → zlen m < 2 ^ 16 → zlen d < 2 ^ 32 →
  ∃ s p p' a a', bsteps start_server s ∧ live s p a ∧ live s p' a' ∧ p ≠ p' ∧
    ∀ q mid sid pid r lt, msg_ok pid (attach_id (agent_id_ a) mid) sid r m d → 0 ≤ mid < 2 ^ 16 →
      bstep (Packet q (dp_packet TYPE_REPLY lt pid (attach_id (agent_id_ a) mid) sid r m d)) s =
        Ok (tt, send_all [(p', dp_packet TYPE_REPLY 0 0 mid sid 1 m d)] s).
Proof.
  intros Hm Hml Hdl.
  assert (bsteps start_server (accepted 0%nat start_server)) as H1.
  { eapply (bsteps_step _ (Accept 0)); [split; [done|cbn; lia]| |constructor].
    apply OnListenerAcceptEvent_spec; [apply start_inv|done|cbn; lia]. }
  destruct (many_connections (Z.to_nat 65535) ltac:(lia) (accepted 0%nat start_server) H1 ltac:(change (agent_num_ (accepted 0%nat start_server)) with 1; lia)) as (s1 & Hs1 & Hn1 & Hl1 & Hid1).
  assert (bsteps start_server s1) as H2 by by eapply bsteps_trans. destruct (reach_inv s1 H2) as [Hi Hk].
  set (p := fresh (dom (objects s1))). assert (objects s1 !! p = None) as Hp by (apply not_elem_of_dom, is_fresh).
  change (agent_num_ (accepted 0%nat start_server)) with 1 in Hn1. rewrite Z2Nat.id in Hn1 by lia.
  assert (agent_num_ s1 + 1 < 2 ^ 32) as Hc by lia.
  pose proof (OnListenerAcceptEvent_spec s1 p Hi Hp Hc) as Hacc.
  pose proof (accepted_inv s1 p Hi Hp Hc) as Hi2.
  set (a' := mkAgent true 1 (2 ^ 32 - 1) (agent_name_ new_agent) ∅).
  assert (live s1 0%nat a') as Hl0 by (apply Hl1; by split).
  exists (accepted p s1), p, 0%nat, (mkAgent true (agent_num_ s1 + 1) (2 ^ 32 - 1) (agent_name_ new_agent) ∅), a'.
  split_and!.
  - eapply bsteps_trans; [done|]. eapply (bsteps_step _ (Accept p)); [done|done|constructor].
  - split; [apply lookup_insert_eq|done].
  - split; [|done]. cbn [accepted objects]. rewrite lookup_insert_ne; [apply Hl0|]. intros ->. destruct Hl0. congruence.
  - intros ->. destruct Hl0. congruence.
  - intros q mid sid pid r lt Hok Hmid. cbn [agent_id_] in *. rewrite packet_dispatch by done.
    change (TYPE_REPLY =? TYPE_MESSAGE) with false. rewrite Z.eqb_refl. cbn beta iota.
    destruct (as_header_packet TYPE_REPLY lt pid _ sid r m d Hok) as (_ & _ & _ & Hmi & Hsi & _).
    destruct (packet_method TYPE_REPLY lt pid _ sid r m d Hok) as [Hme Hda].
    rewrite (OnReplayMessage_routed _ _ m d (agent_num_ s1 + 1) mid) by (done || lia). rewrite Hsi.
    rewrite Hn1. change (routed_id (1 + 65535 + 1)) with 1. rewrite (Z.mod_small mid) by lia.
    assert (dp_agents_ (accepted p s1) !! 1 = Some 0%nat) as ->; [|done].
    cbn [accepted dp_agents_]. rewrite lookup_insert_ne by lia. by rewrite Hid1.
Qed.

(** *** Packets that are trusted *)
(** A packet one byte longer than the header can claim a method of 65535. *)
Lemma length_trusted s p a : live s p a →
  bstep (Packet p (header_bytes (mkDp TYPE_REMOVE_MESSAGE 0 65535 1 1 0 0 0 []) ++ [97])) s = Ub UB_OutOfBounds.
Proof. done. Qed.

(** While the old agent of a client that connects again is there, the request
    it serves is refused to it, and unregistered when the old one is closed. *)
Lemma reconnected_listener_refused s p q a b pid mid sid r m d :
  bsteps start_server s → live s p a → live s q b → method_map_ b !! m = Some TYPE_REQUEST →
  msg_ok pid mid sid r m d → m ≠ [] →
  bstep (Packet p (dp_packet TYPE_ADD_MESSAGE TYPE_REQUEST pid mid sid r m d)) s =
    Ok (tt, send_all [(p, dp_packet TYPE_ADD_MESSAGE 0 0 mid sid TYPE_FAILURE m [])] s).
Proof.
  intros [Hi _]%reach_inv Ha Hb Hm Hok Hm0. rewrite packet_dispatch by done.
  change (TYPE_ADD_MESSAGE =? TYPE_MESSAGE) with false. change (TYPE_ADD_MESSAGE =? TYPE_REPLY) with false.
  rewrite Z.eqb_refl. cbn beta iota.
  destruct (as_header_packet TYPE_ADD_MESSAGE TYPE_REQUEST pid mid sid r m d Hok) as (_ & Hlt & _ & Hmi & Hsi & _).
  destruct (packet_method TYPE_ADD_MESSAGE TYPE_REQUEST pid mid sid r m d Hok) as [Hme _].
  destruct (OnListenMessage_spec s p a _ m Hi Ha Hme) as (g & Hg & ->). rewrite Hlt, Hmi, Hsi in *.
  destruct g; [|done]. destruct (proj1 Hg eq_refl) as (_ & _ & Hacc).
  by destruct (proj1 (agent_accepts_true m TYPE_REQUEST b) (Hacc q b Hb) _ Hm).
Qed.

(** ** Witnesses *)
Definition demo_events : list blabel :=
  [Accept 0; Accept 1; Accept 2;
   Packet 0 (dp_packet TYPE_SET_NAME 255 7 1 0 0 [110] []);
   Packet 1 (dp_packet TYPE_SET_NAME 255 8 1 0 0 [110] []);
   Packet 2 (dp_packet TYPE_SET_NAME 255 9 1 0 0 [110] []);
   Packet 1 (dp_packet TYPE_ADD_MESSAGE TYPE_MESSAGE 8 2 0 0 [97] []);
   Packet 2 (dp_packet TYPE_ADD_MESSAGE TYPE_MESSAGE 9 2 0 0 [97] []);
   Packet 2 (dp_packet TYPE_ADD_MESSAGE TYPE_REQUEST 9 3 0 0 [98] [])].
Definition demo : DpAgentManager := default start_server (brun demo_events start_server).
Definition agent_at (s : DpAgentManager) (p : nat) : DpAgent := default new_agent (objects s !! p).

Lemma demo_reached : bsteps start_server demo.
Proof. apply (brun_bsteps demo_events). vm_compute. reflexivity. Qed.
Lemma demo_live p : (p < 3)%nat → live demo p (agent_at demo p).
Proof. intros Hp. do 3 (destruct p as [|p]; [by vm_compute|]). lia. Qed.
Lemma msg_ok_small : msg_ok 7 5 6 0 [97] [1; 2] ∧ msg_ok 7 5 6 0 [98] [1; 2] ∧ msg_ok 9 (attach_id 1 5) 6 0 [98] [3].
Proof. split_and!; by split. Qed.

Lemma server_maps_agree_witness :
  bsteps start_server demo ∧ BInv demo.
Proof. split; [apply demo_reached|]. apply (server_maps_agree demo demo_reached). Defined.

Lemma broadcast_delivery_witness :
  ∃ to, NoDup to ∧
    (∀ q, q ∈ to ↔ q ≠ 0%nat ∧ ∃ a, live demo q a ∧ method_map_ a !! [97] = Some TYPE_MESSAGE ∧ remote_pid_ a ≠ 7) ∧
    bstep (Packet 0 (dp_packet TYPE_MESSAGE 255 7 5 6 0 [97] [1; 2])) demo =
      Ok (tt, send_all (forwarded [97] [1; 2] TYPE_MESSAGE 5 6 to ++
        [(0%nat, dp_packet TYPE_REPLY 0 0 5 6 (zlen to) [97] [])]) demo).
Proof.
  apply (broadcast_delivery demo 0%nat (agent_at demo 0)); [apply demo_reached|apply demo_live; lia|apply msg_ok_small|done|].
  assert (bool_decide (map_Forall (λ _ a, method_map_ a !! [97] ≠ Some TYPE_REQUEST) (objects demo)) = true) as H
    by (vm_compute; reflexivity).
  apply bool_decide_eq_true in H. intros q a [Ha _]. exact (H q a Ha).
Defined.

Lemma request_reply_roundtrip_witness :
  let s2 := send_all [(2%nat, dp_packet TYPE_REQUEST 0 0 (attach_id 1 5) 6 0 [98] [1; 2])] demo in
  bstep (Packet 0 (dp_packet TYPE_MESSAGE 255 7 5 6 0 [98] [1; 2])) demo = Ok (tt, s2) ∧
  bstep (Packet 2 (dp_packet TYPE_REPLY 255 9 (attach_id 1 5) 6 0 [98] [3])) s2 =
    Ok (tt, send_all [(0%nat, dp_packet TYPE_REPLY 0 0 5 6 1 [98] [3])] s2).
Proof.
  destruct (request_reply_roundtrip demo 0%nat (agent_at demo 0) 2%nat (agent_at demo 2) 255 7 5 6 0 [98] [1; 2]) as [H1 H2];
    [apply demo_reached|apply demo_live; lia|apply demo_live; lia|by vm_compute|done|by vm_compute|apply msg_ok_small|done|lia|by vm_compute|].
  assert (agent_id_ (agent_at demo 0) = 1) as E by (vm_compute; reflexivity). rewrite E in *.
  split; [exact H1|]. rewrite (H2 _ 2%nat 255 9 6 0 [98] [3]); [|constructor|apply msg_ok_small|done].
  assert (is_open (send_all [(2%nat, dp_packet TYPE_REQUEST 0 0 (attach_id 1 5) 6 0 [98] [1; 2])] demo) 0 = true) as ->
    by (vm_compute; reflexivity).
  reflexivity.
Defined.

Lemma listen_granted_iff_witness :
  ∃ b : bool,
    (b = true ↔ (TYPE_MESSAGE = TYPE_MESSAGE ∨ TYPE_MESSAGE = TYPE_REQUEST) ∧
       ∀ q c u, live demo q c → method_map_ c !! [97] = Some u → u = TYPE_MESSAGE ∧ TYPE_MESSAGE = TYPE_MESSAGE) ∧
    bstep (Packet 0 (dp_packet TYPE_ADD_MESSAGE TYPE_MESSAGE 7 5 6 0 [97] [1; 2])) demo = Ok (tt,
      if b then send_all [(0%nat, dp_packet TYPE_ADD_MESSAGE 0 0 5 6 TYPE_SUCCEED [97] [])]
                  (registered 0 [97] TYPE_MESSAGE (agent_at demo 0) demo)
      else send_all [(0%nat, dp_packet TYPE_ADD_MESSAGE 0 0 5 6 TYPE_FAILURE [97] [])] demo).
Proof.
  apply (listen_granted_iff demo 0%nat (agent_at demo 0)); [apply demo_reached|apply demo_live; lia|apply msg_ok_small|done].
Defined.

Definition demo_closed : DpAgentManager := default start_server (brun (demo_events ++ [SocketError 1]) start_server).
Definition demo_after : DpAgentManager :=
  default start_server (brun [Packet 0 (dp_packet TYPE_MESSAGE 255 7 5 6 0 [97] [1; 2])] demo_closed).
Lemma closed_client_silent_witness :
  is_open demo_after 1 = false ∧
  filter (λ e, e.1 = 1%nat) (outbox demo_after) = filter (λ e, e.1 = 1%nat) (outbox demo_closed).
Proof.
  apply (closed_client_silent demo_closed demo_after 1%nat (agent_at demo_closed 1)).
  - apply (brun_bsteps (demo_events ++ [SocketError 1])). vm_compute. reflexivity.
  - by vm_compute.
  - by vm_compute.
  - apply (brun_bsteps [Packet 0 (dp_packet TYPE_MESSAGE 255 7 5 6 0 [97] [1; 2])]). vm_compute. reflexivity.
Defined.

Lemma reply_misrouted_witness :
  ∃ s p p' a a', bsteps start_server s ∧ live s p a ∧ live s p' a' ∧ p ≠ p' ∧
    ∀ q mid sid pid r lt, msg_ok pid (attach_id (agent_id_ a) mid) sid r [98] [3] → 0 ≤ mid < 2 ^ 16 →
      bstep (Packet q (dp_packet TYPE_REPLY lt pid (attach_id (agent_id_ a) mid) sid r [98] [3])) s =
        Ok (tt, send_all [(p', dp_packet TYPE_REPLY 0 0 mid sid 1 [98] [3])] s).
Proof. apply (reply_misrouted [98] [3]); by vm_compute. Defined.
