(* ===== verification/DpClient.v ===== *)
(** * The DP client

    src/lib_bsp/eventservice/dp/dpclient.cpp: DpClientImpl and the local
    dispatch DpLocalDisp of one process, with the signals of
    eventservice/event/signalevent.cpp that callers wait on.  The DpMessage of
    a call is shared by the map of requests, the local handlers and the caller,
    so messages live in a heap; a signal is in the pool of its client or in
    the message of a call.  A call that blocks is two definitions, one up to
    WaitSignal and one from there on; what other threads do lies between. *)

From S2P Require Import Prelude Crc16 Serialize MemBuffer PacketFrames DpMessage.
#[local] Open Scope Z_scope.

Abbreviation method := (list Z).

(** ** State *)
Record Message := mkMsg {
  m_type : Z; m_method : method; m_id : Z; m_session : Z;
  req_buffer : list Z;
  res_buffer : option (list Z);               (* None: the pointer was never set *)
  is_timeout : bool;
  m_result : Z;
  signal_event : option nat }.
Record DpClientImpl := mkClient {
  dp_srv_addr_ : bool;                        (* the port is not 0 *)
  packet_socket_ : bool;                      (* there, and AsyncWritePacket takes packets *)
  message_id_ : Z;
  request_map_ : gmap Z nat;
  method_map_ : gmap method Z;
  signal_queue_ : list nat }.
Record Process := mkProc {
  clients : gmap nat DpClientImpl;
  dp_clis_ : list nat;                        (* DpLocalDisp *)
  messages : gmap nat Message;
  signals : gmap nat bool;                    (* signaled_, one per PosixSignal *)
  inbox : list (nat * nat);                   (* what was posted to msg_proc_evs_ of a client *)
  sent : list (nat * list Z) }.               (* the packets a client wrote *)
Abbreviation CL := (ST Process).

Definition set_clients f (s : Process) : Process :=
  mkProc (f (clients s)) (dp_clis_ s) (messages s) (signals s) (inbox s) (sent s).
Definition set_messages f (s : Process) : Process :=
  mkProc (clients s) (dp_clis_ s) (f (messages s)) (signals s) (inbox s) (sent s).
Definition set_signals f (s : Process) : Process :=
  mkProc (clients s) (dp_clis_ s) (messages s) (f (signals s)) (inbox s) (sent s).
Definition add_inbox l (s : Process) : Process :=
  mkProc (clients s) (dp_clis_ s) (messages s) (signals s) (inbox s ++ l) (sent s).
Definition add_sent l (s : Process) : Process :=
  mkProc (clients s) (dp_clis_ s) (messages s) (signals s) (inbox s) (sent s ++ l).

Definition client (c : nat) : CL DpClientImpl := λ s,
  match clients s !! c with Some k => Ok (k, s) | None => Ub UB_UseAfterFree end.
Definition update_client (c : nat) (f : DpClientImpl → DpClientImpl) : CL unit :=
  k ← client c; modify (set_clients (insert c (f k))).
Definition message (a : nat) : CL Message := λ s,
  match messages s !! a with Some m => Ok (m, s) | None => Ub UB_UseAfterFree end.
Definition update_message (a : nat) (f : Message → Message) : CL unit :=
  m ← message a; modify (set_messages (insert a (f m))).

Definition with_ids (n : Z) (k : DpClientImpl) :=
  mkClient (dp_srv_addr_ k) (packet_socket_ k) n (request_map_ k) (method_map_ k) (signal_queue_ k).
Definition with_requests f (k : DpClientImpl) :=
  mkClient (dp_srv_addr_ k) (packet_socket_ k) (message_id_ k) (f (request_map_ k)) (method_map_ k) (signal_queue_ k).
Definition with_methods f (k : DpClientImpl) :=
  mkClient (dp_srv_addr_ k) (packet_socket_ k) (message_id_ k) (request_map_ k) (f (method_map_ k)) (signal_queue_ k).
Definition with_queue q (k : DpClientImpl) :=
  mkClient (dp_srv_addr_ k) (packet_socket_ k) (message_id_ k) (request_map_ k) (method_map_ k) q.
Definition with_socket b (k : DpClientImpl) :=
  mkClient (dp_srv_addr_ k) b (message_id_ k) (request_map_ k) (method_map_ k) (signal_queue_ k).

Definition msg_type t (m : Message) :=
  mkMsg t (m_method m) (m_id m) (m_session m) (req_buffer m) (res_buffer m) (is_timeout m) (m_result m) (signal_event m).
Definition msg_res r (m : Message) :=
  mkMsg (m_type m) (m_method m) (m_id m) (m_session m) (req_buffer m) r (is_timeout m) (m_result m) (signal_event m).
Definition msg_result r (m : Message) :=
  mkMsg (m_type m) (m_method m) (m_id m) (m_session m) (req_buffer m) (res_buffer m) (is_timeout m) r (signal_event m).
Definition msg_timed_out (m : Message) :=
  mkMsg (m_type m) (m_method m) (m_id m) (m_session m) (req_buffer m) (res_buffer m) true (m_result m) (signal_event m).

(** ** Signals *)
Definition TriggerSignal (sg : nat) : CL unit := modify (set_signals (insert sg true)).
Definition ResetTriggerSignal (sg : nat) : CL unit := modify (set_signals (insert sg false)).
Definition GetSignal (c : nat) : CL nat :=
  k ← client c;
  match signal_queue_ k with
  | sg :: q => update_client c (with_queue q);; mret sg
  | [] =>
      s ← get;
      let sg := fresh (dom (signals s)) in
      ResetTriggerSignal sg;; mret sg
  end.
Definition PutSignal (c : nat) (sg : option nat) : CL unit :=
  match sg with
  | Some sg => update_client c (λ k, with_queue (signal_queue_ k ++ [sg]) k)
  | None => mret tt
  end.
Definition signal_of (m : Message) : CL nat :=
  match signal_event m with Some sg => mret sg | None => λ _, Ub UB_NullDeref end.

(** ** Packets to the server *)
Section process.
Context (self_pid : Z).

Definition SendPacket (c : nat) (msg_id type listen_type : Z) (m : method) (data : list Z) (session_id : Z) : CL bool :=
  k ← client c;
  when (65534 <? message_id_ k) (update_client c (with_ids 0));;
  if packet_socket_ k then
    modify (add_sent [(c, dp_packet (u8 type) (u8 listen_type) self_pid msg_id session_id 0 m data)]);; mret true
  else mret false.

(** ++message_id_ *)
Definition next_id (c : nat) : CL Z :=
  k ← client c;
  let id := u16 (message_id_ k + 1) in
  update_client c (with_ids id);; mret id.

(** The message of a call, with its signal, in request_map_. *)
Definition new_request (c : nat) (m : method) (type : Z) (req : list Z) (res : option (list Z)) (clock : Z) : CL nat :=
  sg ← GetSignal c;
  id ← next_id c;
  s ← get;
  let a := fresh (dom (messages s)) in
  modify (set_messages (insert a (mkMsg type m id (u32 clock) req res false TYPE_SUCCEED (Some sg))));;
  update_client c (with_requests (insert id a));;
  mret a.
Definition erase_request (c : nat) (id : Z) : CL unit := update_client c (with_requests (delete id)).

(** ** Local dispatch *)
Definition LocalHandleRequest (d a : nat) : CL Z :=
  m ← message a;
  k ← client d;
  match method_map_ k !! m_method m with
  | Some t => update_message a (msg_type t);; modify (add_inbox [(d, a)]);; mret t
  | None => mret TYPE_INVALID
  end.
Fixpoint dispatch_loop (l : list nat) (c a : nat) (etype n : Z) : CL (Z * Z) :=
  match l with
  | [] => mret (n, etype)
  | d :: l =>
      if decide (d = c) then dispatch_loop l c a etype n
      else
        nt ← LocalHandleRequest d a;
        if nt =? TYPE_INVALID then dispatch_loop l c a etype n
        else if nt =? TYPE_REQUEST then mret (n + 1, nt)
        else dispatch_loop l c a nt (n + 1)
  end.
Definition ProcessDpRequest (c a : nat) : CL (Z * Z) := s ← get; dispatch_loop (dp_clis_ s) c a TYPE_INVALID 0.

(** ** Calls *)
(** What a call comes to before it waits: a value, or the message to wait on. *)
Inductive call_start := Returns (ret : Z) | Waits (a : nat).

Definition give_up_request (c a : nat) (ret : Z) : CL call_start :=
  m ← message a; erase_request c (m_id m);; PutSignal c (signal_event m);; mret (Returns ret).

Definition SendDpMessage (c : nat) (m : method) (session_id : Z) (data : list Z) (clock : Z) : CL call_start :=
  if zlen m =? 0 then mret (Returns (-1))
  else
    a ← new_request c m TYPE_MESSAGE data (Some []) clock;
    '(_, etype) ← ProcessDpRequest c a;
    k ← client c;
    if etype =? TYPE_REQUEST then mret (Waits a)
    else if negb (dp_srv_addr_ k) then
      if etype =? TYPE_MESSAGE then give_up_request c a TYPE_FAILURE else mret (Waits a)
    else
      msg ← message a;
      bret ← SendPacket c (m_id msg) TYPE_MESSAGE TYPE_INVALID m data session_id;
      if negb bret then give_up_request c a TYPE_FAILURE else mret (Waits a).

Definition SendRemoteMessage (c : nat) (m : method) (type session_id : Z) (data : list Z) (clock : Z) : CL call_start :=
  if zlen m =? 0 then mret (Returns (-1))
  else
    a ← new_request c m TYPE_MESSAGE data (Some []) clock;
    k ← client c;
    if negb (dp_srv_addr_ k) then
      if type =? TYPE_MESSAGE then give_up_request c a TYPE_FAILURE else mret (Waits a)
    else
      msg ← message a;
      bret ← SendPacket c (m_id msg) TYPE_MESSAGE TYPE_INVALID m data session_id;
      if negb bret then give_up_request c a TYPE_FAILURE else mret (Waits a).

Definition ListenMessage (c : nat) (m : method) (type clock : Z) : CL call_start :=
  if (zlen m =? 0) || (negb (type =? TYPE_MESSAGE) && negb (type =? TYPE_REQUEST)) then mret (Returns (-1))
  else
    update_client c (with_methods (insert m type));;
    k ← client c;
    if negb (dp_srv_addr_ k) then mret (Returns TYPE_SUCCEED)
    else
      a ← new_request c m TYPE_ADD_MESSAGE [] None clock;
      msg ← message a;
      res ← SendPacket c (m_id msg) TYPE_ADD_MESSAGE type m [] 0;
      if negb res then give_up_request c a TYPE_INVALID else mret (Waits a).

(** After WaitSignal: the part before the lock on the map, and the rest. *)
Definition expire_call (a : nat) : CL unit :=
  update_message a msg_timed_out;;
  m ← message a; sg ← signal_of m; ResetTriggerSignal sg.
Definition finish (c a : nat) : CL unit :=
  m ← message a; erase_request c (m_id m);; PutSignal c (signal_event m).

(** WaitSignal resets the signal when it was triggered. *)
Definition SendDpMessage_done (c a : nat) : CL (Z * option (list Z)) :=
  m ← message a;
  sg ← signal_of m;
  ResetTriggerSignal sg;;
  finish c a;; mret (m_result m, res_buffer m).
Definition SendDpMessage_timeout (c a : nat) : CL (Z * option (list Z)) :=
  expire_call a;; finish c a;; mret (TYPE_FAILURE, None).
Definition ListenMessage_done (c a : nat) : CL Z :=
  '(r, _) ← SendDpMessage_done c a; mret (if r =? TYPE_SUCCEED then 0 else TYPE_INVALID).
Definition ListenMessage_timeout (c a : nat) : CL Z :=
  _ ← SendDpMessage_timeout c a; mret TYPE_INVALID.

Definition RemoveMessage (c : nat) (m : method) : CL unit :=
  if zlen m =? 0 then mret tt
  else
    update_client c (with_methods (delete m));;
    k ← client c;
    if negb (dp_srv_addr_ k) then mret tt
    else
      id ← next_id c;
      _ ← SendPacket c id TYPE_REMOVE_MESSAGE TYPE_INVALID m [] 0;
      mret tt.

(** A handler answers a message. *)
Definition SendDpReply (d a : nat) : CL bool :=
  m ← message a;
  if negb (m_type m =? TYPE_REQUEST) then mret false
  else if is_timeout m then mret false
  else
    match signal_event m with
    | Some sg => TriggerSignal sg;; mret true            (* ProcessDpReply *)
    | None =>
        k ← client d;
        if dp_srv_addr_ k then
          update_message a (msg_type TYPE_REPLY);;
          SendPacket d (m_id m) TYPE_REPLY TYPE_INVALID (m_method m) (default [] (res_buffer m)) (m_session m)
        else mret true
    end.

(** ** Packets from the server *)
Definition post_message (c : nat) (type : Z) (h : DpNetMsgHeader) : CL unit :=
  m ← lift (method_of h);
  data ← lift (data_of_msg h);
  s ← get;
  let a := fresh (dom (messages s)) in
  modify (set_messages (insert a (mkMsg type m (message_id h) (session_id h) data (Some []) false 0 None)));;
  modify (add_inbox [(c, a)]).
Definition OnBroadCastMessage (c : nat) (h : DpNetMsgHeader) : CL unit := post_message c TYPE_MESSAGE h.
Definition OnRequestMessage (c : nat) (h : DpNetMsgHeader) : CL unit := post_message c TYPE_REQUEST h.

(** OnReqReplayMessage holds the lock of the map; what it does for a request
    that is waited for comes after the check of is_timeout. *)
Definition find_request (c : nat) (h : DpNetMsgHeader) : CL (option nat) :=
  k ← client c;
  match request_map_ k !! message_id h with
  | Some a => m ← message a; mret (if is_timeout m then None else Some a)
  | None => mret None
  end.
Definition deliver_reply (a : nat) (h : DpNetMsgHeader) : CL unit :=
  m ← message a;
  when (0 <? data_size h)
    (data ← lift (data_of_msg h);
     match res_buffer m with
     | Some r => update_message a (msg_res (Some (r ++ data)))
     | None => λ _, Ub UB_NullDeref
     end);;
  update_message a (λ m, msg_result (result h) (msg_type (d_type h) m));;
  sg ← signal_of m; TriggerSignal sg.
(** The other branches read the packet for the log. *)
Definition OnReqReplayMessage (c : nat) (h : DpNetMsgHeader) : CL unit :=
  r ← find_request c h;
  match r with
  | Some a => deliver_reply a h
  | None => _ ← lift (method_of h); _ ← lift (data_of_msg h); mret tt
  end.

Definition OnAddReplayMessage (c : nat) (h : DpNetMsgHeader) : CL unit :=
  k ← client c;
  match request_map_ k !! message_id h with
  | Some a =>
      m ← message a;
      if negb (m_type m =? TYPE_ADD_MESSAGE) || is_timeout m then mret tt
      else update_message a (msg_result (result h));; sg ← signal_of m; TriggerSignal sg
  | None => mret tt
  end.

Definition OnSocketReadComplete (c : nat) (packet : list Z) : CL unit :=
  if zlen packet <=? sizeof_DpNetMsgHeader then mret tt
  else
    let h := as_header packet in
    let t := d_type h in
    if t =? TYPE_MESSAGE then OnBroadCastMessage c h
    else if t =? TYPE_REQUEST then OnRequestMessage c h
    else if t =? TYPE_REPLY then OnReqReplayMessage c h
    else if t =? TYPE_ADD_MESSAGE then OnAddReplayMessage c h
    else mret tt.

Definition OnSocketErrorEvent (c : nat) : CL unit :=
  update_client c (λ k, with_socket false (with_requests (λ _, ∅) k)).
Definition OnSocketConnectEvent (c : nat) (name : list Z) : CL unit :=
  update_client c (with_socket true);;
  id ← next_id c;
  _ ← SendPacket c id TYPE_SET_NAME TYPE_INVALID name [] 0;
  mret tt.

(** CreateDpClient and DestoryDpClient; a new client is not connected yet. *)
Definition CreateDpClient (c : nat) (server : bool) : CL unit :=
  modify (set_clients (insert c (mkClient server false 0 ∅ ∅ [])));;
  modify (λ s, if decide (c ∈ dp_clis_ s) then s
               else mkProc (clients s) (dp_clis_ s ++ [c]) (messages s) (signals s) (inbox s) (sent s)).
Definition DestoryDpClient (c : nat) : CL unit :=
  modify (λ s, mkProc (clients s) (filter (λ d, d ≠ c) (dp_clis_ s)) (messages s) (signals s) (inbox s) (sent s)).
End process.
