(* ===== verification/DpCalls.v ===== *)
(** * Calls of a DP client

    What happens to the calls of DpClient.v when callers, handlers and the
    event thread take turns: every call has a signal of its own, and it comes
    back with an answer only if that very call was answered.  Then the calls,
    the server and the handlers of DpBroker.v put together. *)

From S2P Require Import Prelude Crc16 Serialize MemBuffer PacketFrames DpMessage DpClient.
#[local] Open Scope Z_scope.
Abbreviation method := (list Z).

(** ** Weakest preconditions

    What a packet carries can make a handler read past it or, if it is a reply
    with data to a listen request, write through a pointer that was not set. *)
Definition packet_ub (u : ub) : Prop := u = UB_OutOfBounds ∨ u = UB_NullDeref.
Definition wpu {A} (U : ub → Prop) (m : CL A) (s : Process) (Q : A → Process → Prop) : Prop :=
  match m s with Ok (a, s') => Q a s' | Ub u => U u end.
Abbreviation wp := (wpu packet_ub).

Lemma wp_bind {A B} U (m : CL A) (k : A → CL B) s Q :
  wpu U m s (λ a s', wpu U (k a) s' Q) → wpu U (m ≫= k) s Q.
Proof. unfold wpu. rewrite run_bind. by destruct (m s) as [[a s']|u]. Qed.
Lemma wp_ret {A} U (a : A) s (Q : A → Process → Prop) : Q a s → wpu U (mret a) s Q.
Proof. done. Qed.
Lemma wp_get U s (Q : Process → Process → Prop) : Q s s → wpu U get s Q.
Proof. done. Qed.
Lemma wp_modify U f s (Q : unit → Process → Prop) : Q tt (f s) → wpu U (modify f) s Q.
Proof. done. Qed.
Lemma wp_mono {A} U (m : CL A) s (Q R : A → Process → Prop) :
  wpu U m s Q → (∀ a s', Q a s' → R a s') → wpu U m s R.
Proof. unfold wpu. destruct (m s) as [[a s']|u]; naive_solver. Qed.
Lemma wp_client U c k s (Q : DpClientImpl → Process → Prop) : clients s !! c = Some k → Q k s → wpu U (client c) s Q.
Proof. intros Hk HQ. unfold wpu, client. by rewrite Hk. Qed.
Lemma wp_message U a m s (Q : Message → Process → Prop) : messages s !! a = Some m → Q m s → wpu U (message a) s Q.
Proof. intros Hm HQ. unfold wpu, message. by rewrite Hm. Qed.
Lemma wp_update_client U c k f s (Q : unit → Process → Prop) :
  clients s !! c = Some k → Q tt (set_clients (insert c (f k)) s) → wpu U (update_client c f) s Q.
Proof. intros Hk HQ. apply wp_bind. by apply (wp_client _ c k). Qed.
Lemma wp_update_message U a m f s (Q : unit → Process → Prop) :
  messages s !! a = Some m → Q tt (set_messages (insert a (f m)) s) → wpu U (update_message a f) s Q.
Proof. intros Hm HQ. apply wp_bind. by apply (wp_message _ a m). Qed.
Lemma wp_lift {A} (r : res A) s (Q : A → Process → Prop) :
  (∀ u, r = Ub u → packet_ub u) → (∀ a, r = Ok a → Q a s) → wp (lift r) s Q.
Proof. intros Hu HQ. unfold wpu, lift. destruct r; auto. Qed.
Lemma wp_body b off n s (Q : list Z → Process → Prop) : (∀ l, Q l s) → wp (lift (read_body b off n)) s Q.
Proof.
  intros HQ. apply wp_lift; [|auto]. unfold read_body. intros u. destruct (_ <=? _); [done|]. intros [= <-]. by left.
Qed.

(** ** Invariant

    [held] are the messages of the calls that wait, with the client they belong
    to; [rep] are the messages that were answered. *)
Record Inv (held : gmap nat nat) (rep : gset nat) (s : Process) : Prop := {
  v_clis : ∀ d, d ∈ dp_clis_ s → is_Some (clients s !! d);
  v_held : ∀ a c, held !! a = Some c → ∃ m sg,
    messages s !! a = Some m ∧ signal_event m = Some sg ∧ is_timeout m = false ∧ is_Some (clients s !! c) ∧
    signals s !! sg = Some (bool_decide (a ∈ rep));
  v_own : ∀ a b m n sg, is_Some (held !! a) → is_Some (held !! b) → messages s !! a = Some m → messages s !! b = Some n →
    signal_event m = Some sg → signal_event n = Some sg → a = b;
  v_pool : ∀ c k sg, clients s !! c = Some k → sg ∈ signal_queue_ k →
    signals s !! sg = Some false ∧
    (∀ a m, is_Some (held !! a) → messages s !! a = Some m → signal_event m ≠ Some sg) ∧
    (∀ d j, clients s !! d = Some j → sg ∈ signal_queue_ j → d = c);
  v_nodup : ∀ c k, clients s !! c = Some k → NoDup (signal_queue_ k);
  v_map : ∀ c k id a, clients s !! c = Some k → request_map_ k !! id = Some a →
    held !! a = Some c ∧ ∃ m, messages s !! a = Some m ∧ m_id m = id;
  v_req : ∀ a m, messages s !! a = Some m → m_type m = TYPE_REQUEST → is_Some (signal_event m) →
    is_Some (held !! a) ∨ is_timeout m = true ∨ a ∈ rep;
  v_rep : ∀ a, a ∈ rep → is_Some (messages s !! a);
  v_inbox : ∀ d a, (d, a) ∈ inbox s → is_Some (messages s !! a) ∧ is_Some (clients s !! d) }.

(** *** Changes that keep it *)
(** A change of a client that takes nothing into its map or its pool. *)
Lemma client_inv H R s c k k' : Inv H R s → clients s !! c = Some k →
  (∀ id a, request_map_ k' !! id = Some a → request_map_ k !! id = Some a) →
  signal_queue_ k' = signal_queue_ k → Inv H R (set_clients (insert c k') s).
Proof.
  intros [V0 V1 V2 V3 V4 V5 V6 V7 V8] Hk Hmap Hq.
  assert (∀ d, is_Some (clients s !! d) → is_Some (<[c:=k']> (clients s) !! d)) as Hdom.
  { intros d Hd. destruct (decide (d = c)) as [->|]; [rewrite lookup_insert_eq; by eexists|by rewrite lookup_insert_ne]. }
  assert (∀ d j, <[c:=k']> (clients s) !! d = Some j → ∃ j0, clients s !! d = Some j0 ∧ signal_queue_ j = signal_queue_ j0 ∧
    (∀ id a, request_map_ j !! id = Some a → request_map_ j0 !! id = Some a)) as Hback.
  { intros d j [[<- <-]|[_ Hd]]%lookup_insert_Some; [by exists k|by exists j]. }
  split; cbn [set_clients clients dp_clis_ messages signals inbox]; try done.
  - intros d Hd. by apply Hdom, V0.
  - intros a d Ha. destruct (V1 a d Ha) as (m & sg & ? & ? & ? & ? & ?). exists m, sg. split_and!; try done. by apply Hdom.
  - intros d j sg (j0 & Hj0 & -> & _)%Hback Hsg. destruct (V3 d j0 sg Hj0 Hsg) as (? & ? & Hd). split_and!; [done|done|].
    intros e i (i0 & Hi0 & -> & _)%Hback. by apply Hd.
  - intros d j (j0 & Hj0 & -> & _)%Hback. by eapply V4.
  - intros d j id a (j0 & Hj0 & _ & Hm)%Hback Ha. eapply V5; eauto.
  - intros d a Hin. destruct (V8 d a Hin). split; [done|by apply Hdom].
Qed.

(** A change of a message that leaves id, signal and time-out alone. *)
Lemma message_inv H R s a m m' : Inv H R s → messages s !! a = Some m →
  m_id m' = m_id m → signal_event m' = signal_event m → is_timeout m' = is_timeout m →
  (m_type m' = TYPE_REQUEST → m_type m = TYPE_REQUEST ∨ is_Some (H !! a) ∨ signal_event m = None) →
  Inv H R (set_messages (insert a m') s).
Proof.
  intros [V0 V1 V2 V3 V4 V5 V6 V7 V8] Ha Hid Hsg Ht Hty.
  assert (∀ b n, <[a:=m']> (messages s) !! b = Some n → ∃ n0, messages s !! b = Some n0 ∧ m_id n = m_id n0 ∧
    signal_event n = signal_event n0 ∧ is_timeout n = is_timeout n0) as Hback.
  { intros b n [[<- <-]|[_ Hb]]%lookup_insert_Some; [by exists m|by exists n]. }
  assert (∀ b n0, messages s !! b = Some n0 → ∃ n, <[a:=m']> (messages s) !! b = Some n ∧ m_id n = m_id n0 ∧
    signal_event n = signal_event n0 ∧ is_timeout n = is_timeout n0) as Hforth.
  { intros b n0 Hb. destruct (decide (b = a)) as [->|]; [rewrite lookup_insert_eq|rewrite lookup_insert_ne by done]; naive_solver. }
  split; cbn [set_messages clients dp_clis_ messages signals inbox]; try done.
  - intros b c Hb. destruct (V1 b c Hb) as (n0 & sg & Hn0 & ? & ? & ? & ?).
    destruct (Hforth b n0 Hn0) as (n & ? & ? & E1 & E2). exists n, sg. by rewrite E1, E2.
  - intros b c n o sg Hb Hc (n0 & Hn0 & _ & -> & _)%Hback (o0 & Ho0 & _ & -> & _)%Hback. by eapply V2.
  - intros c k sg Hk Hs. destruct (V3 c k sg Hk Hs) as (? & Hn & ?). split_and!; [done| |done].
    intros b n Hb (n0 & Hn0 & _ & -> & _)%Hback. by eapply Hn.
  - intros c k id b Hk Hb. destruct (V5 c k id b Hk Hb) as [? (n0 & Hn0 & <-)]. split; [done|].
    destruct (Hforth b n0 Hn0) as (n & ? & ? & _). by exists n.
  - intros b n Hb Hreq Hsig. apply lookup_insert_Some in Hb as [[<- <-]|[Hne Hb]]; [|by eapply V6].
    rewrite Hsg in Hsig. rewrite Ht. destruct (Hty Hreq) as [Hr|[Hr|Hr]]; [by eapply V6|by left|].
    rewrite Hr in Hsig. by destruct Hsig.
  - intros b Hb. destruct (V7 b Hb) as [n0 Hn0]. destruct (Hforth b n0 Hn0) as (n & ? & _). by exists n.
  - intros d b Hin. destruct (V8 d b Hin) as [[n0 Hn0] ?]. destruct (Hforth b n0 Hn0) as (n & ? & _). split; [by exists n|done].
Qed.

(** A new message that no call has. *)
Lemma new_message_inv H R s a m : Inv H R s → messages s !! a = None → signal_event m = None →
  Inv H R (set_messages (insert a m) s).
Proof.
  intros [V0 V1 V2 V3 V4 V5 V6 V7 V8] Hn Hs.
  assert (∀ b n, messages s !! b = Some n → b ≠ a) as Hne by congruence.
  split; cbn [set_messages clients dp_clis_ messages signals inbox]; try done.
  - intros b c Hb. destruct (V1 b c Hb) as (n & sg & Hb' & ?). exists n, sg. rewrite lookup_insert_ne; [done|]. intros ->. congruence.
  - intros b c n o sg Hb Hc [[<- <-]|[_ Hb']]%lookup_insert_Some [[<- <-]|[_ Hc']]%lookup_insert_Some ?; try congruence. by eapply V2.
  - intros c k sg Hk Hsg. destruct (V3 c k sg Hk Hsg) as (? & Hno & ?). split_and!; [done| |done].
    intros b n Hb [[<- <-]|[_ Hb']]%lookup_insert_Some; [by rewrite Hs|by eapply Hno].
  - intros c k id b Hk Hb. destruct (V5 c k id b Hk Hb) as [? (n & Hb' & ?)]. split; [done|]. exists n.
    rewrite lookup_insert_ne; [done|]. intros ->. congruence.
  - intros b n [[<- <-]|[_ Hb']]%lookup_insert_Some Hr Hsig; [rewrite Hs in Hsig; by destruct Hsig|by eapply V6].
  - intros b Hb. destruct (V7 b Hb) as [n Hn']. exists n. rewrite lookup_insert_ne; [done|]. intros ->. congruence.
  - intros d b Hin. destruct (V8 d b Hin) as [[n Hn'] ?]. split; [|done]. exists n.
    rewrite lookup_insert_ne; [done|]. intros ->. congruence.
Qed.

Lemma inbox_inv H R s d a : Inv H R s → is_Some (messages s !! a) → is_Some (clients s !! d) → Inv H R (add_inbox [(d, a)] s).
Proof.
  intros [] Ha Hd. split; cbn [add_inbox clients dp_clis_ messages signals inbox]; try done.
  intros e b [Hin|Hin%list_elem_of_singleton]%elem_of_app; [auto|]. by simplify_eq.
Qed.
Lemma sent_inv H R s l : Inv H R s → Inv H R (add_sent l s).
Proof. by intros []. Qed.

(** An answer sets the signal of the call, and of no other. *)
Lemma trigger_inv H R s a c m sg : Inv H R s → H !! a = Some c → messages s !! a = Some m → signal_event m = Some sg →
  Inv H ({[a]} ∪ R) (set_signals (insert sg true) s).
Proof.
  intros [V0 V1 V2 V3 V4 V5 V6 V7 V8] Ha Hm Hsg.
  split; cbn [set_signals clients dp_clis_ messages signals inbox]; try done.
  - intros b d Hb. destruct (V1 b d Hb) as (n & tg & Hn & Htg & Ht & Hc & Hs). exists n, tg. split_and!; try done.
    destruct (decide (b = a)) as [->|Hne].
    + assert (tg = sg) as -> by congruence. rewrite lookup_insert_eq. by rewrite bool_decide_true by set_solver.
    + rewrite lookup_insert_ne; [|intros <-; apply Hne; by eapply (V2 b a n m)]. rewrite Hs. f_equal.
      apply bool_decide_ext. set_solver.
  - intros d k tg Hk Htg. destruct (V3 d k tg Hk Htg) as (Hs & Hno & Hd). split_and!; [|done|done].
    rewrite lookup_insert_ne; [done|]. intros <-. by eapply (Hno a m).
  - intros b n Hb Hr Hsig. destruct (V6 b n Hb Hr Hsig) as [?|[?|?]]; [by left|by right; left|right; right; set_solver].
  - intros b [->%elem_of_singleton|Hb]%elem_of_union; [by exists m|auto].
Qed.

(** *** A call takes a signal and gives it back *)
Lemma set_clients_twice c k1 k2 s :
  set_clients (insert c k2) (set_clients (insert c k1) s) = set_clients (insert c k2) s.
Proof. unfold set_clients. cbn. by rewrite insert_insert_eq. Qed.

Definition taken (q : list nat) (sigs : gmap nat bool) (sg : nat) (q' : list nat) (sigs' : gmap nat bool) : Prop :=
  (q = sg :: q' ∧ sigs' = sigs) ∨ (q = [] ∧ q' = [] ∧ sigs !! sg = None ∧ sigs' = <[sg := false]> sigs).

Lemma claim_inv H R s c k k' a m sg sigs' : Inv H R s → clients s !! c = Some k → messages s !! a = None →
  taken (signal_queue_ k) (signals s) sg (signal_queue_ k') sigs' →
  request_map_ k' = <[m_id m := a]> (request_map_ k) →
  signal_event m = Some sg → is_timeout m = false → m_type m ≠ TYPE_REQUEST →
  Inv (<[a := c]> H) R (set_clients (insert c k') (set_messages (insert a m) (set_signals (λ _, sigs') s))).
Proof.
  intros [V0 V1 V2 V3 V4 V5 V6 V7 V8] Hk Ha Htk Hmap Hsg Hto Hty.
  assert (H !! a = None) as HHa.
  { destruct (H !! a) as [d|] eqn:E; [|done]. destruct (V1 a d E) as (n & ? & Hn & _). congruence. }
  assert (a ∉ R) as HRa by (intros Hr; destruct (V7 a Hr); congruence).
  assert (∀ d, is_Some (clients s !! d) → is_Some (<[c:=k']> (clients s) !! d)) as Hdom.
  { intros d Hd. destruct (decide (d = c)) as [->|]; [rewrite lookup_insert_eq; by eexists|by rewrite lookup_insert_ne]. }
  assert (∀ b, is_Some (messages s !! b) → is_Some (<[a:=m]> (messages s) !! b)) as Hdomm.
  { intros b Hb. rewrite lookup_insert_ne; [done|]. intros ->. rewrite Ha in Hb. by destruct Hb. }
  assert (sigs' !! sg = Some false) as Hsf.
  { destruct Htk as [[Hq ->]|(_ & _ & _ & ->)]; [|apply lookup_insert_eq]. apply (V3 c k sg Hk). rewrite Hq. by left. }
  assert (∀ tg v, signals s !! tg = Some v → tg ≠ sg → sigs' !! tg = Some v) as Hso.
  { intros tg v Htg Hne. destruct Htk as [[_ ->]|(_ & _ & _ & ->)]; [done|]. by rewrite lookup_insert_ne. }
  assert (∀ b d n, H !! b = Some d → messages s !! b = Some n → signal_event n ≠ Some sg) as Hfree.
  { intros b d n Hb Hn Hs. destruct (V1 b d Hb) as (n' & tg & Hn' & Htg & _ & _ & Hst). assert (n' = n) as -> by congruence.
    assert (tg = sg) as -> by congruence. destruct Htk as [[Hq ->]|(_ & _ & Hno & _)]; [|congruence].
    eapply (V3 c k sg Hk); [rewrite Hq; by left|by exists d|done|done]. }
  assert (∀ d j tg, <[c:=k']> (clients s) !! d = Some j → tg ∈ signal_queue_ j →
    ∃ j0, clients s !! d = Some j0 ∧ tg ∈ signal_queue_ j0 ∧ tg ≠ sg) as Hq.
  { intros d j tg Hj Htg. destruct Htk as [[Hq _]|(Hq & Hq' & Hno & _)].
    - pose proof (V4 c k Hk) as Hnd. rewrite Hq in Hnd. apply NoDup_cons in Hnd as [Hnin Hnd].
      apply lookup_insert_Some in Hj as [[<- <-]|[Hne Hj]].
      + exists k. split_and!; [done|rewrite Hq; by right|]. intros ->. done.
      + exists j. split_and!; [done|done|]. intros ->. apply Hne.
        destruct (V3 c k sg Hk ltac:(rewrite Hq; by left)) as (_ & _ & Hd). symmetry. by eapply Hd.
    - apply lookup_insert_Some in Hj as [[<- <-]|[Hne Hj]]; [rewrite Hq' in Htg; by apply elem_of_nil in Htg|].
      exists j. split_and!; [done|done|]. intros ->. destruct (V3 d j sg Hj Htg) as (Hs & _). congruence. }
  split; cbn [set_clients set_messages set_signals clients dp_clis_ messages signals inbox]; try done.
  - intros d Hd. by apply Hdom, V0.
  - intros b d [[<- <-]|[Hne Hb]]%lookup_insert_Some.
    + exists m, sg. rewrite !lookup_insert_eq. rewrite bool_decide_false by done. split_and!; try done.
    + destruct (V1 b d Hb) as (n & tg & Hn & Htg & ? & ? & ?). exists n, tg. rewrite lookup_insert_ne by done.
      split_and!; try done; [by apply Hdom|]. apply Hso; [done|]. intros ->. by eapply Hfree.
  - intros b d n o tg [x Hb] [y Hd]. rewrite !lookup_insert_Some in *.
    destruct Hb as [[<- <-]|[Hne Hb]], Hd as [[<- <-]|[Hne' Hd]]; intros [[? ?]|[? Hn]] [[? ?]|[? Ho]] Hs Ht; simplify_eq; try done.
    + exfalso. by eapply (Hfree d y o).
    + exfalso. by eapply (Hfree b x n).
    + by apply (V2 b d n o tg).
  - intros d j tg Hj Htg. destruct (Hq d j tg Hj Htg) as (j0 & Hj0 & Htg0 & Hne).
    destruct (V3 d j0 tg Hj0 Htg0) as (Hs & Hno & Hd). split_and!.
    + by apply Hso.
    + intros b n Hb Hn Hsn. apply lookup_insert_Some in Hn as [[<- <-]|[Hne' Hn]]; [congruence|].
      rewrite lookup_insert_ne in Hb by done. by eapply Hno.
    + intros e i Hi Hti. destruct (Hq e i tg Hi Hti) as (i0 & Hi0 & Hti0 & _). by eapply Hd.
  - intros d j [[<- <-]|[_ Hj]]%lookup_insert_Some; [|by eapply V4].
    destruct Htk as [[Hq' _]|(_ & -> & _)]; [|constructor]. pose proof (V4 c k Hk) as Hnd. rewrite Hq' in Hnd.
    by apply NoDup_cons in Hnd as [_ Hnd].
  - assert (∀ d j0 id b, clients s !! d = Some j0 → request_map_ j0 !! id = Some b →
      <[a:=c]> H !! b = Some d ∧ ∃ n, <[a:=m]> (messages s) !! b = Some n ∧ m_id n = id) as Hold.
    { intros d j0 id b Hj Hb. destruct (V5 d j0 id b Hj Hb) as [Hh (n & Hn & Hid)]. assert (b ≠ a) by congruence.
      rewrite !lookup_insert_ne by done. eauto. }
    intros d j id b [[<- <-]|[_ Hj]]%lookup_insert_Some Hb; [|by eapply Hold].
    rewrite Hmap in Hb. apply lookup_insert_Some in Hb as [[<- <-]|[_ Hb]]; [|by eapply Hold].
    rewrite !lookup_insert_eq. eauto.
  - intros b n [[<- <-]|[Hne Hb]]%lookup_insert_Some Hr Hs; [done|]. rewrite lookup_insert_ne by done. by eapply V6.
  - intros b Hb. by apply Hdomm, V7.
  - intros d b Hin. destruct (V8 d b Hin). auto.
Qed.

Lemma release_inv H R s c k a m m' sg : Inv H R s → H !! a = Some c → clients s !! c = Some k →
  messages s !! a = Some m → signal_event m = Some sg →
  m_id m' = m_id m → signal_event m' = signal_event m → m_type m' = m_type m →
  m_type m ≠ TYPE_REQUEST ∨ is_timeout m' = true ∨ a ∈ R →
  let k' := with_queue (signal_queue_ k ++ [sg]) (with_requests (delete (m_id m)) k) in
  Inv (delete a H) R (set_clients (insert c k') (set_messages (insert a m') (set_signals (insert sg false) s))).
Proof.
  intros [V0 V1 V2 V3 V4 V5 V6 V7 V8] Ha Hk Hm Hsg Hid Hsg' Hty Hreq k'.
  assert (∀ d, is_Some (clients s !! d) → is_Some (<[c:=k']> (clients s) !! d)) as Hdom.
  { intros d Hd. destruct (decide (d = c)) as [->|]; [rewrite lookup_insert_eq; by eexists|by rewrite lookup_insert_ne]. }
  assert (∀ b, is_Some (messages s !! b) → is_Some (<[a:=m']> (messages s) !! b)) as Hdomm.
  { intros b Hb. destruct (decide (b = a)) as [->|]; [rewrite lookup_insert_eq; by eexists|by rewrite lookup_insert_ne]. }
  assert (∀ b d n, H !! b = Some d → b ≠ a → messages s !! b = Some n → signal_event n ≠ Some sg) as Hfree.
  { intros b d n Hb Hne Hn Hs. apply Hne. by eapply (V2 b a n m sg). }
  assert (∀ d j, clients s !! d = Some j → sg ∉ signal_queue_ j) as Hnq.
  { intros d j Hj Hs. destruct (V3 d j sg Hj Hs) as (_ & Hno & _). by eapply (Hno a m). }
  assert (∀ d j tg, <[c:=k']> (clients s) !! d = Some j → tg ∈ signal_queue_ j →
    (tg = sg ∧ d = c) ∨ ∃ j0, clients s !! d = Some j0 ∧ tg ∈ signal_queue_ j0 ∧ tg ≠ sg) as Hq.
  { intros d j tg [[<- <-]|[Hne Hj]]%lookup_insert_Some Htg.
    - cbn in Htg. apply elem_of_app in Htg as [Htg| ->%list_elem_of_singleton]; [|by left]. right. exists k.
      split_and!; [done|done|]. intros ->. by eapply Hnq.
    - right. exists j. split_and!; [done|done|]. intros ->. by eapply Hnq. }
  split; cbn [set_clients set_messages set_signals clients dp_clis_ messages signals inbox]; try done.
  - intros d Hd. by apply Hdom, V0.
  - intros b d [Hne Hb]%lookup_delete_Some. destruct (V1 b d Hb) as (n & tg & Hn & Htg & ? & ? & ?). exists n, tg.
    rewrite lookup_insert_ne by done. split_and!; try done; [by apply Hdom|]. rewrite lookup_insert_ne; [done|].
    intros ->. by eapply (Hfree b d n).
  - intros b d n o tg [x [Hne Hb]%lookup_delete_Some] [y [Hne' Hd]%lookup_delete_Some].
    rewrite !lookup_insert_ne by done. by apply V2.
  - intros d j tg Hj Htg. destruct (Hq d j tg Hj Htg) as [[-> ->]|(j0 & Hj0 & Htg0 & Hne)]; split_and!.
    + apply lookup_insert_eq.
    + intros b n [x [Hne Hb]%lookup_delete_Some]. rewrite lookup_insert_ne by done. by eapply Hfree.
    + intros e i Hi Hti. destruct (Hq e i sg Hi Hti) as [[_ ->]|(i0 & Hi0 & Hti0 & Hnn)]; done.
    + destruct (V3 d j0 tg Hj0 Htg0) as (Hs & _). by rewrite lookup_insert_ne.
    + intros b n [x [Hnb Hb]%lookup_delete_Some]. rewrite lookup_insert_ne by done.
      destruct (V3 d j0 tg Hj0 Htg0) as (_ & Hno & _). apply Hno. by eexists.
    + intros e i Hi Hti. destruct (Hq e i tg Hi Hti) as [[-> ->]|(i0 & Hi0 & Hti0 & _)]; [done|].
      destruct (V3 d j0 tg Hj0 Htg0) as (_ & _ & Hd). by eapply Hd.
  - intros d j [[<- <-]|[_ Hj]]%lookup_insert_Some; [|by eapply V4]. cbn. apply NoDup_app. split_and!.
    + by eapply V4.
    + intros tg Htg ->%list_elem_of_singleton. by eapply Hnq.
    + apply NoDup_singleton.
  - assert (∀ d j0 id b, clients s !! d = Some j0 → request_map_ j0 !! id = Some b → b ≠ a →
      delete a H !! b = Some d ∧ ∃ n, <[a:=m']> (messages s) !! b = Some n ∧ m_id n = id) as Hold.
    { intros d j0 id b Hj Hb Hne. destruct (V5 d j0 id b Hj Hb) as [Hh (n & Hn & Hi)].
      rewrite lookup_delete_ne, lookup_insert_ne by done. eauto. }
    intros d j id b [[<- <-]|[Hdc Hj]]%lookup_insert_Some Hb.
    + cbn in Hb. apply lookup_delete_Some in Hb as [Hne Hb]. eapply Hold; [done|done|]. intros ->.
      destruct (V5 c k id a Hk Hb) as [_ (n & Hn & Hi)]. congruence.
    + eapply Hold; [done|done|]. intros ->. destruct (V5 d j id a Hj Hb) as [Hh _]. congruence.
  - intros b n [[<- <-]|[Hne Hb]]%lookup_insert_Some Hr Hs.
    + rewrite Hty in Hr. right. destruct Hreq as [?|[?|?]]; [done|by left|by right].
    + rewrite lookup_delete_ne by done. by eapply V6.
  - intros b Hb. by apply Hdomm, V7.
  - intros d b Hin. destruct (V8 d b Hin). auto.
Qed.

(** ** The operations keep the invariant *)
Lemma held_message H R s a c : Inv H R s → H !! a = Some c →
  ∃ m sg k, messages s !! a = Some m ∧ signal_event m = Some sg ∧ is_timeout m = false ∧ clients s !! c = Some k ∧
    signals s !! sg = Some (bool_decide (a ∈ R)).
Proof. intros Hi Ha. destruct (v_held _ _ _ Hi a c Ha) as (m & sg & ? & ? & ? & [k ?] & ?). by exists m, sg, k. Qed.

(** What new_request leaves. *)
Record claimed (H : gmap nat nat) (R : gset nat) (c : nat) (k : DpClientImpl) (m : method) (type : Z) (req : list Z)
    (res : option (list Z)) (s : Process) (a : nat) (s' : Process) : Prop := {
  c_new : messages s !! a = None;
  c_inv : Inv (<[a := c]> H) R s';
  c_client : ∃ q, clients s' !! c = Some (mkClient (dp_srv_addr_ k) (packet_socket_ k) (u16 (message_id_ k + 1))
    (<[u16 (message_id_ k + 1) := a]> (request_map_ k)) (method_map_ k) q);
  c_message : ∃ clk sg, messages s' !! a = Some (mkMsg type m (u16 (message_id_ k + 1)) clk req res false TYPE_SUCCEED (Some sg));
  c_others : ∀ d, d ≠ c → clients s' !! d = clients s !! d;
  c_clis : dp_clis_ s' = dp_clis_ s;
  c_inbox : inbox s' = inbox s;
  c_sent : sent s' = sent s }.

Lemma wp_new_request U H R s c k m type req res clk : Inv H R s → clients s !! c = Some k → type ≠ TYPE_REQUEST →
  wpu U (new_request c m type req res clk) s (claimed H R c k m type req res s).
Proof.
  intros Hi Hk Ht. unfold new_request.
  set (fin := λ (sg : nat) (q : list nat) (sigs : gmap nat bool) (b : nat), mkProc
      (<[c := mkClient (dp_srv_addr_ k) (packet_socket_ k) (u16 (message_id_ k + 1))
                (<[u16 (message_id_ k + 1) := b]> (request_map_ k)) (method_map_ k) q]> (clients s)) (dp_clis_ s)
      (<[b := mkMsg type m (u16 (message_id_ k + 1)) (u32 clk) req res false TYPE_SUCCEED (Some sg)]> (messages s))
      sigs (inbox s) (sent s)).
  assert (∀ sg q sigs, taken (signal_queue_ k) (signals s) sg q sigs →
    claimed H R c k m type req res s (fresh (dom (messages s))) (fin sg q sigs (fresh (dom (messages s))))) as Hfin.
  { intros sg q sigs Htk. set (b := fresh (dom (messages s))).
    assert (messages s !! b = None) as Hb by (apply not_elem_of_dom, is_fresh). split; cbn [fin clients messages dp_clis_ inbox sent]; try done.
    - apply (claim_inv H R s c k (mkClient (dp_srv_addr_ k) (packet_socket_ k) (u16 (message_id_ k + 1))
        (<[u16 (message_id_ k + 1) := b]> (request_map_ k)) (method_map_ k) q) b
        (mkMsg type m (u16 (message_id_ k + 1)) (u32 clk) req res false TYPE_SUCCEED (Some sg)) sg sigs); done.
    - exists q. apply lookup_insert_eq.
    - eexists _, _. apply lookup_insert_eq.
    - intros d Hd. by rewrite lookup_insert_ne. }
  assert (∀ s1 sg q sigs, s1 = set_clients (insert c (with_queue q k)) (set_signals (λ _, sigs) s) →
    taken (signal_queue_ k) (signals s) sg q sigs →
    wpu U (id ← next_id c; s ← get; let a := fresh (dom (messages s)) in
      modify (set_messages (insert a (mkMsg type m id (u32 clk) req res false TYPE_SUCCEED (Some sg))));;
      update_client c (with_requests (insert id a));; mret a) s1 (claimed H R c k m type req res s)) as Hrest.
  { intros s1 sg q sigs -> Htk. apply wp_bind. unfold next_id. apply wp_bind. eapply wp_client; [apply lookup_insert_eq|].
    apply wp_bind. eapply wp_update_client; [apply lookup_insert_eq|]. apply wp_ret. rewrite set_clients_twice.
    apply wp_bind, wp_get. apply wp_bind, wp_modify. apply wp_bind. eapply wp_update_client; [apply lookup_insert_eq|].
    apply wp_ret. unfold set_messages, set_clients, set_signals. cbn. rewrite insert_insert_eq. by apply Hfin. }
  apply wp_bind. unfold GetSignal. apply wp_bind. eapply wp_client; [exact Hk|].
  destruct (signal_queue_ k) as [|sg q] eqn:Eq.
  - apply wp_bind, wp_get. apply wp_bind. unfold ResetTriggerSignal. apply wp_modify, wp_ret.
    eapply (Hrest _ _ []).
    + unfold set_clients, set_signals. cbn. f_equal. symmetry. apply insert_id. rewrite Hk. f_equal. destruct k. cbn in Eq. by rewrite Eq.
    + right. split_and!; [done|done| |done]. apply not_elem_of_dom, is_fresh.
  - apply wp_bind. eapply wp_update_client; [done|]. apply wp_ret. apply (Hrest _ sg q (signals s)).
    + unfold set_clients, set_signals. by destruct s.
    + by left.
Qed.

(** SendPacket resets the counter when it is used up, and writes. *)
Lemma wp_SendPacket U pid H R s c k mid type lt m d sid : Inv H R s → clients s !! c = Some k →
  wpu U (SendPacket pid c mid type lt m d sid) s (λ b s', b = packet_socket_ k ∧ Inv H R s' ∧
    (∃ n, clients s' = <[c := with_ids n k]> (clients s)) ∧ messages s' = messages s ∧ inbox s' = inbox s ∧
    sent s' = sent s ++ if b then [(c, dp_packet (u8 type) (u8 lt) pid mid sid 0 m d)] else []).
Proof.
  intros Hi Hk. unfold SendPacket. apply wp_bind. eapply wp_client; [done|].
  set (n := if 65534 <? message_id_ k then 0 else message_id_ k). apply wp_bind.
  assert (wpu U (when (65534 <? message_id_ k) (update_client c (with_ids 0))) s
    (λ _ s', s' = set_clients (insert c (with_ids n k)) s)) as Hw.
  { unfold n. destruct (65534 <? message_id_ k); cbn [when].
    - by eapply wp_update_client.
    - apply wp_ret. unfold set_clients. rewrite insert_id; [by destruct s|]. rewrite Hk. by destruct k. }
  eapply wp_mono; [exact Hw|]. intros _ s' ->.
  assert (Inv H R (set_clients (insert c (with_ids n k)) s)) as Hi' by by eapply client_inv.
  destruct (packet_socket_ k).
  - apply wp_bind, wp_modify, wp_ret. split_and!; try done; [by apply sent_inv|by exists n].
  - apply wp_ret. split_and!; try done; [by exists n|]. cbn. by rewrite app_nil_r.
Qed.

(** Local handlers get the message with the type they registered. *)
Lemma wp_dispatch U H R c a c' l : ∀ s m et n, Inv H R s → H !! a = Some c' → messages s !! a = Some m →
  m_type m ≠ TYPE_REQUEST → (∀ d, d ∈ l → is_Some (clients s !! d)) →
  wpu U (dispatch_loop l c a et n) s (λ r s', Inv H R s' ∧ clients s' = clients s ∧ sent s' = sent s ∧
    ∃ t, messages s' !! a = Some (msg_type t m) ∧ (t = TYPE_REQUEST → r.2 = TYPE_REQUEST)).
Proof.
  induction l as [|d l IH]; intros s m et n Hi Ha Hm Ht Hl; cbn [dispatch_loop].
  { apply wp_ret. split_and!; try done. exists (m_type m). split; [by rewrite Hm; destruct m|]. done. }
  assert (∀ e, e ∈ l → is_Some (clients s !! e)) as Hl' by (intros; apply Hl; by right).
  case_decide; [by apply IH|]. destruct (Hl d ltac:(by left)) as [k Hk].
  apply wp_bind. unfold LocalHandleRequest. apply wp_bind. eapply wp_message; [done|]. apply wp_bind.
  eapply wp_client; [done|]. destruct (method_map_ k !! m_method m) as [t|].
  2: { apply wp_ret. change (TYPE_INVALID =? TYPE_INVALID) with true. cbn iota. by apply IH. }
  apply wp_bind. eapply wp_update_message; [done|]. apply wp_bind, wp_modify, wp_ret.
  assert (Inv H R (add_inbox [(d, a)] (set_messages (insert a (msg_type t m)) s))) as Hi'.
  { apply inbox_inv; cbn [set_messages messages clients]; [|rewrite lookup_insert_eq; by eexists|by eexists].
    eapply message_inv; try done. intros _. right. left. by exists c'. }
  assert (messages (add_inbox [(d, a)] (set_messages (insert a (msg_type t m)) s)) !! a = Some (msg_type t m)) as Hm'
    by apply lookup_insert_eq.
  assert (∀ n et, t ≠ TYPE_REQUEST → wpu U (dispatch_loop l c a et n) (add_inbox [(d, a)] (set_messages (insert a (msg_type t m)) s))
    (λ r s', Inv H R s' ∧ clients s' = clients s ∧ sent s' = sent s ∧
      ∃ t, messages s' !! a = Some (msg_type t m) ∧ (t = TYPE_REQUEST → r.2 = TYPE_REQUEST))) as Hgo.
  { intros n' et' Htr. exact (IH _ (msg_type t m) et' n' Hi' Ha Hm' Htr Hl'). }
  destruct (Z.eqb_spec t TYPE_INVALID) as [->|Hni]; [by apply Hgo|].
  destruct (Z.eqb_spec t TYPE_REQUEST) as [->|Hnr]; [|by apply Hgo].
  apply wp_ret. split_and!; try done. by exists TYPE_REQUEST.
Qed.

Lemma set_messages_id a m s : messages s !! a = Some m → set_messages (insert a m) s = s.
Proof. intros Hm. unfold set_messages. rewrite insert_id by done. by destruct s. Qed.
Lemma set_signals_id sg b s : signals s !! sg = Some b → set_signals (insert sg b) s = s.
Proof. intros Hs. unfold set_signals. rewrite insert_id by done. by destruct s. Qed.

Lemma wp_finish H R s c a m m' sg k : Inv H R s → H !! a = Some c → clients s !! c = Some k →
  messages s !! a = Some m → signal_event m = Some sg →
  m_id m' = m_id m → signal_event m' = signal_event m → m_type m' = m_type m →
  m_type m ≠ TYPE_REQUEST ∨ is_timeout m' = true ∨ a ∈ R →
  wp (finish c a) (set_messages (insert a m') (set_signals (insert sg false) s)) (λ _ s', Inv (delete a H) R s').
Proof.
  intros Hi Ha Hk Hm Hsg E1 E2 E3 Hreq. unfold finish. apply wp_bind.
  eapply wp_message; [apply lookup_insert_eq|]. apply wp_bind. unfold erase_request. eapply wp_update_client; [done|].
  rewrite E2, Hsg. cbn [PutSignal]. eapply wp_update_client; [apply lookup_insert_eq|]. rewrite set_clients_twice, E1.
  by apply (release_inv H R s c k a m m' sg).
Qed.

Lemma wp_give_up H R s c a m ret : Inv H R s → H !! a = Some c → a ∉ R → messages s !! a = Some m →
  m_type m ≠ TYPE_REQUEST →
  wp (give_up_request c a ret) s (λ r s', r = Returns ret ∧ Inv (delete a H) R s').
Proof.
  intros Hi Ha Hr Hm Ht. destruct (held_message _ _ _ _ _ Hi Ha) as (m0 & sg & k & Hm0 & Hsg & _ & Hk & Hs).
  assert (m0 = m) as -> by congruence. rewrite bool_decide_false in Hs by done.
  pose proof (wp_finish H R s c a m m sg k Hi Ha Hk Hm Hsg eq_refl eq_refl eq_refl (or_introl Ht)) as Hf.
  rewrite set_messages_id, set_signals_id in Hf by (done || by rewrite set_signals_id).
  unfold give_up_request. unfold finish in Hf. unfold wpu in Hf |- *. rewrite run_bind in Hf. rewrite run_bind.
  destruct (message a s) as [[n s1]|u]; [|exact Hf]. cbn beta iota in Hf |- *. rewrite run_bind in Hf. rewrite run_bind.
  destruct (erase_request c (m_id n) s1) as [[[] s2]|u]; [|exact Hf]. cbn beta iota in Hf |- *. rewrite run_bind.
  by destruct (PutSignal c (signal_event n) s2) as [[[] s3]|u].
Qed.

(** A call returns, with its signal back in the pool. *)
Lemma wp_done H R s c a : Inv H R s → H !! a = Some c → a ∈ R →
  wp (SendDpMessage_done c a) s (λ _ s', Inv (delete a H) R s').
Proof.
  intros Hi Ha Hr. destruct (held_message _ _ _ _ _ Hi Ha) as (m & sg & k & Hm & Hsg & _ & Hk & Hs).
  unfold SendDpMessage_done. apply wp_bind. eapply wp_message; [done|]. apply wp_bind. unfold signal_of. rewrite Hsg.
  apply wp_ret, wp_bind. unfold ResetTriggerSignal. apply wp_modify, wp_bind.
  pose proof (wp_finish H R s c a m m sg k Hi Ha Hk Hm Hsg eq_refl eq_refl eq_refl (or_intror (or_intror Hr))) as Hf.
  rewrite set_messages_id in Hf by done. eapply wp_mono; [exact Hf|]. done.
Qed.
Lemma wp_timeout H R s c a : Inv H R s → H !! a = Some c →
  wp (SendDpMessage_timeout c a) s (λ r s', r = (TYPE_FAILURE, None) ∧ Inv (delete a H) R s').
Proof.
  intros Hi Ha. destruct (held_message _ _ _ _ _ Hi Ha) as (m & sg & k & Hm & Hsg & _ & Hk & Hs).
  unfold SendDpMessage_timeout, expire_call. apply wp_bind. apply wp_bind. eapply wp_update_message; [done|].
  apply wp_bind. eapply wp_message; [apply lookup_insert_eq|]. apply wp_bind. unfold signal_of. cbn [msg_timed_out signal_event].
  rewrite Hsg. apply wp_ret. unfold ResetTriggerSignal. apply wp_modify, wp_bind.
  eapply wp_mono; [apply (wp_finish H R s c a m (msg_timed_out m) sg k); auto|]. done.
Qed.

(** A call that starts waits on a message of its own or leaves nothing behind. *)
Definition begun (H : gmap nat nat) (R : gset nat) (c : nat) (r : call_start) (s' : Process) : Prop :=
  match r with Returns _ => Inv H R s' | Waits a => H !! a = None ∧ Inv (<[a := c]> H) R s' end.

Lemma not_held H R s a : Inv H R s → messages s !! a = None → H !! a = None ∧ a ∉ R.
Proof.
  intros Hi Ha. split.
  - destruct (H !! a) as [d|] eqn:E; [|done]. destruct (v_held _ _ _ Hi a d E) as (n & ? & Hn & _). congruence.
  - intros Hr. destruct (v_rep _ _ _ Hi a Hr). congruence.
Qed.

Lemma wp_give_up_new H R s0 s c a m ret : Inv H R s0 → messages s0 !! a = None → Inv (<[a := c]> H) R s →
  messages s !! a = Some m → m_type m ≠ TYPE_REQUEST → wp (give_up_request c a ret) s (begun H R c).
Proof.
  intros Hi0 Ha Hi Hm Ht. destruct (not_held _ _ _ _ Hi0 Ha) as [Hh Hr].
  eapply wp_mono; [apply (wp_give_up _ _ _ _ _ _ _ Hi (lookup_insert_eq _ _ _) Hr Hm Ht)|].
  intros r s' [-> Hi']. cbn [begun]. by rewrite delete_insert_id in Hi'.
Qed.

(** From here on the packet to the server goes out, or the call gives up. *)
Lemma wp_send_or_give_up pid H R s0 s c a k m type lt me d sid ret : Inv H R s0 → messages s0 !! a = None →
  Inv (<[a := c]> H) R s → clients s !! c = Some k → messages s !! a = Some m → m_type m ≠ TYPE_REQUEST →
  wp (bret ← SendPacket pid c (m_id m) type lt me d sid;
      if negb bret then give_up_request c a ret else mret (Waits a)) s (begun H R c).
Proof.
  intros Hi0 Ha Hi Hk Hm Ht. apply wp_bind. eapply wp_mono; [by eapply wp_SendPacket|].
  intros b s' (-> & Hi' & _ & Hm' & _). destruct (packet_socket_ k); cbn [negb].
  - apply wp_ret. split; [by eapply not_held|done].
  - eapply wp_give_up_new; [done|done|done| |done]. by rewrite Hm'.
Qed.

Lemma wp_SendDpMessage pid H R s c k m sid d clk : Inv H R s → clients s !! c = Some k →
  wp (SendDpMessage pid c m sid d clk) s (begun H R c).
Proof.
  intros Hi Hk. unfold SendDpMessage. destruct (_ =? _); [by apply wp_ret|]. apply wp_bind.
  eapply wp_mono; [by eapply wp_new_request|]. intros a s1 [C1 C2 (q & C3) (clk' & sg & C4) _ _ _ _].
  apply wp_bind. unfold ProcessDpRequest. apply wp_bind, wp_get.
  eapply wp_mono; [eapply wp_dispatch; [exact C2|apply lookup_insert_eq|exact C4|done|by apply C2]|].
  intros [n et] s2 (I2 & E2 & _ & t & M2 & Ht). cbn [snd] in Ht. apply wp_bind. eapply wp_client; [by rewrite E2|].
  cbn [dp_srv_addr_]. destruct (Z.eqb_spec et TYPE_REQUEST) as [->|Hne].
  { apply wp_ret. split; [by eapply not_held|done]. }
  assert (t ≠ TYPE_REQUEST) as Htn by auto.
  destruct (dp_srv_addr_ k); cbn [negb].
  - apply wp_bind. eapply wp_message; [done|]. eapply wp_send_or_give_up; try done. by rewrite E2.
  - destruct (et =? TYPE_MESSAGE); [by eapply wp_give_up_new|]. apply wp_ret. split; [by eapply not_held|done].
Qed.

Lemma wp_SendRemoteMessage pid H R s c k m ty sid d clk : Inv H R s → clients s !! c = Some k →
  wp (SendRemoteMessage pid c m ty sid d clk) s (begun H R c).
Proof.
  intros Hi Hk. unfold SendRemoteMessage. destruct (_ =? _); [by apply wp_ret|]. apply wp_bind.
  eapply wp_mono; [by eapply wp_new_request|]. intros a s1 [C1 C2 (q & C3) (clk' & sg & C4) _ _ _ _].
  apply wp_bind. eapply wp_client; [done|]. cbn [dp_srv_addr_]. destruct (dp_srv_addr_ k); cbn [negb].
  - apply wp_bind. eapply wp_message; [done|]. by eapply wp_send_or_give_up.
  - destruct (ty =? TYPE_MESSAGE); [by eapply wp_give_up_new|]. apply wp_ret. split; [by eapply not_held|done].
Qed.

Lemma wp_ListenMessage pid H R s c k m ty clk : Inv H R s → clients s !! c = Some k →
  wp (ListenMessage pid c m ty clk) s (begun H R c).
Proof.
  intros Hi Hk. unfold ListenMessage. destruct (_ || _); [by apply wp_ret|]. apply wp_bind.
  eapply wp_update_client; [done|]. set (k1 := with_methods _ k).
  assert (Inv H R (set_clients (insert c k1) s)) as Hi1 by by eapply client_inv.
  apply wp_bind. eapply wp_client; [apply lookup_insert_eq|]. destruct (dp_srv_addr_ k1); cbn [negb]; [|by apply wp_ret].
  apply wp_bind. eapply wp_mono; [eapply (wp_new_request _ H R _ c k1); [done|apply lookup_insert_eq|done]|].
  intros a s1 [C1 C2 (q & C3) (clk' & sg & C4) _ _ _ _]. apply wp_bind. eapply wp_message; [done|].
  by eapply wp_send_or_give_up.
Qed.

(** *** Packets and answers *)
Lemma wp_post_message H R s c type h : Inv H R s → is_Some (clients s !! c) →
  wp (post_message c type h) s (λ _ s', Inv H R s').
Proof.
  intros Hi Hc. unfold post_message. apply wp_bind, wp_body. intros m. apply wp_bind, wp_body. intros d.
  apply wp_bind, wp_get. apply wp_bind, wp_modify, wp_modify.
  apply inbox_inv; [|cbn; rewrite lookup_insert_eq; by eexists|done]. apply new_message_inv; [done| |done].
  apply not_elem_of_dom, is_fresh.
Qed.

(** The call a packet or an answer is for. *)
Definition reply_target (c : nat) (packet : list Z) (s : Process) : option nat :=
  let h := as_header packet in
  k ← clients s !! c;
  a ← request_map_ k !! message_id h;
  m ← messages s !! a;
  if (sizeof_DpNetMsgHeader <? zlen packet) && negb (is_timeout m) &&
     ((d_type h =? TYPE_REPLY) || (d_type h =? TYPE_ADD_MESSAGE) && (m_type m =? TYPE_ADD_MESSAGE))
  then Some a else None.
Definition answer_target (a : nat) (s : Process) : option nat :=
  m ← messages s !! a;
  if (m_type m =? TYPE_REQUEST) && negb (is_timeout m) && bool_decide (is_Some (signal_event m)) then Some a else None.
Definition answered (t : option nat) (R : gset nat) : gset nat :=
  match t with Some a => {[a]} ∪ R | None => R end.

Lemma wp_deliver_reply H R s a c m h : Inv H R s → H !! a = Some c → messages s !! a = Some m → d_type h ≠ TYPE_REQUEST →
  wp (deliver_reply a h) s (λ _ s', Inv H ({[a]} ∪ R) s').
Proof.
  intros Hi Ha Hm Hty. destruct (held_message _ _ _ _ _ Hi Ha) as (m0 & sg & _ & Hm0 & Hsg & _).
  assert (m0 = m) as -> by congruence. unfold deliver_reply. apply wp_bind. eapply wp_message; [done|].
  assert (∀ s1 m1, Inv H R s1 → messages s1 !! a = Some m1 → signal_event m1 = Some sg →
    wp (update_message a (λ m, msg_result (result h) (msg_type (d_type h) m));; sg ← signal_of m; TriggerSignal sg) s1
      (λ _ s', Inv H ({[a]} ∪ R) s')) as Hrest.
  { intros s1 m1 Hi1 Hm1 Hsg1. apply wp_bind. eapply wp_update_message; [done|]. apply wp_bind. unfold signal_of. rewrite Hsg.
    apply wp_ret. unfold TriggerSignal. apply wp_modify. eapply trigger_inv; [|done|apply lookup_insert_eq|done].
    by eapply message_inv. }
  apply wp_bind. destruct (0 <? data_size h); cbn [when]; [|by eapply Hrest].
  apply wp_bind, wp_body. intros d. destruct (res_buffer m) as [r|]; [|by right].
  eapply wp_update_message; [done|]. eapply Hrest; [eapply message_inv; try done; by left|apply lookup_insert_eq|done].
Qed.

Lemma wp_packet H R s c k packet : Inv H R s → clients s !! c = Some k →
  wp (OnSocketReadComplete c packet) s (λ _ s', Inv H (answered (reply_target c packet s) R) s').
Proof.
  intros Hi Hk. set (t := reply_target c packet s).
  assert (t = reply_target c packet s) as Et by done. unfold reply_target in Et. rewrite Hk in Et. cbn [mbind option_bind] in Et.
  unfold OnSocketReadComplete. set (h := as_header packet) in *.
  rewrite (Z.ltb_antisym (zlen packet)) in Et. destruct (zlen packet <=? sizeof_DpNetMsgHeader); cbn [negb andb] in Et.
  { apply wp_ret. assert (t = None) as ->; [|done]. rewrite Et. destruct (request_map_ k !! _) as [a|]; [|done]. cbn.
    by destruct (messages s !! a). }
  assert ((d_type h =? TYPE_REPLY) = false → (d_type h =? TYPE_ADD_MESSAGE) = false → t = None) as Hnone.
  { intros E1 E2. rewrite Et, E1, E2. cbn. destruct (request_map_ k !! _) as [a|]; [|done]. cbn.
    destruct (messages s !! a) as [m|]; [|done]. cbn. by rewrite andb_false_r. }
  destruct (Z.eqb_spec (d_type h) TYPE_MESSAGE) as [E|_].
  { rewrite Hnone by by rewrite E. apply wp_post_message; [done|by eexists]. }
  destruct (Z.eqb_spec (d_type h) TYPE_REQUEST) as [E|_].
  { rewrite Hnone by by rewrite E. apply wp_post_message; [done|by eexists]. }
  destruct (Z.eqb_spec (d_type h) TYPE_REPLY) as [E|E1].
  - clear Hnone. unfold OnReqReplayMessage, find_request. apply wp_bind, wp_bind. eapply wp_client; [done|].
    destruct (request_map_ k !! message_id h) as [a|] eqn:Ea; cbn [mbind option_bind] in Et.
    2: { apply wp_ret. rewrite Et. apply wp_bind, wp_body. intros _. apply wp_bind, wp_body. intros _. by apply wp_ret. }
    destruct (v_map _ _ _ Hi c k _ a Hk Ea) as [Hh (m & Hm & _)]. rewrite Hm in Et. cbn [mbind option_bind] in Et.
    rewrite andb_true_r in Et. apply wp_bind. eapply wp_message; [done|]. apply wp_ret. rewrite Et.
    destruct (is_timeout m); cbn [negb answered].
    + apply wp_bind, wp_body. intros _. apply wp_bind, wp_body. intros _. by apply wp_ret.
    + eapply wp_deliver_reply; [done|done|done|]. by rewrite E.
  - destruct (Z.eqb_spec (d_type h) TYPE_ADD_MESSAGE) as [E|E2]; [|rewrite Hnone by done; by apply wp_ret].
    clear Hnone. cbn [orb andb] in Et. unfold OnAddReplayMessage. apply wp_bind. eapply wp_client; [done|].
    destruct (request_map_ k !! message_id h) as [a|] eqn:Ea; cbn [mbind option_bind] in Et; [|rewrite Et; by apply wp_ret].
    destruct (v_map _ _ _ Hi c k _ a Hk Ea) as [Hh (m & Hm & _)]. rewrite Hm in Et. cbn [mbind option_bind] in Et.
    apply wp_bind. eapply wp_message; [done|]. rewrite Et.
    destruct (Z.eqb_spec (m_type m) TYPE_ADD_MESSAGE) as [Em|Em]; cbn [negb orb];
      [|rewrite andb_false_r; by apply wp_ret]. rewrite andb_true_r.
    destruct (is_timeout m) eqn:Eto; cbn [negb answered]; [by apply wp_ret|].
    destruct (held_message _ _ _ _ _ Hi Hh) as (m0 & sg & _ & Hm0 & Hsg & _). assert (m0 = m) as -> by congruence.
    apply wp_bind. eapply wp_update_message; [done|]. apply wp_bind. unfold signal_of. rewrite Hsg. apply wp_ret.
    unfold TriggerSignal. apply wp_modify. eapply trigger_inv; [|done|apply lookup_insert_eq|done]. eapply message_inv; try done.
    cbn. by rewrite Em.
Qed.

(** What a handler does with a message: it writes its answer and sends it. *)
Definition handler_answer (pid : Z) (d a : nat) (data : list Z) : CL bool :=
  update_message a (msg_res (Some data));; SendDpReply pid d a.

Lemma wp_answer pid H R s d a data : Inv H R s → (d, a) ∈ inbox s → a ∉ R →
  wp (handler_answer pid d a data) s (λ _ s', Inv H (answered (answer_target a s) R) s').
Proof.
  intros Hi Hin Hr. destruct (v_inbox _ _ _ Hi d a Hin) as [[m Hm] [k Hk]].
  unfold answer_target. rewrite Hm. cbn [mbind option_bind]. unfold handler_answer. apply wp_bind. eapply wp_update_message; [done|].
  set (m1 := msg_res (Some data) m). set (s1 := set_messages _ s).
  assert (Inv H R s1) as Hi1 by (eapply message_inv; try done; by left).
  assert (messages s1 !! a = Some m1) as Hm1 by apply lookup_insert_eq.
  unfold SendDpReply. apply wp_bind. eapply wp_message; [done|]. change (m_type m1) with (m_type m).
  destruct (Z.eqb_spec (m_type m) TYPE_REQUEST) as [Et|Et]; cbn [negb andb]; [|by apply wp_ret].
  change (is_timeout m1) with (is_timeout m). destruct (is_timeout m) eqn:Eto; cbn [negb andb]; [by apply wp_ret|].
  change (signal_event m1) with (signal_event m). destruct (signal_event m) as [sg|] eqn:Esg.
  - rewrite bool_decide_true by by eexists. cbn [answered].
    destruct (v_req _ _ _ Hi a m Hm Et) as [[c Hc]|[?|?]]; [by rewrite Esg; eexists| |congruence|done].
    apply wp_bind. unfold TriggerSignal. apply wp_modify, wp_ret. by eapply trigger_inv.
  - rewrite bool_decide_false by (intros [? ?]; done). cbn [answered].
    apply wp_bind. eapply wp_client; [exact Hk|]. destruct (dp_srv_addr_ k); [|by apply wp_ret].
    apply wp_bind. eapply wp_update_message; [done|]. set (s2 := set_messages _ s1).
    assert (Inv H R s2) as Hi2 by by eapply message_inv.
    eapply wp_mono; [by eapply (wp_SendPacket _ _ H R s2 d k)|]. by intros b s3 (_ & ? & _).
Qed.

(** ** Interleavings

    A caller between its start and its return, the event thread and the
    handlers take turns; each does one definition of DpClient.v at a time.
    [returned] has what the calls that waited came back with. *)
Section system.
Context (pid : Z).

Record Sys := mkSys {
  proc : Process;
  held : gmap nat nat;
  replied : gset nat;
  returned : list (nat * (Z * option (list Z))) }.
Inductive clabel :=
| Create (c : nat) (server : bool)
| Destroy (c : nat)
| Connected (c : nat) (name : list Z)
| Broken (c : nat)
| Send (c : nat) (m : method) (sid : Z) (data : list Z) (clock : Z)
| SendRemote (c : nat) (m : method) (type sid : Z) (data : list Z) (clock : Z)
| Listen (c : nat) (m : method) (type clock : Z)
| Unlisten (c : nat) (m : method)
| Arrive (c : nat) (packet : list Z)
| Answer (d a : nat) (data : list Z)
| Done (a : nat)
| Timeout (a : nat).

Definition signal_set (s : Process) (a : nat) : bool :=
  match messages s !! a with
  | Some m => match signal_event m with Some sg => default false (signals s !! sg) | None => false end
  | None => false
  end.

(** What can happen: a handler has the message and answers it once; WaitSignal
    returns SIGNAL_EVENT_DONE if the signal is set and else times out. *)
Definition clabel_ok (st : Sys) (l : clabel) : Prop :=
  match l with
  | Create c _ => clients (proc st) !! c = None
  | Destroy _ => True
  | Connected c _ | Broken c | Send c _ _ _ _ | SendRemote c _ _ _ _ _ | Listen c _ _ _ | Unlisten c _ | Arrive c _ =>
      is_Some (clients (proc st) !! c)
  | Answer d a _ => (d, a) ∈ inbox (proc st) ∧ a ∉ replied st
  | Done a => is_Some (held st !! a) ∧ signal_set (proc st) a = true
  | Timeout a => is_Some (held st !! a) ∧ signal_set (proc st) a = false
  end.

Definition plain (m : CL unit) (t : option nat) (st : Sys) : res Sys :=
  '(_, s) ← m (proc st); mret (mkSys s (held st) (answered t (replied st)) (returned st)).
Definition start_call (c : nat) (m : CL call_start) (st : Sys) : res Sys :=
  '(r, s) ← m (proc st);
  mret (mkSys s (match r with Returns _ => held st | Waits a => <[a := c]> (held st) end) (replied st) (returned st)).
Definition end_call (a : nat) (m : nat → CL (Z * option (list Z))) (st : Sys) : res Sys :=
  match held st !! a with
  | Some c => '(v, s) ← m c (proc st); mret (mkSys s (delete a (held st)) (replied st) (returned st ++ [(a, v)]))
  | None => mret st
  end.
Definition cstep (l : clabel) (st : Sys) : res Sys :=
  match l with
  | Create c server => plain (CreateDpClient c server) None st
  | Destroy c => plain (DestoryDpClient c) None st
  | Connected c name => plain (OnSocketConnectEvent pid c name) None st
  | Broken c => plain (OnSocketErrorEvent c) None st
  | Send c m sid data clock => start_call c (SendDpMessage pid c m sid data clock) st
  | SendRemote c m type sid data clock => start_call c (SendRemoteMessage pid c m type sid data clock) st
  | Listen c m type clock => start_call c (ListenMessage pid c m type clock) st
  | Unlisten c m => plain (RemoveMessage pid c m) None st
  | Arrive c packet => plain (OnSocketReadComplete c packet) (reply_target c packet (proc st)) st
  | Answer d a data => plain (_ ← handler_answer pid d a data; mret tt) (answer_target a (proc st)) st
  | Done a => end_call a (λ c, SendDpMessage_done c a) st
  | Timeout a => end_call a (λ c, SendDpMessage_timeout c a) st
  end.
Inductive csteps : Sys → Sys → Prop :=
| csteps_refl st : csteps st st
| csteps_step st l st1 st2 : csteps st st1 → clabel_ok st1 l → cstep l st1 = Ok st2 → csteps st st2.

Definition start_process : Sys := mkSys (mkProc ∅ [] ∅ ∅ [] []) ∅ ∅ [].
Definition SInv (st : Sys) : Prop := Inv (held st) (replied st) (proc st).

Lemma start_calls_inv : SInv start_process.
Proof.
  split; cbn; intros; try (match goal with
    | E : _ ∈ [] |- _ => by apply elem_of_nil in E
    | E : _ ∈ ∅ |- _ => set_solver
    | E : ∅ !! ?c = Some _ |- _ => by destruct (lookup_empty_Some (M:=gmap nat) c _ E)
    end).
Qed.

Lemma signal_set_held st a c : SInv st → held st !! a = Some c → signal_set (proc st) a = bool_decide (a ∈ replied st).
Proof.
  intros Hi Ha. destruct (held_message _ _ _ _ _ Hi Ha) as (m & sg & k & Hm & Hsg & _ & _ & Hs).
  unfold signal_set. by rewrite Hm, Hsg, Hs.
Qed.

Definition step_ok (r : res Sys) : Prop := match r with Ok st => SInv st | Ub u => packet_ub u end.

Lemma plain_ok m t st : wp m (proc st) (λ _ s', Inv (held st) (answered t (replied st)) s') → step_ok (plain m t st).
Proof. unfold wpu, plain. destruct (m (proc st)) as [[[] s']|u]; done. Qed.
Lemma start_call_ok c m st : wp m (proc st) (begun (held st) (replied st) c) → step_ok (start_call c m st).
Proof.
  unfold wpu, start_call. destruct (m (proc st)) as [[[r|a] s']|u]; cbn; [done| |done]. by intros [_ ?].
Qed.
Lemma end_call_ok a c m st : held st !! a = Some c →
  wp (m c) (proc st) (λ _ s', Inv (delete a (held st)) (replied st) s') → step_ok (end_call a m st).
Proof. intros Hc. unfold wpu, end_call. rewrite Hc. by destruct (m c (proc st)) as [[v s']|u]. Qed.

Lemma wp_RemoveMessage H R s c k m : Inv H R s → clients s !! c = Some k →
  wp (RemoveMessage pid c m) s (λ _ s', Inv H R s').
Proof.
  intros Hi Hk. unfold RemoveMessage. destruct (_ =? _); [by apply wp_ret|]. apply wp_bind.
  eapply wp_update_client; [done|]. set (k1 := with_methods _ k).
  assert (Inv H R (set_clients (insert c k1) s)) as Hi1 by by eapply client_inv.
  apply wp_bind. eapply wp_client; [apply lookup_insert_eq|]. destruct (negb (dp_srv_addr_ k1)); [by apply wp_ret|].
  apply wp_bind. unfold next_id. apply wp_bind. eapply wp_client; [apply lookup_insert_eq|]. apply wp_bind.
  eapply wp_update_client; [apply lookup_insert_eq|]. apply wp_ret. apply wp_bind.
  eapply wp_mono; [eapply (wp_SendPacket _ pid H R); [|apply lookup_insert_eq]|].
  - eapply client_inv; [done|apply lookup_insert_eq|done|done].
  - intros b s' (_ & ? & _). by apply wp_ret.
Qed.

Lemma wp_OnSocketConnectEvent H R s c k name : Inv H R s → clients s !! c = Some k →
  wp (OnSocketConnectEvent pid c name) s (λ _ s', Inv H R s').
Proof.
  intros Hi Hk. unfold OnSocketConnectEvent. apply wp_bind. eapply wp_update_client; [done|].
  assert (Inv H R (set_clients (insert c (with_socket true k)) s)) as Hi1 by by eapply client_inv.
  apply wp_bind. unfold next_id. apply wp_bind. eapply wp_client; [apply lookup_insert_eq|]. apply wp_bind.
  eapply wp_update_client; [apply lookup_insert_eq|]. apply wp_ret. apply wp_bind.
  eapply wp_mono; [eapply (wp_SendPacket _ pid H R); [|apply lookup_insert_eq]|].
  - eapply client_inv; [done|apply lookup_insert_eq|done|done].
  - intros b s' (_ & ? & _). by apply wp_ret.
Qed.

Lemma wp_CreateDpClient H R s c b : Inv H R s → clients s !! c = None →
  wp (CreateDpClient c b) s (λ _ s', Inv H R s').
Proof.
  intros [V0 V1 V2 V3 V4 V5 V6 V7 V8] Hc. unfold CreateDpClient. apply wp_bind, wp_modify, wp_modify.
  set (k := mkClient b false 0 ∅ ∅ []).
  assert (∀ d, is_Some (clients s !! d) → is_Some (<[c:=k]> (clients s) !! d)) as Hdom.
  { intros d Hd. rewrite lookup_insert_ne; [done|]. intros <-. rewrite Hc in Hd. by destruct Hd. }
  assert (Inv H R (set_clients (insert c k) s)) as Hi.
  { split; cbn [set_clients clients dp_clis_ messages signals inbox]; try done.
    - intros d Hd. by apply Hdom, V0.
    - intros a d Ha. destruct (V1 a d Ha) as (m & sg & ? & ? & ? & ? & ?). exists m, sg. split_and!; auto.
    - intros d j sg [[<- <-]|[Hne Hj]]%lookup_insert_Some Hs; [by apply elem_of_nil in Hs|].
      destruct (V3 d j sg Hj Hs) as (? & ? & Hd). split_and!; [done|done|].
      intros e i [[<- <-]|[_ Hi]]%lookup_insert_Some Hs'; [by apply elem_of_nil in Hs'|by eapply Hd].
    - intros d j [[<- <-]|[_ Hj]]%lookup_insert_Some; [constructor|by eapply V4].
    - intros d j id a [[<- <-]|[_ Hj]]%lookup_insert_Some Ha; [by destruct (lookup_empty_Some (M:=gmap Z) id a)|by eapply V5].
    - intros d a Hin. destruct (V8 d a Hin). auto. }
  case_decide; [done|]. destruct Hi. split; cbn [clients dp_clis_ messages signals inbox]; try done.
  intros d [Hd|Hd%list_elem_of_singleton]%elem_of_app; [auto|]. subst. cbn. rewrite lookup_insert_eq. by eexists.
Qed.

(** Every step keeps the invariant, and goes wrong only by its packet. *)
Lemma cstep_ok st l : SInv st → clabel_ok st l → step_ok (cstep l st).
Proof.
  intros Hi. destruct l; cbn [clabel_ok cstep].
  - intros Hc. by apply plain_ok, wp_CreateDpClient.
  - intros _. apply plain_ok. apply wp_modify. destruct Hi. split; cbn [clients dp_clis_ messages signals inbox]; try done.
    intros d [_ Hd]%list_elem_of_filter. auto.
  - intros [k Hk]. by eapply plain_ok, wp_OnSocketConnectEvent.
  - intros [k Hk]. apply plain_ok. unfold OnSocketErrorEvent. eapply wp_update_client; [done|].
    eapply client_inv; [done|done| |done]. intros id a Ha. by destruct (lookup_empty_Some (M:=gmap Z) id a).
  - intros [k Hk]. by eapply start_call_ok, wp_SendDpMessage.
  - intros [k Hk]. by eapply start_call_ok, wp_SendRemoteMessage.
  - intros [k Hk]. by eapply start_call_ok, wp_ListenMessage.
  - intros [k Hk]. by eapply plain_ok, wp_RemoveMessage.
  - intros [k Hk]. by eapply plain_ok, wp_packet.
  - intros [Hin Hr]. apply plain_ok, wp_bind. eapply wp_mono; [by apply wp_answer|]. done.
  - intros [[c Hc] Hs]. eapply end_call_ok; [done|]. apply wp_done; [done|done|].
    rewrite (signal_set_held st a c Hi Hc) in Hs. by apply bool_decide_eq_true in Hs.
  - intros [[c Hc] _]. eapply end_call_ok; [done|]. eapply wp_mono; [by apply wp_timeout|]. by intros r s' [_ ?].
Qed.

Lemma csteps_inv st st' : SInv st → csteps st st' → SInv st'.
Proof.
  intros Hi Hs. induction Hs as [st|st l st1 st2 _ IH Hl Hr]; [done|].
  pose proof (cstep_ok st1 l (IH Hi) Hl) as Ho. by rewrite Hr in Ho.
Qed.
Lemma reached_inv st : csteps start_process st → SInv st.
Proof. apply csteps_inv, start_calls_inv. Qed.

(** C32. Whether a call returns with an answer depends on that call alone: in
    every state that any number of calls, answers, time-outs, lost connections
    and packets lead to, the signal of a call that waits is set exactly if this
    call was answered, and no step goes wrong but by the contents of a packet.
    The steps keep to what clabel_ok says: they are those of clients that exist;
    a handler answers a message that it was given, and no message twice; a call
    that times out finds its signal not set and leaves the map of calls in one
    step.  The code does not enforce the last two, and the statement fails
    without them: late_reply_answers_next_call (a reply between the two halves
    of a time-out) and second_answer_answers_next_call. *)
Theorem answer_is_own st a c : csteps start_process st → held st !! a = Some c →
  signal_set (proc st) a = bool_decide (a ∈ replied st) ∧
  ∀ l, clabel_ok st l → match cstep l st with Ok st' => SInv st' | Ub u => packet_ub u end.
Proof.
  intros Hs%reached_inv Ha. split; [by eapply signal_set_held|]. intros l Hl. by apply cstep_ok.
Qed.
End system.

(** ** A reply that comes too late

    The caller gives up between the check of is_timeout and the delivery of the
    reply: [find_request] and [deliver_reply] hold the lock of the map, [expire_call]
    does not take it.  Its signal is set when it goes back to the pool. *)
Definition late_reply (pid : Z) (c : nat) (m1 m2 : method) (reply : nat → list Z) :
    CL (bool * (Z * option (list Z))) :=
  r ← SendDpMessage pid c m1 0 [] 0;
  match r with
  | Returns ret => mret (false, (ret, None))
  | Waits a =>
      msg ← message a;
      let h := as_header (reply (Z.to_nat (m_id msg))) in
      t ← find_request c h;
      expire_call a;;
      match t with Some b => deliver_reply b h | None => mret tt end;;
      finish c a;;
      r ← SendDpMessage pid c m2 0 [] 0;
      match r with
      | Returns ret => mret (false, (ret, None))
      | Waits b =>
          s ← get;
          v ← (if signal_set s b then SendDpMessage_done c b else SendDpMessage_timeout c b);
          mret (true, v)
      end
  end.

Definition connected : Process :=
  mkProc {[0%nat := mkClient true true 1 ∅ ∅ []]} [0%nat] ∅ ∅ [] [].

(** When the reply to a call comes in while the call times out, the next
    call of the client returns at once with TYPE_SUCCEED and an empty answer,
    though nobody has answered it. *)
Theorem late_reply_answers_next_call :
  (λ r, r.1) <$> late_reply 7 0 [97] [98] (λ id, dp_packet TYPE_REPLY 0 0 (Z.of_nat id) 0 1 [97] [1; 2]) connected =
    Ok (true, (TYPE_SUCCEED, Some [])).
Proof. vm_compute. reflexivity. Qed.

(** A handler that answers a local request twice does the same to the next call. *)
Definition two_clients : Process :=
  mkProc (<[1%nat := mkClient false false 0 ∅ {[[97] := TYPE_REQUEST; [98] := TYPE_REQUEST]} []]>
            {[0%nat := mkClient false false 0 ∅ ∅ []]}) [0%nat; 1%nat] ∅ ∅ [] [].
Definition answered_twice (pid : Z) : CL (list bool * (Z * option (list Z))) :=
  r ← SendDpMessage pid 0 [97] 0 [] 0;
  match r with
  | Returns ret => mret ([], (ret, None))
  | Waits a =>
      x ← handler_answer pid 1 a [1];
      _ ← SendDpMessage_done 0 a;
      y ← handler_answer pid 1 a [2];
      r ← SendDpMessage pid 0 [98] 0 [] 0;
      match r with
      | Returns ret => mret ([], (ret, None))
      | Waits b => s ← get; v ← (if signal_set s b then SendDpMessage_done 0 b else SendDpMessage_timeout 0 b); mret ([x; y], v)
      end
  end.
Lemma second_answer_answers_next_call :
  (λ r, r.1) <$> answered_twice 7 two_clients = Ok ([true; true], (TYPE_SUCCEED, Some [])).
Proof. vm_compute. reflexivity. Qed.

(** What calls return that nobody answers: a broadcast that local handlers have
    got returns TYPE_FAILURE, and so does a time-out. *)
Lemma delivered_broadcast_fails :
  let s := mkProc (<[1%nat := mkClient false false 0 ∅ {[[97] := TYPE_MESSAGE]} []]>
            {[0%nat := mkClient false false 0 ∅ ∅ []]}) [0%nat; 1%nat] ∅ ∅ [] [] in
  (λ r, (r.1, inbox r.2)) <$> SendDpMessage 7 0 [97] 0 [] 0 s = Ok (Returns TYPE_FAILURE, [(1%nat, 0%nat)]).
Proof. vm_compute. reflexivity. Qed.

(** *** Witnesses *)
(** Running a list of labels, each checked to be possible. *)
Definition clabel_okb (st : Sys) (l : clabel) : bool :=
  match l with
  | Create c _ => bool_decide (clients (proc st) !! c = None)
  | Destroy _ => true
  | Connected c _ | Broken c | Send c _ _ _ _ | SendRemote c _ _ _ _ _ | Listen c _ _ _ | Unlisten c _ | Arrive c _ =>
      bool_decide (is_Some (clients (proc st) !! c))
  | Answer d a _ => bool_decide ((d, a) ∈ inbox (proc st)) && negb (bool_decide (a ∈ replied st))
  | Done a => bool_decide (is_Some (held st !! a)) && signal_set (proc st) a
  | Timeout a => bool_decide (is_Some (held st !! a)) && negb (signal_set (proc st) a)
  end.
Fixpoint crun (pid : Z) (ls : list clabel) (st : Sys) : option Sys :=
  match ls with
  | [] => Some st
  | l :: ls => if clabel_okb st l then match cstep pid l st with Ok st1 => crun pid ls st1 | Ub _ => None end else None
  end.
Lemma clabel_okb_ok st l : clabel_okb st l = true → clabel_ok st l.
Proof.
  destruct l; cbn [clabel_okb clabel_ok]; rewrite ?andb_true_iff, ?negb_true_iff, ?bool_decide_eq_true, ?bool_decide_eq_false; done.
Qed.
Lemma crun_csteps pid ls : ∀ st0 st st', csteps pid st0 st → crun pid ls st = Some st' → csteps pid st0 st'.
Proof.
  induction ls as [|l ls IH]; intros st0 st st' Hs; cbn [crun]; [by intros [= <-]|].
  destruct (clabel_okb st l) eqn:E; [|done]. destruct (cstep pid l st) as [st1|] eqn:Er; [|done].
  apply IH. eapply csteps_step; [done|by apply clabel_okb_ok|done].
Qed.

(** Two calls wait; the second one has its reply. *)
Definition demo_labels : list clabel :=
  [Create 0 true; Connected 0 [110]; Send 0 [97] 5 [1] 0; Send 0 [98] 5 [2] 0;
   Arrive 0 (dp_packet TYPE_REPLY 0 0 3 5 1 [98] [3])].
Definition demo_calls : Sys := default start_process (crun 7 demo_labels start_process).
Lemma demo_calls_reached : csteps 7 start_process demo_calls.
Proof. apply (crun_csteps 7 demo_labels start_process start_process); [constructor|]. vm_compute. reflexivity. Qed.

Lemma answer_is_own_witness :
  held demo_calls !! 0%nat = Some 0%nat ∧ held demo_calls !! 1%nat = Some 0%nat ∧
  signal_set (proc demo_calls) 0 = bool_decide (0%nat ∈ replied demo_calls) ∧
  signal_set (proc demo_calls) 1 = bool_decide (1%nat ∈ replied demo_calls) ∧
  signal_set (proc demo_calls) 0 = false ∧ signal_set (proc demo_calls) 1 = true.
Proof.
  split; [by vm_compute|]. split; [by vm_compute|]. split; [|split].
  - apply (answer_is_own 7 demo_calls 0%nat 0%nat demo_calls_reached). by vm_compute.
  - apply (answer_is_own 7 demo_calls 1%nat 0%nat demo_calls_reached). by vm_compute.
  - by vm_compute.
Defined.
