(* ===== verification/DpSystem.v ===== *)
(** * A request from process to process

    The client (DpClient.v), the server (DpBroker.v) and the client that
    serves the request put together: what one end writes the other reads. *)

From S2P Require Import Prelude Crc16 Serialize MemBuffer PacketFrames DpMessage DpBroker DpRouting DpClient DpCalls.
#[local] Open Scope Z_scope.
Abbreviation method := (list Z).
Abbreviation never := (λ _ : ub, False).

Lemma wpu_run {A} (m : CL A) s Q : wpu never m s Q → ∃ x s', m s = Ok (x, s') ∧ Q x s'.
Proof. unfold wpu. destruct (m s) as [[x s']|u]; [|done]. by exists x, s'. Qed.

(** ** The calling end *)
Definition nobody_local (s : Process) (c : nat) (m : method) : Prop :=
  ∀ d k, d ∈ dp_clis_ s → d ≠ c → clients s !! d = Some k → method_map_ k !! m = None.

Lemma dispatch_nobody s c a msg l et n :
  messages s !! a = Some msg → (∀ d, d ∈ l → is_Some (clients s !! d)) →
  (∀ d k, d ∈ l → d ≠ c → clients s !! d = Some k → method_map_ k !! m_method msg = None) →
  dispatch_loop l c a et n s = Ok ((n, et), s).
Proof.
  intros Hm. induction l as [|d l IH]; intros Hl Hno; cbn [dispatch_loop]; [done|].
  assert (dispatch_loop l c a et n s = Ok ((n, et), s)) as E.
  { apply IH; [intros e He; apply Hl; by right|intros e k He; apply Hno; by right]. }
  case_decide as Hd; [done|]. destruct (Hl d ltac:(by left)) as [k Hk]. unfold LocalHandleRequest.
  rewrite run_bind, run_bind. unfold message at 1. rewrite Hm. cbn beta iota. rewrite run_bind. unfold client at 1. rewrite Hk.
  cbn beta iota. by rewrite (Hno d k ltac:(by left) Hd Hk).
Qed.

(** The state of a call that waits for a reply from the server. *)
Record waiting (s : Process) (c a : nat) (id : Z) (H : gmap nat nat) (R : gset nat) : Prop := {
  w_inv : Inv H R s;
  w_held : H !! a = Some c;
  w_client : ∃ k, clients s !! c = Some k ∧ request_map_ k !! id = Some a;
  w_message : ∃ msg, messages s !! a = Some msg ∧ is_timeout msg = false ∧ res_buffer msg = Some [] }.

Lemma call_waits pid H R s c k m sid d clk :
  Inv H R s → clients s !! c = Some k → dp_srv_addr_ k = true → packet_socket_ k = true → m ≠ [] → nobody_local s c m →
  let id := u16 (message_id_ k + 1) in
  wpu never (SendDpMessage pid c m sid d clk) s (λ r s', ∃ a, r = Waits a ∧ waiting s' c a id (<[a := c]> H) R ∧
    sent s' = sent s ++ [(c, dp_packet TYPE_MESSAGE 255 pid id sid 0 m d)]).
Proof.
  intros Hi Hk Hsrv Hso Hm Hno id. unfold SendDpMessage.
  assert (zlen m =? 0 = false) as -> by (apply Z.eqb_neq; by intros ?%zlen_0).
  apply wp_bind. eapply wp_mono; [by eapply wp_new_request|].
  intros a s1 [C1 C2 (q & C3) (clk' & sg & C4) C5 C6 C7 C8]. fold id in C3, C4.
  apply wp_bind. unfold ProcessDpRequest. apply wp_bind, wp_get. unfold wpu at 1.
  erewrite dispatch_nobody; [|exact C4|intros e He; by apply (v_clis _ _ _ C2)|].
  2: { cbn [m_method]. intros e j He Hne Hj. rewrite C5 in Hj by done. rewrite C6 in He. by apply (Hno e j). }
  apply wp_bind. eapply wp_client; [exact C3|]. cbn [dp_srv_addr_]. rewrite Hsrv.
  change (TYPE_INVALID =? TYPE_REQUEST) with false. cbn [negb]. apply wp_bind. eapply wp_message; [exact C4|]. cbn [m_id].
  apply wp_bind. eapply wp_mono; [by eapply wp_SendPacket|]. cbn [packet_socket_].
  intros b s2 (-> & I2 & (n & E2) & E3 & _ & E4). rewrite Hso in *. cbn [negb]. apply wp_ret. exists a. split; [done|]. split.
  - split; [done|apply lookup_insert_eq| |].
    + eexists. rewrite E2, lookup_insert_eq. split; [done|]. cbn [with_ids request_map_]. apply lookup_insert_eq.
    + eexists. rewrite E3, C4. split; [done|]. done.
  - rewrite E4, C8. done.
Qed.

(** The reply comes in, and the call returns with what it carries. *)
Lemma reply_returns pid c a id H R s sid r m d : waiting s c a id H R → msg_ok pid id sid r m d → m ≠ [] →
  wpu never (OnSocketReadComplete c (dp_packet TYPE_REPLY 0 pid id sid r m d)) s (λ _ s1,
    wpu never (SendDpMessage_done c a) s1 (λ v _, v = (r, Some d))).
Proof.
  intros [Hi Hh (k & Hk & Hr) (msg & Hm & Hto & Hres)] Hok Hne. unfold OnSocketReadComplete. rewrite dp_packet_length.
  unfold sizeof_DpNetMsgHeader. pose proof (zlen_nonneg d). assert (0 < zlen m).
  { pose proof (zlen_nonneg m). assert (zlen m ≠ 0) by (by intros ?%zlen_0). lia. }
  rewrite (proj2 (Z.leb_gt _ _)) by lia.
  destruct (as_header_packet TYPE_REPLY 0 pid id sid r m d Hok) as (Hty & _ & _ & Hmi & _ & Hre & _ & Hds & _ & Hda).
  set (h := as_header _) in *. rewrite Hty. change (TYPE_REPLY =? TYPE_MESSAGE) with false.
  change (TYPE_REPLY =? TYPE_REQUEST) with false. rewrite Z.eqb_refl. cbn iota. unfold OnReqReplayMessage, find_request.
  destruct (held_message _ _ _ _ _ Hi Hh) as (m0 & sg & _ & Hm0 & Hsg & _).
  assert (m0 = msg) as -> by congruence.
  apply wp_bind, wp_bind. eapply wp_client; [done|]. rewrite Hmi, Hr. apply wp_bind. eapply wp_message; [done|]. apply wp_ret.
  rewrite Hto. unfold deliver_reply. apply wp_bind. eapply wp_message; [done|].
  assert (∀ s1 m1, messages s1 !! a = Some m1 → clients s1 !! c = Some k → signal_event m1 = Some sg → res_buffer m1 = Some d →
    wpu never (update_message a (λ m, msg_result (result h) (msg_type (d_type h) m));; sg ← signal_of msg; TriggerSignal sg) s1
      (λ _ s1, wpu never (SendDpMessage_done c a) s1 (λ v _, v = (r, Some d)))) as Hrest.
  { intros s1 m1 Hm1 Hk1 Hsg1 Hres1. apply wp_bind. eapply wp_update_message; [done|]. apply wp_bind. unfold signal_of.
    rewrite Hsg. apply wp_ret. unfold TriggerSignal. apply wp_modify. unfold SendDpMessage_done.
    apply wp_bind. eapply wp_message; [apply lookup_insert_eq|]. apply wp_bind. unfold signal_of.
    cbn [msg_result msg_type signal_event]. rewrite Hsg1. apply wp_ret, wp_bind. unfold ResetTriggerSignal. apply wp_modify.
    unfold finish. apply wp_bind, wp_bind. eapply wp_message; [apply lookup_insert_eq|]. apply wp_bind. unfold erase_request.
    eapply wp_update_client; [done|]. cbn [msg_result msg_type signal_event]. rewrite Hsg1. cbn [PutSignal].
    eapply wp_update_client; [apply lookup_insert_eq|]. apply wp_ret. cbn [msg_result m_result res_buffer msg_type].
    by rewrite Hre, Hres1. }
  apply wp_bind. rewrite Hds. destruct (Z.ltb_spec 0 (zlen d)) as [Hd|Hd]; cbn [when].
  - apply wp_bind. unfold wpu at 1. rewrite Hda. cbn [lift]. rewrite Hres. eapply wp_update_message; [done|].
    eapply Hrest; [apply lookup_insert_eq|done|done|done].
  - assert (d = []) as -> by (apply zlen_0; lia). by eapply Hrest.
Qed.

(** ** The serving end *)
Lemma request_posted s c m d x sid : msg_ok 0 x sid 0 m d → m ≠ [] →
  wpu never (OnSocketReadComplete c (dp_packet TYPE_REQUEST 0 0 x sid 0 m d)) s (λ _ s', ∃ b,
    inbox s' = inbox s ++ [(c, b)] ∧ clients s' = clients s ∧ sent s' = sent s ∧
    messages s' !! b = Some (mkMsg TYPE_REQUEST m x sid d (Some []) false 0 None)).
Proof.
  intros Hok Hne. unfold OnSocketReadComplete. rewrite dp_packet_length.
  unfold sizeof_DpNetMsgHeader. pose proof (zlen_nonneg d). assert (0 < zlen m).
  { pose proof (zlen_nonneg m). assert (zlen m ≠ 0) by (by intros ?%zlen_0). lia. }
  rewrite (proj2 (Z.leb_gt _ _)) by lia.
  destruct (as_header_packet TYPE_REQUEST 0 0 x sid 0 m d Hok) as (Hty & _ & _ & Hmi & Hsi & _ & _ & _ & Hme & Hda).
  set (h := as_header _) in *. rewrite Hty. change (TYPE_REQUEST =? TYPE_MESSAGE) with false.
  rewrite Z.eqb_refl. cbn iota. unfold OnRequestMessage, post_message. apply wp_bind. unfold wpu at 1. rewrite Hme. cbn [lift].
  apply wp_bind. unfold wpu at 1. rewrite Hda. cbn [lift]. apply wp_bind, wp_get. apply wp_bind, wp_modify, wp_modify.
  eexists. split_and!; [done|done|done|]. rewrite Hmi, Hsi. apply lookup_insert_eq.
Qed.

Lemma request_answered pid s c k b m x sid d d' :
  clients s !! c = Some k → dp_srv_addr_ k = true → packet_socket_ k = true →
  messages s !! b = Some (mkMsg TYPE_REQUEST m x sid d (Some []) false 0 None) →
  wpu never (handler_answer pid c b d') s (λ v s', v = true ∧
    sent s' = sent s ++ [(c, dp_packet TYPE_REPLY 255 pid x sid 0 m d')]).
Proof.
  intros Hk Hsrv Hso Hb. unfold handler_answer. apply wp_bind. eapply wp_update_message; [done|]. unfold SendDpReply.
  apply wp_bind. eapply wp_message; [apply lookup_insert_eq|]. cbn [msg_res m_type is_timeout signal_event].
  rewrite Z.eqb_refl. cbn [negb]. apply wp_bind. eapply wp_client; [exact Hk|]. rewrite Hsrv.
  apply wp_bind. eapply wp_update_message; [apply lookup_insert_eq|]. unfold SendPacket.
  apply wp_bind. eapply wp_client; [exact Hk|]. rewrite Hso. apply wp_bind.
  destruct (65534 <? message_id_ k); cbn [when].
  - eapply wp_update_client; [exact Hk|]. apply wp_bind, wp_modify, wp_ret. done.
  - apply wp_ret, wp_bind, wp_modify, wp_ret. done.
Qed.

(** ** From end to end *)
Record caller (pa : Z) (A : Sys) (c : nat) (m : method) : Prop := {
  e_reached : csteps pa start_process A;
  e_pid : in_u 32 pa;
  e_client : ∃ k, clients (proc A) !! c = Some k ∧ dp_srv_addr_ k = true ∧ packet_socket_ k = true;
  e_remote : nobody_local (proc A) c m }.
Record server_of (pb : Z) (B : Process) (c : nat) : Prop := {
  f_pid : in_u 32 pb;
  f_client : ∃ k, clients B !! c = Some k ∧ dp_srv_addr_ k = true ∧ packet_socket_ k = true }.

Lemma attach_id_range i mid : in_u 32 (attach_id i mid).
Proof. by apply uwrap_range. Qed.

(** C31. A request to a method that a client of another process serves comes
    back with 1 and what that client's handler answered: the call writes a
    packet, the server passes it to that client, whose handler gets the method
    and the data; the answer goes back over the server to the caller, whose call
    returns it.  Meanwhile the server may take any steps of any connections.
    It holds when both clients are connected, no client of the caller's own
    process serves the method (such a client would get the request instead), the
    server gave the caller an agent id below 2^16 (the server puts the id above
    16 bits of message id, and from 2^16 on the reply can go to another caller:
    reply_misrouted), the caller's connection is still open when the answer
    comes to the server, and the method and the data fit in their lengths. *)
Theorem remote_call pa A ca m sid d clk d' s p agp q agq pb B cb :
  caller pa A ca m → server_of pb B cb → bsteps start_server s → live s p agp → live s q agq →
  DpBroker.method_map_ agq !! m = Some TYPE_REQUEST → q ≠ p → remote_pid_ agq ≠ pa → agent_id_ agp < 2 ^ 16 →
  m ≠ [] → zlen m < 2 ^ 16 → zlen d < 2 ^ 32 → zlen d' < 2 ^ 32 → in_u 32 sid →
  ∃ a A1 pk1 s1 pk2 B1 b msg B2 pk3,
    SendDpMessage pa ca m sid d clk (proc A) = Ok (Waits a, A1) ∧ sent A1 = sent (proc A) ++ [(ca, pk1)] ∧
    bstep (Packet p pk1) s = Ok (tt, s1) ∧ outbox s1 = outbox s ++ [(q, pk2)] ∧
    OnSocketReadComplete cb pk2 B = Ok (tt, B1) ∧ inbox B1 = inbox B ++ [(cb, b)] ∧
      messages B1 !! b = Some msg ∧ m_type msg = TYPE_REQUEST ∧ m_method msg = m ∧ req_buffer msg = d ∧
    handler_answer pb cb b d' B1 = Ok (true, B2) ∧ sent B2 = sent B ++ [(cb, pk3)] ∧
    ∀ s2, bsteps s1 s2 → is_open s2 p = true →
      ∃ s3 pk4 A2 A3, bstep (Packet q pk3) s2 = Ok (tt, s3) ∧ outbox s3 = outbox s2 ++ [(p, pk4)] ∧
        OnSocketReadComplete ca pk4 A1 = Ok (tt, A2) ∧ SendDpMessage_done ca a A2 = Ok ((1, Some d'), A3).
Proof.
  intros [EA Epa (k & Hk & Hsrv & Hso) Hno] [Epb (kb & Hkb & Hsrvb & Hsob)] Hs Hp Hq Hm Hne Hpid Hid Hm0 Hml Hdl Hdl' Hsid.
  destruct (wpu_run _ _ _ (call_waits pa _ _ _ ca k m sid d clk (reached_inv pa A EA) Hk Hsrv Hso Hm0 Hno))
    as (r & A1 & HA1 & a & -> & Hw & Hsent).
  set (id := u16 (message_id_ k + 1)) in *.
  pose proof (uwrap_range 16 (message_id_ k + 1) ltac:(lia)) as Hidr. fold id in Hidr. unfold in_u in Hidr.
  set (x := attach_id (agent_id_ agp) id). pose proof (attach_id_range (agent_id_ agp) id) as Hx. fold x in Hx.
  assert (in_u 32 0) as H0 by (unfold in_u; lia). assert (in_u 32 1) as H1 by (unfold in_u; lia).
  assert (in_u 32 id) as Hid32 by (unfold in_u; lia).
  destruct (request_and_reply s p agp q agq 255 pa id sid 0 m d Hs Hp Hq Hm Hne Hpid) as [Hb1 Hb2]; [by split|done|lia|done|].
  destruct (wpu_run _ _ _ (request_posted B cb m d x sid ltac:(by split) Hm0)) as ([] & B1 & HB1 & b & Hin & Hcl & Hse & Hmsg).
  rewrite <-Hcl in Hkb.
  destruct (wpu_run _ _ _ (request_answered pb B1 cb kb b m x sid d d' Hkb Hsrvb Hsob Hmsg)) as (v & B2 & HB2 & -> & Hse2).
  exists a, A1, (dp_packet TYPE_MESSAGE 255 pa id sid 0 m d), (send_all [(q, dp_packet TYPE_REQUEST 0 0 x sid 0 m d)] s),
    (dp_packet TYPE_REQUEST 0 0 x sid 0 m d), B1, b, (mkMsg TYPE_REQUEST m x sid d (Some []) false 0 None), B2,
    (dp_packet TYPE_REPLY 255 pb x sid 0 m d').
  split_and!; try done; [by rewrite Hse2, Hse|]. intros s2 Hs2 Ho.
  specialize (Hb2 s2 q 255 pb sid 0 m d' Hs2 ltac:(by split) Hm0). rewrite Ho in Hb2.
  destruct (wpu_run _ _ _ (reply_returns 0 ca a id _ _ A1 sid 1 m d' Hw ltac:(by split) Hm0)) as ([] & A2 & HA2 & Hd).
  destruct (wpu_run _ _ _ Hd) as (v & A3 & HA3 & ->). eexists _, _, A2, A3. split_and!; [exact Hb2|done|exact HA2|exact HA3].
Qed.

(** *** Witness *)
Definition caller_labels : list clabel := [Create 0 true; Connected 0 [110]].
Definition calling_process : Sys := default start_process (crun 7 caller_labels start_process).
Definition serving_process : Sys := default start_process (crun 9 caller_labels start_process).

Lemma calling_ok : caller 7 calling_process 0 [98].
Proof.
  split; [|done| |].
  - apply (crun_csteps 7 caller_labels start_process start_process); [constructor|]. vm_compute. reflexivity.
  - exists (default (mkClient true true 0 ∅ ∅ []) (clients (proc calling_process) !! 0%nat)). by vm_compute.
  - intros d k Hd Hne. assert (dp_clis_ (proc calling_process) = [0%nat]) as E by (vm_compute; reflexivity).
    rewrite E in Hd. apply list_elem_of_singleton in Hd. done.
Qed.
Lemma serving_ok : server_of 9 (proc serving_process) 0.
Proof.
  split; [done|]. exists (default (mkClient true true 0 ∅ ∅ []) (clients (proc serving_process) !! 0%nat)). by vm_compute.
Qed.

Lemma remote_call_witness :
  ∃ a A1 s1 pk1 pk2 B1 b B2 pk3,
    SendDpMessage 7 0 [98] 6 [1; 2] 0 (proc calling_process) = Ok (Waits a, A1) ∧
    bstep (Packet 0 pk1) demo = Ok (tt, s1) ∧
    OnSocketReadComplete 0 pk2 (proc serving_process) = Ok (tt, B1) ∧
    handler_answer 9 0 b [3] B1 = Ok (true, B2) ∧ sent B2 = sent (proc serving_process) ++ [(0%nat, pk3)] ∧
    ∀ s2, bsteps s1 s2 → is_open s2 0 = true →
      ∃ s3 pk4 A2 A3, bstep (Packet 2 pk3) s2 = Ok (tt, s3) ∧ outbox s3 = outbox s2 ++ [(0%nat, pk4)] ∧
        OnSocketReadComplete 0 pk4 A1 = Ok (tt, A2) ∧ SendDpMessage_done 0 a A2 = Ok ((1, Some [3]), A3).
Proof.
  destruct (remote_call 7 calling_process 0 [98] 6 [1; 2] 0 [3] demo 0 (agent_at demo 0) 2 (agent_at demo 2) 9
    (proc serving_process) 0 calling_ok serving_ok demo_reached (demo_live 0 ltac:(lia)) (demo_live 2 ltac:(lia)))
    as (a & A1 & pk1 & s1 & pk2 & B1 & b & msg & B2 & pk3 & E1 & _ & E3 & _ & E5 & _ & _ & _ & _ & _ & E6 & E7 & Hrest);
    [by vm_compute|done|by vm_compute|by vm_compute|done|done|done|done|done|].
  exists a, A1, s1, pk1, pk2, B1, b, B2, pk3. split_and!; [exact E1|exact E3|exact E5|exact E6|exact E7|exact Hrest].
Defined.
