(* ===== verification/KvdbCheck.v ===== *)
(** * The check of configuration values

    src/lib_bsp/kvdb/kvdb/kvdbparamcheck.cpp: a value of the key-value store
    is compared with the description of its members (type, smallest and
    largest value, lengths) that lies beside it.  Parsing and printing of JSON
    belong to jsoncpp and are parameters. *)

From S2P Require Import Prelude Float Json.
From Stdlib Require Import QArith_base.
From Stdlib Require Import SpecFloat.
#[local] Open Scope Z_scope.

Class Jsoncpp := { jparse : list Z → option json; Json2String : json → list Z }.

(** ** Reading of values *)
Definition getMemberNames (v : json) : res (list string) :=
  match v with
  | JNull => Ok []
  | JObj l => Ok l.*1
  | _ => Ub UB_BadJson
  end.
Definition asBool (v : json) : bool :=
  match v with JBool b => b | JInt z => negb (z =? 0) | JReal q => negb (Qnum q =? 0) | _ => false end.
(** static_cast<float>; the denominator of a double is a power of two. *)
Definition float_of_Q (q : Q) : spec_float :=
  binary_normalize 24 128 (Qnum q) (- Z.log2 (Zpos (Qden q))) false.
Definition asFloat (v : json) : spec_float :=
  match v with
  | JInt z => f_of_Z binary32 z
  | JReal q => float_of_Q q
  | JBool b => f_of_Z binary32 (if b then 1 else 0)
  | _ => f_of_Z binary32 0
  end.
Definition f_le (x y : spec_float) : bool := SFleb x y.

Definition PARAM_TYPE_ELSE : Z := 10.
Definition KVDB_PARAM_TYPE_INT : Z := 0.
Definition KVDB_PARAM_TYPE_FLOAT : Z := 1.
Definition KVDB_PARAM_TYPE_STRING : Z := 2.
Definition KVDB_PARAM_TYPE_ENUM : Z := 3.
Definition KVDB_PARAM_TYPE_BOOL : Z := 4.
Definition KVDB_PARAM_TYPE_MAX : Z := 5.
Definition is_type (t : Z) (type : Z) : bool := (type =? t) || (type =? t + PARAM_TYPE_ELSE).

Section check.
(** One member that is neither an object nor an array. *)
Definition check_int (z : Z) (valid : json) : res bool :=
  tv ← jkey valid "type"; type ← asInt tv;
  if is_type KVDB_PARAM_TYPE_INT type || is_type KVDB_PARAM_TYPE_ENUM type then
    lo ← jkey valid "min"; lo ← asInt lo;
    if lo <=? s32 z then hi ← jkey valid "max"; hi ← asInt hi; mret (s32 z <=? hi) else mret false
  else if is_type KVDB_PARAM_TYPE_FLOAT type then
    lo ← jkey valid "min";
    if f_le (asFloat lo) (f_of_Z binary32 (s32 z)) then
      hi ← jkey valid "max"; mret (f_le (f_of_Z binary32 (s32 z)) (asFloat hi))
    else mret false
  else mret false.
Definition check_real (q : Q) (valid : json) : res bool :=
  tv ← jkey valid "type"; type ← asInt tv;
  if is_type KVDB_PARAM_TYPE_FLOAT type then
    nparam ← f_to_int (float_of_Q q);
    lo ← jkey valid "min";
    if f_le (asFloat lo) (f_of_Z binary32 nparam) then
      hi ← jkey valid "max"; mret (f_le (f_of_Z binary32 nparam) (asFloat hi))
    else mret false
  else mret false.
Definition check_string (s : string) (valid : json) : res bool :=
  tv ← jkey valid "type"; type ← asInt tv;
  if is_type KVDB_PARAM_TYPE_STRING type then
    lo ← jkey valid "minlen"; lo ← asInt lo;
    let nslen := Z.of_nat (String.length s) in
    if lo <=? nslen then hi ← jkey valid "maxlen"; hi ← asInt hi; mret (nslen <=? hi) else mret false
  else mret false.
Definition check_bool (b : bool) (valid : json) : res bool :=
  tv ← jkey valid "type"; type ← asInt tv;
  if is_type KVDB_PARAM_TYPE_BOOL type then
    hi ← jkey valid "max";
    if eqb b (asBool hi) then mret true else lo ← jkey valid "min"; mret (eqb b (asBool lo))
  else mret false.
Definition check_null (valid : json) : res bool :=
  tv ← jkey valid "type"; type ← asInt tv;
  mret ((KVDB_PARAM_TYPE_INT + PARAM_TYPE_ELSE <=? type) && (type <? KVDB_PARAM_TYPE_MAX + PARAM_TYPE_ELSE)).

(** The loops over the members and over the elements of an array.  An integer
    above maxInt is a uintValue, for which there is no case. *)
Fixpoint all_res {A} (f : A → res bool) (l : list A) : res bool :=
  match l with
  | [] => Ok true
  | x :: l => b ← f x; if b : bool then all_res f l else Ok false
  end.

Fixpoint check_param_valid_nomal (param valid : json) {struct param} : res bool :=
  match param with
  | JNull => Ok true
  | JObj l =>
      all_res (λ '(k, v),
        m ← isMember valid k;
        if negb m then Ok false
        else
          valid' ← jkey valid k;
          match v with
          | JObj _ => check_param_valid_nomal v valid'
          | JArr items =>
              if negb (isArray valid') then Ok false
              else all_res (λ x, first ← jidx valid' 0; check_param_valid_nomal x first) items
          | JNull => check_null valid'
          | JInt z => if z <=? maxInt then check_int z valid' else Ok true
          | JReal q => check_real q valid'
          | JStr s => check_string s valid'
          | JBool b => check_bool b valid'
          end) l
  | _ => Ub UB_BadJson
  end.

Context `{Jsoncpp}.
Definition check_param_valid (cfg_value match_value : list Z) : res bool :=
  match jparse match_value with
  | None => Ok false
  | Some valid =>
      match jparse cfg_value with
      | None => Ok false
      | Some param => check_param_valid_nomal param valid
      end
  end.
Definition get_default_param (validparam : list Z) : res (list Z) :=
  match jparse validparam with
  | None => Ok []
  | Some valid =>
      members ← getMemberNames valid;
      if bool_decide ("default" ∈ members) then d ← jkey valid "default"; Ok (Json2String d) else Ok []
  end.
End check.

(** ** What an accepted value satisfies *)
(** An object of the value, however deep, and what describes it. *)
Inductive inside (param valid : json) : json → json → Prop :=
| inside_here : inside param valid param valid
| inside_member l d k v d' : inside param valid (JObj l) d → (k, v) ∈ l → jkey d k = Ok d' →
    (∃ l', v = JObj l') → inside param valid v d'
| inside_item l d k items d' v d'' : inside param valid (JObj l) d → (k, JArr items) ∈ l → jkey d k = Ok d' →
    v ∈ items → jidx d' 0 = Ok d'' → inside param valid v d''.

Definition within (lo hi x : Z) : Prop := lo ≤ x ≤ hi.
(** What the description of a member demands of it. *)
Definition member_ok (v d : json) : Prop :=
  match v with
  | JInt z => z ≤ maxInt → ∃ t, jkey d "type" ≫= asInt = Ok t ∧
      (is_type KVDB_PARAM_TYPE_INT t || is_type KVDB_PARAM_TYPE_ENUM t = true ∧
         (∃ lo hi, jkey d "min" ≫= asInt = Ok lo ∧ jkey d "max" ≫= asInt = Ok hi ∧ within lo hi (s32 z)) ∨
       is_type KVDB_PARAM_TYPE_FLOAT t = true)
  | JStr s => ∃ lo hi, jkey d "minlen" ≫= asInt = Ok lo ∧ jkey d "maxlen" ≫= asInt = Ok hi ∧
      within lo hi (Z.of_nat (String.length s))
  | JArr _ => isArray d = true
  | JNull => ∃ t, jkey d "type" ≫= asInt = Ok t ∧ within 10 14 t
  | JReal q => ∃ t n, jkey d "type" ≫= asInt = Ok t ∧ is_type KVDB_PARAM_TYPE_FLOAT t = true ∧ f_to_int (float_of_Q q) = Ok n
  | JBool _ => ∃ t, jkey d "type" ≫= asInt = Ok t ∧ is_type KVDB_PARAM_TYPE_BOOL t = true
  | JObj _ => True
  end.

Lemma all_res_true {A} (f : A → res bool) l : all_res f l = Ok true → ∀ x, x ∈ l → f x = Ok true.
Proof.
  induction l as [|y l IH]; cbn [all_res]; [intros _ x Hx; by apply elem_of_nil in Hx|].
  intros ([] & Hy & Hl)%res_bind_ok; [|done]. intros x [->|Hx]%elem_of_cons; [done|auto].
Qed.

Ltac res_inv :=
  repeat match goal with
  | E : _ ≫= _ = Ok _ |- _ => apply res_bind_ok in E as (? & ? & E)
  | E : (if ?b then _ else _) = Ok _ |- _ => destruct b eqn:?
  | E : mret _ = Ok _ |- _ => injection E as E
  | E : Ok _ = Ok _ |- _ => injection E as E
  end.

Lemma bind_ok {A B} (r : res A) (k : A → res B) a : r = Ok a → r ≫= k = k a.
Proof. by intros ->. Qed.

Lemma check_int_ok z d : check_int z d = Ok true → member_ok (JInt z) d.
Proof.
  unfold check_int. intros E _. res_inv; try done.
  - eexists. split; [erewrite bind_ok by done; done|]. left. split; [done|]. eexists _, _.
    split; [erewrite bind_ok by done; done|]. split; [erewrite bind_ok by done; done|].
    split; by apply Z.leb_le.
  - eexists. split; [erewrite bind_ok by done; done|]. by right.
Qed.
Lemma check_string_ok s d : check_string s d = Ok true → member_ok (JStr s) d.
Proof.
  unfold check_string. intros E. res_inv; try done. eexists _, _.
  split; [erewrite bind_ok by done; done|]. split; [erewrite bind_ok by done; done|]. split; by apply Z.leb_le.
Qed.
Lemma check_real_ok q d : check_real q d = Ok true → member_ok (JReal q) d.
Proof. unfold check_real. intros E. res_inv; try done. eexists _, _. by split; [erewrite bind_ok by done; done|]. Qed.
Lemma check_bool_ok b d : check_bool b d = Ok true → member_ok (JBool b) d.
Proof. unfold check_bool. intros E. res_inv; try done; eexists; by split; [erewrite bind_ok by done; done|]. Qed.
Lemma check_null_ok d : check_null d = Ok true → member_ok JNull d.
Proof.
  unfold check_null. intros E. res_inv. eexists. split; [erewrite bind_ok by done; done|].
  apply andb_true_iff in E as [H1%Z.leb_le H2%Z.ltb_lt]. unfold within, KVDB_PARAM_TYPE_INT, KVDB_PARAM_TYPE_MAX, PARAM_TYPE_ELSE in *. lia.
Qed.

(** What the check of an object says of one of its members. *)
Lemma member_checked l d k v : check_param_valid_nomal (JObj l) d = Ok true → (k, v) ∈ l →
  isMember d k = Ok true ∧ ∃ d', jkey d k = Ok d' ∧ member_ok v d' ∧
    match v with
    | JObj _ => check_param_valid_nomal v d' = Ok true
    | JArr items => ∀ x, x ∈ items → ∃ d'', jidx d' 0 = Ok d'' ∧ check_param_valid_nomal x d'' = Ok true
    | _ => True
    end.
Proof.
  cbn [check_param_valid_nomal]. intros Hall Hin. specialize (all_res_true _ _ Hall _ Hin) as E. cbn beta iota in E.
  apply res_bind_ok in E as ([] & Hm & E); [|done]. cbn [negb] in E. apply res_bind_ok in E as (d' & Hd & E).
  split; [done|]. exists d'. split; [done|]. destruct v as [|b|z|q|s|items|l'].
  - split; [by apply check_null_ok|done].
  - split; [by apply (check_bool_ok b)|done].
  - split; [|done]. destruct (Z.leb_spec z maxInt); [by apply check_int_ok|]. intros Hz. unfold maxInt in *. lia.
  - split; [by apply check_real_ok|done].
  - split; [by apply check_string_ok|done].
  - destruct (isArray d') eqn:Ea; cbn [negb] in E; [|done]. split; [done|]. intros x Hx.
    specialize (all_res_true _ _ E _ Hx) as E'. by apply res_bind_ok in E'.
  - by split.
Qed.

Lemma inside_checked param valid v d : check_param_valid_nomal param valid = Ok true → inside param valid v d →
  check_param_valid_nomal v d = Ok true.
Proof.
  intros Hc. induction 1 as [|l d k v d' _ IH Hin Hd [l' ->]|l d k items d' v d'' _ IH Hin Hd Hv Hi]; [done| |].
  - destruct (member_checked l d k _ IH Hin) as (_ & e & He & _ & Hv).
    assert (e = d') as -> by congruence. done.
  - destruct (member_checked l d k _ IH Hin) as (_ & e & He & _ & Hv').
    assert (e = d') as -> by congruence.
    destruct (Hv' v Hv) as (e' & He' & ?). by assert (e' = d'') as -> by congruence.
Qed.

(** An accepted value has only members that its description names, at every
    depth: its integers up to maxInt lie between min and max if they are to be
    integers, the lengths of its strings between minlen and maxlen, and every
    member has the type that is demanded. *)
Theorem accepted_within_bounds param valid l d k v :
  check_param_valid_nomal param valid = Ok true → inside param valid (JObj l) d → (k, v) ∈ l →
  isMember d k = Ok true ∧ ∃ d', jkey d k = Ok d' ∧ member_ok v d'.
Proof.
  intros Hc Hi Hin. destruct (member_checked l d k v (inside_checked _ _ _ _ Hc Hi) Hin) as (Hm & d' & Hd & Hok & _).
  split; [done|]. by exists d'.
Qed.

(** *** What slips through *)
Definition int_spec (lo hi : Z) : json := JObj [("max", JInt hi); ("min", JInt lo); ("type", JInt 0)].
Definition float_spec (lo hi : Z) : json := JObj [("max", JInt hi); ("min", JInt lo); ("type", JInt 1)].
(** An integer above maxInt has no case. *)
Lemma large_int_unchecked :
  check_param_valid_nomal (JObj [("volume", JInt 4294967295)]) (JObj [("volume", int_spec 0 10)]) = Ok true.
Proof. reflexivity. Qed.
(** The fraction of a number is cut before it is compared. *)
Lemma fraction_cut :
  check_param_valid_nomal (JObj [("volume", JReal (23 # 4))]) (JObj [("volume", float_spec 0 5)]) = Ok true.
Proof. vm_compute. reflexivity. Qed.
(** The elements of an array are read as objects. *)
Lemma plain_array_ub d :
  check_param_valid_nomal (JObj [("days", JArr [JInt 1])]) (JObj [("days", JArr [d])]) = Ub UB_BadJson.
Proof. reflexivity. Qed.

Lemma accepted_within_bounds_witness :
  check_param_valid_nomal (JObj [("a", JObj [("volume", JInt 7)])]) (JObj [("a", JObj [("volume", int_spec 0 10)])]) = Ok true ∧
  isMember (JObj [("volume", int_spec 0 10)]) "volume" = Ok true ∧
  ∃ d', jkey (JObj [("volume", int_spec 0 10)]) "volume" = Ok d' ∧ member_ok (JInt 7) d'.
Proof.
  split; [reflexivity|].
  apply (accepted_within_bounds (JObj [("a", JObj [("volume", JInt 7)])]) (JObj [("a", JObj [("volume", int_spec 0 10)])])
    [("volume", JInt 7)]); [reflexivity| |by left].
  eapply (inside_member _ _ [("a", JObj [("volume", JInt 7)])] _ "a"); [apply inside_here|by left|reflexivity|by eexists].
Defined.
