(* ===== verification/Kvdb.v ===== *)
(** * The key-value store

    src/lib_bsp/kvdb/kvdb/kvdboperatefile.cpp: a key is a file with a header,
    its length and a checksum; in safe mode it has a second file "_bak", and a
    file "_match" beside it can describe its value (KvdbCheck.v).  Files are
    lists of bytes under the names of their keys; the folder is the same for
    all of them.  A write can fail to open its file or end when the disk is full
    or the power goes, after any number of bytes; what the file still takes and
    what the stdio buffer over it takes are counted apart. *)

From S2P Require Import Prelude Crc16 Serialize Json KvdbCheck.
#[local] Open Scope Z_scope.

(** ** State *)
Definition KVDB_KEY_MAXLEN : Z := 64.
Definition KVDB_FILE_HEAD_FLAG : Z := 22106.       (* 0x565a *)
Definition KVDB_TMP_BUFFER_LEN : Z := 1024.
Definition KVDB_SAFE_MODE : Z := 1.
Inductive KvdbError :=
| KVDB_ERR_OK | KVDB_ERR_OPEN_FILE | KVDB_ERR_WRITE_FILE | KVDB_ERR_READ_FILE | KVDB_ERR_PARSE_FILE
| KVDB_ERR_INVALID_PARAM | KVDB_ERR_SEEK_NULL | KVDB_ERR_FULL | KVDB_ERR_DELETE_FILE | KVDB_ERR_OPEN_FOLD
| KVDB_ERR_FILE_CHECK | KVDB_ERR_FILE_DONTEXIST | KVDB_ERR_UNKNOWN.
#[export] Instance KvdbError_eq : EqDecision KvdbError.
Proof. solve_decision. Defined.

(** What happens to the next file that is opened for writing: of a write that
    is cut, [n] bytes come to the disk and [k] more stay in the buffer of
    stdio. *)
Inductive fault := NoFault | OpenFails | Cut (n k : nat).
Record KvdbOperateFile := mkKvdb {
  property_ : Z;
  files : gmap string (list Z);
  faults : list fault }.
Abbreviation KV := (ST KvdbOperateFile).
Definition set_files f (s : KvdbOperateFile) : KvdbOperateFile := mkKvdb (property_ s) (f (files s)) (faults s).

(** GetWholePath below the folder. *)
Definition GetWholePath (key : string) (backupflag : bool) : string := if backupflag then key +:+ "_bak" else key.
Definition safe_mode (s : KvdbOperateFile) : bool := negb (Z.land (property_ s) KVDB_SAFE_MODE =? 0).

(** ** Writing *)
Definition next_fault : KV fault := λ s,
  match faults s with
  | [] => Ok (NoFault, s)
  | f :: l => Ok (f, mkKvdb (property_ s) (files s) l)
  end.
(** XFile::write_data; [room] is how many bytes still reach the disk, and how
    many more the buffer takes.  The result is that of fwrite, which counts the
    bytes that came to the buffer; that of fflush is ignored. *)
Definition write_data (path : string) (room : option (nat * nat)) (buf : list Z) : KV (Z * option (nat * nat)) :=
  if zlen buf <=? 0 then mret (-1, room)
  else
    let '(ret, w) := match room with
                     | Some (n, k) => (length (take (n + k) buf), take n buf)
                     | None => (length buf, buf)
                     end in
    modify (set_files (alter (λ f, f ++ w) path));;
    mret (Z.of_nat ret, (λ '(n, k), (n - length w, k - (ret - length w))%nat) <$> room).
Fixpoint write_parts (path : string) (room : option (nat * nat)) (parts : list (list Z)) : KV KvdbError :=
  match parts with
  | [] => mret KVDB_ERR_OK
  | part :: parts =>
      '(w_len, room) ← write_data path room part;
      if negb (w_len =? zlen part) then mret KVDB_ERR_WRITE_FILE else write_parts path room parts
  end.

Definition length_sum (length : Z) : Z :=
  foldl (λ c i, Z.lxor c (u8 (Z.shiftr length (i * 8)))) 0 [0; 1; 2; 3].
Definition checksum (length : Z) (buffer : list Z) : Z := foldl Z.lxor (length_sum length) buffer.
Definition file_parts (buffer : list Z) : list (list Z) :=
  let length := zlen buffer in
  [memcpy_le 4 KVDB_FILE_HEAD_FLAG; memcpy_le 4 length; [checksum length buffer]; buffer].

Definition WriteFile (key : string) (buffer : list Z) (isbak : bool) : KV KvdbError :=
  let path := GetWholePath key isbak in
  f ← next_fault;
  match f with
  | OpenFails => mret KVDB_ERR_OPEN_FILE
  | _ =>
      modify (set_files (insert path []));;
      write_parts path (match f with Cut n k => Some (n, k) | _ => None end) (file_parts buffer)
  end.

(** ** Reading *)
Section store.
Context `{Jsoncpp}.
(** What the locals flag, len and checksum of the n-th ReadFile hold. *)
Context (junk : nat → Z * Z * Z).

(** read_data into a variable that holds [z]; short data leave its end. *)
Definition read_into (n : nat) (z : Z) (file : list Z) : Z * list Z :=
  let got := take n file in
  (load_le (got ++ drop (length got) (memcpy_le n z)), drop n file).

(** The loop of ReadFile; [file] is what is left of the file. *)
Fixpoint read_loop (fuel : nat) (len rdlen : Z) (file data : list Z) : Z * list Z :=
  match fuel with
  | O => (rdlen, data)
  | S fuel =>
      if rdlen <? len then
        let cur := if KVDB_TMP_BUFFER_LEN <? len - rdlen then KVDB_TMP_BUFFER_LEN else len - rdlen in
        let rd := take (Z.to_nat cur) file in
        if zlen rd =? 0 then (rdlen, data)
        else read_loop fuel len (rdlen + zlen rd) (drop (Z.to_nat cur) file) (data ++ rd)
      else (rdlen, data)
  end.

(** [depth] bounds the calls of ReadFile by itself. *)
Fixpoint ReadFile (depth : nat) (key : string) (get_data : list Z) (isbak : bool) : KV (KvdbError * list Z) :=
  match depth with
  | O => undefined UB_Diverges
  | S depth' =>
      s ← get;
      match files s !! GetWholePath key isbak with
      | None => mret (KVDB_ERR_FILE_DONTEXIST, get_data)
      | Some file =>
          let '(flag0, len0, sum0) := junk depth in
          let '(flag, rest) := read_into 4 flag0 file in
          if negb (flag =? KVDB_FILE_HEAD_FLAG) then
            if isbak then mret (KVDB_ERR_FILE_CHECK, get_data)
            else
              let get_data := get_data ++ file in
              _ ← WriteFile key get_data false;
              ReadFile depth' key get_data isbak
          else
            let '(len, rest) := read_into 4 len0 rest in
            let len := s32 len in
            let '(sum, rest) := read_into 1 sum0 rest in
            let '(rdlen, get_data) := read_loop (S (length rest)) len 0 rest [] in
            if safe_mode s then
              if negb (rdlen =? len) then mret (KVDB_ERR_FILE_CHECK, get_data)
              else if negb (checksum len get_data =? sum) then mret (KVDB_ERR_FILE_CHECK, get_data)
              else mret (KVDB_ERR_OK, get_data)
            else mret (KVDB_ERR_OK, get_data)
      end
  end.

(** ** Operations; [depth] is for the calls of ReadFile. *)
Definition invalid_key (key : string) : bool :=
  let n := Z.of_nat (String.length key) in (n =? 0) || (KVDB_KEY_MAXLEN <? n).

Definition WriteKey (depth : nat) (key : string) (value : list Z) : KV KvdbError :=
  if invalid_key key then mret KVDB_ERR_INVALID_PARAM
  else
    '(readret, match_value) ← ReadFile depth (key +:+ "_match") [] false;
    checkret ← (if decide (readret = KVDB_ERR_OK) then lift (check_param_valid value match_value) else mret true);
    if negb checkret then mret KVDB_ERR_FILE_CHECK
    else
      ret ← WriteFile key value false;
      s ← get;
      if safe_mode s then WriteFile key value true else mret ret.

Definition Remove (key : string) : KV KvdbError :=
  if invalid_key key then mret KVDB_ERR_INVALID_PARAM
  else
    s ← get;
    match files s !! GetWholePath key false with
    | None => mret KVDB_ERR_WRITE_FILE
    | Some _ =>
        modify (set_files (delete (GetWholePath key false)));;
        modify (set_files (delete (GetWholePath key true)));;
        mret KVDB_ERR_OK
    end.

Definition ReadKey (depth : nat) (key : string) : KV (KvdbError * list Z) :=
  if invalid_key key then mret (KVDB_ERR_INVALID_PARAM, [])
  else
    '(readret, get_data) ← ReadFile depth (key +:+ "_match") [] false;
    sdefault ← lift (get_default_param get_data);
    let has_default := bool_decide (readret = KVDB_ERR_OK) && negb (zlen sdefault =? 0) in
    '(ret, get_value) ← ReadFile depth key [] false;
    s ← get;
    '(ret, get_value) ← (if decide (ret = KVDB_ERR_OK) then mret (ret, get_value)
                         else if safe_mode s then ReadFile depth key get_value true
                         else mret (ret, get_value));
    '(ret, get_value) ← (if decide (ret = KVDB_ERR_OK) then mret (ret, get_value)
                         else if has_default then mret (KVDB_ERR_OK, sdefault)
                         else mret (ret, get_value));
    if negb (bool_decide (ret = KVDB_ERR_OK)) then mret (ret, get_value)
    else if has_default then
      checkret ← lift (check_param_valid get_value get_data);
      mret (KVDB_ERR_OK, if checkret : bool then get_value else sdefault)
    else mret (KVDB_ERR_OK, get_value).

Definition SetProperty (property : Z) : KV KvdbError :=
  modify (λ s, mkKvdb property (files s) (faults s));; mret KVDB_ERR_OK.
Definition GetProperty : KV Z := gets property_.

(** Clear of the folder of the keys. *)
Definition Clear : KV KvdbError := modify (set_files (λ _, ∅));; mret KVDB_ERR_OK.
End store.
