(* ===== verification/KvdbTheorems.v ===== *)
(** * What the key-value store keeps

    Round trips, interrupted writes and damaged files of Kvdb.v. *)

From S2P Require Import Prelude Crc16 Serialize Json KvdbCheck Kvdb.
#[local] Open Scope Z_scope.

(** ** Files as bytes *)
Definition file_bytes (v : list Z) : list Z := concat (file_parts v).
Lemma file_bytes_eq v :
  file_bytes v = memcpy_le 4 KVDB_FILE_HEAD_FLAG ++ memcpy_le 4 (zlen v) ++ [checksum (zlen v) v] ++ v.
Proof. unfold file_bytes, file_parts. cbn [concat]. by rewrite app_nil_r. Qed.
Lemma file_bytes_length v : length (file_bytes v) = (9 + length v)%nat.
Proof. rewrite file_bytes_eq, !length_app, !memcpy_le_length. simpl. lia. Qed.

Lemma read_into_whole n z l rest : length l = n → read_into n z (l ++ rest) = (load_le l, rest).
Proof.
  intros Hl. unfold read_into. rewrite take_app_length', drop_app_length' by done.
  rewrite drop_ge by (rewrite memcpy_le_length; lia). by rewrite app_nil_r.
Qed.

Lemma read_loop_spec fuel len : ∀ rdlen file data, (length file < fuel)%nat → rdlen ≤ len →
  read_loop fuel len rdlen file data =
    (rdlen + zlen (take (Z.to_nat (len - rdlen)) file), data ++ take (Z.to_nat (len - rdlen)) file).
Proof.
  induction fuel as [|fuel IH]; intros rdlen file data Hf Hr; [lia|]. cbn [read_loop].
  destruct (Z.ltb_spec rdlen len) as [Hlt|Hge].
  2: { replace (len - rdlen) with 0 by lia. cbn. by rewrite Z.add_0_r, app_nil_r. }
  set (cur := if KVDB_TMP_BUFFER_LEN <? len - rdlen then KVDB_TMP_BUFFER_LEN else len - rdlen).
  assert (0 < cur ≤ len - rdlen) as Hc by (unfold cur, KVDB_TMP_BUFFER_LEN; destruct (Z.ltb_spec 1024 (len - rdlen)); lia).
  destruct (Z.eqb_spec (zlen (take (Z.to_nat cur) file)) 0) as [E|E].
  { apply zlen_0 in E. assert (file = []) as ->.
    { destruct file; [done|]. destruct (Z.to_nat cur) eqn:En; [lia|]. done. }
    rewrite !take_nil. cbn. by rewrite Z.add_0_r, app_nil_r. }
  assert (file ≠ []) as Hne by (intros ->; by rewrite take_nil in E).
  assert (0 < length file)%nat by (destruct file; [done|simpl; lia]).
  destruct (decide (Z.to_nat cur ≤ length file)%nat) as [Hle|Hgt].
  - assert (zlen (take (Z.to_nat cur) file) = cur) as Hz by (unfold zlen; rewrite length_take; lia).
    rewrite Hz, IH by (rewrite ?length_drop; lia).
    assert (take (Z.to_nat (len - rdlen)) file =
      take (Z.to_nat cur) file ++ take (Z.to_nat (len - (rdlen + cur))) (drop (Z.to_nat cur) file)) as E2.
    { rewrite take_take_drop. f_equal. lia. }
    rewrite E2, zlen_app, app_assoc, Hz. f_equal. lia.
  - rewrite (take_ge file (Z.to_nat cur)) by lia. rewrite IH by (rewrite ?length_drop; unfold zlen; lia).
    rewrite (drop_ge file) by lia. rewrite take_nil, (take_ge file) by lia. cbn. by rewrite Z.add_0_r, app_nil_r.
Qed.

Section theorems.
Context `{Jsoncpp} (junk : nat → Z * Z * Z).

(** ** ReadFile *)
(** A file that starts with the flag and has a whole header. *)
Lemma ReadFile_header d key data b s len sum v :
  files s !! GetWholePath key b = Some (memcpy_le 4 KVDB_FILE_HEAD_FLAG ++ memcpy_le 4 len ++ [sum] ++ v) →
  in_s 32 len → let got := if len <=? 0 then [] else take (Z.to_nat len) v in
  ReadFile junk (S d) key data b s =
    Ok ((if safe_mode s && (negb (zlen got =? len) || negb (checksum len got =? sum)) then KVDB_ERR_FILE_CHECK
         else KVDB_ERR_OK, got), s).
Proof.
  intros Hf Hlen got. cbn [ReadFile]. rewrite run_bind, run_get. cbn beta iota. rewrite Hf.
  destruct (junk (S d)) as [[flag0 len0] sum0]. rewrite read_into_whole by done. cbn beta iota.
  rewrite load_memcpy. change (KVDB_FILE_HEAD_FLAG mod 2 ^ (8 * Z.of_nat 4)) with KVDB_FILE_HEAD_FLAG.
  rewrite Z.eqb_refl. cbn [negb]. rewrite read_into_whole by done. cbn beta iota. rewrite load_memcpy.
  assert (s32 (len mod 2 ^ (8 * Z.of_nat 4)) = len) as ->.
  { change (2 ^ (8 * Z.of_nat 4)) with (2 ^ 32). rewrite <-(swrap_id 32 len) at 2 by (lia || done).
    unfold swrap. by rewrite Zplus_mod_idemp_l. }
  rewrite read_into_whole by done. cbn beta iota. assert (load_le [sum] = sum) as -> by (cbn; lia).
  assert (read_loop (S (length v)) len 0 v [] = (zlen got, got)) as ->.
  { unfold got. destruct (Z.leb_spec len 0).
    - cbn [read_loop]. by rewrite (proj2 (Z.ltb_ge 0 len)).
    - rewrite read_loop_spec by lia. by rewrite Z.sub_0_r. }
  cbn beta iota. destruct (safe_mode s); [|done]. cbn [andb].
  destruct (zlen got =? len); cbn [negb orb]; [|done]. by destruct (checksum len got =? sum).
Qed.

Lemma ReadFile_whole d key data b s v :
  files s !! GetWholePath key b = Some (file_bytes v) → zlen v < 2 ^ 31 →
  ReadFile junk (S d) key data b s = Ok ((KVDB_ERR_OK, v), s).
Proof.
  intros Hf Hv. rewrite file_bytes_eq in Hf. pose proof (zlen_nonneg v).
  rewrite (ReadFile_header d key data b s (zlen v) _ v Hf) by (unfold in_s; lia). 
  assert ((if zlen v <=? 0 then [] else take (Z.to_nat (zlen v)) v) = v) as ->.
  { destruct (Z.leb_spec (zlen v) 0); [symmetry; apply zlen_0; lia|]. apply take_ge. unfold zlen. lia. }
  rewrite !Z.eqb_refl. cbn. by rewrite andb_false_r.
Qed.

Lemma ReadFile_missing d key data b s : files s !! GetWholePath key b = None →
  ReadFile junk (S d) key data b s = Ok ((KVDB_ERR_FILE_DONTEXIST, data), s).
Proof. intros Hf. cbn [ReadFile]. rewrite run_bind, run_get. cbn beta iota. by rewrite Hf. Qed.

(** A main file without the flag is taken over as it is. *)
Lemma ReadFile_legacy d key data s file :
  files s !! key = Some file → (read_into 4 (junk (S d)).1.1 file).1 ≠ KVDB_FILE_HEAD_FLAG →
  ReadFile junk (S d) key data false s =
    (_ ← WriteFile key (data ++ file) false; ReadFile junk d key (data ++ file) false) s.
Proof.
  intros Hf Hj. cbn [ReadFile]. rewrite run_bind, run_get. cbn beta iota. change (GetWholePath key false) with key. rewrite Hf.
  destruct (junk (S d)) as [[flag0 len0] sum0]. cbn [fst] in Hj. destruct (read_into 4 flag0 file) as [flag rest].
  cbn [fst] in Hj. by rewrite (proj2 (Z.eqb_neq _ _) Hj).
Qed.

(** ** WriteFile *)
(** The bytes that come to the disk, and whether fwrite takes them all. *)
Definition upto (room : option (nat * nat)) (l : list Z) : list Z :=
  match room with Some (n, _) => take n l | None => l end.
Definition fits (room : option (nat * nat)) (l : list Z) : bool :=
  match room with Some (n, k) => (length l <=? n + k)%nat | None => true end.
Definition room_after (room : option (nat * nat)) (l : list Z) : option (nat * nat) :=
  (λ '(n, k), (n - length l, k - (length l - n))%nat) <$> room.

Lemma write_data_spec path room buf s file : files s !! path = Some file → buf ≠ [] →
  write_data path room buf s =
    Ok ((if fits room buf then zlen buf else Z.of_nat (match room with Some (n, k) => n + k | None => 0 end),
         room_after room buf), set_files (insert path (file ++ upto room buf)) s).
Proof.
  intros Hf Hb. unfold write_data. assert (0 < zlen buf).
  { pose proof (zlen_nonneg buf). assert (zlen buf ≠ 0) by (by intros ?%zlen_0). lia. }
  rewrite (proj2 (Z.leb_gt _ _)) by done. unfold fits, upto, room_after, zlen.
  destruct room as [[n k]|]; rewrite run_bind, run_modify; cbn beta iota; rewrite run_ret; unfold set_files;
    rewrite (alter_alt_Some _ _ _ _ Hf); [|done].
  cbn [fmap option_fmap option_map]. rewrite !length_take. do 2 f_equal. f_equal.
  - destruct (Nat.leb_spec (length buf) (n + k)); f_equal; lia.
  - do 2 f_equal; lia.
Qed.

Lemma set_files_id path s file : files s !! path = Some file → set_files (insert path file) s = s.
Proof. intros Hf. unfold set_files. rewrite insert_id by done. by destruct s. Qed.
Lemma set_files_twice path f g s : set_files (insert path g) (set_files (insert path f) s) = set_files (insert path g) s.
Proof. unfold set_files. cbn. by rewrite insert_insert_eq. Qed.

Lemma upto_app room l1 l2 : fits room l1 = true →
  upto room (l1 ++ l2) = upto room l1 ++ upto (room_after room l1) l2.
Proof. destruct room as [[n k]|]; [|done]. intros _. apply take_app. Qed.
Lemma fits_app room l1 l2 : fits room l1 = true → fits room (l1 ++ l2) = fits (room_after room l1) l2.
Proof.
  destruct room as [[n k]|]; [|done]. cbn. rewrite Nat.leb_le, length_app. intros.
  apply eq_bool_prop_intro. rewrite !Is_true_true, !Nat.leb_le. lia.
Qed.
Lemma upto_cut room l1 l2 : fits room l1 = false → upto room (l1 ++ l2) = upto room l1 ∧ fits room (l1 ++ l2) = false.
Proof.
  destruct room as [[n k]|]; [|done]. cbn. rewrite !Nat.leb_gt, length_app. intros. split; [|lia].
  rewrite take_app. replace (n - length l1)%nat with 0%nat by lia. by rewrite take_0, app_nil_r.
Qed.
Lemma fits_count room l : fits room l = false →
  Z.of_nat (match room with Some (n, k) => n + k | None => 0 end) ≠ zlen l.
Proof. destruct room as [[n k]|]; [|done]. cbn. rewrite Nat.leb_gt. unfold zlen. lia. Qed.

Lemma write_parts_spec path parts : Forall (λ p, p ≠ []) parts → ∀ room s file, files s !! path = Some file →
  write_parts path room parts s =
    Ok (if fits room (concat parts) then KVDB_ERR_OK else KVDB_ERR_WRITE_FILE,
        set_files (insert path (file ++ upto room (concat parts))) s).
Proof.
  induction 1 as [|part parts Hp _ IH]; intros room s file Hf; cbn [write_parts concat].
  - assert (upto room [] = []) as -> by (destruct room as [[n k]|]; [apply take_nil|done]).
    rewrite app_nil_r, set_files_id by done. by destruct room as [[n k]|].
  - rewrite run_bind, (write_data_spec path room part s file) by done. cbn beta iota.
    destruct (fits room part) eqn:E.
    + rewrite Z.eqb_refl. cbn [negb]. erewrite IH by apply lookup_insert_eq.
      by rewrite set_files_twice, <-app_assoc, fits_app, upto_app.
    + rewrite (proj2 (Z.eqb_neq _ _) (fits_count _ _ E)). cbn [negb].
      destruct (upto_cut _ _ (concat parts) E) as [-> ->]. done.
Qed.

Lemma file_parts_nonempty v : v ≠ [] → Forall (λ p, p ≠ []) (file_parts v).
Proof. intros Hv. unfold file_parts. repeat constructor; done. Qed.

Definition room_of (f : fault) : option (nat * nat) := match f with Cut n k => Some (n, k) | _ => None end.
Definition take_fault (s : KvdbOperateFile) : KvdbOperateFile := mkKvdb (property_ s) (files s) (tail (faults s)).
Definition head_fault (s : KvdbOperateFile) : fault := match faults s with [] => NoFault | f :: _ => f end.
Lemma next_fault_spec s : next_fault s = Ok (head_fault s, take_fault s).
Proof. unfold next_fault, head_fault, take_fault. destruct s as [p f [|x l]]; done. Qed.

Lemma WriteFile_spec key v b s : v ≠ [] → head_fault s ≠ OpenFails →
  WriteFile key v b s =
    Ok (if fits (room_of (head_fault s)) (file_bytes v) then KVDB_ERR_OK else KVDB_ERR_WRITE_FILE,
        set_files (insert (GetWholePath key b) (upto (room_of (head_fault s)) (file_bytes v))) (take_fault s)).
Proof.
  intros Hv Hf. unfold WriteFile. rewrite run_bind, next_fault_spec. cbn beta iota.
  assert (∀ room, (modify (set_files (insert (GetWholePath key b) []));; write_parts (GetWholePath key b) room (file_parts v)) (take_fault s)
    = Ok (if fits room (file_bytes v) then KVDB_ERR_OK else KVDB_ERR_WRITE_FILE,
        set_files (insert (GetWholePath key b) (upto room (file_bytes v))) (take_fault s))) as E.
  { intros room. rewrite run_bind, run_modify. cbn beta iota.
    rewrite (write_parts_spec _ _ (file_parts_nonempty v Hv) room _ []) by apply lookup_insert_eq. by rewrite set_files_twice. }
  destruct (head_fault s); [apply (E None)|done|apply (E (Some (n, k)))].
Qed.

(** An empty value is refused, though its file is written. *)
Lemma WriteFile_empty key b s : head_fault s = NoFault →
  WriteFile key [] b s = Ok (KVDB_ERR_WRITE_FILE, set_files (insert (GetWholePath key b) (file_bytes [])) (take_fault s)).
Proof.
  intros Hf. unfold WriteFile. rewrite run_bind, next_fault_spec, Hf. cbn beta iota. rewrite run_bind, run_modify. cbn beta iota.
  unfold file_parts. cbn [write_parts].
  do 3 (rewrite run_bind; erewrite write_data_spec; [|apply lookup_insert_eq|done]; cbn beta iota;
    cbn [fits]; rewrite Z.eqb_refl; cbn [negb]; rewrite set_files_twice).
  rewrite run_bind. unfold write_data at 1. change (zlen (@nil Z) <=? 0) with true. cbn iota. rewrite run_ret. done.
Qed.
(** ** The files of a key *)
Lemma string_app_inv (k a b : string) : k +:+ a = k +:+ b → a = b.
Proof. induction k as [|c k IH]; cbn; [done|]. intros [= Hk]. auto. Qed.
Lemma string_app_self (k a : string) : k +:+ a = k → a = "".
Proof. induction k as [|c k IH]; cbn; [done|]. intros [= Hk]. auto. Qed.
Lemma name_bak key : GetWholePath key true ≠ key.
Proof. unfold GetWholePath. by intros E%string_app_self. Qed.
Lemma name_match key : key +:+ "_match" ≠ key.
Proof. by intros E%string_app_self. Qed.
Lemma name_match_bak key : key +:+ "_match" ≠ GetWholePath key true.
Proof. unfold GetWholePath. by intros E%string_app_inv. Qed.

Definition stored (s : KvdbOperateFile) (key : string) (bak : bool) (v : list Z) : Prop :=
  files s !! GetWholePath key bak = Some (file_bytes v) ∧ zlen v < 2 ^ 31.
(** There is no description of the value, or one that accepts it. *)
Definition match_ok (s : KvdbOperateFile) (key : string) (v : list Z) : Prop :=
  files s !! (key +:+ "_match") = None ∨
  ∃ m d, stored s (key +:+ "_match") false m ∧ check_param_valid v m = Ok true ∧ get_default_param m = Ok d.

(** jsoncpp does not parse an empty document. *)
Context (empty_document : jparse [] = None).

Lemma match_read d s key v : match_ok s key v →
  ∃ r m dflt, ReadFile junk (S d) (key +:+ "_match") [] false s = Ok ((r, m), s) ∧ get_default_param m = Ok dflt ∧
    (r = KVDB_ERR_OK → check_param_valid v m = Ok true).
Proof.
  intros [Hn|(m & dflt & [Hm Hl] & Hv & Hd)].
  - exists KVDB_ERR_FILE_DONTEXIST, [], []. rewrite ReadFile_missing by done. split_and!; [done| |done].
    unfold get_default_param. by rewrite empty_document.
  - exists KVDB_ERR_OK, m, dflt. by rewrite (ReadFile_whole d _ _ false s m).
Qed.

(** What ReadKey makes of the two files. *)
Lemma ReadKey_value d key s s' v x e :
  invalid_key key = false → match_ok s key v →
  ReadFile junk (S d) key [] false s = Ok ((e, x), s') →
  (e = KVDB_ERR_OK ∧ x = v ∨ e ≠ KVDB_ERR_OK ∧ safe_mode s' = true ∧ stored s' key true v) →
  ReadKey junk (S d) key s = Ok ((KVDB_ERR_OK, v), s').
Proof.
  intros Hk Hma Hmain Hcase. destruct (match_read d s key v Hma) as (r & m & dflt & Hr & Hd & Hc).
  unfold ReadKey. rewrite Hk. rewrite run_bind, Hr. cbn beta iota. rewrite run_bind, Hd. cbn [lift].
  rewrite run_bind, Hmain. cbn beta iota. rewrite run_bind, run_get. cbn beta iota. rewrite run_bind.
  assert ((if decide (e = KVDB_ERR_OK) then mret (e, x)
           else if safe_mode s' then ReadFile junk (S d) key x true else mret (e, x)) s' = Ok ((KVDB_ERR_OK, v), s')) as ->.
  { destruct Hcase as [[-> ->]|(He & Hs & [Hb Hl])]; [done|]. rewrite decide_False by done. rewrite Hs.
    by apply ReadFile_whole. }
  cbn beta iota. rewrite decide_True by done. rewrite run_bind, run_ret. cbn beta iota.
  rewrite bool_decide_true by done. cbn [negb].
  destruct (bool_decide (r = KVDB_ERR_OK) && negb (zlen dflt =? 0)) eqn:E; [|done].
  apply andb_true_iff in E as [E%bool_decide_eq_true _]. rewrite run_bind, (Hc E). done.
Qed.

Lemma WriteKey_writes d key v s : invalid_key key = false → match_ok s key v →
  WriteKey junk (S d) key v s =
    (ret ← WriteFile key v false; s ← get; if safe_mode s then WriteFile key v true else mret ret) s.
Proof.
  intros Hk Hma. destruct (match_read d s key v Hma) as (r & m & dflt & Hr & _ & Hc).
  unfold WriteKey. rewrite Hk, run_bind, Hr. cbn beta iota. rewrite run_bind.
  case_decide as E; [rewrite (Hc E); done|done].
Qed.

Lemma match_ok_insert s s' key v : match_ok s key v →
  files s' !! (key +:+ "_match") = files s !! (key +:+ "_match") → match_ok s' key v.
Proof.
  intros [Hn|(m & d & [Hm Hl] & Hv)] E; [left; by rewrite E|right]. exists m, d. split; [|done]. split; [|done].
  change (GetWholePath (key +:+ "_match") false) with (key +:+ "_match"). by rewrite E.
Qed.

(** C38. The value a key was given is the value it is read with: when WriteKey
    is given a valid key (1 to 64 bytes) and a value that is not empty (an empty
    one is written but refused: empty_value_refused) and is shorter than 2^31
    bytes, when the key's _match file, if there is one, accepts the value, and
    when no write fails, WriteKey returns KVDB_ERR_OK, and ReadKey then returns
    KVDB_ERR_OK with exactly this value; the main file holds it, in safe mode
    the second file too, and no other file has changed. *)
Theorem write_then_read d key v s :
  invalid_key key = false → v ≠ [] → zlen v < 2 ^ 31 → match_ok s key v → faults s = [] →
  ∃ s', WriteKey junk (S d) key v s = Ok (KVDB_ERR_OK, s') ∧ ReadKey junk (S d) key s' = Ok ((KVDB_ERR_OK, v), s') ∧
    stored s' key false v ∧ (safe_mode s = true → stored s' key true v) ∧
    ∀ path, path ≠ key → path ≠ GetWholePath key true → files s' !! path = files s !! path.
Proof.
  intros Hk Hv Hl Hma Hf. assert (head_fault s = NoFault) as Hh by (unfold head_fault; by rewrite Hf).
  set (s1 := set_files (insert key (file_bytes v)) (take_fault s)).
  assert (WriteFile key v false s = Ok (KVDB_ERR_OK, s1)) as E1 by (rewrite WriteFile_spec by (done || by rewrite Hh); by rewrite Hh).
  set (s2 := if safe_mode s then set_files (insert (GetWholePath key true) (file_bytes v)) (take_fault s1) else s1).
  assert (safe_mode s1 = safe_mode s) as Es by done.
  assert (WriteKey junk (S d) key v s = Ok (KVDB_ERR_OK, s2)) as E2.
  { rewrite WriteKey_writes by done. rewrite run_bind, E1. cbn beta iota. rewrite run_bind, run_get. cbn beta iota.
    rewrite Es. unfold s2. destruct (safe_mode s); [|done]. assert (head_fault s1 = NoFault) as Hh1.
    { unfold head_fault, s1. cbn. by rewrite Hf. }
    rewrite WriteFile_spec by (done || by rewrite Hh1). by rewrite Hh1. }
  assert (files s2 !! key = Some (file_bytes v)) as Hmain.
  { unfold s2. destruct (safe_mode s); cbn; rewrite ?lookup_insert_ne by apply name_bak; apply lookup_insert_eq. }
  assert (∀ path, path ≠ key → path ≠ GetWholePath key true → files s2 !! path = files s !! path) as Hoth.
  { intros path H1 H2. unfold s2. destruct (safe_mode s); cbn; rewrite !lookup_insert_ne by done; done. }
  exists s2. split_and!; [done| |done| |done].
  - apply (ReadKey_value d key s2 s2 v v KVDB_ERR_OK); [done| | |by left].
    + eapply match_ok_insert; [done|]. apply Hoth; [apply name_match|apply name_match_bak].
    + by apply ReadFile_whole.
  - intros Hs. split; [|done]. unfold s2. rewrite Hs. apply lookup_insert_eq.
Qed.
(** ** Interrupted writes *)
Lemma cut_file v n : (9 ≤ n)%nat → take n (file_bytes v) =
  memcpy_le 4 KVDB_FILE_HEAD_FLAG ++ memcpy_le 4 (zlen v) ++ [checksum (zlen v) v] ++ take (n - 9) v.
Proof.
  intros Hn. rewrite file_bytes_eq. set (h := checksum (zlen v) v).
  rewrite take_app, memcpy_le_length, (take_ge (memcpy_le 4 _)) by (rewrite memcpy_le_length; lia).
  rewrite take_app, memcpy_le_length, (take_ge (memcpy_le 4 _)) by (rewrite memcpy_le_length; lia).
  rewrite take_app, (take_ge [h]) by (simpl; lia). do 4 f_equal. simpl. lia.
Qed.

Lemma ReadFile_cut d key data b s v n : safe_mode s = true → zlen v < 2 ^ 31 → (9 ≤ n < 9 + length v)%nat →
  files s !! GetWholePath key b = Some (take n (file_bytes v)) →
  ReadFile junk (S d) key data b s = Ok ((KVDB_ERR_FILE_CHECK, take (n - 9) v), s).
Proof.
  intros Hs Hl Hn Hf. rewrite cut_file in Hf by lia. pose proof (zlen_nonneg v).
  rewrite (ReadFile_header d key data b s (zlen v) _ _ Hf) by (unfold in_s; lia).
  rewrite (proj2 (Z.leb_gt (zlen v) 0)) by (unfold zlen; lia).
  rewrite (take_ge (take (n - 9) v)) by (rewrite length_take; unfold zlen; lia). rewrite Hs.
  rewrite (proj2 (Z.eqb_neq _ _)); [done|]. unfold zlen. rewrite length_take. lia.
Qed.

(** C39. The power goes in safe mode while WriteKey is at the main file of a
    key, after its nine bytes of header and any number of bytes of the new
    value, so that the second file is not reached; the values are accepted by
    the key's _match file, if there is one.  Whatever the main file held, what
    ReadKey then returns with KVDB_ERR_OK is the new value when none of it was
    missing, and the value of the second file otherwise.  That is the value the
    key had when the write before this one was whole, which leaves both files
    the same (C38); it is the value before that one when the write before this
    one did not come to the second file either. *)
Theorem crash_recovery d key old new s n k :
  invalid_key key = false → safe_mode s = true → new ≠ [] → zlen new < 2 ^ 31 →
  stored s key true old → match_ok s key old → match_ok s key new →
  head_fault s = Cut n k → (9 ≤ n)%nat →
  ∃ ret s', WriteFile key new false s = Ok (ret, s') ∧ (ret = KVDB_ERR_OK ↔ (9 + length new ≤ n + k)%nat) ∧
    ReadKey junk (S d) key s' = Ok ((KVDB_ERR_OK, if (n <? 9 + length new)%nat then old else new), s').
Proof.
  intros Hk Hs Hv Hl [Hbak Hol] Hmo Hmn Hh Hn. eexists _, _. rewrite WriteFile_spec by (done || by rewrite Hh).
  split; [done|]. rewrite Hh. cbn [room_of upto fits]. change (GetWholePath key false) with key. split.
  { rewrite file_bytes_length. destruct (Nat.leb_spec (9 + length new) (n + k)); split; (done || lia). }
  set (s' := set_files (insert key (take n (file_bytes new))) (take_fault s)).
  assert (files s' !! key = Some (take n (file_bytes new))) as Hmain by apply lookup_insert_eq.
  assert (∀ v, match_ok s key v → match_ok s' key v) as Hm'.
  { intros v Hm. eapply match_ok_insert; [done|]. cbn. apply lookup_insert_ne. intros E. by apply (name_match key). }
  destruct (Nat.ltb_spec n (9 + length new)) as [Hlt|Hge].
  - eapply ReadKey_value; [done|by apply Hm'|apply (ReadFile_cut d key [] false s' new n); [exact Hs|done|lia|done]|]. right. split_and!; [done|exact Hs|].
    split; [|done]. cbn. rewrite lookup_insert_ne; [done|]. intros E. by apply (name_bak key).
  - eapply ReadKey_value; [done|by apply Hm'| |by left; split]. apply ReadFile_whole; [|done].
    change (GetWholePath key false) with key. rewrite Hmain. f_equal. apply take_ge. rewrite file_bytes_length. lia.
Qed.

(** On a full disk that takes the headers of both files, WriteKey reports
    success as long as the buffer of stdio takes the rest of the value, since
    write_data ignores the result of fflush; neither file is read afterwards. *)
Theorem full_disk_reported_ok d key v s n1 k1 n2 k2 l :
  invalid_key key = false → safe_mode s = true → zlen v < 2 ^ 31 → files s !! (key +:+ "_match") = None →
  faults s = Cut n1 k1 :: Cut n2 k2 :: l →
  (9 ≤ n1 < 9 + length v)%nat → (9 ≤ n2 < 9 + length v)%nat → (9 + length v ≤ n1 + k1)%nat → (9 + length v ≤ n2 + k2)%nat →
  ∃ s', WriteKey junk (S d) key v s = Ok (KVDB_ERR_OK, s') ∧
    ReadKey junk (S d) key s' = Ok ((KVDB_ERR_FILE_CHECK, take (n2 - 9) v), s').
Proof.
  intros Hk Hs Hl Hm Hf Hn1 Hn2 Hk1 Hk2. assert (v ≠ []) as Hv by (intros ->; simpl in *; lia).
  set (s1 := set_files (insert key (take n1 (file_bytes v))) (take_fault s)).
  set (s2 := set_files (insert (GetWholePath key true) (take n2 (file_bytes v))) (take_fault s1)).
  assert (head_fault s = Cut n1 k1 ∧ head_fault s1 = Cut n2 k2) as [Hh1 Hh2].
  { unfold head_fault, s1. cbn. by rewrite Hf. }
  assert (∀ n k, (9 + length v ≤ n + k)%nat → (length (file_bytes v) <=? n + k)%nat = true) as Hfit.
  { intros n k H0. rewrite file_bytes_length. by apply Nat.leb_le. }
  assert (files s2 !! (key +:+ "_match") = None) as Hm2.
  { rewrite <-Hm. cbn. rewrite !lookup_insert_ne; [done| |]; intros E; [by apply (name_match key)|by apply (name_match_bak key)]. }
  exists s2. split.
  - rewrite WriteKey_writes by (done || by left). rewrite run_bind, WriteFile_spec by (done || by rewrite Hh1).
    rewrite Hh1. cbn [room_of fits upto]. rewrite Hfit by done. cbn beta iota.
    change (set_files _ (take_fault s)) with s1. rewrite run_bind, run_get. cbn beta iota.
    change (safe_mode s1) with (safe_mode s). rewrite Hs, WriteFile_spec by (done || by rewrite Hh2).
    rewrite Hh2. cbn [room_of fits upto]. by rewrite Hfit by done.
  - unfold ReadKey. rewrite Hk, run_bind, ReadFile_missing by done. cbn beta iota. rewrite run_bind.
    unfold get_default_param. rewrite empty_document. cbn [lift].
    rewrite run_bind, (ReadFile_cut d key [] false s2 v n1) by
      (done || by cbn; rewrite lookup_insert_ne by apply name_bak; apply lookup_insert_eq).
    cbn beta iota. rewrite run_bind, run_get. cbn beta iota. rewrite run_bind, decide_False by done.
    change (safe_mode s2) with (safe_mode s). rewrite Hs.
    rewrite (ReadFile_cut d key _ true s2 v n2) by (done || apply lookup_insert_eq). done.
Qed.

Lemma ReadFile_headerless d key s file : files s !! key = Some file → zlen file < 2 ^ 31 →
  (read_into 4 (junk (S (S d))).1.1 file).1 ≠ KVDB_FILE_HEAD_FLAG → head_fault s = NoFault →
  ReadFile junk (S (S d)) key [] false s =
    Ok ((KVDB_ERR_OK, file), set_files (insert key (file_bytes file)) (take_fault s)).
Proof.
  intros Hf Hl Hj Hh. rewrite (ReadFile_legacy (S d) key [] s file Hf Hj). cbn [app]. rewrite run_bind.
  assert (∃ r, WriteFile key file false s = Ok (r, set_files (insert key (file_bytes file)) (take_fault s))) as [r ->].
  { destruct file as [|x file]; [by eexists; apply WriteFile_empty|].
    rewrite WriteFile_spec by (done || by rewrite Hh). rewrite Hh. by eexists. }
  cbn beta iota. rewrite (ReadFile_whole d _ _ _ _ file); [done|apply lookup_insert_eq|done].
Qed.

(** A main file that does not start with the flag, as a write cut after less
    than four bytes leaves it, is taken for a value of the old format, in safe
    mode too: it is the value that is read, whatever the second file holds,
    and from then on it is the value of a file that passes every check. *)
Theorem headerless_file_accepted d key s file :
  invalid_key key = false → files s !! (key +:+ "_match") = None → files s !! key = Some file → zlen file < 2 ^ 31 →
  (read_into 4 (junk (S (S d))).1.1 file).1 ≠ KVDB_FILE_HEAD_FLAG → head_fault s = NoFault →
  ∃ s', ReadKey junk (S (S d)) key s = Ok ((KVDB_ERR_OK, file), s') ∧ stored s' key false file ∧
    ReadKey junk (S (S d)) key s' = Ok ((KVDB_ERR_OK, file), s').
Proof.
  intros Hk Hm Hf Hl Hj Hh. set (s' := set_files (insert key (file_bytes file)) (take_fault s)).
  assert (match_ok s' key file) as Hm'.
  { left. change (files s') with (<[key := file_bytes file]> (files s)). rewrite lookup_insert_ne; [done|].
    intros E. by apply (name_match key). }
  assert (stored s' key false file) as Hst by (split; [apply lookup_insert_eq|done]). exists s'. split_and!.
  - eapply ReadKey_value; [done|by left|by apply ReadFile_headerless|by left].
  - done.
  - eapply ReadKey_value; [done|done|apply ReadFile_whole; apply Hst|by left].
Qed.

(** ** Damaged files *)
Lemma foldl_lxor a l : foldl Z.lxor a l = Z.lxor a (foldl Z.lxor 0 l).
Proof.
  revert a. induction l as [|x l IH]; intros a; cbn [foldl]; [by rewrite Z.lxor_0_r|].
  rewrite IH, (IH (Z.lxor 0 x)), Z.lxor_0_l. by rewrite Z.lxor_assoc.
Qed.
Lemma checksum_change len l1 l2 x y : checksum len (l1 ++ x :: l2) = checksum len (l1 ++ y :: l2) → x = y.
Proof.
  unfold checksum. rewrite !foldl_app. cbn [foldl]. rewrite (foldl_lxor (Z.lxor _ x)), (foldl_lxor (Z.lxor _ y)).
  rewrite !Z.lxor_assoc. intros E.
  apply (f_equal (Z.lxor (foldl Z.lxor (length_sum len) l1))) in E. rewrite <-!Z.lxor_assoc, Z.lxor_nilpotent, !Z.lxor_0_l in E.
  apply (f_equal (λ z, Z.lxor z (foldl Z.lxor 0 l2))) in E. by rewrite !Z.lxor_assoc, Z.lxor_nilpotent, !Z.lxor_0_r in E.
Qed.

Lemma ReadFile_damaged d key s len sum v : safe_mode s = true → len = zlen v → len < 2 ^ 31 → checksum len v ≠ sum →
  files s !! key = Some (memcpy_le 4 KVDB_FILE_HEAD_FLAG ++ memcpy_le 4 len ++ [sum] ++ v) →
  ReadFile junk (S d) key [] false s = Ok ((KVDB_ERR_FILE_CHECK, v), s).
Proof.
  intros Hs Hlen Hl Hc Hf. pose proof (zlen_nonneg v).
  rewrite (ReadFile_header d key [] false s len sum v Hf) by (unfold in_s; lia).
  assert ((if len <=? 0 then [] else take (Z.to_nat len) v) = v) as ->.
  { destruct (Z.leb_spec len 0); [symmetry; apply zlen_0; lia|]. apply take_ge. unfold zlen in *. lia. }
  by rewrite Hs, Hlen, Z.eqb_refl, <-Hlen, (proj2 (Z.eqb_neq _ _) Hc).
Qed.

(** C40. A main file with one byte of its checksum or its value changed is not
    believed in safe mode: the value is that of the second file. *)
Theorem byte_damage_recovered d key s v w i b :
  invalid_key key = false → safe_mode s = true → zlen v < 2 ^ 31 → stored s key true w → match_ok s key w →
  (8 ≤ i < 9 + length v)%nat → file_bytes v !! i ≠ Some b → files s !! key = Some (<[i := b]> (file_bytes v)) →
  ReadKey junk (S d) key s = Ok ((KVDB_ERR_OK, w), s).
Proof.
  intros Hk Hs Hl Hbak Hm Hi Hne Hf. rewrite file_bytes_eq in Hne, Hf.
  rewrite insert_app_r_alt in Hf by (rewrite memcpy_le_length; lia). rewrite memcpy_le_length in Hf.
  rewrite insert_app_r_alt in Hf by (rewrite memcpy_le_length; lia). rewrite memcpy_le_length in Hf.
  rewrite lookup_app_r in Hne by (rewrite memcpy_le_length; lia). rewrite memcpy_le_length in Hne.
  rewrite lookup_app_r in Hne by (rewrite memcpy_le_length; lia). rewrite memcpy_le_length in Hne.
  replace (i - 4 - 4)%nat with (i - 8)%nat in * by lia.
  destruct (i - 8)%nat as [|j] eqn:E.
  - eapply ReadKey_value; [done|done| |].
    + eapply ReadFile_damaged; [done|reflexivity|done| |exact Hf]. cbn in Hne. congruence.
    + by right.
  - set (h := checksum (zlen v) v) in *. change (<[S j := b]> ([h] ++ v)) with ([h] ++ <[j := b]> v) in Hf.
    change (([h] ++ v) !! S j) with (v !! j) in Hne.
    destruct (lookup_lt_is_Some_2 v j) as [x Hx]; [lia|]. 
    assert (v = take j v ++ x :: drop (S j) v) as Ev by (symmetry; by apply take_drop_middle).
    assert (<[j:=b]> v = take j v ++ b :: drop (S j) v) as Ei by (apply insert_take_drop; lia).
    eapply ReadKey_value; [done|done| |].
    + eapply ReadFile_damaged; [done| |done| |exact Hf]; [unfold zlen; by rewrite length_insert|].
      intros Hc. rewrite Ei in Hc. assert (b = x) as ->; [|by apply Hne].
      apply (checksum_change (zlen v) (take j v) (drop (S j) v)). by rewrite <-Ev.
    + by right.
Qed.
(** ** Failures *)
(** In safe mode the result of writing the main file is lost: when it cannot be
    opened and the second file can be written, WriteKey reports success and
    the key keeps its old value. *)
Theorem failed_write_reported_ok d key old new s l :
  invalid_key key = false → safe_mode s = true → new ≠ [] → faults s = OpenFails :: l → head_fault (take_fault s) = NoFault →
  stored s key false old → match_ok s key old → match_ok s key new →
  ∃ s', WriteKey junk (S d) key new s = Ok (KVDB_ERR_OK, s') ∧ ReadKey junk (S d) key s' = Ok ((KVDB_ERR_OK, old), s').
Proof.
  intros Hk Hs Hv Hf Hh [Hmain Hl] Hmo Hmn.
  set (s2 := set_files (insert (GetWholePath key true) (file_bytes new)) (take_fault (take_fault s))). exists s2. split.
  - rewrite WriteKey_writes by done. rewrite run_bind.
    assert (WriteFile key new false s = Ok (KVDB_ERR_OPEN_FILE, take_fault s)) as ->.
    { unfold WriteFile. rewrite run_bind, next_fault_spec. unfold head_fault. by rewrite Hf. }
    cbn beta iota. rewrite run_bind, run_get. cbn beta iota. change (safe_mode (take_fault s)) with (safe_mode s). rewrite Hs.
    rewrite WriteFile_spec by (done || by rewrite Hh). by rewrite Hh.
  - eapply ReadKey_value; [done| | |by left].
    + eapply match_ok_insert; [done|]. apply lookup_insert_ne. intros E. by apply (name_match_bak key).
    + apply ReadFile_whole; [|done]. cbn. rewrite lookup_insert_ne; [done|]. apply name_bak.
Qed.

(** A file of the old format that cannot be written again is read for ever:
    ReadFile calls itself until the stack is full. *)
Theorem unwritable_legacy_diverges d : ∀ key s file data,
  files s !! key = Some file → (∀ n, (read_into 4 (junk n).1.1 file).1 ≠ KVDB_FILE_HEAD_FLAG) →
  (∀ n, (n < d)%nat → faults s !! n = Some OpenFails) →
  ReadFile junk d key data false s = Ub UB_Diverges.
Proof.
  induction d as [|d IH]; intros key s file data Hf Hj Hall; [done|].
  rewrite (ReadFile_legacy d key data s file Hf (Hj (S d))). rewrite run_bind.
  assert (faults s = OpenFails :: tail (faults s)) as Hl.
  { specialize (Hall 0%nat ltac:(lia)). destruct (faults s) as [|f l]; [done|]. cbn in Hall. by simplify_eq. }
  assert (WriteFile key (data ++ file) false s = Ok (KVDB_ERR_OPEN_FILE, take_fault s)) as ->.
  { unfold WriteFile. rewrite run_bind, next_fault_spec. unfold head_fault. by rewrite Hl. }
  cbn beta iota. apply (IH key (take_fault s) file); [done|done|]. intros n Hn. specialize (Hall (S n) ltac:(lia)).
  rewrite Hl in Hall. done.
Qed.

(** Removing a key removes both files; what is read then is the default. *)
Theorem remove_then_read d key s :
  invalid_key key = false → is_Some (files s !! key) → files s !! (key +:+ "_match") = None →
  ∃ s', Remove key s = Ok (KVDB_ERR_OK, s') ∧ (ReadKey junk (S d) key s' = Ok ((KVDB_ERR_FILE_DONTEXIST, []), s')) ∧
    ∀ path, path ≠ key → path ≠ GetWholePath key true → files s' !! path = files s !! path.
Proof.
  intros Hk [file Hf] Hm. set (s' := set_files (delete (GetWholePath key true)) (set_files (delete key) s)).
  assert (∀ path, path ≠ key → path ≠ GetWholePath key true → files s' !! path = files s !! path) as Ho.
  { intros path H1 H2. unfold s'. cbn. by rewrite !lookup_delete_ne by done. }
  assert (files s' !! key = None) as H0.
  { unfold s'. cbn [set_files files]. rewrite lookup_delete_ne by apply name_bak. apply lookup_delete_eq. }
  assert (files s' !! GetWholePath key true = None) as H1 by apply lookup_delete_eq.
  exists s'. split_and!; [| |done].
  - unfold Remove. rewrite Hk, run_bind, run_get. cbn beta iota. change (GetWholePath key false) with key. by rewrite Hf.
  - unfold ReadKey. rewrite Hk, run_bind, ReadFile_missing.
    2: { rewrite <-Hm. apply Ho; [apply name_match|apply name_match_bak]. }
    cbn beta iota. rewrite run_bind. unfold get_default_param. rewrite empty_document. cbn [lift].
    rewrite run_bind, ReadFile_missing by done. cbn beta iota. rewrite run_bind, run_get. cbn beta iota. rewrite run_bind.
    rewrite decide_False by done. destruct (safe_mode s'); [rewrite ReadFile_missing by done|rewrite run_ret]; done.
Qed.
End theorems.

(** ** Witnesses *)
(** A closed fact, evaluated. *)
Ltac eval_done := vm_compute; first [reflexivity|discriminate|by intros].
Definition plain_json : Jsoncpp :=
  {| jparse := λ b, match b with [] => None | _ => Some (JObj []) end; Json2String := λ _, [] |}.
Definition zeros : nat → Z * Z * Z := λ _, (0, 0, 0).
Definition fresh_store : KvdbOperateFile := mkKvdb 1 ∅ [].
(** A key "k" with the value 1, 2, 3 in both files, and faults to come. *)
Definition one_key (l : list fault) : KvdbOperateFile :=
  mkKvdb 1 (<["k_bak" := file_bytes [1; 2; 3]]> {["k" := file_bytes [1; 2; 3]]}) l.

Lemma write_then_read_witness : ∃ s',
  WriteKey (H:=plain_json) zeros 1 "k" [1; 2; 3] fresh_store = Ok (KVDB_ERR_OK, s') ∧
  ReadKey (H:=plain_json) zeros 1 "k" s' = Ok ((KVDB_ERR_OK, [1; 2; 3]), s').
Proof.
  destruct (write_then_read (H:=plain_json) zeros eq_refl 0 "k" [1; 2; 3] fresh_store) as (s' & H1 & H2 & _);
    [reflexivity|discriminate|eval_done|left; reflexivity|reflexivity|]. exists s'. split; [exact H1|exact H2].
Defined.

Lemma crash_recovery_witness : ∃ ret s',
  WriteFile "k" [7; 8; 9; 10] false (one_key [Cut 11 4]) = Ok (ret, s') ∧ ret = KVDB_ERR_OK ∧
  ReadKey (H:=plain_json) zeros 1 "k" s' = Ok ((KVDB_ERR_OK, [1; 2; 3]), s').
Proof.
  destruct (crash_recovery (H:=plain_json) zeros eq_refl 0 "k" [1; 2; 3] [7; 8; 9; 10] (one_key [Cut 11 4]) 11 4)
    as (ret & s' & Hw & Hr & Hk);
    [reflexivity|reflexivity|discriminate|eval_done|split; eval_done|left; reflexivity|left; reflexivity|reflexivity|lia|].
  exists ret, s'. split; [exact Hw|]. split; [apply Hr; simpl; lia|exact Hk].
Defined.

Lemma full_disk_reported_ok_witness : ∃ s',
  WriteKey (H:=plain_json) zeros 1 "k" [7; 8; 9; 10] (one_key [Cut 11 4096; Cut 10 4096]) = Ok (KVDB_ERR_OK, s') ∧
  ReadKey (H:=plain_json) zeros 1 "k" s' = Ok ((KVDB_ERR_FILE_CHECK, [7]), s').
Proof.
  apply (full_disk_reported_ok (H:=plain_json) zeros eq_refl 0 "k" [7; 8; 9; 10] (one_key [Cut 11 4096; Cut 10 4096]) 11 4096 10 4096 []);
    try reflexivity; simpl length; lia.
Defined.

(** The write of a new value was cut after one byte; the old value is lost. *)
Definition cut_key : KvdbOperateFile :=
  mkKvdb 1 (<["k_bak" := file_bytes [1; 2; 3]]> {["k" := [90]]}) [].
Lemma headerless_file_accepted_witness : ∃ s',
  ReadKey (H:=plain_json) zeros 2 "k" cut_key = Ok ((KVDB_ERR_OK, [90]), s') ∧ stored s' "k" false [90] ∧
  ReadKey (H:=plain_json) zeros 2 "k" s' = Ok ((KVDB_ERR_OK, [90]), s').
Proof.
  apply (headerless_file_accepted (H:=plain_json) zeros eq_refl 0 "k" cut_key [90]);
    [reflexivity|reflexivity|reflexivity|eval_done|eval_done|reflexivity].
Defined.

Definition damaged_key : KvdbOperateFile :=
  mkKvdb 1 (<["k_bak" := file_bytes [4; 5]]> {["k" := <[10%nat := 77]> (file_bytes [1; 2; 3])]}) [].
Lemma byte_damage_recovered_witness :
  ReadKey (H:=plain_json) zeros 1 "k" damaged_key = Ok ((KVDB_ERR_OK, [4; 5]), damaged_key).
Proof.
  apply (byte_damage_recovered (H:=plain_json) zeros eq_refl 0 "k" damaged_key [1; 2; 3] [4; 5] 10 77);
    [reflexivity|reflexivity|eval_done|split; eval_done|left; reflexivity|simpl; lia|eval_done|reflexivity].
Defined.

Lemma failed_write_reported_ok_witness : ∃ s',
  WriteKey (H:=plain_json) zeros 1 "k" [7; 8] (one_key [OpenFails]) = Ok (KVDB_ERR_OK, s') ∧
  ReadKey (H:=plain_json) zeros 1 "k" s' = Ok ((KVDB_ERR_OK, [1; 2; 3]), s').
Proof.
  apply (failed_write_reported_ok (H:=plain_json) zeros eq_refl 0 "k" [1; 2; 3] [7; 8] (one_key [OpenFails]) []);
    [reflexivity|reflexivity|discriminate|reflexivity|reflexivity|split; eval_done|left; reflexivity|left; reflexivity].
Defined.

Definition legacy_key (n : nat) : KvdbOperateFile := mkKvdb 1 {["k" := [65; 66; 67; 68; 69]]} (replicate n OpenFails).
Lemma unwritable_legacy_diverges_witness :
  ReadFile zeros 100 "k" [] false (legacy_key 100) = Ub UB_Diverges.
Proof.
  apply (unwritable_legacy_diverges zeros 100 "k" (legacy_key 100) [65; 66; 67; 68; 69]);
    [reflexivity|intros n; eval_done|]. intros n Hn. apply lookup_replicate_2. lia.
Defined.

Lemma remove_then_read_witness : ∃ s', Remove "k" (one_key []) = Ok (KVDB_ERR_OK, s') ∧
  ReadKey (H:=plain_json) zeros 1 "k" s' = Ok ((KVDB_ERR_FILE_DONTEXIST, []), s').
Proof.
  destruct (remove_then_read (H:=plain_json) zeros eq_refl 0 "k" (one_key [])) as (s' & H1 & H2 & _);
    [reflexivity|eexists; reflexivity|reflexivity|]. exists s'. split; [exact H1|exact H2].
Defined.

(** The second file of "k" is the first file of the key "k_bak". *)
Lemma bak_key_collision :
  (λ r, r.1) <$> (_ ← WriteKey (H:=plain_json) zeros 1 "k" [1; 2; 3];
     _ ← WriteKey (H:=plain_json) zeros 1 "k_bak" [9];
     modify (set_files (delete "k"));;
     ReadKey (H:=plain_json) zeros 1 "k") fresh_store = Ok (KVDB_ERR_OK, [9]).
Proof. vm_compute. reflexivity. Qed.
(** An empty value is written and refused. *)
Lemma empty_value_refused :
  (λ r, r.1) <$> (r ← WriteKey (H:=plain_json) zeros 1 "k" []; v ← ReadKey (H:=plain_json) zeros 1 "k"; mret (r, v)) (one_key []) =
    Ok (KVDB_ERR_WRITE_FILE, (KVDB_ERR_OK, [])).
Proof. vm_compute. reflexivity. Qed.
