(* ===== verification/JsonText.v ===== *)
(** * Json values that are built, and the texts of numbers

    Writing of members and elements (Value::operator[] on a value that is not
    constant), String2Json of src/third_part/json/jsoncpp.cpp over a parser that
    is a parameter, and what the servers use of the C++ library to print and
    read numbers: sprintf into a buffer, std::stoi and std::stof.  A new member
    comes last in its list; the map of jsoncpp sorts its keys, which only
    printing shows. *)

From S2P Require Import Prelude Float Json.
From Stdlib Require Import QArith_base Qreduction Ascii.
From Stdlib Require Import SpecFloat.
From stdpp Require Import pretty.
#[local] Open Scope Z_scope.

(** ** Writing of values *)
Fixpoint jput (k : string) (x : json) (l : list (string * json)) : list (string * json) :=
  match l with
  | [] => [(k, x)]
  | (k', v) :: l' => if decide (k = k') then (k, x) :: l' else (k', v) :: jput k x l'
  end.
(** v[k] = x *)
Definition jset (v : json) (k : string) (x : json) : res json :=
  match v with
  | JNull => Ok (JObj [(k, x)])
  | JObj l => Ok (JObj (jput k x l))
  | _ => Ub UB_BadJson
  end.
(** A use of v[k] makes the member. *)
Definition jtouch (v : json) (k : string) : res json := x ← jkey v k; jset v k x.
(** v[i] = x; the elements before it that do not exist read as null. *)
Definition jset_idx (v : json) (i : nat) (x : json) : res json :=
  match v with
  | JNull => Ok (JArr (replicate i JNull ++ [x]))
  | JArr l => Ok (JArr (if decide (i < length l)%nat then <[i := x]> l
                        else l ++ replicate (i - length l) JNull ++ [x]))
  | _ => Ub UB_BadJson
  end.
(** v[k1][k2] = x, v[k][i] = x and v[k1][i][k2] = x *)
Definition jset2 (v : json) (k1 k2 : string) (x : json) : res json :=
  v1 ← jkey v k1; v1' ← jset v1 k2 x; jset v k1 v1'.
Definition jset_elem (v : json) (k : string) (i : nat) (x : json) : res json :=
  v1 ← jkey v k; v1' ← jset_idx v1 i x; jset v k v1'.
Definition jset3 (v : json) (k1 : string) (i : nat) (k2 : string) (x : json) : res json :=
  v1 ← jkey v k1; e ← jidx v1 i; e' ← jset e k2 x; jset_elem v k1 i e'.
(** A use of v[k1][k2]. *)
Definition jtouch2 (v : json) (k1 k2 : string) : res json :=
  v1 ← jkey v k1; v1' ← jtouch v1 k2; jset v k1 v1'.

Definition isString (v : json) : bool := match v with JStr _ => true | _ => false end.
Definition isObject (v : json) : bool := match v with JObj _ => true | _ => false end.
Definition JV_TO_STRING `{RealFormat} (v : json) (k d : string) : res string :=
  m ← isMember v k;
  if m : bool then x ← jkey v k; Ok (if isString x then asString x else d) else Ok d.

(** Json::Reader::parse, with the value it leaves when it fails, and the
    writers. *)
Class JsonText := {
  jparse : string → bool * json;
  toSimpleString : json → string }.
Definition String2Json `{JsonText} (src_str : string) : bool * json :=
  let '(ok, v) := jparse src_str in (ok && (isObject v || isArray v), v).

(** ** Printing of numbers *)

(** sprintf into [size] bytes; the text and its end must fit. *)
Definition sprintf (size : nat) (text : string) : res string :=
  if (String.length text <? size)%nat then Ok text else Ub UB_OutOfBounds.

(** n digits of a number, with zeros in front. *)
Fixpoint padded (n : nat) (z : Z) : string :=
  match n with
  | O => ""
  | S n' => padded n' (z / 10) +:+ pretty (z mod 10)
  end.
(** n / d to the nearest integer, ties to even *)
Definition div_near (n d : Z) : Z :=
  let q := n / d in
  match 2 * (n mod d) ?= d with
  | Lt => q
  | Gt => q + 1
  | Eq => if Z.even q then q else q + 1
  end.
(** %.[digits]f; the widths used are never larger than the text. *)
Definition fmt_f (digits : nat) (q : Q) : string :=
  let n := div_near (Z.abs (Qnum q) * 10 ^ Z.of_nat digits) (Zpos (Qden q)) in
  (if Qnum q <? 0 then "-" else "") +:+ pretty (n / 10 ^ Z.of_nat digits) +:+ "."
  +:+ padded digits (n mod 10 ^ Z.of_nat digits).

(** ** Reading of numbers *)
Definition is_blank (a : ascii) : bool :=
  let n := N_of_ascii a in ((n =? 32) || ((9 <=? n) && (n <=? 13)))%N.
Fixpoint skip_blanks (s : string) : string :=
  match s with
  | String a s' => if is_blank a then skip_blanks s' else s
  | EmptyString => s
  end.
Definition digit (a : ascii) : option Z :=
  let n := Z.of_N (N_of_ascii a) in
  if (48 <=? n) && (n <=? 57) then Some (n - 48) else None.
(** The digits at the start, after [n] and [len] digits before them. *)
Fixpoint read_digits (s : string) (n : Z) (len : nat) : Z * nat * string :=
  match s with
  | String a s' =>
      match digit a with
      | Some d => read_digits s' (10 * n + d) (S len)
      | None => (n, len, s)
      end
  | EmptyString => (n, len, s)
  end.
Definition read_sign (s : string) : bool * string :=
  match s with
  | String "-" s' => (true, s')
  | String "+" s' => (false, s')
  | _ => (false, s)
  end.

(** std::stoi throws without a digit and outside the range of int. *)
Definition stoi (s : string) : res Z :=
  let '(neg, s) := read_sign (skip_blanks s) in
  let '(n, len, _) := read_digits s 0 0 in
  let z := if neg : bool then - n else n in
  if (len =? 0)%nat || (z <? minInt) || (maxInt <? z) then Ub UB_Uncaught else Ok z.

(** The nearest float, for a rational number. *)
Definition float_of_ratio (n d : Z) : spec_float :=
  let k := Z.max 0 (40 + Z.log2 d - Z.log2 (Z.abs n)) in
  let q := (Z.abs n * 2 ^ k) / d in
  let sticky := if (Z.abs n * 2 ^ k) mod d =? 0 then 0 else 1 in
  let m := 2 * q + sticky in
  binary_normalize 24 128 (if n <? 0 then - m else m) (- (k + 1)) (n <? 0).

(** The value of digits, a fraction and an exponent: n / 10^k or n * 10^-k. *)
Definition read_decimal (s : string) : option (Z * Z) :=
  let '(neg, s) := read_sign s in
  let '(n, len, s) := read_digits s 0 0 in
  let '(n, frac, s) :=
    match s with
    | String "." s' => let '(n, len', s'') := read_digits s' n 0 in (n, len', s'')
    | _ => (n, 0%nat, s)
    end in
  let e :=
    match s with
    | String "e" s' =>
        let '(eneg, s') := read_sign s' in
        let '(e, len', _) := read_digits s' 0 0 in
        if (len' =? 0)%nat then 0 else if eneg : bool then - e else e
    | _ => 0
    end in
  if (len + frac =? 0)%nat then None
  else Some (if neg then - n else n, Z.of_nat frac - e).
Definition ratio_of (v : Z * Z) : Z * Z :=
  if 0 <=? v.2 then (v.1, 10 ^ v.2) else (v.1 * 10 ^ (- v.2), 1).

(** std::stof; hexadecimal numbers and names are not read here. *)
Definition stof (s : string) : res spec_float :=
  match read_decimal (skip_blanks s) with
  | None => Ub UB_Uncaught
  | Some v =>
      let '(n, d) := ratio_of v in
      if n =? 0 then Ok (S754_zero false)
      else
        match float_of_ratio n d with
        | S754_finite _ m _ as f => if Z.log2 (Zpos m) <? 23 then Ub UB_Uncaught else Ok f
        | _ => Ub UB_Uncaught
        end
  end.
