(* ===== verification/TimeUtil.v ===== *)
(** * Dates and their texts

    src/lib_bsp/eventservice/util/time_util.cpp on Linux: seconds since 1970, the
    fields of a date, and texts of dates.  mktime, gmtime and localtime of the C
    library are those of a time zone without daylight saving, [zone] seconds east
    of Greenwich; the present time is an argument. *)

From S2P Require Import Prelude Float Json JsonText.
From Stdlib Require Import Ascii.
From stdpp Require Import pretty.
#[local] Open Scope Z_scope.

(** ** The calendar of the C library *)
Definition leap (y : Z) : bool := (y mod 4 =? 0) && (negb (y mod 100 =? 0) || (y mod 400 =? 0)).
(** How many of the years 1 to y are leap years, and the days before a month. *)
Definition leaps (y : Z) : Z := y / 4 - y / 100 + y / 400.
Definition days_before (y m : Z) : Z :=
  default 0 ([0; 31; 59; 90; 120; 151; 181; 212; 243; 273; 304; 334] !! Z.to_nat (m - 1)) + (if (2 <? m) && leap y then 1 else 0).
Definition month_days (y m : Z) : Z :=
  default 0 ([31; if leap y then 29 else 28; 31; 30; 31; 30; 31; 31; 30; 31; 30; 31] !! Z.to_nat (m - 1)).
(** The number of a day; 1970-01-01 is day 0. *)
Definition day_number (y m d : Z) : Z := 365 * (y - 1970) + leaps (y - 1) - leaps 1969 + days_before y m + d - 1.
(** The date of a day, counted in years that begin in March and in periods of 400
    years: the year of the period and the day of the year, and the month. *)
Definition year_of_era (doe : Z) : Z * Z :=
  let c := Z.min 3 (doe / 36524) in
  let r := doe - c * 36524 in
  let q := r / 1461 in
  let t := r - q * 1461 in
  let y := Z.min 3 (t / 365) in
  (100 * c + 4 * q + y, t - 365 * y).
Definition month_of (doy : Z) : Z * Z :=
  let mp := (5 * doy + 2) / 153 in
  (if mp <? 10 then mp + 3 else mp - 9, doy - (153 * mp + 2) / 5 + 1).
Definition date_of_era (doe : Z) : Z * Z * Z :=
  let '(yoe, doy) := year_of_era doe in
  let '(m, d) := month_of doy in
  (yoe + (if m <=? 2 then 1 else 0), m, d).
Definition date_of (n : Z) : Z * Z * Z :=
  let z := n + 719468 in
  let '(y, m, d) := date_of_era (z mod 146097) in (y + 400 * (z / 146097), m, d).

(** struct tm, with the fields the code uses *)
Record tm := mkTm { tm_sec : Z; tm_min : Z; tm_hour : Z; tm_mday : Z; tm_mon : Z; tm_year : Z; tm_wday : Z }.
Definition gmtime (t : Z) : tm :=
  let '(y, m, d) := date_of (t / 86400) in
  let s := t mod 86400 in
  mkTm (s mod 60) (s / 60 mod 60) (s / 3600) d (m - 1) (y - 1900) ((t / 86400 + 4) mod 7).
Definition timegm (t : tm) : Z :=
  let y := tm_year t + 1900 + tm_mon t / 12 in
  let m := tm_mon t mod 12 + 1 in
  ((day_number y m 1 + tm_mday t - 1) * 24 + tm_hour t) * 3600 + tm_min t * 60 + tm_sec t.

Section zone.
Context (zone : Z).
Definition localtime (t : Z) : tm := gmtime (t + zone).
Definition mktime (t : tm) : Z := timegm t - zone.

(** ** time_util.cpp *)
Record TimeS := mkTimeS { ts_usec : Z; ts_sec : Z; ts_min : Z; ts_hour : Z; ts_day : Z; ts_month : Z; ts_year : Z; ts_wday : Z }.

(** The fields that a uint32 becomes as an int *)
Definition to_tm (tl : TimeS) : tm :=
  mkTm (s32 (ts_sec tl)) (s32 (ts_min tl)) (s32 (ts_hour tl)) (s32 (ts_day tl)) (s32 (ts_month tl - 1)) (s32 (ts_year tl - 1900)) (s32 (ts_wday tl)).
Definition of_tm (usec : Z) (t : tm) : TimeS :=
  mkTimeS usec (u32 (tm_sec t)) (u32 (tm_min t)) (u32 (tm_hour t)) (u32 (tm_mday t)) (u32 (tm_mon t + 1)) (u32 (tm_year t + 1900)) (u32 (tm_wday t)).
(** TimeUTCMake(tl) and TimeUTCMake(tl, sec); [now] is TimeSecond(), [now_us]
    TimeUSecond() *)
Definition TimeUTCMake (tl : TimeS) : Z := u64 (mktime (to_tm tl)).
Definition TimeUTCMake_fields (now sec : Z) : TimeS := of_tm 0 (gmtime (if 0 =? sec then now else sec)).
Definition TimeLocalZone : Z := 0.
Definition TimeLocalMake (tl : TimeS) : Z := u64 (TimeUTCMake tl - TimeLocalZone * 60).
Definition TimeLocalMake_fields (now now_us sec : Z) : TimeS :=
  of_tm (u32 (now_us mod 1000000)) (localtime (if 0 =? sec then now else sec)).
Definition TimeUSLocalMake (tl : TimeS) : Z := u64 (TimeLocalMake tl * 1000000 + ts_usec tl).
Definition TimeUSLocalMake_fields (now_us usec : Z) : TimeS :=
  let usec := if 0 =? usec then now_us else usec in
  of_tm (u32 (usec mod 1000000)) (localtime (usec / 1000000)).

(** %04d and %02d, for a number that is not negative *)
Definition zeros (n : nat) : string := String.concat "" (replicate n "0").
Definition fmt_0d (width : nat) (z : Z) : string := zeros (width - String.length (pretty z)) +:+ pretty z.
Definition TimeLocalToString (now now_us sec : Z) : string :=
  let tl := TimeLocalMake_fields now now_us sec in
  String.substring 0 22
    (fmt_0d 4 (ts_year tl) +:+ "-" +:+ fmt_0d 2 (ts_month tl) +:+ "-" +:+ fmt_0d 2 (ts_day tl) +:+ " "
     +:+ fmt_0d 2 (ts_hour tl) +:+ ":" +:+ fmt_0d 2 (ts_min tl) +:+ ":" +:+ fmt_0d 2 (ts_sec tl)).
End zone.

(** *** sscanf *)
(** The digits at the start, at most [n] of them. *)
Fixpoint scan_digits (n : nat) (s : string) (acc : Z) (found : bool) : option Z * string :=
  match n, s with
  | S n', String a s' =>
      match digit a with
      | Some d => scan_digits n' s' (10 * acc + d) true
      | None => (if found then Some acc else None, s)
      end
  | _, _ => (if found then Some acc else None, s)
  end.
(** %[width]d; a sign counts as a character *)
Definition scan_d (width : nat) (s : string) : option Z * string :=
  match skip_blanks s with
  | String "-" s' => let '(r, s'') := scan_digits (width - 1) s' 0 false in (Z.opp <$> r, s'')
  | String "+" s' => scan_digits (width - 1) s' 0 false
  | s' => scan_digits width s' 0 false
  end.
(** %*[^0-9] takes at least one character *)
Fixpoint drop_nondigits (s : string) : string :=
  match s with
  | String a s' => match digit a with Some _ => s | None => drop_nondigits s' end
  | EmptyString => s
  end.
Definition scan_gap (s : string) : option string :=
  match s with
  | String a s' => match digit a with Some _ => None | None => Some (drop_nondigits s') end
  | EmptyString => None
  end.
(** The numbers that are read before the first item that does not match. *)
Fixpoint scan_numbers (gap : string → option string) (widths : list nat) (s : string) : list Z :=
  match widths with
  | [] => []
  | w :: widths' =>
      match scan_d w s with
      | (Some z, s') => z :: match gap s' with Some s'' => scan_numbers gap widths' s'' | None => [] end
      | (None, _) => []
      end
  end.
Definition scan_colon (s : string) : option string :=
  match s with String ":" s' => Some s' | _ => None end.

Definition TimeLocalFromString (str : string) : Z :=
  let f := scan_numbers scan_gap [4; 2; 2; 2; 2; 2]%nat str in
  let at_ i := default 0 (f !! i) in
  let mon := at_ 1%nat - 2 in
  let '(mon, year) := if mon <=? 0 then (mon + 12, at_ 0%nat - 1) else (mon, at_ 0%nat) in
  u64 (((((Z.quot year 4 - Z.quot year 100 + Z.quot year 400 + Z.quot (367 * mon) 12 + at_ 2%nat)
    + year * 365 - 719499) * 24 + at_ 3%nat - 8) * 60 + at_ 4%nat) * 60 + at_ 5%nat).

Definition TimeToSecond (str : string) : Z :=
  match scan_numbers scan_colon [2; 2; 2]%nat str with
  | [hour; minute; second] =>
      if (0 <=? hour) && (hour <=? 24) && (0 <=? minute) && (minute <? 60) && (0 <=? second) && (second <? 60)
      then second + minute * 60 + hour * 3600 else -1
  | _ => -1
  end.

Example to_string_2020 : TimeLocalToString 28800 0 0 1578303862 = "2020-01-06 17:44:22".
Proof. vm_compute. reflexivity. Qed.
Example from_string_2020 : TimeLocalFromString "2020-01-06 17:44:22" = 1578303862.
Proof. vm_compute. reflexivity. Qed.

(** ** The calendar is the Gregorian one *)
Definition valid_date (y m d : Z) : Prop := 1 ≤ m ≤ 12 ∧ 1 ≤ d ≤ month_days y m.

Lemma month_cases m : 1 ≤ m ≤ 12 → m = 1 ∨ m = 2 ∨ m = 3 ∨ m = 4 ∨ m = 5 ∨ m = 6 ∨ m = 7 ∨ m = 8 ∨ m = 9 ∨ m = 10 ∨ m = 11 ∨ m = 12.
Proof. lia. Qed.
Ltac by_month H := destruct (month_cases _ H) as [Hmo|[Hmo|[Hmo|[Hmo|[Hmo|[Hmo|[Hmo|[Hmo|[Hmo|[Hmo|[Hmo|Hmo]]]]]]]]]]]; subst.

Lemma leaps_step y : leaps y = leaps (y - 1) + (if leap y then 1 else 0).
Proof.
  unfold leaps, leap. destruct (Z.eqb_spec (y mod 4) 0), (Z.eqb_spec (y mod 100) 0), (Z.eqb_spec (y mod 400) 0); cbn [andb orb negb];
    Z.to_euclidean_division_equations; lia.
Qed.
Lemma leap_400 y k : leap (y + 400 * k) = leap y.
Proof.
  unfold leap. replace (y + 400 * k) with (y + (100 * k) * 4) at 1 by lia. replace (y + 400 * k) with (y + (4 * k) * 100) at 1 by lia.
  replace (y + 400 * k) with (y + k * 400) by lia. by rewrite !Z_mod_plus_full.
Qed.
Lemma day_number_400 y k m d : day_number (y + 400 * k) m d = day_number y m d + 146097 * k.
Proof.
  unfold day_number, days_before. rewrite leap_400. assert (leaps (y + 400 * k - 1) = leaps (y - 1) + 97 * k) as ->; [|lia].
  unfold leaps. replace (y + 400 * k - 1) with (y - 1 + (100 * k) * 4) at 1 by lia. replace (y + 400 * k - 1) with (y - 1 + (4 * k) * 100) at 1 by lia.
  replace (y + 400 * k - 1) with (y - 1 + k * 400) by lia. rewrite !Z_div_plus_full by lia. lia.
Qed.
Lemma days_before_next y m : 1 ≤ m < 12 → days_before y (m + 1) = days_before y m + month_days y m.
Proof. intros Hm. assert (1 ≤ m ≤ 12) as Hm' by lia. unfold days_before, month_days. by_month Hm'; try lia; by destruct (leap y). Qed.
(** The day after a date has the next number. *)
Lemma next_day y m d : valid_date y m d →
  day_number y m d + 1 =
    if d <? month_days y m then day_number y m (d + 1) else if m <? 12 then day_number y (m + 1) 1 else day_number (y + 1) 1 1.
Proof.
  intros [Hm Hd]. destruct (Z.ltb_spec d (month_days y m)) as [_|Hl]; [unfold day_number; lia|]. replace d with (month_days y m) by lia.
  unfold day_number. destruct (Z.ltb_spec m 12); [rewrite days_before_next by lia; lia|]. replace m with 12 by lia.
  replace (y + 1 - 1) with y by lia. rewrite (leaps_step y). change (month_days y 12) with 31.
  change (days_before y 12) with (334 + if leap y then 1 else 0). change (days_before (y + 1) 1) with 0. lia.
Qed.

(** The days of a year that begins in March *)
Definition common_before (m : Z) : Z := default 0 ([0; 31; 59; 90; 120; 151; 181; 212; 243; 273; 304; 334] !! Z.to_nat (m - 1)).
Definition common_days (m : Z) : Z := default 0 ([31; 28; 31; 30; 31; 30; 31; 31; 30; 31; 30; 31] !! Z.to_nat (m - 1)).
Definition month_ok (doy : Z) : bool :=
  let '(m, d) := month_of doy in
  (1 <=? m) && (m <=? 12) && (1 <=? d) && (d <=? common_days m + (if doy =? 365 then 1 else 0)) &&
  ((doy =? 365) && (m =? 2) || (negb (doy =? 365))) &&
  (doy =? (if m <=? 2 then 306 else - 59) + common_before m + d - 1).
Lemma month_checked doy : 0 ≤ doy ≤ 365 → month_ok doy = true.
Proof.
  intros Hd. assert (forallb month_ok (seqZ 0 366) = true) as H by (vm_compute; reflexivity).
  rewrite forallb_forall in H. apply H, list_elem_of_In, elem_of_seqZ. lia.
Qed.
Lemma month_days_common y m : 1 ≤ m ≤ 12 → month_days y m = common_days m + (if (m =? 2) && leap y then 1 else 0) ∧
  days_before y m = common_before m + (if (2 <? m) && leap y then 1 else 0).
Proof. intros Hm. split; [|done]. unfold month_days, common_days. by_month Hm; by destruct (leap y). Qed.
Lemma year_spec doe : 0 ≤ doe < 146097 → let '(yoe, doy) := year_of_era doe in
  0 ≤ yoe < 400 ∧ 0 ≤ doy ≤ 365 ∧ doe = 365 * yoe + leaps yoe + doy ∧ (doy = 365 → leap (yoe + 1) = true).
Proof.
  intros Hd. unfold year_of_era. set (c := Z.min 3 (doe / 36524)). set (q := (doe - c * 36524) / 1461).
  set (y := Z.min 3 ((doe - c * 36524 - q * 1461) / 365)).
  assert (0 ≤ c ≤ 3 ∧ 0 ≤ doe - c * 36524 < 36524 + (if c =? 3 then 1 else 0)) as [Hc Hr].
  { unfold c. destruct (Z.eqb_spec (Z.min 3 (doe / 36524)) 3); Z.to_euclidean_division_equations; lia. }
  assert (0 ≤ q ≤ 24 ∧ 0 ≤ doe - c * 36524 - q * 1461 < 1461 ∧ (q = 24 → c < 3 → doe - c * 36524 - q * 1461 < 1460)) as (Hq & Ht & Hl).
  { unfold q. destruct (Z.eqb_spec c 3); Z.to_euclidean_division_equations; lia. }
  assert (0 ≤ y ≤ 3 ∧ 0 ≤ doe - c * 36524 - q * 1461 - 365 * y ≤ 365 ∧ (doe - c * 36524 - q * 1461 - 365 * y = 365 → y = 3)) as (Hy & Hdoy & H3).
  { unfold y. Z.to_euclidean_division_equations. lia. }
  split_and!; [lia|lia|lia..| |].
  - assert (leaps (100 * c + 4 * q + y) = 24 * c + q + (100 * c + 4 * q + y) / 400) as ->.
    { unfold leaps. replace (100 * c + 4 * q + y) with (y + (25 * c + q) * 4) at 1 by lia. replace (100 * c + 4 * q + y) with (4 * q + y + c * 100) at 1 by lia.
      rewrite !Z_div_plus_full by lia. rewrite (Z.div_small y), (Z.div_small (4 * q + y)) by lia. lia. }
    rewrite Z.div_small by lia. lia.
  - intros H. specialize (H3 H). unfold leap. rewrite H3. replace (100 * c + 4 * q + 3 + 1) with ((25 * c + q + 1) * 4) at 1 by lia. rewrite Z.mod_mul by lia.
    cbn [andb]. destruct (decide (q = 24)) as [->|Hne].
    + assert (c = 3) as -> by lia. done.
    + replace (100 * c + 4 * q + 3 + 1) with (4 * q + 4 + c * 100) at 1 by lia. rewrite Z_mod_plus_full, Z.mod_small by lia. rewrite (proj2 (Z.eqb_neq (4 * q + 4) 0)) by lia; done.
Qed.
Lemma date_of_number n : let '(y, m, d) := date_of n in valid_date y m d ∧ day_number y m d = n.
Proof.
  unfold date_of, date_of_era. pose proof (Z.mod_pos_bound (n + 719468) 146097 ltac:(lia)) as Hb. pose proof (Z.div_mod (n + 719468) 146097 ltac:(lia)) as He.
  pose proof (year_spec _ Hb) as Hy. destruct (year_of_era _) as [yoe doy]. destruct Hy as (Hyoe & Hdoy & Hdoe & Hleap).
  pose proof (month_checked doy Hdoy) as Hm. unfold month_ok in Hm. destruct (month_of doy) as [m d].
  rewrite !andb_true_iff, orb_true_iff, !andb_true_iff, negb_true_iff, !Z.leb_le, !Z.eqb_eq, Z.eqb_neq in Hm. destruct Hm as (((((H1 & H2) & H3) & H4) & H5) & H6).
  rewrite day_number_400. unfold valid_date, day_number. rewrite !(proj1 (month_days_common _ m ltac:(lia))), (proj2 (month_days_common _ m ltac:(lia))), leap_400.
  pose proof (leaps_step yoe). assert (leaps 1969 = 477) as -> by done. destruct (Z.leb_spec m 2) as [Hlt|Hge].
  - replace (yoe + 1 - 1) with yoe by lia. rewrite (proj2 (Z.ltb_ge 2 m)) by lia. cbn [andb]. split; [|lia]. split; [lia|].
    destruct (Z.eqb_spec doy 365) as [->|]; [|destruct (_ && _); lia]. rewrite Hleap by done. destruct H5 as [[_ ->]|]; [|lia]. simpl in *. lia.
  - replace (yoe + 0) with yoe by lia. rewrite (proj2 (Z.ltb_lt 2 m)) by lia. rewrite (proj2 (Z.eqb_neq m 2)) by lia. cbn [andb]. split; [|lia]. split; [lia|].
    destruct (Z.eqb_spec doy 365); lia.
Qed.

(** ** Texts of dates *)

(** The formula of TimeLocalFromString counts the days. *)
Lemma from_date y m d : 1 ≤ y → 1 ≤ m ≤ 12 →
  let '(mon, year) := if m - 2 <=? 0 then (m - 2 + 12, y - 1) else (m - 2, y) in
  Z.quot year 4 - Z.quot year 100 + Z.quot year 400 + Z.quot (367 * mon) 12 + d + year * 365 - 719499 = day_number y m d.
Proof.
  intros Hy Hm. pose proof (leaps_step y) as Hl. pose proof (proj2 (month_days_common y m Hm)) as Hb. unfold day_number. rewrite Hb. assert (leaps 1969 = 477) as -> by done.
  destruct (Z.leb_spec (m - 2) 0) as [H|H].
  - rewrite !Z.quot_div_nonneg by lia. fold (leaps (y - 1)). rewrite (proj2 (Z.ltb_ge 2 m)) by lia. cbn [andb].
    by_month Hm; try lia; change (367 * _ / 12) with (367 * 11 / 12) || change (367 * _ / 12) with (367 * 12 / 12);
      [change (common_before 1) with 0; change (367 * 11 / 12) with 336|change (common_before 2) with 31; change (367 * 12 / 12) with 367]; lia.
  - rewrite !Z.quot_div_nonneg by lia. fold (leaps y). rewrite (proj2 (Z.ltb_lt 2 m)) by lia. cbn [andb].
    assert (367 * (m - 2) / 12 = common_before m - 28 - 1) as ->; [by_month Hm; try lia; reflexivity|]. lia.
Qed.

Fixpoint all_digits (s : string) : bool :=
  match s with EmptyString => true | String a s' => bool_decide (is_Some (digit a)) && all_digits s' end.
Lemma digit_char a d : digit a = Some d → is_blank a = false ∧ a ≠ "-"%char ∧ a ≠ "+"%char.
Proof. destruct a as [[] [] [] [] [] [] [] []]; vm_compute; intros; try discriminate; by split_and!. Qed.
Lemma scan_digits_app t : ∀ n acc f rest, String.length t = n → all_digits t = true →
  scan_digits n (t +:+ rest) acc f = ((scan_digits n t acc f).1, rest).
Proof.
  induction t as [|a t IH]; intros n acc f rest <- Ht; [by destruct rest, f|]. cbn [all_digits] in Ht. apply andb_true_iff in Ht as [Ha Ht].
  apply bool_decide_eq_true in Ha as [d Ha]. change (String a t +:+ rest) with (String a (t +:+ rest)). cbn [String.length scan_digits]. rewrite Ha. by apply IH.
Qed.
Definition prints_well (w : nat) (z : Z) : bool :=
  (String.length (fmt_0d w z) =? w)%nat && all_digits (fmt_0d w z) && bool_decide ((scan_digits w (fmt_0d w z) 0 false).1 = Some z).
Lemma prints_2 z : 0 ≤ z < 100 → prints_well 2 z = true.
Proof.
  intros Hz. assert (forallb (prints_well 2) (seqZ 0 100) = true) as H by (vm_compute; reflexivity).
  rewrite forallb_forall in H. apply H, list_elem_of_In, elem_of_seqZ. lia.
Qed.
Lemma prints_4 z : 1970 ≤ z < 2200 → prints_well 4 z = true.
Proof.
  intros Hz. assert (forallb (prints_well 4) (seqZ 1970 230) = true) as H by (vm_compute; reflexivity).
  rewrite forallb_forall in H. apply H, list_elem_of_In, elem_of_seqZ. lia.
Qed.
Lemma prints_length w z : prints_well w z = true → String.length (fmt_0d w z) = w.
Proof. unfold prints_well. rewrite !andb_true_iff, Nat.eqb_eq. tauto. Qed.
Lemma scan_printed w z rest : (0 < w)%nat → prints_well w z = true → scan_d w (fmt_0d w z +:+ rest) = (Some z, rest).
Proof.
  unfold prints_well. rewrite !andb_true_iff, Nat.eqb_eq, bool_decide_eq_true. intros Hw [[Hl Hd] Hs]. unfold scan_d.
  destruct (fmt_0d w z) as [|a t] eqn:Ht; [simpl in Hl; lia|]. rewrite <-Ht in Hs. cbn [all_digits] in Hd. apply andb_true_iff in Hd as [Ha Hd].
  pose proof Ha as Ha'. apply bool_decide_eq_true in Ha' as [d Ha']. destruct (digit_char a d Ha') as (Hb & Hm & Hp).
  change (String a t +:+ rest) with (String a (t +:+ rest)). cbn [skip_blanks]. rewrite Hb.
  assert (scan_digits w (String a (t +:+ rest)) 0 false = (Some z, rest)) as Hr.
  { change (String a (t +:+ rest)) with (String a t +:+ rest). rewrite <-Ht. rewrite scan_digits_app; [by rewrite Hs|by rewrite Ht|rewrite Ht; cbn [all_digits]; by rewrite Ha]. }
  destruct a as [[] [] [] [] [] [] [] []]; try exact Hr; by exfalso.
Qed.
Lemma gap_printed a w z rest : digit a = None → (0 < w)%nat → prints_well w z = true → scan_gap (String a "" +:+ fmt_0d w z +:+ rest) = Some (fmt_0d w z +:+ rest).
Proof.
  change (String a "" +:+ fmt_0d w z +:+ rest) with (String a (fmt_0d w z +:+ rest)).
  unfold prints_well. rewrite !andb_true_iff, Nat.eqb_eq. intros Ha Hw [[Hl Hd] _]. cbn [scan_gap]. rewrite Ha. f_equal.
  destruct (fmt_0d w z) as [|b t]; [simpl in Hl; lia|]. cbn [all_digits] in Hd. apply andb_true_iff in Hd as [Hb _].
  apply bool_decide_eq_true in Hb as [d Hb]. change (String b t +:+ rest) with (String b (t +:+ rest)). cbn [drop_nondigits]. by rewrite Hb.
Qed.

(** The fields of a printed date come back. *)
Lemma scan_date y m d h mi s : 1970 ≤ y < 2200 → 0 ≤ m < 100 → 0 ≤ d < 100 → 0 ≤ h < 100 → 0 ≤ mi < 100 → 0 ≤ s < 100 →
  let text := fmt_0d 4 y +:+ "-" +:+ fmt_0d 2 m +:+ "-" +:+ fmt_0d 2 d +:+ " " +:+ fmt_0d 2 h +:+ ":" +:+ fmt_0d 2 mi +:+ ":" +:+ fmt_0d 2 s in
  scan_numbers scan_gap [4; 2; 2; 2; 2; 2]%nat text = [y; m; d; h; mi; s] ∧ String.length text = 19%nat.
Proof.
  intros Hy Hm Hd Hh Hmi Hs. apply prints_4 in Hy. apply prints_2 in Hm, Hd, Hh, Hmi, Hs. split.
  - rewrite <-(sapp_nil (fmt_0d 2 s)).
    cbn [scan_numbers]. do 5 (rewrite scan_printed by (done || lia); cbn beta iota; rewrite gap_printed by (done || lia); cbn beta iota). by rewrite scan_printed by (done || lia).
  - rewrite !slength_app. cbn [String.length]. by rewrite !prints_length.
Qed.
Lemma substring_all s n : (String.length s <= n)%nat → String.substring 0 n s = s.
Proof. revert n. induction s as [|a s IH]; intros [|n] Hn; try done; [simpl in Hn; lia|]. cbn [String.substring]. f_equal. apply IH. simpl in Hn. lia. Qed.

Lemma leaps_mono a b : a ≤ b → leaps a ≤ leaps b.
Proof.
  intros H. replace b with (a + (b - a)) by lia. assert (0 ≤ b - a) as Hk by lia. revert Hk. generalize (b - a). clear. apply natlike_ind.
  - by rewrite Z.add_0_r.
  - intros k Hk IH. rewrite (leaps_step (a + Z.succ k)). replace (a + Z.succ k - 1) with (a + k) by lia. destruct (leap _); lia.
Qed.
Lemma year_bound n : 0 ≤ n < 84006 → let '(y, _, _) := date_of n in 1970 ≤ y < 2200.
Proof.
  intros Hn. pose proof (date_of_number n) as H. destruct (date_of n) as [[y m] d]. destruct H as [[Hm Hd] Hnum].
  pose proof (proj1 (month_days_common y m Hm)) as Hmd. pose proof (proj2 (month_days_common y m Hm)) as Hb.
  assert (0 ≤ common_before m ∧ common_before m + common_days m ≤ 365) as Hc by (by_month Hm; vm_compute; split; discriminate).
  pose proof (leaps_step y) as Hstep. unfold day_number in Hnum. rewrite Hb in Hnum. rewrite Hmd in Hd. assert (leaps 1969 = 477 ∧ leaps 2199 = 533) as [E1 E2] by done.
  assert (0 ≤ (if (2 <? m) && leap y then 1 else 0) ∧ (if (2 <? m) && leap y then 1 else 0) + (if (m =? 2) && leap y then 1 else 0) ≤ (if leap y then 1 else 0)) as [? ?].
  { destruct (Z.ltb_spec 2 m), (Z.eqb_spec m 2), (leap y); cbn; lia. }
  assert (¬ y < 1970) by (intros Hq; pose proof (leaps_mono y 1969 ltac:(lia)); lia).
  assert (¬ 2200 ≤ y) by (intros Hq; pose proof (leaps_mono 2199 (y - 1) ltac:(lia)); lia). lia.
Qed.

Lemma day_bound t : 0 ≤ t < 7258118400 → 0 ≤ t / 86400 < 84006.
Proof. intros [H1 H2]. split; [apply Z.div_pos; lia|apply Z.div_lt_upper_bound; lia]. Qed.

(** The fields of a time are in their ranges and make up the time. *)
Lemma gmtime_fields t : 0 ≤ t < 7258118400 → ∃ y m d h mi se w, gmtime t = mkTm se mi h d (m - 1) (y - 1900) w ∧
  1970 ≤ y < 2200 ∧ 1 ≤ m ≤ 12 ∧ 1 ≤ d ≤ 31 ∧ 0 ≤ h < 24 ∧ 0 ≤ mi < 60 ∧ 0 ≤ se < 60 ∧
  t = ((day_number y m d * 24 + h) * 60 + mi) * 60 + se.
Proof.
  intros Ht. unfold gmtime. pose proof (date_of_number (t / 86400)) as Hd. pose proof (year_bound _ (day_bound t Ht)) as Hy.
  destruct (date_of (t / 86400)) as [[y m] d]. destruct Hd as [[Hm Hday] Hn]. do 7 eexists. split; [reflexivity|].
  assert (month_days y m ≤ 31) by (unfold month_days; by_month Hm; destruct (leap y); vm_compute; discriminate).
  pose proof (Z.mod_pos_bound t 86400 ltac:(lia)) as Hr. rewrite Hn. pose proof (Z.div_mod t 86400 ltac:(lia)) as Hdm. set (r := t mod 86400) in *.
  split_and!; try lia; clear -Hr Hdm; Z.to_euclidean_division_equations; lia.
Qed.

(** ** The theorems *)

(** C14. A printed date is read back: in a zone [zone] seconds east of Greenwich the
    text of the time [sec] is read as that time of the zone eight hours east, so the
    two functions are inverse exactly there. *)
Theorem date_text_roundtrip zone now now_us sec : 0 < sec → 0 ≤ sec + zone < 7258118400 →
  TimeLocalFromString (TimeLocalToString zone now now_us sec) = u64 (sec + zone - 28800).
Proof.
  intros Hs Hz. unfold TimeLocalToString, TimeLocalMake_fields. rewrite (proj2 (Z.eqb_neq 0 sec)) by lia. unfold localtime.
  destruct (gmtime_fields _ Hz) as (y & m & d & h & mi & se & w & -> & Hy & Hm & Hd & Hh & Hmi & Hse & Ht).
  cbn [of_tm tm_sec tm_min tm_hour tm_mday tm_mon tm_year ts_year ts_month ts_day ts_hour ts_min ts_sec].
  rewrite !(uwrap_id 32) by (unfold in_u; lia). replace (y - 1900 + 1900) with y by lia. replace (m - 1 + 1) with m by lia.
  destruct (scan_date y m d h mi se) as [Hscan Hlen]; [lia..|].
  rewrite substring_all by (rewrite Hlen; lia). unfold TimeLocalFromString. rewrite Hscan. cbn [lookup list_lookup from_option id].
  pose proof (from_date y m d ltac:(lia) Hm) as Hf. destruct (if m - 2 <=? 0 then _ else _) as [mon year]. f_equal. rewrite Hf. lia.
Qed.
Lemma date_text_roundtrip_witness : TimeLocalFromString (TimeLocalToString 28800 0 0 1672531199) = 1672531199.
Proof. rewrite date_text_roundtrip; [reflexivity|lia|lia]. Defined.

(** The fields of a time and back: TimeLocalMake inverts the fields of the local
    time in every zone, TimeUTCMake those of the universal time only at
    Greenwich. *)
Theorem fields_roundtrip zone now now_us sec : 0 < sec → 0 ≤ sec + zone < 7258118400 → sec < 7258118400 →
  TimeLocalMake zone (TimeLocalMake_fields zone now now_us sec) = sec ∧
  TimeUTCMake zone (TimeUTCMake_fields now sec) = u64 (sec - zone).
Proof.
  assert (∀ usec t, 0 ≤ t < 7258118400 → timegm (to_tm (of_tm usec (gmtime t))) = t) as Hg.
  { intros usec t Ht. destruct (gmtime_fields _ Ht) as (y & m & d & h & mi & se & w & -> & Hy & Hm & Hd & Hh & Hmi & Hse & Ht').
    unfold to_tm, of_tm, timegm. cbn [tm_sec tm_min tm_hour tm_mday tm_mon tm_year ts_year ts_month ts_day ts_hour ts_min ts_sec].
    rewrite !(uwrap_id 32) by (unfold in_u; lia). rewrite !(swrap_id 32) by (unfold in_s; lia).
    replace (m - 1 + 1 - 1) with (m - 1) by lia. rewrite (Z.div_small (m - 1)), (Z.mod_small (m - 1)) by lia.
    replace (y - 1900 + 1900 - 1900 + 1900 + 0) with y by lia. replace (m - 1 + 1) with m by lia. unfold day_number in *. lia. }
  intros Hs Hz Hs'. unfold TimeLocalMake, TimeUTCMake, TimeLocalMake_fields, TimeUTCMake_fields, mktime, localtime, TimeLocalZone.
  rewrite (proj2 (Z.eqb_neq 0 sec)) by lia. rewrite !Hg by lia. split; [|done]. replace (sec + zone - zone) with sec by lia.
  rewrite Z.sub_0_r. assert (u64 sec = sec) as E by (apply uwrap_id; unfold in_u; lia). by rewrite !E.
Qed.
Lemma fields_roundtrip_witness : TimeLocalMake 28800 (TimeLocalMake_fields 28800 0 0 1672531199) = 1672531199 ∧
  TimeUTCMake 28800 (TimeUTCMake_fields 0 1672531199) = 1672502399.
Proof. apply (fields_roundtrip 28800 0 0 1672531199); lia. Defined.

(** A time of day is read within its ranges; 24:59:59 is one of them. *)
Lemma time_of_day_range str : TimeToSecond str = -1 ∨ 0 ≤ TimeToSecond str < 90000.
Proof.
  unfold TimeToSecond. destruct (scan_numbers _ _ _) as [|h [|mi [|s [|]]]]; try (by left). destruct (_ && _) eqn:H; [right|by left].
  rewrite !andb_true_iff, !Z.leb_le, !Z.ltb_lt in H. lia.
Qed.
