(* ===== verification/Mldb.v ===== *)
(** * The database library of the database server

    src/lib_app/db_server calls mldb, an SQLite wrapper that is not part of the
    repository: statements are texts, a query answers with a JSON text.  [Mldb]
    is its interface.  [MldbSpec] states what the server relies on, for the
    statements it makes: the texts are read into columns, values and conditions
    here, and a statement outside this fragment has no law. *)

From S2P Require Import Prelude Float Json JsonText.
From Stdlib Require Import Ascii.
From stdpp Require Import pretty.
#[local] Open Scope Z_scope.

(** ** Texts *)

(** The fields between the commas that are not in quotes. *)
Definition hcons (a : ascii) (l : list string) : list string :=
  match l with x :: l' => String a x :: l' | [] => [String a ""] end.
Fixpoint fields (quoted : bool) (s : string) : list string :=
  match s with
  | EmptyString => [""]
  | String a s' =>
      if decide (a = "'"%char) then hcons a (fields (negb quoted) s')
      else if decide (a = ","%char) then
        if quoted then hcons a (fields quoted s') else "" :: fields quoted s'
      else hcons a (fields quoted s')
  end.

Fixpoint chop_end (s : string) : string :=
  match s with
  | EmptyString => ""
  | String a s' =>
      match chop_end s' with
      | EmptyString => if is_blank a then "" else String a ""
      | t => String a t
      end
  end.
Definition trim (s : string) : string := chop_end (skip_blanks s).

(** What comes before and after the first equals sign. *)
Fixpoint cut_eq (s : string) : option (string * string) :=
  match s with
  | EmptyString => None
  | String a s' =>
      if decide (a = "="%char) then Some ("", s') else prod_map (String a) id <$> cut_eq s'
  end.
Fixpoint first_word (s : string) : string :=
  match s with
  | EmptyString => ""
  | String a s' => if is_blank a then "" else String a (first_word s')
  end.
Definition second_word (s : string) : string :=
  first_word (skip_blanks (String.substring (String.length (first_word s)) (String.length s) s)).

(** ** Values *)
Inductive lit := LInt (z : Z) | LDec (s : string) | LText (s : string).

Definition read_int (s : string) : option Z :=
  let '(neg, s') := read_sign s in
  let '(n, _, _) := read_digits s' 0 0 in
  let z := if neg : bool then - n else n in
  if decide (pretty z = s) then Some z else None.
(** The text up to a quote that ends it. *)
Fixpoint unquote (s : string) : option string :=
  match s with
  | EmptyString => None
  | String a s' =>
      if decide (a = "'"%char) then (if decide (s' = "") then Some "" else None)
      else String a <$> unquote s'
  end.
Definition read_lit (s : string) : option lit :=
  match s with
  | EmptyString => None
  | String a s' =>
      if decide (a = "'"%char) then LText <$> unquote s'
      else match read_int s with
           | Some z => Some (LInt z)
           | None => if decide (is_Some (read_decimal s)) then Some (LDec s) else None
           end
  end.

(** ** Tables: columns with their types, the largest id given so far, rows *)
Record table := mkTable {
  cols : list (string * string);
  autoinc : bool;
  uniq : bool;
  last_id : Z;
  rows : list (list (string * string)) }.
Abbreviation row := (list (string * string)).
Abbreviation tables := (gmap string table).
#[export] Instance table_eq_dec : EqDecision table.
Proof. solve_decision. Defined.

Fixpoint aget {A} (k : string) (l : list (string * A)) : option A :=
  match l with [] => None | (k', v) :: l' => if decide (k = k') then Some v else aget k l' end.
Fixpoint aput (k x : string) (l : row) : row :=
  match l with
  | [] => []
  | (k', v) :: l' => if decide (k = k') then (k, x) :: l' else (k', v) :: aput k x l'
  end.
Definition set_rows f (t : table) : table := mkTable (cols t) (autoinc t) (uniq t) (last_id t) (f (rows t)).

(** Not the start of a number. *)
Definition wordlike (s : string) : bool :=
  match skip_blanks s with
  | EmptyString => true
  | String a _ => negb (bool_decide (is_Some (digit a)) || bool_decide (a ∈ ["-"; "+"; "."]%char))
  end.
(** The text a column of a type gives back; [real_text] normalises decimals. *)
Definition stored_text (real_text : string → string) (ty : string) (l : lit) : option string :=
  if bool_decide (ty = "FLOAT") then
    match l with LInt z => Some (real_text (pretty z)) | LDec s => Some (real_text s) | LText _ => None end
  else if bool_decide (ty = "INT" ∨ ty = "INTEGER") then
    match l with
    | LInt z => Some (pretty z)
    | LDec _ => None
    | LText s => if bool_decide (is_Some (read_int s)) || wordlike s then Some s else None
    end
  else if bool_decide (ty = "TEXT") then
    match l with LInt z => Some (pretty z) | LDec _ => None | LText s => Some s end
  else None.

(** A condition "column=value"; [None] when the text has another form. *)
Definition read_where (t : table) (w : string) : option (string * string) :=
  '(c, v) ← cut_eq w;
  ty ← aget (trim c) (cols t);
  l ← read_lit (trim v);
  if bool_decide (ty = "INT" ∨ ty = "INTEGER")
  then (match l with LDec _ => None | LInt z => Some (trim c, pretty z)
        | LText s => if bool_decide (is_Some (read_int s)) then Some (trim c, s) else None end)
  else None.
Definition matches (c : string * string) (r : row) : bool := bool_decide (aget c.1 r = Some c.2).

Section sql.
Context (real_text : string → string).

Definition read_assign (t : table) (f : string) : option (string * string) :=
  '(c, v) ← cut_eq f;
  ty ← aget (trim c) (cols t);
  l ← read_lit (trim v);
  if bool_decide (trim c = "id") then None else pair (trim c) <$> stored_text real_text ty l.
Definition read_set (t : table) (s : string) : option (list (string * string)) :=
  mapM (read_assign t) (fields false s).
Definition assign (l : list (string * string)) (r : row) : row :=
  foldl (λ r a, aput a.1 a.2 r) r l.

Definition sql_update (db : tables) (name set where_ : string) : option tables :=
  t ← db !! name;
  l ← read_set t set;
  c ← read_where t where_;
  Some (<[name := set_rows (map (λ r, if matches c r then assign l r else r)) t]> db).
Definition sql_delete (db : tables) (name where_ : string) : option tables :=
  t ← db !! name;
  c ← read_where t where_;
  Some (<[name := set_rows (List.filter (λ r, negb (matches c r))) t]> db).
Definition sql_select (db : tables) (name where_ : string) : option (list row) :=
  t ← db !! name;
  c ← read_where t where_;
  Some (List.filter (matches c) (rows t)).

Definition row_id (r : row) : Z := default 0 (aget "id" r ≫= read_int).
Definition max_id (l : list row) : Z := foldr Z.max 0 (row_id <$> l).
Definition read_row (t : table) (names : list string) (l : list lit) : option row :=
  mapM (λ '(c, l), ty ← aget c (cols t); pair c <$> stored_text real_text ty l) (zip names l).
(** An insertion has a value for every column; without an id it counts on from
    the largest, and a row with an id that exists is refused. *)
Definition insert_into (t : table) (names : list string) (l : list lit) : option table :=
  r ← read_row t names l;
  if bool_decide (NoDup (cols t).*1) && bool_decide (length l = length names) && (negb (uniq t) || bool_decide (rows t = [])) then
    if bool_decide ("id" :: names ≡ₚ (cols t).*1) then
      let id := 1 + Z.max (max_id (rows t)) (if autoinc t then last_id t else 0) in
      Some (mkTable (cols t) (autoinc t) (uniq t) id (rows t ++ [("id", pretty id) :: r]))
    else if bool_decide (names ≡ₚ (cols t).*1) then
      Some (if existsb (λ r', row_id r' =? row_id r) (rows t) then t
            else mkTable (cols t) (autoinc t) (uniq t) (Z.max (last_id t) (row_id r)) (rows t ++ [r]))
    else None
  else None.
Definition read_values (values : string) : option (list lit) := mapM (λ v, read_lit (trim v)) (fields false values).
Definition sql_insert (db : tables) (name names values : string) : option tables :=
  t ← db !! name;
  l ← read_values values;
  t' ← insert_into t (trim <$> fields false names) l;
  Some (<[name := t']> db).
Definition new_table (columns : string) : table :=
  let fs := skip_blanks <$> fields false columns in
  mkTable ((λ f, (first_word f, second_word f)) <$> fs)
    (existsb (λ f, bool_decide (f = "id INTEGER PRIMARY KEY AUTOINCREMENT")) fs)
    (existsb (λ f, bool_decide (is_Some (String.index 0 "UNIQUE" f))) fs) 0 [].
Definition sql_create (db : tables) (name columns : string) : option tables :=
  Some (match db !! name with Some _ => db | None => <[name := new_table columns]> db end).
End sql.

Definition row_json (r : row) : json := JObj (prod_map id JStr <$> r).

(** ** The interface *)
Class Mldb := {
  Db : Type;
  mldb_select : Db → string → string → string;
  mldb_insert : Db → string → string → string → Db;
  mldb_update : Db → string → string → string → Db;
  mldb_delete : Db → string → string → Db;
  mldb_create : Db → string → string → Db;
  mldb_drop : Db → string → Db }.

Definition lower_char (a : ascii) : ascii :=
  let n := N_of_ascii a in if ((65 <=? n) && (n <=? 90))%N then ascii_of_N (n + 32) else a.
Fixpoint lower (s : string) : string :=
  match s with EmptyString => "" | String a s' => String (lower_char a) (lower s') end.
Fixpoint plain_name (s : string) : bool :=
  match s with
  | EmptyString => true
  | String a s' => let n := N_of_ascii a in ((97 <=? n) && (n <=? 122))%N && plain_name s'
  end.
(** A name in front of an equals sign that is no column (their case does not
    matter): the statement is refused, whatever follows. *)
Definition bad_column (t : table) (set : string) : Prop :=
  ∃ c rest, set = c +:+ String "=" rest ∧ c ≠ "" ∧ plain_name c = true ∧
    c ∉ ["rowid"; "oid"] ∧ c ∉ lower <$> (cols t).*1.

Class MldbSpec (M : Mldb) (J : JsonText) := {
  view : Db → tables;
  real_text : string → string;
  real_text_value s v : read_decimal s = Some v →
    ∃ v', read_decimal (real_text s) = Some v' ∧ (ratio_of v').1 * (ratio_of v).2 = (ratio_of v).1 * (ratio_of v').2;
  select_spec d t w l : sql_select (view d) t w = Some l →
    ∃ o, String2Json (mldb_select d t w) = (true, JObj o) ∧ jfind "jData" o = Some (JArr (row_json <$> l));
  insert_spec d t c v db : sql_insert real_text (view d) t c v = Some db → view (mldb_insert d t c v) = db;
  update_spec d t s w db : sql_update real_text (view d) t s w = Some db → view (mldb_update d t s w) = db;
  update_bad d t tab s w : view d !! t = Some tab → bad_column tab s → view (mldb_update d t s w) = view d;
  delete_spec d t w db : sql_delete (view d) t w = Some db → view (mldb_delete d t w) = db;
  create_spec d t c db : sql_create (view d) t c = Some db → view (mldb_create d t c) = db;
  drop_spec d t : view (mldb_drop d t) = delete t (view d) }.
