(* ===== verification/DbBase.v ===== *)
(** * The state of the database server and what its modules share

    src/lib_app/db_server: base/common.c, base/base_module.h and
    parseyaml/yamlparse.cpp.  The database is mldb's, the DP messages that are
    sent are collected in a list.  The nodes of yaml-cpp are a tree whose scalars
    are converted by yaml-cpp. *)

From S2P Require Import Prelude Float Json JsonText Mldb.
From Stdlib Require Import QArith_base Ascii.
From stdpp Require Import pretty.
#[local] Open Scope Z_scope.

(** A C string ends at its first zero byte. *)
Fixpoint c_string (s : string) : string :=
  match s with
  | EmptyString => ""
  | String a s' => if decide (a = "000"%char) then "" else String a (c_string s')
  end.
Definition quoted (s : string) : string := "'" +:+ c_string s +:+ "'".

Section state.
Context {M : Mldb} {J : JsonText} {R : RealFormat}.

Record DbServer := mkDbServer {
  sysConfig : Db;
  sent : list (string * json) }.
Abbreviation DM := (ST DbServer).
(** A handler gets a request and what the reply holds, and returns a code. *)
Definition Handler : Type := json → json → DM (Z * json).

Definition run_sql (f : Db → Db) : DM unit := modify (λ s, mkDbServer (f (sysConfig s)) (sent s)).
Definition insert_row (t c v : string) : DM unit := run_sql (λ d, mldb_insert d t c v).
Definition update_rows (t set w : string) : DM unit := run_sql (λ d, mldb_update d t set w).
Definition delete_rows (t w : string) : DM unit := run_sql (λ d, mldb_delete d t w).
Definition create_table (t c : string) : DM unit := run_sql (λ d, mldb_create d t c).
Definition drop_table (t : string) : DM unit := run_sql (λ d, mldb_drop d t).
Definition select_rows (t w : string) : DM (bool * json) :=
  gets (λ s, String2Json (mldb_select (sysConfig s) t w)).

(** jtemp["jData"][0][k].asString(), and the number in it *)
Definition get_text (jtemp : json) (k : string) : res string :=
  d ← jkey jtemp "jData"; r ← jidx d 0; v ← jkey r k; Ok (asString v).
Definition get_int (jtemp : json) (k : string) : res Z := get_text jtemp k ≫= stoi.
Definition get_float (jtemp : json) (k : string) : res json :=
  t ← get_text jtemp k; f ← stof t; Ok (JReal (f_to_Q f)).
(** String2Json(..) && jtemp["jData"].size() *)
Definition found (q : bool * json) : res bool :=
  if q.1 then d ← jkey q.2 "jData"; Ok (negb (jsize d =? 0)%nat) else Ok false.

(** jret[k] = stoi(jtemp["jData"][0][c].asString()) for some pairs (k, c) *)
Fixpoint copy_ints (jtemp : json) (kcs : list (string * string)) (jret : json) : res json :=
  match kcs with
  | [] => Ok jret
  | (k, c) :: kcs' => z ← get_int jtemp c; jret' ← jset jret k (JInt z); copy_ints jtemp kcs' jret'
  end.
Fixpoint copy_texts (jtemp : json) (kcs : list (string * string)) (jret : json) : res json :=
  match kcs with
  | [] => Ok jret
  | (k, c) :: kcs' => t ← get_text jtemp c; jret' ← jset jret k (JStr t); copy_texts jtemp kcs' jret'
  end.
Fixpoint copy_floats (jtemp : json) (kcs : list (string * string)) (jret : json) : res json :=
  match kcs with
  | [] => Ok jret
  | (k, c) :: kcs' => f ← get_float jtemp c; jret' ← jset jret k f; copy_floats jtemp kcs' jret'
  end.
Definition same (ks : list string) : list (string * string) := (λ k, (k, k)) <$> ks.

(** int JV_TO_INT(jreq["body"], k, .., 0) *)
Definition body_int (jreq : json) (k : string) : DM Z :=
  lift (b ← jkey jreq "body"; JV_TO_INT b k 0).
Definition body_string (jreq : json) (k : string) : DM string :=
  lift (b ← jkey jreq "body"; JV_TO_STRING b k "").

Definition broadcast (jreq : json) : DM unit :=
  modify (λ s, mkDbServer (sysConfig s) (sent s ++ [("DP_DB_BROADCAST", jreq)])).

(** The loop over a table of handlers; [body] is jret["body"]. *)
Fixpoint find_handler (table : list (string * Handler)) (stype : string) : option Handler :=
  match table with
  | [] => None
  | (ty, h) :: table' => if decide (stype = ty) then Some h else find_handler table' stype
  end.

(** ** Configuration *)
Inductive yaml :=
| YNone | YNull | YScalar (s : string) | YSeq (l : list yaml) | YMap (l : list (string * yaml)).
Class YamlCpp := {
  scalar_int : string → option Z;
  scalar_float : string → option Q }.
Context {Y : YamlCpp}.

Fixpoint yfind (k : string) (l : list (string * yaml)) : yaml :=
  match l with
  | [] => YNone
  | (k', v) :: l' => if decide (k = k') then v else yfind k l'
  end.
Definition getSub (n : yaml) (key : string) : yaml :=
  match n with YMap l => yfind key l | _ => YNull end.
Definition as_string (n : yaml) : res string :=
  match n with YScalar s => Ok s | YNull => Ok "null" | _ => Ub UB_Uncaught end.
Definition getString (n : yaml) (key : string) : res string :=
  match n with
  | YMap l => match yfind key l with YNone => Ok "" | v => as_string v end
  | _ => Ok ""
  end.
Definition getInt (n : yaml) (key : string) : Z :=
  match n with
  | YMap l => match yfind key l with YScalar s => default 0 (scalar_int s) | _ => 0 end
  | _ => 0
  end.
Definition getFloat (n : yaml) (key : string) (d : Q) : Q :=
  match n with
  | YMap l => match yfind key l with YScalar s => default d (scalar_float s) | _ => d end
  | _ => d
  end.
(** m_root[..][i][key].as<..>() *)
Definition yindex (n : yaml) (i : nat) : yaml :=
  match n with YSeq l => default YNone (l !! i) | _ => YNone end.
Definition as_int (n : yaml) (key : string) : res Z :=
  match getSub n key with
  | YScalar s => match scalar_int s with Some z => Ok z | None => Ub UB_Uncaught end
  | _ => Ub UB_Uncaught
  end.
Definition as_float (n : yaml) (key : string) : res Q :=
  match getSub n key with
  | YScalar s => match scalar_float s with Some q => Ok q | None => Ub UB_Uncaught end
  | _ => Ub UB_Uncaught
  end.

(** common.c *)
Definition creat_version_table (name version : string) : DM unit :=
  create_table name "id INTEGER PRIMARY KEY,sVersion TEXT NOT NULL";;
  insert_row name "id,sVersion" ("0," +:+ quoted version).
End state.
Arguments DbServer {_}.
