(* ===== verification/DbNetwork.v ===== *)
(** * The settings of the database server

    src/lib_app/db_server/db_net/db_network.cpp: one definition per handler.  The
    statements are the texts the handlers print into their buffers, whose sizes
    are checked. *)

From S2P Require Import Prelude Float Json JsonText Mldb DbBase.
From Stdlib Require Import QArith_base Ascii.
From stdpp Require Import pretty.
#[local] Open Scope Z_scope.

Definition TABLE_NETWORK_SERVICE := "NetworkService".
Definition TABLE_NETWORK_NTP := "ntp".
Definition TABLE_NETWORK_SN := "device_sn".
Definition TABLE_NETWORK_VERSION := "NetworkVersion".
Definition TABLE_NETWORK_BKURL := "BackgroudUrl".
Definition TABLE_NETWORK_MAPPATH := "MapPath".
Definition TABLE_NETWORK_CLEANTYPE := "CleanType".
Definition TABLE_NETWORK_CLEANSTRENGTH := "CleanStrength".
Definition TABLE_NETWORK_NODISTURB := "NoDisturb".
Definition TABLE_NETWORK_TIMINGCLEANONOFF := "TimingCleanOnOff".
Definition TABLE_NETWORK_TIMINGCLEANCFG := "TimingCleanCfg".
Definition TABLE_NETWORK_SELFCLEAN := "SelfClean".
Definition TABLE_NETWORK_ZONECFG := "ZoneCfg".
Definition TABLE_NETWORK_ACTIVE := "Active".
Definition NETWORK_VERSION := "1.0.0".

Section network.
Context {M : Mldb} {J : JsonText} {R : RealFormat}.
Abbreviation DM := (ST DbServer).

Definition Get_SN : Handler := λ jreq jret,
  '(ok, jtemp) ← select_rows TABLE_NETWORK_SN "id=1";
  if ok : bool then
    jret ← lift (copy_texts jtemp (same ["sn"]) jret); mret (0, jret)
  else mret (2, jret).

Definition Set_Clean_Type : Handler := λ jreq jret,
  mode ← body_int jreq "mode";
  tempbuf ← lift (sprintf 50 ("mode=" +:+ pretty mode));
  update_rows TABLE_NETWORK_CLEANTYPE tempbuf "id=1";;
  jreq ← lift (jtouch jreq "body");
  broadcast jreq;;
  mret (0, jret).
Definition Get_Clean_Type : Handler := λ jreq jret,
  q ← select_rows TABLE_NETWORK_CLEANTYPE "id=1";
  ok ← lift (found q);
  if ok : bool then
    jret ← lift (copy_ints q.2 (same ["mode"]) jret); mret (0, jret)
  else mret (2, jret).

Definition Set_Clean_Strength : Handler := λ jreq jret,
  mode ← body_int jreq "mode";
  suction ← body_int jreq "suction";
  water_yield ← body_int jreq "water_yield";
  speed ← body_int jreq "speed";
  area ← body_int jreq "area";
  tempbuf ← lift (sprintf 200 ("mode=" +:+ pretty mode +:+ ",suction=" +:+ pretty suction
    +:+ ",water_yield=" +:+ pretty water_yield +:+ ",speed=" +:+ pretty speed +:+ ",area=" +:+ pretty area));
  update_rows TABLE_NETWORK_CLEANSTRENGTH tempbuf "id=1";;
  jreq ← lift (jtouch jreq "body");
  broadcast jreq;;
  mret (0, jret).
Definition Get_Clean_Strength : Handler := λ jreq jret,
  q ← select_rows TABLE_NETWORK_CLEANSTRENGTH "id=1";
  ok ← lift (found q);
  if ok : bool then
    jret ← lift (copy_ints q.2 (same ["mode"; "suction"; "water_yield"; "speed"; "area"]) jret); mret (0, jret)
  else mret (2, jret).

Definition Set_Donot_Disturb_Cfg : Handler := λ jreq jret,
  enable ← body_int jreq "enable";
  start_time ← body_int jreq "start_time";
  end_time ← body_int jreq "end_time";
  tempbuf ← lift (sprintf 200 ("enable=" +:+ pretty enable +:+ ",start_time=" +:+ pretty start_time
    +:+ ",end_time=" +:+ pretty end_time));
  update_rows TABLE_NETWORK_NODISTURB tempbuf "id=1";;
  jreq ← lift (jtouch jreq "body");
  broadcast jreq;;
  mret (0, jret).
Definition Get_Donot_Disturb_Cfg : Handler := λ jreq jret,
  q ← select_rows TABLE_NETWORK_NODISTURB "id=1";
  ok ← lift (found q);
  if ok : bool then
    jret ← lift (copy_ints q.2 (same ["enable"; "start_time"; "end_time"]) jret); mret (0, jret)
  else mret (2, jret).

(** "id=" and std::to_string *)
Definition id_is (i : nat) : string := "id=" +:+ pretty (Z.of_nat i + 1).

Definition set_day (jtemp : json) (i : nat) : DM unit :=
  d ← lift (jidx jtemp i);
  day ← lift (JV_TO_INT d "day" 0);
  enable ← lift (JV_TO_INT d "enable" 0);
  start_time ← lift (JV_TO_INT d "start_time" 0);
  tempbuf ← lift (sprintf 200 ("day=" +:+ pretty day +:+ ",enable=" +:+ pretty enable
    +:+ ",start_time=" +:+ pretty start_time));
  update_rows TABLE_NETWORK_TIMINGCLEANCFG tempbuf (id_is i).
Definition Set_Timing_Clean_Cfg : Handler := λ jreq jret,
  mode ← body_int jreq "mode";
  enable ← body_int jreq "enable";
  tempbuf ← lift (sprintf 200 ("mode=" +:+ pretty mode +:+ ",enable=" +:+ pretty enable));
  update_rows TABLE_NETWORK_TIMINGCLEANONOFF tempbuf "id=1";;
  jtemp ← lift (b ← jkey jreq "body"; jkey b "days");
  iterM (set_day jtemp) (seq 0 (jsize jtemp));;
  jreq ← lift (jtouch2 jreq "body" "days");
  broadcast jreq;;
  mret (0, jret).

(** The loop over the days from [i]; [None] when one has no row. *)
Fixpoint get_days (n i : nat) (jret : json) : DM (option json) :=
  match n with
  | O => mret (Some jret)
  | S n' =>
      q ← select_rows TABLE_NETWORK_TIMINGCLEANCFG (id_is i);
      ok ← lift (found q);
      if ok : bool then
        jret ← lift (
          z ← get_int q.2 "day"; jret ← jset3 jret "days" i "day" (JInt z);
          z ← get_int q.2 "enable"; jret ← jset3 jret "days" i "enable" (JInt z);
          z ← get_int q.2 "start_time"; jset3 jret "days" i "start_time" (JInt z));
        get_days n' (S i) jret
      else mret None
  end.
Definition Get_Timing_Clean_Cfg : Handler := λ jreq jret,
  q ← select_rows TABLE_NETWORK_TIMINGCLEANONOFF "id=1";
  ok ← lift (found q);
  if ok : bool then
    jret ← lift (copy_ints q.2 (same ["mode"; "enable"]) jret);
    r ← get_days 7 0 jret;
    mret (match r with Some jret => (0, jret) | None => (2, jret) end)
  else mret (2, jret).

Definition Set_Self_Clean_Cfg : Handler := λ jreq jret,
  enable ← body_int jreq "enable";
  tempbuf ← lift (sprintf 50 ("enable=" +:+ pretty enable));
  update_rows TABLE_NETWORK_SELFCLEAN tempbuf "id=1";;
  jreq ← lift (jtouch jreq "body");
  broadcast jreq;;
  mret (0, jret).
Definition Get_Self_Clean_Cfg : Handler := λ jreq jret,
  q ← select_rows TABLE_NETWORK_SELFCLEAN "id=1";
  ok ← lift (found q);
  if ok : bool then
    jret ← lift (copy_ints q.2 (same ["enable"]) jret); mret (0, jret)
  else mret (2, jret).

(** jreq["body"][k].toSimpleString(), with the member it makes *)
Definition zone_text (jreq : json) (k : string) : res (string * json) :=
  b ← jkey jreq "body"; v ← jkey b k; jreq ← jtouch2 jreq "body" k; Ok (toSimpleString v, jreq).
Definition zone_values (map_id : Z) (room wall forbidden_zone threshold : string) : string :=
  pretty map_id +:+ "," +:+ quoted room +:+ "," +:+ quoted wall +:+ "," +:+ quoted forbidden_zone
  +:+ "," +:+ quoted threshold.
Definition Set_Zone_Cfg : Handler := λ jreq jret,
  map_id ← body_int jreq "map_id";
  tempbuf ← lift (sprintf 2000 ("map_id=" +:+ pretty map_id));
  delete_rows TABLE_NETWORK_ZONECFG tempbuf;;
  '(room, jreq) ← lift (zone_text jreq "room");
  '(wall, jreq) ← lift (zone_text jreq "virtual_wall");
  '(forbidden_zone, jreq) ← lift (zone_text jreq "virtual_forbidden_zone");
  '(threshold, jreq) ← lift (zone_text jreq "virtual_threshold");
  tempbuf ← lift (sprintf 2000 (zone_values map_id room wall forbidden_zone threshold));
  insert_row TABLE_NETWORK_ZONECFG "map_id,room,virtual_wall,virtual_forbidden_zone,virtual_threshold" tempbuf;;
  broadcast jreq;;
  mret (0, jret).

(** String2Json of a column, whose result is not looked at *)
Fixpoint copy_zones (jtemp : json) (ks : list string) (jret : json) : res json :=
  match ks with
  | [] => Ok jret
  | k :: ks' =>
      t ← get_text jtemp k;
      jret' ← jset jret k (String2Json t).2;
      copy_zones jtemp ks' jret'
  end.
Definition zone_keys : list string := ["room"; "virtual_wall"; "virtual_forbidden_zone"; "virtual_threshold"].
Definition Get_Zone_Cfg : Handler := λ jreq jret,
  map_id ← body_int jreq "map_id";
  q ← select_rows TABLE_NETWORK_ZONECFG ("map_id=" +:+ pretty map_id);
  ok ← lift (found q);
  jret ← lift (jset jret "map_id" (JInt map_id));
  jret ← lift (if ok : bool then copy_zones q.2 zone_keys jret
               else foldl (λ r k, r ← r; jset r k (JArr [])) (Ok jret) zone_keys);
  mret (0, jret).

Definition Save_Map : Handler := λ jreq jret,
  map_id ← body_int jreq "map_id";
  map_info_path ← body_string jreq "map_info_path";
  map_data_path ← body_string jreq "map_data_path";
  tempbuf ← lift (sprintf 200 (pretty map_id +:+ "," +:+ quoted "" +:+ "," +:+ quoted map_info_path
    +:+ "," +:+ quoted map_data_path));
  insert_row TABLE_NETWORK_MAPPATH "map_id,map_name,map_info_path,map_data_path" tempbuf;;
  jreq ← lift (jtouch jreq "body");
  broadcast jreq;;
  mret (0, jret).
Definition Delete_Map : Handler := λ jreq jret,
  map_id ← body_int jreq "map_id";
  delete_rows TABLE_NETWORK_MAPPATH ("map_id=" +:+ pretty map_id);;
  mret (0, jret).

(** The endless loop of Query_Map, which a missing row ends. *)
Fixpoint query_loop (fuel : nat) (i : nat) (jret : json) : DM json :=
  match fuel with
  | O => undefined UB_Diverges
  | S fuel' =>
      q ← select_rows TABLE_NETWORK_MAPPATH (id_is i);
      ok ← lift (found q);
      if ok : bool then
        jret ← lift (
          z ← get_int q.2 "map_id"; jret ← jset3 jret "map" i "map_id" (JInt z);
          t ← get_text q.2 "map_name"; jret ← jset3 jret "map" i "map_name" (JStr t);
          t ← get_text q.2 "map_info_path"; jret ← jset3 jret "map" i "map_info_path" (JStr t);
          t ← get_text q.2 "map_data_path"; jset3 jret "map" i "map_data_path" (JStr t));
        query_loop fuel' (S i) jret
      else mret jret
  end.
Definition Query_Map (fuel : nat) : Handler := λ jreq jret,
  jret ← query_loop fuel 0 jret;
  m ← lift (isMember jret "map");
  jret ← lift (if m : bool then Ok jret else jset jret "map" (JArr []));
  mret (0, jret).

Definition Edit_MapName : Handler := λ jreq jret,
  map_id ← body_int jreq "map_id";
  map_name ← body_string jreq "map_name";
  tempbuf ← lift (sprintf 50 ("map_name=" +:+ quoted map_name));
  where_ ← lift (sprintf 20 ("map_id='" +:+ pretty map_id +:+ "'"));
  update_rows TABLE_NETWORK_MAPPATH tempbuf where_;;
  mret (0, jret).

Definition Set_Active : Handler := λ jreq jret,
  activate ← body_int jreq "activate";
  tempbuf ← lift (sprintf 50 ("activate=" +:+ pretty activate));
  update_rows TABLE_NETWORK_ACTIVE tempbuf "id=1";;
  jreq ← lift (jtouch jreq "body");
  broadcast jreq;;
  mret (0, jret).
Definition Get_Active : Handler := λ jreq jret,
  q ← select_rows TABLE_NETWORK_ACTIVE "id=1";
  ok ← lift (found q);
  if ok : bool then
    jret ← lift (copy_ints q.2 (same ["activate"]) jret); mret (0, jret)
  else mret (2, jret).

Definition Set_Wifi : Handler := λ jreq jret,
  ssid ← body_string jreq "ssid";
  password ← body_string jreq "password";
  tempbuf ← lift (sprintf 100 ("ssid=" +:+ c_string ssid +:+ ",password=" +:+ c_string password));
  update_rows TABLE_NETWORK_SERVICE tempbuf "id=1";;
  jreq ← lift (jtouch jreq "body");
  broadcast jreq;;
  mret (0, jret).
Definition Get_Wifi : Handler := λ jreq jret,
  q ← select_rows TABLE_NETWORK_SERVICE "id=1";
  ok ← lift (found q);
  if ok : bool then
    jret ← lift (copy_texts q.2 (same ["ssid"; "password"]) jret); mret (0, jret)
  else mret (2, jret).

(** g_dpmsg_table; [fuel] is for the loop of Query_Map. *)
Definition DbNetwork_table (fuel : nat) : list (string * Handler) :=
  [("get_sn", Get_SN);
   ("set_clean_type", Set_Clean_Type);
   ("get_clean_type", Get_Clean_Type);
   ("set_clean_strength", Set_Clean_Strength);
   ("get_clean_strength", Get_Clean_Strength);
   ("set_donot_disturb_cfg", Set_Donot_Disturb_Cfg);
   ("get_donot_disturb_cfg", Get_Donot_Disturb_Cfg);
   ("set_timing_clean_cfg", Set_Timing_Clean_Cfg);
   ("get_timing_clean_cfg", Get_Timing_Clean_Cfg);
   ("set_self_clean_cfg", Set_Self_Clean_Cfg);
   ("get_self_clean_cfg", Get_Self_Clean_Cfg);
   ("set_zone_cfg", Set_Zone_Cfg);
   ("get_zone_cfg", Get_Zone_Cfg);
   ("save_map", Save_Map);
   ("delete_map", Delete_Map);
   ("query_map", Query_Map fuel);
   ("edit_map_name", Edit_MapName);
   ("set_activate", Set_Active);
   ("get_activate", Get_Active);
   ("set_wifi", Set_Wifi);
   ("get_wifi", Get_Wifi)].
End network.
