(* ===== verification/DbPeripheral.v ===== *)
(** * The calibration data of the database server

    src/lib_app/db_server/db_peripheral/db_peripheral.cpp: one definition per
    handler.  Parameters of motors are decimals: they are printed with two
    digits, stored in columns of type FLOAT and read back with stof. *)

From S2P Require Import Prelude Float Json JsonText Mldb DbBase.
From Stdlib Require Import QArith_base Ascii.
From stdpp Require Import pretty.
#[local] Open Scope Z_scope.

Definition TABLE_PERIPHERALS_MACHINE := "machine".
Definition TABLE_PERIPHERALS_WHEELPID := "WheelPid".
Definition TABLE_PERIPHERALS_WHEELPARAM := "WheelParam".
Definition TABLE_PERIPHERALS_FANPID := "FanPid".
Definition TABLE_PERIPHERALS_MOPPID := "MopPid".
Definition TABLE_PERIPHERALS_VERSION := "PeripheralsVersion".
Definition TABLE_PERIPHERALS_IMUOFFSET := "imu_offset".
Definition TABLE_PERIPHERALS_ODMOFFSET := "odm_offset".
Definition TABLE_PERIPHERALS_AUDIO := "audio_cfg".
Definition PERIPHERALS_VERSION := "1.0.0".

(** The blanks of a continued string literal, and the end of a line. *)
Definition pad20 : string := "                    ".
Definition newline : string := String "010" "".

Section peripheral.
Context {M : Mldb} {J : JsonText} {R : RealFormat}.
Abbreviation DM := (ST DbServer).

Definition Set_Imu_Offset : Handler := λ jreq jret,
  gx_off ← lift (JV_TO_INT jreq "gyro_x_offset" 0);
  gy_off ← lift (JV_TO_INT jreq "gyro_y_offset" 0);
  gz_off ← lift (JV_TO_INT jreq "gyro_z_offset" 0);
  ax_off ← lift (JV_TO_INT jreq "accel_x_offset" 0);
  ay_off ← lift (JV_TO_INT jreq "accel_y_offset" 0);
  az_off ← lift (JV_TO_INT jreq "accel_z_offset" 0);
  tempbuf ← lift (sprintf 200 ("gyro_x_offset=" +:+ pretty gx_off +:+ ",gyro_y_offset=" +:+ pretty gy_off
    +:+ ",gyro_z_offset=" +:+ pretty gz_off +:+ "," +:+ pad20 +:+ "accel_x_offset=" +:+ pretty ax_off
    +:+ ",accel_y_offset=" +:+ pretty ay_off +:+ ",accel_z_offset=" +:+ pretty az_off +:+ newline));
  update_rows TABLE_PERIPHERALS_IMUOFFSET tempbuf "id=1";;
  mret (0, jret).
Definition imu_keys : list string :=
  ["gyro_x_offset"; "gyro_y_offset"; "gyro_z_offset"; "accel_x_offset"; "accel_y_offset"; "accel_z_offset"].
Definition Get_Imu_Offset : Handler := λ jreq jret,
  '(ok, jtemp) ← select_rows TABLE_PERIPHERALS_IMUOFFSET "id=1";
  if ok : bool then jret ← lift (copy_ints jtemp (same imu_keys) jret); mret (0, jret) else mret (2, jret).

Definition Set_Odm_Offset : Handler := λ jreq jret,
  wl_off ← lift (JV_TO_DOUBLE jreq "Wheel_L_offset" (Qmake 0 1));
  wr_off ← lift (JV_TO_DOUBLE jreq "Wheel_R_offset" (Qmake 0 1));
  wd_off ← lift (JV_TO_DOUBLE jreq "Wheel_DIS_offset" (Qmake 0 1));
  tempbuf ← lift (sprintf 200 ("Wheel_L_offset=" +:+ fmt_f 2 wl_off +:+ ",Wheel_R_offset=" +:+ fmt_f 2 wr_off
    +:+ ",Wheel_DIS_offset=" +:+ fmt_f 2 wd_off));
  update_rows TABLE_PERIPHERALS_ODMOFFSET tempbuf "id=1";;
  mret (0, jret).
Definition Get_Odm_Offset : Handler := λ jreq jret,
  '(ok, jtemp) ← select_rows TABLE_PERIPHERALS_ODMOFFSET "id=1";
  if ok : bool then
    jret ← lift (copy_floats jtemp (same ["Wheel_L_offset"; "Wheel_R_offset"; "Wheel_DIS_offset"]) jret); mret (0, jret)
  else mret (2, jret).

(** The loop over the gears from [i]; [None] when an answer does not parse. *)
Fixpoint get_gears (n i : nat) (jret : json) : DM (option json) :=
  match n with
  | O => mret (Some jret)
  | S n' =>
      '(ok, jtemp) ← select_rows TABLE_PERIPHERALS_WHEELPID ("id=" +:+ pretty (Z.of_nat i + 1));
      if ok : bool then
        jret ← lift (
          z ← get_int jtemp "DIF"; jret ← jset3 jret "pid" i "DIF" (JInt z);
          f ← get_float jtemp "KP"; jret ← jset3 jret "pid" i "KP" f;
          f ← get_float jtemp "KI"; jret ← jset3 jret "pid" i "KI" f;
          f ← get_float jtemp "KD"; jset3 jret "pid" i "KD" f);
        get_gears n' (S i) jret
      else mret None
  end.
Definition Get_Wheel_Pid : Handler := λ jreq jret,
  r ← get_gears 4 0 jret;
  mret (match r with Some jret => (0, jret) | None => (2, jret) end).

Definition Get_Fan_Pid : Handler := λ jreq jret,
  '(ok, jtemp) ← select_rows TABLE_PERIPHERALS_FANPID "id=1";
  if ok : bool then
    jret ← lift (copy_floats jtemp (same ["fKp"; "fKi"; "fKd"]) jret);
    jret ← lift (copy_ints jtemp (same ["fPwmMax"; "fPwmMin"]) jret); mret (0, jret)
  else mret (2, jret).
Definition Get_Wheel_Param : Handler := λ jreq jret,
  '(ok, jtemp) ← select_rows TABLE_PERIPHERALS_WHEELPARAM "id=1";
  if ok : bool then
    jret ← lift (copy_floats jtemp [("wheel_code_disc", "WHEEL_CODE_DISC"); ("wheel_distance", "WHEEL_DISTANCE");
                                    ("wheel_diameter", "WHEEL_DIAMETER")] jret);
    jret ← lift (copy_ints jtemp [("length2encode_l", "LENGTH2ENCODE_L"); ("length2encode_r", "LENGTH2ENCODE_R")] jret);
    mret (0, jret)
  else mret (2, jret).
Definition Get_Machine_Param : Handler := λ jreq jret,
  '(ok, jtemp) ← select_rows TABLE_PERIPHERALS_MACHINE "id=1";
  if ok : bool then
    jret ← lift (copy_texts jtemp (same ["device_type"; "device_sub_type"; "sw_version"; "hw_version"]) jret);
    mret (0, jret)
  else mret (2, jret).

Definition Set_Audio_Cfg : Handler := λ jreq jret,
  volume ← lift (JV_TO_INT jreq "volume" 0);
  language ← lift (JV_TO_INT jreq "language" 0);
  tempbuf ← lift (sprintf 50 ("VOLUME=" +:+ pretty volume +:+ ",LANGUAGE=" +:+ pretty language +:+ newline));
  update_rows TABLE_PERIPHERALS_AUDIO tempbuf "id=1";;
  mret (0, jret).
Definition Get_Audio_Cfg : Handler := λ jreq jret,
  '(ok, jtemp) ← select_rows TABLE_PERIPHERALS_AUDIO "id=1";
  if ok : bool then
    jret ← lift (copy_ints jtemp [("volume", "VOLUME"); ("language", "LANGUAGE")] jret); mret (0, jret)
  else mret (2, jret).

Definition DbPeripheral_table : list (string * Handler) :=
  [("set_imu_offset", Set_Imu_Offset);
   ("get_imu_offset", Get_Imu_Offset);
   ("set_odm_offset", Set_Odm_Offset);
   ("get_odm_offset", Get_Odm_Offset);
   ("get_wheel_pid", Get_Wheel_Pid);
   ("get_fan_pid", Get_Fan_Pid);
   ("get_wheel_param", Get_Wheel_Param);
   ("get_machine_param", Get_Machine_Param);
   ("set_audio_cfg", Set_Audio_Cfg);
   ("get_audio_cfg", Get_Audio_Cfg)].

(** ** Peripherals_DbInit, at every start *)
Context {Y : YamlCpp}.
Definition q_lit (n : Z) (d : positive) : Q := f_to_Q (f_lit binary32 n d).

Definition insert_gear (wheelpid : yaml) (i : nat) : DM unit :=
  let nodetest := yindex wheelpid i in
  dif ← lift (as_int nodetest "DIF");
  kp ← lift (as_float nodetest "KP");
  ki ← lift (as_float nodetest "KI");
  kd ← lift (as_float nodetest "KD");
  tempbuf ← lift (sprintf 200 (pretty dif +:+ "," +:+ fmt_f 2 kp +:+ "," +:+ fmt_f 2 ki +:+ "," +:+ fmt_f 2 kd));
  insert_row TABLE_PERIPHERALS_WHEELPID "DIF,KP,KI,KD" tempbuf.

Definition Peripherals_DbInit (root : yaml) : DM unit :=
  iterM drop_table [TABLE_PERIPHERALS_MACHINE; TABLE_PERIPHERALS_WHEELPID; TABLE_PERIPHERALS_WHEELPARAM;
                    TABLE_PERIPHERALS_FANPID; TABLE_PERIPHERALS_MOPPID; TABLE_PERIPHERALS_VERSION];;
  creat_version_table TABLE_PERIPHERALS_VERSION PERIPHERALS_VERSION;;
  create_table TABLE_PERIPHERALS_MACHINE ("id INTEGER PRIMARY KEY AUTOINCREMENT,device_type TEXT DEFAULT '',"
    +:+ "device_sub_type TEXT DEFAULT '',sw_version TEXT DEFAULT '',hw_version TEXT DEFAULT ''");;
  let machine := getSub root "machine" in
  device_type ← lift (getString machine "device_type");
  device_sub_type ← lift (getString machine "device_sub_type");
  sw_version ← lift (getString machine "sw_version");
  hw_version ← lift (getString machine "hw_version");
  tempbuf ← lift (sprintf 200 (quoted device_type +:+ "," +:+ quoted device_sub_type +:+ "," +:+ quoted sw_version
    +:+ "," +:+ quoted hw_version));
  insert_row TABLE_PERIPHERALS_MACHINE "device_type,device_sub_type,sw_version,hw_version" tempbuf;;
  create_table TABLE_PERIPHERALS_WHEELPID
    "id INTEGER PRIMARY KEY,DIF INT DEFAULT 0,KP FLOAT DEFAULT 0,KI FLOAT DEFAULT 0,KD FLOAT DEFAULT 0 ";;
  iterM (insert_gear (getSub root "wheelpid")) (seq 0 4);;
  create_table TABLE_PERIPHERALS_WHEELPARAM ("id INTEGER PRIMARY KEY AUTOINCREMENT,WHEEL_CODE_DISC FLOAT DEFAULT 0,"
    +:+ "WHEEL_DISTANCE FLOAT DEFAULT 0,WHEEL_DIAMETER FLOAT DEFAULT 0,LENGTH2ENCODE_L INT DEFAULT 0,LENGTH2ENCODE_R INT DEFAULT 0");;
  let wheelparam := getSub root "wheelparam" in
  tempbuf ← lift (sprintf 200 (fmt_f 1 (getFloat wheelparam "WHEEL_CODE_DISC" (q_lit 30 1)) +:+ ","
    +:+ fmt_f 4 (getFloat wheelparam "WHEEL_DISTANCE" (q_lit 271 1000)) +:+ ","
    +:+ fmt_f 4 (getFloat wheelparam "WHEEL_DIAMETER" (q_lit 795 10000)) +:+ ","
    +:+ pretty (getInt wheelparam "LENGTH2ENCODE_L") +:+ "," +:+ pretty (getInt wheelparam "LENGTH2ENCODE_R")));
  insert_row TABLE_PERIPHERALS_WHEELPARAM "WHEEL_CODE_DISC,WHEEL_DISTANCE,WHEEL_DIAMETER,LENGTH2ENCODE_L,LENGTH2ENCODE_R" tempbuf;;
  create_table TABLE_PERIPHERALS_FANPID ("id INTEGER PRIMARY KEY AUTOINCREMENT,fKp FLOAT DEFAULT '',fKi FLOAT DEFAULT '',"
    +:+ "fKd FLOAT DEFAULT '',fPwmMax INT DEFAULT '',fPwmMin INT DEFAULT ''");;
  let fanpid := getSub root "fanpid" in
  tempbuf ← lift (sprintf 200 (fmt_f 2 (getFloat fanpid "fKp" (q_lit 100 1)) +:+ ","
    +:+ fmt_f 2 (getFloat fanpid "fKi" (q_lit 30 1)) +:+ "," +:+ fmt_f 2 (getFloat fanpid "fKd" (q_lit 20 1)) +:+ ","
    +:+ pretty (getInt fanpid "fPwmMax") +:+ "," +:+ pretty (getInt fanpid "fPwmMin")));
  insert_row TABLE_PERIPHERALS_FANPID "fKp,fKi,fKd,fPwmMax,fPwmMin" tempbuf;;
  create_table TABLE_PERIPHERALS_MOPPID ("id INTEGER PRIMARY KEY AUTOINCREMENT,mKp FLOAT DEFAULT '',mKi FLOAT DEFAULT '',"
    +:+ "mKd FLOAT DEFAULT '',mPwmMax INT DEFAULT '',mPwmMin INT DEFAULT ''");;
  let moppid := getSub root "moppid" in
  tempbuf ← lift (sprintf 200 (fmt_f 2 (getFloat moppid "mKp" (q_lit 100 1)) +:+ ","
    +:+ fmt_f 2 (getFloat moppid "mKi" (q_lit 30 1)) +:+ "," +:+ fmt_f 2 (getFloat moppid "mKd" (q_lit 20 1)) +:+ ","
    +:+ pretty (getInt moppid "mPwmMax") +:+ "," +:+ pretty (getInt moppid "mPwmMin")));
  insert_row TABLE_PERIPHERALS_MOPPID "mKp,mKi,mKd,mPwmMax,mPwmMin" tempbuf;;
  create_table TABLE_PERIPHERALS_IMUOFFSET ("id INTEGER PRIMARY KEY,gyro_x_offset INT DEFAULT 0,gyro_y_offset INT DEFAULT 0,"
    +:+ "gyro_z_offset INT DEFAULT 0,accel_x_offset INT DEFAULT 0,accel_y_offset INT DEFAULT 0,accel_z_offset INT DEFAULT 0");;
  insert_row TABLE_PERIPHERALS_IMUOFFSET
    ("gyro_x_offset,gyro_y_offset,gyro_z_offset, " +:+ pad20 +:+ "accel_x_offset,accel_y_offset,accel_z_offset") "0,0,0,0,0,1";;
  create_table TABLE_PERIPHERALS_ODMOFFSET
    "id INTEGER PRIMARY KEY,Wheel_L_offset FLOAT DEFAULT 0,Wheel_R_offset FLOAT DEFAULT 0,Wheel_DIS_offset FLOAT DEFAULT 0";;
  insert_row TABLE_PERIPHERALS_ODMOFFSET "Wheel_L_offset,Wheel_R_offset,Wheel_DIS_offset" "0.20,0.30,0.40";;
  create_table TABLE_PERIPHERALS_AUDIO "id INTEGER PRIMARY KEY,VOLUME INT DEFAULT 0,LANGUAGE INT DEFAULT 0";;
  insert_row TABLE_PERIPHERALS_AUDIO "VOLUME,LANGUAGE" "50,1".
End peripheral.
