(* ===== verification/DbServer.v ===== *)
(** * The database server

    src/lib_app/db_server: Network_DbInit of db_net/db_network.cpp, and the start
    and the dispatch of requests of main/db_manager.cpp. *)

From S2P Require Import Prelude Float Json JsonText Mldb DbBase DbNetwork DbPeripheral DpMessage.
From Stdlib Require Import QArith_base Ascii.
From stdpp Require Import pretty.
#[local] Open Scope Z_scope.

Section server.
Context {M : Mldb} {J : JsonText} {R : RealFormat} {Y : YamlCpp}.
Abbreviation DM := (ST DbServer).

Definition create_with_row (name columns names values : string) : DM unit :=
  create_table name columns;; insert_row name names values.

Definition Network_DbInit (root : yaml) : DM unit :=
  iterM drop_table [TABLE_NETWORK_MAPPATH; TABLE_NETWORK_CLEANTYPE; TABLE_NETWORK_CLEANSTRENGTH;
    TABLE_NETWORK_NODISTURB; TABLE_NETWORK_TIMINGCLEANONOFF; TABLE_NETWORK_SELFCLEAN; TABLE_NETWORK_ZONECFG;
    TABLE_NETWORK_SERVICE; TABLE_NETWORK_NTP; TABLE_NETWORK_SN; TABLE_NETWORK_BKURL; TABLE_NETWORK_VERSION];;
  creat_version_table TABLE_NETWORK_VERSION NETWORK_VERSION;;
  create_table TABLE_NETWORK_SERVICE ("id INTEGER PRIMARY KEY AUTOINCREMENT,sService TEXT NOT NULL UNIQUE,"
    +:+ "sPassword TEXT DEFAULT '',iFavorite INT DEFAULT 0,iAutoconnect INT DEFAULT 0");;
  let NetworkService := getSub root "NetworkService" in
  sService ← lift (getString NetworkService "sService");
  sPassword ← lift (getString NetworkService "sPassword");
  databuf ← lift (sprintf 200 (quoted sService +:+ "," +:+ quoted sPassword +:+ ","
    +:+ pretty (getInt NetworkService "iFavorite") +:+ "," +:+ pretty (getInt NetworkService "iAutoconnect")));
  insert_row TABLE_NETWORK_SERVICE "sService,sPassword,iFavorite,iAutoconnect" databuf;;
  create_table TABLE_NETWORK_SN "id INTEGER PRIMARY KEY,sn TEXT NOT NULL";;
  sn ← lift (getString (getSub root "device_sn") "sn");
  databuf ← lift (sprintf 200 (quoted sn));
  insert_row TABLE_NETWORK_SN "sn" databuf;;
  create_table TABLE_NETWORK_NTP ("id INTEGER PRIMARY KEY,sNtpServers TEXT NOT NULL,sTimeZone TEXT NOT NULL,"
    +:+ "sTimeZoneFile TEXT NOT NULL,sTimeZoneFileDst TEXT NOT NULL,iAutoMode INT DEFAULT 0,iAutoDst INT DEFAULT 0,"
    +:+ "iRefreshTime INT DEFAULT 120");;
  let ntp := getSub root "ntp" in
  sNtpServers ← lift (getString ntp "sNtpServers");
  sTimeZone ← lift (getString ntp "sTimeZone");
  sTimeZoneFile ← lift (getString ntp "sTimeZoneFile");
  sTimeZoneFileDst ← lift (getString ntp "sTimeZoneFileDst");
  databuf ← lift (sprintf 200 (quoted sNtpServers +:+ "," +:+ quoted sTimeZone +:+ "," +:+ quoted sTimeZoneFile +:+ ","
    +:+ quoted sTimeZoneFileDst +:+ "," +:+ pretty (getInt ntp "iAutoMode") +:+ "," +:+ pretty (getInt ntp "iAutoDst")
    +:+ "," +:+ pretty (getInt ntp "iRefreshTime")));
  insert_row TABLE_NETWORK_NTP "sNtpServers,sTimeZone,sTimeZoneFile,sTimeZoneFileDst,iAutoDst,iAutoMode,iRefreshTime" databuf;;
  create_table TABLE_NETWORK_BKURL "id INTEGER PRIMARY KEY,device_reg_api TEXT NOT NULL,device_bind_api TEXT NOT NULL";;
  let BkUrl := getSub root "BackgroundUrl" in
  device_reg_api ← lift (getString BkUrl "device_reg_api");
  device_bind_api ← lift (getString BkUrl "device_bind_api");
  databuf ← lift (sprintf 200 (quoted device_reg_api +:+ "," +:+ quoted device_bind_api));
  insert_row TABLE_NETWORK_BKURL "device_reg_api,device_bind_api" databuf;;
  create_table TABLE_NETWORK_MAPPATH ("id INTEGER PRIMARY KEY,map_id INT DEFAULT 0,map_name TEXT NOT NULL,"
    +:+ "map_info_path TEXT NOT NULL,map_data_path TEXT NOT NULL");;
  create_with_row TABLE_NETWORK_CLEANTYPE "id INTEGER PRIMARY KEY,mode INT DEFAULT 2" "mode" "2";;
  create_with_row TABLE_NETWORK_CLEANSTRENGTH ("id INTEGER PRIMARY KEY,mode INT DEFAULT 0,suction INT DEFAULT 0,"
    +:+ "water_yield INT DEFAULT 0,speed INT DEFAULT 0,area INT DEFAULT 0")
    ("mode,suction,water_yield, " +:+ pad20 +:+ "speed,area") "1,1,1,1,10";;
  create_with_row TABLE_NETWORK_NODISTURB
    "id INTEGER PRIMARY KEY,enable INT DEFAULT 0,start_time INT DEFAULT 0,end_time INT DEFAULT 0"
    "enable,start_time,end_time" "0,0,0";;
  create_with_row TABLE_NETWORK_TIMINGCLEANONOFF "id INTEGER PRIMARY KEY,mode INT DEFAULT 0,enable INT DEFAULT 0"
    "mode,enable" "'0','0'";;
  create_table TABLE_NETWORK_TIMINGCLEANCFG
    "id INTEGER PRIMARY KEY,day INT DEFAULT 0,enable INT DEFAULT 0,start_time INT DEFAULT 0";;
  iterM (λ day : Z, insert_row TABLE_NETWORK_TIMINGCLEANCFG "day,enable,start_time" ("'" +:+ pretty day +:+ "','0','0'"))
    [1; 2; 3; 4; 5; 6; 0];;
  create_with_row TABLE_NETWORK_SELFCLEAN "id INTEGER PRIMARY KEY,enable INT DEFAULT 0" "enable" "'0'";;
  create_table TABLE_NETWORK_ZONECFG ("id INTEGER PRIMARY KEY,map_id INT DEFAULT 0,room TEXT NOT NULL,virtual_wall INT DEFAULT 0,"
    +:+ "virtual_forbidden_zone TEXT NOT NULL,virtual_threshold TEXT NOT NULL");;
  create_with_row TABLE_NETWORK_ACTIVE "id INTEGER PRIMARY KEY,activate INT DEFAULT 0" "activate" "0".

(** InitBaseNode *)
Definition InitBaseNode (root : yaml) : DM unit := Network_DbInit root;; Peripherals_DbInit root.

(** OnDpMessage of a module: -1 when no handler has the type.  Db_Peripheral
    passes jreq["body"] instead of the request. *)
Definition module_OnDpMessage (table : list (string * Handler)) (arg : json → res json)
    (stype : string) (jreq jret : json) : DM (Z * json) :=
  match find_handler table stype with
  | None => mret (-1, jret)
  | Some handler =>
      jreq ← lift (arg jreq);
      body ← lift (jkey jret "body");
      '(nret, body) ← handler jreq body;
      jret ← lift (jset jret "body" body);
      mret (nret, jret)
  end.
Definition DbNetwork_OnDpMessage (fuel : nat) := module_OnDpMessage (DbNetwork_table fuel) Ok.
Definition DbPeripheral_OnDpMessage := module_OnDpMessage DbPeripheral_table (λ jreq, jkey jreq "body").

(** What is answered; the states 200 and 400 are for the codes 0 and 2. *)
Definition build_reply (ret : Z) (stype : string) (jret : json) : res json :=
  jret ← jset jret "type" (JStr stype);
  if ret =? 0 then jret ← jset jret "state" (JInt 200); jset jret "err_msg" (JStr "success")
  else if ret =? 2 then jret ← jset jret "state" (JInt 400); jset jret "err_msg" (JStr "error")
  else Ok jret.

(** OnDpMessage of the server; the answer, if one is sent. *)
Definition DbServer_OnDpMessage (fuel : nat) (method : string) (type : Z) (req_buffer : bool * json) : DM (option json) :=
  r ← (if bool_decide (method = "DP_DB_REQUEST") then
         if req_buffer.1 then
           t ← lift (jkey req_buffer.2 "type");
           jreq ← lift (jtouch req_buffer.2 "type");
           '(ret, jret) ← DbNetwork_OnDpMessage fuel (asString t) jreq JNull;
           if negb (ret =? -1) then mret (Some (ret, asString t, jret))
           else
             '(ret, jret) ← DbPeripheral_OnDpMessage (asString t) jreq jret;
             mret (Some (ret, asString t, jret))
         else mret None
       else mret (Some (-1, "", JNull)));
  match r with
  | None => mret None
  | Some (ret, stype, jret) =>
      if type =? TYPE_REQUEST then jret ← lift (build_reply ret stype jret); mret (Some jret)
      else mret None
  end.
End server.
