(* ===== verification/SqlTexts.v ===== *)
(** * Reading back what is printed

    The numbers printed by sprintf and std::to_string are read by std::stoi and
    by the SQL texts of Mldb.v; texts in quotes come back whole. *)

From S2P Require Import Prelude Json JsonText Mldb DbBase.
From Stdlib Require Import Ascii.
From stdpp Require Import pretty.
#[local] Open Scope Z_scope.

(** ** Characters *)
Fixpoint sall (f : ascii → bool) (s : string) : bool :=
  match s with EmptyString => true | String a s' => f a && sall f s' end.
Lemma sall_app f s r : sall f (s +:+ r) = sall f s && sall f r.
Proof. induction s as [|a s IH]; simpl; [done|]. by rewrite IH, andb_assoc. Qed.
Lemma sall_impl (f g : ascii → bool) s : (∀ a, f a = true → g a = true) → sall f s = true → sall g s = true.
Proof. intros Hfg. induction s as [|a s IH]; simpl; [done|]. intros [H1 H2]%andb_true_iff. rewrite Hfg by done. by apply IH. Qed.

Definition numchar (a : ascii) : bool := bool_decide (is_Some (digit a)) || bool_decide (a = "-"%char).
Ltac each_char a := destruct a as [[] [] [] [] [] [] [] []]; vm_compute; try done.
Lemma digit_sign a s : is_Some (digit a) → read_sign (String a s) = (false, String a s).
Proof. intros [z Hz]. revert Hz. each_char a. Qed.
Lemma numchar_blank a : numchar a = true → is_blank a = false.
Proof. each_char a. Qed.
Lemma numchar_quote a : numchar a = true → a ≠ "'"%char.
Proof. each_char a. Qed.
Lemma numchar_comma a : numchar a = true → a ≠ ","%char.
Proof. each_char a. Qed.
Lemma digit_numchar a : is_Some (digit a) → numchar a = true.
Proof. intros H. unfold numchar. by rewrite bool_decide_true. Qed.

(** ** Printed numbers *)
Lemma digit_pretty x : (x < 10)%N → digit (pretty_N_char x) = Some (Z.of_N x).
Proof.
  intros H. assert (x = 0 ∨ x = 1 ∨ x = 2 ∨ x = 3 ∨ x = 4 ∨ x = 5 ∨ x = 6 ∨ x = 7 ∨ x = 8 ∨ x = 9)%N as Hx by lia.
  destruct_or! Hx; by subst.
Qed.
Lemma read_pretty_go x : ∀ s, (0 < x)%N → ∃ len, read_digits (pretty_N_go x s) 0 0 = read_digits s (Z.of_N x) (S len).
Proof.
  induction (N.lt_wf_0 x) as [x _ IH]. intros s Hx. rewrite pretty_N_go_step by done.
  assert (x `mod` 10 < 10)%N as Hd by (apply N.mod_lt; lia).
  destruct (decide (x < 10)%N) as [Hlt|Hge].
  - rewrite N.div_small by done. rewrite pretty_N_go_0. exists 0%nat. cbn [read_digits]. rewrite digit_pretty by done.
    rewrite N.mod_small by done. done.
  - destruct (IH (x `div` 10)%N ltac:(apply N.div_lt; lia) (String (pretty_N_char (x `mod` 10)) s)) as [len Hl].
    { apply N.div_str_pos. lia. }
    exists (S len). rewrite Hl. cbn [read_digits]. rewrite digit_pretty by done. f_equal.
    pose proof (N.div_mod x 10 ltac:(lia)). lia.
Qed.
Lemma pretty_go_digits x : ∀ s, sall (λ a, bool_decide (is_Some (digit a))) s = true →
  sall (λ a, bool_decide (is_Some (digit a))) (pretty_N_go x s) = true.
Proof.
  induction (N.lt_wf_0 x) as [x _ IH]. intros s Hs. destruct (decide (x = 0)%N) as [->|Hx]; [by rewrite pretty_N_go_0|].
  rewrite pretty_N_go_step by lia. apply IH; [apply N.div_lt; lia|]. cbn [sall]. rewrite Hs, digit_pretty, bool_decide_true; [done|by eexists|].
  apply N.mod_lt. lia.
Qed.
Lemma pretty_go_nonempty x s : s ≠ "" ∨ (0 < x)%N → pretty_N_go x s ≠ "".
Proof.
  revert s. induction (N.lt_wf_0 x) as [x _ IH]. intros s Hs. destruct (decide (x = 0)%N) as [->|Hx]; [rewrite pretty_N_go_0; by destruct Hs|].
  rewrite pretty_N_go_step by lia. apply IH; [apply N.div_lt; lia|by left].
Qed.

(** A number has digits, and a sign when it is negative. *)
Lemma pretty_shape (z : Z) : ∃ a s, pretty (Z.abs z) = String a s ∧ is_Some (digit a) ∧ sall (λ a, bool_decide (is_Some (digit a))) s = true ∧
  pretty z = (if z <? 0 then String "-" (String a s) else String a s) ∧
  ∃ len, read_digits (String a s) 0 0 = (Z.abs z, S len, "").
Proof.
  assert (∀ n, (0 < n)%N → ∃ a s, pretty n = String a s ∧ is_Some (digit a) ∧ sall (λ a, bool_decide (is_Some (digit a))) s = true ∧
    ∃ len, read_digits (String a s) 0 0 = (Z.of_N n, S len, "")) as Hpos.
  { intros n Hn. unfold pretty, pretty_N. rewrite decide_False by lia.
    pose proof (pretty_go_digits n "" eq_refl) as Hd. pose proof (pretty_go_nonempty n "" (or_intror Hn)) as Hne.
    destruct (read_pretty_go n "" Hn) as [len Hl]. destruct (pretty_N_go n "") as [|a s]; [done|].
    cbn [sall] in Hd. apply andb_true_iff in Hd as [Ha Hs]. apply bool_decide_eq_true in Ha. exists a, s. split_and!; eauto. }
  destruct z as [|p|p].
  - exists "0"%char, "". split_and!; try done. by exists 0%nat.
  - destruct (Hpos (Npos p) eq_refl) as (a & s & H1 & H2 & H3 & H4). exists a, s. by split_and!.
  - destruct (Hpos (Npos p) eq_refl) as (a & s & H1 & H2 & H3 & H4). exists a, s. split_and!; try done.
    change (pretty (Z.neg p)) with ("-" +:+ pretty (Npos p)). by rewrite H1.
Qed.

Lemma pretty_numchar (z : Z) : sall numchar (pretty z) = true.
Proof.
  destruct (pretty_shape z) as (a & s & _ & Ha & Hs & -> & _).
  assert (sall numchar (String a s) = true) as H.
  { cbn [sall]. rewrite digit_numchar by done. simpl. eapply sall_impl; [|exact Hs].
    intros b Hb%bool_decide_eq_true. by apply digit_numchar. }
  by case_match.
Qed.
Lemma pretty_cons (z : Z) : ∃ a s, pretty z = String a s ∧ numchar a = true.
Proof.
  pose proof (pretty_numchar z) as H. destruct (pretty_shape z) as (a & s & _ & _ & _ & Hz & _). rewrite Hz in *.
  case_match; cbn [sall] in H; apply andb_true_iff in H as [H _]; eauto.
Qed.
Lemma skip_blanks_pretty (z : Z) : skip_blanks (pretty z) = pretty z.
Proof. destruct (pretty_cons z) as (a & s & -> & Ha). simpl. by rewrite numchar_blank. Qed.
Lemma read_sign_pretty (z : Z) : read_sign (pretty z) = (z <? 0, pretty (Z.abs z)).
Proof.
  destruct (pretty_shape z) as (a & s & Ha & Hd & _ & -> & _). rewrite Ha. case_match; [done|]. by rewrite digit_sign.
Qed.
Lemma read_pretty (z : Z) : ∃ len, read_digits (pretty (Z.abs z)) 0 0 = (Z.abs z, S len, "").
Proof. destruct (pretty_shape z) as (a & s & -> & _ & _ & _ & H). done. Qed.
Lemma sign_abs z : (if z <? 0 then - Z.abs z else Z.abs z) = z.
Proof. destruct (Z.ltb_spec z 0); lia. Qed.

(** std::stoi reads what %d prints. *)
Lemma stoi_pretty (z : Z) : in_s 32 z → stoi (pretty z) = Ok z.
Proof.
  intros Hz. unfold stoi. rewrite skip_blanks_pretty, read_sign_pretty. destruct (read_pretty z) as [len ->]. rewrite sign_abs.
  cbn [Nat.eqb]. unfold in_s, minInt, maxInt in *. destruct (Z.ltb_spec z (- 2 ^ 31)), (Z.ltb_spec (2 ^ 31 - 1) z); try done; lia.
Qed.
Lemma read_int_pretty (z : Z) : read_int (pretty z) = Some z.
Proof.
  unfold read_int. rewrite read_sign_pretty. destruct (read_pretty z) as [len ->]. rewrite sign_abs. by rewrite decide_True.
Qed.
Lemma read_lit_pretty (z : Z) : read_lit (pretty z) = Some (LInt z).
Proof.
  pose proof (read_int_pretty z) as Hr. destruct (pretty_cons z) as (a & s & Hz & Ha). rewrite Hz in *. unfold read_lit.
  rewrite decide_False by by apply numchar_quote. by rewrite Hr.
Qed.

(** ** Fields and blanks *)
Definition happ (s : string) (l : list string) : list string :=
  match l with x :: l' => (s +:+ x) :: l' | [] => [s] end.
Lemma fields_cons q s : ∃ x l, fields q s = x :: l.
Proof.
  revert q. induction s as [|a s IH]; intros q; [by exists "", []|].
  destruct (IH true) as (x & l & H), (IH false) as (x' & l' & H').
  destruct q; cbn [fields negb]; rewrite H, H'; repeat case_decide; simpl; eauto.
Qed.
Lemma happ_cons a s l : l ≠ [] → happ (String a s) l = hcons a (happ s l).
Proof. by destruct l. Qed.
Lemma fields_app (q : bool) s r : sall (λ a, bool_decide (a ≠ "'"%char) && (q || bool_decide (a ≠ ","%char))) s = true →
  fields q (s +:+ r) = happ s (fields q r).
Proof.
  destruct (fields_cons q r) as (x & l & Hr). intros Hs. induction s as [|a s IH]; [by rewrite Hr|].
  cbn [sall] in Hs. apply andb_true_iff in Hs as [[Ha Hc]%andb_true_iff Hs]. apply bool_decide_eq_true in Ha.
  change (String a s +:+ r) with (String a (s +:+ r)). cbn [fields]. rewrite decide_False by done. rewrite IH by done. rewrite happ_cons by (by rewrite Hr).
  case_decide as Heq; [|done]. destruct q; [done|]. by apply bool_decide_eq_true in Hc.
Qed.
Lemma fields_pretty (z : Z) r : fields false (pretty z +:+ r) = happ (pretty z) (fields false r).
Proof.
  apply fields_app. eapply sall_impl; [|apply pretty_numchar]. intros a Ha.
  by rewrite !bool_decide_true by (by apply numchar_quote || by apply numchar_comma).
Qed.
Lemma fields_pretty_end (z : Z) : fields false (pretty z) = [pretty z].
Proof. pose proof (fields_pretty z "") as H. cbn [fields happ] in H; by rewrite !sapp_nil in H. Qed.

(** A text without quotes and zero bytes. *)
Definition plain_char (a : ascii) : bool := bool_decide (a ≠ "'"%char) && bool_decide (a ≠ "000"%char).
Definition plain (s : string) : bool := sall plain_char s.
Lemma plain_c_string s : plain s = true → c_string s = s.
Proof.
  induction s as [|a s IH]; [done|]. unfold plain. cbn [sall]. intros [[_ H]%andb_true_iff Hs]%andb_true_iff. cbn [c_string].
  apply bool_decide_eq_true in H. rewrite decide_False by done. by rewrite IH.
Qed.
Lemma fields_plain s r : plain s = true → fields true (s +:+ r) = happ s (fields true r).
Proof. intros H. apply fields_app. eapply sall_impl; [|exact H]. intros a [Ha _]%andb_true_iff. by rewrite Ha. Qed.
Lemma unquote_plain s : plain s = true → unquote (s +:+ "'") = Some s.
Proof.
  induction s as [|a s IH]; [done|]. unfold plain. cbn [sall]. intros [[Ha _]%andb_true_iff Hs]%andb_true_iff.
  change (String a s +:+ "'") with (String a (s +:+ "'")). cbn [unquote]. apply bool_decide_eq_true in Ha. rewrite decide_False by done. by rewrite IH.
Qed.

Lemma chop_end_noblank s : sall (λ a, negb (is_blank a)) s = true → chop_end s = s.
Proof.
  induction s as [|a s IH]; [done|]. cbn [sall chop_end]. intros [Ha Hs]%andb_true_iff. rewrite IH by done.
  destruct (is_blank a); [done|]. by destruct s.
Qed.
Lemma chop_end_app s r : chop_end r ≠ "" → chop_end (s +:+ r) = s +:+ chop_end r.
Proof.
  intros Hr. induction s as [|a s IH]; [done|]. change (String a s +:+ r) with (String a (s +:+ r)). cbn [chop_end]. rewrite IH.
  by destruct s, (chop_end r).
Qed.
Lemma chop_end_blank s r : chop_end r = "" → chop_end (s +:+ r) = chop_end s.
Proof.
  intros Hr. induction s as [|a s IH]; [done|]. change (String a s +:+ r) with (String a (s +:+ r)). cbn [chop_end]. by rewrite IH.
Qed.
Lemma trim_pretty (z : Z) : trim (pretty z) = pretty z.
Proof.
  unfold trim. rewrite skip_blanks_pretty. apply chop_end_noblank. eapply sall_impl; [|apply pretty_numchar].
  intros a Ha. by rewrite numchar_blank.
Qed.
Lemma trim_pretty_newline (z : Z) r : chop_end r = "" → trim (pretty z +:+ r) = pretty z.
Proof.
  intros Hr. rewrite <-(trim_pretty z) at 2. unfold trim. rewrite skip_blanks_pretty. rewrite <-(chop_end_blank (pretty z) r Hr).
  f_equal. destruct (pretty_cons z) as (a & s & -> & Ha). simpl. by rewrite numchar_blank.
Qed.
Lemma trim_quoted s : trim (String "'" (s +:+ "'")) = String "'" (s +:+ "'").
Proof. unfold trim. cbn [skip_blanks is_blank]. change (chop_end (("'" +:+ s) +:+ "'") = ("'" +:+ s) +:+ "'"). by rewrite chop_end_app. Qed.
Lemma read_lit_quoted s : plain s = true → read_lit (String "'" (s +:+ "'")) = Some (LText s).
Proof. intros H. cbn [read_lit]. rewrite decide_True by done. by rewrite unquote_plain. Qed.

(** ** Lengths *)

Lemma pretty_go_length x n s : (x < 10 ^ N.of_nat n)%N → (String.length (pretty_N_go x s) <= n + String.length s)%nat.
Proof.
  revert n s. induction (N.lt_wf_0 x) as [x _ IH]. intros n s Hn.
  destruct (decide (x = 0)%N) as [->|Hx]; [rewrite pretty_N_go_0; lia|]. rewrite pretty_N_go_step by lia.
  destruct n as [|n]; [simpl in Hn; lia|]. rewrite Nat2N.inj_succ, N.pow_succ_r' in Hn.
  etrans; [apply (IH (x `div` 10)%N ltac:(apply N.div_lt; lia) n)|cbn [String.length]; lia]. apply N.Div0.div_lt_upper_bound. lia.
Qed.
Lemma pretty_length (z : Z) n : (0 < n)%nat → Z.abs z < 10 ^ Z.of_nat n → (String.length (pretty z) <= S n)%nat.
Proof.
  intros Hn Hz. assert (∀ x : N, (x < 10 ^ N.of_nat n)%N → (String.length (pretty x) <= n)%nat) as H.
  { intros x Hx. unfold pretty, pretty_N. case_decide; [simpl; lia|]. etrans; [by apply (pretty_go_length x n)|simpl; lia]. }
  destruct z as [|p|p]; [simpl; lia| |].
  - change (pretty (Zpos p)) with (pretty (Npos p)). etrans; [apply H|lia]. apply N2Z.inj_lt. by rewrite N2Z.inj_pow, nat_N_Z.
  - change (pretty (Zneg p)) with ("-" +:+ pretty (Npos p)). rewrite slength_app. cbn [String.length]. apply le_n_S, H. apply N2Z.inj_lt. by rewrite N2Z.inj_pow, nat_N_Z.
Qed.
Lemma int_length (z : Z) : in_s 32 z → (String.length (pretty z) <= 11)%nat.
Proof. intros Hz. apply pretty_length; [lia|]. unfold in_s in Hz. simpl in *. lia. Qed.

(** ** Statements *)
Definition ident (k : string) : bool := plain_name k && negb (bool_decide (k = "")).
(** Names of columns: letters and underscores. *)
Definition colchar (a : ascii) : bool :=
  let n := N_of_ascii a in (((97 <=? n) && (n <=? 122)) || ((65 <=? n) && (n <=? 90)) || (n =? 95))%N.
Lemma colchar_spec a : colchar a = true → a ≠ "'"%char ∧ a ≠ ","%char ∧ a ≠ "="%char ∧ is_blank a = false.
Proof. each_char a. Qed.
Lemma fields_colchar q k r : sall colchar k = true → fields q (k +:+ r) = happ k (fields q r).
Proof.
  intros H. apply fields_app. eapply sall_impl; [|exact H]. intros a (H1 & H2 & _)%colchar_spec.
  rewrite !bool_decide_true by done. by destruct q.
Qed.
Lemma cut_eq_colchar k v : sall colchar k = true → cut_eq (k +:+ String "=" v) = Some (k, v).
Proof.
  induction k as [|a k IH]; [done|]. cbn [sall]. intros [Ha Hk]%andb_true_iff. apply colchar_spec in Ha as (_ & _ & Ha & _).
  change (String a k +:+ String "=" v) with (String a (k +:+ String "=" v)). cbn [cut_eq]. rewrite decide_False by done. by rewrite IH.
Qed.
Lemma trim_colchar k : sall colchar k = true → trim k = k.
Proof.
  intros H. assert (sall (λ a, negb (is_blank a)) k = true) as Hb.
  { eapply sall_impl; [|exact H]. intros a (_ & _ & _ & Ha)%colchar_spec. by rewrite Ha. }
  unfold trim. replace (skip_blanks k) with k; [by apply chop_end_noblank|]. destruct k as [|a k]; [done|].
  cbn [sall] in Hb. apply andb_true_iff in Hb as [Ha _]. simpl. by destruct (is_blank a).
Qed.

(** "k1=z1,k2=z2,.." *)
Fixpoint assigns (l : list (string * Z)) : string :=
  match l with
  | [] => ""
  | [(k, z)] => k +:+ "=" +:+ pretty z
  | (k, z) :: l' => k +:+ "=" +:+ pretty z +:+ "," +:+ assigns l'
  end.
Lemma assigns_cons k z kz l : assigns ((k, z) :: kz :: l) = k +:+ "=" +:+ pretty z +:+ "," +:+ assigns (kz :: l).
Proof. done. Qed.
Lemma fields_assigns (l : list (string * Z)) : l ≠ [] → Forall (λ kz, sall colchar kz.1 = true) l →
  fields false (assigns l) = (λ kz, kz.1 +:+ String "=" (pretty kz.2)) <$> l.
Proof.
  intros Hl H. induction H as [|[k z] l Hk H IH]; [done|]. cbn [fst] in Hk. destruct l as [|kz l].
  - cbn [assigns]. rewrite fields_colchar by done. change ("=" +:+ pretty z) with (String "=" (pretty z)). cbn [fields].
    rewrite decide_False, decide_False by done. rewrite fields_pretty_end. done.
  - rewrite assigns_cons, fields_colchar by done. change ("=" +:+ ?x) with (String "=" x). cbn [fields].
    rewrite decide_False, decide_False by done. rewrite fields_pretty.
    change (fields false ("," +:+ assigns (kz :: l))) with ("" :: fields false (assigns (kz :: l))). rewrite IH by done.
    cbn [happ hcons fmap list_fmap]. by rewrite sapp_nil.
Qed.
Lemma read_set_assigns rt (t : table) (l : list (string * Z)) : l ≠ [] → Forall (λ kz, sall colchar kz.1 = true ∧ kz.1 ≠ "id" ∧ aget kz.1 (cols t) = Some "INT") l →
  read_set rt t (assigns l) = Some (prod_map id pretty <$> l).
Proof.
  intros Hl H. unfold read_set. rewrite fields_assigns; [|done|by eapply Forall_impl; [exact H|]; intros ? []].
  clear Hl. induction H as [|[k z] l (Hk & Hid & Hc) H IH]; [done|]. rewrite !fmap_cons. cbn [fst snd prod_map] in *.
  assert (read_assign rt t (k +:+ String "=" (pretty z)) = Some (k, pretty z)) as Ha.
  { unfold read_assign. rewrite cut_eq_colchar by done. cbn [mbind option_bind]. rewrite trim_colchar by done.
    rewrite Hc. cbn [mbind option_bind]. rewrite trim_pretty, read_lit_pretty. cbn [mbind option_bind]. by rewrite bool_decide_false. }
  cbn [mapM]. rewrite Ha. cbn [mbind option_bind]. by rewrite IH.
Qed.
Lemma read_where_int t k (z : Z) ty : sall colchar k = true → aget k (cols t) = Some ty → ty = "INT" ∨ ty = "INTEGER" →
  read_where t (k +:+ String "=" (pretty z)) = Some (k, pretty z).
Proof.
  intros Hk Hc Hty. unfold read_where. rewrite cut_eq_colchar by done. cbn [mbind option_bind]. rewrite trim_colchar by done.
  rewrite Hc. cbn [mbind option_bind]. rewrite trim_pretty, read_lit_pretty. cbn [mbind option_bind]. by rewrite bool_decide_true.
Qed.

(** "v1,v2,.." *)
Definition lit_text (l : lit) : string :=
  match l with LInt z => pretty z | LDec s => s | LText s => "'" +:+ s +:+ "'" end.
Definition good_lit (l : lit) : Prop := match l with LInt _ => True | LDec _ => False | LText s => plain s = true end.
Fixpoint values_text (l : list lit) : string :=
  match l with
  | [] => ""
  | x :: l' => match l' with [] => lit_text x | _ => lit_text x +:+ "," +:+ values_text l' end
  end.
Lemma fields_lit x r : good_lit x → fields false (lit_text x +:+ r) = happ (lit_text x) (fields false r).
Proof.
  destruct x as [z|s|s]; [intros _; apply fields_pretty|done|]. intros Hs. cbn [lit_text]. rewrite sapp_assoc.
  change ("'" +:+ ?x) with (String "'" x). cbn [fields]. rewrite decide_True by done. cbn [negb].
  rewrite sapp_assoc, fields_plain by done. change ("'" +:+ r) with (String "'" r). cbn [fields]. rewrite decide_True by done. cbn [negb].
  destruct (fields_cons false r) as (y & l & ->). cbn [hcons happ]. f_equal. change (String "'" ?x) with ("'" +:+ x). by rewrite !sapp_assoc.
Qed.
Lemma read_lit_text x : good_lit x → read_lit (trim (lit_text x)) = Some x.
Proof.
  destruct x as [z|s|s]; [intros _; cbn [lit_text]; by rewrite trim_pretty, read_lit_pretty|done|]. intros Hs. cbn [lit_text].
  change ("'" +:+ ?x) with (String "'" x). by rewrite trim_quoted, read_lit_quoted.
Qed.
Lemma read_values_text l : l ≠ [] → Forall good_lit l → read_values (values_text l) = Some l.
Proof.
  intros Hl H. unfold read_values. assert (fields false (values_text l) = lit_text <$> l) as ->.
  { induction H as [|x l Hx H IH]; [done|]. destruct l as [|y l].
    - cbn [values_text]. pose proof (fields_lit x "" Hx) as Hf. cbn [fields happ] in Hf. by rewrite !sapp_nil in Hf.
    - change (values_text (x :: y :: l)) with (lit_text x +:+ "," +:+ values_text (y :: l)). rewrite fields_lit by done.
      change (fields false ("," +:+ values_text (y :: l))) with ("" :: fields false (values_text (y :: l))). rewrite IH by done.
      cbn [happ]. by rewrite sapp_nil. }
  clear Hl. induction H as [|x l Hx H IH]; [done|]. rewrite fmap_cons. cbn [mapM]. rewrite read_lit_text by done.
  cbn [mbind option_bind]. by rewrite IH.
Qed.
Lemma quoted_plain x : plain x = true → quoted x = "'" +:+ x +:+ "'".
Proof. intros H. unfold quoted. by rewrite plain_c_string. Qed.
Lemma quoted_length x : plain x = true → String.length (quoted x) = (2 + String.length x)%nat.
Proof. intros H. rewrite quoted_plain by done. rewrite !slength_app. simpl. lia. Qed.
Lemma fits {St} n text (s : St) : (String.length text < n)%nat → lift (sprintf n text) s = Ok (text, s).
Proof. intros H. apply run_lift. unfold sprintf. by destruct (Nat.ltb_spec (String.length text) n); [|lia]. Qed.

(** What a statement does, once its texts are read. *)
Lemma sql_select_eq V t tab w c : V !! t = Some tab → read_where tab w = Some c →
  sql_select V t w = Some (List.filter (matches c) (rows tab)).
Proof. unfold sql_select. intros -> H. cbn. by rewrite H. Qed.
Lemma sql_delete_eq V t tab w c : V !! t = Some tab → read_where tab w = Some c →
  sql_delete V t w = Some (<[t := set_rows (List.filter (λ r, negb (matches c r))) tab]> V).
Proof. unfold sql_delete. intros -> H. cbn. by rewrite H. Qed.
Lemma sql_update_eq rt V t tab set w l c : V !! t = Some tab → read_set rt tab set = Some l → read_where tab w = Some c →
  sql_update rt V t set w = Some (<[t := set_rows (map (λ r, if matches c r then assign l r else r)) tab]> V).
Proof. unfold sql_update. intros -> Hs H. cbn. rewrite Hs. cbn. by rewrite H. Qed.
Lemma sql_insert_eq rt V t tab names vals l tab' : V !! t = Some tab → read_values vals = Some l →
  insert_into rt tab (trim <$> fields false names) l = Some tab' → sql_insert rt V t names vals = Some (<[t := tab']> V).
Proof. unfold sql_insert. intros -> Hv H. cbn. rewrite Hv. cbn. by rewrite H. Qed.
Lemma read_where_eq tab w c v ty l r : cut_eq w = Some (c, v) → aget (trim c) (cols tab) = Some ty → ty = "INT" ∨ ty = "INTEGER" →
  read_lit (trim v) = Some l →
  match l with LDec _ => None | LInt z => Some (trim c, pretty z) | LText s => if bool_decide (is_Some (read_int s)) then Some (trim c, s) else None end = Some r →
  read_where tab w = Some r.
Proof. unfold read_where. intros -> H Hty Hl Hr. cbn. rewrite H. cbn. rewrite Hl. cbn. by rewrite bool_decide_true. Qed.
Lemma read_where_text t k (z : Z) ty : sall colchar k = true → aget k (cols t) = Some ty → ty = "INT" ∨ ty = "INTEGER" →
  read_where t (k +:+ String "=" (String "'" (pretty z +:+ "'"))) = Some (k, pretty z).
Proof.
  intros Hk Hc Hty. eapply read_where_eq; [by apply cut_eq_colchar|by rewrite trim_colchar|done| |].
  - rewrite trim_quoted, read_lit_quoted; [done|]. eapply sall_impl; [|apply pretty_numchar]. intros a. each_char a.
  - cbn beta iota. by rewrite read_int_pretty, trim_colchar.
Qed.
(** "k='s'" *)
Lemma read_set_text rt t k s : sall colchar k = true → k ≠ "id" → aget k (cols t) = Some "TEXT" → plain s = true →
  read_set rt t (k +:+ String "=" ("'" +:+ s +:+ "'")) = Some [(k, s)].
Proof.
  intros Hk Hid Hc Hs. unfold read_set. rewrite fields_colchar by done.
  assert (fields false (String "=" ("'" +:+ s +:+ "'")) = [String "=" ("'" +:+ s +:+ "'")]) as ->.
  { pose proof (fields_lit (LText s) "" Hs) as Hf. cbn [lit_text] in Hf. rewrite sapp_nil in Hf. cbn [fields happ] in Hf. rewrite sapp_nil in Hf.
    cbn [fields]. rewrite !(decide_False (P := "="%char = _)) by done. by rewrite Hf. }
  cbn [happ mapM]. assert (read_assign rt t (k +:+ String "=" ("'" +:+ s +:+ "'")) = Some (k, s)) as ->; [|done].
  unfold read_assign. rewrite cut_eq_colchar by done. cbn [mbind option_bind]. rewrite trim_colchar, Hc by done. cbn [mbind option_bind].
  change ("'" +:+ ?x) with (String "'" x). rewrite trim_quoted, read_lit_quoted by done. cbn [mbind option_bind]. by rewrite bool_decide_false.
Qed.
