(* ===== verification/MldbRef.v ===== *)
(** * A database that satisfies the laws of Mldb.v

    Tables in memory: a statement outside the fragment that the laws cover
    changes nothing.  It shows that the laws can hold, and the theorems on the
    database server are evaluated on it. *)

From S2P Require Import Prelude Float Json JsonText Mldb DbBase SqlTexts.
From Stdlib Require Import QArith_base Ascii.
From stdpp Require Import pretty.
#[local] Open Scope Z_scope.

(** ** Texts of rows and of lists of numbers *)
Fixpoint bits_of (p : positive) : string :=
  match p with
  | xH => ""
  | xO p' => String "0" (bits_of p')
  | xI p' => String "1" (bits_of p')
  end.
Fixpoint of_bits (s : string) : positive :=
  match s with
  | EmptyString => xH
  | String a s' => if decide (a = "0"%char) then xO (of_bits s') else xI (of_bits s')
  end.
Lemma of_bits_of p : of_bits (bits_of p) = p.
Proof. by induction p as [p IH|p IH|]; cbn [bits_of of_bits]; [rewrite decide_False by done|rewrite decide_True by done|]; rewrite ?IH. Qed.

Definition rows_text (l : list row) : string := String "R" (bits_of (encode l)).
Fixpoint ints_text (l : list Z) : string :=
  match l with [] => "" | [z] => pretty z | z :: l' => pretty z +:+ "," +:+ ints_text l' end.
Definition int_of (v : json) : Z := match v with JInt z => z | _ => 0 end.
Definition to_text (v : json) : string :=
  match v with JArr l => "[" +:+ ints_text (int_of <$> l) +:+ "]" | _ => "null" end.
(** The elements of a list, up to its bracket. *)
Fixpoint before_bracket (s : string) : option string :=
  match s with
  | EmptyString => None
  | String a s' => if decide (a = "]"%char) then Some "" else String a <$> before_bracket s'
  end.
Definition parse_text (s : string) : bool * json :=
  match s with
  | String "R" s' =>
      match decode (of_bits s') : option (list row) with
      | Some l => (true, JObj [("jData", JArr (row_json <$> l))])
      | None => (false, JNull)
      end
  | String "[" s' =>
      match before_bracket s' ≫= λ t, if decide (t = "") then Some [] else mapM read_int (fields false t) with
      | Some l => (true, JArr (JInt <$> l))
      | None => (false, JNull)
      end
  | _ => (false, JNull)
  end.
#[export] Instance ref_JsonText : JsonText := {| jparse := parse_text; toSimpleString := to_text |}.
Lemma rows_text_parsed l : String2Json (rows_text l) = (true, JObj [("jData", JArr (row_json <$> l))]).
Proof. unfold String2Json, rows_text. cbn [jparse ref_JsonText parse_text]. by rewrite of_bits_of, decode_encode. Qed.

(** ** The database *)
Definition real_id (s : string) : string := s.
#[export] Instance ref_Mldb : Mldb := {|
  Db := tables;
  mldb_select d t w := match sql_select d t w with Some l => rows_text l | None => "" end;
  mldb_insert d t c v := default d (sql_insert real_id d t c v);
  mldb_update d t s w := default d (sql_update real_id d t s w);
  mldb_delete d t w := default d (sql_delete d t w);
  mldb_create d t c := default d (sql_create d t c);
  mldb_drop d t := delete t d |}.

Lemma plain_name_colchar c : plain_name c = true → sall colchar c = true.
Proof.
  induction c as [|a c IH]; [done|]. cbn [plain_name sall]. intros [Ha Hc]%andb_true_iff. rewrite IH by done.
  unfold colchar. by rewrite Ha.
Qed.
Lemma lower_plain c : plain_name c = true → lower c = c.
Proof.
  induction c as [|a c IH]; [done|]. cbn [plain_name lower]. intros [Ha Hc]%andb_true_iff. rewrite IH by done. f_equal.
  revert Ha. clear. revert a. intros [[] [] [] [] [] [] [] []]; vm_compute; done.
Qed.
Lemma aget_None {A} k (l : list (string * A)) : k ∉ l.*1 → aget k l = None.
Proof.
  induction l as [|[k' v] l IH]; [done|]. rewrite fmap_cons, not_elem_of_cons. intros [H1 H2]. cbn [aget fst] in *.
  rewrite decide_False by done. by apply IH.
Qed.
Lemma bad_set tab s : bad_column tab s → read_set real_id tab s = None.
Proof.
  intros (c & rest & -> & _ & Hc & _ & Hin). pose proof (plain_name_colchar c Hc) as Hcc. unfold read_set. rewrite fields_colchar by done.
  assert (∃ y l, fields false (String "=" rest) = String "=" y :: l) as (y & l & ->).
  { destruct (fields_cons false rest) as (x & l & Hf). cbn [fields]. rewrite !decide_False, Hf by done. by exists x, l. }
  cbn [happ]. assert (read_assign real_id tab (c +:+ String "=" y) = None) as Ha; [|cbn [mapM]; by rewrite Ha].
  unfold read_assign. rewrite cut_eq_colchar by done. cbn [mbind option_bind]. rewrite trim_colchar by done.
  rewrite aget_None; [done|]. intros H. apply Hin. rewrite <-(lower_plain c Hc). apply list_elem_of_fmap. eauto.
Qed.
#[export] Instance ref_MldbSpec : MldbSpec ref_Mldb ref_JsonText.
Proof.
  refine {| view := λ d : @Db ref_Mldb, (d : tables); real_text := real_id |}.
  - intros s v Hv. exists v. by split.
  - intros d t w l H. cbn [mldb_select ref_Mldb]. rewrite H. exists [("jData", JArr (row_json <$> l))]. split; [apply rows_text_parsed|done].
  - intros d t c v db H. cbn [mldb_insert ref_Mldb]. by rewrite H.
  - intros d t s w db H. cbn [mldb_update ref_Mldb]. by rewrite H.
  - intros d t tab s w Ht Hb. cbn [mldb_update ref_Mldb]. unfold sql_update. rewrite Ht. cbn [mbind option_bind]. by rewrite bad_set.
  - intros d t w db H. cbn [mldb_delete ref_Mldb]. by rewrite H.
  - intros d t c db H. cbn [mldb_create ref_Mldb]. by rewrite H.
  - done.
Defined.
#[export] Instance ref_YamlCpp : YamlCpp := {|
  scalar_int s := z ← read_int s; if decide (in_s 32 z) then Some z else None; scalar_float _ := None |}.
#[export] Instance ref_fmt : RealFormat := λ _, "".

(** The server over some tables. *)
Definition ref_server (l : list (string * table)) : @DbServer ref_Mldb := @mkDbServer ref_Mldb (list_to_map l) [].
(** A table that has one row. *)
Definition one_row (columns : string) (r : row) : table := set_rows (λ _, [("id", "1") :: r]) (new_table columns).
