(* ===== verification/DbTheorems.v ===== *)
(** * Theorems on the settings of the database server *)

From S2P Require Import Prelude Float Json JsonText Mldb DbBase DbNetwork DbPeripheral DpMessage DbServer SqlTexts MldbRef.
From Stdlib Require Import Ascii.
From stdpp Require Import pretty.
#[local] Open Scope Z_scope.

(** ** Values *)
Lemma jfind_jput k x l : jfind k (jput k x l) = Some x.
Proof. induction l as [|[k' v] l IH]; simpl; [by rewrite decide_True|]. case_decide; simpl; [by rewrite decide_True|by rewrite decide_False]. Qed.
Lemma jfind_jput_ne k k' x l : k ≠ k' → jfind k (jput k' x l) = jfind k l.
Proof.
  intros Hk. induction l as [|[k0 v] l IH]; simpl; [by rewrite decide_False|].
  destruct (decide (k' = k0)) as [->|H0]; simpl; [by rewrite !decide_False|]. by rewrite IH.
Qed.
Lemma jput_fresh k x l : jfind k l = None → jput k x l = l ++ [(k, x)].
Proof. induction l as [|[k' v] l IH]; simpl; [done|]. case_decide; [done|]. intros Hf. by rewrite IH. Qed.
Lemma jput_same k x l : jfind k l = Some x → jput k x l = l.
Proof. induction l as [|[k' v] l IH]; simpl; [done|]. case_decide as Hk; [intros [= ->]; by rewrite Hk|]. intros Hf. by rewrite IH. Qed.
Lemma jtouch_same k x l : jfind k l = Some x → jtouch (JObj l) k = Ok (JObj l).
Proof. intros H. unfold jtouch. simpl. rewrite H. simpl. by rewrite jput_same. Qed.
Lemma jfind_app k l l' : jfind k (l ++ l') = match jfind k l with Some x => Some x | None => jfind k l' end.
Proof. induction l as [|[k' v] l IH]; simpl; [done|]. by case_decide. Qed.
Lemma JV_TO_INT_find k l z d : jfind k l = Some (JInt z) → in_s 32 z → JV_TO_INT (JObj l) k d = Ok z.
Proof.
  intros Hf Hz. unfold JV_TO_INT. simpl. rewrite Hf. simpl. replace ((minInt <=? z) && (z <=? maxInt)) with true.
  - simpl. by rewrite swrap_id.
  - unfold in_s, minInt, maxInt in *. symmetry. apply andb_true_intro. split; apply Z.leb_le; lia.
Qed.

(** ** Rows *)
Lemma jfind_row k (r : row) : jfind k (prod_map id JStr <$> r) = JStr <$> aget k r.
Proof. induction r as [|[k' v] r IH]; simpl; [done|]. by case_decide. Qed.
Lemma aget_aput_ne k k' x (r : row) : k ≠ k' → aget k (aput k' x r) = aget k r.
Proof.
  intros Hk. induction r as [|[k0 v] r IH]; simpl; [done|].
  destruct (decide (k' = k0)) as [->|H0]; simpl; [by rewrite !decide_False|]. by rewrite IH.
Qed.
Lemma aget_assign k l (r : row) : k ∉ l.*1 → aget k (assign l r) = aget k r.
Proof.
  revert r. unfold assign. induction l as [|[k' x] l IH]; intros r Hk; [done|]. rewrite fmap_cons, not_elem_of_cons in Hk. simpl.
  rewrite IH by naive_solver. apply aget_aput_ne. naive_solver.
Qed.
Lemma filter_assign k v l rs : k ∉ l.*1 →
  List.filter (matches (k, v)) (map (λ r, if matches (k, v) r then assign l r else r) rs) =
  assign l <$> List.filter (matches (k, v)) rs.
Proof.
  intros Hk. induction rs as [|r rs IH]; [done|]. cbn [map List.filter]. destruct (matches (k, v) r) eqn:Hm.
  - replace (matches (k, v) (assign l r)) with true by (unfold matches in *; cbn [fst snd] in *; by rewrite aget_assign). by rewrite IH.
  - by rewrite Hm.
Qed.
Lemma aput_app pre k x y (r : row) : k ∉ pre.*1 → aput k x (pre ++ (k, y) :: r) = pre ++ (k, x) :: r.
Proof.
  induction pre as [|[k' v] pre IH]; simpl; intros Hk; [by rewrite decide_True|]. rewrite not_elem_of_cons in Hk.
  rewrite decide_False by naive_solver. rewrite IH by naive_solver. done.
Qed.
Lemma assign_zip ks pre new old : NoDup ks → (∀ k, k ∈ ks → k ∉ pre.*1) → length new = length ks → length old = length ks →
  assign (zip ks new) (pre ++ zip ks old) = pre ++ zip ks new.
Proof.
  revert pre new old. induction ks as [|k ks IH]; intros pre [|n new] [|o old] Hnd Hpre Hn Ho; try done.
  apply NoDup_cons in Hnd as [Hk Hnd]. cbn [zip zip_with]. unfold assign. cbn [foldl fst snd]. rewrite aput_app by (apply Hpre; left).
  rewrite !(cons_middle _ pre), !app_assoc. apply (IH (pre ++ [(k, n)]) new old); [done| |by simplify_eq/=..].
  intros k' Hk'. rewrite fmap_app, not_elem_of_app. split; [apply Hpre; by right|]. cbn. rewrite list_elem_of_singleton. by intros ->.
Qed.

Lemma zip_fmap_r {A B C} (f : B → C) (l : list A) k : zip l (f <$> k) = prod_map id f <$> zip l k.
Proof. revert k. induction l as [|x l IH]; intros [|y k]; try done. cbn. f_equal. apply IH. Qed.

Section theorems.
Context {M : Mldb} {J : JsonText} {R : RealFormat} {Y : YamlCpp} {Sp : MldbSpec M J}.
Implicit Types s : DbServer.
Abbreviation vw s := (view (sysConfig s)).
Definition with_conn (d : Db) s : DbServer := mkDbServer d (sent s).

Lemma run_sql_run f s : run_sql f s = Ok (tt, with_conn (f (sysConfig s)) s).
Proof. done. Qed.

(** ** Queries *)
Lemma select_run t w s l : sql_select (vw s) t w = Some l →
  ∃ o, select_rows t w s = Ok ((true, JObj o), s) ∧ jfind "jData" o = Some (JArr (row_json <$> l)).
Proof. intros H. destruct (select_spec _ _ _ _ H) as (o & Ho & Hd). exists o. unfold select_rows. rewrite run_gets. by rewrite Ho. Qed.
Lemma found_run o l : jfind "jData" o = Some (JArr l) → found (true, JObj o) = Ok (negb (length l =? 0)%nat).
Proof. intros H. unfold found. simpl. by rewrite H. Qed.
Lemma get_text_run o r l k : jfind "jData" o = Some (JArr (row_json <$> r :: l)) →
  get_text (JObj o) k = Ok (default "" (aget k r)).
Proof. intros H. unfold get_text. simpl. rewrite H. simpl. rewrite jfind_row. by destruct (aget k r). Qed.

(** ** Settings that are integers *)
Definition get_ints (t : string) (ks : list string) : Handler := λ jreq jret,
  q ← select_rows t "id=1";
  ok ← lift (found q);
  if ok : bool then jret ← lift (copy_ints q.2 (same ks) jret); mret (0, jret) else mret (2, jret).
Fixpoint body_ints (jreq : json) (ks : list string) : ST DbServer (list Z) :=
  match ks with [] => mret [] | k :: ks' => z ← body_int jreq k; zs ← body_ints jreq ks'; mret (z :: zs) end.
Definition set_ints (n : nat) (t : string) (ks : list string) : Handler := λ jreq jret,
  zs ← body_ints jreq ks;
  tempbuf ← lift (sprintf n (assigns (zip ks zs)));
  update_rows t tempbuf "id=1";;
  jreq ← lift (jtouch jreq "body");
  broadcast jreq;;
  mret (0, jret).

(** The settings with one row of integers: request to set, request to get,
    handlers, table and columns. *)
Definition settings : list (string * string * (nat * string * list string)) :=
  [("set_clean_type", "get_clean_type", (50, TABLE_NETWORK_CLEANTYPE, ["mode"]));
   ("set_clean_strength", "get_clean_strength",
    (200, TABLE_NETWORK_CLEANSTRENGTH, ["mode"; "suction"; "water_yield"; "speed"; "area"]));
   ("set_donot_disturb_cfg", "get_donot_disturb_cfg", (200, TABLE_NETWORK_NODISTURB, ["enable"; "start_time"; "end_time"]));
   ("set_self_clean_cfg", "get_self_clean_cfg", (50, TABLE_NETWORK_SELFCLEAN, ["enable"]));
   ("set_activate", "get_activate", (50, TABLE_NETWORK_ACTIVE, ["activate"]))]%nat.

Lemma settings_handlers fuel sty gty n t ks : (sty, gty, (n, t, ks)) ∈ settings →
  (∃ h, find_handler (DbNetwork_table fuel) sty = Some h ∧ ∀ jreq jret s, h jreq jret s = set_ints n t ks jreq jret s) ∧
  (∃ h, find_handler (DbNetwork_table fuel) gty = Some h ∧ ∀ jreq jret s, h jreq jret s = get_ints t ks jreq jret s).
Proof.
  intros H. unfold settings in H. rewrite !elem_of_cons, elem_of_nil in H. destruct_or! H; try done; simplify_eq.
  all: split; eexists; (split; [reflexivity|]); intros jreq jret s; [|reflexivity].
  all: unfold set_ints, Set_Clean_Type, Set_Clean_Strength, Set_Donot_Disturb_Cfg, Set_Self_Clean_Cfg, Set_Active; cbn [body_ints].
  all: rewrite !run_bind; repeat (match goal with |- context [body_int ?j ?k ?st] =>
         let E := fresh in let st' := fresh in
         destruct (body_int j k st) as [[? st']|] eqn:E; [|done]; assert (st = st') as <- by
           (unfold body_int, lift in E; case_match; by simplify_eq) end; cbn beta iota; rewrite ?run_bind); done.
Qed.
(** What a request says, and the row that holds it. *)
Definition ints_body (ks : list string) (zs : list Z) (b : json) : Prop :=
  ∃ l, b = JObj l ∧ Forall2 (λ k z, jfind k l = Some (JInt z)) ks zs.
Definition table_row (tab : table) (ks : list string) (zs : list Z) : Prop :=
  cols tab = ("id", "INTEGER") :: ((λ k, (k, "INT")) <$> ks) ∧
  List.filter (matches ("id", "1")) (rows tab) = [("id", "1") :: zip ks (pretty <$> zs)] ∧ length zs = length ks.
Definition int_row (V : tables) (t : string) (ks : list string) (zs : list Z) : Prop :=
  ∃ tab, V !! t = Some tab ∧ table_row tab ks zs.
Definition good_keys (ks : list string) : Prop :=
  ks ≠ [] ∧ NoDup ks ∧ Forall (λ k, sall colchar k = true ∧ k ≠ "id") ks.

Lemma body_ints_run jl b ks zs s : jfind "body" jl = Some b → ints_body ks zs b → Forall (in_s 32) zs →
  body_ints (JObj jl) ks s = Ok (zs, s).
Proof.
  intros Hb (l & -> & H). induction H as [|k z ks zs Hk H IH]; intros Hz; [done|]. apply Forall_cons in Hz as [Hz Hzs].
  cbn [body_ints]. rewrite run_bind. unfold body_int at 1. cbn [jkey]. rewrite Hb. cbn [default mbind res_bind].
  rewrite (run_lift _ z); [|by apply JV_TO_INT_find]. cbn beta iota. by rewrite run_bind, IH.
Qed.
Lemma columns_int ks k : k ≠ "id" → k ∈ ks → aget k (("id", "INTEGER") :: ((λ k, (k, "INT")) <$> ks)) = Some "INT".
Proof.
  intros Hid Hk. simpl. rewrite decide_False by done. induction ks as [|k' ks IH]; [by apply elem_of_nil in Hk|]. simpl.
  case_decide; [done|]. apply IH. apply elem_of_cons in Hk as [->|]; done.
Qed.
Lemma where_id1 tab ks : cols tab = ("id", "INTEGER") :: ((λ k, (k, "INT")) <$> ks) → read_where tab "id=1" = Some ("id", "1").
Proof. intros Hc. apply (read_where_int tab "id" 1 "INTEGER"); [done|by rewrite Hc|by right]. Qed.

Lemma update_ints V t ks zs old : good_keys ks → length zs = length ks → int_row V t ks old →
  ∃ V', sql_update real_text V t (assigns (zip ks zs)) "id=1" = Some V' ∧ int_row V' t ks zs ∧ ∀ t', t' ≠ t → V' !! t' = V !! t'.
Proof.
  intros (Hne & Hnd & Hk) Hl (tab & Ht & Hc & Hr & Ho). unfold sql_update. rewrite Ht. cbn [mbind option_bind].
  rewrite read_set_assigns.
  2: { destruct ks, zs; done. }
  2: { apply Forall_forall. intros [k z] Hin. apply elem_of_zip_l in Hin. rewrite Forall_forall in Hk. destruct (Hk k Hin) as [H1 H2].
       split_and!; [done|done|]. rewrite Hc. by apply columns_int. }
  cbn [mbind option_bind]. rewrite (where_id1 tab ks Hc). cbn [mbind option_bind]. eexists. split; [reflexivity|]. split.
  - eexists. rewrite lookup_insert_eq. split; [done|]. split; [done|]. split; [|done]. cbn [set_rows rows]. rewrite filter_assign.
    + rewrite Hr. cbn [fmap list_fmap]. f_equal.
      rewrite <-zip_fmap_r.
      apply (assign_zip ks [("id", "1")]); [done| |by rewrite length_fmap..].
      intros k Hin. rewrite Forall_forall in Hk. cbn. rewrite list_elem_of_singleton. by apply Hk.
    + rewrite <-list_fmap_compose. intros (kz & Heq & Hin)%list_elem_of_fmap. destruct kz as [k z]. cbn in Heq. subst k.
      apply elem_of_zip_l in Hin. rewrite Forall_forall in Hk. by apply (Hk "id").
  - intros t' Hne'. by rewrite lookup_insert_ne.
Qed.

Lemma assigns_length ks zs n : length zs = length ks → Forall (in_s 32) zs →
  (list_sum (String.length <$> ks) + 13 * length ks <= n)%nat → (String.length (assigns (zip ks zs)) <= n)%nat.
Proof.
  revert zs n. induction ks as [|k ks IH]; intros [|z zs] n Hl Hz Hn; try done. apply Forall_cons in Hz as [Hz Hzs].
  pose proof (int_length z Hz). rewrite fmap_cons in Hn. change (list_sum (?x :: ?l)) with (x + list_sum l)%nat in Hn.
  change (length (k :: ks)) with (S (length ks)) in Hn. destruct ks as [|k' ks], zs as [|z' zs]; try done.
  - cbn [zip zip_with assigns]. rewrite !slength_app. cbn [String.length]. lia.
  - cbn [zip zip_with]. rewrite assigns_cons, !slength_app. cbn [String.length].
    specialize (IH (z' :: zs) (n - String.length k - 13)%nat ltac:(simpl in Hl |- *; lia) Hzs ltac:(lia)). cbn [zip zip_with] in IH. lia.
Qed.

Lemma set_ints_run n t ks jl b jret zs old s : good_keys ks → (list_sum (String.length <$> ks) + 13 * length ks < n)%nat →
  jfind "body" jl = Some b → ints_body ks zs b → Forall (in_s 32) zs → int_row (vw s) t ks old →
  ∃ s', set_ints n t ks (JObj jl) jret s = Ok ((0, jret), s') ∧ int_row (vw s') t ks zs ∧
    (∀ t', t' ≠ t → vw s' !! t' = vw s !! t') ∧ sent s' = sent s ++ [("DP_DB_BROADCAST", JObj jl)].
Proof.
  intros Hk Hn Hb Hz Hin Hrow. assert (length zs = length ks) as Hl by (destruct Hz as (l & _ & H%Forall2_length); done).
  destruct (update_ints (vw s) t ks zs old Hk Hl Hrow) as (V' & Hu & Hrow' & Hf).
  exists (mkDbServer (mldb_update (sysConfig s) t (assigns (zip ks zs)) "id=1") (sent s ++ [("DP_DB_BROADCAST", JObj jl)])).
  pose proof (update_spec _ _ _ _ _ Hu) as Hv. split_and!; [|cbn [sysConfig]; by rewrite Hv|intros t0 Ht0; cbn [sysConfig]; by rewrite Hv, Hf|done].
  unfold set_ints. rewrite run_bind, (body_ints_run jl b ks zs) by done. cbn beta iota. rewrite run_bind, (run_lift _ (assigns (zip ks zs))).
  2: { unfold sprintf. destruct (Nat.ltb_spec (String.length (assigns (zip ks zs))) n) as [|H]; [done|].
       pose proof (assigns_length ks zs (n - 1) Hl Hin ltac:(lia)). lia. }
  cbn beta iota. unfold update_rows. rewrite run_bind, run_sql_run. cbn beta iota. rewrite run_bind, (run_lift _ (JObj jl)); [done|].
  by eapply jtouch_same.
Qed.

(** stoi of what was printed, column by column *)
Lemma aget_zip ks (vs : list string) k i v : NoDup ks → ks !! i = Some k → vs !! i = Some v → aget k (zip ks vs) = Some v.
Proof.
  intros Hnd. revert vs i. induction Hnd as [|k' ks Hk Hnd IH]; intros [|v' vs] [|i] H1 H2; try done; simpl in *; simplify_eq.
  - by rewrite decide_True.
  - rewrite decide_False; [by eapply IH|]. intros ->. apply Hk. by eapply list_elem_of_lookup_2.
Qed.
Lemma copy_ints_run o r l ks zs acc : jfind "jData" o = Some (JArr (row_json <$> r :: l)) →
  Forall2 (λ k z, aget k r = Some (pretty z)) ks zs → Forall (in_s 32) zs → NoDup ks → (∀ k, k ∈ ks → jfind k acc = None) →
  copy_ints (JObj o) (same ks) (JObj acc) = Ok (JObj (acc ++ zip ks (JInt <$> zs))).
Proof.
  intros Ho H. revert acc. induction H as [|k z ks zs Hkz H IH]; intros acc Hz Hnd Hacc; [cbn; by rewrite app_nil_r|].
  apply Forall_cons in Hz as [Hz Hzs]. apply NoDup_cons in Hnd as [Hk Hnd]. cbn [same fmap list_fmap copy_ints].
  unfold get_int. rewrite (get_text_run o r l k Ho), Hkz. cbn [default mbind res_bind from_option id].
  rewrite stoi_pretty by done. cbn [jset mbind res_bind]. rewrite jput_fresh by (apply Hacc; by left).
  change ((λ k0, (k0, k0)) <$> ks) with (same ks). rewrite IH; [|done|done|].
  - by rewrite <-app_assoc.
  - intros k' Hk'. rewrite jfind_app, Hacc by by right. simpl. rewrite decide_False; [done|]. by intros ->.
Qed.
Lemma get_ints_run t ks zs jreq s : good_keys ks → Forall (in_s 32) zs → int_row (vw s) t ks zs →
  get_ints t ks jreq JNull s = Ok ((0, JObj (zip ks (JInt <$> zs))), s).
Proof.
  intros (Hne & Hnd & Hk) Hz (tab & Ht & Hc & Hr & Hl). unfold get_ints. rewrite run_bind.
  destruct (select_run t "id=1" s [("id", "1") :: zip ks (pretty <$> zs)]) as (o & -> & Ho).
  { unfold sql_select. rewrite Ht. cbn [mbind option_bind]. rewrite (where_id1 tab ks Hc). cbn [mbind option_bind]. by rewrite Hr. }
  cbn beta iota. rewrite run_bind, (run_lift _ true) by by rewrite (found_run o _ Ho). cbn beta iota. cbn [snd].
  assert (Forall2 (λ k z, aget k (("id", "1") :: zip ks (pretty <$> zs)) = Some (pretty z)) ks zs) as Hrow.
  { apply Forall2_same_length_lookup_2; [done|]. intros i k z Hki Hzi. simpl.
    rewrite decide_False; [eapply aget_zip; [done|exact Hki|by rewrite list_lookup_fmap, Hzi]|].
    intros ->. rewrite Forall_forall in Hk. by destruct (Hk "id" (list_elem_of_lookup_2 _ _ _ Hki)). }
  rewrite run_bind. rewrite (run_lift _ (JObj (zip ks (JInt <$> zs)))); [done|].
  destruct ks as [|k ks]; [done|]. destruct zs as [|z zs]; [done|]. apply Forall2_cons in Hrow as [H0 Hrow].
  apply Forall_cons in Hz as [Hz Hzs]. apply NoDup_cons in Hnd as [Hk' Hnd]. cbn [same fmap list_fmap copy_ints].
  unfold get_int. rewrite (get_text_run o _ [] k Ho), H0. cbn [default mbind res_bind from_option id]. rewrite stoi_pretty by done. cbn [jset mbind res_bind].
  apply (copy_ints_run o _ [] ks zs [(k, JInt z)] Ho); [done|done|done|]. intros k0 Hk0. simpl. rewrite decide_False; [done|]. by intros ->.
Qed.

(** ** Requests *)
Definition answer (code : Z) (ty : string) (body : json) : json :=
  JObj ([("body", body); ("type", JStr ty)] ++
        (if code =? 0 then [("state", JInt 200); ("err_msg", JStr "success")] else [("state", JInt 400); ("err_msg", JStr "error")])).
Abbreviation handle fuel jreq s := (DbServer_OnDpMessage fuel "DP_DB_REQUEST" TYPE_REQUEST (true, JObj jreq) s).

(** A request whose type the first module handles is that handler's run. *)
Lemma request_eq fuel ty h jl s : jfind "type" jl = Some (JStr ty) → find_handler (DbNetwork_table fuel) ty = Some h →
  handle fuel jl s = ('(code, body) ← h (JObj jl) JNull;
    if negb (code =? -1) then jret ← lift (build_reply code ty (JObj [("body", body)])); mret (Some jret)
    else '(ret, jret) ← DbPeripheral_OnDpMessage ty (JObj jl) (JObj [("body", body)]);
         jret ← lift (build_reply ret ty jret); mret (Some jret)) s.
Proof.
  intros Ht Hh. unfold DbServer_OnDpMessage. rewrite bool_decide_true by done. rewrite !run_bind. cbn [fst snd].
  rewrite run_bind, (run_lift _ (JStr ty)) by (simpl; by rewrite Ht). cbn beta iota.
  rewrite run_bind, (run_lift _ (JObj jl)) by by eapply jtouch_same. cbn beta iota.
  assert (DbNetwork_OnDpMessage fuel (asString (JStr ty)) (JObj jl) JNull s =
    (cb ← h (JObj jl) JNull; mret (cb.1, JObj [("body", cb.2)])) s) as Hn.
  { unfold DbNetwork_OnDpMessage, module_OnDpMessage. cbn [asString]. rewrite Hh, run_bind, (run_lift _ (JObj jl)) by done. cbn beta iota.
    rewrite run_bind, (run_lift _ JNull) by done. cbn beta iota. rewrite !run_bind. by destruct (h _ _ _) as [[[code body] s']|]. }
  rewrite run_bind, Hn, run_bind. destruct (h _ _ _) as [[[code body] s']|]; [|done]. cbn [fst snd asString]. rewrite run_ret. cbn beta iota.
  destruct (negb _); [done|]. by rewrite !run_bind; destruct (DbPeripheral_OnDpMessage _ _ _ _) as [[[ret jret] s'']|].
Qed.
Lemma request_run fuel ty h jl code body s s' : jfind "type" jl = Some (JStr ty) →
  find_handler (DbNetwork_table fuel) ty = Some h → h (JObj jl) JNull s = Ok ((code, body), s') → code = 0 ∨ code = 2 →
  handle fuel jl s = Ok (Some (answer code ty body), s').
Proof. intros Ht Hh Hr Hc. rewrite (request_eq fuel ty h), run_bind, Hr by done. by destruct Hc as [->| ->]. Qed.
Lemma request_ub fuel ty h jl u s : jfind "type" jl = Some (JStr ty) →
  find_handler (DbNetwork_table fuel) ty = Some h → h (JObj jl) JNull s = Ub u → handle fuel jl s = Ub u.
Proof. intros Ht Hh Hr. by rewrite (request_eq fuel ty h), run_bind, Hr. Qed.

Lemma settings_run fuel sty gty n t ks zs old jl gl b s :
  (sty, gty, (n, t, ks)) ∈ settings → jfind "type" jl = Some (JStr sty) → jfind "body" jl = Some b → ints_body ks zs b →
  Forall (in_s 32) zs → int_row (vw s) t ks old → jfind "type" gl = Some (JStr gty) →
  ∃ s', handle fuel jl s = Ok (Some (answer 0 sty JNull), s') ∧
    handle fuel gl s' = Ok (Some (answer 0 gty (JObj (zip ks (JInt <$> zs)))), s') ∧
    sent s' = sent s ++ [("DP_DB_BROADCAST", JObj jl)] ∧ ∀ t', t' ≠ t → vw s' !! t' = vw s !! t'.
Proof.
  intros Hin Ht Hb Hz Hzs Hrow Hg. destruct (settings_handlers fuel sty gty n t ks Hin) as [(h & Hh & Hs) (g & Hgh & Hgs)].
  assert (good_keys ks ∧ (list_sum (String.length <$> ks) + 13 * length ks < n)%nat) as [Hk Hn].
  { unfold settings in Hin. rewrite !elem_of_cons, elem_of_nil in Hin. unfold good_keys.
    destruct_or! Hin; try done; simplify_eq; (split; [split_and!; [done| |repeat constructor; done]|cbn; lia]).
    all: apply (bool_decide_unpack _); vm_compute; done. }
  destruct (set_ints_run n t ks jl b JNull zs old s Hk Hn Hb Hz Hzs Hrow) as (s' & Hset & Hrow' & Hf & Hsent).
  exists s'. split_and!; [| |done|done].
  - eapply request_run; [done|done|by rewrite Hs|by left].
  - eapply request_run; [done|done|rewrite Hgs; by apply get_ints_run|by left].
Qed.

(** C15. A setting that is written through the requests of the server is read back: the
    reply to the set request reports success, the get request then answers
    the written values, other tables stay, and the request is broadcast once.
    For the clean type, the clean strength, the do-not-disturb times, the
    self-cleaning and the activation, at all 32-bit values. *)
Theorem settings_roundtrip fuel sty gty n t ks zs old jl gl b s :
  (sty, gty, (n, t, ks)) ∈ settings → jfind "type" jl = Some (JStr sty) → jfind "body" jl = Some b → ints_body ks zs b →
  Forall (in_s 32) zs → int_row (vw s) t ks old → jfind "type" gl = Some (JStr gty) →
  ∃ s', handle fuel jl s = Ok (Some (answer 0 sty JNull), s') ∧
    handle fuel gl s' = Ok (Some (answer 0 gty (JObj (zip ks (JInt <$> zs)))), s') ∧
    sent s' = sent s ++ [("DP_DB_BROADCAST", JObj jl)] ∧ ∀ t', t' ≠ t → vw s' !! t' = vw s !! t'.
Proof. apply settings_run. Qed.

Lemma no_handler (table : list (string * Handler)) ty : ty ∉ table.*1 → find_handler table ty = None.
Proof.
  induction table as [|[ty' h] table IH]; [done|]. rewrite fmap_cons, not_elem_of_cons. intros [H1 H2]. cbn [find_handler fst] in *.
  rewrite decide_False by done. by apply IH.
Qed.
(** A request that no handler has is answered with its type and nothing else: the
    answer has no state, so it does not say that the request failed. *)
Theorem unknown_request fuel ty jl s : jfind "type" jl = Some (JStr ty) →
  ty ∉ (DbNetwork_table fuel).*1 → ty ∉ DbPeripheral_table.*1 → handle fuel jl s = Ok (Some (JObj [("type", JStr ty)]), s).
Proof.
  intros Ht Hn Hp. unfold DbServer_OnDpMessage. rewrite bool_decide_true by done. rewrite !run_bind. cbn [fst snd].
  rewrite run_bind, (run_lift _ (JStr ty)) by (simpl; by rewrite Ht). cbn beta iota.
  rewrite run_bind, (run_lift _ (JObj jl)) by by eapply jtouch_same. cbn beta iota. rewrite run_bind.
  unfold DbNetwork_OnDpMessage, module_OnDpMessage. cbn [asString]. rewrite (no_handler _ _ Hn), run_ret. cbn beta iota.
  change (negb (-1 =? -1)) with false. cbn beta iota. rewrite run_bind. unfold DbPeripheral_OnDpMessage, module_OnDpMessage.
  by rewrite (no_handler _ _ Hp), run_ret.
Qed.

(** ** The password of the network *)
Definition service_table : table := new_table ("id INTEGER PRIMARY KEY AUTOINCREMENT,sService TEXT NOT NULL UNIQUE,"
  +:+ "sPassword TEXT DEFAULT '',iFavorite INT DEFAULT 0,iAutoconnect INT DEFAULT 0").
Definition wifi_body (ssid password : string) (b : list (string * json)) : Prop :=
  jfind "ssid" b = Some (JStr ssid) ∧ jfind "password" b = Some (JStr password).
Lemma wifi_no_column ssid password tab : cols tab = cols service_table →
  bad_column tab ("ssid=" +:+ c_string ssid +:+ ",password=" +:+ c_string password).
Proof.
  intros Hc. exists "ssid", (c_string ssid +:+ ",password=" +:+ c_string password). split_and!; [done|done|done| |].
  - apply (bool_decide_unpack _). vm_compute. exact I.
  - rewrite Hc. apply (bool_decide_unpack _). vm_compute. exact I.
Qed.
(** set_wifi stores nothing: the columns it names do not exist, the request is
    answered with success and broadcast, and get_wifi answers empty texts. *)
Theorem wifi_not_stored fuel jl gl b ssid password tab r rs s :
  jfind "type" jl = Some (JStr "set_wifi") → jfind "body" jl = Some (JObj b) → wifi_body ssid password b →
  (String.length (c_string ssid) + String.length (c_string password) <= 84)%nat →
  vw s !! TABLE_NETWORK_SERVICE = Some tab → cols tab = cols service_table →
  List.filter (matches ("id", "1")) (rows tab) = r :: rs → aget "ssid" r = None → aget "password" r = None →
  jfind "type" gl = Some (JStr "get_wifi") → ∃ s',
  handle fuel jl s = Ok (Some (answer 0 "set_wifi" JNull), s') ∧ vw s' = vw s ∧ sent s' = sent s ++ [("DP_DB_BROADCAST", JObj jl)] ∧
  handle fuel gl s' = Ok (Some (answer 0 "get_wifi" (JObj [("ssid", JStr ""); ("password", JStr "")])), s').
Proof.
  intros Ht Hb [Hssid Hpw] Hl Htab Hc Hrows Hr1 Hr2 Hg.
  set (text := "ssid=" +:+ c_string ssid +:+ ",password=" +:+ c_string password).
  pose proof (update_bad (sysConfig s) TABLE_NETWORK_SERVICE tab text "id=1" Htab (wifi_no_column ssid password tab Hc)) as Hv.
  exists (mkDbServer (mldb_update (sysConfig s) TABLE_NETWORK_SERVICE text "id=1") (sent s ++ [("DP_DB_BROADCAST", JObj jl)])).
  split_and!; [|exact Hv|done|].
  - eapply request_run; [done|reflexivity| |by left]. unfold Set_Wifi, body_string. cbn [jkey]. rewrite Hb. cbn [default from_option id mbind res_bind].
    assert (∀ k x, jfind k b = Some (JStr x) → JV_TO_STRING (JObj b) k "" = Ok x) as Hk.
    { intros k x Hk. unfold JV_TO_STRING. simpl. by rewrite Hk. }
    rewrite run_bind, (run_lift _ ssid) by by apply Hk. cbn beta iota. rewrite run_bind, (run_lift _ password) by by apply Hk. cbn beta iota.
    rewrite run_bind, fits by (rewrite !slength_app; cbn [String.length]; lia). cbn beta iota. unfold update_rows.
    rewrite run_bind, run_sql_run. cbn beta iota. rewrite run_bind, (run_lift _ (JObj jl)); [done|]. by eapply jtouch_same.
  - eapply request_run; [done|reflexivity| |by left]. unfold Get_Wifi. rewrite run_bind.
    match goal with |- context [select_rows _ _ ?st] => set (s' := st) end.
    destruct (select_run TABLE_NETWORK_SERVICE "id=1" s' (r :: rs)) as (o & -> & Ho).
    { rewrite <-Hrows. eapply sql_select_eq; [cbn [s' sysConfig]; by rewrite Hv|]. by apply (read_where_int _ "id" 1 "INTEGER"); [|rewrite Hc|right]. }
    cbn beta iota. rewrite run_bind, (run_lift _ _ _ (found_run o _ Ho)). cbn [fmap list_fmap length Nat.eqb negb snd].
    rewrite run_bind, (run_lift _ (JObj [("ssid", JStr ""); ("password", JStr "")])); [done|].
    cbn [same fmap list_fmap copy_texts]. rewrite !(get_text_run o r rs _ Ho), Hr1, Hr2. done.
Qed.
End theorems.

Definition ref_service : DbServer := ref_server [(TABLE_NETWORK_SERVICE, set_rows (λ _,
  [[("id", "1"); ("sService", "home"); ("sPassword", "secret"); ("iFavorite", "0"); ("iAutoconnect", "1")]]) service_table)].
Definition ref_strength : DbServer := ref_server [(TABLE_NETWORK_CLEANSTRENGTH,
  one_row "id INTEGER PRIMARY KEY,mode INT,suction INT,water_yield INT,speed INT,area INT"
    [("mode", "1"); ("suction", "1"); ("water_yield", "1"); ("speed", "1"); ("area", "10")])].
Definition ref_request (ty : string) (body : list (string * json)) : list (string * json) := [("type", JStr ty); ("body", JObj body)].
Definition ref_strength_body : list (string * json) :=
  [("mode", JInt 2); ("suction", JInt (-2147483648)); ("water_yield", JInt 2147483647); ("speed", JInt 0); ("area", JInt 15)].
Lemma settings_roundtrip_witness : ∃ s',
  DbServer_OnDpMessage 1 "DP_DB_REQUEST" TYPE_REQUEST (true, JObj (ref_request "get_clean_strength" [])) s' =
    Ok (Some (answer 0 "get_clean_strength" (JObj ref_strength_body)), s').
Proof.
  destruct (settings_roundtrip 1 "set_clean_strength" "get_clean_strength" 200 TABLE_NETWORK_CLEANSTRENGTH
    ["mode"; "suction"; "water_yield"; "speed"; "area"] [2; -2147483648; 2147483647; 0; 15] [1; 1; 1; 1; 10]
    (ref_request "set_clean_strength" ref_strength_body) (ref_request "get_clean_strength" []) (JObj ref_strength_body) ref_strength)
    as (s' & _ & H & _).
  - apply (bool_decide_unpack _). vm_compute. exact I.
  - done.
  - done.
  - eexists. split; [done|]. by repeat constructor.
  - apply (bool_decide_unpack _). vm_compute. exact I.
  - eexists. split; [vm_compute; reflexivity|]. split; [done|]. split; [vm_compute; reflexivity|done].
  - done.
  - by exists s'.
Defined.
Lemma wifi_not_stored_witness : ∃ s',
  DbServer_OnDpMessage 1 "DP_DB_REQUEST" TYPE_REQUEST (true, JObj (ref_request "get_wifi" [])) s' =
    Ok (Some (answer 0 "get_wifi" (JObj [("ssid", JStr ""); ("password", JStr "")])), s') ∧ view (sysConfig s') = view (sysConfig ref_service).
Proof.
  destruct (wifi_not_stored 1 (ref_request "set_wifi" [("ssid", JStr "a"); ("password", JStr "b")]) (ref_request "get_wifi" [])
    [("ssid", JStr "a"); ("password", JStr "b")] "a" "b" (set_rows (λ _,
  [[("id", "1"); ("sService", "home"); ("sPassword", "secret"); ("iFavorite", "0"); ("iAutoconnect", "1")]]) service_table)
    [("id", "1"); ("sService", "home"); ("sPassword", "secret"); ("iFavorite", "0"); ("iAutoconnect", "1")] [] ref_service)
    as (s' & _ & Hv & _ & H); [reflexivity|reflexivity|done|apply Nat.leb_le; reflexivity|vm_compute; reflexivity|reflexivity|vm_compute; reflexivity|reflexivity..|].
  exists s'. split; [exact H|exact Hv].
Defined.
(** Two requests that the application server sends. *)
Lemma unknown_request_witness :
  DbServer_OnDpMessage 1 "DP_DB_REQUEST" TYPE_REQUEST (true, JObj (ref_request "restore_default" [])) ref_service =
    Ok (Some (JObj [("type", JStr "restore_default")]), ref_service) ∧
  DbServer_OnDpMessage 1 "DP_DB_REQUEST" TYPE_REQUEST (true, JObj (ref_request "zoning_clean" [])) ref_service =
    Ok (Some (JObj [("type", JStr "zoning_clean")]), ref_service).
Proof.
  split; apply unknown_request; try reflexivity; apply (bool_decide_unpack _); vm_compute; exact I.
Defined.
