(* ===== verification/DbAnswers.v ===== *)
(** * The form of the database server's answers *)

From S2P Require Import Prelude Float Json JsonText Mldb DbBase DbNetwork DbPeripheral DpMessage DbServer MldbRef DbTheorems.
From Stdlib Require Import Ascii.
From stdpp Require Import pretty.
#[local] Open Scope Z_scope.

Section answers.
Context {M : Mldb} {J : JsonText} {R : RealFormat}.
Implicit Types s : DbServer.

(** What a computation returns, when it returns. *)
Definition returns {A} (P : A → Prop) (m : ST DbServer A) : Prop := ∀ s a s', m s = Ok (a, s') → P a.
Lemma returns_bind {A B} (P : B → Prop) (m : ST DbServer A) (k : A → ST DbServer B) : (∀ x, returns P (k x)) → returns P (m ≫= k).
Proof. intros Hk s b s'. rewrite run_bind. destruct (m s) as [[x s1]|]; [apply Hk|done]. Qed.
Lemma returns_ret {A} (P : A → Prop) a : P a → returns P (mret a : ST DbServer A).
Proof. by intros HP s b s' [= <- <-]. Qed.
Lemma returns_impl {A} (P Q : A → Prop) m : (∀ a, P a → Q a) → returns P m → returns Q m.
Proof. intros HPQ Hm s a s' H. eapply HPQ, Hm, H. Qed.

(** Every handler returns the code of success or the code of an error. *)
Definition code_ok (r : Z * json) : Prop := r.1 = 0 ∨ r.1 = 2.
Create HintDb handlers.
Ltac go_codes := repeat lazymatch goal with
  | |- returns _ (_ ≫= _) => apply returns_bind; intros ?
  | |- returns _ (let '(_, _) := ?x in _) => destruct x
  | |- returns _ (if ?b then _ else _) => destruct b
  | |- returns _ (mret match ?r with Some _ => _ | None => _ end) => destruct r
  | |- returns _ (mret (0, _)) => apply returns_ret; by left
  | |- returns _ (mret (2, _)) => apply returns_ret; by right
  end.
#[local] Hint Unfold Get_SN Set_Clean_Type Get_Clean_Type Set_Clean_Strength Get_Clean_Strength Set_Donot_Disturb_Cfg Get_Donot_Disturb_Cfg
  Set_Timing_Clean_Cfg Get_Timing_Clean_Cfg Set_Self_Clean_Cfg Get_Self_Clean_Cfg Set_Zone_Cfg Get_Zone_Cfg Save_Map Delete_Map Query_Map
  Edit_MapName Set_Active Get_Active Set_Wifi Get_Wifi Set_Imu_Offset Get_Imu_Offset Set_Odm_Offset Get_Odm_Offset Get_Wheel_Pid Get_Fan_Pid
  Get_Wheel_Param Get_Machine_Param Set_Audio_Cfg Get_Audio_Cfg : handlers.
Abbreviation good_table t := (Forall (λ th : string * Handler, ∀ jreq jret, returns code_ok (th.2 jreq jret)) t).
Lemma network_codes (fuel : nat) : good_table (DbNetwork_table fuel).
Proof. unfold DbNetwork_table. repeat (apply Forall_cons_2; [cbn [snd]; intros jreq jret; autounfold with handlers; go_codes|]); apply Forall_nil_2. Qed.
Lemma peripheral_codes : good_table DbPeripheral_table.
Proof. unfold DbPeripheral_table. repeat (apply Forall_cons_2; [cbn [snd]; intros jreq jret; autounfold with handlers; go_codes|]); apply Forall_nil_2. Qed.
Lemma table_codes table ty h jreq jret : good_table table → find_handler table ty = Some h → returns code_ok (h jreq jret).
Proof.
  intros H. induction H as [|[ty' h'] table Hh H IH]; [done|]. cbn [find_handler]. case_decide; [intros [= <-]; apply Hh|exact IH].
Qed.

(** The answer of a request: an object with its type; with the state 200 or 400
    when a handler has the type, and without one otherwise. *)
Definition answer_ok (ty : string) (known : bool) (a : json) : Prop :=
  ∃ o, a = JObj o ∧ jfind "type" o = Some (JStr ty) ∧
    if known then (jfind "state" o = Some (JInt 200) ∧ jfind "err_msg" o = Some (JStr "success")) ∨
                  (jfind "state" o = Some (JInt 400) ∧ jfind "err_msg" o = Some (JStr "error"))
    else jfind "state" o = None ∧ jfind "body" o = None.
Definition known_type (fuel : nat) (ty : string) : bool :=
  bool_decide (is_Some (find_handler (DbNetwork_table fuel) ty)) || bool_decide (is_Some (find_handler DbPeripheral_table ty)).
Lemma module_returns (table : list (string * Handler)) arg ty jreq jret :
  (∀ h jreq jret, find_handler table ty = Some h → returns code_ok (h jreq jret)) →
  returns (λ r, match find_handler table ty with
                | None => r = (-1, jret)
                | Some _ => code_ok r ∧ ∃ b, jset jret "body" b = Ok r.2 end) (module_OnDpMessage table arg ty jreq jret).
Proof.
  intros Hh. unfold module_OnDpMessage. destruct (find_handler table ty) as [h|] eqn:Hf; [|by apply returns_ret].
  apply returns_bind. intros a. apply returns_bind. intros body s r s'. rewrite run_bind. destruct (h a body s) as [[[nret b] s1]|] eqn:Hr; [|done].
  apply (Hh h a body eq_refl) in Hr. rewrite run_bind. unfold lift. destruct (jset jret "body" b) as [j|] eqn:Hj; [|done]. intros [= <- <-].
  split; [exact Hr|by exists b].
Qed.
Lemma build_reply_ok code ty b a : code = 0 ∨ code = 2 → build_reply code ty (JObj [("body", b)]) = Ok a → answer_ok ty true a.
Proof. by intros [H|H]; subst code; intros [= <-]; eexists; (split; [reflexivity|]); (split; [reflexivity|]); [left|right]. Qed.

Definition module_ok (table : list (string * Handler)) (ty : string) (r : Z * json) : Prop :=
  match find_handler table ty with
  | None => r = (-1, JNull)
  | Some _ => code_ok r ∧ ∃ b, jset JNull "body" b = Ok r.2
  end.
Lemma network_returns fuel ty jreq : returns (module_ok (DbNetwork_table fuel) ty) (DbNetwork_OnDpMessage fuel ty jreq JNull).
Proof. exact (module_returns _ _ _ _ _ (λ h jq jr Hh, table_codes _ ty h jq jr (network_codes fuel) Hh)). Qed.
Lemma peripheral_returns ty jreq : returns (module_ok DbPeripheral_table ty) (DbPeripheral_OnDpMessage ty jreq JNull).
Proof. exact (module_returns _ _ _ _ _ (λ h jq jr Hh, table_codes _ ty h jq jr peripheral_codes Hh)). Qed.

(** C18. Every answer to a request has the form of an answer: an object with the type
    of the request, and with the state 200 or 400 and its text exactly when
    the type is one that a handler of the server has. *)
Theorem answer_form fuel ty jl s ans s' : jfind "type" jl = Some (JStr ty) →
  DbServer_OnDpMessage fuel "DP_DB_REQUEST" TYPE_REQUEST (true, JObj jl) s = Ok (ans, s') →
  ∃ a, ans = Some a ∧ answer_ok ty (known_type fuel ty) a.
Proof.
  intros Ht. unfold DbServer_OnDpMessage. rewrite bool_decide_true by done. rewrite !run_bind. cbn [fst snd].
  rewrite run_bind, (run_lift _ (JStr ty)) by (simpl; by rewrite Ht). cbn beta iota.
  rewrite run_bind, (run_lift _ (JObj jl)) by by eapply jtouch_same. cbn beta iota. rewrite run_bind. cbn [asString].
  destruct (DbNetwork_OnDpMessage fuel ty (JObj jl) JNull s) as [[[ret jret] s1]|] eqn:Hn; [|done].
  pose proof (network_returns fuel ty (JObj jl) s _ _ Hn) as Hk. clear Hn. unfold module_ok in Hk. unfold known_type. destruct (find_handler (DbNetwork_table fuel) ty) as [h|].
  - destruct Hk as [Hc [b [= <-]]]. assert (negb (ret =? -1) = true) as -> by (by destruct Hc as [H|H]; cbn in H; subst ret).
    rewrite run_ret. cbn beta iota. change (TYPE_REQUEST =? TYPE_REQUEST) with true. cbn beta iota. rewrite run_bind. unfold lift. destruct (build_reply _ _ _) as [a|] eqn:Ha; [|done]. intros [= <- <-].
    exists a. split; [done|]. exact (build_reply_ok _ _ _ _ Hc Ha).
  - injection Hk as -> ->. change (negb (-1 =? -1)) with false. cbn beta iota. rewrite run_bind.
    destruct (DbPeripheral_OnDpMessage ty (JObj jl) JNull s1) as [[[ret jret] s2]|] eqn:Hp; [|done].
    pose proof (peripheral_returns ty (JObj jl) s1 _ _ Hp) as Hk. clear Hp. unfold module_ok in Hk.
    rewrite run_ret. cbn beta iota. change (TYPE_REQUEST =? TYPE_REQUEST) with true. cbn beta iota. destruct (find_handler DbPeripheral_table ty) as [h|].
    + destruct Hk as [Hc [b [= <-]]]. rewrite run_bind. unfold lift. destruct (build_reply _ _ _) as [a|] eqn:Ha; [|done]. intros [= <- <-].
      exists a. split; [done|]. exact (build_reply_ok _ _ _ _ Hc Ha).
    + injection Hk as -> ->. intros [= <- <-]. eexists. split; [done|]. eexists. split; [reflexivity|]. split; [reflexivity|]. by split.
Qed.
End answers.

Lemma answer_form_witness : let req := ref_request "get_clean_strength" [] in ∃ ans s',
  DbServer_OnDpMessage 1 "DP_DB_REQUEST" TYPE_REQUEST (true, JObj req) ref_strength = Ok (ans, s') ∧
  ∃ a, ans = Some a ∧ answer_ok "get_clean_strength" (known_type 1 "get_clean_strength") a.
Proof.
  intros req.
  destruct (settings_handlers 1 "set_clean_strength" "get_clean_strength" 200 TABLE_NETWORK_CLEANSTRENGTH ["mode"; "suction"; "water_yield"; "speed"; "area"])
    as [_ (h & Hh & Hg)]; [apply (bool_decide_unpack _); vm_compute; exact I|].
  pose proof (get_ints_run TABLE_NETWORK_CLEANSTRENGTH ["mode"; "suction"; "water_yield"; "speed"; "area"] [1; 1; 1; 1; 10] (JObj req) ref_strength) as Hb.
  rewrite <-Hg in Hb. specialize (Hb ltac:(split_and!; [done|apply (bool_decide_unpack _); vm_compute; exact I|by repeat constructor])
    ltac:(apply (bool_decide_unpack _); vm_compute; exact I)
    ltac:(eexists; split; [vm_compute; reflexivity|]; split; [done|]; split; [vm_compute; reflexivity|done])).
  pose proof (request_run 1 "get_clean_strength" h req 0 _ ref_strength ref_strength eq_refl Hh Hb (or_introl eq_refl)) as H.
  eexists _, ref_strength. split; [exact H|]. exact (answer_form 1 "get_clean_strength" req ref_strength _ ref_strength eq_refl H).
Defined.
