(* ===== verification/DbMaps.v ===== *)
(** * The saved maps of the database server

    What save_map, delete_map, edit_map_name and query_map do to the table of the
    maps, against a list of maps: query_map reads the rows 1, 2, .. up to the
    first that is missing. *)

From S2P Require Import Prelude Float Json JsonText Mldb DbBase DbNetwork DbPeripheral DpMessage DbServer SqlTexts MldbRef DbTheorems.
From Stdlib Require Import Ascii.
From stdpp Require Import pretty.
#[local] Open Scope Z_scope.

(** ** Lists that grow in a reply *)

(** A reply with the members [pre], and a list as member [k] once it has an element. *)
Definition with_list (pre : list (string * json)) (k : string) (l : list json) : json :=
  match l with
  | [] => match pre with [] => JNull | _ => JObj pre end
  | _ => JObj (pre ++ [(k, JArr l)])
  end.
Lemma with_list_snoc pre k l x : with_list pre k (l ++ [x]) = JObj (pre ++ [(k, JArr (l ++ [x]))]).
Proof. by destruct l. Qed.
Lemma jput_last pre k x y : jfind k pre = None → jput k x (pre ++ [(k, y)]) = pre ++ [(k, x)].
Proof.
  induction pre as [|[k' v] pre IH]; simpl; [by rewrite decide_True|]. case_decide; [done|]. intros Hf. by rewrite IH.
Qed.
Lemma jkey_with_list pre k l : jfind k pre = None → jkey (with_list pre k l) k = Ok (match l with [] => JNull | _ => JArr l end).
Proof.
  intros H. destruct l as [|x l]; [destruct pre; [done|]; cbn [with_list jkey]; by rewrite H|].
  cbn [with_list jkey]. rewrite jfind_app, H. simpl. by rewrite decide_True.
Qed.
Lemma jset_with_list pre k l l' : jfind k pre = None → l' ≠ [] → jset (with_list pre k l) k (JArr l') = Ok (with_list pre k l').
Proof.
  intros H Hl. destruct l' as [|y l']; [done|]. destruct l as [|x l].
  - destruct pre as [|p pre]; [done|]. cbn [with_list jset]. by rewrite jput_fresh.
  - cbn [with_list jset]. by rewrite jput_last.
Qed.
Lemma jset3_new pre k l k' x : jfind k pre = None →
  jset3 (with_list pre k l) k (length l) k' x = Ok (with_list pre k (l ++ [JObj [(k', x)]])).
Proof.
  intros H. unfold jset3, jset_elem. rewrite jkey_with_list by done. destruct l as [|y l].
  - by apply (jset_with_list pre k [] [JObj [(k', x)]]).
  - cbn [mbind res_bind jidx]. rewrite lookup_ge_None_2 by lia. cbn [default from_option id jset mbind res_bind jset_idx].
    rewrite decide_False by lia. rewrite Nat.sub_diag. cbn [replicate]. rewrite app_nil_l. by rewrite jset_with_list by (by try destruct l).
Qed.
Lemma jset3_more pre k l o k' x : jfind k pre = None →
  jset3 (with_list pre k (l ++ [JObj o])) k (length l) k' x = Ok (with_list pre k (l ++ [JObj (jput k' x o)])).
Proof.
  intros H. unfold jset3, jset_elem. rewrite jkey_with_list by done. destruct (l ++ [JObj o]) as [|y l0] eqn:Hl; [by destruct l|].
  rewrite <-Hl. cbn [mbind res_bind jidx]. rewrite list_lookup_middle by done. cbn [default from_option id jset mbind res_bind jset_idx].
  rewrite decide_True by (rewrite length_app; simpl; lia). rewrite insert_app_r_alt, Nat.sub_diag by lia.
  rewrite jset_with_list; [done..|by destruct l].
Qed.

(** ** Maps *)
Record map_entry := MapEntry { row_no : Z; map_no : Z; map_label : string; info_path : string; data_path : string }.
Definition map_table : table := new_table ("id INTEGER PRIMARY KEY,map_id INT DEFAULT 0,map_name TEXT NOT NULL,"
  +:+ "map_info_path TEXT NOT NULL,map_data_path TEXT NOT NULL").
Definition entry_row (e : map_entry) : row :=
  [("id", pretty (row_no e)); ("map_id", pretty (map_no e)); ("map_name", map_label e);
   ("map_info_path", info_path e); ("map_data_path", data_path e)].
Definition entry_json (e : map_entry) : json :=
  JObj [("map_id", JInt (map_no e)); ("map_name", JStr (map_label e)); ("map_info_path", JStr (info_path e));
        ("map_data_path", JStr (data_path e))].

(** The specification: rows get the number after the largest, a deletion leaves
    a hole, and a query lists the maps before the first hole. *)
Definition max_row (l : list map_entry) : Z := foldr Z.max 0 (row_no <$> l).
Definition save_map (m : Z) (info data : string) (l : list map_entry) : list map_entry :=
  l ++ [MapEntry (1 + max_row l) m "" info data].
Definition delete_map (m : Z) (l : list map_entry) : list map_entry := List.filter (λ e, negb (map_no e =? m)) l.
Definition rename_map (m : Z) (name : string) (l : list map_entry) : list map_entry :=
  map (λ e, if map_no e =? m then MapEntry (row_no e) (map_no e) name (info_path e) (data_path e) else e) l.
Definition with_row (i : Z) (l : list map_entry) : option map_entry := List.find (λ e, row_no e =? i) l.
Fixpoint listed (n : nat) (i : Z) (l : list map_entry) : list map_entry :=
  match n with
  | O => []
  | S n' => match with_row i l with Some e => e :: listed n' (i + 1) l | None => [] end
  end.
Definition query_maps (l : list map_entry) : list map_entry := listed (S (length l)) 1 l.

(** Row numbers are different and positive, map numbers have 32 bits. *)
Definition maps_ok (l : list map_entry) : Prop :=
  NoDup (row_no <$> l) ∧ Forall (λ e, 0 < row_no e ∧ in_s 32 (map_no e)) l.
Definition maps_of (V : tables) (l : list map_entry) : Prop :=
  maps_ok l ∧ ∃ last, V !! TABLE_NETWORK_MAPPATH = Some (mkTable (cols map_table) false false last (entry_row <$> l)).

Lemma max_row_le e l : e ∈ l → row_no e <= max_row l.
Proof.
  unfold max_row. induction l as [|e' l IH]; [by intros ?%elem_of_nil|]. rewrite elem_of_cons. cbn [fmap list_fmap foldr].
  intros [->|H]; [lia|]. etrans; [by apply IH|lia].
Qed.
Lemma max_row_pos l : 0 <= max_row l.
Proof. unfold max_row. induction l as [|e l IH]; [done|]. cbn [fmap list_fmap foldr]. lia. Qed.
Lemma save_map_ok m info data l : in_s 32 m → maps_ok l → maps_ok (save_map m info data l).
Proof.
  intros Hm [Hnd Hl]. unfold save_map. split.
  - rewrite fmap_app. apply NoDup_app. split_and!; [done| |by apply NoDup_singleton]. intros i (e & -> & He)%list_elem_of_fmap.
    apply max_row_le in He. cbn. rewrite list_elem_of_singleton. lia.
  - apply Forall_app. split; [done|]. constructor; [|done]. pose proof (max_row_pos l). cbn. split; [lia|done].
Qed.
Lemma filter_sublist' {A} (f : A → bool) l : List.filter f l `sublist_of` l.
Proof. induction l as [|x l IH]; [constructor|]. cbn [List.filter]. destruct (f x); by constructor. Qed.
Lemma delete_map_ok m l : maps_ok l → maps_ok (delete_map m l).
Proof.
  intros [Hnd Hl]. pose proof (filter_sublist' (λ e, negb (map_no e =? m)) l) as Hs. split.
  - eapply sublist_NoDup; [exact Hnd|]. by apply fmap_sublist.
  - rewrite Forall_forall in *. intros e [He _]%list_elem_of_In%filter_In. apply Hl. by apply list_elem_of_In.
Qed.
Lemma rename_map_ok m name l : maps_ok l → maps_ok (rename_map m name l).
Proof.
  intros [Hnd Hl]. assert (row_no <$> rename_map m name l = row_no <$> l) as Heq.
  { clear. induction l as [|e l IH]; [done|]. cbn [rename_map map fmap list_fmap]. f_equal; [by destruct (_ =? _)|exact IH]. }
  split; [by rewrite Heq|]. unfold rename_map. apply Forall_map. eapply Forall_impl; [exact Hl|]. intros e He. by destruct (_ =? _).
Qed.

Lemma listed_rows n i l e : e ∈ listed n i l → e ∈ l ∧ i <= row_no e.
Proof.
  revert i. induction n as [|n IH]; intros i; [by intros ?%elem_of_nil|]. cbn [listed]. unfold with_row at 1.
  destruct (List.find _ l) as [e'|] eqn:Hf; [|by intros ?%elem_of_nil]. apply List.find_some in Hf as [Hin Hi%Z.eqb_eq].
  intros [->|H]%elem_of_cons; [split; [by apply list_elem_of_In|lia]|]. destruct (IH _ H). split; [done|lia].
Qed.
Lemma listed_length n i l : (length (listed n i l) <= length l)%nat.
Proof.
  assert (∀ n i, NoDup (listed n i l)) as Hnd.
  { clear. induction n as [|n IH]; intros i; [constructor|]. cbn [listed]. unfold with_row. destruct (List.find _ l) as [e|] eqn:Hf; [|constructor].
    apply List.find_some in Hf as [_ Hi%Z.eqb_eq]. constructor; [|apply IH]. intros [_ H]%listed_rows. lia. }
  apply submseteq_length, NoDup_submseteq; [apply Hnd|]. by intros e [H _]%listed_rows.
Qed.
Lemma listed_stable n m i l : (length (listed n i l) < n)%nat → (n <= m)%nat → listed m i l = listed n i l.
Proof.
  revert m i. induction n as [|n IH]; intros m i Hl Hm; [simpl in Hl; lia|]. destruct m as [|m]; [lia|]. cbn [listed] in *.
  destruct (with_row i l); [|done]. f_equal. apply IH; [simpl in Hl; lia|lia].
Qed.
Lemma listed_query n l : (length l < n)%nat → listed n 1 l = query_maps l ∧ (length (query_maps l) < n)%nat.
Proof.
  intros Hn. unfold query_maps. pose proof (listed_length (S (length l)) 1 l).
  rewrite (listed_stable (S (length l)) n) by lia. split; [done|lia].
Qed.

(** Maps saved one after the other have the rows 1, 2, ..; the number of a row
    that is deleted before the last is not given again. *)
Definition saved (ms : list (Z * string * string)) : list map_entry :=
  imap (λ i d, MapEntry (Z.of_nat i + 1) d.1.1 "" d.1.2 d.2) ms.
Definition save_all (l : list map_entry) (ms : list (Z * string * string)) : list map_entry :=
  foldl (λ l d, save_map d.1.1 d.1.2 d.2 l) l ms.
Lemma find_app {A} (f : A → bool) l l' : List.find f (l ++ l') = match List.find f l with Some x => Some x | None => List.find f l' end.
Proof. induction l as [|x l IH]; [done|]. cbn [app List.find]. by destruct (f x). Qed.
Lemma with_row_Some i l e : NoDup (row_no <$> l) → with_row i l = Some e ↔ e ∈ l ∧ row_no e = i.
Proof.
  intros Hnd. unfold with_row. split; [intros [H1 H2%Z.eqb_eq]%List.find_some; split; [by apply list_elem_of_In|done]|].
  induction l as [|e' l IH]; [by intros [?%elem_of_nil _]|]. rewrite fmap_cons in Hnd. apply NoDup_cons in Hnd as [He Hnd].
  rewrite elem_of_cons. cbn [List.find]. intros [[->|H] Hi]; [by rewrite (proj2 (Z.eqb_eq _ _) Hi)|].
  destruct (Z.eqb_spec (row_no e') i) as [Heq|]; [|by apply IH]. destruct He. rewrite Heq, <-Hi. by apply list_elem_of_fmap_2.
Qed.
Lemma saved_row ms i : 0 <= i → with_row (i + 1) (saved ms) = saved ms !! Z.to_nat i.
Proof.
  intros Hi. induction ms as [|d ms IH] using rev_ind; [done|]. unfold saved in *. rewrite imap_app. unfold with_row in *.
  rewrite find_app, IH. destruct (imap _ ms !! Z.to_nat i) as [e|] eqn:He.
  - by rewrite lookup_app_l by by eapply lookup_lt_Some.
  - apply lookup_ge_None in He. rewrite lookup_app_r by done. rewrite length_imap in *. cbn [imap List.find row_no].
    rewrite Nat.add_0_r. destruct (Z.eqb_spec (Z.of_nat (length ms) + 1) (i + 1)) as [Heq|Hne].
    + by replace (Z.to_nat i - length ms)%nat with 0%nat by lia.
    + symmetry. apply lookup_ge_None. simpl. lia.
Qed.
Lemma max_row_snoc l e : max_row (l ++ [e]) = Z.max (max_row l) (row_no e).
Proof.
  assert (∀ x zs, foldr Z.max x zs = Z.max (foldr Z.max 0 zs) x ∨ x < 0) as H.
  { intros x zs. destruct (Z.ltb_spec x 0); [by right|left]. induction zs as [|z zs IH]; cbn [foldr]; lia. }
  pose proof (max_row_pos l). unfold max_row in *. rewrite fmap_app, foldr_app. cbn [fmap list_fmap foldr].
  destruct (H (Z.max (row_no e) 0) (row_no <$> l)); lia.
Qed.
Lemma saved_max ms : max_row (saved ms) = Z.of_nat (length ms).
Proof.
  induction ms as [|d ms IH] using rev_ind; [done|]. unfold saved in *. rewrite imap_app. cbn [imap]. rewrite max_row_snoc, IH, length_app.
  simpl. lia.
Qed.
Lemma save_all_saved ms : save_all [] ms = saved ms.
Proof.
  induction ms as [|d ms IH] using rev_ind; [done|]. unfold save_all in *. rewrite foldl_snoc, IH. unfold save_map.
  rewrite saved_max. unfold saved. rewrite imap_app. f_equal. cbn. do 2 f_equal. lia.
Qed.
Lemma save_all_rows l ms i : i <= max_row l → with_row i (save_all l ms) = with_row i l.
Proof.
  unfold save_all. induction ms as [|d ms IH] using rev_ind; [done|]. intros Hi. rewrite foldl_snoc. rewrite <-IH by done.
  set (l' := foldl _ l ms). assert (max_row l <= max_row l') as Hle.
  { subst l'. clear. induction ms as [|d ms IH] using rev_ind; [done|]. rewrite foldl_snoc. etrans; [exact IH|]. unfold save_map. rewrite max_row_snoc. lia. }
  unfold save_map, with_row. rewrite find_app. destruct (List.find _ l'); [done|]. cbn [List.find row_no].
  destruct (Z.eqb_spec (1 + max_row l') i); [lia|done].
Qed.
Lemma query_take l (r : list map_entry) : (∀ j, (j < length r)%nat → with_row (1 + Z.of_nat j) l = r !! j) →
  with_row (1 + Z.of_nat (length r)) l = None → query_maps l = r.
Proof.
  assert (∀ n i (r : list map_entry), (∀ j, (j < length r)%nat → with_row (i + Z.of_nat j) l = r !! j) →
    with_row (i + Z.of_nat (length r)) l = None → (length r < n)%nat → listed n i l = r) as Hlt.
  { clear. intros n i r. revert n i. induction r as [|e r IH]; intros n i Hr Hn Hlen; (destruct n as [|n]; [simpl in Hlen; lia|]); cbn [listed].
    { rewrite Z.add_0_r in Hn. by rewrite Hn. }
    pose proof (Hr 0%nat ltac:(simpl; lia)) as H0. rewrite Z.add_0_r in H0. rewrite H0. cbn. f_equal. apply IH; [| |simpl in Hlen; lia].
    - intros j Hj. etrans; [|exact (Hr (S j) ltac:(simpl; lia))]. f_equal. lia.
    - rewrite <-Hn. f_equal. cbn [length]. lia. }
  intros Hr Hn. pose proof (listed_length (S (length r)) 1 l) as Hlen. unfold query_maps. rewrite (Hlt (S (length r)) 1 r) in Hlen by (done || lia).
  apply Hlt; [done..|lia].
Qed.
(** The map with row k + 1 is deleted, and it is not the last: it and those
    after it are not listed any more, whatever is saved later. *)
Lemma delete_hides ms later k d : Forall (λ d, in_s 32 d.1.1) ms → NoDup (ms.*1.*1) → ms !! k = Some d → (S k < length ms)%nat →
  query_maps (save_all (delete_map d.1.1 (saved ms)) later) = take k (saved ms).
Proof.
  intros Hms Hnd Hk Hlt. assert (maps_ok (saved ms)) as Hok.
  { rewrite <-save_all_saved. unfold save_all. assert (maps_ok []) as H0 by (split; constructor). revert H0. clear -Hms. generalize (@nil map_entry).
    induction Hms as [|d ms Hd Hms IH]; intros l Hl; [done|]. cbn [foldl]. apply IH. by apply save_map_ok. }
  pose proof (delete_map_ok d.1.1 _ Hok) as [Hdel _]. destruct Hok as [Hrows _].
  assert (length (take k (saved ms)) = k) as Hlen by (rewrite length_take; unfold saved; rewrite length_imap; lia).
  assert (∀ i e, saved ms !! i = Some e → ∃ d, ms !! i = Some d ∧ e = MapEntry (Z.of_nat i + 1) d.1.1 "" d.1.2 d.2) as Hsv.
  { intros i e He. unfold saved in He. rewrite list_lookup_imap in He. destruct (ms !! i) as [d'|]; [|done]. injection He as <-. eauto. }
  assert (∀ i, 0 <= i → with_row (i + 1) (delete_map d.1.1 (saved ms)) = if decide (i = Z.of_nat k) then None else saved ms !! Z.to_nat i) as Hrow.
  { intros i Hi. apply option_eq. intros e. rewrite with_row_Some by done. unfold delete_map. rewrite list_elem_of_In, filter_In, <-list_elem_of_In.
    rewrite negb_true_iff, Z.eqb_neq. transitivity (with_row (i + 1) (saved ms) = Some e ∧ map_no e ≠ d.1.1).
    { rewrite with_row_Some by done. tauto. }
    rewrite saved_row by done. case_decide as Hd; [subst i; rewrite Nat2Z.id|]; (split; [intros [He Hm]|intros He]).
    - destruct (Hsv _ _ He) as (d' & Hd' & ->). simplify_eq.
    - done.
    - done.
    - split; [done|]. destruct (Hsv _ _ He) as (d' & Hd' & ->). cbn. intros Heq. apply Hd.
      assert (Z.to_nat i = k); [|lia]. eapply (NoDup_lookup (ms.*1.*1)); [done|by rewrite !list_lookup_fmap, Hd'|rewrite !list_lookup_fmap, Hk; cbn; by rewrite Heq]. }
  assert (Z.of_nat (length ms) <= max_row (delete_map d.1.1 (saved ms))) as Hmax.
  { destruct (lookup_lt_is_Some_2 ms (length ms - 1)) as [x Hx]; [lia|]. specialize (Hrow (Z.of_nat (length ms - 1)) ltac:(lia)).
    rewrite decide_False in Hrow by lia. unfold saved in Hrow at 2. rewrite Nat2Z.id, list_lookup_imap, Hx in Hrow. cbn in Hrow.
    apply with_row_Some in Hrow as [Hin Hi]; [|done]. apply max_row_le in Hin. cbn in Hin. lia. }
  apply query_take; rewrite ?Hlen.
  - intros j Hj. rewrite save_all_rows by lia. rewrite Z.add_comm, Hrow by lia. rewrite decide_False by lia. by rewrite Nat2Z.id, lookup_take_lt.
  - rewrite save_all_rows by lia. rewrite Z.add_comm, Hrow by lia. by rewrite decide_True.
Qed.

(** ** The table of the maps *)
Lemma row_id_entry e : row_id (entry_row e) = row_no e.
Proof. unfold row_id, entry_row. cbn [aget]. rewrite decide_True by done. cbn [mbind option_bind]. by rewrite read_int_pretty. Qed.
Lemma max_id_entries l : max_id (entry_row <$> l) = max_row l.
Proof. unfold max_id, max_row. induction l as [|e l IH]; [done|]. cbn [fmap list_fmap foldr] in *. by rewrite row_id_entry, IH. Qed.
Lemma matches_id i e : matches ("id", pretty i) (entry_row e) = (row_no e =? i).
Proof.
  unfold matches, entry_row. cbn [aget fst snd]. rewrite decide_True by done. apply eq_bool_prop_intro.
  rewrite bool_decide_spec, Is_true_true, Z.eqb_eq. split; [by intros [= H%(inj pretty)]|by intros ->].
Qed.
Lemma matches_map m e : matches ("map_id", pretty m) (entry_row e) = (map_no e =? m).
Proof.
  unfold matches, entry_row. cbn [aget fst snd]. rewrite decide_False, decide_True by done. apply eq_bool_prop_intro.
  rewrite bool_decide_spec, Is_true_true, Z.eqb_eq. split; [by intros [= H%(inj pretty)]|by intros ->].
Qed.
Lemma filter_entries (f : row → bool) (g : map_entry → bool) l : (∀ e, f (entry_row e) = g e) →
  List.filter f (entry_row <$> l) = entry_row <$> List.filter g l.
Proof.
  intros H. induction l as [|e l IH]; [done|]. rewrite fmap_cons. cbn [List.filter]. rewrite H, IH. by destruct (g e).
Qed.
Lemma filter_row i l : NoDup (row_no <$> l) → List.filter (λ e, row_no e =? i) l = match with_row i l with Some e => [e] | None => [] end.
Proof.
  unfold with_row. induction l as [|e l IH]; [done|]. rewrite fmap_cons. intros [He Hl]%NoDup_cons. cbn [List.filter List.find].
  destruct (Z.eqb_spec (row_no e) i) as [Heq|Heq]; [|by apply IH]. f_equal. rewrite IH by done.
  destruct (List.find _ l) as [e'|] eqn:Hf; [|done]. apply List.find_some in Hf as [Hin Hi%Z.eqb_eq]. destruct He.
  rewrite Heq, <-Hi. apply list_elem_of_fmap_2. by apply list_elem_of_In.
Qed.

Section maps.
Context {M : Mldb} {J : JsonText} {R : RealFormat} {Y : YamlCpp} {Sp : MldbSpec M J}.
Implicit Types s : DbServer.
Abbreviation vw s := (view (sysConfig s)).
Abbreviation maps_sql := (mkTable (cols map_table) false false).

Lemma maps_where last l (m : Z) : read_where (maps_sql last l) ("map_id=" +:+ pretty m) = Some ("map_id", pretty m).
Proof. apply (read_where_int _ "map_id" m "INT"); [done|done|by left]. Qed.
Lemma set_entries f last l l' : f (entry_row <$> l) = entry_row <$> l' →
  set_rows f (maps_sql last (entry_row <$> l)) = maps_sql last (entry_row <$> l').
Proof. unfold set_rows. cbn [rows cols autoinc uniq last_id]. by intros ->. Qed.
Lemma insert_entry last l m info data :
  insert_into real_text (maps_sql last (entry_row <$> l)) (trim <$> fields false "map_id,map_name,map_info_path,map_data_path")
    [LInt m; LText ""; LText info; LText data] = Some (maps_sql (1 + max_row l) (entry_row <$> save_map m info data l)).
Proof.
  unfold insert_into. change (read_row _ _ _ _) with
    (Some [("map_id", pretty m); ("map_name", ""); ("map_info_path", info); ("map_data_path", data)]).
  cbn [mbind option_bind cols uniq rows autoinc negb orb].
  rewrite !(bool_decide_true) by (apply (bool_decide_unpack _); vm_compute; exact I).
  cbn [andb]. unfold save_map. rewrite fmap_app, max_id_entries. pose proof (max_row_pos l). by rewrite Z.max_l.
Qed.

Lemma save_sql V l m info data : maps_of V l → in_s 32 m → plain info = true → plain data = true →
  ∃ V', sql_insert real_text V TABLE_NETWORK_MAPPATH "map_id,map_name,map_info_path,map_data_path"
    (values_text [LInt m; LText ""; LText info; LText data]) = Some V' ∧ maps_of V' (save_map m info data l).
Proof.
  intros (Hok & last & Ht) Hm Hi Hd. eexists. split.
  - eapply sql_insert_eq; [exact Ht|by apply read_values_text; [|repeat constructor]|]. by apply insert_entry.
  - split; [by apply save_map_ok|]. eexists. by rewrite lookup_insert_eq.
Qed.
Lemma delete_sql V l m : maps_of V l → ∃ V', sql_delete V TABLE_NETWORK_MAPPATH ("map_id=" +:+ pretty m) = Some V' ∧ maps_of V' (delete_map m l).
Proof.
  intros (Hok & last & Ht). eexists. split; [eapply sql_delete_eq; [exact Ht|by apply maps_where]|]. split; [by apply delete_map_ok|].
  exists last. rewrite lookup_insert_eq. f_equal. apply set_entries. apply filter_entries. intros e. by rewrite matches_map.
Qed.
Lemma rename_sql V l m name : maps_of V l → plain name = true →
  ∃ V', sql_update real_text V TABLE_NETWORK_MAPPATH ("map_name='" +:+ name +:+ "'") ("map_id='" +:+ pretty m +:+ "'") = Some V' ∧
    maps_of V' (rename_map m name l).
Proof.
  intros (Hok & last & Ht) Hn. eexists. split.
  { eapply sql_update_eq; [exact Ht|by apply (read_set_text _ _ "map_name")|by apply (read_where_text _ "map_id" m "INT"); [| |left]]. }
  split; [by apply rename_map_ok|]. exists last. rewrite lookup_insert_eq. f_equal. apply set_entries.
  unfold rename_map. clear. induction l as [|e l IH]; [done|]. rewrite fmap_cons. cbn [map]. rewrite matches_map, IH. by destruct (_ =? _).
Qed.
Lemma select_row V l i : maps_of V l → sql_select V TABLE_NETWORK_MAPPATH (id_is i) =
  Some (match with_row (Z.of_nat i + 1) l with Some e => [entry_row e] | None => [] end).
Proof.
  intros ((Hnd & _) & last & Ht). erewrite sql_select_eq; [|exact Ht|by apply (read_where_int _ "id" _ "INTEGER"); [| |right]]. f_equal.
  cbn [rows]. rewrite (filter_entries _ (λ e, row_no e =? Z.of_nat i + 1)) by (intros e; apply matches_id). rewrite filter_row by done.
  by destruct (with_row _ _).
Qed.

(** ** The handlers *)
Abbreviation map_list l := (with_list [] "map" (entry_json <$> l)).
Lemma query_loop_run fuel pre s l : maps_of (vw s) l → (length (listed fuel (Z.of_nat (length pre) + 1) l) < fuel)%nat →
  query_loop fuel (length pre) (map_list pre) s = Ok (map_list (pre ++ listed fuel (Z.of_nat (length pre) + 1) l), s).
Proof.
  intros Hm. revert pre. induction fuel as [|fuel IH]; intros pre Hf; [simpl in Hf; lia|]. cbn [query_loop listed] in *. rewrite run_bind.
  destruct (select_run TABLE_NETWORK_MAPPATH (id_is (length pre)) s _ (select_row _ _ _ Hm)) as (o & -> & Ho). cbn beta iota.
  rewrite run_bind, (run_lift _ _ _ (found_run o _ Ho)). destruct (with_row _ l) as [e|] eqn:He.
  2: { cbn. by rewrite app_nil_r. }
  assert (in_s 32 (map_no e)) as Hin.
  { destruct Hm as [[_ Hall] _]. rewrite Forall_forall in Hall. apply Hall. unfold with_row in He. apply List.find_some in He as [He _].
    by apply list_elem_of_In. }
  cbn [fmap list_fmap length Nat.eqb negb]. rewrite run_bind, (run_lift _ (map_list (pre ++ [e]))).
  - cbn beta iota. specialize (IH (pre ++ [e])). rewrite length_app, Nat2Z.inj_add in IH. cbn [length] in *.
    replace (Z.of_nat (length pre) + Z.of_nat 1 + 1) with (Z.of_nat (length pre) + 1 + 1) in IH by lia.
    rewrite Nat.add_1_r in IH. rewrite IH by lia. by rewrite <-app_assoc.
  - unfold get_int. cbn [snd]. rewrite !(get_text_run o (entry_row e) [] _ Ho).
    change (default "" (aget "map_id" (entry_row e))) with (pretty (map_no e)). cbn [mbind res_bind]. rewrite stoi_pretty by done.
    cbn [mbind res_bind]. rewrite <-(length_fmap entry_json pre). rewrite jset3_new by done. cbn [mbind res_bind].
    do 3 (rewrite jset3_more by done; cbn [mbind res_bind]). by rewrite fmap_app.
Qed.

(** ** Requests *)
Inductive map_op := OSave (m : Z) (info data : string) | ODelete (m : Z) | ORename (m : Z) (name : string) | OQuery.
Definition op_type (o : map_op) : string :=
  match o with OSave _ _ _ => "save_map" | ODelete _ => "delete_map" | ORename _ _ => "edit_map_name" | OQuery => "query_map" end.
Definition op_body (o : map_op) : list (string * json) :=
  match o with
  | OSave m info data => [("map_id", JInt m); ("map_info_path", JStr info); ("map_data_path", JStr data)]
  | ODelete m => [("map_id", JInt m)]
  | ORename m name => [("map_id", JInt m); ("map_name", JStr name)]
  | OQuery => []
  end.
(** Map numbers have 32 bits, texts no quotes and fit the buffers of the statements. *)
Definition op_ok (o : map_op) : Prop :=
  match o with
  | OSave m info data => in_s 32 m ∧ plain info = true ∧ plain data = true ∧ (String.length info + String.length data <= 179)%nat
  | ODelete m => in_s 32 m
  | ORename m name => in_s 32 m ∧ (String.length (pretty m) <= 10)%nat ∧ plain name = true ∧ (String.length name <= 38)%nat
  | OQuery => True
  end.
Definition map_request (o : map_op) : list (string * json) := [("type", JStr (op_type o)); ("body", JObj (op_body o))].
Definition op_run (o : map_op) : list map_entry → list map_entry :=
  match o with OSave m info data => save_map m info data | ODelete m => delete_map m | ORename m name => rename_map m name | OQuery => id end.
Definition op_answer (l : list map_entry) (o : map_op) : json :=
  answer 0 (op_type o) (match o with OQuery => JObj [("map", JArr (entry_json <$> query_maps l))] | _ => JNull end).
(** Only a saved map is told to the other processes. *)
Definition op_broadcast (o : map_op) : list (string * json) :=
  match o with OSave _ _ _ => [("DP_DB_BROADCAST", JObj (map_request o))] | _ => [] end.

Abbreviation handle fuel jreq s := (DbServer_OnDpMessage fuel "DP_DB_REQUEST" TYPE_REQUEST (true, JObj jreq) s).

Lemma save_run o m info data l s : o = OSave m info data → op_ok o → maps_of (vw s) l → ∃ s',
  Save_Map (JObj (map_request o)) JNull s = Ok ((0, JNull), s') ∧ maps_of (vw s') (op_run o l) ∧ sent s' = sent s ++ op_broadcast o.
Proof.
  intros -> (Hm & Hi & Hd & Hl) Hs. destruct (save_sql _ l m info data Hs Hm Hi Hd) as (V' & Hv & HV).
  eexists (mkDbServer (mldb_insert (sysConfig s) _ _ _) (sent s ++ _)). split; [|split; [cbn [sysConfig]; by rewrite (insert_spec _ _ _ _ _ Hv)|done]].
  unfold Save_Map. rewrite run_bind. unfold body_int at 1. rewrite (run_lift _ m) by by apply JV_TO_INT_find. cbn beta iota.
  rewrite run_bind. unfold body_string at 1. rewrite (run_lift _ info) by done. cbn beta iota.
  rewrite run_bind. unfold body_string at 1. rewrite (run_lift _ data) by done. cbn beta iota.
  rewrite run_bind, fits. 2: { rewrite !slength_app, !quoted_length by done. pose proof (int_length m Hm). cbn [String.length]. lia. }
  cbn beta iota. rewrite !quoted_plain by done. done.
Qed.
Lemma delete_run o m l s : o = ODelete m → op_ok o → maps_of (vw s) l → ∃ s',
  Delete_Map (JObj (map_request o)) JNull s = Ok ((0, JNull), s') ∧ maps_of (vw s') (op_run o l) ∧ sent s' = sent s ++ op_broadcast o.
Proof.
  intros -> Hm Hs. destruct (delete_sql _ l m Hs) as (V' & Hv & HV).
  eexists (with_conn (mldb_delete (sysConfig s) _ _) s). split; [|split; [cbn [with_conn sysConfig]; by rewrite (delete_spec _ _ _ _ Hv)|by rewrite app_nil_r]].
  unfold Delete_Map. rewrite run_bind. unfold body_int at 1. by rewrite (run_lift _ m) by by apply JV_TO_INT_find.
Qed.
Lemma rename_run o m name l s : o = ORename m name → op_ok o → maps_of (vw s) l → ∃ s',
  Edit_MapName (JObj (map_request o)) JNull s = Ok ((0, JNull), s') ∧ maps_of (vw s') (op_run o l) ∧ sent s' = sent s ++ op_broadcast o.
Proof.
  intros -> (Hm & Hml & Hn & Hl) Hs. destruct (rename_sql _ l m name Hs Hn) as (V' & Hv & HV).
  eexists (with_conn (mldb_update (sysConfig s) _ _ _) s). split; [|split; [cbn [with_conn sysConfig]; by rewrite (update_spec _ _ _ _ _ Hv)|by rewrite app_nil_r]].
  unfold Edit_MapName. rewrite run_bind. unfold body_int at 1. rewrite (run_lift _ m) by by apply JV_TO_INT_find. cbn beta iota.
  rewrite run_bind. unfold body_string at 1. rewrite (run_lift _ name) by done. cbn beta iota.
  rewrite run_bind, fits by (rewrite slength_app, quoted_length by done; cbn [String.length]; lia). cbn beta iota.
  rewrite run_bind, fits by (rewrite !slength_app; cbn [String.length]; lia). cbn beta iota. rewrite quoted_plain by done. done.
Qed.
Lemma query_run fuel l s : (length l < fuel)%nat → maps_of (vw s) l →
  Query_Map fuel (JObj (map_request OQuery)) JNull s = Ok ((0, JObj [("map", JArr (entry_json <$> query_maps l))]), s).
Proof.
  intros Hf Hm. destruct (listed_query fuel l Hf) as [Hq Hlen]. unfold Query_Map. rewrite run_bind.
  pose proof (query_loop_run fuel [] s l Hm) as Hrun. change (Z.of_nat (length (@nil map_entry)) + 1) with 1 in Hrun. rewrite Hq in Hrun. cbn [fmap list_fmap with_list length] in Hrun.
  rewrite Hrun by done. cbn beta iota. rewrite app_nil_l. by destruct (query_maps l).
Qed.
Lemma op_step fuel o l s : op_ok o → (length l < fuel)%nat → maps_of (vw s) l → ∃ s',
  handle fuel (map_request o) s = Ok (Some (op_answer l o), s') ∧ maps_of (vw s') (op_run o l) ∧ sent s' = sent s ++ op_broadcast o.
Proof.
  intros Ho Hf Hm. destruct o as [m info data|m|m name|].
  - destruct (save_run _ m info data l s eq_refl Ho Hm) as (s' & Hr & H). exists s'. split; [|done]. by eapply request_run; [| |exact Hr|left].
  - destruct (delete_run _ m l s eq_refl Ho Hm) as (s' & Hr & H). exists s'. split; [|done]. by eapply request_run; [| |exact Hr|left].
  - destruct (rename_run _ m name l s eq_refl Ho Hm) as (s' & Hr & H). exists s'. split; [|done]. by eapply request_run; [| |exact Hr|left].
  - exists s. split_and!; [|done|by rewrite app_nil_r]. by eapply request_run; [| |by apply query_run|left].
Qed.

(** Requests one after the other, and their answers. *)
Fixpoint serve (fuel : nat) (reqs : list (list (string * json))) : ST DbServer (list json) :=
  match reqs with
  | [] => mret []
  | r :: reqs' => a ← DbServer_OnDpMessage fuel "DP_DB_REQUEST" TYPE_REQUEST (true, JObj r); l ← serve fuel reqs'; mret (option_list a ++ l)
  end.
Fixpoint op_answers (l : list map_entry) (ops : list map_op) : list json :=
  match ops with [] => [] | o :: ops' => op_answer l o :: op_answers (op_run o l) ops' end.
Lemma op_run_length o l : (length (op_run o l) <= S (length l))%nat.
Proof.
  destruct o; cbn [op_run]; unfold save_map, delete_map, rename_map.
  - rewrite length_app. simpl. lia.
  - etrans; [apply filter_length_le|lia].
  - rewrite length_map. lia.
  - simpl. lia.
Qed.
Lemma serve_run fuel ops l s : Forall op_ok ops → (length l + length ops < fuel)%nat → maps_of (vw s) l → ∃ s',
  serve fuel (map_request <$> ops) s = Ok (op_answers l ops, s') ∧ maps_of (vw s') (foldl (λ l o, op_run o l) l ops) ∧
  sent s' = sent s ++ (ops ≫= op_broadcast).
Proof.
  intros Hops. revert l s. induction Hops as [|o ops Ho Hops IH]; intros l s Hf Hm.
  { exists s. split_and!; [done|done|by rewrite app_nil_r]. }
  cbn [length] in Hf. destruct (op_step fuel o l s Ho ltac:(lia) Hm) as (s1 & H1 & Hm1 & Hs1). pose proof (op_run_length o l).
  destruct (IH (op_run o l) s1 ltac:(lia) Hm1) as (s2 & H2 & Hm2 & Hs2). exists s2. split_and!; [|done|].
  - rewrite fmap_cons. cbn [serve op_answers foldl]. rewrite run_bind, H1. cbn beta iota. by rewrite run_bind, H2.
  - rewrite Hs2, Hs1, <-app_assoc. done.
Qed.
Lemma op_answers_app l ops ops' : op_answers l (ops ++ ops') = op_answers l ops ++ op_answers (foldl (λ l o, op_run o l) l ops) ops'.
Proof. revert l. induction ops as [|o ops IH]; intros l; [done|]. cbn [app op_answers foldl]. by rewrite IH. Qed.
Definition saves (ms : list (Z * string * string)) : list map_op := (λ d, OSave d.1.1 d.1.2 d.2) <$> ms.
Lemma run_saves ms l : foldl (λ l o, op_run o l) l (saves ms) = save_all l ms.
Proof. revert l. induction ms as [|d ms IH]; intros l; [done|]. apply IH. Qed.

(** C8. The requests on saved maps implement a list of maps, as long as the numbers
    are ints, no text has a quote in it and the statements fit their buffers: the
    two paths of a save have 179 characters together at most, the name of a rename
    38 and its map number, printed, 10.  For any sequence of such save, delete,
    rename and query requests the server answers what the list gives, its loop
    ends, and it leaves the table of the final list; a query lists the maps before
    the first number that is missing, and only a save is broadcast. *)
Theorem maps_refine fuel ops l s : Forall op_ok ops → (length l + length ops < fuel)%nat → maps_of (vw s) l → ∃ s',
  serve fuel (map_request <$> ops) s = Ok (op_answers l ops, s') ∧ maps_of (vw s') (foldl (λ l o, op_run o l) l ops) ∧
  sent s' = sent s ++ (ops ≫= op_broadcast).
Proof. apply serve_run. Qed.

(** After a map that is not the newest is deleted, query_map lists only the maps
    saved before it: the loop ends at the first row that is missing, and later
    saves do not fill the hole. *)
Theorem deleted_map_hides fuel ms k d later s : Forall op_ok (saves ms ++ saves later) → NoDup (ms.*1.*1) → ms !! k = Some d →
  (S k < length ms)%nat → (length ms + length later + 2 < fuel)%nat → maps_of (vw s) [] → ∃ l s',
  serve fuel (map_request <$> (saves ms ++ [ODelete d.1.1] ++ saves later ++ [OQuery])) s = Ok (l, s') ∧
  last l = Some (answer 0 "query_map" (JObj [("map", JArr (entry_json <$> take k (saved ms)))])).
Proof.
  intros Hops Hnd Hk Hlt Hf Hm. apply Forall_app in Hops as [Hms Hlater].
  assert (Forall (λ d, in_s 32 d.1.1) ms) as Hin by (unfold saves in Hms; rewrite Forall_fmap in Hms; eapply Forall_impl; [exact Hms|]; by intros d' [H _]).
  destruct (serve_run fuel (saves ms ++ [ODelete d.1.1] ++ saves later ++ [OQuery]) [] s) as (s' & H & _); [| |done|].
  - rewrite !Forall_app. split_and!; [done| |done|by repeat constructor]. constructor; [|done]. rewrite Forall_forall in Hin. by apply Hin, (list_elem_of_lookup_2 _ k).
  - rewrite !length_app. unfold saves. rewrite !length_fmap. simpl. lia.
  - eexists _, s'. split; [exact H|]. rewrite !app_assoc, op_answers_app, last_app. cbn [op_answers last]. do 2 f_equal.
    rewrite !foldl_app, !run_saves, save_all_saved. cbn [foldl op_run]. unfold op_answer. by rewrite (delete_hides ms later k d).
Qed.
End maps.

(** Three maps are saved, the second is deleted: the third is not listed. *)
Definition ref_maps : DbServer := ref_server [(TABLE_NETWORK_MAPPATH, map_table)].
Lemma ref_maps_of : maps_of (view (sysConfig ref_maps)) [].
Proof. split; [split; constructor|]. exists 0. reflexivity. Qed.
Definition ref_ops : list map_op := [OSave 7 "a" "b"; OSave 8 "c" "d"; OSave 9 "e" "f"; ODelete 8; ORename 9 "hall"; OQuery].
Lemma maps_refine_witness : ∃ s', serve 20 (map_request <$> ref_ops) ref_maps = Ok (op_answers [] ref_ops, s') ∧
  maps_of (view (sysConfig s')) [MapEntry 1 7 "" "a" "b"; MapEntry 3 9 "hall" "e" "f"].
Proof.
  destruct (maps_refine 20 ref_ops [] ref_maps) as (s' & H & Hm & _); [|simpl; lia|apply ref_maps_of|exists s'; split; [exact H|exact Hm]].
  repeat constructor; try done; apply (bool_decide_unpack _); vm_compute; exact I.
Defined.
Lemma deleted_map_hides_witness : ∃ l s', serve 20 (map_request <$> [OSave 7 "a" "b"; OSave 8 "c" "d"; OSave 9 "e" "f"; ODelete 8;
  OSave 10 "g" "h"; OQuery]) ref_maps = Ok (l, s') ∧
  last l = Some (answer 0 "query_map" (JObj [("map", JArr [entry_json (MapEntry 1 7 "" "a" "b")])])).
Proof.
  apply (deleted_map_hides 20 [(7, "a", "b"); (8, "c", "d"); (9, "e", "f")] 1 (8, "c", "d") [(10, "g", "h")]); [| |reflexivity|simpl; lia..|apply ref_maps_of].
  - repeat constructor; try done; apply (bool_decide_unpack _); vm_compute; exact I.
  - apply (bool_decide_unpack _); vm_compute; exact I.
Defined.
