(* ===== verification/DbTimings.v ===== *)
(** * The week and the zones of the database server

    The round trips of set_timing_clean_cfg and get_timing_clean_cfg, and of
    set_zone_cfg and get_zone_cfg. *)

From S2P Require Import Prelude Float Json JsonText Mldb DbBase DbNetwork DbPeripheral DpMessage DbServer SqlTexts MldbRef DbTheorems DbMaps.
From Stdlib Require Import Ascii.
From stdpp Require Import pretty.
#[local] Open Scope Z_scope.

(** ** The days of the week *)
Definition id_rows (i : Z) (t : table) : list row := List.filter (matches ("id", pretty i)) (rows t).
Definition day_keys : list string := ["day"; "enable"; "start_time"].
(** A row for each of the seven days. *)
Definition days_of (t : table) (ds : list (list Z)) : Prop :=
  cols t = [("id", "INTEGER"); ("day", "INT"); ("enable", "INT"); ("start_time", "INT")] ∧ length ds = 7%nat ∧
  ∀ i d, ds !! i = Some d → length d = 3%nat ∧
    id_rows (Z.of_nat i + 1) t = [("id", pretty (Z.of_nat i + 1)) :: zip day_keys (pretty <$> d)].
Definition day_json (d : list Z) : json := JObj (zip day_keys (JInt <$> d)).

Lemma filter_assign_ne k v v' l rs : k ∉ l.*1 → v ≠ v' →
  List.filter (matches (k, v')) (map (λ r, if matches (k, v) r then assign l r else r) rs) = List.filter (matches (k, v')) rs.
Proof.
  intros Hk Hv. induction rs as [|r rs IH]; [done|]. cbn [map List.filter]. rewrite IH. destruct (matches (k, v) r) eqn:Hm; [|done].
  unfold matches in *. cbn [fst snd] in *. rewrite aget_assign by done. apply bool_decide_eq_true in Hm. rewrite Hm.
  rewrite bool_decide_false; [done|]. by intros [= ->].
Qed.

Section timings.
Context {M : Mldb} {J : JsonText} {R : RealFormat} {Y : YamlCpp} {Sp : MldbSpec M J}.
Implicit Types s : DbServer.
Abbreviation vw s := (view (sysConfig s)).
Definition week (V : tables) (ds : list (list Z)) : Prop := ∃ t, V !! TABLE_NETWORK_TIMINGCLEANCFG = Some t ∧ days_of t ds.

Lemma set_day_sql V ds i d : week V ds → (i < 7)%nat → length d = 3%nat → ∃ V',
  sql_update real_text V TABLE_NETWORK_TIMINGCLEANCFG (assigns (zip day_keys d)) (id_is i) = Some V' ∧ week V' (<[i := d]> ds) ∧
  ∀ t, t ≠ TABLE_NETWORK_TIMINGCLEANCFG → V' !! t = V !! t.
Proof.
  intros (t & Ht & Hc & Hlen & Hds) Hi Hd. destruct d as [|z1 [|z2 [|z3 [|]]]]; try done. eexists. split_and!.
  - eapply sql_update_eq; [exact Ht|apply read_set_assigns; [done|]|apply (read_where_int _ "id" _ "INTEGER"); [done|by rewrite Hc|by right]].
    rewrite Hc. by repeat constructor.
  - eexists. rewrite lookup_insert_eq. split; [done|]. split; [done|]. split; [by rewrite length_insert|]. intros j d' Hj.
    unfold id_rows, set_rows. cbn [rows]. destruct (decide (i = j)) as [<-|Hne].
    + rewrite list_lookup_insert_eq in Hj by lia. injection Hj as <-. split; [done|]. destruct (lookup_lt_is_Some_2 ds i) as [d0 Hd0]; [lia|].
      destruct (Hds _ _ Hd0) as [Hl0 Hr0]. unfold id_rows in Hr0. rewrite filter_assign, Hr0; [|by vm_compute; set_solver].
      destruct d0 as [|y1 [|y2 [|y3 [|]]]]; done.
    + rewrite list_lookup_insert_ne in Hj by done. destruct (Hds _ _ Hj) as [Hl0 Hr0]. split; [done|].
      rewrite filter_assign_ne; [done|by vm_compute; set_solver|]. intros Heq%(inj pretty). lia.
  - intros t' Ht'. by rewrite lookup_insert_ne.
Qed.

Lemma set_day_run vs i v d ds s : vs !! i = Some v → ints_body day_keys d v → Forall (in_s 32) d → week (vw s) ds → (i < 7)%nat →
  ∃ s', set_day (JArr vs) i s = Ok (tt, s') ∧ week (vw s') (<[i := d]> ds) ∧ sent s' = sent s ∧
    ∀ t, t ≠ TABLE_NETWORK_TIMINGCLEANCFG → vw s' !! t = vw s !! t.
Proof.
  intros Hv Hd Hin Hw Hi. assert (length d = 3%nat) as Hl by (by destruct Hd as (l & _ & H%Forall2_length)).
  destruct (set_day_sql _ ds i d Hw Hi Hl) as (V' & Hu & Hw' & Hf). destruct d as [|z1 [|z2 [|z3 [|]]]]; try done.
  destruct Hd as (l & -> & Hk). do 3 (apply Forall2_cons in Hk as [? Hk]). pose proof Hin as Hin'. do 3 (apply Forall_cons in Hin as [? Hin]).
  exists (with_conn (mldb_update (sysConfig s) TABLE_NETWORK_TIMINGCLEANCFG (assigns (zip day_keys [z1; z2; z3])) (id_is i)) s).
  cbn [with_conn sysConfig sent]. rewrite (update_spec _ _ _ _ _ Hu). split_and!; [|done|done|done].
  unfold set_day. rewrite run_bind, (run_lift _ (JObj l)) by (simpl; by rewrite Hv). cbn beta iota.
  do 3 (rewrite run_bind; erewrite run_lift by (apply JV_TO_INT_find; eassumption); cbn beta iota).
  rewrite run_bind, fits; [done|].
  pose proof (assigns_length day_keys [z1; z2; z3] 60 eq_refl Hin' ltac:(unfold day_keys; simpl; lia)) as Hlen. eapply Nat.le_lt_trans; [exact Hlen|lia].
Qed.
Lemma days_run vs new ds s : Forall2 (ints_body day_keys) new vs → Forall (Forall (in_s 32)) new → (length new <= 7)%nat → week (vw s) ds →
  ∃ s', iterM (set_day (JArr vs)) (seq 0 (length vs)) s = Ok (tt, s') ∧ week (vw s') (new ++ drop (length new) ds) ∧ sent s' = sent s ∧
    ∀ t, t ≠ TABLE_NETWORK_TIMINGCLEANCFG → vw s' !! t = vw s !! t.
Proof.
  intros Hb Hin Hl Hw. assert (length ds = 7%nat) as Hds by (by destruct Hw as (t & _ & _ & H & _)). pose proof (Forall2_length _ _ _ Hb) as Hlen.
  assert (∀ k i s, (i + k = length vs)%nat → week (vw s) (take i new ++ drop i ds) → ∃ s', iterM (set_day (JArr vs)) (seq i k) s = Ok (tt, s') ∧
    week (vw s') (new ++ drop (length new) ds) ∧ sent s' = sent s ∧ ∀ t, t ≠ TABLE_NETWORK_TIMINGCLEANCFG → vw s' !! t = vw s !! t) as Hrun.
  { intros k. clear s Hw. induction k as [|k IH]; intros i s Hi Hw.
    { exists s. split_and!; try done. by replace i with (length new) in Hw by lia; rewrite firstn_all in Hw. }
    destruct (lookup_lt_is_Some_2 new i) as [d Hd]; [lia|]. destruct (Forall2_lookup_l _ _ _ _ _ Hb Hd) as (v & Hv & Hbd).
    destruct (set_day_run vs i v d _ s Hv Hbd (Forall_lookup_1 _ _ _ _ Hin Hd) Hw ltac:(lia)) as (s1 & H1 & Hw1 & Hs1 & Hf1).
    destruct (IH (S i) s1 ltac:(lia)) as (s2 & H2 & Hw2 & Hs2 & Hf2).
    { erewrite take_S_r by done. rewrite <-app_assoc. destruct (lookup_lt_is_Some_2 ds i) as [d0 Hd0]; [lia|].
      erewrite drop_S in Hw1 by done. replace i with (length (take i new) + 0)%nat in Hw1 at 1 by (rewrite length_take; lia).
      rewrite insert_app_r in Hw1. exact Hw1. }
    exists s2. split_and!; [|done|congruence|intros t Ht; by rewrite Hf2, Hf1]. cbn [seq iterM]. by rewrite run_bind, H1. }
  apply (Hrun (length vs) 0%nat s); [lia|]. exact Hw.
Qed.

(** What a request says of the week: whether it is used, and the days. *)
Definition week_body (mode enable : Z) (new : list (list Z)) (b : list (string * json)) : Prop :=
  jfind "mode" b = Some (JInt mode) ∧ jfind "enable" b = Some (JInt enable) ∧
  ∃ vs, jfind "days" b = Some (JArr vs) ∧ Forall2 (ints_body day_keys) new vs.
Definition week_json (mode enable : Z) (ds : list (list Z)) : json :=
  JObj [("mode", JInt mode); ("enable", JInt enable); ("days", JArr (day_json <$> ds))].
Definition on_off (V : tables) (mode enable : Z) : Prop := int_row V TABLE_NETWORK_TIMINGCLEANONOFF ["mode"; "enable"] [mode; enable].

Lemma set_week_run jl b mode enable new old ds s : jfind "body" jl = Some (JObj b) → week_body mode enable new b →
  in_s 32 mode → in_s 32 enable → Forall (Forall (in_s 32)) new → (length new <= 7)%nat →
  on_off (vw s) old.1 old.2 → week (vw s) ds → ∃ s',
  Set_Timing_Clean_Cfg (JObj jl) JNull s = Ok ((0, JNull), s') ∧ on_off (vw s') mode enable ∧ week (vw s') (new ++ drop (length new) ds) ∧
  sent s' = sent s ++ [("DP_DB_BROADCAST", JObj jl)].
Proof.
  intros Hb (Hm & He & vs & Hd & Hvs) Hmi Hei Hin Hl Ho Hw.
  destruct (update_ints (vw s) TABLE_NETWORK_TIMINGCLEANONOFF ["mode"; "enable"] [mode; enable] [old.1; old.2]) as (V' & Hu & Ho' & Hf); [|done|done|].
  { split_and!; [done|apply (bool_decide_unpack _); vm_compute; exact I|by repeat constructor]. }
  set (s1 := with_conn (mldb_update (sysConfig s) TABLE_NETWORK_TIMINGCLEANONOFF (assigns (zip ["mode"; "enable"] [mode; enable])) "id=1") s).
  pose proof (update_spec _ _ _ _ _ Hu) as Hv.
  destruct (days_run vs new ds s1 Hvs Hin Hl) as (s2 & H2 & Hw2 & Hs2 & Hf2).
  { unfold week. cbn [s1 with_conn sysConfig]. rewrite Hv, Hf by done. exact Hw. }
  exists (mkDbServer (sysConfig s2) (sent s2 ++ [("DP_DB_BROADCAST", JObj jl)])). split_and!.
  - unfold Set_Timing_Clean_Cfg. assert (∀ k z, jfind k b = Some (JInt z) → in_s 32 z → body_int (JObj jl) k s = Ok (z, s)) as Hk.
    { intros k z Hk Hz. unfold body_int. apply run_lift. simpl. rewrite Hb. simpl. by apply JV_TO_INT_find. }
    rewrite run_bind, (Hk _ _ Hm Hmi). cbn beta iota. rewrite run_bind, (Hk _ _ He Hei). cbn beta iota. rewrite run_bind, fits.
    2: { pose proof (assigns_length ["mode"; "enable"] [mode; enable] 50 eq_refl
           (Forall_cons_2 _ _ _ Hmi (Forall_cons_2 _ _ _ Hei (Forall_nil_2 _))) ltac:(simpl; lia)) as Hlen.
         eapply Nat.le_lt_trans; [exact Hlen|lia]. }
    cbn beta iota. unfold update_rows. rewrite run_bind, run_sql_run. cbn beta iota.
    rewrite run_bind, (run_lift _ (JArr vs)) by (simpl; rewrite Hb; simpl; by rewrite Hd). cbn beta iota. cbn [jsize].
    rewrite run_bind. change (iterM ?f ?l _) with (iterM f l s1). rewrite H2. cbn beta iota. rewrite run_bind, (run_lift _ (JObj jl)); [done|].
    unfold jtouch2. cbn [jkey]. rewrite Hb. cbn [default from_option id mbind res_bind]. rewrite (jtouch_same "days" (JArr vs) b Hd). cbn [mbind res_bind jset].
    by rewrite jput_same.
  - cbn [sysConfig]. unfold on_off, int_row. rewrite Hf2 by done. cbn [s1 with_conn sysConfig]. rewrite Hv. exact Ho'.
  - exact Hw2.
  - cbn [sent]. by rewrite Hs2.
Qed.

Lemma get_days_run pre ds s n : jfind "days" pre = None → week (vw s) ds → Forall (Forall (in_s 32)) ds → ∀ i, (i + n = 7)%nat →
  get_days n i (with_list pre "days" (day_json <$> take i ds)) s = Ok (Some (with_list pre "days" (day_json <$> ds)), s).
Proof.
  intros Hpre (t & Ht & Hc & Hlen & Hds) Hin. induction n as [|n IH]; intros i Hi.
  { cbn [get_days]. by rewrite firstn_all2 by lia. }
  destruct (lookup_lt_is_Some_2 ds i) as [d Hd]; [lia|]. destruct (Hds i d Hd) as [Hl Hr]. pose proof (Forall_lookup_1 _ _ _ _ Hin Hd) as Hz.
  cbn [get_days]. rewrite run_bind.
  destruct (select_run TABLE_NETWORK_TIMINGCLEANCFG (id_is i) s [("id", pretty (Z.of_nat i + 1)) :: zip day_keys (pretty <$> d)]) as (o & -> & Ho).
  { erewrite sql_select_eq; [|exact Ht|apply (read_where_int _ "id" _ "INTEGER"); [done|by rewrite Hc|by right]]. by f_equal. }
  cbn beta iota. rewrite run_bind, (run_lift _ _ _ (found_run o _ Ho)). cbn [fmap list_fmap length Nat.eqb negb].
  destruct d as [|z1 [|z2 [|z3 [|]]]]; try done. do 3 (apply Forall_cons in Hz as [? Hz]).
  rewrite run_bind, (run_lift _ (with_list pre "days" (day_json <$> take (S i) ds))); [cbn beta iota; apply IH; lia|].
  unfold get_int. cbn [snd]. rewrite !(get_text_run o _ [] _ Ho). erewrite take_S_r by exact Hd. rewrite fmap_app.
  assert (length (day_json <$> take i ds) = i) as Hli by (rewrite length_fmap, length_take; lia). revert Hli. generalize (day_json <$> take i ds).
  intros l <-. change (default "" (aget "day" _)) with (pretty z1).
  change (default "" (aget "enable" _)) with (pretty z2). change (default "" (aget "start_time" _)) with (pretty z3).
  cbn [mbind res_bind]. rewrite !stoi_pretty by done. cbn [mbind res_bind]. rewrite jset3_new by done.
  cbn [mbind res_bind]. do 2 (rewrite jset3_more by done; cbn [mbind res_bind]). done.
Qed.
Lemma get_week_run jreq mode enable ds s : in_s 32 mode → in_s 32 enable → on_off (vw s) mode enable → week (vw s) ds →
  Forall (Forall (in_s 32)) ds → Get_Timing_Clean_Cfg jreq JNull s = Ok ((0, week_json mode enable ds), s).
Proof.
  intros Hm He (tab & Ht & Hc & Hr & _) Hw Hin. unfold Get_Timing_Clean_Cfg. rewrite run_bind.
  destruct (select_run TABLE_NETWORK_TIMINGCLEANONOFF "id=1" s _
    (sql_select_eq _ _ _ _ _ Ht (where_id1 tab ["mode"; "enable"] Hc))) as (o & -> & Ho).
  rewrite Hr in Ho. cbn beta iota. rewrite run_bind, (run_lift _ _ _ (found_run o _ Ho)). cbn [fmap list_fmap length Nat.eqb negb snd].
  rewrite run_bind, (run_lift _ (JObj [("mode", JInt mode); ("enable", JInt enable)])).
  - cbn beta iota. pose proof (get_days_run [("mode", JInt mode); ("enable", JInt enable)] ds s 7 eq_refl Hw Hin 0%nat eq_refl) as Hg.
    rewrite run_bind. change (with_list _ _ _) with (JObj [("mode", JInt mode); ("enable", JInt enable)]) in Hg at 1. rewrite Hg.
    destruct Hw as (t & _ & _ & Hlen & _). by destruct ds.
  - cbn [same fmap list_fmap copy_ints]. unfold get_int. rewrite !(get_text_run o _ [] _ Ho).
    change (default "" (aget "mode" _)) with (pretty mode). change (default "" (aget "enable" _)) with (pretty enable).
    cbn [mbind res_bind jset]. rewrite !stoi_pretty by done. done.
Qed.
Abbreviation handle fuel jreq s := (DbServer_OnDpMessage fuel "DP_DB_REQUEST" TYPE_REQUEST (true, JObj jreq) s).

(** C17. The timing of the week: after set_timing_clean_cfg with up to seven days,
    get_timing_clean_cfg answers the mode, the switch and those days, and the
    days that were not sent as they were before; one broadcast is sent. *)
Theorem week_roundtrip fuel jl gl b mode enable new old ds s :
  jfind "type" jl = Some (JStr "set_timing_clean_cfg") → jfind "body" jl = Some (JObj b) → jfind "type" gl = Some (JStr "get_timing_clean_cfg") →
  week_body mode enable new b → in_s 32 mode → in_s 32 enable → Forall (Forall (in_s 32)) new → (length new <= 7)%nat →
  on_off (vw s) old.1 old.2 → week (vw s) ds → Forall (Forall (in_s 32)) ds → ∃ s',
  handle fuel jl s = Ok (Some (answer 0 "set_timing_clean_cfg" JNull), s') ∧
  handle fuel gl s' = Ok (Some (answer 0 "get_timing_clean_cfg" (week_json mode enable (new ++ drop (length new) ds))), s') ∧
  sent s' = sent s ++ [("DP_DB_BROADCAST", JObj jl)].
Proof.
  intros Ht Hb Hg Hbody Hm He Hin Hl Ho Hw Hds. destruct (set_week_run jl b mode enable new old ds s) as (s' & Hr & Ho' & Hw' & Hs'); try done.
  exists s'. split_and!; [| |done].
  - by eapply request_run; [| |exact Hr|left].
  - eapply request_run; [done|reflexivity| |by left]. apply get_week_run; try done. apply Forall_app. split; [done|]. by apply Forall_drop.
Qed.
End timings.

(** The week of the default settings, and a request for two of its days. *)
Definition ref_week_row (i d : Z) : row := [("id", pretty i); ("day", pretty d); ("enable", "0"); ("start_time", "0")].
Definition ref_week : DbServer := ref_server
  [(TABLE_NETWORK_TIMINGCLEANONOFF, one_row "id INTEGER PRIMARY KEY,mode INT DEFAULT 0,enable INT DEFAULT 0" [("mode", "0"); ("enable", "0")]);
   (TABLE_NETWORK_TIMINGCLEANCFG, set_rows (λ _, (λ i : Z, ref_week_row i (i mod 7)) <$> [1; 2; 3; 4; 5; 6; 7])
      (new_table "id INTEGER PRIMARY KEY,day INT DEFAULT 0,enable INT DEFAULT 0,start_time INT DEFAULT 0"))].
Definition ref_week_body : list (string * json) :=
  [("mode", JInt 1); ("enable", JInt 1); ("days", JArr [day_json [1; 1; 28800]; day_json [2; 0; 0]])].
Lemma ref_week_body_ok : week_body 1 1 [[1; 1; 28800]; [2; 0; 0]] ref_week_body.
Proof.
  split; [done|]. split; [done|]. eexists. split; [reflexivity|]. constructor; [|constructor; [|constructor]]; (eexists; split; [reflexivity|]; by repeat constructor).
Qed.
Definition ref_days : list (list Z) := [[1; 0; 0]; [2; 0; 0]; [3; 0; 0]; [4; 0; 0]; [5; 0; 0]; [6; 0; 0]; [0; 0; 0]].
Lemma ref_week_ok : on_off (view (sysConfig ref_week)) 0 0 ∧ week (view (sysConfig ref_week)) ref_days.
Proof.
  split.
  - eexists. split; [vm_compute; reflexivity|]. split; [done|]. split; [vm_compute; reflexivity|done].
  - eexists. split; [vm_compute; reflexivity|]. split; [done|]. split; [done|]. intros i d Hi.
    do 7 (destruct i as [|i]; [injection Hi as <-; split; [done|vm_compute; reflexivity]|]). done.
Qed.
Lemma week_roundtrip_witness : ∃ s', DbServer_OnDpMessage 1 "DP_DB_REQUEST" TYPE_REQUEST (true, JObj (ref_request "get_timing_clean_cfg" [])) s' =
  Ok (Some (answer 0 "get_timing_clean_cfg"
    (week_json 1 1 [[1; 1; 28800]; [2; 0; 0]; [3; 0; 0]; [4; 0; 0]; [5; 0; 0]; [6; 0; 0]; [0; 0; 0]])), s').
Proof.
  destruct (week_roundtrip 1 (ref_request "set_timing_clean_cfg" ref_week_body) (ref_request "get_timing_clean_cfg" []) ref_week_body
    1 1 [[1; 1; 28800]; [2; 0; 0]] (0, 0) ref_days ref_week)
    as (s' & _ & H & _); try reflexivity.
  - apply ref_week_body_ok.
  - done.
  - done.
  - apply (bool_decide_unpack _). vm_compute. exact I.
  - simpl. lia.
  - apply ref_week_ok.
  - apply ref_week_ok.
  - apply (bool_decide_unpack _). vm_compute. exact I.
  - exists s'. exact H.
Defined.

(** ** The zones of a map *)
Definition zone_table : table := new_table ("id INTEGER PRIMARY KEY,map_id INT DEFAULT 0,room TEXT NOT NULL,virtual_wall INT DEFAULT 0,"
  +:+ "virtual_forbidden_zone TEXT NOT NULL,virtual_threshold TEXT NOT NULL").
Definition zones_ready (V : tables) : Prop := ∃ t, V !! TABLE_NETWORK_ZONECFG = Some t ∧ cols t = cols zone_table ∧ uniq t = false.
Definition zone_rows (V : tables) (m : Z) : list row :=
  match V !! TABLE_NETWORK_ZONECFG with Some t => List.filter (matches ("map_id", pretty m)) (rows t) | None => [] end.

Section zones.
Context {M : Mldb} {J : JsonText} {R : RealFormat} {Y : YamlCpp} {Sp : MldbSpec M J}.
Implicit Types s : DbServer.
Abbreviation vw s := (view (sysConfig s)).

(** A value whose text is read back, has no quotes and is not taken for a number. *)
Definition text_value (v : json) : Prop :=
  jparse (toSimpleString v) = (true, v) ∧ plain (toSimpleString v) = true ∧ wordlike (toSimpleString v) = true.
Definition zone_reply (m : Z) (l : list row) : json :=
  JObj (("map_id", JInt m) :: ((λ k, (k, match l with [] => JArr [] | r :: _ => (String2Json (default "" (aget k r))).2 end)) <$> zone_keys)).

Lemma get_zone_run jl b m s l : jfind "body" jl = Some (JObj b) → jfind "map_id" b = Some (JInt m) → in_s 32 m →
  zones_ready (vw s) → zone_rows (vw s) m = l → Get_Zone_Cfg (JObj jl) JNull s = Ok ((0, zone_reply m l), s).
Proof.
  intros Hb Hm Hin (t & Ht & Hc & _) Hl. unfold zone_rows in Hl. rewrite Ht in Hl. unfold Get_Zone_Cfg. rewrite run_bind. unfold body_int at 1.
  cbn [jkey]. rewrite Hb. cbn [default from_option id mbind res_bind]. rewrite (run_lift _ m) by by apply JV_TO_INT_find. cbn beta iota. rewrite run_bind.
  destruct (select_run TABLE_NETWORK_ZONECFG ("map_id=" +:+ pretty m) s l) as (o & -> & Ho).
  { erewrite sql_select_eq; [by rewrite Hl|exact Ht|apply (read_where_int _ "map_id" m "INT"); [done|by rewrite Hc|by left]]. }
  cbn beta iota. rewrite run_bind, (run_lift _ _ _ (found_run o _ Ho)). cbn beta iota. rewrite run_bind, (run_lift _ (JObj [("map_id", JInt m)])) by done.
  cbn beta iota. rewrite length_fmap. destruct l as [|r l]; [done|]. cbn [length Nat.eqb negb snd]. rewrite run_bind, (run_lift _ (zone_reply m (r :: l))); [done|].
  cbn [copy_zones zone_keys]. rewrite !(get_text_run o r l _ Ho). reflexivity.
Qed.

Definition zone_row (i m : Z) (vs : list json) : row :=
  ("id", pretty i) :: ("map_id", pretty m) :: zip zone_keys (toSimpleString <$> vs).
Lemma insert_zone t ai last rs m vs : t = set_rows (λ _, rs) (mkTable (cols zone_table) ai false last []) → Forall text_value vs → length vs = 4%nat →
  let i := 1 + Z.max (max_id rs) (if ai then last else 0) in
  insert_into real_text t (trim <$> fields false "map_id,room,virtual_wall,virtual_forbidden_zone,virtual_threshold")
    (LInt m :: (LText ∘ toSimpleString <$> vs)) = Some (mkTable (cols zone_table) ai false i (rs ++ [zone_row i m vs])).
Proof.
  intros -> Hvs Hlen i. destruct vs as [|v1 [|v2 [|v3 [|v4 [|]]]]]; try done. do 4 (apply Forall_cons in Hvs as [(? & ? & ?) Hvs]).
  unfold insert_into, set_rows. cbn [cols uniq autoinc last_id rows].
  assert (read_row real_text (mkTable (cols zone_table) ai false last rs) (trim <$> fields false "map_id,room,virtual_wall,virtual_forbidden_zone,virtual_threshold")
    (LInt m :: (LText ∘ toSimpleString <$> [v1; v2; v3; v4])) = Some (("map_id", pretty m) :: zip zone_keys (toSimpleString <$> [v1; v2; v3; v4]))) as ->.
  { assert (stored_text real_text "INT" (LText (toSimpleString v2)) = Some (toSimpleString v2)) as Hs.
    { change (stored_text real_text "INT" (LText ?w)) with (if bool_decide (is_Some (read_int w)) || wordlike w then Some w else None).
      by rewrite H4, orb_true_r. }
    unfold read_row. change (zip (trim <$> _) _) with [("map_id", LInt m); ("room", LText (toSimpleString v1)); ("virtual_wall", LText (toSimpleString v2));
      ("virtual_forbidden_zone", LText (toSimpleString v3)); ("virtual_threshold", LText (toSimpleString v4))].
    unfold mapM. change (aget "virtual_wall" _) with (Some "INT"). cbn [mbind option_bind]. rewrite Hs. done. }
  cbn [mbind option_bind]. rewrite !(bool_decide_true) by (apply (bool_decide_unpack _); vm_compute; exact I). done.
Qed.
Lemma zone_where t (m : Z) : cols t = cols zone_table → read_where t ("map_id=" +:+ pretty m) = Some ("map_id", pretty m).
Proof. intros Hc. apply (read_where_int t "map_id" m "INT"); [done|by rewrite Hc|by left]. Qed.
#[local] Opaque zone_table.
Lemma matches_zone i m m' vs : matches ("map_id", pretty m') (zone_row i m vs) = bool_decide (m' = m).
Proof.
  unfold matches, zone_row. cbn [aget fst snd]. destruct (decide ("map_id" = "id")) as [|_]; [done|].
  destruct (decide ("map_id" = "map_id")) as [_|]; [|done]. apply bool_decide_ext. split; [by intros [= ?%(inj pretty)]|by intros ->].
Qed.
Lemma set_zone_sql V m vs : zones_ready V → Forall text_value vs → length vs = 4%nat → ∃ V1 V2 i,
  sql_delete V TABLE_NETWORK_ZONECFG ("map_id=" +:+ pretty m) = Some V1 ∧
  sql_insert real_text V1 TABLE_NETWORK_ZONECFG "map_id,room,virtual_wall,virtual_forbidden_zone,virtual_threshold"
    (values_text (LInt m :: (LText ∘ toSimpleString <$> vs))) = Some V2 ∧
  zones_ready V2 ∧ zone_rows V2 m = [zone_row i m vs] ∧ (∀ m', m' ≠ m → zone_rows V2 m' = zone_rows V m') ∧
  ∀ t, t ≠ TABLE_NETWORK_ZONECFG → V2 !! t = V !! t.
Proof.
  intros ([c ai u last rs] & Ht & Hc & Hu) Hvs Hlen. cbn [cols uniq] in *. subst c u.
  set (t0 := mkTable (cols zone_table) ai false last rs) in *.
  set (t1 := set_rows (List.filter (λ r, negb (matches ("map_id", pretty m) r))) t0).
  set (i := 1 + Z.max (max_id (rows t1)) (if ai then last else 0)).
  exists (<[TABLE_NETWORK_ZONECFG := t1]> V), (<[TABLE_NETWORK_ZONECFG := mkTable (cols zone_table) ai false i (rows t1 ++ [zone_row i m vs])]>
    (<[TABLE_NETWORK_ZONECFG := t1]> V)), i.
  assert (∀ m', List.filter (matches ("map_id", pretty m')) (rows t1) = if decide (m' = m) then [] else List.filter (matches ("map_id", pretty m')) rs) as Hf.
  { intros m'. unfold t1, t0, set_rows. cbn [rows]. clear. induction rs as [|r rs IH]; [by case_decide|]. cbn [List.filter].
    destruct (matches ("map_id", pretty m) r) eqn:Hr; cbn [negb List.filter]; rewrite IH.
    - case_decide as Hm; [done|]. destruct (matches ("map_id", pretty m') r) eqn:Hr'; [|done]. destruct Hm. unfold matches in *.
      apply bool_decide_eq_true in Hr, Hr'. cbn [fst snd] in *. rewrite Hr in Hr'. by injection Hr' as <-%(inj pretty).
    - case_decide as Hm; [subst m'; by rewrite Hr|done]. }
  split_and!.
  - apply (sql_delete_eq V TABLE_NETWORK_ZONECFG t0 _ ("map_id", pretty m)); [exact Ht|by apply zone_where].
  - apply (sql_insert_eq _ _ _ t1 _ _ (LInt m :: (LText ∘ toSimpleString <$> vs))); [apply lookup_insert_eq| |].
    + destruct vs as [|v1 [|v2 [|v3 [|v4 [|]]]]]; try done. do 4 (apply Forall_cons in Hvs as [(? & ? & ?) Hvs]).
      by apply read_values_text; [|repeat constructor].
    + exact (insert_zone t1 ai last (rows t1) m vs eq_refl Hvs Hlen).
  - eexists. by rewrite lookup_insert_eq.
  - unfold zone_rows. rewrite lookup_insert_eq. cbn [rows]. rewrite List.filter_app, Hf, decide_True by done. cbn [List.filter app].
    by rewrite matches_zone, bool_decide_true.
  - intros m' Hm. unfold zone_rows. rewrite lookup_insert_eq, Ht. cbn [rows]. rewrite List.filter_app, Hf, decide_False by done. cbn [List.filter].
    rewrite matches_zone, bool_decide_false by done. by rewrite app_nil_r.
  - intros t Hne. by rewrite !lookup_insert_ne.
Qed.

Definition zone_body (m : Z) (vs b : list (string * json)) : Prop :=
  jfind "map_id" b = Some (JInt m) ∧ vs.*1 = zone_keys ∧ ∀ k v, (k, v) ∈ vs → jfind k b = Some v.
(** The length of the values that are printed. *)
Definition zone_length (m : Z) (vs : list json) : nat :=
  (String.length (pretty m) + 12 + list_sum ((λ v, String.length (toSimpleString v)) <$> vs))%nat.
Lemma zone_text_run jl b k v : jfind "body" jl = Some (JObj b) → jfind k b = Some v → zone_text (JObj jl) k = Ok (toSimpleString v, JObj jl).
Proof.
  intros Hb Hk. unfold zone_text, jtouch2. cbn [jkey]. rewrite Hb. cbn [default from_option id mbind res_bind jkey]. rewrite Hk.
  cbn [default from_option id mbind res_bind]. rewrite (jtouch_same k v b Hk). cbn [mbind res_bind jset]. by rewrite jput_same.
Qed.
(** The handler up to its second sprintf. *)
Lemma set_zone_start jl b m kvs s V1 jret : jfind "body" jl = Some (JObj b) → zone_body m kvs b → in_s 32 m →
  Forall text_value kvs.*2 → sql_delete (vw s) TABLE_NETWORK_ZONECFG ("map_id=" +:+ pretty m) = Some V1 → ∃ s1,
  vw s1 = V1 ∧ sent s1 = sent s ∧ Set_Zone_Cfg (JObj jl) jret s =
    (tempbuf ← lift (sprintf 2000 (values_text (LInt m :: (LText ∘ toSimpleString <$> kvs.*2))));
     insert_row TABLE_NETWORK_ZONECFG "map_id,room,virtual_wall,virtual_forbidden_zone,virtual_threshold" tempbuf;;
     broadcast (JObj jl);; mret (0, jret)) s1 ∧
  String.length (values_text (LInt m :: (LText ∘ toSimpleString <$> kvs.*2))) = zone_length m kvs.*2.
Proof.
  intros Hb (Hm & Hks & Hkv) Hin Hvs Hd. exists (with_conn (mldb_delete (sysConfig s) TABLE_NETWORK_ZONECFG ("map_id=" +:+ pretty m)) s).
  split; [by apply delete_spec|]. split; [done|].
  destruct kvs as [|[k1 v1] [|[k2 v2] [|[k3 v3] [|[k4 v4] [|]]]]]; try done. injection Hks as -> -> -> ->.
  do 4 (apply Forall_cons in Hvs as [(? & ? & ?) Hvs]).
  assert (∀ k v, (k, v) ∈ [("room", v1); ("virtual_wall", v2); ("virtual_forbidden_zone", v3); ("virtual_threshold", v4)] →
    zone_text (JObj jl) k = Ok (toSimpleString v, JObj jl)) as Ht by (intros k v Hkv'; eapply zone_text_run; [done|by apply Hkv]).
  pose proof (int_length m Hin) as Hlen. split.
  - unfold Set_Zone_Cfg. rewrite run_bind. unfold body_int at 1. cbn [jkey]. rewrite Hb. cbn [default from_option id mbind res_bind].
    rewrite (run_lift _ m) by by apply JV_TO_INT_find. cbn beta iota. rewrite run_bind, fits by (rewrite slength_app; cbn [String.length]; lia).
    cbn beta iota. unfold delete_rows. rewrite run_bind, run_sql_run. cbn beta iota.
    do 4 (rewrite run_bind; erewrite run_lift by (apply Ht; rewrite !elem_of_cons; naive_solver); cbn beta iota).
    unfold zone_values. rewrite !quoted_plain by done. reflexivity.
  - cbn [fmap list_fmap values_text lit_text snd compose]. rewrite !slength_app. unfold zone_length. cbn [fmap list_fmap list_sum foldr snd String.length]. lia.
Qed.
Abbreviation handle fuel jreq s := (DbServer_OnDpMessage fuel "DP_DB_REQUEST" TYPE_REQUEST (true, JObj jreq) s).
Definition zone_answer (m : Z) (kvs : list (string * json)) : json := answer 0 "get_zone_cfg" (JObj (("map_id", JInt m) :: kvs)).

Lemma get_zone_request fuel gl gb m s : jfind "type" gl = Some (JStr "get_zone_cfg") → jfind "body" gl = Some (JObj gb) →
  jfind "map_id" gb = Some (JInt m) → in_s 32 m → zones_ready (vw s) →
  handle fuel gl s = Ok (Some (answer 0 "get_zone_cfg" (zone_reply m (zone_rows (vw s) m))), s).
Proof. intros Hg Hb Hm Hin Hr. eapply request_run; [done|reflexivity| |by left]. by eapply get_zone_run. Qed.
Lemma zone_row_reply i m kvs : kvs.*1 = zone_keys → Forall text_value kvs.*2 →
  zone_reply m [zone_row i m kvs.*2] = JObj (("map_id", JInt m) :: kvs).
Proof.
  intros Hks Hvs. destruct kvs as [|[k1 v1] [|[k2 v2] [|[k3 v3] [|[k4 v4] [|]]]]]; try done. injection Hks as -> -> -> ->.
  do 4 (apply Forall_cons in Hvs as [(Hp & _) Hvs]; revert Hp). intros H4 H3 H2 H1. unfold zone_reply. do 2 f_equal.
  unfold zone_keys. cbn [fmap list_fmap]. unfold String2Json.
  change (default "" (aget "room" _)) with (toSimpleString v1). change (default "" (aget "virtual_wall" _)) with (toSimpleString v2).
  change (default "" (aget "virtual_forbidden_zone" _)) with (toSimpleString v3). change (default "" (aget "virtual_threshold" _)) with (toSimpleString v4).
  cbn [snd] in *. by rewrite H1, H2, H3, H4.
Qed.

(** The zones of a map: what set_zone_cfg stores, get_zone_cfg answers, and the
    answers for other maps stay the same.  The values are those whose text has
    no quotes and fits, and is read back by the JSON parser. *)
Theorem zones_roundtrip fuel jl gl b gb m kvs s :
  jfind "type" jl = Some (JStr "set_zone_cfg") → jfind "body" jl = Some (JObj b) → zone_body m kvs b → in_s 32 m → Forall text_value kvs.*2 →
  (zone_length m kvs.*2 < 2000)%nat → zones_ready (vw s) →
  jfind "type" gl = Some (JStr "get_zone_cfg") → jfind "body" gl = Some (JObj gb) → ∃ s',
  handle fuel jl s = Ok (Some (answer 0 "set_zone_cfg" JNull), s') ∧ sent s' = sent s ++ [("DP_DB_BROADCAST", JObj jl)] ∧
  ∀ m', jfind "map_id" gb = Some (JInt m') → in_s 32 m' →
    ∃ a, handle fuel gl s' = Ok (Some a, s') ∧ if decide (m' = m) then a = zone_answer m kvs else handle fuel gl s = Ok (Some a, s).
Proof.
  intros Ht Hb Hz Hin Hvs Hlen Hr Hg Hgb. assert (length kvs.*2 = 4%nat) as H4.
  { destruct Hz as (_ & Hks & _). rewrite length_fmap, <-(length_fmap fst), Hks. done. }
  destruct (set_zone_sql (vw s) m kvs.*2 Hr Hvs H4) as (V1 & V2 & i & Hd & Hi & Hr2 & Hrow & Hother & _).
  destruct (set_zone_start jl b m kvs s V1 JNull Hb Hz Hin Hvs Hd) as (s1 & HV1 & Hs1 & Hrun & Hl).
  set (vals := values_text _) in *. rewrite <-HV1 in Hi. pose proof (insert_spec _ _ _ _ _ Hi) as HV2.
  exists (mkDbServer (mldb_insert (sysConfig s1) TABLE_NETWORK_ZONECFG "map_id,room,virtual_wall,virtual_forbidden_zone,virtual_threshold" vals)
    (sent s1 ++ [("DP_DB_BROADCAST", JObj jl)])). split_and!.
  - eapply request_run; [done|reflexivity| |by left]. rewrite Hrun, run_bind, fits by lia. reflexivity.
  - cbn [sent]. by rewrite Hs1.
  - intros m' Hm' Hin'. eexists. split; [eapply get_zone_request; [done..|cbn [sysConfig]; by rewrite HV2]|]. cbn [sysConfig]. rewrite HV2.
    case_decide as Heq.
    + subst m'. rewrite Hrow, zone_row_reply; [done|apply Hz|done].
    + rewrite Hother by done. by eapply get_zone_request.
Qed.

(** Zones whose text does not fit: the second sprintf of set_zone_cfg writes past
    its buffer of 2000 bytes. *)
Theorem zones_bound fuel jl b m kvs s :
  jfind "type" jl = Some (JStr "set_zone_cfg") → jfind "body" jl = Some (JObj b) → zone_body m kvs b → in_s 32 m → Forall text_value kvs.*2 →
  (2000 <= zone_length m kvs.*2)%nat → zones_ready (vw s) → handle fuel jl s = Ub UB_OutOfBounds.
Proof.
  intros Ht Hb Hz Hin Hvs Hlen (t & Htab & Hc & _).
  destruct (set_zone_start jl b m kvs s _ JNull Hb Hz Hin Hvs (sql_delete_eq _ _ _ _ _ Htab (zone_where t m Hc))) as (s1 & _ & _ & Hrun & Hl).
  eapply request_ub; [done|reflexivity|]. rewrite Hrun, run_bind. unfold lift, sprintf.
  by destruct (Nat.ltb_spec (String.length (values_text (LInt m :: (LText ∘ toSimpleString <$> kvs.*2)))) 2000); [lia|].
Qed.
End zones.

Definition ref_zones : DbServer := ref_server [(TABLE_NETWORK_ZONECFG, zone_table)].
Lemma ref_zones_ready : zones_ready (view (sysConfig ref_zones)).
Proof. exists zone_table. split_and!; [vm_compute; reflexivity|done|vm_compute; reflexivity]. Qed.
(** Lists of numbers for the zones of the map 7. *)
Definition ref_zone_values (l : list (list Z)) : list (string * json) := zip zone_keys ((λ zs, JArr (JInt <$> zs)) <$> l).
Definition ref_zone_request (l : list (list Z)) : list (string * json) := ref_request "set_zone_cfg" (("map_id", JInt 7) :: ref_zone_values l).
Ltac ref_zone :=
  split; [reflexivity|]; split; [reflexivity|]; intros k v Hkv; unfold ref_zone_values, zone_keys in Hkv; cbn [zip zip_with fmap list_fmap] in Hkv; rewrite !elem_of_cons in Hkv;
  destruct_or! Hkv; [simplify_eq; reflexivity..|by apply elem_of_nil in Hkv].
Ltac ref_values := repeat (constructor; [split_and!; vm_compute; reflexivity|]); constructor.
Lemma zones_roundtrip_witness : ∃ s' a,
  DbServer_OnDpMessage 1 "DP_DB_REQUEST" TYPE_REQUEST (true, JObj (ref_request "get_zone_cfg" [("map_id", JInt 7)])) s' = Ok (Some a, s') ∧
  a = zone_answer 7 (ref_zone_values [[1; -2]; []; [3]; []]).
Proof.
  destruct (zones_roundtrip 1 (ref_zone_request [[1; -2]; []; [3]; []]) (ref_request "get_zone_cfg" [("map_id", JInt 7)])
    (("map_id", JInt 7) :: ref_zone_values [[1; -2]; []; [3]; []]) [("map_id", JInt 7)] 7 (ref_zone_values [[1; -2]; []; [3]; []]) ref_zones)
    as (s' & _ & _ & H); [reflexivity|reflexivity|ref_zone|done|ref_values|vm_compute; lia|apply ref_zones_ready|reflexivity|reflexivity|].
  destruct (H 7) as (a & Ha & Heq); [reflexivity|done|]. exists s', a. split; [exact Ha|exact Heq].
Defined.
Lemma zones_bound_witness : DbServer_OnDpMessage 1 "DP_DB_REQUEST" TYPE_REQUEST
  (true, JObj (ref_zone_request [replicate 1000 1; []; []; []])) ref_zones = Ub UB_OutOfBounds.
Proof.
  apply (zones_bound 1 (ref_zone_request [replicate 1000 1; []; []; []]) (("map_id", JInt 7) :: ref_zone_values [replicate 1000 1; []; []; []])
    7 (ref_zone_values [replicate 1000 1; []; []; []]) ref_zones);
    [reflexivity|reflexivity|ref_zone|done|ref_values|apply Nat.leb_le; vm_compute; reflexivity|apply ref_zones_ready].
Defined.
