(* ===== verification/DbStart.v ===== *)
(** * The start of the database server

    Network_DbInit drops the tables of the settings and makes them anew, whatever
    they held; the table of the activation is not dropped. *)

From S2P Require Import Prelude Float Json JsonText Mldb DbBase DbNetwork DbPeripheral DpMessage DbServer SqlTexts MldbRef DbTheorems DbMaps DbTimings.
From Stdlib Require Import Ascii.
From stdpp Require Import pretty.
#[local] Open Scope Z_scope.

Section start.
Context {M : Mldb} {J : JsonText} {R : RealFormat} {Y : YamlCpp} {Sp : MldbSpec M J}.
Implicit Types s : DbServer.
Abbreviation vw s := (view (sysConfig s)).

(** A computation that ends in a state whose tables are [V], and sends nothing. *)
Definition leaves {A} (m : ST DbServer A) s (a : A) s' (V : tables) : Prop :=
  m s = Ok (a, s') ∧ vw s' = V ∧ sent s' = sent s.
Lemma drop_step s V t : vw s = V → ∃ s', leaves (drop_table t) s tt s' (delete t V).
Proof. intros <-. exists (with_conn (mldb_drop (sysConfig s) t) s). split_and!; [done|by rewrite <-drop_spec|done]. Qed.
Lemma create_step s V t c : vw s = V → ∃ s', leaves (create_table t c) s tt s' (match V !! t with Some _ => V | None => <[t := new_table c]> V end).
Proof. intros <-. eexists (with_conn _ s). split_and!; [done| |done]. by apply create_spec. Qed.
Lemma insert_step s V t tab names vals l tab' : vw s = V → V !! t = Some tab → read_values vals = Some l →
  insert_into real_text tab (trim <$> fields false names) l = Some tab' →
  ∃ s', leaves (insert_row t names vals) s tt s' (<[t := tab']> V).
Proof.
  intros <- Ht Hv Hi. eexists (with_conn _ s). split_and!; [done| |done]. apply insert_spec. unfold sql_insert.
  rewrite Ht. cbn [mbind option_bind]. rewrite Hv. cbn [mbind option_bind]. by rewrite Hi.
Qed.

(** ** Configuration *)
Definition config_texts : list (string * list string) :=
  [("NetworkService", ["sService"; "sPassword"]); ("device_sn", ["sn"]);
   ("ntp", ["sNtpServers"; "sTimeZone"; "sTimeZoneFile"; "sTimeZoneFileDst"]);
   ("BackgroundUrl", ["device_reg_api"; "device_bind_api"])].
(** The texts of the configuration have no quotes and fit the buffer. *)
Definition config_ok (root : yaml) : Prop :=
  (∀ text z, scalar_int text = Some z → in_s 32 z) ∧
  ∀ sec keys, (sec, keys) ∈ config_texts → ∃ xs, Forall2 (λ k x, getString (getSub root sec) k = Ok x) keys xs ∧
    Forall (λ x, plain x = true) xs ∧ (list_sum (String.length <$> xs) <= 140)%nat.
Lemma getInt_range root sec key : config_ok root → in_s 32 (getInt (getSub root sec) key).
Proof.
  intros [Hz _]. unfold getInt. assert (in_s 32 0) by (by apply (bool_decide_unpack _); vm_compute).
  repeat case_match; try done. destruct (scalar_int _) eqn:E; [by eapply Hz|done].
Qed.


(** ** Tables that are not dropped *)

(** Rows are added behind those that exist. *)
Definition keeps (t t' : table) : Prop :=
  cols t' = cols t ∧ uniq t' = false ∧ ∀ i, id_rows i t ≠ [] → id_rows i t' = id_rows i t.
#[export] Instance keeps_trans : Transitive keeps.
Proof.
  intros t1 t2 t3 (H1 & H2 & H3) (K1 & K2 & K3). split_and!; [congruence|done|]. intros i Hi. rewrite K3, H3; [done|done|by rewrite H3].
Qed.
Lemma max_id_le r l : r ∈ l → row_id r <= max_id l.
Proof.
  unfold max_id. induction l as [|r' l IH]; [by intros ?%elem_of_nil|]. rewrite elem_of_cons. cbn [fmap list_fmap foldr].
  intros [->|H]; [lia|]. etrans; [by apply IH|lia].
Qed.
Lemma id_rows_append i t id r last : id_rows i t ≠ [] → max_id (rows t) < id →
  id_rows i (mkTable (cols t) (autoinc t) false last (rows t ++ [("id", pretty id) :: r])) = id_rows i t.
Proof.
  intros Hne Hid. unfold id_rows in *. cbn [rows]. rewrite List.filter_app. cbn [List.filter].
  assert (matches ("id", pretty i) (("id", pretty id) :: r) = false) as ->; [|by rewrite app_nil_r].
  unfold matches. cbn [aget fst snd]. rewrite decide_True by done. apply bool_decide_eq_false. intros [= Heq%(inj pretty)]. subst i.
  destruct (List.filter (matches ("id", pretty id)) (rows t)) as [|r' l] eqn:Hf; [done|].
  assert (In r' (rows t) ∧ matches ("id", pretty id) r' = true) as [Hin Hm] by (apply filter_In; rewrite Hf; by left).
  apply list_elem_of_In, max_id_le in Hin. unfold matches in Hm. apply bool_decide_eq_true in Hm. unfold row_id in Hin. cbn [fst snd] in Hm.
  rewrite Hm in Hin. cbn [mbind option_bind] in Hin. rewrite read_int_pretty in Hin. simpl in Hin. lia.
Qed.
Lemma insert_keeps t names l r : uniq t = false → read_row real_text t names l = Some r → length l = length names →
  NoDup (cols t).*1 → "id" :: names ≡ₚ (cols t).*1 → ∃ t', insert_into real_text t names l = Some t' ∧ keeps t t'.
Proof.
  intros Hu Hr Hl Hnd Hp. unfold insert_into. rewrite Hr. cbn [mbind option_bind]. rewrite Hu.
  rewrite (bool_decide_true (NoDup _)), (bool_decide_true (length _ = _)), (bool_decide_true (_ ≡ₚ _)) by done. cbn [andb orb negb].
  eexists. split; [done|]. split_and!; [done|done|]. intros i Hi. apply id_rows_append; [done|lia].
Qed.

(** The tables after the start; [o] is the table of the activation before it. *)
Definition first_days : list (list Z) := [[1; 0; 0]; [2; 0; 0]; [3; 0; 0]; [4; 0; 0]; [5; 0; 0]; [6; 0; 0]; [0; 0; 0]].
Definition days_before (o : option table) (ds : list (list Z)) : Prop :=
  match o with None => ds = first_days | Some t => days_of t ds ∧ uniq t = false end.
Definition active_before (o : option table) (active : Z) : Prop :=
  match o with None => active = 0 | Some t => table_row t ["activate"] [active] ∧ uniq t = false end.
Definition started (V : tables) (active : Z) (ds : list (list Z)) : Prop :=
  int_row V TABLE_NETWORK_CLEANTYPE ["mode"] [2] ∧
  int_row V TABLE_NETWORK_CLEANSTRENGTH ["mode"; "suction"; "water_yield"; "speed"; "area"] [1; 1; 1; 1; 10] ∧
  int_row V TABLE_NETWORK_NODISTURB ["enable"; "start_time"; "end_time"] [0; 0; 0] ∧
  int_row V TABLE_NETWORK_TIMINGCLEANONOFF ["mode"; "enable"] [0; 0] ∧
  int_row V TABLE_NETWORK_SELFCLEAN ["enable"] [0] ∧
  V !! TABLE_NETWORK_MAPPATH = Some map_table ∧
  (∃ t, V !! TABLE_NETWORK_ZONECFG = Some t ∧ rows t = []) ∧
  int_row V TABLE_NETWORK_ACTIVE ["activate"] [active] ∧
  (∃ t, V !! TABLE_NETWORK_TIMINGCLEANCFG = Some t ∧ days_of t ds).

Lemma keeps_row t t' ks zs : keeps t t' → table_row t ks zs → table_row t' ks zs.
Proof. intros (H1 & _ & H3) (K1 & K2 & K3). split_and!; [congruence| |done]. specialize (H3 1). unfold id_rows in H3. change (pretty 1) with "1" in H3. by rewrite H3; rewrite K2. Qed.
Lemma keeps_days t t' ds : keeps t t' → days_of t ds → days_of t' ds.
Proof. intros (H1 & _ & H3) (K1 & K2 & K3). split_and!; [congruence|done|]. intros i d Hi. destruct (K3 i d Hi) as [Hd Hr]. split; [done|]. by rewrite H3; rewrite Hr. Qed.

(** ** The start *)
Definition ends (m : ST DbServer unit) s (P : DbServer → Prop) : Prop := ∃ s', m s = Ok (tt, s') ∧ P s'.
Lemma ends_bind {A} (m : ST DbServer A) (k : A → ST DbServer unit) s a s' V P :
  leaves m s a s' V → ends (k a) s' P → ends (m ≫= k) s P.
Proof. intros (Hm & _) (s1 & Hk & HP). exists s1. split; [|done]. by rewrite run_bind, Hm. Qed.
Lemma ends_last (m : ST DbServer unit) s s' V (P : DbServer → Prop) : leaves m s tt s' V → P s' → ends m s P.
Proof. intros (Hm & _) HP. by exists s'. Qed.
Lemma ends_lift {A} (r : res A) a (k : A → ST DbServer unit) s P : r = Ok a → ends (k a) s P → ends (lift r ≫= k) s P.
Proof. intros -> H. exact H. Qed.
Lemma ends_sprintf n text (k : string → ST DbServer unit) s P :
  (String.length text < n)%nat → ends (k text) s P → ends (lift (sprintf n text) ≫= k) s P.
Proof. intros Hl (s' & H & HP). exists s'. split; [|done]. by rewrite run_bind, fits. Qed.
Lemma ends_assoc {A} (m1 : ST DbServer A) (m2 : A → ST DbServer unit) (m3 : ST DbServer unit) s P :
  ends (x ← m1; m2 x;; m3) s P → ends ((m1 ≫= m2);; m3) s P.
Proof.
  intros (s' & H & HP). exists s'. split; [|done]. rewrite run_bind in H. rewrite !run_bind. destruct (m1 s) as [[x s1]|]; [|done].
  by rewrite run_bind in H.
Qed.
Lemma drops_step s V l : vw s = V → ∃ s', leaves (iterM drop_table l) s tt s' (foldl (λ V t, delete t V) V l).
Proof.
  revert s V. induction l as [|t l IH]; intros s V HV; [by exists s|]. destruct (drop_step s V t HV) as (s1 & Hr & HV1 & Hs1).
  destruct (IH s1 _ HV1) as (s2 & Hr2 & HV2 & Hs2). exists s2. split_and!; [|done|congruence]. cbn [iterM]. by rewrite run_bind, Hr.
Qed.
Lemma create_new s V t c : vw s = V → V !! t = None → ∃ s', leaves (create_table t c) s tt s' (<[t := new_table c]> V).
Proof. intros HV Ht. destruct (create_step s V t c HV) as (s' & H). rewrite Ht in H. eauto. Qed.
End start.


(** An equation between a closed term and a value, computed. *)
Ltac evals := idtac; lazymatch goal with |- ?l = Some ?e =>
  let v := eval vm_compute in l in lazymatch v with Some ?x => unify e x end; vm_compute; reflexivity end.
Section restart.
Context {M : Mldb} {J : JsonText} {R : RealFormat} {Y : YamlCpp} {Sp : MldbSpec M J}.
Implicit Types s : DbServer.
Abbreviation vw s := (view (sysConfig s)).

(** Edits of tables, the last one first: a new value, or a drop. *)
Fixpoint edits (u : list (string * option table)) (V : tables) : tables :=
  match u with
  | [] => V
  | (t, Some x) :: u' => <[t := x]> (edits u' V)
  | (t, None) :: u' => delete t (edits u' V)
  end.
Lemma lookup_edits u V t : edits u V !! t = match aget t u with Some o => o | None => V !! t end.
Proof.
  induction u as [|[t' [x|]] u IH]; simpl; [done|case_decide as Ht..]; try subst t'.
  - apply lookup_insert_eq.
  - by rewrite lookup_insert_ne.
  - apply lookup_delete_eq.
  - by rewrite lookup_delete_ne.
Qed.
(** The tables that the start leaves, but for the two that it keeps. *)
Definition setting_tables : list (string * list string * list Z) :=
  [(TABLE_NETWORK_CLEANTYPE, ["mode"], [2]);
   (TABLE_NETWORK_CLEANSTRENGTH, ["mode"; "suction"; "water_yield"; "speed"; "area"], [1; 1; 1; 1; 10]);
   (TABLE_NETWORK_NODISTURB, ["enable"; "start_time"; "end_time"], [0; 0; 0]);
   (TABLE_NETWORK_TIMINGCLEANONOFF, ["mode"; "enable"], [0; 0]); (TABLE_NETWORK_SELFCLEAN, ["enable"], [0])].
(** What a setting is after a start. *)
Definition start_value (t : string) (a : Z) : list Z :=
  if decide (t = TABLE_NETWORK_ACTIVE) then [a] else default [] (aget t ((λ '(t, _, zs), (t, zs)) <$> setting_tables)).
Definition table_row_ok (tab : table) (ks : list string) (zs : list Z) : bool :=
  bool_decide (cols tab = ("id", "INTEGER") :: ((λ k, (k, "INT")) <$> ks)) &&
  bool_decide (List.filter (matches ("id", "1")) (rows tab) = [("id", "1") :: zip ks (pretty <$> zs)]) && (length zs =? length ks)%nat.
Definition started_ok (u : list (string * option table)) : bool :=
  forallb (λ '(t, ks, zs), match aget t u with Some (Some tab) => table_row_ok tab ks zs | _ => false end) setting_tables &&
  match aget TABLE_NETWORK_MAPPATH u with
  | Some (Some t) => bool_decide (cols t = cols map_table) && bool_decide (rows t = rows map_table) &&
      Bool.eqb (autoinc t) (autoinc map_table) && Bool.eqb (uniq t) (uniq map_table) && (last_id t =? last_id map_table)
  | _ => false end &&
  match aget TABLE_NETWORK_ZONECFG u with Some (Some t) => bool_decide (rows t = []) | _ => false end.
Lemma int_row_edits t u V ks zs :
  match aget t u with Some (Some tab) => table_row_ok tab ks zs | _ => false end = true → int_row (edits u V) t ks zs.
Proof.
  unfold int_row, table_row. destruct (aget t u) as [[tab|]|] eqn:Ha; [|done..]. unfold table_row_ok.
  rewrite !andb_true_iff, !bool_decide_eq_true, Nat.eqb_eq. intros [[H1 H2] H3]. exists tab. by rewrite lookup_edits, Ha.
Qed.
Lemma started_edits act days u V a ds : started_ok u = true → table_row act ["activate"] [a] → days_of days ds →
  aget TABLE_NETWORK_TIMINGCLEANCFG u = Some (Some days) → started (edits ((TABLE_NETWORK_ACTIVE, Some act) :: u) V) a ds.
Proof.
  intros Hu Ha Hd Hda. cbn [edits].
  assert (∀ t, t ≠ TABLE_NETWORK_ACTIVE → <[TABLE_NETWORK_ACTIVE := act]> (edits u V) !! t = edits u V !! t) as Hne.
  { intros t Ht. by rewrite lookup_insert_ne. }
  unfold started_ok, setting_tables in Hu. cbn [forallb] in Hu. rewrite !andb_true_iff in Hu.
  destruct Hu as [[(H1 & H2 & H3 & H4 & H5 & _) H6] H7]. apply int_row_edits with (V := V) in H1, H2, H3, H4, H5.
  unfold started, int_row in *. rewrite lookup_insert_eq, !Hne by done. rewrite !lookup_edits. rewrite !lookup_edits in H1, H2, H3, H4, H5. rewrite Hda.
  split; [exact H1|]. split; [exact H2|]. split; [exact H3|]. split; [exact H4|]. split; [exact H5|].
  destruct (aget TABLE_NETWORK_MAPPATH u) as [[[c1 a1 u1 l1 r1]|]|]; [|done..].
  destruct (aget TABLE_NETWORK_ZONECFG u) as [[tz|]|]; [|done..].
  rewrite !andb_true_iff, !bool_decide_eq_true, !Bool.eqb_true_iff, Z.eqb_eq in H6. apply bool_decide_eq_true in H7.
  destruct H6 as [[[[Hc Hr] Hau] Hun] Hla]. cbn [cols rows autoinc uniq last_id] in *. subst.
  split; [by destruct map_table|]. split; [by exists tz|]. split; [by exists act|by exists days].
Qed.
(** One statement, and the rest from the state after it. *)
Lemma ends_create s u V t c (k : ST DbServer unit) P : vw s = edits u V → aget t u = Some None →
  (∀ s', vw s' = edits ((t, Some (new_table c)) :: u) V → sent s' = sent s → ends k s' P) → ends (create_table t c;; k) s P.
Proof.
  intros HV Ht Hk. destruct (create_new s _ t c HV) as (s' & Hl); [by rewrite lookup_edits, Ht|].
  eapply ends_bind; [exact Hl|]. by apply Hk; apply Hl.
Qed.
Lemma ends_insert s u V t tab names vals l tab' (k : ST DbServer unit) P : vw s = edits u V → aget t u = Some (Some tab) →
  read_values vals = Some l → insert_into real_text tab (trim <$> fields false names) l = Some tab' →
  (∀ s', vw s' = edits ((t, Some tab') :: u) V → sent s' = sent s → ends k s' P) → ends (insert_row t names vals;; k) s P.
Proof.
  intros HV Ht Hr Hi Hk. destruct (insert_step s _ t tab names vals l tab' HV) as (s' & Hl); [by rewrite lookup_edits, Ht|done|done|].
  eapply ends_bind; [exact Hl|]. by apply Hk; apply Hl.
Qed.
(** The two tables that are not dropped. *)
Lemma ends_active s V a (P : DbServer → Prop) : vw s = V → active_before (V !! TABLE_NETWORK_ACTIVE) a →
  (∀ s' t, vw s' = <[TABLE_NETWORK_ACTIVE := t]> V → sent s' = sent s → table_row t ["activate"] [a] → P s') →
  ends (create_with_row TABLE_NETWORK_ACTIVE "id INTEGER PRIMARY KEY,activate INT DEFAULT 0" "activate" "0") s P.
Proof.
  intros HV Ha HP. unfold create_with_row. edestruct (create_step s V) as (s1 & Hl); [exact HV|]. eapply ends_bind; [exact Hl|].
  destruct Hl as (_ & HV1 & Hs1). destruct (V !! TABLE_NETWORK_ACTIVE) as [t|] eqn:Ht.
  - destruct Ha as [(Hc & Hr) Hu].
    destruct (insert_keeps t ["activate"] [LInt 0] [("activate", "0")] Hu) as (t' & Hi & Hk); [unfold read_row; by rewrite Hc|done|rewrite Hc..|].
    { apply (bool_decide_unpack _); vm_compute; exact I. } { done. }
    destruct (insert_step s1 V _ t "activate" "0" [LInt 0] t' HV1 Ht eq_refl Hi) as (s2 & Hl). eapply ends_last; [exact Hl|].
    destruct Hl as (_ & HV2 & Hs2). eapply HP; [exact HV2|congruence|]. eapply keeps_row; [exact Hk|]. by split.
  - cbn in Ha. subst a. destruct (insert_step s1 _ TABLE_NETWORK_ACTIVE _ "activate" "0" [LInt 0] _ HV1 (lookup_insert_eq _ _ _) eq_refl eq_refl) as (s2 & Hl).
    eapply ends_last; [exact Hl|]. destruct Hl as (_ & HV2 & Hs2). rewrite insert_insert_eq in HV2. by eapply HP; [exact HV2|congruence|].
Qed.
Definition day_columns : string := "id INTEGER PRIMARY KEY,day INT DEFAULT 0,enable INT DEFAULT 0,start_time INT DEFAULT 0".
Definition insert_day (day : Z) : ST DbServer unit :=
  insert_row TABLE_NETWORK_TIMINGCLEANCFG "day,enable,start_time" ("'" +:+ pretty day +:+ "','0','0'").
Definition day_lits (day : Z) : list lit := [LText (pretty day); LText "0"; LText "0"].
Fixpoint add_days (l : list Z) (t : table) : option table :=
  match l with
  | [] => Some t
  | day :: l' => t' ← insert_into real_text t ["day"; "enable"; "start_time"] (day_lits day); add_days l' t'
  end.
Lemma day_values (day : Z) : read_values ("'" +:+ pretty day +:+ "','0','0'") = Some (day_lits day).
Proof.
  rewrite <-(read_values_text (day_lits day)); [|done|].
  - f_equal. cbn [day_lits values_text lit_text]. by rewrite !sapp_assoc.
  - repeat constructor. cbn. eapply sall_impl; [|apply pretty_numchar]. intros c. each_char c.
Qed.
Lemma insert_days_run l : ∀ s V t t', vw s = V → V !! TABLE_NETWORK_TIMINGCLEANCFG = Some t → add_days l t = Some t' →
  ∃ s', leaves (iterM insert_day l) s tt s' (<[TABLE_NETWORK_TIMINGCLEANCFG := t']> V).
Proof.
  induction l as [|day l IH]; intros s V t t' HV Ht Ha.
  { exists s. cbn in Ha. simplify_eq. split_and!; [done|by rewrite insert_id|done]. }
  cbn [add_days] in Ha. destruct (insert_into _ t _ _) as [t1|] eqn:Hi; [|done].
  destruct (insert_step s V _ t "day,enable,start_time" _ _ t1 HV Ht (day_values day) Hi) as (s1 & H1 & HV1 & Hs1).
  destruct (IH s1 _ t1 t' HV1 (lookup_insert_eq _ _ _) Ha) as (s2 & H2 & HV2 & Hs2).
  exists s2. split_and!; [|by rewrite HV2, insert_insert_eq|congruence]. cbn [iterM]. rewrite run_bind. unfold insert_day at 1. by rewrite H1.
Qed.
Lemma days_keep l : ∀ t, cols t = [("id", "INTEGER"); ("day", "INT"); ("enable", "INT"); ("start_time", "INT")] → uniq t = false →
  ∃ t', add_days l t = Some t' ∧ keeps t t'.
Proof.
  induction l as [|day l IH]; intros t Hc Hu; [exists t; by split_and!|].
  destruct (insert_keeps t ["day"; "enable"; "start_time"] (day_lits day)
    [("day", pretty day); ("enable", "0"); ("start_time", "0")] Hu) as (t' & Hi & Hk); [|done|rewrite Hc..|].
  { unfold read_row. rewrite Hc. cbn. unfold stored_text. rewrite read_int_pretty. done. }
  { apply (bool_decide_unpack _); vm_compute; exact I. } { done. }
  destruct (IH t') as (t2 & Ha & Hk2); [by rewrite (proj1 Hk)|apply Hk|]. exists t2. split; [|by etrans]. cbn [add_days]. by rewrite Hi.
Qed.
Lemma first_table : ∃ t, add_days [1; 2; 3; 4; 5; 6; 0] (new_table day_columns) = Some t ∧ days_of t first_days.
Proof.
  eexists. split; [evals|]. split_and!; [done|done|]. intros i d Hi.
  do 7 (destruct i as [|i]; [injection Hi as <-; split; [done|vm_compute; reflexivity]|]). done.
Qed.
Lemma ends_days s V ds (k : ST DbServer unit) (P : DbServer → Prop) : vw s = V → days_before (V !! TABLE_NETWORK_TIMINGCLEANCFG) ds →
  (∀ s' t, vw s' = <[TABLE_NETWORK_TIMINGCLEANCFG := t]> V → sent s' = sent s → days_of t ds → ends k s' P) →
  ends (create_table TABLE_NETWORK_TIMINGCLEANCFG day_columns;; iterM insert_day [1; 2; 3; 4; 5; 6; 0];; k) s P.
Proof.
  intros HV Hd HP. edestruct (create_step s V TABLE_NETWORK_TIMINGCLEANCFG) as (s1 & Hl); [exact HV|]. eapply ends_bind; [exact Hl|].
  destruct Hl as (_ & HV1 & Hs1). destruct (V !! TABLE_NETWORK_TIMINGCLEANCFG) as [t|] eqn:Ht.
  - destruct Hd as [Hd Hu]. destruct (days_keep [1; 2; 3; 4; 5; 6; 0] t (proj1 Hd) Hu) as (t' & Ha & Hk).
    destruct (insert_days_run _ s1 V t t' HV1 Ht Ha) as (s2 & Hl). eapply ends_bind; [exact Hl|]. destruct Hl as (_ & HV2 & Hs2).
    eapply HP; [exact HV2|congruence|]. by eapply keeps_days.
  - cbn in Hd. subst ds. destruct first_table as (t' & Ha & Hd').
    destruct (insert_days_run [1; 2; 3; 4; 5; 6; 0] s1 _ (new_table day_columns) t' HV1 (lookup_insert_eq _ _ _) Ha) as (s2 & Hl).
    eapply ends_bind; [exact Hl|]. destruct Hl as (_ & HV2 & Hs2). rewrite insert_insert_eq in HV2.
    eapply HP; [exact HV2|congruence|done].
Qed.
Lemma edits_drops l V : foldl (λ V t, delete t V) V l = edits (reverse ((λ t, (t, None)) <$> l)) V.
Proof. induction l as [|t l IH] using rev_ind; [done|]. by rewrite foldl_snoc, fmap_app, reverse_app, IH. Qed.
Lemma ends_drops s V l (k : ST DbServer unit) P : vw s = V →
  (∀ s', vw s' = edits (reverse ((λ t, (t, None)) <$> l)) V → sent s' = sent s → ends k s' P) → ends (iterM drop_table l;; k) s P.
Proof.
  intros HV Hk. destruct (drops_step s V l HV) as (s' & Hl). eapply ends_bind; [exact Hl|]. apply Hk; [|by apply Hl].
  rewrite <-edits_drops. by apply Hl.
Qed.
End restart.

Ltac after HV0 Hs0 :=
  let s' := fresh "s" in let HV := fresh "HV" in let Hs := fresh "Hs" in
  intros s' HV Hs; rewrite Hs0 in Hs; clear HV0 Hs0.
(** The texts of a section of the configuration. *)
Ltac section_texts Hc sec keys :=
  let H := fresh in
  assert ((sec, keys) ∈ config_texts) as H by (apply (bool_decide_unpack _); vm_compute; exact I);
  apply (proj2 Hc) in H;
  let xs := fresh "xs" in let Ht := fresh "Ht" in let Hp := fresh "Hp" in let Hl := fresh "Hl" in
  destruct H as (xs & Ht & Hp & Hl);
  repeat match type of Ht with
  | Forall2 _ (_ :: _) _ =>
      let x := fresh "x" in let xs' := fresh "xs" in let Hx := fresh "Hx" in let Hpx := fresh "Hpx" in let Heq := fresh in
      apply Forall2_cons_inv_l in Ht as (x & xs' & Hx & Ht & Heq); subst xs; rename xs' into xs; apply Forall_cons in Hp as [Hpx Hp]
  | Forall2 _ [] _ => apply Forall2_nil_inv_l in Ht; subst xs
  end; rewrite ?fmap_cons in Hl; cbn [list_sum foldr fmap list_fmap] in Hl.
Ltac go_text := eapply ends_lift; [eassumption|]; cbv beta.
(** A text that fits: its plain parts and numbers have known lengths. *)
Ltac go_print root := eapply ends_sprintf;
  [rewrite ?quoted_plain by done; rewrite ?slength_app; cbn [String.length];
   repeat match goal with |- context [String.length (pretty (getInt (getSub root ?sec) ?k))] =>
     let H := fresh in pose proof (int_length _ (getInt_range root sec k ltac:(eassumption))) as H;
     revert H; generalize (String.length (pretty (getInt (getSub root sec) k))); intros ? H end; lia|].
Ltac go_create :=
  match goal with HV : view (sysConfig ?s) = _, Hs : sent ?s = _ |- ends _ ?s _ =>
    eapply ends_create; [exact HV|reflexivity|after HV Hs] end.
Ltac go_insert reads :=
  match goal with HV : view (sysConfig ?s) = _, Hs : sent ?s = _ |- ends _ ?s _ =>
    eapply ends_insert; [exact HV|reflexivity|reads|evals|after HV Hs] end.

Section restart.
Context {M : Mldb} {J : JsonText} {R : RealFormat} {Y : YamlCpp} {Sp : MldbSpec M J}.
Implicit Types s : DbServer.
Abbreviation vw s := (view (sysConfig s)).
Lemma restart_settings root s a ds : config_ok root →
  active_before (vw s !! TABLE_NETWORK_ACTIVE) a → days_before (vw s !! TABLE_NETWORK_TIMINGCLEANCFG) ds →
  ends (Network_DbInit root) s (λ s', started (vw s') a ds ∧ sent s' = sent s).
Proof.
  intros Hc Ha Hds. unfold Network_DbInit. remember (vw s) as V eqn:HV. symmetry in HV. remember (sent s) as L eqn:Hs. symmetry in Hs.
  eapply ends_drops; [exact HV|after HV Hs]. cbn [reverse rev_append fmap list_fmap] in *.
  unfold creat_version_table. apply ends_assoc. go_create. go_insert evals. go_create.
  section_texts Hc "NetworkService" ["sService"; "sPassword"]. go_text. go_text. go_print root.
  rewrite !quoted_plain by done.
  go_insert ltac:(apply (read_values_text [LText x; LText x0; LInt _; LInt _]); [done|by repeat constructor]).
  go_create. section_texts Hc "device_sn" ["sn"]. go_text. go_print root. rewrite !quoted_plain by done.
  go_insert ltac:(apply (read_values_text [LText x1]); [done|by repeat constructor]).
  go_create. section_texts Hc "ntp" ["sNtpServers"; "sTimeZone"; "sTimeZoneFile"; "sTimeZoneFileDst"].
  do 4 go_text. go_print root. rewrite !quoted_plain by done.
  go_insert ltac:(apply (read_values_text [LText x2; LText x3; LText x4; LText x5; LInt _; LInt _; LInt _]); [done|by repeat constructor]).
  go_create. section_texts Hc "BackgroundUrl" ["device_reg_api"; "device_bind_api"]. do 2 go_text. go_print root.
  rewrite !quoted_plain by done.
  go_insert ltac:(apply (read_values_text [LText x6; LText x7]); [done|by repeat constructor]).
  go_create. do 4 (apply ends_assoc; go_create; go_insert evals).
  match goal with HV : vw ?s = edits ?u _, Hs : sent ?s = _ |- _ => eapply (ends_days s _ ds); [exact HV|rewrite lookup_edits; exact Hds|];
    intros s' days HV' Hs' Hdays; change (vw s' = edits ((TABLE_NETWORK_TIMINGCLEANCFG, Some days) :: u) V) in HV';
    rewrite Hs in Hs'; clear HV Hs end.
  apply ends_assoc. go_create. go_insert evals. go_create.
  match goal with HV : vw ?s = edits ?u _, Hs : sent ?s = _ |- _ => eapply (ends_active s _ a); [exact HV|rewrite lookup_edits; exact Ha|];
    intros s'' act HV'' Hs'' Hact; change (vw s'' = edits ((TABLE_NETWORK_ACTIVE, Some act) :: u) V) in HV'';
    rewrite Hs in Hs''; clear HV Hs end.
  split; [|done]. rewrite HV''. eapply (started_edits act days); [vm_compute; reflexivity|done|done|reflexivity].
Qed.

Lemma settings_started sty gty n t ks V a ds : (sty, gty, (n, t, ks)) ∈ settings → started V a ds → in_s 32 a →
  ∃ zs, int_row V t ks zs ∧ good_keys ks ∧ Forall (in_s 32) zs ∧ zs = start_value t a.
Proof.
  intros Hin (H1 & H2 & H3 & _ & H5 & _ & _ & H8 & _) Ha. unfold settings in Hin. rewrite !elem_of_cons, elem_of_nil in Hin.
  assert (∀ zs, forallb (λ z, bool_decide (in_s 32 z)) zs = true → Forall (in_s 32) zs) as Hz.
  { intros zs Hz. apply Forall_forall. intros z Hin'. apply list_elem_of_In in Hin'. rewrite forallb_forall in Hz.
    by apply (bool_decide_unpack _), Is_true_true, Hz. }
  destruct_or! Hin; try done; simplify_eq; eexists; (split; [eassumption|]); (split; [split_and!; [done|apply (bool_decide_unpack _); vm_compute; exact I|by repeat constructor]|]);
    (split; [|reflexivity]); [by apply Hz..|by constructor].
Qed.
(** C16. What the server answers after Network_DbInit, which every start runs on the
    tables of settings, maps and zones, whatever these tables held; the texts of
    the configuration have no quotes and fit their buffers, and the two tables that
    are not dropped, those of the activation and of the days, are missing or have
    the form the server gives them.  Every setting has its first value again but the
    activation, which is as it was.  Of the week the seven days are as they were,
    but its mode and its switch are 0, so that it is off.  No map and no zone is
    left, and nothing is broadcast. *)
Theorem restart_resets fuel root s a ds sty gty n t ks gl wl : config_ok root →
  active_before (vw s !! TABLE_NETWORK_ACTIVE) a → days_before (vw s !! TABLE_NETWORK_TIMINGCLEANCFG) ds → in_s 32 a →
  Forall (Forall (in_s 32)) ds → (sty, gty, (n, t, ks)) ∈ settings → jfind "type" gl = Some (JStr gty) →
  jfind "type" wl = Some (JStr "get_timing_clean_cfg") → ∃ s', Network_DbInit root s = Ok (tt, s') ∧
  DbServer_OnDpMessage fuel "DP_DB_REQUEST" TYPE_REQUEST (true, JObj gl) s' =
    Ok (Some (answer 0 gty (JObj (zip ks (JInt <$> start_value t a)))), s') ∧
  DbServer_OnDpMessage fuel "DP_DB_REQUEST" TYPE_REQUEST (true, JObj wl) s' =
    Ok (Some (answer 0 "get_timing_clean_cfg" (week_json 0 0 ds)), s') ∧
  maps_of (vw s') [] ∧ (∀ m, zone_rows (vw s') m = []) ∧ sent s' = sent s.
Proof.
  intros Hc Ha Hd Hin Hds Hs Hg Hwl. destruct (restart_settings root s a ds Hc Ha Hd) as (s' & Hr & Hst & Hsent). exists s'.
  split; [exact Hr|]. destruct (settings_started sty gty n t ks _ a ds Hs Hst Hin) as (zs & Hrow & Hk & Hz & ->).
  destruct Hst as (_ & _ & _ & Hoo & _ & Hm & (tz & Htz & Hz0) & _ & Hw). split_and!; [| | | |done].
  - destruct (settings_handlers fuel sty gty n t ks Hs) as [_ (g & Hgh & Hgs)]. eapply request_run; [done|done|rewrite Hgs; by apply get_ints_run|by left].
  - eapply request_run; [done|done| |by left]. by apply get_week_run.
  - split; [split; constructor|]. exists 0. rewrite Hm. reflexivity.
  - intros m. unfold zone_rows. by rewrite Htz, Hz0.
Qed.
End restart.

Definition ref_config : yaml := YMap
  [("NetworkService", YMap [("sService", YScalar "home"); ("sPassword", YScalar "secret"); ("iFavorite", YScalar "0"); ("iAutoconnect", YScalar "1")]);
   ("device_sn", YMap [("sn", YScalar "0001")]);
   ("ntp", YMap [("sNtpServers", YScalar "pool"); ("sTimeZone", YScalar "UTC"); ("sTimeZoneFile", YScalar "tz"); ("sTimeZoneFileDst", YScalar "tzd")]);
   ("BackgroundUrl", YMap [("device_reg_api", YScalar "reg"); ("device_bind_api", YScalar "bind")])].
Lemma ref_config_ok : config_ok ref_config.
Proof.
  split.
  - intros text z. cbn [scalar_int ref_YamlCpp]. destruct (read_int text); [|done]. cbn [mbind option_bind]. case_decide; [|done]. by intros [= <-].
  - intros sec keys H. unfold config_texts in H. rewrite !elem_of_cons, elem_of_nil in H. destruct_or! H; try done; simplify_eq;
      (eexists; split; [repeat (constructor; [reflexivity|]); constructor|]; split; [by repeat constructor|apply Nat.leb_le; vm_compute; reflexivity]).
Qed.
(** A device that has been activated is started again: the strength is the default. *)
Definition ref_used : DbServer := ref_server
  [(TABLE_NETWORK_ACTIVE, one_row "id INTEGER PRIMARY KEY,activate INT DEFAULT 0" [("activate", "1")]);
   (TABLE_NETWORK_CLEANSTRENGTH, one_row "id INTEGER PRIMARY KEY,mode INT,suction INT,water_yield INT,speed INT,area INT"
     [("mode", "3"); ("suction", "3"); ("water_yield", "3"); ("speed", "3"); ("area", "20")])].
Lemma restart_resets_witness : ∃ s', Network_DbInit ref_config ref_used = Ok (tt, s') ∧
  DbServer_OnDpMessage 1 "DP_DB_REQUEST" TYPE_REQUEST (true, JObj (ref_request "get_clean_strength" [])) s' =
    Ok (Some (answer 0 "get_clean_strength"
      (JObj [("mode", JInt 1); ("suction", JInt 1); ("water_yield", JInt 1); ("speed", JInt 1); ("area", JInt 10)])), s') ∧
  DbServer_OnDpMessage 1 "DP_DB_REQUEST" TYPE_REQUEST (true, JObj (ref_request "get_timing_clean_cfg" [])) s' =
    Ok (Some (answer 0 "get_timing_clean_cfg" (week_json 0 0 first_days)), s').
Proof.
  destruct (restart_resets 1 ref_config ref_used 1 first_days "set_clean_strength" "get_clean_strength" 200 TABLE_NETWORK_CLEANSTRENGTH
    ["mode"; "suction"; "water_yield"; "speed"; "area"] (ref_request "get_clean_strength" []) (ref_request "get_timing_clean_cfg" []) ref_config_ok) as (s' & H1 & H2 & H3 & _).
  - split; [split; [reflexivity|split; [vm_compute; reflexivity|reflexivity]]|reflexivity].
  - reflexivity.
  - done.
  - apply (bool_decide_unpack _). vm_compute. exact I.
  - apply (bool_decide_unpack _). vm_compute. exact I.
  - reflexivity.
  - reflexivity.
  - exists s'. split; [exact H1|split; [exact H2|exact H3]].
Defined.
