(* ===== verification/SettingsPath.v ===== *)
(** * From a stored setting to the scheduler

    The database server of DbServer.v and the scheduler of DbData.v together: the
    scheduler's requests are answered by the server, and what the server
    broadcasts is handled by the scheduler. *)

From S2P Require Import Prelude Float Json JsonText Mldb DbBase DbNetwork DbPeripheral DpMessage DbServer SqlTexts MldbRef DbTheorems DbMaps DbTimings.
From S2P Require Import DeviceStates DataModel World DbData System Behaviour.
From Stdlib Require Import Ascii.
From stdpp Require Import pretty.
#[local] Open Scope Z_scope.

(** The body of the scheduler's query. *)
Definition query_body (ty : string) : list (string * json) :=
  if bool_decide (ty = "get_zone_cfg") then [("map_id", JInt 1)] else [].

(** ** The scheduler's side *)
Section scheduler.
Context {R : RealFormat} {E : Env}.

Definition level_event (ty key : string) (z : Z) : event := EvDp "DP_PERIPHERALS_REQUEST" (World.request ty [(key, JInt z)]).
Definition levels (m : Z) : list event :=
  match type_levels m with
  | Some (mid, mop, side) => [level_event "set_mid_level" "level" mid; level_event "set_mop_ctrl" "ctrl" mop; level_event "set_side_level" "level" side]
  | None => []
  end.

Lemma clean_type_broadcast jl l m w : jfind "type" jl = Some (JStr "set_clean_type") → jfind "body" jl = Some (JObj l) →
  jfind "mode" l = Some (JInt m) → in_s 32 m → ∃ w', OnDpDb_Message "DP_DB_BROADCAST" (Some (JObj jl)) w = Ok (tt, w') ∧ out w' = out w ++ levels m.
Proof.
  intros Ht Hb Hm Hin. unfold OnDpDb_Message. rewrite run_when_true by done. rewrite run_bind, (run_lift _ (JStr "set_clean_type")) by (simpl; by rewrite Ht).
  cbn beta iota. rewrite run_bind, (run_lift _ (JObj l)) by (simpl; by rewrite Hb). cbn beta iota. cbn [asString dispatch g_dpmsg_table].
  rewrite bool_decide_true by done. unfold Clean_type. rewrite run_bind, (run_lift _ m) by by apply JV_TO_INT_find. cbn beta iota. unfold levels.
  destruct (type_levels m) as [[[mid mop] side]|]; [|exists w; by rewrite app_nil_r]. eexists. split; [reflexivity|]. simpl. by rewrite <-!app_assoc.
Qed.
Lemma work_clean_type_run m jr w : db_reply "get_clean_type" = Some jr → (b ← jkey jr "body"; jkey b "mode") = Ok (JInt m) → in_s 32 m →
  ∃ w', work_clean_type w = Ok (tt, w') ∧ clean_mode (db w') = m ∧ out w' ≡ₚ out w ++ EvDp "DP_DB_REQUEST" (World.request "get_clean_type" []) :: levels m.
Proof.
  intros Hr Hm Hin. unfold work_clean_type, get_clean_type, reply_int. rewrite Hr. destruct (jkey jr "body") as [b|] eqn:Hb; [|done]. cbn [mbind res_bind] in Hm.
  rewrite !run_bind. unfold db_request, emit at 1. rewrite run_modify. cbn beta iota. rewrite run_bind. rewrite run_bind, (run_lift _ b) by done. cbn beta iota.
  rewrite run_bind, (run_lift _ (JInt m)) by done. cbn beta iota. replace (isInt (JInt m)) with true.
  2: { symmetry. unfold isInt, in_s, minInt, maxInt in *. apply andb_true_intro. split; apply Z.leb_le; lia. }
  rewrite run_bind, (run_lift _ m) by (cbn [asInt]; by rewrite swrap_id). cbn beta iota. rewrite run_ret. cbn beta iota. rewrite run_bind.
  unfold set_clean_mode at 1. rewrite run_modify. cbn beta iota. rewrite run_ret. cbn beta iota. unfold levels. destruct (type_levels m) as [[[mid mop] side]|].
  - eexists. split; [reflexivity|]. split; [done|]. simpl. rewrite <-!app_assoc. apply Permutation_app_head. constructor.
    apply (Permutation_app_comm [_] [_; _]).
  - eexists. split; [reflexivity|]. split; [done|]. simpl. done.
Qed.

(** ** The week *)
Definition to_value (d : list Z) : Clean_value := mkCleanValue (default 0 (d !! 0%nat)) (default 0 (d !! 1%nat)) (default 0 (d !! 2%nat)).
(** The days on which a cleaning is wanted. *)
Definition wanted (ds : list (list Z)) : list Clean_value := List.filter (λ v, cv_enable v =? 1) (to_value <$> ds).
Lemma append_days ds l : Forall (λ d, length d = 3%nat ∧ Forall (in_s 32) d) ds → ∀ n w, (n + length l = length ds)%nat → drop n ds = l →
  ∃ w', iterM (append_clean_value (JArr (day_json <$> ds))) (seq n (length l)) w = Ok (tt, w') ∧
    time_clean (db w') = time_clean (db w) ++ wanted l ∧ reservation_value (db w') = reservation_value (db w) ∧ out w' = out w.
Proof.
  intros Hds. induction l as [|d l IH]; intros n w Hn Hd; [exists w; by rewrite app_nil_r|]. cbn [length seq iterM] in *.
  assert (ds !! n = Some d) as Hl by (by rewrite <-(Nat.add_0_r n), <-lookup_drop, Hd).
  destruct (Forall_lookup_1 _ _ _ _ Hds Hl) as [H3 Hz]. destruct d as [|z1 [|z2 [|z3 [|]]]]; try done. do 3 (apply Forall_cons in Hz as [? Hz]).
  assert (read_clean_value (JArr (day_json <$> ds)) n = Ok (mkCleanValue z1 z2 z3)) as Hr.
  { unfold read_clean_value. cbn [jidx]. rewrite list_lookup_fmap, Hl. simpl. by rewrite !swrap_id. }
  set (w1 := if z2 =? 1 then with_db (λ d, mkDb (clean_mode d) (disturb_start_time d) (disturb_end_time d) (reservation_value d) (donot_disturb_value d)
    (time_clean d ++ [mkCleanValue z1 z2 z3])) w else w).
  destruct (IH (S n) w1 ltac:(lia)) as (w' & Hw' & Ht & Hres & Ho).
  { rewrite <-Nat.add_1_r, <-drop_drop, Hd. done. }
  exists w'. assert (append_clean_value (JArr (day_json <$> ds)) n w = Ok (tt, w1)) as Ha.
  { unfold append_clean_value. rewrite run_bind, (run_lift _ _ _ Hr). cbn beta iota. unfold w1. cbn [cv_enable].
    destruct (z2 =? 1) eqn:Hz2; [by rewrite run_when_true|by rewrite run_when_false]. }
  rewrite run_bind, Ha. split; [done|]. rewrite Ht, Hres, Ho. unfold w1, wanted. cbn [fmap list_fmap List.filter]. change (cv_enable (to_value [z1; z2; z3])) with z2.
  destruct (z2 =? 1); cbn [db with_db time_clean reservation_value out]; [by rewrite <-app_assoc|done].
Qed.
Lemma get_timing_run ds mode jr w : db_reply "get_timing_clean_cfg" = Some jr → jkey jr "body" = Ok (week_json mode 1 ds) →
  Forall (λ d, length d = 3%nat ∧ Forall (in_s 32) d) ds → ∃ w', get_timing_clean_cfg w = Ok (1, w') ∧
  time_clean (db w') = time_clean (db w) ++ wanted ds ∧ out w' = out w ++ [EvDp "DP_DB_REQUEST" (World.request "get_timing_clean_cfg" [])].
Proof.
  intros Hr Hb Hds. unfold get_timing_clean_cfg, reply_int. rewrite Hr. rewrite run_bind. unfold db_request, emit. rewrite run_modify. cbn beta iota.
  set (w1 := with_out _ w). rewrite run_bind, run_bind, (run_lift _ _ _ Hb). cbn beta iota. rewrite run_bind, (run_lift _ (JInt 1)) by done.
  cbn beta iota. change (isInt (JInt 1)) with true. cbn beta iota. rewrite run_bind, (run_lift _ 1) by done. cbn beta iota. rewrite run_ret.
  cbn beta iota. rewrite run_bind, (run_lift _ _ _ Hb). cbn beta iota. rewrite run_bind, (run_lift _ (JArr (day_json <$> ds))) by done. cbn beta iota.
  rewrite run_bind, run_when_true by done. cbn [jsize]. rewrite length_fmap.
  destruct (append_days ds ds Hds 0%nat w1 eq_refl eq_refl) as (w' & Hw' & Ht & _ & Ho). exists w'. by rewrite Hw'.
Qed.
Lemma time_clean_broadcast jl b mode new w : jfind "type" jl = Some (JStr "set_timing_clean_cfg") → jfind "body" jl = Some (JObj b) →
  week_body mode 1 new b → ∃ w', OnDpDb_Message "DP_DB_BROADCAST" (Some (JObj jl)) w = Ok (tt, w') ∧
  reservation_value (db w') = 1 ∧ time_clean (db w') = time_clean (db w) ∧ out w' = out w.
Proof.
  intros Ht Hb (_ & He & _). unfold OnDpDb_Message. rewrite run_when_true by done.
  rewrite run_bind, (run_lift _ (JStr "set_timing_clean_cfg")) by (simpl; by rewrite Ht).
  cbn beta iota. rewrite run_bind, (run_lift _ (JObj b)) by (simpl; by rewrite Hb). cbn beta iota.
  change (dispatch g_dpmsg_table (asString (JStr "set_timing_clean_cfg")) (JObj b)) with (Time_clean (JObj b)). unfold Time_clean.
  rewrite run_bind, (run_lift _ 1) by by apply JV_TO_INT_find. by eexists.
Qed.
End scheduler.

(** ** Both *)
Section path.
Context {M : Mldb} {J : JsonText} {R : RealFormat} {Y : YamlCpp} {Sp : MldbSpec M J} {E : Env}.
Implicit Types s : DbServer.
Abbreviation vw s := (view (sysConfig s)).
Abbreviation handle fuel jreq s := (DbServer_OnDpMessage fuel "DP_DB_REQUEST" TYPE_REQUEST (true, JObj jreq) s).

(** The environment of the scheduler whose database server is in the state [s]. *)
Definition server_reply (fuel : nat) s (ty : string) : option json :=
  match DbServer_OnDpMessage fuel "DP_DB_REQUEST" TYPE_REQUEST (true, World.request ty (query_body ty)) s with
  | Ok (Some a, _) => Some a
  | _ => None
  end.
Definition server_env (fuel : nat) s : Env :=
  Build_Env falls_off get_clean_area get_clean_time map_exists (server_reply fuel s) garbage_time garbage_vertex garbage_id.

(** The clean type from its request to the motors: set_clean_type is stored and
    broadcast; the scheduler that gets the broadcast sets the levels of that type,
    and one that asks the server at the start of a cleaning sets the same
    levels. *)
Theorem clean_type_path fuel jl l m old s :
  jfind "type" jl = Some (JStr "set_clean_type") → jfind "body" jl = Some (JObj l) → jfind "mode" l = Some (JInt m) → in_s 32 m →
  int_row (vw s) TABLE_NETWORK_CLEANTYPE ["mode"] [old] → ∃ s' b,
  handle fuel jl s = Ok (Some (answer 0 "set_clean_type" JNull), s') ∧ sent s' = sent s ++ [("DP_DB_BROADCAST", b)] ∧
  ∀ w, ∃ w1 w2, OnDpDb_Message "DP_DB_BROADCAST" (Some b) w = Ok (tt, w1) ∧ out w1 = out w ++ levels m ∧
    @work_clean_type (server_env fuel s') w = Ok (tt, w2) ∧ clean_mode (db w2) = m ∧
    out w2 ≡ₚ out w ++ EvDp "DP_DB_REQUEST" (World.request "get_clean_type" []) :: levels m.
Proof.
  intros Ht Hb Hm Hin Hrow. assert (good_keys ["mode"]) as Hk by (split_and!; [done|apply (bool_decide_unpack _); vm_compute; exact I|by repeat constructor]).
  assert (("set_clean_type", "get_clean_type", (50%nat, TABLE_NETWORK_CLEANTYPE, ["mode"])) ∈ settings) as Hs by left.
  destruct (settings_handlers fuel _ _ _ _ _ Hs) as [(h & Hh & Hhs) (g & Hgh & Hgs)].
  destruct (set_ints_run 50 TABLE_NETWORK_CLEANTYPE ["mode"] jl (JObj l) JNull [m] [old] s Hk) as (s' & Hset & Hrow' & _ & Hsent);
    [simpl; lia|done|exists l; split; [done|by constructor; [|constructor]]|by constructor; [|constructor]|done|].
  exists s', (JObj jl). split_and!; [by eapply request_run; [| |rewrite Hhs|left]|done|]. intros w.
  destruct (clean_type_broadcast jl l m w Ht Hb Hm Hin) as (w1 & H1 & Ho1).
  destruct (@work_clean_type_run (server_env fuel s') m (answer 0 "get_clean_type" (JObj [("mode", JInt m)])) w) as (w2 & H2 & Hm2 & Ho2); [|done|done|by exists w1, w2].
  cbn [db_reply server_env]. unfold server_reply. change (World.request _ _) with (JObj [("type", JStr "get_clean_type")]). erewrite (request_run fuel "get_clean_type" g); [reflexivity|done|done| |by left].
  rewrite Hgs. by apply (get_ints_run TABLE_NETWORK_CLEANTYPE ["mode"] [m]); [|constructor; [|constructor]|].
Qed.

(** C4. A week that is set and switched on, from its request to the scheduler: the
    broadcast makes the scheduler look, and its query brings exactly the days that
    are wanted, in their order: those of the request and those kept from before. *)
Theorem week_path fuel jl b mode new old ds s :
  jfind "type" jl = Some (JStr "set_timing_clean_cfg") → jfind "body" jl = Some (JObj b) →
  week_body mode 1 new b → in_s 32 mode → Forall (Forall (in_s 32)) new → (length new <= 7)%nat →
  on_off (vw s) old.1 old.2 → week (vw s) ds → Forall (Forall (in_s 32)) ds → ∃ s' br,
  handle fuel jl s = Ok (Some (answer 0 "set_timing_clean_cfg" JNull), s') ∧ sent s' = sent s ++ [("DP_DB_BROADCAST", br)] ∧
  ∀ w, ∃ w1 w2, OnDpDb_Message "DP_DB_BROADCAST" (Some br) w = Ok (tt, w1) ∧ reservation_value (db w1) = 1 ∧
    @get_timing_clean_cfg (server_env fuel s') w1 = Ok (1, w2) ∧
    time_clean (db w2) = time_clean (db w) ++ wanted (new ++ drop (length new) ds) ∧
    out w2 = out w ++ [EvDp "DP_DB_REQUEST" (World.request "get_timing_clean_cfg" [])].
Proof.
  intros Ht Hb Hbody Hm Hin Hl Ho Hw Hds.
  destruct (set_week_run jl b mode 1 new old ds s) as (s' & Hr & Ho' & Hw' & Hs'); try done.
  exists s', (JObj jl). split_and!; [by eapply request_run; [| |exact Hr|left]|done|]. intros w.
  destruct (time_clean_broadcast jl b mode new w Ht Hb Hbody) as (w1 & H1 & Hres & Htc & Ho1).
  assert (Forall (Forall (in_s 32)) (new ++ drop (length new) ds)) as Hall by (apply Forall_app; split; [done|by apply Forall_drop]).
  destruct (@get_timing_run (server_env fuel s') (new ++ drop (length new) ds) mode (answer 0 "get_timing_clean_cfg" (week_json mode 1 (new ++ drop (length new) ds))) w1)
    as (w2 & H2 & Ht2 & Ho2).
  - cbn [db_reply server_env]. unfold server_reply. change (World.request _ _) with (JObj [("type", JStr "get_timing_clean_cfg")]). erewrite (request_run fuel "get_timing_clean_cfg"); [reflexivity|done|reflexivity| |by left].
    by apply get_week_run.
  - done.
  - destruct Hw' as (t & _ & _ & _ & Hd). apply Forall_lookup_2. intros i d Hi. split; [by apply (Hd i d)|]. by eapply Forall_lookup_1 in Hall.
  - exists w1, w2. by rewrite Ht2, Ho2, Htc, Ho1.
Qed.
End path.

Definition ref_type : DbServer := ref_server [(TABLE_NETWORK_CLEANTYPE, one_row "id INTEGER PRIMARY KEY,mode INT DEFAULT 2" [("mode", "2")])].
Definition w0 : World := init_world 0 0 0.
Definition path_env : Env := env0 None.
Lemma clean_type_path_witness : ∃ s' w2,
  @work_clean_type (@server_env ref_Mldb ref_JsonText ref_fmt path_env 1 s') w0 = Ok (tt, w2) ∧ clean_mode (db w2) = 3 ∧
  out w2 ≡ₚ EvDp "DP_DB_REQUEST" (World.request "get_clean_type" []) ::
    [level_event "set_mid_level" "level" 1; level_event "set_mop_ctrl" "ctrl" 1; level_event "set_side_level" "level" 2].
Proof.
  destruct (@clean_type_path ref_Mldb ref_JsonText ref_fmt ref_MldbSpec path_env 1 (ref_request "set_clean_type" [("mode", JInt 3)]) [("mode", JInt 3)] 3 2 ref_type)
    as (s' & b & _ & _ & H); [reflexivity|reflexivity|reflexivity|done| |].
  - eexists. split; [vm_compute; reflexivity|]. split; [done|]. split; [vm_compute; reflexivity|done].
  - destruct (H w0) as (w1 & w2 & _ & _ & H2 & Hm & Ho). exists s', w2. split; [exact H2|]. split; [exact Hm|exact Ho].
Defined.
(** Monday at eight is asked for; the days from Wednesday on are as before. *)
Lemma week_path_witness : ∃ s' w1 w2,
  @get_timing_clean_cfg (@server_env ref_Mldb ref_JsonText ref_fmt path_env 1 s') w1 = Ok (1, w2) ∧ time_clean (db w2) = [mkCleanValue 1 1 28800].
Proof.
  destruct (@week_path ref_Mldb ref_JsonText ref_fmt ref_MldbSpec path_env 1 (ref_request "set_timing_clean_cfg" ref_week_body) ref_week_body
    1 [[1; 1; 28800]; [2; 0; 0]] (0, 0) ref_days ref_week)
    as (s' & br & _ & _ & H); try reflexivity.
  - apply ref_week_body_ok.
  - done.
  - apply (bool_decide_unpack _). vm_compute. exact I.
  - simpl. lia.
  - apply ref_week_ok.
  - apply ref_week_ok.
  - apply (bool_decide_unpack _). vm_compute. exact I.
  - destruct (H w0) as (w1 & w2 & _ & _ & H2 & Ht & _). exists s', w1, w2. split; [exact H2|]. rewrite Ht. reflexivity.
Defined.
