(* ===== verification/Smartp.v ===== *)
(** * The connection of the app

    src/lib_app/net_server/smartp/smartp_manager.cpp: the commands of the app are
    turned into requests to the other processes, their answers and broadcasts into
    messages to the app.  One definition per function; what is sent, posted and
    uploaded is collected in lists.  The other processes are a state and a function
    that answers a request; the protocol library of the app, the compression and
    curl are arguments. *)

From S2P Require Import Prelude Float Json DeviceStates JsonText Mldb DbBase Base64 TimeUtil.
From Stdlib Require Import QArith_base Ascii.
From Stdlib Require Import SpecFloat.
From stdpp Require Import pretty.
#[local] Open Scope Z_scope.

(** cmd_id.h *)
Definition CMD_ID_QUERY_MAP := 1312.
Definition CMD_ID_READ_MAP := 1313.
Definition CMD_ID_UPLOAD_MAP := 1219.
Definition CMD_ID_CHANGE_MAP_NAME := 1311.
Definition CMD_ID_START_CLEAN := 1020.
Definition CMD_ID_UPDATE_DEV_STATE := 889.
Definition CMD_ID_START_ZONING_CLEAN := 1030.
Definition CMD_ID_PAUSE_CLEAN := 1060.
Definition CMD_ID_CONTINUE_CLEAN := 1070.
Definition CMD_ID_RECHARGE := 1050.
Definition CMD_ID_GET_CLEAR_MODE := 1309.
Definition CMD_ID_SET_CLEAR_MODE := 1310.
Definition CMD_ID_GET_CLEAN_MODE := 1209.
Definition CMD_ID_SET_CLEAN_MODE := 1300.
Definition CMD_ID_GET_AUDIO_CFG := 1501.
Definition CMD_ID_SET_AUDIO_CFG := 1502.
Definition CMD_ID_GET_DONOT_DISTURB_CFG := 1224.
Definition CMD_ID_SET_DONOT_DISTURB_CFG := 1225.
Definition CMD_ID_GET_TIMING_CLEAN_CFG := 1222.
Definition CMD_ID_SET_TIMING_CLEAN_CFG := 1223.
Definition CMD_ID_GET_SELF_CLEAN_CFG := 1200.
Definition CMD_ID_SET_SELF_CLEAN_CFG := 1201.
Definition CMD_ID_GET_ZONE_CFG := 1227.
Definition CMD_ID_SET_ZONE_CFG := 1226.
Definition CMD_ID_UPDATE_BATTERY_LEVEL := 60.
Definition CMD_ID_UPDATE_AREA_AND_TIME := 1422.
Definition CMD_ID_UPDATE_ALARM := 600.
Definition CMD_ID_GET_LOG := 700.
Definition CMD_ID_UPDATE_CLEAN_TRAJECTORY := 69.
Definition CMD_ID_SELECT_MAP := 1051.
Definition CMD_ID_FAST_BUILD_MAP := 1052.
Definition CMD_ID_DELETE_MAP := 1053.
Definition CMD_ID_RESTORE_DEFAULT := 1054.
Definition CMD_ID_UPDATE_DEVICE_POSE := 1056.
Definition CMD_ID_UPDATE_TOF_BUMP := 1057.
Definition CMD_ID_FORCE_TIME := 1058.
Definition CMD_ID_GET_ALL_STATE := 1059.
Definition CMD_ID_UPDATE_SELF_CLEAN_PERCENTAGE := 61.
Definition CMD_ID_RESET_FACTORY := 1061.
Definition CMD_ID_OTA_UPDATE := 1062.

Definition MSG_UPDATE_BATTERY_LEVEL : Z := 281.   (* 0x119 *)
Definition MSG_START_DEV_SERVER : Z := 288.       (* 0x120 *)
Definition MSG_ACTIVATE_DEV : Z := 2321.          (* 0x911 *)
Definition MSG_JUDGE_ACTIVATE : Z := 1024.        (* 0x400 *)

(** ** Numbers in a stream (std::ifstream >> int, >> float)

    A stream is its text and whether it failed.  A failed read leaves what was in
    the variable when there was nothing left, and stores 0 or the largest value
    otherwise. *)
Definition istream : Type := string * bool.
Definition stream_int (s : istream) (old : Z) : Z * istream :=
  let '(text, failed) := s in
  match skip_blanks text with
  | EmptyString => (old, ("", true))
  | t =>
      if failed : bool then (old, s)
      else
        let '(neg, t) := read_sign t in
        let '(n, len, rest) := read_digits t 0 0 in
        let z := if neg : bool then - n else n in
        if (len =? 0)%nat then (0, (rest, true))
        else if z <? minInt then (minInt, (rest, true))
        else if maxInt <? z then (maxInt, (rest, true)) else (z, (rest, false))
  end.
(** The digits, fraction and exponent that are accepted, as n / 10^k. *)
Definition scan_float (t : string) : option (Z * Z) * string :=
  let '(neg, t) := read_sign t in
  let '(n, len, t) := read_digits t 0 0 in
  let '(n, frac, t) :=
    match t with
    | String "." t' => let '(n, len', t'') := read_digits t' n 0 in (n, len', t'')
    | _ => (n, 0%nat, t)
    end in
  if (len + frac =? 0)%nat then (None, t)
  else
    let n := if neg : bool then - n else n in
    let exponent t' :=
      let '(eneg, t') := read_sign t' in
      let '(e, len', rest) := read_digits t' 0 0 in
      (if (len' =? 0)%nat then None else Some (n, Z.of_nat frac - (if eneg : bool then - e else e)), rest) in
    match t with
    | String "e" t' => exponent t'
    | String "E" t' => exponent t'
    | _ => (Some (n, Z.of_nat frac), t)
    end.
Definition FLT_MAX : Q := inject_Z ((2 ^ 24 - 1) * 2 ^ 104).
Definition stream_float (s : istream) (old : Q) : Q * istream :=
  let '(text, failed) := s in
  match skip_blanks text with
  | EmptyString => (old, ("", true))
  | t =>
      if failed : bool then (old, s)
      else
        match scan_float t with
        | (None, rest) => (inject_Z 0, (rest, true))
        | (Some v, rest) =>
            let '(n, d) := ratio_of v in
            if n =? 0 then (inject_Z 0, (rest, false))
            else
              match float_of_ratio n d with
              | S754_infinity neg => (if neg : bool then Qopp FLT_MAX else FLT_MAX, (rest, true))
              | f => (f_to_Q f, (rest, false))
              end
        end
  end.
(** while (read_file >> tmp) map_data.emplace_back((int8_t )tmp) *)
Fixpoint stream_ints (fuel : nat) (s : istream) : list Z :=
  match fuel with
  | O => []
  | S fuel' =>
      let '(z, s') := stream_int s 0 in
      if s'.2 then [] else swrap 8 z :: stream_ints fuel' s'
  end.

(** A text of characters *)
Definition text_of (cs : list Z) : string := String.string_of_list_ascii ((λ c, ascii_of_N (Z.to_N c)) <$> cs).
Definition jremove (v : json) (k : string) : res json :=
  match v with
  | JNull => Ok JNull
  | JObj l => Ok (JObj (List.filter (λ kv, negb (bool_decide (kv.1 = k))) l))
  | _ => Ub UB_BadJson
  end.

(** ** The outside *)
Class Outside := {
  Peer : Type;                                     (* the other processes *)
  dp_request : string → json → Peer → option (bool * json) * Peer; (* SendDpMessage, and String2Json of its answer *)
  lz4_compress : list Z → list Z;                  (* LZ4_compress_default *)
  file_text : string → option string;              (* std::ifstream *)
  file_lock : string → bool;                       (* flock *)
  mqtt_init : bool;                                (* whether the protocol objects are made *)
  smartp_lan_create : bool;
  encrypt_data : string → option string;
  hwaddr : option (list Z);                        (* ioctl SIOCGIFHWADDR *)
  curl_ready : bool;                               (* whether all options of a request can be set *)
  may_set_clock : Z → bool;                        (* settimeofday *)
  time_zone : Z;
  Log_SearchBuffer : Z → Z → bool → Z → Z * list Z; (* from, to, is_first, start_id: last_id, text *)
  log_fuel : nat;
  HTTP_ACTIVATE_URL : string;
  HTTP_CLEAN_LOG_URL : string }.

Inductive upload :=
| PostData (url type : string) (data : json) (time_out : Z)
| PostFile (url file_name : string) (bytes : list Z).

Section smartp.
Context {Out : Outside} {R : RealFormat}.

Record SmartpManager := mkSmartp {
  sn_ : string; aes_sn_ : string; mac_ : string;
  battery_level_ : Z; battery_flag_ : bool;
  guid_num : Z;                      (* the counter in GetGuid *)
  dev_server : option string;        (* device_start_server *)
  clock_us : Z;                      (* the clock of the system *)
  peer : Peer;
  app_sent : list json;                   (* device_send_to_all *)
  uploads : list upload;
  posted : list (Z * Z) }.           (* delay and message *)
Abbreviation SM := (ST SmartpManager).

Definition set_sn (v : string) (s : SmartpManager) := mkSmartp v (aes_sn_ s) (mac_ s) (battery_level_ s) (battery_flag_ s) (guid_num s) (dev_server s) (clock_us s) (peer s) (app_sent s) (uploads s) (posted s).
Definition set_aes_sn (v : string) (s : SmartpManager) := mkSmartp (sn_ s) v (mac_ s) (battery_level_ s) (battery_flag_ s) (guid_num s) (dev_server s) (clock_us s) (peer s) (app_sent s) (uploads s) (posted s).
Definition set_mac (v : string) (s : SmartpManager) := mkSmartp (sn_ s) (aes_sn_ s) v (battery_level_ s) (battery_flag_ s) (guid_num s) (dev_server s) (clock_us s) (peer s) (app_sent s) (uploads s) (posted s).
Definition set_battery (v : Z) (s : SmartpManager) := mkSmartp (sn_ s) (aes_sn_ s) (mac_ s) v (battery_flag_ s) (guid_num s) (dev_server s) (clock_us s) (peer s) (app_sent s) (uploads s) (posted s).
Definition set_battery_flag (v : bool) (s : SmartpManager) := mkSmartp (sn_ s) (aes_sn_ s) (mac_ s) (battery_level_ s) v (guid_num s) (dev_server s) (clock_us s) (peer s) (app_sent s) (uploads s) (posted s).
Definition set_guid (v : Z) (s : SmartpManager) := mkSmartp (sn_ s) (aes_sn_ s) (mac_ s) (battery_level_ s) (battery_flag_ s) v (dev_server s) (clock_us s) (peer s) (app_sent s) (uploads s) (posted s).
Definition set_server (v : option string) (s : SmartpManager) := mkSmartp (sn_ s) (aes_sn_ s) (mac_ s) (battery_level_ s) (battery_flag_ s) (guid_num s) v (clock_us s) (peer s) (app_sent s) (uploads s) (posted s).
Definition set_clock (v : Z) (s : SmartpManager) := mkSmartp (sn_ s) (aes_sn_ s) (mac_ s) (battery_level_ s) (battery_flag_ s) (guid_num s) (dev_server s) v (peer s) (app_sent s) (uploads s) (posted s).
Definition set_peer (v : Peer) (s : SmartpManager) := mkSmartp (sn_ s) (aes_sn_ s) (mac_ s) (battery_level_ s) (battery_flag_ s) (guid_num s) (dev_server s) (clock_us s) v (app_sent s) (uploads s) (posted s).
Definition add_app (v : json) (s : SmartpManager) := mkSmartp (sn_ s) (aes_sn_ s) (mac_ s) (battery_level_ s) (battery_flag_ s) (guid_num s) (dev_server s) (clock_us s) (peer s) (app_sent s ++ [v]) (uploads s) (posted s).
Definition add_upload (v : upload) (s : SmartpManager) := mkSmartp (sn_ s) (aes_sn_ s) (mac_ s) (battery_level_ s) (battery_flag_ s) (guid_num s) (dev_server s) (clock_us s) (peer s) (app_sent s) (uploads s ++ [v]) (posted s).
Definition set_posted (v : list (Z * Z)) (s : SmartpManager) := mkSmartp (sn_ s) (aes_sn_ s) (mac_ s) (battery_level_ s) (battery_flag_ s) (guid_num s) (dev_server s) (clock_us s) (peer s) (app_sent s) (uploads s) v.

(** A request that is not answered leaves the buffer of the answer as it is. *)
Definition SendDpMessage (method : string) (req : json) : SM (option (bool * json)) := λ s,
  let '(a, p) := dp_request method req (peer s) in Ok (a, set_peer p s).
(** The JSON in a buffer that was empty *)
Definition parsed (a : option (bool * json)) : option json :=
  match a with Some (true, v) => Some v | _ => None end.
(** A request of a type only, {"type":".."} *)
Definition typed (ty : string) : json := JObj [("type", JStr ty)].
Definition PostDelayed (delay msg : Z) : SM unit := s ← get; modify (set_posted (posted s ++ [(delay, msg)])).
Definition Clear (msg : Z) : SM unit := s ← get; modify (set_posted (List.filter (λ p, negb (p.2 =? msg)) (posted s))).
Definition TimeUSecond : SM Z := gets clock_us.
Definition TimeSecond : SM Z := gets (λ s, clock_us s / 1000000).

Definition SendMsg (id : Z) (json_body : json) : SM unit :=
  sn ← gets sn_;
  modify (add_app (JObj [("id", JInt id); ("from", JStr "device"); ("from_name", JStr sn); ("type", JStr "cmd"); ("content", json_body)])).
Definition SendHttpData (url type : string) (json_data : json) (time_out : Z) : SM unit :=
  when curl_ready (modify (add_upload (PostData url type json_data time_out))).

(** ** Start *)
Definition hex_digit (d : Z) : string :=
  default "" (["0"; "1"; "2"; "3"; "4"; "5"; "6"; "7"; "8"; "9"; "A"; "B"; "C"; "D"; "E"; "F"] !! Z.to_nat d).
(** "%02X" for each byte; a char is unsigned on the device *)
Definition mac_text (l : list Z) : string :=
  String.concat "" ((λ b, hex_digit (b / 16) +:+ hex_digit (b mod 16)) <$> take 6 l).
Definition GetMac : SM unit :=
  match hwaddr with Some l => modify (set_mac (mac_text l)) | None => mret tt end.

Definition StartDevServer : SM Z :=
  r ← SendDpMessage "DP_DB_REQUEST" (typed "get_sn");
  sn ← lift (match parsed r with
             | Some json_res => b ← jkey json_res "body"; v ← jkey b "sn"; Ok (if isString v then Some (asString v) else None)
             | None => Ok None
             end);
  match sn with
  | Some sn =>
      modify (set_sn sn);;
      if negb mqtt_init then mret (-1)
      else if negb smartp_lan_create then mret (-1)
      else
        modify (set_server (Some sn));;
        match encrypt_data sn with Some out => modify (set_aes_sn out) | None => mret tt end;;
        mret 0
  | None => PostDelayed 5000 MSG_START_DEV_SERVER;; mret 0
  end.

(** static int num *)
Definition GetGuid : SM string :=
  n ← gets guid_num;
  if maxInt <=? n then undefined UB_SignedOverflow
  else
    modify (set_guid (n + 1));;
    sn ← gets sn_; t ← TimeUSecond;
    mret (sn +:+ pretty t +:+ pretty (Z.rem (n + 1) 10)).

(** ** Maps *)

(** The JSON without the paths, the compressed map and the size of the map; None
    when a file cannot be read. *)
Definition GetMapData (json_data : json) : res (option (json * list Z * Z)) :=
  p1 ← jkey json_data "map_info_path";
  json_data ← jtouch json_data "map_info_path";
  if negb (isString p1) then Ok (Some (json_data, [], 0))
  else
    p2 ← jkey json_data "map_data_path";
    json_data ← jtouch json_data "map_data_path";
    if negb (isString p2) then Ok (Some (json_data, [], 0))
    else
      json_data ← jremove json_data "map_info_path";
      json_data ← jremove json_data "map_data_path";
      match file_text (asString p1) with
      | None => Ok None
      | Some info =>
          if negb (file_lock (asString p1)) then Ok None
          else
            let '(resolution, st) := stream_float (info, false) (inject_Z 0) in
            let '(width, st) := stream_int st 0 in
            let '(height, st) := stream_int st width in
            let '(x_min, st) := stream_float st resolution in
            let '(y_min, st) := stream_float st x_min in
            json_data ← jset json_data "resolution" (JReal resolution);
            json_data ← jset json_data "width" (JInt width);
            json_data ← jset json_data "height" (JInt height);
            json_data ← jset json_data "x_min" (JReal x_min);
            json_data ← jset json_data "y_min" (JReal y_min);
            match file_text (asString p2) with
            | None => Ok None
            | Some data =>
                if negb (file_lock (asString p2)) then Ok None
                else
                  let map_data := stream_ints (S (String.length data)) (data, false) in
                  Ok (Some (json_data, lz4_compress map_data, s32 (zlen map_data)))
            end
      end.

(** The base64 text of [len] bytes from [pos] on *)
Definition encoded (lz4_map : list Z) (pos len : Z) : res string :=
  dst ← EncodeFromArray_string (Some (drop (Z.to_nat pos) lz4_map)) (Z.to_nat len); Ok (text_of dst).
Definition max_len : Z := 60 * 1024 * 3 / 4.
(** The loop of SendMap, [pack_num] packets being left. *)
Fixpoint send_packets (pack_num : nat) (lz4_map : list Z) (map_size : Z) (jreq : json) (pos dest_len sub_num : Z) : SM unit :=
  match pack_num with
  | O => mret tt
  | S n =>
      let len := if (n =? 0)%nat then dest_len else max_len in
      jreq ← lift (jset jreq "sub_num" (JInt sub_num));
      dst ← lift (encoded lz4_map pos len);
      jreq ← lift (jset jreq "map" (JStr dst));
      jreq ← lift (jset jreq "map_original_size" (JInt map_size));
      SendMsg CMD_ID_UPLOAD_MAP jreq;;
      send_packets n lz4_map map_size jreq (pos + max_len) (dest_len - max_len) (sub_num + 1)
  end.
Definition SendMap (jreq : json) : SM unit :=
  d ← lift (GetMapData jreq);
  match d with
  | None => mret tt
  | Some (jreq, lz4_map, map_size) =>
      guid ← GetGuid;
      jreq ← lift (jset jreq "guid" (JStr guid));
      let dest_len := zlen lz4_map in
      let pack_num := dest_len / max_len + (if dest_len mod max_len =? 0 then 0 else 1) in
      jreq ← lift (jset jreq "pack_num" (JInt pack_num));
      send_packets (Z.to_nat pack_num) lz4_map map_size jreq 0 dest_len 1
  end.

(** ** Broadcasts of the other processes *)
Definition clean_status : list (CLEAN_STATE * Z) :=
  [(CLEAN_STATE_AUTO, 2); (CLEAN_STATE_RECT, 3); (CLEAN_STATE_LOCATION, 4); (CLEAN_STATE_SITU, 5); (CLEAN_STATE_RESERVATION, 6)].
Definition device_status : list (E_MASTER_STATE * Z) :=
  [(ESTATE_IDLE, 1); (ESTATE_PAUSE_CLEAN, 7); (ESTATE_BACK_CHARGE, 8); (ESTATE_BACK_WASH, 9); (ESTATE_OTA, 10); (ESTATE_CHAGRE, 11);
   (ESTATE_CHAGRE_END, 12); (ESTATE_SHELF_CLEAN, 13); (ESTATE_SHELF_CLEAN_END, 14); (ESTATE_DORMANCY, 15); (ESTATE_ERROR, 16);
   (ESTATE_CHAGRE_PAUSE, 17); (ESTATE_WASH_PAUSE, 18); (ESTATE_DUMP, 19); (ESTATE_DUMP_END, 20); (ESTATE_SHUTDOWM, 21);
   (ESTATE_FAST_BUILD_MAP, 22); (ESTATE_PAUSE_FAST_BUILD_MAP, 23); (ESTATE_FAST_BUILD_MAP_END, 24); (ESTATE_BACK_CHARGE_ERROR, 25);
   (ESTATE_BACK_WASH_ERROR, 26); (ESTATE_LOCATE_ERROR, 27); (ESTATE_DEVICE_TRAPPED, 28); (ESTATE_FACTORY_TEST, 29)].
(** A switch with default 1 *)
Fixpoint switch {A} (code : A → Z) (cases : list (A * Z)) (z : Z) : Z :=
  match cases with
  | [] => 1
  | (c, v) :: cases' => if z =? code c then v else switch code cases' z
  end.
Definition GetStatus (jreq : json) : res Z :=
  dev_state ← JV_TO_INT jreq "device_state" 1;
  if master_code ESTATE_CLEAN =? dev_state then
    clean_state ← JV_TO_INT jreq "clean_state" 1;
    Ok (switch clean_code clean_status clean_state)
  else Ok (switch master_code device_status dev_state).

Definition DpHandler : Type := json → SM Z.
Definition UpdateDevicePose : DpHandler := λ jreq, SendMsg CMD_ID_UPDATE_DEVICE_POSE jreq;; mret 0.
Definition UpdateTofBumpSensor : DpHandler := λ jreq, SendMsg CMD_ID_UPDATE_TOF_BUMP jreq;; mret 0.
Definition UpdateStatus : DpHandler := λ jreq,
  st ← lift (GetStatus jreq); SendMsg CMD_ID_UPDATE_DEV_STATE (JObj [("state", JInt st)]);; mret (-1).
Definition UpdateSelfCleanPercentage : DpHandler := λ jreq, SendMsg CMD_ID_UPDATE_SELF_CLEAN_PERCENTAGE jreq;; mret 0.
Definition SensorData : DpHandler := λ jreq,
  level ← lift (b ← jkey jreq "battery"; JV_TO_INT b "electric_qy" (-1));
  modify (set_battery level);;
  flag ← gets battery_flag_;
  when (flag && (-1 <? level)) (modify (set_battery_flag false);; PostDelayed 0 MSG_UPDATE_BATTERY_LEVEL);;
  mret (-1).
Definition UpdateCleanArea : DpHandler := λ jreq, SendMsg CMD_ID_UPDATE_AREA_AND_TIME jreq;; mret 0.
Definition UpdateDeviceError : DpHandler := λ jreq, SendMsg CMD_ID_UPDATE_ALARM jreq;; mret 0.
Definition CleanLog : DpHandler := λ jreq,
  d ← lift (GetMapData jreq);
  match d with
  | None => mret tt
  | Some (jreq, lz4_map, map_size) =>
      sn ← gets aes_sn_;
      jreq ← lift (jset jreq "sn" (JStr sn));
      dst ← lift (encoded lz4_map 0 (zlen lz4_map));
      jreq ← lift (jset jreq "map" (JStr dst));
      jreq ← lift (jset jreq "map_original_size" (JInt map_size));
      SendHttpData HTTP_CLEAN_LOG_URL "clean_log" jreq 60
  end;;
  mret 0.
Definition UpdateBatteryLevel : SM unit :=
  level ← gets battery_level_;
  when (0 <=? level) (SendMsg CMD_ID_UPDATE_BATTERY_LEVEL (JObj [("battery_level", JInt level)])).

Definition g_dpmsg_table : list (string * DpHandler) :=
  [("sensor_data", SensorData); ("robot_device_pose", UpdateDevicePose); ("robot_device_state", UpdateStatus);
   ("self_clean_percentage", UpdateSelfCleanPercentage); ("update_clean_area", UpdateCleanArea);
   ("tof_bump_sensor", UpdateTofBumpSensor); ("fault_state", UpdateDeviceError); ("clean_log", CleanLog)].
Fixpoint find_dp (table : list (string * DpHandler)) (stype : string) : option DpHandler :=
  match table with
  | [] => None
  | (ty, h) :: table' => if bool_decide (stype = ty) then Some h else find_dp table' stype
  end.
Definition OnDpMessage (stype : string) (jreq : json) : SM Z :=
  match find_dp g_dpmsg_table stype with
  | Some h => body ← lift (jkey jreq "body"); h body
  | None => mret (-1)
  end.

(** ** Commands of the app *)
Definition AppHandler : Type := json → SM unit.

(** A request whose answer is not wanted, and one whose body is passed on when
    the member [k] of the body has the right type. *)
Definition tell (method : string) (req : json) : SM unit := _ ← SendDpMessage method req; mret tt.
Definition CommonSetCfg (str_type : string) (json_body : json) : SM unit :=
  tell "DP_DB_REQUEST" (JObj [("type", JStr str_type); ("body", json_body)]).
Definition body_if (json_res : option json) (test : json → bool) (k : string) : res (option json) :=
  match json_res with
  | None => Ok None
  | Some r => b ← jkey r "body"; v ← jkey b k; Ok (if test v then Some b else None)
  end.
Definition ask_body (method : string) (req : json) (test : json → bool) (k : string) : SM (option json) :=
  r ← SendDpMessage method req; lift (body_if (parsed r) test k).
Definition forward (id : Z) (b : option json) : SM unit :=
  match b with Some b => SendMsg id b | None => mret tt end.

(** The zones of the saved maps: json_data["map"][i] for the maps from i on. *)
Fixpoint zone_queries (n : nat) (i : nat) (maps json_data : json) : SM json :=
  match n with
  | O => mret json_data
  | S n' =>
      m ← lift (jidx maps i);
      map_id ← lift (jkey m "map_id");
      b ← ask_body "DP_DB_REQUEST" (JObj [("type", JStr "get_zone_cfg"); ("body", JObj [("map_id", map_id)])]) isInt "map_id";
      json_data ← lift (match b with
                        | Some b =>
                            json_data ← jset_elem json_data "map" i b;
                            name ← jkey m "map_name";
                            jset3 json_data "map" i "name" name
                        | None => Ok json_data
                        end);
      zone_queries n' (S i) maps json_data
  end.
(** A part of the state: when the answer is missing the whole message is dropped. *)
Definition state_part (ty : string) (test : json → bool) (k : string) (store : json → json → res json)
    (json_data : json) (rest : json → SM unit) : SM unit :=
  b ← ask_body "DP_DB_REQUEST" (typed ty) test k;
  match b with
  | Some b => json_data ← lift (store json_data b); rest json_data
  | None => mret tt
  end.
Definition GetAllState : AppHandler := λ jreq,
  r ← SendDpMessage "DP_SCHEDULE_REQUEST" (typed "get_all_state");
  match parsed r with
  | None => mret tt
  | Some json_res =>
      body ← lift (jkey json_res "body");
      st ← lift (GetStatus body);
      clean_area ← lift (jkey body "clean_area");
      clean_time ← lift (jkey body "clean_time");
      progress ← lift (jkey body "self_clean_progress");
      robot_pos ← lift (jkey body "clean_robot_pos");
      base_pos ← lift (jkey body "charge_base_pos");
      map_id ← lift (jkey body "current_map_id");
      level ← gets battery_level_;
      let json_data := JObj [("state", JInt st); ("clean_area", clean_area); ("clean_time", clean_time); ("self_clean_progress", progress);
        ("clean_robot_pos", robot_pos); ("charge_base_pos", base_pos); ("current_map_id", map_id);
        ("battery_level", JInt (if 0 <=? level then level else 80))] in
      b ← ask_body "DP_DB_REQUEST" (typed "query_map") isArray "map";
      match b with
      | None => mret tt
      | Some b =>
          maps ← lift (jkey b "map");
          json_data ← (if (jsize maps =? 0)%nat then lift (jset json_data "map" maps)
                       else zone_queries (jsize maps) 0 maps json_data);
          state_part "get_clean_type" isInt "mode" (λ d b, m ← jkey b "mode"; jset d "clean_mode" m) json_data (λ json_data,
          state_part "get_clean_strength" isInt "mode" (λ d b, jset d "clean_strength" b) json_data (λ json_data,
          state_part "get_audio_cfg" isInt "volume" (λ d b, jset d "audio" b) json_data (λ json_data,
          state_part "get_donot_disturb_cfg" isInt "enable" (λ d b, jset d "donot_disturb" b) json_data (λ json_data,
          state_part "get_timing_clean_cfg" isInt "mode" (λ d b, jset d "timing_clean" b) json_data (λ json_data,
          state_part "get_self_clean_cfg" isInt "enable" (λ d b, e ← jkey b "enable"; jset2 d "self_clean" "enable" e) json_data (λ json_data,
          SendMsg CMD_ID_GET_ALL_STATE json_data))))))
      end
  end.

Definition GetTraj : AppHandler := λ jreq,
  b ← ask_body "DP_SCHEDULE_REQUEST" (JObj [("type", JStr "update_clean_trail"); ("body", jreq)]) isInt "start_pos";
  forward CMD_ID_UPDATE_CLEAN_TRAJECTORY b.
Definition QueryMap : AppHandler := λ jreq,
  b ← ask_body "DP_DB_REQUEST" (typed "query_map") isArray "map"; forward CMD_ID_QUERY_MAP b.

(** The first of the maps from i on whose id is [map_id] *)
Fixpoint find_map (n : nat) (i : nat) (maps : json) (map_id : Z) : res (option json) :=
  match n with
  | O => Ok None
  | S n' =>
      m ← jidx maps i; v ← jkey m "map_id"; id ← asInt v;
      if map_id =? id then Ok (Some m) else find_map n' (S i) maps map_id
  end.
Definition ReadMap : AppHandler := λ jreq,
  v ← lift (jkey jreq "map_id");
  '(m, buffer) ← (if isInt v then
         r ← SendDpMessage "DP_DB_REQUEST" (typed "query_map");
         b ← lift (body_if (parsed r) isArray "map");
         m ← lift (match b with
                   | None => Ok None
                   | Some b => map_id ← asInt v; maps ← jkey b "map"; find_map (jsize maps) 0 maps map_id
                   end);
         mret (m, r)
       else mret (None, None));
  match m with
  | Some m => SendMap m
  | None =>
      r ← SendDpMessage "DP_SCHEDULE_REQUEST" (typed "read_current_map");
      match parsed (match r with Some _ => r | None => buffer end) with
      | Some json_res => b ← lift (jkey json_res "body"); SendMap b
      | None => mret tt
      end
  end.
Definition SelectMap : AppHandler := λ jreq, tell "DP_SCHEDULE_REQUEST" (JObj [("type", JStr "select_map"); ("body", jreq)]).
Definition ChangeMapName : AppHandler := CommonSetCfg "edit_map_name".
Definition StartClean : AppHandler := λ jreq, tell "DP_SCHEDULE_REQUEST" (typed "start_clean").
Definition StartZoningClean : AppHandler := CommonSetCfg "zoning_clean".
Definition PauseClean : AppHandler := λ jreq, tell "DP_SCHEDULE_REQUEST" (typed "pause_clean").
Definition ContinueClean : AppHandler := λ jreq, tell "DP_SCHEDULE_REQUEST" (typed "continue_clean").
Definition Recharge : AppHandler := λ jreq, tell "DP_SCHEDULE_REQUEST" (typed "recharge").
Definition GetClearMode : AppHandler := λ jreq,
  b ← ask_body "DP_DB_REQUEST" (typed "get_clean_type") isInt "mode"; forward CMD_ID_GET_CLEAR_MODE b.
Definition SetClearMode : AppHandler := CommonSetCfg "set_clean_type".
Definition GetCleanMode : AppHandler := λ jreq,
  b ← ask_body "DP_DB_REQUEST" (typed "get_clean_strength") isInt "mode"; forward CMD_ID_GET_CLEAN_MODE b.
Definition SetCleanMode : AppHandler := CommonSetCfg "set_clean_strength".
Definition GetAudioCfg : AppHandler := λ jreq,
  b ← ask_body "DP_DB_REQUEST" (typed "get_audio_cfg") isInt "volume"; forward CMD_ID_GET_AUDIO_CFG b.
Definition SetAudioCfg : AppHandler := CommonSetCfg "set_audio_cfg".
Definition GetTimingCleanCfg : AppHandler := λ jreq,
  b ← ask_body "DP_DB_REQUEST" (typed "get_timing_clean_cfg") isInt "mode"; forward CMD_ID_GET_TIMING_CLEAN_CFG b.
Definition SetTimingCleanCfg : AppHandler := CommonSetCfg "set_timing_clean_cfg".
Definition GetDonotDisturbCfg : AppHandler := λ jreq,
  b ← ask_body "DP_DB_REQUEST" (typed "get_donot_disturb_cfg") isInt "enable"; forward CMD_ID_GET_DONOT_DISTURB_CFG b.
Definition SetDonotDisturbCfg : AppHandler := CommonSetCfg "set_donot_disturb_cfg".
Definition GetZoneCfg : AppHandler := λ jreq,
  b ← ask_body "DP_DB_REQUEST" (JObj [("type", JStr "get_zone_cfg"); ("body", jreq)]) isInt "map_id"; forward CMD_ID_GET_ZONE_CFG b.
Definition SetZoneCfg : AppHandler := CommonSetCfg "set_zone_cfg".
Definition GetSelfCleanCfg : AppHandler := λ jreq,
  b ← ask_body "DP_DB_REQUEST" (typed "get_self_clean_cfg") isInt "enable"; forward CMD_ID_GET_SELF_CLEAN_CFG b.
Definition SetSelfCleanCfg : AppHandler := CommonSetCfg "set_self_clean_cfg".

(** The log of the last 30 days, searched until last_id is 0. *)
Fixpoint search_log (fuel : nat) (start_sec end_sec start_id : Z) (is_first : bool) : res (list Z) :=
  match fuel with
  | O => Ub UB_Diverges
  | S fuel' =>
      let '(last_id, bytes) := Log_SearchBuffer start_sec end_sec is_first start_id in
      if last_id =? 0 then Ok bytes
      else rest ← search_log fuel' start_sec end_sec last_id false; Ok (bytes ++ rest)
  end.
Definition GetLog : AppHandler := λ jreq,
  now ← TimeSecond;
  let sec := u32 now in
  bytes ← lift (search_log log_fuel (u32 (sec - 30 * 24 * 3600)) sec 0 true);
  v ← lift (jkey jreq "url");
  sn ← gets sn_;
  when (negb (length bytes =? 0)%nat && curl_ready) (modify (add_upload (PostFile (asString v) (sn +:+ ".txt") bytes))).

Definition FastBuildMap : AppHandler := λ jreq, tell "DP_SCHEDULE_REQUEST" (typed "fast_build_map").
Definition DeleteMap : AppHandler := CommonSetCfg "delete_map".
Definition ForceTime : AppHandler := λ jreq,
  _ ← lift (jkey jreq "time_zone");
  v ← lift (jkey jreq "force_time");
  let tv_sec := s64 (TimeLocalFromString (c_string (asString v)) + 28800) in
  when (isString v && may_set_clock tv_sec) (modify (set_clock (tv_sec * 1000000)));;
  now ← TimeSecond; now_us ← TimeUSecond;
  SendMsg CMD_ID_FORCE_TIME (JObj [("dev_time", JStr (TimeLocalToString time_zone now now_us 0))]).
Definition RestoreDefault : AppHandler := λ jreq, tell "DP_DB_REQUEST" (typed "restore_default").
Definition ResetFactory : AppHandler := λ jreq, tell "DP_DAEMON_REQUEST" (typed "reset_factory").
Definition OtaUpdate : AppHandler := λ jreq, tell "DP_DAEMON_REQUEST" (typed "ota_update").

Definition g_appmsg_table : list (Z * AppHandler) :=
  [(CMD_ID_GET_ALL_STATE, GetAllState); (CMD_ID_FORCE_TIME, ForceTime); (CMD_ID_READ_MAP, ReadMap);
   (CMD_ID_UPDATE_CLEAN_TRAJECTORY, GetTraj); (CMD_ID_QUERY_MAP, QueryMap); (CMD_ID_SELECT_MAP, SelectMap);
   (CMD_ID_START_CLEAN, StartClean); (CMD_ID_FAST_BUILD_MAP, FastBuildMap); (CMD_ID_START_ZONING_CLEAN, StartZoningClean);
   (CMD_ID_PAUSE_CLEAN, PauseClean); (CMD_ID_CONTINUE_CLEAN, ContinueClean); (CMD_ID_RECHARGE, Recharge);
   (CMD_ID_SET_ZONE_CFG, SetZoneCfg); (CMD_ID_CHANGE_MAP_NAME, ChangeMapName); (CMD_ID_SET_CLEAR_MODE, SetClearMode);
   (CMD_ID_SET_CLEAN_MODE, SetCleanMode); (CMD_ID_SET_TIMING_CLEAN_CFG, SetTimingCleanCfg);
   (CMD_ID_SET_DONOT_DISTURB_CFG, SetDonotDisturbCfg); (CMD_ID_SET_AUDIO_CFG, SetAudioCfg); (CMD_ID_SET_SELF_CLEAN_CFG, SetSelfCleanCfg);
   (CMD_ID_GET_CLEAR_MODE, GetClearMode); (CMD_ID_GET_CLEAN_MODE, GetCleanMode); (CMD_ID_GET_AUDIO_CFG, GetAudioCfg);
   (CMD_ID_GET_TIMING_CLEAN_CFG, GetTimingCleanCfg); (CMD_ID_GET_DONOT_DISTURB_CFG, GetDonotDisturbCfg);
   (CMD_ID_GET_ZONE_CFG, GetZoneCfg); (CMD_ID_GET_SELF_CLEAN_CFG, GetSelfCleanCfg); (CMD_ID_GET_LOG, GetLog);
   (CMD_ID_DELETE_MAP, DeleteMap); (CMD_ID_RESTORE_DEFAULT, RestoreDefault); (CMD_ID_RESET_FACTORY, ResetFactory);
   (CMD_ID_OTA_UPDATE, OtaUpdate)].
Fixpoint find_app (table : list (Z * AppHandler)) (cmd_id : Z) : option AppHandler :=
  match table with
  | [] => None
  | (id, h) :: table' => if cmd_id =? id then Some h else find_app table' cmd_id
  end.
(** [data]: the result of String2Json *)
Definition OnCommandReceived (data : bool * json) : SM unit :=
  if data.1 then
    id ← lift (jkey data.2 "id");
    if isInt id then
      cmd_id ← lift (asInt id);
      match find_app g_appmsg_table cmd_id with
      | Some h => content ← lift (jkey data.2 "content"); h content
      | None => mret tt
      end
    else mret tt
  else mret tt.

(** ** Activation *)
Definition ActivateDev : SM unit :=
  mac ← gets mac_;
  when (bool_decide (mac = "")) GetMac;;
  r ← SendDpMessage "DP_DB_REQUEST" (typed "get_machine_param");
  device ← lift (match parsed r with
                 | None => Ok []
                 | Some json_res =>
                     b ← jkey json_res "body"; sw ← jkey b "sw_version";
                     if isString sw then
                       hw ← jkey b "hw_version";
                       Ok (if isString hw then [("hwver", hw); ("swver", sw)] else [])
                     else Ok []
                 end);
  sn ← gets sn_; mac ← gets mac_;
  SendHttpData HTTP_ACTIVATE_URL "activate" (JObj [("device", JObj (device ++ [("sn", JStr sn); ("mac", JStr mac)]))]) 10.
Definition JudgeActivationStatus : SM unit :=
  r ← SendDpMessage "DP_DB_REQUEST" (typed "get_activate");
  activate ← lift (match parsed r with
                   | None => Ok 0
                   | Some json_res => b ← jkey json_res "body"; v ← jkey b "activate"; if isInt v then asInt v else Ok 0
                   end);
  when (activate =? 0) ActivateDev.
Definition DealActivateRes (str_res : bool * json) (success_res : bool) : SM unit :=
  if success_res then
    Clear MSG_ACTIVATE_DEV;;
    ok ← lift (if str_res.1 then
                 v ← jkey str_res.2 "code";
                 Ok (isString v && (bool_decide (asString v = "1000") || bool_decide (asString v = "3001")))
               else Ok false);
    when ok (tell "DP_DB_REQUEST" (JObj [("type", JStr "set_activate"); ("body", JObj [("activate", JInt 1)])]))
  else PostDelayed 10000 MSG_ACTIVATE_DEV.
Definition OnHttpResDone (user_type : string) (response : bool * json) : SM unit :=
  when (bool_decide (user_type = "activate")) (DealActivateRes response true).
Definition OnHttpResErr (user_type : string) (response : bool * json) : SM unit :=
  when (bool_decide (user_type = "activate")) (DealActivateRes response false).

(** A posted message *)
Definition OnMessage (message_id : Z) : SM unit :=
  if message_id =? MSG_UPDATE_BATTERY_LEVEL then UpdateBatteryLevel;; PostDelayed 60000 MSG_UPDATE_BATTERY_LEVEL
  else if message_id =? MSG_START_DEV_SERVER then _ ← StartDevServer; mret tt
  else if message_id =? MSG_ACTIVATE_DEV then ActivateDev
  else when (message_id =? MSG_JUDGE_ACTIVATE) JudgeActivationStatus.

(** The state after the constructor and Start. *)
Definition init_smartp (p : Peer) (now_us : Z) : SmartpManager :=
  mkSmartp "" "" "" (-1) true 0 None now_us p [] [] [(2000, MSG_START_DEV_SERVER); (5000, MSG_JUDGE_ACTIVATE)].
End smartp.
Arguments SmartpManager {_}.
