(* ===== verification/SmartpTheorems.v ===== *)
(** * What the app gets

    The packets of a map, the numbers of the states, and the commands of the app as
    requests to the other processes. *)

From S2P Require Import Prelude Float Json DeviceStates JsonText Mldb DbBase MemBuffer Base64 Base64Theorems TimeUtil Smartp.
From S2P Require Import DbNetwork DbPeripheral DpMessage DbServer SqlTexts MldbRef DbTheorems.
From Stdlib Require Import QArith_base Ascii.
From stdpp Require Import pretty.
#[local] Open Scope Z_scope.

(** ** Texts *)
Lemma codes_cons a s : codes (String a s) = Z.of_N (N_of_ascii a) :: codes s.
Proof. done. Qed.
Lemma codes_app s t : codes (s +:+ t) = codes s ++ codes t.
Proof. induction s as [|a s IH]; [done|]. change (String a s +:+ t) with (String a (s +:+ t)). by rewrite !codes_cons, IH. Qed.
Lemma codes_text l : Forall byte l → codes (text_of l) = l.
Proof.
  induction 1 as [|b l Hb Hl IH]; [done|]. change (text_of (b :: l)) with (String (ascii_of_N (Z.to_N b)) (text_of l)). rewrite codes_cons, IH.
  unfold in_u in Hb. change (2 ^ 8) with 256 in Hb. rewrite N_ascii_embedding by lia. f_equal. lia.
Qed.
Lemma text_length l : String.length (text_of l) = length l.
Proof. induction l as [|b l IH]; [done|]. change (text_of (b :: l)) with (String (ascii_of_N (Z.to_N b)) (text_of l)). cbn. by rewrite IH. Qed.
Lemma concat_codes l : codes (String.concat "" l) = concat (codes <$> l).
Proof.
  induction l as [|x l IH]; [done|]. cbn [fmap list_fmap concat]. rewrite <-IH. destruct l as [|y l]; [cbn; by rewrite app_nil_r|].
  change (String.concat "" (x :: y :: l)) with (x +:+ "" +:+ String.concat "" (y :: l)). by rewrite codes_app.
Qed.

Section smartp.
Context {Out : Outside} {R : RealFormat}.
Implicit Types s : SmartpManager.

(** The message that carries [content]. *)
Definition app_message s (id : Z) (content : json) : json :=
  JObj [("id", JInt id); ("from", JStr "device"); ("from_name", JStr (sn_ s)); ("type", JStr "cmd"); ("content", content)].
Definition with_app (ms : list json) s : SmartpManager :=
  mkSmartp (sn_ s) (aes_sn_ s) (mac_ s) (battery_level_ s) (battery_flag_ s) (guid_num s) (dev_server s) (clock_us s) (peer s) (app_sent s ++ ms) (uploads s) (posted s).
Lemma SendMsg_run id content s : SendMsg id content s = Ok (tt, with_app [app_message s id content] s).
Proof. done. Qed.
Lemma with_app_app ms ms' s : with_app ms' (with_app ms s) = with_app (ms ++ ms') s.
Proof. unfold with_app. cbn. by rewrite <-app_assoc. Qed.

(** ** The packets of a map *)
Lemma encoded_run lz pos len : Forall byte lz → 0 ≤ pos → 0 ≤ len → pos + len ≤ zlen lz → len < 2 ^ 30 →
  encoded lz pos len = Ok (text_of (b64 (take (Z.to_nat len) (drop (Z.to_nat pos) lz)))).
Proof.
  intros Hb Hp Hl Hz Hs. unfold encoded. rewrite string_run; [done|by apply Forall_drop|rewrite length_drop; unfold zlen in Hz; lia|].
  unfold encoded_size. rewrite Z2Nat.id by lia. Z.to_euclidean_division_equations. lia.
Qed.

(** What the members of a packet's content are. *)
Definition map_packet (l : list (string * json)) (map_size sub_num : Z) (text : string) (c : list (string * json)) : Prop :=
  jfind "sub_num" c = Some (JInt sub_num) ∧ jfind "map" c = Some (JStr text) ∧ jfind "map_original_size" c = Some (JInt map_size) ∧
  ∀ k, k ∉ ["sub_num"; "map"; "map_original_size"] → jfind k c = jfind k l.
Definition put_packet (l : list (string * json)) (map_size sub_num : Z) (text : string) : list (string * json) :=
  jput "map_original_size" (JInt map_size) (jput "map" (JStr text) (jput "sub_num" (JInt sub_num) l)).
Lemma put_packet_ok l map_size sub_num text : map_packet l map_size sub_num text (put_packet l map_size sub_num text).
Proof.
  unfold map_packet, put_packet. split_and!.
  - rewrite 2!jfind_jput_ne by done. apply jfind_jput.
  - rewrite jfind_jput_ne by done. apply jfind_jput.
  - by rewrite jfind_jput.
  - intros k Hk. rewrite !not_elem_of_cons in Hk. destruct Hk as (? & ? & ? & _). by rewrite !jfind_jput_ne.
Qed.

Lemma max_len_eq : max_len = 46080.
Proof. done. Qed.
#[local] Opaque max_len.
Lemma send_packets_run lz map_size : Forall byte lz → zlen lz < 2 ^ 30 → ∀ n l pos sub_num s,
  0 ≤ pos → (Z.of_nat n - 1) * max_len < zlen lz - pos ≤ Z.of_nat n * max_len →
  ∃ msgs texts, send_packets n lz map_size (JObj l) pos (zlen lz - pos) sub_num s = Ok (tt, with_app msgs s) ∧
    length msgs = n ∧ length texts = n ∧ concat (codes <$> texts) = b64 (drop (Z.to_nat pos) lz) ∧
    Forall (λ t, (Z.of_nat (String.length t) ≤ 60 * 1024)) texts ∧
    ∀ i t, texts !! i = Some t → ∃ c, msgs !! i = Some (app_message s CMD_ID_UPLOAD_MAP (JObj c)) ∧ map_packet l map_size (sub_num + Z.of_nat i) t c.
Proof.
  intros Hb Hz. pose proof max_len_eq as Hm. induction n as [|n IH]; intros l pos sub_num s Hp Hn.
  { exists [], []. rewrite drop_ge by (unfold zlen in *; lia). split_and!; try done. unfold with_app. cbn [send_packets]. rewrite app_nil_r. by destruct s. }
  set (len := if (n =? 0)%nat then zlen lz - pos else max_len).
  assert (0 ≤ len ≤ max_len ∧ pos + len ≤ zlen lz) as [Hlen Hpl] by (unfold len; destruct (Nat.eqb_spec n 0); lia).
  set (t := text_of (b64 (take (Z.to_nat len) (drop (Z.to_nat pos) lz)))).
  assert (Z.of_nat (String.length t) ≤ 60 * 1024) as Htl.
  { unfold t. rewrite text_length. change (Z.of_nat (length ?x)) with (zlen x). rewrite zlen_b64, length_take, length_drop. unfold encoded_size.
    assert (Z.of_nat (Z.to_nat len `min` (length lz - Z.to_nat pos)) ≤ 46080) by lia. Z.to_euclidean_division_equations. lia. }
  assert (codes t = b64 (take (Z.to_nat len) (drop (Z.to_nat pos) lz))) as Hct by (apply codes_text, b64_bytes, Forall_take, Forall_drop, Hb).
  assert (send_packets (S n) lz map_size (JObj l) pos (zlen lz - pos) sub_num s =
    send_packets n lz map_size (JObj (put_packet l map_size sub_num t)) (pos + max_len) (zlen lz - (pos + max_len)) (sub_num + 1)
      (with_app [app_message s CMD_ID_UPLOAD_MAP (JObj (put_packet l map_size sub_num t))] s)) as ->.
  { cbn [send_packets]. fold len. rewrite run_bind. cbn [jset]. rewrite (run_lift _ (JObj (jput "sub_num" (JInt sub_num) l))) by done. cbn beta iota.
    rewrite run_bind, (run_lift _ t) by (apply encoded_run; [done|lia|lia|lia|lia]). cbn beta iota.
    rewrite run_bind, (run_lift _ (JObj (jput "map" (JStr t) (jput "sub_num" (JInt sub_num) l)))) by done. cbn beta iota.
    rewrite run_bind, (run_lift _ (JObj (put_packet l map_size sub_num t))) by done. cbn beta iota. rewrite run_bind, SendMsg_run. cbn beta iota.
    by replace (zlen lz - pos - max_len) with (zlen lz - (pos + max_len)) by lia. }
  destruct (decide (n = 0%nat)) as [->|Hn0].
  - exists [app_message s CMD_ID_UPLOAD_MAP (JObj (put_packet l map_size sub_num t))], [t]. split_and!; try done.
    + cbn [fmap list_fmap concat]. rewrite app_nil_r, Hct. unfold len. cbn [Nat.eqb]. rewrite take_ge; [done|]. rewrite length_drop. unfold zlen. lia.
    + by apply Forall_cons_2.
    + intros [|i] t' Ht; [|done]. injection Ht as <-. eexists. split; [done|]. rewrite Z.add_0_r. apply put_packet_ok.
  - destruct (IH (put_packet l map_size sub_num t) (pos + max_len) (sub_num + 1) (with_app [app_message s CMD_ID_UPLOAD_MAP (JObj (put_packet l map_size sub_num t))] s))
      as (msgs & texts & Hr & Hlm & Hlt & Hc & Hf & Hi); [lia|lia|].
    exists (app_message s CMD_ID_UPLOAD_MAP (JObj (put_packet l map_size sub_num t)) :: msgs), (t :: texts). rewrite Hr, with_app_app. split_and!.
    + done.
    + cbn. by rewrite Hlm.
    + cbn. by rewrite Hlt.
    + cbn [fmap list_fmap concat]. rewrite Hc, Hct. unfold len. rewrite (proj2 (Nat.eqb_neq _ _) Hn0).
      rewrite Z2Nat.inj_add, <-drop_drop, <-b64_app, take_drop by first [lia|done|rewrite length_take_le by (rewrite length_drop; unfold zlen in *; lia); rewrite Hm; done]. done.
    + by apply Forall_cons_2.
    + intros [|i] t' Ht; [injection Ht as <-; eexists; split; [done|]; rewrite Z.add_0_r; apply put_packet_ok|].
      destruct (Hi i t' Ht) as (c & Hmsg & Hp1 & Hp2 & Hp3 & Hp4). exists c. split; [done|]. replace (sub_num + Z.of_nat (S i)) with (sub_num + 1 + Z.of_nat i) by lia.
      split_and!; try done. intros k Hk. rewrite Hp4 by done. by apply put_packet_ok.
Qed.

Definition after_guid s : SmartpManager := set_guid (guid_num s + 1) s.
Definition guid_text s : string := sn_ s +:+ pretty (clock_us s) +:+ pretty (Z.rem (guid_num s + 1) 10).
Lemma GetGuid_run s : guid_num s < maxInt → GetGuid s = Ok (guid_text s, after_guid s).
Proof. intros Hg. unfold GetGuid. rewrite run_bind, run_gets. cbn beta iota. by rewrite (proj2 (Z.leb_gt _ _) Hg). Qed.
Lemma pack_num_spec len : 0 < len →
  let n := Z.to_nat (len / max_len + (if len mod max_len =? 0 then 0 else 1)) in (Z.of_nat n - 1) * max_len < len ≤ Z.of_nat n * max_len.
Proof.
  intros Hl. cbv zeta. rewrite max_len_eq. pose proof (Z.div_mod len 46080 ltac:(lia)). pose proof (Z.mod_pos_bound len 46080 ltac:(lia)).
  pose proof (Z.div_pos len 46080 ltac:(lia) ltac:(lia)). destruct (Z.eqb_spec (len mod 46080) 0); rewrite Z2Nat.id by lia; lia.
Qed.

(** A map is sent in packets: they have one guid and say how many they are, they
    are numbered from 1, no text is longer than 60 K, and who joins the texts in
    order and decodes them has the compressed map. *)
Lemma map_packets jreq l lz map_size s : GetMapData jreq = Ok (Some (JObj l, lz, map_size)) → Forall byte lz → 0 < zlen lz < 2 ^ 30 → guid_num s < maxInt →
  ∃ msgs texts, SendMap jreq s = Ok (tt, with_app msgs (after_guid s)) ∧ length texts = length msgs ∧
    Forall (λ t, (Z.of_nat (String.length t) ≤ 60 * 1024)) texts ∧
    DecodeFromArray (codes (String.concat "" texts)) DO_STRICT = Ok (true, lz, length (codes (String.concat "" texts))) ∧
    ∀ i t, texts !! i = Some t → ∃ c, msgs !! i = Some (app_message s CMD_ID_UPLOAD_MAP (JObj c)) ∧
      jfind "guid" c = Some (JStr (guid_text s)) ∧ jfind "pack_num" c = Some (JInt (Z.of_nat (length msgs))) ∧
      jfind "sub_num" c = Some (JInt (1 + Z.of_nat i)) ∧ jfind "map" c = Some (JStr t) ∧ jfind "map_original_size" c = Some (JInt map_size).
Proof.
  intros Hd Hb Hz Hg. unfold SendMap. rewrite run_bind, (run_lift _ _ _ Hd). cbn beta iota. rewrite run_bind, GetGuid_run by done. cbn beta iota.
  rewrite run_bind. cbn [jset]. rewrite (run_lift _ (JObj (jput "guid" (JStr (guid_text s)) l))) by done. cbn beta iota.
  pose proof (pack_num_spec (zlen lz) ltac:(lia)) as Hn. cbv zeta in Hn. assert (0 ≤ zlen lz / max_len) by (apply Z.div_pos; [lia|by rewrite max_len_eq]).
  set (pn := zlen lz / max_len + _) in *. assert (0 ≤ pn) as Hpn by (unfold pn; destruct (_ =? 0); lia). set (n := Z.to_nat pn) in *.
  set (l' := jput "pack_num" (JInt pn) (jput "guid" (JStr (guid_text s)) l)). rewrite run_bind, (run_lift _ (JObj l')) by done. cbn beta iota.
  destruct (send_packets_run lz map_size Hb ltac:(lia) n l' 0 1 (after_guid s) ltac:(lia) ltac:(lia)) as (msgs & texts & Hr & Hlm & Hlt & Hc & Hf & Hi).
  exists msgs, texts. rewrite Z.sub_0_r in Hr. rewrite drop_0 in Hc. split_and!; [done|congruence|done| |].
  - rewrite concat_codes, Hc. unfold DecodeFromArray. rewrite (decode_run _ _ _ (b64 lz) lz) by (done || lia). cbn [mbind res_bind app].
    by rewrite Nat.eqb_refl.
  - intros i t Ht. destruct (Hi i t Ht) as (c & Hmsg & H1 & H2 & H3 & H4). exists c. split; [exact Hmsg|]. rewrite !H4 by (apply (bool_decide_unpack _); vm_compute; exact I).
    unfold l'. rewrite jfind_jput, jfind_jput_ne, jfind_jput by done. rewrite Hlm. unfold n. rewrite Z2Nat.id by done. done.
Qed.

(** ** The state of the device *)

(** What the app distinguishes. *)
Definition shown (d : E_MASTER_STATE) (c : CLEAN_STATE) : option (E_MASTER_STATE + CLEAN_STATE) :=
  match d, c with
  | ESTATE_INIT, _ | ESTATE_IDLE, _ | ESTATE_CLEAN, CLEAN_STATE_NULL => None
  | ESTATE_CLEAN, c => Some (inr c)
  | d, _ => Some (inl d)
  end.
(** The numbers of the states in the protocol of the app, written out. *)
Definition status (d : E_MASTER_STATE) (c : CLEAN_STATE) : Z :=
  match d, c with
  | ESTATE_INIT, _ | ESTATE_IDLE, _ | ESTATE_CLEAN, CLEAN_STATE_NULL => 1
  | ESTATE_CLEAN, CLEAN_STATE_AUTO => 2 | ESTATE_CLEAN, CLEAN_STATE_RECT => 3 | ESTATE_CLEAN, CLEAN_STATE_LOCATION => 4
  | ESTATE_CLEAN, CLEAN_STATE_SITU => 5 | ESTATE_CLEAN, CLEAN_STATE_RESERVATION => 6
  | ESTATE_PAUSE_CLEAN, _ => 7 | ESTATE_BACK_CHARGE, _ => 8 | ESTATE_BACK_WASH, _ => 9 | ESTATE_OTA, _ => 10
  | ESTATE_CHAGRE, _ => 11 | ESTATE_CHAGRE_END, _ => 12 | ESTATE_SHELF_CLEAN, _ => 13 | ESTATE_SHELF_CLEAN_END, _ => 14
  | ESTATE_DORMANCY, _ => 15 | ESTATE_ERROR, _ => 16 | ESTATE_CHAGRE_PAUSE, _ => 17 | ESTATE_WASH_PAUSE, _ => 18
  | ESTATE_DUMP, _ => 19 | ESTATE_DUMP_END, _ => 20 | ESTATE_SHUTDOWM, _ => 21 | ESTATE_FAST_BUILD_MAP, _ => 22
  | ESTATE_PAUSE_FAST_BUILD_MAP, _ => 23 | ESTATE_FAST_BUILD_MAP_END, _ => 24 | ESTATE_BACK_CHARGE_ERROR, _ => 25
  | ESTATE_BACK_WASH_ERROR, _ => 26 | ESTATE_LOCATE_ERROR, _ => 27 | ESTATE_DEVICE_TRAPPED, _ => 28 | ESTATE_FACTORY_TEST, _ => 29
  end.
Lemma status_run l d c : jfind "device_state" l = Some (JInt (master_code d)) → jfind "clean_state" l = Some (JInt (clean_code c)) →
  GetStatus (JObj l) = Ok (status d c).
Proof.
  intros Hd Hc. unfold GetStatus. rewrite (JV_TO_INT_find "device_state" _ (master_code d)) by (done || by destruct d). cbn [mbind res_bind].
  destruct (decide (d = ESTATE_CLEAN)) as [->|Hcl].
  - cbn. rewrite (JV_TO_INT_find "clean_state" _ (clean_code c)) by (done || by destruct c). by destruct c.
  - by destruct d.
Qed.
Definition all_clean : list CLEAN_STATE :=
  [CLEAN_STATE_NULL; CLEAN_STATE_AUTO; CLEAN_STATE_RECT; CLEAN_STATE_LOCATION; CLEAN_STATE_SITU; CLEAN_STATE_RESERVATION].
Lemma status_shown d c d' c' : status d c = status d' c' ↔ shown d c = shown d' c'.
Proof.
  assert (forallb (λ d, forallb (λ c, forallb (λ d', forallb (λ c',
    eqb (status d c =? status d' c') (bool_decide (shown d c = shown d' c'))) all_clean) all_master) all_clean) all_master = true) as H by (vm_compute; reflexivity).
  rewrite forallb_forall in H. specialize (H d ltac:(destruct d; simpl; tauto)). rewrite forallb_forall in H. specialize (H c ltac:(destruct c; simpl; tauto)).
  rewrite forallb_forall in H. specialize (H d' ltac:(destruct d'; simpl; tauto)). rewrite forallb_forall in H. specialize (H c' ltac:(destruct c'; simpl; tauto)).
  apply eqb_prop in H. rewrite <-Z.eqb_eq, H. apply bool_decide_eq_true.
Qed.

(** ** Commands of the app *)
Lemma command_run id h jl s : jfind "id" jl = Some (JInt id) → in_s 32 id → find_app g_appmsg_table id = Some h →
  OnCommandReceived (true, JObj jl) s = h (default JNull (jfind "content" jl)) s.
Proof.
  intros Hid Hin Hh. unfold OnCommandReceived. cbn [fst snd jkey]. rewrite Hid. rewrite run_bind, (run_lift _ (JInt id)) by done. cbn beta iota.
  replace (isInt (JInt id)) with true.
  2: { symmetry. unfold isInt, in_s, minInt, maxInt in *. apply andb_true_intro. split; apply Z.leb_le; lia. }
  rewrite run_bind, (run_lift _ id) by (cbn [asInt]; by rewrite swrap_id). cbn beta iota. rewrite Hh, run_bind.
  by rewrite (run_lift _ (default JNull (jfind "content" jl))).
Qed.
(** The commands that become one request: the process, the type, and whether the
    content goes with it. *)
Definition command_requests : list (Z * (string * string * bool)) :=
  [(CMD_ID_SELECT_MAP, ("DP_SCHEDULE_REQUEST", "select_map", true)); (CMD_ID_START_CLEAN, ("DP_SCHEDULE_REQUEST", "start_clean", false));
   (CMD_ID_FAST_BUILD_MAP, ("DP_SCHEDULE_REQUEST", "fast_build_map", false)); (CMD_ID_START_ZONING_CLEAN, ("DP_DB_REQUEST", "zoning_clean", true));
   (CMD_ID_PAUSE_CLEAN, ("DP_SCHEDULE_REQUEST", "pause_clean", false)); (CMD_ID_CONTINUE_CLEAN, ("DP_SCHEDULE_REQUEST", "continue_clean", false));
   (CMD_ID_RECHARGE, ("DP_SCHEDULE_REQUEST", "recharge", false)); (CMD_ID_SET_ZONE_CFG, ("DP_DB_REQUEST", "set_zone_cfg", true));
   (CMD_ID_CHANGE_MAP_NAME, ("DP_DB_REQUEST", "edit_map_name", true)); (CMD_ID_SET_CLEAR_MODE, ("DP_DB_REQUEST", "set_clean_type", true));
   (CMD_ID_SET_CLEAN_MODE, ("DP_DB_REQUEST", "set_clean_strength", true)); (CMD_ID_SET_TIMING_CLEAN_CFG, ("DP_DB_REQUEST", "set_timing_clean_cfg", true));
   (CMD_ID_SET_DONOT_DISTURB_CFG, ("DP_DB_REQUEST", "set_donot_disturb_cfg", true)); (CMD_ID_SET_AUDIO_CFG, ("DP_DB_REQUEST", "set_audio_cfg", true));
   (CMD_ID_SET_SELF_CLEAN_CFG, ("DP_DB_REQUEST", "set_self_clean_cfg", true)); (CMD_ID_DELETE_MAP, ("DP_DB_REQUEST", "delete_map", true));
   (CMD_ID_RESTORE_DEFAULT, ("DP_DB_REQUEST", "restore_default", false)); (CMD_ID_RESET_FACTORY, ("DP_DAEMON_REQUEST", "reset_factory", false));
   (CMD_ID_OTA_UPDATE, ("DP_DAEMON_REQUEST", "ota_update", false))].
Definition command_request (ty : string) (with_body : bool) (content : json) : json :=
  JObj (("type", JStr ty) :: if with_body then [("body", content)] else []).
Lemma tell_run method req s : tell method req s = Ok (tt, set_peer (dp_request method req (peer s)).2 s).
Proof. unfold tell. rewrite run_bind. unfold SendDpMessage. by destruct (dp_request method req (peer s)). Qed.
Lemma command_requests_run id method ty wb jl s : (id, (method, ty, wb)) ∈ command_requests → jfind "id" jl = Some (JInt id) →
  OnCommandReceived (true, JObj jl) s =
    Ok (tt, set_peer (dp_request method (command_request ty wb (default JNull (jfind "content" jl))) (peer s)).2 s).
Proof.
  intros Hin Hid. unfold command_requests in Hin. rewrite !elem_of_cons, elem_of_nil in Hin. destruct_or! Hin; try done; simplify_eq.
  all: erewrite (command_run _ _ jl s Hid); [|done|reflexivity]; rewrite <-tell_run; reflexivity.
Qed.

(** The queries that are answered with the body of the answer, if its member [k]
    is an integer. *)
Definition queries : list (Z * (string * string)) :=
  [(CMD_ID_GET_CLEAR_MODE, ("get_clean_type", "mode")); (CMD_ID_GET_CLEAN_MODE, ("get_clean_strength", "mode"));
   (CMD_ID_GET_AUDIO_CFG, ("get_audio_cfg", "volume")); (CMD_ID_GET_TIMING_CLEAN_CFG, ("get_timing_clean_cfg", "mode"));
   (CMD_ID_GET_DONOT_DISTURB_CFG, ("get_donot_disturb_cfg", "enable")); (CMD_ID_GET_SELF_CLEAN_CFG, ("get_self_clean_cfg", "enable"))].
Definition body_query (id : Z) (ty k : string) : AppHandler := λ _,
  b ← ask_body "DP_DB_REQUEST" (typed ty) isInt k; forward id b.
Lemma queries_handler id ty k : (id, (ty, k)) ∈ queries → in_s 32 id ∧ ∃ h, find_app g_appmsg_table id = Some h ∧ ∀ j s, h j s = body_query id ty k j s.
Proof.
  intros H. unfold queries in H. rewrite !elem_of_cons, elem_of_nil in H. destruct_or! H; try done; simplify_eq; (split; [done|]); eexists; (split; [reflexivity|done]).
Qed.
Lemma app_query_run id ty k jl s r p b x : (id, (ty, k)) ∈ queries → jfind "id" jl = Some (JInt id) →
  dp_request "DP_DB_REQUEST" (typed ty) (peer s) = (Some (true, r), p) → jkey r "body" = Ok b → jkey b k = Ok x → isInt x = true →
  OnCommandReceived (true, JObj jl) s = Ok (tt, with_app [app_message s id b] (set_peer p s)).
Proof.
  intros Hin Hid Hp Hb Hx Hi. destruct (queries_handler id ty k Hin) as (Hs & h & Hh & He). rewrite (command_run id h jl s Hid Hs Hh), He.
  unfold body_query, ask_body. rewrite run_bind, run_bind. unfold SendDpMessage. rewrite Hp. cbn beta iota. rewrite (run_lift _ (Some b)); [done|].
  unfold body_if. cbn [parsed]. rewrite Hb. cbn [mbind res_bind]. rewrite Hx. cbn [mbind res_bind]. by rewrite Hi.
Qed.
End smartp.
