(* ===== verification/SmartpEvents.v ===== *)
(** * The timer of the battery level

    Whatever the app, the other processes and the servers do, there is exactly one
    pending update of the battery level from the first level on, and it sends the
    last one. *)

From S2P Require Import Prelude Float Json DeviceStates JsonText Mldb DbBase Base64 TimeUtil Smartp SmartpTheorems.
From Stdlib Require Import QArith_base.
#[local] Open Scope Z_scope.

Section events.
Context {Out : Outside} {R : RealFormat}.
Implicit Types s : SmartpManager.

(** The level in a broadcast of the readings, -1 if there is none. *)
Definition read_level (jreq : json) : res Z :=
  body ← jkey jreq "body"; b ← jkey body "battery"; JV_TO_INT b "electric_qy" (-1).

(** A step of the process that brings no readings: another broadcast, a command of
    the app, the end of an upload, a message whose delay is over, or a change
    outside. *)
Inductive smartp_step s : SmartpManager → Prop :=
| step_broadcast ty j r s' : ty ≠ "sensor_data" → OnDpMessage ty j s = Ok (r, s') → smartp_step s s'
| step_command data s' : OnCommandReceived data s = Ok (tt, s') → smartp_step s s'
| step_done ty response s' : OnHttpResDone ty response s = Ok (tt, s') → smartp_step s s'
| step_failed ty response s' : OnHttpResErr ty response s = Ok (tt, s') → smartp_step s s'
| step_posted pre d m post s' : posted s = pre ++ (d, m) :: post → OnMessage m (set_posted (pre ++ post) s) = Ok (tt, s') → smartp_step s s'
| step_outside p now : smartp_step s (set_clock now (set_peer p s)).

(** [smartp_run ls s]: a run of the process to [s], in which the levels [ls] were
    broadcast, the last one last. *)
Inductive smartp_run : list Z → SmartpManager → Prop :=
| run_start p now : smartp_run [] (init_smartp p now)
| run_level ls s j level r s' : smartp_run ls s → read_level j = Ok level →
    OnDpMessage "sensor_data" j s = Ok (r, s') → smartp_run (ls ++ [level]) s'
| run_step ls s s' : smartp_run ls s → smartp_step s s' → smartp_run ls s'.

(** How many updates are pending *)
Definition is_battery (p : Z * Z) : bool := p.2 =? MSG_UPDATE_BATTERY_LEVEL.
Definition battery_posts (l : list (Z * Z)) : nat := length (List.filter is_battery l).
(** [known]: a level has been broadcast; [level]: the last one. *)
Definition Once (known : bool) (level : Z) s : Prop :=
  battery_posts (posted s) = Nat.b2n known ∧ battery_flag_ s = negb known ∧ battery_level_ s = level.

Lemma posts_app l l' : battery_posts (l ++ l') = (battery_posts l + battery_posts l')%nat.
Proof. unfold battery_posts. by rewrite List.filter_app, length_app. Qed.
Lemma posts_clear msg l : msg ≠ MSG_UPDATE_BATTERY_LEVEL → battery_posts (List.filter (λ p, negb (p.2 =? msg)) l) = battery_posts l.
Proof.
  intros Hm. unfold battery_posts. induction l as [|[d m] l IH]; [done|]. cbn [List.filter]. unfold is_battery at 2. cbn [snd].
  destruct (Z.eqb_spec m msg) as [->|]; cbn [negb]; [by rewrite (proj2 (Z.eqb_neq _ _) Hm)|]. cbn [List.filter]. unfold is_battery at 1. cbn [snd].
  destruct (m =? MSG_UPDATE_BATTERY_LEVEL); cbn [length]; by rewrite IH.
Qed.

Definition any_ub (u : ub) : Prop := True.
Lemma res_true {A} (r : res A) : res_in any_ub r.
Proof. by destruct r. Qed.
#[local] Hint Resolve res_true : pres.
Section keeps.
Variables (known : bool) (level : Z).
Abbreviation keeps m := (pres any_ub (Once known level) m).

(** A change of something else *)
Lemma keeps_modify (f : SmartpManager → SmartpManager) :
  (∀ s, posted (f s) = posted s ∧ battery_flag_ (f s) = battery_flag_ s ∧ battery_level_ (f s) = battery_level_ s) → keeps (modify f).
Proof. intros H. apply pres_modify. intros s. unfold Once. by destruct (H s) as (-> & -> & ->). Qed.
Lemma keeps_undefined {A} u : keeps (undefined u : ST SmartpManager A).
Proof. by intros s Hs. Qed.
Lemma keeps_request method req : keeps (SendDpMessage method req).
Proof. intros s Hs. unfold SendDpMessage. by destruct (dp_request method req (peer s)). Qed.
Lemma keeps_post delay msg : msg ≠ MSG_UPDATE_BATTERY_LEVEL → keeps (PostDelayed delay msg).
Proof.
  intros Hm s (Hp & Hf & Hl). unfold PostDelayed. rewrite run_bind, run_get. cbn beta iota. rewrite run_modify. split_and!; [|done|done]. cbn [posted set_posted].
  rewrite posts_app, Hp. unfold battery_posts, is_battery. cbn [List.filter snd]. rewrite (proj2 (Z.eqb_neq _ _) Hm). cbn [length]. lia.
Qed.
Lemma keeps_clear msg : msg ≠ MSG_UPDATE_BATTERY_LEVEL → keeps (Clear msg).
Proof.
  intros Hm s (Hp & Hf & Hl). unfold Clear. rewrite run_bind, run_get. cbn beta iota. rewrite run_modify. split_and!; [|done|done]. cbn [posted set_posted].
  by rewrite posts_clear.
Qed.
Lemma keeps_pair {A B C} (p : A * B) (k : A → B → ST SmartpManager C) : (∀ a b, keeps (k a b)) → keeps (let '(a, b) := p in k a b).
Proof. destruct p. auto. Qed.
#[local] Hint Resolve keeps_undefined keeps_request : pres.
#[local] Hint Extern 2 (keeps (PostDelayed _ _)) => by apply keeps_post : pres.
#[local] Hint Extern 2 (keeps (Clear _)) => by apply keeps_clear : pres.
#[local] Hint Extern 2 (keeps (modify _)) => by apply keeps_modify : pres.
Lemma keeps_msg id j : keeps (SendMsg id j).
Proof. unfold SendMsg. solve_pres. Qed.
Lemma keeps_http url ty j t : keeps (SendHttpData url ty j t).
Proof. unfold SendHttpData. solve_pres. Qed.
#[local] Hint Resolve keeps_msg keeps_http : pres.
Lemma keeps_packets n lz size j pos len sub : keeps (send_packets n lz size j pos len sub).
Proof. revert j pos len sub. induction n as [|n IH]; intros j pos len sub; cbn [send_packets]; solve_pres. Qed.
Lemma keeps_guid : keeps GetGuid.
Proof. unfold GetGuid, TimeUSecond. solve_pres. Qed.
#[local] Hint Resolve keeps_packets keeps_guid : pres.
Lemma keeps_map j : keeps (SendMap j).
Proof. unfold SendMap. solve_pres. Qed.
Lemma keeps_tell m r : keeps (tell m r).
Proof. unfold tell. solve_pres. Qed.
Lemma keeps_ask m r t k : keeps (ask_body m r t k).
Proof. unfold ask_body. solve_pres. Qed.
Lemma keeps_forward id b : keeps (forward id b).
Proof. unfold forward. solve_pres. Qed.
#[local] Hint Resolve keeps_map keeps_tell keeps_ask keeps_forward : pres.
Lemma keeps_zones n : ∀ i maps j, keeps (zone_queries n i maps j).
Proof. induction n as [|n IH]; intros i maps j; cbn [zone_queries]; solve_pres. Qed.
#[local] Hint Resolve keeps_zones : pres.
Lemma keeps_part ty test k store j rest : (∀ j, keeps (rest j)) → keeps (state_part ty test k store j rest).
Proof. intros H. unfold state_part. solve_pres. Qed.
Lemma keeps_all j : keeps (GetAllState j).
Proof. unfold GetAllState. solve_pres; repeat (apply keeps_part; intros ?); solve_pres. Qed.
Lemma keeps_read j : keeps (ReadMap j).
Proof. unfold ReadMap. solve_pres. Qed.
Lemma keeps_log j : keeps (GetLog j).
Proof. unfold GetLog, TimeSecond. solve_pres. Qed.
Lemma keeps_time j : keeps (ForceTime j).
Proof. unfold ForceTime, TimeSecond, TimeUSecond. solve_pres. Qed.
#[local] Hint Resolve keeps_all keeps_read keeps_log keeps_time : pres.
Lemma keeps_app : Forall (λ e, ∀ j, keeps (e.2 j)) g_appmsg_table.
Proof.
  unfold g_appmsg_table. repeat (apply Forall_cons_2; [intros j; cbn [snd]|]); [..|by apply Forall_nil_2].
  all: first [solve [auto with pres]
    |unfold GetTraj, QueryMap, SelectMap, ChangeMapName, StartClean, StartZoningClean, PauseClean, ContinueClean, Recharge, GetClearMode,
       SetClearMode, GetCleanMode, SetCleanMode, GetAudioCfg, SetAudioCfg, GetTimingCleanCfg, SetTimingCleanCfg, GetDonotDisturbCfg,
       SetDonotDisturbCfg, GetZoneCfg, SetZoneCfg, GetSelfCleanCfg, SetSelfCleanCfg, FastBuildMap, DeleteMap, RestoreDefault, ResetFactory,
       OtaUpdate, CommonSetCfg; solve_pres].
Qed.
Lemma find_app_in table id h : find_app table id = Some h → ∃ e, e ∈ table ∧ e.2 = h.
Proof.
  induction table as [|[i h'] table IH]; [done|]. cbn [find_app]. destruct (id =? i); intros H.
  - simplify_eq. eexists. split; [by left|done].
  - destruct (IH H) as (e & He & <-). exists e. split; [by right|done].
Qed.
Lemma keeps_found id h j : find_app g_appmsg_table id = Some h → keeps (h j).
Proof. intros (e & He & <-)%find_app_in. exact (proj1 (Forall_forall _ _) keeps_app e He j). Qed.
#[local] Hint Resolve keeps_found : pres.
Lemma keeps_command data : keeps (OnCommandReceived data).
Proof. unfold OnCommandReceived. solve_pres. Qed.
Lemma keeps_activate : keeps ActivateDev.
Proof. unfold ActivateDev, GetMac. solve_pres. Qed.
#[local] Hint Resolve keeps_activate : pres.
Lemma keeps_judge : keeps JudgeActivationStatus.
Proof. unfold JudgeActivationStatus. solve_pres. Qed.
Lemma keeps_result r b : keeps (DealActivateRes r b).
Proof. unfold DealActivateRes. solve_pres. Qed.
Lemma keeps_server : keeps StartDevServer.
Proof. unfold StartDevServer. solve_pres. Qed.
#[local] Hint Resolve keeps_judge keeps_result keeps_server : pres.

Lemma keeps_log_map j : keeps (CleanLog j).
Proof. unfold CleanLog. solve_pres. Qed.
#[local] Hint Resolve keeps_log_map : pres.
Lemma keeps_dp : Forall (λ e, ∀ j, keeps (e.2 j)) (tail g_dpmsg_table).
Proof.
  unfold g_dpmsg_table. cbn [tail]. repeat (apply Forall_cons_2; [intros j; cbn [snd]|]); [..|by apply Forall_nil_2].
  all: first [solve [auto with pres]
    |unfold UpdateDevicePose, UpdateStatus, UpdateSelfCleanPercentage, UpdateCleanArea, UpdateTofBumpSensor, UpdateDeviceError; solve_pres].
Qed.
Lemma find_dp_in table ty h : find_dp table ty = Some h → ∃ e, e ∈ table ∧ e.2 = h.
Proof.
  induction table as [|[i h'] table IH]; [done|]. cbn [find_dp]. destruct (bool_decide _); intros H.
  - simplify_eq. eexists. split; [by left|done].
  - destruct (IH H) as (e & He & <-). exists e. split; [by right|done].
Qed.
Lemma keeps_broadcast ty j : ty ≠ "sensor_data" → keeps (OnDpMessage ty j).
Proof.
  intros Hty. unfold OnDpMessage. change (find_dp g_dpmsg_table ty) with (if bool_decide (ty = "sensor_data") then Some SensorData else find_dp (tail g_dpmsg_table) ty).
  rewrite bool_decide_false by done. destruct (find_dp _ ty) as [h|] eqn:Hh; [|apply pres_ret].
  apply find_dp_in in Hh as (e & He & <-). apply pres_bind; [by apply pres_lift, res_true|intros b]. exact (proj1 (Forall_forall _ _) keeps_dp e He b).
Qed.
End keeps.

(** The first level posts the first update. *)
Lemma level_run known old level j s r s' : Once known old s → read_level j = Ok level → OnDpMessage "sensor_data" j s = Ok (r, s') →
  Once (known || (-1 <? level)) level s'.
Proof.
  intros (Hp & Hf & _) Hl. unfold OnDpMessage. change (find_dp g_dpmsg_table "sensor_data") with (Some SensorData). cbn beta iota. unfold read_level in Hl.
  destruct (jkey j "body") as [body|]; [|done]. rewrite run_bind, (run_lift _ body) by done. cbn beta iota. unfold SensorData. cbn beta.
  cbn [mbind res_bind] in Hl. rewrite run_bind, (run_lift _ _ _ Hl). cbn beta iota. rewrite run_bind, run_modify, run_bind, run_gets. cbn beta iota.
  change (battery_flag_ (set_battery level s)) with (battery_flag_ s). rewrite Hf.
  destruct known; cbn [negb andb orb when]; [by intros [= _ <-]|]. destruct (-1 <? level); cbn [when]; [|by intros [= _ <-]].
  unfold PostDelayed. intros [= _ <-]. split_and!; [|done|done]. cbn [posted set_posted set_battery_flag set_battery]. by rewrite posts_app, Hp.
Qed.

(** A message whose delay is over has left the queue; an update sends the level
    and is posted again. *)
Definition after_update rest s : SmartpManager :=
  set_posted (rest ++ [(60000, MSG_UPDATE_BATTERY_LEVEL)])
    (with_app (if 0 <=? battery_level_ s then [app_message s CMD_ID_UPDATE_BATTERY_LEVEL (JObj [("battery_level", JInt (battery_level_ s))])] else []) s).
Lemma update_run rest s : OnMessage MSG_UPDATE_BATTERY_LEVEL (set_posted rest s) = Ok (tt, after_update rest s).
Proof.
  unfold OnMessage. change (MSG_UPDATE_BATTERY_LEVEL =? MSG_UPDATE_BATTERY_LEVEL) with true. cbn beta iota. unfold UpdateBatteryLevel, after_update.
  rewrite run_bind, run_bind, run_gets. cbn beta iota. change (battery_level_ (set_posted rest s)) with (battery_level_ s).
  destruct (0 <=? battery_level_ s); cbn [when]; [by rewrite SendMsg_run|]. rewrite run_ret. unfold with_app, PostDelayed. rewrite app_nil_r. by destruct s.
Qed.
Lemma posts_middle pre d m post : battery_posts (pre ++ (d, m) :: post) = (battery_posts (pre ++ post) + (if (m =? MSG_UPDATE_BATTERY_LEVEL)%Z then 1 else 0))%nat.
Proof.
  rewrite !posts_app. unfold battery_posts at 2. cbn [List.filter]. unfold is_battery at 1. cbn [snd].
  destruct (m =? MSG_UPDATE_BATTERY_LEVEL); unfold battery_posts; cbn [length]; lia.
Qed.
Lemma keeps_message known level pre d m post s s' : Once known level s → posted s = pre ++ (d, m) :: post →
  OnMessage m (set_posted (pre ++ post) s) = Ok (tt, s') → Once known level s'.
Proof.
  intros (Hs & Hf & Hl) Hp. rewrite Hp, posts_middle in Hs. destruct (Z.eqb_spec m MSG_UPDATE_BATTERY_LEVEL) as [->|Hm].
  - rewrite update_run. intros [= <-]. split_and!; [|done|done]. cbn [posted after_update set_posted]. rewrite posts_app.
    change (battery_posts [(60000, MSG_UPDATE_BATTERY_LEVEL)]) with 1%nat. exact Hs.
  - assert (Once known level (set_posted (pre ++ post) s)) as Hs' by (split_and!; [cbn [posted set_posted]; lia|done|done]).
    unfold OnMessage. rewrite (proj2 (Z.eqb_neq _ _) Hm). intros H. eapply pres_run; [|exact Hs'|exact H].
    destruct (m =? MSG_START_DEV_SERVER); [apply pres_bind; [apply keeps_server|intros ?; apply pres_ret]|].
    destruct (m =? MSG_ACTIVATE_DEV); [apply keeps_activate|]. apply pres_when, keeps_judge.
Qed.
Lemma step_once known level s s' : Once known level s → smartp_step s s' → Once known level s'.
Proof.
  intros IH [ty j r s1 Hty H|data s1 H|ty response s1 H|ty response s1 H|pre d m post s1 Hp H|p now].
  - exact (pres_run _ _ _ _ _ _ (keeps_broadcast known level ty j Hty) IH H).
  - exact (pres_run _ _ _ _ _ _ (keeps_command known level data) IH H).
  - eapply pres_run; [|exact IH|exact H]. pose proof (keeps_result known level). unfold OnHttpResDone. solve_pres.
  - eapply pres_run; [|exact IH|exact H]. pose proof (keeps_post known level). unfold OnHttpResErr. solve_pres.
  - by eapply keeps_message.
  - exact IH.
Qed.

(** C10. From the first broadcast of the readings that has a battery level on, in
    every state the app's module can reach, exactly one update of the level is
    pending, and none before; other broadcasts, commands of the app, answers of
    servers and other messages do not change that.  When its delay is over the
    update sends the app the level that was broadcast last, if that is not
    negative, and leaves one update pending again, in sixty seconds. *)
Theorem battery_timer ls s : smartp_run ls s →
  battery_posts (posted s) = (if existsb (λ level, -1 <? level)%Z ls then 1%nat else 0%nat) ∧
  ∀ pre d post, posted s = pre ++ (d, MSG_UPDATE_BATTERY_LEVEL) :: post →
  let level := default (-1) (last ls) in
  OnMessage MSG_UPDATE_BATTERY_LEVEL (set_posted (pre ++ post) s) =
    Ok (tt, set_posted ((pre ++ post) ++ [(60000, MSG_UPDATE_BATTERY_LEVEL)])
      (with_app (if 0 <=? level then [app_message s CMD_ID_UPDATE_BATTERY_LEVEL (JObj [("battery_level", JInt level)])] else []) s)).
Proof.
  intros H. assert (Once (existsb (λ level, -1 <? level) ls) (default (-1) (last ls)) s) as (Hs & _ & Hl).
  { induction H as [p now|ls s j level r s' _ IH Hj Hr|ls s s' _ IH Hstep]; [done| |by eapply step_once].
    rewrite existsb_app, last_snoc. cbn [existsb default]. rewrite orb_false_r. by eapply level_run. }
  split; [by destruct (existsb _ ls)|]. intros pre d post _ level. rewrite update_run. unfold after_update. by rewrite Hl.
Qed.
End events.

(** ** Examples *)

(** No map has a file but map 7, whose two files are there; the compression keeps
    the bytes. *)
Definition ref_outside : Outside := {|
  Peer := unit; dp_request := λ _ _ p, (None, p); lz4_compress := λ l, u8 <$> l;
  file_text := λ f, if decide (f = "info") then Some "0.05 3 1 -1.5 -1.5" else if decide (f = "data") then Some "100 0 -1 " else None;
  file_lock := λ _, true; mqtt_init := true; smartp_lan_create := true; encrypt_data := Some; hwaddr := Some [0; 0; 0; 0; 0; 1];
  curl_ready := true; may_set_clock := λ _, true; time_zone := 28800; Log_SearchBuffer := λ _ _ _ _, (0, []); log_fuel := 1;
  HTTP_ACTIVATE_URL := "activate"; HTTP_CLEAN_LOG_URL := "log" |}.

(** The level 80 is broadcast: one update is pending; the update is sent and the
    next one is pending. *)
Definition ref_level : json := JObj [("body", JObj [("battery", JObj [("electric_qy", JInt 80)])])].
#[local] Instance no_reals : RealFormat := λ _, "".
Definition ref_idle : @SmartpManager ref_outside := init_smartp (Out:=ref_outside) tt 0.
Lemma battery_timer_witness : ∃ s, OnDpMessage (Out:=ref_outside) "sensor_data" ref_level ref_idle = Ok (-1, s) ∧
  battery_posts (posted s) = 1%nat ∧
  OnMessage (Out:=ref_outside) MSG_UPDATE_BATTERY_LEVEL (set_posted (posted ref_idle) s) =
    Ok (tt, set_posted (posted ref_idle ++ [(60000, MSG_UPDATE_BATTERY_LEVEL)])
      (with_app [app_message s CMD_ID_UPDATE_BATTERY_LEVEL (JObj [("battery_level", JInt 80)])] s)).
Proof.
  eexists. split; [reflexivity|].
  edestruct (@battery_timer ref_outside no_reals [80]) as [H1 H2].
  - eapply (run_level [] ref_idle ref_level 80); [apply run_start|reflexivity|reflexivity].
  - split; [exact H1|]. exact (H2 (posted ref_idle) 0 [] eq_refl).
Defined.
