(* ===== verification/SmartpSystem.v ===== *)
(** * The app, the database server and the scheduler together

    The other processes of Smartp.v are the database server of DbServer.v and the
    scheduler of Netserver.v: a request of the app is followed to the process that
    carries it out, and a broadcast of the scheduler to the message the app gets. *)

From S2P Require Import Prelude Float Json JsonText Mldb DbBase DbNetwork DbPeripheral DpMessage DbServer SqlTexts MldbRef DbTheorems.
From S2P Require Import DeviceStates DataModel World Netserver System Behaviour MemBuffer Base64 Base64Theorems TimeUtil Smartp SmartpTheorems SmartpEvents.
From Stdlib Require Import QArith_base Ascii.
From stdpp Require Import pretty.
#[local] Open Scope Z_scope.

Section system.
Context {M : Mldb} {J : JsonText} {R : RealFormat} {Y : YamlCpp} {Sp : MldbSpec M J} {E : Env} (fuel : nat) (base : Outside).

(** A request to a process that has stopped is not answered. *)
Definition peers_request (method : string) (req : json) (p : DbServer * World) : option (bool * json) * (DbServer * World) :=
  if decide (method = "DP_DB_REQUEST") then
    match DbServer_OnDpMessage fuel method TYPE_REQUEST (true, req) p.1 with
    | Ok (a, d) => (pair true <$> a, (d, p.2))
    | Ub _ => (None, p)
    end
  else if decide (method = "DP_SCHEDULE_REQUEST") then
    match OnDpNet_Message method true (Some req) p.2 with
    | Ok (a, w) => (pair true <$> a, (p.1, w))
    | Ub _ => (None, p)
    end
  else (None, p).
#[local] Instance with_peers : Outside := {|
  Peer := DbServer * World; dp_request := peers_request; lz4_compress := @lz4_compress base; file_text := @file_text base;
  file_lock := @file_lock base; mqtt_init := @mqtt_init base; smartp_lan_create := @smartp_lan_create base;
  encrypt_data := @encrypt_data base; hwaddr := @hwaddr base; curl_ready := @curl_ready base; may_set_clock := @may_set_clock base;
  time_zone := @time_zone base; Log_SearchBuffer := @Log_SearchBuffer base; log_fuel := @log_fuel base;
  HTTP_ACTIVATE_URL := @HTTP_ACTIVATE_URL base; HTTP_CLEAN_LOG_URL := @HTTP_CLEAN_LOG_URL base |}.
Implicit Types s : SmartpManager.
Abbreviation db_of s := ((peer s : DbServer * World).1).
Abbreviation sched_of s := ((peer s : DbServer * World).2).
Definition with_db_server (d : DbServer) s : SmartpManager := set_peer (d, sched_of s) s.
Definition with_scheduler (w : World) s : SmartpManager := set_peer (db_of s, w) s.

Lemma db_request_run req s a d : DbServer_OnDpMessage fuel "DP_DB_REQUEST" TYPE_REQUEST (true, req) (db_of s) = Ok (Some a, d) →
  dp_request "DP_DB_REQUEST" req (peer s) = (Some (true, a), peer (with_db_server d s)).
Proof. intros H. cbn [dp_request with_peers]. unfold peers_request. rewrite decide_True by done. by rewrite H. Qed.
Lemma sched_request_run req s a w : OnDpNet_Message "DP_SCHEDULE_REQUEST" true (Some req) (sched_of s) = Ok (a, w) →
  dp_request "DP_SCHEDULE_REQUEST" req (peer s) = (pair true <$> a, peer (with_scheduler w s)).
Proof. intros H. cbn [dp_request with_peers]. unfold peers_request. rewrite decide_False, decide_True by done. by rewrite H. Qed.

(** ** Settings *)

(** The settings of the app: command to set and to get, and the integer that is
    checked in the answer. *)
Definition app_settings : list (Z * Z * string * (string * string * (nat * string * list string))) :=
  [(CMD_ID_SET_CLEAR_MODE, CMD_ID_GET_CLEAR_MODE, "mode", ("set_clean_type", "get_clean_type", (50, TABLE_NETWORK_CLEANTYPE, ["mode"])));
   (CMD_ID_SET_CLEAN_MODE, CMD_ID_GET_CLEAN_MODE, "mode", ("set_clean_strength", "get_clean_strength",
     (200, TABLE_NETWORK_CLEANSTRENGTH, ["mode"; "suction"; "water_yield"; "speed"; "area"])));
   (CMD_ID_SET_DONOT_DISTURB_CFG, CMD_ID_GET_DONOT_DISTURB_CFG, "enable", ("set_donot_disturb_cfg", "get_donot_disturb_cfg",
     (200, TABLE_NETWORK_NODISTURB, ["enable"; "start_time"; "end_time"])));
   (CMD_ID_SET_SELF_CLEAN_CFG, CMD_ID_GET_SELF_CLEAN_CFG, "enable", ("set_self_clean_cfg", "get_self_clean_cfg",
     (50, TABLE_NETWORK_SELFCLEAN, ["enable"])))]%nat.
Lemma app_settings_spec sid gid k sty gty n t ks : (sid, gid, k, (sty, gty, (n, t, ks))) ∈ app_settings →
  (sid, ("DP_DB_REQUEST", sty, true)) ∈ command_requests ∧ (gid, (gty, k)) ∈ queries ∧ (sty, gty, (n, t, ks)) ∈ settings ∧ ∃ ks', ks = k :: ks'.
Proof.
  intros H. unfold app_settings in H. rewrite !elem_of_cons, elem_of_nil in H. destruct_or! H; try done; simplify_eq.
  all: split_and!; [apply (bool_decide_unpack _); vm_compute; exact I..|by eexists].
Qed.
Lemma int_is_int z : in_s 32 z → isInt (JInt z) = true.
Proof. intros H. unfold isInt, in_s, minInt, maxInt in *. apply andb_true_intro. split; apply Z.leb_le; lia. Qed.

(** C5. A setting of the app and its query: the content of the set command is stored
    by the database server, which broadcasts it once; the get command brings the
    app one message with exactly the values that were set. *)
Theorem app_setting_roundtrip sid gid k sty gty n t ks zs old jl gl b s :
  (sid, gid, k, (sty, gty, (n, t, ks))) ∈ app_settings → jfind "id" jl = Some (JInt sid) → jfind "content" jl = Some b →
  ints_body ks zs b → Forall (in_s 32) zs → length zs = length ks → int_row (Mldb.view (sysConfig (db_of s))) t ks old → jfind "id" gl = Some (JInt gid) → ∃ d,
  (OnCommandReceived (true, JObj jl);; OnCommandReceived (true, JObj gl)) s =
    Ok (tt, with_app [app_message s gid (JObj (zip ks (JInt <$> zs)))] (with_db_server d s)) ∧
  sent d = sent (db_of s) ++ [("DP_DB_BROADCAST", command_request sty true b)] ∧
  ∀ t', t' ≠ t → Mldb.view (sysConfig d) !! t' = Mldb.view (sysConfig (db_of s)) !! t'.
Proof.
  intros Hin Hid Hc Hb Hz Hl Hrow Hgid. destruct (app_settings_spec _ _ _ _ _ _ _ _ Hin) as (Hf & Hq & Hs & ks' & ->).
  destruct (settings_run fuel sty gty n t (k :: ks') zs old [("type", JStr sty); ("body", b)] [("type", JStr gty)] b (db_of s) Hs)
    as (d & Hset & Hget & Hsent & Hframe); try done. exists d. split_and!; [|done|done].
  rewrite run_bind. rewrite (command_requests_run _ _ _ _ jl s Hf Hid), Hc. cbn [default from_option id]. change (command_request sty true b) with (JObj [("type", JStr sty); ("body", b)]).
  rewrite (db_request_run _ s _ d Hset). cbn [snd]. change (set_peer (peer (with_db_server d s)) s) with (with_db_server d s).
  destruct zs as [|z zs]; [done|]. apply Forall_cons in Hz as [Hz _].
  assert (dp_request "DP_DB_REQUEST" (typed gty) (peer (with_db_server d s)) =
    (Some (true, DbTheorems.answer 0 gty (JObj (zip (k :: ks') (JInt <$> z :: zs)))), peer (with_db_server d s))) as Hp
    by exact (db_request_run _ (with_db_server d s) _ d Hget).
  rewrite (app_query_run gid gty k gl _ _ _ (JObj (zip (k :: ks') (JInt <$> z :: zs))) (JInt z) Hq Hgid Hp); [done|done| |by apply int_is_int].
  cbn. by rewrite decide_True.
Qed.

(** ** Commands *)
Definition jobs_of_app : list (Z * (string * EJobCommand)) :=
  [(CMD_ID_START_CLEAN, ("start_clean", EJOB_GLOBAL_CLEAN)); (CMD_ID_FAST_BUILD_MAP, ("fast_build_map", EJOB_FAST_BUILD_MAP));
   (CMD_ID_RECHARGE, ("recharge", EJOB_BACK_CHARGE))].
Lemma job_request_run ty job id w : (id, (ty, job)) ∈ jobs_of_app →
  OnDpNet_Message "DP_SCHEDULE_REQUEST" true (Some (typed ty)) w = Ok (Some (JObj [("body", JNull); ("type", JStr ty)]), with_jobs (setJobCommand job) w).
Proof.
  intros H. unfold jobs_of_app in H. rewrite !elem_of_cons, elem_of_nil in H. destruct_or! H; try done; simplify_eq; reflexivity.
Qed.
(** C9. The commands of the app that start something: the scheduler has the job, and
    nothing else of it and of the database server has changed; the app gets no
    message. *)
Theorem app_job id ty job jl s : (id, (ty, job)) ∈ jobs_of_app → jfind "id" jl = Some (JInt id) →
  OnCommandReceived (true, JObj jl) s = Ok (tt, with_scheduler (with_jobs (setJobCommand job) (sched_of s)) s).
Proof.
  intros H Hid. assert ((id, ("DP_SCHEDULE_REQUEST", ty, false)) ∈ command_requests) as Hf.
  { unfold jobs_of_app in H. rewrite !elem_of_cons, elem_of_nil in H. destruct_or! H; try done; simplify_eq; apply (bool_decide_unpack _); vm_compute; exact I. }
  rewrite (command_requests_run _ _ _ _ jl s Hf Hid). change (command_request ty false _) with (typed ty).
  by rewrite (sched_request_run _ s _ _ (job_request_run ty job id _ H)).
Qed.

(** The modes of zoning_clean and the jobs the scheduler makes of them. *)
Definition zoning_jobs : list (Z * EJobCommand) := [(1, EJOB_LOCAL_CLEAN); (2, EJOB_ZONE_CLEAN); (3, EJOB_POINT_CLEAN)].
Lemma zoning_clean_run l areas mode job w : jfind "extra_areas" l = Some (JObj areas) → jfind "mode" areas = Some (JInt mode) → (mode, job) ∈ zoning_jobs →
  zoning_clean (command_request "zoning_clean" true (JObj l)) w = Ok (tt, with_jobs (setJobCommand job) w).
Proof.
  intros Ha Hm Hj. unfold zoning_clean. rewrite run_bind, (run_lift _ (JObj l)) by done. cbn beta iota.
  rewrite run_bind, (run_lift _ (JObj areas)) by (cbn [jkey]; by rewrite Ha). cbn beta iota.
  unfold zoning_jobs in Hj. rewrite !elem_of_cons, elem_of_nil in Hj.
  destruct_or! Hj; try done; simplify_eq; by rewrite run_bind, (run_lift _ _ _ (JV_TO_INT_find "mode" areas _ 0 Hm ltac:(apply (bool_decide_unpack _); vm_compute; exact I))).
Qed.

(** C12. The command to clean a zone and the command to restore the defaults do
    nothing, whatever their content is: they go to the database server, which has no
    handler for them and changes nothing, the scheduler is not asked, and the app
    gets no message.  The scheduler would have carried out the first: for each of
    the three modes of a zone it takes the job. *)
Theorem commands_without_effect s :
  (∀ id jl, id ∈ [CMD_ID_START_ZONING_CLEAN; CMD_ID_RESTORE_DEFAULT] → jfind "id" jl = Some (JInt id) →
   OnCommandReceived (true, JObj jl) s = Ok (tt, s)) ∧
  ∀ l areas mode job w, jfind "extra_areas" l = Some (JObj areas) → jfind "mode" areas = Some (JInt mode) → (mode, job) ∈ zoning_jobs →
  OnDpNet_Message "DP_SCHEDULE_REQUEST" true (Some (command_request "zoning_clean" true (JObj l))) w =
    Ok (Some (JObj [("body", JNull); ("type", JStr "zoning_clean")]), with_jobs (setJobCommand job) w).
Proof.
  split.
  - assert (∀ ty wb content, ty = "zoning_clean" ∨ ty = "restore_default" →
      dp_request "DP_DB_REQUEST" (command_request ty wb content) (peer s) = (Some (true, JObj [("type", JStr ty)]), peer s)) as Hno.
    { intros ty wb content Hty. rewrite (db_request_run _ s (JObj [("type", JStr ty)]) (db_of s)); [unfold with_db_server; cbn; by destruct (peer s)|].
      unfold command_request. apply unknown_request; [done|destruct Hty as [-> | ->]; apply (bool_decide_unpack _); vm_compute; exact I..]. }
    assert (set_peer (peer s) s = s) as Hs by by destruct s.
    intros id jl Hid Hjl. rewrite !elem_of_cons, elem_of_nil in Hid. destruct_or! Hid; try done; subst id.
    + rewrite (command_requests_run CMD_ID_START_ZONING_CLEAN "DP_DB_REQUEST" "zoning_clean" true jl s ltac:(apply (bool_decide_unpack _); vm_compute; exact I) Hjl). rewrite Hno by by left. cbn [snd]. by rewrite Hs.
    + rewrite (command_requests_run CMD_ID_RESTORE_DEFAULT "DP_DB_REQUEST" "restore_default" false jl s ltac:(apply (bool_decide_unpack _); vm_compute; exact I) Hjl). rewrite Hno by by right. cbn [snd]. by rewrite Hs.
  - intros l areas mode job w Ha Hm Hj. pose proof (zoning_clean_run l areas mode job w Ha Hm Hj) as Hz.
    set (req := command_request "zoning_clean" true (JObj l)) in *.
    unfold OnDpNet_Message. rewrite bool_decide_true by done. rewrite run_bind, (run_lift _ (JStr "zoning_clean")) by done. cbn beta iota.
    rewrite run_bind. cbn [asString].
    assert (work_handle "zoning_clean" req w = Ok (true, with_jobs (setJobCommand job) w)) as ->; [|reflexivity].
    change (work_handle "zoning_clean" req w) with ((zoning_clean req;; v ← gets pose_vector; mret true) w).
    by rewrite run_bind, Hz.
Qed.
End system.

(** ** Examples *)

#[local] Instance ref_peers : Outside := @with_peers ref_Mldb ref_JsonText ref_fmt 20 ref_outside.
Definition ref_app (d : DbServer) : SmartpManager := init_smartp (Out:=ref_peers) (d, init_world 0 0 0) 0.
Definition app_command (id : Z) (content : json) : list (string * json) := [("id", JInt id); ("content", content)].

Lemma app_setting_roundtrip_witness : ∃ d,
  (OnCommandReceived (Out:=ref_peers) (true, JObj (app_command CMD_ID_SET_CLEAN_MODE (JObj ref_strength_body)));;
   OnCommandReceived (true, JObj (app_command CMD_ID_GET_CLEAN_MODE JNull))) (ref_app ref_strength) =
  Ok (tt, with_app [app_message (ref_app ref_strength) CMD_ID_GET_CLEAN_MODE (JObj ref_strength_body)] (set_peer (Out:=ref_peers) (d, init_world 0 0 0) (ref_app ref_strength))).
Proof.
  destruct (@app_setting_roundtrip ref_Mldb ref_JsonText ref_fmt ref_MldbSpec 20 ref_outside CMD_ID_SET_CLEAN_MODE CMD_ID_GET_CLEAN_MODE "mode"
    "set_clean_strength" "get_clean_strength" 200 TABLE_NETWORK_CLEANSTRENGTH
    ["mode"; "suction"; "water_yield"; "speed"; "area"] [2; -2147483648; 2147483647; 0; 15] [1; 1; 1; 1; 10]
    (app_command CMD_ID_SET_CLEAN_MODE (JObj ref_strength_body)) (app_command CMD_ID_GET_CLEAN_MODE JNull) (JObj ref_strength_body) (ref_app ref_strength))
    as (d & H & _).
  - apply (bool_decide_unpack _). vm_compute. exact I.
  - done.
  - done.
  - eexists. split; [done|]. by repeat constructor.
  - apply (bool_decide_unpack _). vm_compute. exact I.
  - done.
  - eexists. split; [vm_compute; reflexivity|]. split; [done|]. split; [vm_compute; reflexivity|done].
  - done.
  - exists d. exact H.
Defined.
Lemma app_job_witness : ∃ s, OnCommandReceived (Out:=ref_peers) (true, JObj (app_command CMD_ID_RECHARGE JNull)) (ref_app ref_service) = Ok (tt, s) ∧
  jobs (peer s).2 = setJobCommand EJOB_BACK_CHARGE (jobs (init_world 0 0 0)).
Proof.
  eexists. split.
  - apply (@app_job ref_Mldb ref_JsonText ref_fmt 20 ref_outside CMD_ID_RECHARGE "recharge" EJOB_BACK_CHARGE); [|done].
    by do 2 right; left.
  - done.
Defined.
Definition ref_zone : list (string * json) := [("extra_areas", JObj [("mode", JInt 2)])].
Lemma commands_without_effect_witness :
  OnCommandReceived (Out:=ref_peers) (true, JObj (app_command CMD_ID_START_ZONING_CLEAN (JObj ref_zone))) (ref_app ref_service) = Ok (tt, ref_app ref_service) ∧
  OnCommandReceived (Out:=ref_peers) (true, JObj (app_command CMD_ID_RESTORE_DEFAULT JNull)) (ref_app ref_service) = Ok (tt, ref_app ref_service).
Proof.
  destruct (@commands_without_effect ref_Mldb ref_JsonText ref_fmt 20 ref_outside (ref_app ref_service)) as [H _].
  split; [apply (H CMD_ID_START_ZONING_CLEAN); [left|reflexivity]|apply (H CMD_ID_RESTORE_DEFAULT); [right; left|reflexivity]].
Defined.
