(* ===== verification/SmartpMaps.v ===== *)
(** * The map the app reads

    From the command of the app through the list of the maps in the database and the
    two files of a map to the packets the app joins and decodes. *)

From S2P Require Import Prelude Float Json JsonText Mldb DbBase DbNetwork DbPeripheral DpMessage DbServer SqlTexts MldbRef DbTheorems DbMaps.
From S2P Require Import DeviceStates DataModel World Netserver System Behaviour MemBuffer Base64 Base64Theorems TimeUtil Smartp SmartpTheorems SmartpEvents SmartpSystem.
From Stdlib Require Import QArith_base Ascii.
From stdpp Require Import pretty.
#[local] Open Scope Z_scope.

(** ** The file of the cells *)

(** Printed cells, each with the blanks after it. *)
Fixpoint map_text (cells : list (Z * string)) : string :=
  match cells with
  | [] => ""
  | (z, sep) :: l => pretty z +:+ sep +:+ map_text l
  end.
Definition blanks (sep : string) : Prop := sep ≠ "" ∧ sall is_blank sep = true.

Lemma digits_blanks s : ∀ r n len m k, read_digits s n len = (m, k, "") → (∀ a t, r = String a t → digit a = None) →
  read_digits (s +:+ r) n len = (m, k, r).
Proof.
  induction s as [|a s IH]; intros r n len m k H Hr.
  - cbn in H. simplify_eq. change ("" +:+ r) with r. destruct r as [|a t]; [done|]. cbn [read_digits]. by rewrite (Hr a t).
  - change (String a s +:+ r) with (String a (s +:+ r)). cbn [read_digits] in *. destruct (digit a); [by apply IH|done].
Qed.
Lemma blank_digit a : is_blank a = true → digit a = None.
Proof. each_char a. Qed.
Lemma skip_app s r : sall is_blank s = true → skip_blanks (s +:+ r) = skip_blanks r.
Proof.
  induction s as [|a s IH]; [done|]. cbn [sall]. intros [Ha Hs]%andb_true_iff. change (String a s +:+ r) with (String a (s +:+ r)).
  cbn [skip_blanks]. rewrite Ha. by apply IH.
Qed.
Lemma blanks_stop sep r : blanks sep → ∀ a t, sep +:+ r = String a t → digit a = None.
Proof.
  intros [Hne Hb] a t H. destruct sep as [|b sep]; [done|]. change (String b sep +:+ r) with (String b (sep +:+ r)) in H. simplify_eq.
  cbn [sall] in Hb. apply andb_true_iff in Hb as [Hb _]. by apply blank_digit.
Qed.
Lemma stream_int_pretty pre z sep r old : in_s 32 z → sall is_blank pre = true → blanks sep →
  stream_int (pre +:+ pretty z +:+ sep +:+ r, false) old = (z, (sep +:+ r, false)).
Proof.
  intros Hz Hpre Hsep. unfold stream_int. rewrite skip_app by done.
  destruct (pretty_shape z) as (a & s & Ha & Hd & _ & Hp & len & Hl).
  assert (read_digits (String a s +:+ sep +:+ r) 0 0 = (Z.abs z, S len, sep +:+ r)) as Hr by (apply digits_blanks; [done|by apply blanks_stop]).
  assert (∃ c t, pretty z +:+ sep +:+ r = String c t ∧ is_blank c = false) as (c & t & Hc & Hb).
  { destruct (pretty_cons z) as (c & t & -> & Hc). exists c, (t +:+ sep +:+ r). split; [done|by apply numchar_blank]. }
  assert (read_sign (pretty z +:+ sep +:+ r) = (z <? 0, String a s +:+ sep +:+ r)) as Hs.
  { rewrite Hp. case_match; [done|]. change (String a s +:+ sep +:+ r) with (String a (s +:+ sep +:+ r)). by rewrite digit_sign. }
  rewrite Hc in Hs |- *. cbn [skip_blanks]. rewrite Hb, Hs, Hr, sign_abs. cbn [Nat.eqb]. unfold in_s, minInt, maxInt in *.
  destruct (Z.ltb_spec z (- 2 ^ 31)), (Z.ltb_spec (2 ^ 31 - 1) z); try done; lia.
Qed.
Lemma stream_int_end pre old : sall is_blank pre = true → (stream_int (pre, false) old).2.2 = true.
Proof. intros H. unfold stream_int. rewrite <-(sapp_nil pre), skip_app by done. done. Qed.
Lemma map_text_length cells : Forall (λ c, blanks c.2) cells → (length cells <= String.length (map_text cells))%nat.
Proof.
  induction 1 as [|[z sep] cells [Hne _] H IH]; [done|]. cbn [map_text length]. rewrite !slength_app.
  destruct sep; [done|]. cbn [String.length]. lia.
Qed.
Lemma stream_ints_text cells : Forall (λ c, in_s 8 c.1 ∧ blanks c.2) cells → ∀ fuel pre, (length cells < fuel)%nat → sall is_blank pre = true →
  stream_ints fuel (pre +:+ map_text cells, false) = cells.*1.
Proof.
  induction 1 as [|[z sep] cells [Hz Hsep] H IH]; intros fuel pre Hf Hpre; destruct fuel as [|fuel]; try (cbn in Hf; lia); cbn [stream_ints].
  - rewrite sapp_nil. pose proof (stream_int_end pre 0 Hpre). by destruct (stream_int (pre, false) 0) as [z' [t f]]; simpl in *; subst.
  - cbn [map_text]. cbn [fst snd] in *. rewrite stream_int_pretty by (done || (unfold in_s in *; lia)). cbn [snd]. rewrite swrap_id by done.
    rewrite IH by (cbn in Hf; first [lia|apply Hsep]). done.
Qed.
(** The reader gets the cells back. *)
Lemma map_file_read cells : Forall (λ c, in_s 8 c.1 ∧ blanks c.2) cells →
  stream_ints (S (String.length (map_text cells))) (map_text cells, false) = cells.*1.
Proof.
  intros H. apply (stream_ints_text cells H _ ""); [|done]. pose proof (map_text_length cells).
  enough (length cells <= String.length (map_text cells))%nat by lia. apply map_text_length. eapply Forall_impl; [exact H|]. by intros ? [_ ?].
Qed.

Section maps.
Context {M : Mldb} {J : JsonText} {R : RealFormat} {Y : YamlCpp} {Sp : MldbSpec M J} {E : Env} (fuel : nat) (base : Outside).
Abbreviation Net := (with_peers fuel base).
Implicit Types s : @SmartpManager Net.

(** The two files of a map can be read. *)
Definition map_files (e : map_entry) (cells : list (Z * string)) : Prop :=
  (∃ info, @file_text base (info_path e) = Some info) ∧ @file_lock base (info_path e) = true ∧
  @file_text base (data_path e) = Some (map_text cells) ∧ @file_lock base (data_path e) = true.

Lemma entry_data e cells : map_files e cells → Forall (λ c, in_s 8 c.1 ∧ blanks c.2) cells → ∃ l,
  GetMapData (Out:=Net) (entry_json e) = Ok (Some (JObj l, @lz4_compress base cells.*1, s32 (zlen cells.*1))).
Proof.
  intros ([info Hi] & Hil & Hd & Hdl) Hc. pose proof (map_file_read cells Hc) as Hr. unfold GetMapData.
  change (jkey (entry_json e) "map_info_path") with (Ok (JStr (info_path e))). change (jtouch (entry_json e) "map_info_path") with (Ok (entry_json e)).
  cbn [mbind res_bind isString negb]. change (jkey (entry_json e) "map_data_path") with (Ok (JStr (data_path e))).
  change (jtouch (entry_json e) "map_data_path") with (Ok (entry_json e)). cbn [mbind res_bind isString negb asString].
  change (jremove (entry_json e) "map_info_path") with (Ok (JObj [("map_id", JInt (map_no e)); ("map_name", JStr (map_label e)); ("map_data_path", JStr (data_path e))])).
  cbn [mbind res_bind]. change (jremove _ "map_data_path") with (Ok (JObj [("map_id", JInt (map_no e)); ("map_name", JStr (map_label e))])).
  cbn [mbind res_bind file_text file_lock with_peers]. rewrite Hi, Hil. cbn [negb].
  destruct (stream_float (info, false) (inject_Z 0)) as [resolution st]. destruct (stream_int st 0) as [width st0].
  destruct (stream_int st0 width) as [height st1]. destruct (stream_float st1 resolution) as [x_min st2]. destruct (stream_float st2 x_min) as [y_min st3].
  cbn [jset mbind res_bind]. rewrite Hd, Hdl. cbn [negb]. rewrite Hr. by eexists.
Qed.

(** ** The command *)
Definition chosen_map (l : list map_entry) (m : Z) : option map_entry := List.find (λ e, m =? map_no e) (query_maps l).
Lemma find_map_run l m : Forall (λ e, in_s 32 (map_no e)) l → ∀ pre,
  find_map (length l) (length pre) (JArr (pre ++ (entry_json <$> l))) m = Ok (entry_json <$> List.find (λ e, m =? map_no e) l).
Proof.
  induction 1 as [|e l He Hl IH]; intros pre; [done|]. cbn [length find_map List.find].
  rewrite fmap_cons. cbn [jidx]. rewrite list_lookup_middle by done. cbn [default from_option id mbind res_bind].
  change (jkey (entry_json e) "map_id") with (Ok (JInt (map_no e))). cbn [mbind res_bind asInt]. rewrite swrap_id by done.
  destruct (m =? map_no e); [done|]. specialize (IH (pre ++ [entry_json e])). rewrite length_app, Nat.add_1_r in IH. by rewrite <-app_assoc in IH.
Qed.

Lemma query_maps_in l : Forall (λ e, in_s 32 (map_no e)) l → Forall (λ e, in_s 32 (map_no e)) (query_maps l).
Proof.
  intros H. unfold query_maps. generalize (S (length l)), 1. intros n. induction n as [|n IH]; intros i; [done|]. cbn [listed].
  destruct (with_row i l) as [e|] eqn:He; [|done]. constructor; [|done]. unfold with_row in He. apply List.find_some in He as [He _].
  rewrite Forall_forall in H. apply H. by apply list_elem_of_In.
Qed.
Lemma query_request s l : maps_of (Mldb.view (sysConfig (peer s).1)) l → (length l < fuel)%nat →
  dp_request (Outside:=Net) "DP_DB_REQUEST" (typed "query_map") (peer s) =
    (Some (true, answer 0 "query_map" (JObj [("map", JArr (entry_json <$> query_maps l))])), peer s).
Proof.
  intros Hm Hf. rewrite (db_request_run fuel base (typed "query_map") s (answer 0 "query_map" (JObj [("map", JArr (entry_json <$> query_maps l))])) (peer s).1).
  - unfold with_db_server. cbn. by destruct (peer s).
  - eapply request_run; [reflexivity|reflexivity| |by left]. exact (query_run fuel l (peer s).1 Hf Hm).
Qed.
Definition current_map : json :=
  JObj [("map_id", JInt 1); ("map_info_path", JStr "/userdata/map/housemap_info.txt"); ("map_data_path", JStr "/userdata/map/housemap.txt")].
Lemma current_request s :
  dp_request (Outside:=Net) "DP_SCHEDULE_REQUEST" (typed "read_current_map") (peer s) =
    (Some (true, JObj [("body", current_map); ("type", JStr "read_current_map")]), peer s).
Proof.
  rewrite (sched_request_run fuel base (typed "read_current_map") s (Some (JObj [("body", current_map); ("type", JStr "read_current_map")])) (peer s).2).
  - unfold with_scheduler. cbn. by destruct (peer s).
  - reflexivity.
Qed.

(** The map that is sent: the first of the list with the number, and the current
    map when there is none. *)
Lemma read_map_run jl c m l s : jfind "id" jl = Some (JInt CMD_ID_READ_MAP) → jfind "content" jl = Some (JObj c) → jfind "map_id" c = Some (JInt m) →
  in_s 32 m → maps_of (Mldb.view (sysConfig (peer s).1)) l → (length l < fuel)%nat →
  OnCommandReceived (Out:=Net) (true, JObj jl) s = SendMap (Out:=Net) (match chosen_map l m with Some e => entry_json e | None => current_map end) s.
Proof.
  intros Hid Hc Hm Hin Hl Hf. rewrite (command_run CMD_ID_READ_MAP ReadMap jl s Hid ltac:(done) eq_refl), Hc. cbn [default from_option id]. unfold ReadMap.
  rewrite run_bind, (run_lift _ (JInt m)) by (cbn [jkey]; by rewrite Hm). cbn beta iota. rewrite int_is_int by done.
  assert (∀ p, p = peer s → set_peer p s = s) as Hp by (intros p ->; by destruct s).
  rewrite run_bind, run_bind. unfold SendDpMessage at 1. rewrite (query_request s l Hl Hf). cbn beta iota. rewrite Hp by done.
  rewrite run_bind. rewrite (run_lift _ (Some (JObj [("map", JArr (entry_json <$> query_maps l))]))) by done. cbn beta iota.
  assert (Forall (λ e, in_s 32 (map_no e)) (query_maps l)) as Hok.
  { apply query_maps_in. destruct Hl as [[_ Hl] _]. eapply Forall_impl; [exact Hl|]. by intros ? [_ ?]. }
  pose proof (find_map_run (query_maps l) m Hok []) as Hfind. cbn [length app] in Hfind.
  rewrite run_bind, (run_lift _ (entry_json <$> chosen_map l m)).
  2: { cbn [asInt mbind res_bind]. rewrite swrap_id by done. change (jkey (JObj [("map", ?x)]) "map") with (Ok x). cbn [mbind res_bind jsize]. by rewrite length_fmap. }
  cbn beta iota. rewrite run_ret. cbn beta iota. destruct (chosen_map l m) as [e|]; [done|]. cbn [fmap option_fmap option_map].
  rewrite run_bind. unfold SendDpMessage. rewrite current_request. cbn beta iota. by rewrite Hp.
Qed.

(** C6. The app asks for a map that is listed: it gets packets with one guid, which
    say how many they are and are numbered from 1; the texts joined and decoded are
    the compressed cells of the map's file, and every packet says how many cells
    there are. *)
Theorem listed_map_read jl c m l e cells s : jfind "id" jl = Some (JInt CMD_ID_READ_MAP) → jfind "content" jl = Some (JObj c) → jfind "map_id" c = Some (JInt m) →
  in_s 32 m → maps_of (Mldb.view (sysConfig (peer s).1)) l → (length l < fuel)%nat → chosen_map l m = Some e →
  map_files e cells → Forall (λ c, in_s 8 c.1 ∧ blanks c.2) cells → zlen cells < 2 ^ 31 →
  Forall byte (@lz4_compress base cells.*1) → 0 < zlen (@lz4_compress base cells.*1) < 2 ^ 30 → guid_num s < maxInt → ∃ msgs texts,
  OnCommandReceived (Out:=Net) (true, JObj jl) s = Ok (tt, with_app msgs (after_guid s)) ∧ length texts = length msgs ∧
  DecodeFromArray (codes (String.concat "" texts)) DO_STRICT =
    Ok (true, @lz4_compress base cells.*1, length (codes (String.concat "" texts))) ∧
  ∀ i t, texts !! i = Some t → ∃ c, msgs !! i = Some (app_message s CMD_ID_UPLOAD_MAP (JObj c)) ∧
    jfind "guid" c = Some (JStr (guid_text s)) ∧ jfind "pack_num" c = Some (JInt (Z.of_nat (length msgs))) ∧
    jfind "sub_num" c = Some (JInt (1 + Z.of_nat i)) ∧ jfind "map" c = Some (JStr t) ∧ jfind "map_original_size" c = Some (JInt (zlen cells)).
Proof.
  intros Hid Hc Hm Hin Hl Hf He Hfiles Hcells Hlen Hb Hz Hg. rewrite (read_map_run jl c m l s) by done. rewrite He.
  destruct (entry_data e cells Hfiles Hcells) as [l' Hd].
  assert (s32 (zlen cells.*1) = zlen cells) as Hs by (unfold zlen in *; rewrite length_fmap; apply swrap_id; unfold in_s; lia). rewrite Hs in Hd.
  destruct (map_packets (Out:=Net) _ _ _ _ s Hd Hb Hz Hg) as (msgs & texts & Hr & Hlt & _ & Hdec & Hi). exists msgs, texts. by split_and!.
Qed.
End maps.

(** Map 7 has three cells; the packet is one. *)
Definition ref_listed : DbServer := ref_server [(TABLE_NETWORK_MAPPATH, mkTable (cols map_table) false false 1 [entry_row (MapEntry 1 7 "hall" "info" "data")])].
Lemma listed_map_read_witness : ∃ msgs texts,
  OnCommandReceived (Out:=ref_peers) (true, JObj (app_command CMD_ID_READ_MAP (JObj [("map_id", JInt 7)]))) (ref_app ref_listed) =
    Ok (tt, with_app msgs (after_guid (ref_app ref_listed))) ∧
  DecodeFromArray (codes (String.concat "" texts)) DO_STRICT = Ok (true, [100; 0; 255], length (codes (String.concat "" texts))).
Proof.
  destruct (@listed_map_read ref_Mldb ref_JsonText ref_fmt ref_MldbSpec 20 ref_outside (app_command CMD_ID_READ_MAP (JObj [("map_id", JInt 7)])) [("map_id", JInt 7)] 7
    [MapEntry 1 7 "hall" "info" "data"] (MapEntry 1 7 "hall" "info" "data") [(100, " "); (0, " "); (-1, " ")] (ref_app ref_listed))
    as (msgs & texts & H & _ & Hd & _).
  - reflexivity.
  - reflexivity.
  - reflexivity.
  - apply (bool_decide_unpack _). vm_compute. exact I.
  - split; [split|exists 1; reflexivity].
    + apply (bool_decide_unpack _). vm_compute. exact I.
    + by repeat constructor.
  - simpl. lia.
  - vm_compute. reflexivity.
  - split_and!; [by eexists|reflexivity..].
  - repeat (apply Forall_cons_2; [split; [apply (bool_decide_unpack _); vm_compute; exact I|by split]|]). by apply Forall_nil_2.
  - vm_compute. reflexivity.
  - repeat constructor; vm_compute; done.
  - vm_compute. done.
  - vm_compute. reflexivity.
  - exists msgs, texts. split; [exact H|exact Hd].
Defined.
