(* ===== verification/Rpc.v ===== *)
(** * The debug client's connection

    src/lib_app/net_server/rpc/rpc_manager.cpp: the commands of a client on a PC are
    turned into requests to the other processes; broadcasts and what the client
    asks for are turned into values of the remote calls.  The rpc library calls the
    functions below and carries the values; what is called is collected in a list. *)

From S2P Require Import Prelude Float Json DeviceStates JsonText Mldb DbBase TimeUtil KvdbCheck Smartp.
From Stdlib Require Import QArith_base SpecFloat.
From stdpp Require Import pretty.
#[local] Open Scope Z_scope.

(** ** The values of the calls (rpc_manager.h) *)
Record RpcMap := mkRpcMap { map_width : Z; map_height : Z; map_resolution : Q; map_orig : list Q; map_bytes : list Z }.
Definition RpcMap_default : RpcMap := mkRpcMap 0 0 (inject_Z 0) [inject_Z 0; inject_Z 0; inject_Z 0] [].
Definition RpcPose : Type := spec_float * spec_float.
Definition RpcTrajPose : Type := spec_float * spec_float * spec_float.
Record RpcSensorData := mkRpcSensorData {
  tv_sec : Z; tv_nsec : Z; status : Z; dis : Z;
  x_accel : spec_float; y_accel : spec_float; z_accel : spec_float;
  x_gyro : spec_float; y_gyro : spec_float; z_gyro : spec_float; course_angle : spec_float;
  battery : Z;
  lf_gnd : Z; lb_gnd : Z; rf_gnd : Z; rb_gnd : Z;
  left_wheel : spec_float; right_wheel : spec_float; fan_motor : spec_float; mid_motor : spec_float;
  left_side : spec_float; right_side : spec_float; mop_motor : spec_float;
  left_code : Z; right_code : Z; v_speed : spec_float; w_speed : spec_float;
  lf_bump : Z; lb_bump : Z; rf_bump : Z; rb_bump : Z; alarm : Z; tof_dis : list Z }.

(** The asynchronous calls to the client *)
Inductive RpcCall :=
| send_now_state (state : string)
| send_pose_laser (laser : list RpcPose)
| send_sensor_data (d : RpcSensorData)
| send_astar_plan (path : list RpcPose)
| send_cover_plan (path : list RpcPose).

(** [connected]: whether get_connection_state() of the current client object says so. *)
Record RpcManager := mkRpc {
  recv_connect_ : bool; status_ : Z; c_reply_ : option string; connected : bool; rpc_calls : list RpcCall }.
Definition init_rpc : RpcManager := mkRpc false 0 None false [].
Definition set_status (v : Z) (r : RpcManager) : RpcManager := mkRpc (recv_connect_ r) v (c_reply_ r) (connected r) (rpc_calls r).
Definition rpc_call (c : RpcCall) (r : RpcManager) : RpcManager := mkRpc (recv_connect_ r) (status_ r) (c_reply_ r) (connected r) (rpc_calls r ++ [c]).

(** ** The calls of the client *)
Section commands.
Context {Out : Outside} {R : RealFormat}.
(** compress() of zlib, and whether a client object for an address gets connected. *)
Context (compress : list Z → list Z) (reaches : string → bool).
Abbreviation PM := (ST Peer).

Definition Connect (ip_a ip_b ip_c ip_d : Z) : ST RpcManager bool :=
  let str_ip := pretty ip_a +:+ "." +:+ pretty ip_b +:+ "." +:+ pretty ip_c +:+ "." +:+ pretty ip_d in
  modify (λ r, mkRpc true (status_ r) (Some str_ip) (reaches str_ip) (rpc_calls r));;
  mret true.

Definition rpc_ask (method : string) (req : json) : PM (option json) := λ p,
  let '(a, p') := dp_request method req p in Ok (parsed a, p').
Definition rpc_tell (method : string) (req : json) : PM unit := _ ← rpc_ask method req; mret tt.

Definition read_map (info_path data_path : string) : RpcMap :=
  match file_text info_path with
  | None => RpcMap_default
  | Some info =>
      if negb (file_lock info_path) then RpcMap_default
      else
        let '(resolution, st) := stream_float (info, false) (inject_Z 0) in
        let '(width, st) := stream_int st 0 in
        let '(height, st) := stream_int st 0 in
        let '(x, st) := stream_float st (inject_Z 0) in
        let '(y, st) := stream_float st (inject_Z 0) in
        let '(z, st) := stream_float st (inject_Z 0) in
        match file_text data_path with
        | None => mkRpcMap width height resolution [x; y; z] []
        | Some data =>
            if negb (file_lock data_path) then mkRpcMap width height resolution [x; y; z] []
            else mkRpcMap width height resolution [x; y; z] (compress (stream_ints (S (String.length data)) (data, false)))
        end
  end.
Definition GetMap : PM RpcMap :=
  r ← rpc_ask "DP_SCHEDULE_REQUEST" (typed "read_current_map");
  lift (match r with
        | None => Ok RpcMap_default
        | Some json_res =>
            b ← jkey json_res "body"; info ← jkey b "map_info_path";
            if isString info then
              data ← jkey b "map_data_path";
              Ok (if isString data then read_map (asString info) (asString data) else RpcMap_default)
            else Ok RpcMap_default
        end).

Fixpoint traj_poses (n i : nat) (traj : json) : res (list RpcTrajPose) :=
  match n with
  | O => Ok []
  | S n' =>
      e ← jidx traj i;
      x ← jidx e 0; y ← jidx e 1; theta ← jidx e 2;
      l ← traj_poses n' (S i) traj; Ok ((asFloat x, asFloat y, asFloat theta) :: l)
  end.
Definition GetTraj (size : Z) : PM (list RpcTrajPose) :=
  r ← rpc_ask "DP_SCHEDULE_REQUEST" (typed "get_robot_traj");
  lift (match r with
        | None => Ok []
        | Some json_res =>
            b ← jkey json_res "body"; traj ← jkey b "robot_traj";
            if isArray traj then traj_poses (jsize traj) 0 traj else Ok []
        end).
Definition ClearTraj : PM unit := rpc_tell "DP_SCHEDULE_REQUEST" (typed "clear_traj").

Definition set_v_w (v w : Z) : json := JObj [("type", JStr "set_v_w"); ("body", JObj [("brake", JInt 0); ("v", JInt v); ("w", JInt w)])].
Definition with_member (ty k : string) (x : json) : json := JObj [("type", JStr ty); ("body", JObj [(k, x)])].
Definition CmdGoForward : PM unit := rpc_tell "DP_PERIPHERALS_REQUEST" (set_v_w 180 0).
Definition CmdGoBackward : PM unit := rpc_tell "DP_PERIPHERALS_REQUEST" (set_v_w (-90) 0).
Definition CmdTurnLeft : PM unit := rpc_tell "DP_PERIPHERALS_REQUEST" (set_v_w 0 (-100)).
Definition CmdTurnRight : PM unit := rpc_tell "DP_PERIPHERALS_REQUEST" (set_v_w 0 100).
Definition CmdMoveStop : PM unit := rpc_tell "DP_PERIPHERALS_REQUEST" (set_v_w 0 0).
Definition CmdPause : PM unit := rpc_tell "DP_SCHEDULE_REQUEST" (typed "pause_clean").
Definition CmdResume : PM unit := rpc_tell "DP_SCHEDULE_REQUEST" (typed "continue_clean").
Definition CmdStop : PM unit := rpc_tell "DP_SCHEDULE_REQUEST" (typed "stop_clean").
Definition CmdGlobalClean : PM unit := rpc_tell "DP_SCHEDULE_REQUEST" (typed "start_clean").
Definition CmdSetFanGear (gear : Z) : PM unit := rpc_tell "DP_PERIPHERALS_REQUEST" (with_member "set_fan_level" "level" (JInt gear)).
Definition CmdSetMidGear (gear : Z) : PM unit := rpc_tell "DP_PERIPHERALS_REQUEST" (with_member "set_mid_level" "level" (JInt gear)).
Definition CmdSetSideGear (gear : Z) : PM unit := rpc_tell "DP_PERIPHERALS_REQUEST" (with_member "set_side_level" "level" (JInt gear)).
Definition CmdMopUp : PM unit := rpc_tell "DP_PERIPHERALS_REQUEST" (with_member "set_mop_ctrl" "ctrl" (JInt 0)).
Definition CmdMopDown : PM unit := rpc_tell "DP_PERIPHERALS_REQUEST" (with_member "set_mop_ctrl" "ctrl" (JInt 1)).
Definition CmdToCharge : PM unit := rpc_tell "DP_SCHEDULE_REQUEST" (typed "recharge").
Definition CmdToWash : PM unit := rpc_tell "DP_SCHEDULE_REQUEST" (typed "to_wash").
Definition CmdLeftTofCalibrate : PM unit := rpc_tell "DP_PERIPHERALS_REQUEST" (with_member "tof_calibrate" "orient" (JStr "left")).
Definition CmdMidTofCalibrate : PM unit := rpc_tell "DP_PERIPHERALS_REQUEST" (with_member "tof_calibrate" "orient" (JStr "mid")).
Definition CmdRightTofCalibrate : PM unit := rpc_tell "DP_PERIPHERALS_REQUEST" (with_member "tof_calibrate" "orient" (JStr "right")).
Definition CmdFrontTofDemarcate : PM unit := rpc_tell "DP_PERIPHERALS_REQUEST" (typed "tof_demarcate").
Definition CmdBorderCalibrate : PM unit := rpc_tell "DP_PERIPHERALS_REQUEST" (typed "board_calibrate").
Definition CmdBorderDemarcate : PM unit := rpc_tell "DP_PERIPHERALS_REQUEST" (typed "board_demarcate").
Definition CmdImuCalibrate : PM unit := rpc_tell "DP_PERIPHERALS_REQUEST" (typed "imu_calibrate").
Definition CmdOdometerCalibrate : PM unit := rpc_tell "DP_PERIPHERALS_REQUEST" (typed "odm_calibrate").
Definition CmdGndCalibrate : PM unit := rpc_tell "DP_PERIPHERALS_REQUEST" (typed "gnddet_calibrate").

(** RunRpcServer: the commands without an argument. *)
Definition rpc_commands : list (string * PM unit) :=
  [("clear_traj", ClearTraj); ("CommandGoForward", CmdGoForward); ("CommandGoBackward", CmdGoBackward);
   ("CommandTurnLeft", CmdTurnLeft); ("CommandTurnRight", CmdTurnRight); ("CommandMoveStop", CmdMoveStop);
   ("CommandPause", CmdPause); ("CommandResume", CmdResume); ("CommandStop", CmdStop); ("CommandGlobalClean", CmdGlobalClean);
   ("CommandMopUp", CmdMopUp); ("CommandMopDown", CmdMopDown); ("CommandToCharge", CmdToCharge); ("CommandToWash", CmdToWash);
   ("CommandLeftTofCalibrate", CmdLeftTofCalibrate); ("CommandMidTofCalibrate", CmdMidTofCalibrate);
   ("CommandRightTofCalibrate", CmdRightTofCalibrate); ("CommandFrontTofDemarcate", CmdFrontTofDemarcate);
   ("CommandBorderCalibrate", CmdBorderCalibrate); ("CommandBorderDemarcate", CmdBorderDemarcate);
   ("CommandImuCalibrate", CmdImuCalibrate); ("CommandOdometerCalibrate", CmdOdometerCalibrate);
   ("CommandGndCalibrate", CmdGndCalibrate)].
(** and the gears. *)
Definition rpc_gears : list (string * (Z → PM unit)) :=
  [("CommandSetFanGear", CmdSetFanGear); ("CommandSetMidGear", CmdSetMidGear); ("CommandSetSideGear", CmdSetSideGear)].
End commands.

(** ** Broadcasts *)
Section broadcasts.
Context {R : RealFormat}.
Abbreviation RM := (ST RpcManager).

(** The test every handler starts with *)
Definition if_connected (m : RM unit) : RM Z :=
  r ← get;
  (if bool_decide (is_Some (c_reply_ r)) && connected r then m else mret tt);;
  mret 0.

Definition clean_names : list (CLEAN_STATE * string) :=
  [(CLEAN_STATE_AUTO, "CLEAN_STATE_AUTO"); (CLEAN_STATE_RECT, "CLEAN_STATE_RECT"); (CLEAN_STATE_LOCATION, "CLEAN_STATE_LOCATION");
   (CLEAN_STATE_SITU, "CLEAN_STATE_SITU"); (CLEAN_STATE_RESERVATION, "CLEAN_STATE_RESERVATION"); (CLEAN_STATE_NULL, "CLEAN_STATE_NULL")].
Definition device_names : list (E_MASTER_STATE * string) :=
  [(ESTATE_IDLE, "ESTATE_IDLE"); (ESTATE_PAUSE_CLEAN, "ESTATE_PAUSE_CLEAN"); (ESTATE_BACK_CHARGE, "ESTATE_BACK_CHARGE");
   (ESTATE_BACK_WASH, "ESTATE_BACK_WASH"); (ESTATE_OTA, "ESTATE_OTA"); (ESTATE_CHAGRE, "ESTATE_CHAGRE");
   (ESTATE_CHAGRE_END, "ESTATE_CHAGRE_END"); (ESTATE_SHELF_CLEAN, "ESTATE_SHELF_CLEAN");
   (ESTATE_SHELF_CLEAN_END, "ESTATE_SHELF_CLEAN_END"); (ESTATE_DORMANCY, "ESTATE_DORMANCY"); (ESTATE_ERROR, "ESTATE_ERROR");
   (ESTATE_CHAGRE_PAUSE, "ESTATE_CHAGRE_PAUSE"); (ESTATE_WASH_PAUSE, "ESTATE_WASH_PAUSE"); (ESTATE_DUMP, "ESTATE_DUMP");
   (ESTATE_DUMP_END, "ESTATE_DUMP_END"); (ESTATE_SHUTDOWM, "ESTATE_SHUTDOWM"); (ESTATE_FAST_BUILD_MAP, "ESTATE_FAST_BUILD_MAP");
   (ESTATE_PAUSE_FAST_BUILD_MAP, "ESTATE_PAUSE_FAST_BUILD_MAP"); (ESTATE_FAST_BUILD_MAP_END, "ESTATE_FAST_BUILD_MAP_END");
   (ESTATE_BACK_CHARGE_ERROR, "ESTATE_BACK_CHARGE_ERROR"); (ESTATE_BACK_WASH_ERROR, "ESTATE_BACK_WASH_ERROR");
   (ESTATE_LOCATE_ERROR, "ESTATE_LOCATE_ERROR"); (ESTATE_DEVICE_TRAPPED, "ESTATE_DEVICE_TRAPPED")].
(** A switch whose default returns *)
Fixpoint case_name {A} (code : A → Z) (cases : list (A * string)) (z : Z) : option string :=
  match cases with
  | [] => None
  | (c, n) :: cases' => if z =? code c then Some n else case_name code cases' z
  end.
Definition SendNowState (jreq : json) : RM Z := if_connected (
  dev_state ← lift (JV_TO_INT jreq "device_state" 1);
  modify (set_status dev_state);;
  name ← (if master_code ESTATE_CLEAN =? dev_state then
            clean_state ← lift (JV_TO_INT jreq "clean_state" 1); mret (case_name clean_code clean_names clean_state)
          else mret (case_name master_code device_names dev_state));
  match name with Some n => modify (rpc_call (send_now_state n)) | None => mret tt end).

(** The poses of an array member *)
Fixpoint plan_poses (n i : nat) (path : json) : res (list RpcPose) :=
  match n with
  | O => Ok []
  | S n' => e ← jidx path i; x ← jidx e 0; y ← jidx e 1; l ← plan_poses n' (S i) path; Ok ((asFloat x, asFloat y) :: l)
  end.
Definition member_poses (jreq : json) (k : string) : res (list RpcPose) :=
  path ← jkey jreq k; if isArray path then plan_poses (jsize path) 0 path else Ok [].
Definition SendPoseLaser (jreq : json) : RM Z := if_connected (l ← lift (member_poses jreq "laser_pose"); modify (rpc_call (send_pose_laser l))).
Definition SendAstarPlan (jreq : json) : RM Z := if_connected (l ← lift (member_poses jreq "astar"); modify (rpc_call (send_astar_plan l))).
Definition SendCoverPlan (jreq : json) : RM Z := if_connected (l ← lift (member_poses jreq "cover"); modify (rpc_call (send_cover_plan l))).

(** A double stored in a uint16_t *)
Definition u16_of_Q (q : Q) : res Z :=
  let z := q_trunc q in if (0 <=? z) && (z <=? 65535) then Ok z else Ub UB_BadConversion.
Definition member_int (jreq : json) (part k : string) : res Z := c ← jkey jreq part; JV_TO_INT c k 0.
Definition member_byte (jreq : json) (part k : string) : res Z := z ← member_int jreq part k; Ok (u8 z).
Definition member_float (jreq : json) (part k : string) : res spec_float :=
  c ← jkey jreq part; q ← JV_TO_DOUBLE c k (inject_Z 0); Ok (float_of_Q q).
Definition member_gnd (jreq : json) (k : string) : res Z :=
  c ← jkey jreq "gnd-det"; q ← JV_TO_DOUBLE c k (inject_Z 0); u16_of_Q q.
Fixpoint tof_values (n i : nat) (data : json) : res (list Z) :=
  match n with
  | O => Ok []
  | S n' => e ← jidx data i; z ← asInt e; l ← tof_values n' (S i) data; Ok (u16 z :: l)
  end.
Definition sensor_record (tl : TimeS) (state : Z) (jreq : json) : res RpcSensorData :=
  dis ← member_byte jreq "vl6180" "dis";
  xa ← member_float jreq "imu" "x_accel"; ya ← member_float jreq "imu" "y_accel"; za ← member_float jreq "imu" "z_accel";
  xg ← member_float jreq "imu" "x_gyro"; yg ← member_float jreq "imu" "y_gyro"; zg ← member_float jreq "imu" "z_gyro";
  ca ← member_float jreq "imu" "course_angle";
  bat ← member_byte jreq "battery" "electric_qy";
  glf ← member_gnd jreq "gnddet_lf"; glb ← member_gnd jreq "gnddet_lb"; grf ← member_gnd jreq "gnddet_rf"; grb ← member_gnd jreq "gnddet_rb";
  lw ← member_float jreq "current" "wheel_l_curr"; rw ← member_float jreq "current" "wheel_r_curr";
  fan ← member_float jreq "current" "fan_curr"; mid ← member_float jreq "current" "mid_curr";
  ls ← member_float jreq "current" "side_l_curr"; rs ← member_float jreq "current" "side_r_curr";
  mop ← member_float jreq "current" "mop_curr";
  lc ← member_int jreq "odm" "odm_left"; rc ← member_int jreq "odm" "odm_left";
  v ← member_float jreq "odm" "odm_v"; w ← member_float jreq "odm" "odm_w";
  blf ← member_byte jreq "collision" "collision_lf"; blb ← member_byte jreq "collision" "collision_lb";
  brf ← member_byte jreq "collision" "collision_rf"; brb ← member_byte jreq "collision" "collision_rb";
  al ← member_byte jreq "alarm" "abnormal";
  tof ← (c ← jkey jreq "vl53l5cx"; data ← jkey c "data"; if isArray data then tof_values (jsize data) 0 data else Ok []);
  Ok (mkRpcSensorData (ts_sec tl) (u32 (ts_usec tl * 1000)) (u8 state) dis xa ya za xg yg zg ca bat glf glb grf grb lw rw fan mid ls rs mop
        lc rc v w blf blb brf brb al tof).
(** [zone] is the time zone of the system, [now_us] the clock. *)
Definition SendSensorData (zone now_us : Z) (jreq : json) : RM Z := if_connected (
  r ← get;
  d ← lift (sensor_record (TimeLocalMake_fields zone (now_us / 1000000) now_us 0) (status_ r) jreq);
  modify (rpc_call (send_sensor_data d))).

Definition rpc_dpmsg_table (zone now_us : Z) : list (string * (json → RM Z)) :=
  [("sensor_data", SendSensorData zone now_us); ("laser_sensor_scan", SendPoseLaser); ("astar_plan", SendAstarPlan);
   ("cover_plan", SendCoverPlan); ("robot_device_state", SendNowState)].
Fixpoint find_rpc (table : list (string * (json → RM Z))) (stype : string) : option (json → RM Z) :=
  match table with
  | [] => None
  | (ty, h) :: table' => if bool_decide (stype = ty) then Some h else find_rpc table' stype
  end.
Definition RpcManager_OnDpMessage (zone now_us : Z) (stype : string) (jreq : json) : RM Z :=
  r ← get;
  if recv_connect_ r then
    match find_rpc (rpc_dpmsg_table zone now_us) stype with
    | Some h => body ← lift (jkey jreq "body"); h body
    | None => mret (-1)
    end
  else mret (-1).
End broadcasts.
