(* ===== verification/NetProcess.v ===== *)
(** * The network process

    src/lib_app/net_server/main/net_server.cpp: the broadcasts of the scheduler and
    the peripherals server are offered to the modules in turn, until one does not
    return -1.  Then what reaches the app and the debug client, and what their
    commands do. *)

From S2P Require Import Prelude Float Json JsonText Mldb DbBase DbNetwork DbPeripheral DpMessage DbServer SqlTexts MldbRef DbTheorems.
From S2P Require Import DeviceStates DataModel World Netserver System Behaviour CleanLoop MemBuffer Base64 Base64Theorems TimeUtil KvdbCheck Rpc Smartp SmartpTheorems SmartpEvents SmartpSystem.
From Stdlib Require Import QArith_base Ascii.
From stdpp Require Import pretty.
#[local] Open Scope Z_scope.

Section process.
Context {Out : Outside} {R : RealFormat}.

Record NetServer := mkNetServer { smartp : SmartpManager; rpc : RpcManager }.
Abbreviation NM := (ST NetServer).
Definition on_smartp {A} (m : ST SmartpManager A) : NM A := λ n,
  match m (smartp n) with Ok (a, s) => Ok (a, mkNetServer s (rpc n)) | Ub u => Ub u end.
Definition on_rpc {A} (m : ST RpcManager A) : NM A := λ n,
  match m (rpc n) with Ok (a, r) => Ok (a, mkNetServer (smartp n) r) | Ub u => Ub u end.
(** A call of the debug client *)
Definition on_peer {A} (m : ST Peer A) : NM A := λ n,
  match m (peer (smartp n)) with Ok (a, p) => Ok (a, mkNetServer (set_peer p (smartp n)) (rpc n)) | Ub u => Ub u end.

(** CreatBaseNode; NtpManager keeps the OnDpMessage of its base class.  What a
    module leaves in the request for the next one are null members, which read
    like missing ones. *)
Definition base_node_ : list (string → json → NM Z) :=
  [(λ ty j, on_smartp (OnDpMessage ty j));
   (λ ty j, now_us ← gets (λ n, clock_us (smartp n)); on_rpc (RpcManager_OnDpMessage time_zone now_us ty j));
   (λ ty j, mret (-1))].
Fixpoint offer (nodes : list (string → json → NM Z)) (stype : string) (jreq : json) (ret : Z) : NM Z :=
  match nodes with
  | [] => mret ret
  | node :: nodes' => r ← node stype jreq; if r =? -1 then offer nodes' stype jreq r else mret r
  end.
(** [req_buffer]: the result of String2Json; the reply to a request is null. *)
Definition NetServer_OnDpMessage (method : string) (is_request : bool) (req_buffer : bool * json) : NM (option json) :=
  let reply := if is_request : bool then Some JNull else None in
  if bool_decide (method = "DP_SCHEDULE_BROADCAST") || bool_decide (method = "DP_PERIPHERALS_BROADCAST") then
    if req_buffer.1 then
      t ← lift (jkey req_buffer.2 "type");
      _ ← offer base_node_ (asString t) req_buffer.2 (-1);
      mret reply
    else mret None
  else mret reply.

(** A message of the scheduler as it arrives *)
Definition deliver (e : event) : NM (option json) :=
  match e with
  | EvDp method req => NetServer_OnDpMessage method false (true, req)
  | _ => mret None
  end.

(** ** What reaches the app *)
Implicit Types n : NetServer.

(** The debug client is told the name of the enumerator, of the cleaning state
    while the robot cleans; two states are not told. *)
Definition state_name (d : E_MASTER_STATE) (c : CLEAN_STATE) : option string :=
  match d, c with
  | ESTATE_INIT, _ | ESTATE_FACTORY_TEST, _ => None
  | ESTATE_CLEAN, CLEAN_STATE_NULL => Some "CLEAN_STATE_NULL" | ESTATE_CLEAN, CLEAN_STATE_AUTO => Some "CLEAN_STATE_AUTO"
  | ESTATE_CLEAN, CLEAN_STATE_RECT => Some "CLEAN_STATE_RECT" | ESTATE_CLEAN, CLEAN_STATE_LOCATION => Some "CLEAN_STATE_LOCATION"
  | ESTATE_CLEAN, CLEAN_STATE_SITU => Some "CLEAN_STATE_SITU" | ESTATE_CLEAN, CLEAN_STATE_RESERVATION => Some "CLEAN_STATE_RESERVATION"
  | ESTATE_IDLE, _ => Some "ESTATE_IDLE" | ESTATE_PAUSE_CLEAN, _ => Some "ESTATE_PAUSE_CLEAN"
  | ESTATE_BACK_CHARGE, _ => Some "ESTATE_BACK_CHARGE" | ESTATE_BACK_WASH, _ => Some "ESTATE_BACK_WASH" | ESTATE_OTA, _ => Some "ESTATE_OTA"
  | ESTATE_CHAGRE, _ => Some "ESTATE_CHAGRE" | ESTATE_CHAGRE_END, _ => Some "ESTATE_CHAGRE_END"
  | ESTATE_SHELF_CLEAN, _ => Some "ESTATE_SHELF_CLEAN" | ESTATE_SHELF_CLEAN_END, _ => Some "ESTATE_SHELF_CLEAN_END"
  | ESTATE_DORMANCY, _ => Some "ESTATE_DORMANCY" | ESTATE_ERROR, _ => Some "ESTATE_ERROR"
  | ESTATE_CHAGRE_PAUSE, _ => Some "ESTATE_CHAGRE_PAUSE" | ESTATE_WASH_PAUSE, _ => Some "ESTATE_WASH_PAUSE"
  | ESTATE_DUMP, _ => Some "ESTATE_DUMP" | ESTATE_DUMP_END, _ => Some "ESTATE_DUMP_END" | ESTATE_SHUTDOWM, _ => Some "ESTATE_SHUTDOWM"
  | ESTATE_FAST_BUILD_MAP, _ => Some "ESTATE_FAST_BUILD_MAP" | ESTATE_PAUSE_FAST_BUILD_MAP, _ => Some "ESTATE_PAUSE_FAST_BUILD_MAP"
  | ESTATE_FAST_BUILD_MAP_END, _ => Some "ESTATE_FAST_BUILD_MAP_END" | ESTATE_BACK_CHARGE_ERROR, _ => Some "ESTATE_BACK_CHARGE_ERROR"
  | ESTATE_BACK_WASH_ERROR, _ => Some "ESTATE_BACK_WASH_ERROR" | ESTATE_LOCATE_ERROR, _ => Some "ESTATE_LOCATE_ERROR"
  | ESTATE_DEVICE_TRAPPED, _ => Some "ESTATE_DEVICE_TRAPPED"
  end.
Definition tell_client (d : E_MASTER_STATE) (c : CLEAN_STATE) (r : RpcManager) : RpcManager :=
  if recv_connect_ r && (bool_decide (is_Some (c_reply_ r)) && connected r) then
    let r' := set_status (master_code d) r in
    match state_name d c with Some name => rpc_call (send_now_state name) r' | None => r' end
  else r.

Lemma run_on_smartp {A} (m : ST SmartpManager A) n : on_smartp m n =
  match m (smartp n) with Ok (a, s) => Ok (a, mkNetServer s (rpc n)) | Ub u => Ub u end.
Proof. done. Qed.
Lemma now_state_run l d c r : jfind "device_state" l = Some (JInt (master_code d)) → jfind "clean_state" l = Some (JInt (clean_code c)) →
  recv_connect_ r = true → SendNowState (JObj l) r = Ok (0, tell_client d c r).
Proof.
  intros Hd Hc Hr. unfold SendNowState, if_connected, tell_client. rewrite run_bind, run_get. cbn beta iota. rewrite Hr. cbn [andb].
  destruct (bool_decide (is_Some (c_reply_ r)) && connected r); [|by destruct r]. rewrite run_bind, run_bind.
  rewrite (run_lift _ (master_code d)) by (rewrite (JV_TO_INT_find "device_state" _ (master_code d)); [done|done|by destruct d]). cbn beta iota.
  rewrite run_bind, run_modify. cbn beta iota. destruct (decide (d = ESTATE_CLEAN)) as [->|Hne].
  - change (master_code ESTATE_CLEAN =? master_code ESTATE_CLEAN) with true. cbn beta iota. rewrite run_bind, run_bind.
    rewrite (run_lift _ (clean_code c)) by (rewrite (JV_TO_INT_find "clean_state" _ (clean_code c)); [done|done|by destruct c]). by destruct c.
  - destruct (Z.eqb_spec (master_code ESTATE_CLEAN) (master_code d)) as [He|_]; [by apply (inj master_code) in He|]. by destruct d.
Qed.
Lemma offer_smartp ty j n r s : OnDpMessage ty j (smartp n) = Ok (r, s) → r ≠ -1 →
  offer base_node_ ty j (-1) n = Ok (r, mkNetServer s (rpc n)).
Proof. intros H Hr. unfold base_node_. cbn [offer]. rewrite run_bind, run_on_smartp, H. cbn beta iota. by rewrite (proj2 (Z.eqb_neq _ _) Hr). Qed.
Lemma offer_rpc ty j n s a r : OnDpMessage ty j (smartp n) = Ok (-1, s) →
  RpcManager_OnDpMessage time_zone (clock_us s) ty j (rpc n) = Ok (a, r) →
  ∃ a', offer base_node_ ty j (-1) n = Ok (a', mkNetServer s r).
Proof.
  intros H Hr. unfold base_node_. cbn [offer]. rewrite run_bind, run_on_smartp, H. cbn beta iota. change (-1 =? -1) with true. cbn beta iota.
  rewrite run_bind, run_bind, run_gets. cbn beta iota. unfold on_rpc. cbn [smartp rpc]. rewrite Hr. destruct (a =? -1); [|by eexists].
  rewrite run_bind, run_ret. by eexists.
Qed.
Lemma deliver_run method ty body n a n' : method = "DP_SCHEDULE_BROADCAST" ∨ method = "DP_PERIPHERALS_BROADCAST" →
  offer base_node_ ty (request ty body) (-1) n = Ok (a, n') → deliver (EvDp method (request ty body)) n = Ok (None, n').
Proof.
  intros Hm Ho. unfold deliver, NetServer_OnDpMessage. replace (_ || _) with true by by destruct Hm; subst.
  cbn [fst snd]. rewrite run_bind, (run_lift _ (JStr ty)) by apply jkey_cons. cbn beta iota. cbn [asString]. by rewrite run_bind, Ho.
Qed.

(** C7. A change of state that the scheduler announces reaches the app as one
    message with the number that the table [status] gives the state, and the debug
    client, if it listens, as the name of the enumerator; the states INIT and
    FACTORY_TEST have no name, so that the client is told nothing.  The numbers of
    two states are the same exactly when the app is meant not to tell them apart:
    INIT, IDLE and a cleaning of no kind, and otherwise the same device state. *)
Theorem state_announced w n : let d := getMState (dm w) in let c := getCleanState (dm w) in
  sendState w = Ok (tt, with_out (state_msg w) w) ∧
  deliver (state_msg w) n =
    Ok (None, mkNetServer (with_app [app_message (smartp n) CMD_ID_UPDATE_DEV_STATE (JObj [("state", JInt (status d c))])] (smartp n))
                (tell_client d c (rpc n))) ∧
  ∀ d' c', status d c = status d' c' ↔ shown d c = shown d' c'.
Proof.
  intros d c. split_and!; [done| |intros; apply status_shown]. unfold state_msg, state_event. fold d c.
  set (body := [("device_state", JInt (master_code d)); ("clean_state", JInt (clean_code c))]).
  assert (OnDpMessage "robot_device_state" (request "robot_device_state" body) (smartp n) =
    Ok (-1, with_app [app_message (smartp n) CMD_ID_UPDATE_DEV_STATE (JObj [("state", JInt (status d c))])] (smartp n))) as Hs.
  { unfold OnDpMessage. change (find_dp g_dpmsg_table "robot_device_state") with (Some UpdateStatus). cbn beta iota.
    rewrite run_bind, (run_lift _ (JObj body)) by done. cbn beta iota. unfold UpdateStatus.
    rewrite run_bind, (run_lift _ (status d c)) by by apply status_run. done. }
  destruct (offer_rpc "robot_device_state" (request "robot_device_state" body) n _ (if recv_connect_ (rpc n) then 0 else -1) (tell_client d c (rpc n)) Hs)
    as [a Ha]; [|by apply (deliver_run _ _ body n a); [left|]].
  unfold RpcManager_OnDpMessage. rewrite run_bind, run_get. cbn beta iota. destruct (recv_connect_ (rpc n)) eqn:Hr.
  - change (find_rpc _ "robot_device_state") with (Some SendNowState). cbn beta iota. rewrite run_bind, (run_lift _ (JObj body)) by done.
    by apply now_state_run.
  - unfold tell_client. by rewrite Hr.
Qed.

(** The content of a clean log, as it arrives. *)
Definition log_request `{Env} (w : World) : list (string * json) := [("log", JObj (clean_log_body (pose_vector w) (sched w)))].
(** C13. Two things the scheduler broadcasts are lost.  The area and the time of a
    cleaning do not reach the app, since the module that passes them on listens for
    another type.  The log of a cleaning is uploaded with an empty map and with
    nothing of what it says at the place where it is read. *)
Theorem lost_broadcasts `{Env} w n : getMState (dm w) = ESTATE_CLEAN → curl_ready = true →
  (∃ e, send_clean_area w = Ok (tt, with_out e w) ∧ deliver e n = Ok (None, n)) ∧
  ∃ e j, send_clean_log w = Ok (tt, with_out e w) ∧
    deliver e n = Ok (None, mkNetServer (add_upload (PostData HTTP_CLEAN_LOG_URL "clean_log" (JObj j) 60) (smartp n)) (rpc n)) ∧
    jfind "map" j = Some (JStr "") ∧ jfind "map_original_size" j = Some (JInt 0) ∧
    Forall (λ k, jfind k j = None ∧ jfind k (clean_log_body (pose_vector w) (sched w)) ≠ None) ["map_id"; "clean_area"; "clean_time"; "clean_type"; "clean_result"].
Proof.
  intros Hw Hcurl. split.
  - eexists. split; [unfold send_clean_area, ask_MState; rewrite run_bind, run_gets; cbn beta iota; rewrite Hw; reflexivity|].
    set (body := [("area", _); ("time", _)]).
    destruct (offer_rpc "update_clean_area_cfg" (request "update_clean_area_cfg" body) n (smartp n) (-1) (rpc n)) as [a Ha]; [done| |].
    + unfold RpcManager_OnDpMessage. rewrite run_bind, run_get. cbn beta iota. by destruct (recv_connect_ (rpc n)).
    + apply (deliver_run _ _ body n a); [by left|]. rewrite Ha. by destruct n.
  - eexists _, _. split; [apply send_clean_log_run|]. split.
    { unfold log_msg, log_event. eapply (deliver_run _ _ _ n 0); [by left|]. apply offer_smartp; [|done]. unfold OnDpMessage.
      change (find_dp g_dpmsg_table "clean_log") with (Some CleanLog). cbn beta iota.
      rewrite run_bind, (run_lift _ (JObj (log_request w))) by done. cbn beta iota. unfold CleanLog. cbn beta.
      rewrite run_bind, (run_lift _ (Some (JObj (log_request w ++ [("map_info_path", JNull)]), [], 0))) by done. cbn beta iota.
      unfold SendHttpData. rewrite Hcurl. reflexivity. }
    split_and!; [done|done|]. unfold clean_log_body.
    repeat (apply Forall_cons_2; [split; [done|by destruct (decide (pose_vector w = []))]|]). done.
Qed.
End process.

(** ** The values for the debug client *)

Lemma second_of_minute zone now now_us sec : 0 ≤ ts_sec (TimeLocalMake_fields zone now now_us sec) < 60.
Proof.
  unfold TimeLocalMake_fields, of_tm, localtime, gmtime. destruct (date_of _) as [[y m] day]. cbn [ts_sec tm_sec].
  set (x := _ mod 86400). pose proof (Z.mod_pos_bound x 60 ltac:(lia)). unfold u32, uwrap. by rewrite Z.mod_small by lia.
Qed.
(** In the sensor data for the debug client the right wheel's count is the left
    wheel's, and the seconds are those of the minute, not of the clock. *)
Theorem sensor_values zone now now_us state j d : sensor_record (TimeLocalMake_fields zone now now_us 0) state j = Ok d →
  right_code d = left_code d ∧ 0 ≤ tv_sec d < 60.
Proof.
  pose proof (second_of_minute zone now now_us 0) as Hs. revert Hs. generalize (TimeLocalMake_fields zone now now_us 0). intros tl Hs.
  unfold sensor_record. intros H. repeat (apply res_bind_ok in H as (? & ? & H)). injection H as <-. cbn [right_code left_code tv_sec]. split; [congruence|done].
Qed.

(** ** The commands of the debug client *)
Section commands.
Context {M : Mldb} {J : JsonText} {R : RealFormat} {E : Env} (fuel : nat) (base : Outside).
Abbreviation Net := (with_peers fuel base).
Implicit Types n : NetServer (Out:=Net).
Abbreviation scheduler_of n := ((peer (smartp n) : DbServer * World).2).
Definition on_scheduler (w : World) n : NetServer (Out:=Net) := mkNetServer (set_peer (Out:=Net) ((peer (smartp n)).1, w) (smartp n)) (rpc n).

Lemma rpc_scheduler_run ty a w n : OnDpNet_Message "DP_SCHEDULE_REQUEST" true (Some (typed ty)) (scheduler_of n) = Ok (a, w) →
  on_peer (rpc_tell (Out:=Net) "DP_SCHEDULE_REQUEST" (typed ty)) n = Ok (tt, on_scheduler w n).
Proof.
  intros H. unfold on_peer, rpc_tell. rewrite run_bind. unfold rpc_ask.
  by rewrite (sched_request_run fuel base (typed ty) (smartp n) a w H).
Qed.
Lemma on_scheduler_same n : on_scheduler (scheduler_of n) n = n.
Proof. unfold on_scheduler, set_peer. destruct n as [s r]. cbn. destruct s as [? ? ? ? ? ? ? ? [? ?] ? ? ?]. done. Qed.

(** The commands that give the scheduler a job, as the app's do. *)
Definition rpc_jobs : list (string * EJobCommand) := [("CommandGlobalClean", EJOB_GLOBAL_CLEAN); ("CommandToCharge", EJOB_BACK_CHARGE)].
(** Of the debug client's commands the two that start something give the
    scheduler the job; the command to clear the trail and the command to wash do
    nothing, since the scheduler knows the one under another name and the other not
    at all. *)
Theorem rpc_client_commands n :
  Forall (λ nj, ∃ c, (nj.1, c) ∈ rpc_commands (Out:=Net) ∧ on_peer c n = Ok (tt, on_scheduler (with_jobs (setJobCommand nj.2) (scheduler_of n)) n)) rpc_jobs ∧
  on_peer (ClearTraj (Out:=Net)) n = Ok (tt, n) ∧ on_peer (CmdToWash (Out:=Net)) n = Ok (tt, n) ∧
  OnDpNet_Message "DP_SCHEDULE_REQUEST" true (Some (typed "clear_robot_traj")) (scheduler_of n) =
    Ok (Some (JObj [("body", JNull); ("type", JStr "clear_robot_traj")]), with_poses (λ _, []) (scheduler_of n)).
Proof.
  split_and!.
  - apply Forall_cons_2; [|apply Forall_cons_2; [|done]].
    + exists (CmdGlobalClean (Out:=Net)). split; [by do 9 right; left|]. by eapply rpc_scheduler_run.
    + exists (CmdToCharge (Out:=Net)). split; [by do 12 right; left|]. by eapply rpc_scheduler_run.
  - unfold ClearTraj. rewrite (rpc_scheduler_run "clear_traj" (Some (JObj [("body", JNull); ("type", JStr "clear_traj")])) (scheduler_of n)); [|done].
    by rewrite on_scheduler_same.
  - unfold CmdToWash. rewrite (rpc_scheduler_run "to_wash" (Some (JObj [("body", JNull); ("type", JStr "to_wash")])) (scheduler_of n)); [|done].
    by rewrite on_scheduler_same.
  - destruct (scheduler_of n) as [? ? ? ? [|p v] ? ?]; reflexivity.
Qed.
End commands.

Definition ref_net : NetServer (Out:=ref_peers) := mkNetServer (ref_app ref_service) init_rpc.
Lemma lost_broadcasts_witness : ∃ w e, getMState (dm w) = ESTATE_CLEAN ∧ send_clean_area (H:=env0 None) w = Ok (tt, with_out e w) ∧ deliver e ref_net = Ok (None, ref_net).
Proof.
  destruct (@lost_broadcasts ref_peers ref_fmt (env0 None) (with_dm (setMState ESTATE_CLEAN) (init_world 0 0 0)) ref_net) as [(e & H1 & H2) _]; [done..|].
  exists (with_dm (setMState ESTATE_CLEAN) (init_world 0 0 0)), e. split_and!; [done|exact H1|exact H2].
Defined.
Definition ref_sensor : json :=
  JObj [("odm", JObj [("odm_left", JInt 120); ("odm_right", JInt 340)]); ("vl53l5cx", JObj [("data", JArr [JInt 70000; JInt 5])])].
Lemma sensor_values_witness : ∃ d, sensor_record (TimeLocalMake_fields 28800 1700000000 1700000000000000 0) 2 ref_sensor = Ok d ∧
  right_code d = 120 ∧ tof_dis d = [4464; 5] ∧ 0 ≤ tv_sec d < 60.
Proof.
  eexists. split; [vm_compute; reflexivity|]. split; [done|]. split; [done|].
  apply (sensor_values 28800 1700000000 1700000000000000 2 ref_sensor). vm_compute. reflexivity.
Defined.
