(* ===== verification/Pid.v ===== *)
(** * The motors and their control loops

    src/lib_app/peripherals_server/base/comhead.h and utils/wheel_pid/pid.cpp: what
    the modules of the peripherals server share of a motor, and the incremental PID
    loops with their floating point arithmetic, operation by operation. *)

From S2P Require Import Prelude Float.
From Stdlib Require Import SpecFloat.
#[local] Open Scope Z_scope.

(** A result of int arithmetic *)
Definition int_op (z : Z) : res Z := if bool_decide (in_s 32 z) then Ok z else Ub UB_SignedOverflow.
Definition c_abs (z : Z) : res Z := int_op (Z.abs z).

(** ** comhead.h *)
(** Motol_Ctrl with what is used of its Sensor_Prot *)
Record Motol_Ctrl := mkMotor { workstate : Z; setspeed : Z; readspeed : Z; M_status : Z; readValue : Z; currentValue : spec_float }.
Definition Motol_Ctrl_default : Motol_Ctrl := mkMotor 0 0 0 0 0 (S754_zero false).
Definition set_workstate (v : Z) (m : Motol_Ctrl) : Motol_Ctrl := mkMotor v (setspeed m) (readspeed m) (M_status m) (readValue m) (currentValue m).
Definition set_setspeed (v : Z) (m : Motol_Ctrl) : Motol_Ctrl := mkMotor (workstate m) v (readspeed m) (M_status m) (readValue m) (currentValue m).
Definition set_readspeed (v : Z) (m : Motol_Ctrl) : Motol_Ctrl := mkMotor (workstate m) (setspeed m) v (M_status m) (readValue m) (currentValue m).
Definition set_current (r : Z) (c : spec_float) (m : Motol_Ctrl) : Motol_Ctrl := mkMotor (workstate m) (setspeed m) (readspeed m) (M_status m) r c.
(** A motor that is switched off *)
Definition stopped (m : Motol_Ctrl) : Motol_Ctrl := set_readspeed 0 (set_setspeed 0 (set_workstate 0 m)).

(** ** pid.h *)
Record PidParameter := mkParam { p_speed : Z; kp : spec_float; ki : spec_float; kd : spec_float; iLimit : Z }.
Record MotorPid := mkPid {
  currentError : Z; lastError : Z; preError : Z; sumError : Z; pid_out : Z; Sumout : Z; Desire : Z; Measure : Z }.
Definition MotorPidclear : MotorPid := mkPid 0 0 0 0 0 0 0 0.

(** ** pid.cpp *)
Definition MAX_OUT_PWM : Z := 65535.
Definition MIN_PWM : Z := 5000.
Definition MIN_PWM_L : Z := 5000.
Definition lit (n : Z) (d : positive) : spec_float := f_lit binary32 n d.
Definition pidValue_last : list PidParameter :=
  [mkParam 5 (lit 200 1) (lit 305 10) (lit 20 1) 200; mkParam 10 (lit 300 1) (lit 40 1) (lit 20 1) 500;
   mkParam 50 (lit 4002 10) (lit 454 10) (lit 202 10) 1500; mkParam 100 (lit 5002 10) (lit 504 10) (lit 202 10) 2000].

(** kp*(e - last) + ki*e + kd*(e - 2*last + pre), converted to int *)
Definition increment (kp ki kd : spec_float) (e last pre : Z) : res Z :=
  d1 ← int_op (e - last);
  d2 ← int_op (e - 2 * last + pre);
  let f := f_of_Z binary32 in
  f_to_int (f_add binary32 (f_add binary32 (f_mul binary32 kp (f d1)) (f_mul binary32 ki (f e))) (f_mul binary32 kd (f d2))).
Definition limited (lo hi z : Z) : Z := if hi <? z then hi else if z <? lo then lo else z.

(** The first entry of the table for the error *)
Fixpoint find_param (table : list PidParameter) (absError : Z) : option PidParameter :=
  match table with
  | [] => None
  | q :: table' => if absError <? p_speed q then Some q else find_param table' absError
  end.

Section wheels.
Context (pidValue : list PidParameter).
(** PidFun_left and PidFun_right: the duty, -1 if there is no entry. *)
Definition wheel_pid (min_pwm : Z) (Motor_Item : Motol_Ctrl) (p : MotorPid) : res (Z * MotorPid) :=
  s ← c_abs (setspeed Motor_Item); r ← c_abs (readspeed Motor_Item);
  let desire := s16 s in let measure := s16 r in
  a ← c_abs (desire - measure);
  match find_param pidValue (s16 a) with
  | None => Ok (-1, mkPid (currentError p) (lastError p) (preError p) (sumError p) (pid_out p) (Sumout p) desire measure)
  | Some q =>
      let e := desire - measure in
      sum ← int_op (sumError p + e);
      out ← increment (kp q) (ki q) (kd q) e (lastError p) (preError p);
      total ← int_op (Sumout p + out);
      let total := limited min_pwm MAX_OUT_PWM total in
      duty ← c_abs total;
      Ok (duty, mkPid e e (lastError p) sum out total desire measure)
  end.
Definition PidFun_left : Motol_Ctrl → MotorPid → res (Z * MotorPid) := wheel_pid MIN_PWM_L.
Definition PidFun_right : Motol_Ctrl → MotorPid → res (Z * MotorPid) := wheel_pid MIN_PWM.
End wheels.

(** PidFun_Fan and PidFun_Mop *)
Definition speed_pid (kp ki kd : spec_float) (lo hi : Z) (Motor_Item : Motol_Ctrl) (p : MotorPid) : res (Z * MotorPid) :=
  let desire := s16 (setspeed Motor_Item) in let measure := s16 (readspeed Motor_Item) in
  let e := desire - measure in
  out ← increment kp ki kd e (lastError p) (preError p);
  total ← int_op (Sumout p + out);
  let total := limited lo hi total in
  Ok (total, mkPid e e (lastError p) (sumError p) out total desire measure).
Definition PidFun_Fan : Motol_Ctrl → MotorPid → res (Z * MotorPid) := speed_pid (lit 1390 1) (lit 1 100) (lit 9 100) 10000 65000.
Definition PidFun_Mop : Motol_Ctrl → MotorPid → res (Z * MotorPid) := speed_pid (lit 25 1) (lit 7 1) (lit 2 1) 9000 40000.

(** ** What the loops return *)
Lemma limited_bound lo hi z : lo ≤ hi → lo ≤ limited lo hi z ≤ hi.
Proof. unfold limited. destruct (Z.ltb_spec hi z), (Z.ltb_spec z lo); lia. Qed.
Lemma int_op_ok z : in_s 32 z → int_op z = Ok z.
Proof. intros H. unfold int_op. by rewrite bool_decide_true. Qed.
Lemma int_op_inv z z' : int_op z = Ok z' → z' = z ∧ in_s 32 z.
Proof. unfold int_op. case_bool_decide; [|done]. by intros [= <-]. Qed.

Lemma find_param_spec table a q : find_param table a = Some q → q ∈ table ∧ a < p_speed q.
Proof.
  induction table as [|q' table IH]; [done|]. cbn [find_param]. destruct (Z.ltb_spec a (p_speed q')).
  - intros [= <-]. split; [by left|done].
  - intros H'. destruct (IH H'). split; [by right|done].
Qed.
Lemma find_param_none table a : find_param table a = None ↔ ∀ q, q ∈ table → p_speed q ≤ a.
Proof.
  induction table as [|q' table IH]; cbn [find_param]; [split; [by intros _ q ?%elem_of_nil|done]|].
  destruct (Z.ltb_spec a (p_speed q')) as [Hlt|Hle]; [split; [done|intros H; specialize (H q' ltac:(left)); lia]|].
  rewrite IH. split; [intros H q [->|Hq]%elem_of_cons; [done|by apply H]|intros H q Hq; apply H; by right].
Qed.

(** A wheel's duty is within its limits, or 1 below zero when the error is larger
    than the table expects. *)
Definition pid_ok (p : MotorPid) : Prop := Sumout p = 0 ∨ MIN_PWM ≤ Sumout p ≤ MAX_OUT_PWM.
Lemma wheel_pid_bound table m p duty p' : wheel_pid table MIN_PWM m p = Ok (duty, p') → pid_ok p →
  pid_ok p' ∧ (MIN_PWM ≤ duty ≤ MAX_OUT_PWM ∨ duty = -1).
Proof.
  unfold wheel_pid. intros H Hp. apply res_bind_ok in H as (s & Hs & H). apply res_bind_ok in H as (r & Hr & H).
  apply res_bind_ok in H as (a & Ha & H). destruct (find_param _ _) as [q|]; [|injection H as <- <-; split; [exact Hp|by right]].
  apply res_bind_ok in H as (sum & Hsum & H). apply res_bind_ok in H as (out & Hout & H). apply res_bind_ok in H as (total & Ht & H).
  apply res_bind_ok in H as (d & Hd & H). injection H as <- <-. apply int_op_inv in Hd as [-> _].
  pose proof (limited_bound MIN_PWM MAX_OUT_PWM total ltac:(unfold MIN_PWM, MAX_OUT_PWM; lia)) as Hb.
  unfold pid_ok. cbn [Sumout]. unfold MIN_PWM, MAX_OUT_PWM in *. lia.
Qed.
