(* ===== verification/Motors.v ===== *)
(** * Fan, brushes and mop

    src/lib_app/peripherals_server/controls/motor_manager.cpp: the requests of the
    other processes set a level, a timer turns it into the duty of the motor.  What
    is given to the drivers and to the shell is a list; opening the devices is I/O. *)

From S2P Require Import Prelude Float Json JsonText Pid.
#[local] Open Scope Z_scope.

(** ** Calls of the drivers *)
Inductive device := fan_fd | mid_fd | side_fd | mop_fd | lwheel_fd | rwheel_fd.
(** _IOW and _IOR: the direction, the driver's letter and the number; the size is
    that of int for all. *)
Definition iocmd : Type := bool * string * Z.
Definition _IOW (magic : string) (nr : Z) : iocmd := (true, magic, nr).
Definition _IOR (magic : string) (nr : Z) : iocmd := (false, magic, nr).
Inductive io :=
| ioctl (fd : device) (cmd : iocmd) (arg : Z)        (* an integer argument *)
| ioctl_ptr (fd : device) (cmd : iocmd) (pointee : Z) (* a pointer to an int *)
| run_system (cmd : string).

Definition FAN_CTL_SET_DUTY : iocmd := _IOW "P" 2.
Definition FAN_CTL_ENABLE : iocmd := _IOW "P" 6.
Definition FAN_CTL_DISABLE : iocmd := _IOR "P" 7.
Definition PWM_MID_SET_DUTY : iocmd := _IOW "P" 2.
Definition PWM_MID_ENABLE : iocmd := _IOW "P" 6.
Definition PWM_SIDE_SET_DUTY : iocmd := _IOW "P" 2.
Definition PWM_SIDE_ENABLE : iocmd := _IOW "P" 6.
Definition MOP_CTL_SET_DUTY : iocmd := _IOW "H" 1.
Definition MOP_CTL_ENABLE : iocmd := _IOW "H" 3.
Definition MOP_CTL_DISABLE : iocmd := _IOR "H" 4.
Definition FAN_PWR_OFF : io := run_system "echo 0 > ".
Definition MOP_UP : io := run_system "echo 1 > /sys/devices/platform/pc-switch/pc_switch/switch/do_scraper_ctl".
Definition MOP_DOWN : io := run_system "echo 0 > /sys/devices/platform/pc-switch/pc_switch/switch/do_scraper_ctl".
Definition PUMP_ON : io := run_system "echo 1 >  /sys/devices/platform/pc-switch/pc_switch/switch/do_clean_pump".
Definition PUMP_OFF : io := run_system "echo 0 >  /sys/devices/platform/pc-switch/pc_switch/switch/do_clean_pump".

(** ** State *)
Record Motors := mkMotors {
  Motorfan : Motol_Ctrl; Motormid : Motol_Ctrl; MotorsideA : Motol_Ctrl; MotorsideB : Motol_Ctrl; MotorMop : Motol_Ctrl;
  fMotorPid : MotorPid; mop_cnt : Z; rug : Z; motor_posted : list (Z * Z); motor_io : list io }.
Definition with_fan (f : Motol_Ctrl → Motol_Ctrl) (m : Motors) : Motors := mkMotors (f (Motorfan m)) (Motormid m) (MotorsideA m) (MotorsideB m) (MotorMop m) (fMotorPid m) (mop_cnt m) (rug m) (motor_posted m) (motor_io m).
Definition with_mid (f : Motol_Ctrl → Motol_Ctrl) (m : Motors) : Motors := mkMotors (Motorfan m) (f (Motormid m)) (MotorsideA m) (MotorsideB m) (MotorMop m) (fMotorPid m) (mop_cnt m) (rug m) (motor_posted m) (motor_io m).
Definition with_side (f g : Motol_Ctrl → Motol_Ctrl) (m : Motors) : Motors := mkMotors (Motorfan m) (Motormid m) (f (MotorsideA m)) (g (MotorsideB m)) (MotorMop m) (fMotorPid m) (mop_cnt m) (rug m) (motor_posted m) (motor_io m).
Definition with_mop (f : Motol_Ctrl → Motol_Ctrl) (m : Motors) : Motors := mkMotors (Motorfan m) (Motormid m) (MotorsideA m) (MotorsideB m) (f (MotorMop m)) (fMotorPid m) (mop_cnt m) (rug m) (motor_posted m) (motor_io m).
Definition set_fpid (p : MotorPid) (m : Motors) : Motors := mkMotors (Motorfan m) (Motormid m) (MotorsideA m) (MotorsideB m) (MotorMop m) p (mop_cnt m) (rug m) (motor_posted m) (motor_io m).
Definition set_mop_cnt (z : Z) (m : Motors) : Motors := mkMotors (Motorfan m) (Motormid m) (MotorsideA m) (MotorsideB m) (MotorMop m) (fMotorPid m) z (rug m) (motor_posted m) (motor_io m).
Definition set_rug (z : Z) (m : Motors) : Motors := mkMotors (Motorfan m) (Motormid m) (MotorsideA m) (MotorsideB m) (MotorMop m) (fMotorPid m) (mop_cnt m) z (motor_posted m) (motor_io m).
Definition post_motor (p : Z * Z) (m : Motors) : Motors := mkMotors (Motorfan m) (Motormid m) (MotorsideA m) (MotorsideB m) (MotorMop m) (fMotorPid m) (mop_cnt m) (rug m) (motor_posted m ++ [p]) (motor_io m).
Definition add_io (l : list io) (m : Motors) : Motors := mkMotors (Motorfan m) (Motormid m) (MotorsideA m) (MotorsideB m) (MotorMop m) (fMotorPid m) (mop_cnt m) (rug m) (motor_posted m) (motor_io m ++ l).

Abbreviation MM := (ST Motors).
Definition motor_out (l : list io) : MM unit := modify (add_io l).
Definition PostDelayed_motor (delay id : Z) : MM unit := modify (post_motor (delay, id)).

(** ** motor_manager.cpp *)
Definition fanspeed : list Z := [5; 10; 35; 45].
Definition midspeed : list Z := [9; 12; 14].
Definition side_speed : list Z := [4; 6; 8].
Definition mop_speed : list Z := [42000; 30000; 25000].
Definition MSG_MOTOR_TIMING : Z := 257.    (* 0x101 *)
Definition MSG_MOPRISE_DELAY : Z := 263.   (* 0x107 *)
(** array[workstate-1] *)
Definition level_entry (array : list Z) (state : Z) : res Z :=
  if state <=? 0 then Ub UB_OutOfBounds
  else match array !! Z.to_nat (state - 1) with Some z => Ok z | None => Ub UB_OutOfBounds end.

Definition Set_Fan_Lev (jreq : json) : MM Z :=
  level ← lift (JV_TO_INT jreq "level" 0);
  (if level =? 0 then
     motor_out [FAN_PWR_OFF];;
     modify (with_fan stopped);;
     motor_out [ioctl fan_fd FAN_CTL_DISABLE 0; ioctl_ptr fan_fd FAN_CTL_SET_DUTY 0];;
     modify (set_fpid MotorPidclear)
   else when (0 <? level) (
     motor_out [ioctl fan_fd FAN_CTL_ENABLE 0];;
     modify (with_fan (set_workstate (u8 level)));;
     speed ← lift (level_entry fanspeed (u8 level));
     modify (with_fan (set_setspeed speed))));;
  mret 0.
Definition Fan_Motor_Run : MM unit :=
  m ← get;
  when (negb (workstate (Motorfan m) =? 0)) (
    if M_status (Motorfan m) =? 1 then
      motor_out [ioctl_ptr fan_fd FAN_CTL_SET_DUTY (setspeed (Motorfan m))];;
      modify (set_fpid MotorPidclear)
    else
      '(pwm, p) ← lift (PidFun_Fan (Motorfan m) (fMotorPid m));
      modify (set_fpid p);;
      motor_out [ioctl_ptr fan_fd FAN_CTL_SET_DUTY (u32 pwm)]).

Definition Set_Mid_Lev (jreq : json) : MM Z :=
  level ← lift (JV_TO_INT jreq "level" 0);
  (if level =? 0 then modify (with_mid stopped);; motor_out [ioctl_ptr mid_fd FAN_CTL_SET_DUTY 0]
   else when (0 <? level) (modify (with_mid (set_workstate (u8 level)))));;
  mret 0.
(** The speed of a level as a duty, at most 66667 *)
Definition brush_duty (array : list Z) (state : Z) : res Z :=
  speed ← level_entry array state;
  let duty := speed * 66667 / 16 in
  Ok (if 66667 <=? duty then 66667 else duty).
Definition Mid_Motor_Run : MM unit :=
  m ← get;
  when (negb (workstate (Motormid m) =? 0)) (
    if M_status (Motormid m) =? 1 then
      modify (with_mid (λ c, set_readspeed 0 (set_setspeed 0 c)));;
      motor_out [ioctl_ptr mid_fd PWM_MID_SET_DUTY 0]
    else
      duty ← lift (brush_duty midspeed (workstate (Motormid m)));
      modify (with_mid (set_setspeed duty));;
      motor_out [ioctl_ptr mid_fd PWM_MID_SET_DUTY duty]).

Definition Set_Side_Lev (jreq : json) : MM Z :=
  level ← lift (JV_TO_INT jreq "level" 0);
  (if level =? 0 then modify (with_side stopped stopped);; motor_out [ioctl_ptr side_fd PWM_SIDE_SET_DUTY 0]
   else when (0 <? level) (modify (with_side (set_workstate (u8 level)) (set_workstate (u8 level)))));;
  mret 0.
Definition Side_Motor_Run : MM unit :=
  m ← get;
  when (negb (workstate (MotorsideA m) =? 0) || negb (workstate (MotorsideB m) =? 0)) (
    if (M_status (MotorsideA m) =? 1) || (M_status (MotorsideB m) =? 1) then
      motor_out [ioctl side_fd PWM_SIDE_SET_DUTY 0]
    else
      duty ← lift (brush_duty side_speed (workstate (MotorsideA m)));
      modify (with_side (set_setspeed duty) id);;
      motor_out [ioctl_ptr side_fd PWM_SIDE_SET_DUTY duty]).

(** 0 lifts the mop, which is switched off three seconds later. *)
Definition Set_Mop_Lev (jreq : json) : MM Z :=
  ctrl ← lift (JV_TO_INT jreq "ctrl" 0);
  (if ctrl =? 0 then
     modify (with_mop (λ c, set_readspeed 0 (set_setspeed 30000 (set_workstate 0 c))));;
     motor_out [MOP_UP; ioctl_ptr mop_fd MOP_CTL_SET_DUTY 30000];;
     PostDelayed_motor 3000 MSG_MOPRISE_DELAY
   else when (0 <? ctrl) (
     motor_out [ioctl mop_fd MOP_CTL_ENABLE 0];;
     modify (with_mop (set_workstate (u8 ctrl)));;
     motor_out [MOP_DOWN];;
     speed ← lift (level_entry mop_speed (u8 ctrl));
     modify (with_mop (set_setspeed speed));;
     motor_out [ioctl_ptr mop_fd MOP_CTL_SET_DUTY speed]));;
  mret 0.
(** The pump sprays for a quarter of a second every second. *)
Definition Mop_Motor_Run : MM unit :=
  m ← get;
  when (negb (workstate (MotorMop m) =? 0)) (
    if M_status (MotorMop m) =? 1 then motor_out [ioctl mop_fd MOP_CTL_SET_DUTY 0; PUMP_OFF]
    else
      cnt ← lift (int_op (mop_cnt m + 1));
      modify (set_mop_cnt cnt);;
      if cnt =? 15 then motor_out [PUMP_ON]
      else when (20 <=? cnt) (modify (set_mop_cnt 0);; motor_out [PUMP_OFF])).
(** [ultra]: ultra_buf[0] after the read *)
Definition Ultra_Sample (ultra : Z) : MM unit := modify (set_rug (if ultra =? 0 then 0 else 1)).
Definition Timer50ms (ultra : Z) : MM unit := Fan_Motor_Run;; Mid_Motor_Run;; Side_Motor_Run;; Mop_Motor_Run;; Ultra_Sample ultra.
Definition Motor_OnMessage (ultra message_id : Z) : MM unit :=
  when (message_id =? MSG_MOTOR_TIMING) (Timer50ms ultra;; PostDelayed_motor 50 MSG_MOTOR_TIMING);;
  when (message_id =? MSG_MOPRISE_DELAY) (motor_out [ioctl mop_fd MOP_CTL_DISABLE 0; PUMP_OFF]).

Definition motor_table : list (string * (json → MM Z)) :=
  [("set_fan_level", Set_Fan_Lev); ("set_mid_level", Set_Mid_Lev); ("set_side_level", Set_Side_Lev); ("set_mop_ctrl", Set_Mop_Lev)].

(** The dispatch that every module of the server has: its table is searched for
    the type, the handler gets the body. *)
Fixpoint table_handler {S} (table : list (string * (json → ST S Z))) (stype : string) : option (json → ST S Z) :=
  match table with
  | [] => None
  | (ty, h) :: table' => if bool_decide (stype = ty) then Some h else table_handler table' stype
  end.
Definition module_dispatch {S} (table : list (string * (json → ST S Z))) (stype : string) (jreq : json) : ST S Z :=
  match table_handler table stype with
  | Some h => body ← lift (jkey jreq "body"); h body
  | None => mret (-1)
  end.
Definition Motor_OnDpMessage : string → json → MM Z := module_dispatch motor_table.

(** MotorManager::Stop, without the closing of the devices *)
Definition Motor_Stop : MM Z :=
  motor_out [ioctl fan_fd FAN_CTL_DISABLE 1; ioctl mid_fd (_IOR "P" 7) 1; ioctl side_fd (_IOR "P" 7) 1; ioctl mop_fd MOP_CTL_DISABLE 1];;
  mret 0.

(** The state after Start, when the devices are there; [cnt]: what is in mop_cnt,
    which nothing initialises. *)
Definition init_motors (cnt : Z) : Motors :=
  mkMotors Motol_Ctrl_default Motol_Ctrl_default Motol_Ctrl_default Motol_Ctrl_default Motol_Ctrl_default MotorPidclear cnt 0
    [(50, MSG_MOTOR_TIMING)] [ioctl fan_fd FAN_CTL_ENABLE 1; ioctl mid_fd PWM_MID_ENABLE 1; ioctl side_fd PWM_SIDE_ENABLE 1].
