(* ===== verification/Wheels.v ===== *)
(** * The wheels

    src/lib_app/peripherals_server/controls/wheel_manager.cpp: a speed and a turning
    rate become counts of the wheel encoders per tick, a timer runs the control loops
    and measures, and the odometry.  Floating point is computed operation by
    operation in the types of the code. *)

From S2P Require Import Prelude Float Json JsonText KvdbCheck Pid Motors.
From Stdlib Require Import SpecFloat QArith_base.
#[local] Open Scope Z_scope.

(** A float as a double, and a double stored in a float *)
Definition change_format (f : format) (x : spec_float) : spec_float :=
  match x with
  | S754_finite s m e => binary_normalize (prec f) (emax f) (if s then Zneg m else Zpos m) e s
  | _ => x
  end.
Definition to_double : spec_float → spec_float := change_format binary64.
Definition to_single : spec_float → spec_float := change_format binary32.

(** ** wheel_manager.h, comhead.h *)
Record ODM_Cal := mkOdm {
  dcL : Z; dcR : Z; runTime : spec_float; cal_vx : spec_float; cal_vy : spec_float; cal_vw : spec_float;
  vx : spec_float; vy : spec_float; vyaw : spec_float; leftv : Z; rightv : Z; p_vx : spec_float; p_vyaw : spec_float }.
Definition f_zero : spec_float := S754_zero false.
Definition ODM_Cal_default : ODM_Cal := mkOdm 0 0 f_zero f_zero f_zero f_zero f_zero f_zero f_zero 0 0 f_zero f_zero.
(** The constants of the file, some of which the database changes *)
Record WheelParam := mkWheelParam {
  LENGTH2ENCODE_L : Z; LENGTH2ENCODE_R : Z; WHEEL_DIAMETER : spec_float; WHEEL_DISTANCE : spec_float; ENCODE_NUMS : spec_float }.
Definition WheelParam_default : WheelParam := mkWheelParam 4200 4183 (lit 795 10000) (lit 271 1000) (lit 30 1).
Definition REDUCTION_RATIO : spec_float := lit 656 10.
Definition W_perimeter : spec_float := lit 46814 100000.
Definition M_PI_ : spec_float := float_of_ratio 314159265358979323846 100000000000000000000.
Definition mul32 : spec_float → spec_float → spec_float := f_mul binary32.
Definition div32 : spec_float → spec_float → spec_float := f_div binary32.
Definition int32f : Z → spec_float := f_of_Z binary32.

Record Wheels := mkWheels {
  LeftWheel : Motol_Ctrl; RightWheel : Motol_Ctrl; lMotorPid : MotorPid; rMotorPid : MotorPid; L_DIR : Z; R_DIR : Z;
  spdzero_cnt : Z; gODM_CAL : ODM_Cal; pidValue : list PidParameter; params : WheelParam;
  last_left_encoder : Z; last_right_encoder : Z; wheel_io : list io }.
Definition with_left (f : Motol_Ctrl → Motol_Ctrl) (w : Wheels) : Wheels := mkWheels (f (LeftWheel w)) (RightWheel w) (lMotorPid w) (rMotorPid w) (L_DIR w) (R_DIR w) (spdzero_cnt w) (gODM_CAL w) (pidValue w) (params w) (last_left_encoder w) (last_right_encoder w) (wheel_io w).
Definition with_right (f : Motol_Ctrl → Motol_Ctrl) (w : Wheels) : Wheels := mkWheels (LeftWheel w) (f (RightWheel w)) (lMotorPid w) (rMotorPid w) (L_DIR w) (R_DIR w) (spdzero_cnt w) (gODM_CAL w) (pidValue w) (params w) (last_left_encoder w) (last_right_encoder w) (wheel_io w).
Definition set_lpid (p : MotorPid) (w : Wheels) : Wheels := mkWheels (LeftWheel w) (RightWheel w) p (rMotorPid w) (L_DIR w) (R_DIR w) (spdzero_cnt w) (gODM_CAL w) (pidValue w) (params w) (last_left_encoder w) (last_right_encoder w) (wheel_io w).
Definition set_rpid (p : MotorPid) (w : Wheels) : Wheels := mkWheels (LeftWheel w) (RightWheel w) (lMotorPid w) p (L_DIR w) (R_DIR w) (spdzero_cnt w) (gODM_CAL w) (pidValue w) (params w) (last_left_encoder w) (last_right_encoder w) (wheel_io w).
Definition set_l_dir (d : Z) (w : Wheels) : Wheels := mkWheels (LeftWheel w) (RightWheel w) (lMotorPid w) (rMotorPid w) d (R_DIR w) (spdzero_cnt w) (gODM_CAL w) (pidValue w) (params w) (last_left_encoder w) (last_right_encoder w) (wheel_io w).
Definition set_r_dir (d : Z) (w : Wheels) : Wheels := mkWheels (LeftWheel w) (RightWheel w) (lMotorPid w) (rMotorPid w) (L_DIR w) d (spdzero_cnt w) (gODM_CAL w) (pidValue w) (params w) (last_left_encoder w) (last_right_encoder w) (wheel_io w).
Definition set_zero_cnt (c : Z) (w : Wheels) : Wheels := mkWheels (LeftWheel w) (RightWheel w) (lMotorPid w) (rMotorPid w) (L_DIR w) (R_DIR w) c (gODM_CAL w) (pidValue w) (params w) (last_left_encoder w) (last_right_encoder w) (wheel_io w).
Definition with_odm (f : ODM_Cal → ODM_Cal) (w : Wheels) : Wheels := mkWheels (LeftWheel w) (RightWheel w) (lMotorPid w) (rMotorPid w) (L_DIR w) (R_DIR w) (spdzero_cnt w) (f (gODM_CAL w)) (pidValue w) (params w) (last_left_encoder w) (last_right_encoder w) (wheel_io w).
Definition set_encoders (l r : Z) (w : Wheels) : Wheels := mkWheels (LeftWheel w) (RightWheel w) (lMotorPid w) (rMotorPid w) (L_DIR w) (R_DIR w) (spdzero_cnt w) (gODM_CAL w) (pidValue w) (params w) l r (wheel_io w).
Definition add_wheel_io (l : list io) (w : Wheels) : Wheels := mkWheels (LeftWheel w) (RightWheel w) (lMotorPid w) (rMotorPid w) (L_DIR w) (R_DIR w) (spdzero_cnt w) (gODM_CAL w) (pidValue w) (params w) (last_left_encoder w) (last_right_encoder w) (wheel_io w ++ l).

Abbreviation WM := (ST Wheels).

(** ** The constructor: what the database server answers *)
Definition pid_entry (json_pid : json) (i : nat) (limit : Z) : res PidParameter :=
  pid ← jkey json_pid "pid"; e ← jidx pid i;
  d ← jkey e "DIF"; d ← asInt d; p ← jkey e "KP"; i ← jkey e "KI"; k ← jkey e "KD";
  Ok (mkParam (s16 d) (asFloat p) (asFloat i) (asFloat k) limit).
(** String2Json(str_res, json_res) && json_res["state"].asInt() == 200 *)
Definition answered (r : option json) : res (option json) :=
  match r with
  | None => Ok None
  | Some json_res => st ← jkey json_res "state"; st ← asInt st; if st =? 200 then b ← jkey json_res "body"; Ok (Some b) else Ok None
  end.
Definition load_pid (r : option json) : res (list PidParameter) :=
  a ← answered r;
  match a with
  | Some b => p0 ← pid_entry b 0 200; p1 ← pid_entry b 1 500; p2 ← pid_entry b 2 1500; p3 ← pid_entry b 3 2000; Ok [p0; p1; p2; p3]
  | None => Ok pidValue_last
  end.
Definition load_param (r : option json) : res WheelParam :=
  a ← answered r;
  match a with
  | Some b =>
      n ← jkey b "wheel_code_disc"; dist ← jkey b "wheel_distance"; dia ← jkey b "wheel_diameter";
      l ← jkey b "length2encode_l"; l ← asUInt l; r ← jkey b "length2encode_r"; r ← asUInt r;
      Ok (mkWheelParam l r (asFloat dia) (asFloat dist) (asFloat n))
  | None => Ok WheelParam_default
  end.
(** The constants that are computed from them *)
Definition coeff_L (p : WheelParam) : spec_float := div32 (mul32 (WHEEL_DIAMETER p) M_PI_) (mul32 (ENCODE_NUMS p) REDUCTION_RATIO).
Definition coeff_R : WheelParam → spec_float := coeff_L.
Definition coeff1 (p : WheelParam) : spec_float := div32 (lit 1 1) (WHEEL_DISTANCE p).
Definition ENCODE_RATIO_L (p : WheelParam) : spec_float := div32 W_perimeter (int32f (LENGTH2ENCODE_L p)).
Definition ENCODE_RATIO_R (p : WheelParam) : spec_float := div32 W_perimeter (int32f (LENGTH2ENCODE_R p)).

(** [ldir], [rdir]: what is in DIR of the two counters, which nothing initialises. *)
Definition init_wheels (ldir rdir : Z) (pid_answer param_answer : option json) : res Wheels :=
  table ← load_pid pid_answer; p ← load_param param_answer;
  Ok (mkWheels Motol_Ctrl_default Motol_Ctrl_default MotorPidclear MotorPidclear ldir rdir 0 ODM_Cal_default table p 0 0
        [ioctl lwheel_fd (_IOW "P" 7) 1; ioctl rwheel_fd (_IOW "P" 7) 1]).

(** ** The drivers *)
Definition LEFT_WHEEL_SET_A_DUTY : iocmd := _IOW "P" 2.
Definition LEFT_WHEEL_SET_B_DUTY : iocmd := _IOW "P" 3.
Definition LEFT_WHEEL_BRAKE : iocmd := _IOR "P" 10.
Definition RIGHT_WHEEL_SET_A_DUTY : iocmd := _IOW "P" 2.
Definition RIGHT_WHEEL_SET_B_DUTY : iocmd := _IOW "P" 3.
Definition RIGHT_WHEEL_BRAKE : iocmd := _IOR "P" 10.

Definition Wheel_Ctrl_Left (pulse dir state : Z) : WM unit :=
  modify (add_wheel_io (
    if state =? 0 then [ioctl lwheel_fd LEFT_WHEEL_BRAKE 1]
    else if state =? 3 then [ioctl lwheel_fd LEFT_WHEEL_BRAKE 1]
    else if state =? 1 then
      if dir =? 0 then [ioctl_ptr lwheel_fd LEFT_WHEEL_SET_A_DUTY pulse]
      else if dir =? 1 then [ioctl_ptr lwheel_fd LEFT_WHEEL_SET_B_DUTY pulse] else []
    else [])).
Definition Wheel_Ctrl_Right (pulse dir state : Z) : WM unit :=
  modify (add_wheel_io (
    if state =? 0 then [ioctl rwheel_fd RIGHT_WHEEL_BRAKE 1]
    else if state =? 3 then [ioctl rwheel_fd RIGHT_WHEEL_BRAKE 1]
    else if state =? 1 then
      if dir =? 0 then [ioctl_ptr rwheel_fd RIGHT_WHEEL_SET_B_DUTY pulse]
      else if dir =? 1 then [ioctl_ptr rwheel_fd RIGHT_WHEEL_SET_A_DUTY pulse] else []
    else [])).

(** ** From v and w to the speeds of the wheels *)
(** The way of 20 ms as a number of counts *)
Definition counts (v : spec_float) (rt ratio : spec_float) : res Z :=
  f_to_int (f_div binary64 (f_mul binary64 (to_double v) rt) (to_double ratio)).
Definition wheel_spd_calc : WM unit :=
  w ← get;
  let o := gODM_CAL w in let p := params w in
  let turn := mul32 (vyaw o) (WHEEL_DISTANCE p) in
  let vl := mul32 (f_sub binary32 (mul32 (lit 2 1) (vx o)) turn) (lit 1 2) in
  let vr := mul32 (f_add binary32 (mul32 (lit 2 1) (vx o)) turn) (lit 1 2) in
  l ← lift (counts vl (runTime o) (ENCODE_RATIO_L p));
  modify (with_left (set_setspeed l));;
  r ← lift (counts vr (runTime o) (ENCODE_RATIO_R p));
  modify (with_right (set_setspeed r));;
  if (l =? 0) && (r =? 0) then
    if 100 <=? spdzero_cnt w then modify (with_left (set_workstate 0));; modify (with_right (set_workstate 0))
    else modify (set_zero_cnt (spdzero_cnt w + 1))
  else
    modify (set_zero_cnt 0);;
    modify (with_left (set_workstate 1));; modify (with_right (set_workstate 1)).
Definition set_target (a b : spec_float) (o : ODM_Cal) : ODM_Cal :=
  mkOdm (dcL o) (dcR o) (to_double (lit 2 100)) (cal_vx o) (cal_vy o) (cal_vw o) a f_zero b (leftv o) (rightv o) (p_vx o) (p_vyaw o).
(** fabs(v) < 1e-5 holds for the integer 0 only. *)
Definition SetMoveCtrl (jreq : json) : WM Z :=
  _ ← lift (JV_TO_INT jreq "brake" 0);
  v ← lift (JV_TO_INT jreq "v" 0);
  w ← lift (JV_TO_INT jreq "w" 0);
  (if (v =? 0) && (w =? 0) then
     modify (with_left stopped);;
     Wheel_Ctrl_Left 0 0 0;;
     modify (set_lpid MotorPidclear);;
     modify (with_right stopped);;
     Wheel_Ctrl_Right 0 0 0;;
     modify (set_rpid MotorPidclear)
   else
     modify (with_odm (set_target (mul32 (int32f v) (lit 1 1000)) (mul32 (int32f w) (lit 1 100))));;
     wheel_spd_calc);;
  mret 0.
Definition odm_calibrate (jreq : json) : WM Z := mret 0.

(** ** The timer *)
(** The last part of a tick: the loop runs and its duty is given to the driver. *)
Definition left_run (w : Wheels) : WM unit :=
  '(pwm, p) ← lift (PidFun_left (pidValue w) (LeftWheel w) (lMotorPid w));
  modify (set_lpid p);;
  Wheel_Ctrl_Left (Z.abs pwm) (L_DIR w) 1.
Definition left_tick : WM unit :=
  w ← get;
  let s := setspeed (LeftWheel w) in
  if workstate (LeftWheel w) =? 3 then
    Wheel_Ctrl_Left 0 0 3;; modify (set_lpid MotorPidclear);; modify (with_left (set_readspeed 0))
  else when (workstate (LeftWheel w) =? 1) (
    if M_status (LeftWheel w) =? 1 then
      Wheel_Ctrl_Left 0 0 0;; modify (set_lpid MotorPidclear);; modify (with_left (set_readspeed 0))
    else if s =? 0 then Wheel_Ctrl_Left 0 0 0;; modify (set_lpid MotorPidclear)
    else
      (if 0 <=? s then when (0 <? L_DIR w) (modify (set_lpid MotorPidclear));; modify (set_l_dir 0)
       else when (L_DIR w =? 0) (modify (set_lpid MotorPidclear));; modify (set_l_dir 1));;
      w ← get; left_run w).
(** The last part of a tick: the loop runs and its duty is given to the driver. *)
Definition right_run (w : Wheels) : WM unit :=
  '(pwm, p) ← lift (PidFun_right (pidValue w) (RightWheel w) (rMotorPid w));
  modify (set_rpid p);;
  Wheel_Ctrl_Right (Z.abs pwm) (R_DIR w) 1.
Definition right_tick : WM unit :=
  w ← get;
  let s := setspeed (RightWheel w) in
  if workstate (RightWheel w) =? 3 then
    Wheel_Ctrl_Right 0 0 3;; modify (set_rpid MotorPidclear);; modify (with_right (set_readspeed 0))
  else when (workstate (RightWheel w) =? 1) (
    if M_status (RightWheel w) =? 1 then Wheel_Ctrl_Right 0 0 0;; modify (set_rpid MotorPidclear)
    else if s =? 0 then Wheel_Ctrl_Right 0 0 0;; modify (set_rpid MotorPidclear)
    else
      (if 0 <=? s then when (0 <? R_DIR w) (modify (set_rpid MotorPidclear));; modify (set_r_dir 0)
       else when (R_DIR w =? 0) (modify (set_rpid MotorPidclear));; modify (set_r_dir 1));;
      w ← get; right_run w).
Definition wheel_tick_ctrl : WM unit := left_tick;; right_tick.

Definition set_measured (l r : Z) (a b : spec_float) (o : ODM_Cal) : ODM_Cal :=
  mkOdm (dcL o) (dcR o) (runTime o) (cal_vx o) (cal_vy o) (cal_vw o) (vx o) (vy o) (vyaw o) l r a b.
(** Counts of a tick as a speed *)
Definition wheel_speed (readspeed : Z) (ratio : spec_float) : res Z :=
  f_to_int (mul32 (mul32 (int32f readspeed) ratio) (int32f 50000)).
(** [cl], [cr]: what the drivers counted since the last call *)
Definition CodeWheel_Count (cl cr : Z) : WM unit :=
  w ← get;
  l ← lift (if L_DIR w =? 0 then Ok cl else int_op (- cl));
  r ← lift (if R_DIR w =? 0 then Ok cr else int_op (- cr));
  modify (with_left (set_readspeed l));; modify (with_right (set_readspeed r));;
  lv ← lift (wheel_speed l (ENCODE_RATIO_L (params w)));
  rv ← lift (wheel_speed r (ENCODE_RATIO_R (params w)));
  diff ← lift (int_op (lv - rv));
  if diff =? 0 then modify (with_odm (set_measured lv rv (int32f lv) (int32f rv)))
  else
    sum ← lift (int_op (rv + lv));
    diff ← lift (int_op (rv - lv));
    modify (with_odm (set_measured lv rv (mul32 (div32 (int32f sum) (lit 2 1)) (coeff1 (params w))) (mul32 (int32f diff) (coeff1 (params w))))).
Definition Timer20ms (cl cr : Z) : WM unit := CodeWheel_Count cl cr;; wheel_tick_ctrl.

(** ** Odometry from the sums of the counters, which nothing calls *)
Definition encode_increment (dc last : Z) : Z :=
  s16 (if dc - last <? -32767 then dc + 32768 + (32767 - last)
       else if 32767 <? dc - last then -32768 - last + (dc - 32767)
       else dc - last).
Definition set_calc (a b : spec_float) (o : ODM_Cal) : ODM_Cal :=
  mkOdm (dcL o) (dcR o) (runTime o) a f_zero b (vx o) (vy o) (vyaw o) (leftv o) (rightv o) (p_vx o) (p_vyaw o).
Definition odometry_calc : WM unit :=
  w ← get;
  let o := gODM_CAL w in let p := params w in let rt := runTime o in
  let sl := mul32 (int32f (encode_increment (dcL o) (last_left_encoder w))) (coeff_L p) in
  let sr := mul32 (int32f (encode_increment (dcR o) (last_right_encoder w))) (coeff_R p) in
  modify (set_encoders (dcL o) (dcR o));;
  let diff := f_sub binary32 sr sl in
  modify (with_odm (
    if f_lt (to_double (f_abs diff)) (f_lit binary64 1 100000) then
      set_calc (to_single (f_div binary64 (to_double sr) rt)) f_zero
    else
      set_calc (to_single (f_div binary64 (to_double (f_add binary32 sr sl)) (f_mul binary64 (to_double (lit 2 1)) rt)))
        (to_single (f_div binary64 (to_double (mul32 diff (coeff1 p))) rt)))).

Definition wheel_table : list (string * (json → WM Z)) := [("set_v_w", SetMoveCtrl); ("odm_calibrate", odm_calibrate)].
Definition Wheel_OnDpMessage : string → json → WM Z := module_dispatch wheel_table.
(** WheelManager::Stop, without the closing of the devices *)
Definition Wheel_Stop : WM Z :=
  modify (add_wheel_io [ioctl lwheel_fd LEFT_WHEEL_BRAKE 1; ioctl lwheel_fd (_IOR "P" 8) 1;
                        ioctl rwheel_fd RIGHT_WHEEL_BRAKE 1; ioctl rwheel_fd (_IOR "P" 8) 1]);;
  mret 0.
