(* ===== verification/Keys.v ===== *)
(** * Switches, keys and infrared

    src/lib_app/peripherals_server/controls/gpio_manager.cpp and ir_sensor.cpp: the
    switches are read and a key that is pressed is broadcast, the state of the robot
    can switch the power off; the codes sent to and received from the base. *)

From S2P Require Import Prelude Float Json JsonText Motors.
#[local] Open Scope Z_scope.

(** ** gpio_manager *)
(** The map Gpio_PinD has the names of the enumeration as its keys: it is the list of
    its values in their order. *)
Definition COLLISION_DET_LA : nat := 0.
Definition COLLISION_DET_RB : nat := 1.
Definition COLLISION_DET_RA : nat := 2.
Definition COLLISION_DET_LB : nat := 3.
Definition STM_KEY_HOME : nat := 4.
Definition STM_KEY_DET : nat := 5.
Definition LIADR_PI_KEYI1 : nat := 7.
Definition LIADR_PI_KEYI2 : nat := 8.
Definition Gpio_PinD_init : list Z := replicate 16 0.
Definition pin (pins : list Z) (i : nat) : Z := default 0 (pins !! i).

Record Gpio := mkGpio { Gpio_PinD : list Z; buttons : Z; gpio_rddata : list Z; gpio_io : list io; gpio_sent : list (string * json) }.
Definition init_gpio (rddata : list Z) : Gpio := mkGpio Gpio_PinD_init 0 rddata [] [].
Abbreviation GM := (ST Gpio).

Definition SetGpioOutput (do_gpio : string) (level : Z) : GM Z :=
  echostr ← lift (sprintf 80 ("echo " +:+ pretty.pretty level +:+ " >  /sys/devices/platform/pc-switch/pc_switch/switch/" +:+ do_gpio));
  modify (λ g, mkGpio (Gpio_PinD g) (buttons g) (gpio_rddata g) (gpio_io g ++ [run_system echostr]) (gpio_sent g));;
  mret 0.
Definition robot_state (jreq : json) : GM Z :=
  dev_state ← lift (JV_TO_INT jreq "device_state" 1);
  (if dev_state =? 17 then _ ← SetGpioOutput "do_mcu_pwr" 0; mret tt else mret tt);;
  mret (-1).
Definition gpio_table : list (string * (json → GM Z)) := [("robot_device_state", robot_state)].
Definition Gpio_OnDpMessage : string → json → GM Z := module_dispatch gpio_table.

(** The code of the keys; anything else leaves 0. *)
Definition key_code (home det : Z) : Z :=
  if (home =? 2) && (det =? 2) then 4
  else if (home =? 1) || (home =? 2) then 3
  else if det =? 1 then 1
  else if det =? 2 then 2 else 0.
Definition trigger_data (code : Z) : json :=
  JObj [("type", JStr "trigger_data"); ("body", JObj [("buttons", JInt code); ("voice", JInt 0)])].
Definition clear_keys (pins : list Z) : list Z := <[STM_KEY_DET := 0]> (<[STM_KEY_HOME := 0]> pins).
(** [data]: what select and read give: nothing, or the bytes that were read, which
    may be fewer than sixteen. *)
Definition ReadGpioIn (data : option (list Z)) : GM unit :=
  modify (λ g, mkGpio (clear_keys (Gpio_PinD g)) (buttons g) (gpio_rddata g) (gpio_io g) (gpio_sent g));;
  match data with
  | None => mret tt
  | Some bytes =>
      modify (λ g, let rd := bytes ++ drop (length bytes) (gpio_rddata g) in mkGpio (take 16 rd) 0 rd (gpio_io g) (gpio_sent g));;
      g ← get;
      let home := pin (Gpio_PinD g) STM_KEY_HOME in let det := pin (Gpio_PinD g) STM_KEY_DET in
      when (negb (home =? 0) || negb (det =? 0)) (
        let code := key_code home det in
        modify (λ g, mkGpio (Gpio_PinD g) code (gpio_rddata g) (gpio_io g)
                       (gpio_sent g ++ [("DP_PERIPHERALS_BROADCAST", trigger_data code)])))
  end.

(** ** ir_sensor *)
Record Ir := mkIr { TxBuf : list Z; left_irrev : Z; right_irrev : Z; ir_data : list Z; ir_written : list (list Z) }.
Abbreviation IM := (ST Ir).
(** The second byte of a command *)
Definition ir_code (com : string) (clean_mode : Z) : res (option Z) :=
  if bool_decide (com = "back_base") then Ok (Some 160)
  else if bool_decide (com = "charging") then Ok (Some 161)
  else if bool_decide (com = "charge_done") then Ok (Some 162)
  else if bool_decide (com = "cleaning") then
    (* 0xA3+clean_mode<<4: the shift binds less than the sum *)
    s ← (let z := 163 + clean_mode in if (-2 ^ 31 <=? z) && (z <? 2 ^ 31) then Ok z else Ub UB_SignedOverflow);
    Ok (Some (u8 (Z.shiftl s 4)))
  else if bool_decide (com = "clean_done") then Ok (Some 164)
  else if bool_decide (com = "stop_back") then Ok (Some 168)
  else Ok None.
Definition Set_Back_Com `{RealFormat} (jreq : json) : IM Z :=
  com ← lift (JV_TO_STRING jreq "com" "");
  clean_mode ← lift (JV_TO_INT jreq "clean_mode" 0);
  c ← lift (ir_code com clean_mode);
  modify (λ i, match c with
               | Some b => mkIr [90; b] (left_irrev i) (right_irrev i) (ir_data i) (ir_written i ++ [[90; b]])
               | None => mkIr [0; 0] (left_irrev i) (right_irrev i) (ir_data i) (ir_written i)
               end);;
  mret 0.
Definition ir_table `{RealFormat} : list (string * (json → IM Z)) := [("set_back_com", Set_Back_Com)].
Definition Ir_OnDpMessage `{RealFormat} : string → json → IM Z := module_dispatch ir_table.

(** What select and read give: a timeout, an error, or bytes *)
Inductive received := Timeout | Failed | Bytes (l : list Z).
(** One round of the loop *)
Definition ir_round (r : received) : IM unit :=
  match r with
  | Timeout => modify (λ i, mkIr (TxBuf i) 0 0 (ir_data i) (ir_written i))
  | Failed => mret tt
  | Bytes l =>
      modify (λ i, let d := l ++ drop (length l) (ir_data i) in
                   let at_ n := default 0 (d !! n) in
                   mkIr (TxBuf i) (u16 (at_ 4%nat * 256 + at_ 3%nat)) (u16 (at_ 1%nat * 256 + at_ 0%nat)) d (ir_written i))
  end.
