(* ===== verification/Sensors.v ===== *)
(** * Currents, battery and inertial sensor

    src/lib_app/peripherals_server/adc/adc_manager.cpp and imu/imu_sensor.cpp: the
    readings of the converter in amperes and volts, those of the inertial sensor with
    their calibration, and the broadcast of all readings. *)

From S2P Require Import Prelude Float Json JsonText Pid Motors Wheels Keys.
From Stdlib Require Import SpecFloat QArith_base.
#[local] Open Scope Z_scope.

(** ** adc_manager *)
Record POWER_ADC := mkPower { pw_read : Z; pw_value : spec_float }.
Record Adc := mkAdc {
  UpdownMotor : POWER_ADC; VBAT_Prot : POWER_ADC; AdaptIn_Prot : POWER_ADC; MotorCleanPump : POWER_ADC; MotorSewagePump : POWER_ADC;
  GND_Sensor_RB : Z; GND_Sensor_RF : Z; GND_Sensor_LB : Z; GND_Sensor_LF : Z }.
Definition no_power : POWER_ADC := mkPower 0 f_zero.
Definition init_adc : Adc := mkAdc no_power no_power no_power no_power no_power 0 0 0 0.

(** (float)(r * factor), (float)(r*1.8f/1023.0f)*factor and .../0.545f/factor *)
Definition scaled (factor : spec_float) (r : Z) : spec_float := mul32 (int32f r) factor.
Definition ADCK (r : Z) : spec_float := div32 (mul32 (int32f r) (lit 18 10)) (lit 1023 1).
Definition current_of (factor : spec_float) (r : Z) : spec_float := mul32 (ADCK r) factor.
Definition voltage_of (divider : spec_float) (r : Z) : spec_float := div32 (div32 (ADCK r) (lit 545 1000)) divider.

(** CatValue and ConversionToStandards: the sixteen values go to the motors, the
    wheels, the supplies and the ground sensors, converted. *)
Definition reading (data : list Z) (i : nat) : Z := u16 (default 0 (data !! i)).
Definition measured (f : spec_float) (r : Z) : Motol_Ctrl → Motol_Ctrl := set_current r (scaled f r).
Definition motor_currents (data : list Z) (m : Motors) : Motors :=
  with_fan (measured (lit 5652423 1000000000) (reading data 0)) (
  with_side (measured (lit 938631 1000000000) (reading data 7)) (measured (lit 1091046 1000000000) (reading data 2)) (
  with_mid (measured (lit 2437184 1000000000) (reading data 9)) (
  with_mop (set_current (reading data 11) (current_of (lit 1014 100) (reading data 11))) m))).
Definition wheel_currents (data : list Z) (w : Wheels) : Wheels :=
  with_right (measured (lit 3264162 1000000000) (reading data 4)) (with_left (measured (lit 3084689 1000000000) (reading data 6)) w).
Definition power (f : Z → spec_float) (r : Z) : POWER_ADC := mkPower r (f r).
Definition ConversionToStandards (data : list Z) : Adc :=
  mkAdc (power (current_of (lit 1783 100)) (reading data 1)) (power (voltage_of (lit 1275 10000)) (reading data 3))
    (power (voltage_of (lit 131 1000)) (reading data 5)) (power (current_of (lit 1783 100)) (reading data 8))
    (power (current_of (lit 1783 100)) (reading data 10))
    (reading data 12) (reading data 13) (reading data 14) (reading data 15).

(** ** The charge of the battery, as imu_sensor.cpp reports it *)
Definition f_leb (x y : spec_float) : bool := SFleb x y.
Definition battery_level (v : spec_float) : res Z :=
  if f_lt v (lit 125 10) then Ok 0
  else if f_lt (lit 165 10) v then Ok 100
  else
    let b := f_div binary64 (f_mul binary64 (f_sub binary64 (to_double v) (f_lit binary64 125 10)) (f_lit binary64 100 1)) (f_lit binary64 4 1) in
    match f_trunc b with
    | Some z => if (0 <=? z) && (z <? 2 ^ 32) then Ok z else Ub UB_BadConversion
    | None => Ub UB_BadConversion
    end.

(** ** imu_sensor *)
Record Vec := mkVec { v_x : Z; v_y : Z; v_z : Z }.
Record FVec := mkFVec { f_x : spec_float; f_y : spec_float; f_z : spec_float }.
Definition zero_vec : Vec := mkVec 0 0 0.
Definition zero_fvec : FVec := mkFVec f_zero f_zero f_zero.
Definition fmap_vec (f : spec_float → spec_float → spec_float) (a b : FVec) : FVec := mkFVec (f (f_x a) (f_x b)) (f (f_y a) (f_y b)) (f (f_z a) (f_z b)).

(** A Kalman filter; Q and R do not change. *)
Record KFP := mkKfp { LastP : spec_float; kout : spec_float }.
Definition KFP_init : KFP := mkKfp (lit 2 100) f_zero.
Definition kalmanFilter (input : spec_float) (k : KFP) : spec_float * KFP :=
  let Now_P := f_add binary32 (LastP k) (lit 1 1000) in
  let Kg := div32 Now_P (f_add binary32 Now_P (lit 543 100000)) in
  let o := f_add binary32 (kout k) (mul32 Kg (f_sub binary32 input (kout k))) in
  (o, mkKfp (mul32 (f_sub binary32 (lit 1 1) Kg) Now_P) o).
Record KFP3 := mkKfp3 { k_x : KFP; k_y : KFP; k_z : KFP }.
Definition kalman3 (input : FVec) (k : KFP3) : FVec * KFP3 :=
  let '(x, kx) := kalmanFilter (f_x input) (k_x k) in
  let '(y, ky) := kalmanFilter (f_y input) (k_y k) in
  let '(z, kz) := kalmanFilter (f_z input) (k_z k) in (mkFVec x y z, mkKfp3 kx ky kz).

(** The mean of the first hundred values is taken off the later ones. *)
Record Mean := mkMean { m_ready : bool; m_time : Z; m_all : FVec }.
Definition mean_step (v : FVec) (m : Mean) : FVec * Mean :=
  if m_ready m then (fmap_vec (f_sub binary32) v (m_all m), m)
  else
    let s := fmap_vec (f_add binary32) (m_all m) v in
    let t := u16 (m_time m + 1) in
    (v, if t =? 100 then mkMean true t (fmap_vec div32 s (mkFVec (int32f 100) (int32f 100) (int32f 100))) else mkMean false t s).

(** One of the three angles: angle += g*ts/1000*180/Pi, kept in a half turn, and the
    angle in hundredths of a degree. *)
Definition Pi : spec_float := float_of_ratio 31415926 10000000.
Definition turn (g ts : spec_float) (angle : spec_float) : spec_float :=
  let d := f_div binary64 (f_mul binary64 (f_div binary64 (f_mul binary64 (to_double g) ts) (to_double (lit 1000 1))) (to_double (lit 180 1))) (to_double Pi) in
  let a := to_single (f_add binary64 (to_double angle) d) in
  if f_lt (lit 180 1) a then f_sub binary32 a (lit 360 1)
  else if f_lt a (lit (-180) 1) then f_add binary32 a (lit 360 1) else a.
Definition angle_step (g ts : spec_float) (angle : spec_float) (val : Z) : res (spec_float * Z) :=
  if f_lt (to_double (mul32 g g)) (f_lit binary64 2 100000) then Ok (angle, val)
  else let a := turn g ts angle in val ← f_to_int (mul32 a (int32f 100)); Ok (a, val).

Record Imu := mkImu {
  imu_adc : list Z; gyro_offset : Vec; accel_offset : Vec; gyro_act : FVec; accel_act : FVec; temp_act : spec_float; course_angle : spec_float;
  imu_calibrate_flag : bool; Imu_StartCal : bool; kfp_a : KFP3; kfp_g : KFP3; mean_a : Mean; mean_g : Mean;
  angles : FVec; angle_vals : Vec; imu_sent : list (string * option json) }.
Abbreviation UM := (ST Imu).

(** posture_cal, without the angles of the acceleration, which nothing reads. *)
Definition posture_cal (ts_diff : spec_float) : UM unit :=
  i ← get;
  let '(a, ka) := kalman3 (accel_act i) (kfp_a i) in
  let '(a', ma) := mean_step a (mean_a i) in
  let '(g, kg) := kalman3 (gyro_act i) (kfp_g i) in
  let '(g', mg) := mean_step g (mean_g i) in
  '(an, av) ← lift (
    if m_ready mg && m_ready ma then
      '(z, zv) ← angle_step (f_z g') ts_diff (f_z (angles i)) (v_z (angle_vals i));
      '(x, xv) ← angle_step (f_x g') ts_diff (f_x (angles i)) (v_x (angle_vals i));
      '(y, yv) ← angle_step (f_y g') ts_diff (f_y (angles i)) (v_y (angle_vals i));
      Ok (mkFVec x y z, mkVec xv yv zv)
    else Ok (angles i, angle_vals i));
  modify (λ i, mkImu (imu_adc i) (gyro_offset i) (accel_offset i) (gyro_act i) (accel_act i) (temp_act i) (course_angle i)
                 (imu_calibrate_flag i) (Imu_StartCal i) ka kg ma mg an av (imu_sent i)).

(** The constructor: the offsets the database server answers. *)
Definition offset (b : json) (k : string) : res Z := x ← jkey b k; asInt x.
Definition load_offset (r : option json) : res (Vec * Vec) :=
  a ← answered r;
  match a with
  | Some b =>
      gx ← offset b "gyro_x_offset"; gy ← offset b "gyro_y_offset"; gz ← offset b "gyro_z_offset";
      ax ← offset b "accel_x_offset"; ay ← offset b "accel_y_offset"; az ← offset b "accel_z_offset";
      Ok (mkVec gx gy gz, mkVec ax ay az)
  | None => Ok (zero_vec, zero_vec)
  end.
Definition init_imu (r : option json) : res Imu :=
  '(g, a) ← load_offset r;
  let k := mkKfp3 KFP_init KFP_init KFP_init in let m := mkMean false 0 zero_fvec in
  Ok (mkImu [0; 0; 0; 0; 0; 0; 0] g a zero_fvec zero_fvec f_zero f_zero false false k k m m zero_fvec zero_vec []).

Definition set_flag (b : bool) (i : Imu) : Imu := mkImu (imu_adc i) (gyro_offset i) (accel_offset i) (gyro_act i) (accel_act i) (temp_act i) (course_angle i) b (Imu_StartCal i) (kfp_a i) (kfp_g i) (mean_a i) (mean_g i) (angles i) (angle_vals i) (imu_sent i).
Definition Imu_Calibrate (jreq : json) : UM Z := modify (set_flag true);; mret 0.
Definition imu_table : list (string * (json → UM Z)) := [("imu_calibrate", Imu_Calibrate)].
Definition Imu_OnDpMessage : string → json → UM Z := module_dispatch imu_table.

(** read(imu_fd, databuf, sizeof(databuf)) reads as many bytes as a pointer has, two
    of the seven integers of an array that is not initialised.  [sample]: what the
    driver has, [fresh]: what is in the new array. *)
Definition databuf (sample fresh : list Z) : list Z := take 2 sample ++ drop 2 fresh.
Definition word (d : list Z) (i : nat) : Z := default 0 (d !! i).
(** The sum of a hundred times the same value, and its mean *)
Fixpoint add_times (n : nat) (z acc : Z) : res Z :=
  match n with O => Ok acc | S n' => acc ← int_op (acc + z); add_times n' z acc end.
Definition mean100 (z : Z) : res Z := s ← add_times 100 z 0; Ok (Z.quot s 100).
Definition calibrate (d : list Z) : UM unit :=
  gx ← lift (mean100 (word d 0)); gy ← lift (mean100 (word d 1)); gz ← lift (mean100 (word d 2));
  ax ← lift (mean100 (word d 3)); ay ← lift (mean100 (word d 4)); az ← lift (mean100 (word d 5));
  az ← lift (int_op (az - 16384));
  (* str_req is empty: the request is never printed into it *)
  modify (λ i, mkImu [0; 0; 0; 0; 0; 0; 0] (mkVec gx gy gz) (mkVec ax ay az) (gyro_act i) (accel_act i) (temp_act i) (course_angle i)
                 false (Imu_StartCal i) (kfp_a i) (kfp_g i) (mean_a i) (mean_g i) (angles i) (angle_vals i) (imu_sent i ++ [("DP_DB_REQUEST", None)])).
Definition Gravity2Accel : spec_float := div32 (lit 980665 100000) (int32f 16384).
Definition Degree2Radian : spec_float := div32 (div32 Pi (int32f 180)) (lit 164 10).
Definition axis (factor : spec_float) (z off : Z) : res spec_float := d ← int_op (z - off); Ok (mul32 (int32f d) factor).
Definition real_values (d : list Z) : UM unit :=
  i ← get;
  let g := gyro_offset i in let a := accel_offset i in
  ax ← lift (axis Gravity2Accel (word d 3) (v_x a)); ay ← lift (axis Gravity2Accel (word d 4) (v_y a)); az ← lift (axis Gravity2Accel (word d 5) (v_z a));
  gx ← lift (axis Degree2Radian (word d 0) (v_x g)); gy ← lift (axis Degree2Radian (word d 1) (v_y g)); gz ← lift (axis Degree2Radian (word d 2) (v_z g));
  let temp := f_add binary32 (div32 (int32f (word d 6)) (int32f 128)) (int32f 25) in
  modify (λ i, mkImu d (gyro_offset i) (accel_offset i) (mkFVec gx gy gz) (mkFVec ax ay az) temp (course_angle i) (imu_calibrate_flag i)
                 (Imu_StartCal i) (kfp_a i) (kfp_g i) (mean_a i) (mean_g i) (angles i) (angle_vals i) (imu_sent i)).
Definition set_course (b : bool) (c : spec_float) (i : Imu) : Imu := mkImu (imu_adc i) (gyro_offset i) (accel_offset i) (gyro_act i) (accel_act i) (temp_act i) c (imu_calibrate_flag i) b (kfp_a i) (kfp_g i) (mean_a i) (mean_g i) (angles i) (angle_vals i) (imu_sent i).
