(* ===== verification/Protect.v ===== *)
(** * Protection of the supplies and the fan

    ProtectCheck of src/lib_app/peripherals_server/adc/adc_manager.cpp: the counters
    that turn readings out of their limits into a status.  Nothing calls it; the
    theorems say what it would do. *)

From S2P Require Import Prelude Float Pid Motors Wheels Sensors.
From Stdlib Require Import SpecFloat.
#[local] Open Scope Z_scope.

Definition TIME_MAXCNT : Z := 10.
(** What POWER_ADC and Sensor_Prot have in common *)
Record Prot := mkProt { pr_status : Z; overcount : Z; undercount : Z; resumecount : Z; pr_value : spec_float; OverValue : spec_float; UnderValue : spec_float }.
Definition Prot_default : Prot := mkProt 0 0 0 0 f_zero f_zero f_zero.
Definition set_counts (s o u r : Z) (p : Prot) : Prot := mkProt s o u r (pr_value p) (OverValue p) (UnderValue p).
Definition incr (z : Z) : Z := u16 (z + 1).

(** The adapter *)
Definition adapter_check (p : Prot) : Prot :=
  let v := pr_value p in let o := incr (overcount p) in
  if f_leb (OverValue p) v then
    if TIME_MAXCNT <=? o then set_counts 1 o 0 (resumecount p) p else set_counts (pr_status p) o (undercount p) (resumecount p) p
  else if f_lt (lit 165 10) v && f_lt v (UnderValue p) then
    let u := incr (undercount p) in
    if TIME_MAXCNT <=? u then set_counts 2 0 u (resumecount p) p else set_counts (pr_status p) (overcount p) u (resumecount p) p
  else if f_lt (UnderValue p) v && f_lt v (OverValue p) then
    if 2 * TIME_MAXCNT <=? overcount p then set_counts (pr_status p) (overcount p) 0 (resumecount p) p
    else if TIME_MAXCNT <=? overcount p then set_counts 3 o (undercount p) (resumecount p) p
    else set_counts (pr_status p) o (undercount p) (resumecount p) p
  else set_counts 0 0 0 (resumecount p) p.
(** The battery *)
Definition battery_check (p : Prot) : Prot :=
  let v := pr_value p in let o := incr (overcount p) in
  if f_leb (OverValue p) v then
    if TIME_MAXCNT <=? o then set_counts 1 o 0 (resumecount p) p else set_counts (pr_status p) o (undercount p) (resumecount p) p
  else if f_lt v (UnderValue p) then
    let u := incr (undercount p) in
    set_counts (if TIME_MAXCNT <=? u then 2 else pr_status p) (overcount p) u (resumecount p) p
  else if f_leb (lit 165 10) v && f_lt v (OverValue p) then
    if TIME_MAXCNT <=? o then set_counts 3 0 0 (resumecount p) p else set_counts (pr_status p) o (undercount p) (resumecount p) p
  else set_counts 0 0 0 (resumecount p) p.
(** The fan *)
Definition fan_check (p : Prot) : Prot :=
  let v := pr_value p in let o := incr (overcount p) in
  if f_leb (OverValue p) v then set_counts (if TIME_MAXCNT <=? o then 1 else pr_status p) o 0 0 p
  else if f_lt v (UnderValue p) then p
  else
    let r := incr (resumecount p) in
    if 5 * TIME_MAXCNT <=? r then set_counts 0 0 0 0 p else set_counts (pr_status p) (overcount p) (undercount p) r p.
Definition ProtectCheck (adapter battery fan : Prot) : Prot * Prot * Prot := (adapter_check adapter, battery_check battery, fan_check fan).

(** A new reading *)
Definition read_as (v : spec_float) (p : Prot) : Prot := mkProt (pr_status p) (overcount p) (undercount p) (resumecount p) v (OverValue p) (UnderValue p).

(** ** Limits that nothing sets *)
Fixpoint checks (check : Prot → Prot) (vs : list spec_float) (p : Prot) : Prot :=
  match vs with [] => p | v :: vs' => checks check vs' (check (read_as v p)) end.
(** A check in the branch of a reading that is too large *)
Definition counts_over (check : Prot → Prot) : Prop := ∀ v p, OverValue p = f_zero → f_leb f_zero v = true → check (read_as v p) =
  let o := incr (overcount p) in let q := check (read_as v p) in
  mkProt (if TIME_MAXCNT <=? o then 1 else pr_status p) o (undercount q) (resumecount q) v f_zero (UnderValue p).
Lemma all_count_over : counts_over adapter_check ∧ counts_over battery_check ∧ counts_over fan_check.
Proof.
  split_and!; intros v [s o u r v0 ov un] H Hv; cbn in H; subst ov.
  - unfold adapter_check. cbn [read_as pr_value OverValue overcount]. rewrite Hv. by destruct (TIME_MAXCNT <=? _).
  - unfold battery_check. cbn [read_as pr_value OverValue overcount]. rewrite Hv. by destruct (TIME_MAXCNT <=? _).
  - unfold fan_check. cbn [read_as pr_value OverValue overcount]. by rewrite Hv.
Qed.
Lemma over_checks check vs : counts_over check → Forall (λ v, f_leb f_zero v = true) vs → ∀ p, OverValue p = f_zero → 0 ≤ overcount p →
  (pr_status p = 1 ∨ TIME_MAXCNT ≤ overcount p + Z.of_nat (length vs) ∧ overcount p < TIME_MAXCNT ∧ vs ≠ []) → pr_status (checks check vs p) = 1.
Proof.
  intros Hc Hv. induction Hv as [|v vs Hv _ IH]; intros p Ho Hp H; [by destruct H as [H|(_ & _ & H)]|].
  cbn [checks]. rewrite (Hc v p Ho Hv). cbv zeta. apply IH; cbn [pr_status overcount OverValue]; [done|unfold incr; apply uwrap_range; lia|].
  destruct H as [->|(H1 & H2 & _)]; [left; by destruct (_ <=? _)|]. unfold TIME_MAXCNT in *.
  assert (incr (overcount p) = overcount p + 1) as -> by (apply uwrap_id; unfold in_u; lia). cbn [length] in H1.
  destruct (Z.leb_spec 10 (overcount p + 1)); [by left|]. right. split_and!; [lia|lia|]. intros ->. cbn in H1. lia.
Qed.
(** The limits are zero, since nothing sets them: ten checks would report a voltage or
    a current that is too large for the adapter, the battery and the fan, whatever is
    measured, and keep reporting it. *)
Theorem unset_limits_trip vs : Forall (λ v, f_leb f_zero v = true) vs → (10 ≤ length vs)%nat →
  pr_status (checks adapter_check vs Prot_default) = 1 ∧ pr_status (checks battery_check vs Prot_default) = 1 ∧ pr_status (checks fan_check vs Prot_default) = 1.
Proof.
  intros Hv Hl. destruct all_count_over as (Ha & Hb & Hf).
  assert (TIME_MAXCNT ≤ overcount Prot_default + Z.of_nat (length vs) ∧ overcount Prot_default < TIME_MAXCNT ∧ vs ≠ []) as H.
  { unfold TIME_MAXCNT. cbn [Prot_default overcount]. split_and!; [lia|lia|]. intros ->. cbn in Hl. lia. }
  split_and!; [apply (over_checks _ vs Ha Hv)|apply (over_checks _ vs Hb Hv)|apply (over_checks _ vs Hf Hv)]; first [reflexivity|by right|cbn; lia].
Qed.
Lemma unset_limits_trip_witness : pr_status (checks adapter_check (replicate 12 (lit 12 1)) Prot_default) = 1.
Proof.
  refine (proj1 (unset_limits_trip (replicate 12 (lit 12 1)) _ _)); [apply Forall_replicate; vm_compute; reflexivity|cbn; lia].
Defined.

(** ** The fan's status *)
Definition normal (p : Prot) (v : spec_float) : Prop := f_leb (OverValue p) v = false ∧ f_lt v (UnderValue p) = false.
Lemma fan_normal v p : normal p v → fan_check (read_as v p) =
  if 5 * TIME_MAXCNT <=? incr (resumecount p) then set_counts 0 0 0 0 (read_as v p)
  else set_counts (pr_status p) (overcount p) (undercount p) (incr (resumecount p)) (read_as v p).
Proof. intros [H1 H2]. unfold fan_check. cbn [read_as pr_value OverValue UnderValue]. by rewrite H1, H2. Qed.
(** A fan that was switched off for its current would be switched on after fifty
    normal readings, not before. *)
Theorem fan_resumes vs : ∀ p, Forall (normal p) vs → 0 ≤ resumecount p < 50 → Z.of_nat (length vs) ≤ 50 - resumecount p →
  pr_status (checks fan_check vs p) = if Z.of_nat (length vs) =? 50 - resumecount p then 0 else pr_status p.
Proof.
  induction vs as [|v vs IH]; intros p Hv Hr Hl.
  - cbn [checks length] in *. by rewrite (proj2 (Z.eqb_neq _ _)) by lia.
  - apply Forall_cons in Hv as [Hv Hvs]. cbn [checks]. rewrite (fan_normal v p Hv). unfold TIME_MAXCNT.
    assert (incr (resumecount p) = resumecount p + 1) as -> by (apply uwrap_id; unfold in_u; lia). cbn [length] in *.
    destruct (Z.leb_spec (5 * 10) (resumecount p + 1)).
    + destruct vs; cbn [length] in *; [|lia]. cbn [checks]. rewrite (proj2 (Z.eqb_eq _ _)) by lia. done.
    + rewrite IH; cbn [set_counts read_as resumecount pr_status OverValue UnderValue]; [|done|lia..].
      replace (Z.of_nat (length vs) =? 50 - (resumecount p + 1)) with (Z.of_nat (S (length vs)) =? 50 - resumecount p); [done|].
      destruct (Z.eqb_spec (Z.of_nat (S (length vs))) (50 - resumecount p)), (Z.eqb_spec (Z.of_nat (length vs)) (50 - (resumecount p + 1))); lia.
Qed.
Lemma fan_resumes_witness : let p := mkProt 1 10 0 0 f_zero (lit 5 1) (lit 1 1) in
  pr_status (checks fan_check (replicate 50 (lit 2 1)) p) = 0 ∧ pr_status (checks fan_check (replicate 49 (lit 2 1)) p) = 1.
Proof.
  intros p. split; (rewrite (fan_resumes _ p); [reflexivity|apply Forall_replicate; split; vm_compute; reflexivity|cbn; lia|cbn; lia]).
Defined.
