(* ===== verification/PerServer.v ===== *)
(** * The peripherals server

    src/lib_app/peripherals_server/main/device_manager.cpp with the parts of
    adc_manager.cpp and imu_sensor.cpp that use the state of several modules: the
    dispatch of requests and broadcasts to the modules, the samples, and the
    broadcast of all readings.  The two modules of the distance sensors, which talk
    to their chips over I2C, are an interface. *)

From S2P Require Import Prelude Float Json JsonText DpMessage Pid Motors Wheels Keys Sensors.
From Stdlib Require Import QArith_base.
#[local] Open Scope Z_scope.

(** The modules Vl6180xManager and Vl53l5cxManager: what they answer to a request
    they have in their tables, and the distances they have measured. *)
Class DistanceSensors := {
  vl6180_calibrate : string → json → Z;
  vl53_calibrate : string → json → Z;
  vl6180_dis : Z;
  vl53_dis : list Z }.

Section server.
Context {R : RealFormat} {D : DistanceSensors}.

Record PerServer := mkPer { motors : Motors; wheels : Wheels; gpio : Gpio; ir : Ir; adc : Adc; imu : Imu; abnormal : Z; per_sent : list (string * json) }.
Abbreviation PS := (ST PerServer).
Definition on_motors {A} (m : ST Motors A) : PS A := λ p,
  match m (motors p) with Ok (a, x) => Ok (a, mkPer x (wheels p) (gpio p) (ir p) (adc p) (imu p) (abnormal p) (per_sent p)) | Ub u => Ub u end.
Definition on_wheels {A} (m : ST Wheels A) : PS A := λ p,
  match m (wheels p) with Ok (a, x) => Ok (a, mkPer (motors p) x (gpio p) (ir p) (adc p) (imu p) (abnormal p) (per_sent p)) | Ub u => Ub u end.
Definition on_gpio {A} (m : ST Gpio A) : PS A := λ p,
  match m (gpio p) with Ok (a, x) => Ok (a, mkPer (motors p) (wheels p) x (ir p) (adc p) (imu p) (abnormal p) (per_sent p)) | Ub u => Ub u end.
Definition on_ir {A} (m : ST Ir A) : PS A := λ p,
  match m (ir p) with Ok (a, x) => Ok (a, mkPer (motors p) (wheels p) (gpio p) x (adc p) (imu p) (abnormal p) (per_sent p)) | Ub u => Ub u end.
Definition on_imu {A} (m : ST Imu A) : PS A := λ p,
  match m (imu p) with Ok (a, x) => Ok (a, mkPer (motors p) (wheels p) (gpio p) (ir p) (adc p) x (abnormal p) (per_sent p)) | Ub u => Ub u end.

(** ** Samples *)
(** AdcManager::Adc_Sample; None: nothing to read.  [data] is readdata after the
    read. *)
Definition Adc_Sample (data : option (list Z)) : PS unit :=
  match data with
  | None => mret tt
  | Some d => modify (λ p, mkPer (motor_currents d (motors p)) (wheel_currents d (wheels p)) (gpio p) (ir p) (ConversionToStandards d) (imu p) (abnormal p) (per_sent p))
  end.
(** Nothing calibrates the ground sensors. *)
Definition Gnddet_Calibrate (jreq : json) : PS Z := mret (-1).
Definition adc_table : list (string * (json → PS Z)) := [("gnddet_calibrate", Gnddet_Calibrate)].

Definition jfloat (x : SpecFloat.spec_float) : json := JReal (f_to_Q x).
(** ImuManager::SensorBroadcast *)
Definition sensor_body (p : PerServer) : res json :=
  let m := motors p in let w := wheels p in let i := imu p in let o := gODM_CAL w in
  let switch k := JInt (pin (Gpio_PinD (gpio p)) k) in
  battery ← battery_level (pw_value (VBAT_Prot (adc p)));
  Ok (JObj [
    ("vl53l5cx", JObj [("data", JArr (JInt <$> take 192 vl53_dis))]);
    ("vl6180", JObj [("dis", JInt vl6180_dis)]);
    ("imu", JObj [("x_accel", jfloat (f_x (accel_act i))); ("y_accel", jfloat (f_y (accel_act i))); ("z_accel", jfloat (f_z (accel_act i)));
                  ("x_gyro", jfloat (f_x (gyro_act i))); ("y_gyro", jfloat (f_y (gyro_act i))); ("z_gyro", jfloat (f_z (gyro_act i)));
                  ("course_angle", jfloat (course_angle i))]);
    ("ultra", JObj [("rug", JInt (rug m))]);
    ("current", JObj [("wheel_l_curr", jfloat (currentValue (LeftWheel w))); ("wheel_r_curr", jfloat (currentValue (RightWheel w)));
                      ("fan_curr", jfloat (currentValue (Motorfan m))); ("mid_curr", jfloat (currentValue (Motormid m)));
                      ("side_l_curr", jfloat (currentValue (MotorsideA m))); ("side_r_curr", jfloat (currentValue (MotorsideB m)));
                      ("mop_curr", jfloat (currentValue (MotorMop m)))]);
    ("battery", JObj [("electric_qy", JInt battery)]);
    ("gnd-det", JObj [("gnddet_lf", JInt (GND_Sensor_LF (adc p))); ("gnddet_lb", JInt (GND_Sensor_LB (adc p)));
                      ("gnddet_rf", JInt (GND_Sensor_RF (adc p))); ("gnddet_rb", JInt (GND_Sensor_RB (adc p)))]);
    ("odm", JObj [("odm_left", JInt (leftv o)); ("odm_right", JInt (rightv o)); ("odm_v", jfloat (p_vx o)); ("odm_w", jfloat (p_vyaw o))]);
    ("alarm", JObj [("abnormal", JInt (abnormal p))]);
    ("collision", JObj [("collision_lf", switch COLLISION_DET_LA); ("collision_lb", switch COLLISION_DET_LB);
                        ("collision_rf", switch COLLISION_DET_RA); ("collision_rb", switch COLLISION_DET_RB)]);
    ("triggle", JObj [("radar_triggle", JInt 0); ("visor_det", JInt 0);
                      ("lidar_pi_key1", switch LIADR_PI_KEYI1); ("lidar_pi_key2", switch LIADR_PI_KEYI2)]);
    ("ir_back", JObj [("left_ir", JInt (left_irrev (ir p))); ("right_ir", JInt (right_irrev (ir p)))])]).
Definition SensorBroadcast : PS unit :=
  p ← get;
  body ← lift (sensor_body p);
  modify (λ p, mkPer (motors p) (wheels p) (gpio p) (ir p) (adc p) (imu p) (abnormal p)
                 (per_sent p ++ [("DP_PERIPHERALS_BROADCAST", JObj [("type", JStr "sensor_data"); ("body", body)])])).

(** ImuManager::Imu_Run, when there is something to read; [ts]: the milliseconds
    since the last time *)
Definition Imu_Run (sample fresh : list Z) (ts : SpecFloat.spec_float) : PS unit :=
  let d := databuf sample fresh in
  p ← get;
  if imu_calibrate_flag (imu p) then on_imu (calibrate d)
  else
    on_imu (
      real_values d;;
      i ← get;
      if Imu_StartCal i then posture_cal ts;; modify (λ i, set_course true (int32f (v_z (angle_vals i))) i)
      else modify (λ i, set_course true (course_angle i) i));;
    SensorBroadcast.

(** ** Messages of the other processes *)
(** CreateBaseNode.  A module whose table has the type answers, -1 passes it on. *)
Definition per_nodes : list (string → json → PS Z) :=
  [(λ ty j, on_gpio (Gpio_OnDpMessage ty j));
   (λ ty j, on_motors (Motor_OnDpMessage ty j));
   (λ ty j, on_wheels (Wheel_OnDpMessage ty j));
   (λ ty j, mret (if bool_decide (ty ∈ ["board_calibrate"; "board_demarcate"]) then vl6180_calibrate ty j else -1));
   (λ ty j, mret (if bool_decide (ty ∈ ["tof_calibrate"; "tof_demarcate"]) then vl53_calibrate ty j else -1));
   module_dispatch adc_table;
   (λ ty j, on_imu (Imu_OnDpMessage ty j));
   (λ ty j, on_ir (Ir_OnDpMessage ty j))].
Fixpoint first_answer (nodes : list (string → json → PS Z)) (stype : string) (jreq : json) (ret : Z) : PS Z :=
  match nodes with
  | [] => mret ret
  | node :: nodes' => r ← node stype jreq; if r =? -1 then first_answer nodes' stype jreq r else mret r
  end.
Definition per_reply (stype : string) (ret : Z) : json :=
  JObj (("type", JStr stype) :: if ret =? 0 then [("status", JInt 200); ("err_msg", JStr "success")] else []).
(** [req_buffer]: the result of String2Json *)
Definition PerServer_OnDpMessage (method : string) (is_request : bool) (req_buffer : bool * json) : PS (option json) :=
  if bool_decide (method = "DP_SCHEDULE_BROADCAST") || bool_decide (method = "DP_PERIPHERALS_REQUEST") then
    if req_buffer.1 then
      t ← lift (jkey req_buffer.2 "type");
      ret ← first_answer per_nodes (asString t) req_buffer.2 (-1);
      mret (if is_request : bool then Some (per_reply (asString t) ret) else None)
    else mret None
  else mret None.
End server.
