(* ===== verification/WheelDrive.v ===== *)
(** * Theorems on the wheels

    Whatever the other processes ask for, a wheel gets a duty within its limits, or
    1 when the error is too large for the table of gains; what the commands of the
    debug client make of it; and what is reported of the way. *)

From S2P Require Import Prelude Float Json JsonText KvdbCheck DpMessage Pid Motors Wheels.
From Stdlib Require Import SpecFloat QArith_base.
#[local] Open Scope Z_scope.

(** ** Every step keeps the duties within their limits *)
Definition duty_ok (i : io) : Prop :=
  match i with ioctl_ptr _ _ z => z = 1 ∨ MIN_PWM ≤ z ≤ MAX_OUT_PWM | _ => True end.
Record wheels_ok (w : Wheels) : Prop := {
  wk_left : pid_ok (lMotorPid w); wk_right : pid_ok (rMotorPid w); wk_io : Forall duty_ok (wheel_io w) }.
Definition any_kind (u : ub) : Prop := True.
Abbreviation keeps := (pres any_kind wheels_ok).

Lemma res_in_any_kind {A} (r : res A) : res_in any_kind r.
Proof. by destruct r. Qed.
Lemma clear_ok : pid_ok MotorPidclear.
Proof. by left. Qed.
Lemma wheel_modify f : (∀ w, lMotorPid (f w) = lMotorPid w ∨ pid_ok (lMotorPid (f w))) → (∀ w, rMotorPid (f w) = rMotorPid w ∨ pid_ok (rMotorPid (f w))) →
  (∀ w, wheel_io (f w) = wheel_io w) → keeps (modify f).
Proof.
  intros Hl Hr Hio. apply pres_modify. intros w [H1 H2 H3]. split.
  - destruct (Hl w) as [->|H]; done.
  - destruct (Hr w) as [->|H]; done.
  - by rewrite Hio.
Qed.
Lemma keeps_io l : Forall duty_ok l → keeps (modify (add_wheel_io l)).
Proof. intros Hl. apply pres_modify. intros w [H1 H2 H3]. split; [done..|]. cbn. by apply Forall_app. Qed.
Lemma keeps_brake_left s d : s = 0 ∨ s = 3 → keeps (Wheel_Ctrl_Left 0 d s).
Proof. intros [-> | ->]; apply keeps_io; by repeat constructor. Qed.
Lemma keeps_brake_right s d : s = 0 ∨ s = 3 → keeps (Wheel_Ctrl_Right 0 d s).
Proof. intros [-> | ->]; apply keeps_io; by repeat constructor. Qed.
#[local] Hint Resolve keeps_brake_left keeps_brake_right clear_ok res_in_any_kind : pres.
Ltac keeps_mod := apply wheel_modify; intros; first [by left|right; apply clear_ok|done].
Ltac solve_keeps :=
  repeat lazymatch goal with
  | |- pres _ _ (mret _) => apply pres_ret
  | |- pres _ _ get => apply pres_get
  | |- pres _ _ (gets _) => apply pres_gets
  | |- pres _ _ (lift _) => apply pres_lift, res_in_any_kind
  | |- pres _ _ (modify _) => keeps_mod
  | |- pres _ _ (Wheel_Ctrl_Left _ _ _) => apply keeps_brake_left; lia
  | |- pres _ _ (Wheel_Ctrl_Right _ _ _) => apply keeps_brake_right; lia
  | |- pres _ _ (when _ _) => apply pres_when
  | |- pres _ _ (_ ≫= _) => apply pres_bind; [|intros ?]
  | |- pres _ _ (if ?b then _ else _) => destruct b
  end.

Lemma wheel_duty d : MIN_PWM ≤ d ≤ MAX_OUT_PWM ∨ d = -1 → ∀ fd cmd, duty_ok (ioctl_ptr fd cmd (Z.abs d)).
Proof. unfold MIN_PWM, MAX_OUT_PWM. cbn. unfold MIN_PWM, MAX_OUT_PWM. lia. Qed.
Lemma keeps_left_run : keeps (w ← get; left_run w).
Proof.
  intros w [H1 H2 H3]. rewrite run_bind, run_get. unfold left_run. rewrite run_bind. unfold lift, PidFun_left.
  destruct (wheel_pid _ _ _ _) as [[pwm p]|u] eqn:Hp; [|done]. apply wheel_pid_bound in Hp as [Hpid Hd]; [|done].
  cbn. split; [done..|]. cbn [wheel_io set_lpid add_wheel_io]. apply Forall_app. split; [done|].
  destruct (L_DIR w =? 0); [|destruct (L_DIR w =? 1)]; first [by apply Forall_nil|by apply Forall_singleton, wheel_duty].
Qed.
Lemma keeps_right_run : keeps (w ← get; right_run w).
Proof.
  intros w [H1 H2 H3]. rewrite run_bind, run_get. unfold right_run. rewrite run_bind. unfold lift, PidFun_right.
  destruct (wheel_pid _ _ _ _) as [[pwm p]|u] eqn:Hp; [|done]. apply wheel_pid_bound in Hp as [Hpid Hd]; [|done].
  cbn. split; [done..|]. cbn [wheel_io set_rpid add_wheel_io]. apply Forall_app. split; [done|].
  destruct (R_DIR w =? 0); [|destruct (R_DIR w =? 1)]; first [by apply Forall_nil|by apply Forall_singleton, wheel_duty].
Qed.
Lemma keeps_left_tick : keeps left_tick.
Proof.
  unfold left_tick. apply pres_bind; [apply pres_get|intros w].
  destruct (workstate (LeftWheel w) =? 3); [solve_keeps|]. apply pres_when.
  destruct (M_status (LeftWheel w) =? 1); [solve_keeps|]. destruct (setspeed (LeftWheel w) =? 0); [solve_keeps|].
  apply pres_bind; [solve_keeps|intros _]. apply keeps_left_run.
Qed.
Lemma keeps_right_tick : keeps right_tick.
Proof.
  unfold right_tick. apply pres_bind; [apply pres_get|intros w].
  destruct (workstate (RightWheel w) =? 3); [solve_keeps|]. apply pres_when.
  destruct (M_status (RightWheel w) =? 1); [solve_keeps|]. destruct (setspeed (RightWheel w) =? 0); [solve_keeps|].
  apply pres_bind; [solve_keeps|intros _]. apply keeps_right_run.
Qed.
Lemma keeps_timer cl cr : keeps (Timer20ms cl cr).
Proof.
  apply pres_bind; [unfold CodeWheel_Count; solve_keeps|intros _].
  apply pres_bind; [apply keeps_left_tick|intros _; apply keeps_right_tick].
Qed.
Lemma keeps_move j : keeps (SetMoveCtrl j).
Proof. unfold SetMoveCtrl, wheel_spd_calc. solve_keeps. Qed.
Lemma wheel_request ty j : keeps (Wheel_OnDpMessage ty j).
Proof.
  unfold Wheel_OnDpMessage, module_dispatch, wheel_table. cbn [table_handler].
  case_bool_decide; [|case_bool_decide]; [| |apply pres_ret]; (apply pres_bind; [apply pres_lift, res_in_any_kind|intros b]);
    [apply keeps_move|apply pres_ret].
Qed.

(** ** A wheel that does not start *)
Definition ticks_left (i : io) (w : Wheels) : Prop := ∃ w', left_tick w = Ok (tt, w') ∧ wheel_io w' = wheel_io w ++ [i].
Lemma find_param_large table a : (∀ q, q ∈ table → p_speed q ≤ a) → find_param table a = None.
Proof. by intros H; apply find_param_none. Qed.
(** Every wheel that is to turn by at least the largest error of its table faster
    than it does gets the duty 1, which is below the smallest one that moves it: from
    a standstill it never starts. *)
Theorem fast_start_fails w : let s := setspeed (LeftWheel w) in
  workstate (LeftWheel w) = 1 → M_status (LeftWheel w) ≠ 1 → readspeed (LeftWheel w) = 0 → 0 < s < 2 ^ 15 →
  (∀ q, q ∈ pidValue w → p_speed q ≤ s) →
  ticks_left (ioctl_ptr lwheel_fd LEFT_WHEEL_SET_A_DUTY 1) w.
Proof.
  intros s Hw Hst Hr Hs Hq. subst s. unfold ticks_left, left_tick. rewrite run_bind, run_get. cbn beta iota.
  rewrite Hw. change (1 =? 3) with false. cbn iota. rewrite run_when_true by done.
  rewrite (proj2 (Z.eqb_neq _ _) Hst), (proj2 (Z.eqb_neq _ 0)) by lia. rewrite (proj2 (Z.leb_le 0 _)) by lia.
  assert (∀ p, PidFun_left (pidValue w) (LeftWheel w) p =
    Ok (-1, mkPid (currentError p) (lastError p) (preError p) (sumError p) (pid_out p) (Sumout p) (setspeed (LeftWheel w)) 0)) as Hpid.
  { intros p. unfold PidFun_left, wheel_pid, c_abs. rewrite Hr. rewrite !int_op_ok by (unfold in_s; lia). cbn [mbind res_bind].
    change (s16 (Z.abs 0)) with 0. rewrite (swrap_id 16) by (unfold in_s; lia). rewrite (int_op_ok (Z.abs (Z.abs _ - 0))) by (unfold in_s; lia). cbn [mbind res_bind].
    rewrite (swrap_id 16) by (unfold in_s; lia). rewrite find_param_large; [|intros q Hin; specialize (Hq q Hin); lia].
    f_equal. f_equal. f_equal; lia. }
  unfold left_run. destruct (0 <? L_DIR w); eexists; (split; [cbv [mbind st_bind modify get lift mret st_ret set_lpid set_l_dir when]; cbn [pidValue LeftWheel lMotorPid]; rewrite Hpid; reflexivity|reflexivity]).
Qed.
Definition ref_wheels : Wheels :=
  mkWheels (set_setspeed 107 (set_workstate 1 Motol_Ctrl_default)) Motol_Ctrl_default MotorPidclear MotorPidclear 0 0 0 ODM_Cal_default
    pidValue_last WheelParam_default 0 0 [].
Lemma fast_start_fails_witness : ticks_left (ioctl_ptr lwheel_fd LEFT_WHEEL_SET_A_DUTY 1) ref_wheels.
Proof.
  apply (fast_start_fails ref_wheels); [done|done|done|done|]. apply Forall_forall.
  cbn [ref_wheels pidValue]. unfold pidValue_last. repeat first [by apply Forall_nil|apply Forall_cons; split; [vm_compute; discriminate|]].
Defined.

(** ** What is asked for *)
Definition drive (v w : Z) : json := JObj [("brake", JInt 0); ("v", JInt v); ("w", JInt w)].
(** The speeds the wheels are set to by a request *)
Definition driven (v w l r : Z) : Prop := ∀ s, params s = WheelParam_default → ∃ s', SetMoveCtrl (drive v w) s = Ok (0, s') ∧
  setspeed (LeftWheel s') = l ∧ setspeed (RightWheel s') = r ∧ workstate (LeftWheel s') = 1 ∧ workstate (RightWheel s') = 1 ∧ wheel_io s' = wheel_io s.
Ltac drive_run :=
  let s := fresh in let Hp := fresh in intros s Hp; destruct s; cbn in Hp; subst; eexists; split; [vm_compute; reflexivity|done].
Lemma driven_forward : driven 180 0 32 32.
Proof. drive_run. Qed.
Lemma driven_backward : driven (-90) 0 (-16) (-16).
Proof. drive_run. Qed.
Lemma driven_turn_left : driven 0 (-100) 24 (-24).
Proof. drive_run. Qed.
Lemma driven_turn_right : driven 0 100 (-24) 24.
Proof. drive_run. Qed.

(** ** Standing still *)
Definition measuring_ub (u : ub) : Prop := u = UB_BadConversion ∨ u = UB_SignedOverflow.
Definition standing (l : list io) (w : Wheels) : Prop := workstate (LeftWheel w) = 0 ∧ workstate (RightWheel w) = 0 ∧ wheel_io w = l.
Lemma int_op_kind z : res_in measuring_ub (int_op z).
Proof. unfold int_op. case_bool_decide; [done|by right]. Qed.
Lemma f_to_int_kind x : res_in measuring_ub (f_to_int x).
Proof. unfold f_to_int. destruct (f_trunc x); [case_decide; [done|by left]|by left]. Qed.
#[local] Hint Resolve int_op_kind f_to_int_kind : pres.
Lemma standing_modify l f : (∀ w, workstate (LeftWheel (f w)) = workstate (LeftWheel w)) → (∀ w, workstate (RightWheel (f w)) = workstate (RightWheel w)) →
  (∀ w, wheel_io (f w) = wheel_io w) → pres measuring_ub (standing l) (modify f).
Proof. intros H1 H2 H3. apply pres_modify. intros w (? & ? & ?). split_and!; congruence. Qed.
Lemma standing_tick l : pres measuring_ub (standing l) wheel_tick_ctrl.
Proof.
  intros w (Hl & Hr & Hio). unfold wheel_tick_ctrl, left_tick, right_tick. rewrite run_bind, run_bind, run_get. cbn beta iota. rewrite Hl. cbn [Z.eqb].
  rewrite run_when_false by done. rewrite run_bind, run_get. cbn beta iota. rewrite Hr. cbn [Z.eqb]. by rewrite run_when_false.
Qed.
Lemma standing_timer l c : pres measuring_ub (standing l) (Timer20ms c.1 c.2).
Proof.
  apply pres_bind; [|intros _; apply standing_tick]. unfold CodeWheel_Count. apply pres_bind; [apply pres_get|intros w]. unfold wheel_speed.
  repeat first [apply standing_modify; done|pres_step|apply int_op_kind|apply f_to_int_kind|apply res_in_ok|intros ?].
Qed.
(** C28. A request to stop brakes both wheels and clears both loops; however often the
    timer then runs, nothing is given to a wheel, unless measuring goes wrong by
    counts that are no speeds. *)
Theorem stop_holds s : ∃ s', SetMoveCtrl (drive 0 0) s = Ok (0, s') ∧
  wheel_io s' = wheel_io s ++ [ioctl lwheel_fd LEFT_WHEEL_BRAKE 1; ioctl rwheel_fd RIGHT_WHEEL_BRAKE 1] ∧
  lMotorPid s' = MotorPidclear ∧ rMotorPid s' = MotorPidclear ∧
  ∀ ticks, match iterM (λ c, Timer20ms c.1 c.2) ticks s' with Ok (_, s'') => wheel_io s'' = wheel_io s' | Ub u => measuring_ub u end.
Proof.
  eexists. split; [reflexivity|]. split; [cbn; by rewrite <-app_assoc|]. split; [done|]. split; [done|]. intros ticks.
  set (s' := set_rpid _ _). assert (standing (wheel_io s') s') as Hs by done.
  pose proof (pres_iterM measuring_ub (standing (wheel_io s')) _ ticks (standing_timer _) s' Hs) as H.
  destruct (iterM _ ticks s') as [[[] s'']|u]; [by destruct H as (_ & _ & H)|done].
Qed.

(** ** The counters of the encoders *)
(** A movement of [k] counts from a counter of 16 bits: when the counter wraps, one
    count of it is lost. *)
Theorem encoder_increment last k : in_s 16 last → -32767 ≤ k ≤ 32767 →
  encode_increment (s16 (last + k)) last = if 32767 <? last + k then k - 1 else if last + k <? -32768 then k + 1 else k.
Proof.
  unfold in_s, encode_increment. intros Hl Hk. assert (∀ z, -32768 ≤ z < 32768 → s16 z = z) as Hid by (intros; by apply swrap_id).
  assert (∀ z, s16 z = (z + 32768) mod 65536 - 32768) as Hs by done.
  destruct (Z.ltb_spec 32767 (last + k)); [|destruct (Z.ltb_spec (last + k) (-32768))].
  - assert (s16 (last + k) = last + k - 65536) as -> by (rewrite Hs; Z.to_euclidean_division_equations; lia).
    rewrite (proj2 (Z.ltb_lt _ (-32767))) by lia. rewrite Hid; lia.
  - assert (s16 (last + k) = last + k + 65536) as -> by (rewrite Hs; Z.to_euclidean_division_equations; lia).
    rewrite (proj2 (Z.ltb_ge _ (-32767))), (proj2 (Z.ltb_lt 32767 _)) by lia. rewrite Hid; lia.
  - rewrite (Hid (last + k)) by lia. rewrite (proj2 (Z.ltb_ge _ (-32767))), (proj2 (Z.ltb_ge 32767 _)) by lia. rewrite Hid; lia.
Qed.
Lemma encoder_increment_witness : encode_increment (s16 (32760 + 20)) 32760 = 19 ∧ encode_increment (s16 (100 + 20)) 100 = 20.
Proof.
  split; [rewrite (encoder_increment 32760 20)|rewrite (encoder_increment 100 20)]; try reflexivity; unfold in_s; lia.
Defined.
