(* ===== verification/PerReach.v ===== *)
(** * The duties of all motors

    The peripherals server as a whole: any interleaving of requests, broadcasts,
    timers, keys and samples keeps every duty that is given to a driver within the
    limits of its motor. *)

From S2P Require Import Prelude Float Json JsonText Pid Motors Wheels Keys Sensors PerServer WheelDrive.
From Stdlib Require Import SpecFloat.
#[local] Open Scope Z_scope.

(** ** Fan, brushes and mop *)
(** What may be given to a driver by its pointer *)
Definition motor_duty (i : io) : Prop :=
  match i with
  | ioctl_ptr fan_fd _ z => 0 ≤ z ≤ 65000
  | ioctl_ptr mid_fd _ z | ioctl_ptr side_fd _ z => 0 ≤ z ≤ 66667
  | ioctl_ptr mop_fd _ z => 25000 ≤ z ≤ 42000
  | _ => True
  end.
Record motors_ok (m : Motors) : Prop := { mk_fan : 0 ≤ setspeed (Motorfan m) ≤ 45; mk_io : Forall motor_duty (motor_io m) }.
Abbreviation mkeeps := (pres any_kind motors_ok).

Lemma motor_modify f : (∀ m, motors_ok m → 0 ≤ setspeed (Motorfan (f m)) ≤ 45) → (∀ m, motor_io (f m) = motor_io m) → mkeeps (modify f).
Proof. intros H1 H2. apply pres_modify. intros m Hm. split; [by apply H1|rewrite H2; apply Hm]. Qed.
Lemma motor_out_ok l : Forall motor_duty l → mkeeps (motor_out l).
Proof. intros Hl. apply pres_modify. intros m [H1 H2]. split; [done|]. by apply Forall_app. Qed.
(** A value that a successful computation leaves in the state *)
Lemma pres_lift_bind {S A B} U (I : S → Prop) (r : res A) (P : A → Prop) (k : A → ST S B) :
  res_in U r → (∀ a, r = Ok a → P a) → (∀ a, P a → pres U I (k a)) → pres U I (lift r ≫= k).
Proof. intros Hu HP Hk s Hs. rewrite run_bind. unfold lift. destruct r as [a|u]; [by apply Hk; [apply HP|]|done]. Qed.
Lemma level_entry_in array state z : level_entry array state = Ok z → z ∈ array.
Proof. unfold level_entry. destruct (state <=? 0); [done|]. destruct (array !! _) as [y|] eqn:Hl; [|done]. intros [= <-]. by eapply list_elem_of_lookup_2. Qed.
Lemma brush_duty_in array state z : Forall (λ s, 0 ≤ s < 16) array → brush_duty array state = Ok z → 0 ≤ z ≤ 66667.
Proof.
  unfold brush_duty. intros Ha H. apply res_bind_ok in H as (s & Hs & H). apply level_entry_in in Hs. rewrite Forall_forall in Ha. specialize (Ha s Hs).
  injection H as <-. destruct (66667 <=? _); [lia|]. Z.to_euclidean_division_equations; lia.
Qed.
Lemma fan_duty_in c p z p' : PidFun_Fan c p = Ok (z, p') → 10000 ≤ z ≤ 65000.
Proof.
  unfold PidFun_Fan, speed_pid. intros H. apply res_bind_ok in H as (o & _ & H). apply res_bind_ok in H as (t & _ & H). injection H as <- _. by apply limited_bound.
Qed.
Lemma in_range (l : list Z) a b z : Forall (λ s, a ≤ s ≤ b) l → z ∈ l → a ≤ z ≤ b.
Proof. intros H. rewrite Forall_forall in H. apply H. Qed.
Lemma pres_get_bind {S B} U (I : S → Prop) (k : S → ST S B) : (∀ s, I s → pres U I (k s)) → pres U I (get ≫= k).
Proof. intros H s Hs. rewrite run_bind, run_get. by apply H. Qed.
Lemma level_bind {B} array a b state (k : Z → MM B) : Forall (λ s, a ≤ s ≤ b) array → (∀ z, a ≤ z ≤ b → mkeeps (k z)) → mkeeps (lift (level_entry array state) ≫= k).
Proof. intros Ha. apply pres_lift_bind; [apply res_in_any_kind|]. intros z Hz%level_entry_in. revert Hz. by apply in_range. Qed.
Lemma brush_bind {B} array state (k : Z → MM B) : Forall (λ s, 0 ≤ s ≤ 15) array → (∀ z, 0 ≤ z ≤ 66667 → mkeeps (k z)) → mkeeps (lift (brush_duty array state) ≫= k).
Proof.
  intros Ha. apply pres_lift_bind; [apply res_in_any_kind|]. intros z. apply brush_duty_in. eapply Forall_impl; [exact Ha|]. intros s. cbn. lia.
Qed.
Lemma fan_bind {B} c p (k : Z * MotorPid → MM B) : (∀ z q, 10000 ≤ z ≤ 65000 → mkeeps (k (z, q))) → mkeeps (lift (PidFun_Fan c p) ≫= k).
Proof.
  intros Hk. apply (pres_lift_bind _ _ _ (λ r, 10000 ≤ r.1 ≤ 65000)); [apply res_in_any_kind| |intros [z q] Hz; by apply Hk].
  intros [z q]. apply fan_duty_in.
Qed.
Ltac entries := repeat first [by apply Forall_nil|apply Forall_cons; split; [cbn; lia|]].
Ltac motor_step :=
  lazymatch goal with
  | |- pres _ _ (mret _) => apply pres_ret
  | |- pres _ _ (get ≫= _) => apply pres_get_bind; intros ? []
  | |- pres _ _ (lift (level_entry fanspeed _) ≫= _) => apply (level_bind _ 0 45); [entries|intros ? ?]
  | |- pres _ _ (lift (level_entry mop_speed _) ≫= _) => apply (level_bind _ 25000 42000); [entries|intros ? ?]
  | |- pres _ _ (lift (brush_duty _ _) ≫= _) => apply brush_bind; [entries|intros ? ?]
  | |- pres _ _ (lift (PidFun_Fan _ _) ≫= _) => apply fan_bind; intros ? ? ?
  | |- pres _ _ (lift _ ≫= _) => apply pres_bind; [apply pres_lift, res_in_any_kind|intros ?]
  | |- pres _ _ (modify _) => apply motor_modify; [intros ? []; cbn in *; lia|done]
  | |- pres _ _ (motor_out _) => apply motor_out_ok; rewrite ?uwrap_id by (unfold in_u; lia); entries
  | |- pres _ _ (PostDelayed_motor _ _) => unfold PostDelayed_motor
  | |- pres _ _ (when _ _) => apply pres_when
  | |- pres _ _ (_ ≫= _) => apply pres_bind; [|intros ?]
  | |- pres _ _ (if ?b then _ else _) => destruct b
  end.
Lemma motor_requests_ok j : mkeeps (Set_Fan_Lev j) ∧ mkeeps (Set_Mid_Lev j) ∧ mkeeps (Set_Side_Lev j) ∧ mkeeps (Set_Mop_Lev j).
Proof. split_and!; [unfold Set_Fan_Lev|unfold Set_Mid_Lev|unfold Set_Side_Lev|unfold Set_Mop_Lev]; repeat motor_step. Qed.
Lemma motor_runs_ok : mkeeps Fan_Motor_Run ∧ mkeeps Mid_Motor_Run ∧ mkeeps Side_Motor_Run ∧ mkeeps Mop_Motor_Run.
Proof. split_and!; [unfold Fan_Motor_Run|unfold Mid_Motor_Run|unfold Side_Motor_Run|unfold Mop_Motor_Run]; repeat motor_step. Qed.
Lemma motor_message_ok ultra id : mkeeps (Motor_OnMessage ultra id).
Proof.
  destruct motor_runs_ok as (H1 & H2 & H3 & H4). unfold Motor_OnMessage, Timer50ms, Ultra_Sample. repeat first [assumption|motor_step].
Qed.
Lemma motor_request_ok ty j : mkeeps (Motor_OnDpMessage ty j).
Proof.
  unfold Motor_OnDpMessage, module_dispatch, motor_table. cbn [table_handler]. pose proof motor_requests_ok.
  repeat (case_bool_decide; [apply pres_bind; [apply pres_lift, res_in_any_kind|intros b; apply (H b)]|]). apply pres_ret.
Qed.

(** ** The server *)
Section reach.
Context {R : RealFormat} {D : DistanceSensors}.
Record per_ok (p : PerServer) : Prop := { pk_motors : motors_ok (motors p); pk_wheels : wheels_ok (wheels p) }.
Abbreviation pkeeps := (pres any_kind per_ok).

Lemma pres_motors {A} (m : MM A) : mkeeps m → pkeeps (on_motors m).
Proof. intros Hm p [H1 H2]. unfold on_motors. specialize (Hm _ H1). destruct (m (motors p)) as [[a x]|u]; [by split|done]. Qed.
Lemma pres_wheels {A} (m : WM A) : pres any_kind wheels_ok m → pkeeps (on_wheels m).
Proof. intros Hm p [H1 H2]. unfold on_wheels. specialize (Hm _ H2). destruct (m (wheels p)) as [[a x]|u]; [by split|done]. Qed.
Lemma pres_gpio {A} (m : GM A) : pkeeps (on_gpio m).
Proof. intros p [H1 H2]. unfold on_gpio. destruct (m (gpio p)) as [[a x]|u]; [by split|done]. Qed.
Lemma pres_ir {A} (m : IM A) : pkeeps (on_ir m).
Proof. intros p [H1 H2]. unfold on_ir. destruct (m (ir p)) as [[a x]|u]; [by split|done]. Qed.
Lemma pres_imu {A} (m : UM A) : pkeeps (on_imu m).
Proof. intros p [H1 H2]. unfold on_imu. destruct (m (imu p)) as [[a x]|u]; [by split|done]. Qed.
Lemma nodes_ok ty j : Forall (λ node, pkeeps (node ty j)) per_nodes.
Proof.
  unfold per_nodes. repeat (apply Forall_cons; split); [..|by apply Forall_nil].
  - apply pres_gpio.
  - apply pres_motors, motor_request_ok.
  - apply pres_wheels, wheel_request.
  - apply pres_ret.
  - apply pres_ret.
  - unfold module_dispatch, adc_table. cbn [table_handler]. case_bool_decide; [|apply pres_ret].
    apply pres_bind; [apply pres_lift, res_in_any_kind|intros b; apply pres_ret].
  - apply pres_imu.
  - apply pres_ir.
Qed.
Lemma answers_ok ty j nodes : Forall (λ node, pkeeps (node ty j)) nodes → ∀ r, pkeeps (first_answer nodes ty j r).
Proof.
  induction 1 as [|node nodes Hn _ IH]; intros r; cbn [first_answer]; [apply pres_ret|].
  apply pres_bind; [exact Hn|intros r']. destruct (r' =? -1); [apply IH|apply pres_ret].
Qed.
Lemma message_ok method is_request buf : pkeeps (PerServer_OnDpMessage method is_request buf).
Proof.
  unfold PerServer_OnDpMessage. destruct (_ || _); [|apply pres_ret]. destruct buf.1; [|apply pres_ret].
  apply pres_bind; [apply pres_lift, res_in_any_kind|intros t]. apply pres_bind; [apply answers_ok, nodes_ok|intros r]. apply pres_ret.
Qed.
Lemma sample_ok data : pkeeps (Adc_Sample data).
Proof.
  destruct data as [d|]; [|apply pres_ret]. apply pres_modify. intros p [[H1 H2] [H3 H4 H5]]. by split.
Qed.
Lemma imu_ok sample fresh ts : pkeeps (Imu_Run sample fresh ts).
Proof.
  unfold Imu_Run, SensorBroadcast. apply pres_bind; [apply pres_get|intros p]. destruct (imu_calibrate_flag _); [apply pres_imu|].
  apply pres_bind; [apply pres_imu|intros _]. apply pres_bind; [apply pres_get|intros q].
  apply pres_bind; [apply pres_lift, res_in_any_kind|intros b]. apply pres_modify. intros x [H1 H2]. by split.
Qed.

(** What can happen to the server: a message, the timers of its modules, and what
    its threads read *)
Inductive per_step (p : PerServer) : PerServer → Prop :=
| ps_message method is_request buf r p' : PerServer_OnDpMessage method is_request buf p = Ok (r, p') → per_step p p'
| ps_motors ultra id p' : on_motors (Motor_OnMessage ultra id) p = Ok (tt, p') → per_step p p'
| ps_wheels cl cr p' : on_wheels (Timer20ms cl cr) p = Ok (tt, p') → per_step p p'
| ps_keys data p' : on_gpio (ReadGpioIn data) p = Ok (tt, p') → per_step p p'
| ps_ir r p' : on_ir (ir_round r) p = Ok (tt, p') → per_step p p'
| ps_adc data p' : Adc_Sample data p = Ok (tt, p') → per_step p p'
| ps_imu sample fresh ts p' : Imu_Run sample fresh ts p = Ok (tt, p') → per_step p p'.
Definition started (p : PerServer) : Prop :=
  (∃ cnt, motors p = init_motors cnt) ∧ (∃ ldir rdir a b, init_wheels ldir rdir a b = Ok (wheels p)).
Definition per_reachable (p : PerServer) : Prop := ∃ p0, started p0 ∧ rtc per_step p0 p.

Lemma started_ok p : started p → per_ok p.
Proof.
  intros [[cnt Hm] (ldir & rdir & a & b & Hw)]. split.
  - rewrite Hm. split; [cbn; lia|]. by repeat constructor.
  - apply res_bind_ok in Hw as (t & _ & Hw). apply res_bind_ok in Hw as (q & _ & Hw). injection Hw as <-.
    split; [by left..|]. by repeat constructor.
Qed.
Lemma per_step_ok p p' : per_step p p' → per_ok p → per_ok p'.
Proof.
  intros [method is_request buf r p1 H|ultra id p1 H|cl cr p1 H|data p1 H|r p1 H|data p1 H|sample fresh ts p1 H] Hp;
    (eapply pres_run; [|exact Hp|exact H]).
  - apply message_ok.
  - apply pres_motors, motor_message_ok.
  - apply pres_wheels, keeps_timer.
  - apply pres_gpio.
  - apply pres_ir.
  - apply sample_ok.
  - apply imu_ok.
Qed.
(** C27. In every state the server can reach by messages, timers, keys and samples of
    any content in any order, each duty that was given to a motor is within the limits of
    that motor; a wheel may have got the duty 1 besides.  A run goes on only while
    nothing in it is undefined: what a driver gets after a request for a level that
    has no entry in the table of its motor (for the fan the last byte of a positive level
    is not 1 to 4, for the mop not 1 to 3, for a brush above 3) is not covered. *)
Theorem all_duties p fd cmd z : per_reachable p →
  (ioctl_ptr fd cmd z ∈ motor_io (motors p) → motor_duty (ioctl_ptr fd cmd z)) ∧
  (ioctl_ptr fd cmd z ∈ wheel_io (wheels p) → z = 1 ∨ MIN_PWM ≤ z ≤ MAX_OUT_PWM).
Proof.
  intros (p0 & H0 & Hr). assert (per_ok p) as [[_ Hm] [_ _ Hw]].
  { apply started_ok in H0. induction Hr as [|p1 p2 p3 Hs _ IH]; [done|]. by apply IH, (per_step_ok p1). }
  rewrite Forall_forall in Hm, Hw. split; intros Hin; [exact (Hm _ Hin)|exact (Hw _ Hin)].
Qed.
(** A message, and a run of the timer of the wheels *)
Definition message_and_tick (method : string) (j : json) (cl cr : Z) (p : PerServer) : res PerServer :=
  '(_, p) ← PerServer_OnDpMessage method true (true, j) p; '(_, p) ← on_wheels (Timer20ms cl cr) p; Ok p.
Lemma message_and_tick_reachable method j cl cr p p' : started p → message_and_tick method j cl cr p = Ok p' → per_reachable p'.
Proof.
  intros Hp H. apply res_bind_ok in H as ([r p1] & H1 & H). apply res_bind_ok in H as ([[] p2] & H2 & H). injection H as <-.
  exists p. split; [done|]. eapply rtc_l; [by eapply ps_message|]. apply rtc_once. by eapply ps_wheels.
Qed.
Definition wheel_duties_of (r : res PerServer) : list io := match r with Ok p => wheel_io (wheels p) | Ub _ => [] end.
Lemma duty_reached r i io : (∀ p, r = Ok p → per_reachable p) → wheel_duties_of r !! i = Some io → ∃ p, per_reachable p ∧ io ∈ wheel_io (wheels p).
Proof. intros Hr Hi. destruct r as [p|]; [|done]. exists p. split; [by apply Hr|by eapply list_elem_of_lookup_2]. Qed.
End reach.

(** ** A concrete run *)
#[local] Instance ref_distances : DistanceSensors := {| vl6180_calibrate _ _ := 0; vl53_calibrate _ _ := 0; vl6180_dis := 40; vl53_dis := replicate 192 100 |}.
#[local] Instance ref_reals : RealFormat := λ _, "".
(** A request to go forward *)
Definition ref_request : json := JObj [("type", JStr "set_v_w"); ("body", JObj [("brake", JInt 0); ("v", JInt 180); ("w", JInt 0)])].
Definition fresh_wheels : Wheels := match init_wheels 0 0 None None with Ok w => w | Ub _ => ref_wheels end.
Definition fresh_imu : Imu := mkImu [0; 0; 0; 0; 0; 0; 0] zero_vec zero_vec zero_fvec zero_fvec f_zero f_zero false false
  (mkKfp3 KFP_init KFP_init KFP_init) (mkKfp3 KFP_init KFP_init KFP_init) (mkMean false 0 zero_fvec) (mkMean false 0 zero_fvec) zero_fvec zero_vec [].
Definition fresh_per : PerServer := mkPer (init_motors 0) fresh_wheels (init_gpio (replicate 16 0)) (mkIr [] 0 0 [] []) init_adc fresh_imu 0 [].
Lemma fresh_started : started fresh_per.
Proof. split; [by exists 0|]. exists 0, 0, None, None. reflexivity. Qed.
Lemma reached_duty : wheel_duties_of (message_and_tick "DP_PERIPHERALS_REQUEST" ref_request 0 0 fresh_per) !! 2%nat =
  Some (ioctl_ptr lwheel_fd LEFT_WHEEL_SET_A_DUTY 14905).
Proof. vm_compute. reflexivity. Qed.
Lemma all_duties_witness : ∃ p, per_reachable p ∧ ioctl_ptr lwheel_fd LEFT_WHEEL_SET_A_DUTY 14905 ∈ wheel_io (wheels p) ∧
  (14905 = 1 ∨ MIN_PWM ≤ 14905 ≤ MAX_OUT_PWM).
Proof.
  destruct (duty_reached _ _ _ (λ p, message_and_tick_reachable "DP_PERIPHERALS_REQUEST" ref_request 0 0 fresh_per p fresh_started) reached_duty) as (p & Hp & Hin).
  exists p. split; [exact Hp|]. split; [exact Hin|]. exact (proj2 (all_duties p lwheel_fd LEFT_WHEEL_SET_A_DUTY 14905 Hp) Hin).
Defined.
