(* ===== verification/PerSystem.v ===== *)
(** * The peripherals server and its clients

    What the requests of the other processes do to the motors, and what the keys,
    the battery and the sensors become in the scheduler and the app. *)

From S2P Require Import Prelude Float Json JsonText DpMessage Mldb DbBase DbNetwork DbPeripheral DbServer DeviceStates DataModel World SensorData DbData System Behaviour SettingsPath.
From S2P Require Import MldbRef DbTheorems TimeUtil Smartp SmartpEvents Rpc.
From S2P Require Import Pid Motors Wheels Keys Sensors PerServer WheelDrive PerReach.
From Stdlib Require Import SpecFloat QArith_base.
#[local] Open Scope Z_scope.

Section system.
Context {R : RealFormat} {D : DistanceSensors} {Out : Outside}.
Implicit Types p : PerServer.
Abbreviation PS := (ST PerServer).

(** A message of another process as it arrives; the answer to a request is kept. *)
Definition arrive (e : event) : PS (option json) :=
  match e with
  | EvDp method req => PerServer_OnDpMessage method (bool_decide (method = "DP_PERIPHERALS_REQUEST")) (true, req)
  | _ => mret None
  end.
Definition with_motors (f : Motors → Motors) p : PerServer :=
  mkPer (f (motors p)) (wheels p) (gpio p) (ir p) (adc p) (imu p) (abnormal p) (per_sent p).

Lemma run_lift_bind {S A B} (r : res A) (a : A) (k : A → ST S B) s : r = Ok a → (lift r ≫= k) s = k a s.
Proof. intros ->. done. Qed.
(** ** Dispatch *)
Lemma answer_moves (node : string → json → PS Z) nodes ty j ret p p' : node ty j p = Ok (-1, p') → first_answer (node :: nodes) ty j ret p = first_answer nodes ty j (-1) p'.
Proof. intros H. cbn [first_answer]. by rewrite run_bind, H. Qed.
Lemma answer_pass (node : string → json → PS Z) nodes ty j ret p : node ty j p = Ok (-1, p) → first_answer (node :: nodes) ty j ret p = first_answer nodes ty j (-1) p.
Proof. apply answer_moves. Qed.
Lemma answer_found (node : string → json → PS Z) nodes ty j ret p r p' : node ty j p = Ok (r, p') → r ≠ -1 → first_answer (node :: nodes) ty j ret p = Ok (r, p').
Proof. intros H Hr. cbn [first_answer]. rewrite run_bind, H. by rewrite (proj2 (Z.eqb_neq _ _) Hr). Qed.
Lemma unhandled {S} (table : list (string * (json → ST S Z))) ty j s : table_handler table ty = None → module_dispatch table ty j s = Ok (-1, s).
Proof. intros H. unfold module_dispatch. by rewrite H. Qed.
Lemma handled {S} (table : list (string * (json → ST S Z))) ty body h s : table_handler table ty = Some h → body ≠ [] →
  module_dispatch table ty (request ty body) s = h (JObj body) s.
Proof. intros H Hb. unfold module_dispatch. rewrite H, run_bind, (run_lift _ (JObj body)); [done|]. by destruct body. Qed.
Lemma gpio_pass ty j p : table_handler gpio_table ty = None → on_gpio (Gpio_OnDpMessage ty j) p = Ok (-1, p).
Proof. intros H. unfold on_gpio, Gpio_OnDpMessage. rewrite unhandled by done. by destruct p. Qed.
Lemma motor_pass ty j p : table_handler motor_table ty = None → on_motors (Motor_OnDpMessage ty j) p = Ok (-1, p).
Proof. intros H. unfold on_motors, Motor_OnDpMessage. rewrite unhandled by done. by destruct p. Qed.
Lemma wheel_pass ty j p : table_handler wheel_table ty = None → on_wheels (Wheel_OnDpMessage ty j) p = Ok (-1, p).
Proof. intros H. unfold on_wheels, Wheel_OnDpMessage. rewrite unhandled by done. by destruct p. Qed.
Lemma served ty body r p p' : first_answer per_nodes ty (request ty body) (-1) p = Ok (r, p') →
  arrive (EvDp "DP_PERIPHERALS_REQUEST" (request ty body)) p = Ok (Some (per_reply ty r), p').
Proof.
  intros H. unfold arrive, PerServer_OnDpMessage. change (bool_decide ("DP_PERIPHERALS_REQUEST" = "DP_SCHEDULE_BROADCAST") || _) with true.
  cbn [fst snd]. rewrite run_bind, (run_lift _ (JStr ty)) by apply jkey_cons. cbn beta iota. cbn [asString]. by rewrite run_bind, H.
Qed.
Lemma motor_request ty h body p m : table_handler motor_table ty = Some h → h (JObj body) (motors p) = Ok (0, m) → body ≠ [] →
  arrive (EvDp "DP_PERIPHERALS_REQUEST" (request ty body)) p = Ok (Some (per_reply ty 0), with_motors (λ _, m) p).
Proof.
  intros Hf Hh Hb. apply served. unfold per_nodes. rewrite answer_pass.
  - eapply answer_found; [|done]. unfold on_motors, Motor_OnDpMessage. by rewrite (handled _ _ _ h), Hh.
  - apply gpio_pass. unfold motor_table in Hf. cbn [table_handler] in Hf. repeat (case_bool_decide; [subst; done|]). done.
Qed.

(** ** The brushes *)
Definition guarded (m : Motors) : Prop :=
  M_status (Motorfan m) ≠ 1 ∧ M_status (Motormid m) ≠ 1 ∧ M_status (MotorsideA m) ≠ 1 ∧ M_status (MotorsideB m) ≠ 1 ∧ M_status (MotorMop m) ≠ 1.
Lemma level_found k level : in_s 32 level → JV_TO_INT (JObj [(k, JInt level)]) k 0 = Ok level.
Proof. intros H. by apply JV_TO_INT_int. Qed.
Lemma mid_level_run level m : in_s 32 level → 0 < level →
  Set_Mid_Lev (JObj [("level", JInt level)]) m = Ok (0, with_mid (set_workstate (u8 level)) m).
Proof.
  intros Hl Hp. unfold Set_Mid_Lev. rewrite run_bind, (run_lift _ level) by by apply level_found. cbn beta iota.
  rewrite (proj2 (Z.eqb_neq _ 0)) by lia. by rewrite run_bind, run_when_true by by apply Z.ltb_lt.
Qed.
(** What a run of the timer does with a brush in a working state *)
Definition brush_effect (array : list Z) (state : Z) : res (list Z) :=
  if state =? 0 then Ok []
  else match array !! Z.to_nat (state - 1) with Some speed => Ok [speed * 66667 / 16] | None => Ub UB_OutOfBounds end.
Lemma brush_duty_run array state : 0 < state → Forall (λ s, 0 ≤ s < 16) array →
  brush_duty array state = match array !! Z.to_nat (state - 1) with Some speed => Ok (speed * 66667 / 16) | None => Ub UB_OutOfBounds end.
Proof.
  intros Hs Ha. unfold brush_duty, level_entry. rewrite (proj2 (Z.leb_gt _ 0)) by lia. destruct (array !! _) as [s|] eqn:Hl; [|done].
  apply (Forall_lookup_1 _ _ _ _ Ha) in Hl. cbn [mbind res_bind]. rewrite (proj2 (Z.leb_gt 66667 _)); [done|].
  Z.to_euclidean_division_equations; lia.
Qed.
Lemma speeds_small : Forall (λ s, 0 ≤ s < 16) midspeed ∧ Forall (λ s, 0 ≤ s < 16) side_speed.
Proof. split; repeat first [by apply Forall_nil|apply Forall_cons; split; [lia|]]. Qed.
Lemma mid_run m state : workstate (Motormid m) = state → 0 ≤ state → M_status (Motormid m) ≠ 1 →
  match brush_effect midspeed state with
  | Ok duties => ∃ m', Mid_Motor_Run m = Ok (tt, m') ∧ MotorsideA m' = MotorsideA m ∧ MotorsideB m' = MotorsideB m ∧
                   motor_io m' = motor_io m ++ (ioctl_ptr mid_fd PWM_MID_SET_DUTY <$> duties)
  | Ub u => Mid_Motor_Run m = Ub u
  end.
Proof.
  intros Hw Hp Hst. unfold brush_effect, Mid_Motor_Run. rewrite run_bind, run_get. cbn beta iota. rewrite Hw.
  destruct (state =? 0) eqn:H0; [exists m; split_and!; [reflexivity|done..|by rewrite app_nil_r]|]. apply Z.eqb_neq in H0.
  rewrite run_when_true by done. rewrite (proj2 (Z.eqb_neq _ _) Hst). rewrite run_bind. unfold lift. rewrite brush_duty_run by (lia || apply speeds_small).
  destruct (midspeed !! _) as [s|]; [|done]. eexists. split; [reflexivity|done].
Qed.
(** Any level another process can ask the middle brush for is accepted, but only
    levels whose last byte is at most three are carried out: the last byte 0 lets the
    brush go on as it was without control, and with any other the next run of the
    timer reads behind the table of speeds. *)
Theorem brush_levels level p : in_s 32 level → 0 < level → guarded (motors p) → ∃ p',
  arrive (EvDp "DP_PERIPHERALS_REQUEST" (request "set_mid_level" [("level", JInt level)])) p = Ok (Some (per_reply "set_mid_level" 0), p') ∧
  match brush_effect midspeed (level mod 256) with
  | Ok duties => ∃ m', Mid_Motor_Run (motors p') = Ok (tt, m') ∧ motor_io m' = motor_io (motors p) ++ (ioctl_ptr mid_fd PWM_MID_SET_DUTY <$> duties)
  | Ub u => Mid_Motor_Run (motors p') = Ub u
  end.
Proof.
  intros Hl Hp (_ & Hmid & _). eexists. split; [by apply (motor_request "set_mid_level" Set_Mid_Lev); [done|apply mid_level_run|]|].
  pose proof (mid_run (with_mid (set_workstate (u8 level)) (motors p)) (level mod 256)) as H. cbn [motors with_motors].
  destruct (brush_effect _ _) as [duties|u]; [|by apply H; [..|apply Z.mod_pos_bound|]].
  destruct H as (m' & Hr & _ & _ & Hio); [done|by apply Z.mod_pos_bound|done|]. by exists m'.
Qed.

(** ** Cleaning types *)
Lemma side_level_run level m : in_s 32 level → 0 < level →
  Set_Side_Lev (JObj [("level", JInt level)]) m = Ok (0, with_side (set_workstate (u8 level)) (set_workstate (u8 level)) m).
Proof.
  intros Hl Hp. unfold Set_Side_Lev. rewrite run_bind, (run_lift _ level) by by apply level_found. cbn beta iota.
  rewrite (proj2 (Z.eqb_neq _ 0)) by lia. by rewrite run_bind, run_when_true by by apply Z.ltb_lt.
Qed.
Definition arrive_all (es : list event) : PS unit := iterM (λ e, _ ← arrive e; mret tt) es.
Lemma arrive_next e es p r p' : arrive e p = Ok (r, p') → arrive_all (e :: es) p = arrive_all es p'.
Proof. intros H. unfold arrive_all. cbn [iterM]. by rewrite run_bind, run_bind, H. Qed.
Lemma motor_level ty h key z es p m : table_handler motor_table ty = Some h → h (JObj [(key, JInt z)]) (motors p) = Ok (0, m) →
  arrive_all (level_event ty key z :: es) p = arrive_all es (with_motors (λ _, m) p).
Proof. intros Hf Hh. eapply arrive_next. by eapply motor_request. Qed.
(** What a cleaning type does: at once, and whenever the timer runs *)
Definition cleaning_io (m : Z) : list io * list io :=
  let brushes := [ioctl_ptr mid_fd PWM_MID_SET_DUTY 37500; ioctl_ptr side_fd PWM_SIDE_SET_DUTY 25000] in
  let mop_down := [ioctl mop_fd MOP_CTL_ENABLE 0; MOP_DOWN; ioctl_ptr mop_fd MOP_CTL_SET_DUTY 42000] in
  match m with
  | 1 => ([MOP_UP; ioctl_ptr mop_fd MOP_CTL_SET_DUTY 30000], brushes)
  | 2 => (ioctl_ptr mid_fd FAN_CTL_SET_DUTY 0 :: mop_down ++ [ioctl_ptr side_fd PWM_SIDE_SET_DUTY 0], [])
  | 3 => (mop_down, brushes)
  | _ => ([], [])
  end.
(** The pump in a run of the timer: while the mop is down, on in the 15th run and off
    in the 20th, when the count starts again. *)
Definition pump_io (m cnt : Z) : list io :=
  if m =? 1 then [] else if cnt + 1 =? 15 then [PUMP_ON] else if 20 <=? cnt + 1 then [PUMP_OFF] else [].

(** A motor that is off and not stopped by its status *)
Lemma fan_off m : workstate (Motorfan m) = 0 → Fan_Motor_Run m = Ok (tt, m).
Proof. intros H. unfold Fan_Motor_Run. by rewrite run_bind, run_get, H. Qed.
Lemma mid_state m mid a : workstate (Motormid m) = mid → 0 ≤ mid → M_status (Motormid m) ≠ 1 → brush_effect midspeed mid = Ok a →
  ∃ m', Mid_Motor_Run m = Ok (tt, m') ∧ MotorsideA m' = MotorsideA m ∧ MotorsideB m' = MotorsideB m ∧ MotorMop m' = MotorMop m ∧ mop_cnt m' = mop_cnt m ∧
  motor_io m' = motor_io m ++ (ioctl_ptr mid_fd PWM_MID_SET_DUTY <$> a).
Proof.
  intros Hw Hp Hst Ha. unfold brush_effect in Ha. unfold Mid_Motor_Run. rewrite run_bind, run_get. cbn beta iota. rewrite Hw.
  destruct (mid =? 0) eqn:H0; [exists m; injection Ha as <-; split_and!; [reflexivity|done..|by rewrite app_nil_r]|]. apply Z.eqb_neq in H0.
  rewrite run_when_true by done. rewrite (proj2 (Z.eqb_neq _ _) Hst). rewrite run_bind. unfold lift. rewrite brush_duty_run by (lia || apply speeds_small).
  destruct (midspeed !! _) as [s|]; [|done]. injection Ha as <-. eexists. split; [reflexivity|done].
Qed.
Lemma side_state m side b : workstate (MotorsideA m) = side → workstate (MotorsideB m) = side → 0 ≤ side → M_status (MotorsideA m) ≠ 1 → M_status (MotorsideB m) ≠ 1 →
  brush_effect side_speed side = Ok b →
  ∃ m', Side_Motor_Run m = Ok (tt, m') ∧ MotorMop m' = MotorMop m ∧ mop_cnt m' = mop_cnt m ∧ motor_io m' = motor_io m ++ (ioctl_ptr side_fd PWM_SIDE_SET_DUTY <$> b).
Proof.
  intros HA HB Hp H1 H2 Hb. unfold brush_effect in Hb. unfold Side_Motor_Run. rewrite run_bind, run_get. cbn beta iota. rewrite HA, HB.
  destruct (side =? 0) eqn:H0; [exists m; injection Hb as <-; split_and!; [reflexivity|done|done|by rewrite app_nil_r]|]. apply Z.eqb_neq in H0.
  rewrite run_when_true by done. rewrite (proj2 (Z.eqb_neq _ _) H1), (proj2 (Z.eqb_neq _ _) H2). cbn [orb]. rewrite run_bind. unfold lift.
  rewrite brush_duty_run by (lia || apply speeds_small). destruct (side_speed !! _) as [s|]; [|done]. injection Hb as <-. eexists. split; [reflexivity|done].
Qed.
Lemma mop_state m down : workstate (MotorMop m) = (if down =? 1 then 0 else 1) → M_status (MotorMop m) ≠ 1 → in_s 32 (mop_cnt m + 1) →
  ∃ m', Mop_Motor_Run m = Ok (tt, m') ∧ motor_io m' = motor_io m ++ pump_io down (mop_cnt m).
Proof.
  intros Hw Hst Hc. unfold Mop_Motor_Run, pump_io. rewrite run_bind, run_get. cbn beta iota. rewrite Hw.
  destruct (down =? 1); [exists m; split; [done|by rewrite app_nil_r]|]. rewrite run_when_true by done. rewrite (proj2 (Z.eqb_neq _ _) Hst).
  rewrite (run_lift_bind _ (mop_cnt m + 1)) by by apply int_op_ok. rewrite run_bind, run_modify. cbn beta iota.
  destruct (mop_cnt m + 1 =? 15); [eexists; split; [reflexivity|done]|]. destruct (20 <=? mop_cnt m + 1); [eexists; split; [reflexivity|done]|].
  eexists. split; [reflexivity|]. by rewrite app_nil_r.
Qed.
(** A run of the timer with the fan off *)
Lemma timer_duties ultra down m mid side a b : workstate (Motorfan m) = 0 → workstate (Motormid m) = mid → workstate (MotorsideA m) = side → workstate (MotorsideB m) = side →
  workstate (MotorMop m) = (if down =? 1 then 0 else 1) → 0 ≤ mid → 0 ≤ side → guarded m → in_s 32 (mop_cnt m + 1) →
  brush_effect midspeed mid = Ok a → brush_effect side_speed side = Ok b →
  ∃ m', Timer50ms ultra m = Ok (tt, m') ∧
    motor_io m' = motor_io m ++ (ioctl_ptr mid_fd PWM_MID_SET_DUTY <$> a) ++ (ioctl_ptr side_fd PWM_SIDE_SET_DUTY <$> b) ++ pump_io down (mop_cnt m).
Proof.
  intros Hf H1 H2 H3 H4 H5 H6 (_ & Hmid & HsA & HsB & Hmop) Hc Ha Hb.
  destruct (mid_state m mid a H1 H5 Hmid Ha) as (m1 & Hr1 & EA & EB & EM & EC & Hio1). rewrite <-EA in H2, HsA. rewrite <-EB in H3, HsB.
  destruct (side_state m1 side b H2 H3 H6 HsA HsB Hb) as (m2 & Hr2 & EM2 & EC2 & Hio2).
  rewrite <-EM, <-EM2 in H4, Hmop. rewrite <-EC, <-EC2 in Hc. destruct (mop_state m2 down H4 Hmop Hc) as (m3 & Hr3 & Hio3).
  unfold Timer50ms, Ultra_Sample. rewrite run_bind, fan_off by done. rewrite run_bind, Hr1, run_bind, Hr2, run_bind, Hr3, run_modify.
  eexists. split; [reflexivity|]. cbn [motor_io set_rug]. by rewrite Hio3, Hio2, Hio1, EC2, EC, <-!app_assoc.
Qed.
Ltac run_timer lem mid side a b :=
  match goal with |- ∃ m', Timer50ms _ ?m = _ ∧ _ =>
    destruct (lem m mid side a b) as (m' & Hr & Hio); [assumption|reflexivity|reflexivity|reflexivity|reflexivity|lia|lia|by split_and!|assumption|reflexivity|reflexivity|];
    exists m'; split; [exact Hr|exact Hio]
  end.
(** C29. The levels the scheduler requests for each cleaning type, from its own table,
    while the fan is off, no motor is stopped by its status and the count of the pump
    is not at the end of its range.  They all have their entry in the tables of the
    motors: at once the mop is lowered for the types 2 and 3 and lifted for 1, and
    the brushes are stopped for 2; the next run of the timer gives the brushes their
    duties for 1 and 3 and runs the pump for 2 and 3.  Nothing else is given to a
    driver or switched, neither by the requests nor by the timer. *)
Theorem clean_type_motors ultra m p : 1 ≤ m ≤ 3 → guarded (motors p) → workstate (Motorfan (motors p)) = 0 → in_s 32 (mop_cnt (motors p) + 1) → ∃ p',
  arrive_all (levels m) p = Ok (tt, p') ∧ motor_io (motors p') = motor_io (motors p) ++ (cleaning_io m).1 ∧
  ∃ m', Timer50ms ultra (motors p') = Ok (tt, m') ∧
    motor_io m' = motor_io (motors p') ++ (cleaning_io m).2 ++ pump_io m (mop_cnt (motors p)).
Proof.
  intros Hm (Hfs & Hmid & Ha & Hb & Hmop) Hfan Hc. unfold levels.
  assert (m = 1 ∨ m = 2 ∨ m = 3) as [-> | [-> | ->]] by lia; cbn [type_levels];
    destruct p as [[fan [] [] [] [] pid cnt rug posted outs] ? ? ? ? ? ? ?]; cbn in Hfs, Hfan, Hc, Hmid, Ha, Hb, Hmop.
  all: eexists; split; [do 3 (erewrite motor_level; [|reflexivity|reflexivity]); reflexivity|].
  all: split; [cbn; by rewrite <-?app_assoc|].
  - run_timer (timer_duties ultra 1) 1 2 [37500] [25000].
  - run_timer (timer_duties ultra 2) 0 0 (@nil Z) (@nil Z).
  - run_timer (timer_duties ultra 3) 1 2 [37500] [25000].
Qed.

(** ** The readings *)
Definition sensor_events p : list event :=
  let i := imu p in let a := accel_act i in let q := f_to_Q in let sw k := u8 (pin (Gpio_PinD (gpio p)) k) in
  [EvFollowWall vl6180_dis;
   EvImu (q (course_angle i)) (Qmake 0 1) (Qmake 0 1) (q (f_x a)) (q (f_y a)) (q (f_z a));
   EvOdom (leftv (gODM_CAL (wheels p))) (rightv (gODM_CAL (wheels p)));
   EvImpact (sw COLLISION_DET_LA) (sw COLLISION_DET_LB) (sw COLLISION_DET_RA) (sw COLLISION_DET_RB)].
(** The numbers that are read back as integers fit them. *)
Record readings_fit p : Prop := {
  rf_dis : in_s 32 vl6180_dis; rf_left : in_s 32 (leftv (gODM_CAL (wheels p))); rf_right : in_s 32 (rightv (gODM_CAL (wheels p)));
  rf_pins : ∀ k, in_s 32 (pin (Gpio_PinD (gpio p)) k) }.
Lemma run_emit_bind {A} e (k : unit → M A) w : (emit e ≫= k) w = k tt (with_out e w).
Proof. done. Qed.
Lemma res_bind_intro {A B} (m : res A) (f : A → res B) a b : m = Ok a → f a = Ok b → m ≫= f = Ok b.
Proof. by intros ->. Qed.
(** Reading a member of a message that is there *)
Ltac reading :=
  first [reflexivity
        |eapply JV_TO_INT_find; [reflexivity|done]
        |eapply res_bind_intro; [reflexivity|]; eapply JV_TO_INT_find; [reflexivity|done]].
Lemma readings_scheduled p body w : sensor_body p = Ok body → readings_fit p →
  OnDpSensor_Message "DP_PERIPHERALS_BROADCAST" (Some (JObj [("type", JStr "sensor_data"); ("body", body)])) w =
  Ok (tt, foldl (λ w e, with_out e w) w (sensor_events p)).
Proof.
  unfold sensor_body. destruct (battery_level _) as [level|]; [|done]. intros [= <-] [Hd Hl Hr Hp].
  unfold OnDpSensor_Message, on_broadcast. rewrite run_when_true by done. rewrite (run_lift_bind _ (JStr "sensor_data")) by reflexivity.
  cbn [asString]. unfold res_periphe_sensor. rewrite run_when_true by done. unfold read_imu, read_collision.
  pose proof (Hp COLLISION_DET_LA). pose proof (Hp COLLISION_DET_LB). pose proof (Hp COLLISION_DET_RA). pose proof (Hp COLLISION_DET_RB).
  repeat first [rewrite run_emit_bind|erewrite run_lift_bind by reading]. reflexivity.
Qed.
(** C26. One broadcast of the readings becomes four calls of the scheduler, each once
    and in this order: the distance of the wall goes to the algorithm library
    (set_followwall_ir_data), the course angle and the accelerations to imu_callback
    and the speeds of the wheels to odom_callback, which are the senders of
    socket/navigate.cpp to the navigation process, and the four bumpers to the
    algorithm library (set_impact_ir_data).  The scheduler's device state and job
    stay as they are.  The network process keeps the level of the battery from the
    same broadcast. *)
Theorem sensor_path p level w n : battery_level (pw_value (VBAT_Prot (adc p))) = Ok level → in_s 32 level → readings_fit p → ∃ j p' w',
  SensorBroadcast p = Ok (tt, p') ∧ per_sent p' = per_sent p ++ [("DP_PERIPHERALS_BROADCAST", j)] ∧
  OnDpSensor_Message "DP_PERIPHERALS_BROADCAST" (Some j) w = Ok (tt, w') ∧ out w' = out w ++ sensor_events p ∧ dm w' = dm w ∧ jobs w' = jobs w ∧
  ∃ b n', jkey j "body" = Ok b ∧ Smartp.SensorData b n = Ok (-1, n') ∧ battery_level_ n' = level.
Proof.
  intros Hb Hl Hf. assert (∃ body, sensor_body p = Ok body) as [body Hbody] by (unfold sensor_body; rewrite Hb; by eexists).
  eexists _, _, _. split; [unfold SensorBroadcast; rewrite run_bind, run_get; cbn beta iota; rewrite (run_lift_bind _ body) by done; reflexivity|].
  split; [reflexivity|]. split; [by apply readings_scheduled|]. split; [cbn; by rewrite <-!app_assoc|]. split; [done|]. split; [done|].
  exists body. assert (∃ n', Smartp.SensorData body n = Ok (-1, n') ∧ battery_level_ n' = level) as (n' & Hn & Hn').
  { unfold Smartp.SensorData. rewrite (run_lift_bind _ level).
    2: { unfold sensor_body in Hbody. rewrite Hb in Hbody. injection Hbody as <-. reading. }
    rewrite run_bind, run_modify. cbn beta iota. rewrite run_bind, run_gets. cbn beta iota.
    destruct (_ && _); rewrite run_bind; [rewrite run_when_true by done|rewrite run_when_false by done]; (eexists; split; [reflexivity|done]). }
  by exists n'.
Qed.

(** ** The battery *)
Definition supply (data : list Z) : spec_float := pw_value (VBAT_Prot (ConversionToStandards data)).
Definition level_of (r : Z) : res Z := battery_level (voltage_of (lit 1275 10000) r).
Definition ordered (a b : res Z) : bool :=
  match a, b with Ok x, Ok y => (0 <=? x) && (x <=? y) && (y <=? 100) | _, _ => false end.
Lemma ordered_trans a b c : ordered a b = true → ordered b c = true → ordered a c = true.
Proof. destruct a, b, c; cbn; try done. rewrite !andb_true_iff, !Z.leb_le. lia. Qed.
Lemma levels_steps : forallb (λ r, ordered (level_of (Z.of_nat r)) (level_of (Z.of_nat (S r)))) (seq 0 1023) = true.
Proof. vm_compute. reflexivity. Qed.
Lemma levels_ordered n : ∀ r, (r + S n < 1024)%nat → ordered (level_of (Z.of_nat r)) (level_of (Z.of_nat (r + S n))) = true.
Proof.
  pose proof (proj1 (List.forallb_forall _ _) levels_steps) as H. induction n as [|n IH]; intros r Hr.
  - rewrite Nat.add_1_r. apply H, in_seq. lia.
  - eapply ordered_trans; [apply H, in_seq; lia|]. rewrite <-Nat.add_succ_comm. apply IH. lia.
Qed.
(** For all values of the converter the level of the battery is a percentage, and
    it grows with the voltage. *)
Theorem battery_readings data data' : reading data 3 < reading data' 3 < 1024 → ∃ level level',
  battery_level (supply data) = Ok level ∧ battery_level (supply data') = Ok level' ∧ 0 ≤ level ≤ level' ∧ level' ≤ 100.
Proof.
  intros Hd. assert (0 ≤ reading data 3) by (apply Z.mod_pos_bound; lia).
  unfold supply; cbn [ConversionToStandards VBAT_Prot power pw_value].
  pose proof (levels_ordered (Z.to_nat (reading data' 3 - reading data 3 - 1)) (Z.to_nat (reading data 3)) ltac:(lia)) as H1.
  rewrite Nat2Z.inj_add, Nat2Z.inj_succ, !Z2Nat.id in H1 by lia. replace (reading data 3 + Z.succ _) with (reading data' 3) in H1 by lia.
  fold (level_of (reading data 3)) (level_of (reading data' 3)). destruct (level_of _) as [x|], (level_of _) as [y|]; try done.
  unfold ordered in H1. rewrite !andb_true_iff, !Z.leb_le in H1. exists x, y. split_and!; [done|done|lia..].
Qed.

(** ** Calibration *)
Lemma add_times_run n z k : 0 ≤ k → k + Z.of_nat n ≤ 100 → -21474836 ≤ z ≤ 21474836 → add_times n z (k * z) = Ok ((k + Z.of_nat n) * z).
Proof.
  revert k. induction n as [|n IH]; intros k Hk Hn Hz; cbn [add_times]; [f_equal; lia|].
  rewrite int_op_ok by (unfold in_s; nia). cbn [mbind res_bind]. replace (k * z + z) with ((k + 1) * z) by lia. rewrite IH by lia. f_equal. lia.
Qed.
Lemma mean100_same z : -21474836 ≤ z ≤ 21474836 → mean100 z = Ok z.
Proof.
  intros Hz. pose proof (add_times_run 100 z 0) as H. rewrite Z.mul_0_l in H. unfold mean100. rewrite H by lia. cbn [mbind res_bind]. f_equal.
  rewrite Z.mul_comm. by apply Z.quot_mul.
Qed.
Lemma imu_passes ty j p : table_handler gpio_table ty = None → table_handler motor_table ty = None → table_handler wheel_table ty = None →
  ty ∉ ["board_calibrate"; "board_demarcate"; "tof_calibrate"; "tof_demarcate"; "gnddet_calibrate"] →
  first_answer per_nodes ty j (-1) p =
  first_answer [λ ty j, on_imu (Imu_OnDpMessage ty j); λ ty j, on_ir (Ir_OnDpMessage ty j)] ty j (-1) p.
Proof.
  intros Hg Hm Hw Ht. unfold per_nodes. rewrite answer_pass by by apply gpio_pass. rewrite answer_pass by by apply motor_pass.
  rewrite answer_pass by by apply wheel_pass. rewrite answer_pass by (rewrite bool_decide_false by set_solver; done).
  rewrite answer_pass by (rewrite bool_decide_false by set_solver; done). apply answer_pass, unhandled.
  unfold adc_table. cbn [table_handler]. rewrite bool_decide_false by set_solver. done.
Qed.
(** A calibration of the inertial sensor is confirmed, takes its one sample as the
    offsets (two words of it come from the sensor, the rest from an array that was
    not filled) and tells nobody: the database gets an empty request and answers
    nothing, whatever is stored in it. *)
Theorem calibration_lost {J : JsonText} {L : Mldb} {Y : YamlCpp} p sample fresh ts fuel (d : DbBase.DbServer) : (∀ i, -21450000 ≤ word (databuf sample fresh) i ≤ 21450000) → ∃ p1 p2,
  arrive (EvDp "DP_PERIPHERALS_REQUEST" (request "imu_calibrate" [])) p = Ok (Some (per_reply "imu_calibrate" 0), p1) ∧
  Imu_Run sample fresh ts p1 = Ok (tt, p2) ∧ per_sent p2 = per_sent p ∧ imu_sent (imu p2) = imu_sent (imu p) ++ [("DP_DB_REQUEST", None)] ∧
  (let w := word (databuf sample fresh) in
   gyro_offset (imu p2) = mkVec (w 0%nat) (w 1%nat) (w 2%nat) ∧ accel_offset (imu p2) = mkVec (w 3%nat) (w 4%nat) (w 5%nat - 16384)) ∧
  (∀ i, (2 ≤ i)%nat → (2 ≤ length sample)%nat → word (databuf sample fresh) i = word fresh i) ∧
  DbServer_OnDpMessage fuel "DP_DB_REQUEST" TYPE_REQUEST (false, JNull) d = Ok (None, d).
Proof.
  intros Hw. eexists _, _. split.
  { apply served. rewrite imu_passes by (try reflexivity; set_solver). eapply answer_found; [reflexivity|done]. }
  split.
  { unfold Imu_Run. rewrite run_bind, run_get. cbn beta iota. cbn [imu imu_calibrate_flag set_flag]. unfold on_imu. cbn [imu]. unfold calibrate.
    repeat (erewrite run_lift_bind by (apply mean100_same; match goal with |- context [word _ ?i] => specialize (Hw i) end; lia)).
    rewrite (run_lift_bind _ (word (databuf sample fresh) 5 - 16384)) by (apply int_op_ok; specialize (Hw 5%nat); unfold in_s; lia). reflexivity. }
  split; [done|]. split; [done|]. split; [done|]. split; [|done].
  intros i Hi Hl. unfold word, databuf. rewrite lookup_app_r by (rewrite length_take; lia). rewrite lookup_drop, length_take.
  f_equal. f_equal. lia.
Qed.

(** ** The power key *)
Definition power_off : io := run_system "echo 0 >  /sys/devices/platform/pc-switch/pc_switch/switch/do_mcu_pwr".
Definition shutdown_events (c : CLEAN_STATE) : list event :=
  [level_event "set_mop_ctrl" "ctrl" 0; voice_msg "Q022"; state_event ESTATE_SHUTDOWM c].
Lemma key_run bytes g k : (6 ≤ length bytes)%nat → bytes !! STM_KEY_HOME = Some 0 → bytes !! STM_KEY_DET = Some k → k ≠ 0 → ∃ g',
  ReadGpioIn (Some bytes) g = Ok (tt, g') ∧ gpio_sent g' = gpio_sent g ++ [("DP_PERIPHERALS_BROADCAST", trigger_data (key_code 0 k))] ∧ gpio_io g' = gpio_io g.
Proof.
  intros Hl Hh Hd Hk. unfold ReadGpioIn. rewrite run_bind, run_modify. cbn beta iota. rewrite run_bind, run_modify. cbn beta iota.
  rewrite run_bind, run_get. cbn beta iota. cbn [Gpio_PinD gpio_rddata gpio_io gpio_sent].
  assert (∀ i z, bytes !! i = Some z → (i < 16)%nat → pin (take 16 (bytes ++ drop (length bytes) (gpio_rddata g))) i = z) as Hpin.
  { intros i z Hz Hi. unfold pin. rewrite lookup_take_lt by done. by rewrite (lookup_app_l_Some _ _ _ _ Hz). }
  rewrite (Hpin _ _ Hh), (Hpin _ _ Hd) by (unfold STM_KEY_HOME, STM_KEY_DET; lia).
  rewrite run_when_true by (rewrite (proj2 (Z.eqb_neq k 0)) by done; done). eexists. split; [reflexivity|done].
Qed.
Lemma shutdown_run w : dm_wf (dm w) → ∃ w', OnDpKey_Message "DP_PERIPHERALS_BROADCAST" (Some (trigger_data 2)) w = Ok (tt, w') ∧
  out w' = out w ++ shutdown_events (getCleanState (dm w')) ∧ getMState (dm w') = ESTATE_SHUTDOWM.
Proof.
  intros Hwf. unfold OnDpKey_Message, on_broadcast. rewrite run_when_true by done. rewrite (run_lift_bind _ (JStr "trigger_data")) by reflexivity.
  cbn [asString]. unfold res_periphe_key. rewrite run_bind, run_when_true by done. rewrite (run_lift_bind _ (JObj [("buttons", JInt 2); ("voice", JInt 0)])) by reflexivity.
  rewrite (run_lift_bind _ 2) by (apply JV_TO_UINT_int; unfold in_u; lia). unfold set_key_value at 1. rewrite run_modify. cbn beta iota.
  pose proof (getMState_setMState ESTATE_SHUTDOWM (dm w) Hwf) as Hm.
  destruct w as [d j sch [kv nv] pv db o]. cbn [dm] in *.
  destruct (bool_decide (nv ≠ -1)) eqn:Hn; eexists; (split; [run_simpl; rewrite ?Hn; reflexivity|]); cbn; unfold shutdown_events, state_event;
    rewrite ?Hm; (split; [by rewrite <-?app_assoc|done]).
Qed.
Lemma switch_off_run g : SetGpioOutput "do_mcu_pwr" 0 g =
  Ok (0, mkGpio (Gpio_PinD g) (buttons g) (gpio_rddata g) (gpio_io g ++ [power_off]) (gpio_sent g)).
Proof.
  unfold SetGpioOutput. rewrite (run_lift_bind _ "echo 0 >  /sys/devices/platform/pc-switch/pc_switch/switch/do_mcu_pwr") by (vm_compute; reflexivity). done.
Qed.
Definition with_gpio (f : Gpio → Gpio) p : PerServer :=
  mkPer (motors p) (wheels p) (f (gpio p)) (ir p) (adc p) (imu p) (abnormal p) (per_sent p).
Lemma state_arrives c p : arrive (state_event ESTATE_SHUTDOWM c) p =
  Ok (None, with_gpio (λ g, mkGpio (Gpio_PinD g) (buttons g) (gpio_rddata g) (gpio_io g ++ [power_off]) (gpio_sent g)) p).
Proof.
  unfold arrive, state_event, PerServer_OnDpMessage. rewrite bool_decide_true by done. cbn [orb fst snd].
  rewrite (run_lift_bind _ (JStr "robot_device_state")) by reflexivity. cbn [asString]. rewrite run_bind. unfold per_nodes. erewrite answer_moves.
  2: { unfold on_gpio, Gpio_OnDpMessage. rewrite (handled _ _ _ robot_state) by done. unfold robot_state.
       rewrite (run_lift_bind _ 17) by (apply JV_TO_INT_int; unfold in_s; lia). change (17 =? 17) with true. cbn iota.
       rewrite run_bind, run_bind, switch_off_run. reflexivity. }
  by destruct p.
Qed.
Lemma power_events c p : ∃ p', arrive_all (shutdown_events c) p = Ok (tt, p') ∧ gpio_io (gpio p') = gpio_io (gpio p) ++ [power_off] ∧
  motor_io (motors p') = motor_io (motors p) ++ [MOP_UP; ioctl_ptr mop_fd MOP_CTL_SET_DUTY 30000].
Proof.
  eexists. split.
  - unfold shutdown_events. erewrite motor_level by reflexivity.
    erewrite arrive_next by (apply served; rewrite imu_passes by (try reflexivity; set_solver); reflexivity).
    erewrite arrive_next by apply state_arrives. reflexivity.
  - by split.
Qed.
(** C25. A long press of the power key, read from the switches, shuts the device down
    whatever it was doing: the scheduler enters the shutdown state; it requests that the
    mop is lifted, asks for the voice and broadcasts the state, and the server
    lifts the mop on the request and switches the power off on the broadcast. *)
Theorem power_key_off bytes p w : (6 ≤ length bytes)%nat → bytes !! STM_KEY_HOME = Some 0 → bytes !! STM_KEY_DET = Some 2 → dm_wf (dm w) → ∃ j es p1 w' p2,
  on_gpio (ReadGpioIn (Some bytes)) p = Ok (tt, p1) ∧ gpio_sent (gpio p1) = gpio_sent (gpio p) ++ [("DP_PERIPHERALS_BROADCAST", j)] ∧
  OnDpKey_Message "DP_PERIPHERALS_BROADCAST" (Some j) w = Ok (tt, w') ∧ getMState (dm w') = ESTATE_SHUTDOWM ∧ out w' = out w ++ es ∧
  arrive_all es p1 = Ok (tt, p2) ∧ gpio_io (gpio p2) = gpio_io (gpio p) ++ [power_off] ∧
  motor_io (motors p2) = motor_io (motors p) ++ [MOP_UP; ioctl_ptr mop_fd MOP_CTL_SET_DUTY 30000].
Proof.
  intros Hl Hh Hd Hwf. destruct (key_run bytes (gpio p) 2 Hl Hh Hd) as (g & Hg & Hs & Hio); [done|].
  destruct (shutdown_run w Hwf) as (w' & Hw & Ho & Hm). set (p1 := mkPer (motors p) (wheels p) g (ir p) (adc p) (imu p) (abnormal p) (per_sent p)).
  destruct (power_events (getCleanState (dm w')) p1) as (p2 & Hp2 & Hio2 & Hm2).
  exists (trigger_data 2), (shutdown_events (getCleanState (dm w'))), p1, w', p2. split; [unfold on_gpio; by rewrite Hg|].
  do 4 (split; [eassumption|]). split; [exact Hp2|]. split; [|exact Hm2]. by rewrite Hio2, <-Hio.
Qed.

(** ** Driving by hand *)
Definition with_wheels (f : Wheels → Wheels) p : PerServer :=
  mkPer (motors p) (f (wheels p)) (gpio p) (ir p) (adc p) (imu p) (abnormal p) (per_sent p).
Lemma wheel_served j body h p s : table_handler wheel_table "set_v_w" = Some h → body ≠ [] → j = request "set_v_w" body → h (JObj body) (wheels p) = Ok (0, s) →
  arrive (EvDp "DP_PERIPHERALS_REQUEST" j) p = Ok (Some (per_reply "set_v_w" 0), with_wheels (λ _, s) p).
Proof.
  intros Hf Hb -> Hh. apply served. unfold per_nodes. rewrite answer_pass by by apply gpio_pass. rewrite answer_pass by by apply motor_pass.
  eapply answer_found; [|done]. unfold on_wheels, Wheel_OnDpMessage. by rewrite (handled _ _ _ h), Hh.
Qed.
(** The commands of the debug client that drive the robot, with the speeds of the
    left and the right wheel *)
Definition drive_table : list (string * Z * Z) :=
  [("CommandGoForward", 32, 32); ("CommandGoBackward", -16, -16); ("CommandTurnLeft", 24, -24); ("CommandTurnRight", -24, 24)].
Definition drives p l r : Prop :=
  setspeed (LeftWheel (wheels p)) = l ∧ setspeed (RightWheel (wheels p)) = r ∧ workstate (LeftWheel (wheels p)) = 1 ∧ workstate (RightWheel (wheels p)) = 1.
Lemma driven_arrives v w l r p : driven v w l r → params (wheels p) = WheelParam_default → ∃ p',
  arrive (EvDp "DP_PERIPHERALS_REQUEST" (set_v_w v w)) p = Ok (Some (per_reply "set_v_w" 0), p') ∧ drives p' l r.
Proof.
  intros Hd Hp. destruct (Hd _ Hp) as (s & Hs & H1 & H2 & H3 & H4 & _). eexists.
  split; [by apply (wheel_served _ [("brake", JInt 0); ("v", JInt v); ("w", JInt w)] SetMoveCtrl)|done].
Qed.
Lemma command_drives i name c v w l r p : rpc_commands !! i = Some (name, c) → c = rpc_tell "DP_PERIPHERALS_REQUEST" (set_v_w v w) → driven v w l r →
  params (wheels p) = WheelParam_default → ∃ req c p',
  (name, c) ∈ rpc_commands ∧ (∀ peer, c peer = Ok (tt, (dp_request "DP_PERIPHERALS_REQUEST" req peer).2)) ∧
  arrive (EvDp "DP_PERIPHERALS_REQUEST" req) p = Ok (Some (per_reply "set_v_w" 0), p') ∧ drives p' l r.
Proof.
  intros Hi -> Hd Hp. destruct (driven_arrives v w l r p Hd Hp) as (p' & Ha & Hr). eexists _, _, p'.
  split; [by eapply list_elem_of_lookup_2|]. split; [|done]. intros peer. unfold rpc_tell, rpc_ask. rewrite run_bind.
  by destruct (dp_request _ _ peer).
Qed.
(** Each of the four commands sends one request, and with the parameters the wheels
    start with that request sets their speeds: the command to turn left makes the
    left wheel the faster one, which turns the robot to the right. *)
Theorem drive_commands name l r p : (name, l, r) ∈ drive_table → params (wheels p) = WheelParam_default → ∃ req c p',
  (name, c) ∈ rpc_commands ∧ (∀ peer, c peer = Ok (tt, (dp_request "DP_PERIPHERALS_REQUEST" req peer).2)) ∧
  arrive (EvDp "DP_PERIPHERALS_REQUEST" req) p = Ok (Some (per_reply "set_v_w" 0), p') ∧ drives p' l r.
Proof.
  intros Hin Hp. unfold drive_table in Hin. apply list_elem_of_lookup_1 in Hin as [i Hi].
  destruct i as [|[|[|[|i]]]]; [..|by destruct i]; cbn in Hi; injection Hi as <- <- <-.
  - by apply (command_drives 1 _ _ 180 0 32 32 p eq_refl eq_refl driven_forward).
  - by apply (command_drives 2 _ _ (-90) 0 (-16) (-16) p eq_refl eq_refl driven_backward).
  - by apply (command_drives 3 _ _ 0 (-100) 24 (-24) p eq_refl eq_refl driven_turn_left).
  - by apply (command_drives 4 _ _ 0 100 (-24) 24 p eq_refl eq_refl driven_turn_right).
Qed.

(** ** The mop *)
(** The mop is lowered again before the three seconds of a lift are over: the message
    of the lift still comes, and switches off a mop that is in use. *)
Theorem mop_late_disable ctrl p : 1 ≤ ctrl ≤ 3 → ∃ p' m',
  arrive_all [level_event "set_mop_ctrl" "ctrl" 0; level_event "set_mop_ctrl" "ctrl" ctrl] p = Ok (tt, p') ∧
  motor_posted (motors p') = motor_posted (motors p) ++ [(3000, MSG_MOPRISE_DELAY)] ∧ workstate (MotorMop (motors p')) = ctrl ∧
  Motor_OnMessage 0 MSG_MOPRISE_DELAY (motors p') = Ok (tt, m') ∧ workstate (MotorMop m') = ctrl ∧
  motor_io m' = motor_io (motors p') ++ [ioctl mop_fd MOP_CTL_DISABLE 0; PUMP_OFF].
Proof.
  intros Hc. assert (ctrl = 1 ∨ ctrl = 2 ∨ ctrl = 3) as [-> | [-> | ->]] by lia.
  all: eexists _, _; (split; [do 2 (erewrite motor_level; [|reflexivity|reflexivity]); reflexivity|]).
  all: split_and!; reflexivity.
Qed.
End system.

(** ** Concrete runs *)
#[local] Existing Instance ref_distances.
#[local] Existing Instance fmt0.
#[local] Existing Instance ref_outside.
Definition ref_per : PerServer := mkPer (init_motors 0) ref_wheels (init_gpio (replicate 16 0)) (mkIr [] 0 0 [] []) init_adc fresh_imu 0 [].
Lemma brush_levels_witness : ∃ p', arrive (EvDp "DP_PERIPHERALS_REQUEST" (request "set_mid_level" [("level", JInt 4)])) ref_per = Ok (Some (per_reply "set_mid_level" 0), p') ∧
  Mid_Motor_Run (motors p') = Ub UB_OutOfBounds.
Proof. apply (brush_levels 4 ref_per); [unfold in_s; lia|lia|split_and!; discriminate]. Defined.
Lemma clean_type_motors_witness : ∃ p', arrive_all (levels 3) ref_per = Ok (tt, p') ∧ motor_io (motors p') = motor_io (motors ref_per) ++ (cleaning_io 3).1 ∧
  ∃ m', Timer50ms 0 (motors p') = Ok (tt, m') ∧ motor_io m' = motor_io (motors p') ++ (cleaning_io 3).2 ++ pump_io 3 0.
Proof. apply (clean_type_motors 0 3 ref_per); [lia|split_and!; discriminate|reflexivity|unfold in_s; cbn; lia]. Defined.
Lemma sensor_path_witness : ∃ j p' w',
  SensorBroadcast ref_per = Ok (tt, p') ∧ per_sent p' = per_sent ref_per ++ [("DP_PERIPHERALS_BROADCAST", j)] ∧
  OnDpSensor_Message "DP_PERIPHERALS_BROADCAST" (Some j) (init_world 0 0 0) = Ok (tt, w') ∧ out w' = out (init_world 0 0 0) ++ sensor_events ref_per ∧
  dm w' = dm (init_world 0 0 0) ∧ jobs w' = jobs (init_world 0 0 0) ∧
  ∃ b n', jkey j "body" = Ok b ∧ Smartp.SensorData b ref_idle = Ok (-1, n') ∧ battery_level_ n' = 0.
Proof.
  apply (sensor_path ref_per 0); [vm_compute; reflexivity|unfold in_s; lia|]. split; [unfold in_s; cbn; lia..|].
  intros k. unfold pin. cbn [gpio ref_per init_gpio Gpio_PinD]. unfold Gpio_PinD_init. destruct (replicate 16 0 !! k) as [z|] eqn:Hz; [|cbn; unfold in_s; lia].
  apply lookup_replicate in Hz as [-> _]. cbn. unfold in_s. lia.
Defined.
Lemma battery_readings_witness : ∃ level level', battery_level (supply (replicate 16 600)) = Ok level ∧ battery_level (supply (replicate 16 640)) = Ok level' ∧
  0 ≤ level ≤ level' ∧ level' ≤ 100.
Proof. apply (battery_readings (replicate 16 600) (replicate 16 640)). by vm_compute. Defined.
Lemma calibration_lost_witness : ∃ p1 p2,
  arrive (EvDp "DP_PERIPHERALS_REQUEST" (request "imu_calibrate" [])) ref_per = Ok (Some (per_reply "imu_calibrate" 0), p1) ∧
  Imu_Run [12; 34; 5; 6; 7; 16400; 9] [0; 0; 77; 0; 0; 0; 0] f_zero p1 = Ok (tt, p2) ∧ gyro_offset (imu p2) = mkVec 12 34 77.
Proof.
  destruct (calibration_lost ref_per [12; 34; 5; 6; 7; 16400; 9] [0; 0; 77; 0; 0; 0; 0] f_zero 1 (ref_server [])) as (p1 & p2 & H1 & H2 & _ & _ & [H3 _] & _).
  - intros i. do 7 (destruct i as [|i]; [vm_compute; split; discriminate|]). unfold word. cbn. split; discriminate.
  - by exists p1, p2.
Defined.
Lemma power_key_off_witness : ∃ j es p1 w' p2, let p := ref_per in let w := init_world 0 0 0 in
  on_gpio (ReadGpioIn (Some [0; 0; 0; 0; 0; 2])) p = Ok (tt, p1) ∧ gpio_sent (gpio p1) = gpio_sent (gpio p) ++ [("DP_PERIPHERALS_BROADCAST", j)] ∧
  OnDpKey_Message "DP_PERIPHERALS_BROADCAST" (Some j) w = Ok (tt, w') ∧ getMState (dm w') = ESTATE_SHUTDOWM ∧ out w' = out w ++ es ∧
  arrive_all es p1 = Ok (tt, p2) ∧ gpio_io (gpio p2) = gpio_io (gpio p) ++ [power_off] ∧
  motor_io (motors p2) = motor_io (motors p) ++ [MOP_UP; ioctl_ptr mop_fd MOP_CTL_SET_DUTY 30000].
Proof. apply (power_key_off [0; 0; 0; 0; 0; 2] ref_per (init_world 0 0 0)); [cbn; lia|done|done|by_eval]. Defined.
Lemma drive_commands_witness : ∃ req c p', ("CommandTurnLeft", c) ∈ rpc_commands ∧ (∀ peer, c peer = Ok (tt, (dp_request "DP_PERIPHERALS_REQUEST" req peer).2)) ∧
  arrive (EvDp "DP_PERIPHERALS_REQUEST" req) ref_per = Ok (Some (per_reply "set_v_w" 0), p') ∧ drives p' 24 (-24).
Proof. apply (drive_commands "CommandTurnLeft" 24 (-24) ref_per); [by_eval|done]. Defined.
Lemma mop_late_disable_witness : ∃ p' m',
  arrive_all [level_event "set_mop_ctrl" "ctrl" 0; level_event "set_mop_ctrl" "ctrl" 1] ref_per = Ok (tt, p') ∧
  motor_posted (motors p') = motor_posted (motors ref_per) ++ [(3000, MSG_MOPRISE_DELAY)] ∧ workstate (MotorMop (motors p')) = 1 ∧
  Motor_OnMessage 0 MSG_MOPRISE_DELAY (motors p') = Ok (tt, m') ∧ workstate (MotorMop m') = 1 ∧
  motor_io m' = motor_io (motors p') ++ [ioctl mop_fd MOP_CTL_DISABLE 0; PUMP_OFF].
Proof. apply (mop_late_disable 1 ref_per). lia. Defined.
